(* ===== verification/_CoqProject ===== *)
-Q . S2P
Prelude.v
Domain.v
Schema.v
Database.v
Concrete.v
Users.v
Items.v
Tokens.v
Sync.v
Projects.v
Secrets.v
Files.v
Sharing.v
Mfa.v
Auth.v
Recovery.v
Account.v
Webauthn.v
AuditLog.v
System.v
History.v
RateLimit.v
ClientDb.v
ClientSync.v
Crypto.v
ShareCrypto.v
Client.v
Replica.v
Http.v
Mirror.v
Calm.v
Devices.v
Pushes.v
Vault.v
ConcreteClient.v
Backup.v
ShareClient.v
Attachments.v
Import.v
Export.v
Telemetry.v
Monitoring.v
Custody.v
Rotation.v
WebClient.v
WebShare.v
EventStream.v
Updates.v
CrashReports.v
DesktopLogin.v
