(* ===== verification/Prelude.v ===== *)
(** * vautr: a verified model of the password manager

    vautr is an end-to-end encrypted password manager.  Its server
    ([core/vautr-server]) stores opaque blobs for each account, hands out
    sessions after an OPAQUE handshake and a second factor, synchronises the
    items of an account between devices under optimistic concurrency, streams
    what happens to them, and keeps projects, groups, machine accounts, files,
    backups and recovery.  Its client ([core/vautr-app-state] over
    [vautr-db], [vautr-sync], [vautr-crypto], [vautr-keyring],
    [vautr-sharing], [vautr-files], [vautr-import], [vautr-export],
    [vautr-telemetry]) holds the keys, a local database, and the loops that
    bring it and the server together; the desktop application and the browser
    ([core/vautr-wasm]) sign in, open the vault and update themselves.  This
    library models these, with the domain types they share
    ([core/vautr-domain]), proves what makes each part correct, and runs the
    client on the server.  Paths below are relative to
    [src/core/vautr-server/src/] unless they say otherwise.

    ** How the code is modelled

    - A request handler is an action of the state-and-error monad [M] below:
      the state [Db] (Database.v) is every table of the SQLite database, the
      event channels, the process-wide [LOGIN_STATE] map and the sessions that
      passed WebAuthn; the error is the HTTP status and code of [ApiError].
      State written before an error is kept, as SQLite keeps it, except inside
      [transaction].  [call] maps a database error to a 500 as the handlers'
      [map_err] does; [ignore] is [let _ = ...].
    - A table is a finite map from its primary key; [insert_row] and friends
      give the constraint violations of the migrations as errors.  Statements
      without ORDER BY list rows in the map's order.  An SQL aggregate over no
      rows is [None].
    - An [Env] is what one request sees of the outside: the clock, the random
      draws and fresh uuids in the order the handler asks for them, the
      environment variables, the setup file.
    - [i64], [u64] and [u32] are integers in [Z] with the casts [as_i64],
      [as_u64], [as_u32] wrapping and saturating operations written out where
      the code has them.  What SQLite adds one to (item versions and feed
      positions, failure counts) is unbounded in [Z]: reaching 2^63 takes that
      many requests.
    - Third-party code is a class of parameters, and what the code relies on of
      it (that a codec decodes what it encoded, for instance) a class of laws,
      assumed only by the theorems that name it: [Ext] and [ExtLaws]
      (Database.v: base64, JSON, sha2, uuid parsing, TOTP, Ed25519, OPAQUE, QR
      and base32), [CryptoExt], [VaultExt], [ImportExt], [ExportExt],
      [ArchiveExt] and [Sqlite] (Backup.v), [OpaqueClient], [WebauthnRs],
      [Broadcast], [Dalek].
      Concrete.v, ConcreteClient.v and the witness sections instantiate them,
      so every witness is evaluated.
    - A request runs to completion before the next: handlers are interleaved
      as sequences of requests ([serve_all], [serve_tokens], [run],
      [history]), with arbitrary callers and environments in between.  What two
      handlers do when their statements interleave inside SQLite is not
      modelled, nor is a panic between two statements.

    ** The files

    - Prelude.v: the monad and its reasoning rules ([post], [steps],
      [preserves], [same]), machine integers, sorting, string functions of the
      Rust standard library, the shared tactics and hints.
    - Domain.v: [core/vautr-domain]: permission sets, roles and ranks,
      projects, offboarding requests.
    - Schema.v: the unique and foreign keys of the migrations, and which
      deletions SQLite refuses to prepare because of them.
    - Database.v: rows, tables, constraints, the audit log
      ([repository/audit.rs], recording half), the event bus
      ([handlers/events.rs]); Concrete.v: a concrete [Ext] and small states.
    - Users.v: [repository/users.rs], [repository/sessions.rs], [auth_user].
    - Items.v: [repository/items.rs] and the reaper; its abstract
      specification is Module [Register], a versioned compare-and-swap cell.
    - Tokens.v: [repository/machine_accounts.rs], [handlers/tokens.rs],
      [handlers/machine_accounts.rs], [AuthContext] and [auth_any].
    - Sync.v: [handlers/sync.rs], [handlers/items.rs].
    - Projects.v: [repository/projects.rs] (Module [ProjectRepo]) and
      [handlers/projects.rs] (Module [ProjectApi]).
    - Secrets.v, Files.v, Sharing.v, Webauthn.v, AuditLog.v: the repository and
      the handlers of the same name, a Module each ([SecretRepo], [SecretApi],
      [FileRepo], [FileApi], [ShareRepo], [ShareApi], [CredentialRepo],
      [WebauthnApi]; the audit queries need none).
    - Mfa.v: [repository/mfa.rs], [handlers/mfa.rs].
    - Auth.v: [handlers/auth.rs], [server_setup], [repository/config.rs].
    - Recovery.v: [repository/recovery.rs], [handlers/recovery.rs].
    - Account.v: [handlers/account.rs].
    - System.v: the requests of all of these as one [step] on the state, which
      tables each kind of request can write, and the theorems over any
      [history] of requests.
    - History.v: what any history keeps of the item store, the sharing tables
      and the event channels.
    - EventStream.v: [GET /events] of [handlers/events.rs], one iteration of
      its loop at a time.
    - RateLimit.v: the limiters of [middleware.rs]; its specification counts
      the admitted requests of a window in the whole history.
    - Backup.v: [core/vautr-backup] (Module [Archive]), [repository/backup.rs]
      and [handlers/backup.rs], on the files of a host.
    - Monitoring.v: [handlers/health.rs] and the alerts of
      [core/vautr-telemetry/src/monitoring.rs].

    The client, whose files model crates under [core/]:

    - ClientDb.v: [vautr-db], the tables and their transactions.
    - ClientSync.v: [vautr-sync], and the class [Transport] through which a
      client reaches its server.
    - Crypto.v: [vautr-crypto] and [vautr-keyring] over the class [CryptoExt];
      ShareCrypto.v: the envelopes of [vautr-crypto/src/sharing.rs] (Module
      [Kem]) and [vautr-sharing] (Module [Shares]).
    - Client.v, Replica.v, Vault.v: [vautr-app-state]: the client's state and
      its local operations; the sync and push loops; unlocking, rotation,
      recovery, export.  An operation is an action of [M] on a [World], the
      client with whatever state [W] is behind its transport.
    - Http.v: [Transport] implemented by requests to System.v, with a script of
      what others do and what the network loses; Mirror.v, Calm.v, Devices.v,
      Pushes.v: client and server together.
    - Custody.v: the client's operations on keys, items, sync and the queue as
      one request, and what a locked client holds; Rotation.v: rotation and
      recovery, on the client and on the server.
    - ShareClient.v: the sharing operations over the class [ShareTransport] and
      the in-memory relay that implements it.
    - Attachments.v: [vautr-files] and [file_transfer.rs] over the class
      [FileTransport], whose contract is the class [ChunkStore].
    - Import.v: [vautr-import], from the bytes of a file to the rows of the
      client; Export.v: [vautr-export] and [export_vault] (Module [Exports]).
    - Telemetry.v: the rest of [vautr-telemetry]: histograms, windows, consent,
      delivery.  CrashReports.v: the scrubbers of
      [vautr-app-state/src/hardening.rs].
    - ConcreteClient.v: one implementation of the client's parameters, with
      their laws.

    The front ends, as far as they hold logic of their own:

    - WebClient.v: [vautr-auth] (Module [AuthState]) and [vautr-wasm]: keys and
      sign-in (Module [Web]), the extension's handles (Module [Extension]);
      WebShare.v: its sharing (Module [Browser]), run on the server's routes.
    - DesktopLogin.v: registration, login and restoring a session of
      [apps/desktop]; Updates.v: its updater.

    ** What the theorems show

    - Synchronisation, on the server (C1-C5, C12).  A batch push is a fold of
      compare-and-swap over abstract registers, with exactly the reported
      results; no update is lost, whatever routes are served in between; paging
      terminates and is complete, or the cursor has expired; the feed misses no
      change; requests touch the caller's items only.
    - Synchronisation, end to end (C6, C7).  A client's syncs, over a network
      that loses messages and between other clients' requests, make its tables
      agree with the server up to its cursor; on a calm network one sync brings
      it to the end of the feed.
    - The client's keys (C8-C11).  A locked client holds no key; a rotation
      re-encrypts every live item to what it held, and the password still opens
      the vault; browser and device open each other's wrapped keys.
    - Login and second factors (C13-C18).  What every outcome of the login gate
      and of the TOTP step answers and leaves; a time step works once; the
      lockout bounds guessing at the login over any interleaving; the browser's
      exchange with the handlers ends in a session; only a ceremony of the
      account itself marks one.
    - Recovery and rotation, on the server (C19, C20).  When a recovery token is
      minted; after a rotation no item under an older key is stored.
    - Sharing, attachments and backups, end to end (C21-C24).  What is shared
      with an account or a group is what it reads; what is uploaded is what is
      downloaded; an exported backup restores.
    - Import and export (C25-C27).  An import is the pure triage of its records;
      importing again adds nothing; what comes back of a CSV export.
    - Files, groups, events, projects, tokens (C28-C32).  A file said to be
      available is all there; a removed member reads nothing; a stream shows the
      events of its account's live session, all of them to a reader who keeps
      up; offboarding revokes everything; exact token verification.
    - Counting and measuring (C33-C36).  The limiter refines the counting
      specification, its pruned map included; alerts come neither too often nor
      too late; where every measurement ends up; histograms are what they say.
    - Updates (C37, C38).  What is launched was signed; a signed release is
      installed exactly when it is newer.
    - What the code does not do (C39, C40).  A device can fall behind for good;
      accounts and projects are never deleted.
    - The files hold more theorems of the same weight beside the code they are
      about.  Exactness: [recover_complete_exact], [get_secret_value_exact],
      [require_can_manage_exact], [effective_permission_exact],
      [scrubbed_event].  Safety: [recovery_code_single_use],
      [shares_come_from_owners], [secrets_change_only_by_editors],
      [offboard_requires_outranking], [role_changes_below_caller],
      [minted_token_within_grant], [revoked_token_never_authenticates],
      [list_audit_scoped], [recovery_unreachable], [locked_client_refuses].
      Bounds: [declared_bytes_within_quota], [per_route_refines_counting].
      Round trips: [uploaded_chunk_kept], [mint_verify_roundtrip],
      [completed_recovery_reopens], [shared_item_accepted],
      [group_item_reaches_member], [desktop_account_opens].  Faults:
      [signed_in_check_unlimited], [login_handle_crosses_accounts],
      [cloned_key_still_unlocks], [shared_project_makes_admin],
      [any_group_joinable], [item_put_delete_never_succeed],
      [manager_can_demote_owner], [stranger_can_be_offboarded],
      [deleted_account_revives_tokens], [minted_token_not_a_bearer],
      [full_resync_refused], [failed_batch_keeps_earlier_writes],
      [reclaim_confirm_keeps_email], [recover_verify_enumerates],
      [devices_create_no_item] (but for a forced conflict),
      [blocked_deletes_stay], [behind_cursor_stays],
      [retried_rotation_not_stored], [second_share_spoils_first],
      [removal_cuts_off_every_member], [announced_once],
      [signed_package_installs_as_any], [nested_fields_kept],
      [desktop_never_awaits_code].

    ** Bounds and fuel

    [pull_all] (the client's paging loop, as a specification) takes fuel; C4
    shows that one page per remaining row and one more is enough.  The client's
    own loop stops after [MAX_PAGES] = 10,000 pages, as the code does; C7 shows
    that it suffices for a million changes.  The two stream loops of
    Attachments.v take one more step than the input has bytes, and every step
    consumes some; C23 holds because that is enough.  [chunks_of] (Replica.v,
    the slice method [chunks]) takes the length of the list ([chunks_concat]),
    [trim_bytes] the length of the string, [hex_rev] (Updates.v) one more than
    the bits of the number, and the closure of foreign keys in Schema.v one
    more than there are keys.  No other definition is fuelled: loops over lists
    are folds, [mapM] or structural.  Theorems about versions and sequence
    numbers assume they fit [i64] where a cast would wrap ([fits], [seqs_fit],
    [is_u64]).

    ** Not modelled

    The third-party primitives, and SQLite's concurrency; HTTP extraction,
    CORS, headers and the encoding of server-sent events; start-up, connection
    pools, the migrations runner and the generated API document, which are
    input and output; the floating-point password-entropy helper, which nothing
    calls.  The sqlx decoding of [MIN(seq)] over no rows is taken as absent.
    The row ids of WebAuthn credentials, which SQLite picks, are one more than
    the largest; [share_payloads], which the code creates on first use, is
    there from the start.  Of the client: the full-text index, the clipboard,
    the platform keystore, locked memory, the emergency-kit PDF, the project
    listings over the transport, tasks that run in parallel (a client operation
    runs to completion; other clients and the network act between its calls).
    Of the front ends: the CLI, the mobile and extension applications and
    everything of the desktop and the web but what is named above, and the
    bindings of FFI and wasm, which only convert. *)
From Stdlib Require Export ZArith Lia.
From Stdlib Require Import Strings.Byte Strings.Ascii.
From stdpp Require Export base decidable list gmap strings fin_maps sorting option.
From stdpp Require Export list list_basics list_relations list_monad list_misc.

(** ** Notations and basic types *)

Declare Scope vautr_scope.
Delimit Scope vautr_scope with vautr.

(** A value or an error, as Rust's [Result]. *)
Inductive result (E A : Type) : Type :=
| Ok (a : A)
| Err (e : E).
Arguments Ok {E A} a.
Arguments Err {E A} e.

#[export] Instance result_eq_dec E A `{EqDecision E, EqDecision A} :
  EqDecision (result E A).
Proof. solve_decision. Defined.

Definition is_ok {E A} (r : result E A) : bool :=
  match r with Ok _ => true | Err _ => false end.

Definition map_res {E F A} (f : E → F) (r : result E A) : result F A :=
  match r with Ok a => Ok a | Err e => Err (f e) end.

(** ** The state-and-error monad

    Writes made before an error stay: the server's handlers are not
    transactions. *)
Definition M (S E A : Type) : Type := S → S * result E A.

#[export] Instance M_ret S E : MRet (M S E) := λ A a s, (s, Ok a).
#[export] Instance M_bind S E : MBind (M S E) := λ A B f m s,
  match m s with
  | (s', Ok a) => f a s'
  | (s', Err e) => (s', Err e)
  end.

Definition throw {S E A} (e : E) : M S E A := λ s, (s, Err e).
Definition gets {S E A} (f : S → A) : M S E A := λ s, (s, Ok (f s)).
Definition modify {S E} (f : S → S) : M S E unit := λ s, (f s, Ok ()).

(** Rust's [.map_err(f)]. *)
Definition map_err {S E F A} (f : E → F) (m : M S E A) : M S F A := λ s,
  let '(s', r) := m s in (s', map_res f r).

(** [let _ = m.await;] : the outcome is dropped, the effects stay. *)
Definition ignore {S E F A} (m : M S F A) : M S E unit := λ s, ((m s).1, Ok ()).

(** [match m.await { Ok(..) => .., Err(..) => .. }]. *)
Definition attempt {S E F A} (m : M S F A) : M S E (result F A) := λ s,
  let '(s', r) := m s in (s', Ok r).

(** A database transaction: rolled back when a statement fails. *)
Definition transaction {S E A} (m : M S E A) : M S E A := λ s,
  match m s with
  | (s', Ok a) => (s', Ok a)
  | (_, Err e) => (s, Err e)
  end.

(** [.ok_or_else(e)?]. *)
Definition ok_or {S E A} (e : E) (o : option A) : M S E A :=
  match o with Some a => mret a | None => throw e end.

(** [e?] on a pure result. *)
Definition lift {S E A} (r : result E A) : M S E A :=
  match r with Ok a => mret a | Err e => throw e end.

(** [if c { return Err(e) }]. *)
Definition guard_err {S E} (c : bool) (e : E) : M S E unit :=
  if c then throw e else mret ().

(** ** Post-conditions *)
Section Post.
Context {S E : Type}.

(** [post m Q s]: running [m] from [s] ends in an outcome and a state that
    satisfy [Q]. *)
Definition post {A} (m : M S E A) (Q : result E A → S → Prop) (s : S) : Prop :=
  Q (m s).2 (m s).1.

Lemma bind_run {A B} (m : M S E A) (f : A → M S E B) s :
  (m ≫= f) s = match m s with
               | (s', Ok a) => f a s'
               | (s', Err e) => (s', Err e)
               end.
Proof. done. Qed.

Lemma post_bind {A B} (m : M S E A) (f : A → M S E B) Q s :
  post m (λ r s', match r with Ok a => post (f a) Q s' | Err e => Q (Err e) s' end) s →
  post (m ≫= f) Q s.
Proof. unfold post. rewrite bind_run. by destruct (m s) as [s' [a|e]]. Qed.

Lemma bind_ok {A B} (m : M S E A) (f : A → M S E B) s s' b :
  (m ≫= f) s = (s', Ok b) ↔ ∃ s1 a, m s = (s1, Ok a) ∧ f a s1 = (s', Ok b).
Proof.
  rewrite bind_run. split.
  - destruct (m s) as [s1 [a|e]]; [eauto | discriminate].
  - by intros (s1 & a & -> & H).
Qed.

Lemma bind_assoc {A B C} (m : M S E A) (f : A → M S E B) (g : B → M S E C) s :
  ((m ≫= f) ≫= g) s = (m ≫= λ a, f a ≫= g) s.
Proof. rewrite !bind_run. by destruct (m s) as [s' [a|e]]. Qed.
End Post.

(** ** Effects related to the starting state

    [steps R m]: whatever [m] returns, the state it leaves is [R]-related to
    the state it started from.  For a preorder [R] this composes over [bind],
    so a relation every table operation respects is respected by every
    handler. *)
Section Steps.
Context {S E : Type} (R : S → S → Prop).

Definition steps {A} (m : M S E A) : Prop := ∀ s, R s (m s).1.

Context `{!PreOrder R}.

Lemma steps_ret {A} (a : A) : steps (mret a).
Proof. intros s. reflexivity. Qed.

Lemma steps_throw {A} (e : E) : steps (throw (A:=A) e).
Proof. intros s. reflexivity. Qed.

Lemma steps_gets {A} (f : S → A) : steps (gets f).
Proof. intros s. reflexivity. Qed.

Lemma steps_bind {A B} (m : M S E A) (f : A → M S E B) :
  steps m → (∀ a, steps (f a)) → steps (m ≫= f).
Proof.
  intros Hm Hf s. rewrite bind_run. specialize (Hm s).
  destruct (m s) as [s' [a|e]]; simpl in *; [|done].
  etransitivity; [exact Hm | apply Hf].
Qed.

Lemma steps_ok_or {A} (e : E) (o : option A) : steps (ok_or e o).
Proof. destruct o; [apply steps_ret | apply steps_throw]. Qed.

Lemma steps_lift {A} (r : result E A) : steps (lift r).
Proof. destruct r; [apply steps_ret | apply steps_throw]. Qed.

Lemma steps_guard (c : bool) (e : E) : steps (guard_err c e).
Proof. destruct c; [apply steps_throw | apply steps_ret]. Qed.

Lemma steps_mapM_in {A B} (f : A → M S E B) (l : list A) :
  (∀ a, a ∈ l → steps (f a)) → steps (mapM f l).
Proof.
  induction l as [|a l IH]; intros Hf; simpl; [apply steps_ret|].
  apply steps_bind; [apply Hf; by left | intros b].
  apply steps_bind; [apply IH; intros a' Ha'; apply Hf; by right | intros bs; apply steps_ret].
Qed.

Lemma steps_mapM {A B} (f : A → M S E B) (l : list A) :
  (∀ a, steps (f a)) → steps (mapM f l).
Proof. intros Hf. by apply steps_mapM_in. Qed.

(** Where one element of a list was handled, and what it gave. *)
Lemma mapM_ok_in {A B} (f : A → M S E B) (l : list A) s s' bs a :
  (∀ a, steps (f a)) → mapM f l s = (s', Ok bs) → a ∈ l →
  ∃ s1 s2 b, R s s1 ∧ f a s1 = (s2, Ok b) ∧ b ∈ bs.
Proof.
  intros Hf. revert s bs. induction l as [|a0 l IH]; intros s bs Hm Ha; [by apply not_elem_of_nil in Ha|].
  apply bind_ok in Hm as (s1 & b & H0 & Hm). apply bind_ok in Hm as (s2 & bs' & Hm & [= <- <-]).
  apply elem_of_cons in Ha as [->|Ha].
  - exists s, s1, b. split; [reflexivity|]. split; [done | by left].
  - destruct (IH _ _ Hm Ha) as (s3 & s4 & b' & H1 & H2 & H3). exists s3, s4, b'.
    split; [|split; [done | by right]]. specialize (Hf a0 s). rewrite H0 in Hf. by etransitivity.
Qed.
End Steps.

(** What the loop has done so far, through its successful turns. *)
Lemma mapM_ok_done {S E A B} (f : A → M S E B) (I : list A → S → Prop) l done s s' bs :
  (∀ a done s s' b, a ∈ l → I done s → f a s = (s', Ok b) → I (done ++ [a]) s') →
  I done s → mapM f l s = (s', Ok bs) → I (done ++ l) s'.
Proof.
  revert done s bs. induction l as [|a l IH]; intros don s bs Hf HI Hm.
  - injection Hm as <- _. by rewrite app_nil_r.
  - apply bind_ok in Hm as (s1 & b & Ha & Hm). apply bind_ok in Hm as (s2 & bs' & Hm & [= <- _]).
    rewrite cons_middle, app_assoc. eapply IH; [|eapply Hf; [by left | exact HI | exact Ha] | exact Hm].
    intros a' d' t t' b' Ha'. apply Hf. by right.
Qed.

(** Invariance as a relation: composes with the lemmas above. *)
Definition preserves {S} (I : S → Prop) (s s' : S) : Prop := I s → I s'.

#[export] Instance preserves_preorder {S} (I : S → Prop) : PreOrder (preserves I).
Proof. split; unfold preserves; [intros s; auto | intros s1 s2 s3; auto]. Qed.

(** Part of the state is left alone. *)
Definition same {S A} (f : S → A) (s s' : S) : Prop := f s' = f s.

#[export] Instance same_preorder {S A} (f : S → A) : PreOrder (same f).
Proof. split; unfold same; [done | intros s1 s2 s3; congruence]. Qed.

Lemma steps_map_err {S E F A} (R : S → S → Prop) (f : E → F) (m : M S E A) :
  steps R m → steps R (map_err f m).
Proof. intros Hm s. specialize (Hm s). unfold map_err. by destruct (m s). Qed.

Lemma steps_ignore {S E F A} (R : S → S → Prop) (m : M S F A) :
  steps R m → steps (E:=E) R (ignore m).
Proof. intros Hm s. exact (Hm s). Qed.

Lemma steps_attempt {S E F A} (R : S → S → Prop) (m : M S F A) :
  steps R m → steps (E:=E) R (attempt m).
Proof. intros Hm s. specialize (Hm s). unfold attempt. by destruct (m s). Qed.

Lemma steps_transaction {S E A} (R : S → S → Prop) `{!Reflexive R} (m : M S E A) :
  steps R m → steps R (transaction m).
Proof. intros Hm s. specialize (Hm s). unfold transaction. by destruct (m s) as [? [?|?]]. Qed.

Lemma steps_modify {S E} (R : S → S → Prop) (f : S → S) :
  (∀ s, R s (f s)) → steps (E:=E) R (modify f).
Proof. intros Hf s. apply Hf. Qed.

Create HintDb steps.
#[export] Hint Resolve steps_ret steps_throw steps_gets steps_ok_or steps_guard steps_lift
  steps_map_err steps_ignore steps_attempt steps_transaction : steps.
#[export] Hint Resolve steps_bind steps_mapM : steps.

(** Walks through a handler, splitting binds and branches and closing the
    primitive steps with the [steps] database. *)
Ltac steps_tac :=
  repeat first
    [ progress intros
    | match goal with
      | |- steps _ (match ?x with _ => _ end) => destruct x
      | |- steps _ (let '(_, _) := ?x in _) => destruct x
      | |- steps _ (_ ≫= _) => apply steps_bind; [typeclasses eauto | | ]
      | |- steps _ (mapM _ _) => apply steps_mapM; [typeclasses eauto |]
      | |- steps _ (map_err _ _) => apply steps_map_err
      | |- steps _ (ignore _) => apply steps_ignore
      | |- steps _ (attempt _) => apply steps_attempt
      | |- steps _ (transaction _) => apply steps_transaction; [typeclasses eauto |]
      | |- steps _ (if ?x then _ else _) => destruct x
      end
    | solve [eauto 3 with steps typeclass_instances] ].

(** Symbolic execution of a handler from a known state. *)
Section Run.
Context {S E F A : Type} (s : S).

Lemma ret_run (a : A) : mret (M:=M S E) a s = (s, Ok a).
Proof. done. Qed.
Lemma throw_run (e : E) : throw (A:=A) e s = (s, Err e).
Proof. done. Qed.
Lemma gets_run (f : S → A) : gets (E:=E) f s = (s, Ok (f s)).
Proof. done. Qed.
Lemma modify_run (f : S → S) : modify (E:=E) f s = (f s, Ok ()).
Proof. done. Qed.
Lemma attempt_run (m : M S F A) :
  attempt (E:=E) m s = let '(s', r) := m s in (s', Ok r).
Proof. done. Qed.
Lemma transaction_run (m : M S E A) :
  transaction m s = match m s with (s', Ok a) => (s', Ok a) | (_, Err e) => (s, Err e) end.
Proof. done. Qed.
Lemma ignore_run (m : M S F A) : ignore (E:=E) m s = ((m s).1, Ok ()).
Proof. done. Qed.
Lemma map_err_run (f : F → E) (m : M S F A) :
  map_err f m s = let '(s', r) := m s in (s', map_res f r).
Proof. done. Qed.
Lemma guard_err_run (c : bool) (e : E) :
  guard_err c e s = (s, if c then Err e else Ok ()).
Proof. by destruct c. Qed.
Lemma lift_run (r : result E A) : lift r s = (s, r).
Proof. by destruct r. Qed.
Lemma ok_or_run (e : E) (o : option A) :
  ok_or e o s = (s, match o with Some a => Ok a | None => Err e end).
Proof. by destruct o. Qed.
End Run.

Arguments throw : simpl never.
Arguments gets : simpl never.
Arguments modify : simpl never.
Arguments attempt : simpl never.
Arguments transaction : simpl never.
Arguments ignore : simpl never.
Arguments map_err : simpl never.
Arguments guard_err : simpl never.
Arguments ok_or : simpl never.
Arguments lift : simpl never.

Ltac run_prim :=
  first [ rewrite bind_run | rewrite ret_run | rewrite throw_run | rewrite gets_run
        | rewrite modify_run | rewrite attempt_run | rewrite ignore_run
        | rewrite map_err_run | rewrite guard_err_run | rewrite lift_run | rewrite ok_or_run ].

(** [run_step] unfolds the statements it meets, [run_next] keeps them. *)
Ltac run_step := repeat (run_prim; simpl).
Ltac run_next := repeat (run_prim; cbv beta iota).
Ltac run_calls := repeat (progress (run_next; cbn [map_res]; cbv beta iota)).

(** Inversion of a successful run: one lemma per primitive, and a tactic that
    walks back through a handler that returned [Ok]. *)
Section Ok.
Context {S E F A : Type} (s s' : S).

Lemma ret_ok (a b : A) : mret (M:=M S E) a s = (s', Ok b) → s' = s ∧ b = a.
Proof. by intros [= -> ->]. Qed.
Lemma throw_ok (e : E) (b : A) : throw e s = (s', Ok b) → False.
Proof. done. Qed.
Lemma gets_ok (f : S → A) (b : A) : gets (E:=E) f s = (s', Ok b) → s' = s ∧ b = f s.
Proof. by intros [= -> ->]. Qed.
Lemma modify_ok (f : S → S) b : modify (E:=E) f s = (s', Ok b) → s' = f s.
Proof. by intros [= ->]. Qed.
Lemma guard_err_ok (c : bool) (e : E) b : guard_err c e s = (s', Ok b) → s' = s ∧ c = false.
Proof. destruct c; [done|]. by intros [= ->]. Qed.
Lemma ok_or_ok (e : E) (o : option A) b : ok_or e o s = (s', Ok b) → s' = s ∧ o = Some b.
Proof. destruct o; [|done]. by intros [= -> ->]. Qed.
Lemma lift_ok (r : result E A) b : lift r s = (s', Ok b) → s' = s ∧ r = Ok b.
Proof. destruct r; [|done]. by intros [= -> ->]. Qed.
Lemma map_err_ok (f : F → E) (m : M S F A) b : map_err f m s = (s', Ok b) → m s = (s', Ok b).
Proof. unfold map_err. destruct (m s) as [? [?|?]]; naive_solver. Qed.
Lemma transaction_ok (m : M S E A) b : transaction m s = (s', Ok b) → m s = (s', Ok b).
Proof. unfold transaction. by destruct (m s) as [? [?|?]]. Qed.
Lemma ignore_ok (m : M S F A) b : ignore (E:=E) m s = (s', Ok b) → s' = (m s).1.
Proof. by intros [= ->]. Qed.
End Ok.

Ltac ok_step H :=
  lazymatch type of H with
  | mbind _ _ _ = (_, Ok _) =>
      let H1 := fresh "Hr" in let H2 := fresh "Hr" in
      apply bind_ok in H as (? & ? & H1 & H2); ok_step H1; ok_step H2
  | mret _ _ = (_, Ok _) => apply ret_ok in H as [? ?]
  | throw _ _ = (_, Ok _) => exfalso; exact (throw_ok _ _ _ _ H)
  | gets _ _ = (_, Ok _) => apply gets_ok in H as [? ?]
  | modify _ _ = (_, Ok _) => apply modify_ok in H
  | guard_err _ _ _ = (_, Ok _) => apply guard_err_ok in H as [? H]
  | lift _ _ = (_, Ok _) => apply lift_ok in H as [? H]
  | ok_or _ _ _ = (_, Ok _) => apply ok_or_ok in H as [? H]
  | map_err _ _ _ = (_, Ok _) => apply map_err_ok in H; ok_step H
  | transaction _ _ = (_, Ok _) => apply transaction_ok in H; ok_step H
  | ignore _ _ = (_, Ok _) => apply ignore_ok in H
  | _ => idtac
  end.
Ltac ok_inv H := ok_step H; subst; simpl in *.

(** ** Machine integers *)
Section Ints.
Local Open Scope Z_scope.

Definition u64_max : Z := 2 ^ 64 - 1.
Definition i64_max : Z := 2 ^ 63 - 1.
Definition i64_min : Z := - 2 ^ 63.

(** [x as i64] for a 64-bit [x]. *)
Definition as_i64 (x : Z) : Z := (x + 2 ^ 63) mod 2 ^ 64 - 2 ^ 63.
(** [x as u64]. *)
Definition as_u64 (x : Z) : Z := x mod 2 ^ 64.
(** [x as u32]. *)
Definition as_u32 (x : Z) : Z := x mod 2 ^ 32.

Definition i64_saturating_sub (x y : Z) : Z := Z.max i64_min (Z.min i64_max (x - y)).
Definition i64_saturating_add (x y : Z) : Z := Z.max i64_min (Z.min i64_max (x + y)).
Definition u64_saturating_sub (x y : Z) : Z := Z.max 0 (x - y).

Definition is_u64 (x : Z) : Prop := 0 ≤ x ≤ u64_max.
Definition is_i64 (x : Z) : Prop := i64_min ≤ x ≤ i64_max.

Lemma as_i64_small x : is_i64 x → as_i64 x = x.
Proof. unfold is_i64, as_i64, i64_min, i64_max. intros. rewrite Z.mod_small; lia. Qed.

Lemma as_u64_small x : is_u64 x → as_u64 x = x.
Proof. unfold is_u64, as_u64, u64_max. intros. rewrite Z.mod_small; lia. Qed.
Lemma as_i64_as_u64 x : as_i64 (as_u64 x) = as_i64 x.
Proof. unfold as_i64, as_u64. f_equal. by rewrite Zplus_mod_idemp_l. Qed.
Lemma as_u64_as_i64 x : is_u64 x → as_u64 (as_i64 x) = x.
Proof.
  unfold is_u64, u64_max, as_u64, as_i64. intros Hx.
  destruct (decide (x < 2 ^ 63)); [rewrite (Z.mod_small (x + _)) by lia; rewrite Z.mod_small; lia|].
  rewrite (Z.mod_eq (x + _)) by lia. replace ((x + 2 ^ 63) / 2 ^ 64) with 1 by (apply Z.div_unique with (x - 2 ^ 63); lia).
  replace (x + 2 ^ 63 - 2 ^ 64 * 1 - 2 ^ 63) with (x + (-1) * 2 ^ 64) by lia.
  rewrite Z.mod_add by lia. rewrite Z.mod_small; lia.
Qed.

Lemma as_u32_small x : 0 ≤ x < 2 ^ 32 → as_u32 x = x.
Proof. unfold as_u32. intros. rewrite Z.mod_small; lia. Qed.

Lemma as_i64_of_u64 x : is_u64 x → x ≤ i64_max → as_i64 x = x.
Proof. unfold is_u64, i64_max. intros. apply as_i64_small. unfold is_i64, i64_min, i64_max. lia. Qed.
End Ints.

(** ** Lists *)

Lemma last_app_single {A} (l : list A) x :
  list.last l = Some x → ∃ l1, l = l1 ++ [x].
Proof. intros H. by apply last_Some in H. Qed.

(** [ORDER BY f ASC] and [ORDER BY f DESC]. *)
Definition by_key {A} (f : A → Z) : relation A := λ a b, (f a ≤ f b)%Z.

#[export] Instance by_key_dec {A} (f : A → Z) : RelDecision (by_key f).
Proof. intros a b. unfold by_key. apply _. Defined.
#[export] Instance by_key_total {A} (f : A → Z) : Total (by_key f).
Proof. intros a b. unfold by_key. lia. Qed.
#[export] Instance by_key_trans {A} (f : A → Z) : Transitive (by_key f).
Proof. intros a b c. unfold by_key. lia. Qed.

Definition sort_asc {A} (f : A → Z) (l : list A) : list A := merge_sort (by_key f) l.
Definition sort_desc {A} (f : A → Z) (l : list A) : list A := sort_asc (λ a, - f a)%Z l.

(** ** Rust's standard library on strings

    A string is its UTF-8 bytes. *)

(** The UTF-8 encodings of the characters with the Unicode [White_Space]
    property. *)
Definition white_space : list (list nat) :=
  [[9]; [10]; [11]; [12]; [13]; [32]; [194; 133]; [194; 160]; [225; 154; 128]] ++
  ((λ n, [226; 128; n]) <$> seq 128 11) ++
  [[226; 128; 168]; [226; 128; 169]; [226; 128; 175]; [226; 129; 159]; [227; 128; 128]].

Fixpoint strip_any (pats : list (list nat)) (l : list nat) : option (list nat) :=
  match pats with
  | [] => None
  | p :: ps => if bool_decide (take (length p) l = p) then Some (drop (length p) l)
               else strip_any ps l
  end.

(** Drops matches of the patterns from the front, as long as there are any;
    every match is one byte at least, so [length l] rounds are enough. *)
Fixpoint trim_bytes (fuel : nat) (pats : list (list nat)) (l : list nat) : list nat :=
  match fuel with
  | 0 => l
  | S k => match strip_any pats l with
           | Some l' => trim_bytes k pats l'
           | None => l
           end
  end.

(** [str::trim]. *)
Definition str_trim (s : string) : string :=
  let l := Ascii.nat_of_ascii <$> String.list_ascii_of_string s in
  let l := trim_bytes (length l) white_space l in
  let l := reverse (trim_bytes (length l) (reverse <$> white_space) (reverse l)) in
  String.string_of_list_ascii (Ascii.ascii_of_nat <$> l).

(** [str.chars().count()]: the bytes that start a character. *)
Fixpoint char_count (s : string) : nat :=
  match s with
  | EmptyString => 0
  | String c s' =>
      if bool_decide (128 ≤ Ascii.nat_of_ascii c < 192) then char_count s' else S (char_count s')
  end.

(** [str::starts_with]. *)
Definition starts_with (pre s : string) : bool := String.prefix pre s.

Fixpoint parse_digits (acc : Z) (s : string) : option Z :=
  match s with
  | EmptyString => Some acc
  | String c s' =>
      let n := Z.of_nat (Ascii.nat_of_ascii c) in
      if bool_decide (48 ≤ n ≤ 57)%Z then parse_digits (10 * acc + (n - 48))%Z s' else None
  end.

(** [str::parse::<i64>]: an optional sign and at least one digit, in range. *)
Definition parse_i64 (s : string) : option Z :=
  let digits (t : string) (sgn : Z) : option Z :=
    if bool_decide (t = EmptyString) then None else
    v ← parse_digits 0 t;
    (if bool_decide (i64_min ≤ sgn * v ≤ i64_max)%Z then Some (sgn * v)%Z else None) in
  match s with
  | String "-"%char t => digits t (-1)%Z
  | String "+"%char t => digits t 1%Z
  | _ => digits s 1%Z
  end.

(** [str::parse::<u64>]. *)
Definition parse_u64 (s : string) : option Z :=
  let digits := match s with String "+"%char t => t | _ => s end in
  if bool_decide (digits = EmptyString) then None
  else v ← parse_digits 0 digits; if bool_decide (v ≤ u64_max)%Z then Some v else None.

Example str_trim_ex : str_trim "  a b " = "a b".
Proof. vm_compute. reflexivity. Qed.
Example parse_i64_ex : parse_i64 "-90" = Some (-90)%Z ∧ parse_i64 "9x" = None.
Proof. vm_compute. split; reflexivity. Qed.
