(* ===== verification/Domain.v ===== *)
(** * Domain types: permissions, organisation roles, projects, offboarding

    Models [core/vautr-domain/src/]: [permissions.rs], [roles.rs],
    [groups.rs], [project.rs], [offboarding.rs] and, at the end, the item types
    of [lib.rs].  A [Uuid] is its canonical
    hyphenated text, the form the server stores. *)
From S2P Require Import Prelude.

Abbreviation Uuid := string.

(** ** permissions.rs *)

Inductive ProjectPermission := CanView | CanEdit | CanManage.

#[export] Instance ProjectPermission_eq_dec : EqDecision ProjectPermission.
Proof. solve_decision. Defined.

(** The derived [Ord]: the declaration order. *)
Definition perm_index (p : ProjectPermission) : nat :=
  match p with CanView => 0 | CanEdit => 1 | CanManage => 2 end.
Definition perm_leb (p q : ProjectPermission) : bool := perm_index p <=? perm_index q.
Definition perm_le (p q : ProjectPermission) : Prop := perm_index p ≤ perm_index q.

Record ProjectPermissionSet := mkPermSet {
  can_view : bool;
  can_edit : bool;
  can_manage : bool;
}.

#[export] Instance ProjectPermissionSet_eq_dec : EqDecision ProjectPermissionSet.
Proof. solve_decision. Defined.

Module PermSet.
Definition NONE := mkPermSet false false false.
Definition VIEW_ONLY := mkPermSet true false false.
Definition EDIT := mkPermSet true true false.
Definition MANAGE := mkPermSet true true true.

(** The body of the [for] loop of [from_iter]. *)
Definition add (set : ProjectPermissionSet) (p : ProjectPermission) : ProjectPermissionSet :=
  match p with
  | CanView => mkPermSet true (can_edit set) (can_manage set)
  | CanEdit => mkPermSet true true (can_manage set)
  | CanManage => mkPermSet true true true
  end.

Definition from_iter (perms : list ProjectPermission) : ProjectPermissionSet :=
  fold_left add perms NONE.

Definition grants (s : ProjectPermissionSet) (p : ProjectPermission) : bool :=
  match p with
  | CanView => can_view s
  | CanEdit => can_edit s
  | CanManage => can_manage s
  end.

Definition contains (s other : ProjectPermissionSet) : bool :=
  (negb (can_view other) || can_view s)
  && (negb (can_edit other) || can_edit s)
  && (negb (can_manage other) || can_manage s).

Definition iter (s : ProjectPermissionSet) : list ProjectPermission :=
  filter (λ p, grants s p = true) [CanView; CanEdit; CanManage].

Definition is_empty (s : ProjectPermissionSet) : bool := bool_decide (s = NONE).

(** The inclusive hierarchy the type promises: manage implies edit implies
    view. *)
Definition wf (s : ProjectPermissionSet) : Prop :=
  ∀ p q, perm_le p q → grants s q = true → grants s p = true.
End PermSet.

Inductive AccessGrantee :=
| GranteeUser (id : Uuid)
| GranteeGroup (id : Uuid).

#[export] Instance AccessGrantee_eq_dec : EqDecision AccessGrantee.
Proof. solve_decision. Defined.

Definition AccessGrantee_id (g : AccessGrantee) : Uuid :=
  match g with GranteeUser id | GranteeGroup id => id end.

(** ** roles.rs *)

Inductive OrgRole := Owner | Admin | Manager | Member.

#[export] Instance OrgRole_eq_dec : EqDecision OrgRole.
Proof. solve_decision. Defined.

Module Role.
Definition rank (r : OrgRole) : Z :=
  match r with Owner => 3 | Admin => 2 | Manager => 1 | Member => 0 end.

(** [Ord::cmp], by rank and not by declaration order. *)
Definition cmp (a b : OrgRole) : comparison := Z.compare (rank a) (rank b).

Definition can_manage_org (r : OrgRole) : bool :=
  match r with Owner | Admin => true | _ => false end.

Definition can_create_projects (r : OrgRole) : bool :=
  match r with Member => false | _ => true end.

Definition can_offboard (r : OrgRole) : bool := can_manage_org r.
End Role.

(** ** groups.rs *)

Inductive GroupMemberRole := GroupAdmin | GroupMember.

#[export] Instance GroupMemberRole_eq_dec : EqDecision GroupMemberRole.
Proof. solve_decision. Defined.

(** ** project.rs *)

Inductive ProjectKind := Personal | Shared.

#[export] Instance ProjectKind_eq_dec : EqDecision ProjectKind.
Proof. solve_decision. Defined.

Record ProjectScope := mkScope {
  scope_org_id : option Uuid;
  scope_team_id : option Uuid;
}.

Module Scope.
Definition unset : ProjectScope := mkScope None None.
Definition is_scoped (s : ProjectScope) : bool :=
  bool_decide (is_Some (scope_org_id s)) || bool_decide (is_Some (scope_team_id s)).
End Scope.

Record Project := mkProject {
  project_id : Uuid;
  project_name : string;
  project_kind : ProjectKind;
  project_scope : ProjectScope;
  project_owner_user_id : Uuid;
  project_created_at : Z;
  project_updated_at : Z;
}.

Module ProjectNew.
Definition personal (id : Uuid) (name : string) (owner : Uuid) (now_ms : Z) : Project :=
  mkProject id name Personal Scope.unset owner now_ms now_ms.

Definition shared (id : Uuid) (name : string) (org : Uuid) (team : option Uuid)
    (owner : Uuid) (now_ms : Z) : Project :=
  mkProject id name Shared (mkScope (Some org) team) owner now_ms now_ms.
End ProjectNew.

(** ** offboarding.rs *)

Record OffboardingScope := mkOffScope {
  revoke_org_role : bool;
  revoke_project_access : bool;
  revoke_group_memberships : bool;
  revoke_sessions : bool;
  revoke_sharing_keys : bool;
}.

Module OffScope.
Definition default := mkOffScope true false false false false.
Definition REVOKE_ALL := mkOffScope true true true true true.
Definition NONE := mkOffScope false false false false false.
End OffScope.

Inductive OffboardingStatus := OffPending | OffCompleted.

#[export] Instance OffboardingStatus_eq_dec : EqDecision OffboardingStatus.
Proof. solve_decision. Defined.

Record OffboardingRequest := mkOffReq {
  off_id : Uuid;
  off_user_id : Uuid;
  off_requested_by : Uuid;
  off_scope : OffboardingScope;
  off_reason : option string;
  off_status : OffboardingStatus;
  off_requested_at : Z;
  off_completed_at : option Z;
}.

Definition offboarding_revoke_all (id user_id requested_by : Uuid)
    (reason : option string) (now_ms : Z) : OffboardingRequest :=
  mkOffReq id user_id requested_by OffScope.REVOKE_ALL reason OffPending now_ms None.

(** ** Lemmas *)

Lemma perm_leb_le p q : perm_leb p q = true ↔ perm_le p q.
Proof. unfold perm_leb, perm_le. by rewrite Nat.leb_le. Qed.

#[export] Instance perm_le_preorder : PreOrder perm_le.
Proof. split; unfold perm_le; [intros ?; lia | intros ???; lia]. Qed.

Lemma perm_le_total p q : perm_le p q ∨ perm_le q p.
Proof. unfold perm_le. lia. Qed.

Lemma perm_le_antisym p q : perm_le p q → perm_le q p → p = q.
Proof. destruct p, q; unfold perm_le; simpl; intros; (done || lia). Qed.

Lemma perm_manage_top p : perm_le p CanManage.
Proof. destruct p; unfold perm_le; simpl; lia. Qed.

Section PermSetLemmas.
Lemma grants_add s p q :
  PermSet.wf s →
  PermSet.grants (PermSet.add s p) q = true ↔ PermSet.grants s q = true ∨ perm_le q p.
Proof.
  intros Hwf. destruct p, q; unfold perm_le; simpl; split; intros H;
    try (left; congruence); try (right; lia); try done; destruct H; try done; try lia.
Qed.

Lemma add_wf s p : PermSet.wf s → PermSet.wf (PermSet.add s p).
Proof.
  intros Hwf a b Hab Hb. apply grants_add in Hb; [|done]. apply grants_add; [done|].
  destruct Hb as [Hb|Hb]; [left; by eapply Hwf | right; by etransitivity].
Qed.

Lemma none_wf : PermSet.wf PermSet.NONE.
Proof. intros p q _. by destruct q. Qed.

Lemma fold_add_grants perms s q :
  PermSet.wf s →
  PermSet.grants (fold_left PermSet.add perms s) q = true ↔
  PermSet.grants s q = true ∨ ∃ p, p ∈ perms ∧ perm_le q p.
Proof.
  revert s. induction perms as [|p perms IH]; intros s Hwf; simpl.
  - set_solver.
  - rewrite IH by by apply add_wf. rewrite grants_add by done. set_solver.
Qed.

Lemma fold_add_wf perms s : PermSet.wf s → PermSet.wf (fold_left PermSet.add perms s).
Proof. revert s. induction perms as [|p perms IH]; intros; simpl; auto using add_wf. Qed.
End PermSetLemmas.

(** ** Properties *)

(** [from_iter] is the closure of the listed permissions under the
    hierarchy: its result satisfies the invariant, a permission is granted
    exactly when some listed permission is at least as strong, and listing the
    granted permissions with [iter] and rebuilding gives the same set. *)
Theorem from_iter_closure (perms : list ProjectPermission) :
  let s := PermSet.from_iter perms in
  PermSet.wf s ∧
  (∀ q, PermSet.grants s q = true ↔ ∃ p, p ∈ perms ∧ perm_le q p) ∧
  PermSet.from_iter (PermSet.iter s) = s.
Proof.
  simpl. assert (Hwf : PermSet.wf (PermSet.from_iter perms)) by apply fold_add_wf, none_wf.
  split; [done | split].
  - intros q. unfold PermSet.from_iter. rewrite fold_add_grants by apply none_wf.
    destruct q; simpl; naive_solver.
  - destruct (PermSet.from_iter perms) as [v e m].
    pose proof (Hwf CanView CanEdit ltac:(unfold perm_le; simpl; lia)) as H1.
    pose proof (Hwf CanEdit CanManage ltac:(unfold perm_le; simpl; lia)) as H2.
    simpl in H1, H2. destruct v, e, m; try done; naive_solver.
Qed.

(** ** lib.rs: the items a client works with

    Plain data.  Zeroizing wrappers are the values they hold; the redacting
    [Debug] implementations are left out. *)
Record DecryptedOverview := mkOverview {
  do_uuid : Uuid; do_title : string; do_subtitle : string; do_icon_key : string;
  do_urls : list string; do_updated_at : Z }.

Inductive TotpAlgorithm := Sha1 | Sha256 | Sha512.
Record TotpSecret := mkTotpSecret {
  ts_algorithm : TotpAlgorithm; ts_digits : Z; ts_period : Z; ts_secret_base32 : string }.

Inductive CustomFieldType := FieldText | FieldHidden.
Record CustomField := mkField {
  cf_name : string; cf_value : string; cf_field_type : CustomFieldType }.

Record DecryptedSecret := mkSecret {
  sec_password : string; sec_totp : option TotpSecret; sec_notes : string;
  sec_fields : list CustomField }.

Record ItemMetadata := mkItemMetadata {
  md_created_at : Z; md_updated_at : Z; md_trashed : bool }.

Record DomainModel := mkDomainModel {
  dm_uuid : Uuid; dm_enc_key_gen : Z; dm_overview : DecryptedOverview;
  dm_secret : DecryptedSecret; dm_metadata : ItemMetadata }.
