(* ===== verification/Schema.v ===== *)
(** * The database schema's keys

    The unique keys and foreign keys the migrations
    ([core/vautr-server/migrations/]) leave behind, and SQLite's documented
    rule for foreign keys whose parent columns are not a key ("foreign key DML
    errors"): with enforcement on, as [db.rs] sets it, a statement that deletes
    from the parent or the child table of such a foreign key, directly or by
    cascade, cannot be prepared. *)
From S2P Require Import Prelude.

Inductive OnDelete := Cascade | SetNull.
#[export] Instance OnDelete_eq_dec : EqDecision OnDelete.
Proof. solve_decision. Defined.

Record ForeignKey := mkFk {
  fk_child : string;
  fk_column : string;
  fk_parent : string;
  fk_key : string;
  fk_action : OnDelete;
}.

(** PRIMARY KEY and UNIQUE constraints. *)
Definition unique_keys : list (string * list string) := [
  ("users", ["id"]); ("users", ["email"]); ("items", ["uuid"; "user_id"]);
  ("shares", ["item_uuid"; "recipient_user_id"]); ("pending_mfa", ["token_hash"]);
  ("user_sharing_keys", ["user_id"]); ("sharing_groups", ["id"]);
  ("group_members", ["group_id"; "user_id"]);
  ("group_wrapped_sik", ["group_id"; "recipient_user_id"]);
  ("group_items", ["group_id"; "item_uuid"]); ("file_manifests", ["file_uuid"]);
  ("file_chunks", ["file_uuid"; "chunk_index"]); ("audit_log", ["id"]);
  ("webauthn_credentials", ["id"]); ("webauthn_credentials", ["user_id"; "cred_id"]);
  ("organizations", ["id"]); ("org_members", ["org_id"; "user_id"]); ("projects", ["id"]);
  ("project_items", ["item_uuid"]); ("user_groups", ["id"]);
  ("user_group_members", ["group_id"; "user_id"]); ("project_access", ["id"]);
  ("offboardings", ["id"]); ("machine_accounts", ["uuid"]); ("access_tokens", ["uuid"]);
  ("access_tokens", ["token_hash"]); ("secrets", ["uuid"]);
  ("secret_reveal_grants", ["project_id"; "user_id"]);
  ("mfa_totp_enrollments", ["enrollment_id"]); ("mfa_totp_secrets", ["user_id"]);
  ("mfa_recovery_codes", ["user_id"; "code_hash"]); ("mfa_policy", ["id"]);
  ("backup_key", ["id"]); ("backup_state", ["id"]); ("backup_runs", ["id"]);
  ("server_config", ["key"]); ("sessions", ["token_hash"]); ("recovery_challenges", ["user_id"]);
  ("totp_used_steps", ["user_id"; "time_step"]); ("chunks", ["file_uuid"; "idx"]);
  ("recovery_sessions", ["token_hash"])].

Definition foreign_keys : list ForeignKey := [
  (* 0001 *)
  mkFk "items" "user_id" "users" "id" Cascade;
  mkFk "shares" "item_uuid" "items" "uuid" Cascade;
  mkFk "shares" "owner_user_id" "users" "id" Cascade;
  mkFk "shares" "recipient_user_id" "users" "id" Cascade;
  (* 0003 *)
  mkFk "user_sharing_keys" "user_id" "users" "id" Cascade;
  mkFk "sharing_groups" "admin_user_id" "users" "id" Cascade;
  mkFk "group_members" "group_id" "sharing_groups" "id" Cascade;
  mkFk "group_members" "user_id" "users" "id" Cascade;
  mkFk "group_wrapped_sik" "group_id" "sharing_groups" "id" Cascade;
  mkFk "group_wrapped_sik" "recipient_user_id" "users" "id" Cascade;
  mkFk "group_items" "group_id" "sharing_groups" "id" Cascade;
  (* 0004 *)
  mkFk "file_manifests" "owner_user_id" "users" "id" Cascade;
  mkFk "file_chunks" "file_uuid" "file_manifests" "file_uuid" Cascade;
  (* 0005, 0006 *)
  mkFk "audit_log" "user_id" "users" "id" SetNull;
  mkFk "webauthn_credentials" "user_id" "users" "id" Cascade;
  (* 0007 *)
  mkFk "org_members" "org_id" "organizations" "id" Cascade;
  mkFk "org_members" "user_id" "users" "id" Cascade;
  mkFk "projects" "org_id" "organizations" "id" Cascade;
  mkFk "projects" "owner_user_id" "users" "id" Cascade;
  mkFk "project_items" "item_uuid" "items" "uuid" Cascade;
  mkFk "project_items" "project_id" "projects" "id" Cascade;
  mkFk "project_items" "added_by" "users" "id" Cascade;
  mkFk "user_groups" "org_id" "organizations" "id" Cascade;
  mkFk "user_group_members" "group_id" "user_groups" "id" Cascade;
  mkFk "user_group_members" "user_id" "users" "id" Cascade;
  mkFk "project_access" "project_id" "projects" "id" Cascade;
  mkFk "project_access" "grantee_user_id" "users" "id" Cascade;
  mkFk "project_access" "grantee_group_id" "user_groups" "id" Cascade;
  mkFk "project_access" "granted_by" "users" "id" Cascade;
  mkFk "offboardings" "user_id" "users" "id" Cascade;
  mkFk "offboardings" "requested_by" "users" "id" Cascade;
  (* 0008, 0009 *)
  mkFk "machine_accounts" "owner_user_id" "users" "id" Cascade;
  mkFk "access_tokens" "owner_user_id" "users" "id" Cascade;
  mkFk "access_tokens" "machine_account_uuid" "machine_accounts" "uuid" SetNull;
  mkFk "secrets" "project_id" "projects" "id" Cascade;
  mkFk "secrets" "created_by" "users" "id" Cascade;
  mkFk "secret_reveal_grants" "project_id" "projects" "id" Cascade;
  mkFk "secret_reveal_grants" "user_id" "users" "id" Cascade;
  mkFk "secret_reveal_grants" "granted_by" "users" "id" Cascade;
  (* 0010, 0015, 0017, 0019, 0020, 0022 *)
  mkFk "mfa_totp_enrollments" "user_id" "users" "id" Cascade;
  mkFk "mfa_totp_secrets" "user_id" "users" "id" Cascade;
  mkFk "mfa_recovery_codes" "user_id" "users" "id" Cascade;
  mkFk "pending_mfa" "user_id" "users" "id" Cascade;
  mkFk "sessions" "user_id" "users" "id" Cascade;
  mkFk "recovery_challenges" "user_id" "users" "id" Cascade;
  mkFk "totp_used_steps" "user_id" "users" "id" Cascade;
  mkFk "recovery_sessions" "user_id" "users" "id" Cascade].

(** The parent column is not a key of the parent table. *)
Definition mismatched (k : ForeignKey) : bool :=
  negb (existsb (λ u : string * list string,
          bool_decide (u.1 = fk_parent k) && bool_decide (u.2 = [fk_key k])) unique_keys).

(** The tables a deletion from [t] deletes from by cascade, one step. *)
Definition cascades (t : string) : list string :=
  fk_child <$> filter (λ k, fk_parent k = t ∧ fk_action k = Cascade) foreign_keys.

(** The tables a deletion from [todo] deletes from; [n] bounds the tables
    still to be found. *)
Fixpoint reached (n : nat) (todo seen : list string) : list string :=
  match n, todo with
  | S n, t :: todo =>
      if bool_decide (t ∈ seen) then reached n todo seen
      else reached n (cascades t ++ todo) (t :: seen)
  | _, _ => seen
  end.

(** Every table is entered once, every foreign key followed once. *)
Definition reach_fuel : nat := S (length foreign_keys).

Definition touched (t : string) : list string := reached reach_fuel [t] [].

(** [DELETE FROM t] cannot be prepared. *)
Definition delete_refused (t : string) : bool :=
  existsb (λ s, existsb (λ k, mismatched k &&
                   (bool_decide (fk_parent k = s) || bool_decide (fk_child k = s))) foreign_keys)
    (touched t).

#[global] Arguments delete_refused : simpl never.

(** [touched] is closed: the fuel is enough for every table. *)
Lemma touched_closed :
  Forall (λ u : string * list string,
    u.1 ∈ touched u.1 ∧ ∀ s c, s ∈ touched u.1 → c ∈ cascades s → c ∈ touched u.1) unique_keys.
Proof.
  assert (forallb (λ u : string * list string,
            bool_decide (u.1 ∈ touched u.1) &&
            forallb (λ s, forallb (λ c, bool_decide (c ∈ touched u.1)) (cascades s)) (touched u.1))
          unique_keys = true) as H by (vm_compute; reflexivity).
  rewrite forallb_forall in H. apply Forall_forall. intros u Hu%list_elem_of_In.
  specialize (H u Hu). apply andb_true_iff in H as [H1 H2]. apply bool_decide_eq_true in H1.
  split; [done|]. intros s c Hs Hc. rewrite forallb_forall in H2.
  specialize (H2 s (proj1 (list_elem_of_In _ _) Hs)). rewrite forallb_forall in H2.
  by specialize (H2 c (proj1 (list_elem_of_In _ _) Hc)); apply bool_decide_eq_true in H2.
Qed.

(** The tables nothing can be deleted from. *)
Lemma refused_tables :
  filter (λ t, delete_refused t = true) (remove_dups unique_keys.*1) =
  ["users"; "items"; "shares"; "organizations"; "projects"; "project_items"].
Proof. vm_compute. reflexivity. Qed.
