(* ===== verification/Database.v ===== *)
(** * The server's state: tables, event channels and login handshakes

    Models the rows of [core/vautr-server/src/repository/] (with the columns
    the migrations add), the per-user event bus of [handlers/events.rs],
    the process-wide [LOGIN_STATE] of [handlers/auth.rs] and the set of
    sessions that passed WebAuthn ([handlers/webauthn.rs]).  A table is a finite
    map from its primary key to its row; a statement is an action of the
    state-and-error monad whose errors are the constraint violations SQLite
    reports.  Also holds [Ext], the external code the server calls. *)
From S2P Require Import Prelude Domain Schema.
From Stdlib Require Import Strings.Byte.

Abbreviation blob := (list byte).

#[export] Instance byte_eq_dec : EqDecision byte := Byte.byte_eq_dec.

(** ** MFA policy (repository/mfa.rs) *)

Record MasterPasswordPolicy := mkMpPolicy {
  min_length : Z;
  require_upper : bool;
  require_lower : bool;
  require_digit : bool;
  require_special : bool;
  min_entropy_bits : Z;
}.

Record MfaPolicy := mkMfaPolicy {
  mp_required : bool;
  mp_allowed_methods : list string;
  mp_master_password_policy : MasterPasswordPolicy;
}.

(** ** External code

    Crypto, base64, JSON, UUID parsing and one-time codes are third-party
    crates: the model is parametric in them. *)
Class Ext := {
  sha256 : blob → blob;                            (* sha2 *)
  b64_encode : blob → string;                      (* base64, STANDARD *)
  b64_decode : string → option blob;
  b64url_encode : blob → string;                   (* base64, URL_SAFE_NO_PAD *)
  json_of_strings : list string → option string;   (* serde_json *)
  strings_of_json : string → option (list string);
  uuid_parse : string → option Uuid;               (* uuid, canonical text *)
  totp_new : blob → bool;                          (* totp_rs::TOTP::new accepts the secret *)
  totp_generate : blob → Z → string;               (* the code of a secret at a unix time *)
  ed25519_key_ok : blob → bool;                    (* VerifyingKey::from_bytes *)
  ed25519_verify : blob → blob → blob → bool;      (* key, message, signature *)
  totp_check : blob → string → Z → bool;           (* TOTP::check, skew 1, at a unix time *)
  json_policy_change : MfaPolicy → MfaPolicy → string;
  base32_encode : blob → string;                   (* base32, RFC 4648, no padding *)
  qr_svg : blob → option blob;                     (* qrcode: the SVG of the bytes *)
  opaque_new_setup : blob → blob;                  (* opaque-ke; the first argument is the RNG *)
  opaque_setup_ok : blob → bool;
  opaque_register_start : blob → blob → blob → option blob;
  opaque_register_finish : blob → option blob;
  opaque_login_start : blob → blob → option blob → blob → blob → option (blob * blob);
  opaque_login_finish : blob → blob → option blob; (* server state, upload -> session key *)
}.

(** Documented behaviour of the encodings. *)
Class ExtLaws `{Ext} : Prop := {
  b64_roundtrip : ∀ b, b64_decode (b64_encode b) = Some b;
  json_roundtrip : ∀ l, ∃ j, json_of_strings l = Some j ∧ strings_of_json j = Some l;
}.

Definition nil_uuid : Uuid := "00000000-0000-0000-0000-000000000000".

(** [format!("{:02x}")] over the bytes of a digest. *)
Definition hex_digit (n : N) : Ascii.ascii :=
  if (n <? 10)%N then Ascii.ascii_of_N (48 + n) else Ascii.ascii_of_N (87 + n).
Fixpoint hex_of_bytes (b : blob) : string :=
  match b with
  | [] => EmptyString
  | x :: b' => String (hex_digit (Byte.to_N x / 16))
                 (String (hex_digit (Byte.to_N x mod 16)) (hex_of_bytes b'))
  end.

(** ** Errors *)

Inductive DbError :=
| UniqueViolation
| ForeignKeyViolation
| ForeignKeyMismatch
| CheckViolation
| IntegerOverflow
| Protocol.

(** The status and the machine-readable code of the JSON envelope; the
    human-readable message is not modelled. *)
Record ApiError := mkApiError { api_status : Z; api_code : string }.

#[export] Instance DbError_eq_dec : EqDecision DbError.
Proof. solve_decision. Defined.
#[export] Instance ApiError_eq_dec : EqDecision ApiError.
Proof. solve_decision. Defined.

Module Api.
Definition bad_request (code : string) : ApiError := mkApiError 400 code.
Definition unauthorized : ApiError := mkApiError 401 "unauthorized".
Definition internal : ApiError := mkApiError 500 "internal_server_error".
End Api.

(** ** Rows *)

Record UserRow := mkUser {
  u_id : string;
  u_email : string;
  u_kdf_salt : blob;
  u_opaque_record : blob;
  u_svk_ciphertext_blob : blob;
  u_svk_ciphertext_blob_rk : blob;
  u_min_enc_key_gen : Z;
  u_created_at : Z;
  u_updated_at : Z;
  u_rk_public_key : option blob;
  u_reclaim_token : option string;
  u_suspended_until : option Z;
  u_totp_fail_count : Z;
  u_totp_lock_until : Z;
}.

Record ItemRow := mkItem {
  i_uuid : string;
  i_user_id : string;
  i_version : Z;
  i_enc_key_gen : Z;
  i_deleted_date : option Z;
  i_payload : option blob;
  i_updated_at : Z;
  i_seq : option Z;
}.

Record SessionRow := mkSession {
  s_user_id : string;
  s_expires_at : Z;
  s_created_at : Z;
}.

Record MachineAccountRow := mkMachine {
  ma_uuid : string;
  ma_name : string;
  ma_description : option string;
  ma_owner_user_id : string;
  ma_project_uuid : option string;
  ma_status : string;
  ma_scopes : string;
  ma_expires_at : option Z;
  ma_last_used_at : option Z;
  ma_created_at : Z;
}.

Record AccessTokenRow := mkToken {
  at_uuid : string;
  at_name : string;
  at_owner_user_id : string;
  at_machine_account_uuid : option string;
  at_project_uuid : option string;
  at_scopes : string;
  at_token_hash : string;
  at_prefix : string;
  at_expires_at : option Z;
  at_revoked_at : option Z;
  at_last_used_at : option Z;
  at_created_at : Z;
}.

Record OrganizationRow := mkOrg { org_name : string; org_created_at : Z }.
Record OrgMemberRow := mkOrgMember { om_role : string; om_created_at : Z }.

Record ProjectRow := mkProjectRow {
  p_id : string;
  p_name : string;
  p_description : option string;
  p_kind : string;
  p_org_id : option string;
  p_team_id : option string;
  p_owner_user_id : string;
  p_created_at : Z;
  p_updated_at : Z;
}.

Record AccessRow := mkAccess {
  pa_id : string;
  pa_project_id : string;
  pa_grantee_user_id : option string;
  pa_grantee_group_id : option string;
  pa_permission : string;
  pa_hide_password : Z;
  pa_granted_by : string;
  pa_granted_at : Z;
}.

Record UserGroupRow := mkGroup {
  g_id : string;
  g_name : string;
  g_description : option string;
  g_org_id : option string;
  g_created_at : Z;
  g_updated_at : Z;
}.

Record GroupMemberRow := mkGroupMember {
  gm_group_id : string;
  gm_user_id : string;
  gm_role : string;
  gm_created_at : Z;
}.

Record OffboardingRow := mkOffboardingRow {
  ob_id : string;
  ob_user_id : string;
  ob_requested_by : string;
  ob_reason : option string;
  ob_status : string;
  ob_requested_at : Z;
  ob_completed_at : option Z;
}.

Record SharingKeyRow := mkSharingKey { sk_public_key : blob; sk_uploaded_at : Z }.

Record WebauthnCredentialRow := mkCredential {
  wc_user_id : string;
  wc_cred_id : string;
  wc_label : string;
  wc_serialized : blob;
  wc_counter : Z;
  wc_created_at : Z;
  wc_updated_at : Z;
}.

Record TotpEnrollmentRow := mkEnrollment {
  te_user_id : string;
  te_secret : blob;
  te_secret_base32 : string;
  te_created_at : Z;
  te_expires_at : Z;
}.

Record TotpSecretRow := mkTotpSecret {
  ts_secret : blob;
  ts_secret_base32 : string;
  ts_created_at : Z;
  ts_updated_at : Z;
}.

Record RecoveryCodeDbRow := mkRecoveryCode { rc_used : bool; rc_created_at : Z }.

Record PendingMfaRow := mkPending {
  pm_user_id : string;
  pm_created_at : Z;
  pm_expires_at : Z;
  pm_attempts : Z;
}.

(** The single row of [mfa_policy] (CHECK (id = 1)); booleans are integers. *)
Record MfaPolicyRow := mkMfaPolicyRow {
  mr_required : Z;
  mr_allowed_methods : string;
  mr_min_length : Z;
  mr_require_upper : Z;
  mr_require_lower : Z;
  mr_require_digit : Z;
  mr_require_special : Z;
  mr_min_entropy_bits : Z;
  mr_updated_at : Z;
}.

Record RecoverySessionRow := mkRecoverySession {
  rs_user_id : string;
  rs_expires_at : Z;
  rs_created_at : Z;
  rs_one_time_use : Z;
}.

Record RecoveryChallengeRow := mkChallenge {
  ch_nonce : blob;
  ch_expires_at : Z;
  ch_created_at : Z;
}.

Record AuditRow := mkAudit {
  au_user_id : option string;
  au_action : string;
  au_actor : option string;
  au_detail : option string;
  au_created_at : Z;
  au_event_type : option string;
  au_resource_type : option string;
  au_resource_id : option string;
  au_ip_address : option string;
}.

Record SecretRow := mkSecretRow {
  se_uuid : string;
  se_project_id : string;
  se_key : string;
  se_value_ciphertext : blob;
  se_version : Z;
  se_created_by : string;
  se_last_accessed_at : option Z;
  se_created_at : Z;
  se_updated_at : Z;
}.

Record RevealGrantRow := mkReveal { rg_granted_by : string; rg_created_at : Z }.

Record ShareRow := mkShare {
  sh_item_uuid : string;
  sh_owner_user_id : string;
  sh_recipient_user_id : string;
  sh_wrapped_sik : blob;
  sh_ephemeral_public_key : blob;
  sh_created_at : Z;
}.

Record SharingGroupRow := mkSharingGroup {
  sg_id : string;
  sg_name : string;
  sg_admin_user_id : string;
  sg_created_at : Z;
}.

Record GroupWrappedRow := mkWrapped {
  gw_group_id : string;
  gw_recipient_user_id : string;
  gw_wrapped_sik : blob;
  gw_ephemeral_public_key : blob;
}.

Record FileManifestRow := mkManifest {
  fm_file_uuid : string;
  fm_owner_user_id : string;
  fm_total_size : Z;
  fm_chunk_size : Z;
  fm_total_chunks : Z;
  fm_enc_key_gen : Z;
  fm_content_type : string;
  fm_status : string;
  fm_last_modified : Z;
  fm_created_at : Z;
}.

Inductive VaultEvent :=
| ItemRecovered (user_id : string) (uuid : Uuid)
| ItemPermanentlyDeleted (user_id : string) (uuid : Uuid).

Definition event_user (e : VaultEvent) : string :=
  match e with ItemRecovered u _ | ItemPermanentlyDeleted u _ => u end.

(** ** The state *)

Record Db := mkDb {
  users : gmap string UserRow;
  items : gmap (string * string) ItemRow;
  sessions : gmap string SessionRow;
  machine_accounts : gmap string MachineAccountRow;
  access_tokens : gmap string AccessTokenRow;
  organizations : gmap string OrganizationRow;
  org_members : gmap (string * string) OrgMemberRow;
  projects : gmap string ProjectRow;
  project_access : gmap string AccessRow;
  user_groups : gmap string UserGroupRow;
  user_group_members : gmap (string * string) GroupMemberRow;
  offboardings : gmap string OffboardingRow;
  user_sharing_keys : gmap string SharingKeyRow;
  webauthn_credentials : gmap Z WebauthnCredentialRow;
  mfa_totp_enrollments : gmap string TotpEnrollmentRow;
  mfa_totp_secrets : gmap string TotpSecretRow;
  mfa_recovery_codes : gmap (string * string) RecoveryCodeDbRow;
  totp_used_steps : gmap (string * Z) Z;
  pending_mfa : gmap string PendingMfaRow;
  mfa_policy : option MfaPolicyRow;
  recovery_sessions : gmap string RecoverySessionRow;
  recovery_challenges : gmap string RecoveryChallengeRow;
  server_config : gmap string blob;
  audit_log : list AuditRow;
  event_channels : gmap string (list VaultEvent);
  login_state : gmap string (blob * Z);
  webauthn_verified : gset string;
  webauthn_regs : gmap string (string * string * blob);
  webauthn_auths : gmap string (string * blob);
  secrets : gmap string SecretRow;
  secret_reveal_grants : gmap (string * string) RevealGrantRow;
  shares : gmap (string * string) ShareRow;
  share_payloads : gmap string (blob * Z);
  sharing_groups : gmap string SharingGroupRow;
  group_members : gmap (string * string) Z;
  group_wrapped_sik : gmap (string * string) GroupWrappedRow;
  group_items : gmap (string * string) (blob * Z);
  project_items : gmap string string;
  file_manifests : gmap string FileManifestRow;
  file_chunks : gmap (string * Z) string;
  chunks : gmap (string * Z) blob;
}.

(** One setter per field: [with_f g d] replaces [f] of [d] by its image
    under [g]. *)
Definition with_users (g : gmap string UserRow → gmap string UserRow) (d : Db) : Db :=
  mkDb (g (users d)) (items d) (sessions d) (machine_accounts d) (access_tokens d) (organizations d) (org_members d) (projects d) (project_access d) (user_groups d) (user_group_members d) (offboardings d) (user_sharing_keys d) (webauthn_credentials d) (mfa_totp_enrollments d) (mfa_totp_secrets d) (mfa_recovery_codes d) (totp_used_steps d) (pending_mfa d) (mfa_policy d) (recovery_sessions d) (recovery_challenges d) (server_config d) (audit_log d) (event_channels d) (login_state d) (webauthn_verified d) (webauthn_regs d) (webauthn_auths d) (secrets d) (secret_reveal_grants d) (shares d) (share_payloads d) (sharing_groups d) (group_members d) (group_wrapped_sik d) (group_items d) (project_items d) (file_manifests d) (file_chunks d) (chunks d).
Definition with_items (g : gmap (string * string) ItemRow → gmap (string * string) ItemRow) (d : Db) : Db :=
  mkDb (users d) (g (items d)) (sessions d) (machine_accounts d) (access_tokens d) (organizations d) (org_members d) (projects d) (project_access d) (user_groups d) (user_group_members d) (offboardings d) (user_sharing_keys d) (webauthn_credentials d) (mfa_totp_enrollments d) (mfa_totp_secrets d) (mfa_recovery_codes d) (totp_used_steps d) (pending_mfa d) (mfa_policy d) (recovery_sessions d) (recovery_challenges d) (server_config d) (audit_log d) (event_channels d) (login_state d) (webauthn_verified d) (webauthn_regs d) (webauthn_auths d) (secrets d) (secret_reveal_grants d) (shares d) (share_payloads d) (sharing_groups d) (group_members d) (group_wrapped_sik d) (group_items d) (project_items d) (file_manifests d) (file_chunks d) (chunks d).
Definition with_sessions (g : gmap string SessionRow → gmap string SessionRow) (d : Db) : Db :=
  mkDb (users d) (items d) (g (sessions d)) (machine_accounts d) (access_tokens d) (organizations d) (org_members d) (projects d) (project_access d) (user_groups d) (user_group_members d) (offboardings d) (user_sharing_keys d) (webauthn_credentials d) (mfa_totp_enrollments d) (mfa_totp_secrets d) (mfa_recovery_codes d) (totp_used_steps d) (pending_mfa d) (mfa_policy d) (recovery_sessions d) (recovery_challenges d) (server_config d) (audit_log d) (event_channels d) (login_state d) (webauthn_verified d) (webauthn_regs d) (webauthn_auths d) (secrets d) (secret_reveal_grants d) (shares d) (share_payloads d) (sharing_groups d) (group_members d) (group_wrapped_sik d) (group_items d) (project_items d) (file_manifests d) (file_chunks d) (chunks d).
Definition with_machine_accounts (g : gmap string MachineAccountRow → gmap string MachineAccountRow) (d : Db) : Db :=
  mkDb (users d) (items d) (sessions d) (g (machine_accounts d)) (access_tokens d) (organizations d) (org_members d) (projects d) (project_access d) (user_groups d) (user_group_members d) (offboardings d) (user_sharing_keys d) (webauthn_credentials d) (mfa_totp_enrollments d) (mfa_totp_secrets d) (mfa_recovery_codes d) (totp_used_steps d) (pending_mfa d) (mfa_policy d) (recovery_sessions d) (recovery_challenges d) (server_config d) (audit_log d) (event_channels d) (login_state d) (webauthn_verified d) (webauthn_regs d) (webauthn_auths d) (secrets d) (secret_reveal_grants d) (shares d) (share_payloads d) (sharing_groups d) (group_members d) (group_wrapped_sik d) (group_items d) (project_items d) (file_manifests d) (file_chunks d) (chunks d).
Definition with_access_tokens (g : gmap string AccessTokenRow → gmap string AccessTokenRow) (d : Db) : Db :=
  mkDb (users d) (items d) (sessions d) (machine_accounts d) (g (access_tokens d)) (organizations d) (org_members d) (projects d) (project_access d) (user_groups d) (user_group_members d) (offboardings d) (user_sharing_keys d) (webauthn_credentials d) (mfa_totp_enrollments d) (mfa_totp_secrets d) (mfa_recovery_codes d) (totp_used_steps d) (pending_mfa d) (mfa_policy d) (recovery_sessions d) (recovery_challenges d) (server_config d) (audit_log d) (event_channels d) (login_state d) (webauthn_verified d) (webauthn_regs d) (webauthn_auths d) (secrets d) (secret_reveal_grants d) (shares d) (share_payloads d) (sharing_groups d) (group_members d) (group_wrapped_sik d) (group_items d) (project_items d) (file_manifests d) (file_chunks d) (chunks d).
Definition with_organizations (g : gmap string OrganizationRow → gmap string OrganizationRow) (d : Db) : Db :=
  mkDb (users d) (items d) (sessions d) (machine_accounts d) (access_tokens d) (g (organizations d)) (org_members d) (projects d) (project_access d) (user_groups d) (user_group_members d) (offboardings d) (user_sharing_keys d) (webauthn_credentials d) (mfa_totp_enrollments d) (mfa_totp_secrets d) (mfa_recovery_codes d) (totp_used_steps d) (pending_mfa d) (mfa_policy d) (recovery_sessions d) (recovery_challenges d) (server_config d) (audit_log d) (event_channels d) (login_state d) (webauthn_verified d) (webauthn_regs d) (webauthn_auths d) (secrets d) (secret_reveal_grants d) (shares d) (share_payloads d) (sharing_groups d) (group_members d) (group_wrapped_sik d) (group_items d) (project_items d) (file_manifests d) (file_chunks d) (chunks d).
Definition with_org_members (g : gmap (string * string) OrgMemberRow → gmap (string * string) OrgMemberRow) (d : Db) : Db :=
  mkDb (users d) (items d) (sessions d) (machine_accounts d) (access_tokens d) (organizations d) (g (org_members d)) (projects d) (project_access d) (user_groups d) (user_group_members d) (offboardings d) (user_sharing_keys d) (webauthn_credentials d) (mfa_totp_enrollments d) (mfa_totp_secrets d) (mfa_recovery_codes d) (totp_used_steps d) (pending_mfa d) (mfa_policy d) (recovery_sessions d) (recovery_challenges d) (server_config d) (audit_log d) (event_channels d) (login_state d) (webauthn_verified d) (webauthn_regs d) (webauthn_auths d) (secrets d) (secret_reveal_grants d) (shares d) (share_payloads d) (sharing_groups d) (group_members d) (group_wrapped_sik d) (group_items d) (project_items d) (file_manifests d) (file_chunks d) (chunks d).
Definition with_projects (g : gmap string ProjectRow → gmap string ProjectRow) (d : Db) : Db :=
  mkDb (users d) (items d) (sessions d) (machine_accounts d) (access_tokens d) (organizations d) (org_members d) (g (projects d)) (project_access d) (user_groups d) (user_group_members d) (offboardings d) (user_sharing_keys d) (webauthn_credentials d) (mfa_totp_enrollments d) (mfa_totp_secrets d) (mfa_recovery_codes d) (totp_used_steps d) (pending_mfa d) (mfa_policy d) (recovery_sessions d) (recovery_challenges d) (server_config d) (audit_log d) (event_channels d) (login_state d) (webauthn_verified d) (webauthn_regs d) (webauthn_auths d) (secrets d) (secret_reveal_grants d) (shares d) (share_payloads d) (sharing_groups d) (group_members d) (group_wrapped_sik d) (group_items d) (project_items d) (file_manifests d) (file_chunks d) (chunks d).
Definition with_project_access (g : gmap string AccessRow → gmap string AccessRow) (d : Db) : Db :=
  mkDb (users d) (items d) (sessions d) (machine_accounts d) (access_tokens d) (organizations d) (org_members d) (projects d) (g (project_access d)) (user_groups d) (user_group_members d) (offboardings d) (user_sharing_keys d) (webauthn_credentials d) (mfa_totp_enrollments d) (mfa_totp_secrets d) (mfa_recovery_codes d) (totp_used_steps d) (pending_mfa d) (mfa_policy d) (recovery_sessions d) (recovery_challenges d) (server_config d) (audit_log d) (event_channels d) (login_state d) (webauthn_verified d) (webauthn_regs d) (webauthn_auths d) (secrets d) (secret_reveal_grants d) (shares d) (share_payloads d) (sharing_groups d) (group_members d) (group_wrapped_sik d) (group_items d) (project_items d) (file_manifests d) (file_chunks d) (chunks d).
Definition with_user_groups (g : gmap string UserGroupRow → gmap string UserGroupRow) (d : Db) : Db :=
  mkDb (users d) (items d) (sessions d) (machine_accounts d) (access_tokens d) (organizations d) (org_members d) (projects d) (project_access d) (g (user_groups d)) (user_group_members d) (offboardings d) (user_sharing_keys d) (webauthn_credentials d) (mfa_totp_enrollments d) (mfa_totp_secrets d) (mfa_recovery_codes d) (totp_used_steps d) (pending_mfa d) (mfa_policy d) (recovery_sessions d) (recovery_challenges d) (server_config d) (audit_log d) (event_channels d) (login_state d) (webauthn_verified d) (webauthn_regs d) (webauthn_auths d) (secrets d) (secret_reveal_grants d) (shares d) (share_payloads d) (sharing_groups d) (group_members d) (group_wrapped_sik d) (group_items d) (project_items d) (file_manifests d) (file_chunks d) (chunks d).
Definition with_user_group_members (g : gmap (string * string) GroupMemberRow → gmap (string * string) GroupMemberRow) (d : Db) : Db :=
  mkDb (users d) (items d) (sessions d) (machine_accounts d) (access_tokens d) (organizations d) (org_members d) (projects d) (project_access d) (user_groups d) (g (user_group_members d)) (offboardings d) (user_sharing_keys d) (webauthn_credentials d) (mfa_totp_enrollments d) (mfa_totp_secrets d) (mfa_recovery_codes d) (totp_used_steps d) (pending_mfa d) (mfa_policy d) (recovery_sessions d) (recovery_challenges d) (server_config d) (audit_log d) (event_channels d) (login_state d) (webauthn_verified d) (webauthn_regs d) (webauthn_auths d) (secrets d) (secret_reveal_grants d) (shares d) (share_payloads d) (sharing_groups d) (group_members d) (group_wrapped_sik d) (group_items d) (project_items d) (file_manifests d) (file_chunks d) (chunks d).
Definition with_offboardings (g : gmap string OffboardingRow → gmap string OffboardingRow) (d : Db) : Db :=
  mkDb (users d) (items d) (sessions d) (machine_accounts d) (access_tokens d) (organizations d) (org_members d) (projects d) (project_access d) (user_groups d) (user_group_members d) (g (offboardings d)) (user_sharing_keys d) (webauthn_credentials d) (mfa_totp_enrollments d) (mfa_totp_secrets d) (mfa_recovery_codes d) (totp_used_steps d) (pending_mfa d) (mfa_policy d) (recovery_sessions d) (recovery_challenges d) (server_config d) (audit_log d) (event_channels d) (login_state d) (webauthn_verified d) (webauthn_regs d) (webauthn_auths d) (secrets d) (secret_reveal_grants d) (shares d) (share_payloads d) (sharing_groups d) (group_members d) (group_wrapped_sik d) (group_items d) (project_items d) (file_manifests d) (file_chunks d) (chunks d).
Definition with_user_sharing_keys (g : gmap string SharingKeyRow → gmap string SharingKeyRow) (d : Db) : Db :=
  mkDb (users d) (items d) (sessions d) (machine_accounts d) (access_tokens d) (organizations d) (org_members d) (projects d) (project_access d) (user_groups d) (user_group_members d) (offboardings d) (g (user_sharing_keys d)) (webauthn_credentials d) (mfa_totp_enrollments d) (mfa_totp_secrets d) (mfa_recovery_codes d) (totp_used_steps d) (pending_mfa d) (mfa_policy d) (recovery_sessions d) (recovery_challenges d) (server_config d) (audit_log d) (event_channels d) (login_state d) (webauthn_verified d) (webauthn_regs d) (webauthn_auths d) (secrets d) (secret_reveal_grants d) (shares d) (share_payloads d) (sharing_groups d) (group_members d) (group_wrapped_sik d) (group_items d) (project_items d) (file_manifests d) (file_chunks d) (chunks d).
Definition with_webauthn_credentials (g : gmap Z WebauthnCredentialRow → gmap Z WebauthnCredentialRow) (d : Db) : Db :=
  mkDb (users d) (items d) (sessions d) (machine_accounts d) (access_tokens d) (organizations d) (org_members d) (projects d) (project_access d) (user_groups d) (user_group_members d) (offboardings d) (user_sharing_keys d) (g (webauthn_credentials d)) (mfa_totp_enrollments d) (mfa_totp_secrets d) (mfa_recovery_codes d) (totp_used_steps d) (pending_mfa d) (mfa_policy d) (recovery_sessions d) (recovery_challenges d) (server_config d) (audit_log d) (event_channels d) (login_state d) (webauthn_verified d) (webauthn_regs d) (webauthn_auths d) (secrets d) (secret_reveal_grants d) (shares d) (share_payloads d) (sharing_groups d) (group_members d) (group_wrapped_sik d) (group_items d) (project_items d) (file_manifests d) (file_chunks d) (chunks d).
Definition with_mfa_totp_enrollments (g : gmap string TotpEnrollmentRow → gmap string TotpEnrollmentRow) (d : Db) : Db :=
  mkDb (users d) (items d) (sessions d) (machine_accounts d) (access_tokens d) (organizations d) (org_members d) (projects d) (project_access d) (user_groups d) (user_group_members d) (offboardings d) (user_sharing_keys d) (webauthn_credentials d) (g (mfa_totp_enrollments d)) (mfa_totp_secrets d) (mfa_recovery_codes d) (totp_used_steps d) (pending_mfa d) (mfa_policy d) (recovery_sessions d) (recovery_challenges d) (server_config d) (audit_log d) (event_channels d) (login_state d) (webauthn_verified d) (webauthn_regs d) (webauthn_auths d) (secrets d) (secret_reveal_grants d) (shares d) (share_payloads d) (sharing_groups d) (group_members d) (group_wrapped_sik d) (group_items d) (project_items d) (file_manifests d) (file_chunks d) (chunks d).
Definition with_mfa_totp_secrets (g : gmap string TotpSecretRow → gmap string TotpSecretRow) (d : Db) : Db :=
  mkDb (users d) (items d) (sessions d) (machine_accounts d) (access_tokens d) (organizations d) (org_members d) (projects d) (project_access d) (user_groups d) (user_group_members d) (offboardings d) (user_sharing_keys d) (webauthn_credentials d) (mfa_totp_enrollments d) (g (mfa_totp_secrets d)) (mfa_recovery_codes d) (totp_used_steps d) (pending_mfa d) (mfa_policy d) (recovery_sessions d) (recovery_challenges d) (server_config d) (audit_log d) (event_channels d) (login_state d) (webauthn_verified d) (webauthn_regs d) (webauthn_auths d) (secrets d) (secret_reveal_grants d) (shares d) (share_payloads d) (sharing_groups d) (group_members d) (group_wrapped_sik d) (group_items d) (project_items d) (file_manifests d) (file_chunks d) (chunks d).
Definition with_mfa_recovery_codes (g : gmap (string * string) RecoveryCodeDbRow → gmap (string * string) RecoveryCodeDbRow) (d : Db) : Db :=
  mkDb (users d) (items d) (sessions d) (machine_accounts d) (access_tokens d) (organizations d) (org_members d) (projects d) (project_access d) (user_groups d) (user_group_members d) (offboardings d) (user_sharing_keys d) (webauthn_credentials d) (mfa_totp_enrollments d) (mfa_totp_secrets d) (g (mfa_recovery_codes d)) (totp_used_steps d) (pending_mfa d) (mfa_policy d) (recovery_sessions d) (recovery_challenges d) (server_config d) (audit_log d) (event_channels d) (login_state d) (webauthn_verified d) (webauthn_regs d) (webauthn_auths d) (secrets d) (secret_reveal_grants d) (shares d) (share_payloads d) (sharing_groups d) (group_members d) (group_wrapped_sik d) (group_items d) (project_items d) (file_manifests d) (file_chunks d) (chunks d).
Definition with_totp_used_steps (g : gmap (string * Z) Z → gmap (string * Z) Z) (d : Db) : Db :=
  mkDb (users d) (items d) (sessions d) (machine_accounts d) (access_tokens d) (organizations d) (org_members d) (projects d) (project_access d) (user_groups d) (user_group_members d) (offboardings d) (user_sharing_keys d) (webauthn_credentials d) (mfa_totp_enrollments d) (mfa_totp_secrets d) (mfa_recovery_codes d) (g (totp_used_steps d)) (pending_mfa d) (mfa_policy d) (recovery_sessions d) (recovery_challenges d) (server_config d) (audit_log d) (event_channels d) (login_state d) (webauthn_verified d) (webauthn_regs d) (webauthn_auths d) (secrets d) (secret_reveal_grants d) (shares d) (share_payloads d) (sharing_groups d) (group_members d) (group_wrapped_sik d) (group_items d) (project_items d) (file_manifests d) (file_chunks d) (chunks d).
Definition with_pending_mfa (g : gmap string PendingMfaRow → gmap string PendingMfaRow) (d : Db) : Db :=
  mkDb (users d) (items d) (sessions d) (machine_accounts d) (access_tokens d) (organizations d) (org_members d) (projects d) (project_access d) (user_groups d) (user_group_members d) (offboardings d) (user_sharing_keys d) (webauthn_credentials d) (mfa_totp_enrollments d) (mfa_totp_secrets d) (mfa_recovery_codes d) (totp_used_steps d) (g (pending_mfa d)) (mfa_policy d) (recovery_sessions d) (recovery_challenges d) (server_config d) (audit_log d) (event_channels d) (login_state d) (webauthn_verified d) (webauthn_regs d) (webauthn_auths d) (secrets d) (secret_reveal_grants d) (shares d) (share_payloads d) (sharing_groups d) (group_members d) (group_wrapped_sik d) (group_items d) (project_items d) (file_manifests d) (file_chunks d) (chunks d).
Definition with_mfa_policy (g : option MfaPolicyRow → option MfaPolicyRow) (d : Db) : Db :=
  mkDb (users d) (items d) (sessions d) (machine_accounts d) (access_tokens d) (organizations d) (org_members d) (projects d) (project_access d) (user_groups d) (user_group_members d) (offboardings d) (user_sharing_keys d) (webauthn_credentials d) (mfa_totp_enrollments d) (mfa_totp_secrets d) (mfa_recovery_codes d) (totp_used_steps d) (pending_mfa d) (g (mfa_policy d)) (recovery_sessions d) (recovery_challenges d) (server_config d) (audit_log d) (event_channels d) (login_state d) (webauthn_verified d) (webauthn_regs d) (webauthn_auths d) (secrets d) (secret_reveal_grants d) (shares d) (share_payloads d) (sharing_groups d) (group_members d) (group_wrapped_sik d) (group_items d) (project_items d) (file_manifests d) (file_chunks d) (chunks d).
Definition with_recovery_sessions (g : gmap string RecoverySessionRow → gmap string RecoverySessionRow) (d : Db) : Db :=
  mkDb (users d) (items d) (sessions d) (machine_accounts d) (access_tokens d) (organizations d) (org_members d) (projects d) (project_access d) (user_groups d) (user_group_members d) (offboardings d) (user_sharing_keys d) (webauthn_credentials d) (mfa_totp_enrollments d) (mfa_totp_secrets d) (mfa_recovery_codes d) (totp_used_steps d) (pending_mfa d) (mfa_policy d) (g (recovery_sessions d)) (recovery_challenges d) (server_config d) (audit_log d) (event_channels d) (login_state d) (webauthn_verified d) (webauthn_regs d) (webauthn_auths d) (secrets d) (secret_reveal_grants d) (shares d) (share_payloads d) (sharing_groups d) (group_members d) (group_wrapped_sik d) (group_items d) (project_items d) (file_manifests d) (file_chunks d) (chunks d).
Definition with_recovery_challenges (g : gmap string RecoveryChallengeRow → gmap string RecoveryChallengeRow) (d : Db) : Db :=
  mkDb (users d) (items d) (sessions d) (machine_accounts d) (access_tokens d) (organizations d) (org_members d) (projects d) (project_access d) (user_groups d) (user_group_members d) (offboardings d) (user_sharing_keys d) (webauthn_credentials d) (mfa_totp_enrollments d) (mfa_totp_secrets d) (mfa_recovery_codes d) (totp_used_steps d) (pending_mfa d) (mfa_policy d) (recovery_sessions d) (g (recovery_challenges d)) (server_config d) (audit_log d) (event_channels d) (login_state d) (webauthn_verified d) (webauthn_regs d) (webauthn_auths d) (secrets d) (secret_reveal_grants d) (shares d) (share_payloads d) (sharing_groups d) (group_members d) (group_wrapped_sik d) (group_items d) (project_items d) (file_manifests d) (file_chunks d) (chunks d).
Definition with_server_config (g : gmap string blob → gmap string blob) (d : Db) : Db :=
  mkDb (users d) (items d) (sessions d) (machine_accounts d) (access_tokens d) (organizations d) (org_members d) (projects d) (project_access d) (user_groups d) (user_group_members d) (offboardings d) (user_sharing_keys d) (webauthn_credentials d) (mfa_totp_enrollments d) (mfa_totp_secrets d) (mfa_recovery_codes d) (totp_used_steps d) (pending_mfa d) (mfa_policy d) (recovery_sessions d) (recovery_challenges d) (g (server_config d)) (audit_log d) (event_channels d) (login_state d) (webauthn_verified d) (webauthn_regs d) (webauthn_auths d) (secrets d) (secret_reveal_grants d) (shares d) (share_payloads d) (sharing_groups d) (group_members d) (group_wrapped_sik d) (group_items d) (project_items d) (file_manifests d) (file_chunks d) (chunks d).
Definition with_audit_log (g : list AuditRow → list AuditRow) (d : Db) : Db :=
  mkDb (users d) (items d) (sessions d) (machine_accounts d) (access_tokens d) (organizations d) (org_members d) (projects d) (project_access d) (user_groups d) (user_group_members d) (offboardings d) (user_sharing_keys d) (webauthn_credentials d) (mfa_totp_enrollments d) (mfa_totp_secrets d) (mfa_recovery_codes d) (totp_used_steps d) (pending_mfa d) (mfa_policy d) (recovery_sessions d) (recovery_challenges d) (server_config d) (g (audit_log d)) (event_channels d) (login_state d) (webauthn_verified d) (webauthn_regs d) (webauthn_auths d) (secrets d) (secret_reveal_grants d) (shares d) (share_payloads d) (sharing_groups d) (group_members d) (group_wrapped_sik d) (group_items d) (project_items d) (file_manifests d) (file_chunks d) (chunks d).
Definition with_event_channels (g : gmap string (list VaultEvent) → gmap string (list VaultEvent)) (d : Db) : Db :=
  mkDb (users d) (items d) (sessions d) (machine_accounts d) (access_tokens d) (organizations d) (org_members d) (projects d) (project_access d) (user_groups d) (user_group_members d) (offboardings d) (user_sharing_keys d) (webauthn_credentials d) (mfa_totp_enrollments d) (mfa_totp_secrets d) (mfa_recovery_codes d) (totp_used_steps d) (pending_mfa d) (mfa_policy d) (recovery_sessions d) (recovery_challenges d) (server_config d) (audit_log d) (g (event_channels d)) (login_state d) (webauthn_verified d) (webauthn_regs d) (webauthn_auths d) (secrets d) (secret_reveal_grants d) (shares d) (share_payloads d) (sharing_groups d) (group_members d) (group_wrapped_sik d) (group_items d) (project_items d) (file_manifests d) (file_chunks d) (chunks d).
Definition with_login_state (g : gmap string (blob * Z) → gmap string (blob * Z)) (d : Db) : Db :=
  mkDb (users d) (items d) (sessions d) (machine_accounts d) (access_tokens d) (organizations d) (org_members d) (projects d) (project_access d) (user_groups d) (user_group_members d) (offboardings d) (user_sharing_keys d) (webauthn_credentials d) (mfa_totp_enrollments d) (mfa_totp_secrets d) (mfa_recovery_codes d) (totp_used_steps d) (pending_mfa d) (mfa_policy d) (recovery_sessions d) (recovery_challenges d) (server_config d) (audit_log d) (event_channels d) (g (login_state d)) (webauthn_verified d) (webauthn_regs d) (webauthn_auths d) (secrets d) (secret_reveal_grants d) (shares d) (share_payloads d) (sharing_groups d) (group_members d) (group_wrapped_sik d) (group_items d) (project_items d) (file_manifests d) (file_chunks d) (chunks d).
Definition with_webauthn_verified (g : gset string → gset string) (d : Db) : Db :=
  mkDb (users d) (items d) (sessions d) (machine_accounts d) (access_tokens d) (organizations d) (org_members d) (projects d) (project_access d) (user_groups d) (user_group_members d) (offboardings d) (user_sharing_keys d) (webauthn_credentials d) (mfa_totp_enrollments d) (mfa_totp_secrets d) (mfa_recovery_codes d) (totp_used_steps d) (pending_mfa d) (mfa_policy d) (recovery_sessions d) (recovery_challenges d) (server_config d) (audit_log d) (event_channels d) (login_state d) (g (webauthn_verified d)) (webauthn_regs d) (webauthn_auths d) (secrets d) (secret_reveal_grants d) (shares d) (share_payloads d) (sharing_groups d) (group_members d) (group_wrapped_sik d) (group_items d) (project_items d) (file_manifests d) (file_chunks d) (chunks d).
Definition with_webauthn_regs (g : gmap string (string * string * blob) → gmap string (string * string * blob)) (d : Db) : Db :=
  mkDb (users d) (items d) (sessions d) (machine_accounts d) (access_tokens d) (organizations d) (org_members d) (projects d) (project_access d) (user_groups d) (user_group_members d) (offboardings d) (user_sharing_keys d) (webauthn_credentials d) (mfa_totp_enrollments d) (mfa_totp_secrets d) (mfa_recovery_codes d) (totp_used_steps d) (pending_mfa d) (mfa_policy d) (recovery_sessions d) (recovery_challenges d) (server_config d) (audit_log d) (event_channels d) (login_state d) (webauthn_verified d) (g (webauthn_regs d)) (webauthn_auths d) (secrets d) (secret_reveal_grants d) (shares d) (share_payloads d) (sharing_groups d) (group_members d) (group_wrapped_sik d) (group_items d) (project_items d) (file_manifests d) (file_chunks d) (chunks d).
Definition with_webauthn_auths (g : gmap string (string * blob) → gmap string (string * blob)) (d : Db) : Db :=
  mkDb (users d) (items d) (sessions d) (machine_accounts d) (access_tokens d) (organizations d) (org_members d) (projects d) (project_access d) (user_groups d) (user_group_members d) (offboardings d) (user_sharing_keys d) (webauthn_credentials d) (mfa_totp_enrollments d) (mfa_totp_secrets d) (mfa_recovery_codes d) (totp_used_steps d) (pending_mfa d) (mfa_policy d) (recovery_sessions d) (recovery_challenges d) (server_config d) (audit_log d) (event_channels d) (login_state d) (webauthn_verified d) (webauthn_regs d) (g (webauthn_auths d)) (secrets d) (secret_reveal_grants d) (shares d) (share_payloads d) (sharing_groups d) (group_members d) (group_wrapped_sik d) (group_items d) (project_items d) (file_manifests d) (file_chunks d) (chunks d).
Definition with_secrets (g : gmap string SecretRow → gmap string SecretRow) (d : Db) : Db :=
  mkDb (users d) (items d) (sessions d) (machine_accounts d) (access_tokens d) (organizations d) (org_members d) (projects d) (project_access d) (user_groups d) (user_group_members d) (offboardings d) (user_sharing_keys d) (webauthn_credentials d) (mfa_totp_enrollments d) (mfa_totp_secrets d) (mfa_recovery_codes d) (totp_used_steps d) (pending_mfa d) (mfa_policy d) (recovery_sessions d) (recovery_challenges d) (server_config d) (audit_log d) (event_channels d) (login_state d) (webauthn_verified d) (webauthn_regs d) (webauthn_auths d) (g (secrets d)) (secret_reveal_grants d) (shares d) (share_payloads d) (sharing_groups d) (group_members d) (group_wrapped_sik d) (group_items d) (project_items d) (file_manifests d) (file_chunks d) (chunks d).
Definition with_secret_reveal_grants (g : gmap (string * string) RevealGrantRow → gmap (string * string) RevealGrantRow) (d : Db) : Db :=
  mkDb (users d) (items d) (sessions d) (machine_accounts d) (access_tokens d) (organizations d) (org_members d) (projects d) (project_access d) (user_groups d) (user_group_members d) (offboardings d) (user_sharing_keys d) (webauthn_credentials d) (mfa_totp_enrollments d) (mfa_totp_secrets d) (mfa_recovery_codes d) (totp_used_steps d) (pending_mfa d) (mfa_policy d) (recovery_sessions d) (recovery_challenges d) (server_config d) (audit_log d) (event_channels d) (login_state d) (webauthn_verified d) (webauthn_regs d) (webauthn_auths d) (secrets d) (g (secret_reveal_grants d)) (shares d) (share_payloads d) (sharing_groups d) (group_members d) (group_wrapped_sik d) (group_items d) (project_items d) (file_manifests d) (file_chunks d) (chunks d).
Definition with_shares (g : gmap (string * string) ShareRow → gmap (string * string) ShareRow) (d : Db) : Db :=
  mkDb (users d) (items d) (sessions d) (machine_accounts d) (access_tokens d) (organizations d) (org_members d) (projects d) (project_access d) (user_groups d) (user_group_members d) (offboardings d) (user_sharing_keys d) (webauthn_credentials d) (mfa_totp_enrollments d) (mfa_totp_secrets d) (mfa_recovery_codes d) (totp_used_steps d) (pending_mfa d) (mfa_policy d) (recovery_sessions d) (recovery_challenges d) (server_config d) (audit_log d) (event_channels d) (login_state d) (webauthn_verified d) (webauthn_regs d) (webauthn_auths d) (secrets d) (secret_reveal_grants d) (g (shares d)) (share_payloads d) (sharing_groups d) (group_members d) (group_wrapped_sik d) (group_items d) (project_items d) (file_manifests d) (file_chunks d) (chunks d).
Definition with_share_payloads (g : gmap string (blob * Z) → gmap string (blob * Z)) (d : Db) : Db :=
  mkDb (users d) (items d) (sessions d) (machine_accounts d) (access_tokens d) (organizations d) (org_members d) (projects d) (project_access d) (user_groups d) (user_group_members d) (offboardings d) (user_sharing_keys d) (webauthn_credentials d) (mfa_totp_enrollments d) (mfa_totp_secrets d) (mfa_recovery_codes d) (totp_used_steps d) (pending_mfa d) (mfa_policy d) (recovery_sessions d) (recovery_challenges d) (server_config d) (audit_log d) (event_channels d) (login_state d) (webauthn_verified d) (webauthn_regs d) (webauthn_auths d) (secrets d) (secret_reveal_grants d) (shares d) (g (share_payloads d)) (sharing_groups d) (group_members d) (group_wrapped_sik d) (group_items d) (project_items d) (file_manifests d) (file_chunks d) (chunks d).
Definition with_sharing_groups (g : gmap string SharingGroupRow → gmap string SharingGroupRow) (d : Db) : Db :=
  mkDb (users d) (items d) (sessions d) (machine_accounts d) (access_tokens d) (organizations d) (org_members d) (projects d) (project_access d) (user_groups d) (user_group_members d) (offboardings d) (user_sharing_keys d) (webauthn_credentials d) (mfa_totp_enrollments d) (mfa_totp_secrets d) (mfa_recovery_codes d) (totp_used_steps d) (pending_mfa d) (mfa_policy d) (recovery_sessions d) (recovery_challenges d) (server_config d) (audit_log d) (event_channels d) (login_state d) (webauthn_verified d) (webauthn_regs d) (webauthn_auths d) (secrets d) (secret_reveal_grants d) (shares d) (share_payloads d) (g (sharing_groups d)) (group_members d) (group_wrapped_sik d) (group_items d) (project_items d) (file_manifests d) (file_chunks d) (chunks d).
Definition with_group_members (g : gmap (string * string) Z → gmap (string * string) Z) (d : Db) : Db :=
  mkDb (users d) (items d) (sessions d) (machine_accounts d) (access_tokens d) (organizations d) (org_members d) (projects d) (project_access d) (user_groups d) (user_group_members d) (offboardings d) (user_sharing_keys d) (webauthn_credentials d) (mfa_totp_enrollments d) (mfa_totp_secrets d) (mfa_recovery_codes d) (totp_used_steps d) (pending_mfa d) (mfa_policy d) (recovery_sessions d) (recovery_challenges d) (server_config d) (audit_log d) (event_channels d) (login_state d) (webauthn_verified d) (webauthn_regs d) (webauthn_auths d) (secrets d) (secret_reveal_grants d) (shares d) (share_payloads d) (sharing_groups d) (g (group_members d)) (group_wrapped_sik d) (group_items d) (project_items d) (file_manifests d) (file_chunks d) (chunks d).
Definition with_group_wrapped_sik (g : gmap (string * string) GroupWrappedRow → gmap (string * string) GroupWrappedRow) (d : Db) : Db :=
  mkDb (users d) (items d) (sessions d) (machine_accounts d) (access_tokens d) (organizations d) (org_members d) (projects d) (project_access d) (user_groups d) (user_group_members d) (offboardings d) (user_sharing_keys d) (webauthn_credentials d) (mfa_totp_enrollments d) (mfa_totp_secrets d) (mfa_recovery_codes d) (totp_used_steps d) (pending_mfa d) (mfa_policy d) (recovery_sessions d) (recovery_challenges d) (server_config d) (audit_log d) (event_channels d) (login_state d) (webauthn_verified d) (webauthn_regs d) (webauthn_auths d) (secrets d) (secret_reveal_grants d) (shares d) (share_payloads d) (sharing_groups d) (group_members d) (g (group_wrapped_sik d)) (group_items d) (project_items d) (file_manifests d) (file_chunks d) (chunks d).
Definition with_group_items (g : gmap (string * string) (blob * Z) → gmap (string * string) (blob * Z)) (d : Db) : Db :=
  mkDb (users d) (items d) (sessions d) (machine_accounts d) (access_tokens d) (organizations d) (org_members d) (projects d) (project_access d) (user_groups d) (user_group_members d) (offboardings d) (user_sharing_keys d) (webauthn_credentials d) (mfa_totp_enrollments d) (mfa_totp_secrets d) (mfa_recovery_codes d) (totp_used_steps d) (pending_mfa d) (mfa_policy d) (recovery_sessions d) (recovery_challenges d) (server_config d) (audit_log d) (event_channels d) (login_state d) (webauthn_verified d) (webauthn_regs d) (webauthn_auths d) (secrets d) (secret_reveal_grants d) (shares d) (share_payloads d) (sharing_groups d) (group_members d) (group_wrapped_sik d) (g (group_items d)) (project_items d) (file_manifests d) (file_chunks d) (chunks d).
Definition with_project_items (g : gmap string string → gmap string string) (d : Db) : Db :=
  mkDb (users d) (items d) (sessions d) (machine_accounts d) (access_tokens d) (organizations d) (org_members d) (projects d) (project_access d) (user_groups d) (user_group_members d) (offboardings d) (user_sharing_keys d) (webauthn_credentials d) (mfa_totp_enrollments d) (mfa_totp_secrets d) (mfa_recovery_codes d) (totp_used_steps d) (pending_mfa d) (mfa_policy d) (recovery_sessions d) (recovery_challenges d) (server_config d) (audit_log d) (event_channels d) (login_state d) (webauthn_verified d) (webauthn_regs d) (webauthn_auths d) (secrets d) (secret_reveal_grants d) (shares d) (share_payloads d) (sharing_groups d) (group_members d) (group_wrapped_sik d) (group_items d) (g (project_items d)) (file_manifests d) (file_chunks d) (chunks d).
Definition with_file_manifests (g : gmap string FileManifestRow → gmap string FileManifestRow) (d : Db) : Db :=
  mkDb (users d) (items d) (sessions d) (machine_accounts d) (access_tokens d) (organizations d) (org_members d) (projects d) (project_access d) (user_groups d) (user_group_members d) (offboardings d) (user_sharing_keys d) (webauthn_credentials d) (mfa_totp_enrollments d) (mfa_totp_secrets d) (mfa_recovery_codes d) (totp_used_steps d) (pending_mfa d) (mfa_policy d) (recovery_sessions d) (recovery_challenges d) (server_config d) (audit_log d) (event_channels d) (login_state d) (webauthn_verified d) (webauthn_regs d) (webauthn_auths d) (secrets d) (secret_reveal_grants d) (shares d) (share_payloads d) (sharing_groups d) (group_members d) (group_wrapped_sik d) (group_items d) (project_items d) (g (file_manifests d)) (file_chunks d) (chunks d).
Definition with_file_chunks (g : gmap (string * Z) string → gmap (string * Z) string) (d : Db) : Db :=
  mkDb (users d) (items d) (sessions d) (machine_accounts d) (access_tokens d) (organizations d) (org_members d) (projects d) (project_access d) (user_groups d) (user_group_members d) (offboardings d) (user_sharing_keys d) (webauthn_credentials d) (mfa_totp_enrollments d) (mfa_totp_secrets d) (mfa_recovery_codes d) (totp_used_steps d) (pending_mfa d) (mfa_policy d) (recovery_sessions d) (recovery_challenges d) (server_config d) (audit_log d) (event_channels d) (login_state d) (webauthn_verified d) (webauthn_regs d) (webauthn_auths d) (secrets d) (secret_reveal_grants d) (shares d) (share_payloads d) (sharing_groups d) (group_members d) (group_wrapped_sik d) (group_items d) (project_items d) (file_manifests d) (g (file_chunks d)) (chunks d).
Definition with_chunks (g : gmap (string * Z) blob → gmap (string * Z) blob) (d : Db) : Db :=
  mkDb (users d) (items d) (sessions d) (machine_accounts d) (access_tokens d) (organizations d) (org_members d) (projects d) (project_access d) (user_groups d) (user_group_members d) (offboardings d) (user_sharing_keys d) (webauthn_credentials d) (mfa_totp_enrollments d) (mfa_totp_secrets d) (mfa_recovery_codes d) (totp_used_steps d) (pending_mfa d) (mfa_policy d) (recovery_sessions d) (recovery_challenges d) (server_config d) (audit_log d) (event_channels d) (login_state d) (webauthn_verified d) (webauthn_regs d) (webauthn_auths d) (secrets d) (secret_reveal_grants d) (shares d) (share_payloads d) (sharing_groups d) (group_members d) (group_wrapped_sik d) (group_items d) (project_items d) (file_manifests d) (file_chunks d) (g (chunks d)).

Definition empty_db : Db :=
  mkDb ∅ ∅ ∅ ∅ ∅ ∅ ∅ ∅ ∅ ∅ ∅ ∅ ∅ ∅ ∅ ∅ ∅ ∅ ∅ None ∅ ∅ ∅ [] ∅ ∅ ∅ ∅ ∅ ∅ ∅ ∅ ∅ ∅ ∅ ∅ ∅ ∅ ∅ ∅ ∅.

(** ** Statements and handlers *)

Abbreviation sql := (M Db DbError).
Abbreviation handler := (M Db ApiError).

(** [.map_err(|e| ApiError::internal(..))?]. *)
Abbreviation call := (map_err (λ _ : DbError, Api.internal)).

(** What one request observes of its environment: a clock reading in
    milliseconds (one reading per request), the identifiers [Uuid::new_v4()]
    and the bytes [OsRng] return (one index per draw of the handler), the
    process's environment variables and the files it can read. *)
Record Env := mkEnv {
  now_ms : Z;
  fresh : nat → Uuid;
  rand : nat → blob;
  env_var : string → option string;
  read_file : string → option blob;
}.

(** Rows of a table, in an unspecified order. *)
Definition rows {K R} `{Countable K} (t : gmap K R) : list R := (map_to_list t).*2.

Definition require (b : bool) (e : DbError) : sql unit := guard_err (negb b) e.

Definition has_user (u : string) (d : Db) : bool := bool_decide (is_Some (users d !! u)).

(** [INSERT INTO t (...) VALUES (...)] with its primary key and its foreign
    keys. *)
Definition insert_row {K R} `{Countable K} (tbl : Db → gmap K R)
    (upd : (gmap K R → gmap K R) → Db → Db) (fk : Db → bool) (k : K) (r : R) : sql unit :=
  d ← gets id;
  require (bool_decide (tbl d !! k = None)) UniqueViolation;;
  require (fk d) ForeignKeyViolation;;
  modify (upd (insert k r)).

(** [INSERT ... ON CONFLICT(k) DO UPDATE]: [merge old] is the row kept when
    the key exists, [r] the row inserted when it does not. *)
Definition upsert_row {K R} `{Countable K} (tbl : Db → gmap K R)
    (upd : (gmap K R → gmap K R) → Db → Db) (fk : Db → bool) (k : K) (r : R)
    (merge : R → R) : sql unit :=
  d ← gets id;
  require (fk d) ForeignKeyViolation;;
  modify (upd (insert k (match tbl d !! k with Some old => merge old | None => r end))).

(** SQLite prepares a statement that deletes from a table. *)

Definition prepare_delete (table : string) : sql unit :=
  require (negb (delete_refused table)) ForeignKeyMismatch.

(** [DELETE FROM t WHERE P], returning the rows affected, for a table whose
    deletions can be prepared. *)
Definition delete_where {K R} `{Countable K} (tbl : Db → gmap K R)
    (upd : (gmap K R → gmap K R) → Db → Db) (P : K * R → bool) : sql Z :=
  d ← gets id;
  modify (upd (filter (λ kr, P kr = false)));;
  mret (Z.of_nat (size (filter (λ kr, P kr = true) (tbl d)))).

(** [self.pool] executes an [UPDATE t SET .. WHERE key = k]; the result is the
    number of rows affected. *)
Definition update_key {K R} `{Countable K} (tbl : Db → gmap K R)
    (upd : (gmap K R → gmap K R) → Db → Db) (k : K) (f : R → R) : sql Z :=
  d ← gets id;
  modify (upd (alter f k));;
  mret (if decide (is_Some (tbl d !! k)) then 1%Z else 0%Z).

Arguments insert_row : simpl never.
Arguments upsert_row : simpl never.
Arguments delete_where : simpl never.
Arguments update_key : simpl never.

(** What each statement does. *)
Section Statements.
Context {K R} `{Countable K} (tbl : Db → gmap K R).
Context (upd : (gmap K R → gmap K R) → Db → Db).

Lemma insert_row_run fk k r d :
  insert_row tbl upd fk k r d =
  match tbl d !! k with
  | Some _ => (d, Err UniqueViolation)
  | None => if fk d then (upd (insert k r) d, Ok ()) else (d, Err ForeignKeyViolation)
  end.
Proof.
  unfold insert_row, require. run_step.
  destruct (tbl d !! k); [reflexivity|]. simpl. run_step. by destruct (fk d).
Qed.

Lemma upsert_row_run fk k r merge d :
  upsert_row tbl upd fk k r merge d =
  if fk d then
    (upd (insert k (match tbl d !! k with Some old => merge old | None => r end)) d, Ok ())
  else (d, Err ForeignKeyViolation).
Proof. unfold upsert_row, require. run_step. by destruct (fk d). Qed.

Lemma delete_where_run P d :
  delete_where tbl upd P d =
  (upd (filter (λ kr, P kr = false)) d,
   Ok (Z.of_nat (size (filter (λ kr, P kr = true) (tbl d))))).
Proof. done. Qed.

Lemma delete_where_some P k r d :
  tbl d !! k = Some r → P (k, r) = true →
  ∃ n, (0 < n)%Z ∧ delete_where tbl upd P d = (upd (filter (λ kr, P kr = false)) d, Ok n).
Proof.
  intros Hk HP. rewrite delete_where_run. eexists. split; [|reflexivity].
  assert (size (filter (λ kr, P kr = true) (tbl d)) ≠ 0) as Hne; [|lia].
  intros Hz%map_size_empty_iff. assert (filter (λ kr, P kr = true) (tbl d) !! k = Some r) as Hl.
  { by apply map_lookup_filter_Some. }
  by rewrite Hz, lookup_empty in Hl.
Qed.

Lemma update_key_run k f d :
  update_key tbl upd k f d =
  (upd (alter f k) d, Ok (if decide (is_Some (tbl d !! k)) then 1 else 0)%Z).
Proof. done. Qed.
End Statements.

(** Deleting accounts, projects and shares is refused while foreign keys are
    enforced. *)
Lemma prepare_delete_refused t d :
  delete_refused t = true → prepare_delete t d = (d, Err ForeignKeyMismatch).
Proof. intros Ht. unfold prepare_delete, require. run_step. by rewrite Ht. Qed.

Lemma delete_users_refused d : prepare_delete "users" d = (d, Err ForeignKeyMismatch).
Proof. apply prepare_delete_refused. vm_compute. reflexivity. Qed.

Lemma delete_projects_refused d : prepare_delete "projects" d = (d, Err ForeignKeyMismatch).
Proof. apply prepare_delete_refused. vm_compute. reflexivity. Qed.

Lemma insert_row_ok {K R} `{Countable K} (tbl : Db → gmap K R) upd fk k r d d' b :
  insert_row tbl upd fk k r d = (d', Ok b) →
  tbl d !! k = None ∧ fk d = true ∧ d' = upd (insert k r) d.
Proof.
  rewrite insert_row_run. destruct (tbl d !! k); [done|]. destruct (fk d); [|done].
  by intros [= ->].
Qed.

Lemma delete_where_ok {K R} `{Countable K} (tbl : Db → gmap K R) upd P d d' n :
  delete_where tbl upd P d = (d', Ok n) → d' = upd (filter (λ kr, P kr = false)) d.
Proof. rewrite delete_where_run. by intros [= ->]. Qed.

Lemma update_key_ok {K R} `{Countable K} (tbl : Db → gmap K R) upd k f d d' n :
  update_key tbl upd k f d = (d', Ok n) → d' = upd (alter f k) d.
Proof. rewrite update_key_run. by intros [= ->]. Qed.

Lemma upsert_row_ok {K R} `{Countable K} (tbl : Db → gmap K R) upd fk k r merge d d' b :
  upsert_row tbl upd fk k r merge d = (d', Ok b) →
  fk d = true ∧
  d' = upd (insert k (match tbl d !! k with Some old => merge old | None => r end)) d.
Proof. rewrite upsert_row_run. destruct (fk d); [|done]. by intros [= ->]. Qed.

(** [UserEventBus::publish]: the event goes to its own user's channel. *)
Definition publish {E} (e : VaultEvent) : M Db E unit :=
  modify (with_event_channels (λ c, <[event_user e := default [] (c !! event_user e) ++ [e]]> c)).

(** ** The audit log (repository/audit.rs) *)

Definition audit_fk (user_id : option string) (d : Db) : bool :=
  match user_id with None => true | Some u => has_user u d end.

Definition audit_log_entry (user_id : option string) (action : string)
    (actor detail : option string) (created_at : Z) : sql unit :=
  d ← gets id;
  require (audit_fk user_id d) ForeignKeyViolation;;
  modify (with_audit_log (λ l, l ++ [mkAudit user_id action actor detail created_at
                                       (Some "auth") None None None])).

Definition insert_event (event_type : string) (actor user_id : option string)
    (action resource_type : string) (resource_id detail ip : option string)
    (created_at : Z) : sql unit :=
  d ← gets id;
  require (audit_fk user_id d) ForeignKeyViolation;;
  modify (with_audit_log (λ l, l ++ [mkAudit user_id action actor detail created_at
                                       (Some event_type) (Some resource_type) resource_id ip])).

Definition audit_org_event (actor user_id : option string) (action resource_type : string)
    (resource_id detail ip : option string) (created_at : Z) : sql unit :=
  insert_event "org" actor user_id action resource_type resource_id detail ip created_at.

Definition audit_secret_access (actor secret_id : string) (project_id : option string)
    (action : string) (ip : option string) (created_at : Z) : sql unit :=
  insert_event "secret_access" (Some actor) None action "secret" (Some secret_id)
    (String.append "project=" <$> project_id) ip created_at.

Lemma audit_org_event_run actor uid action rt rid detail ip t d :
  audit_fk uid d = true →
  ∃ f, audit_org_event actor uid action rt rid detail ip t d = (with_audit_log f d, Ok ()).
Proof.
  intros Hf. unfold audit_org_event, insert_event, require. eexists. run_step. rewrite Hf.
  reflexivity.
Qed.

Lemma audit_org_event_ok actor uid action rt rid detail ip t d d' b :
  audit_org_event actor uid action rt rid detail ip t d = (d', Ok b) →
  ∃ f, d' = with_audit_log f d.
Proof. unfold audit_org_event, insert_event, require. intros Hr. ok_inv Hr. eauto. Qed.

Lemma steps_audit (R : Db → Db → Prop) `{!PreOrder R} actor uid action rt rid detail ip t :
  (∀ f d, R d (with_audit_log f d)) →
  steps R (audit_org_event actor uid action rt rid detail ip t).
Proof. intros Hf. unfold audit_org_event, insert_event, require. steps_tac. apply steps_modify. auto. Qed.

(** Statements on a table whose changes a relation allows. *)
Section StepsTables.
Context (R : Db → Db → Prop) `{!PreOrder R} {K V : Type} `{Countable K}.
Context (tbl : Db → gmap K V) (upd : (gmap K V → gmap K V) → Db → Db).
Context (Hupd : ∀ g d, R d (upd g d)).

Lemma steps_insert_row fk k r : steps R (insert_row tbl upd fk k r).
Proof. unfold insert_row, require. steps_tac. by apply steps_modify. Qed.
Lemma steps_upsert_row fk k r merge : steps R (upsert_row tbl upd fk k r merge).
Proof. unfold upsert_row, require. steps_tac. by apply steps_modify. Qed.
Lemma steps_delete_where P : steps R (delete_where tbl upd P).
Proof. unfold delete_where. steps_tac. by apply steps_modify. Qed.
Lemma steps_update_key k f : steps R (update_key tbl upd k f).
Proof. unfold update_key. steps_tac. by apply steps_modify. Qed.
End StepsTables.

(** [steps_tables tac]: [steps_tac], then [tac] on the table changes left. *)
Ltac steps_tables tac :=
  steps_tac;
  try first [ apply steps_insert_row | apply steps_upsert_row | apply steps_delete_where
            | apply steps_update_key | apply steps_modify | apply steps_audit ];
  try typeclasses eauto; intros; tac.

(** [steps_crawl tac]: unfolds a handler down to its statements; [tac] proves
    that the relation allows a table change. *)
Ltac head_of t := lazymatch t with ?f _ => head_of f | _ => t end.
Ltac steps_crawl tac :=
  repeat first
    [ progress steps_tac
    | apply steps_insert_row; [typeclasses eauto | intros; tac]
    | apply steps_upsert_row; [typeclasses eauto | intros; tac]
    | apply steps_delete_where; [typeclasses eauto | intros; tac]
    | apply steps_update_key; [typeclasses eauto | intros; tac]
    | apply steps_modify; intros; tac
    | match goal with |- steps _ ?m => let h := head_of m in progress unfold h; cbv beta zeta end ].

(** ** Automation for the state record *)

Arguments with_users : simpl never.
Arguments with_items : simpl never.
Arguments with_sessions : simpl never.
Arguments with_machine_accounts : simpl never.
Arguments with_access_tokens : simpl never.
Arguments with_organizations : simpl never.
Arguments with_org_members : simpl never.
Arguments with_projects : simpl never.
Arguments with_project_access : simpl never.
Arguments with_user_groups : simpl never.
Arguments with_user_group_members : simpl never.
Arguments with_offboardings : simpl never.
Arguments with_user_sharing_keys : simpl never.
Arguments with_webauthn_credentials : simpl never.
Arguments with_mfa_totp_enrollments : simpl never.
Arguments with_mfa_totp_secrets : simpl never.
Arguments with_mfa_recovery_codes : simpl never.
Arguments with_totp_used_steps : simpl never.
Arguments with_pending_mfa : simpl never.
Arguments with_mfa_policy : simpl never.
Arguments with_recovery_sessions : simpl never.
Arguments with_recovery_challenges : simpl never.
Arguments with_server_config : simpl never.
Arguments with_audit_log : simpl never.
Arguments with_event_channels : simpl never.
Arguments with_login_state : simpl never.
Arguments with_webauthn_verified : simpl never.
Arguments with_webauthn_regs : simpl never.
Arguments with_webauthn_auths : simpl never.
Arguments with_secrets : simpl never.
Arguments with_secret_reveal_grants : simpl never.
Arguments with_shares : simpl never.
Arguments with_share_payloads : simpl never.
Arguments with_sharing_groups : simpl never.
Arguments with_group_members : simpl never.
Arguments with_group_wrapped_sik : simpl never.
Arguments with_group_items : simpl never.
Arguments with_project_items : simpl never.
Arguments with_file_manifests : simpl never.
Arguments with_file_chunks : simpl never.
Arguments with_chunks : simpl never.

(** Reduces every [field (with_f g d)] of the goal. *)
Ltac db_eval t :=
  eval lazy [users items sessions machine_accounts access_tokens organizations org_members projects project_access user_groups user_group_members offboardings user_sharing_keys webauthn_credentials mfa_totp_enrollments mfa_totp_secrets mfa_recovery_codes totp_used_steps pending_mfa mfa_policy recovery_sessions recovery_challenges server_config audit_log event_channels login_state webauthn_verified
             webauthn_regs webauthn_auths secrets secret_reveal_grants shares share_payloads sharing_groups group_members group_wrapped_sik group_items project_items file_manifests file_chunks chunks
             with_users with_items with_sessions with_machine_accounts with_access_tokens with_organizations with_org_members with_projects with_project_access with_user_groups with_user_group_members with_offboardings with_user_sharing_keys with_webauthn_credentials with_mfa_totp_enrollments with_mfa_totp_secrets with_mfa_recovery_codes with_totp_used_steps with_pending_mfa with_mfa_policy with_recovery_sessions with_recovery_challenges with_server_config with_audit_log with_event_channels with_login_state  with_webauthn_verified
             with_webauthn_regs with_webauthn_auths with_secrets with_secret_reveal_grants with_shares with_share_payloads with_sharing_groups with_group_members with_group_wrapped_sik with_group_items with_project_items with_file_manifests with_file_chunks with_chunks] in t.
Ltac db_simpl :=
  repeat match goal with
  | |- context [?p ?t] =>
      lazymatch type of t with Db =>
        lazymatch t with ?w ?g ?d =>
          lazymatch type of p with Db → _ => 
            let u := db_eval (p t) in
            progress change (p t) with u end end end
  end.
