(* ===== verification/Concrete.v ===== *)
(** * A concrete environment

    One implementation of the external code, with its laws, and a small
    server state: what the examples and the witnesses evaluate on.  The codec
    implementations are injective stand-ins, not base64 or JSON. *)
From S2P Require Import Prelude Domain Database.
From Stdlib Require Import Strings.Byte Strings.Ascii.

(** Every character of a string after an ["x"], a ["," ] after each string. *)
Fixpoint enc_string (s rest : string) : string :=
  match s with
  | EmptyString => String ","%char rest
  | String c s' => String "x"%char (String c (enc_string s' rest))
  end.

Definition enc_strings (l : list string) : string := foldr enc_string EmptyString l.

Fixpoint dec_strings (s : string) (cur : string → string) : option (list string) :=
  match s with
  | EmptyString => Some []
  | String "x"%char (String c s') => dec_strings s' (λ t, cur (String c t))
  | String ","%char s' => l ← dec_strings s' id; Some (cur EmptyString :: l)
  | _ => None
  end.

Lemma dec_enc_string s rest cur :
  dec_strings (enc_string s rest) cur =
  (l ← dec_strings rest id; Some (cur s :: l)).
Proof.
  revert cur. induction s as [|c s IH]; intros cur; [done|].
  simpl. by rewrite IH.
Qed.

Lemma dec_enc_strings l : dec_strings (enc_strings l) id = Some l.
Proof.
  induction l as [|s l IH]; [done|]. simpl. rewrite dec_enc_string.
  fold (enc_strings l). by rewrite IH.
Qed.

(** The digest is the first 32 bytes of the input, zero padded. *)
Definition pad32 (b : blob) : blob := take 32 (b ++ replicate 32 x00).

Definition code_at (secret : blob) (t : Z) : string :=
  String.string_of_list_byte
    (hd x30 secret ::
     (default x30 ∘ Byte.of_N ∘ Z.to_N <$> [48 + t / 30 / 10 mod 10; 48 + t / 30 mod 10])%Z).

Definition toy_ext : Ext := {|
  sha256 := pad32;
  b64_encode b := String "="%char (String.string_of_list_byte b);
  b64_decode s := match s with
                  | String "="%char s' => Some (String.list_byte_of_string s')
                  | _ => None
                  end;
  b64url_encode := String.string_of_list_byte;
  json_of_strings l := Some (enc_strings l);
  strings_of_json s := dec_strings s id;
  uuid_parse s := if bool_decide (s = "bad") then None else Some s;
  totp_new b := bool_decide (b ≠ []);
  totp_generate := code_at;
  ed25519_key_ok b := bool_decide (length b = 32);
  ed25519_verify k m s := bool_decide (s = k ++ m);
  totp_check secret code t :=
    existsb (λ k, bool_decide (code_at secret (t + 30 * k)%Z = code)) [(-1); 0; 1]%Z;
  json_policy_change _ _ := "{}"%string;
  base32_encode := String.string_of_list_byte;
  qr_svg b := Some b;
  opaque_new_setup b := b;
  opaque_setup_ok b := bool_decide (b ≠ []);
  opaque_register_start setup req name := Some (req ++ name);
  opaque_register_finish up := Some up;
  opaque_login_start rng setup record req name :=
    Some (rng, default [] record ++ req);
  opaque_login_finish st up := if bool_decide (st = up) then Some st else None;
|}.

#[export] Instance toy_laws : ExtLaws (H:=toy_ext).
Proof.
  split.
  - intros b. simpl. f_equal. apply String.list_byte_of_string_of_list_byte.
  - intros l. exists (enc_strings l). split; [done | apply dec_enc_strings].
Qed.

Definition bytes_of (s : string) : blob := String.list_byte_of_string s.

(** Two accounts, one of them with a session. *)
Definition demo_user (name : string) (min_gen : Z) : UserRow :=
  mkUser name (String.append name "@example.org") [] [] [] [] min_gen 0 0 None None None 0 0.

Definition demo_users : gmap string UserRow :=
  <[ "alice" := demo_user "alice" 2 ]> (<[ "bob" := demo_user "bob" 1 ]> ∅).

Definition demo_db : Db := with_users (λ _, demo_users) empty_db.

(** The key of a session row, given the bearer token. *)
Definition demo_session (token user : string) (expires : Z) : Db → Db :=
  with_sessions (insert (hex_of_bytes (pad32 (bytes_of token))) (mkSession user expires 0)).

Definition demo_env (now : Z) : Env :=
  mkEnv now (λ n, String "n"%char (String (Ascii.ascii_of_nat (48 + n)) EmptyString))
    (λ n, replicate 32 (default x00 (Byte.of_N (N.of_nat (65 + n))))) (λ _, None) (λ _, None).
