(* ===== verification/Users.v ===== *)
(** * Accounts and bearer sessions

    Models [repository/users.rs], [repository/sessions.rs], the suspension
    check of [repository/recovery.rs] and [auth_user] of [handlers/mod.rs]. *)
From S2P Require Import Prelude Domain Database.

(** ** Column updates of [users] *)

Definition set_min_enc_key_gen (g : Z) (u : UserRow) : UserRow :=
  mkUser (u_id u) (u_email u) (u_kdf_salt u) (u_opaque_record u) (u_svk_ciphertext_blob u)
    (u_svk_ciphertext_blob_rk u) g (u_created_at u) (u_updated_at u) (u_rk_public_key u)
    (u_reclaim_token u) (u_suspended_until u) (u_totp_fail_count u) (u_totp_lock_until u).

Definition set_svk (svk svk_rk : blob) (u : UserRow) : UserRow :=
  mkUser (u_id u) (u_email u) (u_kdf_salt u) (u_opaque_record u) svk
    svk_rk (u_min_enc_key_gen u) (u_created_at u) (u_updated_at u) (u_rk_public_key u)
    (u_reclaim_token u) (u_suspended_until u) (u_totp_fail_count u) (u_totp_lock_until u).

Definition set_updated_at (t : Z) (u : UserRow) : UserRow :=
  mkUser (u_id u) (u_email u) (u_kdf_salt u) (u_opaque_record u) (u_svk_ciphertext_blob u)
    (u_svk_ciphertext_blob_rk u) (u_min_enc_key_gen u) (u_created_at u) t (u_rk_public_key u)
    (u_reclaim_token u) (u_suspended_until u) (u_totp_fail_count u) (u_totp_lock_until u).

Definition set_credentials (record salt : blob) (u : UserRow) : UserRow :=
  mkUser (u_id u) (u_email u) salt record (u_svk_ciphertext_blob u)
    (u_svk_ciphertext_blob_rk u) (u_min_enc_key_gen u) (u_created_at u) (u_updated_at u)
    (u_rk_public_key u) (u_reclaim_token u) (u_suspended_until u) (u_totp_fail_count u)
    (u_totp_lock_until u).

Definition set_rk_key (pk : option blob) (u : UserRow) : UserRow :=
  mkUser (u_id u) (u_email u) (u_kdf_salt u) (u_opaque_record u) (u_svk_ciphertext_blob u)
    (u_svk_ciphertext_blob_rk u) (u_min_enc_key_gen u) (u_created_at u) (u_updated_at u) pk
    (u_reclaim_token u) (u_suspended_until u) (u_totp_fail_count u) (u_totp_lock_until u).

Definition set_reclaim (token : option string) (until : option Z) (u : UserRow) : UserRow :=
  mkUser (u_id u) (u_email u) (u_kdf_salt u) (u_opaque_record u) (u_svk_ciphertext_blob u)
    (u_svk_ciphertext_blob_rk u) (u_min_enc_key_gen u) (u_created_at u) (u_updated_at u)
    (u_rk_public_key u) token until (u_totp_fail_count u) (u_totp_lock_until u).

Definition set_totp_lock (count lock_until : Z) (u : UserRow) : UserRow :=
  mkUser (u_id u) (u_email u) (u_kdf_salt u) (u_opaque_record u) (u_svk_ciphertext_blob u)
    (u_svk_ciphertext_blob_rk u) (u_min_enc_key_gen u) (u_created_at u) (u_updated_at u)
    (u_rk_public_key u) (u_reclaim_token u) (u_suspended_until u) count lock_until.

(** ** repository/users.rs *)

Definition update_user (id : string) (f : UserRow → UserRow) : sql unit :=
  update_key users with_users id f;; mret ().

(** [email] is UNIQUE besides the primary key. *)
Definition create_user (uid email : string) (kdf_salt opaque_record svk svk_rk : blob)
    (now : Z) : sql unit :=
  d ← gets id;
  require (bool_decide (filter (λ u, u_email u = email) (rows (users d)) = [])) UniqueViolation;;
  insert_row users with_users (λ _, true) uid
    (mkUser uid email kdf_salt opaque_record svk svk_rk 1 now now None None None 0 0).

Definition get_user_by_email (email : string) : sql (option UserRow) :=
  gets (λ d, head (filter (λ u, u_email u = email) (rows (users d)))).

Definition get_user_svk_rk (user_id : string) : sql (option blob) :=
  gets (λ d, u_svk_ciphertext_blob_rk <$> users d !! user_id).

Definition min_enc_key_gen (user_id : string) : sql (option Z) :=
  gets (λ d, u_min_enc_key_gen <$> users d !! user_id).

Definition get_user_by_id (id : string) : sql (option UserRow) :=
  gets (λ d, users d !! id).

Definition get_user_email (user_id : string) : sql (option string) :=
  gets (λ d, u_email <$> users d !! user_id).

Definition update_min_enc_key_gen (user_id : string) (new_gen : Z) : sql unit :=
  update_user user_id (set_min_enc_key_gen new_gen).

Definition update_svk (user_id : string) (svk svk_rk : blob) : sql unit :=
  update_user user_id (set_svk svk svk_rk).

Definition update_svk_blob_only (ρ : Env) (user_id : string) (svk : blob) : sql unit :=
  update_user user_id (λ u, set_updated_at (now_ms ρ) (set_svk svk (u_svk_ciphertext_blob_rk u) u)).

(** [suspended_until > now], a missing row or a NULL column reading as not
    suspended. *)
Definition user_is_suspended (user_id : string) (now : Z) : sql bool :=
  gets (λ d, match users d !! user_id with
             | Some u => match u_suspended_until u with
                         | Some until => bool_decide (until > now)%Z
                         | None => false
                         end
             | None => false
             end).

Section Sessions.
Context `{Ext}.

(** ** repository/sessions.rs *)

Definition hash_session_token (raw : string) : string :=
  hex_of_bytes (sha256 (String.list_byte_of_string raw)).

Definition store_session (ρ : Env) (token user_id : string) (expires_at : Z) : sql unit :=
  upsert_row sessions with_sessions (has_user user_id) (hash_session_token token)
    (mkSession user_id expires_at (now_ms ρ))
    (λ old, mkSession user_id expires_at (s_created_at old)).

Definition get_session (token : string) : sql (option (string * Z)) :=
  gets (λ d, (λ s, (s_user_id s, s_expires_at s)) <$> sessions d !! hash_session_token token).

Definition delete_session (token : string) : sql Z :=
  delete_where sessions with_sessions (λ kr, bool_decide (kr.1 = hash_session_token token)).

Definition purge_expired_sessions (now : Z) : sql Z :=
  delete_where sessions with_sessions (λ kr, bool_decide (s_expires_at kr.2 < now)%Z).

Definition revoke_sessions_for_user (user_id : string) : sql Z :=
  delete_where sessions with_sessions (λ kr, bool_decide (s_user_id kr.2 = user_id)).

(** ** handlers/mod.rs *)

Definition auth_user (ρ : Env) (token : string) : handler string :=
  o ← call (get_session token);
  match o with
  | None => throw Api.unauthorized
  | Some (user_id, expires_at) =>
      let now := now_ms ρ in
      if bool_decide (expires_at < now)%Z then throw Api.unauthorized
      else
        suspended ← call (user_is_suspended user_id now);
        if (suspended : bool) then throw (mkApiError 403 "account_suspended")
        else mret user_id
  end.

Definition decode_b64 (s : string) : handler blob :=
  ok_or (Api.bad_request "invalid_base64") (b64_decode s).
End Sessions.

(** ** Lemmas *)
Section SessionLemmas.
Context `{Ext}.

(** The account a bearer token speaks for at an instant. *)
Definition session_valid (d : Db) (now : Z) (token user_id : string) : Prop :=
  ∃ s, sessions d !! hash_session_token token = Some s ∧ s_user_id s = user_id ∧
       (now ≤ s_expires_at s)%Z ∧
       (∀ u until, users d !! user_id = Some u → u_suspended_until u = Some until →
                   (until ≤ now)%Z).

(** [auth_user] never writes. *)
Lemma auth_user_read ρ token d : (auth_user ρ token d).1 = d.
Proof.
  unfold auth_user, get_session, user_is_suspended. run_step. destruct (sessions d !! _) as [s|]; simpl; [|done].
  case_bool_decide; [done|]. run_step. by destruct (users d !! _) as [u|];
    [destruct (u_suspended_until u); [case_bool_decide|]|].
Qed.

Lemma steps_auth_user R `{!Reflexive R} ρ token : steps R (auth_user ρ token).
Proof. intros d. by rewrite auth_user_read. Qed.

Lemma auth_user_spec ρ token d uid :
  auth_user ρ token d = (d, Ok uid) ↔ session_valid d (now_ms ρ) token uid.
Proof.
  unfold auth_user, get_session, user_is_suspended, session_valid.
  run_step. destruct (sessions d !! _) as [s|] eqn:Hs; simpl.
  2: { split; [discriminate | naive_solver]. }
  case_bool_decide as He; [split; [discriminate | intros (s' & [= <-] & ? & ? & ?); lia]|].
  run_step. destruct (users d !! s_user_id s) as [u|] eqn:Hu.
  2: { split; [intros [= <-]; exists s; repeat split; [lia | naive_solver] |].
       intros (s' & [= <-] & -> & _). done. }
  destruct (u_suspended_until u) as [t|] eqn:Ht.
  - case_bool_decide as Hb; split; try discriminate.
    + intros (s' & [= <-] & <- & _ & Hsus). pose proof (Hsus _ _ Hu Ht). lia.
    + intros [= <-]. exists s. repeat split; [lia|]. naive_solver lia.
    + intros (s' & [= <-] & -> & _). done.
  - split; [intros [= <-]; exists s; repeat split; [lia | naive_solver] |].
    intros (s' & [= <-] & -> & _). done.
Qed.

Lemma auth_user_ok ρ token d d' uid :
  auth_user ρ token d = (d', Ok uid) → d' = d ∧ session_valid d (now_ms ρ) token uid.
Proof.
  intros Hr. pose proof (auth_user_read ρ token d) as Hd. rewrite Hr in Hd. simpl in Hd.
  subst. split; [done|]. by apply auth_user_spec in Hr.
Qed.

(** A handler that starts by authenticating proceeds only for a live
    session. *)
Lemma auth_user_bind {A} ρ token (f : string → handler A) d :
  (∃ uid, session_valid d (now_ms ρ) token uid ∧
          (auth_user ρ token ≫= f) d = f uid d) ∨
  (∃ e, auth_user ρ token d = (d, Err e) ∧ (auth_user ρ token ≫= f) d = (d, Err e)).
Proof.
  pose proof (auth_user_read ρ token d) as Hr. rewrite bind_run.
  destruct (auth_user ρ token d) as [d' [uid|e]] eqn:Ha; simpl in Hr; subst d'.
  - left. exists uid. split; [by apply auth_user_spec | done].
  - right. by exists e.
Qed.

Lemma auth_user_ok_bind {A} ρ token uid (f : string → handler A) d :
  session_valid d (now_ms ρ) token uid → (auth_user ρ token ≫= f) d = f uid d.
Proof. intros Hv. rewrite bind_run. apply auth_user_spec in Hv. by rewrite Hv. Qed.

Lemma session_valid_fun d now token u1 u2 :
  session_valid d now token u1 → session_valid d now token u2 → u1 = u2.
Proof. intros (s1 & H1 & <- & _) (s2 & H2 & <- & _). congruence. Qed.
End SessionLemmas.

#[export] Hint Resolve steps_auth_user : steps.

(** A session of a concrete state, by evaluation. *)
Ltac solve_session :=
  eexists; split_and!;
    [ vm_compute; reflexivity | reflexivity | vm_compute; discriminate
    | let Hw := fresh in intros ? ? Hw; vm_compute in Hw; injection Hw as <-; by intros ?].
