(* ===== verification/Items.v ===== *)
(** * The item store: optimistic concurrency and the change feed

    Models [repository/items.rs] (every statement, in order) and states what
    the store promises: [Register] is the abstract versioned cell an item is,
    and [occ_le] / [feed_le] are what any sequence of writes preserves. *)
From S2P Require Import Prelude Domain Database Concrete Users.

Abbreviation ItemKey := (string * string)%type.

(** ** repository/items.rs *)

Inductive UpsertOutcome := Updated | Recovered | Conflict | EpochTooOld.

#[export] Instance UpsertOutcome_eq_dec : EqDecision UpsertOutcome.
Proof. solve_decision. Defined.

(** [SELECT seq FROM items WHERE user_id = ? AND seq IS NOT NULL]. *)
Definition user_seqs (user_id : string) (d : Db) : list Z :=
  omap (λ kr : ItemKey * ItemRow, if decide (kr.1.2 = user_id) then i_seq kr.2 else None)
    (map_to_list (items d)).

(** [MAX(seq)], NULL over no rows. *)
Definition max_seq (user_id : string) (d : Db) : option Z :=
  match user_seqs user_id d with
  | [] => None
  | s :: l => Some (foldr Z.max s l)
  end.

(** [SELECT COALESCE(MAX(seq), 0) + 1 FROM items WHERE user_id = ?]. *)
Definition next_seq (user_id : string) (d : Db) : Z := (default 0 (max_seq user_id d) + 1)%Z.

Definition get_item (uuid user_id : string) : sql (option ItemRow) :=
  gets (λ d, items d !! (uuid, user_id)).

(** The [UPDATE] of the upsert; its result is the number of rows affected. *)
Definition occ_update (uuid user_id : string) (target_version enc_key_gen : Z)
    (payload : option blob) (deleted_date : option Z) (now : Z) : sql Z :=
  d ← gets id;
  match items d !! (uuid, user_id) with
  | Some r =>
      if bool_decide (i_version r = target_version) then
        modify (with_items (insert (uuid, user_id)
          (mkItem uuid user_id (i_version r + 1) enc_key_gen deleted_date payload now
             (Some (next_seq user_id d)))));;
        mret 1%Z
      else mret 0%Z
  | None => mret 0%Z
  end.

(** The [INSERT] of the upsert. *)
Definition occ_insert (uuid user_id : string) (enc_key_gen : Z)
    (payload : option blob) (deleted_date : option Z) (now : Z) : sql unit :=
  d ← gets id;
  insert_row items with_items (has_user user_id) (uuid, user_id)
    (mkItem uuid user_id 1 enc_key_gen deleted_date payload now (Some (next_seq user_id d))).

Section Upsert.
Context `{Ext}.

Definition upsert_item_occ (uuid user_id : string) (target_version enc_key_gen : Z)
    (payload : option blob) (deleted_date : option Z) (now : Z) : sql UpsertOutcome :=
  require (bool_decide (is_Some (uuid_parse uuid))) Protocol;;
  min_gen ← min_enc_key_gen user_id;
  if match min_gen with Some g => bool_decide (enc_key_gen < g)%Z | None => false end
  then mret EpochTooOld
  else
    prior ← get_item uuid user_id;
    let prior_tombstoned :=
      match prior with Some r => bool_decide (is_Some (i_deleted_date r)) | None => false end in
    affected ← occ_update uuid user_id target_version enc_key_gen payload deleted_date now;
    if bool_decide (affected = 1%Z) then
      mret (if prior_tombstoned && bool_decide (deleted_date = None)
            then Recovered else Updated)
    else if bool_decide (target_version = 0%Z) then
      res ← attempt (occ_insert uuid user_id enc_key_gen payload deleted_date now);
      match res with
      | Ok _ => mret Updated
      | Err UniqueViolation => mret Conflict
      | Err e => throw e
      end
    else mret Conflict.

Definition tombstoned (kr : ItemKey * ItemRow) : bool :=
  bool_decide (is_Some (i_deleted_date kr.2)).

Definition tombstoned_items : sql (list Uuid) :=
  gets (λ d, omap (λ kr : ItemKey * ItemRow, if tombstoned kr then uuid_parse kr.1.1 else None)
               (map_to_list (items d))).

Definition tombstoned_items_with_owner : sql (list (string * Uuid)) :=
  gets (λ d, omap (λ kr : ItemKey * ItemRow,
                     if tombstoned kr then (λ u, (kr.1.2, u)) <$> uuid_parse kr.1.1 else None)
               (map_to_list (items d))).

(** ** The reaper (handlers/events.rs)

    One tick of [spawn_reaper]: a tombstone not [seen] since the process started
    is announced to its owner, and remembered. *)
Fixpoint announce (seen : gset (string * Uuid)) (l : list (string * Uuid)) : handler (gset (string * Uuid)) :=
  match l with
  | [] => mret seen
  | uo :: l =>
      (if bool_decide (uo ∈ seen) then mret () else publish (ItemPermanentlyDeleted uo.1 uo.2));;
      announce ({[uo]} ∪ seen) l
  end.
Definition reaper_tick (seen : gset (string * Uuid)) : handler (gset (string * Uuid)) :=
  l ← call tombstoned_items_with_owner;
  announce seen l.

Lemma steps_announce R `{!PreOrder R} seen l :
  (∀ e, steps R (publish e : handler unit)) → steps R (announce seen l).
Proof.
  intros Hp. revert seen. induction l as [|uo l IH]; intros seen; cbn [announce]; steps_tac.
Qed.
End Upsert.

(** ** Abstract specification: a versioned register

    What the store promises about one item of one account. *)
Module Register.
Record Content := mkContent {
  c_enc_key_gen : Z; c_deleted : option Z; c_payload : option blob; c_at : Z }.
Record Cell := mkCell { c_version : Z; c_content : Content }.

(** Compare-and-swap on the version; an absent cell is created by the
    target 0. *)
Definition cas (c : option Cell) (target : Z) (x : Content) : option Cell * UpsertOutcome :=
  match c with
  | Some (mkCell v old) =>
      if decide (v = target) then
        (Some (mkCell (v + 1) x),
         match c_deleted old, c_deleted x with
         | Some _, None => Recovered
         | _, _ => Updated
         end)
      else (c, Conflict)
  | None => if decide (target = 0%Z) then (Some (mkCell 1 x), Updated) else (None, Conflict)
  end.

(** The epoch gate comes first and writes nothing. *)
Definition put (min_gen : Z) (c : option Cell) (target : Z) (x : Content)
    : option Cell * UpsertOutcome :=
  if decide (c_enc_key_gen x < min_gen)%Z then (c, EpochTooOld) else cas c target x.

(** The cell a row stands for. *)
Definition of_row (r : ItemRow) : Cell :=
  mkCell (i_version r)
    (mkContent (i_enc_key_gen r) (i_deleted_date r) (i_payload r) (i_updated_at r)).

Definition abs (uuid user_id : string) (d : Db) : option Cell :=
  of_row <$> items d !! (uuid, user_id).
End Register.

(** ** Well-formed item tables *)

Record items_wf (d : Db) : Prop := {
  (** the primary key is stored in the row *)
  wf_key : ∀ k r, items d !! k = Some r → (i_uuid r, i_user_id r) = k;
  (** the foreign key *)
  wf_owner : ∀ k r, items d !! k = Some r → is_Some (users d !! k.2);
  wf_version : ∀ k r, items d !! k = Some r → (1 ≤ i_version r)%Z;
  wf_seq_pos : ∀ k r s, items d !! k = Some r → i_seq r = Some s → (1 ≤ s)%Z;
  (** positions of the change feed are unique per account *)
  wf_seq_inj : ∀ k1 k2 r1 r2 s,
    items d !! k1 = Some r1 → items d !! k2 = Some r2 → k1.2 = k2.2 →
    i_seq r1 = Some s → i_seq r2 = Some s → k1 = k2;
}.

(** ** What writes preserve *)

(** A version is never reused: rows stay, versions grow, and a row whose
    version is unchanged is unchanged. *)
Definition occ_le (d d' : Db) : Prop :=
  ∀ k r, items d !! k = Some r →
    ∃ r', items d' !! k = Some r' ∧ (i_version r ≤ i_version r')%Z ∧
          (i_version r' = i_version r → r' = r).

(** Every change of the account's items sits in the feed after everything
    that was there before. *)
Definition feed_le (user_id : string) (d d' : Db) : Prop :=
  (default 0 (max_seq user_id d) ≤ default 0 (max_seq user_id d'))%Z ∧
  ∀ k r', items d' !! k = Some r' → k.2 = user_id →
    items d !! k = Some r' ∨
    ∃ s, i_seq r' = Some s ∧ (default 0 (max_seq user_id d) < s)%Z.

(** Items of the other accounts are untouched. *)
Definition tenant_le (user_id : string) (d d' : Db) : Prop :=
  ∀ k, k.2 ≠ user_id → items d' !! k = items d !! k.

#[export] Instance occ_le_preorder : PreOrder occ_le.
Proof.
  split.
  - intros d k r Hr. exists r. auto with lia.
  - intros d1 d2 d3 H12 H23 k r Hr.
    destruct (H12 _ _ Hr) as (r2 & H2 & Hle & Heq).
    destruct (H23 _ _ H2) as (r3 & H3 & Hle' & Heq').
    exists r3. split_and!; [done | lia |]. intros Hv.
    assert (i_version r2 = i_version r) by lia. rewrite Heq' by lia. auto.
Qed.

#[export] Instance feed_le_preorder user_id : PreOrder (feed_le user_id).
Proof.
  split.
  - intros d. split; [lia | auto].
  - intros d1 d2 d3 [Hm12 H12] [Hm23 H23]. split; [lia|].
    intros k r Hr Hk. destruct (H23 _ _ Hr Hk) as [Hr2 | (s & Hs & Hlt)].
    + destruct (H12 _ _ Hr2 Hk) as [? | (s & ? & ?)]; eauto.
    + right. exists s. split; [done | lia].
Qed.

#[export] Instance tenant_le_preorder user_id : PreOrder (tenant_le user_id).
Proof.
  split; [done|]. intros d1 d2 d3 H12 H23 k Hk. rewrite H23, H12; done.
Qed.

(** ** The feed positions *)
Section Seq.
Context (u : string).

Lemma elem_of_user_seqs d s :
  s ∈ user_seqs u d ↔ ∃ k r, items d !! k = Some r ∧ k.2 = u ∧ i_seq r = Some s.
Proof.
  unfold user_seqs. rewrite list_elem_of_omap. split.
  - intros ([k r] & Hin & Hs). simpl in Hs. apply elem_of_map_to_list in Hin.
    case_decide; [eauto | done].
  - intros (k & r & Hr & Hk & Hs). exists (k, r). simpl.
    rewrite elem_of_map_to_list, decide_True by done. done.
Qed.

Lemma foldr_max_spec s l :
  foldr Z.max s l ∈ s :: l ∧ ∀ x, x ∈ s :: l → (x ≤ foldr Z.max s l)%Z.
Proof.
  induction l as [|y l [IHin IHle]]; simpl.
  - split; [left | intros x ->%list_elem_of_singleton; lia].
  - split.
    + destruct (Z.max_spec y (foldr Z.max s l)) as [[_ ->]|[_ ->]]; [|set_solver].
      set_solver.
    + intros x Hx. rewrite !elem_of_cons in Hx. destruct Hx as [->|[->|Hx]]; [|lia|].
      * specialize (IHle s ltac:(set_solver)). lia.
      * specialize (IHle x ltac:(set_solver)). lia.
Qed.

(** [MAX(seq)] is attained, and bounds every position. *)
Lemma max_seq_spec d :
  match max_seq u d with
  | None => ∀ k r, items d !! k = Some r → k.2 = u → i_seq r = None
  | Some m => (∃ k r, items d !! k = Some r ∧ k.2 = u ∧ i_seq r = Some m) ∧
              ∀ k r s, items d !! k = Some r → k.2 = u → i_seq r = Some s → (s ≤ m)%Z
  end.
Proof.
  unfold max_seq. pose proof (elem_of_user_seqs d) as Hel.
  destruct (user_seqs u d) as [|s l] eqn:Hu.
  - intros k r Hr Hk. destruct (i_seq r) as [s|] eqn:Hs; [|done].
    destruct (not_elem_of_nil s). apply Hel. eauto.
  - destruct (foldr_max_spec s l) as [Hin Hle]. split.
    + by apply Hel.
    + intros k r s' Hr Hk Hs. apply Hle, Hel. eauto.
Qed.

Lemma max_seq_ge d k r s :
  items d !! k = Some r → k.2 = u → i_seq r = Some s →
  (s ≤ default 0 (max_seq u d))%Z.
Proof.
  intros Hr Hk Hs. pose proof (max_seq_spec d) as Hm. destruct (max_seq u d) as [m|].
  - destruct Hm as [_ Hm]. simpl. eauto.
  - rewrite (Hm _ _ Hr Hk) in Hs. done.
Qed.

Lemma max_seq_le d b :
  (0 ≤ b)%Z →
  (∀ k r s, items d !! k = Some r → k.2 = u → i_seq r = Some s → (s ≤ b)%Z) →
  (default 0 (max_seq u d) ≤ b)%Z.
Proof.
  intros Hb H. pose proof (max_seq_spec d) as Hm. destruct (max_seq u d) as [m|]; [|done].
  destruct Hm as [(k & r & ? & ? & ?) _]. simpl. eauto.
Qed.
End Seq.

(** ** One write *)
Section Write.
Context `{Ext}.
Context (uuid u : string).

Definition new_row (v g : Z) (p : option blob) (del : option Z) (now : Z) (d : Db) : ItemRow :=
  mkItem uuid u v g del p now (Some (next_seq u d)).

Definition outcome_of (old : ItemRow) (del : option Z) : UpsertOutcome :=
  if bool_decide (is_Some (i_deleted_date old)) && bool_decide (del = None)
  then Recovered else Updated.

Lemma outcome_of_match old del :
  outcome_of old del = match i_deleted_date old, del with
                       | Some _, None => Recovered
                       | _, _ => Updated
                       end.
Proof. unfold outcome_of. by destruct (i_deleted_date old), del. Qed.

(** The upsert, branch by branch. *)
Lemma upsert_run t g p del now d :
  upsert_item_occ uuid u t g p del now d =
  match uuid_parse uuid with
  | None => (d, Err Protocol)
  | Some _ =>
      if match users d !! u with
         | Some ur => bool_decide (g < u_min_enc_key_gen ur)%Z | None => false end
      then (d, Ok EpochTooOld)
      else match items d !! (uuid, u) with
           | Some old =>
               if decide (i_version old = t) then
                 (with_items (insert (uuid, u) (new_row (i_version old + 1) g p del now d)) d,
                  Ok (outcome_of old del))
               else (d, Ok Conflict)
           | None =>
               if decide (t = 0%Z) then
                 if has_user u d then
                   (with_items (insert (uuid, u) (new_row 1 g p del now d)) d, Ok Updated)
                 else (d, Err ForeignKeyViolation)
               else (d, Ok Conflict)
           end
  end.
Proof.
  unfold upsert_item_occ, require, min_enc_key_gen, get_item. run_step.
  destruct (uuid_parse uuid); [|done]. simpl. run_step.
  assert (Hins : occ_insert uuid u g p del now d =
    match items d !! (uuid, u) with
    | Some _ => (d, Err UniqueViolation)
    | None => if has_user u d then
                (with_items (insert (uuid, u) (new_row 1 g p del now d)) d, Ok ())
              else (d, Err ForeignKeyViolation)
    end).
  { unfold occ_insert. run_step. apply insert_row_run. }
  destruct (users d !! u) as [ur|] eqn:Hu; simpl;
    [destruct (bool_decide (g < _)%Z); [reflexivity|]|];
    run_step; unfold occ_update; run_step;
    destruct (items d !! (uuid, u)) as [old|] eqn:Ho; simpl.
  1,3: destruct (decide (i_version old = t)) as [Hv|Hv];
    [rewrite (bool_decide_true _ Hv) | rewrite (bool_decide_false _ Hv)]; run_step;
    [unfold outcome_of; by destruct (bool_decide _ && bool_decide _)|].
  all: destruct (decide (t = 0%Z)) as [Ht|Ht];
    [rewrite (bool_decide_true _ Ht) | rewrite (bool_decide_false _ Ht)];
    try reflexivity; run_step; rewrite Hins, ?Ho; simpl; try reflexivity;
    by destruct (has_user u d).
Qed.

(** The one row an upsert may write, and when. *)
Definition writes (t : Z) (d : Db) (r : ItemRow) : Prop :=
  is_Some (users d !! u) ∧ i_uuid r = uuid ∧ i_user_id r = u ∧
  i_seq r = Some (next_seq u d) ∧
  match items d !! (uuid, u) with
  | Some old => i_version old = t ∧ i_version r = (i_version old + 1)%Z
  | None => t = 0%Z ∧ i_version r = 1%Z
  end.

Lemma upsert_effect t g p del now d :
  items_wf d →
  (upsert_item_occ uuid u t g p del now d).1 = d ∨
  ∃ r, writes t d r ∧
       (upsert_item_occ uuid u t g p del now d).1 = with_items (insert (uuid, u) r) d.
Proof.
  intros Hwf. rewrite upsert_run. destruct (uuid_parse uuid); [|auto].
  destruct (match users d !! u with Some _ => _ | None => _ end); [auto|].
  unfold writes. destruct (items d !! (uuid, u)) as [old|] eqn:Ho.
  - case_decide; [|auto]. right. eexists. split; [|reflexivity].
    split_and!; try done. by apply (wf_owner _ Hwf) in Ho.
  - case_decide; [|auto]. destruct (has_user u d) eqn:Hu; [|auto]. right.
    eexists. split; [|reflexivity]. unfold has_user in Hu. apply bool_decide_eq_true in Hu.
    done.
Qed.

Section Insert.
Context (t : Z) (d : Db) (r : ItemRow) (Hw : writes t d r) (Hwf : items_wf d).
Let d' := with_items (insert (uuid, u) r) d.

Lemma write_lookup k r' :
  items d' !! k = Some r' → (k = (uuid, u) ∧ r' = r) ∨ (k ≠ (uuid, u) ∧ items d !! k = Some r').
Proof.
  intros Hk. change (items d') with (insert (uuid, u) r (items d)) in Hk.
  apply lookup_insert_Some in Hk. naive_solver.
Qed.

Lemma next_seq_gt : (default 0 (max_seq u d) < next_seq u d)%Z.
Proof. unfold next_seq. lia. Qed.

Lemma next_seq_pos : (1 ≤ next_seq u d)%Z.
Proof.
  unfold next_seq. pose proof (max_seq_spec u d) as Hm.
  destruct (max_seq u d) as [m|]; simpl; [|lia].
  destruct Hm as [(k & q & Hq & _ & Hs) _]. pose proof (wf_seq_pos _ Hwf _ _ _ Hq Hs). lia.
Qed.

Lemma next_seq_fresh k q :
  items d !! k = Some q → k.2 = u → i_seq q = Some (next_seq u d) → False.
Proof.
  intros Hq Hk Hs. pose proof (max_seq_ge u d k q _ Hq Hk Hs). pose proof next_seq_gt. lia.
Qed.

Lemma write_wf : items_wf d'.
Proof.
  destruct Hw as (Hu & Hid & Huid & Hseq & Hv). destruct Hwf as [K O V S J]. split.
  - intros k q [[-> ->]|[_ Hq]]%write_lookup; [congruence | eauto].
  - intros k q [[-> ->]|[_ Hq]]%write_lookup; [done | eauto].
  - intros k q [[-> ->]|[_ Hq]]%write_lookup; [|eauto].
    destruct (items d !! (uuid, u)) as [old|] eqn:Ho; [|lia].
    pose proof (V _ _ Ho). lia.
  - intros k q s [[-> ->]|[_ Hq]]%write_lookup Hs; [|eauto].
    rewrite Hseq in Hs. injection Hs as <-. apply next_seq_pos.
  - intros k1 k2 q1 q2 s [[-> ->]|[_ H1]]%write_lookup [[-> ->]|[_ H2]]%write_lookup Hk Hs1 Hs2;
      [done | | | by eapply J].
    + exfalso. rewrite Hseq in Hs1. injection Hs1 as <-. by eapply next_seq_fresh.
    + exfalso. rewrite Hseq in Hs2. injection Hs2 as <-. by eapply next_seq_fresh.
Qed.

Lemma write_occ_le : occ_le d d'.
Proof.
  intros k q Hq. destruct Hw as (_ & _ & _ & _ & Hv).
  change (items d') with (insert (uuid, u) r (items d)).
  destruct (decide (k = (uuid, u))) as [->|Hk].
  - rewrite Hq in Hv. exists r. rewrite lookup_insert, decide_True by done.
    split_and!; [done | lia | lia].
  - exists q. rewrite lookup_insert_ne by done. split_and!; [done | lia | done].
Qed.

Lemma write_feed_le : feed_le u d d'.
Proof.
  destruct Hw as (_ & _ & _ & Hseq & _). pose proof next_seq_gt. split.
  - enough (next_seq u d ≤ default 0 (max_seq u d'))%Z by lia.
    apply (max_seq_ge u d' (uuid, u) r); [|done..].
    change (items d') with (insert (uuid, u) r (items d)).
    by rewrite lookup_insert, decide_True.
  - intros k q [[-> ->]|[_ Hq]]%write_lookup _; [|auto]. right. eauto.
Qed.

Lemma write_tenant_le : tenant_le u d d'.
Proof.
  intros k Hk. change (items d') with (insert (uuid, u) r (items d)).
  rewrite lookup_insert_ne; [done|]. by intros <-.
Qed.
End Insert.

(** ** The upsert preserves everything above *)
Lemma upsert_wf t g p del now d :
  items_wf d → items_wf (upsert_item_occ uuid u t g p del now d).1.
Proof.
  intros Hwf. destruct (upsert_effect t g p del now d Hwf) as [-> | (r & Hw & ->)]; [done|].
  by eapply write_wf.
Qed.

Lemma upsert_tenant_le t g p del now d :
  tenant_le u d (upsert_item_occ uuid u t g p del now d).1.
Proof.
  rewrite upsert_run. destruct (uuid_parse uuid); [|done].
  destruct (match users d !! u with Some _ => _ | None => _ end); [done|].
  destruct (items d !! (uuid, u)) as [old|] eqn:Ho.
  - case_decide; [apply write_tenant_le | done].
  - case_decide; [|done]. destruct (has_user u d); [apply write_tenant_le | done].
Qed.

(** Only [items] is written. *)
Lemma upsert_only_items t g p del now d :
  ∃ f, (upsert_item_occ uuid u t g p del now d).1 = with_items f d.
Proof.
  rewrite upsert_run. destruct (uuid_parse uuid); [|exists id; by destruct d].
  destruct (match users d !! u with Some _ => _ | None => _ end); [exists id; by destruct d|].
  destruct (items d !! (uuid, u)) as [old|] eqn:Ho.
  - case_decide; [eauto | exists id; by destruct d].
  - case_decide; [|exists id; by destruct d]. destruct (has_user u d); [eauto|].
    exists id. by destruct d.
Qed.
End Write.

(** ** The store implements the register *)

(** C3. The upsert refines compare-and-swap on a versioned register: for a
    registered account and a well-formed uuid it never fails, its outcome and
    the item it leaves are those of [Register.put] (epoch gate first, then
    create at 0, swap on a matching version, conflict otherwise, recovery
    reported exactly when a tombstone is cleared), and no other item of any
    account changes. *)
Theorem upsert_refines_register `{Ext} uuid u t g p del now d ur :
  is_Some (uuid_parse uuid) →
  users d !! u = Some ur →
  let '(d', r) := upsert_item_occ uuid u t g p del now d in
  let '(c', o) := Register.put (u_min_enc_key_gen ur) (Register.abs uuid u d) t
                    (Register.mkContent g del p now) in
  r = Ok o ∧ Register.abs uuid u d' = c' ∧
  ∀ uuid' u', (uuid', u') ≠ (uuid, u) → Register.abs uuid' u' d' = Register.abs uuid' u' d.
Proof.
  intros [? Hid] Hu. rewrite upsert_run, Hid, Hu. unfold Register.put, Register.abs. simpl.
  case_bool_decide as Hg; [by rewrite decide_True by done|].
  destruct (decide (g < _)%Z); [done|].
  destruct (items d !! (uuid, u)) as [old|] eqn:Ho; simpl.
  - destruct (decide (i_version old = t)); [|by rewrite Ho].
    change (items (with_items ?f d)) with (f (items d)). rewrite lookup_insert, decide_True by done.
    split_and!; [| done |].
    + unfold outcome_of. by destruct (i_deleted_date old), del.
    + intros uuid' u' Hne. by rewrite lookup_insert_ne.
  - destruct (decide (t = 0%Z)); [|by rewrite Ho]. unfold has_user.
    rewrite Hu. simpl.
    change (items (with_items ?f d)) with (f (items d)). rewrite lookup_insert, decide_True by done.
    split_and!; [done..|]. intros uuid' u' Hne. by rewrite lookup_insert_ne.
Qed.

Section ItemWitnesses.
#[local] Existing Instance Concrete.toy_ext.

Lemma upsert_refines_register_witness :
  let d := Concrete.demo_db in
  is_Some (uuid_parse "i1") ∧ users d !! "alice" = Some (Concrete.demo_user "alice" 2) ∧
  (upsert_item_occ "i1" "alice" 0 2 None None 5 d).2 = Ok Updated.
Proof.
  split_and!; [by eexists | reflexivity |].
  pose proof (upsert_refines_register "i1" "alice" 0 2 None None 5 Concrete.demo_db
    (Concrete.demo_user "alice" 2) ltac:(by eexists) eq_refl) as Hw.
  vm_compute in Hw |- *. apply Hw.
Defined.
End ItemWitnesses.
