(* ===== verification/Tokens.v ===== *)
(** * Machine accounts and access tokens

    Models [repository/machine_accounts.rs], [handlers/tokens.rs],
    [handlers/machine_accounts.rs] and [AuthContext] / [auth_any] of
    [handlers/mod.rs]. *)
From S2P Require Import Prelude Domain Database Concrete Users.

(** ** Column updates *)

Definition set_ma (name : string) (description : option string) (status scopes : string)
    (expires : option Z) (r : MachineAccountRow) : MachineAccountRow :=
  mkMachine (ma_uuid r) name description (ma_owner_user_id r) (ma_project_uuid r) status
    scopes expires (ma_last_used_at r) (ma_created_at r).

Definition set_ma_last_used (t : Z) (r : MachineAccountRow) : MachineAccountRow :=
  mkMachine (ma_uuid r) (ma_name r) (ma_description r) (ma_owner_user_id r) (ma_project_uuid r)
    (ma_status r) (ma_scopes r) (ma_expires_at r) (Some t) (ma_created_at r).

Definition set_at_last_used (t : Z) (r : AccessTokenRow) : AccessTokenRow :=
  mkToken (at_uuid r) (at_name r) (at_owner_user_id r) (at_machine_account_uuid r)
    (at_project_uuid r) (at_scopes r) (at_token_hash r) (at_prefix r) (at_expires_at r)
    (at_revoked_at r) (Some t) (at_created_at r).

Definition set_at_revoked (t : Z) (r : AccessTokenRow) : AccessTokenRow :=
  mkToken (at_uuid r) (at_name r) (at_owner_user_id r) (at_machine_account_uuid r)
    (at_project_uuid r) (at_scopes r) (at_token_hash r) (at_prefix r) (at_expires_at r)
    (Some t) (at_last_used_at r) (at_created_at r).

(** [ON DELETE SET NULL] of the machine-account foreign key. *)
Definition unlink_ma (deleted : string → bool) (r : AccessTokenRow) : AccessTokenRow :=
  mkToken (at_uuid r) (at_name r) (at_owner_user_id r)
    (match at_machine_account_uuid r with
     | Some m => if deleted m then None else Some m
     | None => None
     end)
    (at_project_uuid r) (at_scopes r) (at_token_hash r) (at_prefix r) (at_expires_at r)
    (at_revoked_at r) (at_last_used_at r) (at_created_at r).

(** ** repository/machine_accounts.rs *)
Module Repo.
Definition create_machine_account (uuid name : string) (description : option string)
    (owner : string) (project_uuid : option string) (scopes_json : string)
    (expires_at : option Z) (now : Z) : sql unit :=
  insert_row machine_accounts with_machine_accounts (has_user owner) uuid
    (mkMachine uuid name description owner project_uuid "active" scopes_json expires_at None now).

Definition list_machine_accounts (owner : string) : sql (list MachineAccountRow) :=
  gets (λ d, sort_desc ma_created_at
               (filter (λ r, ma_owner_user_id r = owner) (rows (machine_accounts d)))).

Definition get_machine_account (uuid owner : string) : sql (option MachineAccountRow) :=
  gets (λ d, r ← machine_accounts d !! uuid;
             if decide (ma_owner_user_id r = owner) then Some r else None).

(** The [CHECK] on [status]. *)
Definition update_machine_account (uuid owner name : string) (description : option string)
    (status scopes_json : string) (expires_at : option Z) : sql bool :=
  o ← get_machine_account uuid owner;
  match o with
  | None => mret false
  | Some _ =>
      require (bool_decide (status ∈ ["active"; "disabled"; "revoked"])) CheckViolation;;
      _ ← update_key machine_accounts with_machine_accounts uuid
            (set_ma name description status scopes_json expires_at);
      mret true
  end.

(** Deletes the accounts [P] selects; their tokens lose the link. *)
Definition delete_machine_rows (P : string → MachineAccountRow → bool) : sql Z :=
  d ← gets id;
  n ← delete_where machine_accounts with_machine_accounts (λ kr, P kr.1 kr.2);
  modify (with_access_tokens (fmap (unlink_ma
    (λ m, match machine_accounts d !! m with Some r => P m r | None => false end))));;
  mret n.

Definition delete_machine_account (uuid owner : string) : sql bool :=
  n ← delete_machine_rows (λ k r, bool_decide (k = uuid) && bool_decide (ma_owner_user_id r = owner));
  mret (bool_decide (0 < n)%Z).

Definition touch_machine_account (uuid : string) (now : Z) : sql unit :=
  update_key machine_accounts with_machine_accounts uuid (set_ma_last_used now);; mret ().

(** The owner must exist, and the machine account when there is one;
    [token_hash] is UNIQUE besides the primary key. *)
Definition token_fk (owner : string) (ma : option string) (d : Db) : bool :=
  has_user owner d &&
  match ma with None => true | Some m => bool_decide (is_Some (machine_accounts d !! m)) end.

Definition create_access_token (uuid name owner : string) (ma project : option string)
    (scopes_json token_hash prefix : string) (expires_at : option Z) (now : Z) : sql unit :=
  d ← gets id;
  require (bool_decide (filter (λ r, at_token_hash r = token_hash) (rows (access_tokens d)) = []))
    UniqueViolation;;
  insert_row access_tokens with_access_tokens (token_fk owner ma) uuid
    (mkToken uuid name owner ma project scopes_json token_hash prefix expires_at None None now).

Definition list_access_tokens (owner : string) : sql (list AccessTokenRow) :=
  gets (λ d, sort_desc at_created_at
               (filter (λ r, at_owner_user_id r = owner) (rows (access_tokens d)))).

Definition get_access_token (uuid owner : string) : sql (option AccessTokenRow) :=
  gets (λ d, r ← access_tokens d !! uuid;
             if decide (at_owner_user_id r = owner) then Some r else None).

Definition find_token (token_hash : string) (d : Db) : option AccessTokenRow :=
  head (filter (λ r, at_token_hash r = token_hash) (rows (access_tokens d))).

Definition get_token_by_hash (token_hash : string) : sql (option AccessTokenRow) :=
  gets (find_token token_hash).

Definition revoke_access_token (uuid owner : string) (now : Z) : sql bool :=
  o ← get_access_token uuid owner;
  match o with
  | None => mret false
  | Some _ =>
      _ ← update_key access_tokens with_access_tokens uuid (set_at_revoked now);
      mret true
  end.

Definition touch_access_token (uuid : string) (now : Z) : sql unit :=
  update_key access_tokens with_access_tokens uuid (set_at_last_used now);; mret ().

Definition get_access_token_owner (token_id : string) : sql (option string) :=
  gets (λ d, at_owner_user_id <$> access_tokens d !! token_id).

Definition revoke_tokens_for_user (owner : string) : sql Z :=
  delete_where access_tokens with_access_tokens (λ kr, bool_decide (at_owner_user_id kr.2 = owner)).

Definition revoke_machine_accounts_for_user (owner : string) : sql Z :=
  delete_machine_rows (λ _ r, bool_decide (ma_owner_user_id r = owner)).
End Repo.

(** ** handlers/tokens.rs *)

Definition VALID_SCOPES : list string :=
  ["secrets:read"; "secrets:write"; "secrets:reveal"; "projects:read"; "projects:write";
   "tokens:manage"; "machine_accounts:manage"].

Definition validate_scopes (scopes : list string) : bool :=
  forallb (λ s, bool_decide (s ∈ VALID_SCOPES)) scopes.

Record VerifiedToken := mkVerified {
  token_id : string;
  machine_account_uuid : option string;
  project_uuid : option string;
  scopes : list string;
  expires_at : option Z;
}.

Record TokenCreateRequest := mkTokenCreate {
  tc_name : string;
  tc_machine_account_uuid : option string;
  tc_project_uuid : option string;
  tc_scopes : list string;
  tc_expires_at : option Z;
}.

Record TokenCreateResponse := mkTokenCreated {
  tr_token : string; tr_token_id : string; tr_expires_at : option Z }.

Record AccessToken := mkAccessToken {
  tv_uuid : string; tv_name : string; tv_machine_account_uuid : option string;
  tv_project_uuid : option string; tv_scopes : list string; tv_prefix : string;
  tv_expires_at : option Z; tv_revoked_at : option Z; tv_last_used_at : option Z;
  tv_created_at : Z }.

(** ** handlers/mod.rs: the caller of a request *)

Record AuthContext := mkAuth { user_id : string; token : option VerifiedToken }.

Definition is_machine_token (c : AuthContext) : bool := bool_decide (is_Some (token c)).

Definition forbidden (code : string) : ApiError := mkApiError 403 code.

Definition require_scope (c : AuthContext) (scope : string) : result ApiError unit :=
  match token c with
  | None => Ok ()
  | Some t => if existsb (λ s, bool_decide (s = scope)) (scopes t) then Ok ()
              else Err (forbidden "missing_scope")
  end.

Definition require_any_scope (c : AuthContext) (wanted : list string) : result ApiError unit :=
  match token c with
  | None => Ok ()
  | Some t => if existsb (λ s, bool_decide (s ∈ wanted)) (scopes t) then Ok ()
              else Err (forbidden "missing_scope")
  end.

Definition require_project (c : AuthContext) (project : string) : result ApiError unit :=
  match token c with
  | None => Ok ()
  | Some t =>
      match project_uuid t with
      | None => Ok ()
      | Some bound => if bool_decide (bound = project) then Ok ()
                      else Err (forbidden "project_mismatch")
      end
  end.

Section Tokens.
Context `{Ext}.

Definition scopes_to_json (l : list string) : string := default "[]" (json_of_strings l).
Definition scopes_from_json (s : string) : list string := default [] (strings_of_json s).

Definition token_hash (secret : string) : string :=
  b64url_encode (sha256 (String.list_byte_of_string secret)).

(** (secret, hash, display prefix). *)
Definition generate_token (ρ : Env) : string * string * string :=
  let secret := b64url_encode (rand ρ 0) in
  (secret, token_hash secret, String.substring 0 8 secret).

Definition verify_access_token (ρ : Env) (tok : string) : handler VerifiedToken :=
  let now := now_ms ρ in
  o ← call (Repo.get_token_by_hash (token_hash tok));
  row ← ok_or Api.unauthorized o;
  guard_err (bool_decide (is_Some (at_revoked_at row))) Api.unauthorized;;
  guard_err (match at_expires_at row with Some e => bool_decide (e ≤ now)%Z | None => false end)
    Api.unauthorized;;
  (match at_machine_account_uuid row with
   | Some ma_uuid =>
       o ← call (Repo.get_machine_account ma_uuid (at_owner_user_id row));
       ma ← ok_or Api.unauthorized o;
       guard_err (negb (bool_decide (ma_status ma = "active"))) Api.unauthorized;;
       guard_err (match ma_expires_at ma with Some e => bool_decide (e ≤ now)%Z | None => false end)
         Api.unauthorized
   | None => mret ()
   end);;
  ignore (Repo.touch_access_token (at_uuid row) now);;
  (match at_machine_account_uuid row with
   | Some ma => ignore (Repo.touch_machine_account ma now)
   | None => mret ()
   end);;
  mret (mkVerified (at_uuid row) (at_machine_account_uuid row) (at_project_uuid row)
          (scopes_from_json (at_scopes row)) (at_expires_at row)).

Definition auth_any (ρ : Env) (tok : string) : handler AuthContext :=
  if starts_with "vtr-ak-" tok then
    verified ← verify_access_token ρ tok;
    o ← call (Repo.get_access_token_owner (token_id verified));
    owner ← ok_or Api.unauthorized o;
    mret (mkAuth owner (Some verified))
  else
    u ← auth_user ρ tok;
    mret (mkAuth u None).

Definition to_response (row : AccessTokenRow) : AccessToken :=
  mkAccessToken (at_uuid row) (at_name row) (at_machine_account_uuid row) (at_project_uuid row)
    (scopes_from_json (at_scopes row)) (at_prefix row) (at_expires_at row) (at_revoked_at row)
    (at_last_used_at row) (at_created_at row).

Definition unprocessable (code : string) : ApiError := mkApiError 422 code.
Definition not_found : ApiError := mkApiError 404 "not_found".

Definition expired (ρ : Env) (e : option Z) : bool :=
  match e with Some e => bool_decide (e ≤ now_ms ρ)%Z | None => false end.

Definition validate_create (ρ : Env) (req : TokenCreateRequest) : result ApiError unit :=
  if bool_decide (str_trim (tc_name req) = "") then Err (Api.bad_request "invalid_name")
  else if bool_decide (128 < String.length (tc_name req)) then Err (Api.bad_request "invalid_name")
  else if bool_decide (tc_scopes req = []) then Err (unprocessable "invalid_scopes")
  else if negb (validate_scopes (tc_scopes req)) then Err (unprocessable "invalid_scopes")
  else if expired ρ (tc_expires_at req) then Err (Api.bad_request "invalid_expiry")
  else Ok ().

Definition list_tokens (ρ : Env) (auth : string) : handler (list AccessToken) :=
  u ← auth_user ρ auth;
  l ← call (Repo.list_access_tokens u);
  mret (to_response <$> l).

(** The lifetime of a token that asks for none. *)
Definition default_expiry (ρ : Env) : option Z :=
  if bool_decide (env_var ρ "VAUTR_ALLOW_NON_EXPIRING_TOKENS" = Some "1") then None
  else
    let max_days := default 90%Z (env_var ρ "VAUTR_MAX_TOKEN_LIFETIME_DAYS" ≫= parse_i64) in
    Some (as_i64 (now_ms ρ + as_i64 (max_days * 86400000)))%Z.

(** The two machine-account blocks of [create_token], in order. *)
Definition check_machine_account (ρ : Env) (u : string) (req : TokenCreateRequest)
    : handler unit :=
  match tc_machine_account_uuid req with
  | Some ma_uuid =>
      o ← call (Repo.get_machine_account ma_uuid u);
      ma ← ok_or not_found o;
      guard_err (negb (bool_decide (ma_status ma = "active")))
        (forbidden "machine_account_not_active");;
      guard_err (expired ρ (ma_expires_at ma)) (forbidden "machine_account_expired");;
      let allowed := scopes_from_json (ma_scopes ma) in
      guard_err (negb (forallb (λ s, bool_decide (s ∈ allowed)) (tc_scopes req)))
        (forbidden "scope_not_allowed")
  | None => mret ()
  end.

Definition check_project_binding (u : string) (req : TokenCreateRequest) : handler unit :=
  match tc_machine_account_uuid req with
  | Some ma_uuid =>
      o ← call (Repo.get_machine_account ma_uuid u);
      match o with
      | Some ma =>
          match ma_project_uuid ma, tc_project_uuid req with
          | Some mp, Some rp =>
              guard_err (negb (bool_decide (mp = rp))) (unprocessable "project_mismatch")
          | Some _, None => throw (unprocessable "project_required")
          | None, _ => mret ()
          end
      | None => mret ()
      end
  | None => mret ()
  end.

Definition create_token (ρ : Env) (auth : string) (req : TokenCreateRequest)
    : handler TokenCreateResponse :=
  u ← auth_user ρ auth;
  lift (validate_create ρ req);;
  check_machine_account ρ u req;;
  check_project_binding u req;;
  let uuid := fresh ρ 0 in
  let now := now_ms ρ in
  let effective_expiry :=
    match tc_expires_at req with Some t => Some t | None => default_expiry ρ end in
  let '(secret, hash, prefix) := generate_token ρ in
  call (Repo.create_access_token uuid (str_trim (tc_name req)) u (tc_machine_account_uuid req)
          (tc_project_uuid req) (scopes_to_json (tc_scopes req)) hash prefix effective_expiry now);;
  call (audit_org_event (Some u) (Some u) "token_create" "access_token" (Some uuid)
          (Some (String.append "prefix:" prefix)) None now);;
  mret (mkTokenCreated secret uuid effective_expiry).

Definition get_token (ρ : Env) (auth uuid : string) : handler AccessToken :=
  u ← auth_user ρ auth;
  o ← call (Repo.get_access_token uuid u);
  row ← ok_or not_found o;
  mret (to_response row).

Definition revoke_token (ρ : Env) (auth uuid : string) : handler unit :=
  u ← auth_user ρ auth;
  ok ← call (Repo.revoke_access_token uuid u (now_ms ρ));
  guard_err (negb ok) not_found;;
  call (audit_org_event (Some u) (Some u) "token_revoke" "access_token" (Some uuid) None None (now_ms ρ)).
End Tokens.

(** ** handlers/machine_accounts.rs *)
Module Machine.
Record CreateRequest := mkCreate {
  mc_name : string; mc_description : option string; mc_project_uuid : option string;
  mc_scopes : list string; mc_expires_at : option Z }.

Record UpdateRequest := mkUpdate {
  mu_name : option string; mu_description : option string; mu_status : option string;
  mu_scopes : option (list string); mu_expires_at : option Z }.

Record MachineAccount := mkMachineAccount {
  mv_uuid : string; mv_name : string; mv_description : option string;
  mv_project_uuid : option string; mv_status : string; mv_scopes : list string;
  mv_expires_at : option Z; mv_last_used_at : option Z; mv_created_at : Z }.

Section Machine.
Context `{Ext}.

Definition to_response (row : MachineAccountRow) : MachineAccount :=
  mkMachineAccount (ma_uuid row) (ma_name row) (ma_description row) (ma_project_uuid row)
    (ma_status row) (scopes_from_json (ma_scopes row)) (ma_expires_at row)
    (ma_last_used_at row) (ma_created_at row).

Definition list_machine_accounts (ρ : Env) (auth : string) : handler (list MachineAccount) :=
  u ← auth_user ρ auth;
  l ← call (Repo.list_machine_accounts u);
  mret (to_response <$> l).

Definition create_machine_account (ρ : Env) (auth : string) (req : CreateRequest)
    : handler MachineAccount :=
  u ← auth_user ρ auth;
  let name := str_trim (mc_name req) in
  guard_err (bool_decide (name = "")) (Api.bad_request "invalid_name");;
  guard_err (bool_decide (128 < String.length name)) (Api.bad_request "invalid_name");;
  guard_err (bool_decide (mc_scopes req = [])) (unprocessable "invalid_scopes");;
  guard_err (negb (validate_scopes (mc_scopes req))) (unprocessable "invalid_scopes");;
  guard_err (expired ρ (mc_expires_at req)) (Api.bad_request "invalid_expiry");;
  let uuid := fresh ρ 0 in
  let now := now_ms ρ in
  call (Repo.create_machine_account uuid name (mc_description req) u (mc_project_uuid req)
          (scopes_to_json (mc_scopes req)) (mc_expires_at req) now);;
  call (audit_org_event (Some u) (Some u) "machine_account_create" "machine_account"
          (Some uuid) (Some (String.append "name:" name)) None now);;
  o ← call (Repo.get_machine_account uuid u);
  row ← ok_or Api.internal o;
  mret (to_response row).

Definition get_machine_account (ρ : Env) (auth uuid : string) : handler MachineAccount :=
  u ← auth_user ρ auth;
  o ← call (Repo.get_machine_account uuid u);
  row ← ok_or not_found o;
  mret (to_response row).

Definition update_machine_account (ρ : Env) (auth uuid : string) (req : UpdateRequest)
    : handler MachineAccount :=
  u ← auth_user ρ auth;
  o ← call (Repo.get_machine_account uuid u);
  current ← ok_or not_found o;
  let name := default (ma_name current) (mu_name req) in
  guard_err (bool_decide (str_trim name = "")) (Api.bad_request "invalid_name");;
  let description :=
    match mu_description req with Some x => Some x | None => ma_description current end in
  let status := default (ma_status current) (mu_status req) in
  guard_err (negb (bool_decide (status ∈ ["active"; "disabled"; "revoked"])))
    (unprocessable "invalid_status");;
  new_scopes ←
    match mu_scopes req with
    | Some s =>
        guard_err (bool_decide (s = [])) (unprocessable "invalid_scopes");;
        guard_err (negb (validate_scopes s)) (unprocessable "invalid_scopes");;
        mret s
    | None => mret (scopes_from_json (ma_scopes current))
    end;
  let expires := match mu_expires_at req with Some x => Some x | None => ma_expires_at current end in
  guard_err (expired ρ expires) (Api.bad_request "invalid_expiry");;
  ok ← call (Repo.update_machine_account uuid u name description status
               (scopes_to_json new_scopes) expires);
  guard_err (negb ok) not_found;;
  call (audit_org_event (Some u) (Some u) "machine_account_update" "machine_account"
          (Some uuid) (Some (String.append "status:" status)) None (now_ms ρ));;
  o ← call (Repo.get_machine_account uuid u);
  row ← ok_or not_found o;
  mret (to_response row).

Definition delete_machine_account (ρ : Env) (auth uuid : string) : handler unit :=
  u ← auth_user ρ auth;
  ok ← call (Repo.delete_machine_account uuid u);
  guard_err (negb ok) not_found;;
  call (audit_org_event (Some u) (Some u) "machine_account_delete" "machine_account"
          (Some uuid) None None (now_ms ρ)).
End Machine.
End Machine.

(** ** Which tokens authenticate *)
Section Verify.
Context `{Ext}.

Definition live_until (now : Z) (e : option Z) : Prop :=
  match e with Some e => (now < e)%Z | None => True end.

(** The token row is unrevoked and unexpired, and the machine account it is
    bound to, if any, is its owner's, active and unexpired. *)
Definition token_live (d : Db) (now : Z) (row : AccessTokenRow) : Prop :=
  at_revoked_at row = None ∧ live_until now (at_expires_at row) ∧
  match at_machine_account_uuid row with
  | None => True
  | Some m => ∃ ma, machine_accounts d !! m = Some ma ∧
                ma_owner_user_id ma = at_owner_user_id row ∧
                ma_status ma = "active" ∧ live_until now (ma_expires_at ma)
  end.

#[export] Instance live_until_dec now e : Decision (live_until now e).
Proof. destruct e; simpl; apply _. Defined.

#[export] Instance token_live_dec d now row : Decision (token_live d now row).
Proof.
  unfold token_live. apply and_dec; [apply _|]. apply and_dec; [apply _|].
  destruct (at_machine_account_uuid row) as [m|]; [|apply _].
  destruct (machine_accounts d !! m) as [ma|]; [|right; by intros (? & ? & _)].
  destruct (decide (ma_owner_user_id ma = at_owner_user_id row ∧ ma_status ma = "active" ∧
                    live_until now (ma_expires_at ma))) as [Hd|Hd]; [left | right]; naive_solver.
Defined.

Definition verified_of (row : AccessTokenRow) : VerifiedToken :=
  mkVerified (at_uuid row) (at_machine_account_uuid row) (at_project_uuid row)
    (scopes_from_json (at_scopes row)) (at_expires_at row).

(** The state after a successful verification: the last-used stamps. *)
Definition touched (now : Z) (row : AccessTokenRow) (d : Db) : Db :=
  let d1 := with_access_tokens (alter (set_at_last_used now) (at_uuid row)) d in
  match at_machine_account_uuid row with
  | Some m => with_machine_accounts (alter (set_ma_last_used now) m) d1
  | None => d1
  end.

Lemma expiry_check now e :
  match e with Some e => bool_decide (e ≤ now)%Z | None => false end = false ↔ live_until now e.
Proof. destruct e as [e|]; simpl; [|done]. rewrite bool_decide_eq_false. lia. Qed.

Lemma expiry_check_true now e :
  match e with Some e => bool_decide (e ≤ now)%Z | None => false end = true ↔ ¬ live_until now e.
Proof. rewrite <-expiry_check. by destruct (match e with Some _ => _ | None => _ end). Qed.

(** Verification is exactly liveness of the row the hash selects; a refusal
    is always 401 and writes nothing. *)
Lemma verify_run ρ tok d :
  match Repo.find_token (token_hash tok) d with
  | Some row => token_live d (now_ms ρ) row →
      verify_access_token ρ tok d = (touched (now_ms ρ) row d, Ok (verified_of row))
  | None => True
  end ∧
  ((∀ row, Repo.find_token (token_hash tok) d = Some row → ¬ token_live d (now_ms ρ) row) →
   verify_access_token ρ tok d = (d, Err Api.unauthorized)).
Proof.
  unfold verify_access_token, Repo.get_token_by_hash. run_step.
  destruct (Repo.find_token _ d) as [row|] eqn:Hf; simpl; [|done].
  unfold token_live, touched, verified_of. run_step.
  destruct (at_revoked_at row) eqn:Hr; simpl.
  { split; [intros (? & _); done | done]. }
  destruct (match at_expires_at row with Some _ => _ | None => _ end) eqn:He; simpl.
  { apply expiry_check_true in He. split; [naive_solver | done]. }
  apply expiry_check in He.
  destruct (at_machine_account_uuid row) as [m|] eqn:Hm; simpl; run_step.
  2: { split; [done|]. intros Hn. exfalso. eapply Hn; [done|]. by rewrite Hm. }
  unfold Repo.get_machine_account. run_step.
  destruct (machine_accounts d !! m) as [ma|] eqn:Hma; simpl.
  2: { split; [naive_solver | done]. }
  case_decide as Ho; simpl; [|split; [naive_solver | done]]. run_step.
  case_bool_decide as Hs; simpl; [|split; [naive_solver | done]]. run_step.
  destruct (match ma_expires_at ma with Some _ => _ | None => _ end) eqn:Hme; simpl.
  { apply expiry_check_true in Hme. split; [naive_solver | done]. }
  apply expiry_check in Hme. split; [done|]. intros Hn. exfalso. eapply Hn; [done|]. rewrite Hm. eauto 10.
Qed.

Lemma verify_ok ρ tok d row :
  Repo.find_token (token_hash tok) d = Some row → token_live d (now_ms ρ) row →
  verify_access_token ρ tok d = (touched (now_ms ρ) row d, Ok (verified_of row)).
Proof. intros Hf. pose proof (verify_run ρ tok d) as [Hv _]. by rewrite Hf in Hv. Qed.

Lemma verify_inv ρ tok d d' v :
  verify_access_token ρ tok d = (d', Ok v) →
  ∃ row, Repo.find_token (token_hash tok) d = Some row ∧ token_live d (now_ms ρ) row ∧
         d' = touched (now_ms ρ) row d ∧ v = verified_of row.
Proof.
  intros Hok. destruct (verify_run ρ tok d) as [Hv Hn].
  destruct (Repo.find_token _ d) as [row|] eqn:Hf.
  - destruct (decide (token_live d (now_ms ρ) row)) as [Hl|Hl].
    + exists row. rewrite Hv in Hok by done. naive_solver.
    + rewrite Hn in Hok; [done|]. by intros ? [= <-].
  - rewrite Hn in Hok; [done|]. by intros ? [=].
Qed.
End Verify.

(** ** Minting *)
Section Mint.
Context `{Ext}.

(** What [create_token] checked about the machine account it binds to. *)
Definition within_account (d : Db) (now : Z) (u : string) (req : TokenCreateRequest) : Prop :=
  match tc_machine_account_uuid req with
  | None => True
  | Some m => ∃ ma, machine_accounts d !! m = Some ma ∧ ma_owner_user_id ma = u ∧
      ma_status ma = "active" ∧ live_until now (ma_expires_at ma) ∧
      (∀ s, s ∈ tc_scopes req → s ∈ scopes_from_json (ma_scopes ma)) ∧
      (∀ mp, ma_project_uuid ma = Some mp → tc_project_uuid req = Some mp)
  end.

Definition minted_row (ρ : Env) (u : string) (req : TokenCreateRequest) : AccessTokenRow :=
  let '(_, hash, prefix) := generate_token ρ in
  mkToken (fresh ρ 0) (str_trim (tc_name req)) u (tc_machine_account_uuid req)
    (tc_project_uuid req) (scopes_to_json (tc_scopes req)) hash prefix
    (match tc_expires_at req with Some t => Some t | None => default_expiry ρ end)
    None None (now_ms ρ).

Lemma forallb_elem {A} `{EqDecision A} (l m : list A) :
  forallb (λ s, bool_decide (s ∈ m)) l = true ↔ ∀ s, s ∈ l → s ∈ m.
Proof.
  rewrite forallb_forall. setoid_rewrite <-list_elem_of_In.
  split; intros Hl s Hs; specialize (Hl s Hs); [by apply bool_decide_eq_true in Hl|].
  by apply bool_decide_eq_true.
Qed.

Lemma find_token_insert k row d :
  access_tokens d !! k = None →
  filter (λ r, at_token_hash r = at_token_hash row) (rows (access_tokens d)) = [] →
  Repo.find_token (at_token_hash row) (with_access_tokens (insert k row) d) = Some row.
Proof.
  intros Hk Hf. unfold Repo.find_token, rows in *.
  change (access_tokens (with_access_tokens ?f d)) with (f (access_tokens d)).
  assert (filter (λ r, at_token_hash r = at_token_hash row)
            (map_to_list (<[k:=row]> (access_tokens d))).*2 ≡ₚ [row]) as Hp.
  { rewrite map_to_list_insert, fmap_cons, filter_cons_True by done. by rewrite Hf. }
  apply Permutation_singleton_r in Hp. by rewrite Hp.
Qed.

Lemma get_machine_account_ok m u d d' o :
  Repo.get_machine_account m u d = (d', Ok o) →
  d' = d ∧ ∀ ma, o = Some ma → machine_accounts d !! m = Some ma ∧ ma_owner_user_id ma = u.
Proof.
  unfold Repo.get_machine_account. intros [-> ->]%gets_ok. split; [done|].
  intros ma. destruct (machine_accounts d !! m) as [r|]; simpl; [|done].
  case_decide; naive_solver.
Qed.

Lemma check_machine_account_ok ρ u req d d' b :
  check_machine_account ρ u req d = (d', Ok b) →
  d' = d ∧ ∀ m, tc_machine_account_uuid req = Some m →
    ∃ ma, machine_accounts d !! m = Some ma ∧ ma_owner_user_id ma = u ∧
      ma_status ma = "active" ∧ live_until (now_ms ρ) (ma_expires_at ma) ∧
      ∀ s, s ∈ tc_scopes req → s ∈ scopes_from_json (ma_scopes ma).
Proof.
  unfold check_machine_account. destruct (tc_machine_account_uuid req) as [m|].
  2: { intros [-> _]%ret_ok. done. }
  intros Hr. ok_step Hr. simplify_eq.
  apply get_machine_account_ok in Hr0 as [-> Hma]. destruct (Hma _ eq_refl) as [Hl Ho].
  split; [done|]. intros ? [= <-]. eexists. split_and!; [done..| | |].
  - apply negb_false_iff in Hr1. by apply bool_decide_eq_true in Hr1.
  - by apply expiry_check.
  - apply negb_false_iff in Hr4. by apply forallb_elem.
Qed.
Lemma check_project_binding_ok u req d d' b :
  check_project_binding u req d = (d', Ok b) →
  d' = d ∧ ∀ m ma mp, tc_machine_account_uuid req = Some m →
    machine_accounts d !! m = Some ma → ma_owner_user_id ma = u →
    ma_project_uuid ma = Some mp → tc_project_uuid req = Some mp.
Proof.
  unfold check_project_binding. destruct (tc_machine_account_uuid req) as [m|].
  2: { intros [-> _]%ret_ok. done. }
  intros (d0 & o & Hg%map_err_ok & Hr)%bind_ok. unfold Repo.get_machine_account in Hg.
  apply gets_ok in Hg as [-> ->].
  assert (d' = d) as ->.
  { destruct (_ ≫= _) as [ma|]; [|by apply ret_ok in Hr as [-> _]].
    destruct (ma_project_uuid ma), (tc_project_uuid req); ok_step Hr; naive_solver. }
  split; [done|]. intros ? ma mp [= <-] Hma Ho Hp.
  rewrite Hma in Hr. simpl in Hr. rewrite decide_True, Hp in Hr by done.
  destruct (tc_project_uuid req); [|done]. ok_step Hr.
  apply negb_false_iff, bool_decide_eq_true in Hr. by subst.
Qed.

Lemma create_token_ok ρ auth req d d' resp :
  create_token ρ auth req d = (d', Ok resp) →
  ∃ u f, session_valid d (now_ms ρ) auth u ∧
    validate_create ρ req = Ok () ∧
    within_account d (now_ms ρ) u req ∧
    filter (λ r, at_token_hash r = token_hash (tr_token resp)) (rows (access_tokens d)) = [] ∧
    access_tokens d !! fresh ρ 0 = None ∧
    d' = with_audit_log f (with_access_tokens (insert (fresh ρ 0) (minted_row ρ u req)) d) ∧
    resp = mkTokenCreated (b64url_encode (rand ρ 0)) (fresh ρ 0)
             (at_expires_at (minted_row ρ u req)).
Proof.
  unfold create_token, generate_token. intros Hr.
  apply bind_ok in Hr as (d0 & u & [-> Hv]%auth_user_ok & Hr).
  apply bind_ok in Hr as (d0 & [] & [-> Hval]%lift_ok & Hr).
  apply bind_ok in Hr as (d0 & [] & [-> H1]%check_machine_account_ok & Hr).
  apply bind_ok in Hr as (d1 & [] & [-> H2]%check_project_binding_ok & Hr).
  apply bind_ok in Hr as (d1 & [] & Hc%map_err_ok & Hr).
  apply bind_ok in Hr as (d2 & [] & Ha%map_err_ok & Hr).
  apply ret_ok in Hr as [-> ->]. apply audit_org_event_ok in Ha as [f ->].
  unfold Repo.create_access_token, require in Hc.
  apply bind_ok in Hc as (d2 & x & [-> ->]%gets_ok & Hc).
  apply bind_ok in Hc as (d2 & [] & [-> Hu]%guard_err_ok & Hc).
  apply insert_row_ok in Hc as (Hk & _ & ->).
  exists u, f. split_and!; try done.
  - unfold within_account. destruct (tc_machine_account_uuid req) as [m|]; [|done].
    destruct (H1 m eq_refl) as (ma & Hma & Ho & ? & ? & ?).
    exists ma. split_and!; try done. intros mp Hp. by eapply H2.
  - by apply negb_false_iff, bool_decide_eq_true in Hu.
Qed.
End Mint.

(** ** The row a hash selects *)

(** [row], stored under [k], is the one row with hash [h] (the column is
    UNIQUE). *)
Definition token_at (d : Db) (h k : string) (row : AccessTokenRow) : Prop :=
  access_tokens d !! k = Some row ∧ at_token_hash row = h ∧
  ∀ k' row', access_tokens d !! k' = Some row' → at_token_hash row' = h → k' = k.

Lemma find_token_elem d h row :
  Repo.find_token h d = Some row → at_token_hash row = h ∧ ∃ k, access_tokens d !! k = Some row.
Proof.
  unfold Repo.find_token, rows. intros Hf%head_Some_elem_of.
  apply list_elem_of_filter in Hf as [Hh Hin]. split; [done|].
  apply list_elem_of_fmap in Hin as ([k r] & -> & Hin%elem_of_map_to_list). eauto.
Qed.

Lemma find_token_at d h k row : token_at d h k row → Repo.find_token h d = Some row.
Proof.
  intros (Hk & Hh & Hu). destruct (Repo.find_token h d) as [row'|] eqn:Hf.
  - apply find_token_elem in Hf as [Hh' [k' Hk']]. pose proof (Hu _ _ Hk' Hh'). naive_solver.
  - exfalso. unfold Repo.find_token in Hf. apply head_None in Hf.
    assert (row ∈ filter (λ r, at_token_hash r = h) (rows (access_tokens d))) as Hin.
    { apply list_elem_of_filter. split; [done|]. unfold rows.
      apply list_elem_of_fmap. exists (k, row). by rewrite elem_of_map_to_list. }
    rewrite Hf in Hin. by apply not_elem_of_nil in Hin.
Qed.

Lemma token_at_fmap d d' h k row (f : AccessTokenRow → AccessTokenRow) :
  access_tokens d' = f <$> access_tokens d → (∀ r, at_token_hash (f r) = at_token_hash r) →
  token_at d h k row → token_at d' h k (f row).
Proof.
  intros Hd Hf (Hk & Hh & Hu). unfold token_at. rewrite Hd, lookup_fmap, Hk, Hf.
  split_and!; [done..|]. intros k' row'. rewrite lookup_fmap.
  intros (r & Hr & ->)%fmap_Some. rewrite Hf. eauto.
Qed.

(** Deleting an existing account of its owner. *)
Lemma delete_machine_run m ma d :
  machine_accounts d !! m = Some ma →
  ∃ d', Repo.delete_machine_account m (ma_owner_user_id ma) d = (d', Ok true) ∧
        access_tokens d' = unlink_ma (λ m', bool_decide (m' = m)) <$> access_tokens d ∧
        machine_accounts d' !! m = None ∧ users d' = users d.
Proof.
  intros Hma. unfold Repo.delete_machine_account, Repo.delete_machine_rows. run_step.
  set (P := λ kr : string * MachineAccountRow,
              bool_decide (kr.1 = m) && bool_decide (ma_owner_user_id kr.2 = ma_owner_user_id ma)).
  destruct (delete_where_some machine_accounts with_machine_accounts P m ma d Hma) as (n & Hn & Hd).
  { unfold P. simpl. by rewrite !bool_decide_true by done. }
  rewrite delete_where_run in Hd. injection Hd as Hn'. eexists. split.
  { f_equal. f_equal. apply bool_decide_eq_true. unfold P in Hn'. simpl in Hn'. lia. }
  split_and!; [| | done].
  - change (access_tokens (with_access_tokens ?f (with_machine_accounts ?g d)))
      with (f (access_tokens d)).
    apply map_eq. intros k. rewrite !lookup_fmap.
    destruct (access_tokens d !! k) as [r|]; simpl; [|done]. f_equal. unfold unlink_ma. f_equal.
    destruct (at_machine_account_uuid r) as [m'|]; [|done].
    case_bool_decide as Hm'; [subst; by rewrite Hma, bool_decide_true|].
    by destruct (machine_accounts d !! m').
  - change (machine_accounts (with_access_tokens ?f (with_machine_accounts ?g d)))
      with (g (machine_accounts d)).
    apply map_lookup_filter_None. right. intros r Hr. rewrite Hma in Hr. injection Hr as <-.
    unfold P. simpl. by rewrite !bool_decide_true.
Qed.

(** ** Revocation is final *)
Section Revocation.
Context `{Ext}.
Context (h : string).

(** The token with hash [h] is revoked, and no other row answers to [h]. *)
Definition revoked_hash (d : Db) : Prop :=
  ∃ k row, access_tokens d !! k = Some row ∧ at_token_hash row = h ∧
           is_Some (at_revoked_at row) ∧
           ∀ k' row', access_tokens d !! k' = Some row' → at_token_hash row' = h → k' = k.

Lemma revoked_hash_dead d tok ρ :
  token_hash tok = h → revoked_hash d →
  verify_access_token ρ tok d = (d, Err Api.unauthorized).
Proof.
  intros Ht (k & row & Hk & Hh & [t Hr] & Hu). destruct (verify_run ρ tok d) as [_ Hn].
  apply Hn. intros row' [Hh' [k' Hk']]%find_token_elem (Hrev & _).
  assert (k' = k) as -> by (apply (Hu _ _ Hk'); congruence). naive_solver.
Qed.

(** Row updates that keep hash and revocation keep the invariant. *)
Lemma revoked_hash_map d (f : string → AccessTokenRow → AccessTokenRow) d' :
  (∀ k, access_tokens d' !! k = f k <$> access_tokens d !! k) →
  (∀ k r, at_token_hash (f k r) = at_token_hash r) →
  (∀ k r, is_Some (at_revoked_at r) → is_Some (at_revoked_at (f k r))) →
  revoked_hash d → revoked_hash d'.
Proof.
  intros Hd Hf Hrev (k & row & Hk & Hh & Hr & Hu).
  exists k, (f k row). rewrite Hd, Hk, Hf. split_and!; [done..| |].
  - by apply Hrev.
  - intros k' row'. rewrite Hd. intros (r & Hr' & ->)%fmap_Some. rewrite Hf. eauto.
Qed.

Let R := preserves revoked_hash.

Lemma revoked_same d d' : access_tokens d' = access_tokens d → R d d'.
Proof. unfold R, preserves, revoked_hash. by intros ->. Qed.

Lemma revoked_audit f d : R d (with_audit_log f d).
Proof. by apply revoked_same. Qed.

Lemma revoked_update k f d :
  (∀ r, at_token_hash (f r) = at_token_hash r) →
  (∀ r, is_Some (at_revoked_at r) → is_Some (at_revoked_at (f r))) →
  R d (with_access_tokens (alter f k) d).
Proof.
  intros Hh Hr. unfold R, preserves.
  apply (revoked_hash_map _ (λ k' r, if decide (k' = k) then f r else r)).
  - intros k'. change (access_tokens (with_access_tokens ?g d)) with (g (access_tokens d)).
    destruct (decide (k' = k)) as [->|Hne].
    + rewrite lookup_alter, decide_True by done. done.
    + rewrite lookup_alter_ne by done. by destruct (_ !! k').
  - intros k' r. case_decide; auto.
  - intros k' r. case_decide; auto.
Qed.

Lemma steps_touch_token k t : steps R (Repo.touch_access_token k t).
Proof. intros d. simpl. apply revoked_update; intros r; [done | by intros ?]. Qed.

Lemma steps_revoke k u t : steps R (Repo.revoke_access_token k u t).
Proof.
  unfold Repo.revoke_access_token, Repo.get_access_token. steps_tac.
  intros d. simpl. apply revoked_update; intros r; [done | by eexists].
Qed.

Lemma steps_touch_machine k t : steps R (Repo.touch_machine_account k t).
Proof. intros d. by apply revoked_same. Qed.

Lemma steps_create k n o m p s h' pre e t :
  steps R (Repo.create_access_token k n o m p s h' pre e t).
Proof.
  intros d (k0 & row & Hk & Hh & Hr & Hu). unfold Repo.create_access_token, require. run_step.
  destruct (decide (h' = h)) as [->|Hne].
  { rewrite bool_decide_false; [simpl; by exists k0, row|]. intros Hnil.
    assert (row ∈ filter (λ r, at_token_hash r = h) (rows (access_tokens d))) as Hin.
    { apply list_elem_of_filter. split; [done|]. unfold rows.
      apply list_elem_of_fmap. exists (k0, row). by rewrite elem_of_map_to_list. }
    rewrite Hnil in Hin. by apply not_elem_of_nil in Hin. }
  case_bool_decide; simpl; [|by exists k0, row]. rewrite insert_row_run.
  destruct (access_tokens d !! k) eqn:Hkk; simpl; [by exists k0, row|].
  destruct (Repo.token_fk _ _ _); simpl; [|by exists k0, row].
  exists k0, row. change (access_tokens (with_access_tokens ?g d)) with (g (access_tokens d)).
  assert (k0 ≠ k) by congruence. rewrite lookup_insert_ne by done. split_and!; [done..|].
  intros k' row' [(<- & <-)|(? & ?)]%lookup_insert_Some; [done | eauto].
Qed.

Lemma steps_delete_machine P : steps R (Repo.delete_machine_rows P).
Proof.
  intros d. unfold Repo.delete_machine_rows. run_step. unfold R, preserves.
  apply (revoked_hash_map _ (λ _, unlink_ma (λ m, match machine_accounts d !! m with
                                        | Some r => P m r | None => false end))).
  - intros k. apply lookup_fmap.
  - done.
  - done.
Qed.

Lemma steps_machine_table (f : gmap string MachineAccountRow → gmap string MachineAccountRow) d :
  R d (with_machine_accounts f d).
Proof. by apply revoked_same. Qed.
End Revocation.

#[export] Hint Resolve steps_touch_token steps_revoke steps_touch_machine steps_create
  steps_delete_machine steps_machine_table revoked_audit steps_audit : steps.

(** ** Sequences of requests on these routes *)
Inductive TokenRequest :=
| RVerify (token : string)
| RCreateToken (auth : string) (req : TokenCreateRequest)
| RRevokeToken (auth uuid : string)
| RCreateMachine (auth : string) (req : Machine.CreateRequest)
| RUpdateMachine (auth uuid : string) (req : Machine.UpdateRequest)
| RDeleteMachine (auth uuid : string).

Section Trace.
Context `{Ext}.

Definition serve_token (ρ : Env) (r : TokenRequest) (d : Db) : Db :=
  match r with
  | RVerify tok => (auth_any ρ tok d).1
  | RCreateToken auth req => (create_token ρ auth req d).1
  | RRevokeToken auth uuid => (revoke_token ρ auth uuid d).1
  | RCreateMachine auth req => (Machine.create_machine_account ρ auth req d).1
  | RUpdateMachine auth uuid req => (Machine.update_machine_account ρ auth uuid req d).1
  | RDeleteMachine auth uuid => (Machine.delete_machine_account ρ auth uuid d).1
  end.

Definition serve_tokens (l : list (Env * TokenRequest)) (d : Db) : Db :=
  foldl (λ d ρr, serve_token ρr.1 ρr.2 d) d l.

Lemma steps_verify h ρ tok : steps (preserves (revoked_hash h)) (verify_access_token ρ tok).
Proof.
  unfold verify_access_token, Repo.get_token_by_hash, Repo.get_machine_account. steps_tac.
Qed.

Lemma serve_token_preserves h ρ r d :
  revoked_hash h d → revoked_hash h (serve_token ρ r d).
Proof.
  pose proof (steps_verify h) as Hver.
  assert (∀ {A} (m : handler A), steps (preserves (revoked_hash h)) m →
            revoked_hash h d → revoked_hash h (m d).1) as Hgo by (intros A m Hm; apply Hm).
  destruct r; simpl; apply Hgo.
  - unfold auth_any, Repo.get_access_token_owner. steps_tac.
  - unfold create_token, check_machine_account, check_project_binding, Repo.get_machine_account,
      generate_token. steps_tac.
  - unfold revoke_token. steps_tac.
  - unfold Machine.create_machine_account, Repo.create_machine_account, insert_row, require,
      Repo.get_machine_account. steps_tac. apply steps_modify. auto with steps.
  - unfold Machine.update_machine_account, Repo.update_machine_account, update_key, require,
      Repo.get_machine_account. steps_tac; apply steps_modify; auto with steps.
  - unfold Machine.delete_machine_account, Repo.delete_machine_account. steps_tac.
Qed.
End Trace.

(** ** Properties *)
Section TokenTheorems.
Context `{Ext}.

(** C32. Verification accepts a bearer token exactly when its hash selects a
    row that is unrevoked, unexpired and, when bound to a machine account,
    bound to an active unexpired account of the same owner; what it returns
    are the row's scopes and project binding.  Every refusal is a 401 that
    writes nothing. *)
Theorem verify_access_token_exact ρ tok d :
  (∀ v, (verify_access_token ρ tok d).2 = Ok v ↔
     ∃ row, Repo.find_token (token_hash tok) d = Some row ∧ token_live d (now_ms ρ) row ∧
            v = verified_of row) ∧
  (∀ e, (verify_access_token ρ tok d).2 = Err e →
     e = Api.unauthorized ∧ (verify_access_token ρ tok d).1 = d).
Proof.
  destruct (verify_access_token ρ tok d) as [d' [v|e]] eqn:Hv; simpl; split.
  - intros v'. split.
    + intros [= <-]. apply verify_inv in Hv as (row & ? & ? & _ & ->). eauto.
    + intros (row & Hf & Hl & ->). rewrite (verify_ok _ _ _ _ Hf Hl) in Hv. by injection Hv as _ <-.
  - done.
  - intros v'. split; [done|]. intros (row & Hf & Hl & ->).
    by rewrite (verify_ok _ _ _ _ Hf Hl) in Hv.
  - intros e' [= <-]. destruct (verify_run ρ tok d) as [Hok Hn].
    rewrite Hn in Hv; [by injection Hv as <- <-|]. intros row Hf Hl. rewrite Hf in Hok.
    by rewrite Hok in Hv.
Qed.

(** A minted token never exceeds its issuer's grant: its row belongs to
    the authenticated caller, its scopes are the requested ones, all known
    and at least one, and when it is bound to a machine account that account
    is the caller's, active and unexpired, holds every one of the scopes and,
    if it is bound to a project, the token is bound to the same project. *)
Theorem minted_token_within_grant ρ auth req d d' resp :
  create_token ρ auth req d = (d', Ok resp) →
  ∃ u row, session_valid d (now_ms ρ) auth u ∧
    access_tokens d' !! tr_token_id resp = Some row ∧ at_owner_user_id row = u ∧
    at_machine_account_uuid row = tc_machine_account_uuid req ∧
    at_project_uuid row = tc_project_uuid req ∧
    at_scopes row = scopes_to_json (tc_scopes req) ∧
    at_token_hash row = token_hash (tr_token resp) ∧
    tc_scopes req ≠ [] ∧ (∀ s, s ∈ tc_scopes req → s ∈ VALID_SCOPES) ∧
    within_account d (now_ms ρ) u req.
Proof.
  intros (u & f & Hv & Hval & Hw & _ & _ & -> & ->)%create_token_ok.
  exists u, (minted_row ρ u req). simpl. rewrite lookup_insert, decide_True by done.
  unfold validate_create in Hval.
  repeat case_bool_decide; simplify_eq/=.
  destruct (negb (validate_scopes (tc_scopes req))) eqn:Hs; [done|].
  apply negb_false_iff in Hs. unfold validate_scopes in Hs. rewrite forallb_elem in Hs. split_and!; done.
Qed.

(** Mint, then verify: the secret handed out once is accepted as long as
    it has not expired, with exactly the requested scopes and project. *)
Theorem mint_verify_roundtrip `{!ExtLaws} ρ auth req d d' resp :
  create_token ρ auth req d = (d', Ok resp) →
  live_until (now_ms ρ) (tr_expires_at resp) →
  ∃ v, (verify_access_token ρ (tr_token resp) d').2 = Ok v ∧
       token_id v = tr_token_id resp ∧ scopes v = tc_scopes req ∧
       project_uuid v = tc_project_uuid req ∧
       machine_account_uuid v = tc_machine_account_uuid req.
Proof.
  intros (u & f & Hv & Hval & Hw & Hfresh & Hk & -> & ->)%create_token_ok Hl. simpl in Hl.
  eexists. split.
  - erewrite verify_ok; [reflexivity | |].
    + exact (find_token_insert _ (minted_row ρ u req) d Hk Hfresh).
    + unfold token_live. split_and!; [done | done |]. unfold within_account in Hw. simpl.
      destruct (tc_machine_account_uuid req) as [m|]; [|done].
      destruct Hw as (ma & ? & ? & ? & ? & _). exists ma. done.
  - simpl. split_and!; try done. destruct (json_roundtrip (tc_scopes req)) as (j & Hj & Hj').
    unfold scopes_to_json, scopes_from_json. by rewrite Hj; simpl; rewrite Hj'.
Qed.

(** The minted secret is no bearer token for the routes that accept
    machine accounts: [auth_any] recognises a machine token by the prefix
    "vtr-ak-", which [generate_token] never prepends, so a freshly minted
    token whose random text does not start with these seven characters is
    looked up as a session and refused, although [verify_access_token]
    itself would accept it. *)
Theorem minted_token_not_a_bearer ρ auth req d d' resp :
  create_token ρ auth req d = (d', Ok resp) →
  starts_with "vtr-ak-" (tr_token resp) = false →
  sessions d !! hash_session_token (tr_token resp) = None →
  (∀ ρ', auth_any ρ' (tr_token resp) d' = (d', Err Api.unauthorized)) ∧
  (live_until (now_ms ρ) (tr_expires_at resp) →
   is_ok (verify_access_token ρ (tr_token resp) d').2 = true).
Proof.
  intros (u & f & Hv & Hval & Hw & Hfresh & Hk & -> & ->)%create_token_ok Hp Hs. simpl in *.
  split.
  - intros ρ'. unfold auth_any. simpl. rewrite Hp. unfold auth_user, get_session. run_step.
    change (sessions (with_audit_log f (with_access_tokens ?g d))) with (sessions d).
    by rewrite Hs.
  - intros Hl. erewrite verify_ok; [reflexivity | |].
    + exact (find_token_insert _ (minted_row ρ u req) d Hk Hfresh).
    + unfold token_live. split_and!; [done | done |]. unfold within_account in Hw. simpl.
      destruct (tc_machine_account_uuid req) as [m|]; [|done].
      destruct Hw as (ma & ? & ? & ? & ? & _). exists ma. done.
Qed.

(** Revocation is final: once its row is revoked, a token is refused
    after any sequence of requests on the token and machine-account routes,
    from any callers. *)
Theorem revoked_token_never_authenticates d tok row k l ρ :
  token_at d (token_hash tok) k row →
  is_Some (at_revoked_at row) →
  (verify_access_token ρ tok (serve_tokens l d)).2 = Err Api.unauthorized.
Proof.
  intros (Hk & Hh & Hu) Hr. assert (revoked_hash (token_hash tok) d) as Hi by (by exists k, row).
  assert (revoked_hash (token_hash tok) (serve_tokens l d)) as Hi'.
  { clear Hk Hu. revert d Hi. induction l as [|[ρ' r] l IH]; intros d Hi; simpl; [done|].
    apply IH. by apply serve_token_preserves. }
  by rewrite (revoked_hash_dead (token_hash tok)).
Qed.


(** Deleting a machine account re-enables its tokens: a token refused
    because its account is disabled or revoked is accepted once the owner has
    deleted that account, since the foreign key only unlinks the token's
    row and an unlinked token is checked against no account. *)
Theorem deleted_account_revives_tokens ρ auth owner tok k row m ma d :
  session_valid d (now_ms ρ) auth owner → is_Some (users d !! owner) →
  token_at d (token_hash tok) k row →
  at_machine_account_uuid row = Some m → machine_accounts d !! m = Some ma →
  ma_owner_user_id ma = owner → ma_status ma ≠ "active" →
  at_revoked_at row = None → live_until (now_ms ρ) (at_expires_at row) →
  let '(d', r) := Machine.delete_machine_account ρ auth m d in
  (verify_access_token ρ tok d).2 = Err Api.unauthorized ∧
  r = Ok () ∧ machine_accounts d' !! m = None ∧
  ∃ v, (verify_access_token ρ tok d').2 = Ok v ∧ scopes v = scopes_from_json (at_scopes row).
Proof.
  intros Hv Hu Ht Hm Hma Ho Hst Hr Hl.
  destruct (delete_machine_run m ma d Hma) as (d' & Hdel & Hat & Hmas & Hus).
  unfold Machine.delete_machine_account. rewrite auth_user_ok_bind with (uid:=owner) by done.
  subst owner. run_next. rewrite Hdel. cbn [map_res]. run_next. cbn [negb]. cbv beta iota.
  destruct (audit_org_event_run (Some (ma_owner_user_id ma)) (Some (ma_owner_user_id ma))
    "machine_account_delete" "machine_account" (Some m) None None (now_ms ρ) d') as [f ->].
  { simpl. unfold has_user. rewrite Hus. by apply bool_decide_eq_true. }
  simpl. set (d2 := with_audit_log f d').
  assert (token_at d2 (token_hash tok) k (unlink_ma (λ m', bool_decide (m' = m)) row)) as Ht2.
  { by apply (token_at_fmap d); [| |]. }
  split_and!; [ | done | exact Hmas | ].
  - destruct (verify_run ρ tok d) as [_ Hn]. rewrite Hn; [done|].
    rewrite (find_token_at _ _ _ _ Ht). intros ? [= <-] (_ & _ & Hlv). rewrite Hm in Hlv.
    destruct Hlv as (ma' & Hma' & _ & Ha & _). congruence.
  - rewrite (verify_ok ρ tok d2 (unlink_ma (λ m', bool_decide (m' = m)) row)).
    + eexists. split; [reflexivity | done].
    + by eapply find_token_at.
    + unfold token_live. simpl. rewrite Hm, bool_decide_true by done. done.
Qed.
End TokenTheorems.

(** ** Concrete instances *)
Section TokenWitnesses.
#[local] Existing Instance Concrete.toy_ext.

Definition ma_demo (status : string) : MachineAccountRow :=
  mkMachine "m1" "ci" None "alice" (Some "p1") status
    (scopes_to_json ["secrets:read"; "projects:read"]) None None 0.

Definition token_demo : Db :=
  Concrete.demo_session "sess" "alice" 1000
    (with_machine_accounts (insert "m1" (ma_demo "active")) Concrete.demo_db).

Definition req_demo : TokenCreateRequest :=
  mkTokenCreate " deploy " (Some "m1") (Some "p1") ["secrets:read"] (Some 500%Z).

Definition minted_demo : Db * result ApiError TokenCreateResponse :=
  create_token (Concrete.demo_env 100) "sess" req_demo token_demo.

Definition resp_demo : TokenCreateResponse :=
  mkTokenCreated "AAAAAAAAAAAAAAAAAAAAAAAAAAAAAAAA" "n0" (Some 500%Z).

Lemma minted_token_within_grant_witness :
  minted_demo = (minted_demo.1, Ok resp_demo) ∧
  ∃ row, access_tokens minted_demo.1 !! "n0" = Some row ∧ at_owner_user_id row = "alice".
Proof.
  assert (minted_demo = (minted_demo.1, Ok resp_demo)) as Hm by (vm_compute; reflexivity).
  split; [exact Hm|].
  destruct (minted_token_within_grant _ _ _ _ _ _ Hm) as (u & row & Hv & Hr & Ho & _).
  exists row. split; [exact Hr|]. rewrite Ho. eapply session_valid_fun; [exact Hv|].
  eexists. split_and!; [vm_compute; reflexivity | reflexivity | vm_compute; discriminate |].
  intros w until Hw. vm_compute in Hw. by injection Hw as <-.
Defined.

Lemma mint_verify_roundtrip_witness :
  ∃ v, (verify_access_token (Concrete.demo_env 100) "AAAAAAAAAAAAAAAAAAAAAAAAAAAAAAAA"
          minted_demo.1).2 = Ok v ∧ scopes v = ["secrets:read"].
Proof.
  assert (minted_demo = (minted_demo.1, Ok resp_demo)) as Hm by (vm_compute; reflexivity).
  destruct (mint_verify_roundtrip _ _ _ _ _ _ Hm) as (v & Hv & _ & Hs & _);
    [vm_compute; reflexivity|].
  exists v. split; [exact Hv | exact Hs].
Defined.

Lemma minted_token_not_a_bearer_witness :
  (auth_any (Concrete.demo_env 100) (tr_token resp_demo) minted_demo.1).2 = Err Api.unauthorized ∧
  is_ok (verify_access_token (Concrete.demo_env 100) (tr_token resp_demo) minted_demo.1).2 = true.
Proof.
  assert (minted_demo = (minted_demo.1, Ok resp_demo)) as Hm by (vm_compute; reflexivity).
  destruct (minted_token_not_a_bearer _ _ _ _ _ _ Hm) as [Ha Hv]; [reflexivity.. |].
  split; [by rewrite Ha | apply Hv; vm_compute; reflexivity].
Defined.

Definition row_demo (revoked : option Z) : AccessTokenRow :=
  mkToken "t1" "deploy" "alice" (Some "m1") (Some "p1") (scopes_to_json ["secrets:read"])
    (token_hash "secret") "secret" None revoked None 0.

Definition token_demo2 (status : string) (revoked : option Z) : Db :=
  with_access_tokens (insert "t1" (row_demo revoked))
    (with_machine_accounts (insert "m1" (ma_demo status)) token_demo).

Lemma token_demo2_at status revoked :
  token_at (token_demo2 status revoked) (token_hash "secret") "t1" (row_demo revoked).
Proof.
  split_and!; [reflexivity.. |]. intros k' row' Hk _.
  change (<["t1" := row_demo revoked]> (∅ : gmap string AccessTokenRow) !! k' = Some row') in Hk.
  apply lookup_insert_Some in Hk as [[<- _]|[_ Hk]]; [done|]. by apply lookup_empty_Some in Hk.
Qed.

Lemma revoked_token_never_authenticates_witness :
  (verify_access_token (Concrete.demo_env 200) "secret"
     (serve_tokens [(Concrete.demo_env 150, RDeleteMachine "sess" "m1")]
        (token_demo2 "active" (Some 90%Z)))).2 = Err Api.unauthorized.
Proof.
  apply (revoked_token_never_authenticates _ _ (row_demo (Some 90%Z)) "t1").
  - exact (token_demo2_at "active" (Some 90%Z)).
  - by eexists.
Defined.

Lemma session_demo_valid : session_valid (token_demo2 "disabled" None) 100 "sess" "alice".
Proof.
  eexists. split_and!; [vm_compute; reflexivity | reflexivity | vm_compute; discriminate |].
  intros w until Hw. vm_compute in Hw. by injection Hw as <-.
Qed.

Lemma deleted_account_revives_tokens_witness :
  (verify_access_token (Concrete.demo_env 100) "secret" (token_demo2 "disabled" None)).2
    = Err Api.unauthorized ∧
  is_ok (verify_access_token (Concrete.demo_env 100) "secret"
    (Machine.delete_machine_account (Concrete.demo_env 100) "sess" "m1"
       (token_demo2 "disabled" None)).1).2 = true.
Proof.
  pose proof (deleted_account_revives_tokens (Concrete.demo_env 100) "sess" "alice" "secret"
    "t1" (row_demo None) "m1" (ma_demo "disabled") (token_demo2 "disabled" None)
    session_demo_valid ltac:(by eexists) (token_demo2_at _ _) eq_refl
    ltac:(vm_compute; reflexivity) eq_refl ltac:(done) eq_refl I) as Hw.
  destruct (Machine.delete_machine_account _ _ _ _) as [d' r].
  destruct Hw as (Hb & _ & _ & v & Hv & _). split; [exact Hb | cbn [fst]; by rewrite Hv].
Defined.
End TokenWitnesses.
