(* ===== verification/Sync.v ===== *)
(** * Sync and item handlers

    Models [handlers/sync.rs] (pull, pull-payloads, push-batch) and
    [handlers/items.rs] (put, delete) over the item store, and proves the
    synchronisation protocol: no lost update, a complete change feed, complete
    pagination, tenant isolation. *)
From S2P Require Import Prelude Domain Database Concrete Users Items Tokens.

(** ** handlers/sync.rs: requests and responses *)

Record PullQuery := mkPullQuery { pq_cursor : Z; pq_limit : option Z }.

Record PullItem := mkPullItem {
  pi_uuid : string; pi_version : Z; pi_enc_key_gen : Z; pi_deleted_date : option Z }.

Record PullResp := mkPullResp {
  pr_new_cursor : Z; pr_has_more : bool; pr_min_enc_key_gen : Z; pr_items : list PullItem }.

Record PullTarget := mkPullTarget { pt_uuid : string; pt_version : Z }.

Record PayloadResult := mkPayloadResult {
  py_uuid : string; py_status : string; py_version : Z; py_enc_key_gen : Z;
  py_deleted_date : option Z; py_payload : option string }.

Record PushItem := mkPushItem {
  ph_uuid : string; ph_target_version : Z; ph_enc_key_gen : Z;
  ph_payload : option string; ph_deleted_date : option Z }.

Record ServerState := mkServerState { ss_version : Z; ss_enc_key_gen : Z }.

Record PushResult := mkPushResult {
  ps_uuid : string; ps_status : string; ps_version : option Z; ps_enc_key_gen : option Z;
  ps_updated_at : option Z; ps_current_server_state : option ServerState }.

(** ** handlers/items.rs *)
Record ItemPutReq := mkItemPutReq { ip_enc_key_gen : Z; ip_payload : string }.
Record ItemPutResp := mkItemPutResp {
  ir_uuid : string; ir_version : Z; ir_enc_key_gen : Z; ir_updated_at : Z }.

(** An [unwrap] on [None]: the request dies without a response. *)
Definition panic : ApiError := mkApiError 500 "panic".

(** ** Reading the feed *)

(** [SELECT * FROM items WHERE user_id = ?]. *)
Definition user_items (u : string) (d : Db) : list ItemRow :=
  (filter (λ kr : ItemKey * ItemRow, kr.1.2 = u) (map_to_list (items d))).*2.

Definition seq_key (r : ItemRow) : Z := default 0%Z (i_seq r).

Definition after_cursor (c : Z) (r : ItemRow) : bool :=
  match i_seq r with Some s => bool_decide (c < s)%Z | None => false end.

(** [... AND seq IS NOT NULL AND seq > ? ORDER BY seq ASC]. *)
Definition feed (u : string) (c : Z) (d : Db) : list ItemRow :=
  sort_asc seq_key (filter (λ r, after_cursor c r = true) (user_items u d)).

(** [SELECT MIN(seq) FROM items WHERE user_id = ? AND seq IS NOT NULL]. *)
Definition min_seq (u : string) (d : Db) : option Z :=
  match user_seqs u d with
  | [] => None
  | s :: l => Some (foldr Z.min s l)
  end.

Definition pull_item (r : ItemRow) : PullItem :=
  mkPullItem (i_uuid r) (i_version r) (i_enc_key_gen r) (i_deleted_date r).

Section Handlers.
Context `{Ext}.

Definition sync_pull (ρ : Env) (q : PullQuery) (auth : string) : handler PullResp :=
  caller ← auth_any ρ auth;
  (if is_machine_token caller
   then lift (require_any_scope caller ["secrets:read"; "projects:read"]) else mret ());;
  let u := user_id caller in
  g ← call (min_enc_key_gen u);
  let min_gen := default 1%Z g in
  let limit := default 100%Z (pq_limit q) in
  guard_err (bool_decide (limit = 0%Z) || bool_decide (1000 < limit)%Z)
    (Api.bad_request "payload_limit_exceeded");;
  m ← gets (min_seq u);
  guard_err (match m with
             | Some m => bool_decide (as_i64 (pq_cursor q) < i64_saturating_sub m 1)%Z
             | None => false
             end) (mkApiError 410 "cursor_expired");;
  let limit_i := limit in
  rows ← gets (λ d, take (Z.to_nat (limit_i + 1)) (feed u (as_i64 (pq_cursor q)) d));
  let has_more := bool_decide (limit_i < Z.of_nat (length rows))%Z in
  let items_taken := take (Z.to_nat limit) rows in
  let new_cursor :=
    match list.last items_taken ≫= i_seq with
    | Some s => as_u64 s
    | None => pq_cursor q
    end in
  mret (mkPullResp new_cursor has_more min_gen (pull_item <$> items_taken)).

Definition pull_payload (u : string) (target : PullTarget) : handler PayloadResult :=
  row ← call (get_item (pt_uuid target) u);
  mret (match row with
        | Some r =>
            if bool_decide (as_u64 (i_version r) = pt_version target) then
              mkPayloadResult (i_uuid r) "payload_delivered" (i_version r) (i_enc_key_gen r)
                (i_deleted_date r) (b64_encode <$> i_payload r)
            else
              mkPayloadResult (i_uuid r) "version_mismatch" (i_version r) (i_enc_key_gen r)
                (i_deleted_date r) None
        | None => mkPayloadResult (pt_uuid target) "version_mismatch" 0 0 None None
        end).

Definition sync_pull_payloads (ρ : Env) (auth : string) (targets : list PullTarget)
    : handler (list PayloadResult) :=
  u ← auth_user ρ auth;
  guard_err (bool_decide (100 < length targets)) (Api.bad_request "payload_limit_exceeded");;
  mapM (pull_payload u) targets.

Definition epoch_too_old (uuid : string) : PushResult :=
  mkPushResult uuid "epoch_too_old" None None None None.

(** [uuid.parse().unwrap_or_default()]. *)
Definition parse_or_nil (uuid : string) : Uuid := default nil_uuid (uuid_parse uuid).

(** One iteration of the loop of [sync_push_batch]. *)
Definition push_item (u : string) (now : Z) (item : PushItem) : handler PushResult :=
  g ← call (min_enc_key_gen u);
  let min_gen := default 1%Z g in
  if bool_decide (ph_enc_key_gen item < as_u64 min_gen)%Z then mret (epoch_too_old (ph_uuid item))
  else
    payload ← match ph_payload item with
              | Some p => b ← decode_b64 p; mret (Some b)
              | None => mret None
              end;
    outcome ← call (upsert_item_occ (ph_uuid item) u (as_i64 (ph_target_version item))
                      (as_i64 (ph_enc_key_gen item)) payload (ph_deleted_date item) now);
    match outcome with
    | Updated =>
        o ← call (get_item (ph_uuid item) u);
        row ← ok_or panic o;
        mret (mkPushResult (ph_uuid item) "success" (Some (i_version row))
                (Some (i_enc_key_gen row)) (Some (i_updated_at row)) None)
    | Recovered =>
        publish (ItemRecovered u (parse_or_nil (ph_uuid item)));;
        o ← call (get_item (ph_uuid item) u);
        row ← ok_or panic o;
        mret (mkPushResult (ph_uuid item) "success" (Some (i_version row))
                (Some (i_enc_key_gen row)) (Some (i_updated_at row)) None)
    | Conflict =>
        row ← call (get_item (ph_uuid item) u);
        mret (mkPushResult (ph_uuid item) "conflict" None None None
                ((λ r, mkServerState (i_version r) (i_enc_key_gen r)) <$> row))
    | EpochTooOld => mret (epoch_too_old (ph_uuid item))
    end.

Definition sync_push_batch (ρ : Env) (auth : string) (batch : list PushItem)
    : handler (list PushResult) :=
  u ← auth_user ρ auth;
  guard_err (bool_decide (100 < length batch)) (Api.bad_request "payload_limit_exceeded");;
  mapM (push_item u (now_ms ρ)) batch.

Definition item_put (ρ : Env) (uuid auth : string) (req : ItemPutReq) : handler ItemPutResp :=
  u ← auth_user ρ auth;
  o ← call (get_item uuid u);
  row ← ok_or not_found o;
  let target := as_u64 (i_version row + 1) in
  payload ← decode_b64 (ip_payload req);
  let now := now_ms ρ in
  outcome ← call (upsert_item_occ uuid u (as_i64 target) (as_i64 (ip_enc_key_gen req))
                    (Some payload) None now);
  match outcome with
  | Updated =>
      o ← call (get_item uuid u);
      row ← ok_or panic o;
      mret (mkItemPutResp uuid (i_version row) (i_enc_key_gen row) (i_updated_at row))
  | Recovered =>
      publish (ItemRecovered u (parse_or_nil uuid));;
      o ← call (get_item uuid u);
      row ← ok_or panic o;
      mret (mkItemPutResp uuid (i_version row) (i_enc_key_gen row) (i_updated_at row))
  | Conflict => throw (mkApiError 412 "precondition_failed")
  | EpochTooOld => throw (mkApiError 422 "key_generation_too_old")
  end.

Definition item_delete (ρ : Env) (uuid auth : string) : handler ItemPutResp :=
  u ← auth_user ρ auth;
  o ← call (get_item uuid u);
  row ← ok_or not_found o;
  let target := as_u64 (i_version row + 1) in
  let now := now_ms ρ in
  outcome ← call (upsert_item_occ uuid u (as_i64 target) (i_enc_key_gen row) None (Some now) now);
  match outcome with
  | Updated =>
      publish (ItemPermanentlyDeleted u (parse_or_nil uuid));;
      mret (mkItemPutResp uuid (i_version row + 1) (i_enc_key_gen row) now)
  | Recovered => mret (mkItemPutResp uuid (i_version row + 1) (i_enc_key_gen row) now)
  | Conflict => throw (mkApiError 412 "precondition_failed")
  | EpochTooOld => throw (mkApiError 422 "key_generation_too_old")
  end.
End Handlers.

(** ** Sequences of requests *)
Inductive SyncRequest :=
| RPush (auth : string) (batch : list PushItem)
| RPut (uuid auth : string) (req : ItemPutReq)
| RDelete (uuid auth : string)
| RPull (q : PullQuery) (auth : string)
| RPayloads (auth : string) (targets : list PullTarget).

Section Serve.
Context `{Ext}.

Definition serve (ρ : Env) (r : SyncRequest) (d : Db) : Db :=
  match r with
  | RPush auth batch => (sync_push_batch ρ auth batch d).1
  | RPut uuid auth req => (item_put ρ uuid auth req d).1
  | RDelete uuid auth => (item_delete ρ uuid auth d).1
  | RPull q auth => (sync_pull ρ q auth d).1
  | RPayloads auth targets => (sync_pull_payloads ρ auth targets d).1
  end.

Definition serve_all (l : list (Env * SyncRequest)) (d : Db) : Db :=
  foldl (λ d ρr, serve ρr.1 ρr.2 d) d l.
End Serve.

(** ** What every request preserves *)

Definition sync_le (d d' : Db) : Prop :=
  items_wf d → items_wf d' ∧ occ_le d d' ∧ ∀ u, feed_le u d d'.

#[export] Instance sync_le_preorder : PreOrder sync_le.
Proof.
  split.
  - intros d Hwf. split_and!; [done | reflexivity | reflexivity].
  - intros d1 d2 d3 H12 H23 Hwf. destruct (H12 Hwf) as (Hwf2 & Ho2 & Hf2).
    destruct (H23 Hwf2) as (Hwf3 & Ho3 & Hf3). split_and!; [done | by etransitivity |].
    intros u. etransitivity; [apply Hf2 | apply Hf3].
Qed.

Lemma sync_le_same d d' : items d' = items d → users d' = users d → sync_le d d'.
Proof.
  intros Hi Hu [K O V S J].
  assert (∀ u, max_seq u d' = max_seq u d) as Hm by (intros u; unfold max_seq, user_seqs; by rewrite Hi).
  split_and!.
  - split; rewrite ?Hi, ?Hu; auto.
  - intros k r Hr. rewrite Hi. exists r. auto with lia.
  - intros u. split; rewrite ?Hm; [lia|]. rewrite Hi. auto.
Qed.

Lemma max_seq_nonneg u d : items_wf d → (0 ≤ default 0 (max_seq u d))%Z.
Proof.
  intros Hwf. pose proof (max_seq_spec u d) as Hm. destruct (max_seq u d) as [m|]; [|done].
  destruct Hm as [(k & r & Hk & _ & Hs) _]. pose proof (wf_seq_pos _ Hwf _ _ _ Hk Hs). simpl. lia.
Qed.

Lemma feed_le_other u u' d d' :
  items_wf d → items_wf d' → u' ≠ u → tenant_le u d d' → feed_le u' d d'.
Proof.
  intros Hwf Hwf' Hne Ht. split.
  - apply max_seq_le; [by apply max_seq_nonneg|]. intros k r s Hk Hu Hs.
    apply (max_seq_ge u' d' k r); [|done..]. rewrite Ht; congruence.
  - intros k r Hk <-. left. rewrite <-Ht; done.
Qed.

Section Preserve.
Context `{Ext}.

Lemma steps_upsert uuid u t g p del now :
  steps sync_le (upsert_item_occ uuid u t g p del now).
Proof.
  intros d Hwf. pose proof (upsert_wf uuid u t g p del now d Hwf) as Hwf'.
  split; [done|]. pose proof (upsert_tenant_le uuid u t g p del now d) as Ht.
  destruct (upsert_effect uuid u t g p del now d Hwf) as [Heq | (r & Hw & Heq)]; rewrite Heq in *.
  - split; reflexivity.
  - split; [by eapply write_occ_le|]. intros u'. destruct (decide (u' = u)) as [->|Hne].
    + by eapply write_feed_le.
    + by apply (feed_le_other u).
Qed.

Lemma steps_publish {E} e : steps (E:=E) sync_le (publish e).
Proof. intros d. by apply sync_le_same. Qed.

Lemma steps_auth_any ρ tok : steps sync_le (auth_any ρ tok).
Proof.
  unfold auth_any, verify_access_token, Repo.get_token_by_hash, Repo.get_machine_account,
    Repo.touch_access_token, Repo.touch_machine_account, Repo.get_access_token_owner.
  steps_tac; intros d; by apply sync_le_same.
Qed.

Lemma steps_get_item uuid u : steps sync_le (get_item uuid u).
Proof. apply steps_gets, _. Qed.

Lemma steps_min_gen u : steps sync_le (min_enc_key_gen u).
Proof. apply steps_gets, _. Qed.

Lemma steps_decode s : steps sync_le (decode_b64 s).
Proof. apply steps_ok_or, _. Qed.
End Preserve.

#[export] Hint Resolve steps_upsert steps_publish steps_auth_any steps_get_item steps_min_gen
  steps_decode : steps.

Lemma steps_push_item `{Ext} u now item : steps sync_le (push_item u now item).
Proof. unfold push_item. steps_tac. Qed.
#[export] Hint Resolve steps_push_item : steps.

Lemma serve_sync_le `{Ext} ρ r d : sync_le d (serve ρ r d).
Proof.
  destruct r; simpl; match goal with |- sync_le d (?m d).1 =>
    enough (steps sync_le m) as Hm by apply Hm end.
  - unfold sync_push_batch. steps_tac.
  - unfold item_put. steps_tac.
  - unfold item_delete. steps_tac.
  - unfold sync_pull. steps_tac.
  - unfold sync_pull_payloads, pull_payload. steps_tac.
Qed.

Lemma serve_all_sync_le `{Ext} l d : sync_le d (serve_all l d).
Proof.
  revert d. induction l as [|[ρ r] l IH]; intros d; simpl; [reflexivity|].
  etransitivity; [apply serve_sync_le | apply IH].
Qed.

(** ** The feed *)
Section Feed.
Context (u : string) (d : Db) (Hwf : items_wf d).

Lemma elem_of_user_items r :
  r ∈ user_items u d ↔ ∃ k, items d !! k = Some r ∧ k.2 = u.
Proof.
  unfold user_items. rewrite list_elem_of_fmap. split.
  - intros ([k q] & -> & [Hk Hin%elem_of_map_to_list]%list_elem_of_filter). eauto.
  - intros (k & Hr & Hk). exists (k, r). split; [done|].
    apply list_elem_of_filter. split; [done|]. by apply elem_of_map_to_list.
Qed.

Lemma elem_of_feed c r :
  r ∈ feed u c d ↔ ∃ k s, items d !! k = Some r ∧ k.2 = u ∧ i_seq r = Some s ∧ (c < s)%Z.
Proof.
  unfold feed, sort_asc. rewrite merge_sort_Permutation, list_elem_of_filter, elem_of_user_items.
  unfold after_cursor. split.
  - intros [Ha (k & Hr & Hk)]. destruct (i_seq r) as [s|]; [|done].
    apply bool_decide_eq_true in Ha. eauto 10.
  - intros (k & s & Hr & Hk & -> & Hlt). split; [by apply bool_decide_eq_true | eauto].
Qed.

Lemma user_items_nodup : NoDup (user_items u d).
Proof.
  apply NoDup_fmap_2_strong.
  - intros [k1 r1] [k2 r2] [_ H1%elem_of_map_to_list]%list_elem_of_filter
      [_ H2%elem_of_map_to_list]%list_elem_of_filter Heq. simpl in Heq. subst r2.
    rewrite <-(wf_key _ Hwf _ _ H1), <-(wf_key _ Hwf _ _ H2). done.
  - apply NoDup_filter, NoDup_map_to_list.
Qed.

Lemma feed_nodup c : NoDup (feed u c d).
Proof.
  unfold feed, sort_asc. rewrite merge_sort_Permutation. apply NoDup_filter, user_items_nodup.
Qed.

Lemma feed_sorted c : StronglySorted (by_key seq_key) (feed u c d).
Proof. apply Sorted_StronglySorted; [apply _|]. apply Sorted_merge_sort, _. Qed.

(** Positions identify rows of the feed. *)
Lemma feed_key_inj c c' r1 r2 :
  r1 ∈ feed u c d → r2 ∈ feed u c' d → seq_key r1 = seq_key r2 → r1 = r2.
Proof.
  intros (k1 & s1 & H1 & Hk1 & Hs1 & _)%elem_of_feed (k2 & s2 & H2 & Hk2 & Hs2 & _)%elem_of_feed.
  unfold seq_key. rewrite Hs1, Hs2. simpl. intros ->.
  assert (k1 = k2) as -> by (eapply wf_seq_inj; eauto; congruence). congruence.
Qed.

(** The feed after the position of one of its rows is what follows it. *)
Lemma feed_split c l1 x l2 s :
  feed u c d = l1 ++ x :: l2 → i_seq x = Some s → feed u s d = l2.
Proof.
  intros Hf Hs. pose proof (feed_sorted c) as Hsort. pose proof (feed_nodup c) as Hnd.
  assert (seq_key x = s) as Hkey by (unfold seq_key; by rewrite Hs).
  assert (Hin : ∀ y, y ∈ l1 ++ x :: l2 → y ∈ feed u c d) by (intros y; by rewrite Hf).
  rewrite Hf in Hsort, Hnd.
  apply StronglySorted_app in Hsort as (Hlt & _ & [Hs2 Hx]%StronglySorted_inv).
  apply NoDup_app in Hnd as (_ & _ & [Hx2 _]%NoDup_cons).
  rewrite Forall_forall in Hx.
  assert (∀ y, y ∈ l2 → (s < seq_key y)%Z) as Hgt.
  { intros y Hy. assert (by_key seq_key x y) as Hle by (by apply Hx).
    unfold by_key in Hle. rewrite Hkey in Hle.
    enough (seq_key y ≠ s) by lia. intros Heq.
    assert (y = x) as ->; [|done]. apply (feed_key_inj c c); [apply Hin; set_solver.. |].
    congruence. }
  assert (∀ y, y ∈ l1 → (seq_key y ≤ s)%Z) as Hle1.
  { intros y Hy. rewrite <-Hkey. apply Hlt; set_solver. }
  apply (StronglySorted_unique_strong (by_key seq_key)).
  - unfold by_key. intros y1 y2 Hy1 Hy2 ? ?. apply (feed_key_inj s c); [done | apply Hin; set_solver |].
    lia.
  - apply feed_sorted.
  - done.
  - apply NoDup_Permutation; [apply feed_nodup | |].
    + assert (NoDup (l1 ++ x :: l2)) as Hnd by (rewrite <-Hf; apply feed_nodup).
      by apply NoDup_app in Hnd as (_ & _ & [_ ?]%NoDup_cons).
    + intros y. split.
      * intros Hy. pose proof Hy as (k & s' & Hk & Hu & Hs' & Hlt')%elem_of_feed.
        assert (y ∈ feed u c d) as Hyc.
        { apply elem_of_feed. exists k, s'. split_and!; try done.
          assert (x ∈ feed u c d) as (? & ? & _ & _ & Hsx & ?)%elem_of_feed by (apply Hin; set_solver).
          rewrite Hs in Hsx. simplify_eq. lia. }
        rewrite Hf in Hyc. assert (seq_key y = s') as Hky by (unfold seq_key; by rewrite Hs').
        apply elem_of_app in Hyc as [Hyc|[->|Hyc]%elem_of_cons]; [|lia|done].
        specialize (Hle1 _ Hyc). lia.
      * intros Hy. assert (y ∈ feed u c d) as (k & s' & Hk & Hu & Hs' & _)%elem_of_feed
          by (apply Hin; set_solver).
        apply elem_of_feed. exists k, s'. split_and!; try done.
        specialize (Hgt _ Hy). unfold seq_key in Hgt. rewrite Hs' in Hgt. done.
Qed.

Lemma min_seq_spec :
  match min_seq u d with
  | None => ∀ k r, items d !! k = Some r → k.2 = u → i_seq r = None
  | Some m => (∃ k r, items d !! k = Some r ∧ k.2 = u ∧ i_seq r = Some m) ∧
              ∀ k r s, items d !! k = Some r → k.2 = u → i_seq r = Some s → (m ≤ s)%Z
  end.
Proof.
  clear Hwf. unfold min_seq. pose proof (elem_of_user_seqs u d) as Hel.
  destruct (user_seqs u d) as [|s l] eqn:Hu.
  - intros k r Hr Hk. destruct (i_seq r) as [s|] eqn:Hs; [|done].
    destruct (not_elem_of_nil s). apply Hel. eauto.
  - assert (foldr Z.min s l ∈ s :: l ∧ ∀ x, x ∈ s :: l → (foldr Z.min s l ≤ x)%Z) as [Hin Hle].
    { clear Hu Hel. induction l as [|y l [IHin IHle]]; simpl.
      - split; [left | intros x ->%list_elem_of_singleton; lia].
      - split.
        + destruct (Z.min_spec y (foldr Z.min s l)) as [[_ ->]|[_ ->]]; set_solver.
        + intros x Hx. rewrite !elem_of_cons in Hx. destruct Hx as [->|[->|Hx]]; [|lia|].
          * specialize (IHle s ltac:(set_solver)). lia.
          * specialize (IHle x ltac:(set_solver)). lia. }
    split; [by apply Hel|]. intros k r s' Hr Hk Hs. apply Hle, Hel. eauto.
Qed.
End Feed.

(** ** Pulling with a session *)
Section Pull.
Context `{Ext}.

(** A session token that does not look like a machine token. *)
Definition signed_in (d : Db) (now : Z) (tok u : string) : Prop :=
  starts_with "vtr-ak-" tok = false ∧ session_valid d now tok u.

Lemma auth_any_session ρ tok u d :
  signed_in d (now_ms ρ) tok u → auth_any ρ tok d = (d, Ok (mkAuth u None)).
Proof.
  intros [Hp Hv]. unfold auth_any. rewrite Hp, (auth_user_ok_bind ρ tok u) by done. done.
Qed.

Definition cursor_gone (u : string) (c : Z) (d : Db) : bool :=
  match min_seq u d with
  | Some m => bool_decide (c < i64_saturating_sub m 1)%Z
  | None => false
  end.

Definition min_gen_of (u : string) (d : Db) : Z :=
  default 1%Z (u_min_enc_key_gen <$> users d !! u).

(** The page a pull returns. *)
Definition page (u : string) (limit cursor : Z) (d : Db) : PullResp :=
  let rows := feed u (as_i64 cursor) d in
  mkPullResp
    (match list.last (take (Z.to_nat limit) rows) ≫= i_seq with
     | Some s => as_u64 s
     | None => cursor
     end)
    (bool_decide (limit < Z.of_nat (length rows))%Z)
    (min_gen_of u d)
    (pull_item <$> take (Z.to_nat limit) rows).

Lemma sync_pull_session ρ q tok u d :
  signed_in d (now_ms ρ) tok u →
  let limit := default 100%Z (pq_limit q) in
  (0 ≤ limit)%Z →
  sync_pull ρ q tok d =
  (d, if decide (1 ≤ limit ≤ 1000)%Z then
        if cursor_gone u (as_i64 (pq_cursor q)) d then Err (mkApiError 410 "cursor_expired")
        else Ok (page u limit (pq_cursor q) d)
      else Err (Api.bad_request "payload_limit_exceeded")).
Proof.
  intros Hs limit Hlim. unfold sync_pull. rewrite bind_run, (auth_any_session ρ tok u) by done.
  change (is_machine_token (mkAuth u None)) with false. cbn [user_id]. cbv beta iota.
  unfold min_enc_key_gen. run_step. fold limit.
  destruct (decide (1 ≤ limit ≤ 1000)%Z) as [Hl|Hl].
  2: { case_bool_decide; [done|]. rewrite bool_decide_true by lia. done. }
  rewrite !bool_decide_false by lia. simpl. run_step. fold (cursor_gone u (as_i64 (pq_cursor q)) d).
  destruct (cursor_gone _ _ _); simpl; [done|]. unfold page.
  rewrite take_take, Nat.min_l by lia. rewrite length_take.
  f_equal. f_equal. f_equal. apply bool_decide_ext. lia.
Qed.
End Pull.

(** ** Paging until [has_more] is false *)
Section Paging.
Context `{Ext}.

(** The page loop of a client: pull, and pull again from the new cursor
    while the server reports more.  Fuel bounds the number of pages. *)
Fixpoint pull_all (fuel : nat) (ρ : Env) (tok : string) (limit : option Z) (cursor : Z)
    : handler (list PullItem * Z) :=
  match fuel with
  | 0 => throw (mkApiError 508 "page_cap")
  | S k =>
      resp ← sync_pull ρ (mkPullQuery cursor limit) tok;
      if pr_has_more resp then
        rest ← pull_all k ρ tok limit (pr_new_cursor resp);
        mret (pr_items resp ++ rest.1, rest.2)
      else mret (pr_items resp, pr_new_cursor resp)
  end.

Context (u : string) (d : Db) (Hwf : items_wf d).

Definition last_seq (c : Z) (l : list ItemRow) : Z :=
  match list.last l ≫= i_seq with Some s => s | None => c end.

(** Positions fit the wire's 64-bit cursor. *)
Definition seqs_fit : Prop :=
  ∀ k r s, items d !! k = Some r → i_seq r = Some s → (s ≤ i64_max)%Z.

Lemma last_seq_feed c l1 x l2 :
  feed u c d = l1 ++ x :: l2 → last_seq c (feed u c d) = last_seq (seq_key x) l2.
Proof.
  intros Hf. assert (x ∈ feed u c d) as (k & s & _ & _ & Hs & _)%elem_of_feed
    by (rewrite Hf; set_solver).
  unfold last_seq, seq_key. rewrite Hf, last_app, last_cons.
  destruct (list.last l2) as [y|] eqn:Hl; simpl.
  - assert (y ∈ feed u c d) as (? & s' & _ & _ & Hs' & _)%elem_of_feed.
    { rewrite Hf. apply last_Some in Hl as [l' ->]. set_solver. }
    by rewrite Hs'.
  - by rewrite Hs.
Qed.

Lemma take_last {A} n (l : list A) :
  1 ≤ n → n < length l → ∃ l1 x l2, l = l1 ++ x :: l2 ∧ take n l = l1 ++ [x] ∧ l2 = drop n l.
Proof.
  intros Hn Hlt. destruct (lookup_lt_is_Some_2 l (n - 1)) as [x Hx]; [lia|].
  exists (take (n - 1) l), x, (drop n l). split_and!; [| | done].
  - rewrite <-(take_drop (n - 1) l) at 1. f_equal.
    rewrite (drop_S _ x) by done. by replace (S (n - 1)) with n by lia.
  - rewrite <-(take_S_r _ _ x) by done. by replace (S (n - 1)) with n by lia.
Qed.

Lemma pull_all_run fuel ρ tok limit c :
  signed_in d (now_ms ρ) tok u → seqs_fit →
  (1 ≤ default 100 limit ≤ 1000)%Z →
  (0 ≤ c ≤ i64_max)%Z → cursor_gone u c d = false →
  length (feed u c d) < fuel →
  pull_all fuel ρ tok limit c d =
  (d, Ok (pull_item <$> feed u c d, last_seq c (feed u c d))).
Proof.
  intros Hs Hfit Hlim. revert c. induction fuel as [|k IH]; intros c Hc Hgone Hlen; [lia|].
  simpl. rewrite bind_run, (sync_pull_session _ _ _ u) by (try done; simpl; lia). simpl.
  rewrite decide_True by done. rewrite as_i64_small by (unfold is_i64, i64_min; lia).
  rewrite Hgone. unfold page. cbn [pr_has_more pr_items pr_new_cursor].
  rewrite as_i64_small by (unfold is_i64, i64_min; lia).
  assert (∀ x s, x ∈ feed u c d → i_seq x = Some s → (c < s ≤ i64_max)%Z) as Hin.
  { intros x s (k' & s' & Hk & _ & Hs' & Hlt)%elem_of_feed Hx. simplify_eq.
    split; [done | by eapply Hfit]. }
  assert (∀ s, (0 ≤ s ≤ i64_max)%Z → as_u64 s = s) as Hu64.
  { intros s Hs'. apply as_u64_small. unfold is_u64, u64_max, i64_max in *. lia. }
  set (n := Z.to_nat (default 100%Z limit)) in *.
  case_bool_decide as Hmore; cbv beta iota.
  - destruct (take_last n (feed u c d)) as (l1 & x & l2 & Hf & Htk & Hl2); [lia..|].
    assert (x ∈ feed u c d) as Hx by (rewrite Hf; set_solver).
    pose proof Hx as (k' & s & Hk' & Hku & Hsx & Hcs)%elem_of_feed.
    pose proof (Hin _ _ Hx Hsx) as Hle.
    rewrite Htk, last_snoc. simpl. rewrite Hsx, Hu64 by lia. rewrite bind_run.
    rewrite (last_seq_feed c l1 x l2 Hf). unfold seq_key. rewrite Hsx. simpl.
    rewrite Hf at 1. rewrite IH.
    + rewrite (feed_split u d Hwf c l1 x l2 s Hf Hsx). rewrite ret_run. cbn [fst snd].
      by rewrite <-fmap_app, <-app_assoc.
    + lia.
    + pose proof (min_seq_spec u d) as Hm. unfold cursor_gone in *.
      destruct (min_seq u d) as [m|]; [|done]. destruct Hm as [_ Hm].
      pose proof (Hm _ _ _ Hk' Hku Hsx). apply bool_decide_eq_false.
      unfold i64_saturating_sub, i64_min, i64_max in *. lia.
    + rewrite (feed_split u d Hwf c l1 x l2 s Hf Hsx).
      rewrite Hf, length_app in Hlen. simpl in Hlen. lia.
  - rewrite take_ge by lia. rewrite ret_run. unfold last_seq. repeat f_equal.
    destruct (list.last (feed u c d)) as [x|] eqn:Hl; [|done]. simpl.
    destruct (i_seq x) as [s|] eqn:Hsx; [|done].
    assert (x ∈ feed u c d) as Hx by (apply last_Some in Hl as [l' ->]; set_solver).
    pose proof (Hin _ _ Hx Hsx). apply Hu64. lia.
Qed.
End Paging.

(** ** One pushed item *)
Section PushItem.
Context `{Ext}.

(** The payload a well-formed push carries. *)
Definition decoded (item : PushItem) : option (option blob) :=
  match ph_payload item with
  | Some p => Some <$> b64_decode p
  | None => Some None
  end.

Definition content (item : PushItem) (pl : option blob) (now : Z) : Register.Content :=
  Register.mkContent (ph_enc_key_gen item) (ph_deleted_date item) pl now.

(** What the response says of an outcome: [before] and [after] are the cell
    around the write. *)
Definition report (item : PushItem) (o : UpsertOutcome) (before after : option Register.Cell)
    : PushResult :=
  match o with
  | Updated | Recovered =>
      mkPushResult (ph_uuid item) "success" (Register.c_version <$> after)
        ((Register.c_enc_key_gen ∘ Register.c_content) <$> after)
        ((Register.c_at ∘ Register.c_content) <$> after) None
  | Conflict =>
      mkPushResult (ph_uuid item) "conflict" None None None
        ((λ c, mkServerState (Register.c_version c)
                 (Register.c_enc_key_gen (Register.c_content c))) <$> before)
  | EpochTooOld => epoch_too_old (ph_uuid item)
  end.

(** Widths a push on the wire and a stored generation have. *)
Definition fits (item : PushItem) (ur : UserRow) : Prop :=
  (0 ≤ ph_target_version item ≤ i64_max)%Z ∧ (0 ≤ ph_enc_key_gen item ≤ i64_max)%Z ∧
  (0 ≤ u_min_enc_key_gen ur ≤ i64_max)%Z.

Lemma push_item_run u now item d ur pl :
  users d !! u = Some ur → is_Some (uuid_parse (ph_uuid item)) →
  decoded item = Some pl → fits item ur →
  let c := Register.abs (ph_uuid item) u d in
  let '(c', o) := Register.put (u_min_enc_key_gen ur) c (ph_target_version item)
                    (content item pl now) in
  ∃ d', push_item u now item d = (d', Ok (report item o c c')) ∧
        Register.abs (ph_uuid item) u d' = c' ∧
        (∀ uuid' u', (uuid', u') ≠ (ph_uuid item, u) →
           Register.abs uuid' u' d' = Register.abs uuid' u' d).
Proof.
  intros Hu [v Hid] Hdec (Ht & Hg & Hmin). unfold push_item, min_enc_key_gen, Register.put, content. simpl.
  run_next. rewrite Hu. simpl.
  rewrite as_u64_small by (unfold is_u64, u64_max, i64_max in *; lia).
  case_bool_decide as He; [rewrite decide_True by done; eexists; split_and!; done|].
  rewrite decide_False by done.
  assert (∀ (f : option blob → handler PushResult),
    ((match ph_payload item with
      | Some p => b ← decode_b64 p; mret (Some b) | None => mret None end) ≫= f) d = f pl d) as ->.
  { intros f. unfold decoded in Hdec. destruct (ph_payload item) as [p|].
    - unfold decode_b64. run_step. destruct (b64_decode p); simplify_eq/=. done.
    - by simplify_eq. }
  rewrite !as_i64_small by (unfold is_i64, i64_min, i64_max in *; lia). rewrite bind_run, map_err_run.
  rewrite upsert_run, Hid, Hu, bool_decide_false by done. unfold Register.abs.
  destruct (items d !! (ph_uuid item, u)) as [old|] eqn:Ho; simpl.
  - destruct (decide (i_version old = _)) as [Hv|Hv]; simpl.
    + set (d1 := with_items _ d).
      assert (∀ d2, items d2 = items d1 →
        items d2 !! (ph_uuid item, u) = Some (new_row (ph_uuid item) u (i_version old + 1)
          (ph_enc_key_gen item) pl (ph_deleted_date item) now d) ∧
        ∀ uuid' u', (uuid', u') ≠ (ph_uuid item, u) → items d2 !! (uuid', u') = items d !! (uuid', u'))
        as Hd1.
      { intros d2 ->. unfold d1. change (items (with_items ?f d)) with (f (items d)).
        rewrite lookup_insert, decide_True by done. split; [done|].
        intros uuid' u' Hne. by rewrite lookup_insert_ne. }
      rewrite outcome_of_match. destruct (i_deleted_date old), (ph_deleted_date item); simpl;
        unfold get_item, publish; run_next; cbn [map_res]; run_next;
        match goal with |- context [items ?d2 !! (ph_uuid item, u)] =>
          destruct (Hd1 d2 eq_refl) as [Hl Hne] end; rewrite Hl; simpl; run_step;
        (eexists; split_and!; [reflexivity | exact (f_equal (fmap Register.of_row) Hl) |];
         intros uuid' u' Hk; exact (f_equal (fmap Register.of_row) (Hne _ _ Hk))).
    + unfold get_item. run_step. rewrite Ho. eexists. split_and!; [reflexivity | by rewrite Ho | done].
  - destruct (decide (ph_target_version item = 0%Z)) as [Hz|Hz]; simpl.
    + unfold has_user. rewrite Hu, bool_decide_true by done. simpl. unfold get_item. run_step.
      rewrite lookup_insert, decide_True by done.
      eexists. split_and!; [reflexivity | |].
      * change (items (with_items ?f d)) with (f (items d)). by rewrite lookup_insert, decide_True.
      * intros uuid' u' Hk. change (items (with_items ?f d)) with (f (items d)).
        by rewrite lookup_insert_ne.
    + unfold get_item. run_step. rewrite Ho. eexists. split_and!; [reflexivity | by rewrite Ho | done].
Qed.
End PushItem.

(** ** Isolation *)

(** Only [u]'s items and [u]'s event channel may differ; accounts and
    sessions do not. *)
Definition isolated (u : string) (d d' : Db) : Prop :=
  tenant_le u d d' ∧
  (∀ u', u' ≠ u → event_channels d' !! u' = event_channels d !! u') ∧
  users d' = users d ∧ sessions d' = sessions d.

#[export] Instance isolated_preorder u : PreOrder (isolated u).
Proof.
  split; [done|]. intros d1 d2 d3 (T1 & E1 & U1 & S1) (T2 & E2 & U2 & S2). split_and!.
  - by etransitivity.
  - intros u' Hu'. by rewrite E2, E1.
  - congruence.
  - congruence.
Qed.

Definition bearer (r : SyncRequest) : string :=
  match r with
  | RPush auth _ | RPut _ auth _ | RDelete _ auth | RPull _ auth | RPayloads auth _ => auth
  end.

Section Isolation.
Context `{Ext}.
Context (u : string).

Lemma isolated_upsert uuid t g p del now :
  steps (isolated u) (upsert_item_occ uuid u t g p del now).
Proof.
  intros d. split; [apply upsert_tenant_le|].
  by destruct (upsert_only_items uuid u t g p del now d) as [f ->].
Qed.

Lemma isolated_publish {E} e : event_user e = u → steps (E:=E) (isolated u) (publish e).
Proof.
  intros <- d. split_and!; [done | | done | done]. intros u' Hne.
  change (event_channels (publish e d).1)
    with (<[event_user e := default [] (event_channels d !! event_user e) ++ [e]]>
            (event_channels d)).
  by rewrite lookup_insert_ne.
Qed.

Lemma isolated_auth_any ρ tok : steps (isolated u) (auth_any ρ tok).
Proof.
  unfold auth_any, verify_access_token, Repo.get_token_by_hash, Repo.get_machine_account,
    Repo.touch_access_token, Repo.touch_machine_account, Repo.get_access_token_owner.
  steps_tac; intros d; done.
Qed.

Lemma isolated_get_item uuid u' : steps (isolated u) (get_item uuid u').
Proof. apply steps_gets, _. Qed.
Lemma isolated_min_gen u' : steps (isolated u) (min_enc_key_gen u').
Proof. apply steps_gets, _. Qed.
Lemma isolated_decode s : steps (isolated u) (decode_b64 s).
Proof. apply steps_ok_or, _. Qed.

(** After authentication the handler acts as [u]. *)
Lemma isolated_auth {A} ρ tok (f : string → handler A) d :
  (∀ u', session_valid d (now_ms ρ) tok u' → u' = u) →
  steps (isolated u) (f u) → isolated u d ((auth_user ρ tok ≫= f) d).1.
Proof.
  intros Hu Hf. destruct (auth_user_bind ρ tok f d) as [(u' & Hv & ->)|(e & _ & ->)].
  - apply Hu in Hv as ->. apply Hf.
  - reflexivity.
Qed.
End Isolation.

#[export] Hint Resolve isolated_upsert isolated_publish isolated_auth_any isolated_get_item
  isolated_min_gen isolated_decode : steps.

Lemma isolated_push_item `{Ext} u now item : steps (isolated u) (push_item u now item).
Proof. unfold push_item. steps_tac. Qed.
#[export] Hint Resolve isolated_push_item : steps.

(** ** Batches *)
Section Batch.
Context `{Ext}.

(** The account's registers after a batch, and the answers. *)
Fixpoint batch_spec (min_gen now : Z) (l : list (PushItem * option blob))
    (σ : string → option Register.Cell) : (string → option Register.Cell) * list PushResult :=
  match l with
  | [] => (σ, [])
  | (item, pl) :: l' =>
      let id := ph_uuid item in
      let '(c, o) := Register.put min_gen (σ id) (ph_target_version item) (content item pl now) in
      let '(σ', rs) := batch_spec min_gen now l' (λ x, if decide (x = id) then c else σ x) in
      (σ', report item o (σ id) c :: rs)
  end.

Lemma batch_spec_ext g now l σ1 σ2 :
  (∀ x, σ1 x = σ2 x) →
  (∀ x, (batch_spec g now l σ1).1 x = (batch_spec g now l σ2).1 x) ∧
  (batch_spec g now l σ1).2 = (batch_spec g now l σ2).2.
Proof.
  revert σ1 σ2. induction l as [|[item pl] l IH]; intros σ1 σ2 Hσ; simpl; [done|].
  rewrite Hσ. destruct (Register.put _ _ _ _) as [c o].
  set (τ1 := λ x, if decide (x = ph_uuid item) then c else σ1 x).
  set (τ2 := λ x, if decide (x = ph_uuid item) then c else σ2 x).
  destruct (IH τ1 τ2) as [H1 H2]; [intros x; unfold τ1, τ2; by case_decide|].
  destruct (batch_spec g now l τ1), (batch_spec g now l τ2). simpl in *. by subst.
Qed.

Lemma mapM_app_run {A B} (f : A → handler B) l k d d1 bs :
  mapM f l d = (d1, Ok bs) →
  mapM f (l ++ k) d = (bs' ← mapM f k; mret (bs ++ bs')) d1.
Proof.
  revert d bs. induction l as [|a l IH]; intros d bs; cbn [mapM app].
  - intros [-> ->]%ret_ok. rewrite bind_run. by destruct (mapM f k d) as [? [?|?]].
  - intros (d2 & b & Hb & (d3 & bs2 & Hm & [-> ->]%ret_ok)%bind_ok)%bind_ok.
    rewrite bind_run, Hb, bind_run, (IH _ _ Hm), !bind_run.
    by destruct (mapM f k _) as [? [?|?]].
Qed.

Lemma push_items_run u ur now batch d :
  users d !! u = Some ur →
  Forall (λ ip, is_Some (uuid_parse (ph_uuid ip.1)) ∧ decoded ip.1 = Some ip.2 ∧ fits ip.1 ur)
    batch →
  let '(σ', rs) := batch_spec (u_min_enc_key_gen ur) now batch (λ x, Register.abs x u d) in
  ∃ d', mapM (push_item u now) batch.*1 d = (d', Ok rs) ∧ ∀ x, Register.abs x u d' = σ' x.
Proof.
  revert d. induction batch as [|[item pl] batch IH]; intros d Hu Hok; [by exists d|].
  rewrite fmap_cons. cbn [mapM batch_spec fst].
  apply Forall_cons in Hok as [(Hid & Hdec & Hfit) Hok]. simpl in *.
  pose proof (push_item_run u now item d ur pl Hu Hid Hdec Hfit) as Hp. cbv zeta in Hp.
  destruct (Register.put _ _ _ _) as [c o]. destruct Hp as (d1 & Hrun & Hc & Hrest).
  assert (users d1 !! u = Some ur) as Hu1.
  { pose proof (isolated_push_item u now item d) as (_ & _ & Hus & _). rewrite Hrun in Hus.
    simpl in Hus. by rewrite Hus. }
  specialize (IH d1 Hu1 Hok).
  destruct (batch_spec_ext (u_min_enc_key_gen ur) now batch (λ x, Register.abs x u d1)
    (λ x, if decide (x = ph_uuid item) then c else Register.abs x u d)) as [He1 He2].
  { intros x. case_decide as Hx; [by subst|]. apply Hrest. congruence. }
  destruct (batch_spec _ _ batch (λ x, Register.abs x u d1)) as [σ1 rs1].
  destruct (batch_spec _ _ batch _) as [σ2 rs2]. cbn [fst snd] in *. subst rs2.
  destruct IH as (d' & Hm & Hσ). exists d'. split.
  - rewrite bind_run, Hrun, bind_run, Hm. done.
  - intros x. by rewrite Hσ.
Qed.
End Batch.

(** ** The version after the current one *)
Section NextVersion.
Context `{Ext}.
Context (d : Db).

(** The run fails and leaves the items alone. *)
Definition refused {A} (m : handler A) : Prop :=
  is_ok (m d).2 = false ∧ items (m d).1 = items d.

Lemma refused_auth {A} ρ tok (f : string → handler A) :
  (∀ u, refused (f u)) → refused (auth_user ρ tok ≫= f).
Proof.
  intros Hf. unfold refused.
  destruct (auth_user_bind ρ tok f d) as [(u & _ & ->)|(e & _ & ->)]; [apply Hf | done].
Qed.

Lemma refused_get_item {A} uuid u (f : ItemRow → handler A) :
  (∀ r, items d !! (uuid, u) = Some r → refused (f r)) →
  refused (o ← call (get_item uuid u); row ← ok_or not_found o; f row).
Proof.
  intros Hf. unfold refused, get_item. run_next. cbn [map_res]. rewrite bind_run, ok_or_run.
  destruct (items d !! (uuid, u)) as [r|] eqn:Hr; [by apply Hf | done].
Qed.

Lemma as_i64_succ v : as_i64 (as_u64 (v + 1)) ≠ v.
Proof. unfold as_i64, as_u64. intros Heq. Z.to_euclidean_division_equations. lia. Qed.

(** Compare-and-swap on the version after the row's. *)
Lemma refused_next_version {A} uuid u r g pl del now (k : UpsertOutcome → handler A) :
  items d !! (uuid, u) = Some r → refused (k Conflict) → refused (k EpochTooOld) →
  refused (call (upsert_item_occ uuid u (as_i64 (as_u64 (i_version r + 1))) g pl del now) ≫= k).
Proof.
  intros Hr Hc He. unfold refused. rewrite bind_run, map_err_run, upsert_run, Hr.
  destruct (uuid_parse uuid); [|done].
  destruct (match users d !! u with Some _ => _ | None => _ end); [exact He|].
  rewrite decide_False; [exact Hc|]. pose proof (as_i64_succ (i_version r)). congruence.
Qed.
End NextVersion.

Section SyncTheorems.
Context `{Ext}.

(** C1. A push does what it reports: for a signed-in account, a batch of at
    most 100 well-formed items runs through the account's registers in order,
    each item a compare-and-swap, never fails, leaves exactly the abstract
    store's cells, and answers for each item "success" with the stored
    version, generation and time, "conflict" with the server's unchanged
    state, or "epoch_too_old". *)
Theorem push_batch_refines_registers ρ auth u ur (batch : list (PushItem * option blob)) d :
  session_valid d (now_ms ρ) auth u → users d !! u = Some ur → length batch ≤ 100 →
  Forall (λ ip, is_Some (uuid_parse (ph_uuid ip.1)) ∧ decoded ip.1 = Some ip.2 ∧ fits ip.1 ur)
    batch →
  let '(σ', rs) := batch_spec (u_min_enc_key_gen ur) (now_ms ρ) batch
                     (λ x, Register.abs x u d) in
  ∃ d', sync_push_batch ρ auth batch.*1 d = (d', Ok rs) ∧ ∀ x, Register.abs x u d' = σ' x.
Proof.
  intros Hv Hu Hlen Hok. unfold sync_push_batch. rewrite auth_user_ok_bind with (uid:=u) by done.
  rewrite length_fmap, bool_decide_false by lia. rewrite bind_run, guard_err_run. cbv beta iota.
  by apply push_items_run.
Qed.

(** A rejected batch is not undone: when the payload of one item is not
    base64, the whole request is answered 400, but the items before it stay
    written as if they had been pushed alone. *)
Theorem failed_batch_keeps_earlier_writes ρ auth u ur batch bad rest p d rs d1 :
  session_valid d (now_ms ρ) auth u → length (batch ++ bad :: rest) ≤ 100 →
  sync_push_batch ρ auth batch d = (d1, Ok rs) →
  users d !! u = Some ur → fits bad ur →
  (u_min_enc_key_gen ur ≤ ph_enc_key_gen bad)%Z →
  ph_payload bad = Some p → b64_decode p = None →
  sync_push_batch ρ auth (batch ++ bad :: rest) d =
    (d1, Err (Api.bad_request "invalid_base64")).
Proof.
  intros Hv Hlen Hb Hu (_ & _ & Hfit) Hg Hp Hd. unfold sync_push_batch in *.
  rewrite auth_user_ok_bind with (uid:=u) in * by done.
  rewrite bind_run, guard_err_run, bool_decide_false in Hb by (rewrite length_app in Hlen; lia).
  rewrite bind_run, guard_err_run, bool_decide_false by lia. cbv beta iota in *.
  rewrite (mapM_app_run _ _ _ _ _ _ Hb).
  assert (isolated u d d1) as (_ & _ & Hu1 & _).
  { pose proof (steps_mapM (isolated u) (push_item u (now_ms ρ)) batch
      (isolated_push_item u (now_ms ρ)) d) as Hi. by rewrite Hb in Hi. }
  cbn [mapM]. rewrite bind_run. unfold push_item, min_enc_key_gen. run_next. rewrite Hu1, Hu.
  simpl. rewrite as_u64_small by (unfold is_u64, u64_max, i64_max in *; lia).
  rewrite bool_decide_false by lia. rewrite Hp. unfold decode_b64. run_step. by rewrite Hd.
Qed.

(** PUT and DELETE on an item never succeed: both ask the store for the
    version after the current one, which the compare-and-swap refuses, so a
    present item is answered with an error and left as it was. *)
Theorem item_put_delete_never_succeed ρ uuid auth req d :
  is_ok (item_put ρ uuid auth req d).2 = false ∧ items (item_put ρ uuid auth req d).1 = items d ∧
  is_ok (item_delete ρ uuid auth d).2 = false ∧ items (item_delete ρ uuid auth d).1 = items d.
Proof.
  assert (refused d (item_put ρ uuid auth req)) as [? ?].
  { apply refused_auth. intros u. apply refused_get_item. intros row Hr. cbv zeta.
    unfold decode_b64, refused. rewrite bind_run, ok_or_run.
    destruct (b64_decode (ip_payload req)); [|done]. by apply refused_next_version. }
  assert (refused d (item_delete ρ uuid auth)) as [? ?].
  { apply refused_auth. intros u. apply refused_get_item. intros row Hr. cbv zeta.
    by apply refused_next_version. }
  done.
Qed.

(** When a cursor has expired: the account has rows, and every one of them has
    moved past the position after the cursor. *)
Lemma cursor_gone_iff u d c :
  seqs_fit d → (0 ≤ c ≤ i64_max)%Z →
  cursor_gone u c d = true ↔
  (∃ k r s, items d !! k = Some r ∧ k.2 = u ∧ i_seq r = Some s) ∧
  ∀ k r s, items d !! k = Some r → k.2 = u → i_seq r = Some s → (c + 1 < s)%Z.
Proof.
  intros Hfit Hc. pose proof (min_seq_spec u d) as Hm. unfold cursor_gone.
  destruct (min_seq u d) as [m|].
  - destruct Hm as [(k & r & Hk & Hu & Hs) Hall]. rewrite bool_decide_eq_true. split.
    + intros Hlt. split; [by exists k, r, m|]. intros k' r' s Hk' Hu' Hs'.
      pose proof (Hall _ _ _ Hk' Hu' Hs'). unfold i64_saturating_sub, i64_min, i64_max in *. lia.
    + intros [_ Hgt]. pose proof (Hgt _ _ _ Hk Hu Hs). pose proof (Hfit _ _ _ Hk Hs).
      unfold i64_saturating_sub, i64_min, i64_max in *. lia.
  - split; [done|]. intros [(k & r & s & Hk & Hu & Hs) _]. by rewrite (Hm _ _ Hk Hu) in Hs.
Qed.

(** C4. Paging is complete and terminates: a caller with a live session that
    pulls until the server reports no more gets every item of its account past
    the cursor, in feed order, each once, and ends at the position of the last
    one, whatever the page size; one page more than there are items is enough.
    The one exception is a cursor that has expired, because the account has
    rows and all of them have moved past the position after it: then the first
    page is answered 410.  Nothing is written either way. *)
Theorem pull_all_complete u d fuel ρ tok limit c :
  items_wf d → signed_in d (now_ms ρ) tok u → seqs_fit d →
  (1 ≤ default 100 limit ≤ 1000)%Z → (0 ≤ c ≤ i64_max)%Z →
  length (feed u c d) < fuel →
  pull_all fuel ρ tok limit c d =
    (d, if cursor_gone u c d then Err (mkApiError 410 "cursor_expired")
        else Ok (pull_item <$> feed u c d, last_seq c (feed u c d))) ∧
  (cursor_gone u c d = true ↔
     (∃ k r s, items d !! k = Some r ∧ k.2 = u ∧ i_seq r = Some s) ∧
     ∀ k r s, items d !! k = Some r → k.2 = u → i_seq r = Some s → (c + 1 < s)%Z) ∧
  NoDup (feed u c d) ∧ StronglySorted (by_key seq_key) (feed u c d) ∧
  ∀ r, r ∈ feed u c d ↔
       ∃ k s, items d !! k = Some r ∧ k.2 = u ∧ i_seq r = Some s ∧ (c < s)%Z.
Proof.
  intros Hwf Hs Hfit Hlim Hc Hfuel. split_and!.
  - destruct (cursor_gone u c d) eqn:Hgone; [|by apply (pull_all_run u)].
    destruct fuel as [|k]; [lia|]. simpl.
    rewrite bind_run, (sync_pull_session _ _ _ u) by (try done; simpl; lia). simpl.
    rewrite decide_True by done. rewrite as_i64_small by (unfold is_i64, i64_min; lia).
    by rewrite Hgone.
  - by apply cursor_gone_iff.
  - by apply feed_nodup.
  - apply feed_sorted.
  - intros r. apply elem_of_feed.
Qed.

(** C5. The feed misses nothing: a device that had seen everything up to the
    account's last position finds, after any sequence of requests by any
    callers, every item that is new or changed since past that position. *)
Theorem feed_misses_nothing l d u (k : ItemKey) (r : ItemRow) :
  let d' := serve_all l d in
  items_wf d → items d' !! k = Some r → k.2 = u → items d !! k ≠ Some r →
  r ∈ feed u (default 0 (max_seq u d))%Z d'.
Proof.
  intros d' Hwf Hr Hk Hne. destruct (serve_all_sync_le l d Hwf) as (_ & _ & Hf).
  destruct (Hf u) as [_ Hch]. destruct (Hch k r Hr Hk) as [?|(s & Hs & Hlt)]; [done|].
  apply elem_of_feed. eauto 10.
Qed.

(** C12. Tenant isolation: whatever it asks for, a request changes items and
    publishes events only for the account its bearer token authenticates,
    and touches no account and no session. *)
Theorem requests_touch_own_items ρ r d u :
  (∀ u', session_valid d (now_ms ρ) (bearer r) u' → u' = u) →
  isolated u d (serve ρ r d).
Proof.
  destruct r; simpl; intros Hu.
  - unfold sync_push_batch. apply isolated_auth; [done|]. unfold push_item. steps_tac.
  - unfold item_put. apply isolated_auth; [done|]. steps_tac.
  - unfold item_delete. apply isolated_auth; [done|]. steps_tac.
  - enough (steps (isolated u) (sync_pull ρ q auth)) as Hp by apply Hp.
    unfold sync_pull. steps_tac.
  - unfold sync_pull_payloads. apply isolated_auth; [done|]. unfold pull_payload. steps_tac.
Qed.

(** A full resync can be impossible: once every item of an account has
    moved past the first position of the feed, which the first update of the
    oldest item causes, a pull from cursor 0 is answered 410 although the
    server still holds every item. *)
Theorem full_resync_refused ρ tok u d limit k r :
  items_wf d → signed_in d (now_ms ρ) tok u →
  (1 ≤ default 100 limit ≤ 1000)%Z →
  items d !! k = Some r → k.2 = u → is_Some (i_seq r) →
  (∀ k' r' s, items d !! k' = Some r' → k'.2 = u → i_seq r' = Some s → (2 ≤ s)%Z) →
  sync_pull ρ (mkPullQuery 0 limit) tok d = (d, Err (mkApiError 410 "cursor_expired")) ∧
  r ∈ feed u 0 d.
Proof.
  intros Hwf Hs Hlim Hr Hk [s Hsr] Hall. split.
  - rewrite (sync_pull_session _ _ _ u) by (try done; simpl; lia). simpl.
    rewrite decide_True by done. unfold cursor_gone.
    pose proof (min_seq_spec u d) as Hm. destruct (min_seq u d) as [m|].
    + destruct Hm as [(k' & r' & Hr' & Hk' & Hm') _]. pose proof (Hall _ _ _ Hr' Hk' Hm').
      rewrite bool_decide_true; [done|].
      change (as_i64 0) with 0%Z. unfold i64_saturating_sub, i64_min, i64_max. lia.
    + by rewrite (Hm _ _ Hr Hk) in Hsr.
  - apply elem_of_feed. pose proof (Hall _ _ _ Hr Hk Hsr). exists k, s. split_and!; try done. lia.
Qed.
End SyncTheorems.

(** ** Concrete instances *)
Section SyncWitnesses.
#[local] Existing Instance Concrete.toy_ext.

Definition sync_demo : Db := Concrete.demo_session "sess" "alice" 1000 Concrete.demo_db.

Definition push_demo (uuid : string) (target : Z) : PushItem :=
  mkPushItem uuid target 2 (Some "=data") None.

(** Two items are created; the first is then changed. *)
Definition created : Db :=
  serve_all [(Concrete.demo_env 10, RPush "sess" [push_demo "i1" 0; push_demo "i2" 0])] sync_demo.
Definition changed : Db :=
  serve_all [(Concrete.demo_env 20, RPush "sess" [push_demo "i1" 1])] created.

Lemma sync_demo_wf : items_wf sync_demo.
Proof.
  assert (items sync_demo = ∅) as He by reflexivity.
  split; intros *; rewrite !He; by rewrite lookup_empty.
Qed.

Lemma created_wf : items_wf created.
Proof. apply serve_all_sync_le, sync_demo_wf. Qed.
Lemma changed_wf : items_wf changed.
Proof. apply serve_all_sync_le, created_wf. Qed.

Lemma session_demo d :
  sessions d = sessions sync_demo → users d = users sync_demo →
  session_valid d 30 "sess" "alice".
Proof.
  intros Hs Hu. unfold session_valid. rewrite Hs, Hu.
  eexists. split_and!; [vm_compute; reflexivity | reflexivity | vm_compute; discriminate |].
  intros w until Hw. vm_compute in Hw. by injection Hw as <-.
Qed.

Definition demo_row : ItemRow :=
  mkItem "i1" "alice" 1 2 None (Some (Concrete.bytes_of "data")) 10 (Some 1%Z).

Lemma push_batch_refines_registers_witness :
  ∃ d' rs, sync_push_batch (Concrete.demo_env 30) "sess" [push_demo "i1" 2] changed = (d', Ok rs) ∧
           ps_status <$> rs = ["success"].
Proof.
  pose proof (push_batch_refines_registers (Concrete.demo_env 30) "sess" "alice"
    (Concrete.demo_user "alice" 2)
    [(push_demo "i1" 2, Some (Concrete.bytes_of "data"))] changed
    (session_demo changed eq_refl eq_refl) ltac:(vm_compute; reflexivity) ltac:(simpl; lia)
    ltac:(repeat constructor; [by eexists | vm_compute; discriminate ..])) as Hw.
  destruct (batch_spec _ _ _ _) as [σ rs] eqn:Hb. destruct Hw as (d' & Hr & _).
  exists d', rs. split; [exact Hr|]. apply (f_equal snd) in Hb. vm_compute in Hb. by subst rs.
Defined.

Lemma pull_all_complete_witness :
  (pull_all 3 (Concrete.demo_env 30) "sess" (Some 1%Z) 1 changed).2 =
  Ok ([mkPullItem "i2" 1 2 None; mkPullItem "i1" 2 2 None], 3%Z).
Proof.
  destruct (pull_all_complete "alice" changed 3 (Concrete.demo_env 30) "sess" (Some 1%Z) 1)
    as [Hp _].
  - exact changed_wf.
  - split; [reflexivity | by apply session_demo].
  - intros k r s Hk Hs.
    assert (map_Forall (λ _ r, default 0 (i_seq r) ≤ i64_max)%Z (items changed)) as Hall.
    { apply (bool_decide_unpack _). vm_compute. exact I. }
    specialize (Hall k r Hk). simpl in Hall. by rewrite Hs in Hall.
  - simpl; lia.
  - unfold i64_max; lia.
  - apply Nat.ltb_lt. vm_compute. reflexivity.
  - rewrite Hp. vm_compute. reflexivity.
Defined.

Lemma feed_misses_nothing_witness :
  mkItem "i1" "alice" 2 2 None (Some (Concrete.bytes_of "data")) 20 (Some 3%Z) ∈
  feed "alice" 2 changed.
Proof.
  apply (feed_misses_nothing
    [(Concrete.demo_env 20, RPush "sess" [push_demo "i1" 1])] created "alice" ("i1", "alice")).
  - exact created_wf.
  - vm_compute. reflexivity.
  - reflexivity.
  - vm_compute. discriminate.
Defined.

Lemma requests_touch_own_items_witness :
  isolated "alice" created (serve (Concrete.demo_env 30) (RDelete "i1" "sess") created).
Proof.
  apply requests_touch_own_items. intros u' Hv.
  eapply session_valid_fun; [exact Hv | by apply session_demo].
Defined.

Lemma failed_batch_keeps_earlier_writes_witness :
  (sync_push_batch (Concrete.demo_env 10) "sess"
     [push_demo "i1" 0; mkPushItem "i2" 0 2 (Some "oops") None] sync_demo).1 =
  (sync_push_batch (Concrete.demo_env 10) "sess" [push_demo "i1" 0] sync_demo).1.
Proof.
  destruct (sync_push_batch (Concrete.demo_env 10) "sess" [push_demo "i1" 0] sync_demo)
    as [d1 [rs|e]] eqn:Hb; [|vm_compute in Hb; discriminate].
  pose proof (failed_batch_keeps_earlier_writes (Concrete.demo_env 10) "sess" "alice"
    (Concrete.demo_user "alice" 2) [push_demo "i1" 0] (mkPushItem "i2" 0 2 (Some "oops") None) []
    "oops" sync_demo rs d1) as Hf.
  cbn [app] in Hf. rewrite Hf; [reflexivity | | | exact Hb | | | | reflexivity | reflexivity].
  - destruct (session_demo sync_demo eq_refl eq_refl) as (s & Hs & Hu & _ & Hsus).
    exists s. split_and!; [exact Hs | exact Hu | | ].
    + vm_compute in Hs. injection Hs as <-. vm_compute. discriminate.
    + intros w t Hw Ht. vm_compute in Hs. injection Hs as <-. vm_compute in Hw.
      injection Hw as <-. discriminate.
  - simpl; lia.
  - vm_compute. reflexivity.
  - vm_compute. intuition discriminate.
  - simpl; lia.
Defined.

(** Every item has been changed once since it was created. *)
Definition all_changed : Db :=
  serve_all [(Concrete.demo_env 20, RPush "sess" [push_demo "i2" 1])] changed.

Lemma full_resync_refused_witness :
  sync_pull (Concrete.demo_env 30) (mkPullQuery 0 None) "sess" all_changed =
  (all_changed, Err (mkApiError 410 "cursor_expired")).
Proof.
  eapply (full_resync_refused (Concrete.demo_env 30) "sess" "alice" all_changed None
    ("i1", "alice")).
  - apply serve_all_sync_le, changed_wf.
  - split; [reflexivity | by apply session_demo].
  - simpl; lia.
  - vm_compute. reflexivity.
  - reflexivity.
  - by eexists.
  - intros k r s Hk _ Hs.
    assert (map_Forall (λ _ r, 2 ≤ default 2 (i_seq r))%Z (items all_changed)) as Hall.
    { apply (bool_decide_unpack _). vm_compute. exact I. }
    specialize (Hall k r Hk). simpl in Hall. by rewrite Hs in Hall.
Defined.
End SyncWitnesses.
