(* ===== verification/Projects.v ===== *)
(** * Projects: grants, roles, groups, offboarding

    Models [repository/projects.rs] and [handlers/projects.rs]. *)
From S2P Require Import Prelude Domain Database Concrete Users Tokens.

(** ** Stored forms *)

Definition perm_to_db (p : ProjectPermission) : string :=
  match p with CanView => "can_view" | CanEdit => "can_edit" | CanManage => "can_manage" end.

Definition perm_from_db (s : string) : option ProjectPermission :=
  if decide (s = "can_view") then Some CanView
  else if decide (s = "can_edit") then Some CanEdit
  else if decide (s = "can_manage") then Some CanManage
  else None.

Definition role_to_db (r : OrgRole) : string :=
  match r with Owner => "Owner" | Admin => "Admin" | Manager => "Manager" | Member => "Member" end.

Definition role_from_db (s : string) : option OrgRole :=
  if decide (s = "Owner") then Some Owner
  else if decide (s = "Admin") then Some Admin
  else if decide (s = "Manager") then Some Manager
  else if decide (s = "Member") then Some Member
  else None.

Definition group_role_to_db (r : GroupMemberRole) : string :=
  match r with GroupAdmin => "Admin" | GroupMember => "Member" end.

Definition group_role_from_db (s : string) : option GroupMemberRole :=
  if decide (s = "Admin") then Some GroupAdmin
  else if decide (s = "Member") then Some GroupMember
  else None.

Definition kind_to_db (k : ProjectKind) : string :=
  match k with Personal => "personal" | Shared => "shared" end.

(** [ProjectRow::kind]. *)
Definition row_kind (p : ProjectRow) : ProjectKind :=
  if decide (p_kind p = "shared") then Shared else Personal.

Definition max_perm (a : option ProjectPermission) (b : ProjectPermission)
    : option ProjectPermission :=
  Some (match a with
        | None => b
        | Some a => if perm_leb b a then a else b
        end).

(** ** repository/projects.rs *)
Module ProjectRepo.
Definition has_org (o : string) (d : Db) : bool := bool_decide (is_Some (organizations d !! o)).
Definition has_project (p : string) (d : Db) : bool := bool_decide (is_Some (projects d !! p)).
Definition has_group (g : string) (d : Db) : bool := bool_decide (is_Some (user_groups d !! g)).

Definition create_org (id name : string) (now : Z) : sql unit :=
  insert_row organizations with_organizations (λ _, true) id (mkOrg name now).

Definition set_org_member (org user : string) (role : OrgRole) (now : Z) : sql unit :=
  upsert_row org_members with_org_members (λ d, has_org org d && has_user user d) (org, user)
    (mkOrgMember (role_to_db role) now)
    (λ old, mkOrgMember (role_to_db role) (om_created_at old)).

Definition remove_org_member (org user : string) : sql Z :=
  delete_where org_members with_org_members (λ kr, bool_decide (kr.1 = (org, user))).

Definition org_role_of (org user : string) (d : Db) : option OrgRole :=
  m ← org_members d !! (org, user); role_from_db (om_role m).

Definition get_org_role (org user : string) : sql (option OrgRole) := gets (org_role_of org user).

(** The memberships of a user. *)
Definition memberships (user : string) (d : Db) : list ((string * string) * OrgMemberRow) :=
  filter (λ kr, kr.1.2 = user) (map_to_list (org_members d)).

Definition user_is_org_admin (user : string) : sql bool :=
  gets (λ d, existsb (λ kr, bool_decide (om_role kr.2 ∈ ["Owner"; "Admin"])) (memberships user d)).

Definition get_user_org_id (user : string) : sql (option string) :=
  gets (λ d, (λ kr : (string * string) * OrgMemberRow, kr.1.1) <$>
               head (sort_asc (λ kr, om_created_at kr.2) (memberships user d))).

Definition org_roles (user : string) (d : Db) : list (string * OrgRole) :=
  omap (λ kr : (string * string) * OrgMemberRow,
          (λ r, (kr.1.1, r)) <$> role_from_db (om_role kr.2)) (memberships user d).

Definition get_user_org_roles (user : string) : sql (list (string * OrgRole)) :=
  gets (org_roles user).

Definition ensure_org_for_user (new_id : Uuid) (user : string) (now : Z) : sql string :=
  o ← get_user_org_id user;
  match o with
  | Some org => mret org
  | None =>
      create_org new_id "Default Organization" now;;
      set_org_member new_id user Owner now;;
      mret new_id
  end.

Definition project_fk (org : option string) (owner : string) (d : Db) : bool :=
  match org with None => true | Some o => has_org o d end && has_user owner d.

Definition create_project (p : Project) : sql unit :=
  let org_id := scope_org_id (project_scope p) in
  insert_row projects with_projects (project_fk org_id (project_owner_user_id p)) (project_id p)
    (mkProjectRow (project_id p) (project_name p) None (kind_to_db (project_kind p)) org_id None
       (project_owner_user_id p) (project_created_at p) (project_updated_at p)).

Definition get_project (id : string) : sql (option ProjectRow) := gets (λ d, projects d !! id).

Definition set_meta (name : string) (description : option string) (now : Z) (p : ProjectRow)
    : ProjectRow :=
  mkProjectRow (p_id p) name description (p_kind p) (p_org_id p) (p_team_id p)
    (p_owner_user_id p) (p_created_at p) now.

Definition update_project_meta (id name : string) (description : option string) (now : Z)
    : sql unit :=
  update_key projects with_projects id (set_meta name description now);; mret ().

(** The schema's mismatched foreign keys keep SQLite from preparing this
    statement ([Schema.refused_tables]), so its cascade never runs and is not
    modelled. *)
Definition delete_project (id : string) : sql unit :=
  prepare_delete "projects";;
  delete_where projects with_projects (λ kr, bool_decide (kr.1 = id));; mret ().

Definition project_owner (id : string) : sql (option string) :=
  gets (λ d, p_owner_user_id <$> projects d !! id).

Definition member_of (user : string) (g : option string) (d : Db) : bool :=
  match g with
  | Some g => bool_decide (is_Some (user_group_members d !! (g, user)))
  | None => false
  end.

Definition direct_rows (user : string) (d : Db) : list AccessRow :=
  filter (λ a, pa_grantee_user_id a = Some user) (rows (project_access d)).

Definition group_rows (user : string) (d : Db) : list AccessRow :=
  filter (λ a, member_of user (pa_grantee_group_id a) d = true) (rows (project_access d)).

Definition org_wide (user : string) (d : Db) (p : ProjectRow) : bool :=
  match p_org_id p with
  | Some o => match org_members d !! (o, user) with
              | Some m => bool_decide (om_role m ∈ ["Owner"; "Admin"])
              | None => false
              end
  | None => false
  end.

Definition list_projects_for_user (user : string) : sql (list ProjectRow) :=
  gets (λ d,
    let owned := p_id <$> filter (λ p, p_owner_user_id p = user) (rows (projects d)) in
    let direct := pa_project_id <$> direct_rows user d in
    let group := pa_project_id <$> group_rows user d in
    let wide := p_id <$> filter (λ p, org_wide user d p = true) (rows (projects d)) in
    let ids := remove_dups (owned ++ direct ++ group ++ wide) in
    sort_asc p_created_at (omap (λ id, projects d !! id) ids)).

Definition access_fk (project : string) (user group : option string) (granted_by : string)
    (d : Db) : bool :=
  has_project project d &&
  match user with None => true | Some u => has_user u d end &&
  match group with None => true | Some g => has_group g d end &&
  has_user granted_by d.

Definition grant_user_project_access (new_id : Uuid) (project user : string)
    (permission : ProjectPermission) (hide_password : bool) (granted_by : string) (now : Z)
    : sql unit :=
  transaction (
    _ ← delete_where project_access with_project_access
          (λ kr, bool_decide (pa_project_id kr.2 = project) &&
                 bool_decide (pa_grantee_user_id kr.2 = Some user));
    insert_row project_access with_project_access (access_fk project (Some user) None granted_by)
      new_id (mkAccess new_id project (Some user) None (perm_to_db permission)
                (if hide_password then 1 else 0)%Z granted_by now)).

Definition grant_group_project_access (new_id : Uuid) (project group : string)
    (permission : ProjectPermission) (hide_password : bool) (granted_by : string) (now : Z)
    : sql unit :=
  transaction (
    _ ← delete_where project_access with_project_access
          (λ kr, bool_decide (pa_project_id kr.2 = project) &&
                 bool_decide (pa_grantee_group_id kr.2 = Some group));
    insert_row project_access with_project_access (access_fk project None (Some group) granted_by)
      new_id (mkAccess new_id project None (Some group) (perm_to_db permission)
                (if hide_password then 1 else 0)%Z granted_by now)).

Definition get_user_grant (project user : string) : sql (option AccessRow) :=
  gets (λ d, head (filter (λ a, pa_project_id a = project) (direct_rows user d))).

Definition list_project_members (project : string) : sql (list AccessRow) :=
  gets (λ d, sort_asc pa_granted_at
    (filter (λ a, pa_project_id a = project ∧ is_Some (pa_grantee_user_id a))
       (rows (project_access d)))).

Definition list_project_group_grants (project : string) : sql (list AccessRow) :=
  gets (λ d, sort_asc pa_granted_at
    (filter (λ a, pa_project_id a = project ∧ is_Some (pa_grantee_group_id a))
       (rows (project_access d)))).

Definition remove_user_grant (project user : string) : sql Z :=
  delete_where project_access with_project_access
    (λ kr, bool_decide (pa_project_id kr.2 = project) &&
           bool_decide (pa_grantee_user_id kr.2 = Some user)).

(** The two loops of [effective_permission]. *)
Definition best_of (best : option ProjectPermission) (l : list AccessRow)
    : option ProjectPermission :=
  foldl (λ best a, match perm_from_db (pa_permission a) with
                   | Some pp => max_perm best pp
                   | None => best
                   end) best l.

Definition effective_permission (project user : string) : sql (option ProjectPermission) :=
  owner ← project_owner project;
  if bool_decide (owner = Some user) then mret (Some CanManage)
  else
    direct ← gets (λ d, filter (λ a, pa_project_id a = project) (direct_rows user d));
    group ← gets (λ d, filter (λ a, pa_project_id a = project) (group_rows user d));
    mret (best_of (best_of None direct) group).

Definition create_user_group (id name : string) (description org : option string) (now : Z)
    : sql unit :=
  insert_row user_groups with_user_groups
    (λ d, match org with None => true | Some o => has_org o d end) id
    (mkGroup id name description org now now).

Definition get_user_group (id : string) : sql (option UserGroupRow) := gets (λ d, user_groups d !! id).

Definition set_group_meta (name : string) (description : option string) (now : Z)
    (g : UserGroupRow) : UserGroupRow :=
  mkGroup (g_id g) name description (g_org_id g) (g_created_at g) now.

Definition update_user_group (id name : string) (description : option string) (now : Z) : sql unit :=
  update_key user_groups with_user_groups id (set_group_meta name description now);; mret ().

Definition delete_user_group (id : string) : sql unit :=
  _ ← delete_where user_groups with_user_groups (λ kr, bool_decide (kr.1 = id));
  _ ← delete_where user_group_members with_user_group_members (λ kr, bool_decide (kr.1.1 = id));
  _ ← delete_where project_access with_project_access
        (λ kr, bool_decide (pa_grantee_group_id kr.2 = Some id));
  mret ().

Definition list_groups_for_project (project : string) : sql (list UserGroupRow) :=
  gets (λ d,
    let ids := remove_dups (omap pa_grantee_group_id
                 (filter (λ a, pa_project_id a = project) (rows (project_access d)))) in
    omap (λ id, user_groups d !! id) ids).

Definition add_user_group_member (group user : string) (role : GroupMemberRole) (now : Z)
    : sql unit :=
  upsert_row user_group_members with_user_group_members
    (λ d, has_group group d && has_user user d) (group, user)
    (mkGroupMember group user (group_role_to_db role) now)
    (λ old, mkGroupMember (gm_group_id old) (gm_user_id old) (group_role_to_db role)
              (gm_created_at old)).

Definition remove_user_group_member (group user : string) : sql Z :=
  delete_where user_group_members with_user_group_members (λ kr, bool_decide (kr.1 = (group, user))).

Definition list_user_group_members (group : string) : sql (list GroupMemberRow) :=
  gets (λ d, sort_asc gm_created_at
               (filter (λ kr : (string * string) * GroupMemberRow, kr.1.1 = group)
                  (map_to_list (user_group_members d))).*2).

Definition user_in_group (user group : string) : sql bool :=
  gets (member_of user (Some group)).

Definition group_member_role (group user : string) : sql (option GroupMemberRole) :=
  gets (λ d, m ← user_group_members d !! (group, user); group_role_from_db (gm_role m)).

Definition create_offboarding (req : OffboardingRequest) : sql unit :=
  insert_row offboardings with_offboardings
    (λ d, has_user (off_user_id req) d && has_user (off_requested_by req) d) (off_id req)
    (mkOffboardingRow (off_id req) (off_user_id req) (off_requested_by req) (off_reason req)
       "pending" (off_requested_at req) None).

Definition revoke_project_access_for_user (user : string) : sql Z :=
  delete_where project_access with_project_access
    (λ kr, bool_decide (pa_grantee_user_id kr.2 = Some user)).

Definition revoke_group_memberships_for_user (user : string) : sql Z :=
  delete_where user_group_members with_user_group_members (λ kr, bool_decide (kr.1.2 = user)).

Definition revoke_org_memberships_for_user (user : string) : sql Z :=
  delete_where org_members with_org_members (λ kr, bool_decide (kr.1.2 = user)).

Definition revoke_sharing_keys_for_user (user : string) : sql Z :=
  delete_where user_sharing_keys with_user_sharing_keys (λ kr, bool_decide (kr.1 = user)).

Definition set_completed (now : Z) (o : OffboardingRow) : OffboardingRow :=
  mkOffboardingRow (ob_id o) (ob_user_id o) (ob_requested_by o) (ob_reason o) "completed"
    (ob_requested_at o) (Some now).

Definition complete_offboarding (id : string) (now : Z) : sql unit :=
  update_key offboardings with_offboardings id (set_completed now);; mret ().
End ProjectRepo.

(** ** handlers/projects.rs

    The wire enums [RoleWire], [PermWire], [ProjectTypeWire] and
    [GroupRoleWire] are copies of the domain enums and are read as those. *)
Module ProjectApi.
Definition role_wire (r : OrgRole) : string :=
  match r with Owner => "owner" | Admin => "admin" | Manager => "manager" | Member => "member" end.

Definition perm_wire (p : ProjectPermission) : string :=
  match p with CanView => "can_view" | CanEdit => "can_edit" | CanManage => "can_manage" end.

Definition group_role_wire (r : GroupMemberRole) : string :=
  match r with GroupAdmin => "admin" | GroupMember => "member" end.

(** The handler's own reading of a stored permission. *)
Definition perm_from_db (s : string) : ProjectPermission :=
  if decide (s = "can_edit") then CanEdit
  else if decide (s = "can_manage") then CanManage
  else CanView.

Record CreateProjectReq := mkCreateProject {
  cp_name : string; cp_description : option string; cp_type : option ProjectKind }.
Record UpdateProjectReq := mkUpdateProject {
  up_name : option string; up_description : option string }.
Record AddMemberReq := mkAddMember {
  am_user_uuid : string; am_role : option OrgRole;
  am_permission : option ProjectPermission; am_hide_password : option bool }.
Record UpdateMemberReq := mkUpdateMember {
  um_role : option OrgRole; um_permission : option ProjectPermission;
  um_hide_password : option bool }.
Record CreateGroupReq := mkCreateGroup { cg_name : string; cg_description : option string }.
Record UpdateGroupReq := mkUpdateGroup {
  ug_name : option string; ug_description : option string }.
Record AddGroupMemberReq := mkAddGroupMember {
  ag_user_uuid : string; ag_role : option GroupMemberRole }.
Record OffboardReq := mkOffboard { or_user_uuid : string; or_reason : option string }.

Record ProjectResp := mkProjectResp {
  prj_uuid : string; prj_name : string; prj_description : option string; prj_type : string;
  prj_role : string; prj_permission : option string; prj_created_at : Z; prj_updated_at : Z }.
Record ProjectMemberResp := mkMemberResp {
  mr_user_uuid : string; mr_display_name : option string; mr_role : string;
  mr_permission : string; mr_added_at : Z; mr_hide_password : bool }.
Record GroupMemberResp := mkGroupMemberResp { gr_user_uuid : string; gr_role : string }.
Record UserGroupResp := mkGroupResp {
  gp_id : string; gp_name : string; gp_description : option string;
  gp_members : list GroupMemberResp; gp_created_at : Z; gp_updated_at : Z }.
Record OffboardResp := mkOffboardResp {
  of_user_uuid : string; of_revoked_projects : Z; of_revoked_memberships : Z;
  of_revoked_tokens : Z; of_revoked_at : Z }.

Definition denied : ApiError := forbidden "forbidden".

Definition validate_name (name : string) : result ApiError unit :=
  if bool_decide (str_trim name = "") || bool_decide (128 < String.length (str_trim name))
  then Err (unprocessable "precondition_failed") else Ok ().

Definition caller_role_in_project (p : ProjectRow) (caller : string) : handler OrgRole :=
  match p_org_id p with
  | Some org => r ← call (ProjectRepo.get_org_role org caller); mret (default Member r)
  | None => mret Member
  end.

Definition effective_perm (p : ProjectRow) (caller : string) : handler (option ProjectPermission) :=
  call (ProjectRepo.effective_permission (p_id p) caller).

Definition ensure_visible (p : ProjectRow) (caller : string) : handler unit :=
  if bool_decide (p_owner_user_id p = caller) then mret ()
  else
    role ← caller_role_in_project p caller;
    if Role.can_manage_org role then mret ()
    else
      perm ← effective_perm p caller;
      guard_err (bool_decide (perm = None)) not_found.

Definition require_can_manage (p : ProjectRow) (caller : string) : handler unit :=
  if bool_decide (p_owner_user_id p = caller) then mret ()
  else
    perm ← effective_perm p caller;
    if bool_decide (perm = Some CanManage) then mret ()
    else
      role ← caller_role_in_project p caller;
      guard_err (negb (Role.can_manage_org role)) denied.

Definition enforce_role_rank (caller_role target_role : OrgRole) : result ApiError unit :=
  if bool_decide (Role.rank caller_role ≤ Role.rank target_role)%Z then Err denied else Ok ().

Definition project_resp (p : ProjectRow) (role : OrgRole) (perm : option ProjectPermission)
    : ProjectResp :=
  mkProjectResp (p_id p) (p_name p) (p_description p)
    (match row_kind p with Personal => "personal" | Shared => "shared" end)
    (role_wire role) (perm_wire <$> perm) (p_created_at p) (p_updated_at p).

Definition member_resp (p : ProjectRow) (grant : AccessRow) : handler ProjectMemberResp :=
  let uid := default "" (pa_grantee_user_id grant) in
  display_name ← call (get_user_email uid);
  role ← match p_org_id p with
         | Some org => r ← call (ProjectRepo.get_org_role org uid); mret (default Member r)
         | None => mret Member
         end;
  mret (mkMemberResp uid display_name (role_wire role) (perm_wire (perm_from_db (pa_permission grant)))
          (pa_granted_at grant) (negb (bool_decide (pa_hide_password grant = 0%Z)))).

Definition group_resp (g : UserGroupRow) : handler UserGroupResp :=
  rows ← call (ProjectRepo.list_user_group_members (g_id g));
  mret (mkGroupResp (g_id g) (g_name g) (g_description g)
          ((λ m, mkGroupMemberResp (gm_user_id m)
                   (group_role_wire (if decide (gm_role m = "Admin") then GroupAdmin else GroupMember)))
           <$> rows)
          (g_created_at g) (g_updated_at g)).

(** [get_project(id)?.ok_or_else(not_found)?]. *)
Definition find_project (id : string) : handler ProjectRow :=
  o ← call (ProjectRepo.get_project id); ok_or not_found o.

Section Api.
Context `{Ext}.

Definition list_projects (ρ : Env) (auth : string) : handler (list ProjectResp) :=
  caller ← auth_any ρ auth;
  lift (require_scope caller "projects:read");;
  rows ← call (ProjectRepo.list_projects_for_user (user_id caller));
  let rows :=
    match token caller ≫= project_uuid with
    | Some bound => filter (λ p, p_id p = bound) rows
    | None => rows
    end in
  mapM (λ p,
    role ← caller_role_in_project p (user_id caller);
    perm ← effective_perm p (user_id caller);
    mret (project_resp p role perm)) rows.

Definition create_project (ρ : Env) (auth : string) (req : CreateProjectReq)
    : handler ProjectResp :=
  caller ← auth_user ρ auth;
  lift (validate_name (cp_name req));;
  let kind := default Personal (cp_type req) in
  let now := now_ms ρ in
  let id := fresh ρ 0 in
  let caller_uuid := default nil_uuid (uuid_parse caller) in
  project ←
    match kind with
    | Personal => mret (ProjectNew.personal id (str_trim (cp_name req)) caller_uuid now)
    | Shared =>
        org ← call (ProjectRepo.ensure_org_for_user (fresh ρ 1) caller now);
        r ← call (ProjectRepo.get_org_role org caller);
        guard_err (negb (Role.can_create_projects (default Member r))) denied;;
        let org_uuid := default nil_uuid (uuid_parse org) in
        mret (ProjectNew.shared id (str_trim (cp_name req)) org_uuid None caller_uuid now)
    end;
  call (ProjectRepo.create_project project);;
  (match cp_description req with
   | Some desc => call (ProjectRepo.update_project_meta id (str_trim (project_name project))
                          (Some desc) now)
   | None => mret ()
   end);;
  row ← find_project id;
  role ← caller_role_in_project row caller;
  mret (project_resp row role (Some CanManage)).

Definition get_project (ρ : Env) (id : Uuid) (auth : string) : handler ProjectResp :=
  caller ← auth_user ρ auth;
  p ← find_project id;
  ensure_visible p caller;;
  role ← caller_role_in_project p caller;
  perm ← effective_perm p caller;
  mret (project_resp p role perm).

Definition update_project (ρ : Env) (id : Uuid) (auth : string) (req : UpdateProjectReq)
    : handler ProjectResp :=
  caller ← auth_user ρ auth;
  p ← find_project id;
  require_can_manage p caller;;
  let name := default (p_name p) (up_name req) in
  lift (validate_name name);;
  let description :=
    match up_description req with Some x => Some x | None => p_description p end in
  call (ProjectRepo.update_project_meta (p_id p) (str_trim name) description (now_ms ρ));;
  updated ← find_project (p_id p);
  role ← caller_role_in_project updated caller;
  perm ← effective_perm updated caller;
  mret (project_resp updated role perm).

Definition delete_project (ρ : Env) (id : Uuid) (auth : string) : handler unit :=
  caller ← auth_user ρ auth;
  p ← find_project id;
  require_can_manage p caller;;
  call (ProjectRepo.delete_project (p_id p)).

Definition list_members (ρ : Env) (id : Uuid) (auth : string) : handler (list ProjectMemberResp) :=
  caller ← auth_user ρ auth;
  p ← find_project id;
  require_can_manage p caller;;
  grants ← call (ProjectRepo.list_project_members (p_id p));
  mapM (member_resp p) grants.

(** The org-role block shared by [add_member] and [update_member]. *)
Definition assign_role (ρ : Env) (p : ProjectRow) (caller target : string)
    (role : option OrgRole) : handler unit :=
  match role with
  | Some target_role =>
      org ← match p_org_id p with
            | Some o => mret o
            | None => call (ProjectRepo.ensure_org_for_user (fresh ρ 0) caller (now_ms ρ))
            end;
      r ← call (ProjectRepo.get_org_role org caller);
      lift (enforce_role_rank (default Member r) target_role);;
      call (ProjectRepo.set_org_member org target target_role (now_ms ρ))
  | None => mret ()
  end.

Definition add_member (ρ : Env) (id : Uuid) (auth : string) (req : AddMemberReq)
    : handler ProjectMemberResp :=
  caller ← auth_user ρ auth;
  p ← find_project id;
  require_can_manage p caller;;
  u ← call (get_user_by_id (am_user_uuid req));
  _ ← ok_or not_found u;
  let permission := default CanView (am_permission req) in
  let hide_password := default false (am_hide_password req) in
  assign_role ρ p caller (am_user_uuid req) (am_role req);;
  call (ProjectRepo.grant_user_project_access (fresh ρ 1) (p_id p) (am_user_uuid req) permission
          hide_password caller (now_ms ρ));;
  o ← call (ProjectRepo.get_user_grant (p_id p) (am_user_uuid req));
  grant ← ok_or Api.internal o;
  member_resp p grant.

Definition update_member (ρ : Env) (id : Uuid) (user_uuid auth : string) (req : UpdateMemberReq)
    : handler ProjectMemberResp :=
  caller ← auth_user ρ auth;
  p ← find_project id;
  require_can_manage p caller;;
  o ← call (ProjectRepo.get_user_grant (p_id p) user_uuid);
  existing ← ok_or not_found o;
  let permission := default (perm_from_db (pa_permission existing)) (um_permission req) in
  let hide_password :=
    default (negb (bool_decide (pa_hide_password existing = 0%Z))) (um_hide_password req) in
  assign_role ρ p caller user_uuid (um_role req);;
  call (ProjectRepo.grant_user_project_access (fresh ρ 1) (p_id p) user_uuid permission
          hide_password caller (now_ms ρ));;
  o ← call (ProjectRepo.get_user_grant (p_id p) user_uuid);
  grant ← ok_or not_found o;
  member_resp p grant.

Definition remove_member (ρ : Env) (id : Uuid) (user_uuid auth : string) : handler unit :=
  caller ← auth_user ρ auth;
  p ← find_project id;
  require_can_manage p caller;;
  removed ← call (ProjectRepo.remove_user_grant (p_id p) user_uuid);
  guard_err (bool_decide (removed = 0%Z)) not_found.

Definition list_groups (ρ : Env) (id : Uuid) (auth : string) : handler (list UserGroupResp) :=
  caller ← auth_user ρ auth;
  p ← find_project id;
  ensure_visible p caller;;
  rows ← call (ProjectRepo.list_groups_for_project (p_id p));
  mapM group_resp rows.

Definition create_group (ρ : Env) (id : Uuid) (auth : string) (req : CreateGroupReq)
    : handler UserGroupResp :=
  caller ← auth_user ρ auth;
  lift (validate_name (cg_name req));;
  p ← find_project id;
  require_can_manage p caller;;
  let now := now_ms ρ in
  org ← match p_org_id p with
        | Some o => mret (Some o)
        | None => o ← call (ProjectRepo.ensure_org_for_user (fresh ρ 0) caller now); mret (Some o)
        end;
  let gid := fresh ρ 1 in
  call (ProjectRepo.create_user_group gid (str_trim (cg_name req)) (cg_description req) org now);;
  call (ProjectRepo.grant_group_project_access (fresh ρ 2) (p_id p) gid CanView false caller now);;
  o ← call (ProjectRepo.get_user_group gid);
  g ← ok_or not_found o;
  group_resp g.

Definition update_group (ρ : Env) (id group_id : Uuid) (auth : string) (req : UpdateGroupReq)
    : handler UserGroupResp :=
  caller ← auth_user ρ auth;
  p ← find_project id;
  require_can_manage p caller;;
  o ← call (ProjectRepo.get_user_group group_id);
  g ← ok_or not_found o;
  let name := default (g_name g) (ug_name req) in
  lift (validate_name name);;
  let description :=
    match ug_description req with Some x => Some x | None => g_description g end in
  call (ProjectRepo.update_user_group (g_id g) (str_trim name) description (now_ms ρ));;
  o ← call (ProjectRepo.get_user_group (g_id g));
  updated ← ok_or not_found o;
  group_resp updated.

Definition delete_group (ρ : Env) (id group_id : Uuid) (auth : string) : handler unit :=
  caller ← auth_user ρ auth;
  p ← find_project id;
  require_can_manage p caller;;
  call (ProjectRepo.delete_user_group group_id).

Definition add_group_member (ρ : Env) (id group_id : Uuid) (auth : string)
    (req : AddGroupMemberReq) : handler unit :=
  caller ← auth_user ρ auth;
  p ← find_project id;
  require_can_manage p caller;;
  g ← call (ProjectRepo.get_user_group group_id);
  _ ← ok_or not_found g;
  u ← call (get_user_by_id (ag_user_uuid req));
  _ ← ok_or not_found u;
  let role := default GroupMember (ag_role req) in
  call (ProjectRepo.add_user_group_member group_id (ag_user_uuid req) role (now_ms ρ)).

Definition remove_group_member (ρ : Env) (id group_id : Uuid) (user_uuid auth : string)
    : handler unit :=
  caller ← auth_user ρ auth;
  p ← find_project id;
  require_can_manage p caller;;
  removed ← call (ProjectRepo.remove_user_group_member group_id user_uuid);
  guard_err (bool_decide (removed = 0%Z)) not_found.

(** The rank test of [offboard]: the caller outranks the target in every
    organization of the target, or may offboard somewhere when the target
    has none. *)
Definition may_offboard (caller_roles target_roles : list (string * OrgRole)) : bool :=
  match target_roles with
  | [] => existsb (λ or, Role.can_offboard or.2) caller_roles
  | _ => forallb (λ or : string * OrgRole,
           match head (filter (λ c : string * OrgRole, c.1 = or.1) caller_roles) with
           | Some (_, c) => Role.can_offboard c && bool_decide (Role.rank or.2 < Role.rank c)%Z
           | None => false
           end) target_roles
  end.

Definition offboard (ρ : Env) (auth : string) (req : OffboardReq) : handler OffboardResp :=
  caller ← auth_user ρ auth;
  let target := or_user_uuid req in
  u ← call (get_user_by_id target);
  _ ← ok_or not_found u;
  caller_roles ← call (ProjectRepo.get_user_org_roles caller);
  target_roles ← call (ProjectRepo.get_user_org_roles target);
  guard_err (negb (may_offboard caller_roles target_roles)) denied;;
  let now := now_ms ρ in
  let request := offboarding_revoke_all (fresh ρ 0) (default nil_uuid (uuid_parse target))
                   (default nil_uuid (uuid_parse caller)) (or_reason req) now in
  call (ProjectRepo.create_offboarding request);;
  revoked_projects ← call (ProjectRepo.revoke_project_access_for_user target);
  revoked_memberships ← call (ProjectRepo.revoke_group_memberships_for_user target);
  revoked_tokens ← call (revoke_sessions_for_user target);
  _ ← call (ProjectRepo.revoke_org_memberships_for_user target);
  _ ← call (ProjectRepo.revoke_sharing_keys_for_user target);
  _ ← call (Repo.revoke_tokens_for_user target);
  _ ← call (Repo.revoke_machine_accounts_for_user target);
  call (ProjectRepo.complete_offboarding (off_id request) now);;
  call (audit_org_event (Some caller) (Some target) "offboard" "offboarding"
          (Some (off_id request)) (or_reason req) None now);;
  mret (mkOffboardResp target revoked_projects revoked_memberships revoked_tokens now).
End Api.
End ProjectApi.

(** ** What a user may do on a project *)

(** [q] is granted: by ownership, or by a grant at least as strong, direct or
    through a group. *)
Definition holds (d : Db) (project user : string) (q : ProjectPermission) : Prop :=
  (p_owner_user_id <$> projects d !! project) = Some user ∨
  ∃ k a pp, project_access d !! k = Some a ∧ pa_project_id a = project ∧
    (pa_grantee_user_id a = Some user ∨
     ∃ g, pa_grantee_group_id a = Some g ∧ is_Some (user_group_members d !! (g, user))) ∧
    perm_from_db (pa_permission a) = Some pp ∧ perm_le q pp.

Definition at_least (o : option ProjectPermission) (q : ProjectPermission) : Prop :=
  ∃ r, o = Some r ∧ perm_le q r.

Lemma at_least_max b pp q : at_least (max_perm b pp) q ↔ at_least b q ∨ perm_le q pp.
Proof.
  unfold at_least, max_perm. destruct b as [b|].
  - destruct (perm_leb pp b) eqn:Hle.
    + apply perm_leb_le in Hle. split; [naive_solver|].
      intros [?|Hq]; [naive_solver|]. exists b. split; [done|]. by etransitivity.
    + assert (perm_le b pp) as Hle'.
      { destruct (perm_le_total b pp) as [?|Hp]; [done|]. apply perm_leb_le in Hp. congruence. }
      split; [naive_solver|].
      intros [(r & [= ->] & Hq)|Hq]; exists pp; (split; [done|]); [by etransitivity | done].
  - naive_solver.
Qed.

Lemma at_least_best l b q :
  at_least (ProjectRepo.best_of b l) q ↔
  at_least b q ∨ ∃ a pp, a ∈ l ∧ perm_from_db (pa_permission a) = Some pp ∧ perm_le q pp.
Proof.
  unfold ProjectRepo.best_of. revert b. induction l as [|a l IH]; intros b; simpl.
  - set_solver.
  - rewrite IH. destruct (perm_from_db (pa_permission a)) as [pp|] eqn:Hp.
    + rewrite at_least_max. setoid_rewrite elem_of_cons. naive_solver.
    + setoid_rewrite elem_of_cons. naive_solver.
Qed.

Lemma elem_of_rows {K R} `{Countable K} (t : gmap K R) r : r ∈ rows t ↔ ∃ k, t !! k = Some r.
Proof.
  unfold rows. rewrite list_elem_of_fmap. split.
  - intros ([k r'] & -> & Hin%elem_of_map_to_list). eauto.
  - intros [k Hk]. exists (k, r). by rewrite elem_of_map_to_list.
Qed.

Lemma member_of_true user g d :
  ProjectRepo.member_of user g d = true ↔
  ∃ g', g = Some g' ∧ is_Some (user_group_members d !! (g', user)).
Proof. destruct g as [g|]; simpl; [rewrite bool_decide_eq_true|]; naive_solver. Qed.

(** The permission [effective_permission] computes. *)
Definition effective (d : Db) (project user : string) : option ProjectPermission :=
  if bool_decide (p_owner_user_id <$> projects d !! project = Some user) then Some CanManage
  else ProjectRepo.best_of
         (ProjectRepo.best_of None
            (filter (λ a, pa_project_id a = project) (ProjectRepo.direct_rows user d)))
         (filter (λ a, pa_project_id a = project) (ProjectRepo.group_rows user d)).

Lemma effective_permission_run project user d :
  ProjectRepo.effective_permission project user d = (d, Ok (effective d project user)).
Proof.
  unfold ProjectRepo.effective_permission, ProjectRepo.project_owner, effective. run_step.
  case_bool_decide; [done|]. by run_step.
Qed.

Lemma effective_spec d project user q :
  at_least (effective d project user) q ↔ holds d project user q.
Proof.
  unfold effective, holds. case_bool_decide as Ho.
  { split; [by left|]. intros _. exists CanManage. split; [done | apply perm_manage_top]. }
  rewrite !at_least_best. unfold ProjectRepo.direct_rows, ProjectRepo.group_rows.
  setoid_rewrite list_elem_of_filter. setoid_rewrite list_elem_of_filter.
  setoid_rewrite elem_of_rows. setoid_rewrite member_of_true.
  assert (¬ at_least None q) as Hn by (intros (? & ? & _); done).
  split.
  - intros [[?|(a & pp & (? & ? & k & ?) & ? & ?)]|(a & pp & (? & (g & ? & ?) & k & ?) & ? & ?)];
      [done | right; exists k, a, pp; eauto 10 | right; exists k, a, pp; eauto 10].
  - intros [?|(k & a & pp & ? & ? & [?|(g & ? & ?)] & ? & ?)]; [done | |].
    + left. right. exists a, pp. eauto 10.
    + right. exists a, pp. eauto 10.
Qed.

Lemma effective_manage d project user :
  effective d project user = Some CanManage ↔ holds d project user CanManage.
Proof.
  rewrite <-effective_spec. split.
  - intros ->. by exists CanManage.
  - intros (r & -> & Hr). f_equal. apply perm_le_antisym; [apply perm_manage_top | done].
Qed.

(** The role a project's organization gives the caller. *)
Definition project_role (d : Db) (p : ProjectRow) (u : string) : OrgRole :=
  match p_org_id p with
  | Some org => default Member (ProjectRepo.org_role_of org u d)
  | None => Member
  end.

Lemma caller_role_run p u d :
  ProjectApi.caller_role_in_project p u d = (d, Ok (project_role d p u)).
Proof.
  unfold ProjectApi.caller_role_in_project, project_role, ProjectRepo.get_org_role.
  destruct (p_org_id p); [|done]. by run_step.
Qed.

(** Who may manage a project. *)
Definition manages (d : Db) (p : ProjectRow) (u : string) : Prop :=
  p_owner_user_id p = u ∨ holds d (p_id p) u CanManage ∨
  Role.can_manage_org (project_role d p u) = true.

#[export] Instance manages_dec d p u : Decision (manages d p u).
Proof.
  unfold manages. apply or_dec; [apply _|]. apply or_dec; [|apply _].
  destruct (decide (effective d (p_id p) u = Some CanManage)) as [He|He];
    rewrite effective_manage in He; [by left | by right].
Defined.

Lemma require_can_manage_run p u d :
  ProjectApi.require_can_manage p u d =
  (d, if decide (manages d p u) then Ok () else Err ProjectApi.denied).
Proof.
  unfold ProjectApi.require_can_manage, ProjectApi.effective_perm.
  case_bool_decide as Ho; [by rewrite decide_True by (by left)|].
  rewrite bind_run, map_err_run, effective_permission_run. cbn [map_res].
  case_bool_decide as He.
  { apply effective_manage in He. rewrite decide_True by (right; by left). done. }
  rewrite bind_run, caller_role_run, guard_err_run. rewrite effective_manage in He.
  destruct (Role.can_manage_org _) eqn:Hr; simpl.
  - rewrite decide_True by (right; by right). done.
  - rewrite decide_False; [done|]. intros [?|[?|?]]; congruence.
Qed.

(** ** Organization roles change only below the caller *)
Section Roles.
Context `{Ext}.

Definition with_role (org target : string) (r : OrgRole) (now : Z) (d : Db) : Db :=
  with_org_members (insert (org, target)
    (match org_members d !! (org, target) with
     | Some old => mkOrgMember (role_to_db r) (om_created_at old)
     | None => mkOrgMember (role_to_db r) now
     end)) d.

Lemma role_from_to_db r : role_from_db (role_to_db r) = Some r.
Proof. by destruct r. Qed.

Lemma with_role_lookup org target r now d o u :
  ProjectRepo.org_role_of o u (with_role org target r now d) =
  if decide ((o, u) = (org, target)) then Some r else ProjectRepo.org_role_of o u d.
Proof.
  unfold ProjectRepo.org_role_of, with_role.
  change (org_members (with_org_members ?f d)) with (f (org_members d)).
  case_decide as Heq.
  - injection Heq as -> ->. rewrite lookup_insert, decide_True by done. simpl.
    destruct (org_members d !! _); apply role_from_to_db.
  - by rewrite lookup_insert_ne by congruence.
Qed.

Lemma assign_role_run ρ p org caller target r d :
  p_org_id p = Some org →
  ProjectApi.assign_role ρ p caller target (Some r) d =
  if decide (Role.rank r < Role.rank (project_role d p caller))%Z then
    if ProjectRepo.has_org org d && has_user target d
    then (with_role org target r (now_ms ρ) d, Ok ())
    else (d, Err Api.internal)
  else (d, Err ProjectApi.denied).
Proof.
  intros Hp. unfold ProjectApi.assign_role, project_role, ProjectRepo.get_org_role,
    ProjectApi.enforce_role_rank. rewrite Hp. run_next. cbn [map_res]. run_next.
  destruct (decide (Role.rank r < _)%Z) as [Hlt|Hge].
  - case_bool_decide; [lia|]. unfold ProjectRepo.set_org_member. rewrite upsert_row_run.
    destruct (ProjectRepo.has_org org d && has_user target d); [|done].
    unfold with_role. by destruct (org_members d !! (org, target)).
  - case_bool_decide; [done | lia].
Qed.

(** The grant replacement touches only [project_access]. *)
Lemma grant_user_ok new_id project user perm hide by_ now d d' b :
  ProjectRepo.grant_user_project_access new_id project user perm hide by_ now d = (d', Ok b) →
  ∃ f, d' = with_project_access f d ∧
    f (project_access d) = <[new_id := mkAccess new_id project (Some user) None (perm_to_db perm)
                                (if hide then 1 else 0)%Z by_ now]>
      (filter (λ kr, bool_decide (pa_project_id kr.2 = project) &&
                     bool_decide (pa_grantee_user_id kr.2 = Some user) = false) (project_access d)).
Proof.
  unfold ProjectRepo.grant_user_project_access.
  intros (d1 & n & Hd & Hi)%transaction_ok%bind_ok. rewrite delete_where_run in Hd.
  injection Hd as <- <-. apply insert_row_ok in Hi as (_ & _ & ->).
  eexists (λ m, <[new_id := _]> (filter _ m)). split; reflexivity.
Qed.

Lemma member_resp_read p g d : (ProjectApi.member_resp p g d).1 = d.
Proof.
  unfold ProjectApi.member_resp, get_user_email, ProjectRepo.get_org_role.
  destruct (p_org_id p); run_step; reflexivity.
Qed.

Lemma find_project_ok id d d' p :
  ProjectApi.find_project id d = (d', Ok p) → d' = d ∧ projects d !! id = Some p.
Proof.
  unfold ProjectApi.find_project, ProjectRepo.get_project. intros Hr. ok_step Hr. by subst.
Qed.

Lemma find_project_run id d :
  ProjectApi.find_project id d =
  (d, match projects d !! id with Some p => Ok p | None => Err not_found end).
Proof. unfold ProjectApi.find_project, ProjectRepo.get_project. by run_step. Qed.

(** Deleting a project fails for everybody, its manager included. *)
Lemma delete_project_run ρ id auth d :
  (∃ e, ProjectApi.delete_project ρ id auth d = (d, Err e)) ∧
  ∀ u p, session_valid d (now_ms ρ) auth u → projects d !! id = Some p →
         ProjectApi.require_can_manage p u d = (d, Ok ()) →
         ProjectApi.delete_project ρ id auth d = (d, Err Api.internal).
Proof.
  assert (∀ p, call (ProjectRepo.delete_project p) d = (d, Err Api.internal)) as Hd.
  { intros p. unfold ProjectRepo.delete_project. rewrite map_err_run, bind_run.
    by rewrite delete_projects_refused. }
  unfold ProjectApi.delete_project. split.
  - match goal with |- context [(_ ≫= ?f) d] =>
      destruct (auth_user_bind ρ auth f d) as [(u & _ & ->) | (e & _ & ->)]; [|eauto] end.
    rewrite bind_run, find_project_run. destruct (projects d !! id) as [p|]; [|eauto].
    rewrite bind_run, require_can_manage_run. case_match; [rewrite Hd|]; eauto.
  - intros u p Hv Hp Hm. rewrite (auth_user_ok_bind ρ auth u) by done.
    by rewrite bind_run, find_project_run, Hp, bind_run, Hm, Hd.
Qed.

(** The manage gate: a caller passes exactly when they own the project,
    hold [CanManage] on it (directly or through a group), or are Owner or
    Admin of its organization; anyone else is refused with 403, and nothing
    is written either way. *)
Theorem require_can_manage_exact p u d :
  ProjectApi.require_can_manage p u d =
  (d, if decide (manages d p u) then Ok () else Err ProjectApi.denied).
Proof. apply require_can_manage_run. Qed.

(** The effective permission is the strongest grant: it allows [q]
    exactly when the user owns the project or some grant, direct or through
    a group the user is in, is at least [q]. *)
Theorem effective_permission_exact project user d :
  ∃ r, ProjectRepo.effective_permission project user d = (d, Ok r) ∧
       ∀ q, at_least r q ↔ holds d project user q.
Proof.
  exists (effective d project user). split; [apply effective_permission_run|].
  intros q. apply effective_spec.
Qed.

(** No self-escalation: changing a member of an organization's project
    can change at most that member's role in that organization, only to the
    requested role, and only to a role strictly below the caller's own. *)
Theorem role_changes_below_caller ρ id target auth req d d' resp p org :
  ProjectApi.update_member ρ id target auth req d = (d', Ok resp) →
  projects d !! id = Some p → p_org_id p = Some org →
  ∃ caller, session_valid d (now_ms ρ) auth caller ∧ manages d p caller ∧
    ∀ o u, ProjectRepo.org_role_of o u d' ≠ ProjectRepo.org_role_of o u d →
      o = org ∧ u = target ∧ ∃ r, ProjectApi.um_role req = Some r ∧
        ProjectRepo.org_role_of o u d' = Some r ∧
        (Role.rank r < Role.rank (project_role d p caller))%Z.
Proof.
  unfold ProjectApi.update_member. intros Hr Hp Horg.
  apply bind_ok in Hr as (d0 & caller & [-> Hv]%auth_user_ok & Hr).
  apply bind_ok in Hr as (d0 & p' & [-> Hp']%find_project_ok & Hr).
  injection (eq_trans (eq_sym Hp) Hp') as <-.
  apply bind_ok in Hr as (d0 & [] & Hm & Hr). rewrite require_can_manage_run in Hm.
  destruct (decide (manages d p caller)) as [Hman|]; [|done]. injection Hm as <-.
  apply bind_ok in Hr as (d0 & o & Hg & Hr). apply map_err_ok, gets_ok in Hg as [-> ->].
  apply bind_ok in Hr as (d0 & ex & [-> _]%ok_or_ok & Hr).
  apply bind_ok in Hr as (d1 & [] & Ha & Hr).
  apply bind_ok in Hr as (d2 & [] & Hgr%map_err_ok & Hr).
  apply grant_user_ok in Hgr as (f & -> & _).
  apply bind_ok in Hr as (d3 & o & Hg & Hr). apply map_err_ok, gets_ok in Hg as [-> ->].
  apply bind_ok in Hr as (d4 & g & [-> _]%ok_or_ok & Hr).
  pose proof (member_resp_read p g (with_project_access f d1)) as Hread. rewrite Hr in Hread.
  simpl in Hread. subst d'. exists caller. split_and!; [done..|].
  intros o u Hne. change (ProjectRepo.org_role_of o u (with_project_access f d1))
    with (ProjectRepo.org_role_of o u d1) in *.
  destruct (ProjectApi.um_role req) as [r|].
  - rewrite (assign_role_run _ _ org) in Ha by done.
    destruct (decide (Role.rank r < _)%Z) as [Hlt|]; [|done].
    destruct (_ && _); [|done]. injection Ha as <-.
    rewrite with_role_lookup in *. case_decide as Heq; [|done]. injection Heq as -> ->.
    eauto 10.
  - apply ret_ok in Ha as [-> _]. done.
Qed.
End Roles.

(** ** Demotion and group membership *)
Section Escalation.
Context `{Ext}.

Lemma grant_user_run new_id project user perm hide by_ now d :
  ProjectRepo.access_fk project (Some user) None by_ d = true →
  project_access d !! new_id = None →
  ProjectRepo.grant_user_project_access new_id project user perm hide by_ now d =
  (with_project_access (insert new_id (mkAccess new_id project (Some user) None (perm_to_db perm)
                                         (if hide then 1 else 0)%Z by_ now))
     (with_project_access (filter (λ kr, bool_decide (pa_project_id kr.2 = project) &&
                             bool_decide (pa_grantee_user_id kr.2 = Some user) = false)) d), Ok ()).
Proof.
  intros Hfk Hid. unfold ProjectRepo.grant_user_project_access.
  rewrite transaction_run, bind_run, delete_where_run, insert_row_run.
  change (project_access (with_project_access ?f d)) with (f (project_access d)).
  rewrite (proj2 (map_lookup_filter_None _ _ _)) by (by left).
  change (ProjectRepo.access_fk ?a ?b ?c ?e (with_project_access _ d))
    with (ProjectRepo.access_fk a b c e d). by rewrite Hfk.
Qed.

Lemma member_resp_ok p g d : ∃ r, ProjectApi.member_resp p g d = (d, Ok r).
Proof.
  unfold ProjectApi.member_resp, get_user_email, ProjectRepo.get_org_role.
  destruct (p_org_id p); run_step; eauto.
Qed.

Lemma get_user_grant_some project user k a d :
  project_access d !! k = Some a → pa_project_id a = project → pa_grantee_user_id a = Some user →
  ∃ g, ProjectRepo.get_user_grant project user d = (d, Ok (Some g)).
Proof.
  intros Hk Hp Hu. unfold ProjectRepo.get_user_grant. rewrite gets_run.
  destruct (filter _ (ProjectRepo.direct_rows user d)) as [|g l] eqn:Hf; [|by exists g].
  assert (a ∈ filter (λ a, pa_project_id a = project) (ProjectRepo.direct_rows user d)) as Hin.
  { apply list_elem_of_filter. split; [done|]. apply list_elem_of_filter. split; [done|].
    apply elem_of_rows. eauto. }
  rewrite Hf in Hin. by apply not_elem_of_nil in Hin.
Qed.

(** The rank check looks at the new role only: a Manager of the
    organization who may manage one of its projects can demote the
    organization's Owner to Member, provided the Owner is listed as a member
    of the project. *)
Theorem manager_can_demote_owner ρ id target auth d p org caller k g :
  session_valid d (now_ms ρ) auth caller →
  projects d !! id = Some p → p_id p = id → p_org_id p = Some org →
  is_Some (organizations d !! org) → is_Some (users d !! caller) → is_Some (users d !! target) →
  manages d p caller → ProjectRepo.org_role_of org caller d = Some Manager →
  ProjectRepo.org_role_of org target d = Some Owner →
  project_access d !! k = Some g → pa_project_id g = id → pa_grantee_user_id g = Some target →
  project_access d !! fresh ρ 1 = None →
  let '(d', r) := ProjectApi.update_member ρ id target auth
                    (ProjectApi.mkUpdateMember (Some Member) None None) d in
  is_ok r = true ∧ ProjectRepo.org_role_of org target d' = Some Member.
Proof.
  intros Hv Hp Hid Horg Ho Hc Ht Hm Hrole _ Hk Hgp Hgu Hfresh.
  unfold ProjectApi.update_member. rewrite auth_user_ok_bind with (uid:=caller) by done.
  rewrite bind_run, find_project_run, Hp. cbv beta iota.
  rewrite bind_run, require_can_manage_run, decide_True by done. cbv beta iota.
  destruct (get_user_grant_some id target k g d Hk Hgp Hgu) as (g1 & Hg1).
  rewrite Hid, bind_run, map_err_run, Hg1. cbn [map_res]. cbv beta iota.
  rewrite bind_run, ok_or_run. cbv beta iota. cbn [ProjectApi.um_role].
  rewrite bind_run, (assign_role_run _ _ org) by done. unfold project_role. rewrite Horg, Hrole.
  rewrite decide_True by (simpl; lia). unfold ProjectRepo.has_org, has_user.
  rewrite !bool_decide_true by done. cbn [andb]. cbv beta iota zeta.
  set (d1 := with_role _ _ _ _ _). rewrite bind_run, map_err_run, grant_user_run.
  2: { unfold ProjectRepo.access_fk, ProjectRepo.has_project, has_user.
       change (projects d1) with (projects d). change (users d1) with (users d).
       by rewrite Hp, !bool_decide_true by eauto. }
  2: exact Hfresh.
  cbn [map_res]. cbv beta iota. set (d2 := with_project_access _ _).
  assert (∃ a, project_access d2 !! fresh ρ 1 = Some a ∧ pa_project_id a = id ∧
    pa_grantee_user_id a = Some target) as (a & Ha1 & Ha2 & Ha3)
    by (eexists; split_and!; [apply lookup_insert_eq | reflexivity | reflexivity]).
  destruct (get_user_grant_some id target (fresh ρ 1) a d2 Ha1 Ha2 Ha3) as (g2 & Hg2).
  rewrite bind_run, map_err_run, Hg2. cbn [map_res]. cbv beta iota.
  rewrite bind_run, ok_or_run. cbv beta iota.
  destruct (member_resp_ok p g2 d2) as [r ->]. split; [done|].
  change (ProjectRepo.org_role_of org target d2) with (ProjectRepo.org_role_of org target d1).
  unfold d1. rewrite with_role_lookup. by rewrite decide_True.
Qed.

(** Groups are not tied to the project in the URL: whoever manages some
    project can add any registered user, themself included, to any group of
    any organization, and the user then holds every permission that group
    was granted on any project. *)
Theorem any_group_joinable ρ id gid target auth role d p caller :
  session_valid d (now_ms ρ) auth caller →
  projects d !! id = Some p → manages d p caller →
  is_Some (user_groups d !! gid) → is_Some (users d !! target) →
  let '(d', r) := ProjectApi.add_group_member ρ id gid auth
                    (ProjectApi.mkAddGroupMember target role) d in
  r = Ok () ∧ is_Some (user_group_members d' !! (gid, target)) ∧
  ∀ k a q, project_access d !! k = Some a → pa_grantee_group_id a = Some gid →
    perm_from_db (pa_permission a) = Some q → holds d' (pa_project_id a) target q.
Proof.
  intros Hv Hp Hm [g Hg] [u Hu]. unfold ProjectApi.add_group_member.
  rewrite auth_user_ok_bind with (uid:=caller) by done.
  rewrite bind_run, find_project_run, Hp. cbv beta iota.
  rewrite bind_run, require_can_manage_run, decide_True by done. cbv beta iota.
  unfold ProjectRepo.get_user_group, get_user_by_id. run_next. cbn [map_res]. run_next.
  rewrite Hg. cbn [ProjectApi.ag_user_uuid map_res]. cbv beta iota. run_next. cbn [map_res].
  run_next. rewrite Hu. cbv beta iota.
  unfold ProjectRepo.add_user_group_member. rewrite upsert_row_run.
  unfold ProjectRepo.has_group, has_user. rewrite Hg, Hu, !bool_decide_true by eauto.
  cbn [andb map_res]. split; [done|].
  assert (∀ row, is_Some (<[(gid, target) := row]> (user_group_members d) !! (gid, target))) as Hin.
  { intros row. rewrite lookup_insert_eq. by eexists. }
  split; [apply Hin|].
  intros k a q Hk Hga Hq. right. exists k, a, q. split_and!; try done.
  right. exists gid. split; [done|]. apply Hin.
Qed.
End Escalation.

(** ** Offboarding *)
Section Offboarding.
Context `{Ext}.

Lemma filter_gone {K R} `{Countable K} (P : K * R → bool) (m : gmap K R) k r :
  filter (λ kr, P kr = false) m !! k = Some r ↔ m !! k = Some r ∧ P (k, r) = false.
Proof. by rewrite map_lookup_filter_Some. Qed.

Lemma delete_machine_rows_ok P d d' n :
  Repo.delete_machine_rows P d = (d', Ok n) →
  ∃ f, d' = with_access_tokens (fmap f) (with_machine_accounts
              (filter (λ kr, P kr.1 kr.2 = false)) d) ∧
       ∀ r, at_owner_user_id (f r) = at_owner_user_id r.
Proof.
  unfold Repo.delete_machine_rows.
  intros (d0 & x & [-> ->]%gets_ok & (d1 & m & ->%delete_where_ok &
    (d2 & [] & ->%modify_ok & [-> _]%ret_ok)%bind_ok)%bind_ok)%bind_ok.
  eexists. split; [reflexivity | done].
Qed.

(** The state after the revocations, up to the request's own record and the
    audit log. *)
Definition revoked_state (t : string) (fo : gmap string OffboardingRow → gmap string OffboardingRow)
    (fa : list AuditRow → list AuditRow) (ft : AccessTokenRow → AccessTokenRow) (d : Db) : Db :=
  with_audit_log fa
    (with_offboardings fo
      (with_access_tokens (fmap ft)
        (with_machine_accounts (filter (λ kr, bool_decide (ma_owner_user_id kr.2 = t) = false))
          (with_access_tokens (filter (λ kr, bool_decide (at_owner_user_id kr.2 = t) = false))
            (with_user_sharing_keys (filter (λ kr, bool_decide (kr.1 = t) = false))
              (with_org_members (filter (λ kr, bool_decide (kr.1.2 = t) = false))
                (with_sessions (filter (λ kr, bool_decide (s_user_id kr.2 = t) = false))
                  (with_user_group_members (filter (λ kr, bool_decide (kr.1.2 = t) = false))
                    (with_project_access
                      (filter (λ kr, bool_decide (pa_grantee_user_id kr.2 = Some t) = false))
                      d))))))))).

Lemma offboard_ok ρ auth req d d' resp :
  ProjectApi.offboard ρ auth req d = (d', Ok resp) →
  ∃ caller fo fa ft, session_valid d (now_ms ρ) auth caller ∧
    ProjectApi.may_offboard (ProjectRepo.org_roles caller d)
      (ProjectRepo.org_roles (ProjectApi.or_user_uuid req) d) = true ∧
    d' = revoked_state (ProjectApi.or_user_uuid req) fo fa ft d ∧
    (∀ r, at_owner_user_id (ft r) = at_owner_user_id r).
Proof.
  unfold ProjectApi.offboard, ProjectRepo.revoke_project_access_for_user,
    ProjectRepo.revoke_group_memberships_for_user, revoke_sessions_for_user,
    ProjectRepo.revoke_org_memberships_for_user, ProjectRepo.revoke_sharing_keys_for_user,
    Repo.revoke_tokens_for_user.
  set (t := ProjectApi.or_user_uuid req). intros Hr.
  apply bind_ok in Hr as (d0 & caller & [-> Hv]%auth_user_ok & Hr).
  apply bind_ok in Hr as (d0 & u & [-> ->]%map_err_ok%gets_ok & Hr).
  apply bind_ok in Hr as (d0 & u & [-> Hu]%ok_or_ok & Hr).
  apply bind_ok in Hr as (d0 & cr & [-> ->]%map_err_ok%gets_ok & Hr).
  apply bind_ok in Hr as (d0 & tr & [-> ->]%map_err_ok%gets_ok & Hr).
  apply bind_ok in Hr as (d0 & [] & [-> Hmay]%guard_err_ok & Hr).
  apply negb_false_iff in Hmay.
  apply bind_ok in Hr as (d1 & [] & (_ & _ & ->)%map_err_ok%insert_row_ok & Hr).
  apply bind_ok in Hr as (d1 & n1 & ->%map_err_ok%delete_where_ok & Hr).
  apply bind_ok in Hr as (d1 & n2 & ->%map_err_ok%delete_where_ok & Hr).
  apply bind_ok in Hr as (d1 & n3 & ->%map_err_ok%delete_where_ok & Hr).
  apply bind_ok in Hr as (d1 & n4 & ->%map_err_ok%delete_where_ok & Hr).
  apply bind_ok in Hr as (d1 & n5 & ->%map_err_ok%delete_where_ok & Hr).
  apply bind_ok in Hr as (d1 & n6 & ->%map_err_ok%delete_where_ok & Hr).
  apply bind_ok in Hr as (d1 & n7 & Hm%map_err_ok & Hr).
  apply delete_machine_rows_ok in Hm as (ft & -> & Hft).
  apply bind_ok in Hr as (d1 & [] & Hc%map_err_ok & Hr).
  apply bind_ok in Hc as (d2 & n8 & ->%update_key_ok & [-> _]%ret_ok).
  apply bind_ok in Hr as (d1 & [] & Ha%map_err_ok & [-> _]%ret_ok).
  apply audit_org_event_ok in Ha as [fa ->].
  exists caller, (λ o, alter (ProjectRepo.set_completed (now_ms ρ)) (fresh ρ 0)
    (<[fresh ρ 0 := mkOffboardingRow (fresh ρ 0) (default nil_uuid (uuid_parse t))
         (default nil_uuid (uuid_parse caller)) (ProjectApi.or_reason req) "pending" (now_ms ρ) None]> o)),
    fa, ft.
  split_and!; [done | exact Hmay | reflexivity | done].
Qed.

(** C31. Offboarding revokes everything: afterwards no bearer session
    authenticates the user, no access token or machine account is theirs,
    they have no role in any organization, no group membership and no
    sharing key, and the only permissions left are on projects they own.
    Nobody else's session or membership is lost. *)
Theorem offboard_revokes_everything ρ auth req d d' resp :
  ProjectApi.offboard ρ auth req d = (d', Ok resp) →
  let t := ProjectApi.or_user_uuid req in
  (∀ now tok, ¬ session_valid d' now tok t) ∧
  (∀ k r, access_tokens d' !! k = Some r → at_owner_user_id r ≠ t) ∧
  (∀ k r, machine_accounts d' !! k = Some r → ma_owner_user_id r ≠ t) ∧
  (∀ org, ProjectRepo.org_role_of org t d' = None) ∧
  (∀ g, user_group_members d' !! (g, t) = None) ∧
  user_sharing_keys d' !! t = None ∧
  (∀ p q, holds d' p t q → p_owner_user_id <$> projects d' !! p = Some t) ∧
  (∀ now tok u, u ≠ t → session_valid d now tok u → session_valid d' now tok u) ∧
  (∀ org u, u ≠ t → ProjectRepo.org_role_of org u d' = ProjectRepo.org_role_of org u d).
Proof.
  intros (caller & fo & fa & ft & _ & _ & -> & Hft)%offboard_ok t. fold t.
  assert (∀ g, filter (λ kr : (string * string) * GroupMemberRow, bool_decide (kr.1.2 = t) = false)
                 (user_group_members d) !! (g, t) = None) as Hgm.
  { intros g. apply map_lookup_filter_None. right. intros r _. simpl. by rewrite bool_decide_true. }
  split_and!.
  - intros now tok (s & Hs & Hu & _). apply filter_gone in Hs as [_ Hs].
    apply bool_decide_eq_false in Hs. done.
  - intros k r Hk. apply lookup_fmap_Some in Hk as (r0 & <- & Hk).
    apply filter_gone in Hk as [_ Hk]. apply bool_decide_eq_false in Hk. by rewrite Hft.
  - intros k r Hk. apply filter_gone in Hk as [_ Hk]. by apply bool_decide_eq_false in Hk.
  - intros org. unfold ProjectRepo.org_role_of.
    change (org_members (revoked_state t fo fa ft d))
      with (filter (λ kr : (string * string) * OrgMemberRow, bool_decide (kr.1.2 = t) = false)
              (org_members d)).
    rewrite (proj2 (map_lookup_filter_None _ _ _)); [done|]. right. intros r _. simpl.
    by rewrite bool_decide_true.
  - apply Hgm.
  - apply map_lookup_filter_None. right. intros r _. simpl. by rewrite bool_decide_true.
  - intros p q [Ho|(k & a & pp & Hk & _ & [Hu|(g & _ & [m Hg])] & _)]; [done | |].
    + apply filter_gone in Hk as [_ Hk]. by apply bool_decide_eq_false in Hk.
    + change (user_group_members (revoked_state t fo fa ft d)) with
        (filter (λ kr : (string * string) * GroupMemberRow, bool_decide (kr.1.2 = t) = false)
           (user_group_members d)) in Hg.
      by rewrite Hgm in Hg.
  - intros now tok u Hne (s & Hs & Hu & Hrest). exists s. split; [|done].
    apply filter_gone. split; [done|]. apply bool_decide_eq_false. simpl. congruence.
  - intros org u Hne. unfold ProjectRepo.org_role_of. f_equal.
    change (org_members (revoked_state t fo fa ft d))
      with (filter (λ kr : (string * string) * OrgMemberRow, bool_decide (kr.1.2 = t) = false)
              (org_members d)).
    destruct (org_members d !! (org, u)) as [m|] eqn:Hm.
    + apply filter_gone. split; [done|]. by apply bool_decide_eq_false.
    + apply map_lookup_filter_None. by left.
Qed.
End Offboarding.

(** ** Who may offboard whom *)
Section OffboardRank.
Context `{Ext}.

Lemma elem_of_org_roles t d o r :
  (o, r) ∈ ProjectRepo.org_roles t d ↔ ProjectRepo.org_role_of o t d = Some r.
Proof.
  unfold ProjectRepo.org_roles, ProjectRepo.memberships, ProjectRepo.org_role_of.
  rewrite list_elem_of_omap. split.
  - intros ([[o' t'] m] & [Ht Hin%elem_of_map_to_list]%list_elem_of_filter & Hf).
    simpl in *. subst t'. destruct (role_from_db (om_role m)) eqn:Hr; simplify_eq/=.
    by rewrite Hin.
  - intros Hr. destruct (org_members d !! (o, t)) as [m|] eqn:Hm; simplify_eq/=.
    exists ((o, t), m). rewrite list_elem_of_filter, elem_of_map_to_list. simpl.
    rewrite Hr. done.
Qed.

(** Offboarding needs rank: the caller is Owner or Admin, and strictly
    above the user, in every organization the user has a role in; and when
    the user has none, the caller is Owner or Admin somewhere. *)
Theorem offboard_requires_outranking ρ auth req d d' resp :
  ProjectApi.offboard ρ auth req d = (d', Ok resp) →
  let t := ProjectApi.or_user_uuid req in
  ∃ caller, session_valid d (now_ms ρ) auth caller ∧
    (∀ o r, ProjectRepo.org_role_of o t d = Some r →
       ∃ c, ProjectRepo.org_role_of o caller d = Some c ∧ Role.can_offboard c = true ∧
            (Role.rank r < Role.rank c)%Z) ∧
    ((∀ o, ProjectRepo.org_role_of o t d = None) →
       ∃ o c, ProjectRepo.org_role_of o caller d = Some c ∧ Role.can_offboard c = true).
Proof.
  intros (caller & _ & _ & _ & Hv & Hmay & _ & _)%offboard_ok t. fold t in Hmay.
  exists caller. split; [done|]. unfold ProjectApi.may_offboard in Hmay.
  pose proof (elem_of_org_roles t d) as Ht.
  destruct (ProjectRepo.org_roles t d) as [|or0 l] eqn:Hl.
  - split.
    + intros o r Hr. apply Ht in Hr. by apply not_elem_of_nil in Hr.
    + intros _. apply existsb_exists in Hmay as ([o c] & Hin & Hc).
      apply list_elem_of_In, elem_of_org_roles in Hin. eauto.
  - split.
    + intros o r Hr. apply Ht in Hr. rewrite forallb_forall in Hmay.
      specialize (Hmay (o, r) (proj1 (list_elem_of_In _ _) Hr)). simpl in Hmay.
      destruct (head _) as [[o' c]|] eqn:Hh; [|done].
      apply head_Some_elem_of, list_elem_of_filter in Hh as [Ho Hin]. simpl in Ho. subst o'.
      apply elem_of_org_roles in Hin. apply andb_true_iff in Hmay as [Hc Hlt].
      apply bool_decide_eq_true in Hlt. eauto.
    + intros Hn. destruct or0 as [o r]. assert (ProjectRepo.org_role_of o t d = Some r) as Hr
        by (apply Ht; left). by rewrite Hn in Hr.
Qed.

(** Rank in one's own organization is enough for strangers: an Owner of
    any organization, which every user becomes by creating a shared project,
    offboards any registered user who belongs to no organization. *)
Theorem stranger_can_be_offboarded ρ auth target reason d caller org :
  session_valid d (now_ms ρ) auth caller →
  is_Some (users d !! caller) → is_Some (users d !! target) →
  uuid_parse caller = Some caller → uuid_parse target = Some target →
  ProjectRepo.org_role_of org caller d = Some Owner →
  (∀ o, ProjectRepo.org_role_of o target d = None) →
  offboardings d !! fresh ρ 0 = None →
  is_ok (ProjectApi.offboard ρ auth (ProjectApi.mkOffboard target reason) d).2 = true.
Proof.
  intros Hv [cu Hcu] [tu Htu] Hcp Htp Hown Hnone Hfresh. unfold ProjectApi.offboard.
  rewrite auth_user_ok_bind with (uid:=caller) by done. cbn [ProjectApi.or_user_uuid].
  unfold get_user_by_id, ProjectRepo.get_user_org_roles. run_next. cbn [map_res]. run_next.
  rewrite Htu. cbv beta iota. run_calls.
  assert (ProjectApi.may_offboard (ProjectRepo.org_roles caller d) (ProjectRepo.org_roles target d) = true) as ->.
  { destruct (ProjectRepo.org_roles target d) as [|[o r] l] eqn:Hl.
    - apply existsb_exists. exists (org, Owner). split; [|done].
      by apply list_elem_of_In, elem_of_org_roles.
    - assert (ProjectRepo.org_role_of o target d = Some r) as Hr
        by (apply elem_of_org_roles; rewrite Hl; left). by rewrite Hnone in Hr. }
  cbn [negb]. cbv beta iota zeta. rewrite Hcp, Htp. cbn [from_option id].
  unfold ProjectRepo.create_offboarding, ProjectRepo.revoke_project_access_for_user,
    ProjectRepo.revoke_group_memberships_for_user, revoke_sessions_for_user,
    ProjectRepo.revoke_org_memberships_for_user, ProjectRepo.revoke_sharing_keys_for_user,
    Repo.revoke_tokens_for_user, Repo.revoke_machine_accounts_for_user, Repo.delete_machine_rows,
    ProjectRepo.complete_offboarding.
  rewrite ?bind_run, ?map_err_run, insert_row_run.
  cbn [off_id off_user_id off_requested_by off_requested_at off_reason offboarding_revoke_all].
  rewrite Hfresh. unfold has_user at 1 2.
  rewrite Hcu, Htu, !bool_decide_true by eauto. cbn [andb map_res]. cbv beta iota.
  do 16 (rewrite ?bind_run, ?map_err_run, ?gets_run, ?delete_where_run, ?modify_run, ?ret_run,
          ?update_key_run; cbn [map_res]; cbv beta iota).
  match goal with |- context [audit_org_event ?a ?b ?c ?e ?f ?g ?h ?i ?d1] =>
    destruct (audit_org_event_run a b c e f g h i d1) as [fa ->];
      [change (has_user target d = true); unfold has_user; rewrite Htu;
       by rewrite bool_decide_true by eauto|] end.
  done.
Qed.
End OffboardRank.

(** ** Concrete instances *)
Section ProjectWitnesses.
#[local] Existing Instance Concrete.toy_ext.

Definition env1 : Env := Concrete.demo_env 100.

Definition grant (id project : string) (user group : option string) (perm : string) : AccessRow :=
  mkAccess id project user group perm 0 "bob" 0.

(** bob owns the organization and its project; alice is a Manager who may
    manage the project; the group of another organization manages "p2". *)
Definition proj_demo : Db :=
  Concrete.demo_session "sess" "alice" 1000
    (with_organizations (λ _, <["o1" := mkOrg "one" 0%Z]> ∅)
    (with_org_members (λ _, <[("o1", "alice") := mkOrgMember "Manager" 0%Z]>
                            (<[("o1", "bob") := mkOrgMember "Owner" 0%Z]> ∅))
    (with_projects (λ _, <["p1" := mkProjectRow "p1" "one" None "shared" (Some "o1") None "bob" 0 0]>
                         (<["p2" := mkProjectRow "p2" "two" None "shared" None None "carol" 0 0]> ∅))
    (with_user_groups (λ _, <["g9" := mkGroup "g9" "ops" None None 0 0]> ∅)
    (with_project_access (λ _, <["a1" := grant "a1" "p1" (Some "alice") None "can_manage"]>
                              (<["a2" := grant "a2" "p1" (Some "bob") None "can_view"]>
                               (<["a3" := grant "a3" "p2" None (Some "g9") "can_manage"]> ∅)))
     Concrete.demo_db))))).

Definition demote : ProjectApi.UpdateMemberReq :=
  ProjectApi.mkUpdateMember (Some Member) None None.

Lemma alice_manages : manages proj_demo
  (mkProjectRow "p1" "one" None "shared" (Some "o1") None "bob" 0 0) "alice".
Proof.
  right. left. right. exists "a1", (grant "a1" "p1" (Some "alice") None "can_manage"), CanManage.
  split_and!; [vm_compute; reflexivity | reflexivity | left; reflexivity | reflexivity |].
  apply perm_manage_top.
Qed.

Lemma manager_can_demote_owner_witness :
  ProjectRepo.org_role_of "o1" "bob" proj_demo = Some Owner ∧
  ProjectRepo.org_role_of "o1" "bob"
    (ProjectApi.update_member env1 "p1" "bob" "sess" demote proj_demo).1 = Some Member.
Proof.
  split; [vm_compute; reflexivity|].
  pose proof (manager_can_demote_owner env1 "p1" "bob" "sess" proj_demo
    (mkProjectRow "p1" "one" None "shared" (Some "o1") None "bob" 0 0) "o1" "alice" "a2"
    (grant "a2" "p1" (Some "bob") None "can_view")) as Hw.
  specialize (Hw ltac:(solve_session) ltac:(vm_compute; reflexivity) eq_refl eq_refl
    ltac:(vm_compute; by eexists) ltac:(vm_compute; by eexists) ltac:(vm_compute; by eexists)
    alice_manages ltac:(vm_compute; reflexivity) ltac:(vm_compute; reflexivity)
    ltac:(vm_compute; reflexivity) eq_refl eq_refl ltac:(vm_compute; reflexivity)).
  unfold demote. destruct (ProjectApi.update_member _ _ _ _ _ _) as [d' r]. apply Hw.
Defined.

Lemma role_changes_below_caller_witness :
  ∃ caller, session_valid proj_demo (now_ms env1) "sess" caller ∧
    manages proj_demo (mkProjectRow "p1" "one" None "shared" (Some "o1") None "bob" 0 0) caller.
Proof.
  destruct (ProjectApi.update_member env1 "p1" "bob" "sess" demote proj_demo)
    as [d' [resp|e]] eqn:Hr; [|exfalso; vm_compute in Hr; discriminate].
  destruct (role_changes_below_caller env1 "p1" "bob" "sess" demote proj_demo d' resp
    (mkProjectRow "p1" "one" None "shared" (Some "o1") None "bob" 0 0) "o1" Hr
    ltac:(vm_compute; reflexivity) eq_refl) as (caller & Hv & Hm & _).
  exists caller. split; [exact Hv | exact Hm].
Defined.

Lemma any_group_joinable_witness :
  holds (ProjectApi.add_group_member env1 "p1" "g9" "sess"
           (ProjectApi.mkAddGroupMember "alice" None) proj_demo).1 "p2" "alice" CanManage.
Proof.
  pose proof (any_group_joinable env1 "p1" "g9" "alice" "sess" None proj_demo
    (mkProjectRow "p1" "one" None "shared" (Some "o1") None "bob" 0 0) "alice"
    ltac:(solve_session) ltac:(vm_compute; reflexivity) alice_manages
    ltac:(vm_compute; by eexists) ltac:(vm_compute; by eexists)) as Hw.
  destruct (ProjectApi.add_group_member _ _ _ _ _ _) as [d' r].
  destruct Hw as (_ & _ & Hw).
  exact (Hw "a3" (grant "a3" "p2" None (Some "g9") "can_manage") CanManage
           ltac:(vm_compute; reflexivity) eq_refl eq_refl).
Defined.

(** alice creates a shared project, and with it an organization. *)
Definition bootstrapped : Db :=
  (ProjectApi.create_project env1 "sess" (ProjectApi.mkCreateProject "mine" None (Some Shared))
     (Concrete.demo_session "sess" "alice" 1000
        (Concrete.demo_session "bobs" "bob" 1000 Concrete.demo_db))).1.

Lemma stranger_can_be_offboarded_witness :
  is_ok (ProjectApi.offboard env1 "sess" (ProjectApi.mkOffboard "bob" None) bootstrapped).2 = true.
Proof.
  apply (stranger_can_be_offboarded env1 "sess" "bob" None bootstrapped "alice" "n1").
  - solve_session.
  - vm_compute; by eexists.
  - vm_compute; by eexists.
  - reflexivity.
  - reflexivity.
  - vm_compute. reflexivity.
  - intros o. unfold ProjectRepo.org_role_of.
    assert (org_members bootstrapped = {[ ("n1", "alice") := mkOrgMember "Owner" 100 ]}) as ->
      by (vm_compute; reflexivity).
    by rewrite lookup_singleton_ne by (intros [=]).
  - vm_compute. reflexivity.
Defined.

Definition offboarded : Db * result ApiError ProjectApi.OffboardResp :=
  ProjectApi.offboard env1 "sess" (ProjectApi.mkOffboard "bob" None) bootstrapped.

Lemma offboard_revokes_everything_witness :
  (∀ now tok, ¬ session_valid offboarded.1 now tok "bob") ∧
  (∀ org, ProjectRepo.org_role_of org "bob" offboarded.1 = None).
Proof.
  destruct offboarded as [d' [resp|e]] eqn:Hr; [|exfalso; vm_compute in Hr; discriminate].
  destruct (offboard_revokes_everything _ _ _ _ _ _ Hr) as (Hs & _ & _ & Ho & _).
  split; [exact Hs | exact Ho].
Defined.

Lemma offboard_requires_outranking_witness :
  ∃ caller, session_valid bootstrapped 100 "sess" caller ∧
    ((∀ o, ProjectRepo.org_role_of o "bob" bootstrapped = None) →
       ∃ o c, ProjectRepo.org_role_of o caller bootstrapped = Some c ∧ Role.can_offboard c = true).
Proof.
  destruct offboarded as [d' [resp|e]] eqn:Hr; [|exfalso; vm_compute in Hr; discriminate].
  destruct (offboard_requires_outranking _ _ _ _ _ _ Hr) as (caller & Hv & _ & Ho).
  exists caller. split; [exact Hv | exact Ho].
Defined.
End ProjectWitnesses.
