(* ===== verification/Secrets.v ===== *)
(** * Project secrets

    Models [repository/secrets.rs] (Module [SecretRepo]) and
    [handlers/secrets.rs] (Module [SecretApi]): ciphertext-only secrets scoped
    to a project, guarded by the project permission of the caller and, for
    their values, by ownership or a reveal grant.  Shows what a reveal needs
    and returns, who can change a secret, and that the permission computed
    here is the one of [repository/projects.rs]. *)
From S2P Require Import Prelude Domain Database Concrete Users Tokens Projects.

(** ** repository/secrets.rs *)

Inductive ProjectAccessLevel := LView | LEdit | LManage.
#[export] Instance ProjectAccessLevel_eq_dec : EqDecision ProjectAccessLevel.
Proof. solve_decision. Defined.

Definition level_index (l : ProjectAccessLevel) : nat :=
  match l with LView => 0 | LEdit => 1 | LManage => 2 end.

Definition level_ltb (a b : ProjectAccessLevel) : bool :=
  bool_decide (level_index a < level_index b).

(** [self >= ProjectAccessLevel::Edit]. *)
Definition can_edit (l : ProjectAccessLevel) : bool := negb (level_ltb l LEdit).

(** Any other text of the column counts as view. *)
Definition level_from_db (s : string) : ProjectAccessLevel :=
  if decide (s = "can_manage") then LManage
  else if decide (s = "can_edit") then LEdit
  else LView.

Definition set_secret (key : string) (value : blob) (now : Z) (r : SecretRow) : SecretRow :=
  mkSecretRow (se_uuid r) (se_project_id r) key value (se_version r + 1) (se_created_by r)
    (se_last_accessed_at r) (se_created_at r) now.

Definition set_last_accessed (now : Z) (r : SecretRow) : SecretRow :=
  mkSecretRow (se_uuid r) (se_project_id r) (se_key r) (se_value_ciphertext r) (se_version r)
    (se_created_by r) (Some now) (se_created_at r) (se_updated_at r).

(** [ORDER BY key ASC]: the default collation compares bytes. *)
Definition by_name : relation SecretRow := λ a b, String.leb (se_key a) (se_key b) = true.
#[export] Instance by_name_dec : RelDecision by_name.
Proof. intros a b. unfold by_name. apply _. Defined.

Module SecretRepo.
Definition project_exists (project_id : string) : sql bool :=
  gets (λ d, bool_decide (is_Some (projects d !! project_id))).

Definition owned (project_id user_id : string) (d : Db) : bool :=
  bool_decide (p_owner_user_id <$> projects d !! project_id = Some user_id).

(** [grantee_user_id = ? OR grantee_group_id IN (SELECT ..)]. *)
Definition grants (project_id user_id : string) (d : Db) : list string :=
  pa_permission <$>
  filter (λ a, pa_project_id a = project_id ∧
               (pa_grantee_user_id a = Some user_id ∨
                ProjectRepo.member_of user_id (pa_grantee_group_id a) d = true))
    (rows (project_access d)).

(** One turn of the loop that keeps the strongest level. *)
Definition keep_best (best : option ProjectAccessLevel) (p : string) : option ProjectAccessLevel :=
  let lvl := level_from_db p in
  match best with
  | None => Some lvl
  | Some b => if level_ltb b lvl then Some lvl else best
  end.

Definition user_project_permission (project_id user_id : string)
    : sql (option ProjectAccessLevel) :=
  o ← gets (owned project_id user_id);
  if (o : bool) then mret (Some LManage)
  else
    perms ← gets (grants project_id user_id);
    mret (foldl keep_best None perms).

Definition secret_fk (project_id created_by : string) (d : Db) : bool :=
  bool_decide (is_Some (projects d !! project_id)) && has_user created_by d.

Definition create_secret (uuid project_id key : string) (value : blob) (created_by : string)
    (now : Z) : sql unit :=
  insert_row secrets with_secrets (secret_fk project_id created_by) uuid
    (mkSecretRow uuid project_id key value 1 created_by None now now).

Definition get_secret (uuid : string) : sql (option SecretRow) :=
  gets (λ d, secrets d !! uuid).

Definition list_secrets (project_id : string) : sql (list SecretRow) :=
  gets (λ d, merge_sort by_name (filter (λ r, se_project_id r = project_id) (rows (secrets d)))).

Definition update_secret (uuid key : string) (value : blob) (now : Z) : sql bool :=
  n ← update_key secrets with_secrets uuid (set_secret key value now);
  mret (bool_decide (n = 1%Z)).

Definition delete_secret (uuid : string) : sql bool :=
  n ← delete_where secrets with_secrets (λ kr, bool_decide (kr.1 = uuid));
  mret (bool_decide (n = 1%Z)).

Definition touch_secret (uuid : string) (now : Z) : sql unit :=
  update_key secrets with_secrets uuid (set_last_accessed now);; mret ().

(** [ON CONFLICT (project_id, user_id) DO NOTHING]. *)
Definition grant_secret_reveal (project_id user_id granted_by : string) (now : Z) : sql unit :=
  upsert_row secret_reveal_grants with_secret_reveal_grants
    (λ d, secret_fk project_id user_id d && has_user granted_by d)
    (project_id, user_id) (mkReveal granted_by now) id.

Definition can_reveal (project_id user_id : string) : sql bool :=
  o ← gets (owned project_id user_id);
  if (o : bool) then mret true
  else gets (λ d, bool_decide (is_Some (secret_reveal_grants d !! (project_id, user_id)))).
End SecretRepo.

(** ** handlers/secrets.rs *)
Module SecretApi.
Record SecretCreateRequest := mkCreateSecret {
  sc_project_uuid : string; sc_key : string; sc_value_ciphertext : string }.
Record SecretUpdateRequest := mkUpdateSecret {
  su_key : option string; su_value_ciphertext : option string }.
Record Secret := mkSecret {
  s_uuid : string; s_project_uuid : string; s_key : string; s_version : Z;
  s_created_by : string; s_last_accessed_at : option Z; s_created_at : Z; s_updated_at : Z }.
Record SecretValue := mkSecretValue {
  sv_uuid : string; sv_key : string; sv_value_ciphertext : string }.

Definition to_secret (r : SecretRow) : Secret :=
  mkSecret (se_uuid r) (se_project_id r) (se_key r) (se_version r) (se_created_by r)
    (se_last_accessed_at r) (se_created_at r) (se_updated_at r).

Definition denied : ApiError := mkApiError 403 "forbidden".
Definition not_found : ApiError := mkApiError 404 "not_found".
Definition bad_key : ApiError := mkApiError 422 "precondition_failed".
Definition reveal_required : ApiError := mkApiError 403 "secrets_reveal_required".

Definition validate_key (key : string) : result ApiError unit :=
  if bool_decide (key = "") then Err bad_key
  else if bool_decide (256 < char_count key) then Err bad_key
  else Ok ().

Definition require_project_access (project_id user_id : string) (need_edit : bool)
    : handler ProjectAccessLevel :=
  e ← call (SecretRepo.project_exists project_id);
  guard_err (negb e) not_found;;
  o ← call (SecretRepo.user_project_permission project_id user_id);
  lvl ← ok_or denied o;
  guard_err (need_edit && negb (can_edit lvl)) denied;;
  mret lvl.

Definition load_secret_for_user (uuid user_id : string) (need_edit : bool) : handler SecretRow :=
  o ← call (SecretRepo.get_secret uuid);
  row ← ok_or not_found o;
  require_project_access (se_project_id row) user_id need_edit;;
  mret row.

(** [format!("project:{}", id)]. *)
Definition project_detail (id : string) : string := String.append "project:" id.

Definition audited (ρ : Env) (user_id action project_id : string) : handler unit :=
  call (audit_log_entry (Some user_id) action (Some user_id) (Some (project_detail project_id))
          (now_ms ρ)).

Section Handlers.
Context `{Ext}.

Definition list_secrets (ρ : Env) (project_id : Uuid) (auth : string) : handler (list Secret) :=
  caller ← auth_any ρ auth;
  lift (require_scope caller "secrets:read");;
  lift (require_project caller project_id);;
  require_project_access project_id (user_id caller) false;;
  rows ← call (SecretRepo.list_secrets project_id);
  mret (to_secret <$> rows).

Definition create_secret (ρ : Env) (auth : string) (req : SecretCreateRequest) : handler Secret :=
  user_id ← auth_user ρ auth;
  require_project_access (sc_project_uuid req) user_id true;;
  lift (validate_key (sc_key req));;
  value ← decode_b64 (sc_value_ciphertext req);
  let uuid := fresh ρ 0 in
  call (SecretRepo.create_secret uuid (sc_project_uuid req) (sc_key req) value user_id (now_ms ρ));;
  audited ρ user_id "secret_create" (sc_project_uuid req);;
  o ← call (SecretRepo.get_secret uuid);
  row ← ok_or not_found o;
  mret (to_secret row).

Definition get_secret (ρ : Env) (uuid auth : string) : handler Secret :=
  user_id ← auth_user ρ auth;
  row ← load_secret_for_user uuid user_id false;
  mret (to_secret row).

Definition update_secret (ρ : Env) (uuid auth : string) (req : SecretUpdateRequest)
    : handler Secret :=
  user_id ← auth_user ρ auth;
  row ← load_secret_for_user uuid user_id true;
  new_key ← match su_key req with
            | Some k => lift (validate_key k);; mret k
            | None => mret (se_key row)
            end;
  new_value ← match su_value_ciphertext req with
              | Some v => decode_b64 v
              | None => mret (se_value_ciphertext row)
              end;
  call (SecretRepo.update_secret uuid new_key new_value (now_ms ρ));;
  audited ρ user_id "secret_update" (se_project_id row);;
  o ← call (SecretRepo.get_secret uuid);
  updated ← ok_or not_found o;
  mret (to_secret updated).

Definition delete_secret (ρ : Env) (uuid auth : string) : handler unit :=
  user_id ← auth_user ρ auth;
  row ← load_secret_for_user uuid user_id true;
  call (SecretRepo.delete_secret uuid);;
  audited ρ user_id "secret_delete" (se_project_id row).

Definition get_secret_value (ρ : Env) (uuid auth : string) : handler SecretValue :=
  user_id ← auth_user ρ auth;
  row ← load_secret_for_user uuid user_id false;
  reveal ← call (SecretRepo.can_reveal (se_project_id row) user_id);
  guard_err (negb reveal) reveal_required;;
  call (SecretRepo.touch_secret uuid (now_ms ρ));;
  audited ρ user_id "secret_reveal" (se_project_id row);;
  mret (mkSecretValue (se_uuid row) (se_key row) (b64_encode (se_value_ciphertext row))).
End Handlers.
End SecretApi.

(** The routes. *)
Inductive SecretRequest :=
| ListSecrets (project auth : string)
| CreateSecret (auth : string) (req : SecretApi.SecretCreateRequest)
| GetSecret (uuid auth : string)
| UpdateSecret (uuid auth : string) (req : SecretApi.SecretUpdateRequest)
| DeleteSecret (uuid auth : string)
| RevealSecret (uuid auth : string).

Definition serve_secret `{Ext} (ρ : Env) (q : SecretRequest) : handler unit :=
  match q with
  | ListSecrets p a => SecretApi.list_secrets ρ p a;; mret ()
  | CreateSecret a r => SecretApi.create_secret ρ a r;; mret ()
  | GetSecret u a => SecretApi.get_secret ρ u a;; mret ()
  | UpdateSecret u a r => SecretApi.update_secret ρ u a r;; mret ()
  | DeleteSecret u a => SecretApi.delete_secret ρ u a
  | RevealSecret u a => SecretApi.get_secret_value ρ u a;; mret ()
  end.

(** ** What a caller may do *)

Definition permission (d : Db) (project user : string) : option ProjectAccessLevel :=
  if SecretRepo.owned project user d then Some LManage
  else foldl SecretRepo.keep_best None (SecretRepo.grants project user d).

Lemma permission_run project user d :
  SecretRepo.user_project_permission project user d = (d, Ok (permission d project user)).
Proof.
  unfold SecretRepo.user_project_permission, permission. run_step.
  by destruct (SecretRepo.owned project user d).
Qed.

(** The caller sees the project, and edits it if [need_edit]. *)
Definition has_access (d : Db) (project user : string) (need_edit : bool) : Prop :=
  is_Some (projects d !! project) ∧
  ∃ l, permission d project user = Some l ∧ (need_edit = true → can_edit l = true).

Definition may_reveal (d : Db) (project user : string) : Prop :=
  (p_owner_user_id <$> projects d !! project) = Some user ∨
  is_Some (secret_reveal_grants d !! (project, user)).

Lemma require_access_run project user need_edit d :
  (∃ l, SecretApi.require_project_access project user need_edit d = (d, Ok l) ∧
        has_access d project user need_edit) ∨
  (∃ e, SecretApi.require_project_access project user need_edit d = (d, Err e) ∧
        (e = SecretApi.not_found ∨ e = SecretApi.denied) ∧ ¬ has_access d project user need_edit).
Proof.
  unfold SecretApi.require_project_access, SecretRepo.project_exists. run_next.
  case_bool_decide as Hp; simpl; run_calls.
  2: { right. eexists. split_and!; [done | by left | by intros [? _]]. }
  rewrite permission_run. run_calls. unfold has_access.
  destruct (permission d project user) as [l|].
  2: { right. eexists. split_and!; [done | by right | naive_solver]. }
  run_calls. destruct need_edit, (can_edit l) eqn:Hl; simpl; run_calls;
    first [ left; eexists; split; [done|]; split; [done|]; eexists; split; [done | done]
          | right; eexists; split_and!; [done | by right | naive_solver congruence] ].
Qed.

Lemma can_reveal_run project user d :
  ∃ b, SecretRepo.can_reveal project user d = (d, Ok b) ∧ (b = true ↔ may_reveal d project user).
Proof.
  unfold SecretRepo.can_reveal, may_reveal, SecretRepo.owned. run_step. case_bool_decide.
  - eexists. split; [done|]. naive_solver.
  - run_step. eexists. split; [done|]. rewrite bool_decide_eq_true. naive_solver.
Qed.

(** ** The permission is the one of repository/projects.rs *)

Definition level_of (p : ProjectPermission) : ProjectAccessLevel :=
  match p with CanView => LView | CanEdit => LEdit | CanManage => LManage end.

(** What the CHECK constraint of [project_access.permission] keeps out. *)
Definition permissions_checked (d : Db) : Prop :=
  ∀ k a, project_access d !! k = Some a → is_Some (perm_from_db (pa_permission a)).

Definition level_rank (o : option ProjectAccessLevel) : nat :=
  match o with None => 0 | Some l => S (level_index l) end.

Lemma level_rank_inj a b : level_rank a = level_rank b → a = b.
Proof. destruct a as [[]|], b as [[]|]; simpl; intros; congruence. Qed.

Lemma keep_best_rank b p n :
  n ≤ level_rank (SecretRepo.keep_best b p) ↔
  n ≤ level_rank b ∨ n ≤ S (level_index (level_from_db p)).
Proof.
  unfold SecretRepo.keep_best. destruct b as [b|]; simpl; [|lia].
  unfold level_ltb. case_bool_decide; simpl; lia.
Qed.

Lemma keep_best_fold l b n :
  n ≤ level_rank (foldl SecretRepo.keep_best b l) ↔
  n ≤ level_rank b ∨ ∃ p, p ∈ l ∧ n ≤ S (level_index (level_from_db p)).
Proof.
  revert b. induction l as [|p l IH]; intros b; simpl; [set_solver|].
  rewrite IH, keep_best_rank. setoid_rewrite elem_of_cons. naive_solver.
Qed.

Lemma level_from_checked s pp : perm_from_db s = Some pp → level_from_db s = level_of pp.
Proof.
  unfold perm_from_db, level_from_db.
  destruct (decide (s = "can_view")) as [->|]; [by intros [= <-]|].
  destruct (decide (s = "can_edit")) as [->|]; [by intros [= <-]|].
  by destruct (decide (s = "can_manage")); intros [= <-].
Qed.

Lemma permission_holds d project user q :
  permissions_checked d →
  S (perm_index q) ≤ level_rank (permission d project user) ↔ holds d project user q.
Proof.
  intros Hc. unfold permission, SecretRepo.owned, holds. case_bool_decide as Ho.
  { split; [by left|]. intros _. destruct q; simpl; lia. }
  rewrite keep_best_fold. unfold SecretRepo.grants. setoid_rewrite list_elem_of_fmap.
  setoid_rewrite list_elem_of_filter. setoid_rewrite elem_of_rows. setoid_rewrite member_of_true.
  split.
  - intros [Hn|(p & (a & -> & (Hp & Hg) & k & Hk) & Hle)]; [simpl in Hn; lia|]. right.
    destruct (Hc k a Hk) as [pp Hpp]. rewrite (level_from_checked _ _ Hpp) in Hle.
    exists k, a, pp. split_and!; try done. unfold perm_le. destruct q, pp; simpl in *; lia.
  - intros [?|(k & a & pp & Hk & Hp & Hg & Hpp & Hle)]; [done|]. right.
    exists (pa_permission a). split; [eauto 10|]. rewrite (level_from_checked _ _ Hpp).
    unfold perm_le in Hle. destruct q, pp; simpl in *; lia.
Qed.

Lemma effective_rank d project user q :
  S (perm_index q) ≤ level_rank (level_of <$> effective d project user) ↔ holds d project user q.
Proof.
  rewrite <-effective_spec. unfold at_least, perm_le.
  destruct (effective d project user) as [r|]; simpl.
  - split; [intros; exists r; destruct q, r; simpl in *; (split; [done | lia])|].
    intros (r' & [= <-] & Hr). destruct q, r; simpl in *; lia.
  - split; [lia | by intros (? & ? & _)].
Qed.

(** The two modules agree on what a caller holds. *)
Lemma permission_effective d project user :
  permissions_checked d → permission d project user = level_of <$> effective d project user.
Proof.
  intros Hc. apply level_rank_inj.
  assert (∀ q, S (perm_index q) ≤ level_rank (permission d project user) ↔
               S (perm_index q) ≤ level_rank (level_of <$> effective d project user)) as He
    by (intros q; by rewrite permission_holds, effective_rank).
  pose proof (He CanView). pose proof (He CanEdit). pose proof (He CanManage). simpl in *.
  destruct (permission d project user) as [[]|], (level_of <$> _) as [[]|]; simpl in *; lia.
Qed.

(** ** Reveals and changes *)

Section SecretTheorems.
Context `{Ext}.

Definition secret_entry (ρ : Env) (u action project : string) : AuditRow :=
  mkAudit (Some u) action (Some u) (Some (SecretApi.project_detail project)) (now_ms ρ)
    (Some "auth") None None None.

Lemma audited_run ρ u action project d :
  SecretApi.audited ρ u action project d =
  if has_user u d then (with_audit_log (λ l, l ++ [secret_entry ρ u action project]) d, Ok ())
  else (d, Err Api.internal).
Proof.
  unfold SecretApi.audited, audit_log_entry, require. run_step. by destruct (has_user u d).
Qed.

Lemma load_run uuid u need_edit d :
  (∃ row, SecretApi.load_secret_for_user uuid u need_edit d = (d, Ok row) ∧
          secrets d !! uuid = Some row ∧ has_access d (se_project_id row) u need_edit) ∨
  (∃ e, SecretApi.load_secret_for_user uuid u need_edit d = (d, Err e) ∧
        ∀ row, secrets d !! uuid = Some row → ¬ has_access d (se_project_id row) u need_edit).
Proof.
  unfold SecretApi.load_secret_for_user, SecretRepo.get_secret. run_calls.
  destruct (secrets d !! uuid) as [row|]; run_calls; [|right; by eexists].
  destruct (require_access_run (se_project_id row) u need_edit d)
    as [(l & -> & Ha) | (e & -> & _ & Ha)]; run_calls; [left|right]; eexists; naive_solver.
Qed.

(** The state after a reveal. *)
Definition revealed (ρ : Env) (uuid u project : string) (d : Db) : Db :=
  with_audit_log (λ l, l ++ [secret_entry ρ u "secret_reveal" project])
    (with_secrets (alter (set_last_accessed (now_ms ρ)) uuid) d).

(** A secret's value is handed out exactly to a signed-in account that
    sees the project and owns it or holds a reveal grant; the answer is the
    stored ciphertext, the access is stamped on the row and recorded in the
    audit log.  Any refusal leaves the state alone, except that of a session
    whose account is gone, which has already stamped the row. *)
Theorem get_secret_value_exact ρ uuid auth d :
  (∀ d' v, SecretApi.get_secret_value ρ uuid auth d = (d', Ok v) ↔
     ∃ u row, session_valid d (now_ms ρ) auth u ∧ has_user u d = true ∧
       secrets d !! uuid = Some row ∧ has_access d (se_project_id row) u false ∧
       may_reveal d (se_project_id row) u ∧
       d' = revealed ρ uuid u (se_project_id row) d ∧
       v = SecretApi.mkSecretValue (se_uuid row) (se_key row)
             (b64_encode (se_value_ciphertext row))) ∧
  (∀ d' e, SecretApi.get_secret_value ρ uuid auth d = (d', Err e) →
     d' = d ∨ ∃ u, session_valid d (now_ms ρ) auth u ∧ has_user u d = false ∧ e = Api.internal).
Proof.
  unfold SecretApi.get_secret_value.
  match goal with |- context [(auth_user ρ auth ≫= ?f) d] =>
    destruct (auth_user_bind ρ auth f d) as [(u & Hv & Hrun) | (e & He & Hrun)] end;
    rewrite Hrun; clear Hrun.
  2: { split; [|by intros d' e' [= <- _]; left]. intros d' v. split; [done|].
       intros (u & row & Hv & _). apply auth_user_spec in Hv. by rewrite Hv in He. }
  assert (∀ u', session_valid d (now_ms ρ) auth u' → u' = u) as Hu
    by (intros u' Hv'; by eapply session_valid_fun).
  rewrite bind_run.
  destruct (load_run uuid u false d) as [(row & -> & Hrow & Ha) | (e & -> & Hn)].
  2: { split; [|by intros d' e' [= <- _]; left]. intros d' v. split; [done|].
       intros (u' & row & Hv' & _ & Hrow & Ha & _). rewrite (Hu _ Hv') in Ha. by destruct (Hn row). }
  run_calls. destruct (can_reveal_run (se_project_id row) u d) as ([] & -> & Hb).
  2: { run_calls. split; [|by intros d' e' [= <- _]; left]. intros d' v. split; [done|].
       intros (u' & row' & Hv' & _ & Hrow' & _ & Hm & _). rewrite (Hu _ Hv') in Hm.
       replace row' with row in Hm by congruence. by apply Hb in Hm. }
  unfold SecretRepo.touch_secret. run_calls. rewrite update_key_run. run_calls.
  rewrite audited_run. change (has_user u (with_secrets ?g d)) with (has_user u d).
  destruct (has_user u d) eqn:Hhas; run_calls; split.
  - intros d' v. split.
    + intros [= <- <-]. exists u, row. split_and!; try done. by apply Hb.
    + intros (u' & row' & Hv' & _ & Hrow' & _ & _ & -> & ->). rewrite (Hu _ Hv').
      replace row' with row by congruence. done.
  - done.
  - intros d' v. split; [done|]. intros (u' & row' & Hv' & Hhas' & _).
    rewrite (Hu _ Hv') in Hhas'. congruence.
  - intros d' e [= _ <-]. right. eauto.
Qed.

(** *** Who changes a secret *)

Definition secret_auth (q : SecretRequest) : string :=
  match q with
  | ListSecrets _ a | CreateSecret a _ | GetSecret _ a | UpdateSecret _ a _
  | DeleteSecret _ a | RevealSecret _ a => a
  end.

(** What a secret holds, its access time aside. *)
Definition content (r : SecretRow) : string * string * blob * Z * string :=
  (se_project_id r, se_key r, se_value_ciphertext r, se_version r, se_created_by r).
Definition contents (d : Db) : gmap string (string * string * blob * Z * string) :=
  content <$> secrets d.

Lemma contents_same d d' : secrets d' = secrets d → same contents d d'.
Proof. unfold same, contents. by intros ->. Qed.

Lemma steps_touch_secret uuid t : steps (same contents) (SecretRepo.touch_secret uuid t).
Proof.
  intros d. unfold same, contents.
  change (content <$> alter (set_last_accessed t) uuid (secrets d) = content <$> secrets d).
  apply map_eq. intros k. rewrite !lookup_fmap.
  destruct (decide (uuid = k)) as [->|?]; [rewrite lookup_alter_eq | by rewrite lookup_alter_ne].
  by destruct (secrets d !! k).
Qed.
#[local] Hint Resolve steps_touch_secret : steps.

Lemma steps_audited R `{!PreOrder R} ρ u action project :
  (∀ f d, R d (with_audit_log f d)) → steps R (SecretApi.audited ρ u action project).
Proof.
  intros Hf. unfold SecretApi.audited, audit_log_entry, require. steps_tac. by apply steps_modify.
Qed.

Lemma reads_keep_contents ρ q :
  match q with CreateSecret _ _ | UpdateSecret _ _ _ | DeleteSecret _ _ => True
  | _ => steps (same contents) (serve_secret ρ q) end.
Proof.
  destruct q; try exact I; steps_crawl ltac:(first [apply contents_same; reflexivity | idtac]).
Qed.

(** A secret of the state after a request is one of the state before, or one
    an editor wrote. *)
Definition edited (ρ : Env) (auth uuid : string) (d d' : Db) : Prop :=
  ∃ u row, session_valid d (now_ms ρ) auth u ∧ has_access d (se_project_id row) u true ∧
    ((secrets d !! uuid = Some row ∧
      (secrets d' !! uuid = None ∨
       ∃ row', secrets d' !! uuid = Some row' ∧ se_version row' = (se_version row + 1)%Z ∧
         se_project_id row' = se_project_id row ∧ se_created_by row' = se_created_by row)) ∨
     (secrets d !! uuid = None ∧ secrets d' !! uuid = Some row ∧
      se_created_by row = u ∧ se_version row = 1%Z)).

(** Names the state a handler that ends in [audited] leaves, and shows that its
    secrets are those of the state that is audited. *)
Local Ltac settle_audit Heq d' :=
  match goal with |- secrets ?x.1 !! _ ≠ _ → _ =>
    match x with context [SecretApi.audited ?ρ ?u ?a ?p ?d1] =>
      assert (secrets x.1 = secrets d1) as Heq;
        [ rewrite (audited_run ρ u a p d1); destruct (has_user u d1);
          unfold SecretRepo.get_secret; run_calls; repeat (case_match; run_calls); done
        | set (d' := x.1) in *; clearbody d' ] end end.

Lemma create_edits ρ auth req uuid d :
  secrets (SecretApi.create_secret ρ auth req d).1 !! uuid ≠ secrets d !! uuid →
  edited ρ auth uuid d (SecretApi.create_secret ρ auth req d).1.
Proof.
  unfold SecretApi.create_secret.
  match goal with |- context [(auth_user ρ auth ≫= ?f) d] =>
    destruct (auth_user_bind ρ auth f d) as [(u & Hv & ->) | (e & _ & ->)] end; [|done].
  rewrite bind_run.
  destruct (require_access_run (SecretApi.sc_project_uuid req) u true d) as [(l & -> & Ha) | (e & -> & _)];
    [|done].
  run_calls. destruct (SecretApi.validate_key _); [|done]. unfold decode_b64. run_calls.
  destruct (b64_decode _) as [value|]; [|done]. run_calls.
  unfold SecretRepo.create_secret. rewrite insert_row_run.
  destruct (secrets d !! fresh ρ 0) eqn:Hf; [done|]. destruct (SecretRepo.secret_fk _ _ _); [|done].
  cbn [map_res]. cbv beta iota. rewrite bind_run.
  settle_audit Heq d'.
  match type of Heq with _ = secrets (with_secrets (insert ?k ?r) d) =>
    change (secrets d' = <[k := r]> (secrets d)) in Heq end.
  intros Hne. unfold edited. rewrite Heq in *.
  destruct (decide (uuid = fresh ρ 0)) as [->|Hk]; [|by rewrite lookup_insert_ne in Hne].
  rewrite lookup_insert_eq. exists u. eexists. split; [done|]. split; [|by right].
  done.
Qed.

Lemma update_edits ρ auth uuid' req uuid d :
  secrets (SecretApi.update_secret ρ uuid' auth req d).1 !! uuid ≠ secrets d !! uuid →
  edited ρ auth uuid d (SecretApi.update_secret ρ uuid' auth req d).1.
Proof.
  unfold SecretApi.update_secret.
  match goal with |- context [(auth_user ρ auth ≫= ?f) d] =>
    destruct (auth_user_bind ρ auth f d) as [(u & Hv & ->) | (e & _ & ->)] end; [|done].
  rewrite bind_run.
  destruct (load_run uuid' u true d) as [(row & -> & Hrow & Ha) | (e & -> & _)]; [|done].
  rewrite bind_run.
  assert (∃ r, (match SecretApi.su_key req with
                | Some k => lift (SecretApi.validate_key k);; mret k
                | None => mret (se_key row)
                end : handler string) d = (d, r)) as [[key|e] ->]; [|..|done].
  { destruct (SecretApi.su_key req); [|by eexists]. run_calls.
    destruct (SecretApi.validate_key _); by eexists. }
  rewrite bind_run.
  assert (∃ r, (match SecretApi.su_value_ciphertext req with
                | Some v => decode_b64 v
                | None => mret (se_value_ciphertext row)
                end : handler blob) d = (d, r)) as [[value|e] ->]; [|..|done].
  { unfold decode_b64. destruct (SecretApi.su_value_ciphertext req); [|by eexists]. run_calls.
    destruct (b64_decode _); by eexists. }
  unfold SecretRepo.update_secret. run_calls. rewrite update_key_run. run_calls.
  settle_audit Heq d'.
  match type of Heq with _ = secrets (with_secrets (alter ?f ?k) d) =>
    change (secrets d' = alter f k (secrets d)) in Heq end.
  intros Hne. unfold edited. rewrite Heq in *.
  destruct (decide (uuid = uuid')) as [->|Hk]; [|by rewrite lookup_alter_ne in Hne].
  rewrite lookup_alter_eq, Hrow. exists u, row. split_and!; [done..|]. left. split; [done|].
  right. by eexists.
Qed.

Lemma delete_edits ρ auth uuid' uuid d :
  secrets (SecretApi.delete_secret ρ uuid' auth d).1 !! uuid ≠ secrets d !! uuid →
  edited ρ auth uuid d (SecretApi.delete_secret ρ uuid' auth d).1.
Proof.
  unfold SecretApi.delete_secret.
  match goal with |- context [(auth_user ρ auth ≫= ?f) d] =>
    destruct (auth_user_bind ρ auth f d) as [(u & Hv & ->) | (e & _ & ->)] end; [|done].
  rewrite bind_run.
  destruct (load_run uuid' u true d) as [(row & -> & Hrow & Ha) | (e & -> & _)]; [|done].
  unfold SecretRepo.delete_secret. run_calls. rewrite delete_where_run. run_calls.
  settle_audit Heq d'.
  match type of Heq with _ = secrets (with_secrets (filter ?P) d) =>
    change (secrets d' = filter P (secrets d)) in Heq end.
  intros Hne. unfold edited. rewrite Heq in *.
  destruct (decide (uuid = uuid')) as [->|Hk].
  - exists u, row. split_and!; [done..|]. left. split; [done|]. left.
    apply map_lookup_filter_None. right. intros x _. cbn. by rewrite bool_decide_true.
  - exfalso. apply Hne. destruct (secrets d !! uuid) eqn:Hu.
    + apply map_lookup_filter_Some. split; [done|]. cbn. by rewrite bool_decide_false.
    + apply map_lookup_filter_None. by left.
Qed.

(** A secret is created, changed or removed only by a request of a
    signed-in account that may edit its project: whatever the request, a
    secret that differs afterwards (its access time aside) was removed, was
    rewritten at the next version inside its project, or is new at version 1
    and names its creator. *)
Theorem secrets_change_only_by_editors ρ q uuid d :
  contents (serve_secret ρ q d).1 !! uuid ≠ contents d !! uuid →
  edited ρ (secret_auth q) uuid d (serve_secret ρ q d).1.
Proof.
  assert (∀ d', contents d' !! uuid ≠ contents d !! uuid → secrets d' !! uuid ≠ secrets d !! uuid)
    as Hc by (intros d' Hne Heq; apply Hne; unfold contents; by rewrite !lookup_fmap, Heq).
  pose proof (reads_keep_contents ρ q) as Hr.
  destruct q; try (intros Hne; by rewrite (Hr d) in Hne).
  - intros Hne%Hc. simpl in *. rewrite bind_run in *. revert Hne.
    pose proof (create_edits ρ auth req uuid d) as Hx. by destruct (SecretApi.create_secret _ _ _ d) as [? [?|?]].
  - intros Hne%Hc. simpl in *. rewrite bind_run in *. revert Hne.
    pose proof (update_edits ρ auth uuid0 req uuid d) as Hx. by destruct (SecretApi.update_secret _ _ _ _ d) as [? [?|?]].
  - intros Hne%Hc. by apply delete_edits.
Qed.
End SecretTheorems.

(** ** Witnesses *)
Section SecretWitnesses.
#[local] Existing Instance Concrete.toy_ext.
Local Open Scope Z_scope.

(** Alice owns project [p]; bob may edit it. *)
Definition secret_demo : Db :=
  Concrete.demo_session "ring" "bob" 1000 (Concrete.demo_session "sess" "alice" 1000
    (with_project_access (insert "a" (mkAccess "a" "p" (Some "bob") None "can_edit" 0 "alice" 0))
      (with_projects (insert "p" (mkProjectRow "p" "P" None "personal" None None "alice" 0 0))
        Concrete.demo_db))).

Definition new_secret : SecretApi.SecretCreateRequest := SecretApi.mkCreateSecret "p" "db" "=v1".
Definition stored : Db := 
  (serve_secret (Concrete.demo_env 10) (CreateSecret "ring" new_secret) secret_demo).1.

(** Bob stores a secret he may not read back; alice may. *)
Example bob_cannot_reveal :
  (SecretApi.get_secret_value (Concrete.demo_env 20) "n0" "ring" stored).2 =
    Err SecretApi.reveal_required ∧
  (SecretApi.get_secret_value (Concrete.demo_env 20) "n0" "sess" stored).2 =
    Ok (SecretApi.mkSecretValue "n0" "db" "=v1").
Proof. split; vm_compute; reflexivity. Qed.

Lemma secrets_change_only_by_editors_witness :
  edited (Concrete.demo_env 10) "ring" "n0" secret_demo stored.
Proof.
  apply (secrets_change_only_by_editors (Concrete.demo_env 10) (CreateSecret "ring" new_secret)
           "n0" secret_demo).
  vm_compute. discriminate.
Defined.
End SecretWitnesses.
