(* ===== verification/Files.v ===== *)
(** * File storage

    Models [repository/files.rs] (Module [FileRepo]) and [handlers/files.rs]
    (Module [FileApi]): manifests of encrypted files, the state of their
    chunks and the chunks themselves.  Shows that an available file is
    complete, that what is downloaded is what was uploaded, and that the
    declared sizes of an account stay within its quota. *)
From stdpp Require Import pretty.
From S2P Require Import Prelude Domain Database Concrete Users.

Local Open Scope Z_scope.

(** ** repository/files.rs *)

Inductive UpsertFileManifestError := OwnerConflict | UDb (e : DbError).

(** The columns a re-initiation resets. *)
Definition reset_manifest (total_size chunk_size total_chunks enc_key_gen : Z)
    (content_type : string) (last_modified : Z) (m : FileManifestRow) : FileManifestRow :=
  mkManifest (fm_file_uuid m) (fm_owner_user_id m) total_size chunk_size total_chunks
    enc_key_gen content_type "PendingUpload" last_modified (fm_created_at m).

Definition set_status (to : string) (m : FileManifestRow) : FileManifestRow :=
  mkManifest (fm_file_uuid m) (fm_owner_user_id m) (fm_total_size m) (fm_chunk_size m)
    (fm_total_chunks m) (fm_enc_key_gen m) (fm_content_type m) to (fm_last_modified m)
    (fm_created_at m).

Module FileRepo.
Definition owned_manifest (file user : string) (d : Db) : option FileManifestRow :=
  m ← file_manifests d !! file;
  if decide (fm_owner_user_id m = user) then Some m else None.

Definition has_manifest (file : string) (d : Db) : bool :=
  bool_decide (is_Some (file_manifests d !! file)).

(** [INSERT .. ON CONFLICT(file_uuid) DO NOTHING], the rows affected. *)
Definition insert_manifest (m : FileManifestRow) : sql Z :=
  o ← gets (λ d, file_manifests d !! fm_file_uuid m);
  match o with
  | Some _ => mret 0
  | None =>
      insert_row file_manifests with_file_manifests (has_user (fm_owner_user_id m))
        (fm_file_uuid m) m;;
      mret 1
  end.

Definition insert_chunk_row (file : string) (i : Z) : sql unit :=
  insert_row file_chunks with_file_chunks (has_manifest file) (file, i) "pending".

Definition upsert_file_manifest (file_uuid user_id : string)
    (total_size chunk_size total_chunks enc_key_gen : Z) (content_type : string)
    (last_modified now : Z) : M Db UpsertFileManifestError unit :=
  inserted ← map_err UDb (insert_manifest
               (mkManifest file_uuid user_id total_size chunk_size total_chunks enc_key_gen
                  content_type "PendingUpload" last_modified now));
  (if bool_decide (inserted = 0) then
     existing ← gets (λ d, fm_owner_user_id <$> file_manifests d !! file_uuid);
     match existing with
     | Some owner =>
         if decide (owner = user_id) then
           map_err UDb (update_key file_manifests with_file_manifests file_uuid
             (reset_manifest total_size chunk_size total_chunks enc_key_gen content_type
                last_modified));;
           mret ()
         else throw OwnerConflict
     | None => throw (UDb Protocol)
     end
   else mret ());;
  map_err UDb (delete_where file_chunks with_file_chunks (λ kr, bool_decide (kr.1.1 = file_uuid)));;
  let capped := Z.max 0 (Z.min total_chunks 512) in
  guard_err (bool_decide (capped < total_chunks)) (UDb Protocol);;
  mapM (λ i, map_err UDb (insert_chunk_row file_uuid i)) (seqZ 0 capped);;
  mret ().

Definition get_file_manifest (file_uuid user_id : string) : sql (option FileManifestRow) :=
  gets (owned_manifest file_uuid user_id).

Definition set_file_status (file_uuid user_id from to : string) : sql bool :=
  o ← gets (owned_manifest file_uuid user_id);
  match o with
  | Some m =>
      if decide (fm_status m = from) then
        n ← update_key file_manifests with_file_manifests file_uuid (set_status to);
        mret (bool_decide (n = 1))
      else mret false
  | None => mret false
  end.

(** The chunk rows of a file, as index and status. *)
Definition chunk_rows (file : string) (d : Db) : list (Z * string) :=
  (λ kr, (kr.1.2, kr.2)) <$> filter (λ kr, kr.1.1 = file) (map_to_list (file_chunks d)).

Definition joined_rows (file user : string) (d : Db) : list (Z * string) :=
  match owned_manifest file user d with Some _ => chunk_rows file d | None => [] end.

Definition get_chunk_statuses (file_uuid user_id : string) : sql (list (Z * string)) :=
  gets (λ d, sort_asc fst (joined_rows file_uuid user_id d)).

(** Kept in the repository but called by no handler any more. *)
Definition set_all_chunks_uploaded (file_uuid user_id : string) : sql unit :=
  o ← gets (owned_manifest file_uuid user_id);
  match o with
  | Some _ =>
      modify (with_file_chunks (map_imap (λ k st,
        Some (if decide (k.1 = file_uuid) then "uploaded"%string else st))))
  | None => mret ()
  end.

(** [SUM] over integers fails on overflow. *)
Definition sum_file_bytes_owned_by (user_id : string) : sql Z :=
  total ← gets (λ d, foldr Z.add 0 (fm_total_size <$>
            filter (λ m, fm_owner_user_id m = user_id) (rows (file_manifests d))));
  require (bool_decide (i64_min ≤ total ≤ i64_max)) IntegerOverflow;;
  mret total.

Definition put_chunk (file_uuid : string) (idx : Z) (bytes : blob) : sql unit :=
  upsert_row chunks with_chunks (λ _, true) (file_uuid, idx) bytes (λ _, bytes).

Definition get_chunk (file_uuid : string) (idx : Z) : sql (option blob) :=
  gets (λ d, chunks d !! (file_uuid, idx)).

Definition delete_file (file_uuid : string) : sql unit :=
  delete_where chunks with_chunks (λ kr, bool_decide (kr.1.1 = file_uuid));; mret ().

Definition count_chunks (file_uuid : string) : sql Z :=
  gets (λ d, Z.of_nat (size (filter (λ kr : (string * Z) * blob, kr.1.1 = file_uuid) (chunks d)))).

Definition count_chunks_uploaded (file_uuid user_id : string) : sql Z :=
  gets (λ d, Z.of_nat (length (filter (λ c, c.2 = "uploaded") (joined_rows file_uuid user_id d)))).

Definition set_chunk_uploaded (file_uuid : string) (idx : Z) (user_id : string) : sql unit :=
  o ← gets (owned_manifest file_uuid user_id);
  match o with
  | Some _ =>
      update_key file_chunks with_file_chunks (file_uuid, idx) (λ _, "uploaded");; mret ()
  | None => mret ()
  end.
End FileRepo.

(** ** handlers/files.rs *)
Module FileApi.
Record InitiateReq := mkInitiate {
  in_total_size : N;       (* u64 *)
  in_chunk_size : N;       (* u32 *)
  in_total_chunks : N;     (* u32 *)
  in_enc_key_gen : N;      (* u64 *)
  in_content_type : string;
  in_last_modified : Z }.
Record InitiateResp := mkInitiated {
  ir_file_uuid : string; ir_upload_id : string; ir_presigned_urls : list string }.
Record StatusResp := mkFileStatus {
  fs_file_uuid : string; fs_status : string; fs_uploaded_chunks : list Z; fs_total_chunks : Z }.

Definition MAX_CHUNKS : Z := 512.
Definition MAX_CHUNK_SIZE : Z := 8 * 1024 * 1024.
Definition MAX_FILE_SIZE : Z := 256 * 1024 * 1024.

Definition not_found : ApiError := mkApiError 404 "not_found".
Definition quota_exceeded : ApiError := mkApiError 413 "quota_exceeded".
Definition already_available : ApiError := mkApiError 409 "already_available".
Definition file_owner_conflict : ApiError := mkApiError 409 "file_owner_conflict".
Definition not_available : ApiError := mkApiError 409 "not_available".
Definition chunk_not_found : ApiError := mkApiError 404 "chunk_not_found".

Definition presign_chunk_urls (file_uuid : string) (total_chunks : Z) : list string :=
  (λ i : Z, String.append "/internal/chunk/" (String.append file_uuid (String.append "/" (pretty i))))
  <$> seqZ 0 total_chunks.

Definition upsert_error (e : UpsertFileManifestError) : ApiError :=
  match e with OwnerConflict => file_owner_conflict | UDb _ => Api.internal end.

(** [VAUTR_FILE_QUOTA_BYTES], 1 GiB by default, read as [u64]. *)
Definition quota (ρ : Env) : Z :=
  default (1024 * 1024 * 1024) (env_var ρ "VAUTR_FILE_QUOTA_BYTES" ≫= parse_u64).

(** The caps on what a request declares. *)
Definition check_caps (req : InitiateReq) : result ApiError unit :=
  let total_chunks := Z.of_N (in_total_chunks req) in
  let chunk_size := Z.of_N (in_chunk_size req) in
  if bool_decide (total_chunks = 0) || bool_decide (MAX_CHUNKS < total_chunks) then
    Err (Api.bad_request "invalid_chunks")
  else if bool_decide (chunk_size = 0) || bool_decide (MAX_CHUNK_SIZE < chunk_size) then
    Err (Api.bad_request "invalid_chunk_size")
  else if bool_decide (MAX_FILE_SIZE < chunk_size * total_chunks) then
    Err (Api.bad_request "invalid_file_size")
  else if bool_decide (MAX_FILE_SIZE < Z.of_N (in_total_size req)) then
    Err (Api.bad_request "invalid_file_size")
  else Ok ().

Section Handlers.
Context `{Ext}.

Definition upload_initiate (ρ : Env) (uuid : Uuid) (auth : string) (req : InitiateReq)
    : handler InitiateResp :=
  user_id ← auth_user ρ auth;
  lift (check_caps req);;
  let total_size := as_i64 (Z.of_N (in_total_size req)) in
  let total_chunks := Z.of_N (in_total_chunks req) in
  used ← call (FileRepo.sum_file_bytes_owned_by user_id);
  guard_err (bool_decide (as_i64 (quota ρ) < i64_saturating_add used total_size)) quota_exceeded;;
  existing ← call (FileRepo.get_file_manifest uuid user_id);
  guard_err (bool_decide (fm_status <$> existing = Some "Available")) already_available;;
  map_err upsert_error
    (FileRepo.upsert_file_manifest uuid user_id total_size (Z.of_N (in_chunk_size req))
       total_chunks (as_i64 (Z.of_N (in_enc_key_gen req))) (in_content_type req)
       (in_last_modified req) (now_ms ρ));;
  mret (mkInitiated uuid (fresh ρ 0) (presign_chunk_urls uuid total_chunks)).

Definition upload_status (ρ : Env) (uuid : Uuid) (auth : string) : handler StatusResp :=
  user_id ← auth_user ρ auth;
  o ← call (FileRepo.get_file_manifest uuid user_id);
  manifest ← ok_or not_found o;
  chunks ← call (FileRepo.get_chunk_statuses uuid user_id);
  let uploaded := as_u32 ∘ fst <$> filter (λ c, c.2 = "uploaded") chunks in
  mret (mkFileStatus uuid (fm_status manifest) uploaded (as_u32 (fm_total_chunks manifest))).

Definition upload_complete (ρ : Env) (uuid : Uuid) (auth : string) : handler (string * string) :=
  user_id ← auth_user ρ auth;
  o ← call (FileRepo.get_file_manifest uuid user_id);
  manifest ← ok_or not_found o;
  if decide (fm_status manifest = "Available") then mret (uuid, "Available")
  else
    uploaded ← call (FileRepo.count_chunks_uploaded uuid user_id);
    guard_err (bool_decide (uploaded ≠ fm_total_chunks manifest))
      (Api.bad_request "chunks_incomplete");;
    flipped ← call (FileRepo.set_file_status uuid user_id "PendingUpload" "Available");
    if (flipped : bool) then mret (uuid, "Available")
    else
      current ← call (FileRepo.get_file_manifest uuid user_id);
      if bool_decide (fm_status <$> current = Some "Available") then mret (uuid, "Available")
      else throw Api.internal.

Definition download (ρ : Env) (uuid : Uuid) (auth : string) : handler (string * list string) :=
  user_id ← auth_user ρ auth;
  o ← call (FileRepo.get_file_manifest uuid user_id);
  manifest ← ok_or not_found o;
  guard_err (bool_decide (fm_status manifest ≠ "Available")) not_available;;
  mret (uuid, presign_chunk_urls uuid (fm_total_chunks manifest)).

Definition upload_chunk (ρ : Env) (uuid : Uuid) (idx : Z) (auth bytes : string) : handler unit :=
  user_id ← auth_user ρ auth;
  o ← call (FileRepo.get_file_manifest uuid user_id);
  manifest ← ok_or not_found o;
  guard_err (bool_decide (as_u32 (fm_total_chunks manifest) ≤ idx))
    (Api.bad_request "invalid_chunk_index");;
  b ← decode_b64 bytes;
  call (FileRepo.put_chunk uuid idx b);;
  call (FileRepo.set_chunk_uploaded uuid idx user_id).

Definition download_chunk (ρ : Env) (uuid : Uuid) (idx : Z) (auth : string) : handler blob :=
  user_id ← auth_user ρ auth;
  o ← call (FileRepo.get_file_manifest uuid user_id);
  manifest ← ok_or not_found o;
  guard_err (bool_decide (fm_status manifest ≠ "Available")) not_available;;
  o ← call (FileRepo.get_chunk uuid idx);
  ok_or chunk_not_found o.
End Handlers.
End FileApi.

(** The routes; [idx] is a [u32]. *)
Inductive FileRequest :=
| UploadInitiate (file : Uuid) (auth : string) (req : FileApi.InitiateReq)
| UploadStatus (file : Uuid) (auth : string)
| UploadComplete (file : Uuid) (auth : string)
| Download (file : Uuid) (auth : string)
| UploadChunk (file : Uuid) (idx : N) (auth bytes : string)
| DownloadChunk (file : Uuid) (idx : N) (auth : string).

Definition serve_file `{Ext} (ρ : Env) (q : FileRequest) : handler unit :=
  match q with
  | UploadInitiate f a r => FileApi.upload_initiate ρ f a r;; mret ()
  | UploadStatus f a => FileApi.upload_status ρ f a;; mret ()
  | UploadComplete f a => FileApi.upload_complete ρ f a;; mret ()
  | Download f a => FileApi.download ρ f a;; mret ()
  | UploadChunk f i a b => FileApi.upload_chunk ρ f (Z.of_N i) a b
  | DownloadChunk f i a => FileApi.download_chunk ρ f (Z.of_N i) a;; mret ()
  end.

Definition serve_files `{Ext} (l : list (Env * FileRequest)) (d : Db) : Db :=
  foldl (λ d q, (serve_file q.1 q.2 d).1) d l.

(** ** What the tables hold *)

(** Chunk rows belong to a manifest and lie within it, an uploaded chunk is
    stored, an available file has every chunk uploaded, and what was declared
    is within the caps. *)
Record files_inv (d : Db) : Prop := {
  fi_rows f i st : file_chunks d !! (f, i) = Some st →
    ∃ m, file_manifests d !! f = Some m ∧ 0 ≤ i < fm_total_chunks m;
  fi_stored f i : file_chunks d !! (f, i) = Some "uploaded" → is_Some (chunks d !! (f, i));
  fi_complete f m i : file_manifests d !! f = Some m → fm_status m = "Available" →
    0 ≤ i < fm_total_chunks m → file_chunks d !! (f, i) = Some "uploaded";
  fi_caps f m : file_manifests d !! f = Some m →
    1 ≤ fm_total_chunks m ≤ FileApi.MAX_CHUNKS ∧ 0 ≤ fm_total_size m ≤ FileApi.MAX_FILE_SIZE;
}.

(** The tables of this component. *)
Definition files_of (d : Db) :=
  (file_manifests d, file_chunks d, chunks d).

Lemma files_inv_same d d' : same files_of d d' → preserves files_inv d d'.
Proof. intros [= Hm Hf Hc] [H1 H2 H3 H4]. split; rewrite ?Hm, ?Hf, ?Hc; eauto. Qed.

(** While the chunks of a pending file are armed again. *)
Definition arming (f : string) (n : Z) (d : Db) : Prop :=
  files_inv d ∧
  ∃ m, file_manifests d !! f = Some m ∧ fm_total_chunks m = n ∧ fm_status m = "PendingUpload".

Lemma arm_chunk f n i : 0 ≤ i < n → steps (preserves (arming f n)) (FileRepo.insert_chunk_row f i).
Proof.
  intros Hi d. unfold FileRepo.insert_chunk_row. rewrite insert_row_run.
  destruct (file_chunks d !! (f, i)); [done|]. destruct (FileRepo.has_manifest f d); [|done].
  intros [[H1 H2 H3 H4] (m & Hm & Hn & Hs)]. cbn [fst].
  set (d' := with_file_chunks _ d).
  assert (file_chunks d' = <[(f, i) := "pending"]> (file_chunks d)) as Hf by done.
  assert (file_manifests d' = file_manifests d ∧ chunks d' = chunks d) as [Hm' Hc] by done.
  clearbody d'. split; [split|]; [..|exists m; by rewrite Hm'].
  - intros g j st. rewrite Hm', Hf, lookup_insert_Some. intros [[[= <- <-] _]|[_ Hr]]; [|eauto].
    exists m. by rewrite Hn.
  - intros g j. rewrite Hc, Hf, lookup_insert_Some. intros [[_ ?]|[_ Hr]]; [done | eauto].
  - intros g m' j. rewrite Hm'. intros Hg Hav Hj. destruct (decide (f = g)) as [<-|Hne]; [congruence|].
    rewrite Hf, lookup_insert_ne by congruence. eauto.
  - intros g m'. rewrite Hm'. eauto.
Qed.

Section FileLemmas.
Context (f u : string) (ts cs tc ekg : Z) (ct : string) (lm now : Z).

Definition armed (m : FileManifestRow) (d : Db) : Db :=
  with_file_chunks (filter (λ kr, bool_decide (kr.1.1 = f) = false))
    (with_file_manifests (insert f m) d).

Lemma alter_known {K A} `{Countable K} (g : A → A) (k : K) (t : gmap K A) a :
  t !! k = Some a → alter g k t = <[k := g a]> t.
Proof.
  intros Hk. apply map_eq. intros j. destruct (decide (k = j)) as [<-|].
  - by rewrite lookup_alter_eq, lookup_insert_eq, Hk.
  - by rewrite lookup_alter_ne, lookup_insert_ne.
Qed.

(** Either nothing is written, or the manifest is and its chunks are armed. *)
Lemma manifest_upsert_run d :
  let up := FileRepo.upsert_file_manifest f u ts cs tc ekg ct lm now in
  (∃ e, up d = (d, Err e)) ∨
  (∃ m, (file_manifests d !! f = None ∨
         ∃ old, file_manifests d !! f = Some old ∧ fm_owner_user_id old = u ∧
                fm_created_at m = fm_created_at old) ∧
     fm_owner_user_id m = u ∧ fm_total_size m = ts ∧ fm_total_chunks m = tc ∧
     fm_status m = "PendingUpload" ∧
     up d = (guard_err (bool_decide (Z.max 0 (Z.min tc 512) < tc)) (UDb Protocol);;
             mapM (λ i, map_err UDb (FileRepo.insert_chunk_row f i)) (seqZ 0 (Z.max 0 (Z.min tc 512)));;
             mret ()) (armed m d)).
Proof.
  intros up. unfold up, FileRepo.upsert_file_manifest, FileRepo.insert_manifest. run_calls. simpl.
  destruct (file_manifests d !! f) as [old|] eqn:Hf; run_calls.
  - rewrite bool_decide_true by done. run_calls. rewrite Hf. cbn [fmap option_fmap option_map].
    destruct (decide (fm_owner_user_id old = u)) as [Ho|]; [|left; by eexists].
    run_calls. rewrite update_key_run. run_calls. rewrite delete_where_run. right.
    exists (reset_manifest ts cs tc ekg ct lm old). split_and!; try done; [right; eauto|].
    unfold armed. cbn [map_res]. cbv beta iota.
    replace (with_file_manifests (alter (reset_manifest ts cs tc ekg ct lm) f) d)
      with (with_file_manifests (insert f (reset_manifest ts cs tc ekg ct lm old)) d); [done|].
    unfold with_file_manifests. by rewrite (alter_known _ _ _ old).
  - rewrite insert_row_run. simpl. rewrite Hf.
    destruct (has_user u d); [|left; by eexists]. run_calls.
    try (rewrite bool_decide_false by done); run_calls. rewrite delete_where_run. right.
    exists (mkManifest f u ts cs tc ekg ct "PendingUpload" lm now). split_and!; try done. by left.
Qed.

Lemma arm_all n : 0 ≤ n → steps (preserves (arming f n))
  (mapM (λ i, map_err UDb (FileRepo.insert_chunk_row f i)) (seqZ 0 n)).
Proof.
  intros Hn. assert (∀ l, Forall (λ i, 0 ≤ i < n) l → steps (preserves (arming f n))
    (mapM (λ i, map_err UDb (FileRepo.insert_chunk_row f i)) l)) as Hl.
  { intros l. induction l as [|i l IH]; intros Hl; [by apply steps_ret; typeclasses eauto|].
    apply Forall_cons in Hl as [Hi Hl].
    apply steps_bind; [typeclasses eauto | apply steps_map_err, arm_chunk, Hi | intros a].
    apply steps_bind; [typeclasses eauto | by apply IH | intros b; apply steps_ret; typeclasses eauto]. }
  apply Hl, Forall_forall. intros i Hi%elem_of_seqZ. lia.
Qed.

Lemma armed_arming m d :
  files_inv d → 1 ≤ fm_total_chunks m ≤ FileApi.MAX_CHUNKS → 0 ≤ fm_total_size m ≤ FileApi.MAX_FILE_SIZE →
  fm_status m = "PendingUpload" → arming f (fm_total_chunks m) (armed m d).
Proof.
  intros [H1 H2 H3 H4] Hc Ht Hs. set (d' := armed m d).
  assert (file_manifests d' = <[f := m]> (file_manifests d)) as Hm by done.
  assert (∀ g i st, file_chunks d' !! (g, i) = Some st ↔ g ≠ f ∧ file_chunks d !! (g, i) = Some st)
    as Hf.
  { intros g i st. change (file_chunks d') with
      (filter (λ kr : (string * Z) * string, bool_decide (kr.1.1 = f) = false) (file_chunks d)).
    rewrite map_lookup_filter_Some. simpl. rewrite bool_decide_eq_false. naive_solver. }
  assert (chunks d' = chunks d) as Hk by done. clearbody d'.
  split; [split|exists m; by rewrite Hm, lookup_insert_eq].
  - intros g i st [Hg Hr]%Hf. destruct (H1 g i st Hr) as (m' & Hm' & Hi).
    exists m'. by rewrite Hm, lookup_insert_ne.
  - intros g i [Hg Hr]%Hf. rewrite Hk. eauto.
  - intros g m' i. rewrite Hm, lookup_insert_Some. intros [[<- <-]|[Hg Hr]] Hav Hi; [congruence|].
    apply Hf. eauto.
  - intros g m'. rewrite Hm, lookup_insert_Some. intros [[_ <-]|[_ Hr]]; eauto.
Qed.

Lemma upsert_inv :
  1 ≤ tc ≤ FileApi.MAX_CHUNKS → 0 ≤ ts ≤ FileApi.MAX_FILE_SIZE →
  steps (preserves files_inv) (FileRepo.upsert_file_manifest f u ts cs tc ekg ct lm now).
Proof.
  intros Htc Hts d Hd. unfold FileApi.MAX_CHUNKS in Htc.
  destruct (manifest_upsert_run d) as [(e & ->) | (m & _ & _ & <- & <- & Hs & ->)]; [done|].
  rewrite bool_decide_false by lia. replace (Z.max 0 (Z.min (fm_total_chunks m) 512))
    with (fm_total_chunks m) by lia.
  pose proof (armed_arming m d Hd ltac:(unfold FileApi.MAX_CHUNKS; lia) Hts Hs) as Ha.
  rewrite bind_run, guard_err_run. cbv beta iota.
  match goal with |- files_inv (?h (armed m d)).1 =>
    assert (steps (preserves (arming f (fm_total_chunks m))) h) as Hst end.
  { apply steps_bind; [typeclasses eauto | apply arm_all; lia |].
    intros a. apply steps_ret; typeclasses eauto. }
  apply (Hst _ Ha).
Qed.

(** The manifests and chunks after an initiation. *)
Lemma upsert_tables d :
  let d' := (FileRepo.upsert_file_manifest f u ts cs tc ekg ct lm now d).1 in
  chunks d' = chunks d ∧
  (file_manifests d' = file_manifests d ∨
   ∃ m, file_manifests d' = <[f := m]> (file_manifests d) ∧ fm_owner_user_id m = u ∧
        fm_total_size m = ts ∧ fm_status m = "PendingUpload" ∧
        ∀ old, file_manifests d !! f = Some old → fm_owner_user_id old = u).
Proof.
  cbv zeta. destruct (manifest_upsert_run d) as [(e & ->) | (m & Ho & Hu & Ht & _ & Hs & ->)]; [by split; [|left]|].
  match goal with |- context [(?h (armed m d)).1] =>
    assert (steps (same (λ d, (chunks d, file_manifests d))) h) as Hst end.
  { unfold FileRepo.insert_chunk_row. steps_crawl ltac:(reflexivity). }
  specialize (Hst (armed m d)). injection Hst as -> ->. split; [done|].
  right. exists m. split_and!; try done. naive_solver.
Qed.
End FileLemmas.

(** Counting the uploaded rows of a file decides whether they are all there. *)
Lemma all_uploaded f d n :
  (∀ i st, file_chunks d !! (f, i) = Some st → 0 ≤ i < n) →
  Z.of_nat (length (filter (λ c, c.2 = "uploaded") (FileRepo.chunk_rows f d))) = n →
  ∀ i, 0 ≤ i < n → file_chunks d !! (f, i) = Some "uploaded".
Proof.
  intros Hr Hn i Hi.
  set (ix := fst <$> filter (λ c, c.2 = "uploaded") (FileRepo.chunk_rows f d)).
  assert (∀ j, j ∈ ix ↔ file_chunks d !! (f, j) = Some "uploaded") as Hix.
  { intros j. unfold ix. rewrite list_elem_of_fmap. setoid_rewrite list_elem_of_filter.
    unfold FileRepo.chunk_rows. setoid_rewrite list_elem_of_fmap.
    setoid_rewrite list_elem_of_filter. setoid_rewrite elem_of_map_to_list'. split.
    - intros ([j' st] & -> & Hst & ([[f' k] st'] & Heq & Hf & Hl)).
      simpl in *. injection Heq as -> ->. by subst.
    - intros Hj. exists (j, "uploaded"). split_and!; try done. by exists ((f, j), "uploaded"). }
  assert (NoDup ix) as Hnd.
  { assert (∀ c, c ∈ FileRepo.chunk_rows f d → file_chunks d !! (f, c.1) = Some c.2) as Hrow.
    { intros c. unfold FileRepo.chunk_rows. rewrite list_elem_of_fmap.
      intros ([[f' j] st] & -> & [Hf Hl]%list_elem_of_filter). rewrite elem_of_map_to_list' in Hl.
      simpl in *. by subst. }
    unfold ix. apply NoDup_fmap_2_strong.
    - intros [i1 s1] [i2 s2] [_ H1%Hrow]%list_elem_of_filter [_ H2%Hrow]%list_elem_of_filter Heq.
      simpl in *. congruence.
    - apply NoDup_filter. unfold FileRepo.chunk_rows. apply NoDup_fmap_2_strong.
      + intros [[f1 i1] s1] [[f2 i2] s2] [Hf1 H1]%list_elem_of_filter [Hf2 H2]%list_elem_of_filter Heq.
        simpl in *. congruence.
      + apply NoDup_filter, NoDup_map_to_list. }
  assert (ix ⊆+ seqZ 0 n) as Hsub.
  { apply NoDup_submseteq; [done|]. intros j Hj%Hix. apply elem_of_seqZ.
    specialize (Hr _ _ Hj). lia. }
  assert (ix ≡ₚ seqZ 0 n) as Hp.
  { apply submseteq_length_Permutation; [done|]. unfold ix. rewrite length_fmap, length_seqZ. lia. }
  apply Hix. rewrite Hp. apply elem_of_seqZ. lia.
Qed.

Section FileSteps.
Context `{Ext}.

Lemma set_status_inv f d :
  files_inv d → (∀ m i, file_manifests d !! f = Some m → 0 ≤ i < fm_total_chunks m →
                        file_chunks d !! (f, i) = Some "uploaded") →
  files_inv (with_file_manifests (alter (set_status "Available") f) d).
Proof.
  intros [H1 H2 H3 H4] Hc. set (d' := with_file_manifests _ d).
  assert (file_chunks d' = file_chunks d ∧ chunks d' = chunks d) as [Hf Hk] by done.
  assert (∀ g m, file_manifests d' !! g = Some m → ∃ m0, file_manifests d !! g = Some m0 ∧
            fm_total_chunks m = fm_total_chunks m0 ∧ fm_total_size m = fm_total_size m0 ∧
            (g = f ∨ fm_status m = fm_status m0)) as Hm.
  { intros g m. change (file_manifests d') with (alter (set_status "Available") f (file_manifests d)).
    rewrite lookup_alter_Some. intros [(-> & m0 & Hm0 & ->)|[_ Hm]]; eauto 10. }
  assert (∀ g m0, file_manifests d !! g = Some m0 → ∃ m, file_manifests d' !! g = Some m ∧
            fm_total_chunks m = fm_total_chunks m0) as Hm0.
  { intros g m0 Hg. change (file_manifests d') with (alter (set_status "Available") f (file_manifests d)).
    destruct (decide (f = g)) as [<-|]; [rewrite lookup_alter_eq, Hg | rewrite lookup_alter_ne by done];
      eauto. }
  clearbody d'. split.
  - intros g i st. rewrite Hf. intros Hr. destruct (H1 g i st Hr) as (m & Hg & Hi).
    destruct (Hm0 g m Hg) as (m' & Hg' & Ht). exists m'. by rewrite Ht.
  - intros g i. rewrite Hf, Hk. eauto.
  - intros g m i Hg Hav Hi. rewrite Hf. destruct (Hm g m Hg) as (m0 & Hg0 & Ht & _ & [->|Hs]).
    + eapply Hc; [done|]. by rewrite <-Ht.
    + eapply H3; [done | congruence | by rewrite <-Ht].
  - intros g m Hg. destruct (Hm g m Hg) as (m0 & Hg0 & -> & -> & _). eauto.
Qed.

Lemma put_chunk_inv f i b : steps (preserves files_inv) (FileRepo.put_chunk f i b).
Proof.
  intros d [H1 H2 H3 H4]. unfold FileRepo.put_chunk. rewrite upsert_row_run. cbn [fst].
  set (d' := with_chunks _ d).
  assert (file_chunks d' = file_chunks d ∧ file_manifests d' = file_manifests d) as [Hf Hm] by done.
  assert (∀ k, is_Some (chunks d !! k) → is_Some (chunks d' !! k)) as Hk.
  { intros k Hk. match goal with d' := with_chunks (insert ?j ?r) d |- _ =>
      change (chunks d') with (<[j := r]> (chunks d)) end.
    destruct (decide (k = (f, i))) as [->|]; [rewrite lookup_insert_eq; by eexists|].
    by rewrite lookup_insert_ne. }
  clearbody d'. split; intros *; rewrite ?Hf, ?Hm; eauto.
Qed.

Lemma set_chunk_inv f i u d :
  is_Some (chunks d !! (f, i)) → files_inv d → files_inv (FileRepo.set_chunk_uploaded f i u d).1.
Proof.
  intros Hst [H1 H2 H3 H4]. unfold FileRepo.set_chunk_uploaded. run_calls.
  destruct (FileRepo.owned_manifest f u d); [|by run_calls]. run_calls. rewrite update_key_run.
  run_calls. cbn [fst]. set (d' := with_file_chunks _ d).
  assert (chunks d' = chunks d ∧ file_manifests d' = file_manifests d) as [Hk Hm] by done.
  assert (∀ k st, file_chunks d' !! k = Some st →
            ∃ st0, file_chunks d !! k = Some st0 ∧ (k = (f, i) ∧ st = "uploaded" ∨ st = st0)) as Hf.
  { intros k st. change (file_chunks d') with (alter (λ _, "uploaded"%string) (f, i) (file_chunks d)).
    rewrite lookup_alter_Some. intros [(<- & st0 & Hs & ->)|[_ Hs]]; eauto 10. }
  assert (∀ k, file_chunks d !! k = Some "uploaded" → file_chunks d' !! k = Some "uploaded") as Hup.
  { intros k Hk0. change (file_chunks d') with (alter (λ _, "uploaded"%string) (f, i) (file_chunks d)).
    destruct (decide ((f, i) = k)) as [<-|]; [by rewrite lookup_alter_eq, Hk0 | by rewrite lookup_alter_ne]. }
  clearbody d'. split.
  - intros g j st (st0 & Hs & _)%Hf. rewrite Hm. eauto.
  - intros g j (st0 & Hs & Hcase)%Hf. rewrite Hk. destruct Hcase as [([= -> ->] & _) | <-]; eauto.
  - intros g m j. rewrite Hm. eauto.
  - intros g m. rewrite Hm. eauto.
Qed.

Lemma check_caps_ok req b :
  FileApi.check_caps req = Ok b →
  1 ≤ Z.of_N (FileApi.in_total_chunks req) ≤ FileApi.MAX_CHUNKS ∧
  0 ≤ Z.of_N (FileApi.in_total_size req) ≤ FileApi.MAX_FILE_SIZE ∧
  as_i64 (Z.of_N (FileApi.in_total_size req)) = Z.of_N (FileApi.in_total_size req).
Proof.
  unfold FileApi.check_caps. repeat case_bool_decide; simpl; try done. intros _.
  split_and!; try lia. apply as_i64_of_u64; unfold is_u64, FileApi.MAX_FILE_SIZE, u64_max, i64_max in *; lia.
Qed.

(** The declared bytes of an account. *)
Definition declared (u : string) (d : Db) : Z :=
  foldr Z.add 0 (fm_total_size <$> filter (λ m, fm_owner_user_id m = u) (rows (file_manifests d))).

Lemma initiate_run ρ f auth req d :
  (∃ e, FileApi.upload_initiate ρ f auth req d = (d, Err e)) ∨
  ∃ u, session_valid d (now_ms ρ) auth u ∧
    let ts := Z.of_N (FileApi.in_total_size req) in
    let tc := Z.of_N (FileApi.in_total_chunks req) in
    1 ≤ tc ≤ FileApi.MAX_CHUNKS ∧ 0 ≤ ts ≤ FileApi.MAX_FILE_SIZE ∧
    i64_saturating_add (declared u d) ts ≤ as_i64 (FileApi.quota ρ) ∧
    i64_min ≤ declared u d ≤ i64_max ∧
    (FileApi.upload_initiate ρ f auth req d).1 =
      (FileRepo.upsert_file_manifest f u ts (Z.of_N (FileApi.in_chunk_size req)) tc
         (as_i64 (Z.of_N (FileApi.in_enc_key_gen req))) (FileApi.in_content_type req)
         (FileApi.in_last_modified req) (now_ms ρ) d).1.
Proof.
  unfold FileApi.upload_initiate.
  match goal with |- context [(auth_user ρ auth ≫= ?g) d] =>
    destruct (auth_user_bind ρ auth g d) as [(u & Hv & ->) | (e & _ & ->)] end; [|left; by eexists].
  run_calls. destruct (FileApi.check_caps req) eqn:Hc; [|left; by eexists].
  apply check_caps_ok in Hc as (Htc & Hts & ->).
  unfold FileRepo.sum_file_bytes_owned_by, FileRepo.get_file_manifest, require. run_calls.
  fold (declared u d). case_bool_decide as Hb; simpl; run_calls; [|left; by eexists].
  case_bool_decide as Hq; run_calls; [left; by eexists|].
  case_bool_decide as Ha; run_calls; [left; by eexists|].
  right. exists u. split; [done|]. split; [done|]. split; [done|]. split; [lia|]. split; [done|].
  by destruct (FileRepo.upsert_file_manifest _ _ _ _ _ _ _ _ _ d) as [d' [?|?]].
Qed.

Lemma initiate_inv ρ f auth req :
  steps (preserves files_inv) (FileApi.upload_initiate ρ f auth req).
Proof.
  intros d Hd. destruct (initiate_run ρ f auth req d)
    as [(e & ->) | (u & _ & Htc & Hts & _ & _ & ->)]; [done|].
  by apply upsert_inv.
Qed.

Lemma owned_manifest_some f u d m :
  FileRepo.owned_manifest f u d = Some m ↔
  file_manifests d !! f = Some m ∧ fm_owner_user_id m = u.
Proof.
  unfold FileRepo.owned_manifest. destruct (file_manifests d !! f) as [m'|]; simpl; [|naive_solver].
  case_decide; naive_solver.
Qed.

(** A handler that answers a request about a file of the caller. *)
Lemma own_file_bind {A} ρ auth f (k : string → FileManifestRow → handler A) d :
  let h := (u ← auth_user ρ auth;
            o ← call (FileRepo.get_file_manifest f u);
            m ← ok_or FileApi.not_found o; k u m) in
  (∃ u m, session_valid d (now_ms ρ) auth u ∧ file_manifests d !! f = Some m ∧
          fm_owner_user_id m = u ∧ h d = k u m d) ∨
  (∃ e, h d = (d, Err e) ∧
        ∀ u, session_valid d (now_ms ρ) auth u → e = FileApi.not_found ∧
             ∀ m, file_manifests d !! f = Some m → fm_owner_user_id m ≠ u).
Proof.
  intros h. unfold h.
  match goal with |- context [(auth_user ρ auth ≫= ?g) d] =>
    destruct (auth_user_bind ρ auth g d) as [(u & Hv & ->) | (e & He & ->)] end.
  2: { right. exists e. split; [done|]. intros u Hv. apply auth_user_spec in Hv. congruence. }
  unfold FileRepo.get_file_manifest. run_calls.
  destruct (FileRepo.owned_manifest f u d) as [m|] eqn:Hm; run_calls.
  - apply owned_manifest_some in Hm as [Hm Ho]. left. exists u, m. done.
  - right. eexists. split; [done|]. intros u' Hv'. rewrite (session_valid_fun _ _ _ _ _ Hv' Hv).
    split; [done|]. intros m Hm' Ho. assert (FileRepo.owned_manifest f u d = Some m) as Hs
      by by apply owned_manifest_some. congruence.
Qed.

Lemma complete_run ρ f auth d :
  (FileApi.upload_complete ρ f auth d).1 = d ∨
  ∃ u m, session_valid d (now_ms ρ) auth u ∧ file_manifests d !! f = Some m ∧
    fm_owner_user_id m = u ∧
    Z.of_nat (length (filter (λ c, c.2 = "uploaded") (FileRepo.chunk_rows f d))) = fm_total_chunks m ∧
    FileApi.upload_complete ρ f auth d =
      (with_file_manifests (alter (set_status "Available") f) d, Ok (f, "Available"%string)).
Proof.
  unfold FileApi.upload_complete.
  match goal with |- context [(auth_user ρ auth ≫= _) d] => 
    pose proof (own_file_bind ρ auth f (λ user_id manifest,
      if decide (fm_status manifest = "Available") then mret (f, "Available"%string)
      else
        uploaded ← call (FileRepo.count_chunks_uploaded f user_id);
        guard_err (bool_decide (uploaded ≠ fm_total_chunks manifest))
          (Api.bad_request "chunks_incomplete");;
        flipped ← call (FileRepo.set_file_status f user_id "PendingUpload" "Available");
        if (flipped : bool) then mret (f, "Available"%string)
        else
          current ← call (FileRepo.get_file_manifest f user_id);
          if bool_decide (fm_status <$> current = Some "Available") then mret (f, "Available"%string)
          else throw Api.internal) d) as [(u & m & Hv & Hm & Ho & ->) | (e & -> & _)] end;
    [|by left].
  destruct (decide (fm_status m = "Available")); [by left|].
  assert (FileRepo.owned_manifest f u d = Some m) as Hown by by apply owned_manifest_some.
  unfold FileRepo.count_chunks_uploaded, FileRepo.joined_rows. run_calls. rewrite Hown.
  case_bool_decide as Hc; run_calls; [by left|].
  unfold FileRepo.set_file_status. run_calls. rewrite Hown.
  destruct (decide (fm_status m = "PendingUpload")); run_calls.
  - right. exists u, m. rewrite update_key_run. run_calls. rewrite decide_True by by eexists.
    rewrite bool_decide_true by done. by run_calls.
  - left. unfold FileRepo.get_file_manifest. run_calls. by case_bool_decide.
Qed.

Lemma complete_inv ρ f auth : steps (preserves files_inv) (FileApi.upload_complete ρ f auth).
Proof.
  intros d Hd. destruct (complete_run ρ f auth d) as [-> | (u & m & _ & Hm & _ & Hn & ->)]; [done|].
  apply set_status_inv; [done|]. intros m' i Hm' Hi. replace m' with m in Hi by congruence.
  apply (all_uploaded f d (fm_total_chunks m)); [|done..].
  intros j st Hj. destruct (fi_rows d Hd f j st Hj) as (m0 & Hm0 & Hj0).
  by replace m0 with m in Hj0 by congruence.
Qed.

Lemma upload_run ρ f i auth b d :
  (∃ e, FileApi.upload_chunk ρ f i auth b d = (d, Err e)) ∨
  ∃ u m bytes, session_valid d (now_ms ρ) auth u ∧ file_manifests d !! f = Some m ∧
    fm_owner_user_id m = u ∧ i < as_u32 (fm_total_chunks m) ∧ b64_decode b = Some bytes ∧
    FileApi.upload_chunk ρ f i auth b d =
      map_err (λ _, Api.internal) (FileRepo.set_chunk_uploaded f i u)
        (with_chunks (insert (f, i) bytes) d).
Proof.
  unfold FileApi.upload_chunk.
  pose proof (own_file_bind ρ auth f (λ user_id manifest,
      guard_err (bool_decide (as_u32 (fm_total_chunks manifest) ≤ i))
        (Api.bad_request "invalid_chunk_index");;
      b ← decode_b64 b;
      call (FileRepo.put_chunk f i b);;
      call (FileRepo.set_chunk_uploaded f i user_id)) d)
    as [(u & m & Hv & Hm & Ho & ->) | (e & -> & _)]; [|left; by eexists].
  run_calls. case_bool_decide as Hi; run_calls; [left; by eexists|].
  unfold decode_b64. run_calls. destruct (b64_decode b) as [bytes|]; [|left; by eexists].
  run_calls. unfold FileRepo.put_chunk. rewrite upsert_row_run. run_calls.
  right. exists u, m, bytes. split_and!; try done; [lia|].
  by destruct (chunks d !! (f, i)).
Qed.

Lemma upload_inv ρ f i auth b : 0 ≤ i → steps (preserves files_inv) (FileApi.upload_chunk ρ f i auth b).
Proof.
  intros Hi d Hd. destruct (upload_run ρ f i auth b d)
    as [(e & ->) | (u & m & bytes & _ & _ & _ & _ & _ & ->)]; [done|].
  rewrite map_err_run.
  enough (files_inv (FileRepo.set_chunk_uploaded f i u (with_chunks (insert (f, i) bytes) d)).1) as Hs
    by by destruct (FileRepo.set_chunk_uploaded f i u _).
  apply set_chunk_inv.
  - change (is_Some (<[(f, i) := bytes]> (chunks d) !! (f, i))). rewrite lookup_insert_eq. by eexists.
  - pose proof (put_chunk_inv f i bytes d Hd) as Hp. unfold FileRepo.put_chunk in Hp.
    rewrite upsert_row_run in Hp. cbn [fst] in Hp. by destruct (chunks d !! (f, i)).
Qed.

(** Every request but three reads. *)
Lemma file_reads R `{!PreOrder R} ρ q :
  match q with
  | UploadInitiate _ _ _ | UploadComplete _ _ | UploadChunk _ _ _ _ => True
  | _ => steps R (serve_file ρ q)
  end.
Proof. destruct q; try exact I; steps_crawl ltac:(fail). Qed.

Lemma serve_unit {A} (m : handler A) d : ((m;; mret ()) d).1 = (m d).1.
Proof. rewrite bind_run. by destruct (m d) as [? [?|?]]. Qed.

Lemma serve_file_inv ρ q : steps (preserves files_inv) (serve_file ρ q).
Proof.
  pose proof (file_reads (preserves files_inv) ρ q) as Hr. destruct q; try exact Hr; intros d; simpl.
  - rewrite serve_unit. apply initiate_inv.
  - rewrite serve_unit. apply complete_inv.
  - apply upload_inv. lia.
Qed.

(** *** Declared bytes *)

Lemma sum_perm l k : l ≡ₚ k → foldr Z.add 0 l = foldr Z.add 0 k.
Proof. induction 1; simpl; lia. Qed.

Definition total (u : string) (t : gmap string FileManifestRow) : Z :=
  foldr Z.add 0 (fm_total_size <$> filter (λ m, fm_owner_user_id m = u) (rows t)).

Definition part (u : string) (m : FileManifestRow) : Z :=
  if decide (fm_owner_user_id m = u) then fm_total_size m else 0.

Lemma total_cons u k m t l :
  map_to_list t ≡ₚ (k, m) :: l →
  total u t = part u m + foldr Z.add 0 (fm_total_size <$> filter (λ m, fm_owner_user_id m = u) l.*2).
Proof.
  intros Hp. unfold total, rows. erewrite sum_perm.
  2: { apply fmap_Permutation, filter_Permutation, fmap_Permutation, Hp. }
  simpl. rewrite filter_cons. unfold part. by case_decide.
Qed.

Lemma total_insert u k m t :
  total u (<[k := m]> t) =
  part u m - (match t !! k with Some old => part u old | None => 0 end) + total u t.
Proof.
  destruct (t !! k) as [old|] eqn:Hk.
  - rewrite <-insert_delete_eq.
    rewrite (total_cons u k m _ (map_to_list (delete k t))) by
      (apply map_to_list_insert, lookup_delete_eq).
    rewrite (total_cons u k old t (map_to_list (delete k t))) by (by rewrite map_to_list_delete). lia.
  - rewrite (total_cons u k m _ (map_to_list t)) by by apply map_to_list_insert.
    unfold total, rows. lia.
Qed.

(** The files of every account fit [Q] bytes. *)
Definition within (Q : Z) (d : Db) : Prop := files_inv d ∧ ∀ u, declared u d ≤ Q.

Lemma within_same Q d d' : same files_of d d' → preserves (within Q) d d'.
Proof.
  intros Hs [Hi Hq]. split; [by eapply files_inv_same|]. injection Hs as Hm _ _.
  intros u. unfold declared. rewrite Hm. apply Hq.
Qed.

Lemma initiate_within Q ρ f auth req :
  as_i64 (FileApi.quota ρ) ≤ Q → Q < i64_max →
  steps (preserves (within Q)) (FileApi.upload_initiate ρ f auth req).
Proof.
  intros HQ Hmax d [Hi Hq]. split; [by apply initiate_inv|].
  destruct (initiate_run ρ f auth req d)
    as [(e & ->) | (u & Hv & Htc & Hts & Hsat & Hr & ->)]; [done|]. intros v.
  match goal with |- context [FileRepo.upsert_file_manifest f u ?a ?b ?c ?e ?g ?h ?k d] =>
    destruct (upsert_tables f u a b c e g h k d) as [_ [Hm | (m & Hm & Ho & Hsz & _ & Hown)]] end;
    unfold declared; rewrite Hm; [apply Hq|].
  fold (total v (<[f := m]> (file_manifests d))). rewrite total_insert.
  change (total v (file_manifests d)) with (declared v d).
  assert (0 ≤ match file_manifests d !! f with Some old => part v old | None => 0 end) as Hold.
  { destruct (file_manifests d !! f) as [old|] eqn:Hf; [|lia]. unfold part.
    case_decide; [|lia]. apply (fi_caps d Hi f old Hf). }
  unfold part at 1. rewrite Ho, Hsz. case_decide as Hu; [|specialize (Hq v); lia]. subst v.
  unfold i64_saturating_add in Hsat. lia.
Qed.

Lemma set_status_declared u f d :
  declared u (with_file_manifests (alter (set_status "Available") f) d) = declared u d.
Proof.
  destruct (file_manifests d !! f) as [m|] eqn:Hf.
  - unfold declared. change (file_manifests (with_file_manifests ?g d)) with (g (file_manifests d)).
    rewrite (alter_known _ _ _ m) by done. fold (total u (<[f := set_status "Available" m]> (file_manifests d))).
    rewrite total_insert, Hf. unfold part. simpl. fold (total u (file_manifests d)). lia.
  - unfold declared. change (file_manifests (with_file_manifests ?g d)) with (g (file_manifests d)).
    by rewrite alter_id by (intros ? Hx; congruence).
Qed.

Lemma serve_file_within Q ρ q :
  as_i64 (FileApi.quota ρ) ≤ Q → Q < i64_max → steps (preserves (within Q)) (serve_file ρ q).
Proof.
  intros HQ Hmax.
  pose proof (file_reads (preserves (within Q)) ρ q) as Hr. destruct q; try exact Hr; intros d; simpl.
  - rewrite serve_unit. by apply initiate_within.
  - rewrite serve_unit. intros [Hi Hq]. split; [by apply complete_inv|]. intros v.
    destruct (complete_run ρ file auth d) as [-> | (u & m & _ & _ & _ & _ & ->)]; [apply Hq|].
    cbn [fst]. rewrite set_status_declared. apply Hq.
  - intros [Hi Hq]. split; [apply upload_inv; [lia | done]|]. intros v.
    assert (same file_manifests d (FileApi.upload_chunk ρ file (Z.of_N idx) auth bytes d).1) as Hm
      by (enough (steps (same file_manifests) (FileApi.upload_chunk ρ file (Z.of_N idx) auth bytes))
            as Hs by apply Hs; steps_crawl ltac:(reflexivity)).
    unfold declared. rewrite Hm. apply Hq.
Qed.

(** *** Whose chunks *)

(** Manifests stay, with their owners. *)
Definition owners_kept (d d' : Db) : Prop :=
  ∀ f m, file_manifests d !! f = Some m →
  ∃ m', file_manifests d' !! f = Some m' ∧ fm_owner_user_id m' = fm_owner_user_id m.

#[export] Instance owners_kept_preorder : PreOrder owners_kept.
Proof.
  split; [intros d f m Hm; eauto|]. intros d1 d2 d3 H1 H2 f m Hm.
  destruct (H1 _ _ Hm) as (m2 & Hm2 & <-). by apply H2.
Qed.

Lemma owners_kept_same d d' : file_manifests d' = file_manifests d → owners_kept d d'.
Proof. intros Hm f m. rewrite Hm. eauto. Qed.

Lemma serve_file_owners ρ q : steps owners_kept (serve_file ρ q).
Proof.
  pose proof (file_reads owners_kept ρ q) as Hr. destruct q; try exact Hr; intros d; simpl.
  - rewrite serve_unit. destruct (initiate_run ρ file auth req d)
      as [(e & ->) | (u & _ & _ & _ & _ & _ & ->)]; [done|].
    match goal with |- context [FileRepo.upsert_file_manifest file u ?a ?b ?c ?e ?g ?h ?k d] =>
      destruct (upsert_tables file u a b c e g h k d) as [_ [Hm | (m & Hm & Ho & _ & _ & Hown)]] end.
    + by apply owners_kept_same.
    + intros g m0. rewrite Hm. intros Hg. destruct (decide (file = g)) as [<-|].
      * exists m. rewrite lookup_insert_eq. split; [done|]. by rewrite Ho, (Hown _ Hg).
      * exists m0. by rewrite lookup_insert_ne.
  - rewrite serve_unit. destruct (complete_run ρ file auth d)
      as [-> | (u & m & _ & _ & _ & _ & ->)]; [done|]. intros g m0 Hg.
    change (file_manifests _) with (alter (set_status "Available") file (file_manifests d)).
    destruct (decide (file = g)) as [<-|]; [rewrite lookup_alter_eq, Hg | rewrite lookup_alter_ne by done];
      simpl; eauto.
  - apply owners_kept_same.
    enough (steps (same file_manifests) (FileApi.upload_chunk ρ file (Z.of_N idx) auth bytes))
      as Hs by apply Hs. steps_crawl ltac:(reflexivity).
Qed.

(** A stored chunk changes only when its owner uploads it. *)
Lemma chunk_step ρ q f n d :
  chunks (serve_file ρ q d).1 !! (f, Z.of_N n) = chunks d !! (f, Z.of_N n) ∨
  ∃ auth b m, q = UploadChunk f n auth b ∧ file_manifests d !! f = Some m ∧
    session_valid d (now_ms ρ) auth (fm_owner_user_id m).
Proof.
  pose proof (file_reads (same chunks) ρ q) as Hr.
  destruct q; try (left; by rewrite (Hr d)); simpl; rewrite ?serve_unit.
  - left. destruct (initiate_run ρ file auth req d)
      as [(e & ->) | (u & _ & _ & _ & _ & _ & ->)]; [done|].
    match goal with |- context [FileRepo.upsert_file_manifest file u ?a ?b ?c ?e ?g ?h ?k d] =>
      by destruct (upsert_tables file u a b c e g h k d) as [-> _] end.
  - left. by destruct (complete_run ρ file auth d) as [-> | (u & m & _ & _ & _ & _ & ->)].
  - destruct (upload_run ρ file (Z.of_N idx) auth bytes d)
      as [(e & ->) | (u & m & b & Hv & Hm & <- & _ & _ & ->)]; [by left|].
    match goal with |- context [map_err ?h ?k ?d1] =>
      assert (same chunks d1 (map_err h k d1).1) as Hs
        by (enough (steps (same chunks) (map_err h k)) as Hs by apply Hs;
            steps_crawl ltac:(reflexivity)) end.
    rewrite Hs. change (chunks (with_chunks ?g d)) with (g (chunks d)).
    destruct (decide ((file, Z.of_N idx) = (f, Z.of_N n))) as [[= -> ->%N2Z.inj]|Hne].
    + right. eauto 10.
    + left. by rewrite lookup_insert_ne.
Qed.

Lemma upload_chunk_ok ρ f i auth b d d1 r :
  FileApi.upload_chunk ρ f i auth b d = (d1, Ok r) →
  ∃ m bytes, session_valid d (now_ms ρ) auth (fm_owner_user_id m) ∧
    file_manifests d !! f = Some m ∧ file_manifests d1 = file_manifests d ∧
    b64_decode b = Some bytes ∧ chunks d1 !! (f, i) = Some bytes.
Proof.
  destruct (upload_run ρ f i auth b d)
    as [(e & ->) | (u & m & bytes & Hv & Hm & <- & _ & Hb & ->)]; [done|]. intros Hr.
  exists m, bytes. split; [done|]. split; [done|].
  match type of Hr with map_err ?h ?k ?d0 = _ =>
    assert (same (λ d, (chunks d, file_manifests d)) d0 (map_err h k d0).1) as Hs
      by (enough (steps (same (λ d, (chunks d, file_manifests d))) (map_err h k)) as Hs by apply Hs;
          steps_crawl ltac:(reflexivity)) end.
  rewrite Hr in Hs. injection Hs as -> ->. split_and!; try done.
  change (<[(f, i) := bytes]> (chunks d) !! (f, i) = Some bytes). apply lookup_insert_eq.
Qed.

(** What a download answers: the stored chunk of one's own available file. *)
Lemma download_chunk_run ρ f i auth u d m :
  session_valid d (now_ms ρ) auth u → file_manifests d !! f = Some m →
  FileApi.download_chunk ρ f i auth d =
    (d, if decide (fm_owner_user_id m = u) then
          if decide (fm_status m = "Available") then
            match chunks d !! (f, i) with Some b => Ok b | None => Err FileApi.chunk_not_found end
          else Err FileApi.not_available
        else Err FileApi.not_found).
Proof.
  intros Hv Hm. unfold FileApi.download_chunk, FileRepo.get_file_manifest, FileRepo.owned_manifest.
  rewrite (auth_user_ok_bind ρ auth u) by done. run_calls. rewrite Hm. simpl.
  destruct (decide (fm_owner_user_id m = u)); run_calls; [|done].
  destruct (decide (fm_status m = "Available")).
  - rewrite bool_decide_false by naive_solver. run_calls. unfold FileRepo.get_chunk. run_calls.
    by destruct (chunks d !! (f, i)).
  - by rewrite bool_decide_true by done.
Qed.
End FileSteps.
