(* ===== verification/Sharing.v ===== *)
(** * Item and group sharing

    Models [repository/sharing.rs] (Module [ShareRepo]) and
    [handlers/sharing.rs] (Module [ShareApi]): the directory of public keys,
    one-to-one shares with their relayed payloads, groups with their wrapped
    keys and items.  The statements on [shares] run with foreign keys switched
    off, as the code does to get past the mismatch of Schema.v.  Shows where a
    share can come from and who ends it, and what a removed member no longer
    reads. *)
From S2P Require Import Prelude Domain Database Concrete Users.

(** ** repository/sharing.rs *)
Module ShareRepo.
Definition get_sharing_public_key (user_id : string) : sql (option blob) :=
  gets (λ d, sk_public_key <$> user_sharing_keys d !! user_id).

Definition upsert_sharing_public_key (user_id : string) (public_key : blob) (now : Z) : sql unit :=
  upsert_row user_sharing_keys with_user_sharing_keys (has_user user_id) user_id
    (mkSharingKey public_key now) (λ _, mkSharingKey public_key now).

(** The columns [ON CONFLICT .. DO UPDATE] replaces: not the owner. *)
Definition rewrap (wrapped_sik ephemeral_public_key : blob) (r : ShareRow) : ShareRow :=
  mkShare (sh_item_uuid r) (sh_owner_user_id r) (sh_recipient_user_id r) wrapped_sik
    ephemeral_public_key (sh_created_at r).

Definition create_share (item_uuid owner_user_id recipient_user_id : string)
    (wrapped_sik ephemeral_public_key : blob) (now : Z) : sql unit :=
  upsert_row shares with_shares (λ _, true) (item_uuid, recipient_user_id)
    (mkShare item_uuid owner_user_id recipient_user_id wrapped_sik ephemeral_public_key now)
    (rewrap wrapped_sik ephemeral_public_key).

Definition get_inbox (recipient_user_id : string) : sql (list ShareRow) :=
  gets (λ d, filter (λ s, sh_recipient_user_id s = recipient_user_id) (rows (shares d))).

Definition shared_by (item_uuid owner_user_id : string) (d : Db) : list ShareRow :=
  filter (λ s, sh_item_uuid s = item_uuid ∧ sh_owner_user_id s = owner_user_id) (rows (shares d)).

Definition is_share_owner (item_uuid owner_user_id : string) : sql bool :=
  gets (λ d, bool_decide (shared_by item_uuid owner_user_id d ≠ [])).

(** The accounts that hold an item under this uuid. *)
Definition holders (uuid : string) (d : Db) : list string :=
  i_user_id <$> filter (λ i, i_uuid i = uuid) (rows (items d)).

Definition item_owner (uuid : string) : sql (option string) :=
  from_secret ← gets (λ d, se_created_by <$> secrets d !! uuid);
  match from_secret with
  | Some owner => mret (Some owner)
  | None =>
      from_project ← gets (λ d, project_items d !! uuid);
      match from_project with
      | Some owner => mret (Some owner)
      | None =>
          rows ← gets (holders uuid);
          match rows with
          | [single] => mret (Some single)
          | _ => mret None
          end
      end
  end.

Definition delete_share (item_uuid owner_user_id recipient_user_id : string) : sql bool :=
  n ← delete_where shares with_shares (λ kr,
        bool_decide (sh_item_uuid kr.2 = item_uuid) &&
        bool_decide (sh_owner_user_id kr.2 = owner_user_id) &&
        bool_decide (sh_recipient_user_id kr.2 = recipient_user_id));
  mret (bool_decide (0 < n)%Z).

Definition delete_shares_by_owner_item (item_uuid owner_user_id : string) : sql Z :=
  delete_where shares with_shares (λ kr,
    bool_decide (sh_item_uuid kr.2 = item_uuid) && bool_decide (sh_owner_user_id kr.2 = owner_user_id)).

Definition store_share_payload (share_id : string) (payload : blob) (now : Z) : sql unit :=
  upsert_row share_payloads with_share_payloads (λ _, true) share_id (payload, now)
    (λ _, (payload, now)).

Definition get_share_payload (share_id : string) : sql (option blob) :=
  gets (λ d, fst <$> share_payloads d !! share_id).

Definition delete_share_payload (share_id : string) : sql unit :=
  delete_where share_payloads with_share_payloads (λ kr, bool_decide (kr.1 = share_id));; mret ().

Definition create_group (group_id name admin_user_id : string) (now : Z) : sql unit :=
  insert_row sharing_groups with_sharing_groups (has_user admin_user_id) group_id
    (mkSharingGroup group_id name admin_user_id now).

Definition get_group (group_id : string) : sql (option SharingGroupRow) :=
  gets (λ d, sharing_groups d !! group_id).

Definition list_groups_for_member (user_id : string) : sql (list SharingGroupRow) :=
  gets (λ d, filter (λ g, is_Some (group_members d !! (sg_id g, user_id)))
               (rows (sharing_groups d))).

Definition has_group (group_id : string) (d : Db) : bool :=
  bool_decide (is_Some (sharing_groups d !! group_id)).

(** [ON CONFLICT .. DO NOTHING]. *)
Definition add_group_member (group_id user_id : string) (now : Z) : sql unit :=
  upsert_row group_members with_group_members (λ d, has_group group_id d && has_user user_id d)
    (group_id, user_id) now id.

Definition remove_group_member (group_id user_id : string) : sql unit :=
  delete_where group_members with_group_members (λ kr, bool_decide (kr.1 = (group_id, user_id)));;
  mret ().

Definition is_group_member (group_id user_id : string) : sql bool :=
  gets (λ d, bool_decide (is_Some (group_members d !! (group_id, user_id)))).

Definition list_group_members (group_id : string) : sql (list string) :=
  gets (λ d, snd <$> filter (λ k, k.1 = group_id) (map_to_list (group_members d)).*1).

Definition wrap_fk (group_id recipient : string) (d : Db) : bool :=
  has_group group_id d && has_user recipient d.

Definition store_group_wrapped_sik (group_id recipient : string)
    (wrapped_sik ephemeral_public_key : blob) : sql unit :=
  let row := mkWrapped group_id recipient wrapped_sik ephemeral_public_key in
  upsert_row group_wrapped_sik with_group_wrapped_sik (wrap_fk group_id recipient)
    (group_id, recipient) row (λ _, row).

Definition get_group_wrapped_sik (group_id recipient : string) : sql (option GroupWrappedRow) :=
  gets (λ d, group_wrapped_sik d !! (group_id, recipient)).

Definition delete_group_wrapped_sik (group_id recipient : string) : sql unit :=
  delete_where group_wrapped_sik with_group_wrapped_sik
    (λ kr, bool_decide (kr.1 = (group_id, recipient)));; mret ().

(** In a transaction; the inserts have no conflict clause. *)
Definition replace_group_wrapped_siks (group_id : string) (wrapped : list (string * blob * blob))
    : sql unit :=
  transaction (
    delete_where group_wrapped_sik with_group_wrapped_sik (λ kr, bool_decide (kr.1.1 = group_id));;
    mapM (λ w : string * blob * blob,
      insert_row group_wrapped_sik with_group_wrapped_sik (wrap_fk group_id w.1.1)
        (group_id, w.1.1) (mkWrapped group_id w.1.1 w.1.2 w.2)) wrapped;;
    mret ()).

Definition add_group_item (group_id item_uuid : string) (payload : blob) (now : Z) : sql unit :=
  upsert_row group_items with_group_items (has_group group_id) (group_id, item_uuid)
    (payload, now) (λ old, (payload, old.2)).

Definition list_group_items (group_id : string) : sql (list (string * blob)) :=
  gets (λ d, (λ kr : (string * string) * (blob * Z), (kr.1.2, kr.2.1)) <$>
               filter (λ kr, kr.1.1 = group_id) (map_to_list (group_items d))).

Definition delete_group_item (group_id item_uuid : string) : sql unit :=
  delete_where group_items with_group_items (λ kr, bool_decide (kr.1 = (group_id, item_uuid)));;
  mret ().
End ShareRepo.

(** ** handlers/sharing.rs *)
Module ShareApi.
Record CreateShareReq := mkCreateShare {
  cs_item_uuid : string; cs_recipient_uuid : string; cs_wrapped_sik : string;
  cs_ephemeral_public_key : string }.
Record ShareInfoResp := mkShareInfo {
  si_share_id : string; si_sender_uuid : string; si_recipient_uuid : string; si_item_uuid : string }.
Record GroupResp := mkGroupInfo { gr_group_id : string; gr_name : string; gr_admin_uuid : string }.
Record AddMemberReq := mkAddMember {
  am_member_uuid : string; am_wrapped_sik : string; am_ephemeral_public_key : string }.
Record WrappedKeyJson := mkWrappedKey {
  wk_recipient_user_id : string; wk_wrapped_sik : string; wk_ephemeral_public_key : string }.
Record InboxItem := mkInbox {
  ib_share_id : string; ib_sender_uuid : string; ib_item_uuid : string; ib_wrapped_sik : string;
  ib_ephemeral_public_key : string; ib_encrypted_payload : option string }.
Record GroupInboxItem := mkGroupInbox {
  gi_group_id : string; gi_name : string; gi_admin_uuid : string; gi_wrapped_sik : option string;
  gi_ephemeral_public_key : option string }.

Definition not_found : ApiError := mkApiError 404 "not_found".
Definition denied : ApiError := mkApiError 403 "forbidden".
Definition not_item_owner : ApiError := mkApiError 403 "not_item_owner".

(** [require_admin]. *)
Definition require_admin (group_id caller : string) : handler unit :=
  o ← call (ShareRepo.get_group group_id);
  group ← ok_or not_found o;
  guard_err (bool_decide (sg_admin_user_id group ≠ caller)) denied.

Section Handlers.
Context `{Ext}.

Definition public_key (ρ : Env) (user_id auth : string) : handler (string * string) :=
  auth_user ρ auth;;
  o ← call (ShareRepo.get_sharing_public_key user_id);
  pk ← ok_or not_found o;
  mret (user_id, b64_encode pk).

Definition put_public_key (ρ : Env) (user_id auth pk64 : string) : handler (string * string) :=
  caller ← auth_user ρ auth;
  accepted ← (if bool_decide (caller = user_id) then mret true
              else
                o ← call (get_user_by_id caller);
                mret (match o with Some user => bool_decide (u_email user = user_id) | None => false end));
  guard_err (negb accepted) denied;;
  pk ← decode_b64 pk64;
  guard_err (bool_decide (length pk ≠ 32)) (Api.bad_request "bad_request");;
  call (ShareRepo.upsert_sharing_public_key caller pk (now_ms ρ));;
  mret (caller, b64_encode pk).

Definition create_share (ρ : Env) (auth : string) (req : CreateShareReq) : handler ShareInfoResp :=
  sender ← auth_user ρ auth;
  owner ← call (ShareRepo.item_owner (cs_item_uuid req));
  guard_err (negb (bool_decide (owner = Some sender))) not_item_owner;;
  wrapped_sik ← decode_b64 (cs_wrapped_sik req);
  ephemeral_pk ← decode_b64 (cs_ephemeral_public_key req);
  call (ShareRepo.create_share (cs_item_uuid req) sender (cs_recipient_uuid req) wrapped_sik
          ephemeral_pk (now_ms ρ));;
  mret (mkShareInfo (cs_item_uuid req) sender (cs_recipient_uuid req) (cs_item_uuid req)).

Definition upload_payload (ρ : Env) (sid : Uuid) (auth payload64 : string) : handler unit :=
  owner ← auth_user ρ auth;
  owned ← call (ShareRepo.is_share_owner sid owner);
  guard_err (negb owned) not_found;;
  payload ← decode_b64 payload64;
  call (ShareRepo.store_share_payload sid payload (now_ms ρ)).

Definition inbox_item (s : ShareRow) : handler InboxItem :=
  payload ← call (ShareRepo.get_share_payload (sh_item_uuid s));
  mret (mkInbox (sh_item_uuid s) (sh_owner_user_id s) (sh_item_uuid s) (b64_encode (sh_wrapped_sik s))
          (b64_encode (sh_ephemeral_public_key s)) (b64_encode <$> payload)).

Definition inbox (ρ : Env) (auth : string) : handler (list InboxItem) :=
  recipient ← auth_user ρ auth;
  shares ← call (ShareRepo.get_inbox recipient);
  mapM inbox_item shares.

Definition revoke_share (ρ : Env) (sid : Uuid) (auth : string) : handler unit :=
  owner ← auth_user ρ auth;
  owned ← call (ShareRepo.is_share_owner sid owner);
  guard_err (negb owned) not_found;;
  call (ShareRepo.delete_shares_by_owner_item sid owner);;
  call (ShareRepo.delete_share_payload sid).

Definition create_group (ρ : Env) (auth name : string) : handler GroupResp :=
  admin ← auth_user ρ auth;
  let gid := fresh ρ 0 in
  call (ShareRepo.create_group gid name admin (now_ms ρ));;
  call (ShareRepo.add_group_member gid admin (now_ms ρ));;
  mret (mkGroupInfo gid name admin).

Definition add_group_member (ρ : Env) (gid : Uuid) (auth : string) (req : AddMemberReq)
    : handler unit :=
  caller ← auth_user ρ auth;
  require_admin gid caller;;
  wrapped_sik ← decode_b64 (am_wrapped_sik req);
  ephemeral_pk ← decode_b64 (am_ephemeral_public_key req);
  call (ShareRepo.add_group_member gid (am_member_uuid req) (now_ms ρ));;
  call (ShareRepo.store_group_wrapped_sik gid (am_member_uuid req) wrapped_sik ephemeral_pk).

Definition remove_group_member (ρ : Env) (gid : Uuid) (muid auth : string) : handler unit :=
  caller ← auth_user ρ auth;
  require_admin gid caller;;
  call (ShareRepo.remove_group_member gid muid);;
  call (ShareRepo.delete_group_wrapped_sik gid muid).

Definition decode_key (k : WrappedKeyJson) : handler (string * blob * blob) :=
  ws ← decode_b64 (wk_wrapped_sik k);
  epk ← decode_b64 (wk_ephemeral_public_key k);
  mret (wk_recipient_user_id k, ws, epk).

Definition rotate_group (ρ : Env) (gid : Uuid) (auth : string) (wrapped_keys : list WrappedKeyJson)
    : handler unit :=
  caller ← auth_user ρ auth;
  require_admin gid caller;;
  wrapped ← mapM decode_key wrapped_keys;
  call (ShareRepo.replace_group_wrapped_siks gid wrapped).

Definition group_inbox_item (user : string) (g : SharingGroupRow) : handler GroupInboxItem :=
  wrapped ← call (ShareRepo.get_group_wrapped_sik (sg_id g) user);
  mret (mkGroupInbox (sg_id g) (sg_name g) (sg_admin_user_id g)
          (b64_encode ∘ gw_wrapped_sik <$> wrapped)
          (b64_encode ∘ gw_ephemeral_public_key <$> wrapped)).

Definition group_inbox (ρ : Env) (auth : string) : handler (list GroupInboxItem) :=
  user ← auth_user ρ auth;
  groups ← call (ShareRepo.list_groups_for_member user);
  mapM (group_inbox_item user) groups.

Definition add_group_item (ρ : Env) (gid : Uuid) (auth item_uuid payload64 : string)
    : handler (string * string * string) :=
  caller ← auth_user ρ auth;
  require_admin gid caller;;
  payload ← decode_b64 payload64;
  call (ShareRepo.add_group_item gid item_uuid payload (now_ms ρ));;
  mret (gid, item_uuid, b64_encode payload).

Definition list_group_items (ρ : Env) (gid : Uuid) (auth : string)
    : handler (list (string * string * string)) :=
  caller ← auth_user ρ auth;
  member ← call (ShareRepo.is_group_member gid caller);
  guard_err (negb member) denied;;
  rows ← call (ShareRepo.list_group_items gid);
  mret ((λ r, (gid, r.1, b64_encode r.2)) <$> rows).

Definition delete_group_item (ρ : Env) (gid : Uuid) (item_uuid auth : string) : handler unit :=
  caller ← auth_user ρ auth;
  require_admin gid caller;;
  call (ShareRepo.delete_group_item gid item_uuid).
End Handlers.
End ShareApi.

(** The routes. *)
Inductive ShareRequest :=
| PublicKey (user auth : string)
| PutPublicKey (user auth key : string)
| CreateShare (auth : string) (req : ShareApi.CreateShareReq)
| UploadPayload (share : Uuid) (auth payload : string)
| Inbox (auth : string)
| RevokeShare (share : Uuid) (auth : string)
| CreateSharingGroup (auth name : string)
| AddSharingMember (group : Uuid) (auth : string) (req : ShareApi.AddMemberReq)
| RemoveSharingMember (group : Uuid) (member auth : string)
| RotateGroup (group : Uuid) (auth : string) (keys : list ShareApi.WrappedKeyJson)
| GroupInbox (auth : string)
| AddGroupItem (group : Uuid) (auth item payload : string)
| ListGroupItems (group : Uuid) (auth : string)
| DeleteGroupItem (group : Uuid) (item auth : string).

Definition serve_share `{Ext} (ρ : Env) (q : ShareRequest) : handler unit :=
  match q with
  | PublicKey u a => ShareApi.public_key ρ u a;; mret ()
  | PutPublicKey u a k => ShareApi.put_public_key ρ u a k;; mret ()
  | CreateShare a r => ShareApi.create_share ρ a r;; mret ()
  | UploadPayload s a p => ShareApi.upload_payload ρ s a p
  | Inbox a => ShareApi.inbox ρ a;; mret ()
  | RevokeShare s a => ShareApi.revoke_share ρ s a
  | CreateSharingGroup a n => ShareApi.create_group ρ a n;; mret ()
  | AddSharingMember g a r => ShareApi.add_group_member ρ g a r
  | RemoveSharingMember g m a => ShareApi.remove_group_member ρ g m a
  | RotateGroup g a k => ShareApi.rotate_group ρ g a k
  | GroupInbox a => ShareApi.group_inbox ρ a;; mret ()
  | AddGroupItem g a i p => ShareApi.add_group_item ρ g a i p;; mret ()
  | ListGroupItems g a => ShareApi.list_group_items ρ g a;; mret ()
  | DeleteGroupItem g i a => ShareApi.delete_group_item ρ g i a
  end.

(** ** Where shares come from and who ends them *)
Section ShareLemmas.
Context `{Ext}.

(** The account [item_owner] names. *)
Definition owner_of (uuid : string) (d : Db) : option string :=
  match se_created_by <$> secrets d !! uuid with
  | Some owner => Some owner
  | None =>
      match project_items d !! uuid with
      | Some owner => Some owner
      | None => match ShareRepo.holders uuid d with [single] => Some single | _ => None end
      end
  end.

Lemma item_owner_run uuid d : ShareRepo.item_owner uuid d = (d, Ok (owner_of uuid d)).
Proof.
  unfold ShareRepo.item_owner, owner_of. run_calls. destruct (se_created_by <$> _); [done|].
  run_calls. destruct (project_items d !! uuid); [done|]. run_calls.
  by destruct (ShareRepo.holders uuid d) as [|? []].
Qed.

Lemma create_share_run ρ auth req d :
  (∃ e, ShareApi.create_share ρ auth req d = (d, Err e)) ∨
  ∃ s ws epk, session_valid d (now_ms ρ) auth s ∧
    owner_of (ShareApi.cs_item_uuid req) d = Some s ∧
    (ShareApi.create_share ρ auth req d).1 =
      (ShareRepo.create_share (ShareApi.cs_item_uuid req) s (ShareApi.cs_recipient_uuid req)
         ws epk (now_ms ρ) d).1.
Proof.
  unfold ShareApi.create_share.
  match goal with |- context [(auth_user ρ auth ≫= ?f) d] =>
    destruct (auth_user_bind ρ auth f d) as [(s & Hv & ->) | (e & _ & ->)] end; [|left; by eexists].
  unfold decode_b64. run_calls. rewrite item_owner_run. run_calls.
  case_bool_decide as Ho; simpl; run_calls; [|left; by eexists].
  destruct (b64_decode (ShareApi.cs_wrapped_sik req)) as [ws|]; run_calls; [|left; by eexists].
  destruct (b64_decode (ShareApi.cs_ephemeral_public_key req)) as [epk|]; run_calls;
    [|left; by eexists].
  right. exists s, ws, epk. split_and!; [done..|].
  unfold ShareRepo.create_share. by rewrite upsert_row_run.
Qed.

Lemma shared_by_elem item u s d :
  s ∈ ShareRepo.shared_by item u d ↔
  sh_item_uuid s = item ∧ sh_owner_user_id s = u ∧ ∃ k, shares d !! k = Some s.
Proof.
  unfold ShareRepo.shared_by, rows. rewrite list_elem_of_filter, list_elem_of_fmap. split.
  - intros [[? ?] ([k s'] & -> & Hin%elem_of_map_to_list)]. eauto.
  - intros (? & ? & k & Hk). split; [done|]. exists (k, s). by rewrite elem_of_map_to_list.
Qed.

Lemma revoke_share_run ρ sid auth d :
  (∃ e, ShareApi.revoke_share ρ sid auth d = (d, Err e)) ∨
  ∃ u, session_valid d (now_ms ρ) auth u ∧
    shares (ShareApi.revoke_share ρ sid auth d).1 =
      filter (λ kr, bool_decide (sh_item_uuid kr.2 = sid) &&
                    bool_decide (sh_owner_user_id kr.2 = u) = false) (shares d) ∧
    share_payloads (ShareApi.revoke_share ρ sid auth d).1 =
      filter (λ kr, bool_decide (kr.1 = sid) = false) (share_payloads d).
Proof.
  unfold ShareApi.revoke_share.
  match goal with |- context [(auth_user ρ auth ≫= ?f) d] =>
    destruct (auth_user_bind ρ auth f d) as [(u & Hv & ->) | (e & _ & ->)] end; [|left; by eexists].
  unfold ShareRepo.is_share_owner, ShareRepo.delete_shares_by_owner_item,
    ShareRepo.delete_share_payload. run_calls.
  case_bool_decide as Ho; simpl; run_calls; [|left; by eexists].
  repeat (rewrite delete_where_run; run_calls).
  right. exists u. done.
Qed.

(** Requests that leave the shares alone. *)
Lemma shares_frame ρ q :
  match q with
  | CreateShare _ _ | RevokeShare _ _ => True
  | _ => steps (same shares) (serve_share ρ q)
  end.
Proof. destruct q; try exact I; steps_crawl ltac:(reflexivity). Qed.

Lemma serve_unit_run {A} (m : handler A) d : ((m;; mret ()) d).1 = (m d).1.
Proof. rewrite bind_run. by destruct (m d) as [? [?|?]]. Qed.

(** Shares have an honest origin and one revoker: after any request a
    share is either as it was, or was written by a signed-in account the
    server takes for the owner of the item, which becomes the sender of a new
    share and never replaces the sender of an existing one; and a share that
    is gone was revoked by its sender. *)
Theorem shares_come_from_owners ρ q d :
  let d' := (serve_share ρ q d).1 in
  (∀ i r row', shares d' !! (i, r) = Some row' →
     shares d !! (i, r) = Some row' ∨
     ∃ auth req s, q = CreateShare auth req ∧ ShareApi.cs_item_uuid req = i ∧
       ShareApi.cs_recipient_uuid req = r ∧ session_valid d (now_ms ρ) auth s ∧
       owner_of i d = Some s ∧
       sh_owner_user_id row' =
         default s (sh_owner_user_id <$> shares d !! (i, r))) ∧
  (∀ k row, shares d !! k = Some row → shares d' !! k = None →
     ∃ auth, q = RevokeShare (sh_item_uuid row) auth ∧
             session_valid d (now_ms ρ) auth (sh_owner_user_id row)).
Proof.
  intros d'. unfold d'. clear d'. pose proof (shares_frame ρ q) as Hf.
  destruct q as [| |auth req| | |sid auth| | | | | | | |];
    try (rewrite (Hf d); split; [by left | congruence]); clear Hf.
  - simpl. rewrite serve_unit_run.
    destruct (create_share_run ρ auth req d) as [(e & ->) | (s & ws & epk & Hv & Ho & ->)];
      [split; [by left | simpl; congruence]|].
    unfold ShareRepo.create_share. rewrite upsert_row_run. cbn [fst].
    match goal with |- context [with_shares (insert ?k ?r) d] =>
      change (shares (with_shares (insert k r) d)) with (<[k := r]> (shares d)) end.
    split.
    + intros i r row'. rewrite lookup_insert_Some. intros [[[= <- <-] <-]|[_ Hr]]; [right|by left].
      exists auth, req, s. split_and!; try done. by destruct (shares d !! _).
    + intros k row Hk. rewrite lookup_insert_None. naive_solver.
  - simpl. destruct (revoke_share_run ρ sid auth d) as [(e & ->) | (u & Hv & -> & _)];
      [split; [by left | simpl; congruence]|]. split.
    + intros i r row' [Hr _]%map_lookup_filter_Some. by left.
    + intros k row Hk [Hn|Hn]%map_lookup_filter_None; [congruence|].
      specialize (Hn _ Hk). simpl in Hn. apply not_false_iff_true, andb_true_iff in Hn as [H1 H2].
      apply bool_decide_eq_true in H1, H2. subst. eauto.
Qed.

(** ** Membership of groups *)

Lemma require_admin_run g caller d :
  (∃ e, ShareApi.require_admin g caller d = (d, Err e)) ∨
  (∃ G, sharing_groups d !! g = Some G ∧ sg_admin_user_id G = caller ∧
        ShareApi.require_admin g caller d = (d, Ok ())).
Proof.
  unfold ShareApi.require_admin, ShareRepo.get_group. run_calls.
  destruct (sharing_groups d !! g) as [G|]; run_calls; [|left; by eexists].
  case_bool_decide; [left; by eexists|]. right. eauto.
Qed.

Definition groups_of (d : Db) := (sharing_groups d, group_members d).

Lemma same_groups d d' :
  same groups_of d d' → sharing_groups d' = sharing_groups d ∧ group_members d' = group_members d.
Proof. by intros [= -> ->]. Qed.

Lemma membership_frame ρ q :
  match q with
  | CreateSharingGroup _ _ | AddSharingMember _ _ _ | RemoveSharingMember _ _ _ => True
  | _ => steps (same groups_of) (serve_share ρ q)
  end.
Proof. destruct q; try exact I; steps_crawl ltac:(reflexivity). Qed.

(** A member joins an existing group only by its admin. *)
Definition joined (ρ : Env) (q : ShareRequest) (g m : string) (d : Db) : Prop :=
  ∃ auth req G, q = AddSharingMember g auth req ∧ ShareApi.am_member_uuid req = m ∧
    sharing_groups d !! g = Some G ∧ session_valid d (now_ms ρ) auth (sg_admin_user_id G).

Definition member (g m : string) (d : Db) : Prop := is_Some (group_members d !! (g, m)).

Lemma add_member_tables g m t d :
  let d' := (ShareRepo.add_group_member g m t d).1 in
  sharing_groups d' = sharing_groups d ∧ ∀ k, k ≠ (g, m) → group_members d' !! k = group_members d !! k.
Proof.
  cbv zeta. unfold ShareRepo.add_group_member. rewrite upsert_row_run.
  destruct (_ && _); [|done]. split; [done|]. intros k Hk.
  cbn [fst]. match goal with |- context [with_group_members (insert ?j ?r) d] =>
    change (group_members (with_group_members (insert j r) d)) with (<[j := r]> (group_members d)) end.
  by rewrite lookup_insert_ne.
Qed.

Lemma member_step ρ q g m d G :
  sharing_groups d !! g = Some G → ¬ member g m d →
  let d' := (serve_share ρ q d).1 in
  sharing_groups d' !! g = Some G ∧ (¬ member g m d' ∨ joined ρ q g m d).
Proof.
  intros HG Hm d'. unfold d', member in *. clear d'. pose proof (membership_frame ρ q) as Hf.
  destruct q as [| | | | | |auth name|g' auth req|g' m' auth| | | | |];
    try (destruct (same_groups _ _ (Hf d)) as [-> ->]; split; [done | by left]); clear Hf; simpl.
  - rewrite serve_unit_run. unfold ShareApi.create_group.
    match goal with |- context [(auth_user ρ auth ≫= ?f) d] =>
      destruct (auth_user_bind ρ auth f d) as [(u & Hv & ->) | (e & _ & ->)] end; [|by split; [|left]].
    unfold ShareRepo.create_group. run_calls. rewrite insert_row_run.
    destruct (sharing_groups d !! fresh ρ 0) eqn:Hfr; [by split; [|left]|].
    destruct (has_user u d); [|by split; [|left]]. run_calls.
    set (d1 := with_sharing_groups _ d).
    assert (sharing_groups d1 !! g = Some G ∧ group_members d1 = group_members d) as [HG1 Hm1].
    { split; [|done]. unfold d1.
      match goal with |- context [with_sharing_groups (insert ?j ?r) d] =>
        change (<[j := r]> (sharing_groups d) !! g = Some G) end.
      rewrite lookup_insert_ne; [done | congruence]. }
    clearbody d1. destruct (add_member_tables (fresh ρ 0) u (now_ms ρ) d1) as [HG2 Hm2].
    destruct (ShareRepo.add_group_member _ _ _ d1) as [d2 [?|?]]; simpl in *;
      (rewrite HG2, Hm2 by congruence; rewrite Hm1; by split; [|left]).
  - unfold ShareApi.add_group_member.
    match goal with |- context [(auth_user ρ auth ≫= ?f) d] =>
      destruct (auth_user_bind ρ auth f d) as [(u & Hv & ->) | (e & _ & ->)] end; [|by split; [|left]].
    rewrite bind_run.
    destruct (require_admin_run g' u d) as [(e & ->) | (G' & HG' & Ha & ->)]; [by split; [|left]|].
    unfold decode_b64. run_calls.
    destruct (b64_decode (ShareApi.am_wrapped_sik req)) as [ws|]; run_calls; [|by split; [|left]].
    destruct (b64_decode (ShareApi.am_ephemeral_public_key req)) as [epk|]; run_calls;
      [|by split; [|left]].
    destruct (add_member_tables g' (ShareApi.am_member_uuid req) (now_ms ρ) d) as [HG2 Hm2].
    destruct (ShareRepo.add_group_member _ _ _ d) as [d2 [?|?]]; simpl in *.
    + unfold ShareRepo.store_group_wrapped_sik. run_calls. rewrite upsert_row_run.
      assert (sharing_groups d2 !! g = Some G ∧
              (¬ is_Some (group_members d2 !! (g, m)) ∨
               joined ρ (AddSharingMember g' auth req) g m d)) as Hd2.
      { rewrite HG2. split; [done|].
        destruct (decide ((g, m) = (g', ShareApi.am_member_uuid req))) as [[= -> ->]|Hne].
        - right. exists auth, req, G'. rewrite Ha. done.
        - left. by rewrite Hm2. }
      destruct (ShareRepo.wrap_fk _ _ d2); exact Hd2.
    + rewrite HG2. split; [done|].
      destruct (decide ((g, m) = (g', ShareApi.am_member_uuid req))) as [[= -> ->]|Hne].
      * right. exists auth, req, G'. rewrite Ha. done.
      * left. by rewrite Hm2.
  - unfold ShareApi.remove_group_member.
    match goal with |- context [(auth_user ρ auth ≫= ?f) d] =>
      destruct (auth_user_bind ρ auth f d) as [(u & Hv & ->) | (e & _ & ->)] end; [|by split; [|left]].
    rewrite bind_run.
    destruct (require_admin_run g' u d) as [(e & ->) | (G' & HG' & Ha & ->)]; [by split; [|left]|].
    unfold ShareRepo.remove_group_member, ShareRepo.delete_group_wrapped_sik. run_calls.
    repeat (rewrite delete_where_run; run_calls). split; [exact HG|].
    left. intros [x Hx]. apply Hm.
    change (filter (λ kr : (string * string) * Z, bool_decide (kr.1 = (g', m')) = false)
              (group_members d) !! (g, m) = Some x) in Hx.
    apply map_lookup_filter_Some in Hx as [Hx _]. by eexists.
Qed.

Lemma remove_group_member_ok ρ g m auth d d1 r :
  ShareApi.remove_group_member ρ g m auth d = (d1, Ok r) →
  ∃ G, session_valid d (now_ms ρ) auth (sg_admin_user_id G) ∧
       sharing_groups d1 !! g = Some G ∧ ¬ member g m d1.
Proof.
  unfold ShareApi.remove_group_member. intros Hr. apply bind_ok in Hr as (d0 & u & Ha & Hr).
  apply auth_user_ok in Ha as [-> Hv]. rewrite bind_run in Hr.
  destruct (require_admin_run g u d) as [(e & He) | (G & HG & <- & He)]; rewrite He in Hr; [done|].
  revert Hr. unfold ShareRepo.remove_group_member, ShareRepo.delete_group_wrapped_sik. run_calls.
  repeat (rewrite delete_where_run; run_calls). intros [= <- _]. exists G. split; [done|].
  split; [exact HG|]. unfold member.
  match goal with |- context [group_members ?d'] => change (group_members d') with
    (filter (λ kr : (string * string) * Z, bool_decide (kr.1 = (g, m)) = false) (group_members d)) end.
  rewrite <-eq_None_not_Some. apply map_lookup_filter_None. right. intros x _. simpl.
  by rewrite bool_decide_true.
Qed.

Lemma inbox_items_run u gs d :
  ∃ l, mapM (ShareApi.group_inbox_item u) gs d = (d, Ok l) ∧ ShareApi.gi_group_id <$> l = sg_id <$> gs.
Proof.
  induction gs as [|G gs (l & IH & Hl)]; [by exists []|].
  assert (∃ x, ShareApi.group_inbox_item u G d = (d, Ok x) ∧ ShareApi.gi_group_id x = sg_id G)
    as (x & Hx & Hid).
  { unfold ShareApi.group_inbox_item, ShareRepo.get_group_wrapped_sik. run_calls. eauto. }
  exists (x :: l). split; [simpl; by rewrite bind_run, Hx, bind_run, IH|].
  by rewrite !fmap_cons, Hid, Hl.
Qed.

Lemma group_inbox_run ρ auth u d :
  session_valid d (now_ms ρ) auth u →
  ∃ l, ShareApi.group_inbox ρ auth d = (d, Ok l) ∧
       ∀ x, x ∈ l → member (ShareApi.gi_group_id x) u d.
Proof.
  intros Hv. unfold ShareApi.group_inbox, ShareRepo.list_groups_for_member.
  rewrite (auth_user_ok_bind ρ auth u) by done. run_calls.
  match goal with |- context [mapM _ ?gs d] => destruct (inbox_items_run u gs d) as (l & -> & Hl) end.
  exists l. split; [done|]. intros x Hx.
  assert (ShareApi.gi_group_id x ∈ ShareApi.gi_group_id <$> l) as Hid by by apply list_elem_of_fmap_2.
  rewrite Hl in Hid. apply list_elem_of_fmap in Hid as (G & -> & [HG _]%list_elem_of_filter). exact HG.
Qed.
End ShareLemmas.
