(* ===== verification/Mfa.v ===== *)
(** * Second factors

    Models [repository/mfa.rs] and [handlers/mfa.rs]: TOTP enrolment, the
    replay cache, the failure lockout, pending logins, recovery codes and the
    organization policy.  The handshake that creates a pending login is in
    [Auth]. *)
From S2P Require Import Prelude Domain Database Users Projects.
From Stdlib Require Import Strings.Byte Strings.Ascii.

(** ** Rust's standard library *)

(** [str::to_ascii_uppercase]. *)
Definition ascii_upper (c : ascii) : ascii :=
  let n := Ascii.nat_of_ascii c in
  if bool_decide (97 ≤ n ≤ 122) then Ascii.ascii_of_nat (n - 32) else c.
Fixpoint to_ascii_uppercase (s : string) : string :=
  match s with
  | EmptyString => EmptyString
  | String c s' => String (ascii_upper c) (to_ascii_uppercase s')
  end.

(** [Uuid::simple]: the hex digits without the dashes. *)
Fixpoint simple (u : Uuid) : string :=
  match u with
  | EmptyString => EmptyString
  | String "-"%char u' => simple u'
  | String c u' => String c (simple u')
  end.

(** [percent_encode]: every byte outside the RFC 3986 unreserved set becomes
    [%XX]. *)
Definition unreserved (c : ascii) : bool :=
  let n := Ascii.nat_of_ascii c in
  bool_decide (65 ≤ n ≤ 90) || bool_decide (97 ≤ n ≤ 122) || bool_decide (48 ≤ n ≤ 57) ||
  bool_decide (n ∈ [45; 46; 95; 126]).
Definition hex_upper (n : nat) : ascii :=
  Ascii.ascii_of_nat (if bool_decide (n < 10) then 48 + n else 55 + n).
Fixpoint percent_encode (s : string) : string :=
  match s with
  | EmptyString => EmptyString
  | String c s' =>
      if unreserved c then String c (percent_encode s')
      else let n := Ascii.nat_of_ascii c in
           String "%" (String (hex_upper (n / 16)) (String (hex_upper (n mod 16))
             (percent_encode s')))
  end.

(** ** The policy *)

Module MfaPolicyDefaults.
Definition master_password_policy : MasterPasswordPolicy :=
  mkMpPolicy 12 true true true true 60.
Definition default_policy : MfaPolicy := mkMfaPolicy false ["totp"] master_password_policy.
End MfaPolicyDefaults.

Definition bool_to_i64 (b : bool) : Z := if b then 1 else 0.

Section Mfa.
Context `{Ext}.

Definition sha256_hex (b : blob) : string := hex_of_bytes (sha256 b).

(** ** repository/mfa.rs *)

Definition recovery_code_hash (code : string) : string :=
  sha256_hex (String.list_byte_of_string (to_ascii_uppercase (str_trim code))).

Definition create_totp_enrollment (enrollment_id user_id : string) (secret : blob)
    (secret_base32 : string) (now expires_at : Z) : sql unit :=
  insert_row mfa_totp_enrollments with_mfa_totp_enrollments (has_user user_id) enrollment_id
    (mkEnrollment user_id secret secret_base32 now expires_at).

Definition get_totp_enrollment (enrollment_id : string) : sql (option TotpEnrollmentRow) :=
  gets (λ d, mfa_totp_enrollments d !! enrollment_id).

Definition delete_totp_enrollment (enrollment_id : string) : sql unit :=
  delete_where mfa_totp_enrollments with_mfa_totp_enrollments
    (λ kr, bool_decide (kr.1 = enrollment_id));; mret ().

Definition clear_totp_enrollments (user_id : string) : sql unit :=
  delete_where mfa_totp_enrollments with_mfa_totp_enrollments
    (λ kr, bool_decide (te_user_id kr.2 = user_id));; mret ().

Definition activate_totp_secret (user_id : string) (secret : blob) (secret_base32 : string)
    (now : Z) : sql unit :=
  transaction (
    clear_totp_enrollments user_id;;
    upsert_row mfa_totp_secrets with_mfa_totp_secrets (has_user user_id) user_id
      (mkTotpSecret secret secret_base32 now now)
      (λ old, mkTotpSecret secret secret_base32 (ts_created_at old) now)).

Definition get_totp_secret (user_id : string) : sql (option (blob * string)) :=
  gets (λ d, (λ r, (ts_secret r, ts_secret_base32 r)) <$> mfa_totp_secrets d !! user_id).

Definition mfa_has_totp (user_id : string) : sql bool :=
  gets (λ d, bool_decide (is_Some (mfa_totp_secrets d !! user_id))).

Definition delete_totp_secret (user_id : string) : sql unit :=
  delete_where mfa_totp_secrets with_mfa_totp_secrets (λ kr, bool_decide (kr.1 = user_id));;
  mret ().

Definition insert_recovery_codes (user_id : string) (codes : list string) (now : Z)
    : sql unit :=
  transaction (
    delete_where mfa_recovery_codes with_mfa_recovery_codes
      (λ kr, bool_decide (kr.1.1 = user_id) && negb (rc_used kr.2));;
    mapM (λ code,
      insert_row mfa_recovery_codes with_mfa_recovery_codes (has_user user_id)
        (user_id, recovery_code_hash code) (mkRecoveryCode false now)) codes;;
    mret ()).

(** [UPDATE .. SET used = 1 WHERE .. AND used = 0], true when a row was
    affected. *)
Definition redeem_recovery_code (user_id code : string) : sql bool :=
  let k := (user_id, recovery_code_hash code) in
  d ← gets id;
  match mfa_recovery_codes d !! k with
  | Some r =>
      if rc_used r then mret false
      else
        update_key mfa_recovery_codes with_mfa_recovery_codes k
          (λ r, mkRecoveryCode true (rc_created_at r));;
        mret true
  | None => mret false
  end.

Definition list_recovery_codes (user_id : string) : sql (list (string * bool)) :=
  gets (λ d, (λ kr : (string * string) * RecoveryCodeDbRow, (kr.1.2, rc_used kr.2)) <$>
               sort_asc (λ kr, rc_created_at kr.2)
                 (filter (λ kr, kr.1.1 = user_id) (map_to_list (mfa_recovery_codes d)))).

Definition clear_recovery_codes (user_id : string) : sql unit :=
  delete_where mfa_recovery_codes with_mfa_recovery_codes
    (λ kr, bool_decide (kr.1.1 = user_id));; mret ().

Definition policy_of_row (r : MfaPolicyRow) : MfaPolicy :=
  mkMfaPolicy (negb (bool_decide (mr_required r = 0%Z)))
    (default ["totp"] (strings_of_json (mr_allowed_methods r)))
    (mkMpPolicy (as_u32 (mr_min_length r))
       (negb (bool_decide (mr_require_upper r = 0%Z)))
       (negb (bool_decide (mr_require_lower r = 0%Z)))
       (negb (bool_decide (mr_require_digit r = 0%Z)))
       (negb (bool_decide (mr_require_special r = 0%Z)))
       (as_u32 (mr_min_entropy_bits r))).

Definition mfa_get_policy : sql MfaPolicy :=
  gets (λ d, match mfa_policy d with
             | Some r => policy_of_row r
             | None => MfaPolicyDefaults.default_policy
             end).

Definition row_of_policy (p : MfaPolicy) (now : Z) : MfaPolicyRow :=
  let mp := mp_master_password_policy p in
  mkMfaPolicyRow (bool_to_i64 (mp_required p))
    (default "[]" (json_of_strings (mp_allowed_methods p)))
    (min_length mp) (bool_to_i64 (require_upper mp)) (bool_to_i64 (require_lower mp))
    (bool_to_i64 (require_digit mp)) (bool_to_i64 (require_special mp))
    (min_entropy_bits mp) now.

Definition mfa_set_policy (p : MfaPolicy) (now : Z) : sql unit :=
  modify (with_mfa_policy (λ _, Some (row_of_policy p now))).

Definition store_pending_mfa (token_hash user_id : string) (expires_at now : Z) : sql unit :=
  insert_row pending_mfa with_pending_mfa (has_user user_id) token_hash
    (mkPending user_id now expires_at 0).

Definition get_pending_mfa (token_hash : string) : sql (option (string * Z * Z)) :=
  gets (λ d, (λ p, (pm_user_id p, pm_expires_at p, pm_attempts p)) <$>
               pending_mfa d !! token_hash).

Definition bump_attempts (p : PendingMfaRow) : PendingMfaRow :=
  mkPending (pm_user_id p) (pm_created_at p) (pm_expires_at p) (pm_attempts p + 1)%Z.

Definition bump_pending_mfa_attempts (token_hash : string) : sql unit :=
  update_key pending_mfa with_pending_mfa token_hash bump_attempts;; mret ().

Definition delete_pending_mfa (token_hash : string) : sql unit :=
  delete_where pending_mfa with_pending_mfa (λ kr, bool_decide (kr.1 = token_hash));; mret ().

Definition purge_expired_pending_mfa (now : Z) : sql Z :=
  delete_where pending_mfa with_pending_mfa (λ kr, bool_decide (pm_expires_at kr.2 < now)%Z).

Definition totp_step_used (user_id : string) (step : Z) : sql bool :=
  gets (λ d, bool_decide (is_Some (totp_used_steps d !! (user_id, step)))).

(** INSERT OR IGNORE keeps an existing row (whose account then exists); the
    foreign key still fails for a new one. *)
Definition mark_totp_step_used (user_id : string) (step now : Z) : sql unit :=
  upsert_row totp_used_steps with_totp_used_steps (has_user user_id) (user_id, step) now id;;
  ignore (delete_where totp_used_steps with_totp_used_steps
            (λ kr, bool_decide (kr.2 < now - 86400000)%Z)).

Definition totp_lock_state (user_id : string) : sql (Z * Z) :=
  gets (λ d, match users d !! user_id with
             | Some u => (u_totp_fail_count u, u_totp_lock_until u)
             | None => (0, 0)%Z
             end).

Definition count_failure (now : Z) (u : UserRow) : UserRow :=
  set_totp_lock (u_totp_fail_count u + 1)%Z
    (if bool_decide (5 ≤ u_totp_fail_count u + 1)%Z then now + 15 * 60000
     else u_totp_lock_until u)%Z u.

Definition register_totp_failure (user_id : string) (now : Z) : sql unit :=
  update_user user_id (count_failure now).

Definition clear_totp_failures (user_id : string) : sql unit :=
  update_user user_id (set_totp_lock 0 0).

(** repository/webauthn.rs *)
Definition webauthn_has_credentials (user_id : string) : sql bool :=
  gets (λ d, existsb (λ c, bool_decide (wc_user_id c = user_id))
               (rows (webauthn_credentials d))).

(** ** handlers/mfa.rs *)

Definition ENROLLMENT_TTL_MS : Z := 15 * 60000.
Definition TOTP_SKEW : Z := 1.
Definition TOTP_STEP : Z := 30.
Definition RECOVERY_ALPHABET : string := "ABCDEFGHJKLMNPQRSTUVWXYZ23456789".

Definition configured_methods (user_id : string) : handler (list string) :=
  totp ← call (mfa_has_totp user_id);
  webauthn ← call (webauthn_has_credentials user_id);
  mret ((if totp : bool then ["totp"] else []) ++ (if webauthn : bool then ["webauthn"] else [])).

Definition enforce_mfa_required (user_id : string) : handler unit :=
  policy ← call mfa_get_policy;
  if negb (mp_required policy) then mret ()
  else
    methods ← configured_methods user_id;
    guard_err (bool_decide (methods = [])) (mkApiError 403 "mfa_required").

Definition totp_verifier (secret : blob) : result ApiError unit :=
  if totp_new secret then Ok () else Err Api.internal.

(** The clock in seconds. *)
Definition now_secs (ρ : Env) : Z := now_ms ρ / 1000.

(** [(step as u64) * step_seconds]. *)
Definition candidate_time (step : Z) : Z := as_u64 (as_u64 step * TOTP_STEP).

Definition current_step (ρ : Env) : Z := now_secs ρ / TOTP_STEP.

(** [-(TOTP_SKEW)..=TOTP_SKEW] around the current step, first match. *)
Definition candidate_steps (ρ : Env) : list Z :=
  (λ delta, current_step ρ + delta)%Z <$> [(- TOTP_SKEW)%Z; 0%Z; TOTP_SKEW].

Definition match_step (secret : blob) (code : string) (steps : list Z) : option Z :=
  head (filter (λ step, totp_generate secret (candidate_time step) = code) steps).

Definition verify_totp_with_step (ρ : Env) (secret : blob) (code : string)
    : result ApiError (option Z) :=
  match totp_verifier secret with
  | Err e => Err e
  | Ok _ => Ok (match_step secret code (candidate_steps ρ))
  end.

(** Two blocks of random letters joined by a dash; [buf1] and [buf2] are the
    bytes the generator filled the buffers with. *)
Definition recovery_letter (b : byte) : ascii :=
  default "A"%char (String.get (N.to_nat (Byte.to_N b) mod 32) RECOVERY_ALPHABET).
Definition recovery_block (buf : blob) : string :=
  String.string_of_list_ascii (recovery_letter <$> buf).
Definition gen_recovery_code (buf1 buf2 : blob) : string :=
  String.append (recovery_block buf1) (String "-" (recovery_block buf2)).

Record MfaPolicyUpdateReq := mkPolicyUpdate {
  pu_required : bool;
  pu_allowed_methods : list string;
  pu_master_password_policy : MasterPasswordPolicy;
}.

Definition invalid_policy : ApiError := Api.bad_request "invalid_policy".

Definition validate_policy (req : MfaPolicyUpdateReq) : result ApiError unit :=
  let mp := pu_master_password_policy req in
  if bool_decide (pu_allowed_methods req = []) then Err invalid_policy
  else if existsb (λ m, negb (bool_decide (m ∈ ["totp"; "webauthn"]))) (pu_allowed_methods req)
  then Err invalid_policy
  else if bool_decide (min_length mp < 8)%Z || bool_decide (min_length mp > 256)%Z
  then Err invalid_policy
  else if bool_decide (min_entropy_bits mp > 512)%Z then Err invalid_policy
  else Ok ().

Record MfaStatusResp := mkMfaStatus { ms_required : bool; ms_configured_methods : list string }.

Definition mfa_status (ρ : Env) (auth : string) : handler MfaStatusResp :=
  user_id ← auth_user ρ auth;
  policy ← call mfa_get_policy;
  methods ← configured_methods user_id;
  mret (mkMfaStatus (mp_required policy) methods).

Record TotpIssueResp := mkTotpIssue {
  ti_enrollment_id : string;
  ti_otpauth_url : string;
  ti_secret : string;
  ti_qr_code_data_url : string;
}.

Definition otpauth_url (email secret_base32 : string) : string :=
  String.append "otpauth://totp/"
    (String.append (percent_encode (String.append "Vautr:" email))
      (String.append "?secret="
        (String.append secret_base32 "&issuer=Vautr&algorithm=SHA1&digits=6&period=30"))).

Definition issue_totp (ρ : Env) (auth : string) : handler TotpIssueResp :=
  user_id ← auth_user ρ auth;
  o ← call (get_user_by_id user_id);
  user ← ok_or Api.unauthorized o;
  let secret := rand ρ 0 in
  let secret_base32 := base32_encode secret in
  let url := otpauth_url (u_email user) secret_base32 in
  svg_xml ← ok_or Api.internal (qr_svg (String.list_byte_of_string url));
  let qr_code_data_url := String.append "data:image/svg+xml;base64," (b64_encode svg_xml) in
  let enrollment_id := fresh ρ 0 in
  let now := now_ms ρ in
  call (clear_totp_enrollments user_id);;
  call (create_totp_enrollment enrollment_id user_id secret secret_base32 now
          (now + ENROLLMENT_TTL_MS));;
  mret (mkTotpIssue enrollment_id url secret_base32 qr_code_data_url).

Record TotpVerifyReq := mkTotpVerify { tv_enrollment_id : option string; tv_code : string }.
Record TotpVerifyResp := mkTotpVerified {
  tv_status : string;
  tv_recovery_codes : option (list string);
}.

Definition invalid_totp_code : ApiError := mkApiError 401 "invalid_totp_code".
Definition no_totp_configured : ApiError := mkApiError 401 "no_totp_configured".
Definition unknown_enrollment : ApiError := Api.bad_request "unknown_enrollment".

(** Draws [2 i] and [2 i + 1] fill the blocks of the [i]-th code. *)
Definition fresh_codes (ρ : Env) : list string :=
  (λ i, gen_recovery_code (rand ρ (2 * i)) (rand ρ (2 * i + 1))) <$> seq 0 5.

Definition verify_totp (ρ : Env) (auth : string) (req : TotpVerifyReq)
    : handler TotpVerifyResp :=
  user_id ← auth_user ρ auth;
  match tv_enrollment_id req with
  | Some enrollment_id =>
      o ← call (get_totp_enrollment enrollment_id);
      row ← ok_or unknown_enrollment o;
      guard_err (bool_decide (te_user_id row ≠ user_id)) Api.unauthorized;;
      (if bool_decide (now_ms ρ > te_expires_at row)%Z then
         call (delete_totp_enrollment enrollment_id);;
         throw unknown_enrollment
       else mret ());;
      lift (totp_verifier (te_secret row));;
      guard_err (negb (totp_check (te_secret row) (tv_code req) (now_secs ρ)))
        invalid_totp_code;;
      had_totp ← call (mfa_has_totp user_id);
      let now := now_ms ρ in
      call (activate_totp_secret user_id (te_secret row) (te_secret_base32 row) now);;
      recovery_codes ←
        (if had_totp : bool then mret None
         else
           let codes := fresh_codes ρ in
           call (insert_recovery_codes user_id codes now);;
           mret (Some codes));
      call (audit_org_event (Some user_id) (Some user_id) "mfa_totp_enroll" "mfa"
              None None None now);;
      mret (mkTotpVerified "success" recovery_codes)
  | None =>
      o ← call (get_totp_secret user_id);
      s ← ok_or no_totp_configured o;
      lift (totp_verifier (fst s));;
      guard_err (negb (totp_check (fst s) (tv_code req) (now_secs ρ))) invalid_totp_code;;
      mret (mkTotpVerified "success" None)
  end.

(** The response types of [handlers/auth.rs]. *)
Record MfaChallenge := mkChallengeResp {
  mc_pending_token : string;
  mc_methods : list string;
  mc_expires_at : Z;
}.

Record LoginFinishResp := mkLoginFinished {
  lf_session_token : option string;
  lf_expires_at : option Z;
  lf_mfa_required : option MfaChallenge;
}.

Record TotpVerifyLoginReq := mkVerifyLogin { vl_pending_token : string; vl_code : string }.
Record RecoveryVerifyLoginReq := mkRecoveryLogin {
  rl_pending_token : string;
  rl_recovery_code : string;
}.

Definition invalid_pending_token : ApiError := mkApiError 401 "invalid_pending_token".
Definition totp_locked : ApiError := mkApiError 429 "totp_locked".
Definition totp_replay : ApiError := mkApiError 401 "totp_replay".
Definition invalid_recovery_code : ApiError := mkApiError 401 "invalid_recovery_code".

Definition SESSION_MS : Z := 86400000.

(** The opening both handlers share: a live pending login. *)
Definition take_pending (ρ : Env) (hash : string) : handler string :=
  o ← call (get_pending_mfa hash);
  row ← ok_or invalid_pending_token o;
  let '(user_id, expires_at, attempts) := row in
  (if bool_decide (now_ms ρ > expires_at)%Z || bool_decide (5 ≤ attempts)%Z then
     ignore (delete_pending_mfa hash);;
     throw invalid_pending_token
   else mret ());;
  mret user_id.

(** The closing both handlers share. *)
Definition mint_session (ρ : Env) (user_id action : string) : handler LoginFinishResp :=
  let token := String.append "vtr-session-" (simple (fresh ρ 0)) in
  let session_expires_at := (now_ms ρ + SESSION_MS)%Z in
  call (store_session ρ token user_id session_expires_at);;
  ignore (audit_org_event (Some user_id) (Some user_id) action "mfa" None None None (now_ms ρ));;
  mret (mkLoginFinished (Some token) (Some session_expires_at) None).

Definition verify_login_totp (ρ : Env) (req : TotpVerifyLoginReq) : handler LoginFinishResp :=
  let hash := sha256_hex (String.list_byte_of_string (vl_pending_token req)) in
  user_id ← take_pending ρ hash;
  o ← call (get_totp_secret user_id);
  s ← ok_or no_totp_configured o;
  let secret := fst s in
  let now_ts := now_ms ρ in
  lock ← call (totp_lock_state user_id);
  guard_err (bool_decide (snd lock > now_ts)%Z) totp_locked;;
  o ← lift (verify_totp_with_step ρ secret (vl_code req));
  match o with
  | None =>
      call (bump_pending_mfa_attempts hash);;
      call (register_totp_failure user_id now_ts);;
      throw invalid_totp_code
  | Some step =>
      used ← call (totp_step_used user_id step);
      guard_err used totp_replay;;
      call (mark_totp_step_used user_id step now_ts);;
      call (clear_totp_failures user_id);;
      call (delete_pending_mfa hash);;
      mint_session ρ user_id "mfa_totp_verify_login"
  end.

Definition verify_login_recovery (ρ : Env) (req : RecoveryVerifyLoginReq)
    : handler LoginFinishResp :=
  let hash := sha256_hex (String.list_byte_of_string (rl_pending_token req)) in
  user_id ← take_pending ρ hash;
  ok ← call (redeem_recovery_code user_id (rl_recovery_code req));
  (if negb ok then
     call (bump_pending_mfa_attempts hash);;
     throw invalid_recovery_code
   else mret ());;
  call (delete_pending_mfa hash);;
  mint_session ρ user_id "mfa_recovery_verify_login".

Definition policy_get (ρ : Env) (auth : string) : handler MfaPolicy :=
  auth_user ρ auth;;
  call mfa_get_policy.

Definition policy_put (ρ : Env) (auth : string) (req : MfaPolicyUpdateReq)
    : handler MfaPolicy :=
  user_id ← auth_user ρ auth;
  is_admin ← call (ProjectRepo.user_is_org_admin user_id);
  guard_err (negb is_admin) (mkApiError 403 "admin_role_required");;
  lift (validate_policy req);;
  before ← call mfa_get_policy;
  let policy := mkMfaPolicy (pu_required req) (pu_allowed_methods req)
                  (pu_master_password_policy req) in
  call (mfa_set_policy policy (now_ms ρ));;
  ignore (audit_org_event (Some user_id) (Some user_id) "mfa_policy.update" "policy"
            (Some "mfa_policy") (Some (json_policy_change before policy)) None (now_ms ρ));;
  mret policy.
End Mfa.

(** ** Lemmas *)
Section MfaLemmas.
Context `{Ext}.

Definition pending_hash (token : string) : string :=
  sha256_hex (String.list_byte_of_string token).

Definition pending_live (ρ : Env) (p : PendingMfaRow) : bool :=
  bool_decide (now_ms ρ ≤ pm_expires_at p)%Z && bool_decide (pm_attempts p < 5)%Z.

(** The one-time code [verify_login_totp] compares, when it gets as far as
    comparing one: the account, and the time step that produces the code. *)
Definition code_check (ρ : Env) (req : TotpVerifyLoginReq) (d : Db)
    : option (string * option Z) :=
  p ← pending_mfa d !! pending_hash (vl_pending_token req);
  s ← mfa_totp_secrets d !! pm_user_id p;
  let lock := match users d !! pm_user_id p with
              | Some u => u_totp_lock_until u
              | None => 0%Z
              end in
  if pending_live ρ p && bool_decide (lock ≤ now_ms ρ)%Z && totp_new (ts_secret s) then
    Some (pm_user_id p, match_step (ts_secret s) (vl_code req) (candidate_steps ρ))
  else None.

Lemma take_pending_run ρ h d :
  take_pending ρ h d =
  match pending_mfa d !! h with
  | Some p =>
      if pending_live ρ p then (d, Ok (pm_user_id p))
      else (with_pending_mfa (filter (λ kr, bool_decide (kr.1 = h) = false)) d,
            Err invalid_pending_token)
  | None => (d, Err invalid_pending_token)
  end.
Proof.
  unfold take_pending, get_pending_mfa, delete_pending_mfa, pending_live. run_step.
  destruct (pending_mfa d !! h) as [p|]; [|done]. simpl. run_step.
  repeat case_bool_decide; try lia; simpl; run_step; try done.
Qed.

Lemma mint_session_run ρ u action d :
  let token := String.append "vtr-session-" (simple (fresh ρ 0)) in
  has_user u d = true →
  ∃ f, mint_session ρ u action d =
    (with_audit_log f (with_sessions (insert (hash_session_token token)
       (mkSession u (now_ms ρ + SESSION_MS)
          (match sessions d !! hash_session_token token with
           | Some old => s_created_at old | None => now_ms ρ end))) d),
     Ok (mkLoginFinished (Some token) (Some (now_ms ρ + SESSION_MS)%Z) None)).
Proof.
  intros token Hu. unfold mint_session, store_session. fold token. cbv zeta. run_next.
  rewrite upsert_row_run, Hu. cbn [map_res]. run_next.
  destruct (audit_org_event_run (Some u) (Some u) action "mfa" None None None (now_ms ρ)
    (with_sessions (insert (hash_session_token token) (mkSession u (now_ms ρ + SESSION_MS)
          (match sessions d !! hash_session_token token with
           | Some old => s_created_at old | None => now_ms ρ end))) d)) as [f Hf].
  { exact Hu. }
  exists f. destruct (sessions d !! _); by rewrite Hf.
Qed.

Lemma mint_session_no_user ρ u action d :
  has_user u d = false → mint_session ρ u action d = (d, Err Api.internal).
Proof.
  intros Hu. unfold mint_session, store_session. run_next. by rewrite upsert_row_run, Hu.
Qed.

(** The state [verify_login_totp] leaves before it mints the session. *)
Definition after_code (ρ : Env) (h u : string) (s : Z) (d : Db) : Db :=
  with_pending_mfa (filter (λ kr, bool_decide (kr.1 = h) = false))
    (with_users (alter (set_totp_lock 0 0) u)
      (with_totp_used_steps (filter (λ kr, bool_decide (kr.2 < now_ms ρ - 86400000)%Z = false))
        (with_totp_used_steps (insert (u, s)
           (match totp_used_steps d !! (u, s) with Some t => t | None => now_ms ρ end)) d))).

Definition after_failure (ρ : Env) (h u : string) (d : Db) : Db :=
  with_users (alter (count_failure (now_ms ρ)) u)
    (with_pending_mfa (alter bump_attempts h) d).

(** The statements of the accepting branch. *)
Lemma finish_code ρ h u s d :
  let m := used ← call (totp_step_used u s);
           guard_err used totp_replay;;
           call (mark_totp_step_used u s (now_ms ρ));;
           call (clear_totp_failures u);;
           call (delete_pending_mfa h);;
           mint_session ρ u "mfa_totp_verify_login" in
  if bool_decide (is_Some (totp_used_steps d !! (u, s))) then m d = (d, Err totp_replay)
  else if has_user u d then
    m d = mint_session ρ u "mfa_totp_verify_login" (after_code ρ h u s d)
  else m d = (d, Err Api.internal).
Proof.
  intros m. unfold m, totp_step_used, mark_totp_step_used, clear_totp_failures, update_user,
    delete_pending_mfa, after_code. run_step.
  case_bool_decide; simpl; [done|]. run_step. rewrite upsert_row_run.
  destruct (has_user u d) eqn:Hu; simpl; [|done]. run_step. done.
Qed.

(** Deleting the row with a key, as the statements do it. *)
Lemma filter_key_delete {V} (h : string) (m : gmap string V) :
  filter (λ kr, bool_decide (kr.1 = h) = false) m = delete h m.
Proof.
  apply map_eq. intros i. destruct (decide (i = h)) as [->|Hi].
  - rewrite lookup_delete_eq. apply map_lookup_filter_None. right. intros p _. simpl.
    by rewrite bool_decide_true.
  - rewrite lookup_delete_ne by done. apply option_eq. intros x.
    rewrite map_lookup_filter_Some. simpl. rewrite bool_decide_eq_false. naive_solver.
Qed.

(** Why a login is refused before its code is compared, and what is left of
    the pending logins then. *)
Definition unchecked_refusal (ρ : Env) (req : TotpVerifyLoginReq) (d : Db) : ApiError :=
  match pending_mfa d !! pending_hash (vl_pending_token req) with
  | Some p =>
      if pending_live ρ p then
        if decide (mfa_totp_secrets d !! pm_user_id p = None) then no_totp_configured
        else if decide (now_ms ρ < from_option u_totp_lock_until 0 (users d !! pm_user_id p))%Z
        then totp_locked else Api.internal
      else invalid_pending_token
  | None => invalid_pending_token
  end.

Definition drop_dead (ρ : Env) (h : string) (m : gmap string PendingMfaRow) :=
  match m !! h with
  | Some p => if pending_live ρ p then m else delete h m
  | None => m
  end.

(** Everything the handler does, by the code it checks. *)
Lemma verify_login_totp_run ρ req d :
  let h := pending_hash (vl_pending_token req) in
  match code_check ρ req d with
  | None =>
      verify_login_totp ρ req d =
      (with_pending_mfa (drop_dead ρ h) d, Err (unchecked_refusal ρ req d))
  | Some (u, None) =>
      verify_login_totp ρ req d = (after_failure ρ h u d, Err invalid_totp_code)
  | Some (u, Some s) =>
      if bool_decide (is_Some (totp_used_steps d !! (u, s))) then
        verify_login_totp ρ req d = (d, Err totp_replay)
      else if has_user u d then
        verify_login_totp ρ req d = mint_session ρ u "mfa_totp_verify_login" (after_code ρ h u s d)
      else verify_login_totp ρ req d = (d, Err Api.internal)
  end.
Proof.
  intros h.
  assert (∀ f, f (pending_mfa d) = pending_mfa d → with_pending_mfa f d = d) as Hid.
  { intros f Hf. destruct d. unfold with_pending_mfa. simpl in *. by rewrite Hf. }
  unfold code_check, verify_login_totp, unchecked_refusal. fold h.
  rewrite bind_run, take_pending_run. unfold pending_hash in h. fold h.
  destruct (pending_mfa d !! h) as [p|] eqn:Hp; simpl.
  2: { rewrite Hid; [done|]. unfold drop_dead. by rewrite Hp. }
  destruct (pending_live ρ p) eqn:Hlive; simpl.
  2: { assert (drop_dead ρ h (pending_mfa d) = filter (λ kr, bool_decide (kr.1 = h) = false) (pending_mfa d))
         as Hd by (unfold drop_dead; by rewrite Hp, Hlive, filter_key_delete).
       destruct (mfa_totp_secrets d !! _); simpl; unfold with_pending_mfa; by rewrite Hd. }
  specialize (Hid (drop_dead ρ h)). rewrite Hid by (unfold drop_dead; by rewrite Hp, Hlive).
  unfold get_totp_secret. run_step.
  destruct (mfa_totp_secrets d !! pm_user_id p) as [s|] eqn:Hs; simpl; [|done].
  unfold totp_lock_state. run_step.
  set (lock := match users d !! pm_user_id p with Some u => u_totp_lock_until u | None => 0%Z end).
  change (from_option u_totp_lock_until 0%Z (users d !! pm_user_id p)) with lock.
  replace (match users d !! pm_user_id p with
           | Some u => (u_totp_fail_count u, u_totp_lock_until u)
           | None => (0, 0)%Z end).2 with lock by (unfold lock; by destruct (users d !! _)).
  clearbody lock. unfold verify_totp_with_step, totp_verifier.
  destruct (bool_decide (lock > now_ms ρ)%Z) eqn:Hl1; destruct (bool_decide (lock ≤ now_ms ρ)%Z) eqn:Hl2;
    try (apply bool_decide_eq_true in Hl1; apply bool_decide_eq_true in Hl2; lia);
    try (apply bool_decide_eq_false in Hl1; apply bool_decide_eq_false in Hl2; lia); simpl.
  { apply bool_decide_eq_true in Hl1. by rewrite decide_True by lia. }
  apply bool_decide_eq_true in Hl2. rewrite (decide_False (P:=(_ < _)%Z)) by lia.
  destruct (totp_new (ts_secret s)); simpl; [|done].
  destruct (match_step _ _ _) as [st|].
  - apply finish_code.
  - reflexivity.
Qed.

Lemma match_step_some secret code steps s :
  match_step secret code steps = Some s →
  s ∈ steps ∧ totp_generate secret (candidate_time s) = code.
Proof.
  unfold match_step. intros Hs. apply head_Some_elem_of, list_elem_of_filter in Hs. naive_solver.
Qed.

Lemma candidate_steps_spec ρ s :
  s ∈ candidate_steps ρ ↔ (current_step ρ - 1 ≤ s ≤ current_step ρ + 1)%Z.
Proof.
  unfold candidate_steps, TOTP_SKEW. cbn -[current_step]. rewrite !elem_of_cons, elem_of_nil. lia.
Qed.

(** What the account had to show for a code to be accepted. *)
Definition code_accepted (ρ : Env) (req : TotpVerifyLoginReq) (d : Db) (u : string) (s : Z)
    : Prop :=
  ∃ p ts,
    pending_mfa d !! pending_hash (vl_pending_token req) = Some p ∧ pm_user_id p = u ∧
    (now_ms ρ ≤ pm_expires_at p)%Z ∧ (pm_attempts p < 5)%Z ∧
    mfa_totp_secrets d !! u = Some ts ∧ totp_new (ts_secret ts) = true ∧
    (∀ row, users d !! u = Some row → (u_totp_lock_until row ≤ now_ms ρ)%Z) ∧
    (current_step ρ - 1 ≤ s ≤ current_step ρ + 1)%Z ∧
    totp_generate (ts_secret ts) (candidate_time s) = vl_code req.

Lemma code_check_accepted ρ req d u s :
  code_check ρ req d = Some (u, Some s) → code_accepted ρ req d u s.
Proof.
  unfold code_check, code_accepted, pending_live.
  destruct (pending_mfa d !! _) as [p|]; simpl; [|done].
  destruct (mfa_totp_secrets d !! _) as [ts|] eqn:Hts; simpl; [|done].
  destruct (_ && _ && _) eqn:Hc; [|done]. intros [= <- [Hs Hg]%match_step_some].
  apply candidate_steps_spec in Hs.
  rewrite !andb_true_iff in Hc. destruct Hc as [[[He Ha] Hl] Hn].
  apply bool_decide_eq_true in He, Ha, Hl.
  exists p, ts. split_and!; try done; try lia. intros row Hrow. by rewrite Hrow in Hl.
Qed.

Lemma code_check_unlocked ρ req d u o row :
  code_check ρ req d = Some (u, o) → users d !! u = Some row →
  (u_totp_lock_until row ≤ now_ms ρ)%Z.
Proof.
  unfold code_check. destruct (pending_mfa d !! _) as [p|]; simpl; [|done].
  destruct (mfa_totp_secrets d !! _) as [ts|]; simpl; [|done].
  destruct (_ && _ && _) eqn:Hc; [|done]. intros [= <- _] Hrow. rewrite Hrow in Hc.
  rewrite !andb_true_iff in Hc. destruct Hc as [[_ Hl] _]. by apply bool_decide_eq_true in Hl.
Qed.

Lemma after_code_user ρ h u s d :
  has_user u d = true → has_user u (after_code ρ h u s d) = true.
Proof.
  unfold has_user. intros Hx%bool_decide_eq_true. apply bool_decide_eq_true.
  unfold after_code. db_simpl. by apply lookup_alter_is_Some.
Qed.

Lemma after_code_tables ρ h u s d :
  totp_used_steps d !! (u, s) = None →
  sessions (after_code ρ h u s d) = sessions d ∧
  pending_mfa (after_code ρ h u s d) = delete h (pending_mfa d) ∧
  totp_used_steps (after_code ρ h u s d) !! (u, s) = Some (now_ms ρ).
Proof.
  intros Hn. unfold after_code. rewrite Hn. split_and!; [done | |].
  - db_simpl. apply filter_key_delete.
  - db_simpl. apply map_lookup_filter_Some. split; [by rewrite lookup_insert_eq|].
    apply bool_decide_eq_false. simpl. lia.
Qed.

(** C14. [verify_login_totp], completely.  It mints a session exactly when the
    pending login is live, the account is not locked, and the code is that of
    a time step in the window the account has not used; then the session is
    the account's, for a day, the pending login is consumed, the step is
    marked and the count of failures starts again.  A wrong code adds a
    failure to the account, whose fifth locks it for a quarter of an hour, and
    an attempt to the pending login; a used step is refused as a replay and
    changes nothing; and when no code is compared the answer says why, and at
    most the pending login goes, when it is dead. *)
Theorem verify_login_totp_exact ρ req d :
  let h := pending_hash (vl_pending_token req) in
  let token := String.append "vtr-session-" (simple (fresh ρ 0)) in
  match verify_login_totp ρ req d with
  | (d', Ok resp) =>
      ∃ u s row,
        code_accepted ρ req d u s ∧ totp_used_steps d !! (u, s) = None ∧
        resp = mkLoginFinished (Some token) (Some (now_ms ρ + SESSION_MS)%Z) None ∧
        sessions d' = <[hash_session_token token := row]> (sessions d) ∧
        s_user_id row = u ∧ s_expires_at row = (now_ms ρ + SESSION_MS)%Z ∧
        pending_mfa d' = delete h (pending_mfa d) ∧ totp_used_steps d' !! (u, s) = Some (now_ms ρ) ∧
        users d' = alter (set_totp_lock 0 0) u (users d)
  | (d', Err e) =>
      match code_check ρ req d with
      | None =>
          e = unchecked_refusal ρ req d ∧
          d' = with_pending_mfa (drop_dead ρ h) d
      | Some (u, None) =>
          e = invalid_totp_code ∧
          pending_mfa d' = alter bump_attempts h (pending_mfa d) ∧
          (∀ row, users d !! u = Some row →
             users d' !! u = Some (set_totp_lock (u_totp_fail_count row + 1)
               (if decide (4 ≤ u_totp_fail_count row) then now_ms ρ + 900000
                else u_totp_lock_until row) row)%Z) ∧
          (∀ v, v ≠ u → users d' !! v = users d !! v) ∧
          d' = with_users (λ _, users d') (with_pending_mfa (λ _, pending_mfa d') d)
      | Some (u, Some s) =>
          d' = d ∧
          ((is_Some (totp_used_steps d !! (u, s)) ∧ e = totp_replay) ∨
           (has_user u d = false ∧ e = Api.internal))
      end
  end.
Proof.
  intros h token. pose proof (verify_login_totp_run ρ req d) as Hr. cbv zeta in Hr. fold h in Hr.
  destruct (code_check ρ req d) as [[u [s|]]|] eqn:Hc.
  - case_bool_decide as Hu; [rewrite Hr; auto|]. apply eq_None_not_Some in Hu.
    destruct (has_user u d) eqn:Hx; [|rewrite Hr; auto].
    destruct (after_code_tables ρ h u s d Hu) as (Hs & Hp & Ht).
    pose proof (after_code_user ρ h u s d Hx) as Hx'.
    destruct (mint_session_run ρ u "mfa_totp_verify_login" _ Hx') as [f Hf].
    rewrite Hr, Hf. eexists u, s, _. split_and!; try done.
    by apply code_check_accepted.
  - rewrite Hr. split_and!; try done.
    + intros row Hrow. change (users (after_failure ρ h u d)) with (alter (count_failure (now_ms ρ)) u (users d)).
      rewrite lookup_alter_eq, Hrow. simpl. unfold count_failure.
      by case_bool_decide; case_decide; try lia.
    + intros v Hv. by apply lookup_alter_ne.
  - rewrite Hr. done.
Qed.

Lemma redeem_run u code d :
  redeem_recovery_code u code d =
  match mfa_recovery_codes d !! (u, recovery_code_hash code) with
  | Some r =>
      if rc_used r then (d, Ok false)
      else (with_mfa_recovery_codes (alter (λ r, mkRecoveryCode true (rc_created_at r))
              (u, recovery_code_hash code)) d, Ok true)
  | None => (d, Ok false)
  end.
Proof.
  unfold redeem_recovery_code. run_step. destruct (mfa_recovery_codes d !! _) as [r|]; [|done].
  by destruct (rc_used r).
Qed.
End MfaLemmas.
