(* ===== verification/Auth.v ===== *)
(** * Registration and login

    Models [handlers/auth.rs], [server_setup] of [handlers/mod.rs] and
    [repository/config.rs]: the OPAQUE handshakes around the third-party
    [opaque-ke], the login-state map, and the gate a second factor puts before
    a session.  [AuthRequest]/[serve] run the handlers of [handlers/auth.rs]
    and [handlers/mfa.rs] one after the other. *)
From S2P Require Import Prelude Domain Database Concrete Users Projects Mfa.
From Stdlib Require Import Strings.Byte.

Section Auth.
Context `{Ext}.

(** ** repository/config.rs *)

Definition get_config (key : string) : sql (option blob) := gets (λ d, server_config d !! key).

Definition set_config (key : string) (value : blob) : sql unit :=
  modify (with_server_config (insert key value)).

(** ** handlers/mod.rs *)

Definition SETUP_KEY : string := "opaque_server_setup".

(** [n] is the draw of [generate_server_setup]. *)
Definition server_setup (ρ : Env) (n : nat) : handler blob :=
  match env_var ρ "VAUTR_OPAQUE_SETUP_FILE" with
  | Some path =>
      bytes ← ok_or Api.internal (read_file ρ path);
      guard_err (negb (opaque_setup_ok bytes)) Api.internal;;
      mret bytes
  | None =>
      o ← call (get_config SETUP_KEY);
      match o with
      | Some bytes =>
          guard_err (negb (opaque_setup_ok bytes)) Api.internal;;
          mret bytes
      | None =>
          let prod := match env_var ρ "VAUTR_ENV" with
                      | Some v => bool_decide (v ∈ ["prod"; "production"])
                      | None => false
                      end in
          let allow_db := bool_decide (env_var ρ "VAUTR_ALLOW_DB_OPRF" = Some "1") in
          guard_err (prod && negb allow_db) Api.internal;;
          call (set_config SETUP_KEY (opaque_new_setup (rand ρ n)));;
          o ← call (get_config SETUP_KEY);
          ok_or Api.internal o
      end
  end.

(** ** handlers/auth.rs *)

Definition LOGIN_STATE_TTL_MS : Z := 10 * 60 * 1000.
Definition SERVER_PUBLIC_KEY : string := "server_public_key".

(** Get or create the 32-byte key; [n] is the draw of its bytes. *)
Definition pk_of_32 (o : option blob) : option blob :=
  pk ← o; if bool_decide (length pk = 32) then Some pk else None.

Definition server_public_key (ρ : Env) (n : nat) : handler blob :=
  o ← call (get_config SERVER_PUBLIC_KEY);
  match pk_of_32 o with
  | Some pk => mret pk
  | None =>
      call (set_config SERVER_PUBLIC_KEY (rand ρ n));;
      o ← call (get_config SERVER_PUBLIC_KEY);
      ok_or Api.internal (pk_of_32 o)
  end.

Record RegisterStartReq := mkRegisterStart { rgs_username : string; rgs_start : string }.
Record RegisterStartResp := mkRegisterStarted {
  rgs_response : string;
  rgs_server_public_key : string;
}.
Record RegisterFinishReq := mkRegisterFinish {
  rgf_username : string;
  rgf_finish : string;
  rgf_server_public_key : string;
  rgf_kdf_salt : string;
  rgf_svk : string;
  rgf_svk_rk : string;
}.
Record RegisterFinishResp := mkRegistered { rgf_status : string; rgf_user_id : string }.
Record LoginStartReq := mkLoginStart { ls_username : string; ls_start : string }.
Record LoginStartResp := mkLoginStarted { ls_response : string; ls_handle : string }.
Record LoginFinishReq := mkLoginFinish {
  lf_username : string;
  lf_finish : string;
  lf_handle : option string;
}.

Definition email_taken : ApiError := mkApiError 409 "email_taken".
Definition invalid_server_key : ApiError := Api.bad_request "invalid_server_key".
Definition unknown_user : ApiError := Api.bad_request "not_found".
Definition invalid_login : ApiError := Api.bad_request "invalid_login".

Definition utf8 (s : string) : blob := String.list_byte_of_string s.

Definition register_start (ρ : Env) (req : RegisterStartReq) : handler RegisterStartResp :=
  setup ← server_setup ρ 0;
  creq ← decode_b64 (rgs_start req);
  sresp ← ok_or Api.internal (opaque_register_start setup creq (utf8 (rgs_username req)));
  server_pk ← server_public_key ρ 1;
  mret (mkRegisterStarted (b64_encode sresp) (b64_encode server_pk)).

Definition register_finish (ρ : Env) (req : RegisterFinishReq) : handler RegisterFinishResp :=
  server_setup ρ 0;;
  pk ← decode_b64 (rgf_server_public_key req);
  guard_err (forallb (λ b, bool_decide (b = x00)) pk) invalid_server_key;;
  guard_err (bool_decide (length pk < 32)) invalid_server_key;;
  stored_pk ← server_public_key ρ 1;
  guard_err (bool_decide (pk ≠ stored_pk)) invalid_server_key;;
  cupload ← decode_b64 (rgf_finish req);
  record ← ok_or Api.internal (opaque_register_finish cupload);
  kdf_salt ← decode_b64 (rgf_kdf_salt req);
  svk ← decode_b64 (rgf_svk req);
  svk_rk ← decode_b64 (rgf_svk_rk req);
  let user_id := fresh ρ 0 in
  let now := now_ms ρ in
  o ← call (get_user_by_email (rgf_username req));
  guard_err (bool_decide (is_Some o)) email_taken;;
  map_err (λ e, if bool_decide (e = UniqueViolation) then email_taken else Api.internal)
    (create_user user_id (rgf_username req) kdf_salt record svk svk_rk now);;
  r ← attempt (get_user_by_email (rgf_username req));
  (match r with
   | Ok (Some u) =>
       ignore (audit_org_event (Some (u_id u)) (Some (u_id u)) "auth.register" "user"
                 (Some (u_id u)) None None now)
   | _ => mret ()
   end);;
  mret (mkRegistered "success" user_id).

Definition login_start (ρ : Env) (req : LoginStartReq) : handler LoginStartResp :=
  setup ← server_setup ρ 0;
  o ← call (get_user_by_email (ls_username req));
  user ← ok_or unknown_user o;
  lreq ← decode_b64 (ls_start req);
  r ← ok_or Api.internal
        (opaque_login_start (rand ρ 1) setup (Some (u_opaque_record user)) lreq
           (utf8 (ls_username req)));
  let '(sresp, sstate) := r in
  let handle := String.append "vtr-lh-" (simple (fresh ρ 0)) in
  let now := now_ms ρ in
  let cutoff := (now - LOGIN_STATE_TTL_MS)%Z in
  modify (with_login_state (λ m,
    <[ls_username req := (sstate, now)]>
      (<[handle := (sstate, now)]> (filter (λ kv, (cutoff ≤ kv.2.2)%Z) m))));;
  mret (mkLoginStarted (b64_encode sresp) handle).

(** [LOGIN_STATE.lock().remove(key)]. *)
Definition remove_login_state (key : string) : handler (option blob) :=
  o ← gets (λ d, login_state d !! key);
  modify (with_login_state (delete key));;
  mret (fst <$> o).

Definition login_finish (ρ : Env) (req : LoginFinishReq) : handler LoginFinishResp :=
  o ← call (get_user_by_email (lf_username req));
  match o with
  | None =>
      ignore (audit_org_event None None "auth.login_failed" "session" None
                (Some (lf_username req)) None (now_ms ρ));;
      throw unknown_user
  | Some user =>
      lupload ← decode_b64 (lf_finish req);
      o ← remove_login_state (default (lf_username req) (lf_handle req));
      sstate ← ok_or invalid_login o;
      sfin ← ok_or Api.internal (opaque_login_finish sstate lupload);
      enforce_mfa_required (u_id user);;
      has_totp ← call (mfa_has_totp (u_id user));
      if has_totp : bool then
        ignore (purge_expired_pending_mfa (now_ms ρ));;
        let raw := String.append "vtr-mfa-" (simple (fresh ρ 0)) in
        let hash := sha256_hex (utf8 raw) in
        let expires_at := (now_ms ρ + 5 * 60 * 1000)%Z in
        call (store_pending_mfa hash (u_id user) expires_at (now_ms ρ));;
        mret (mkLoginFinished None None (Some (mkChallengeResp raw ["totp"] expires_at)))
      else
        let token := b64_encode sfin in
        let expires_at := (now_ms ρ + 86400000)%Z in
        call (store_session ρ token (u_id user) expires_at);;
        ignore (purge_expired_sessions (now_ms ρ));;
        ignore (audit_org_event (Some (u_id user)) (Some (u_id user)) "auth.login_success"
                  "session" None None None (now_ms ρ));;
        mret (mkLoginFinished (Some token) (Some expires_at) None)
  end.

Definition logout (ρ : Env) (auth : string) : handler unit :=
  auth_user ρ auth;;
  call (delete_session auth);;
  mret ().

(** ** The routes of both files, one after the other *)

Inductive AuthRequest :=
| RegisterStart (req : RegisterStartReq)
| RegisterFinish (req : RegisterFinishReq)
| LoginStart (req : LoginStartReq)
| LoginFinish (req : LoginFinishReq)
| Logout (auth : string)
| MfaStatus (auth : string)
| IssueTotp (auth : string)
| VerifyTotp (auth : string) (req : TotpVerifyReq)
| VerifyLoginTotp (req : TotpVerifyLoginReq)
| VerifyLoginRecovery (req : RecoveryVerifyLoginReq)
| PolicyGet (auth : string)
| PolicyPut (auth : string) (req : MfaPolicyUpdateReq).

Definition serve (ρ : Env) (q : AuthRequest) : handler unit :=
  match q with
  | RegisterStart r => register_start ρ r;; mret ()
  | RegisterFinish r => register_finish ρ r;; mret ()
  | LoginStart r => login_start ρ r;; mret ()
  | LoginFinish r => login_finish ρ r;; mret ()
  | Logout a => logout ρ a
  | MfaStatus a => mfa_status ρ a;; mret ()
  | IssueTotp a => issue_totp ρ a;; mret ()
  | VerifyTotp a r => verify_totp ρ a r;; mret ()
  | VerifyLoginTotp r => verify_login_totp ρ r;; mret ()
  | VerifyLoginRecovery r => verify_login_recovery ρ r;; mret ()
  | PolicyGet a => policy_get ρ a;; mret ()
  | PolicyPut a r => policy_put ρ a r;; mret ()
  end.

Definition run (l : list (Env * AuthRequest)) (d : Db) : Db :=
  foldl (λ d q, (serve q.1 q.2 d).1) d l.

(** The clock does not go back: the requests are served from [t] on. *)
Fixpoint clock_from (t : Z) (l : list (Env * AuthRequest)) : Prop :=
  match l with
  | [] => True
  | q :: l' => (t ≤ now_ms q.1)%Z ∧ clock_from (now_ms q.1) l'
  end.
End Auth.

(** ** What every request leaves alone *)
Section Frame.
Context `{Ext}.

(** The replay cache and the lockout counters are the same; a used recovery
    code stays used. *)
Definition mfa_le (d d' : Db) : Prop :=
  totp_used_steps d' = totp_used_steps d ∧
  (∀ u row, users d !! u = Some row → ∃ row', users d' !! u = Some row' ∧
     u_totp_fail_count row' = u_totp_fail_count row ∧
     u_totp_lock_until row' = u_totp_lock_until row) ∧
  (∀ k r, mfa_recovery_codes d !! k = Some r → rc_used r = true →
          mfa_recovery_codes d' !! k = Some r).

#[export] Instance mfa_le_preorder : PreOrder mfa_le.
Proof.
  split; unfold mfa_le; [intros d; eauto 10|].
  intros d1 d2 d3 (Ht1 & Hu1 & Hc1) (Ht2 & Hu2 & Hc2). split_and!; [congruence | | auto].
  intros u row Hr. destruct (Hu1 _ _ Hr) as (r1 & Hr1 & E1 & E2).
  destruct (Hu2 _ _ Hr1) as (r2 & Hr2 & E3 & E4). exists r2. split_and!; [done | congruence..].
Qed.

(** A change to none of the three tables. *)
Lemma mfa_le_frame d d' :
  totp_used_steps d' = totp_used_steps d → users d' = users d →
  mfa_recovery_codes d' = mfa_recovery_codes d → mfa_le d d'.
Proof. intros H1 H2 H3. unfold mfa_le. rewrite H1, H2, H3. eauto 10. Qed.

Ltac frame := steps_tables ltac:(try (apply mfa_le_frame; reflexivity)).

Lemma steps_server_setup ρ n : steps mfa_le (server_setup ρ n).
Proof. unfold server_setup, get_config, set_config. frame. Qed.
Lemma steps_server_public_key ρ n : steps mfa_le (server_public_key ρ n).
Proof. unfold server_public_key, get_config, set_config. frame. Qed.
Lemma steps_take_pending ρ h : steps mfa_le (take_pending ρ h).
Proof. unfold take_pending, get_pending_mfa, delete_pending_mfa. frame. Qed.
Lemma steps_mint_session ρ u a : steps mfa_le (mint_session ρ u a).
Proof. unfold mint_session, store_session. frame. Qed.
Lemma steps_configured u : steps mfa_le (configured_methods u).
Proof. unfold configured_methods, mfa_has_totp, webauthn_has_credentials. frame. Qed.
#[local] Hint Resolve steps_server_setup steps_server_public_key steps_take_pending
  steps_mint_session steps_configured : steps.

Lemma steps_create_user i e s o v w t : steps mfa_le (create_user i e s o v w t).
Proof.
  unfold create_user, require. steps_tac.
  intros d. rewrite insert_row_run. destruct (users d !! i) eqn:Hi; [reflexivity|]. simpl.
  split_and!; [reflexivity | | done]. intros u row Hu. exists row. split_and!; try done.
  db_simpl. rewrite lookup_insert_ne; [done|]. congruence.
Qed.

Lemma steps_redeem u c : steps mfa_le (redeem_recovery_code u c).
Proof.
  intros d. rewrite redeem_run. destruct (mfa_recovery_codes d !! _) as [r|] eqn:Hr; [|reflexivity].
  destruct (rc_used r) eqn:Hu; [reflexivity|]. simpl. split_and!; [reflexivity | eauto|].
  intros k r' Hk Hused. db_simpl. rewrite lookup_alter_ne; [done|]. intros <-. congruence.
Qed.

Lemma steps_insert_code u c t :
  steps mfa_le (insert_row mfa_recovery_codes with_mfa_recovery_codes (has_user u)
                  (u, recovery_code_hash c) (mkRecoveryCode false t)).
Proof.
  intros d. rewrite insert_row_run. destruct (mfa_recovery_codes d !! _) eqn:Hr; [reflexivity|].
  destruct (has_user u d); [|reflexivity]. simpl. split_and!; [reflexivity | eauto|].
  intros k r' Hk Hused. db_simpl. rewrite lookup_insert_ne; [done|]. congruence.
Qed.
#[local] Hint Resolve steps_create_user steps_redeem steps_insert_code : steps.

Lemma steps_insert_codes u cs t : steps mfa_le (insert_recovery_codes u cs t).
Proof.
  unfold insert_recovery_codes. steps_tac. intros d. rewrite delete_where_run. simpl.
  split_and!; [reflexivity | eauto|]. intros k r Hk Hu. db_simpl.
  apply map_lookup_filter_Some. split; [done|]. simpl. rewrite Hu. by rewrite andb_false_r.
Qed.
#[local] Hint Resolve steps_insert_codes : steps.

(** Every request but the completion of a TOTP login. *)
Lemma steps_serve ρ q :
  match q with VerifyLoginTotp _ => True | _ => steps mfa_le (serve ρ q) end.
Proof.
  destruct q; try exact I; unfold serve, register_start, register_finish, login_start,
    login_finish, logout, mfa_status, issue_totp, verify_totp, verify_login_recovery, policy_get,
    policy_put, remove_login_state, get_user_by_email, get_user_by_id, mfa_has_totp,
    purge_expired_pending_mfa, store_pending_mfa, store_session, purge_expired_sessions,
    delete_session, mfa_get_policy, mfa_set_policy, get_totp_enrollment, delete_totp_enrollment,
    clear_totp_enrollments, create_totp_enrollment, activate_totp_secret, get_totp_secret,
    ProjectRepo.user_is_org_admin, enforce_mfa_required, decode_b64, bump_pending_mfa_attempts,
    delete_pending_mfa; frame.
Qed.
End Frame.

(** ** Traces *)
Section Traces.
Context `{Ext}.

Lemma serve_verify ρ r d : (serve ρ (VerifyLoginTotp r) d).1 = (verify_login_totp ρ r d).1.
Proof. simpl. rewrite bind_run. by destruct (verify_login_totp ρ r d) as [? [?|?]]. Qed.

(** The completion of a TOTP login, table by table. *)
Lemma verify_login_frame ρ r d :
  ∃ d1, mfa_le d1 (verify_login_totp ρ r d).1 ∧
    match code_check ρ r d with
    | Some (u, Some s) =>
        if is_ok (verify_login_totp ρ r d).2 then
          totp_used_steps d !! (u, s) = None ∧
          d1 = after_code ρ (pending_hash (vl_pending_token r)) u s d
        else d1 = d
    | Some (u, None) => d1 = after_failure ρ (pending_hash (vl_pending_token r)) u d
    | None => d1 = d
    end.
Proof.
  pose proof (verify_login_totp_run ρ r d) as Hr. cbv zeta in Hr.
  destruct (code_check ρ r d) as [[u [s|]]|].
  - case_bool_decide as Hused; [rewrite Hr; by exists d|].
    destruct (has_user u d) eqn:Hud; [|rewrite Hr; by exists d].
    rewrite Hr. set (d1 := after_code _ _ _ _ _).
    pose proof (steps_mint_session ρ u "mfa_totp_verify_login" d1) as Hm. exists d1.
    split; [done|]. assert (has_user u d1 = true) as Hx by (by apply after_code_user).
    destruct (mint_session_run ρ u "mfa_totp_verify_login" d1 Hx) as [f ->]. simpl.
    split; [by apply eq_None_not_Some | done].
  - rewrite Hr. by eexists.
  - rewrite Hr. exists d. split; [|done].
    by apply mfa_le_frame.
Qed.

(** A used step stays for a day. *)
Lemma serve_keeps_step ρ q d k t :
  totp_used_steps d !! k = Some t → (now_ms ρ ≤ t + 86400000)%Z →
  totp_used_steps (serve ρ q d).1 !! k = Some t.
Proof.
  intros Hk Hn. pose proof (steps_serve ρ q) as Hs.
  destruct q; try (destruct (Hs d) as [-> _]; exact Hk). clear Hs. rewrite serve_verify.
  destruct (verify_login_frame ρ req d) as (d1 & [-> _] & Hd1).
  destruct (code_check ρ req d) as [[u [s|]]|]; [|by rewrite Hd1..].
  destruct (is_ok _); [|by rewrite Hd1]. destruct Hd1 as [Hn1 ->]. unfold after_code. db_simpl.
  apply map_lookup_filter_Some. split.
  - rewrite lookup_insert_ne; [done | congruence].
  - apply bool_decide_eq_false. simpl. lia.
Qed.

Lemma run_keeps_step l d k t t0 :
  totp_used_steps d !! k = Some t → clock_from t0 l →
  Forall (λ q, (now_ms q.1 ≤ t + 86400000)%Z) l →
  totp_used_steps (run l d) !! k = Some t.
Proof.
  revert d t0. induction l as [|q l IH]; intros d t0 Hk Hc Hb; [done|].
  apply Forall_cons in Hb as [Hq Hb]. destruct Hc as [_ Hc].
  simpl. apply (IH _ (now_ms q.1)); [|done|done]. by apply serve_keeps_step.
Qed.

Lemma clock_from_app t l q :
  clock_from t (l ++ [q]) →
  clock_from t l ∧ (t ≤ now_ms q.1)%Z ∧ Forall (λ x, (now_ms x.1 ≤ now_ms q.1)%Z) l.
Proof.
  revert t. induction l as [|x l IH]; intros t; simpl; [naive_solver|].
  intros [Hx Hl]. destruct (IH _ Hl) as (Hc & Hq & Hf). split_and!; [done | done | lia|].
  by constructor.
Qed.

(** A completed TOTP login, with the time step it consumed. *)
Definition accepts (ρ : Env) (r : TotpVerifyLoginReq) (d : Db) (u : string) (s : Z) : Prop :=
  code_check ρ r d = Some (u, Some s) ∧ is_ok (verify_login_totp ρ r d).2 = true.

Lemma accepts_step ρ r d u s :
  accepts ρ r d u s →
  totp_used_steps d !! (u, s) = None ∧
  totp_used_steps (verify_login_totp ρ r d).1 !! (u, s) = Some (now_ms ρ).
Proof.
  intros [Hc Hok]. destruct (verify_login_frame ρ r d) as (d1 & [-> _] & Hd1).
  rewrite Hc, Hok in Hd1. destruct Hd1 as [Hn ->]. split; [done|].
  by apply after_code_tables.
Qed.

Lemma accepts_window ρ r d u s :
  accepts ρ r d u s → (current_step ρ - 1 ≤ s ≤ current_step ρ + 1)%Z.
Proof. intros [Hc _]. apply code_check_accepted in Hc as (?&?&?&?&?&?&?&?&?&?&?). done. Qed.

(** C15. A time step completes at most one login of an account: after a
    login consumed a step, and whatever registration, login and MFA requests
    are served next (with a clock that does not go back), no later login of
    that account is completed with the same step.  The replay cache forgets
    a step only when its code has left the window. *)
Theorem totp_step_accepted_once ρ1 r1 d u s1 l ρ2 r2 s2 :
  accepts ρ1 r1 d u s1 →
  clock_from (now_ms ρ1) (l ++ [(ρ2, VerifyLoginTotp r2)]) →
  accepts ρ2 r2 (run l (verify_login_totp ρ1 r1 d).1) u s2 →
  s1 ≠ s2.
Proof.
  intros H1 Hc H2 <-. destruct (accepts_step _ _ _ _ _ H1) as [_ Hs].
  destruct (accepts_step _ _ _ _ _ H2) as [Hn _].
  pose proof (accepts_window _ _ _ _ _ H1) as Hw1.
  pose proof (accepts_window _ _ _ _ _ H2) as Hw2.
  apply clock_from_app in Hc as (Hc & Hle & Hf). simpl in Hle, Hf.
  destruct (decide (now_ms ρ2 ≤ now_ms ρ1 + 86400000)%Z) as [Hd|Hd].
  - rewrite (run_keeps_step l _ _ _ _ Hs Hc) in Hn; [done|].
    eapply Forall_impl; [exact Hf|]. simpl. lia.
  - unfold current_step, now_secs, TOTP_STEP in *.
    rewrite !Z.div_div in * by lia.
    assert (now_ms ρ1 / (1000 * 30) + 2880 ≤ now_ms ρ2 / (1000 * 30))%Z; [|lia].
    rewrite <- Z.div_add by lia. apply Z.div_le_mono; lia.
Qed.

(** *** Guessing codes *)

(** The request compares a wrong code against the account's secret. *)
Definition wrong_guess (ρ : Env) (q : AuthRequest) (d : Db) (u : string) : bool :=
  match q with
  | VerifyLoginTotp r => bool_decide (code_check ρ r d = Some (u, None))
  | _ => false
  end.

(** The request completes a TOTP login of the account. *)
Definition right_guess (ρ : Env) (q : AuthRequest) (d : Db) (u : string) : bool :=
  match q with
  | VerifyLoginTotp r =>
      match code_check ρ r d with
      | Some (u', Some _) => bool_decide (u' = u) && is_ok (verify_login_totp ρ r d).2
      | _ => false
      end
  | _ => false
  end.

Fixpoint wrong_guesses (u : string) (l : list (Env * AuthRequest)) (d : Db) : Z :=
  match l with
  | [] => 0
  | q :: l' => (if wrong_guess q.1 q.2 d u then 1 else 0) +
               wrong_guesses u l' (serve q.1 q.2 d).1
  end%Z.

Fixpoint no_right_guess (u : string) (l : list (Env * AuthRequest)) (d : Db) : Prop :=
  match l with
  | [] => True
  | q :: l' => right_guess q.1 q.2 d u = false ∧ no_right_guess u l' (serve q.1 q.2 d).1
  end.

Definition LOCK_MS : Z := 15 * 60000.

(** What one request does to the counters of an account. *)
Lemma serve_counters ρ q d u row :
  users d !! u = Some row → right_guess ρ q d u = false →
  ∃ row', users (serve ρ q d).1 !! u = Some row' ∧
    if wrong_guess ρ q d u then
      (u_totp_lock_until row ≤ now_ms ρ)%Z ∧
      u_totp_fail_count row' = (u_totp_fail_count row + 1)%Z ∧
      u_totp_lock_until row' =
        (if bool_decide (5 ≤ u_totp_fail_count row + 1)%Z then now_ms ρ + LOCK_MS
         else u_totp_lock_until row)%Z
    else u_totp_fail_count row' = u_totp_fail_count row ∧
         u_totp_lock_until row' = u_totp_lock_until row.
Proof.
  intros Hu Hr. pose proof (steps_serve ρ q) as Hs.
  destruct q; try (destruct (Hs d) as (_ & Hx & _); exact (Hx _ _ Hu)). clear Hs.
  rewrite serve_verify. destruct (verify_login_frame ρ req d) as (d1 & (_ & Hx & _) & Hd1).
  simpl in Hr |- *. destruct (code_check ρ req d) as [[u1 [s|]]|] eqn:Hc.
  - rewrite bool_decide_false by congruence.
    destruct (is_ok _); [|subst d1; exact (Hx _ _ Hu)].
    rewrite andb_true_r in Hr. apply bool_decide_eq_false in Hr. destruct Hd1 as [_ ->].
    apply Hx. unfold after_code. db_simpl. by rewrite lookup_alter_ne.
  - subst d1. destruct (decide (u1 = u)) as [->|Hne].
    + rewrite bool_decide_true by done.
      destruct (Hx u (count_failure (now_ms ρ) row)) as (row' & Hr' & E1 & E2).
      { change (alter (count_failure (now_ms ρ)) u (users d) !! u =
                Some (count_failure (now_ms ρ) row)).
        by rewrite lookup_alter_eq, Hu. }
      exists row'. split_and!; [done | exact (code_check_unlocked _ _ _ _ _ _ Hc Hu) | done | done].
    + rewrite bool_decide_false by congruence. apply Hx. unfold after_failure. db_simpl.
      rewrite lookup_alter_ne; [done | by apply not_eq_sym].
  - rewrite bool_decide_false by done. subst d1. exact (Hx _ _ Hu).
Qed.

(** How many wrong guesses the lockout leaves until [t1], from counters
    [(c, lock)] at [t]. *)
Definition budget (c lock t t1 : Z) : Z :=
  if decide (c < 5)%Z then (5 - c + (t1 - t) / LOCK_MS)%Z
  else if decide (t1 < Z.max lock t)%Z then 0%Z
  else (1 + (t1 - Z.max lock t) / LOCK_MS)%Z.

Lemma budget_nonneg c lock t t1 : (t ≤ t1)%Z → (0 ≤ budget c lock t t1)%Z.
Proof.
  intros Ht. unfold budget. assert (0 ≤ (t1 - t) / LOCK_MS)%Z.
  { apply Z.div_pos; unfold LOCK_MS; lia. }
  repeat destruct (decide _); try lia.
  assert (0 ≤ (t1 - Z.max lock t) / LOCK_MS)%Z; [|lia]. apply Z.div_pos; unfold LOCK_MS; lia.
Qed.

Lemma budget_later c lock t t' t1 :
  (t ≤ t')%Z → (t' ≤ t1)%Z → (budget c lock t' t1 ≤ budget c lock t t1)%Z.
Proof.
  intros H1 H2. unfold budget.
  assert ((t1 - t') / LOCK_MS ≤ (t1 - t) / LOCK_MS)%Z.
  { apply Z.div_le_mono; unfold LOCK_MS; lia. }
  assert ((t1 - Z.max lock t') / LOCK_MS ≤ (t1 - Z.max lock t) / LOCK_MS)%Z.
  { apply Z.div_le_mono; unfold LOCK_MS; lia. }
  repeat destruct (decide _); lia.
Qed.

Lemma budget_guess c lock t t' t1 :
  (t ≤ t')%Z → (t' ≤ t1)%Z → (lock ≤ t')%Z →
  (1 + budget (c + 1) (if bool_decide (5 ≤ c + 1)%Z then t' + LOCK_MS else lock) t' t1
   ≤ budget c lock t t1)%Z.
Proof.
  intros H1 H2 H3. etransitivity; [|apply (budget_later c lock t t'); lia]. unfold budget.
  assert (0 ≤ (t1 - t') / LOCK_MS)%Z by (apply Z.div_pos; unfold LOCK_MS; lia).
  assert ((t1 - (t' + LOCK_MS)) / LOCK_MS = (t1 - t') / LOCK_MS - 1)%Z as Hd.
  { replace (t1 - (t' + LOCK_MS))%Z with (t1 - t' + (-1) * LOCK_MS)%Z by lia.
    rewrite Z.div_add; unfold LOCK_MS; lia. }
  assert (0 < LOCK_MS)%Z by (unfold LOCK_MS; lia).
  case_bool_decide; repeat destruct (decide _); try lia;
    rewrite ?(Z.max_r lock t'), ?(Z.max_l (t' + LOCK_MS) t') in * by lia; try lia.
Qed.

Lemma wrong_guesses_budget u l d row t t1 :
  users d !! u = Some row → clock_from t l → (t ≤ t1)%Z →
  Forall (λ q, (now_ms q.1 ≤ t1)%Z) l → no_right_guess u l d →
  (wrong_guesses u l d ≤ budget (u_totp_fail_count row) (u_totp_lock_until row) t t1)%Z.
Proof.
  revert d row t. induction l as [|[ρ q] l IH]; intros d row t Hu Hc Ht Hf Hn; simpl in *.
  { by apply budget_nonneg. }
  destruct Hc as [Hq Hc]. destruct Hn as [Hr Hn]. apply Forall_cons in Hf as [Hq1 Hf].
  simpl in Hq1. destruct (serve_counters ρ q d u row Hu Hr) as (row' & Hu' & Hrow).
  specialize (IH _ _ _ Hu' Hc Hq1 Hf Hn). destruct (wrong_guess ρ q d u).
  - destruct Hrow as (Hl & E1 & E2). rewrite E1, E2 in IH.
    pose proof (budget_guess (u_totp_fail_count row) _ _ _ _ Hq Hq1 Hl). lia.
  - destruct Hrow as (E1 & E2). rewrite E1, E2 in IH.
    pose proof (budget_later (u_totp_fail_count row) (u_totp_lock_until row) _ _ _ Hq Hq1). lia.
Qed.

(** C16. The lockout bounds guessing at the login: however the requests of the
    login and MFA handlers are interleaved, and however many pending logins
    they open, between [t0] and [t1] the route that completes a login compares
    at most five wrong codes plus one per quarter of an hour with those of an
    account, as long as no code completes a login of it.  The route a signed-in
    caller checks its own secret on has no such bound
    ([signed_in_check_unlimited]). *)
Theorem totp_guesses_bounded u l d row t0 t1 :
  users d !! u = Some row → (0 ≤ u_totp_fail_count row)%Z →
  clock_from t0 l → (t0 ≤ t1)%Z → Forall (λ q, (now_ms q.1 ≤ t1)%Z) l →
  no_right_guess u l d →
  (wrong_guesses u l d ≤ 5 + (t1 - t0) / LOCK_MS)%Z.
Proof.
  intros Hu Hc0 Hc Ht Hf Hn. pose proof (wrong_guesses_budget _ _ _ _ _ _ Hu Hc Ht Hf Hn) as Hb.
  etransitivity; [exact Hb|]. unfold budget.
  assert (0 ≤ (t1 - t0) / LOCK_MS)%Z by (apply Z.div_pos; unfold LOCK_MS; lia).
  assert ((t1 - Z.max (u_totp_lock_until row) t0) / LOCK_MS ≤ (t1 - t0) / LOCK_MS)%Z.
  { apply Z.div_le_mono; unfold LOCK_MS; lia. }
  repeat destruct (decide _); lia.
Qed.

(** [/mfa/totp/verify] without an enrollment compares a code with the account's
    active secret however often it was asked and whether or not the account is
    locked: nothing is counted, so with a session in hand any number of codes
    can be tried. *)
Lemma signed_in_check_unlimited ρ auth u ts codes d :
  session_valid d (now_ms ρ) auth u → mfa_totp_secrets d !! u = Some ts →
  totp_new (ts_secret ts) = true →
  run ((λ c, (ρ, VerifyTotp auth (mkTotpVerify None c))) <$> codes) d = d ∧
  ∀ c, verify_totp ρ auth (mkTotpVerify None c) d =
       (d, if totp_check (ts_secret ts) c (now_secs ρ) then Ok (mkTotpVerified "success" None)
           else Err invalid_totp_code).
Proof.
  intros Hv Hts Hn.
  assert (∀ c, verify_totp ρ auth (mkTotpVerify None c) d =
       (d, if totp_check (ts_secret ts) c (now_secs ρ) then Ok (mkTotpVerified "success" None)
           else Err invalid_totp_code)) as Hc.
  { intros c. unfold verify_totp. rewrite auth_user_ok_bind with (uid:=u) by done.
    cbn [tv_enrollment_id tv_code]. unfold get_totp_secret, totp_verifier. run_step. rewrite Hts. simpl. rewrite Hn. simpl.
    by destruct (totp_check _ _ _). }
  split; [|exact Hc]. unfold run. induction codes as [|c codes IH]; [done|]. simpl.
  rewrite bind_run, Hc. by destruct (totp_check _ _ _).
Qed.

(** *** Recovery codes *)

Definition pending_account (token : string) (d : Db) : option string :=
  pm_user_id <$> pending_mfa d !! pending_hash token.

Definition used_code (u code : string) (d : Db) : Prop :=
  ∃ r, mfa_recovery_codes d !! (u, recovery_code_hash code) = Some r ∧ rc_used r = true.

Lemma mfa_le_used u code d d' : mfa_le d d' → used_code u code d → used_code u code d'.
Proof. intros (_ & _ & Hc) (r & Hr & Hu). exists r. eauto. Qed.

Lemma serve_keeps_used ρ q u code d :
  used_code u code d → used_code u code (serve ρ q d).1.
Proof.
  intros Hu. pose proof (steps_serve ρ q) as Hs.
  destruct q; try (exact (mfa_le_used _ _ _ _ (Hs d) Hu)). clear Hs. rewrite serve_verify.
  destruct (verify_login_frame ρ req d) as (d1 & Hle & Hd1). apply (mfa_le_used _ _ _ _ Hle).
  destruct (code_check ρ req d) as [[u1 [s|]]|]; [|by subst d1..].
  destruct (is_ok _); [|by subst d1]. by destruct Hd1 as [_ ->].
Qed.

Lemma run_keeps_used l u code d : used_code u code d → used_code u code (run l d).
Proof.
  revert d. induction l as [|q l IH]; intros d Hu; [done|]. apply IH. by apply serve_keeps_used.
Qed.

Lemma verify_login_recovery_ok ρ r d d' resp u :
  verify_login_recovery ρ r d = (d', Ok resp) → pending_account (rl_pending_token r) d = Some u →
  used_code u (rl_recovery_code r) d'.
Proof.
  unfold verify_login_recovery, pending_account, pending_hash. intros Hr Hp.
  rewrite bind_run, take_pending_run in Hr.
  destruct (pending_mfa d !! _) as [p|]; [|done]. injection Hp as <-.
  destruct (pending_live ρ p); [|done]. rewrite bind_run, map_err_run, redeem_run in Hr.
  destruct (mfa_recovery_codes d !! _) as [c|] eqn:Hc; [|done].
  destruct (rc_used c) eqn:Huc; [done|]. simpl in Hr.
  match type of Hr with ?m ?d1 = _ =>
    assert (steps mfa_le m) as Hs end.
  { steps_tac; [|eapply steps_mint_session]. unfold delete_pending_mfa.
    steps_tables ltac:(apply mfa_le_frame; reflexivity). }
  match type of Hr with ?m ?d1 = _ =>
    pose proof (Hs d1) as Hle end. rewrite Hr in Hle. simpl in Hle.
  eapply mfa_le_used; [exact Hle|]. exists (mkRecoveryCode true (rc_created_at c)). split; [|done].
  change (alter (λ r0, mkRecoveryCode true (rc_created_at r0))
            (pm_user_id p, recovery_code_hash (rl_recovery_code r)) (mfa_recovery_codes d) !!
            (pm_user_id p, recovery_code_hash (rl_recovery_code r)) =
          Some (mkRecoveryCode true (rc_created_at c))).
  by rewrite lookup_alter_eq, Hc.
Qed.

(** A recovery code completes one login: once it has, the account never
    gets in with it again (upper or lower case, with or without spaces around
    it), whatever requests are served in between, re-enrolment included. *)
Theorem recovery_code_single_use ρ1 r1 d d1 resp u l ρ2 r2 :
  verify_login_recovery ρ1 r1 d = (d1, Ok resp) →
  pending_account (rl_pending_token r1) d = Some u →
  pending_account (rl_pending_token r2) (run l d1) = Some u →
  recovery_code_hash (rl_recovery_code r2) = recovery_code_hash (rl_recovery_code r1) →
  ∃ e, (verify_login_recovery ρ2 r2 (run l d1)).2 = Err e ∧
       e ∈ [invalid_pending_token; invalid_recovery_code].
Proof.
  intros H1 Hp1 Hp2 Hh. pose proof (verify_login_recovery_ok _ _ _ _ _ _ H1 Hp1) as Hu.
  apply (run_keeps_used l) in Hu. revert Hp2 Hu. generalize (run l d1) as d2. intros d2 Hp2 (r & Hr & Hru).
  unfold verify_login_recovery, pending_account, pending_hash in *.
  rewrite bind_run, take_pending_run.
  destruct (pending_mfa d2 !! _) as [p|] eqn:Hp; [|done]. injection Hp2 as <-.
  destruct (pending_live ρ2 p); [|by eexists; split; [reflexivity | set_solver]].
  rewrite bind_run, map_err_run, redeem_run, Hh, Hr, Hru. simpl.
  unfold bump_pending_mfa_attempts. run_step. eexists. split; [reflexivity | set_solver].
Qed.
End Traces.

(** ** The login gate *)
Section Gate.
Context `{Ext}.

Definition account_of (email : string) (d : Db) : option UserRow :=
  head (filter (λ u, u_email u = email) (rows (users d))).

Lemma get_user_by_email_run email d :
  get_user_by_email email d = (d, Ok (account_of email d)).
Proof. done. Qed.

Definition login_key (req : LoginFinishReq) : string := default (lf_username req) (lf_handle req).

Definition policy_in_force (d : Db) : MfaPolicy :=
  match mfa_policy d with Some r => policy_of_row r | None => MfaPolicyDefaults.default_policy end.

Definition has_passkey (u : string) (d : Db) : bool :=
  existsb (λ c, bool_decide (wc_user_id c = u)) (rows (webauthn_credentials d)).

Lemma enforce_mfa_required_run u d :
  enforce_mfa_required u d =
  (d, if mp_required (policy_in_force d) &&
         negb (bool_decide (is_Some (mfa_totp_secrets d !! u)) || has_passkey u d)
      then Err (mkApiError 403 "mfa_required") else Ok ()).
Proof.
  unfold enforce_mfa_required, configured_methods, mfa_get_policy, mfa_has_totp,
    webauthn_has_credentials, policy_in_force, has_passkey. run_step.
  destruct (mp_required _); simpl; [|done]. run_step.
  by destruct (bool_decide (is_Some _)), (existsb _ _).
Qed.

(** The session [login_finish] stores, next to the sessions that have not
    expired. *)
Definition login_sessions (ρ : Env) (token u : string) (d : Db) : gmap string SessionRow :=
  filter (λ kr, bool_decide (s_expires_at kr.2 < now_ms ρ)%Z = false)
    (<[hash_session_token token :=
         mkSession u (now_ms ρ + 86400000)
           (match sessions d !! hash_session_token token with
            | Some old => s_created_at old | None => now_ms ρ end)]> (sessions d)).

(** The pending logins, with that of the account [u] among them and those
    that have expired gone. *)
Definition pending_hash_of (ρ : Env) : string :=
  sha256_hex (utf8 (String.append "vtr-mfa-" (simple (fresh ρ 0)))).
Definition live_pending (ρ : Env) (d : Db) : gmap string PendingMfaRow :=
  filter (λ kr, bool_decide (pm_expires_at kr.2 < now_ms ρ)%Z = false) (pending_mfa d).
Definition login_pending (ρ : Env) (u : string) (d : Db) : gmap string PendingMfaRow :=
  <[pending_hash_of ρ := mkPending u (now_ms ρ) (now_ms ρ + 5 * 60 * 1000) 0]> (live_pending ρ d).

(** Whether the policy turns the account away. *)
Definition factor_missing (u : string) (d : Db) : bool :=
  mp_required (policy_in_force d) &&
  negb (bool_decide (is_Some (mfa_totp_secrets d !! u)) || has_passkey u d).

(** Why a login is refused, if it is. *)
Definition login_refusal (ρ : Env) (req : LoginFinishReq) (d : Db) : option ApiError :=
  match account_of (lf_username req) d, b64_decode (lf_finish req), login_state d !! login_key req with
  | None, _, _ => Some unknown_user
  | _, None, _ => Some (Api.bad_request "invalid_base64")
  | _, _, None => Some invalid_login
  | Some u, Some up, Some st =>
      if decide (opaque_login_finish st.1 up = None) then Some Api.internal
      else if factor_missing (u_id u) d then Some (mkApiError 403 "mfa_required")
      else if decide (has_user (u_id u) d = true ∧
                      (is_Some (mfa_totp_secrets d !! u_id u) → live_pending ρ d !! pending_hash_of ρ = None))
           then None else Some Api.internal
  end.

(** What a login that is not refused answers and stores. *)
Definition login_outcome (ρ : Env) (req : LoginFinishReq) (d d' : Db) (resp : LoginFinishResp)
    : Prop :=
  ∃ u st up key,
    account_of (lf_username req) d = Some u ∧
    login_state d !! login_key req = Some st ∧ b64_decode (lf_finish req) = Some up ∧
    opaque_login_finish st.1 up = Some key ∧
    login_state d' = delete (login_key req) (login_state d) ∧
    if decide (is_Some (mfa_totp_secrets d !! u_id u)) then
      resp = mkLoginFinished None None
               (Some (mkChallengeResp (String.append "vtr-mfa-" (simple (fresh ρ 0))) ["totp"]
                        (now_ms ρ + 5 * 60 * 1000)%Z)) ∧
      sessions d' = sessions d ∧ pending_mfa d' = login_pending ρ (u_id u) d
    else
      (mp_required (policy_in_force d) = true → has_passkey (u_id u) d = true) ∧
      resp = mkLoginFinished (Some (b64_encode key)) (Some (now_ms ρ + 86400000)%Z) None ∧
      sessions d' = login_sessions ρ (b64_encode key) (u_id u) d ∧ pending_mfa d' = pending_mfa d.

(** What no login changes. *)
Definition beside_login (d : Db) :=
  (users d, items d, (mfa_totp_secrets d, mfa_recovery_codes d, totp_used_steps d, mfa_policy d),
   webauthn_verified d, access_tokens d, event_channels d).

Lemma login_finish_beside ρ req : steps (same beside_login) (login_finish ρ req).
Proof. steps_crawl ltac:(idtac; reflexivity). Qed.

(** The two branches that end in a table. *)
Lemma store_pending_login ρ u d :
  store_pending_mfa (pending_hash_of ρ) u (now_ms ρ + 5 * 60 * 1000)%Z (now_ms ρ)
    (purge_expired_pending_mfa (now_ms ρ) d).1 =
  let d1 := with_pending_mfa (λ _, live_pending ρ d) d in
  if decide (has_user u d = true ∧ live_pending ρ d !! pending_hash_of ρ = None)
  then (with_pending_mfa (λ _, login_pending ρ u d) d, Ok ())
  else (d1, Err (if live_pending ρ d !! pending_hash_of ρ then UniqueViolation else ForeignKeyViolation)).
Proof.
  change (purge_expired_pending_mfa (now_ms ρ) d).1
    with (with_pending_mfa (λ _, live_pending ρ d) d).
  unfold store_pending_mfa. rewrite insert_row_run.
  change (pending_mfa (with_pending_mfa (λ _, live_pending ρ d) d)) with (live_pending ρ d).
  change (has_user u (with_pending_mfa _ d)) with (has_user u d). cbv zeta.
  destruct (live_pending ρ d !! pending_hash_of ρ).
  { by rewrite decide_False by (intros [_ [=]]). }
  destruct (has_user u d); [by rewrite decide_True | by rewrite decide_False by (intros [[=] _])].
Qed.

Lemma finish_pending {A} ρ u (x : A) d :
  (ignore (purge_expired_pending_mfa (now_ms ρ));;
   call (store_pending_mfa (pending_hash_of ρ) u (now_ms ρ + 5 * 60 * 1000)%Z (now_ms ρ));;
   mret x) d =
  if decide (has_user u d = true ∧ live_pending ρ d !! pending_hash_of ρ = None)
  then (with_pending_mfa (λ _, login_pending ρ u d) d, Ok x)
  else (with_pending_mfa (λ _, live_pending ρ d) d, Err Api.internal).
Proof.
  run_next. rewrite store_pending_login. cbv zeta. case_decide; [done|]. cbn [map_res].
  by destruct (live_pending ρ d !! pending_hash_of ρ).
Qed.

Lemma finish_session {A} ρ u token (x : A) d :
  let m := call (store_session ρ token u (now_ms ρ + 86400000)%Z);;
           ignore (purge_expired_sessions (now_ms ρ));;
           ignore (audit_org_event (Some u) (Some u) "auth.login_success" "session"
                     None None None (now_ms ρ));;
           mret x in
  if has_user u d then
    ∃ f, m d = (with_audit_log f (with_sessions (λ _, login_sessions ρ token u d) d), Ok x)
  else m d = (d, Err Api.internal).
Proof.
  intros m. unfold m, store_session. run_next. rewrite upsert_row_run.
  destruct (has_user u d) eqn:Hx; [|done]. cbn [map_res]. run_next.
  unfold purge_expired_sessions. rewrite delete_where_run. cbn [fst].
  match goal with |- context[audit_org_event _ _ _ _ _ _ _ _ ?d2] =>
    destruct (audit_org_event_run (Some u) (Some u) "auth.login_success" "session" None None None
      (now_ms ρ) d2) as [f Hf]; [exact Hx|]; rewrite Hf end.
  exists f. run_next. unfold login_sessions. by destruct (sessions d !! hash_session_token token).
Qed.

(** C13. [login_finish], completely.  It is refused exactly for the reason
    [login_refusal] gives: an account that does not exist, an upload that is
    not base64, no handshake in progress (answered alike for whoever asks), an
    exchange OPAQUE rejects, a policy that demands a factor the account lacks,
    or a store that cannot take the login; a refusal adds no session and no
    pending login, and uses the handshake up as soon as the account and the
    upload were readable.  Every other login is answered: an account with a
    TOTP secret gets a five-minute pending login under the token of the answer
    and no session, one without gets the session of the key both sides
    derived, for a day; the handshake is used up either way.  Accounts,
    items, factors, policy and tokens stay as they were. *)
Theorem login_finish_gate ρ req d :
  let '(d', r) := login_finish ρ req d in
  same beside_login d d' ∧
  match r with
  | Ok resp => login_refusal ρ req d = None ∧ login_outcome ρ req d d' resp
  | Err e =>
      login_refusal ρ req d = Some e ∧ sessions d' = sessions d ∧ pending_mfa d' ⊆ pending_mfa d ∧
      login_state d' =
        (if decide (is_Some (account_of (lf_username req) d) ∧ is_Some (b64_decode (lf_finish req)))
         then delete (login_key req) (login_state d) else login_state d)
  end.
Proof.
  pose proof (login_finish_beside ρ req d) as Hb.
  destruct (login_finish ρ req d) as [d' r] eqn:Hrun. split; [exact Hb|]. clear Hb. revert Hrun.
  unfold login_finish, remove_login_state, decode_b64, login_refusal, login_outcome. run_next.
  rewrite get_user_by_email_run. cbn [map_res].
  destruct (account_of (lf_username req) d) as [u|] eqn:Hu.
  2: { run_next. intros Hd. rewrite (decide_False (P:=_ ∧ _)) by (intros [[? [=]] _]). revert Hd.
       edestruct audit_org_event_run as [f ->]; [done|]. cbn [ignore]. by intros [= <- <-]. }
  run_next. destruct (b64_decode (lf_finish req)) as [up|] eqn:Hup.
  2: { intros [= <- <-]. by rewrite (decide_False (P:=_ ∧ _)) by (intros [_ [? [=]]]). }
  run_next. fold (login_key req). set (d1 := with_login_state (delete (login_key req)) d).
  rewrite (decide_True (P:=is_Some (Some u) ∧ is_Some (Some up))) by eauto.
  destruct (login_state d !! login_key req) as [st|] eqn:Hst.
  2: { by intros [= <- <-]. }
  cbn [fmap option_fmap option_map]. run_next.
  destruct (opaque_login_finish st.1 up) as [key|] eqn:Hk; [|by intros [= <- <-]].
  run_next. rewrite enforce_mfa_required_run. rewrite decide_False by done.
  fold (factor_missing (u_id u) d1).
  change (factor_missing (u_id u) d1) with (factor_missing (u_id u) d).
  destruct (factor_missing (u_id u) d) eqn:Hm; [by intros [= <- <-]|]. unfold mfa_has_totp. run_calls.
  change (mfa_totp_secrets d1) with (mfa_totp_secrets d).
  destruct (mfa_totp_secrets d !! u_id u) as [ts|] eqn:Hts; simpl.
  - fold (pending_hash_of ρ). rewrite finish_pending.
    change (has_user (u_id u) d1) with (has_user (u_id u) d).
    change (live_pending ρ d1) with (live_pending ρ d).
    case_decide as Hfit; intros [= <- <-].
    + rewrite decide_True by naive_solver. split; [done|]. exists u, st, up, key.
      split_and!; try done. by rewrite Hts, decide_True by eauto.
    + rewrite decide_False by naive_solver. split_and!; try done. apply map_filter_subseteq.
  - pose proof (finish_session ρ (u_id u) (b64_encode key)
      (mkLoginFinished (Some (b64_encode key)) (Some (now_ms ρ + 86400000)%Z) None) d1) as Hfin.
    cbv zeta in Hfin. change (has_user (u_id u) d1) with (has_user (u_id u) d) in Hfin.
    destruct (has_user (u_id u) d) eqn:Hx.
    + destruct Hfin as [f ->]. intros [= <- <-].
      rewrite decide_True by (split; [done | by intros [? [=]]]). split; [done|].
      exists u, st, up, key. split_and!; try done.
      rewrite Hts, decide_False by (by intros [? [=]]). split_and!; try done.
      unfold factor_missing in Hm. rewrite Hts in Hm. intros Hq. rewrite Hq in Hm.
      by apply negb_false_iff in Hm.
    + rewrite Hfin. intros [= <- <-]. by rewrite decide_False by (by intros [[=] _]).
Qed.

(** The branch that stores a session. *)
Lemma login_finish_session ρ req d u st up key :
  account_of (lf_username req) d = Some u → login_state d !! login_key req = Some st →
  b64_decode (lf_finish req) = Some up → opaque_login_finish st.1 up = Some key →
  mp_required (policy_in_force d) = false → mfa_totp_secrets d !! u_id u = None →
  has_user (u_id u) d = true →
  ∃ d', login_finish ρ req d =
          (d', Ok (mkLoginFinished (Some (b64_encode key)) (Some (now_ms ρ + 86400000)%Z) None)) ∧
        sessions d' = login_sessions ρ (b64_encode key) (u_id u) d ∧ users d' = users d.
Proof.
  intros Hu Hst Hup Hk Hm Hts Hx.
  unfold login_finish, remove_login_state, decode_b64, mfa_has_totp. run_next.
  rewrite get_user_by_email_run, Hu. run_calls. rewrite Hup. run_next.
  fold (login_key req). rewrite Hst. run_next. cbn [fmap option_fmap option_map]. run_next.
  rewrite Hk. run_next. rewrite enforce_mfa_required_run. set (d1 := with_login_state _ d).
  change (policy_in_force d1) with (policy_in_force d). rewrite Hm. simpl. run_calls.
  change (mfa_totp_secrets d1) with (mfa_totp_secrets d). rewrite Hts. simpl.
  pose proof (finish_session ρ (u_id u) (b64_encode key)
    (mkLoginFinished (Some (b64_encode key)) (Some (now_ms ρ + 86400000)%Z) None) d1) as Hfin.
  cbv zeta in Hfin. change (has_user (u_id u) d1) with (has_user (u_id u) d) in Hfin.
  rewrite Hx in Hfin. destruct Hfin as [f ->]. by eexists.
Qed.

(** A login handle is not bound to the account whose handshake it names:
    [login_start] for an account the client knows the password of, then
    [login_finish] with that handle and another account's name, stores a
    session of the other account (unless it has TOTP or the policy requires a
    factor), and the key the client derived is its bearer token. *)
Theorem login_handle_crosses_accounts ρ1 ρ2 d setup mine theirs me them start lreq sresp st
    finish up key :
  server_setup ρ1 0 d = (d, Ok setup) →
  account_of mine d = Some me → account_of theirs d = Some them →
  b64_decode start = Some lreq →
  opaque_login_start (rand ρ1 1) setup (Some (u_opaque_record me)) lreq (utf8 mine) =
    Some (sresp, st) →
  b64_decode finish = Some up → opaque_login_finish st up = Some key →
  mp_required (policy_in_force d) = false → mfa_totp_secrets d !! u_id them = None →
  users d !! u_id them = Some them → u_suspended_until them = None →
  ∃ d1 resp d2 resp2,
    login_start ρ1 (mkLoginStart mine start) d = (d1, Ok resp) ∧
    login_finish ρ2 (mkLoginFinish theirs finish (Some (ls_handle resp))) d1 = (d2, Ok resp2) ∧
    lf_session_token resp2 = Some (b64_encode key) ∧
    auth_user ρ2 (b64_encode key) d2 = (d2, Ok (u_id them)).
Proof.
  intros Hset Hme Hthem Hst Hls Hfin Hlf Hm Hts Hrow Hsus.
  set (handle := String.append "vtr-lh-" (simple (fresh ρ1 0))).
  set (d1 := with_login_state (λ m, <[mine := (st, now_ms ρ1)]> (<[handle := (st, now_ms ρ1)]>
               (filter (λ kv, (now_ms ρ1 - LOGIN_STATE_TTL_MS ≤ kv.2.2)%Z) m))) d).
  assert (login_start ρ1 (mkLoginStart mine start) d =
          (d1, Ok (mkLoginStarted (b64_encode sresp) handle))) as Hstart.
  { unfold login_start, decode_b64. rewrite bind_run, Hset. cbn [ls_username ls_start]. run_next.
    rewrite get_user_by_email_run, Hme. run_calls. rewrite Hst. run_next. rewrite Hls. by run_next. }
  assert (login_state d1 !! handle = Some (st, now_ms ρ1)) as Hh.
  { unfold d1. db_simpl. destruct (decide (handle = mine)) as [<-|Hne].
    - by rewrite lookup_insert_eq.
    - by rewrite lookup_insert_ne, lookup_insert_eq by done. }
  destruct (login_finish_session ρ2 (mkLoginFinish theirs finish (Some handle)) d1 them
    (st, now_ms ρ1) up key) as (d2 & Hf & Hs & Hus); try done.
  { apply bool_decide_eq_true. exists them. exact Hrow. }
  eexists d1, _, d2, _. split_and!; [exact Hstart | exact Hf | done|].
  apply auth_user_spec. eexists. split_and!.
  - rewrite Hs. apply map_lookup_filter_Some. split; [by rewrite lookup_insert_eq|].
    apply bool_decide_eq_false. simpl. lia.
  - done.
  - simpl. lia.
  - intros u0 until Hu0. rewrite Hus in Hu0. change (users d1) with (users d) in Hu0. congruence.
Qed.
End Gate.

(** ** Witnesses *)
Section AuthWitnesses.
#[local] Existing Instance Concrete.toy_ext.
Local Open Scope Z_scope.

(** Alice has a TOTP secret, an unused recovery code and three pending
    logins. *)
Definition mfa_db : Db :=
  with_pending_mfa (λ _,
    <[pending_hash "p1" := mkPending "alice" 0 100000000 0]>
    (<[pending_hash "p2" := mkPending "alice" 0 100000000 0]>
     (<[pending_hash "p3" := mkPending "alice" 0 100000000 0]> ∅)))
  (with_mfa_recovery_codes (insert ("alice", recovery_code_hash "ABCD-EFGH")
                              (mkRecoveryCode false 0))
    (with_mfa_totp_secrets (insert "alice" (mkTotpSecret (Concrete.bytes_of "s") "b" 0 0))
      Concrete.demo_db)).

Definition at_step (n : Z) : Env := Concrete.demo_env (n * 30000).
Definition code_of (n : Z) : string := Concrete.code_at (Concrete.bytes_of "s") (n * 30).

Lemma totp_step_accepted_once_witness : 500 ≠ 501.
Proof.
  apply (totp_step_accepted_once (at_step 500) (mkVerifyLogin "p1" (code_of 500)) mfa_db "alice"
           500 [(at_step 500, VerifyLoginTotp (mkVerifyLogin "p2" (code_of 500)))]
           (at_step 501) (mkVerifyLogin "p3" (code_of 501)) 501).
  - split; vm_compute; reflexivity.
  - vm_compute. repeat split; discriminate.
  - split; vm_compute; reflexivity.
Defined.

Lemma totp_guesses_bounded_witness :
  wrong_guesses "alice"
    [(at_step 500, VerifyLoginTotp (mkVerifyLogin "p1" "no"));
     (at_step 501, VerifyLoginTotp (mkVerifyLogin "p2" "no"))] mfa_db
    ≤ 5 + (501 * 30000 - 0) / LOCK_MS.
Proof.
  apply (totp_guesses_bounded "alice" _ mfa_db (Concrete.demo_user "alice" 2) 0 (501 * 30000)).
  - vm_compute. reflexivity.
  - vm_compute. discriminate.
  - vm_compute. repeat split; discriminate.
  - vm_compute. discriminate.
  - repeat constructor; vm_compute; discriminate.
  - split; [vm_compute; reflexivity | split; [vm_compute; reflexivity | exact I]].
Defined.

Lemma recovery_code_single_use_witness :
  ∃ e, (verify_login_recovery (at_step 2) (mkRecoveryLogin "p2" " abcd-efgh ")
          (run [(at_step 2, LoginFinish (mkLoginFinish "x" "y" None))]
             (verify_login_recovery (at_step 1) (mkRecoveryLogin "p1" "ABCD-EFGH") mfa_db).1)).2
         = Err e ∧ e ∈ [invalid_pending_token; invalid_recovery_code].
Proof.
  eapply (recovery_code_single_use (at_step 1) (mkRecoveryLogin "p1" "ABCD-EFGH") mfa_db
            (verify_login_recovery (at_step 1) (mkRecoveryLogin "p1" "ABCD-EFGH") mfa_db).1
            (mkLoginFinished (Some "vtr-session-n0") (Some (30000 + SESSION_MS)) None) "alice").
  - vm_compute. reflexivity.
  - vm_compute. reflexivity.
  - vm_compute. reflexivity.
  - vm_compute. reflexivity.
Defined.

Definition login_db : Db :=
  with_server_config (insert SETUP_KEY [x01]) Concrete.demo_db.

Lemma login_handle_crosses_accounts_witness :
  ∃ d1 resp d2 resp2,
    login_start (at_step 1) (mkLoginStart "alice@example.org" "=q") login_db = (d1, Ok resp) ∧
    login_finish (at_step 2) (mkLoginFinish "bob@example.org" "=q" (Some (ls_handle resp))) d1 =
      (d2, Ok resp2) ∧
    lf_session_token resp2 = Some (b64_encode (Concrete.bytes_of "q")) ∧
    auth_user (at_step 2) (b64_encode (Concrete.bytes_of "q")) d2 =
      (d2, Ok (u_id (Concrete.demo_user "bob" 1))).
Proof.
  apply (login_handle_crosses_accounts (at_step 1) (at_step 2) login_db [x01]
           "alice@example.org" "bob@example.org" (Concrete.demo_user "alice" 2)
           (Concrete.demo_user "bob" 1) "=q" (Concrete.bytes_of "q") (rand (at_step 1) 1)
           (Concrete.bytes_of "q") "=q" (Concrete.bytes_of "q") (Concrete.bytes_of "q"));
    vm_compute; reflexivity.
Defined.
End AuthWitnesses.
