(* ===== verification/Recovery.v ===== *)
(** * Emergency recovery, reclaim and deletion

    Models [repository/recovery.rs] and [handlers/recovery.rs]: the recovery-key
    challenge, the one-time recovery session, credential replacement, the
    reclaim suspension and the account deletion. *)
From S2P Require Import Prelude Domain Database Concrete Users Projects Mfa Auth.
From Stdlib Require Import Strings.Byte.

Section Recovery.
Context `{Ext}.

(** ** repository/recovery.rs *)

Definition set_rk_public_key (user_id : string) (pk : blob) : sql unit :=
  update_user user_id (set_rk_key (Some pk)).

Definition get_rk_public_key (user_id : string) : sql (option blob) :=
  gets (λ d, u ← users d !! user_id; u_rk_public_key u).

Definition complete_recovery (user_id : string) (opaque_record kdf_salt svk svk_rk pk : blob)
    (now : Z) : sql unit :=
  update_user user_id (λ u,
    set_updated_at now (set_rk_key (Some pk)
      (set_svk svk svk_rk (set_credentials opaque_record kdf_salt u)))).

Definition revoke_user_sessions (user_id : string) : sql unit :=
  delete_where sessions with_sessions (λ kr, bool_decide (s_user_id kr.2 = user_id));;
  mret ().

Definition create_recovery_session (token user_id : string) (expires_at now : Z) : sql unit :=
  insert_row recovery_sessions with_recovery_sessions (has_user user_id)
    (hash_session_token token) (mkRecoverySession user_id expires_at now 1).

Definition consume_recovery_session (token : string) : sql (option (string * Z)) :=
  transaction (
    let token_hash := hash_session_token token in
    o ← gets (λ d, (λ r, (rs_user_id r, rs_expires_at r)) <$> recovery_sessions d !! token_hash);
    (match o with
     | Some _ =>
         delete_where recovery_sessions with_recovery_sessions
           (λ kr, bool_decide (kr.1 = token_hash));; mret ()
     | None => mret ()
     end);;
    mret o).

Definition store_reclaim (user_id reclaim_token : string) (suspended_until : Z) : sql unit :=
  update_user user_id
    (set_reclaim (Some (hash_session_token reclaim_token)) (Some suspended_until)).

Definition get_user_by_reclaim_token (token : string) : sql (option (string * string)) :=
  gets (λ d, (λ u, (u_id u, u_email u)) <$>
               head (filter (λ u, u_reclaim_token u = Some (hash_session_token token))
                       (rows (users d)))).

Definition clear_reclaim (user_id : string) : sql unit :=
  update_user user_id (set_reclaim None None).

Definition store_recovery_challenge (user_id : string) (nonce : blob) (expires_at now : Z)
    : sql unit :=
  upsert_row recovery_challenges with_recovery_challenges (has_user user_id) user_id
    (mkChallenge nonce expires_at now) (λ _, mkChallenge nonce expires_at now).

Definition get_recovery_challenge (user_id : string) : sql (option (blob * Z)) :=
  gets (λ d, (λ c, (ch_nonce c, ch_expires_at c)) <$> recovery_challenges d !! user_id).

Definition delete_recovery_challenge (user_id : string) : sql unit :=
  delete_where recovery_challenges with_recovery_challenges
    (λ kr, bool_decide (kr.1 = user_id));; mret ().

Definition peek_recovery_session (ρ : Env) (token : string) : sql (option (string * Z)) :=
  gets (λ d,
    r ← recovery_sessions d !! hash_session_token token;
    if bool_decide (rs_one_time_use r = 1)%Z && bool_decide (rs_expires_at r > now_ms ρ)%Z
    then Some (rs_user_id r, rs_expires_at r) else None).

(** The schema's mismatched foreign keys keep SQLite from preparing this
    statement ([Schema.refused_tables]), so its cascade never runs and is not
    modelled. *)
Definition delete_account_rows (user_id : string) : sql unit :=
  prepare_delete "users";;
  delete_where users with_users (λ kr, bool_decide (kr.1 = user_id));; mret ().

(** ** handlers/recovery.rs *)

Definition RECOVERY_TOKEN_TTL_MS : Z := 600000.
Definition RECLAIM_SUSPENSION_MS : Z := 30 * 24 * 3600000.
Definition CHALLENGE_TTL_MS : Z := 5 * 60 * 1000.

Record VerifyReq := mkVerifyReq {
  vr_email : string;
  vr_nonce : option string;
  vr_signature : string;
}.
Record VerifyResp := mkVerifyResp { vr_recovery_token : string; vr_expires_at : Z }.
Record CompleteReq := mkCompleteReq {
  cr_recovery_token : string;
  cr_opaque_record : string;
  cr_kdf_salt : string;
  cr_svk : string;
  cr_svk_rk : string;
  cr_rk_public_key : string;
}.
Record ReclaimReq := mkReclaimReq { rq_email : string; rq_signature : string }.
Record ReclaimResp := mkReclaimResp { rq_status : string; rq_reclaim_token : option string }.
Record RecoverInfoResp := mkRecoverInfo { ri_svk_rk : string; ri_user_id : string }.

Definition verification_failed : ApiError := Api.bad_request "verification_failed".

(** The response is the base64 nonce. *)
Definition recover_challenge (ρ : Env) (email : string) : handler string :=
  let nonce := rand ρ 0 in
  o ← call (get_user_by_email email);
  (match o with
   | Some user =>
       call (store_recovery_challenge (u_id user) nonce (now_ms ρ + CHALLENGE_TTL_MS) (now_ms ρ))
   | None => mret ()
   end);;
  mret (b64_encode nonce).

(** The optional echo of the nonce. *)
Definition check_echo (echo : option string) (stored_nonce : blob) : handler unit :=
  match echo with
  | Some echo =>
      n ← decode_b64 echo;
      guard_err (bool_decide (n ≠ stored_nonce)) verification_failed
  | None => mret ()
  end.

Definition recover_verify (ρ : Env) (req : VerifyReq) : handler VerifyResp :=
  o ← call (get_user_by_email (vr_email req));
  user ← ok_or verification_failed o;
  o ← call (get_rk_public_key (u_id user));
  pk_bytes ← ok_or verification_failed o;
  guard_err (bool_decide (length pk_bytes ≠ 32)) verification_failed;;
  o ← call (get_recovery_challenge (u_id user));
  c ← ok_or verification_failed o;
  let '(stored_nonce, expires_at) := c in
  (if bool_decide (now_ms ρ > expires_at)%Z then
     ignore (delete_recovery_challenge (u_id user));;
     throw verification_failed
   else mret ());;
  check_echo (vr_nonce req) stored_nonce;;
  sig_bytes ← decode_b64 (vr_signature req);
  guard_err (bool_decide (length sig_bytes ≠ 64)) verification_failed;;
  guard_err (negb (ed25519_key_ok pk_bytes)) verification_failed;;
  guard_err (negb (ed25519_verify pk_bytes stored_nonce sig_bytes)) verification_failed;;
  call (delete_recovery_challenge (u_id user));;
  let token := fresh ρ 0 in
  let now := now_ms ρ in
  let expires_at := (now + RECOVERY_TOKEN_TTL_MS)%Z in
  call (create_recovery_session token (u_id user) expires_at now);;
  mret (mkVerifyResp token expires_at).

Definition recover_complete (ρ : Env) (req : CompleteReq) : handler string :=
  o ← call (consume_recovery_session (cr_recovery_token req));
  s ← ok_or Api.unauthorized o;
  let '(user_id, expires_at) := s in
  guard_err (bool_decide (expires_at < now_ms ρ)%Z) Api.unauthorized;;
  opaque_record ← decode_b64 (cr_opaque_record req);
  kdf_salt ← decode_b64 (cr_kdf_salt req);
  svk_mp ← decode_b64 (cr_svk req);
  svk_rk ← decode_b64 (cr_svk_rk req);
  rk_pk ← decode_b64 (cr_rk_public_key req);
  guard_err (bool_decide (length rk_pk ≠ 32)) (Api.bad_request "invalid_rk_key");;
  call (complete_recovery user_id opaque_record kdf_salt svk_mp svk_rk rk_pk (now_ms ρ));;
  call (revoke_user_sessions user_id);;
  mret "success".

(** The closure [proof_ok] of [reclaim]. *)
Definition reclaim_proof (ρ : Env) (user_id signature : string) : handler bool :=
  o ← call (get_rk_public_key user_id);
  match o with
  | None => mret false
  | Some pk_bytes =>
      if bool_decide (length pk_bytes ≠ 32) then mret false
      else
        o ← call (get_recovery_challenge user_id);
        match o with
        | None => mret false
        | Some (nonce, expires_at) =>
            if bool_decide (now_ms ρ > expires_at)%Z then
              ignore (delete_recovery_challenge user_id);;
              mret false
            else
              sig_bytes ← decode_b64 signature;
              if bool_decide (length sig_bytes ≠ 64) then mret false
              else if negb (ed25519_key_ok pk_bytes) then mret false
              else mret (ed25519_verify pk_bytes nonce sig_bytes)
        end
  end.

Definition reclaim (ρ : Env) (req : ReclaimReq) : handler ReclaimResp :=
  o ← call (get_user_by_email (rq_email req));
  match o with
  | None => mret (mkReclaimResp "verification_required" None)
  | Some user =>
      proof_ok ← reclaim_proof ρ (u_id user) (rq_signature req);
      if negb proof_ok then mret (mkReclaimResp "verification_required" None)
      else
        ignore (delete_recovery_challenge (u_id user));;
        let token := fresh ρ 0 in
        call (store_reclaim (u_id user) token (now_ms ρ + RECLAIM_SUSPENSION_MS));;
        mret (mkReclaimResp "verification_required" (Some token))
  end.

Definition reclaim_confirm (ρ : Env) (token : string) : handler string :=
  o ← call (get_user_by_reclaim_token token);
  u ← ok_or Api.unauthorized o;
  call (clear_reclaim (fst u));;
  mret "success".

Definition delete_account (ρ : Env) (auth : string) : handler string :=
  user_id ← auth_user ρ auth;
  call (delete_account_rows user_id);;
  mret "success".

Definition recover_info (ρ : Env) (token : string) : handler RecoverInfoResp :=
  o ← call (peek_recovery_session ρ token);
  s ← ok_or Api.unauthorized o;
  o ← call (get_user_by_id (fst s));
  user ← ok_or Api.unauthorized o;
  mret (mkRecoverInfo (b64_encode (u_svk_ciphertext_blob_rk user)) (fst s)).

Inductive RecoveryRequest :=
| RecoverChallenge (email : string)
| RecoverVerify (req : VerifyReq)
| RecoverInfo (token : string)
| RecoverComplete (req : CompleteReq)
| Reclaim (req : ReclaimReq)
| ReclaimConfirm (token : string)
| DeleteAccount (auth : string).

Definition serve_recovery (ρ : Env) (q : RecoveryRequest) : handler unit :=
  match q with
  | RecoverChallenge e => recover_challenge ρ e;; mret ()
  | RecoverVerify r => recover_verify ρ r;; mret ()
  | RecoverInfo t => recover_info ρ t;; mret ()
  | RecoverComplete r => recover_complete ρ r;; mret ()
  | Reclaim r => reclaim ρ r;; mret ()
  | ReclaimConfirm t => reclaim_confirm ρ t;; mret ()
  | DeleteAccount a => delete_account ρ a;; mret ()
  end.
End Recovery.

(** ** Proof of possession *)
Section RecoveryProofs.
Context `{Ext}.

Definition rk_of (u : string) (d : Db) : option blob := row ← users d !! u; u_rk_public_key row.

(** The account proved possession of its recovery key: a signature, under the
    stored key, of the nonce the server stored for it. *)
Definition proves_possession (ρ : Env) (user_id signature : string) (d : Db) : Prop :=
  ∃ pk c sig,
    rk_of user_id d = Some pk ∧ length pk = 32 ∧
    recovery_challenges d !! user_id = Some c ∧ (now_ms ρ ≤ ch_expires_at c)%Z ∧
    b64_decode signature = Some sig ∧ length sig = 64 ∧
    ed25519_key_ok pk = true ∧ ed25519_verify pk (ch_nonce c) sig = true.

Definition frame (d d' : Db) : Prop :=
  users d' = users d ∧ sessions d' = sessions d.

#[local] Instance frame_preorder : PreOrder frame.
Proof. split; unfold frame; [done | intros d1 d2 d3 [] []; split; congruence]. Qed.

(** The nonce the request repeats, if it does, is the stored one. *)
Definition echo_ok (req : VerifyReq) (user_id : string) (d : Db) : Prop :=
  ∀ echo c, vr_nonce req = Some echo → recovery_challenges d !! user_id = Some c →
            b64_decode echo = Some (ch_nonce c).

(** The table takes the new token: it is not there yet, and its account is. *)
Definition token_fits (ρ : Env) (user_id : string) (d : Db) : Prop :=
  recovery_sessions d !! hash_session_token (fresh ρ 0) = None ∧ has_user user_id d = true.

Definition possession_shown (ρ : Env) (req : VerifyReq) (u : UserRow) (d : Db) : Prop :=
  account_of (vr_email req) d = Some u ∧ proves_possession ρ (u_id u) (vr_signature req) d ∧
  echo_ok req (u_id u) d.

Lemma check_echo_run req u c d :
  recovery_challenges d !! u = Some c →
  (check_echo (vr_nonce req) (ch_nonce c) d = (d, Ok ()) ∧ echo_ok req u d) ∨
  (¬ echo_ok req u d ∧ ∃ e, check_echo (vr_nonce req) (ch_nonce c) d = (d, Err e)).
Proof.
  intros Hc. unfold check_echo, decode_b64, echo_ok. destruct (vr_nonce req) as [echo|]; [|by left].
  run_next. destruct (b64_decode echo) as [n|] eqn:Hn.
  2: { right. split; [|by eexists]. intros He. specialize (He _ _ eq_refl Hc). congruence. }
  run_next. case_bool_decide as Hne; [right | left]; (split; [|try by eexists]).
  - intros He. specialize (He _ _ eq_refl Hc). congruence.
  - done.
  - intros ? ? [= <-] ?. congruence.
Qed.

(** What there is to prove on a refusal that leaves the challenges alone. *)
Local Ltac refused := split_and!; try done; [|by left].

(** C19. [recover_verify], completely: a recovery token is minted exactly when
    the account proves possession of its recovery key over the stored,
    unexpired nonce, which the request repeats if it names one, and the table
    takes the token; the challenge is consumed, so the same signature mints no
    second token.  Every other request mints nothing and leaves the
    challenges as they were, but for one that has expired (or one whose proof
    held and whose token the table did not take).  Accounts and sessions are
    not touched either way. *)
Theorem recover_verify_exact ρ req d :
  let '(d', r) := recover_verify ρ req d in
  frame d d' ∧
  match r with
  | Ok resp =>
      ∃ u, possession_shown ρ req u d ∧ token_fits ρ (u_id u) d ∧
        recovery_challenges d' = delete (u_id u) (recovery_challenges d) ∧
        resp = mkVerifyResp (fresh ρ 0) (now_ms ρ + RECOVERY_TOKEN_TTL_MS) ∧
        recovery_sessions d' =
          <[hash_session_token (fresh ρ 0) :=
              mkRecoverySession (u_id u) (now_ms ρ + RECOVERY_TOKEN_TTL_MS) (now_ms ρ) 1]>
            (recovery_sessions d)
  | Err e =>
      recovery_sessions d' = recovery_sessions d ∧
      (∀ u, possession_shown ρ req u d → ¬ token_fits ρ (u_id u) d) ∧
      (recovery_challenges d' = recovery_challenges d ∨
       ∃ u c, account_of (vr_email req) d = Some u ∧ recovery_challenges d !! u_id u = Some c ∧
         ((ch_expires_at c < now_ms ρ)%Z ∧ e = verification_failed ∨
          possession_shown ρ req u d ∧ e = Api.internal) ∧
         recovery_challenges d' = delete (u_id u) (recovery_challenges d))
  end.
Proof.
  unfold recover_verify, get_rk_public_key, get_recovery_challenge, decode_b64,
    delete_recovery_challenge, create_recovery_session. run_next.
  rewrite get_user_by_email_run. run_calls.
  assert (∀ u pk c, account_of (vr_email req) d = Some u → rk_of (u_id u) d = Some pk →
    recovery_challenges d !! u_id u = Some c → ∀ v, possession_shown ρ req v d →
    length pk = 32 ∧ (now_ms ρ ≤ ch_expires_at c)%Z ∧ echo_ok req (u_id u) d ∧
    ∃ sig, b64_decode (vr_signature req) = Some sig ∧ length sig = 64 ∧
      ed25519_key_ok pk = true ∧ ed25519_verify pk (ch_nonce c) sig = true) as Hinv.
  { intros u pk c Hu Hpk Hc v (Hv & (pk' & c' & sig & H1 & H2 & H3 & H4 & H5 & H6 & H7 & H8) & He).
    assert (v = u) as -> by congruence. rewrite Hpk in H1. rewrite Hc in H3. simplify_eq. eauto 10. }
  destruct (account_of (vr_email req) d) as [u|] eqn:Hu.
  2: { refused. intros v (Hx & _). congruence. }
  run_calls. fold (rk_of (u_id u) d). destruct (rk_of (u_id u) d) as [pk|] eqn:Hpk.
  2: { refused. intros v (Hx & (pk & c & sg & Hy & _) & _). congruence. }
  run_calls. destruct (recovery_challenges d !! u_id u) as [c|] eqn:Hc.
  2: { case_bool_decide; (refused; intros v (Hx & (pk' & c & sg & _ & _ & Hy & _) & _); congruence). }
  specialize (Hinv u pk c eq_refl Hpk Hc).
  case_bool_decide as Hlen.
  { refused. intros v Hv. by destruct (Hinv v Hv) as [? _]. }
  cbn [fmap option_fmap option_map]. run_calls.
  case_bool_decide as Hexp.
  { run_calls. rewrite delete_where_run. cbn [fst]. run_calls. split_and!; try done.
    - intros v Hv. destruct (Hinv v Hv) as (_ & ? & _). lia.
    - right. exists u, c. split_and!; try done; [left; split; [lia | done] | apply filter_key_delete]. }
  run_calls. destruct (check_echo_run req (u_id u) c d Hc) as [[-> Hecho] | [Hecho [e ->]]].
  2: { refused. intros v Hv. destruct (Hinv v Hv) as (_ & _ & ? & _). done. }
  run_calls. destruct (b64_decode (vr_signature req)) as [sg|] eqn:Hsg.
  2: { refused. intros v Hv. by destruct (Hinv v Hv) as (_ & _ & _ & ? & [=] & _). }
  run_calls. case_bool_decide as Hl.
  { refused. intros v Hv. by destruct (Hinv v Hv) as (_ & _ & _ & ? & [= <-] & ? & _). }
  run_calls. destruct (ed25519_key_ok pk) eqn:Hk.
  2: { refused. intros v Hv. by destruct (Hinv v Hv) as (_ & _ & _ & ? & _ & _ & [=] & _). }
  cbn [negb]. run_calls. destruct (ed25519_verify pk (ch_nonce c) sg) eqn:Hver.
  2: { refused. intros v Hv. destruct (Hinv v Hv) as (_ & _ & _ & ? & [= <-] & _ & _ & ?). congruence. }
  cbn [negb]. run_calls. rewrite delete_where_run. run_calls. rewrite insert_row_run.
  assert (possession_shown ρ req u d) as Hshown.
  { split_and!; [done | | done]. exists pk, c, sg. split_and!; try done; lia. }
  assert (∀ v, possession_shown ρ req v d → v = u) as Honly by (intros v [Hv _]; congruence).
  destruct (recovery_sessions _ !! _) as [r|] eqn:Hfresh; [|destruct (has_user _ _) eqn:Hx].
  - split_and!; try done; [intros v ->%Honly [Hy _]; change (recovery_sessions d !! hash_session_token (fresh ρ 0) = Some r) in Hfresh; congruence|].
    right. exists u, c. split_and!; try done; [by right | apply filter_key_delete].
  - run_calls. split; [done|]. exists u. split_and!; try done. apply filter_key_delete.
  - split_and!; try done; [intros v ->%Honly [_ Hy]; change (has_user (u_id u) d = false) in Hx; congruence|].
    right. exists u, c. split_and!; try done; [by right | apply filter_key_delete].
Qed.

Lemma consume_run token d :
  let h := hash_session_token token in
  consume_recovery_session token d =
  match recovery_sessions d !! h with
  | Some s => (with_recovery_sessions (filter (λ kr, bool_decide (kr.1 = h) = false)) d,
               Ok (Some (rs_user_id s, rs_expires_at s)))
  | None => (d, Ok None)
  end.
Proof.
  intros h. unfold consume_recovery_session. fold h. rewrite transaction_run. run_next.
  destruct (recovery_sessions d !! h) as [s|]; cbn [fmap option_fmap option_map]; [|done].
  run_next. rewrite delete_where_run. by run_next.
Qed.

Lemma consumed_gone h d :
  recovery_sessions (with_recovery_sessions (filter (λ kr, bool_decide (kr.1 = h) = false)) d) !! h
    = None.
Proof.
  db_simpl. apply map_lookup_filter_None. right. intros r _. simpl. by rewrite bool_decide_true.
Qed.

(** The row after recovery: every credential replaced, nothing else. *)
Definition recovered (now : Z) (rec salt svk svk_rk pk : blob) (u : UserRow) : UserRow :=
  mkUser (u_id u) (u_email u) salt rec svk svk_rk (u_min_enc_key_gen u) (u_created_at u) now
    (Some pk) (u_reclaim_token u) (u_suspended_until u) (u_totp_fail_count u)
    (u_totp_lock_until u).

(** Completing a recovery needs a live recovery token, which the attempt
    spends even when it fails.  On success the account's OPAQUE record, salt,
    wrapped keys and recovery key are replaced in one step and exactly its
    sessions are revoked; on failure accounts and sessions are untouched. *)
Theorem recover_complete_exact ρ req d :
  let h := hash_session_token (cr_recovery_token req) in
  match recover_complete ρ req d with
  | (d', Ok _) =>
      ∃ s rec salt svk svk_rk pk,
        recovery_sessions d !! h = Some s ∧ (now_ms ρ ≤ rs_expires_at s)%Z ∧
        b64_decode (cr_opaque_record req) = Some rec ∧ b64_decode (cr_kdf_salt req) = Some salt ∧
        b64_decode (cr_svk req) = Some svk ∧ b64_decode (cr_svk_rk req) = Some svk_rk ∧
        b64_decode (cr_rk_public_key req) = Some pk ∧ length pk = 32 ∧
        users d' = alter (recovered (now_ms ρ) rec salt svk svk_rk pk) (rs_user_id s) (users d) ∧
        (∀ k row, sessions d' !! k = Some row ↔
                  sessions d !! k = Some row ∧ s_user_id row ≠ rs_user_id s) ∧
        recovery_sessions d' !! h = None
  | (d', Err _) => frame d d' ∧ recovery_sessions d' !! h = None
  end.
Proof.
  intros h. unfold recover_complete, decode_b64. run_next. rewrite consume_run. fold h.
  destruct (recovery_sessions d !! h) as [s|] eqn:Hs; [|done]. cbn [map_res]. run_calls.
  pose proof (consumed_gone h d) as Hg.
  set (d1 := with_recovery_sessions _ d) in *.
  case_bool_decide as He; [done|]. run_calls.
  destruct (b64_decode (cr_opaque_record req)) as [rec|] eqn:H1; [|done]. run_calls.
  destruct (b64_decode (cr_kdf_salt req)) as [salt|] eqn:H2; [|done]. run_calls.
  destruct (b64_decode (cr_svk req)) as [svk|] eqn:H3; [|done]. run_calls.
  destruct (b64_decode (cr_svk_rk req)) as [svk_rk|] eqn:H4; [|done]. run_calls.
  destruct (b64_decode (cr_rk_public_key req)) as [pk|] eqn:H5; [|done]. run_calls.
  case_bool_decide as Hl; [done|]. unfold complete_recovery, revoke_user_sessions, update_user.
  run_calls. rewrite update_key_run. run_calls. rewrite delete_where_run. run_calls.
  exists s, rec, salt, svk, svk_rk, pk. split_and!; try done; [lia |].
  intros k row. db_simpl. rewrite map_lookup_filter_Some, bool_decide_eq_false. done.
Qed.
End RecoveryProofs.

(** Deleting an account fails for everybody. *)
Lemma delete_account_run `{Ext} ρ auth d :
  (∃ e, delete_account ρ auth d = (d, Err e)) ∧
  ∀ u, session_valid d (now_ms ρ) auth u → delete_account ρ auth d = (d, Err Api.internal).
Proof.
  assert (∀ u, (call (delete_account_rows u);; mret "success") d = (d, Err Api.internal)) as Hd.
  { intros u. unfold delete_account_rows. rewrite bind_run, map_err_run, bind_run.
    by rewrite delete_users_refused. }
  unfold delete_account. split.
  - match goal with |- context [(_ ≫= ?f) d] =>
      destruct (auth_user_bind ρ auth f d) as [(u & _ & ->) | (e & _ & ->)]; [rewrite Hd|]; eauto
    end.
  - intros u Hv. by rewrite (auth_user_ok_bind ρ auth u), Hd.
Qed.

(** ** What the flows reveal and keep *)
Section RecoveryFindings.
Context `{Ext}.

(** A malformed signature tells a registered account with a recovery key from
    an unknown one: the decoding error is not the uniform answer. *)
Theorem recover_verify_enumerates ρ1 ρ2 email unknown u pk d :
  account_of email d = Some u → account_of unknown d = None →
  rk_of (u_id u) d = Some pk → length pk = 32 → has_user (u_id u) d = true →
  (now_ms ρ2 ≤ now_ms ρ1 + CHALLENGE_TTL_MS)%Z → b64_decode "!" = None →
  (recover_verify ρ2 (mkVerifyReq email None "!") (recover_challenge ρ1 email d).1).2 =
    Err (Api.bad_request "invalid_base64") ∧
  (recover_verify ρ2 (mkVerifyReq unknown None "!") (recover_challenge ρ1 unknown d).1).2 =
    Err verification_failed.
Proof.
  intros Hu Hn Hpk Hlen Hx Hexp Hb. split.
  - unfold recover_challenge, store_recovery_challenge. run_next.
    rewrite get_user_by_email_run, Hu. run_calls. rewrite upsert_row_run, Hx. run_calls.
    cbn [fst]. set (d1 := with_recovery_challenges _ d).
    assert (∃ c, recovery_challenges d1 !! u_id u = Some c ∧
                 ch_expires_at c = (now_ms ρ1 + CHALLENGE_TTL_MS)%Z) as (c & Hc & He).
    { unfold d1. db_simpl. rewrite lookup_insert_eq. by destruct (_ !! u_id u); eexists. }
    unfold recover_verify, get_rk_public_key, get_recovery_challenge, decode_b64. run_next.
    rewrite get_user_by_email_run. change (account_of _ d1) with (account_of email d).
    rewrite Hu. run_calls.
    change (u0 ← users d1 !! u_id u; u_rk_public_key u0) with (rk_of (u_id u) d).
    rewrite Hpk. run_calls. rewrite bool_decide_false by lia. run_calls. rewrite Hc.
    cbn [fmap option_fmap option_map]. run_calls. rewrite He, bool_decide_false by lia. run_calls.
    cbn [vr_nonce check_echo vr_signature]. run_calls. by rewrite Hb.
  - assert ((recover_challenge ρ1 unknown d).1 = d) as ->.
    { unfold recover_challenge. run_next. rewrite get_user_by_email_run, Hn. by run_calls. }
    unfold recover_verify. run_next. rewrite get_user_by_email_run. cbn [vr_email]. by rewrite Hn.
Qed.

Lemma account_of_some email d v row :
  users d !! v = Some row → u_email row = email → is_Some (account_of email d).
Proof.
  intros Hv He. unfold account_of, rows.
  assert (row ∈ filter (λ u, u_email u = email) ((map_to_list (users d)).*2)) as Hin.
  { apply list_elem_of_filter. split; [done|]. apply list_elem_of_fmap. exists (v, row).
    split; [done|]. by apply elem_of_map_to_list. }
  destruct (filter _ _); [by apply not_elem_of_nil in Hin | by eexists].
Qed.

Lemma users_server_setup ρ n : steps (same users) (server_setup ρ n).
Proof. unfold server_setup, get_config, set_config. steps_tables idtac; done. Qed.

Lemma users_server_public_key ρ n : steps (same users) (server_public_key ρ n).
Proof. unfold server_public_key, get_config, set_config. steps_tables idtac; done. Qed.

(** Registration never takes an e-mail an account has. *)
Lemma register_finish_taken ρ req d :
  is_Some (account_of (rgf_username req) d) → is_ok (register_finish ρ req d).2 = false.
Proof.
  intros [u Hu]. destruct (register_finish ρ req d) as [d' [resp|e]] eqn:Hr; [exfalso | done].
  unfold register_finish, decode_b64 in Hr. ok_inv Hr.
  match goal with
  | H1 : server_setup _ _ _ = (?x, _), H2 : server_public_key _ _ ?x = (?y, _),
    H3 : get_user_by_email _ ?y = (_, Ok ?o), H4 : bool_decide (is_Some ?o) = false |- _ =>
      pose proof (users_server_setup ρ 0 d) as E1; rewrite H1 in E1;
      pose proof (users_server_public_key ρ 1 x) as E2; rewrite H2 in E2;
      rewrite get_user_by_email_run in H3; injection H3 as <- <-;
      apply bool_decide_eq_false in H4; apply H4
  end.
  unfold same in *. simpl in E1, E2. unfold account_of in *. rewrite E2, E1. eauto.
Qed.

(** Confirming a reclaim lifts the suspension and nothing else: the row
    keeps its e-mail, so the address cannot be registered for a fresh
    vault. *)
Theorem reclaim_confirm_keeps_email ρ token d d' r :
  reclaim_confirm ρ token d = (d', Ok r) →
  ∃ u, u ∈ rows (users d) ∧ u_reclaim_token u = Some (hash_session_token token) ∧
    users d' = alter (set_reclaim None None) (u_id u) (users d) ∧
    ∀ row ρ2 req,
      users d !! u_id u = Some row → rgf_username req = u_email row →
      is_ok (register_finish ρ2 req d').2 = false.
Proof.
  unfold reclaim_confirm, get_user_by_reclaim_token, clear_reclaim, update_user.
  intros Hr. ok_inv Hr.
  match goal with Ho : _ <$> head ?l = Some _ |- _ => destruct (head l) as [u|] eqn:Hh; [|done];
    injection Ho as <- end.
  apply head_Some_elem_of, list_elem_of_filter in Hh as [Ht Hin].
  match goal with Hu : update_key _ _ _ _ _ = _ |- _ => apply update_key_ok in Hu; subst end.
  exists u. split_and!; try done. intros row ρ2 req Hrow He. apply register_finish_taken.
  apply (account_of_some _ _ (u_id u) (set_reclaim None None row)); [|done].
  change (alter (set_reclaim None None) (u_id u) (users d) !! u_id u =
          Some (set_reclaim None None row)).
  by rewrite lookup_alter_eq, Hrow.
Qed.
End RecoveryFindings.

(** ** Witnesses *)
Section RecoveryWitnesses.
#[local] Existing Instance Concrete.toy_ext.

(** Alice's vault is suspended for a reclaim. *)
Definition reclaim_db : Db :=
  with_users (alter (set_reclaim (Some (hash_session_token "t")) (Some 5000%Z)) "alice")
    Concrete.demo_db.

Lemma reclaim_confirm_keeps_email_witness :
  ∃ u, u ∈ rows (users reclaim_db) ∧ u_reclaim_token u = Some (hash_session_token "t") ∧
    users (reclaim_confirm (Concrete.demo_env 100) "t" reclaim_db).1 =
      alter (set_reclaim None None) (u_id u) (users reclaim_db) ∧
    ∀ row ρ2 req,
      users reclaim_db !! u_id u = Some row → rgf_username req = u_email row →
      is_ok (register_finish ρ2 req
               (reclaim_confirm (Concrete.demo_env 100) "t" reclaim_db).1).2 = false.
Proof.
  apply (reclaim_confirm_keeps_email (Concrete.demo_env 100) "t" reclaim_db _ "success").
  vm_compute. reflexivity.
Defined.
End RecoveryWitnesses.
