(* ===== verification/Account.v ===== *)
(** * Key management

    Models [handlers/account.rs]: the account status, the key-rotation epoch
    and the re-wrap of the vault key. *)
From S2P Require Import Prelude Domain Database Concrete Users Projects Mfa Auth Recovery.

Section Account.
Context `{Ext}.

(** [WebauthnService::is_second_factor_satisfied]. *)
Definition is_second_factor_satisfied (session_token : string) : handler bool :=
  gets (λ d, bool_decide (session_token ∈ webauthn_verified d)).

Record AccountStatusResp := mkAccountStatus {
  as_min_enc_key_gen : Z;
  as_svk_ciphertext_blob : string;
  as_second_factor_required : bool;
  as_second_factor_method : option string;
  as_user_id : string;
}.
Record RotateKeyReq := mkRotateKey { rk_new_min_enc_key_gen : Z; rk_new_svk : string }.
Record RotateKeyResp := mkRotated { rk_status : string; rk_min_enc_key_gen : Z }.

Definition invalid_blob_size : ApiError := Api.bad_request "invalid_blob_size".

Definition bad_blob_size (b : blob) : bool :=
  bool_decide (b = []) || bool_decide (4096 < Z.of_nat (length b))%Z.

Definition account_status (ρ : Env) (auth : string) : handler AccountStatusResp :=
  user_id ← auth_user ρ auth;
  o ← call (get_user_by_id user_id);
  user ← ok_or (Api.bad_request "not_found") o;
  has_creds ← call (webauthn_has_credentials user_id);
  satisfied ← is_second_factor_satisfied auth;
  if (has_creds : bool) && negb satisfied then
    mret (mkAccountStatus (u_min_enc_key_gen user) EmptyString true (Some "webauthn") user_id)
  else
    policy ← call mfa_get_policy;
    second_factor_method ←
      (if mp_required policy then
         totp ← call (mfa_has_totp user_id);
         mret (if totp : bool then Some "totp" else None)
       else mret None);
    mret (mkAccountStatus (u_min_enc_key_gen user) (b64_encode (u_svk_ciphertext_blob user))
            (bool_decide (is_Some second_factor_method)) second_factor_method user_id).

Definition account_rotate_key (ρ : Env) (auth : string) (req : RotateKeyReq)
    : handler RotateKeyResp :=
  user_id ← auth_user ρ auth;
  svk ← decode_b64 (rk_new_svk req);
  guard_err (bad_blob_size svk) invalid_blob_size;;
  o ← call (get_user_by_id user_id);
  user ← ok_or (Api.bad_request "not_found") o;
  if bool_decide (rk_new_min_enc_key_gen req ≤ u_min_enc_key_gen user)%Z then
    mret (mkRotated "success" (u_min_enc_key_gen user))
  else
    call (update_min_enc_key_gen user_id (rk_new_min_enc_key_gen req));;
    call (update_svk user_id svk (u_svk_ciphertext_blob_rk user));;
    call (audit_log_entry (Some user_id) "rotate_key" (Some user_id) None (now_ms ρ));;
    mret (mkRotated "success" (rk_new_min_enc_key_gen req)).

(** [account_delete] is compiled but no route reaches it. *)
Definition account_delete (ρ : Env) (auth : string) : handler string :=
  user_id ← auth_user ρ auth;
  call (audit_log_entry (Some user_id) "account_deleted" (Some user_id) None (now_ms ρ));;
  mret "success".

Definition account_rekey_svk (ρ : Env) (auth new_svk : string) : handler string :=
  user_id ← auth_user ρ auth;
  blob ← decode_b64 new_svk;
  guard_err (bad_blob_size blob) invalid_blob_size;;
  call (update_svk_blob_only ρ user_id blob);;
  ignore (audit_org_event (Some user_id) (Some user_id) "account.rekey_svk" "account"
            (Some user_id) None None (now_ms ρ));;
  mret "success".

Inductive AccountRequest :=
| AccountStatus (auth : string)
| RotateKey (auth : string) (req : RotateKeyReq)
| RekeySvk (auth new_svk : string).

Definition serve_account (ρ : Env) (q : AccountRequest) : handler unit :=
  match q with
  | AccountStatus a => account_status ρ a;; mret ()
  | RotateKey a r => account_rotate_key ρ a r;; mret ()
  | RekeySvk a b => account_rekey_svk ρ a b;; mret ()
  end.
End Account.
