(* ===== verification/Webauthn.v ===== *)
(** * WebAuthn second factor

    Models [repository/webauthn.rs] (Module [CredentialRepo]) and
    [handlers/webauthn.rs] (Module [WebauthnApi]).  The ceremonies run in the
    third-party webauthn-rs: the class [WebauthnRs].  Shows that a session is
    marked only by an assertion of its own account over a ceremony used once,
    that signature counters never go back, and that the mark is set before the
    clone check. *)
From stdpp Require Import pretty.
From S2P Require Import Prelude Domain Database Concrete Users Mfa Account.

(** webauthn-rs: a [SecurityKey] is its JSON, a ceremony state and a challenge
    are opaque bytes, a credential posted by the client is its JSON text. *)
Class WebauthnRs := {
  sk_parse : blob → bool;                           (* serde_json::from_slice *)
  sk_cred_id : blob → blob;                         (* SecurityKey::cred_id *)
  sk_update : blob → blob → N → blob;               (* update_credential: id and counter *)
  start_registration : blob → string → string → option (list blob) → option (blob * blob);
  reg_credential_parse : string → bool;             (* RegisterPublicKeyCredential *)
  finish_registration : string → blob → option blob;
  start_authentication : blob → list blob → option (blob * blob);
  credential_parse : string → bool;                 (* PublicKeyCredential *)
  finish_authentication : string → blob → option (blob * N);  (* credential id, u32 counter *)
}.

(** ** repository/webauthn.rs *)

Definition set_counter (counter : Z) (serialized : blob) (now : Z) (r : WebauthnCredentialRow)
    : WebauthnCredentialRow :=
  mkCredential (wc_user_id r) (wc_cred_id r) (wc_label r) serialized counter (wc_created_at r) now.

Module CredentialRepo.
Definition is_cred (user cred : string) (r : WebauthnCredentialRow) : bool :=
  bool_decide (wc_user_id r = user) && bool_decide (wc_cred_id r = cred).

Definition find (user cred : string) (d : Db) : option WebauthnCredentialRow :=
  head (filter (λ r, is_cred user cred r = true) (rows (webauthn_credentials d))).

(** A row id no row has; ids are assigned by SQLite and read by nothing. *)
Definition next_id (d : Db) : Z :=
  (1 + foldr Z.max 0 (map_to_list (webauthn_credentials d)).*1)%Z.

(** UNIQUE (user_id, cred_id). *)
Definition add_webauthn_credential (user_id cred_id label : string) (serialized : blob)
    (counter now : Z) : sql unit :=
  d ← gets id;
  require (bool_decide (find user_id cred_id d = None)) UniqueViolation;;
  insert_row webauthn_credentials with_webauthn_credentials (has_user user_id) (next_id d)
    (mkCredential user_id cred_id label serialized counter now now).

Definition list_webauthn_credentials (user_id : string) : sql (list WebauthnCredentialRow) :=
  gets (λ d, sort_asc wc_created_at
               (filter (λ r, wc_user_id r = user_id) (rows (webauthn_credentials d)))).

Definition get_webauthn_credential (user_id cred_id : string) : sql (option (blob * Z)) :=
  gets (λ d, (λ r, (wc_serialized r, wc_counter r)) <$> find user_id cred_id d).

(** [UPDATE .. WHERE user_id = ? AND cred_id = ?]. *)
Definition update_webauthn_counter (user_id cred_id : string) (counter : Z) (serialized : blob)
    (now : Z) : sql unit :=
  modify (with_webauthn_credentials (fmap (λ r,
    if is_cred user_id cred_id r then set_counter counter serialized now r else r))).

Definition remove_webauthn_credential (user_id cred_id : string) : sql bool :=
  n ← delete_where webauthn_credentials with_webauthn_credentials (λ kr, is_cred user_id cred_id kr.2);
  mret (bool_decide (0 < n)%Z).

Definition clear_webauthn_credentials (user_id : string) : sql unit :=
  delete_where webauthn_credentials with_webauthn_credentials
    (λ kr, bool_decide (wc_user_id kr.2 = user_id));; mret ().
End CredentialRepo.

(** ** handlers/webauthn.rs *)
Module WebauthnApi.
Definition mark_second_factor_satisfied (token : string) : handler unit :=
  modify (with_webauthn_verified (λ v, {[ token ]} ∪ v)).

Definition clear_second_factor_satisfied (token : string) : handler unit :=
  modify (with_webauthn_verified (λ v, v ∖ {[ token ]})).

(** [regs.lock()?.remove(id)]. *)
Definition take_registration (request_id : string) : handler (option (string * string * blob)) :=
  o ← gets (λ d, webauthn_regs d !! request_id);
  modify (with_webauthn_regs (delete request_id));;
  mret o.

Definition take_assertion (request_id : string) : handler (option (string * blob)) :=
  o ← gets (λ d, webauthn_auths d !! request_id);
  modify (with_webauthn_auths (delete request_id));;
  mret o.

Record CredentialSummary := mkSummary { cr_cred_id : string; cr_label : string }.
Definition summary (r : WebauthnCredentialRow) : CredentialSummary :=
  mkSummary (wc_cred_id r) (wc_label r).

Definition cloned_suspect : ApiError := mkApiError 401 "webauthn_cloned_suspect".
Definition second_factor_failed : ApiError := mkApiError 401 "second_factor_failed".

Section Handlers.
Context `{Ext, WebauthnRs}.

(** The ids of the registered keys that still parse. *)
Definition excluded (existing : list WebauthnCredentialRow) : option (list blob) :=
  if decide (existing = []) then None
  else Some (sk_cred_id <$> filter (λ s, sk_parse s = true) (wc_serialized <$> existing)).

Definition register_start (ρ : Env) (auth label : string) : handler (string * blob) :=
  user_id ← auth_user ρ auth;
  existing ← call (CredentialRepo.list_webauthn_credentials user_id);
  let user_uuid := default (fresh ρ 0) (uuid_parse user_id) in
  r ← ok_or Api.internal (start_registration (rand ρ 0) user_uuid user_id (excluded existing));
  let '(ccr, reg_state) := r : blob * blob in
  let request_id := fresh ρ 1 in
  modify (with_webauthn_regs (insert request_id (user_id, label, reg_state)));;
  mret (request_id, ccr).

Definition register_verify (ρ : Env) (auth request_id credential : string) : handler unit :=
  user_id ← auth_user ρ auth;
  o ← take_registration request_id;
  r ← ok_or (Api.bad_request "no_active_registration") o;
  let '(cer_user, label, reg_state) := r : string * string * blob in
  guard_err (bool_decide (cer_user ≠ user_id)) Api.unauthorized;;
  guard_err (negb (reg_credential_parse credential)) (Api.bad_request "invalid_credential");;
  sk ← ok_or (Api.bad_request "registration_failed") (finish_registration credential reg_state);
  call (CredentialRepo.add_webauthn_credential user_id (b64url_encode (sk_cred_id sk)) label sk 0
          (now_ms ρ)).

Definition assert_start (ρ : Env) (auth : string) : handler (string * blob) :=
  user_id ← auth_user ρ auth;
  rows ← call (CredentialRepo.list_webauthn_credentials user_id);
  guard_err (bool_decide (rows = [])) (Api.bad_request "no_second_factor");;
  guard_err (negb (forallb sk_parse (wc_serialized <$> rows))) Api.internal;;
  r ← ok_or Api.internal (start_authentication (rand ρ 0) (wc_serialized <$> rows));
  let '(rcr, auth_state) := r : blob * blob in
  let request_id := fresh ρ 0 in
  modify (with_webauthn_auths (insert request_id (user_id, auth_state)));;
  mret (request_id, rcr).

(** The counter check and update, for the credential the assertion names. *)
Definition check_counter (ρ : Env) (user_id cred_id : string) (raw_id : blob) (counter : N)
    : handler unit :=
  o ← call (CredentialRepo.get_webauthn_credential user_id cred_id);
  match o with
  | Some (serialized, old_counter) =>
      let new_counter := Z.of_N counter in
      if bool_decide (0 < old_counter)%Z && bool_decide (new_counter ≤ old_counter)%Z then
        ignore (audit_org_event None (Some user_id) "webauthn.cloned_suspect" "webauthn" None
                  (Some (String.append "stored="
                     (String.append (pretty old_counter) (String.append " new=" (pretty new_counter)))))
                  None (now_ms ρ));;
        throw cloned_suspect
      else if sk_parse serialized then
        call (CredentialRepo.update_webauthn_counter user_id cred_id new_counter
                (sk_update serialized raw_id counter) (now_ms ρ))
      else mret ()
  | None => mret ()
  end.

Definition assert_verify (ρ : Env) (auth request_id credential : string) : handler string :=
  user_id ← auth_user ρ auth;
  o ← take_assertion request_id;
  r ← ok_or (Api.bad_request "no_active_assertion") o;
  let '(cer_user, auth_state) := r : string * blob in
  guard_err (bool_decide (cer_user ≠ user_id)) Api.unauthorized;;
  guard_err (negb (credential_parse credential)) (Api.bad_request "invalid_credential");;
  res ← ok_or second_factor_failed (finish_authentication credential auth_state);
  let '(raw_id, counter) := res : blob * N in
  mark_second_factor_satisfied auth;;
  check_counter ρ user_id (b64url_encode raw_id) raw_id counter;;
  mret user_id.

Definition webauthn_status (ρ : Env) (auth : string) : handler (bool * list CredentialSummary) :=
  user_id ← auth_user ρ auth;
  rows ← call (CredentialRepo.list_webauthn_credentials user_id);
  mret (negb (bool_decide (rows = [])), summary <$> rows).

Definition list_credentials (ρ : Env) (auth : string) : handler (list CredentialSummary) :=
  user_id ← auth_user ρ auth;
  rows ← call (CredentialRepo.list_webauthn_credentials user_id);
  mret (summary <$> rows).

Definition remove_credential (ρ : Env) (auth cred_id : string) : handler unit :=
  user_id ← auth_user ρ auth;
  removed ← call (CredentialRepo.remove_webauthn_credential user_id cred_id);
  guard_err (negb removed) (Api.bad_request "not_found").
End Handlers.
End WebauthnApi.

(** The routes. *)
Inductive WebauthnRequest :=
| RegisterStart (auth label : string)
| RegisterVerify (auth request_id credential : string)
| AssertStart (auth : string)
| AssertVerify (auth request_id credential : string)
| WebauthnStatus (auth : string)
| ListCredentials (auth : string)
| RemoveCredential (auth cred_id : string).

Definition serve_webauthn `{Ext, WebauthnRs} (ρ : Env) (q : WebauthnRequest) : handler unit :=
  match q with
  | RegisterStart a l => WebauthnApi.register_start ρ a l;; mret ()
  | RegisterVerify a r c => WebauthnApi.register_verify ρ a r c
  | AssertStart a => WebauthnApi.assert_start ρ a;; mret ()
  | AssertVerify a r c => WebauthnApi.assert_verify ρ a r c;; mret ()
  | WebauthnStatus a => WebauthnApi.webauthn_status ρ a;; mret ()
  | ListCredentials a => WebauthnApi.list_credentials ρ a;; mret ()
  | RemoveCredential a c => WebauthnApi.remove_credential ρ a c
  end.

(** ** The second-factor mark and the counters *)
Section WebauthnLemmas.
Context `{Ext, WebauthnRs}.

(** UNIQUE (user_id, cred_id). *)
Definition creds_unique (d : Db) : Prop :=
  ∀ i j r s, webauthn_credentials d !! i = Some r → webauthn_credentials d !! j = Some s →
  wc_user_id r = wc_user_id s → wc_cred_id r = wc_cred_id s → i = j.

(** Rows keep their account and id, and their counter does not go back. *)
Definition counters_le (d d' : Db) : Prop :=
  ∀ i r r', webauthn_credentials d !! i = Some r → webauthn_credentials d' !! i = Some r' →
  wc_user_id r' = wc_user_id r ∧ wc_cred_id r' = wc_cred_id r ∧ (wc_counter r ≤ wc_counter r')%Z.

Lemma is_cred_true u c r : CredentialRepo.is_cred u c r = true ↔ wc_user_id r = u ∧ wc_cred_id r = c.
Proof. unfold CredentialRepo.is_cred. rewrite andb_true_iff, !bool_decide_eq_true. done. Qed.

Lemma head_filter_some {A} (P : A → Prop) `{∀ x, Decision (P x)} (l : list A) :
  (∀ a, head (filter P l) = Some a → a ∈ l ∧ P a) ∧
  (head (filter P l) = None → ∀ a, a ∈ l → ¬ P a).
Proof.
  split.
  - intros a Ha. destruct (filter P l) as [|b k] eqn:Hf; [done|]. injection Ha as <-.
    assert (b ∈ filter P l) as Hb by (rewrite Hf; left). apply list_elem_of_filter in Hb. tauto.
  - intros Hn a Ha HP. assert (a ∈ filter P l) as Hin by by apply list_elem_of_filter.
    destruct (filter P l); [by apply not_elem_of_nil in Hin | done].
Qed.

Lemma find_some u c d r :
  CredentialRepo.find u c d = Some r →
  ∃ i, webauthn_credentials d !! i = Some r ∧ wc_user_id r = u ∧ wc_cred_id r = c.
Proof.
  unfold CredentialRepo.find. intros Hf. apply head_filter_some in Hf as [Hr Hc].
  unfold rows in Hr. apply list_elem_of_fmap in Hr as ([i r'] & -> & Hin%elem_of_map_to_list).
  apply is_cred_true in Hc as [??]. eauto.
Qed.

Lemma find_none u c d i r :
  CredentialRepo.find u c d = None → webauthn_credentials d !! i = Some r →
  wc_user_id r = u → wc_cred_id r ≠ c.
Proof.
  unfold CredentialRepo.find. intros Hf Hi Hu Hc.
  eapply (proj2 (head_filter_some _ _) Hf r); [|by apply is_cred_true].
  unfold rows. apply list_elem_of_fmap. exists (i, r). by rewrite elem_of_map_to_list.
Qed.

(** Requests that mark no session. *)
Lemma marks_frame ρ q :
  match q with AssertVerify _ _ _ => True
  | _ => steps (same webauthn_verified) (serve_webauthn ρ q) end.
Proof. destruct q; try exact I; steps_crawl ltac:(reflexivity). Qed.

(** Requests that touch no credential. *)
Lemma credentials_frame ρ q :
  match q with AssertVerify _ _ _ | RegisterVerify _ _ _ | RemoveCredential _ _ => True
  | _ => steps (same webauthn_credentials) (serve_webauthn ρ q) end.
Proof. destruct q; try exact I; steps_crawl ltac:(reflexivity). Qed.

Lemma serve_unit_fst {A} (m : handler A) d : ((m;; mret ()) d).1 = (m d).1.
Proof. rewrite bind_run. by destruct (m d) as [? [?|?]]. Qed.

Lemma serve_unit_fst_ret {A B} (m : handler A) (b : B) d : ((m;; mret b) d).1 = (m d).1.
Proof. rewrite bind_run. by destruct (m d) as [? [?|?]]. Qed.

(** The state of an assertion once its ceremony has been taken. *)
Definition taken (rid : string) (d : Db) : Db := with_webauthn_auths (delete rid) d.
Definition marked (auth rid : string) (d : Db) : Db :=
  with_webauthn_verified (λ v, {[ auth ]} ∪ v) (taken rid d).

Lemma assert_run ρ auth rid cred d :
  (∃ e d1, WebauthnApi.assert_verify ρ auth rid cred d = (d1, Err e) ∧ (d1 = d ∨ d1 = taken rid d)) ∨
  ∃ u st raw c, session_valid d (now_ms ρ) auth u ∧ webauthn_auths d !! rid = Some (u, st) ∧
    finish_authentication cred st = Some (raw, c) ∧
    WebauthnApi.assert_verify ρ auth rid cred d =
      (WebauthnApi.check_counter ρ u (b64url_encode raw) raw c;; mret u) (marked auth rid d).
Proof.
  unfold WebauthnApi.assert_verify.
  match goal with |- context [(auth_user ρ auth ≫= ?f) d] =>
    destruct (auth_user_bind ρ auth f d) as [(u & Hv & ->) | (e & _ & ->)] end; [|left; eauto].
  unfold WebauthnApi.take_assertion, WebauthnApi.mark_second_factor_satisfied. run_calls.
  fold (taken rid d).
  destruct (webauthn_auths d !! rid) as [[cu st]|] eqn:Ha; run_calls; [|left; eauto].
  case_bool_decide as Hc; run_calls; [left; eauto|].
  destruct (credential_parse cred); simpl; run_calls; [|left; eauto].
  destruct (finish_authentication cred st) as [[raw c]|] eqn:Hf; run_calls; [|left; eauto].
  right. exists u, st, raw, c. rewrite Hc.
  split_and!; done.
Qed.

Lemma check_counter_run ρ u c raw n d :
  (∃ r, webauthn_credentials (WebauthnApi.check_counter ρ u c raw n d).1 = webauthn_credentials d ∧
        (WebauthnApi.check_counter ρ u c raw n d).2 = r) ∨
  ∃ row, CredentialRepo.find u c d = Some row ∧ (wc_counter row ≤ Z.of_N n)%Z ∧
    webauthn_credentials (WebauthnApi.check_counter ρ u c raw n d).1 =
      (λ r, if CredentialRepo.is_cred u c r
            then set_counter (Z.of_N n) (sk_update (wc_serialized row) raw n) (now_ms ρ) r else r)
      <$> webauthn_credentials d.
Proof.
  unfold WebauthnApi.check_counter, CredentialRepo.get_webauthn_credential. run_calls.
  destruct (CredentialRepo.find u c d) as [row|]; simpl; [|left; by eexists].
  destruct (bool_decide (0 < wc_counter row)%Z && bool_decide (Z.of_N n ≤ wc_counter row)%Z) eqn:Hb.
  - left. run_calls. eexists. split; [|done]. simpl.
    match goal with |- webauthn_credentials (?m d).1 = _ =>
      assert (steps (same webauthn_credentials) m) as Hs by (apply steps_audit; [typeclasses eauto | done]) end.
    apply Hs.
  - destruct (sk_parse (wc_serialized row)); [|left; by eexists]. right. exists row.
    split; [done|]. split; [|done]. apply andb_false_iff in Hb as [Hb|Hb];
      apply bool_decide_eq_false in Hb; lia.
Qed.

Lemma add_credential_run u c label ser n t d :
  webauthn_credentials (CredentialRepo.add_webauthn_credential u c label ser n t d).1 =
    webauthn_credentials d ∨
  ∃ i, CredentialRepo.find u c d = None ∧ webauthn_credentials d !! i = None ∧
    webauthn_credentials (CredentialRepo.add_webauthn_credential u c label ser n t d).1 =
      <[i := mkCredential u c label ser n t t]> (webauthn_credentials d).
Proof.
  unfold CredentialRepo.add_webauthn_credential, require. run_calls.
  case_bool_decide as Hf; simpl; run_calls; [|by left]. rewrite insert_row_run.
  destruct (webauthn_credentials d !! _) eqn:Hi; [by left|].
  destruct (has_user u d); [|by left]. right. eauto.
Qed.

Lemma register_run ρ auth rid cred d :
  webauthn_credentials (WebauthnApi.register_verify ρ auth rid cred d).1 = webauthn_credentials d ∨
  ∃ i u c label ser, CredentialRepo.find u c d = None ∧ webauthn_credentials d !! i = None ∧
    webauthn_credentials (WebauthnApi.register_verify ρ auth rid cred d).1 =
      <[i := mkCredential u c label ser 0 (now_ms ρ) (now_ms ρ)]> (webauthn_credentials d).
Proof.
  unfold WebauthnApi.register_verify.
  match goal with |- context [(auth_user ρ auth ≫= ?f) d] =>
    destruct (auth_user_bind ρ auth f d) as [(u & Hv & ->) | (e & _ & ->)] end; [|by left].
  unfold WebauthnApi.take_registration. run_calls.
  destruct (webauthn_regs d !! rid) as [[[cu label] st]|]; run_calls; [|by left].
  case_bool_decide; run_calls; [by left|].
  destruct (reg_credential_parse cred); simpl; run_calls; [|by left].
  destruct (finish_registration cred st) as [sk|]; run_calls; [|by left].
  set (d1 := with_webauthn_regs (delete rid) d).
  destruct (add_credential_run u (b64url_encode (sk_cred_id sk)) label sk 0 (now_ms ρ) d1)
    as [Hs | (i & Hf & Hi & Hs)].
  - left. destruct (CredentialRepo.add_webauthn_credential _ _ _ _ _ _ d1) as [d2 [?|?]]; exact Hs.
  - right. exists i, u, (b64url_encode (sk_cred_id sk)), label, sk. split; [exact Hf|].
    split; [exact Hi|].
    destruct (CredentialRepo.add_webauthn_credential _ _ _ _ _ _ d1) as [d2 [?|?]]; exact Hs.
Qed.

Lemma remove_run ρ auth c d :
  ∃ P, webauthn_credentials (WebauthnApi.remove_credential ρ auth c d).1 =
       filter (λ kr : Z * WebauthnCredentialRow, P kr = false) (webauthn_credentials d).
Proof.
  unfold WebauthnApi.remove_credential.
  match goal with |- context [(auth_user ρ auth ≫= ?f) d] =>
    destruct (auth_user_bind ρ auth f d) as [(u & Hv & ->) | (e & _ & ->)] end.
  2: { exists (λ _, false). simpl. by rewrite map_filter_id. }
  exists (λ kr, CredentialRepo.is_cred u c kr.2).
  unfold CredentialRepo.remove_webauthn_credential. run_calls. rewrite delete_where_run. run_calls.
  by case_bool_decide.
Qed.

(** Rows and counters, request by request. *)
Lemma webauthn_counters ρ q d :
  creds_unique d →
  creds_unique (serve_webauthn ρ q d).1 ∧ counters_le d (serve_webauthn ρ q d).1.
Proof.
  intros Hu.
  assert (∀ d', webauthn_credentials d' = webauthn_credentials d → creds_unique d' ∧ counters_le d d')
    as Hsame.
  { intros d' Hs. split; unfold creds_unique, counters_le; rewrite Hs; [exact Hu|].
    intros i r r' Hr Hr'. assert (r' = r) as -> by congruence. split_and!; [done..|lia]. }
  pose proof (credentials_frame ρ q) as Hf.
  destruct q as [| auth rid cred | |auth rid cred| | |auth c];
    try (apply Hsame, (Hf d)); clear Hf; simpl; rewrite ?serve_unit_fst.
  - destruct (register_run ρ auth rid cred d) as [Hs | (i & u & c & label & ser & Hn & Hi & Hs)];
      [by apply Hsame|]. split; unfold creds_unique, counters_le; rewrite Hs.
    + intros j k r s. rewrite !lookup_insert_Some.
      intros [[<- <-]|[_ Hr]] [[<- <-]|[_ Hk]]; simpl; intros H1 H2; try done.
      * exfalso. by eapply (find_none u c d k s).
      * exfalso. by eapply (find_none u c d j r).
      * by eapply Hu.
    + intros j r r' Hr. rewrite lookup_insert_Some. intros [[<- _]|[_ Hr']]; [congruence|].
      assert (r' = r) as -> by congruence. split_and!; [done..|lia].
  - destruct (assert_run ρ auth rid cred d) as [(e & d1 & -> & Hd1) | (u & st & raw & c & _ & _ & _ & ->)].
    { apply Hsame. by destruct Hd1 as [->| ->]. }
    rewrite serve_unit_fst_ret.
    destruct (check_counter_run ρ u (b64url_encode raw) raw c (marked auth rid d))
      as [(r & Hs & _) | (row & Hrow & Hle & Hs)]; [by apply Hsame; rewrite Hs|].
    apply find_some in Hrow as (i0 & Hi0 & Hu0 & Hc0).
    change (webauthn_credentials (marked auth rid d)) with (webauthn_credentials d) in Hs, Hi0.
    split; unfold creds_unique, counters_le; rewrite Hs.
    + intros j k r s. rewrite !lookup_fmap, !fmap_Some. intros (r0 & Hr0 & ->) (s0 & Hs0 & ->) H1 H2.
      apply (Hu j k r0 s0 Hr0 Hs0).
      * by destruct (CredentialRepo.is_cred _ _ r0), (CredentialRepo.is_cred _ _ s0).
      * by destruct (CredentialRepo.is_cred _ _ r0), (CredentialRepo.is_cred _ _ s0).
    + intros j r r' Hr. rewrite lookup_fmap, Hr. intros [= <-].
      destruct (CredentialRepo.is_cred _ _ r) eqn:Hic; simpl; [|split_and!; [done..|lia]].
      apply is_cred_true in Hic as [H1 H2]. split_and!; [done..|].
      assert (j = i0) as -> by (eapply Hu; [done|done|congruence|congruence]).
      assert (r = row) as -> by congruence. done.
  - destruct (remove_run ρ auth c d) as [P Hs]. split; unfold creds_unique, counters_le; rewrite Hs.
    + intros j k r s [Hr _]%map_lookup_filter_Some [Hk _]%map_lookup_filter_Some. by eapply Hu.
    + intros j r r' Hr [Hr' _]%map_lookup_filter_Some. assert (r' = r) as -> by congruence.
      split_and!; [done..|lia].
Qed.

Lemma check_counter_tables ρ u c raw n d :
  webauthn_verified (WebauthnApi.check_counter ρ u c raw n d).1 = webauthn_verified d ∧
  webauthn_auths (WebauthnApi.check_counter ρ u c raw n d).1 = webauthn_auths d.
Proof.
  assert (steps (same (λ d, (webauthn_verified d, webauthn_auths d)))
            (WebauthnApi.check_counter ρ u c raw n)) as Hs by steps_crawl ltac:(reflexivity).
  specialize (Hs d). by injection Hs.
Qed.

(** C18. The second factor is what marks a session: after any WebAuthn request
    a session token that was not marked and now is presented, itself, an
    assertion that webauthn-rs accepted over a ceremony the same account had
    started, and the ceremony is gone.  Credential rows stay unique per
    account and id, keep their owner, and no signature counter goes back. *)
Theorem second_factor_from_own_assertion ρ q d :
  creds_unique d →
  let d' := (serve_webauthn ρ q d).1 in
  creds_unique d' ∧ counters_le d d' ∧
  ∀ t, t ∈ webauthn_verified d' → t ∉ webauthn_verified d →
  ∃ rid cred u st raw c, q = AssertVerify t rid cred ∧ session_valid d (now_ms ρ) t u ∧
    webauthn_auths d !! rid = Some (u, st) ∧ finish_authentication cred st = Some (raw, c) ∧
    webauthn_auths d' !! rid = None.
Proof.
  intros Hu d'. destruct (webauthn_counters ρ q d Hu) as [Hu' Hc]. split; [done|]. split; [done|].
  intros t Ht Hn. unfold d' in *. pose proof (marks_frame ρ q) as Hf.
  destruct q as [| | |auth rid cred| | |]; try (by rewrite (Hf d) in Ht).
  simpl in *. rewrite serve_unit_fst in *.
  destruct (assert_run ρ auth rid cred d)
    as [(e & d1 & Hr & Hd1) | (u & st & raw & c & Hv & Ha & Hfin & Hr)]; rewrite Hr in *.
  - by destruct Hd1 as [->| ->].
  - rewrite serve_unit_fst_ret in *.
    destruct (check_counter_tables ρ u (b64url_encode raw) raw c (marked auth rid d)) as [H1 H2].
    rewrite H1 in Ht. rewrite H2.
    change (t ∈ ({[ auth ]} ∪ webauthn_verified d : gset string)) in Ht.
    assert (t = auth) as -> by set_solver. exists rid, cred, u, st, raw, c. split_and!; try done.
    change (delete rid (webauthn_auths d) !! rid = None). apply lookup_delete_eq.
Qed.

Lemma account_status_marked ρ auth u user d :
  session_valid d (now_ms ρ) auth u → users d !! u = Some user → auth ∈ webauthn_verified d →
  ∃ resp, account_status ρ auth d = (d, Ok resp) ∧
          as_svk_ciphertext_blob resp = b64_encode (u_svk_ciphertext_blob user).
Proof.
  intros Hv Hu Hm. unfold account_status, get_user_by_id, webauthn_has_credentials,
    is_second_factor_satisfied, mfa_get_policy, mfa_has_totp.
  rewrite (auth_user_ok_bind ρ auth u) by done. run_calls. rewrite Hu. run_calls.
  rewrite bool_decide_true by done. rewrite andb_false_r. run_calls.
  destruct (mp_required _); run_calls; eexists; done.
Qed.

(** A key suspected to be a clone still opens the vault: an assertion
    whose counter did not advance is answered [webauthn_cloned_suspect], but
    the session was marked before the check, so the account status hands it
    the wrapped vault key the second factor was to withhold. *)
Theorem cloned_key_still_unlocks ρ ρ' auth rid cred u st raw c row user d :
  session_valid d (now_ms ρ) auth u → session_valid d (now_ms ρ') auth u →
  users d !! u = Some user → webauthn_auths d !! rid = Some (u, st) →
  credential_parse cred = true → finish_authentication cred st = Some (raw, c) →
  CredentialRepo.find u (b64url_encode raw) d = Some row →
  (0 < wc_counter row)%Z → (Z.of_N c ≤ wc_counter row)%Z →
  ∃ d' resp, WebauthnApi.assert_verify ρ auth rid cred d = (d', Err WebauthnApi.cloned_suspect) ∧
    account_status ρ' auth d' = (d', Ok resp) ∧
    as_svk_ciphertext_blob resp = b64_encode (u_svk_ciphertext_blob user).
Proof.
  intros Hv Hv' Hu Ha Hp Hf Hrow H1 H2. unfold WebauthnApi.assert_verify,
    WebauthnApi.take_assertion, WebauthnApi.mark_second_factor_satisfied.
  rewrite (auth_user_ok_bind ρ auth u) by done. run_calls. rewrite Ha. run_calls.
  rewrite bool_decide_false by tauto. run_calls. rewrite Hp. simpl. run_calls. rewrite Hf. run_calls.
  fold (taken rid d). fold (marked auth rid d).
  unfold WebauthnApi.check_counter, CredentialRepo.get_webauthn_credential. run_calls.
  change (CredentialRepo.find ?a ?b (marked auth rid d)) with (CredentialRepo.find a b d).
  rewrite Hrow. cbn [fmap option_fmap option_map]. rewrite !bool_decide_true by done. cbn [andb].
  run_calls.
  match goal with |- context [(audit_org_event ?a ?b ?e ?f ?g ?h ?i ?j ?d0).1] =>
    set (d' := (audit_org_event a b e f g h i j d0).1);
    assert (same (λ d, (sessions d, users d, webauthn_verified d)) d0 d') as Hs
      by (enough (steps (same (λ d, (sessions d, users d, webauthn_verified d)))
                    (audit_org_event a b e f g h i j)) as Hst by apply Hst;
          apply steps_audit; [typeclasses eauto | done]) end.
  injection Hs as Hs1 Hs2 Hs3. exists d'.
  destruct (account_status_marked ρ' auth u user d') as (resp & Hr & Hsvk).
  - unfold session_valid. rewrite Hs1, Hs2. exact Hv'.
  - by rewrite Hs2.
  - rewrite Hs3. change (auth ∈ ({[ auth ]} ∪ webauthn_verified d : gset string)). set_solver.
  - exists resp. done.
Qed.
End WebauthnLemmas.

(** ** Witnesses *)
Section WebauthnWitnesses.
#[local] Existing Instance Concrete.toy_ext.

(** A key is its id; a ceremony is answered by the id and a counter digit. *)
#[local] Instance toy_webauthn : WebauthnRs := {|
  sk_parse _ := true;
  sk_cred_id k := k;
  sk_update k _ _ := k;
  start_registration rng _ _ _ := Some (rng, rng);
  reg_credential_parse _ := true;
  finish_registration c _ := Some (Concrete.bytes_of c);
  start_authentication rng keys := Some (rng, rng);
  credential_parse _ := true;
  finish_authentication c _ := Some (Concrete.bytes_of c, 3%N);
|}.

(** Alice has a key at counter 5 and a ceremony in progress. *)
Definition webauthn_demo : Db :=
  Concrete.demo_session "sess" "alice" 1000
    (with_webauthn_auths (insert "r" ("alice", []))
      (with_webauthn_credentials (insert 1%Z (mkCredential "alice" "k" "key" [] 5 0 0))
        Concrete.demo_db)).

Lemma webauthn_demo_unique : creds_unique webauthn_demo.
Proof.
  intros i j r s. change (webauthn_credentials webauthn_demo) with
    (<[1%Z := mkCredential "alice" "k" "key" [] 5 0 0]> (∅ : gmap Z WebauthnCredentialRow)).
  rewrite !lookup_insert_Some, !lookup_empty. naive_solver.
Qed.

Lemma second_factor_from_own_assertion_witness :
  creds_unique webauthn_demo ∧
  creds_unique (serve_webauthn (Concrete.demo_env 10) (AssertVerify "sess" "r" "k") webauthn_demo).1.
Proof.
  split; [apply webauthn_demo_unique|].
  apply (second_factor_from_own_assertion (Concrete.demo_env 10) (AssertVerify "sess" "r" "k")
           webauthn_demo webauthn_demo_unique).
Defined.

Lemma cloned_key_still_unlocks_witness :
  ∃ d' resp,
    WebauthnApi.assert_verify (Concrete.demo_env 10) "sess" "r" "k" webauthn_demo =
      (d', Err WebauthnApi.cloned_suspect) ∧
    account_status (Concrete.demo_env 11) "sess" d' = (d', Ok resp) ∧
    as_svk_ciphertext_blob resp = b64_encode [].
Proof.
  apply (cloned_key_still_unlocks (Concrete.demo_env 10) (Concrete.demo_env 11) "sess" "r" "k"
           "alice" [] (Concrete.bytes_of "k") 3%N (mkCredential "alice" "k" "key" [] 5 0 0)
           (Concrete.demo_user "alice" 2) webauthn_demo);
    [solve_session | solve_session | vm_compute; reflexivity .. | |]; vm_compute; congruence.
Defined.
End WebauthnWitnesses.
