(* ===== verification/AuditLog.v ===== *)
(** * Audit queries

    Models the reading half of [repository/audit.rs] and [handlers/audit.rs]
    (the recording half is in Database.v).  Shows what a query answers to an
    ordinary account and to an administrator, and that any account can make
    itself one. *)
From S2P Require Import Prelude Domain Database Concrete Users Projects Mfa.

Local Open Scope Z_scope.

(** ** repository/audit.rs *)

Record AuditFilter := mkAuditFilter {
  af_user_id : option string;
  af_actor : option string;
  af_event_type : option string;
  af_resource_type : option string;
  af_resource_id : option string;
  af_from : option Z;
  af_to : option Z;
}.

(** [AND column = value], when the filter gives a value; NULL equals nothing. *)
Definition eq_opt (want column : option string) : bool :=
  match want with None => true | Some w => bool_decide (column = Some w) end.

Definition matches (f : AuditFilter) (r : AuditRow) : bool :=
  eq_opt (af_user_id f) (au_user_id r) && eq_opt (af_actor f) (au_actor r) &&
  eq_opt (af_event_type f) (au_event_type r) && eq_opt (af_resource_type f) (au_resource_type r) &&
  eq_opt (af_resource_id f) (au_resource_id r) &&
  match af_from f with None => true | Some t => bool_decide (t ≤ au_created_at r) end &&
  match af_to f with None => true | Some t => bool_decide (au_created_at r ≤ t) end.

(** The rows with their ids: nothing deletes from the log, so the id SQLite
    assigned is the position of the row. *)
Definition numbered (d : Db) : list (Z * AuditRow) :=
  imap (λ i r, (Z.of_nat i + 1, r)) (audit_log d).

(** [LIMIT limit OFFSET offset]: a negative limit is none, a negative offset
    is 0. *)
Definition window {A} (limit offset : Z) (l : list A) : list A :=
  let l := drop (Z.to_nat offset) l in
  if bool_decide (limit < 0) then l else take (Z.to_nat limit) l.

Definition query_audit_events (f : AuditFilter) (limit offset : Z) : sql (list (Z * AuditRow)) :=
  gets (λ d, window limit offset (reverse (filter (λ ir, matches f ir.2 = true) (numbered d)))).

Definition list_audit_logs (user_id : option string) (limit offset : Z)
    : sql (list (Z * AuditRow)) :=
  query_audit_events (mkAuditFilter user_id None None None None None None) limit offset.

(** ** handlers/audit.rs *)

(** [limit] and [offset] are [u32]. *)
Record AuditQuery := mkAuditQuery {
  aq_user_id : option string;
  aq_actor : option string;
  aq_event_type : option string;
  aq_resource_type : option string;
  aq_resource_id : option string;
  aq_from : option Z;
  aq_to : option Z;
  aq_limit : option N;
  aq_offset : option N;
}.

Record AuditEntry := mkEntry {
  ae_id : Z;
  ae_user_id : option string;
  ae_action : string;
  ae_actor : option string;
  ae_detail : option string;
  ae_created_at : Z;
  ae_event_type : option string;
  ae_resource_type : option string;
  ae_resource_id : option string;
  ae_ip_address : option string;
}.

Definition default_limit : Z := 100.

Definition limit_of (q : AuditQuery) : Z :=
  Z.max 1 (Z.min 1000 (default default_limit (Z.of_N <$> aq_limit q))).

(** The filter of the query, in the scope of the caller. *)
Definition filter_of (is_admin : bool) (caller_id : string) (q : AuditQuery) : AuditFilter :=
  mkAuditFilter (if is_admin then aq_user_id q else Some caller_id)
    (if is_admin then aq_actor q else None)
    (aq_event_type q) (aq_resource_type q) (aq_resource_id q) (aq_from q) (aq_to q).

Definition to_entry (ip_visible : bool) (ir : Z * AuditRow) : AuditEntry :=
  let '(i, r) := ir in
  mkEntry i (au_user_id r) (au_action r) (au_actor r) (au_detail r) (au_created_at r)
    (au_event_type r) (au_resource_type r) (au_resource_id r)
    (if ip_visible then au_ip_address r else None).

Definition list_audit `{Ext} (ρ : Env) (auth : string) (q : AuditQuery) : handler (list AuditEntry) :=
  caller_id ← auth_user ρ auth;
  is_admin ← call (ProjectRepo.user_is_org_admin caller_id);
  rows ← call (query_audit_events (filter_of is_admin caller_id q) (limit_of q)
                 (default 0 (Z.of_N <$> aq_offset q)));
  mret (to_entry is_admin <$> rows).

(** ** What a query answers *)
Section AuditTheorems.
Context `{Ext}.

(** Row [i] of the log. *)
Definition log_row (i : Z) (r : AuditRow) (d : Db) : Prop :=
  1 ≤ i ∧ audit_log d !! Z.to_nat (i - 1) = Some r.

(** [Owner] or [Admin] of some organization. *)
Definition org_admin (u : string) (d : Db) : bool :=
  existsb (λ kr : (string * string) * OrgMemberRow, bool_decide (om_role kr.2 ∈ ["Owner"; "Admin"]))
    (ProjectRepo.memberships u d).

(** The query seen from another offset. *)
Definition at_offset (k : N) (q : AuditQuery) : AuditQuery :=
  mkAuditQuery (aq_user_id q) (aq_actor q) (aq_event_type q) (aq_resource_type q)
    (aq_resource_id q) (aq_from q) (aq_to q) (aq_limit q) (Some k).

Lemma elem_of_numbered i r d : (i, r) ∈ numbered d ↔ log_row i r d.
Proof.
  unfold numbered, log_row. rewrite elem_of_lookup_imap. split.
  - intros (n & r' & [= -> ->] & Hn). split; [lia|].
    by replace (Z.to_nat (Z.of_nat n + 1 - 1)) with n by lia.
  - intros [Hi Hr]. exists (Z.to_nat (i - 1)), r. split; [|done]. f_equal. lia.
Qed.

Definition newer (a b : Z * AuditRow) : Prop := b.1 < a.1.

Lemma numbered_sorted d : StronglySorted (λ a b : Z * AuditRow, a.1 < b.1) (numbered d).
Proof.
  unfold numbered. generalize 0%nat as k.
  assert (∀ l k, StronglySorted (λ a b : Z * AuditRow, a.1 < b.1)
            (imap (λ i r, (Z.of_nat (k + i) + 1, r)) l)) as Hl.
  { induction l as [|r l IH]; intros k; simpl; [constructor|].
    constructor.
    - specialize (IH (S k)). erewrite imap_ext; [exact IH|]. intros i x _. simpl. do 2 f_equal. lia.
    - apply Forall_forall. intros [j x] (n & r' & [= -> _] & _)%elem_of_lookup_imap. simpl. lia. }
  intros _. apply (Hl (audit_log d) 0%nat).
Qed.

Lemma sorted_filter {A} (R : A → A → Prop) (P : A → Prop) `{∀ x, Decision (P x)} l :
  StronglySorted R l → StronglySorted R (filter P l).
Proof.
  induction 1 as [|a l Hl IH Ha]; [constructor|]. rewrite filter_cons. case_decide; [|done].
  constructor; [done|]. apply Forall_forall. intros x [_ Hx]%list_elem_of_filter.
  exact (proj1 (Forall_forall _ _) Ha _ Hx).
Qed.

Lemma sorted_reverse {A} (R : A → A → Prop) l :
  StronglySorted R l → StronglySorted (λ a b, R b a) (reverse l).
Proof.
  induction 1 as [|a l Hl IH Ha]; [constructor|]. rewrite reverse_cons.
  apply StronglySorted_app. split_and!; [|done|repeat constructor].
  intros x y Hx ->%list_elem_of_singleton. rewrite elem_of_reverse in Hx.
  exact (proj1 (Forall_forall _ _) Ha _ Hx).
Qed.

Lemma sorted_window {A} (R : A → A → Prop) n k l :
  StronglySorted R l → StronglySorted R (window n k l).
Proof.
  intros Hl. unfold window.
  assert (StronglySorted R (drop (Z.to_nat k) l)) as Hd.
  { rewrite <-(take_drop (Z.to_nat k) l) in Hl. by apply StronglySorted_app in Hl as (_ & _ & ?). }
  case_bool_decide; [done|].
  rewrite <-(take_drop (Z.to_nat n) (drop (Z.to_nat k) l)) in Hd.
  by apply StronglySorted_app in Hd as (_ & ? & _).
Qed.

Lemma elem_of_window {A} n k (l : list A) x : x ∈ window n k l → x ∈ l.
Proof.
  unfold window. intros Hx. assert (x ∈ drop (Z.to_nat k) l) as Hd.
  { case_bool_decide; [done|]. by eapply elem_of_take in Hx as (i & Hi & _); apply list_elem_of_lookup_2 in Hi. }
  by eapply list_elem_of_lookup in Hd as [i Hi]; rewrite lookup_drop in Hi; eapply list_elem_of_lookup_2.
Qed.

Lemma list_audit_run ρ auth q d u :
  session_valid d (now_ms ρ) auth u →
  list_audit ρ auth q d =
    (d, Ok (to_entry (org_admin u d) <$>
              window (limit_of q) (default 0 (Z.of_N <$> aq_offset q))
                (reverse (filter (λ ir, matches (filter_of (org_admin u d) u q) ir.2 = true)
                            (numbered d))))).
Proof.
  intros Hv. unfold list_audit, ProjectRepo.user_is_org_admin, query_audit_events.
  rewrite (auth_user_ok_bind ρ auth u) by done. by run_calls.
Qed.

(** A row that passes the filters is on some page. *)
Lemma row_on_a_page ρ auth q d u i r :
  session_valid d (now_ms ρ) auth u → log_row i r d →
  matches (filter_of (org_admin u d) u q) r = true →
  ∃ k page, list_audit ρ auth (at_offset k q) d = (d, Ok page) ∧
            to_entry (org_admin u d) (i, r) ∈ page.
Proof.
  intros Hv Hr Hm. set (l := reverse (filter (λ ir : Z * AuditRow,
    matches (filter_of (org_admin u d) u q) ir.2 = true) (numbered d))).
  assert ((i, r) ∈ l) as Hin.
  { unfold l. by rewrite elem_of_reverse, list_elem_of_filter, elem_of_numbered. }
  apply list_elem_of_lookup in Hin as [k Hk]. exists (N.of_nat k). eexists.
  split; [by apply list_audit_run|]. apply list_elem_of_fmap. exists (i, r). split; [done|].
  change (limit_of (at_offset (N.of_nat k) q)) with (limit_of q).
  change (filter_of (org_admin u d) u (at_offset (N.of_nat k) q))
    with (filter_of (org_admin u d) u q). fold l. simpl.
  unfold window. rewrite bool_decide_false by (unfold limit_of; lia).
  apply (list_elem_of_lookup_2 _ 0). rewrite lookup_take_lt by (unfold limit_of; lia).
  rewrite lookup_drop, Nat.add_0_r. by replace (Z.to_nat (Z.of_N (N.of_nat k))) with k by lia.
Qed.

(** An audit query answers entries of the log that pass its filters,
    newest first, at most a thousand at a time, and every entry that passes
    them is on some page.  To an account that administers no organization it
    answers its own events only, without addresses, whatever account or actor
    the query names. *)
Theorem list_audit_scoped ρ auth q d u :
  session_valid d (now_ms ρ) auth u →
  ∃ entries, list_audit ρ auth q d = (d, Ok entries) ∧ (length entries ≤ 1000)%nat ∧
    StronglySorted (λ a b, ae_id b < ae_id a) entries ∧
    (∀ e, e ∈ entries → ∃ r, log_row (ae_id e) r d ∧ e = to_entry (org_admin u d) (ae_id e, r) ∧
                             matches (filter_of (org_admin u d) u q) r = true) ∧
    (org_admin u d = false → ∀ e, e ∈ entries → ae_user_id e = Some u ∧ ae_ip_address e = None) ∧
    (∀ i r, log_row i r d → matches (filter_of (org_admin u d) u q) r = true →
     ∃ k page, list_audit ρ auth (at_offset k q) d = (d, Ok page) ∧
               to_entry (org_admin u d) (i, r) ∈ page).
Proof.
  intros Hv. eexists. split; [by apply list_audit_run|].
  set (l := reverse (filter _ (numbered d))).
  assert (∀ i r, (i, r) ∈ l ↔ log_row i r d ∧ matches (filter_of (org_admin u d) u q) r = true) as Hl.
  { intros i r. unfold l. rewrite elem_of_reverse, list_elem_of_filter, elem_of_numbered. tauto. }
  assert (∀ e, e ∈ to_entry (org_admin u d) <$> window (limit_of q) (default 0 (Z.of_N <$> aq_offset q)) l →
            ∃ r, log_row (ae_id e) r d ∧ e = to_entry (org_admin u d) (ae_id e, r) ∧
                 matches (filter_of (org_admin u d) u q) r = true) as He.
  { intros e ([i r] & -> & Hin)%list_elem_of_fmap. apply elem_of_window, Hl in Hin as [Hr Hm].
    exists r. done. }
  split_and!; [| |exact He| |].
  - rewrite length_fmap. unfold window, limit_of. rewrite bool_decide_false by lia.
    rewrite length_take. lia.
  - assert (StronglySorted newer (window (limit_of q) (default 0 (Z.of_N <$> aq_offset q)) l)) as Hs
      by apply sorted_window, sorted_reverse, sorted_filter, numbered_sorted.
    revert Hs. generalize (window (limit_of q) (default 0 (Z.of_N <$> aq_offset q)) l) as w.
    induction 1 as [|[i r] w Hw IH Ha]; simpl; constructor; [done|].
    apply Forall_forall. intros e ([j s] & -> & Hin)%list_elem_of_fmap.
    exact (proj1 (Forall_forall _ _) Ha _ Hin).
  - intros Hna e Hin. destruct (He e Hin) as (r & _ & -> & Hm). rewrite Hna in *. simpl.
    split; [|done]. unfold matches in Hm. repeat (apply andb_true_iff in Hm as [Hm _]).
    simpl in Hm. by apply bool_decide_eq_true in Hm.
  - intros i r Hr Hm. by apply row_on_a_page.
Qed.

(** *** Anyone administers *)

Lemma org_admin_member u o m d :
  org_members d !! (o, u) = Some m → om_role m ∈ ["Owner"; "Admin"] → org_admin u d = true.
Proof.
  intros Ho Hm. unfold org_admin. apply existsb_exists. exists ((o, u), m).
  split; [|by apply bool_decide_eq_true]. apply list_elem_of_In. unfold ProjectRepo.memberships.
  apply list_elem_of_filter. split; [done|]. by apply elem_of_map_to_list.
Qed.

Lemma no_memberships u d :
  (∀ o, org_members d !! (o, u) = None) → ProjectRepo.memberships u d = [].
Proof.
  intros Hn. unfold ProjectRepo.memberships. apply elem_of_nil_inv. intros [[o v] m].
  rewrite list_elem_of_filter, elem_of_map_to_list. simpl. intros [-> Hm]. by rewrite Hn in Hm.
Qed.

(** What a shared project leaves behind, whether or not its row is stored. *)
Definition founded (ρ : Env) (u : string) (d d' : Db) : Prop :=
  org_members d' !! (fresh ρ 1, u) = Some (mkOrgMember "Owner" (now_ms ρ)) ∧
  audit_log d' = audit_log d ∧ sessions d' = sessions d ∧ users d' = users d.

Lemma bind_ok_run {A B} (m : handler A) (f : A → handler B) d d' a :
  m d = (d', Ok a) → (m ≫= f) d = f a d'.
Proof. intros Hm. by rewrite bind_run, Hm. Qed.

Lemma ensure_org_founds ρ u d :
  has_user u d = true → (∀ o, org_members d !! (o, u) = None) → organizations d !! fresh ρ 1 = None →
  ∃ d2, ProjectRepo.ensure_org_for_user (fresh ρ 1) u (now_ms ρ) d = (d2, Ok (fresh ρ 1)) ∧
        founded ρ u d d2.
Proof.
  intros Hu Hn Ho. unfold ProjectRepo.ensure_org_for_user, ProjectRepo.get_user_org_id. run_calls.
  rewrite no_memberships by done. unfold sort_asc. simpl. run_calls.
  unfold ProjectRepo.create_org, ProjectRepo.set_org_member. rewrite insert_row_run, Ho. run_calls.
  rewrite upsert_row_run.
  match goal with |- context [ProjectRepo.has_org ?a ?d1 && has_user ?b ?d2] =>
    assert (ProjectRepo.has_org a d1 && has_user b d2 = true) as -> end.
  { apply andb_true_iff. split; [|exact Hu]. apply bool_decide_eq_true.
    match goal with |- context [with_organizations (insert ?k ?r) d] =>
      change (is_Some (<[k := r]> (organizations d) !! fresh ρ 1)) end.
    rewrite lookup_insert_eq. by eexists. }
  run_calls. eexists. split; [done|].
  match goal with |- founded _ _ _ (with_org_members (insert ?k ?r) ?d1) =>
    assert (r = mkOrgMember "Owner" (now_ms ρ)) as -> end.
  { match goal with |- context [org_members (with_organizations ?g d) !! ?k] =>
      change (org_members (with_organizations g d) !! k) with (org_members d !! k) end. by rewrite Hn. }
  split; [|done].
  match goal with |- org_members (with_org_members (insert ?k ?r) ?d1) !! _ = _ =>
    change (<[k := r]> (org_members d) !! k = Some r) end. apply lookup_insert_eq.
Qed.

Lemma create_shared_founds ρ auth name u d :
  session_valid d (now_ms ρ) auth u → has_user u d = true →
  (∀ o, org_members d !! (o, u) = None) → organizations d !! fresh ρ 1 = None →
  ProjectApi.validate_name name = Ok () →
  founded ρ u d (ProjectApi.create_project ρ auth (ProjectApi.mkCreateProject name None (Some Shared)) d).1.
Proof.
  intros Hv Hu Hn Ho Hname. unfold ProjectApi.create_project.
  rewrite (auth_user_ok_bind ρ auth u) by done.
  cbn [ProjectApi.cp_name ProjectApi.cp_type ProjectApi.cp_description from_option default id].
  rewrite (bind_ok_run _ _ d d ()) by (by rewrite lift_run, Hname). cbv zeta.
  destruct (ensure_org_founds ρ u d) as (d2 & He & (H1 & H2 & H3 & H4)); [done..|].
  assert ((call (ProjectRepo.ensure_org_for_user (fresh ρ 1) u (now_ms ρ)) : handler string) d =
          (d2, Ok (fresh ρ 1))) as Hc by (unfold call, map_err; by rewrite He).
  rewrite bind_assoc, (bind_ok_run _ _ d d2 (fresh ρ 1) Hc).
  match goal with |- founded _ _ _ (?m d2).1 =>
    assert (steps (same (λ d, (org_members d, audit_log d, sessions d, users d))) m) as Hm
      by steps_crawl ltac:(reflexivity) end.
  specialize (Hm d2). injection Hm as K1 K2 K3 K4.
  split_and!; congruence.
Qed.

Definition everything : AuditQuery := mkAuditQuery None None None None None None None None None.

(** Anyone administers: an account that belongs to no organization makes
    itself one with a shared project, and from then on reads every row of the
    whole server's audit log, addresses included, and sets the second-factor
    policy of every account. *)
Theorem shared_project_makes_admin ρ auth name u d :
  session_valid d (now_ms ρ) auth u → has_user u d = true →
  (∀ o, org_members d !! (o, u) = None) → organizations d !! fresh ρ 1 = None →
  ProjectApi.validate_name name = Ok () →
  let d' := (ProjectApi.create_project ρ auth
               (ProjectApi.mkCreateProject name None (Some Shared)) d).1 in
  ∀ ρ', session_valid d (now_ms ρ') auth u →
  (∀ i r, log_row i r d → ∃ k page, list_audit ρ' auth (at_offset k everything) d' = (d', Ok page) ∧
                                    to_entry true (i, r) ∈ page) ∧
  (∀ req, validate_policy req = Ok () →
     (policy_put ρ' auth req d').2 =
       Ok (mkMfaPolicy (pu_required req) (pu_allowed_methods req) (pu_master_password_policy req))).
Proof.
  intros Hv Hu Hn Ho Hname d' ρ' Hv'.
  destruct (create_shared_founds ρ auth name u d) as (Hm & Hlog & Hs & Hus); [done..|].
  fold d' in Hm, Hlog, Hs, Hus.
  assert (session_valid d' (now_ms ρ') auth u) as Hvd by (unfold session_valid; by rewrite Hs, Hus).
  assert (org_admin u d' = true) as Hadm by (eapply org_admin_member; [done | left]).
  split.
  - intros i r Hr. rewrite <-Hadm. apply row_on_a_page; [done| |by rewrite Hadm].
    unfold log_row. by rewrite Hlog.
  - intros req Hreq. unfold policy_put, ProjectRepo.user_is_org_admin.
    rewrite (auth_user_ok_bind ρ' auth u) by done. run_calls. fold (org_admin u d').
    rewrite Hadm. simpl. run_calls. rewrite Hreq. unfold mfa_get_policy, mfa_set_policy. by run_calls.
Qed.
End AuditTheorems.

(** The route. *)
Inductive AuditRequest := ListAudit (auth : string) (q : AuditQuery).
Definition serve_audit `{Ext} (ρ : Env) (q : AuditRequest) : handler unit :=
  match q with ListAudit a q => list_audit ρ a q;; mret () end.

(** ** Witnesses *)
Section AuditWitnesses.
#[local] Existing Instance Concrete.toy_ext.

(** bob did something; alice has a session and no organization. *)
Definition bobs_row : AuditRow :=
  mkAudit (Some "bob") "login" (Some "bob") None 5 (Some "auth") None None (Some "10.0.0.1").
Definition audit_demo : Db :=
  Concrete.demo_session "sess" "alice" 1000 (with_audit_log (λ _, [bobs_row]) Concrete.demo_db).

Lemma audit_demo_session now : now ≤ 1000 → session_valid audit_demo now "sess" "alice".
Proof.
  intros Hn. eexists. split_and!; [vm_compute; reflexivity | reflexivity | exact Hn |].
  intros u t Hu. vm_compute in Hu. injection Hu as <-. by intros ?.
Qed.

Lemma list_audit_scoped_witness :
  ∃ entries, list_audit (Concrete.demo_env 100) "sess" everything audit_demo = (audit_demo, Ok entries) ∧
    (org_admin "alice" audit_demo = false →
     ∀ e, e ∈ entries → ae_user_id e = Some "alice" ∧ ae_ip_address e = None).
Proof.
  destruct (list_audit_scoped (Concrete.demo_env 100) "sess" everything audit_demo "alice"
              (audit_demo_session 100 ltac:(lia))) as (entries & Hr & _ & _ & _ & Hn & _).
  exists entries. split; [exact Hr | exact Hn].
Defined.

Lemma shared_project_makes_admin_witness :
  let d' := (ProjectApi.create_project (Concrete.demo_env 100) "sess"
               (ProjectApi.mkCreateProject "mine" None (Some Shared)) audit_demo).1 in
  ∃ k page, list_audit (Concrete.demo_env 200) "sess" (at_offset k everything) d' = (d', Ok page) ∧
            to_entry true (1, bobs_row) ∈ page.
Proof.
  apply (shared_project_makes_admin (Concrete.demo_env 100) "sess" "mine" "alice" audit_demo
           (audit_demo_session 100 ltac:(lia)) ltac:(vm_compute; reflexivity)
           ltac:(intros o; vm_compute; reflexivity) ltac:(vm_compute; reflexivity)
           ltac:(vm_compute; reflexivity) (Concrete.demo_env 200) (audit_demo_session 200 ltac:(lia))).
  split; [lia | reflexivity].
Defined.
End AuditWitnesses.
