(* ===== verification/System.v ===== *)
(** * The server as a whole

    Puts the request types of every modelled component together and proves
    what needs all of them: who writes the account table. *)
From S2P Require Import Prelude Domain Database Concrete Users Items Tokens Sync.
From S2P Require Import Projects Secrets Files Sharing.
From S2P Require Import Mfa Auth Recovery Account Webauthn AuditLog.

(** The routes of [handlers/projects.rs]. *)
Inductive ProjectRequest :=
| ListProjects (auth : string)
| CreateProject (auth : string) (req : ProjectApi.CreateProjectReq)
| GetProject (id : Uuid) (auth : string)
| UpdateProject (id : Uuid) (auth : string) (req : ProjectApi.UpdateProjectReq)
| DeleteProject (id : Uuid) (auth : string)
| ListMembers (id : Uuid) (auth : string)
| AddMember (id : Uuid) (auth : string) (req : ProjectApi.AddMemberReq)
| UpdateMember (id : Uuid) (user auth : string) (req : ProjectApi.UpdateMemberReq)
| RemoveMember (id : Uuid) (user auth : string)
| ListGroups (id : Uuid) (auth : string)
| CreateGroup (id : Uuid) (auth : string) (req : ProjectApi.CreateGroupReq)
| UpdateGroup (id group : Uuid) (auth : string) (req : ProjectApi.UpdateGroupReq)
| DeleteGroup (id group : Uuid) (auth : string)
| AddGroupMember (id group : Uuid) (auth : string) (req : ProjectApi.AddGroupMemberReq)
| RemoveGroupMember (id group : Uuid) (user auth : string)
| Offboard (auth : string) (req : ProjectApi.OffboardReq).

(** Every modelled request, and one tick of the background reaper. *)
Inductive Request :=
| QAuth (q : AuthRequest)
| QRecovery (q : RecoveryRequest)
| QAccount (q : AccountRequest)
| QSync (q : SyncRequest)
| QTokens (q : TokenRequest)
| QProjects (q : ProjectRequest)
| QSecrets (q : SecretRequest)
| QFiles (q : FileRequest)
| QSharing (q : ShareRequest)
| QWebauthn (q : WebauthnRequest)
| QAudit (q : AuditRequest)
| QReaper (seen : gset (string * Uuid)).

Section System.
Context {EXT : Ext} {WA : WebauthnRs}.

Definition serve_project (ρ : Env) (q : ProjectRequest) : handler unit :=
  match q with
  | ListProjects a => ProjectApi.list_projects ρ a;; mret ()
  | CreateProject a r => ProjectApi.create_project ρ a r;; mret ()
  | GetProject i a => ProjectApi.get_project ρ i a;; mret ()
  | UpdateProject i a r => ProjectApi.update_project ρ i a r;; mret ()
  | DeleteProject i a => ProjectApi.delete_project ρ i a
  | ListMembers i a => ProjectApi.list_members ρ i a;; mret ()
  | AddMember i a r => ProjectApi.add_member ρ i a r;; mret ()
  | UpdateMember i u a r => ProjectApi.update_member ρ i u a r;; mret ()
  | RemoveMember i u a => ProjectApi.remove_member ρ i u a
  | ListGroups i a => ProjectApi.list_groups ρ i a;; mret ()
  | CreateGroup i a r => ProjectApi.create_group ρ i a r;; mret ()
  | UpdateGroup i g a r => ProjectApi.update_group ρ i g a r;; mret ()
  | DeleteGroup i g a => ProjectApi.delete_group ρ i g a
  | AddGroupMember i g a r => ProjectApi.add_group_member ρ i g a r;; mret ()
  | RemoveGroupMember i g u a => ProjectApi.remove_group_member ρ i g u a
  | Offboard a r => ProjectApi.offboard ρ a r;; mret ()
  end.

Definition step (ρ : Env) (q : Request) (d : Db) : Db :=
  match q with
  | QAuth q => (Auth.serve ρ q d).1
  | QRecovery q => (serve_recovery ρ q d).1
  | QAccount q => (serve_account ρ q d).1
  | QSync q => Sync.serve ρ q d
  | QTokens q => serve_token ρ q d
  | QProjects q => (serve_project ρ q d).1
  | QSecrets q => (serve_secret ρ q d).1
  | QFiles q => (serve_file ρ q d).1
  | QSharing q => (serve_share ρ q d).1
  | QWebauthn q => (serve_webauthn ρ q d).1
  | QAudit q => (serve_audit ρ q d).1
  | QReaper seen => (reaper_tick seen d).1
  end.

Definition history (l : list (Env * Request)) (d : Db) : Db :=
  foldl (λ d q, step q.1 q.2 d) d l.

(** *** Who writes what *)

(** The tables the theorems below follow. *)
Definition tenancy (d : Db) := (users d, recovery_sessions d, projects d).
Definition core (d : Db) := (tenancy d, files_of d, groups_of d).

Lemma core_sync ρ q d : same core d (Sync.serve ρ q d).
Proof.
  destruct q; simpl; match goal with |- same core d (?m d).1 =>
    enough (steps (same core) m) as Hm by apply Hm end; steps_crawl ltac:(idtac; reflexivity).
Qed.

Lemma core_tokens ρ q d : same core d (serve_token ρ q d).
Proof.
  destruct q; simpl; match goal with |- same core d (?m d).1 =>
    enough (steps (same core) m) as Hm by apply Hm end; steps_crawl ltac:(idtac; reflexivity).
Qed.

Lemma core_secrets ρ q : steps (same core) (serve_secret ρ q).
Proof. destruct q; steps_crawl ltac:(idtac; reflexivity). Qed.

Lemma core_webauthn ρ q : steps (same core) (serve_webauthn ρ q).
Proof. destruct q; steps_crawl ltac:(idtac; reflexivity). Qed.

Lemma core_audit ρ q : steps (same core) (serve_audit ρ q).
Proof. destruct q; steps_crawl ltac:(idtac; reflexivity). Qed.

Lemma core_reaper seen : steps (same core) (reaper_tick seen).
Proof.
  unfold reaper_tick, tombstoned_items_with_owner. steps_tac.
  apply steps_announce; [apply _|]. steps_crawl ltac:(idtac; reflexivity).
Qed.

(** File requests write files, share requests write groups. *)
Lemma frame_files ρ q : steps (same (λ d, (tenancy d, groups_of d))) (serve_file ρ q).
Proof. destruct q; steps_crawl ltac:(idtac; reflexivity). Qed.

Lemma frame_shares ρ q : steps (same (λ d, (tenancy d, files_of d))) (serve_share ρ q).
Proof. destruct q; steps_crawl ltac:(idtac; reflexivity). Qed.

(** Nobody's recovery key, an account gone, an epoch gone back, a project gone. *)
Definition no_rk (d : Db) : Prop :=
  (∀ u row, users d !! u = Some row → u_rk_public_key row = None) ∧ recovery_sessions d = ∅.

Definition epoch_le (d d' : Db) : Prop :=
  ∀ u row, users d !! u = Some row →
  ∃ row', users d' !! u = Some row' ∧ (u_min_enc_key_gen row ≤ u_min_enc_key_gen row')%Z.

Definition projects_le (d d' : Db) : Prop :=
  ∀ p, is_Some (projects d !! p) → is_Some (projects d' !! p).

#[local] Instance epoch_le_preorder : PreOrder epoch_le.
Proof.
  split; [intros d u row Hu; eauto with lia|].
  intros d1 d2 d3 H1 H2 u row Hu. destruct (H1 _ _ Hu) as (r2 & Hr2 & ?).
  destruct (H2 _ _ Hr2) as (r3 & Hr3 & ?). eauto with lia.
Qed.

#[local] Instance projects_le_preorder : PreOrder projects_le.
Proof. split; [intros d p Hp; exact Hp|]. intros d1 d2 d3 H1 H2 p Hp. apply H2, H1, Hp. Qed.

(** What the routes that write accounts and projects respect. *)
Definition grows (d d' : Db) : Prop :=
  epoch_le d d' ∧ projects_le d d' ∧ same (λ d, (files_of d, groups_of d)) d d'.
Definition evolves (d d' : Db) : Prop := preserves no_rk d d' ∧ grows d d'.

#[local] Instance grows_preorder : PreOrder grows.
Proof.
  split; [intros d; split_and!; reflexivity|].
  intros d1 d2 d3 (A1 & A2 & A3) (B1 & B2 & B3). split_and!; etransitivity; eassumption.
Qed.

#[local] Instance evolves_preorder : PreOrder evolves.
Proof.
  split; [intros d; split; reflexivity|].
  intros d1 d2 d3 (A1 & A2) (B1 & B2). split; etransitivity; eassumption.
Qed.

Lemma epoch_le_same d d' : users d' = users d → epoch_le d d'.
Proof. intros Hu u row. rewrite Hu. eauto with lia. Qed.

Lemma projects_le_same d d' : projects d' = projects d → projects_le d d'.
Proof. intros Hp p. by rewrite Hp. Qed.

Lemma core_parts d d' :
  same core d d' →
  (users d' = users d ∧ recovery_sessions d' = recovery_sessions d ∧ projects d' = projects d) ∧
  files_of d' = files_of d ∧ groups_of d' = groups_of d.
Proof.
  intros Hc. split_and!;
    [ exact (f_equal (λ c, c.1.1.1.1) Hc) | exact (f_equal (λ c, c.1.1.1.2) Hc)
    | exact (f_equal (λ c, c.1.1.2) Hc) | exact (f_equal (λ c, c.1.2) Hc) | exact (f_equal snd Hc) ].
Qed.

Lemma grows_core d d' : same core d d' → grows d d'.
Proof.
  intros ((Hu & _ & Hp) & Hf & Hg)%core_parts. split_and!.
  - by apply epoch_le_same.
  - by apply projects_le_same.
  - unfold same. by rewrite Hf, Hg.
Qed.

Lemma no_rk_users d d' :
  users d' = users d → recovery_sessions d' = recovery_sessions d → preserves no_rk d d'.
Proof. intros Hu Hr [H1 H2]. split; [rewrite Hu | rewrite Hr]; done. Qed.

Lemma no_rk_tenancy d d' : same tenancy d d' → preserves no_rk d d'.
Proof.
  intros [= Hu Hr _] [H1 H2]. split; [rewrite Hu | rewrite Hr]; done.
Qed.

Lemma tenancy_core d d' : same core d d' → same tenancy d d'.
Proof. intros ((Hu & Hr & Hp) & _)%core_parts. unfold same, tenancy. by rewrite Hu, Hr, Hp. Qed.

Lemma evolves_core d d' : same core d d' → evolves d d'.
Proof. intros Hc. split; [by apply no_rk_tenancy, tenancy_core | by apply grows_core]. Qed.

(** A change of columns no relation above looks at. *)
Lemma update_user_run u f d : (update_user u f d).1 = with_users (alter f u) d.
Proof. done. Qed.

Lemma update_user_epoch u f d :
  (∀ r, users d !! u = Some r → u_min_enc_key_gen r ≤ u_min_enc_key_gen (f r))%Z →
  epoch_le d (update_user u f d).1.
Proof.
  intros Hf v row Hv. change (∃ row', alter f u (users d) !! v = Some row' ∧
    (u_min_enc_key_gen row ≤ u_min_enc_key_gen row')%Z).
  destruct (decide (u = v)) as [->|Hne].
  - exists (f row). rewrite lookup_alter_eq, Hv. eauto.
  - exists row. by rewrite lookup_alter_ne.
Qed.

Lemma update_user_grows u f :
  (∀ r, u_min_enc_key_gen (f r) = u_min_enc_key_gen r) → steps grows (update_user u f).
Proof.
  intros Hf d. split_and!; [|by apply projects_le_same | done].
  apply update_user_epoch. intros r _. rewrite Hf. lia.
Qed.

Lemma update_user_no_rk u f :
  (∀ r, u_rk_public_key (f r) = u_rk_public_key r) → steps (preserves no_rk) (update_user u f).
Proof.
  intros Hf d [H1 H2]. split; [|exact H2]. intros v row.
  change (alter f u (users d) !! v = Some row → u_rk_public_key row = None).
  rewrite lookup_alter_Some. intros [(-> & r & Hr & ->) | [_ Hr]]; [rewrite Hf|]; eauto.
Qed.

Lemma update_user_evolves u f :
  (∀ r, u_rk_public_key (f r) = u_rk_public_key r) →
  (∀ r, u_min_enc_key_gen (f r) = u_min_enc_key_gen r) → steps evolves (update_user u f).
Proof. intros H1 H2 d. split; [by apply update_user_no_rk | by apply update_user_grows]. Qed.

Lemma create_user_evolves i e s o v w t : steps evolves (create_user i e s o v w t).
Proof.
  unfold create_user, require. steps_tac. intros d. rewrite insert_row_run.
  destruct (users d !! i) eqn:Hi; [reflexivity|].
  cbn [fst]. set (d' := with_users _ d).
  assert (users d' = <[i := mkUser i e s o v w 1 t t None None None 0 0]> (users d)) as Hu by done.
  assert (recovery_sessions d' = recovery_sessions d) as Hr by done.
  split; [|split_and!; [|by apply projects_le_same | done]].
  - intros [H1 H2]. split; [|by rewrite Hr]. intros u row. rewrite Hu, lookup_insert_Some.
    intros [[_ <-] | [_ Hw]]; [done | eauto].
  - intros u row Hw. exists row. rewrite Hu, lookup_insert_ne by congruence.
    split; [done | lia].
Qed.
#[local] Hint Resolve update_user_no_rk update_user_grows update_user_evolves create_user_evolves : steps.

Lemma evolves_auth ρ q : steps evolves (Auth.serve ρ q).
Proof. destruct q; steps_crawl ltac:(apply evolves_core; reflexivity). Qed.

Lemma rk_of_no_rk u d : no_rk d → rk_of u d = None.
Proof. intros [H1 _]. unfold rk_of. destruct (users d !! u) eqn:Hu; [simpl; eauto | done]. Qed.

Lemma recover_verify_no_rk ρ req d :
  no_rk d → recover_verify ρ req d = (d, Err verification_failed).
Proof.
  intros Hn. unfold recover_verify, get_rk_public_key. run_next. rewrite get_user_by_email_run.
  run_calls. destruct (account_of _ d) as [u|]; [|done]. run_calls.
  fold (rk_of (u_id u) d). by rewrite rk_of_no_rk.
Qed.

Lemma recover_complete_no_rk ρ req d :
  no_rk d → recover_complete ρ req d = (d, Err Api.unauthorized).
Proof.
  intros [_ Hr]. unfold recover_complete. run_next. rewrite consume_run, Hr, lookup_empty.
  by run_calls.
Qed.

Lemma reclaim_no_rk ρ req d :
  no_rk d → reclaim ρ req d = (d, Ok (mkReclaimResp "verification_required" None)).
Proof.
  intros Hn. unfold reclaim, reclaim_proof, get_rk_public_key. run_next.
  rewrite get_user_by_email_run. run_calls. destruct (account_of _ d) as [u|]; [|done]. run_calls.
  fold (rk_of (u_id u) d). rewrite rk_of_no_rk by done. by run_calls.
Qed.

Lemma no_rk_recovery ρ q d : no_rk d → no_rk (serve_recovery ρ q d).1.
Proof.
  intros Hn. destruct q; simpl.
  - enough (steps (preserves no_rk) (serve_recovery ρ (RecoverChallenge email))) as Hm by by apply Hm.
    steps_crawl ltac:(apply no_rk_tenancy; reflexivity).
  - by rewrite bind_run, recover_verify_no_rk.
  - enough (steps (preserves no_rk) (serve_recovery ρ (RecoverInfo token))) as Hm by by apply Hm.
    steps_crawl ltac:(apply no_rk_tenancy; reflexivity).
  - by rewrite bind_run, recover_complete_no_rk.
  - by rewrite bind_run, reclaim_no_rk.
  - enough (steps (preserves no_rk) (serve_recovery ρ (ReclaimConfirm token))) as Hm by by apply Hm.
    steps_crawl ltac:(apply no_rk_tenancy; reflexivity).
  - destruct (delete_account_run ρ auth d) as [(e & He) _]. by rewrite bind_run, He.
Qed.

Lemma grows_recovery ρ q : steps grows (serve_recovery ρ q).
Proof.
  destruct q; [..|].
  7: { intros d. simpl. destruct (delete_account_run ρ auth d) as [(e & He) _].
       by rewrite bind_run, He. }
  all: steps_crawl ltac:(split_and!; [by apply epoch_le_same | by apply projects_le_same | done]).
Qed.

(** *** One step *)

(** The handler's writes, once it has read [user]. *)
Lemma rotate_key_run ρ auth req d d' resp :
  account_rotate_key ρ auth req d = (d', Ok resp) →
  ∃ u user, session_valid d (now_ms ρ) auth u ∧ users d !! u = Some user ∧
    ((d' = d ∧ (rk_new_min_enc_key_gen req ≤ u_min_enc_key_gen user)%Z) ∨
     (∃ svk f, b64_decode (rk_new_svk req) = Some svk ∧
        (u_min_enc_key_gen user < rk_new_min_enc_key_gen req)%Z ∧
        d' = with_audit_log f (with_users (alter (set_svk svk (u_svk_ciphertext_blob_rk user)) u)
               (with_users (alter (set_min_enc_key_gen (rk_new_min_enc_key_gen req)) u) d)))).
Proof.
  unfold account_rotate_key. intros Hr. apply bind_ok in Hr as (d1 & u & Ha & Hr).
  apply auth_user_ok in Ha as [-> Hv]. exists u. unfold decode_b64, get_user_by_id in Hr. ok_inv Hr.
  match goal with Hu : users d !! u = Some ?r |- _ => exists r; split; [done|]; split; [done|] end.
  case_bool_decide as Hle.
  - left. ok_inv Hr2. done.
  - right. unfold update_min_enc_key_gen, update_svk, update_user, audit_log_entry, require in *.
    ok_inv Hr2.
    repeat match goal with Hk : update_key _ _ _ _ _ = _ |- _ =>
      apply update_key_ok in Hk; subst end.
    eexists _, _. split_and!; [done | lia | reflexivity].
Qed.

Lemma evolves_rotate ρ auth req : steps evolves (account_rotate_key ρ auth req).
Proof.
  intros d. unfold account_rotate_key.
  match goal with |- evolves d ((_ ≫= ?f) d).1 =>
    destruct (auth_user_bind ρ auth f d) as [(u & _ & ->) | (e & _ & ->)]; [|reflexivity] end.
  unfold decode_b64, get_user_by_id. run_calls.
  destruct (b64_decode _) as [svk|]; [|reflexivity]. run_calls.
  destruct (bad_blob_size svk); [reflexivity|]. run_calls.
  destruct (users d !! u) as [user|] eqn:Hu; [|reflexivity]. run_calls.
  case_bool_decide as Hle; [reflexivity|].
  assert (evolves d (update_min_enc_key_gen u (rk_new_min_enc_key_gen req) d).1) as Hmin.
  { split; [by apply update_user_no_rk|]. split_and!; [|by apply projects_le_same | done].
    apply update_user_epoch. intros r Hr. rewrite Hu in Hr. injection Hr as <-. simpl. lia. }
  rewrite bind_run, map_err_run.
  destruct (update_min_enc_key_gen u (rk_new_min_enc_key_gen req) d) as [d1 [[]|]]; [|exact Hmin].
  etransitivity; [exact Hmin|]. simpl.
  match goal with |- evolves d1 (?m d1).1 => enough (steps evolves m) as Hm by apply Hm end.
  steps_crawl ltac:(apply evolves_core; reflexivity).
Qed.

Lemma evolves_account ρ q : steps evolves (serve_account ρ q).
Proof.
  destruct q; [| |]; simpl.
  - steps_crawl ltac:(apply evolves_core; reflexivity).
  - steps_tac. apply evolves_rotate.
  - steps_crawl ltac:(apply evolves_core; reflexivity).
Qed.

Lemma steps_create_project p : steps evolves (ProjectRepo.create_project p).
Proof.
  intros d. unfold ProjectRepo.create_project. rewrite insert_row_run.
  destruct (projects d !! _) eqn:Hp; [reflexivity|].
  destruct (ProjectRepo.project_fk _ _ _); [|reflexivity].
  split; [by apply no_rk_users | split_and!; [by apply epoch_le_same | | done]].
  intros q Hq. match goal with |- is_Some (projects (with_projects (insert ?k ?r) d, Ok ()).1 !! q) =>
    change (is_Some (<[k := r]> (projects d) !! q)) end.
  destruct (decide (q = project_id p)) as [->|Hne]; [by rewrite lookup_insert_eq; eexists|].
  by rewrite lookup_insert_ne.
Qed.

Lemma steps_update_project_meta id n e t :
  steps evolves (ProjectRepo.update_project_meta id n e t).
Proof.
  intros d. split; [by apply no_rk_users | split_and!; [by apply epoch_le_same | | done]].
  intros q [p Hq]. change (is_Some (alter (ProjectRepo.set_meta n e t) id (projects d) !! q)).
  destruct (decide (q = id)) as [->|Hne].
  - rewrite lookup_alter_eq, Hq. by eexists.
  - rewrite lookup_alter_ne by done. by rewrite Hq; eexists.
Qed.
#[local] Hint Resolve steps_create_project steps_update_project_meta : steps.

Lemma evolves_projects ρ q : steps evolves (serve_project ρ q).
Proof.
  destruct q; [..|].
  5: { intros d. simpl. destruct (delete_project_run ρ id auth d) as [(e & He) _]. by rewrite He. }
  all: steps_crawl ltac:(apply evolves_core; reflexivity).
Qed.

Lemma frame_grows {A} (f : Db → A) d d' :
  same (λ d, (tenancy d, f d)) d d' → preserves no_rk d d' ∧ epoch_le d d' ∧ projects_le d d'.
Proof.
  intros Hs. pose proof (f_equal fst Hs : tenancy d' = tenancy d) as Ht.
  pose proof (f_equal (λ c, c.1.1) Ht : users d' = users d) as Hu.
  pose proof (f_equal snd Ht : projects d' = projects d) as Hp.
  split_and!; [by apply no_rk_tenancy | by apply epoch_le_same | by apply projects_le_same].
Qed.

(** What one request of each kind may do. *)
Lemma step_evolves ρ q d :
  match q with
  | QRecovery _ => preserves no_rk d (step ρ q d) ∧ grows d (step ρ q d)
  | QFiles _ => same (λ d, (tenancy d, groups_of d)) d (step ρ q d)
  | QSharing _ => same (λ d, (tenancy d, files_of d)) d (step ρ q d)
  | _ => evolves d (step ρ q d)
  end.
Proof.
  destruct q as [q|q|q|q|q|q|q|q|q|q|q|].
  - apply evolves_auth.
  - split; [exact (no_rk_recovery ρ q d) | apply grows_recovery].
  - apply evolves_account.
  - apply evolves_core, core_sync.
  - apply evolves_core, core_tokens.
  - apply evolves_projects.
  - apply evolves_core, core_secrets.
  - apply frame_files.
  - apply frame_shares.
  - apply evolves_core, core_webauthn.
  - apply evolves_core, core_audit.
  - apply evolves_core, core_reaper.
Qed.

Lemma step_tenancy ρ q d :
  preserves no_rk d (step ρ q d) ∧ epoch_le d (step ρ q d) ∧ projects_le d (step ρ q d).
Proof.
  pose proof (step_evolves ρ q d) as Hs.
  destruct q; first [by eapply frame_grows | destruct Hs as (? & ? & ? & _); by split_and!].
Qed.

(** The requests that touch files, and those that touch groups. *)
Lemma step_files ρ q d :
  match q with QFiles _ => True | _ => same files_of d (step ρ q d) end.
Proof.
  pose proof (step_evolves ρ q d) as Hs.
  destruct q; first [exact I | exact (f_equal snd Hs) | exact (f_equal fst (proj2 (proj2 (proj2 Hs))))].
Qed.

Lemma step_groups ρ q d :
  match q with QSharing _ => True | _ => same groups_of d (step ρ q d) end.
Proof.
  pose proof (step_evolves ρ q d) as Hs.
  destruct q; first [exact I | exact (f_equal snd Hs) | exact (f_equal snd (proj2 (proj2 (proj2 Hs))))].
Qed.

(** *** Many steps *)

Lemma history_rel R `{!PreOrder R} l d :
  Forall (λ q, ∀ d, R d (step q.1 q.2 d)) l → R d (history l d).
Proof.
  intros Hl. revert d. induction Hl as [|q l Hq Hl IH]; intros d; [reflexivity|].
  etransitivity; [apply Hq | apply IH].
Qed.

Lemma history_no_rk l d : no_rk d → no_rk (history l d).
Proof. apply (history_rel (preserves no_rk)), Forall_forall. intros q _ d'. apply step_tenancy. Qed.

Lemma history_epoch l d : epoch_le d (history l d).
Proof. apply history_rel; [apply _|]. apply Forall_forall. intros q _ d'. apply step_tenancy. Qed.

Lemma history_projects l d : projects_le d (history l d).
Proof. apply history_rel; [apply _|]. apply Forall_forall. intros q _ d'. apply step_tenancy. Qed.

(** Emergency recovery is unreachable: no route stores an account's first
    recovery key (only the completion of a recovery does), so from an empty
    server, whatever the modelled routes are asked, every proof of possession
    is refused, no recovery completes, and no reclaim has any effect. *)
Theorem recovery_unreachable l ρ :
  let d := history l empty_db in
  (∀ req, recover_verify ρ req d = (d, Err verification_failed)) ∧
  (∀ req, recover_complete ρ req d = (d, Err Api.unauthorized)) ∧
  (∀ req, reclaim ρ req d = (d, Ok (mkReclaimResp "verification_required" None))).
Proof.
  intros d. assert (no_rk d) as Hn.
  { apply history_no_rk. split; [|done]. intros u row. cbn. by rewrite lookup_empty. }
  split_and!; intros req; [by apply recover_verify_no_rk | by apply recover_complete_no_rk |
                           by apply reclaim_no_rk].
Qed.

(** *** The key epoch *)

(** An item sealed under an epoch below the account's is not stored. *)
Lemma push_item_old u now item row d :
  users d !! u = Some row →
  (0 ≤ ph_enc_key_gen item < u_min_enc_key_gen row)%Z → (ph_enc_key_gen item ≤ i64_max)%Z →
  push_item u now item d = (d, Ok (epoch_too_old (ph_uuid item))) ∨
  ∃ e, push_item u now item d = (d, Err e).
Proof.
  intros Hu Hg Hmax. unfold push_item, min_enc_key_gen. run_calls. rewrite Hu.
  cbn [fmap option_fmap option_map default]. case_bool_decide as H1; [by left|].
  rewrite bind_run.
  assert (∃ r, (match ph_payload item with
                | Some p => b ← decode_b64 p; mret (Some b)
                | None => mret None
                end : handler (option blob)) d = (d, r)) as [[pl|e] ->].
  { destruct (ph_payload item) as [p|]; [|eauto]. unfold decode_b64. run_next.
    destruct (b64_decode p); eauto. }
  2: { by right; eexists. }
  run_calls. unfold upsert_item_occ, require, min_enc_key_gen. run_calls.
  destruct (bool_decide (is_Some (uuid_parse (ph_uuid item)))); cbn [negb]; [|by right; eexists].
  run_calls. rewrite Hu. cbn [fmap option_fmap option_map].
  rewrite as_i64_of_u64; [|unfold is_u64, u64_max, i64_max in *; lia | done].
  rewrite bool_decide_true by lia. run_calls. by left.
Qed.

(** C20. Once a rotation to epoch [g] answered, no item sealed under an older
    epoch enters the account's vault again: whatever requests of whatever
    routes are served in between, a push of such an item stores nothing and is
    answered [epoch_too_old] or an error. *)
Theorem rotation_shuts_out_old_keys ρ auth req u d d1 resp l now item :
  account_rotate_key ρ auth req d = (d1, Ok resp) → session_valid d (now_ms ρ) auth u →
  (0 ≤ ph_enc_key_gen item < rk_new_min_enc_key_gen req)%Z →
  (ph_enc_key_gen item ≤ i64_max)%Z →
  push_item u now item (history l d1) = (history l d1, Ok (epoch_too_old (ph_uuid item))) ∨
  ∃ e, push_item u now item (history l d1) = (history l d1, Err e).
Proof.
  intros Hr Hv Hg Hm. apply rotate_key_run in Hr as (u' & user & Hv' & Hu & Hcase).
  assert (u' = u) as -> by (by eapply session_valid_fun).
  assert (∃ r1, users d1 !! u = Some r1 ∧
                (rk_new_min_enc_key_gen req ≤ u_min_enc_key_gen r1)%Z) as (r1 & Hr1 & Hge).
  { destruct Hcase as [[-> Hle] | (svk & f & _ & Hlt & ->)]; [eauto|].
    exists (set_svk svk (u_svk_ciphertext_blob_rk user)
              (set_min_enc_key_gen (rk_new_min_enc_key_gen req) user)). split; [|simpl; lia].
    change (alter (set_svk svk (u_svk_ciphertext_blob_rk user)) u
      (alter (set_min_enc_key_gen (rk_new_min_enc_key_gen req)) u (users d)) !! u =
      Some (set_svk svk (u_svk_ciphertext_blob_rk user)
              (set_min_enc_key_gen (rk_new_min_enc_key_gen req) user))).
    by rewrite !lookup_alter_eq, Hu. }
  destruct (history_epoch l d1 _ _ Hr1) as (r2 & Hr2 & Hge2).
  apply (push_item_old u now item r2); [done | lia | done].
Qed.

(** *** Nothing is deleted *)

(** C40. Nothing is ever deleted: after any requests every account and every
    project that existed is still there, a signed-in account that asks for its
    deletion is answered a 500, and so is whoever manages a project and
    deletes it; the state is left as it was.  SQLite does not prepare either
    statement, because [shares] and [project_items] refer to a column of
    [items] that is not a key. *)
Theorem deletion_never_succeeds l d :
  let d' := history l d in
  (∀ u, is_Some (users d !! u) → is_Some (users d' !! u)) ∧
  (∀ p, is_Some (projects d !! p) → is_Some (projects d' !! p)) ∧
  (∀ ρ auth, (∃ e, delete_account ρ auth d' = (d', Err e)) ∧
     ∀ u, session_valid d' (now_ms ρ) auth u → delete_account ρ auth d' = (d', Err Api.internal)) ∧
  (∀ ρ id auth, (∃ e, ProjectApi.delete_project ρ id auth d' = (d', Err e)) ∧
     ∀ u p, session_valid d' (now_ms ρ) auth u → projects d' !! id = Some p → manages d' p u →
            ProjectApi.delete_project ρ id auth d' = (d', Err Api.internal)).
Proof.
  intros d'. split_and!.
  - intros u [row Hu]. destruct (history_epoch l d u row Hu) as (row' & Hr & _). eauto.
  - apply history_projects.
  - intros ρ auth. apply delete_account_run.
  - intros ρ id auth. destruct (delete_project_run ρ id auth d') as [He Hm].
    split; [done|]. intros u p Hv Hp Hman. apply (Hm u p); [done..|].
    rewrite require_can_manage_run. by rewrite decide_True.
Qed.

(** *** Files *)

(** A relation on the file tables that file requests respect. *)
Lemma step_via_files R `{!PreOrder R} ρ q d :
  (∀ d d', same files_of d d' → R d d') →
  match q with QFiles q => steps R (serve_file ρ q) | _ => True end → R d (step ρ q d).
Proof.
  intros Hsame Hq. pose proof (step_files ρ q d) as Hf. destruct q; first [exact (Hq d) | by apply Hsame].
Qed.

Lemma history_via_files R `{!PreOrder R} l d :
  (∀ d d', same files_of d d' → R d d') →
  Forall (λ q, match q.2 with QFiles q' => steps R (serve_file q.1 q') | _ => True end) l →
  R d (history l d).
Proof.
  intros Hsame Hl. apply history_rel; [done|]. apply (Forall_impl _ _ _ Hl).
  intros q Hq d'. by apply step_via_files.
Qed.

Lemma no_files_inv d : file_manifests d = ∅ → file_chunks d = ∅ → files_inv d.
Proof. intros Hm Hc. split; intros *; rewrite ?Hm, ?Hc, ?lookup_empty; done. Qed.

Lemma history_files_inv l d0 :
  file_manifests d0 = ∅ → file_chunks d0 = ∅ → files_inv (history l d0).
Proof.
  intros Hm Hc.
  enough (preserves files_inv d0 (history l d0)) as Hp by by apply Hp, no_files_inv.
  apply history_via_files; [typeclasses eauto | apply files_inv_same|].
  apply Forall_forall. intros [ρ q] _. simpl. destruct q; try done. apply serve_file_inv.
Qed.

(** C28. An available file is all there: whatever the server was asked since it
    had no file, for a file whose manifest says [Available] every chunk row
    below the declared count says [uploaded], every such chunk is stored, and
    its owner downloads it; and every manifest is within the caps on the
    number of chunks and the size. *)
Theorem available_files_complete l d0 f m :
  file_manifests d0 = ∅ → file_chunks d0 = ∅ →
  let d := history l d0 in
  file_manifests d !! f = Some m →
  (1 ≤ fm_total_chunks m ≤ FileApi.MAX_CHUNKS ∧ 0 ≤ fm_total_size m ≤ FileApi.MAX_FILE_SIZE)%Z ∧
  (fm_status m = "Available" → ∀ i, (0 ≤ i < fm_total_chunks m)%Z →
     file_chunks d !! (f, i) = Some "uploaded" ∧
     ∃ b, chunks d !! (f, i) = Some b ∧
          ∀ ρ auth, session_valid d (now_ms ρ) auth (fm_owner_user_id m) →
            FileApi.download_chunk ρ f i auth d = (d, Ok b)).
Proof.
  intros Hm0 Hc0 d Hm. pose proof (history_files_inv l d0 Hm0 Hc0 : files_inv d) as [_ H2 H3 H4].
  split; [by eapply H4|]. intros Ha i Hi. pose proof (H3 _ _ _ Hm Ha Hi) as Hu.
  split; [done|]. destruct (H2 _ _ Hu) as [b Hb]. exists b. split; [done|]. intros ρ auth Hv.
  rewrite (download_chunk_run ρ f i auth _ d m Hv Hm). by rewrite !decide_True, Hb.
Qed.

(** Quota: while the server is run with quotas of at most [Q] bytes, the
    sizes an account has declared for its files add up to at most [Q],
    whatever the order of uploads, re-declarations and completions. *)
Theorem declared_bytes_within_quota Q l d0 u :
  (0 ≤ Q < i64_max)%Z → file_manifests d0 = ∅ → file_chunks d0 = ∅ →
  Forall (λ q, as_i64 (FileApi.quota q.1) ≤ Q)%Z l →
  (declared u (history l d0) ≤ Q)%Z.
Proof.
  intros [HQ Hmax] Hm Hc Hl.
  assert (within Q d0) as Hw.
  { split; [by apply no_files_inv|]. intros v. unfold declared. by rewrite Hm. }
  enough (preserves (within Q) d0 (history l d0)) as Hp by by apply (Hp Hw).
  apply history_via_files; [typeclasses eauto | apply within_same|].
  apply (Forall_impl _ _ _ Hl). intros [ρ q] Hq. simpl in *. destruct q; try done.
  by apply serve_file_within.
Qed.

(** The owner [u] of the file has the chunk stored. *)
Definition keeps (u f : string) (i : Z) (b : blob) (d : Db) : Prop :=
  (∃ m, file_manifests d !! f = Some m ∧ fm_owner_user_id m = u) ∧ chunks d !! (f, i) = Some b.

Lemma keeps_step u f n b ρ q d :
  keeps u f (Z.of_N n) b d →
  keeps u f (Z.of_N n) b (step ρ q d) ∨
  ∃ auth b', q = QFiles (UploadChunk f n auth b') ∧ session_valid d (now_ms ρ) auth u.
Proof.
  intros [(m & Hm & Ho) Hc]. pose proof (step_files ρ q d) as Hs.
  destruct q as [| | | | | | |q| | | |];
    try (left; pose proof (f_equal (λ c, c.1.1) Hs : file_manifests (step ρ _ d) = file_manifests d) as H1;
         pose proof (f_equal snd Hs : chunks (step ρ _ d) = chunks d) as H2;
         unfold keeps; rewrite H1, H2; eauto).
  simpl. destruct (serve_file_owners ρ q d f m Hm) as (m' & Hm' & Ho').
  destruct (chunk_step ρ q f n d) as [Hk | (auth & b' & m0 & -> & Hm0 & Hv)].
  - left. split; [|by rewrite Hk]. exists m'. by rewrite Ho'.
  - right. exists auth, b'. split; [done|]. by replace m0 with m in Hv by congruence; rewrite <-Ho.
Qed.

(** A chunk comes back: the bytes an account uploads are the bytes every
    later download of that chunk by the account answers, whatever any route
    was asked in between, unless the account uploaded the same chunk again;
    until the file is complete the answer is [not_available]. *)
Theorem uploaded_chunk_kept ρ f n auth b64 b u d d1 r l :
  FileApi.upload_chunk ρ f (Z.of_N n) auth b64 d = (d1, Ok r) →
  session_valid d (now_ms ρ) auth u → b64_decode b64 = Some b →
  let d' := history l d1 in
  (∃ l1 ρ2 auth2 b2 l2, l = l1 ++ (ρ2, QFiles (UploadChunk f n auth2 b2)) :: l2 ∧
     session_valid (history l1 d1) (now_ms ρ2) auth2 u) ∨
  ∀ ρ2 auth2, session_valid d' (now_ms ρ2) auth2 u →
    FileApi.download_chunk ρ2 f (Z.of_N n) auth2 d' = (d', Ok b) ∨
    FileApi.download_chunk ρ2 f (Z.of_N n) auth2 d' = (d', Err FileApi.not_available).
Proof.
  intros Hup Hv Hb.
  apply upload_chunk_ok in Hup as (m & b0 & Hv0 & Hm & Hm1 & Hb0 & Hc).
  assert (keeps u f (Z.of_N n) b d1) as Hk.
  { split; [exists m; rewrite Hm1; split; [done | by eapply session_valid_fun]|]. congruence. }
  clear - Hk. revert d1 Hk. induction l as [|[ρ1 q] l IH]; intros d Hk.
  - right. intros ρ2 a Hv. destruct Hk as [(m & Hm & Ho) Hc].
    rewrite (download_chunk_run ρ2 f _ a u _ m) by done. simpl. rewrite decide_True, Hc by done.
    case_decide; auto.
  - destruct (keeps_step u f n b ρ1 q d Hk) as [Hk' | (a & b' & -> & Hv)].
    + destruct (IH _ Hk') as [(l1 & ρ2 & a2 & b2 & l2 & -> & Hv) | Hd]; [left | by right].
      by exists ((ρ1, q) :: l1), ρ2, a2, b2, l2.
    + left. by exists [], ρ1, a, b', l.
Qed.

(** *** Sharing groups *)

Lemma step_member ρ q g m d G :
  sharing_groups d !! g = Some G → ¬ member g m d →
  sharing_groups (step ρ q d) !! g = Some G ∧
  (¬ member g m (step ρ q d) ∨ ∃ q', q = QSharing q' ∧ joined ρ q' g m d).
Proof.
  intros HG Hm. pose proof (step_groups ρ q d) as Hs.
  destruct q as [| | | | | | | |q| | |]; [..|];
    try (apply same_groups in Hs as [H1 H2]; unfold member; rewrite H1, H2; split; [done | by left]).
  simpl. destruct (member_step ρ q g m d G HG Hm) as [HG' [Hn|Hj]]; split; eauto.
Qed.

Lemma list_group_items_outsider ρ g auth u d :
  session_valid d (now_ms ρ) auth u → ¬ member g u d →
  ShareApi.list_group_items ρ g auth d = (d, Err ShareApi.denied).
Proof.
  intros Hv Hm. unfold ShareApi.list_group_items, ShareRepo.is_group_member.
  rewrite (auth_user_ok_bind ρ auth u) by done. run_calls.
  rewrite bool_decide_false by exact Hm. by run_calls.
Qed.

(** C29. A removed member reads nothing more: once the removal of [m] from a
    group answered, a listing of the group's items by [m] is refused and the
    inbox of [m] no longer has the group, whatever any route was asked in
    between, until the admin of the group adds [m] again. *)
Theorem removed_member_reads_nothing ρ g m auth d d1 r l :
  ShareApi.remove_group_member ρ g m auth d = (d1, Ok r) →
  let d' := history l d1 in
  ∃ admin, session_valid d (now_ms ρ) auth admin ∧
  ((∃ l1 ρ2 auth2 req l2, l = l1 ++ (ρ2, QSharing (AddSharingMember g auth2 req)) :: l2 ∧
      ShareApi.am_member_uuid req = m ∧
      session_valid (history l1 d1) (now_ms ρ2) auth2 admin) ∨
   ∀ ρ2 auth2, session_valid d' (now_ms ρ2) auth2 m →
     ShareApi.list_group_items ρ2 g auth2 d' = (d', Err ShareApi.denied) ∧
     ∃ inbox, ShareApi.group_inbox ρ2 auth2 d' = (d', Ok inbox) ∧
              g ∉ ShareApi.gi_group_id <$> inbox).
Proof.
  intros Hr. apply remove_group_member_ok in Hr as (G & Hv & HG & Hm).
  exists (sg_admin_user_id G). split; [done|]. clear - HG Hm.
  revert d1 HG Hm. induction l as [|[ρ1 q] l IH]; intros d HG Hm.
  - right. intros ρ2 a Hv. split; [by apply (list_group_items_outsider ρ2 g a m)|].
    destruct (group_inbox_run ρ2 a m _ Hv) as (inbox & Hi & Hall). exists inbox. split; [done|].
    intros (x & -> & Hx)%list_elem_of_fmap. by apply Hm, Hall.
  - destruct (step_member ρ1 q g m d G HG Hm)
      as [HG' [Hn | (q' & -> & a & req & G' & -> & Hreq & HG2 & Hv)]].
    + destruct (IH _ HG' Hn) as [(l1 & ρ2 & a2 & req & l2 & -> & Hreq & Hv) | Hd]; [left | by right].
      by exists ((ρ1, q) :: l1), ρ2, a2, req, l2.
    + left. exists [], ρ1, a, req, l. by replace G with G' by congruence.
Qed.
End System.

(** ** Witnesses *)
Section SystemWitnesses.
#[local] Existing Instances Concrete.toy_ext toy_webauthn.
Local Open Scope Z_scope.

Definition epoch_db : Db := Concrete.demo_session "sess" "alice" 1000 Concrete.demo_db.
Definition rotated_db : Db :=
  (account_rotate_key (Concrete.demo_env 100) "sess" (mkRotateKey 3 "=k") epoch_db).1.
Definition later : list (Env * Request) :=
  [(Concrete.demo_env 110, QSync (RPush "sess" [mkPushItem "i1" 0 3 (Some "=p") None]));
   (Concrete.demo_env 120, QAccount (AccountStatus "sess"))].
Definition stale : PushItem := mkPushItem "i1" 1 2 (Some "=q") None.

Lemma rotation_shuts_out_old_keys_witness :
  push_item "alice" 130 stale (history later rotated_db) =
    (history later rotated_db, Ok (epoch_too_old "i1")) ∨
  ∃ e, push_item "alice" 130 stale (history later rotated_db) = (history later rotated_db, Err e).
Proof.
  apply (rotation_shuts_out_old_keys (Concrete.demo_env 100) "sess" (mkRotateKey 3 "=k") "alice"
           epoch_db rotated_db (mkRotated "success" 3) later 130 stale).
  - vm_compute. reflexivity.
  - solve_session.
  - vm_compute. split; [discriminate | reflexivity].
  - vm_compute. discriminate.
Defined.

(** Alice declares a file, uploads its two chunks and completes it. *)
Definition env_q (now : Z) : Env := Concrete.demo_env now.
Definition upload : list (Env * Request) :=
  [(env_q 10, QFiles (UploadInitiate "f" "sess" (FileApi.mkInitiate 7 4 2 1 "text" 0)));
   (env_q 20, QFiles (UploadChunk "f" 0 "sess" "=data"));
   (env_q 30, QFiles (UploadChunk "f" 1 "sess" "=ab"));
   (env_q 40, QFiles (UploadComplete "f" "sess"))].

Lemma available_files_complete_witness :
  let d := history upload epoch_db in
  ∃ m, file_manifests d !! "f" = Some m ∧ fm_total_chunks m = 2 ∧ fm_status m = "Available" ∧
       (1 ≤ fm_total_chunks m ≤ FileApi.MAX_CHUNKS ∧ 0 ≤ fm_total_size m ≤ FileApi.MAX_FILE_SIZE) ∧
       (fm_status m = "Available" → ∀ i, 0 ≤ i < fm_total_chunks m →
          file_chunks d !! ("f", i) = Some "uploaded" ∧
          ∃ b, chunks d !! ("f", i) = Some b ∧
               ∀ ρ auth, session_valid d (now_ms ρ) auth (fm_owner_user_id m) →
                 FileApi.download_chunk ρ "f" i auth d = (d, Ok b)).
Proof.
  exists (mkManifest "f" "alice" 7 4 2 1 "text" "Available" 0 10).
  split; [vm_compute; reflexivity|]. split; [reflexivity|]. split; [reflexivity|].
  apply (available_files_complete upload epoch_db); vm_compute; reflexivity.
Defined.

Lemma declared_bytes_within_quota_witness :
  declared "alice" (history upload epoch_db) = 7 ∧
  declared "alice" (history upload epoch_db) ≤ 1073741824.
Proof.
  split; [vm_compute; reflexivity|].
  apply (declared_bytes_within_quota 1073741824 upload epoch_db "alice").
  - unfold i64_max. lia.
  - vm_compute; reflexivity.
  - vm_compute; reflexivity.
  - repeat (apply Forall_cons; split; [vm_compute; discriminate|]). apply Forall_nil; exact I.
Defined.

(** The chunk uploaded while the file was pending, after the completion. *)
Lemma uploaded_chunk_kept_witness :
  let d := history (take 1 upload) epoch_db in
  let d1 := (FileApi.upload_chunk (env_q 20) "f" 0 "sess" "=data" d).1 in
  let l := drop 2 upload in
  let d' := history l d1 in
  (∃ l1 ρ2 auth2 b2 l2, l = l1 ++ (ρ2, QFiles (UploadChunk "f" 0 auth2 b2)) :: l2 ∧
     session_valid (history l1 d1) (now_ms ρ2) auth2 "alice") ∨
  ∀ ρ2 auth2, session_valid d' (now_ms ρ2) auth2 "alice" →
    FileApi.download_chunk ρ2 "f" 0 auth2 d' = (d', Ok (Concrete.bytes_of "data")) ∨
    FileApi.download_chunk ρ2 "f" 0 auth2 d' = (d', Err FileApi.not_available).
Proof.
  apply (uploaded_chunk_kept (env_q 20) "f" 0 "sess" "=data" (Concrete.bytes_of "data") "alice"
           (history (take 1 upload) epoch_db) _ ()).
  - vm_compute. reflexivity.
  - solve_session.
  - vm_compute. reflexivity.
Defined.

Example alice_downloads :
  (FileApi.download_chunk (env_q 50) "f" 0 "sess" (history upload epoch_db)).2 =
    Ok (Concrete.bytes_of "data").
Proof. vm_compute. reflexivity. Qed.

(** Alice's group, with bob in it, and its item. *)
Definition group_q : list (Env * Request) :=
  [(env_q 10, QSharing (CreateSharingGroup "sess" "team"));
   (env_q 20, QSharing (AddSharingMember "n0" "sess" (ShareApi.mkAddMember "bob" "=w" "=e")));
   (env_q 30, QSharing (AddGroupItem "n0" "sess" "i1" "=p"))].
Definition group_db : Db :=
  history group_q (Concrete.demo_session "bs" "bob" 1000 epoch_db).

Example bob_reads_before :
  (ShareApi.list_group_items (env_q 40) "n0" "bs" group_db).2 = Ok [("n0", "i1", "=p")%string].
Proof. vm_compute. reflexivity. Qed.

Lemma removed_member_reads_nothing_witness :
  let d1 := (ShareApi.remove_group_member (env_q 50) "n0" "bob" "sess" group_db).1 in
  let l := [(env_q 60, QSharing (AddGroupItem "n0" "sess" "i2" "=q"))] in
  let d' := history l d1 in
  ∃ admin, session_valid group_db 50 "sess" admin ∧
  ((∃ l1 ρ2 auth2 req l2, l = l1 ++ (ρ2, QSharing (AddSharingMember "n0" auth2 req)) :: l2 ∧
      ShareApi.am_member_uuid req = "bob"%string ∧
      session_valid (history l1 d1) (now_ms ρ2) auth2 admin) ∨
   ∀ ρ2 auth2, session_valid d' (now_ms ρ2) auth2 "bob" →
     ShareApi.list_group_items ρ2 "n0" auth2 d' = (d', Err ShareApi.denied) ∧
     ∃ inbox, ShareApi.group_inbox ρ2 auth2 d' = (d', Ok inbox) ∧
              "n0"%string ∉ ShareApi.gi_group_id <$> inbox).
Proof.
  apply (removed_member_reads_nothing (env_q 50) "n0" "bob" "sess" group_db _ ()).
  vm_compute. reflexivity.
Defined.
End SystemWitnesses.
