(* ===== verification/History.v ===== *)
(** * What the server's history keeps

    Every request, whoever sends it, leaves the item store well formed and in a
    later state: no other request than the sync requests writes items, rows
    stay, versions and feed positions only grow.  Nor does any but the sharing
    requests write the sharing tables. *)
From S2P Require Import Prelude Domain Database Concrete Users Items Tokens Sync.
From S2P Require Import Projects Secrets Files Sharing.
From S2P Require Import Mfa Auth Recovery Account Webauthn AuditLog System.

Section Later.
Context {EXT : Ext} {WA : WebauthnRs}.

(** *** Only sync requests write items, only sharing requests write shares, and
    only sync requests and the reaper publish events *)
Definition sharing_tables (d : Db) :=
  (shares d, share_payloads d, sharing_groups d, group_members d, group_wrapped_sik d, group_items d).
Definition stored (d : Db) := (items d, sharing_tables d).
Definition kept (d : Db) := (event_channels d, stored d).

Local Ltac keeps q := destruct q; steps_crawl ltac:(idtac; reflexivity).

Lemma kept_auth ρ q : steps (same kept) (Auth.serve ρ q).
Proof. keeps q. Qed.
Lemma kept_account ρ q : steps (same kept) (serve_account ρ q).
Proof. keeps q. Qed.
Lemma kept_projects ρ q : steps (same kept) (serve_project ρ q).
Proof. keeps q. Qed.
Lemma kept_tokens ρ q d : same kept d (serve_token ρ q d).
Proof.
  destruct q; simpl; match goal with |- same kept d (?m d).1 =>
    enough (steps (same kept) m) as Hm by apply Hm end; steps_crawl ltac:(idtac; reflexivity).
Qed.
Lemma kept_secrets ρ q : steps (same kept) (serve_secret ρ q).
Proof. keeps q. Qed.
Lemma kept_files ρ q : steps (same kept) (serve_file ρ q).
Proof. keeps q. Qed.
Lemma kept_webauthn ρ q : steps (same kept) (serve_webauthn ρ q).
Proof. keeps q. Qed.
Lemma kept_audit ρ q : steps (same kept) (serve_audit ρ q).
Proof. keeps q. Qed.
Lemma stored_reaper seen : steps (same stored) (reaper_tick seen).
Proof.
  unfold reaper_tick, tombstoned_items_with_owner. steps_tac.
  apply steps_announce; [apply _|]. steps_crawl ltac:(idtac; reflexivity).
Qed.
Lemma kept_recovery ρ q : steps (same kept) (serve_recovery ρ q).
Proof.
  destruct q; [..|].
  7: { intros d. simpl. destruct (delete_account_run ρ auth d) as [(e & He) _].
       by rewrite bind_run, He. }
  all: steps_crawl ltac:(idtac; reflexivity).
Qed.
Lemma items_shares ρ q : steps (same (λ d, (event_channels d, items d))) (serve_share ρ q).
Proof. keeps q. Qed.
Lemma tables_sync ρ q d : same sharing_tables d (Sync.serve ρ q d).
Proof.
  destruct q; simpl; match goal with |- same sharing_tables d (?m d).1 =>
    enough (steps (same sharing_tables) m) as Hm by apply Hm end; steps_crawl ltac:(idtac; reflexivity).
Qed.

Lemma step_kept ρ q d :
  match q with QSync _ | QSharing _ | QReaper _ => True | _ => same kept d (step ρ q d) end.
Proof.
  destruct q; [apply kept_auth | apply kept_recovery | apply kept_account | done
    | apply kept_tokens | apply kept_projects | apply kept_secrets | apply kept_files
    | done | apply kept_webauthn | apply kept_audit | done].
Qed.

Lemma step_channels ρ q d :
  match q with QSync _ | QReaper _ => True | _ => same event_channels d (step ρ q d) end.
Proof.
  pose proof (step_kept ρ q d) as Hk.
  destruct q; first [exact I | exact (f_equal fst (items_shares ρ q d)) | exact (f_equal fst Hk)].
Qed.
Lemma step_items ρ q d : match q with QSync _ => True | _ => same items d (step ρ q d) end.
Proof.
  pose proof (step_kept ρ q d) as Hk.
  destruct q; first [exact I | exact (f_equal snd (items_shares ρ q d))
    | exact (f_equal fst (stored_reaper seen d)) | exact (f_equal (λ c, c.2.1) Hk)].
Qed.
Lemma step_tables ρ q d : match q with QSharing _ => True | _ => same sharing_tables d (step ρ q d) end.
Proof.
  pose proof (step_kept ρ q d) as Hk.
  destruct q; first [exact I | apply tables_sync
    | exact (f_equal snd (stored_reaper seen d)) | exact (f_equal (λ c, c.2.2) Hk)].
Qed.

(** Accounts stay, so the item store stays well formed. *)
Lemma sync_le_items d d' : same items d d' → epoch_le d d' → sync_le d d'.
Proof.
  intros Hi He [K O V S J]. unfold same in Hi.
  assert (∀ u, max_seq u d' = max_seq u d) as Hm by (intros u; unfold max_seq, user_seqs; by rewrite Hi).
  split_and!.
  - split; rewrite ?Hi; auto. intros k r Hr. destruct (O _ _ Hr) as [row Hrow].
    destruct (He _ _ Hrow) as (row' & -> & _). by eexists.
  - intros k r Hr. rewrite Hi. exists r. auto with lia.
  - intros u. split; rewrite ?Hm; [lia|]. rewrite Hi. auto.
Qed.

Lemma step_sync_le ρ q d : sync_le d (step ρ q d).
Proof.
  pose proof (step_items ρ q d) as Hi. pose proof (proj1 (proj2 (step_tenancy ρ q d))) as He.
  destruct q; try (by apply sync_le_items). apply serve_sync_le.
Qed.

Lemma history_sync_le l d : sync_le d (history l d).
Proof. apply history_rel; [apply _|]. apply Forall_forall. intros q _ d'. apply step_sync_le. Qed.
(** C2. No lost update: a device that read a row and pushes back on its
    version succeeds, after any requests of any callers to any of the routes
    and any rounds of the reaper, exactly when the row is still the one it read
    and its key generation is still current; a change by anyone else, or a key
    rotation, in between makes the push fail. *)
Theorem sync_no_lost_update l d uuid u r now item pl ur :
  let d1 := history l d in
  items_wf d → items d !! (uuid, u) = Some r → users d1 !! u = Some ur →
  ph_uuid item = uuid → ph_target_version item = i_version r →
  is_Some (uuid_parse uuid) → decoded item = Some pl → fits item ur →
  ∃ d2 res, push_item u now item d1 = (d2, Ok res) ∧
    (ps_status res = "success" ↔
       items d1 !! (uuid, u) = Some r ∧ (u_min_enc_key_gen ur ≤ ph_enc_key_gen item)%Z).
Proof.
  intros d1 Hwf Hr Hu <- Ht Hid Hdec Hfit.
  destruct (history_sync_le l d Hwf) as (Hwf1 & Hocc & _). fold d1 in Hwf1, Hocc.
  destruct (Hocc _ _ Hr) as (r1 & Hr1 & _ & Hsame).
  pose proof (push_item_run u now item d1 ur pl Hu Hid Hdec Hfit) as Hp. cbv zeta in Hp.
  unfold Register.put, Register.abs in Hp. rewrite Hr1 in *. simpl in Hp.
  destruct (decide (ph_enc_key_gen item < u_min_enc_key_gen ur)%Z) as [Hlt|Hge].
  { destruct Hp as (d2 & -> & _). eexists _, _. split; [reflexivity|].
    split; [done | intros [_ ?]; lia]. }
  destruct (decide (i_version r1 = ph_target_version item)) as [Hv|Hv];
    destruct Hp as (d2 & -> & _); eexists _, _; (split; [reflexivity|]).
  - rewrite Hsame by congruence. split; [intros _; split; [done | lia] | intros _].
    by destruct (i_deleted_date r), (ph_deleted_date item).
  - split; [done|]. intros [[= ->] _]. congruence.
Qed.
End Later.

(** *** A witness *)
Section HistoryWitness.
#[local] Existing Instances Concrete.toy_ext toy_webauthn.
Local Open Scope Z_scope.

(** Alice's other device rotates the vault key in between: her push under the
    old key is refused, under the new key it is stored. *)
Definition changed_push (gen : Z) : PushItem := mkPushItem "i1" 1 gen (Some "=p") None.

Lemma sync_no_lost_update_witness :
  let d1 := history [(Concrete.demo_env 20, QAccount (RotateKey "sess" (mkRotateKey 3 "=k")))] created in
  (∃ d2 res, push_item "alice" 30 (changed_push 2) d1 = (d2, Ok res) ∧ ps_status res ≠ "success") ∧
  (∃ d2 res, push_item "alice" 30 (changed_push 3) d1 = (d2, Ok res) ∧ ps_status res = "success").
Proof.
  intros d1. split.
  - destruct (sync_no_lost_update
      [(Concrete.demo_env 20, QAccount (RotateKey "sess" (mkRotateKey 3 "=k")))] created "i1"
      "alice" demo_row 30 (changed_push 2) (Some (Concrete.bytes_of "p"))
      (set_svk (Concrete.bytes_of "k") []
        (set_min_enc_key_gen 3 (Concrete.demo_user "alice" 2)))) as (d2 & res & Hp & Hiff);
      [exact created_wf | vm_compute; reflexivity | vm_compute; reflexivity | reflexivity
      | reflexivity | by eexists | reflexivity | vm_compute; intuition discriminate |].
    exists d2, res. split; [exact Hp|]. intros Hs. apply Hiff in Hs as [_ Hs].
    vm_compute in Hs. by apply Hs.
  - destruct (sync_no_lost_update
      [(Concrete.demo_env 20, QAccount (RotateKey "sess" (mkRotateKey 3 "=k")))] created "i1"
      "alice" demo_row 30 (changed_push 3) (Some (Concrete.bytes_of "p"))
      (set_svk (Concrete.bytes_of "k") []
        (set_min_enc_key_gen 3 (Concrete.demo_user "alice" 2)))) as (d2 & res & Hp & Hiff);
      [exact created_wf | vm_compute; reflexivity | vm_compute; reflexivity | reflexivity
      | reflexivity | by eexists | reflexivity | vm_compute; intuition discriminate |].
    exists d2, res. split; [exact Hp|]. apply Hiff. split; [vm_compute; reflexivity|].
    vm_compute. discriminate.
Defined.
End HistoryWitness.
