(* ===== verification/RateLimit.v ===== *)
(** * Rate limiting

    Models the fixed-window limiters of [middleware.rs] (the global one and the
    per-route one the server installs), their budgets and the client key. *)
From S2P Require Import Prelude.
From Stdlib Require Import Strings.Ascii.

Record Window := mkWindow { start_secs : Z; count : Z }.
Record RateInfo := mkRateInfo { ri_limit : Z; ri_remaining : Z; ri_reset_unix_secs : Z }.
Record RateLimited := mkRateLimited { retry_after_secs : Z }.

Abbreviation Windows := (gmap string Window).
Abbreviation Outcome := (result RateLimited RateInfo).

Section RateLimit.
Local Open Scope Z_scope.

(** The body both limiters share: bound the map, open or reset the key's
    window, count the request. *)
Definition count_request (prune_above max window : Z) (key : string) (now : Z) (m : Windows)
    : Windows * Outcome :=
  let window_start := now - now mod window in
  let m := if bool_decide (prune_above < Z.of_nat (size m)) then
             filter (λ kw : string * Window, now ≤ start_secs kw.2 + window) m
           else m in
  let w := default (mkWindow window_start 0) (m !! key) in
  let w := if bool_decide (start_secs w ≠ window_start) then mkWindow window_start 0 else w in
  let w := mkWindow (start_secs w) (count w + 1) in
  let reset := window_start + window in
  (<[key := w]> m,
   if bool_decide (max < count w) then Err (mkRateLimited (Z.max (u64_saturating_sub reset now) 1))
   else Ok (mkRateInfo max (max - count w) reset)).

(** ** RateLimiter *)

Record RateLimiter := mkRateLimiter { max_per_window : Z; window_secs : Z }.

Definition new_limiter (max window : Z) : RateLimiter := mkRateLimiter max (Z.max window 1).

Definition check_at (l : RateLimiter) (key : string) (now : Z) (m : Windows) : Windows * Outcome :=
  count_request 4096 (max_per_window l) (window_secs l) key now m.

(** ** PerRouteRateLimiter *)

Inductive RouteClass := Auth | SyncPush | SyncPull | Files | Default.

#[export] Instance RouteClass_eq_dec : EqDecision RouteClass.
Proof. solve_decision. Defined.

Definition class_of (path : string) : RouteClass :=
  if starts_with "/auth/" path then Auth
  else if starts_with "/sync/push-batch" path then SyncPush
  else if starts_with "/sync/" path then SyncPull
  else if starts_with "/files/" path then Files
  else Default.

Definition env_max (c : RouteClass) : string :=
  match c with
  | Auth => "VAUTR_RATE_AUTH_MAX"
  | SyncPush => "VAUTR_RATE_SYNC_PUSH_MAX"
  | SyncPull => "VAUTR_RATE_SYNC_PULL_MAX"
  | Files => "VAUTR_RATE_FILES_MAX"
  | Default => "VAUTR_RATE_DEFAULT_MAX"
  end.

Definition budget (env : string → option string) (c : RouteClass) : Z * Z :=
  let def_max := match c with
                 | Auth => 10 | SyncPush => 30 | SyncPull => 600 | Files => 120 | Default => 300
                 end in
  (default def_max (env (env_max c) ≫= parse_u64), 60).

(** [{class:?}]. *)
Definition class_name (c : RouteClass) : string :=
  match c with
  | Auth => "Auth" | SyncPush => "SyncPush" | SyncPull => "SyncPull" | Files => "Files"
  | Default => "Default"
  end.

Definition route_key (c : RouteClass) (client : string) : string :=
  String.append (class_name c) (String "|" client).

Definition check (env : string → option string) (c : RouteClass) (client : string) (now : Z)
    (m : Windows) : Windows * Outcome :=
  let '(max, window) := budget env c in
  count_request 8192 max window (route_key c client) now m.

(** ** Client identity *)

Fixpoint before_comma (s : string) : string :=
  match s with
  | EmptyString => EmptyString
  | String ","%char _ => EmptyString
  | String c s' => String c (before_comma s')
  end.

(** The peer address, else the first [X-Forwarded-For] entry. *)
Definition client_key (connect_info x_forwarded_for : option string) : string :=
  match connect_info with
  | Some ip => ip
  | None =>
      match x_forwarded_for with
      | Some s =>
          let ip := str_trim (before_comma s) in
          if bool_decide (ip = EmptyString) then "unknown" else ip
      | None => "unknown"
      end
  end.

(** ** Specification: counting the requests of a window

    What a limiter promises, without a map of windows to keep: a request is
    admitted when fewer than [max] requests of its key came before it in its
    window. *)
Definition window_of (window t : Z) : Z := t - t mod window.

Definition earlier {K} `{EqDecision K} (window : Z) (hist : list (K * Z)) (k : K) (s : Z) : Z :=
  Z.of_nat (length (filter (λ r, r.1 = k ∧ window_of window r.2 = s) hist)).

Definition has_room {K} `{EqDecision K} (max window : Z) (hist : list (K * Z)) (k : K) (t : Z)
    : Outcome :=
  let s := window_of window t in
  let n := earlier window hist k s + 1 in
  if bool_decide (max < n) then Err (mkRateLimited (Z.max (u64_saturating_sub (s + window) t) 1))
  else Ok (mkRateInfo max (max - n) (s + window)).

(** A limiter serving requests in order. *)
Fixpoint run_limiter {K} (f : K → Z → Windows → Windows * Outcome) (l : list (K * Z))
    (m : Windows) : list Outcome :=
  match l with
  | [] => []
  | (k, t) :: l' => let '(m', o) := f k t m in o :: run_limiter f l' m'
  end.

Fixpoint run_spec {K} (f : list (K * Z) → K → Z → Outcome) (hist l : list (K * Z))
    : list Outcome :=
  match l with
  | [] => []
  | (k, t) :: l' => f hist k t :: run_spec f (hist ++ [(k, t)]) l'
  end.

(** The clock does not go back. *)
Fixpoint in_order {K} (t : Z) (l : list (K * Z)) : Prop :=
  match l with
  | [] => True
  | r :: l' => t ≤ r.2 ∧ in_order r.2 l'
  end.
End RateLimit.

(** ** Refinement *)
Section Refine.
Local Open Scope Z_scope.
Context {K : Type} `{EqDecision K} (enc : K → string) `{!Inj (=) (=) enc}.
Context (mx : K → Z) (W cap : Z) (HW : 0 < W).

Lemma window_of_bounds t : window_of W t ≤ t < window_of W t + W.
Proof. unfold window_of. pose proof (Z.mod_pos_bound t W HW). lia. Qed.

Lemma window_of_mono t t' : t ≤ t' → window_of W t ≤ window_of W t'.
Proof.
  intros Ht. unfold window_of. rewrite !Z.mod_eq by lia.
  assert (t / W ≤ t' / W) by (apply Z.div_le_mono; lia). nia.
Qed.

Lemma earlier_app (hist : list (K * Z)) (k : K) t k' s :
  earlier W (hist ++ [(k, t)]) k' s =
  earlier W hist k' s + (if decide (k = k' ∧ window_of W t = s) then 1 else 0).
Proof.
  unfold earlier. rewrite filter_app, length_app, Nat2Z.inj_add. f_equal.
  destruct (decide _) as [Hd|Hd].
  - rewrite filter_cons_True by done. done.
  - rewrite filter_cons_False by done. done.
Qed.

(** What the map holds about the requests already served, [last] being the
    time of the latest one. *)
Definition counted (hist : list (K * Z)) (last : Z) (m : Windows) : Prop :=
  ∀ k, match m !! enc k with
       | Some w =>
           start_secs w ≤ window_of W last ∧ count w = earlier W hist k (start_secs w) ∧
           ∀ s, start_secs w < s → earlier W hist k s = 0
       | None => ∀ s, window_of W last ≤ s → earlier W hist k s = 0
       end.

Lemma counted_later (hist : list (K * Z)) last t m : last ≤ t → counted hist last m → counted hist t m.
Proof.
  intros Ht Hc k. specialize (Hc k). pose proof (window_of_mono _ _ Ht).
  destruct (m !! enc k); [destruct Hc as (H1 & H2 & H3); split_and!; [lia | done..] |].
  intros s Hs. apply Hc. lia.
Qed.

(** Dropping the windows that are over loses nothing. *)
Lemma counted_prune hist t m (c : bool) :
  counted hist t m →
  counted hist t (if c then filter (λ kw : string * Window, t ≤ start_secs kw.2 + W) m else m).
Proof.
  intros Hc. destruct c; [|done]. intros k. specialize (Hc k).
  pose proof (window_of_bounds t) as Hb.
  destruct (filter _ m !! enc k) as [w|] eqn:Hf.
  - apply map_lookup_filter_Some in Hf as [Hw _]. by rewrite Hw in Hc.
  - destruct (m !! enc k) as [w|] eqn:Hw; [|done]. destruct Hc as (H1 & H2 & H3).
    intros s Hs. apply H3. apply map_lookup_filter_None in Hf as [Hf | Hf]; [congruence|].
    specialize (Hf w Hw). simpl in Hf. lia.
Qed.

Lemma count_request_step hist last t k m :
  counted hist last m → last ≤ t →
  let '(m', o) := count_request cap (mx k) W (enc k) t m in
  o = has_room (mx k) W hist k t ∧ counted (hist ++ [(k, t)]) t m'.
Proof.
  intros Hc Ht. unfold count_request, has_room. fold (window_of W t).
  set (m1 := if bool_decide _ then _ else m).
  assert (counted hist t m1) as Hc1 by (apply counted_prune, (counted_later _ last); done).
  clearbody m1. clear Hc. set (ws := window_of W t).
  set (w0 := default (mkWindow ws 0) (m1 !! enc k)).
  set (w := if bool_decide (start_secs w0 ≠ ws) then mkWindow ws 0 else w0).
  assert (start_secs w = ws ∧ count w = earlier W hist k ws ∧
          ∀ s, ws < s → earlier W hist k s = 0) as (Hs & Hn & Hl).
  { pose proof (Hc1 k) as Hk. unfold w, w0. destruct (m1 !! enc k) as [w1|]; simpl.
    - destruct Hk as (H1 & H2 & H3). case_bool_decide as He; simpl.
      + split_and!; [done | | intros s Hs; apply H3; lia]. rewrite H3; [done | lia].
      + rewrite He in *. split_and!; [done | done | intros s Hs; apply H3; lia].
    - rewrite bool_decide_false by (intros []; done). simpl.
      split_and!; [done | rewrite Hk; [done | lia] | intros s Hs; apply Hk; lia]. }
  rewrite Hs. cbn [start_secs count]. rewrite Hn. split; [done|].
  intros k'. rewrite lookup_insert. destruct (decide (enc k = enc k')) as [He|He].
  - apply (inj enc) in He as <-. cbn [start_secs count]. split_and!; [lia | |].
    + rewrite earlier_app, decide_True by done. done.
    + intros s Hs'. rewrite earlier_app, decide_False by lia. rewrite Hl; lia.
  - specialize (Hc1 k'). assert (k ≠ k') as Hne by (by intros ->).
    destruct (m1 !! enc k') as [w'|].
    + destruct Hc1 as (H1 & H2 & H3). split_and!; [done | |].
      * rewrite earlier_app, decide_False by naive_solver. lia.
      * intros s Hs'. rewrite earlier_app, decide_False by naive_solver. rewrite H3; lia.
    + intros s Hs'. rewrite earlier_app, decide_False by naive_solver. rewrite Hc1; lia.
Qed.

Lemma run_refines hist last l m :
  counted hist last m → in_order last l →
  run_limiter (λ k t m, count_request cap (mx k) W (enc k) t m) l m =
  run_spec (λ h k t, has_room (mx k) W h k t) hist l.
Proof.
  revert hist last m. induction l as [|[k t] l IH]; intros hist last m Hc Ho; [done|].
  destruct Ho as [Ht Ho]. simpl in Ht, Ho.
  cbn [run_limiter run_spec].
  pose proof (count_request_step hist last t k m Hc Ht) as Hstep.
  destruct (count_request cap (mx k) W (enc k) t m) as [m' o]. destruct Hstep as [-> Hc'].
  f_equal. exact (IH _ _ _ Hc' Ho).
Qed.

Lemma counted_empty t : counted [] t ∅.
Proof. intros k. rewrite lookup_empty. done. Qed.
End Refine.

(** ** Properties *)

Lemma before_bar_inj c1 c2 x1 x2 : route_key c1 x1 = route_key c2 x2 → c1 = c2 ∧ x1 = x2.
Proof. destruct c1, c2; simpl; intros [=]; subst; done. Qed.

(** C33. The global limiter admits exactly the requests whose window still has
    room: the map of windows, its resets and its pruning, over any interleaving
    of clients with a clock that does not go back, give the outcomes (headers
    and [Retry-After] included) that counting the client's earlier requests of
    the window gives. *)
Theorem limiter_refines_counting max window l t0 :
  in_order t0 l →
  run_limiter (λ k t m, check_at (new_limiter max window) k t m) l ∅ =
  run_spec (λ h k t, has_room max (Z.max window 1) h k t) [] l.
Proof.
  intros Ho. unfold check_at, new_limiter. cbn [max_per_window window_secs].
  apply (run_refines id (λ _, max) (Z.max window 1) 4096 ltac:(lia) [] t0); [|done].
  apply counted_empty.
Qed.

(** The per-route limiter gives every pair of route class and client a
    budget of its own: its outcomes are those of counting the earlier requests
    of the same class and client in the window, so a burst on one class never
    costs another class, nor another client, a request. *)
Theorem per_route_refines_counting env l t0 :
  in_order t0 l →
  run_limiter (λ k t m, check env k.1 k.2 t m) l ∅ =
  run_spec (λ h k t, has_room (budget env k.1).1 60 h k t) [] l.
Proof.
  intros Ho.
  assert (Inj (=) (=) (λ k : RouteClass * string, route_key k.1 k.2)) as Hinj.
  { intros [c1 x1] [c2 x2] Hk. apply before_bar_inj in Hk as [E1 E2]. simpl in E1, E2. congruence. }
  apply (run_refines (λ k : RouteClass * string, route_key k.1 k.2) (λ k, (budget env k.1).1) 60 8192
           ltac:(lia) [] t0); [|done].
  apply counted_empty.
Qed.

(** ** Witnesses *)

Lemma limiter_refines_counting_witness :
  run_limiter (λ k t m, check_at (new_limiter 2 60) k t m)
    [("a", 5%Z); ("a", 6%Z); ("b", 6%Z); ("a", 50%Z); ("a", 61%Z)] ∅ =
  run_spec (λ h k t, has_room 2 60 h k t) []
    [("a", 5%Z); ("a", 6%Z); ("b", 6%Z); ("a", 50%Z); ("a", 61%Z)].
Proof. apply (limiter_refines_counting 2 60 _ 0). simpl. lia. Defined.

Lemma per_route_refines_counting_witness :
  run_limiter (λ k t m, check (λ _, None) k.1 k.2 t m)
    [((Auth, "a"), 5%Z); ((SyncPull, "a"), 6%Z); ((Auth, "a"), 61%Z)] ∅ =
  run_spec (λ h k t, has_room (budget (λ _, None) k.1).1 60 h k t) []
    [((Auth, "a"), 5%Z); ((SyncPull, "a"), 6%Z); ((Auth, "a"), 61%Z)].
Proof. apply (per_route_refines_counting _ _ 0). simpl. lia. Defined.

Example third_request_waits :
  run_limiter (λ k t m, check_at (new_limiter 2 60) k t m)
    [("a", 5%Z); ("a", 6%Z); ("a", 50%Z); ("a", 61%Z)] ∅ =
  [Ok (mkRateInfo 2 1 60); Ok (mkRateInfo 2 0 60); Err (mkRateLimited 10);
   Ok (mkRateInfo 2 1 120)].
Proof. vm_compute. reflexivity. Qed.
