(* ===== verification/ClientDb.v ===== *)
(** * The client's local database

    Models [core/vautr-db/src/]: the tables of [entity.rs] and [migrate.rs]
    (a finite map from each primary key) and the statements of [txn.rs] and
    [query.rs].  The full-text index and the migration runner are left out.
    Shows that every transaction keeps the tables well formed: an overview and
    a payload for the same items, blacklist states the schema's CHECK allows,
    and the singleton row of [sync_meta]. *)
From S2P Require Import Prelude Domain Database.

(** ** entity.rs *)

Inductive DashMapState := DbToxicIgnored | DbValidIgnored.

Definition dashmap_as_db_str (s : DashMapState) : string :=
  match s with DbToxicIgnored => "ToxicIgnored" | DbValidIgnored => "ValidIgnored" end.

Definition dashmap_from_db_str (s : string) : option DashMapState :=
  if decide (s = "ToxicIgnored") then Some DbToxicIgnored
  else if decide (s = "ValidIgnored") then Some DbValidIgnored
  else None.

(** [item_overview::Model], its key apart. *)
Record OverviewRow := mkOverviewRow {
  ov_version : Z; ov_enc_key_gen : Z; ov_deleted_date : option Z; ov_title : string;
  ov_subtitle : string; ov_icon_key : string; ov_urls : string; ov_created_at : Z;
  ov_updated_at : Z }.

Record SyncMetaRow := mkSyncMeta {
  sm_sync_cursor : Z; sm_min_enc_key_gen : Z; sm_svk_ciphertext_blob : blob }.

Record LocalBlacklistRow := mkBlacklistRow { lb_ignored_version : Z; lb_state : string }.

Record QuarantineRow := mkQuarantineRow {
  qr_target_version : Z; qr_quarantine_until : Z; qr_retries : Z }.

Record PendingDeleteRow := mkPendingDelete { pd_version : Z; pd_enc_key_gen : Z }.

(** The database of one client. *)
Record Local := mkLocal {
  overviews : gmap string OverviewRow;
  payloads : gmap string blob;
  sync_meta : gmap Z SyncMetaRow;
  blacklist_rows : gmap string LocalBlacklistRow;
  quarantine_rows : gmap string QuarantineRow;
  pending_deletes : gmap string PendingDeleteRow }.

Definition with_overviews (f : gmap string OverviewRow → gmap string OverviewRow) (l : Local) : Local :=
  mkLocal (f (overviews l)) (payloads l) (sync_meta l) (blacklist_rows l) (quarantine_rows l)
    (pending_deletes l).
Definition with_payloads (f : gmap string blob → gmap string blob) (l : Local) : Local :=
  mkLocal (overviews l) (f (payloads l)) (sync_meta l) (blacklist_rows l) (quarantine_rows l)
    (pending_deletes l).
Definition with_sync_meta (f : gmap Z SyncMetaRow → gmap Z SyncMetaRow) (l : Local) : Local :=
  mkLocal (overviews l) (payloads l) (f (sync_meta l)) (blacklist_rows l) (quarantine_rows l)
    (pending_deletes l).
Definition with_blacklist_rows
    (f : gmap string LocalBlacklistRow → gmap string LocalBlacklistRow) (l : Local) : Local :=
  mkLocal (overviews l) (payloads l) (sync_meta l) (f (blacklist_rows l)) (quarantine_rows l)
    (pending_deletes l).
Definition with_quarantine_rows
    (f : gmap string QuarantineRow → gmap string QuarantineRow) (l : Local) : Local :=
  mkLocal (overviews l) (payloads l) (sync_meta l) (blacklist_rows l) (f (quarantine_rows l))
    (pending_deletes l).
Definition with_pending_deletes
    (f : gmap string PendingDeleteRow → gmap string PendingDeleteRow) (l : Local) : Local :=
  mkLocal (overviews l) (payloads l) (sync_meta l) (blacklist_rows l) (quarantine_rows l)
    (f (pending_deletes l)).

(** A migrated, empty database: [SCHEMA] seeds the singleton. *)
Definition fresh_local : Local := mkLocal ∅ ∅ {[ 1%Z := mkSyncMeta 0 0 [] ]} ∅ ∅ ∅.

Inductive LocalError := LocalCustom (what : string) | CheckViolation.

Abbreviation local := (M Local LocalError).

(** ** txn.rs *)

(** [item_uuid IN (..)]. *)
Definition drop_keys {R} (ks : list string) (t : gmap string R) : gmap string R :=
  filter (λ kr, kr.1 ∉ ks) t.

(** [ON CONFLICT (uuid) DO UPDATE] with every column but [created_at]. *)
Definition save_overview (new : OverviewRow) (old : option OverviewRow) : option OverviewRow :=
  Some match old with
       | Some o => mkOverviewRow (ov_version new) (ov_enc_key_gen new) (ov_deleted_date new)
                     (ov_title new) (ov_subtitle new) (ov_icon_key new) (ov_urls new)
                     (ov_created_at o) (ov_updated_at new)
       | None => new
       end.

Definition save_item_txn (uuid : string) (overview : OverviewRow) (payload : blob)
    (item_uuid : string) : local unit :=
  modify (with_overviews (partial_alter (save_overview overview) uuid));;
  modify (with_payloads (insert uuid payload));;
  modify (with_blacklist_rows (delete item_uuid));;
  modify (with_quarantine_rows (delete item_uuid)).

(** [ON CONFLICT (uuid) DO UPDATE] with the columns the server knows. *)
Definition sync_overview (new : OverviewRow) (old : option OverviewRow) : option OverviewRow :=
  Some match old with
       | Some o => mkOverviewRow (ov_version new) (ov_enc_key_gen new) (ov_deleted_date new)
                     (ov_title o) (ov_subtitle o) (ov_icon_key o) (ov_urls o)
                     (ov_created_at o) (ov_updated_at new)
       | None => new
       end.

(** [insert_many .. on_conflict]: row after row. *)
Definition sync_overviews (rs : list (string * OverviewRow)) (t : gmap string OverviewRow)
    : gmap string OverviewRow :=
  foldl (λ t r, partial_alter (sync_overview r.2) r.1 t) t rs.
Definition sync_payloads (rs : list (string * blob)) (t : gmap string blob) : gmap string blob :=
  foldl (λ t r, <[r.1 := r.2]> t) t rs.

(** [UPDATE sync_meta .. WHERE id = 1], which must affect one row. *)
Definition update_singleton (f : SyncMetaRow → SyncMetaRow) (what : string) : local unit :=
  o ← gets (λ l, sync_meta l !! 1%Z);
  modify (with_sync_meta (alter f 1%Z));;
  guard_err (bool_decide (o = None)) (LocalCustom what).

Definition set_cursor (cursor min_gen : Z) (m : SyncMetaRow) : SyncMetaRow :=
  mkSyncMeta cursor min_gen (sm_svk_ciphertext_blob m).

Definition apply_sync_batch_txn (overviews_to_upsert : list (string * OverviewRow))
    (payloads_to_upsert : list (string * blob)) (uuids_to_delete : list string)
    (new_cursor new_min_gen : Z) : local unit :=
  (if decide (uuids_to_delete = []) then mret ()
   else
     modify (with_payloads (drop_keys uuids_to_delete));;
     modify (with_overviews (drop_keys uuids_to_delete));;
     modify (with_blacklist_rows (drop_keys uuids_to_delete));;
     modify (with_quarantine_rows (drop_keys uuids_to_delete)));;
  modify (with_overviews (sync_overviews overviews_to_upsert));;
  modify (with_payloads (sync_payloads payloads_to_upsert));;
  update_singleton (set_cursor new_cursor new_min_gen)
    "sync_meta singleton row missing (apply_sync_batch_txn)".

Definition blacklist_entry (uuid : string) (ignored_version : Z) (state : DashMapState)
    : string * LocalBlacklistRow :=
  (uuid, mkBlacklistRow ignored_version (dashmap_as_db_str state)).

(** [CHECK (state IN (..))] and the primary key, for one row of an
    [insert_many]. *)
Definition insert_blacklist (e : string * LocalBlacklistRow) : local unit :=
  o ← gets (λ l, blacklist_rows l !! e.1);
  guard_err (bool_decide (is_Some o)) CheckViolation;;
  guard_err (bool_decide (dashmap_from_db_str (lb_state e.2) = None)) CheckViolation;;
  modify (with_blacklist_rows (insert e.1 e.2)).

Definition persist_dashmap_txn (current_dashmap_entries : list (string * LocalBlacklistRow))
    : local unit :=
  modify (with_blacklist_rows (λ _, ∅));;
  mapM insert_blacklist current_dashmap_entries;;
  mret ().

Definition reset_ttl (new_target_version new_quarantine_until : Z) (q : QuarantineRow) : QuarantineRow :=
  mkQuarantineRow new_target_version new_quarantine_until (qr_retries q + 1).

Definition reaper_reset_ttl_txn (item_uuid : string) (new_target_version new_quarantine_until : Z)
    : local unit :=
  modify (with_quarantine_rows (alter (reset_ttl new_target_version new_quarantine_until) item_uuid)).

Definition set_svk_blob (b : blob) (m : SyncMetaRow) : SyncMetaRow :=
  mkSyncMeta (sm_sync_cursor m) (sm_min_enc_key_gen m) b.

Definition store_svk_blob (b : blob) : local unit :=
  update_singleton (set_svk_blob b) "sync_meta singleton row missing (store_svk_blob)".

Definition set_gen (g : Z) (o : OverviewRow) : OverviewRow :=
  mkOverviewRow (ov_version o) g (ov_deleted_date o) (ov_title o) (ov_subtitle o) (ov_icon_key o)
    (ov_urls o) (ov_created_at o) (ov_updated_at o).

Definition reencrypt_item_txn (uuid : string) (new_payload : blob) (new_enc_key_gen : Z) : local unit :=
  modify (with_payloads (alter (λ _, new_payload) uuid));;
  modify (with_overviews (alter (set_gen new_enc_key_gen) uuid)).

(** Row 2 of [sync_meta]. *)
Definition store_svk_rk_blob (b : blob) : local unit :=
  modify (with_sync_meta (partial_alter (λ o, Some
    match o with Some m => set_svk_blob b m | None => mkSyncMeta 0 0 b end) 2%Z)).

Definition record_pending_delete_txn (uuid : string) (version enc_key_gen : Z) : local unit :=
  modify (with_pending_deletes (insert uuid (mkPendingDelete version enc_key_gen))).

Definition list_pending_deletes : local (list (string * Z * Z)) :=
  gets (λ l, (λ kr, (kr.1, pd_version kr.2, pd_enc_key_gen kr.2)) <$> map_to_list (pending_deletes l)).

Definition clear_pending_deletes (uuids : list string) : local unit :=
  if decide (uuids = []) then mret () else modify (with_pending_deletes (drop_keys uuids)).

(** ** query.rs *)
Section Queries.
Context `{Ext}.

(** Unreadable JSON counts as no URL, an unreadable uuid as nil. *)
Definition row_to_overview (kr : string * OverviewRow) : DecryptedOverview :=
  mkOverview (default nil_uuid (uuid_parse kr.1)) (ov_title kr.2) (ov_subtitle kr.2)
    (ov_icon_key kr.2) (default [] (strings_of_json (ov_urls kr.2))) (ov_updated_at kr.2).

(** [ORDER BY updated_at DESC, created_at DESC]. *)
Definition newest_first : relation (string * OverviewRow) := λ a b,
  (ov_updated_at b.2 < ov_updated_at a.2 ∨
   ov_updated_at b.2 = ov_updated_at a.2 ∧ ov_created_at b.2 ≤ ov_created_at a.2)%Z.
#[export] Instance newest_first_dec : RelDecision newest_first.
Proof. intros a b. unfold newest_first. apply _. Defined.

Definition recent_overviews (limit : N) : local (list DecryptedOverview) :=
  gets (λ l, row_to_overview <$>
          take (N.to_nat limit) (merge_sort newest_first (map_to_list (overviews l)))).

Definition get_overview (uuid : string) : local DecryptedOverview :=
  o ← gets (λ l, overviews l !! uuid);
  row ← ok_or (LocalCustom "overview not found") o;
  mret (row_to_overview (uuid, row)).

Definition list_blacklist : local (list (string * Z * string)) :=
  gets (λ l, (λ kr, (kr.1, lb_ignored_version kr.2, lb_state kr.2)) <$>
          map_to_list (blacklist_rows l)).

Definition get_secret_material (uuid : string) : local (option (Z * blob)) :=
  gets (λ l, o ← overviews l !! uuid; p ← payloads l !! uuid; Some (ov_enc_key_gen o, p)).

(** The rows of the join of overviews and payloads that parse. *)
Definition joined (l : Local) : list (Uuid * OverviewRow * blob) :=
  omap (λ kr, u ← uuid_parse kr.1; p ← payloads l !! kr.1; Some (u, kr.2, p))
    (map_to_list (overviews l)).

Definition list_enc_key_gens : local (list (Uuid * Z * blob)) :=
  gets (λ l, (λ r, (r.1.1, ov_enc_key_gen r.1.2, r.2)) <$>
          sort_asc (λ r, ov_enc_key_gen r.1.2) (joined l)).

Definition list_rotation_items (max_gen : Z) : local (list (Uuid * Z * Z * blob)) :=
  gets (λ l, (λ r, (r.1.1, ov_version r.1.2, ov_enc_key_gen r.1.2, r.2)) <$>
          sort_asc (λ r, ov_enc_key_gen r.1.2)
            (filter (λ r, ov_deleted_date r.1.2 = None ∧ (ov_enc_key_gen r.1.2 < max_gen)%Z)
               (joined l))).
End Queries.

Definition get_sync_cursor : local Z :=
  gets (λ l, as_u64 (Z.max 0 (default 0%Z (sm_sync_cursor <$> sync_meta l !! 1%Z)))).

(** ** Well-formed databases *)

Record local_wf (l : Local) : Prop := {
  (** an overview and a payload for the same items *)
  lw_dom : dom (overviews l) = dom (payloads l);
  (** CHECK (state IN ('ToxicIgnored', 'ValidIgnored')) *)
  lw_states u r : blacklist_rows l !! u = Some r → is_Some (dashmap_from_db_str (lb_state r));
  (** the seeded row *)
  lw_meta : is_Some (sync_meta l !! 1%Z);
}.

Lemma no_row {R} u (r : R) : (∅ : gmap string R) !! u = Some r → False.
Proof. by rewrite lookup_empty. Qed.

Lemma fresh_local_wf : local_wf fresh_local.
Proof. split; [done | intros u r Hr; destruct (no_row u r Hr) | by eexists]. Qed.

Lemma dashmap_db_roundtrip s : dashmap_from_db_str (dashmap_as_db_str s) = Some s.
Proof. by destruct s. Qed.

Lemma drop_keys_lookup {R} ks (t : gmap string R) u :
  drop_keys ks t !! u = if decide (u ∈ ks) then None else t !! u.
Proof.
  unfold drop_keys. destruct (decide (u ∈ ks)) as [Hu|Hu].
  - apply map_lookup_filter_None. right. intros x _ Hx. by apply Hx.
  - destruct (t !! u) as [x|] eqn:Ht.
    + by apply map_lookup_filter_Some.
    + apply map_lookup_filter_None. by left.
Qed.

Lemma drop_keys_dom {R} ks (t : gmap string R) : dom (drop_keys ks t) = dom t ∖ list_to_set ks.
Proof.
  apply set_eq. intros u. rewrite elem_of_difference, elem_of_list_to_set, !elem_of_dom, drop_keys_lookup.
  destruct (decide (u ∈ ks)); [|tauto]. split; [by intros [? ?] | tauto].
Qed.

Lemma dom_sync_overviews rs t :
  dom (sync_overviews rs t) = list_to_set rs.*1 ∪ dom t.
Proof.
  unfold sync_overviews. revert t. induction rs as [|r rs IH]; intros t; simpl; [set_solver|].
  rewrite IH. assert (dom (partial_alter (sync_overview r.2) r.1 t) = {[r.1]} ∪ dom t) as ->; [|set_solver].
  apply set_eq. intros u. rewrite elem_of_union, elem_of_singleton, !elem_of_dom.
  destruct (decide (u = r.1)) as [->|Hne].
  - rewrite lookup_partial_alter_eq. unfold sync_overview. split; [by left | by eexists].
  - rewrite lookup_partial_alter_ne by done. tauto.
Qed.

Lemma dom_sync_payloads rs t : dom (sync_payloads rs t) = list_to_set rs.*1 ∪ dom t.
Proof.
  unfold sync_payloads. revert t. induction rs as [|r rs IH]; intros t; simpl; [set_solver|].
  rewrite IH, dom_insert_L. set_solver.
Qed.

(** What the server's columns of a row become. *)
Definition shape (o : OverviewRow) : Z * Z * option Z := (ov_version o, ov_enc_key_gen o, ov_deleted_date o).

Lemma sync_overviews_out rs t x : x ∉ rs.*1 → sync_overviews rs t !! x = t !! x.
Proof.
  unfold sync_overviews. revert t. induction rs as [|r rs IH]; intros t Hx; [done|]. simpl.
  rewrite IH by set_solver. apply lookup_partial_alter_ne. set_solver.
Qed.

Lemma sync_overviews_in rs t x new :
  (x, new) ∈ rs → (∀ r, (x, r) ∈ rs → r = new) →
  ∃ o, sync_overviews rs t !! x = Some o ∧ shape o = shape new.
Proof.
  unfold sync_overviews. induction rs as [|[y r] rs IH] using rev_ind; [set_solver|]. intros Hin Hall.
  rewrite foldl_app. simpl. destruct (decide (y = x)) as [->|Hne].
  - rewrite lookup_partial_alter_eq. rewrite (Hall r) by set_solver. eexists. split; [done|].
    by destruct (foldl _ t rs !! x).
  - rewrite lookup_partial_alter_ne by done. apply IH; set_solver.
Qed.

Lemma sync_payloads_out rs t x : x ∉ rs.*1 → sync_payloads rs t !! x = t !! x.
Proof.
  unfold sync_payloads. revert t. induction rs as [|r rs IH]; intros t Hx; [done|]. simpl.
  rewrite IH by set_solver. apply lookup_insert_ne. set_solver.
Qed.

Lemma sync_payloads_in rs t x p :
  (x, p) ∈ rs → (∀ q, (x, q) ∈ rs → q = p) → sync_payloads rs t !! x = Some p.
Proof.
  unfold sync_payloads. induction rs as [|[y q] rs IH] using rev_ind; [set_solver|]. intros Hin Hall.
  rewrite foldl_app. simpl. destruct (decide (y = x)) as [->|Hne].
  - rewrite lookup_insert_eq. f_equal. apply Hall. set_solver.
  - rewrite lookup_insert_ne by done. apply IH; set_solver.
Qed.

(** What a batch of the server's changes leaves. *)
Definition after_batch (ovs : list (string * OverviewRow)) (pls : list (string * blob))
    (dels : list string) (cursor min_gen : Z) (l : Local) : Local :=
  mkLocal (sync_overviews ovs (drop_keys dels (overviews l)))
    (sync_payloads pls (drop_keys dels (payloads l)))
    (alter (set_cursor cursor min_gen) 1%Z (sync_meta l))
    (drop_keys dels (blacklist_rows l)) (drop_keys dels (quarantine_rows l)) (pending_deletes l).

Lemma drop_nothing {R} (t : gmap string R) : drop_keys [] t = t.
Proof.
  apply map_eq. intros u. rewrite drop_keys_lookup. rewrite decide_False; [done|]. apply not_elem_of_nil.
Qed.

Lemma apply_sync_batch_run ovs pls dels cursor min_gen l :
  apply_sync_batch_txn ovs pls dels cursor min_gen l =
  (after_batch ovs pls dels cursor min_gen l,
   match sync_meta l !! 1%Z with
   | Some _ => Ok ()
   | None => Err (LocalCustom "sync_meta singleton row missing (apply_sync_batch_txn)")
   end).
Proof.
  unfold apply_sync_batch_txn, update_singleton, after_batch.
  destruct (decide (dels = [])) as [->|Hd]; run_next.
  - rewrite !drop_nothing. destruct l as [o p m b q pd]; simpl. by destruct (m !! 1%Z).
  - destruct l as [o p m b q pd]; simpl. by destruct (m !! 1%Z).
Qed.

Lemma apply_sync_batch_wf ovs pls dels cursor min_gen :
  ovs.*1 = pls.*1 → steps (preserves local_wf) (apply_sync_batch_txn ovs pls dels cursor min_gen).
Proof.
  intros Hk l [Hd Hs Hm]. rewrite apply_sync_batch_run. split; simpl.
  - rewrite dom_sync_overviews, dom_sync_payloads, !drop_keys_dom. by rewrite Hk, Hd.
  - intros u r. rewrite drop_keys_lookup. case_decide; [done | apply Hs].
  - destruct Hm as [m Hm]. rewrite lookup_alter_eq, Hm. by eexists.
Qed.

Lemma save_item_wf uuid ov pl item : steps (preserves local_wf) (save_item_txn uuid ov pl item).
Proof.
  intros l [Hd Hs Hm]. unfold save_item_txn. run_next. cbn [fst]. split; simpl.
  - rewrite dom_insert_L, <-Hd. apply set_eq. intros u.
    rewrite elem_of_union, elem_of_singleton, !elem_of_dom. destruct (decide (u = uuid)) as [->|Hne].
    + rewrite lookup_partial_alter_eq. unfold save_overview. split; [by left | by eexists].
    + rewrite lookup_partial_alter_ne by done. tauto.
  - intros u r [_ Hr]%lookup_delete_Some. by eapply Hs.
  - exact Hm.
Qed.

Lemma reencrypt_wf uuid p g : steps (preserves local_wf) (reencrypt_item_txn uuid p g).
Proof.
  intros l [Hd Hs Hm]. unfold reencrypt_item_txn. run_next. cbn [fst]. split; simpl; [|exact Hs | exact Hm].
  by rewrite !dom_alter_L.
Qed.

Lemma update_singleton_wf f what : steps (preserves local_wf) (update_singleton f what).
Proof.
  intros l [Hd Hs [m Hm]]. unfold update_singleton. run_next. cbn [fst]. split; simpl; [done..|].
  rewrite lookup_alter_eq, Hm. by eexists.
Qed.

Lemma store_rk_wf b : steps (preserves local_wf) (store_svk_rk_blob b).
Proof. intros l [Hd Hs Hm]. split; [done..|]. simpl. by rewrite lookup_partial_alter_ne. Qed.

(** Rows that the invariant does not mention. *)
Lemma quarantine_wf f : steps (E:=LocalError) (preserves local_wf) (modify (with_quarantine_rows f)).
Proof. intros l [Hd Hs Hm]. by split. Qed.
Lemma pending_wf f : steps (E:=LocalError) (preserves local_wf) (modify (with_pending_deletes f)).
Proof. intros l [Hd Hs Hm]. by split. Qed.

Lemma insert_blacklist_wf e : steps (preserves local_wf) (insert_blacklist e).
Proof.
  intros l [Hd Hs Hm]. unfold insert_blacklist. run_next.
  case_bool_decide; [by split|]. case_bool_decide as Hst; [by split|]. cbn [fst].
  split; simpl; [done | | done]. intros u r.
  rewrite lookup_insert_Some. intros [[_ <-]|[_ Hr]]; [|by eapply Hs].
  by apply not_eq_None_Some.
Qed.

Lemma persist_dashmap_wf es : steps (preserves local_wf) (persist_dashmap_txn es).
Proof.
  unfold persist_dashmap_txn. apply steps_bind; [apply _ | | intros _].
  - intros l [Hd Hs Hm]. split; [done | intros u r Hr; destruct (no_row u r Hr) | done].
  - apply steps_bind; [apply _ | | intros _; by apply steps_ret; apply _].
    apply steps_mapM; [apply _|]. apply insert_blacklist_wf.
Qed.

(** A snapshot has one entry per uuid, so it is stored whole. *)
Lemma insert_blacklist_ok e l :
  blacklist_rows l !! e.1 = None → is_Some (dashmap_from_db_str (lb_state e.2)) →
  insert_blacklist e l = (with_blacklist_rows (insert e.1 e.2) l, Ok ()).
Proof.
  intros Hl Hst. unfold insert_blacklist. run_next. rewrite Hl.
  rewrite bool_decide_false by (by intros [? ?]). run_next.
  rewrite bool_decide_false by (destruct Hst; congruence). by run_next.
Qed.

Lemma insert_blacklists_run es l :
  NoDup es.*1 → (∀ e, e ∈ es → blacklist_rows l !! e.1 = None ∧
                   is_Some (dashmap_from_db_str (lb_state e.2))) →
  mapM insert_blacklist es l =
    (with_blacklist_rows (λ t, foldl (λ t e, <[e.1 := e.2]> t) t es) l, Ok (replicate (length es) ())).
Proof.
  revert l. induction es as [|e es IH]; intros l Hnd Hes; [by destruct l|].
  rewrite fmap_cons in Hnd. apply NoDup_cons in Hnd as [Hn Hnd].
  destruct (Hes e) as [Hl Hst]; [left|].
  change ((insert_blacklist e ≫= λ y, mapM insert_blacklist es ≫= λ k, mret (y :: k)) l =
          (with_blacklist_rows (λ t, foldl (λ t e, <[e.1 := e.2]> t) t (e :: es)) l,
           Ok (() :: replicate (length es) ()))).
  rewrite bind_run, insert_blacklist_ok, bind_run by done. rewrite IH; [done..|].
  intros e' He'. destruct (Hes e') as [Hl' Hst']; [by right|]. split; [|done]. simpl.
  rewrite lookup_insert_ne; [done|]. intros Heq. apply Hn. rewrite Heq. by apply list_elem_of_fmap_2.
Qed.
