(* ===== verification/ClientSync.v ===== *)
(** * The client's sync engine

    Models [core/vautr-sync/src/]: the transport interface and the engine
    ([engine.rs]), the in-memory blacklist ([dashmap.rs]), conflict resolution
    ([occ.rs]), the quarantine of unreadable items and its reaper
    ([quarantine.rs]) and the reaper of idle secret handles ([reaper.rs]).
    [Transport] is the interface the server is reached through; Http.v
    implements it by requests to the server of System.v.  Shows what a quarantine pass does. *)
From S2P Require Import Prelude Domain Database ClientDb.

(** ** engine.rs *)

Record PulledOverview := mkPulled {
  po_uuid : Uuid; po_version : Z; po_enc_key_gen : Z; po_deleted : bool }.

Inductive TransportError := Http (code : Z) | CursorExpired | TransportOther (what : string).

Inductive PushOutcome := Applied | PushConflict (server_version : Z) | PushEpochTooOld.

(** [(uuid, target_version, enc_key_gen, payload)]; no payload is a delete. *)
Abbreviation Push := (Uuid * Z * Z * option blob)%type.

(** The trait, over the state [W] of everything behind it. *)
Class Transport (W : Type) := {
  pull : Z → M W TransportError (Z * list PulledOverview * bool);
  fetch_payload : Uuid → Z → M W TransportError blob;
  push_batch : list Push → M W TransportError (list PushOutcome);
  account_status : M W TransportError (Z * blob);
  second_factor_method : M W TransportError (option string);
  rotate_key : Z → blob → M W TransportError Z;
  verify_totp : string → M W TransportError ();
}.

(** ** dashmap.rs *)

Inductive DashMapEntryState := ToxicIgnored | ValidIgnored.
#[export] Instance DashMapEntryState_eq_dec : EqDecision DashMapEntryState.
Proof. solve_decision. Defined.

Definition as_db_str (s : DashMapEntryState) : string :=
  match s with ToxicIgnored => "ToxicIgnored" | ValidIgnored => "ValidIgnored" end.
Definition from_db_str (s : string) : option DashMapEntryState :=
  if decide (s = "ToxicIgnored") then Some ToxicIgnored
  else if decide (s = "ValidIgnored") then Some ValidIgnored
  else None.
Definition into_db_state (s : DashMapEntryState) : DashMapState :=
  match s with ToxicIgnored => DbToxicIgnored | ValidIgnored => DbValidIgnored end.

Abbreviation LocalBlacklist := (gmap Uuid (Z * DashMapEntryState)).

Definition is_ignored (b : LocalBlacklist) (uuid : Uuid) : bool := bool_decide (is_Some (b !! uuid)).
Definition is_toxic (b : LocalBlacklist) (uuid : Uuid) : bool :=
  bool_decide (snd <$> b !! uuid = Some ToxicIgnored).
Definition blacklist_snapshot (b : LocalBlacklist) : list (Uuid * Z * DashMapEntryState) :=
  (λ kv, (kv.1, kv.2.1, kv.2.2)) <$> map_to_list b.
(** [clear], then one [insert] per row. *)
Definition blacklist_load (l : list (Uuid * Z * DashMapEntryState)) : LocalBlacklist :=
  foldl (λ b r, <[r.1.1 := (r.1.2, r.2)]> b) ∅ l.

(** ** occ.rs *)

Inductive ConflictResolution := KeepServer | ForceOverwrite.
Record ConflictEvent := mkConflict {
  ce_uuid : Uuid; ce_local_version : Z; ce_server_version : Z; ce_is_toxic : bool }.

Definition occ_resolve (uuid : Uuid) (local_version server_version : Z)
    (toxic force_overwrite : bool) : ConflictResolution * ConflictEvent :=
  (if force_overwrite then ForceOverwrite else KeepServer,
   mkConflict uuid local_version server_version toxic).

Definition next_push_version (server_version : Z) : Z := server_version.

(** ** engine.rs: the engine *)
Record Engine := mkEngine { eng_blacklist : LocalBlacklist; eng_cursor : Z }.

Section EngineOps.
Context `{Transport W}.

Definition engine_pull (e : Engine) : M W TransportError (Z * list PulledOverview * bool) :=
  pull (eng_cursor e).

Definition pull_and_advance (e : Engine) : M W TransportError (Engine * list PulledOverview * bool) :=
  r ← pull (eng_cursor e);
  let '(next, overviews, has_more) := r in
  mret (mkEngine (eng_blacklist e) next, overviews, has_more).

Definition fetch_payload_if_allowed (e : Engine) (uuid : Uuid) (version : Z)
    : M W TransportError (option blob) :=
  if is_ignored (eng_blacklist e) uuid then mret None
  else p ← fetch_payload uuid version; mret (Some p).

Definition engine_push_batch (items : list Push) : M W TransportError (list (Uuid * PushOutcome)) :=
  outcomes ← push_batch items;
  guard_err (bool_decide (length outcomes ≠ length items))
    (TransportOther "push_batch: transport returned the wrong number of outcomes");;
  mret (zip ((λ i : Push, i.1.1.1) <$> items) outcomes).

Definition engine_resolve_conflict (e : Engine) (uuid : Uuid) (local_version server_version : Z)
    (force_overwrite : bool) : ConflictResolution * ConflictEvent :=
  occ_resolve uuid local_version server_version (is_toxic (eng_blacklist e) uuid) force_overwrite.
End EngineOps.

(** ** quarantine.rs *)

Inductive ItemStatus := StatusValid | StatusTombstoned.
Inductive ReaperEvent := RItemRecovered (uuid : Uuid) | RItemPermanentlyDeleted (uuid : Uuid).
#[export] Instance ReaperEvent_eq_dec : EqDecision ReaperEvent.
Proof. solve_decision. Defined.

Abbreviation Quarantine := (gset Uuid).
Definition mark_toxic (uuid : Uuid) (q : Quarantine) : Quarantine := {[ uuid ]} ∪ q.
Definition is_quarantined (uuid : Uuid) (q : Quarantine) : bool := bool_decide (uuid ∈ q).
Definition quarantine_remove (uuid : Uuid) (q : Quarantine) : Quarantine := q ∖ {[ uuid ]}.

Definition event_of (uuid : Uuid) (s : ItemStatus) : ReaperEvent :=
  match s with
  | StatusValid => RItemRecovered uuid
  | StatusTombstoned => RItemPermanentlyDeleted uuid
  end.

(** One turn of the loop of [evaluate]. *)
Definition evaluate_one (meta : gmap Uuid ItemStatus) (acc : Quarantine * list ReaperEvent) (uuid : Uuid)
    : Quarantine * list ReaperEvent :=
  match meta !! uuid with
  | Some s => (quarantine_remove uuid acc.1, acc.2 ++ [event_of uuid s])
  | None => acc
  end.

Definition evaluate (q : Quarantine) (meta : gmap Uuid ItemStatus) : Quarantine * list ReaperEvent :=
  foldl (evaluate_one meta) (q, []) (elements q).

(** The reaper task: its counter of failures, and whether it has returned. *)
Record ReaperTask := mkReaperTask {
  rt_quarantine : Quarantine; rt_failures : Z; rt_stopped : bool; rt_sent : list ReaperEvent }.

Definition u32_saturating_succ (n : Z) : Z := Z.min (n + 1) (2 ^ 32 - 1).

(** [tx.send(ev)]: [up] says whether the subscriber takes the event. *)
Definition send_one (up : ReaperEvent → bool) (t : ReaperTask) (ev : ReaperEvent) : ReaperTask :=
  if rt_stopped t then t
  else if up ev then mkReaperTask (rt_quarantine t) 0 false (rt_sent t ++ [ev])
  else
    let n := u32_saturating_succ (rt_failures t) in
    mkReaperTask (rt_quarantine t) n (bool_decide (5 ≤ n)%Z) (rt_sent t).

Definition quarantine_tick (fetched : option (gmap Uuid ItemStatus)) (up : ReaperEvent → bool)
    (t : ReaperTask) : ReaperTask :=
  if rt_stopped t then t
  else match fetched with
  | None => mkReaperTask (rt_quarantine t) (u32_saturating_succ (rt_failures t)) false (rt_sent t)
  | Some meta =>
      let '(q, events) := evaluate (rt_quarantine t) meta in
      foldl (send_one up) (mkReaperTask q 0 false (rt_sent t)) events
  end.

(** ** reaper.rs *)

(** Instants and durations in milliseconds. *)
Record SecretHandle := mkHandle { sh_id : Z; sh_last_accessed : Z; sh_data : blob }.
Abbreviation HandleTable := (gmap Z SecretHandle).

Definition handle_access (now : Z) (h : SecretHandle) : SecretHandle :=
  mkHandle (sh_id h) now (sh_data h).

Definition IDLE_TTL : Z := 60000.
Definition TICK : Z := 10000.

(** [now.duration_since(last)], which saturates at zero. *)
Definition duration_since (now last : Z) : Z := Z.max 0 (now - last).

(** The body of the loop of [spawn_reaper]. *)
Definition safety_tick (now : Z) (t : HandleTable) : HandleTable :=
  filter (λ kh, ¬ (IDLE_TTL < duration_since now (sh_last_accessed kh.2))%Z) t.

(** ** What a quarantine pass does *)

Lemma evaluate_fold meta l q evs :
  NoDup l →
  let r := foldl (evaluate_one meta) (q, evs) l in
  (∀ u, u ∈ r.1 ↔ u ∈ q ∧ (u ∈ l → meta !! u = None)) ∧
  r.2 = evs ++ omap (λ u, event_of u <$> meta !! u) l.
Proof.
  revert q evs. induction l as [|u l IH]; intros q evs Hnd; simpl.
  { split; [set_solver | by rewrite app_nil_r]. }
  apply NoDup_cons in Hnd as [Hu Hnd]. unfold evaluate_one at 2 4. simpl.
  destruct (meta !! u) as [s|] eqn:Hm; simpl.
  - destruct (IH (quarantine_remove u q) (evs ++ [event_of u s]) Hnd) as [H1 H2]. split.
    + intros v. rewrite H1. unfold quarantine_remove. rewrite elem_of_difference, elem_of_singleton.
      rewrite elem_of_cons. split; [intros [[? ?] ?]; split; [done|] | intros [? Hv]; split].
      * intros [->|?]; [done | auto].
      * split; [done|]. intros ->. specialize (Hv (or_introl eq_refl)). congruence.
      * auto.
    + rewrite H2. by rewrite <-app_assoc.
  - destruct (IH q evs Hnd) as [H1 H2]. split; [|done]. intros v. rewrite H1, elem_of_cons. split.
    + intros [? ?]. split; [done|]. intros [->|?]; auto.
    + intros [? Hv]. split; [done | auto].
Qed.

(** An item leaves exactly when its disposition is known, with one event. *)
Lemma evaluate_run q meta :
  let r := evaluate q meta in
  (∀ u, u ∈ r.1 ↔ u ∈ q ∧ meta !! u = None) ∧
  r.2 = omap (λ u, event_of u <$> meta !! u) (elements q).
Proof.
  unfold evaluate. destruct (evaluate_fold meta (elements q) q [] (NoDup_elements q)) as [H1 H2].
  split; [|exact H2]. intros u. rewrite H1, elem_of_elements. tauto.
Qed.

Lemma send_all up evs q n sent :
  (∀ e, e ∈ evs → up e = true) →
  foldl (send_one up) (mkReaperTask q n false sent) evs =
    mkReaperTask q (match evs with [] => n | _ => 0 end)%Z false (sent ++ evs).
Proof.
  revert n sent. induction evs as [|e evs IH]; intros n sent Hup; simpl; [by rewrite app_nil_r|].
  unfold send_one at 2. simpl. rewrite (Hup e) by left. rewrite IH.
  - f_equal; [by destruct evs | by rewrite <-app_assoc].
  - intros e' He'. apply Hup. by right.
Qed.
