(* ===== verification/Crypto.v ===== *)
(** * Client-side cryptography

    Models [core/vautr-crypto/src/] ([aead.rs], [key_tree.rs], [kdf.rs],
    [recovery.rs], [error.rs]) and [core/vautr-keyring/src/]: the ciphertext
    envelope and the data it is bound to, the key tree, the wrapping of the
    vault key under the master password and under the recovery key, and the
    re-encryption of one item.  The primitives are third-party crates: class
    [CryptoExt], with their documented laws in [CryptoLaws].  Random bytes are
    arguments.  Shows the round trips and that the bound data is injective. *)
From S2P Require Import Prelude Domain Database.
From Stdlib Require Import Strings.Byte.

Local Open Scope Z_scope.

(** ** The primitives *)
Class CryptoExt := {
  xchacha_encrypt : blob → blob → blob → blob → option blob;  (* key, nonce, ad, msg *)
  xchacha_decrypt : blob → blob → blob → blob → option blob;  (* key, nonce, ad, ct *)
  hkdf_sha256 : option blob → blob → blob → blob;             (* salt, ikm, info: 32 bytes *)
  argon2id : string → blob → option blob;                     (* the parameters of kdf.rs *)
  uuid_bytes : Uuid → blob;
  bip39_parse : string → option string;                       (* parse_in(English), its text *)
  bip39_generate : blob → string;                             (* generate_in, from the RNG *)
  bip39_words : string → list string;
  bip39_seed : string → blob;                                 (* to_seed(no passphrase) *)
  ed25519_public : blob → blob;                               (* signing key bytes *)
  ed25519_sign : blob → blob → blob;
  x25519_public : blob → blob;                                (* of a static secret *)
  x25519_dh : blob → blob → blob;                             (* secret, public key *)
}.

(** The length of the Poly1305 tag. *)
Definition TAG_LEN : nat := 16.
Definition NONCE_LEN : nat := 24.

Class CryptoLaws `{CryptoExt} : Prop := {
  xchacha_open k n ad m c : xchacha_encrypt k n ad m = Some c → xchacha_decrypt k n ad c = Some m;
  xchacha_len k n ad m c : xchacha_encrypt k n ad m = Some c → length c = (length m + TAG_LEN)%nat;
  xchacha_total k n ad m : Z.of_nat (length m) ≤ 2 ^ 38 - 64 → is_Some (xchacha_encrypt k n ad m);
  hkdf_len salt ikm info : length (hkdf_sha256 salt ikm info) = 32%nat;
  uuid_len u : length (uuid_bytes u) = 16%nat;
  x25519_comm a b : x25519_dh a (x25519_public b) = x25519_dh b (x25519_public a);
  x25519_len a : length (x25519_public a) = 32%nat;
  bip39_generated b : bip39_parse (str_trim (bip39_generate b)) = Some (bip39_generate b);
}.

(** ** error.rs *)
Inductive CryptoError :=
| TagMismatch | KeyGenMismatch | MalformedCiphertext | KdfError (what : string)
| OpaqueError (what : string) | AuthError (what : string) | RecoveryError (what : string)
| Internal (what : string) | UnsupportedSuite.
#[export] Instance CryptoError_eq_dec : EqDecision CryptoError.
Proof. solve_decision. Defined.

Abbreviation crypto := (result CryptoError).

Definition res_of {E A} (e : E) (o : option A) : result E A :=
  match o with Some a => Ok a | None => Err e end.
Definition res_bind {E A B} (f : A → result E B) (r : result E A) : result E B :=
  match r with Ok a => f a | Err e => Err e end.
#[export] Instance result_bind E : MBind (result E) := λ A B, res_bind.
#[export] Instance result_ret E : MRet (result E) := λ A a, Ok a.

(** ** Big-endian integers *)

Definition byte_of (x : Z) : byte := default x00 (Byte.of_N (Z.to_N (x mod 256))).
Fixpoint le_bytes (n : nat) (x : Z) : blob :=
  match n with O => [] | S n => byte_of x :: le_bytes n (x / 256) end.
(** [to_be_bytes] of an [n]-byte integer. *)
Definition be_bytes (n : nat) (x : Z) : blob := reverse (le_bytes n x).

Lemma le_bytes_len n x : length (le_bytes n x) = n.
Proof. revert x. induction n as [|n IH]; intros x; simpl; [done | by rewrite IH]. Qed.
Lemma be_bytes_len n x : length (be_bytes n x) = n.
Proof. unfold be_bytes. by rewrite length_reverse, le_bytes_len. Qed.

Lemma byte_of_inj x y : byte_of x = byte_of y → x mod 256 = y mod 256.
Proof.
  unfold byte_of. intros Heq.
  assert (∀ z, ∃ b, Byte.of_N (Z.to_N (z mod 256)) = Some b) as Hsome.
  { intros z. pose proof (Z.mod_pos_bound z 256 ltac:(lia)).
    destruct (Byte.of_N (Z.to_N (z mod 256))) as [b|] eqn:Hb; [by exists b|].
    apply Byte.of_N_None_iff in Hb. lia. }
  destruct (Hsome x) as [a Ha], (Hsome y) as [b Hb]. rewrite Ha, Hb in Heq. simpl in Heq. subst b.
  apply Byte.to_of_N in Ha, Hb. pose proof (Z.mod_pos_bound x 256 ltac:(lia)).
  pose proof (Z.mod_pos_bound y 256 ltac:(lia)). lia.
Qed.

Lemma le_bytes_inj n x y :
  0 ≤ x < 256 ^ Z.of_nat n → 0 ≤ y < 256 ^ Z.of_nat n → le_bytes n x = le_bytes n y → x = y.
Proof.
  revert x y. induction n as [|n IH]; intros x y Hx Hy; [simpl in *; lia|]. simpl. intros [= Hb Ht].
  apply byte_of_inj in Hb. rewrite Nat2Z.inj_succ, Z.pow_succ_r in Hx, Hy by lia.
  apply IH in Ht.
  - rewrite (Z.div_mod x 256), (Z.div_mod y 256) by lia. lia.
  - split; [by apply Z.div_pos; lia | apply Z.div_lt_upper_bound; lia].
  - split; [by apply Z.div_pos; lia | apply Z.div_lt_upper_bound; lia].
Qed.

Lemma be_bytes_inj n x y :
  0 ≤ x < 256 ^ Z.of_nat n → 0 ≤ y < 256 ^ Z.of_nat n → be_bytes n x = be_bytes n y → x = y.
Proof. unfold be_bytes. intros Hx Hy Heq%(inj reverse). by eapply le_bytes_inj. Qed.

(** ** aead.rs *)
Section Aead.
Context `{CryptoExt, Ext}.

Definition ENVELOPE_MAGIC : blob := [x56; x41; x55; x54].
Definition ENVELOPE_VERSION : byte := x01.
Definition ENVELOPE_SUITE_XCHACHA20POLY1305 : byte := x01.
Definition ENVELOPE_PREFIX_LEN : nat := 6.

Definition construct_ad (uuid : Uuid) (enc_key_gen : Z) : blob :=
  uuid_bytes uuid ++ be_bytes 8 enc_key_gen.

Definition construct_file_ad (file_uuid : Uuid) (enc_key_gen chunk_index : Z) : blob :=
  uuid_bytes file_uuid ++ be_bytes 8 enc_key_gen ++ be_bytes 4 chunk_index.

Definition chunk_nonce (file_uuid : Uuid) (chunk_index : Z) : blob :=
  take NONCE_LEN (sha256 (uuid_bytes file_uuid ++ be_bytes 4 chunk_index)).

Definition encrypt_with_nonce (key nonce ad plaintext : blob) : crypto blob :=
  ct ← res_of (Internal "encryption failed") (xchacha_encrypt key nonce ad plaintext);
  mret (ENVELOPE_MAGIC ++ [ENVELOPE_VERSION; ENVELOPE_SUITE_XCHACHA20POLY1305] ++ nonce ++ ct).

Definition encrypt_with_nonce_raw (key nonce ad plaintext : blob) : crypto blob :=
  ct ← res_of (Internal "encryption failed") (xchacha_encrypt key nonce ad plaintext);
  mret (nonce ++ ct).

(** [nonce] is what the operating system's generator answers. *)
Definition encrypt (nonce key : blob) (uuid : Uuid) (enc_key_gen : Z) (plaintext : blob)
    : crypto blob :=
  encrypt_with_nonce key nonce (construct_ad uuid enc_key_gen) plaintext.

Definition enveloped (envelope : blob) : bool :=
  bool_decide (ENVELOPE_PREFIX_LEN ≤ length envelope)%nat && bool_decide (take 4 envelope = ENVELOPE_MAGIC).

Definition decrypt_with_ad (key ad envelope : blob) : crypto blob :=
  if enveloped envelope && bool_decide (envelope !! 4%nat ≠ Some ENVELOPE_VERSION)
  then Err UnsupportedSuite
  else if enveloped envelope
          && bool_decide (envelope !! 5%nat ≠ Some ENVELOPE_SUITE_XCHACHA20POLY1305)
  then Err UnsupportedSuite
  else
    let nonce_offset := if enveloped envelope then ENVELOPE_PREFIX_LEN else 0%nat in
    if bool_decide (length envelope < nonce_offset + NONCE_LEN + TAG_LEN)%nat
    then Err MalformedCiphertext
    else
      let rest := drop nonce_offset envelope in
      res_of TagMismatch (xchacha_decrypt key (take NONCE_LEN rest) ad (drop NONCE_LEN rest)).

Definition decrypt (key : blob) (uuid : Uuid) (enc_key_gen : Z) (envelope : blob) : crypto blob :=
  decrypt_with_ad key (construct_ad uuid enc_key_gen) envelope.

(** ** key_tree.rs, kdf.rs *)
Definition utf8 (s : string) : blob := String.list_byte_of_string s.

Definition expand (ikm salt info : blob) : blob := hkdf_sha256 (Some salt) ikm info.
Definition derive_kek (mk : blob) : blob := expand mk (utf8 "Vautr-kek-salt") (utf8 "Vautr-kek").
Definition derive_oek (svk : blob) : blob := expand svk (utf8 "Vautr-oek-salt") (utf8 "Vautr-oek").
Definition derive_dek (svk : blob) : blob := expand svk (utf8 "vautr-dek-salt") (utf8 "Vautr-dek").

Definition derive_master_key (mp : string) (salt : blob) : crypto blob :=
  res_of (KdfError "argon2") (argon2id mp salt).

(** ** recovery.rs *)
Definition decode_recovery_mnemonic (words : string) : crypto string :=
  res_of (RecoveryError "mnemonic") (bip39_parse (str_trim words)).

Definition derive_kek_rk (mnemonic : string) : blob :=
  hkdf_sha256 (Some (utf8 "Vautr-kek-rk-salt")) (bip39_seed mnemonic) (utf8 "Vautr-kek-rk").

Definition rk_wrap_svk (nonce svk kek_rk : blob) (server_user_id : Uuid) : crypto blob :=
  match encrypt nonce kek_rk server_user_id 0 svk with
  | Ok b => Ok b
  | Err _ => Err (RecoveryError "RK wrap failed")
  end.

Definition unwrap_svk_with_rk (wrapped_svk_rk kek_rk : blob) (server_user_id : Uuid) : crypto blob :=
  match decrypt kek_rk server_user_id 0 wrapped_svk_rk with
  | Err _ => Err (RecoveryError "RK unwrap failed (bad mnemonic?)")
  | Ok pt => if bool_decide (length pt ≠ 32%nat) then Err MalformedCiphertext else Ok pt
  end.

Definition derive_recovery_signing_key (mnemonic : string) : blob :=
  hkdf_sha256 None (bip39_seed mnemonic) (utf8 "vautr-rk-auth").
Definition recovery_public_key (mnemonic : string) : blob :=
  ed25519_public (derive_recovery_signing_key mnemonic).
Definition sign_recovery_nonce (mnemonic : string) (nonce : blob) : blob :=
  ed25519_sign (derive_recovery_signing_key mnemonic) nonce.

(** ** vautr-keyring *)

(** [wrap.rs]; its [expect] is the error. *)
Definition wrap_svk (nonce kek svk : blob) : crypto blob := encrypt nonce kek nil_uuid 0 svk.

(** [rotate.rs]. *)
Record RotationBatch := mkRotation { rot_old_gen : Z; rot_new_gen : Z }.
Definition reencrypt (rot : RotationBatch) (nonce : blob) (uuid : Uuid) (new_svk item : blob)
    : crypto blob :=
  encrypt nonce (derive_dek new_svk) uuid (rot_new_gen rot) item.

(** [recover.rs]. *)
Definition validate_recovery_key (words : string) : bool := is_ok (decode_recovery_mnemonic words).

Definition recover_svk (mnemonic_words : string) (wrapped_svk_rk : blob) (server_user_id : Uuid)
    : option blob :=
  match decode_recovery_mnemonic mnemonic_words with
  | Err _ => None
  | Ok mnemonic =>
      let kek_rk := derive_kek_rk mnemonic in
      match unwrap_svk_with_rk wrapped_svk_rk kek_rk server_user_id with
      | Ok svk => Some svk
      | Err _ =>
          match unwrap_svk_with_rk wrapped_svk_rk kek_rk nil_uuid with
          | Ok svk => Some svk
          | Err _ => None
          end
      end
  end.
End Aead.

(** ** Round trips *)
Section RoundTrips.
Context `{CryptoLaws, Ext}.

Lemma envelope_enveloped (nonce ct : blob) :
  enveloped (ENVELOPE_MAGIC ++ [ENVELOPE_VERSION; ENVELOPE_SUITE_XCHACHA20POLY1305] ++ nonce ++ ct) = true.
Proof.
  unfold enveloped. apply andb_true_iff.
  split; apply bool_decide_true; [unfold ENVELOPE_PREFIX_LEN; simpl; lia | done].
Qed.

Lemma decrypt_envelope key nonce ad pt env :
  length nonce = NONCE_LEN → encrypt_with_nonce key nonce ad pt = Ok env →
  decrypt_with_ad key ad env = Ok pt.
Proof.
  unfold encrypt_with_nonce. intros Hn.
  destruct (xchacha_encrypt key nonce ad pt) as [ct|] eqn:Hct; [|done]. simpl. intros [= <-].
  change (x56 :: x41 :: x55 :: x54 :: ENVELOPE_VERSION :: ENVELOPE_SUITE_XCHACHA20POLY1305 :: nonce ++ ct)
    with (ENVELOPE_MAGIC ++ [ENVELOPE_VERSION; ENVELOPE_SUITE_XCHACHA20POLY1305] ++ nonce ++ ct).
  unfold decrypt_with_ad. rewrite envelope_enveloped. pose proof (xchacha_len _ _ _ _ _ Hct) as Hl.
  do 2 rewrite (bool_decide_false (_ ≠ _)) by (intros Hne; by apply Hne).
  rewrite bool_decide_false
    by (simpl; rewrite length_app, Hl, Hn; unfold ENVELOPE_PREFIX_LEN, NONCE_LEN, TAG_LEN; lia).
  cbn [andb]. change (drop ENVELOPE_PREFIX_LEN _) with (nonce ++ ct).
  rewrite <-Hn, take_app_length, drop_app_length.
  by rewrite (xchacha_open _ _ _ _ _ Hct).
Qed.

(** The legacy form, provided the nonce is not mistaken for a magic number. *)
Lemma decrypt_raw key nonce ad pt env :
  length nonce = NONCE_LEN → take 4 nonce ≠ ENVELOPE_MAGIC →
  encrypt_with_nonce_raw key nonce ad pt = Ok env → decrypt_with_ad key ad env = Ok pt.
Proof.
  unfold encrypt_with_nonce_raw. intros Hn Hm.
  destruct (xchacha_encrypt key nonce ad pt) as [ct|] eqn:Hct; [|done]. simpl. intros [= <-].
  assert (enveloped (nonce ++ ct) = false) as He.
  { unfold enveloped. apply andb_false_iff. right. apply bool_decide_false.
    rewrite take_app_le by (rewrite Hn; unfold NONCE_LEN; lia). done. }
  unfold decrypt_with_ad. rewrite He. cbn [andb]. pose proof (xchacha_len _ _ _ _ _ Hct) as Hl.
  rewrite bool_decide_false by (rewrite length_app, Hl, Hn; lia).
  rewrite drop_0, <-Hn, take_app_length, drop_app_length.
  by rewrite (xchacha_open _ _ _ _ _ Hct).
Qed.

Lemma decrypt_encrypt nonce key uuid g pt env :
  length nonce = NONCE_LEN → encrypt nonce key uuid g pt = Ok env → decrypt key uuid g env = Ok pt.
Proof. apply decrypt_envelope. Qed.

Lemma encrypt_ok nonce key uuid g pt :
  Z.of_nat (length pt) ≤ 2 ^ 38 - 64 → ∃ env, encrypt nonce key uuid g pt = Ok env.
Proof.
  intros Hl. unfold encrypt, encrypt_with_nonce.
  destruct (xchacha_total key nonce (construct_ad uuid g) pt Hl) as [ct ->]. by eexists.
Qed.

Lemma unwrap_rk_wrap nonce svk kek uuid b :
  length nonce = NONCE_LEN → length svk = 32%nat →
  rk_wrap_svk nonce svk kek uuid = Ok b → unwrap_svk_with_rk b kek uuid = Ok svk.
Proof.
  unfold rk_wrap_svk, unwrap_svk_with_rk. intros Hn Hs.
  destruct (encrypt nonce kek uuid 0 svk) as [e|] eqn:He; [|done]. intros [= <-].
  rewrite (decrypt_encrypt _ _ _ _ _ _ Hn He). by rewrite bool_decide_false by auto.
Qed.

(** The data bound to a ciphertext determines item, generation and position. *)
Lemma construct_ad_inj u v g h :
  is_u64 g → is_u64 h → construct_ad u g = construct_ad v h → uuid_bytes u = uuid_bytes v ∧ g = h.
Proof.
  unfold construct_ad, is_u64, u64_max. intros Hg Hh Heq. apply app_inj_1 in Heq as [Hu Hb].
  - split; [done|]. eapply (be_bytes_inj 8); [lia..|done].
  - by rewrite !uuid_len.
Qed.

Lemma construct_file_ad_inj u v g h i j :
  is_u64 g → is_u64 h → 0 ≤ i < 2 ^ 32 → 0 ≤ j < 2 ^ 32 →
  construct_file_ad u g i = construct_file_ad v h j → uuid_bytes u = uuid_bytes v ∧ g = h ∧ i = j.
Proof.
  unfold construct_file_ad, is_u64, u64_max. intros Hg Hh Hi Hj Heq.
  apply app_inj_1 in Heq as [Hu Heq]; [|by rewrite !uuid_len].
  apply app_inj_1 in Heq as [Hb Hc]; [|by rewrite !be_bytes_len].
  split; [done|]. split; [eapply (be_bytes_inj 8); [lia..|done] | eapply (be_bytes_inj 4); [lia..|done]].
Qed.
End RoundTrips.
