(* ===== verification/ShareCrypto.v ===== *)
(** * Sharing: keys and envelopes

    Models [core/vautr-crypto/src/sharing.rs] ([Kem]: key pairs, the envelope
    that wraps an item key for a recipient) and [core/vautr-sharing/src/lib.rs]
    ([Shares]: one-to-one shares, group keys).  X25519 and the cipher are the
    parameters of [CryptoExt]; random bytes are arguments.  Shows that the
    recipient opens what was wrapped for them. *)
From S2P Require Import Prelude Domain Database Crypto.
From Stdlib Require Import Strings.Byte.

Local Open Scope Z_scope.

(** ** vautr-crypto: sharing.rs *)
Module Kem.
(** An X25519 key pair. *)
Record SharingKeyPair := mkSharingKeyPair { skp_public : blob; skp_secret : blob }.
Record SharedEnvelope := mkEnvelope { env_wrapped_sik : blob; env_ephemeral_public_key : blob }.

(** [was_contributory]: the shared secret is not the identity. *)
Definition was_contributory (shared : blob) : bool := bool_decide (shared ≠ replicate 32 x00).

Section Kem.
Context `{CryptoExt}.

Definition from_secret (secret : blob) : SharingKeyPair := mkSharingKeyPair (x25519_public secret) secret.

Definition SHARE_INFO : blob := utf8 "Vautr-share".
Definition derive_share_key (shared_secret : blob) : blob := hkdf_sha256 None shared_secret SHARE_INFO.
Definition share_ad (recipient_pk : blob) (item_uuid : Uuid) : blob := recipient_pk ++ uuid_bytes item_uuid.

Definition share_item (ephemeral nonce sik recipient_pk : blob) (item_uuid : Uuid) : crypto SharedEnvelope :=
  let shared := x25519_dh ephemeral recipient_pk in
  if negb (was_contributory shared) then Err MalformedCiphertext
  else
    ct ← res_of (Internal "share seal failed")
           (xchacha_encrypt (derive_share_key shared) nonce (share_ad recipient_pk item_uuid) sik);
    mret (mkEnvelope (nonce ++ ct) (x25519_public ephemeral)).

Definition unwrap_shared_item (envelope : SharedEnvelope) (recipient : SharingKeyPair) (item_uuid : Uuid)
    : crypto blob :=
  let wrapped := env_wrapped_sik envelope in
  if bool_decide (length wrapped < NONCE_LEN + 16)%nat then Err MalformedCiphertext
  else
    let shared := x25519_dh (skp_secret recipient) (env_ephemeral_public_key envelope) in
    if negb (was_contributory shared) then Err MalformedCiphertext
    else
      pt ← res_of TagMismatch
             (xchacha_decrypt (derive_share_key shared) (take NONCE_LEN wrapped)
                (share_ad (skp_public recipient) item_uuid) (drop NONCE_LEN wrapped));
      if bool_decide (length pt ≠ 32%nat) then Err MalformedCiphertext else mret pt.
End Kem.

(** The recipient whose key an envelope was made for opens it. *)
Lemma unwrap_share `{CryptoLaws} ephemeral nonce sik secret uuid env :
  length nonce = NONCE_LEN → length sik = 32%nat →
  share_item ephemeral nonce sik (x25519_public secret) uuid = Ok env →
  unwrap_shared_item env (from_secret secret) uuid = Ok sik.
Proof.
  unfold share_item, unwrap_shared_item. intros Hn Hs.
  destruct (was_contributory _) eqn:Hc; [|done]. cbn [negb].
  destruct (xchacha_encrypt _ _ _ _) as [ct|] eqn:Hct; [|done]. intros [= <-]. simpl.
  pose proof (xchacha_len _ _ _ _ _ Hct) as Hl.
  rewrite bool_decide_false by (rewrite length_app, Hl, Hn, Hs; unfold NONCE_LEN, TAG_LEN; lia).
  rewrite (x25519_comm secret), Hc. cbn [negb]. rewrite <-Hn, take_app_length, drop_app_length.
  rewrite (xchacha_open _ _ _ _ _ Hct). cbn. by rewrite bool_decide_false by auto.
Qed.
End Kem.

(** ** vautr-sharing *)
Module Shares.
Import Kem.

(** [CryptoText] and [CryptoOf] are [ShareError::Crypto], of a text or of an
    error of vautr-crypto; three variants have no constructor calls. *)
Inductive ShareError := CryptoText (what : string) | CryptoOf (e : CryptoError) | GroupError (what : string).

Record ShareBundle := mkBundle {
  sb_share_id : Uuid; sb_sender_uuid : Uuid; sb_recipient_uuid : Uuid; sb_item_uuid : Uuid;
  sb_wrapped_sik : string; sb_ephemeral_public_key : string; sb_encrypted_payload : string }.

Record IncomingShare := mkIncoming {
  is_share_id : Uuid; is_sender_uuid : Uuid; is_item_uuid : Uuid;
  is_wrapped_sik : string; is_ephemeral_public_key : string; is_encrypted_payload : string }.

Definition incoming_of (b : ShareBundle) : IncomingShare :=
  mkIncoming (sb_share_id b) (sb_sender_uuid b) (sb_item_uuid b) (sb_wrapped_sik b)
    (sb_ephemeral_public_key b) (sb_encrypted_payload b).

Record ShareGroup := mkShareGroup { sg_group_id : Uuid; sg_name : string; sg_admin_uuid : Uuid }.
Record ShareGroupKey := mkGroupKey { gk_group : ShareGroup; gk_sik : blob }.
Record WrappedGroupKey := mkWrapped {
  wg_group_id : Uuid; wg_member_uuid : Uuid; wg_wrapped_sik : string; wg_ephemeral_public_key : string }.
Record GroupKeyRotation := mkGroupRotation { gr_new_key : ShareGroupKey; gr_rewrapped : list WrappedGroupKey }.

(** [map_err(|e| ShareError::Crypto(e.to_string()))]. *)
Definition sealed {A} (r : crypto A) : result ShareError A :=
  match r with Ok a => Ok a | Err e => Err (CryptoOf e) end.

Section Shares.
Context `{CryptoExt, Ext}.

Definition payload_ad (id : Uuid) : blob := utf8 (String.append "vautr-share-" id).

Definition unb64 (s what : string) : result ShareError blob :=
  res_of (CryptoText (String.append "invalid base64: " what)) (b64_decode s).

Definition share_item (sik nonce ephemeral nonce' : blob) (sender_uuid recipient_uuid item_uuid : Uuid)
    (recipient_public_key plaintext : blob) : result ShareError ShareBundle :=
  let share_id := item_uuid in
  encrypted_payload ← sealed (encrypt_with_nonce sik nonce (payload_ad share_id) plaintext);
  env ← sealed (Kem.share_item ephemeral nonce' sik recipient_public_key item_uuid);
  mret (mkBundle share_id sender_uuid recipient_uuid item_uuid (b64_encode (env_wrapped_sik env))
          (b64_encode (env_ephemeral_public_key env)) (b64_encode encrypted_payload)).

(** What both unwrappings begin with. *)
Definition decode_envelope (wrapped_sik ephemeral_public_key : string) : result ShareError SharedEnvelope :=
  wrapped ← unb64 wrapped_sik "wrapped_sik";
  ephemeral ← unb64 ephemeral_public_key "ephemeral_public_key";
  if bool_decide (length ephemeral ≠ 32%nat) then Err (CryptoText "ephemeral_public_key must be 32 bytes")
  else mret (mkEnvelope wrapped ephemeral).

Definition accept_share (recipient : SharingKeyPair) (incoming : IncomingShare) : result ShareError blob :=
  env ← decode_envelope (is_wrapped_sik incoming) (is_ephemeral_public_key incoming);
  sik ← sealed (unwrap_shared_item env recipient (is_item_uuid incoming));
  payload ← unb64 (is_encrypted_payload incoming) "encrypted_payload";
  sealed (decrypt_with_ad sik (payload_ad (is_share_id incoming)) payload).

Definition encrypt_item (k : ShareGroupKey) (nonce : blob) (item_uuid : Uuid) (plaintext : blob)
    : result ShareError blob :=
  sealed (encrypt_with_nonce (gk_sik k) nonce (payload_ad item_uuid) plaintext).
Definition decrypt_item (k : ShareGroupKey) (item_uuid : Uuid) (ciphertext : blob) : result ShareError blob :=
  sealed (decrypt_with_ad (gk_sik k) (payload_ad item_uuid) ciphertext).

Definition from_secret (group : ShareGroup) (secret : blob) : result ShareError ShareGroupKey :=
  if bool_decide (length secret ≠ 32%nat) then Err (CryptoText "group sik must be 32 bytes")
  else Ok (mkGroupKey group secret).

Definition create_group (group_id : Uuid) (group_sik : blob) (name : string) (admin_uuid : Uuid) : ShareGroupKey :=
  mkGroupKey (mkShareGroup group_id name admin_uuid) group_sik.

Definition wrap_for (sik : blob) (group_id : Uuid) (ephemeral nonce : blob) (member_uuid : Uuid)
    (member_public_key : blob) : result ShareError WrappedGroupKey :=
  env ← sealed (Kem.share_item ephemeral nonce sik member_public_key group_id);
  mret (mkWrapped group_id member_uuid (b64_encode (env_wrapped_sik env))
          (b64_encode (env_ephemeral_public_key env))).

Definition add_group_member (k : ShareGroupKey) (ephemeral nonce : blob) (member_uuid : Uuid)
    (member_public_key : blob) : result ShareError WrappedGroupKey :=
  wrap_for (gk_sik k) (sg_group_id (gk_group k)) ephemeral nonce member_uuid member_public_key.

Definition unwrap_group_key (wrapped : WrappedGroupKey) (recipient : SharingKeyPair) : result ShareError blob :=
  env ← decode_envelope (wg_wrapped_sik wrapped) (wg_ephemeral_public_key wrapped);
  sealed (unwrap_shared_item env recipient (wg_group_id wrapped)).

(** The random bytes of each wrapping come with the member. *)
Fixpoint rewrap (sik : blob) (group_id : Uuid) (members : list (Uuid * blob * (blob * blob)))
    : result ShareError (list WrappedGroupKey) :=
  match members with
  | [] => mret []
  | (member_uuid, pk, (ephemeral, nonce)) :: members' =>
      w ← wrap_for sik group_id ephemeral nonce member_uuid pk;
      ws ← rewrap sik group_id members';
      mret (w :: ws)
  end.

Definition rotate_group_sik (group_sik : blob) (group : ShareGroup) (members : list (Uuid * blob * (blob * blob)))
    : result ShareError GroupKeyRotation :=
  rewrapped ← rewrap group_sik (sg_group_id group) members;
  mret (mkGroupRotation (mkGroupKey group group_sik) rewrapped).

Definition remove_group_member (group_sik : blob) (k : ShareGroupKey) (member_to_remove : Uuid)
    (remaining : list (Uuid * blob * (blob * blob))) : result ShareError GroupKeyRotation :=
  if existsb (λ m, bool_decide (m.1.1 = member_to_remove)) remaining
  then Err (GroupError "member being removed must not be in the remaining set")
  else rotate_group_sik group_sik (gk_group k) remaining.
End Shares.

(** ** Round trips *)
Section RoundTrips.
Context `{CryptoLaws, ExtLaws}.

Lemma decode_encoded env :
  length (env_ephemeral_public_key env) = 32%nat →
  decode_envelope (b64_encode (env_wrapped_sik env)) (b64_encode (env_ephemeral_public_key env)) = Ok env.
Proof.
  intros Hl. unfold decode_envelope, unb64. rewrite !b64_roundtrip. cbn.
  rewrite bool_decide_false by auto. by destruct env.
Qed.

Lemma envelope_key_len ephemeral nonce sik pk uuid env :
  Kem.share_item ephemeral nonce sik pk uuid = Ok env → length (env_ephemeral_public_key env) = 32%nat.
Proof.
  unfold Kem.share_item. destruct (was_contributory _); [|done]. cbn [negb].
  destruct (xchacha_encrypt _ _ _ _); [|done]. intros [= <-]. apply x25519_len.
Qed.

(** The key a bundle carries, opened by its recipient. *)
Lemma opened_envelope sik nonce ephemeral nonce' sender recipient item secret plaintext b :
  length sik = 32%nat → length nonce' = NONCE_LEN →
  share_item sik nonce ephemeral nonce' sender recipient item (x25519_public secret) plaintext = Ok b →
  (env ← decode_envelope (sb_wrapped_sik b) (sb_ephemeral_public_key b);
   sealed (unwrap_shared_item env (Kem.from_secret secret) (sb_item_uuid b))) = Ok sik.
Proof.
  unfold share_item. intros Hs Hn'.
  destruct (encrypt_with_nonce _ _ _ _) as [ct|] eqn:Hct; [|done].
  cbn. destruct (Kem.share_item _ _ _ _ _) as [env|] eqn:He; [|done]. cbn. intros [= <-].
  cbn [sb_wrapped_sik sb_ephemeral_public_key sb_item_uuid].
  rewrite decode_encoded by (by eapply envelope_key_len). cbn.
  by rewrite (unwrap_share _ _ _ _ _ _ Hn' Hs He).
Qed.

Lemma accept_shared sik nonce ephemeral nonce' sender recipient item secret plaintext b :
  length sik = 32%nat → length nonce = NONCE_LEN → length nonce' = NONCE_LEN →
  share_item sik nonce ephemeral nonce' sender recipient item (x25519_public secret) plaintext = Ok b →
  accept_share (Kem.from_secret secret) (incoming_of b) = Ok plaintext.
Proof.
  unfold share_item. intros Hs Hn Hn'.
  destruct (encrypt_with_nonce _ _ _ _) as [ct|] eqn:Hct; [|done].
  cbn. destruct (Kem.share_item _ _ _ _ _) as [env|] eqn:He; [|done]. cbn. intros [= <-].
  unfold accept_share. cbn [is_wrapped_sik is_ephemeral_public_key incoming_of sb_wrapped_sik sb_ephemeral_public_key].
  rewrite decode_encoded by (by eapply envelope_key_len). cbn.
  rewrite (unwrap_share _ _ _ _ _ _ Hn' Hs He). cbn. unfold unb64. rewrite b64_roundtrip. cbn.
  by rewrite (decrypt_envelope _ _ _ _ _ Hn Hct).
Qed.

(** What the bundle carries, and what its payload decodes to. *)
Lemma bundle_fields sik nonce ephemeral nonce' sender recipient item pk pt b :
  share_item sik nonce ephemeral nonce' sender recipient item pk pt = Ok b →
  sb_share_id b = item ∧ sb_item_uuid b = item ∧ sb_recipient_uuid b = recipient ∧
  ∃ ct, encrypt_with_nonce sik nonce (payload_ad item) pt = Ok ct ∧ sb_encrypted_payload b = b64_encode ct.
Proof.
  unfold share_item. destruct (encrypt_with_nonce _ _ _ _) as [ct|] eqn:Hct; [|done].
  cbn. destruct (Kem.share_item _ _ _ _ _) as [env|]; [|done]. cbn. intros [= <-]. split_and!; [done..|].
  by exists ct.
Qed.

(** The fields a bundle sends are encoded bytes. *)
Lemma bundle_encoded sik nonce ephemeral nonce' sender recipient item pk pt b :
  share_item sik nonce ephemeral nonce' sender recipient item pk pt = Ok b →
  ∃ wrapped key ct, sb_wrapped_sik b = b64_encode wrapped ∧ sb_ephemeral_public_key b = b64_encode key ∧
    sb_encrypted_payload b = b64_encode ct.
Proof.
  unfold share_item. destruct (encrypt_with_nonce _ _ _ _) as [ct|]; [|done].
  cbn. destruct (Kem.share_item _ _ _ _ _) as [env|]; [|done]. cbn. intros [= <-]. by eexists _, _, _.
Qed.

Lemma unwrap_wrapped sik gid ephemeral nonce m secret w :
  length sik = 32%nat → length nonce = NONCE_LEN →
  wrap_for sik gid ephemeral nonce m (x25519_public secret) = Ok w →
  wg_group_id w = gid ∧ wg_member_uuid w = m ∧ unwrap_group_key w (Kem.from_secret secret) = Ok sik.
Proof.
  unfold wrap_for. intros Hs Hn. destruct (Kem.share_item _ _ _ _ _) as [env|] eqn:He; [|done].
  cbn. intros [= <-]. split; [done|]. split; [done|]. unfold unwrap_group_key. cbn.
  rewrite decode_encoded by (by eapply envelope_key_len). cbn.
  by rewrite (unwrap_share _ _ _ _ _ _ Hn Hs He).
Qed.

Lemma decrypt_encrypted_item k nonce item plaintext ct :
  length nonce = NONCE_LEN → encrypt_item k nonce item plaintext = Ok ct → decrypt_item k item ct = Ok plaintext.
Proof.
  unfold encrypt_item, decrypt_item. intros Hn. destruct (encrypt_with_nonce _ _ _ _) as [c|] eqn:Hc; [|done].
  cbn. intros [= <-]. by rewrite (decrypt_envelope _ _ _ _ _ Hn Hc).
Qed.
End RoundTrips.
End Shares.
