(* ===== verification/Client.v ===== *)
(** * The client application's state

    Models [core/vautr-app-state/src/]: [epoch.rs], [event_bus.rs],
    [handles.rs], [offline.rs], [worker.rs] and, of [orchestrator.rs], the
    client, its lock and second-factor state, its mutations, its blacklist and
    quarantine.  [World] is a client with whatever is behind its transport.
    Channels are lists: the bus holds every event published, oldest first.
    Of the sharing and file transports the client holds whether one is
    installed; the project transport is left out, and [resync_requested], which
    nothing sets.  Custody.v shows what all operations keep. *)
From S2P Require Import Prelude Domain Database ClientDb ClientSync Crypto ShareCrypto.

Local Open Scope Z_scope.

(** ** epoch.rs *)

Inductive VaultMode := ReadWrite | KeyUpdateRequiredMode | Migrating | LockedMode.
#[export] Instance VaultMode_eq_dec : EqDecision VaultMode.
Proof. solve_decision. Defined.

Record EpochState := mkEpoch { ep_sync_epoch : Z; ep_min_enc_key_gen : Z }.
Definition EpochState_new : EpochState := mkEpoch 0 0.
Definition epoch_bump (e : EpochState) : EpochState :=
  mkEpoch (as_u64 (ep_sync_epoch e + 1)) (ep_min_enc_key_gen e).
Definition set_min_enc_key_gen (g : Z) (e : EpochState) : EpochState := mkEpoch (ep_sync_epoch e) g.
Definition is_read_only (e : EpochState) (local_gen : Z) : bool :=
  bool_decide (local_gen < ep_min_enc_key_gen e).
Definition vault_mode (e : EpochState) (local_gen : Z) : VaultMode :=
  if is_read_only e local_gen then KeyUpdateRequiredMode else ReadWrite.
Definition verify_commit (e : EpochState) (task_epoch local_gen : Z) : bool * VaultMode :=
  (bool_decide (task_epoch = ep_sync_epoch e), vault_mode e local_gen).

(** ** event_bus.rs *)

(** [RevertibleState]. *)
Inductive RevertibleState := RevSaved (m : DomainModel) | RevDeleted (o : DecryptedOverview).

(** [vautr_import]'s report. *)
Inductive ImportFailureReason :=
| SchemaMismatch (what : string) | ValidationFailed (what : string)
| MissingRequiredField (what : string) | DuplicateSkip | DecryptionFailed.
Record ImportError := mkImportError {
  ie_line_number : Z; ie_item_identifier : string; ie_reason : ImportFailureReason }.
Record ImportReport := mkImportReport {
  ir_total_parsed : Z; ir_success_count : Z; ir_skipped_count : Z; ir_errors : list ImportError }.
#[export] Instance ImportFailureReason_eq_dec : EqDecision ImportFailureReason.
Proof. solve_decision. Defined.

(** [format!] messages: a text, and the error it ends with. *)
Inductive ClientError :=
| Msg (what : string)
| FromDb (ctx : string) (e : LocalError)
| FromTransport (ctx : string) (e : TransportError)
| FromCrypto (ctx : string) (e : CryptoError)
| FromShare (e : Shares.ShareError).

Inductive VaultStateUpdate :=
| SyncStarted
| SyncProgress (p : Z)
| SyncCompleted
| SyncFailed (what : string)
| OverviewUpserted (o : DecryptedOverview)
| OverviewDeleted (uuid : Uuid)
| ConflictDetected (e : ConflictEvent)
| KeyUpdateRequired
| VaultLocked
| NewerVersionAvailable (uuid : Uuid)
| MutationSucceeded (receipt : Z)
| MutationFailed (receipt : Z) (error : ClientError) (original_state : RevertibleState)
| ImportCompleted (r : ImportReport)
| FileTransferProgress (file_uuid : Uuid) (bytes_transferred total_bytes : Z)
| ShareSent (id : Uuid)
| ShareReceived (id : Uuid)
| ShareRevoked (id : Uuid)
| RecoveryModeEntered
| RecoveryCompleted
| OfflineMutationQueued (n : Z)
| ItemRecovered (uuid : Uuid)
| ItemPermanentlyDeleted (uuid : Uuid)
| SyncStateInvalidated.

(** ** handles.rs *)

Inductive CoreAction := CopyToClipboard (handle : Z) | Autofill (handle : Z) | RenderInOverlay (handle : Z).
Definition action_handle (a : CoreAction) : Z :=
  match a with CopyToClipboard h | Autofill h | RenderInOverlay h => h end.

Record SecretStore := mkStore { st_handles : HandleTable; st_next : Z }.
Definition SecretStore_new : SecretStore := mkStore ∅ 1.

Definition store_reveal (now : Z) (secret : blob) (s : SecretStore) : SecretStore * Z :=
  (mkStore (<[st_next s := mkHandle (st_next s) now secret]> (st_handles s)) (as_u64 (st_next s + 1)),
   st_next s).
Definition store_access (now handle : Z) (s : SecretStore) : SecretStore * option blob :=
  (mkStore (alter (handle_access now) handle (st_handles s)) (st_next s),
   sh_data <$> st_handles s !! handle).
Definition store_release (handle : Z) (s : SecretStore) : SecretStore :=
  mkStore (delete handle (st_handles s)) (st_next s).
Definition store_contains (handle : Z) (s : SecretStore) : bool :=
  bool_decide (is_Some (st_handles s !! handle)).
Definition store_clear_all (s : SecretStore) : SecretStore := mkStore ∅ (st_next s).

(** ** offline.rs *)

Inductive QueuedMutation :=
| QueuedSave (item : DomainModel) (payload : blob)
| QueuedDelete (uuid : Uuid).

(** [pop_front_if]. *)
Definition pop_front_if (p : QueuedMutation → bool) (q : list QueuedMutation) : list QueuedMutation :=
  match q with
  | m :: q' => if p m then q' else q
  | [] => []
  end.

(** ** The client *)

Inductive SecondFactorMethod := WebAuthn | Totp.
#[export] Instance SecondFactorMethod_eq_dec : EqDecision SecondFactorMethod.
Proof. solve_decision. Defined.

(** Keys are held in memory only; [k_mk] only after an unlock by password. *)
Record Keys := mkKeys {
  k_svk : option blob; k_dek : option blob; k_mk : option blob; k_local_gen : Z; k_locked : bool }.

(** [recovery.rs]: the mnemonic, the signing key and its public key. *)
Record RecoveryCredentials := mkCreds {
  cr_mnemonic : string; cr_signing_key : blob; cr_verifying_key_bytes : blob }.
Record RecoveryState := mkRecovery { rs_pending : bool; rs_creds : option RecoveryCredentials }.

(** [VautrClient]; [c_rng] counts the draws made from the operating system. *)
Record Client := mkClient {
  c_db : Local;
  c_bus : list VaultStateUpdate;
  c_epoch : EpochState;
  c_receipts : Z;
  c_keys : Keys;
  c_store : SecretStore;
  c_blacklist : LocalBlacklist;
  c_blacklist_dirty : bool;
  c_cursor : Z;
  c_platform : option (list (CoreAction * blob));
  c_transport : bool;
  c_server_user_id : option Uuid;
  c_share_transport : bool;
  c_file_transport : bool;
  c_sharing_keypair : option Kem.SharingKeyPair;
  c_groups : gmap Uuid Shares.ShareGroupKey;
  c_recovery : RecoveryState;
  c_offline : list QueuedMutation;
  c_quarantine : Quarantine;
  c_reaper_sync_requests : Z;
  c_second_factor : option SecondFactorMethod;
  c_second_factor_verified : bool;
  c_rng : nat }.

Definition with_db (f : Local → Local) (c : Client) : Client :=
  mkClient (f (c_db c)) (c_bus c) (c_epoch c) (c_receipts c) (c_keys c) (c_store c)
  (c_blacklist c) (c_blacklist_dirty c) (c_cursor c) (c_platform c) (c_transport c)
  (c_server_user_id c) (c_share_transport c) (c_file_transport c) (c_sharing_keypair c)
  (c_groups c) (c_recovery c) (c_offline c) (c_quarantine c) (c_reaper_sync_requests c)
  (c_second_factor c) (c_second_factor_verified c) (c_rng c).
Definition with_bus (f : (list VaultStateUpdate) → (list VaultStateUpdate)) (c : Client) : Client :=
  mkClient (c_db c) (f (c_bus c)) (c_epoch c) (c_receipts c) (c_keys c) (c_store c)
  (c_blacklist c) (c_blacklist_dirty c) (c_cursor c) (c_platform c) (c_transport c)
  (c_server_user_id c) (c_share_transport c) (c_file_transport c) (c_sharing_keypair c)
  (c_groups c) (c_recovery c) (c_offline c) (c_quarantine c) (c_reaper_sync_requests c)
  (c_second_factor c) (c_second_factor_verified c) (c_rng c).
Definition with_epoch (f : EpochState → EpochState) (c : Client) : Client :=
  mkClient (c_db c) (c_bus c) (f (c_epoch c)) (c_receipts c) (c_keys c) (c_store c)
  (c_blacklist c) (c_blacklist_dirty c) (c_cursor c) (c_platform c) (c_transport c)
  (c_server_user_id c) (c_share_transport c) (c_file_transport c) (c_sharing_keypair c)
  (c_groups c) (c_recovery c) (c_offline c) (c_quarantine c) (c_reaper_sync_requests c)
  (c_second_factor c) (c_second_factor_verified c) (c_rng c).
Definition with_receipts (f : Z → Z) (c : Client) : Client :=
  mkClient (c_db c) (c_bus c) (c_epoch c) (f (c_receipts c)) (c_keys c) (c_store c)
  (c_blacklist c) (c_blacklist_dirty c) (c_cursor c) (c_platform c) (c_transport c)
  (c_server_user_id c) (c_share_transport c) (c_file_transport c) (c_sharing_keypair c)
  (c_groups c) (c_recovery c) (c_offline c) (c_quarantine c) (c_reaper_sync_requests c)
  (c_second_factor c) (c_second_factor_verified c) (c_rng c).
Definition with_keys (f : Keys → Keys) (c : Client) : Client :=
  mkClient (c_db c) (c_bus c) (c_epoch c) (c_receipts c) (f (c_keys c)) (c_store c)
  (c_blacklist c) (c_blacklist_dirty c) (c_cursor c) (c_platform c) (c_transport c)
  (c_server_user_id c) (c_share_transport c) (c_file_transport c) (c_sharing_keypair c)
  (c_groups c) (c_recovery c) (c_offline c) (c_quarantine c) (c_reaper_sync_requests c)
  (c_second_factor c) (c_second_factor_verified c) (c_rng c).
Definition with_store (f : SecretStore → SecretStore) (c : Client) : Client :=
  mkClient (c_db c) (c_bus c) (c_epoch c) (c_receipts c) (c_keys c) (f (c_store c))
  (c_blacklist c) (c_blacklist_dirty c) (c_cursor c) (c_platform c) (c_transport c)
  (c_server_user_id c) (c_share_transport c) (c_file_transport c) (c_sharing_keypair c)
  (c_groups c) (c_recovery c) (c_offline c) (c_quarantine c) (c_reaper_sync_requests c)
  (c_second_factor c) (c_second_factor_verified c) (c_rng c).
Definition with_blacklist (f : LocalBlacklist → LocalBlacklist) (c : Client) : Client :=
  mkClient (c_db c) (c_bus c) (c_epoch c) (c_receipts c) (c_keys c) (c_store c)
  (f (c_blacklist c)) (c_blacklist_dirty c) (c_cursor c) (c_platform c) (c_transport c)
  (c_server_user_id c) (c_share_transport c) (c_file_transport c) (c_sharing_keypair c)
  (c_groups c) (c_recovery c) (c_offline c) (c_quarantine c) (c_reaper_sync_requests c)
  (c_second_factor c) (c_second_factor_verified c) (c_rng c).
Definition with_blacklist_dirty (f : bool → bool) (c : Client) : Client :=
  mkClient (c_db c) (c_bus c) (c_epoch c) (c_receipts c) (c_keys c) (c_store c) (c_blacklist c)
  (f (c_blacklist_dirty c)) (c_cursor c) (c_platform c) (c_transport c) (c_server_user_id c)
  (c_share_transport c) (c_file_transport c) (c_sharing_keypair c) (c_groups c) (c_recovery c)
  (c_offline c) (c_quarantine c) (c_reaper_sync_requests c) (c_second_factor c)
  (c_second_factor_verified c) (c_rng c).
Definition with_cursor (f : Z → Z) (c : Client) : Client :=
  mkClient (c_db c) (c_bus c) (c_epoch c) (c_receipts c) (c_keys c) (c_store c) (c_blacklist c)
  (c_blacklist_dirty c) (f (c_cursor c)) (c_platform c) (c_transport c) (c_server_user_id c)
  (c_share_transport c) (c_file_transport c) (c_sharing_keypair c) (c_groups c) (c_recovery c)
  (c_offline c) (c_quarantine c) (c_reaper_sync_requests c) (c_second_factor c)
  (c_second_factor_verified c) (c_rng c).
Definition with_platform (f : (option (list (CoreAction * blob))) → (option (list (CoreAction * blob)))) (c : Client) : Client :=
  mkClient (c_db c) (c_bus c) (c_epoch c) (c_receipts c) (c_keys c) (c_store c) (c_blacklist c)
  (c_blacklist_dirty c) (c_cursor c) (f (c_platform c)) (c_transport c) (c_server_user_id c)
  (c_share_transport c) (c_file_transport c) (c_sharing_keypair c) (c_groups c) (c_recovery c)
  (c_offline c) (c_quarantine c) (c_reaper_sync_requests c) (c_second_factor c)
  (c_second_factor_verified c) (c_rng c).
Definition with_transport (f : bool → bool) (c : Client) : Client :=
  mkClient (c_db c) (c_bus c) (c_epoch c) (c_receipts c) (c_keys c) (c_store c) (c_blacklist c)
  (c_blacklist_dirty c) (c_cursor c) (c_platform c) (f (c_transport c)) (c_server_user_id c)
  (c_share_transport c) (c_file_transport c) (c_sharing_keypair c) (c_groups c) (c_recovery c)
  (c_offline c) (c_quarantine c) (c_reaper_sync_requests c) (c_second_factor c)
  (c_second_factor_verified c) (c_rng c).
Definition with_server_user_id (f : (option Uuid) → (option Uuid)) (c : Client) : Client :=
  mkClient (c_db c) (c_bus c) (c_epoch c) (c_receipts c) (c_keys c) (c_store c) (c_blacklist c)
  (c_blacklist_dirty c) (c_cursor c) (c_platform c) (c_transport c) (f (c_server_user_id c))
  (c_share_transport c) (c_file_transport c) (c_sharing_keypair c) (c_groups c) (c_recovery c)
  (c_offline c) (c_quarantine c) (c_reaper_sync_requests c) (c_second_factor c)
  (c_second_factor_verified c) (c_rng c).
Definition with_share_transport (f : bool → bool) (c : Client) : Client :=
  mkClient (c_db c) (c_bus c) (c_epoch c) (c_receipts c) (c_keys c) (c_store c) (c_blacklist c)
  (c_blacklist_dirty c) (c_cursor c) (c_platform c) (c_transport c) (c_server_user_id c)
  (f (c_share_transport c)) (c_file_transport c) (c_sharing_keypair c) (c_groups c) (c_recovery c)
  (c_offline c) (c_quarantine c) (c_reaper_sync_requests c) (c_second_factor c)
  (c_second_factor_verified c) (c_rng c).
Definition with_file_transport (f : bool → bool) (c : Client) : Client :=
  mkClient (c_db c) (c_bus c) (c_epoch c) (c_receipts c) (c_keys c) (c_store c) (c_blacklist c)
  (c_blacklist_dirty c) (c_cursor c) (c_platform c) (c_transport c) (c_server_user_id c)
  (c_share_transport c) (f (c_file_transport c)) (c_sharing_keypair c) (c_groups c) (c_recovery c)
  (c_offline c) (c_quarantine c) (c_reaper_sync_requests c) (c_second_factor c)
  (c_second_factor_verified c) (c_rng c).
Definition with_sharing_keypair (f : (option Kem.SharingKeyPair) → (option Kem.SharingKeyPair)) (c : Client) : Client :=
  mkClient (c_db c) (c_bus c) (c_epoch c) (c_receipts c) (c_keys c) (c_store c) (c_blacklist c)
  (c_blacklist_dirty c) (c_cursor c) (c_platform c) (c_transport c) (c_server_user_id c)
  (c_share_transport c) (c_file_transport c) (f (c_sharing_keypair c)) (c_groups c) (c_recovery c)
  (c_offline c) (c_quarantine c) (c_reaper_sync_requests c) (c_second_factor c)
  (c_second_factor_verified c) (c_rng c).
Definition with_groups (f : (gmap Uuid Shares.ShareGroupKey) → (gmap Uuid Shares.ShareGroupKey)) (c : Client) : Client :=
  mkClient (c_db c) (c_bus c) (c_epoch c) (c_receipts c) (c_keys c) (c_store c) (c_blacklist c)
  (c_blacklist_dirty c) (c_cursor c) (c_platform c) (c_transport c) (c_server_user_id c)
  (c_share_transport c) (c_file_transport c) (c_sharing_keypair c) (f (c_groups c)) (c_recovery c)
  (c_offline c) (c_quarantine c) (c_reaper_sync_requests c) (c_second_factor c)
  (c_second_factor_verified c) (c_rng c).
Definition with_recovery (f : RecoveryState → RecoveryState) (c : Client) : Client :=
  mkClient (c_db c) (c_bus c) (c_epoch c) (c_receipts c) (c_keys c) (c_store c) (c_blacklist c)
  (c_blacklist_dirty c) (c_cursor c) (c_platform c) (c_transport c) (c_server_user_id c)
  (c_share_transport c) (c_file_transport c) (c_sharing_keypair c) (c_groups c) (f (c_recovery c))
  (c_offline c) (c_quarantine c) (c_reaper_sync_requests c) (c_second_factor c)
  (c_second_factor_verified c) (c_rng c).
Definition with_offline (f : (list QueuedMutation) → (list QueuedMutation)) (c : Client) : Client :=
  mkClient (c_db c) (c_bus c) (c_epoch c) (c_receipts c) (c_keys c) (c_store c) (c_blacklist c)
  (c_blacklist_dirty c) (c_cursor c) (c_platform c) (c_transport c) (c_server_user_id c)
  (c_share_transport c) (c_file_transport c) (c_sharing_keypair c) (c_groups c) (c_recovery c)
  (f (c_offline c)) (c_quarantine c) (c_reaper_sync_requests c) (c_second_factor c)
  (c_second_factor_verified c) (c_rng c).
Definition with_quarantine (f : Quarantine → Quarantine) (c : Client) : Client :=
  mkClient (c_db c) (c_bus c) (c_epoch c) (c_receipts c) (c_keys c) (c_store c) (c_blacklist c)
  (c_blacklist_dirty c) (c_cursor c) (c_platform c) (c_transport c) (c_server_user_id c)
  (c_share_transport c) (c_file_transport c) (c_sharing_keypair c) (c_groups c) (c_recovery c)
  (c_offline c) (f (c_quarantine c)) (c_reaper_sync_requests c) (c_second_factor c)
  (c_second_factor_verified c) (c_rng c).
Definition with_reaper_sync_requests (f : Z → Z) (c : Client) : Client :=
  mkClient (c_db c) (c_bus c) (c_epoch c) (c_receipts c) (c_keys c) (c_store c) (c_blacklist c)
  (c_blacklist_dirty c) (c_cursor c) (c_platform c) (c_transport c) (c_server_user_id c)
  (c_share_transport c) (c_file_transport c) (c_sharing_keypair c) (c_groups c) (c_recovery c)
  (c_offline c) (c_quarantine c) (f (c_reaper_sync_requests c)) (c_second_factor c)
  (c_second_factor_verified c) (c_rng c).
Definition with_second_factor (f : (option SecondFactorMethod) → (option SecondFactorMethod)) (c : Client) : Client :=
  mkClient (c_db c) (c_bus c) (c_epoch c) (c_receipts c) (c_keys c) (c_store c) (c_blacklist c)
  (c_blacklist_dirty c) (c_cursor c) (c_platform c) (c_transport c) (c_server_user_id c)
  (c_share_transport c) (c_file_transport c) (c_sharing_keypair c) (c_groups c) (c_recovery c)
  (c_offline c) (c_quarantine c) (c_reaper_sync_requests c) (f (c_second_factor c))
  (c_second_factor_verified c) (c_rng c).
Definition with_second_factor_verified (f : bool → bool) (c : Client) : Client :=
  mkClient (c_db c) (c_bus c) (c_epoch c) (c_receipts c) (c_keys c) (c_store c) (c_blacklist c)
  (c_blacklist_dirty c) (c_cursor c) (c_platform c) (c_transport c) (c_server_user_id c)
  (c_share_transport c) (c_file_transport c) (c_sharing_keypair c) (c_groups c) (c_recovery c)
  (c_offline c) (c_quarantine c) (c_reaper_sync_requests c) (c_second_factor c)
  (f (c_second_factor_verified c)) (c_rng c).
Definition with_rng (f : nat → nat) (c : Client) : Client :=
  mkClient (c_db c) (c_bus c) (c_epoch c) (c_receipts c) (c_keys c) (c_store c) (c_blacklist c)
  (c_blacklist_dirty c) (c_cursor c) (c_platform c) (c_transport c) (c_server_user_id c)
  (c_share_transport c) (c_file_transport c) (c_sharing_keypair c) (c_groups c) (c_recovery c)
  (c_offline c) (c_quarantine c) (c_reaper_sync_requests c) (c_second_factor c)
  (c_second_factor_verified c) (f (c_rng c)).

(** [VautrClient::new] over an opened database. *)
Definition new_client (db : Local) : Client :=
  mkClient db [] EpochState_new 1 (mkKeys None None None 1 true) SecretStore_new ∅ false 0 None false
    None false false None ∅ (mkRecovery false None) [] ∅ 0 None false 0.

Definition is_locked (c : Client) : bool := k_locked (c_keys c).
Definition current_key_gen (c : Client) : Z := k_local_gen (c_keys c).

(** A client and the state behind its transport. *)
Record World (W : Type) := mkWorld { client : Client; remote : W }.
Arguments mkWorld {W}.
Arguments client {W}.
Arguments remote {W}.

Abbreviation app W := (M (World W) ClientError).

Section Ops.
Context {W : Type} `{Ext}.
Implicit Types (w : World W).

Definition cl {A} (f : Client → A) : app W A := gets (λ w, f (client w)).
Definition upd (f : Client → Client) : app W () := modify (λ w, mkWorld (f (client w)) (remote w)).
Definition publish (ev : VaultStateUpdate) : app W () := upd (with_bus (λ b, b ++ [ev])).

(** A statement on the local database, its error wrapped by [format!]. *)
Definition on_db {A} (ctx : string) (m : local A) : app W A := λ w,
  let '(d, r) := m (c_db (client w)) in
  (mkWorld (with_db (λ _, d) (client w)) (remote w), map_res (FromDb ctx) r).

(** A call of the transport. *)
Definition on_remote {A} (ctx : string) (m : M W TransportError A) : app W A := λ w,
  let '(s, r) := m (remote w) in (mkWorld (client w) s, map_res (FromTransport ctx) r).

Definition require_transport : app W () :=
  t ← cl c_transport; guard_err (negb t) (Msg "sync not connected").
Definition require_unlocked : app W () :=
  l ← cl is_locked; guard_err l (Msg "vault locked").

(** ** worker.rs *)

Record SaveCommand := mkSaveCommand { sc_item : DomainModel; sc_payload : blob; sc_sync_epoch : Z }.
Record DeleteCommand := mkDeleteCommand {
  dc_uuid : Uuid; dc_sync_epoch : Z; dc_local_enc_key_gen : Z }.

Inductive TaskOutcome := Committed (receipt : Z) | Rejected (receipt : Z) (original_state : RevertibleState).

Definition next_receipt : app W Z :=
  r ← cl c_receipts; upd (with_receipts (λ r, as_u64 (r + 1)));; mret r.

(** The captured epoch is not looked at. *)
Definition verify_epoch (task_epoch local_gen : Z) : app W () :=
  e ← cl c_epoch;
  guard_err (bool_decide (vault_mode e local_gen = KeyUpdateRequiredMode))
    (Msg "vault updated (KeyUpdateRequired): write rejected, reverting").

Definition commit_save (cmd : SaveCommand) : app W () :=
  let item := sc_item cmd in
  let ov := dm_overview item in
  let meta := dm_metadata item in
  verify_epoch (sc_sync_epoch cmd) (dm_enc_key_gen item);;
  existing ← on_db "read version" (gets (λ l, overviews l !! do_uuid ov));
  let version := default 1 (ov_version <$> existing) in
  let created_at := default (md_created_at meta) (ov_created_at <$> existing) in
  let row := mkOverviewRow version (as_i64 (dm_enc_key_gen item))
               (if md_trashed meta then Some (md_updated_at meta) else None)
               (do_title ov) (do_subtitle ov) (do_icon_key ov)
               (default "[]" (json_of_strings (do_urls ov))) created_at (md_updated_at meta) in
  on_db "save_item_txn" (transaction (save_item_txn (do_uuid ov) row (sc_payload cmd) (do_uuid ov))).

Definition commit_delete (cmd : DeleteCommand) : app W () :=
  verify_epoch (dc_sync_epoch cmd) (dc_local_enc_key_gen cmd);;
  on_db "delete" (transaction (
    existing ← gets (λ l, overviews l !! dc_uuid cmd);
    match existing with
    | Some row => record_pending_delete_txn (dc_uuid cmd) (ov_version row) (ov_enc_key_gen row)
    | None => mret ()
    end;;
    modify (with_overviews (delete (dc_uuid cmd)));;
    modify (with_payloads (delete (dc_uuid cmd))))).

Definition worker_save (cmd : SaveCommand) : app W TaskOutcome :=
  receipt ← next_receipt;
  r ← attempt (commit_save cmd);
  match r with
  | Ok _ =>
      publish (MutationSucceeded receipt);;
      publish (OverviewUpserted (dm_overview (sc_item cmd)));;
      mret (Committed receipt)
  | Err reason =>
      publish (MutationFailed receipt reason (RevSaved (sc_item cmd)));;
      mret (Rejected receipt (RevSaved (sc_item cmd)))
  end.

Definition blank_overview (uuid : Uuid) : DecryptedOverview := mkOverview uuid "" "" "" [] 0.

Definition worker_delete (cmd : DeleteCommand) : app W TaskOutcome :=
  receipt ← next_receipt;
  r ← attempt (commit_delete cmd);
  let original := RevDeleted (blank_overview (dc_uuid cmd)) in
  match r with
  | Ok _ =>
      publish (MutationSucceeded receipt);;
      publish (OverviewDeleted (dc_uuid cmd));;
      mret (Committed receipt)
  | Err reason =>
      publish (MutationFailed receipt reason original);;
      mret (Rejected receipt original)
  end.

(** ** orchestrator.rs: mutations *)

Definition save_item (item : DomainModel) (payload : blob) : app W TaskOutcome :=
  l ← cl is_locked;
  if l : bool then mret (Rejected 0 (RevSaved item))
  else
    e ← cl c_epoch;
    worker_save (mkSaveCommand item payload (ep_sync_epoch e)).

Definition delete_item (uuid : Uuid) : app W TaskOutcome :=
  l ← cl is_locked;
  if l : bool then mret (Rejected 0 (RevDeleted (blank_overview uuid)))
  else
    e ← cl c_epoch; g ← cl current_key_gen;
    worker_delete (mkDeleteCommand uuid (ep_sync_epoch e) g).

(** ** orchestrator.rs: transports, second factor, lock *)

Definition connect_sync (user_id : Uuid) : app W () :=
  upd (with_transport (λ _, true));; upd (with_server_user_id (λ _, Some user_id)).
Definition disconnect_sync : app W () := upd (with_transport (λ _, false)).
Definition set_server_user_id (user_id : Uuid) : app W () := upd (with_server_user_id (λ _, Some user_id)).
Definition set_platform_adapter : app W () := upd (with_platform (λ _, Some [])).

Definition set_second_factor_method (method : option SecondFactorMethod) : app W () :=
  upd (with_second_factor (λ _, method));;
  if decide (method = None) then upd (with_second_factor_verified (λ _, false)) else mret ().
Definition set_second_factor_required (required : bool) : app W () :=
  set_second_factor_method (if required then Some WebAuthn else None).
Definition verify_second_factor : app W () := upd (with_second_factor_verified (λ _, true)).
Definition reset_second_factor : app W () :=
  upd (with_second_factor (λ _, None));; upd (with_second_factor_verified (λ _, false)).

Definition client_verify_totp `{Transport W} (code : string) : app W () :=
  require_transport;;
  on_remote "totp verify" (verify_totp code);;
  upd (with_second_factor_verified (λ _, true)).

Definition lock : app W () :=
  upd (with_keys (λ k, mkKeys None (k_dek k) (k_mk k) (k_local_gen k) (k_locked k)));;
  upd (with_keys (λ k, mkKeys (k_svk k) None (k_mk k) (k_local_gen k) (k_locked k)));;
  upd (with_keys (λ k, mkKeys (k_svk k) (k_dek k) None (k_local_gen k) (k_locked k)));;
  upd (with_store store_clear_all);;
  upd (with_keys (λ k, mkKeys (k_svk k) (k_dek k) (k_mk k) (k_local_gen k) true));;
  reset_second_factor;;
  publish VaultLocked.

Definition notify_epoch_transition : app W Z :=
  upd (with_epoch epoch_bump);; e ← cl c_epoch; mret (ep_sync_epoch e).

(** ** orchestrator.rs: queries and handles *)

Definition search (fts : Local → string → list DecryptedOverview) (query : string)
    : app W (list DecryptedOverview) :=
  if bool_decide (str_trim query = EmptyString) then on_db "search" (recent_overviews 50)
  else on_db "search" (gets (λ l, fts l query)).

Definition client_get_overview (uuid : Uuid) : app W DecryptedOverview :=
  on_db "get_overview" (get_overview uuid).

Definition release_secret (handle : Z) : app W () := upd (with_store (store_release handle)).

(** [SecretStore::access]. *)
Definition access_handle (now handle : Z) : app W (option blob) :=
  s ← cl c_store;
  upd (with_store (λ s, (store_access now handle s).1));;
  mret (store_access now handle s).2.

(** The adapter is recorded by the calls it got. *)
Definition perform_action (now : Z) (action : CoreAction) : app W () :=
  require_unlocked;;
  s ← access_handle now (action_handle action);
  secret ← ok_or (Msg "secret handle expired or invalid") s;
  p ← cl c_platform;
  calls ← ok_or (Msg "no platform adapter installed") p;
  upd (with_platform (λ _, Some (calls ++ [(action, secret)]))).

(** [read_secret], up to the UTF-8 check. *)
Definition read_secret (now handle : Z) : app W blob :=
  require_unlocked;;
  s ← access_handle now handle;
  ok_or (Msg "secret handle expired or invalid") s.

(** The reaper task of the handle table. *)
Definition reap_handles (now : Z) : app W () :=
  upd (with_store (λ s, mkStore (safety_tick now (st_handles s)) (st_next s))).

(** ** orchestrator.rs: blacklist and quarantine *)

Definition mark_ignored (uuid : Uuid) (ignored_version : Z) (toxic : bool) : app W () :=
  upd (with_blacklist (insert uuid (ignored_version, if toxic then ToxicIgnored else ValidIgnored)));;
  upd (with_blacklist_dirty (λ _, true)).

Definition reaper_quarantine (uuid : Uuid) (server_version : Z) (toxic : bool) : app W () :=
  mark_ignored uuid (as_i64 server_version) toxic;;
  publish (NewerVersionAvailable uuid).

Definition load_persisted_cursor : app W () :=
  c ← on_db "cursor" get_sync_cursor; upd (with_cursor (λ _, c)).

Definition load_row (r : string * Z * string) : option (Uuid * Z * DashMapEntryState) :=
  let '(uuid, v, state) := r in
  u ← uuid_parse uuid; s ← from_db_str state; Some (u, v, s).

Definition load_blacklist : app W () :=
  rows ← on_db "blacklist" list_blacklist;
  upd (with_blacklist (λ _, blacklist_load (omap load_row rows))).

Definition persist_blacklist_if_dirty : app W () :=
  dirty ← cl c_blacklist_dirty;
  if negb dirty then mret ()
  else
    b ← cl c_blacklist;
    on_db "persist dashmap" (transaction (persist_dashmap_txn
      ((λ e, blacklist_entry e.1.1 e.1.2 (into_db_state e.2)) <$> blacklist_snapshot b)));;
    upd (with_blacklist_dirty (λ _, false)).

Definition mark_item_toxic (uuid : Uuid) : app W () := upd (with_quarantine (mark_toxic uuid)).

(** The sync it asks for is another operation, run later. *)
Definition trigger_recovery_sync : app W () :=
  upd (with_reaper_sync_requests (λ n, as_u64 (n + 1))).

Definition publish_reaped (ev : ReaperEvent) : app W () :=
  match ev with
  | RItemRecovered uuid => publish (ItemRecovered uuid);; trigger_recovery_sync
  | RItemPermanentlyDeleted uuid => publish (ItemPermanentlyDeleted uuid)
  end.

Definition run_quarantine_reap (server_metadata : gmap Uuid ItemStatus) : app W () :=
  q ← cl c_quarantine;
  let '(q', events) := evaluate q server_metadata in
  upd (with_quarantine (λ _, q'));;
  mapM publish_reaped events;;
  mret ().

(** ** orchestrator.rs: the offline queue *)

Definition offline_save (item : DomainModel) (payload : blob) : app W Z :=
  upd (with_offline (λ q, q ++ [QueuedSave item payload]));;
  q ← cl c_offline;
  publish (OfflineMutationQueued (Z.of_nat (length q)));;
  mret (Z.of_nat (length q)).

Definition offline_delete (uuid : Uuid) : app W Z :=
  upd (with_offline (λ q, q ++ [QueuedDelete uuid]));;
  q ← cl c_offline;
  publish (OfflineMutationQueued (Z.of_nat (length q)));;
  mret (Z.of_nat (length q)).

Definition same_mutation (m head : QueuedMutation) : bool :=
  match head, m with
  | QueuedSave a _, QueuedSave b _ => bool_decide (do_uuid (dm_overview a) = do_uuid (dm_overview b))
  | QueuedDelete a, QueuedDelete b => bool_decide (a = b)
  | _, _ => false
  end.

Definition apply_mutation (m : QueuedMutation) : app W TaskOutcome :=
  match m with
  | QueuedSave item payload => save_item item payload
  | QueuedDelete uuid => delete_item uuid
  end.

(** The loop of [flush_offline_queue], with the count of applied entries. *)
Fixpoint flush_mutations (ms : list QueuedMutation) (applied : nat) : app W nat :=
  match ms with
  | [] => mret applied
  | m :: ms' =>
      result ← apply_mutation m;
      applied' ← match result with
                 | Committed _ => upd (with_offline (pop_front_if (same_mutation m)));; mret (S applied)
                 | Rejected _ _ => mret applied
                 end;
      l ← cl is_locked;
      if l : bool then mret applied' else flush_mutations ms' applied'
  end.

(** ** Running statements on the tables *)

Lemma world_eta w : mkWorld (with_db (λ _, c_db (client w)) (client w)) (remote w) = w.
Proof. destruct w as [c n]. by destruct c. Qed.

Lemma upd_bind {A} f (k : () → app W A) w :
  (upd f ≫= k) w = k () (mkWorld (f (client w)) (remote w)).
Proof. done. Qed.
Lemma some_bind {A B} e (a : A) (k : A → app W B) w : (ok_or e (Some a) ≫= k) w = k a w.
Proof. done. Qed.
Lemma cl_bind {A B} (f : Client → A) (k : A → app W B) w : (cl f ≫= k) w = k (f (client w)) w.
Proof. done. Qed.

Lemma read_db_run {A} ctx (f : Local → A) w : on_db ctx (gets f) w = (w, Ok (f (c_db (client w)))).
Proof. unfold on_db, gets. by rewrite world_eta. Qed.
End Ops.
