(* ===== verification/Replica.v ===== *)
(** * Synchronising a client

    Models the sync half of [core/vautr-app-state/src/orchestrator.rs]: the
    paging loop of [sync], the page it persists, [push_local_changes],
    [resolve_conflict] and [flush_offline_queue], against any [Transport].
    A sync runs alone ([sync_inflight]), and its retry loop runs once. *)
From S2P Require Import Prelude Domain Database ClientDb ClientSync Crypto Client.

Local Open Scope Z_scope.

(** The local rows a page stores. *)
Definition page_overview (uuid : Uuid) (version enc_key_gen : Z) (deleted : bool) : string * OverviewRow :=
  (uuid, mkOverviewRow (as_i64 version) (as_i64 enc_key_gen)
           (if deleted then Some (as_i64 version) else None) "" "" "" "[]" 0 0).

(** What a page of overviews has given so far. *)
Record PageAcc := mkPage {
  pg_idx : Z; pg_progress : Z; pg_upserts : list (PulledOverview * blob); pg_deletes : list string;
  pg_failure : bool }.

(** [chunks(n)]; [fuel] is at least the length. *)
Fixpoint chunks_of {A} (fuel n : nat) (l : list A) : list (list A) :=
  match fuel, l with
  | S k, _ :: _ => take n l :: chunks_of k n (drop n l)
  | _, _ => []
  end.

Lemma chunks_of_in {A} fuel m (l : list A) c x : c ∈ chunks_of fuel m l → x ∈ c → x ∈ l.
Proof.
  revert l. induction fuel as [|k IH]; intros [|y l] Hc Hx; try by apply not_elem_of_nil in Hc.
  cbn [chunks_of] in Hc. apply elem_of_cons in Hc as [->|Hc].
  - rewrite <-(take_drop m (y :: l)). apply elem_of_app. by left.
  - rewrite <-(take_drop m (y :: l)). apply elem_of_app. right. by eapply IH.
Qed.

Lemma chunks_concat {A} fuel n (l : list A) :
  (0 < n)%nat → (length l ≤ fuel)%nat → concat (chunks_of fuel n l) = l.
Proof.
  intros Hn. revert l. induction fuel as [|k IH]; intros l Hl; [destruct l; simpl in *; [done | lia]|].
  destruct l as [|x l]; [done|]. cbn [chunks_of concat]. rewrite IH; [apply take_drop|].
  rewrite length_drop. simpl in *. lia.
Qed.

Section Sync.
Context {W : Type} `{Transport W, Ext}.

Definition persist_synced_page (upserts : list (PulledOverview * blob)) (deletes : list string)
    (new_cursor : Z) : app W () :=
  e ← cl c_epoch;
  on_db "apply_sync_batch" (transaction (apply_sync_batch_txn
    ((λ u, page_overview (po_uuid u.1) (po_version u.1) (po_enc_key_gen u.1) (po_deleted u.1)) <$> upserts)
    ((λ u, (po_uuid u.1, u.2)) <$> upserts)
    deletes (as_i64 new_cursor) (as_i64 (ep_min_enc_key_gen e))));;
  mapM (λ u : PulledOverview * blob, publish (OverviewUpserted (blank_overview (po_uuid u.1)))) upserts;;
  mapM (λ s, match uuid_parse s with Some u => publish (OverviewDeleted u) | None => mret () end) deletes;;
  mret ().

(** A deletion is noted, anything else fetched. *)
Definition sync_fetch (engine : Engine) (a : PageAcc) (ov : PulledOverview) : app W PageAcc :=
  if po_deleted ov then
    mret (mkPage (pg_idx a) (pg_progress a) (pg_upserts a) (pg_deletes a ++ [po_uuid ov]) (pg_failure a))
  else
    r ← attempt (on_remote "fetch" (fetch_payload_if_allowed engine (po_uuid ov) (po_version ov)));
    mret match r with
         | Ok (Some payload) =>
             mkPage (pg_idx a) (pg_progress a) (pg_upserts a ++ [(ov, payload)]) (pg_deletes a)
               (pg_failure a)
         | Ok None => a
         | Err _ => mkPage (pg_idx a) (pg_progress a) (pg_upserts a) (pg_deletes a) true
         end.

Definition sync_progress (total : Z) (a : PageAcc) : app W PageAcc :=
  let idx := pg_idx a + 1 in
  let p := (as_u32 (idx * 100) / total) mod 256 in
  if bool_decide (p ≠ pg_progress a) then
    publish (SyncProgress p);;
    mret (mkPage idx p (pg_upserts a) (pg_deletes a) (pg_failure a))
  else mret (mkPage idx (pg_progress a) (pg_upserts a) (pg_deletes a) (pg_failure a)).

(** One turn of the loop over a page's overviews. *)
Definition sync_item (engine : Engine) (total : Z) (a : PageAcc) (ov : PulledOverview) : app W PageAcc :=
  if is_ignored (eng_blacklist engine) (po_uuid ov) then
    mret (mkPage (pg_idx a + 1) (pg_progress a) (pg_upserts a) (pg_deletes a) (pg_failure a))
  else
    a' ← sync_fetch engine a ov;
    sync_progress total a'.

Fixpoint sync_items (engine : Engine) (total : Z) (a : PageAcc) (ovs : list PulledOverview) : app W PageAcc :=
  match ovs with
  | [] => mret a
  | ov :: ovs' => a' ← sync_item engine total a ov; sync_items engine total a' ovs'
  end.

(** Applies what the page gave; whether anything has failed. *)
Definition persist_page (a : PageAcc) (cursor : Z) : app W bool :=
  if bool_decide (pg_upserts a = []) && bool_decide (pg_deletes a = []) then mret (pg_failure a)
  else
    r ← attempt (persist_synced_page (pg_upserts a) (pg_deletes a) cursor);
    mret match r with Ok _ => pg_failure a | Err _ => true end.

(** A pulled page: the engine with its cursor moved, the progress, whether
    anything failed so far, and whether there is more. *)
Definition apply_page (progress : Z) (failed : bool) (r : Engine * list PulledOverview * bool)
    : app W (Engine * Z * bool * bool) :=
  let '(engine, overviews, has_more) := r in
  let total := Z.max 1 (as_u32 (Z.of_nat (length overviews))) in
  a ← sync_items engine total (mkPage 0 progress [] [] failed) overviews;
  failed' ← persist_page a (eng_cursor engine);
  mret (engine, pg_progress a, failed', has_more).

Definition sync_page (engine : Engine) (progress : Z) (failed : bool) : app W (Engine * Z * bool * bool) :=
  r ← on_remote "sync pull" (pull_and_advance engine);
  apply_page progress failed r.

(** The page loop: [pages] of the 10000 are left. *)
Fixpoint sync_pages (pages : nat) (engine : Engine) (progress : Z) (failed : bool)
    : app W (Engine * bool) :=
  match pages with
  | O => throw (Msg "sync: exceeded 10000 pages (has_more loop?)")
  | S k =>
      r ← sync_page engine progress failed;
      let '(engine', progress', failed', has_more) := r in
      if has_more : bool then sync_pages k engine' progress' failed' else mret (engine', failed')
  end.

Definition MAX_PAGES : nat := N.to_nat 10000.

(** [if let Ok(..) = transport.account_status().await]. *)
Definition update_epoch_gate (local_gen : Z) : app W () :=
  st ← attempt (on_remote "account status" account_status);
  match st with
  | Ok (min_gen, _) =>
      upd (with_epoch (set_min_enc_key_gen min_gen));;
      if bool_decide (local_gen < min_gen) then publish KeyUpdateRequired else mret ()
  | Err _ => mret ()
  end.

(** What follows the page loop. *)
Definition finish_sync (engine : Engine) (first_failure : bool) (local_gen : Z) : app W () :=
  (if first_failure then mret () else upd (with_cursor (λ _, eng_cursor engine)));;
  update_epoch_gate local_gen;;
  persist_blacklist_if_dirty;;
  publish SyncCompleted.

Definition sync : app W () :=
  require_transport;;
  b ← cl c_blacklist;
  start_cursor ← cl c_cursor;
  publish SyncStarted;;
  local_gen ← cl current_key_gen;
  r ← sync_pages MAX_PAGES (mkEngine b start_cursor) 0 false;
  finish_sync r.1 r.2 local_gen.

(** ** Pushing *)

(** [SELECT .. FROM item_overviews INNER JOIN item_payloads]. *)
Definition list_local_items : app W (list (Uuid * Z * Z * blob)) :=
  on_db "list local items"
    (gets (λ l, (λ r, (r.1.1, ov_version r.1.2, as_u64 (ov_enc_key_gen r.1.2), r.2)) <$> joined l)).

Definition get_local_item (uuid : Uuid) : app W (option (Z * Z * blob)) :=
  rows ← list_local_items;
  mret ((λ r : Uuid * Z * Z * blob, (r.1.1.2, r.1.2, r.2)) <$>
          head (filter (λ r : Uuid * Z * Z * blob, r.1.1.1 = uuid) rows)).

Definition push_of (r : Uuid * Z * Z * blob) : Push := (r.1.1.1, as_u64 r.1.1.2, r.1.2, Some r.2).

(** A recorded delete, as the tombstone it pushes. *)
Definition tombstone_push (r : string * Z * Z) : option Push :=
  u ← uuid_parse r.1.1; Some (u, as_u64 r.1.2, as_u64 r.2, None).

Definition is_applied (o : PushOutcome) : bool := match o with Applied => true | _ => false end.

(** The first half of [push_local_changes]: failures are only logged. *)
Definition flush_pending_deletes : app W () :=
  pending ← on_db "list_pending_deletes" list_pending_deletes;
  if decide (pending = []) then mret ()
  else
    r ← attempt (on_remote "pending delete flush" (engine_push_batch (omap tombstone_push pending)));
    match r with
    | Ok outcomes =>
        if forallb (λ o, is_applied o.2) outcomes
        then ignore (on_db "clear pending deletes" (clear_pending_deletes ((λ r, r.1.1) <$> pending)))
        else mret ()
    | Err _ => mret ()
    end.

Definition report_conflict (chunk : list (Uuid * Z * Z * blob)) (o : Uuid * PushOutcome) : app W () :=
  match o.2 with
  | PushConflict server_version =>
      let local_version :=
        default server_version ((λ r : Uuid * Z * Z * blob, as_u64 r.1.1.2) <$>
          head (filter (λ r : Uuid * Z * Z * blob, r.1.1.1 = o.1) chunk)) in
      b ← cl c_blacklist;
      publish (ConflictDetected (mkConflict o.1 local_version server_version (is_toxic b o.1)))
  | _ => mret ()
  end.

Definition push_chunk (chunk : list (Uuid * Z * Z * blob)) : app W () :=
  outcomes ← on_remote "push batch" (engine_push_batch (push_of <$> chunk));
  mapM (report_conflict chunk) outcomes;;
  mret ().

Definition push_local_changes : app W () :=
  require_unlocked;;
  require_transport;;
  flush_pending_deletes;;
  rows ← list_local_items;
  mapM push_chunk (chunks_of (length rows) 100 rows);;
  mret ().

Definition seed : app W () := push_local_changes.

Definition resolve_conflict (uuid : Uuid) (server_version : Z) (force_overwrite : bool) : app W () :=
  require_unlocked;;
  require_transport;;
  if negb force_overwrite then
    payload ← on_remote "conflict fetch" (fetch_payload uuid server_version);
    g ← cl current_key_gen; c ← cl c_cursor;
    persist_synced_page [(mkPulled uuid server_version g false, payload)] [] c
  else
    o ← get_local_item uuid;
    it ← ok_or (Msg "no local item") o;
    outcomes ← on_remote "push conflict resolution"
                 (push_batch [(uuid, server_version, it.1.2, Some it.2)]);
    match head outcomes with
    | Some Applied => mret ()
    | Some (PushConflict _) => throw (Msg "conflict resolution failed: server is at version")
    | Some PushEpochTooOld =>
        throw (Msg "conflict resolution failed: local enc_key_gen is behind the server")
    | None => throw (Msg "conflict resolution failed: no outcome returned")
    end.

(** Never called. *)
Definition delete_local_item (uuid : Uuid) : app W () :=
  on_db "delete item_overviews" (modify (with_overviews (delete uuid)));;
  on_db "delete item_payloads" (modify (with_payloads (delete uuid))).

Definition flush_offline_queue : app W nat :=
  mutations ← cl c_offline;
  if decide (mutations = []) then mret O
  else
    applied ← flush_mutations mutations 0;
    (if decide (0 < applied)%nat then push_local_changes else mret ());;
    mret applied.

(** ** Running a sync *)

Lemma sync_page_run engine progress failed w :
  sync_page engine progress failed w =
    match pull (eng_cursor engine) (remote w) with
    | (n, Ok (next, overviews, more)) =>
        apply_page progress failed (mkEngine (eng_blacklist engine) next, overviews, more)
          (mkWorld (client w) n)
    | (n, Err e) => (mkWorld (client w) n, Err (FromTransport "sync pull" e))
    end.
Proof.
  unfold sync_page. rewrite bind_run. unfold on_remote, pull_and_advance. rewrite bind_run.
  by destruct (pull (eng_cursor engine) (remote w)) as [n [[[next ovs] more]|e]].
Qed.

Lemma sync_run w :
  sync w =
    if c_transport (client w) then
      (sync_pages MAX_PAGES (mkEngine (c_blacklist (client w)) (c_cursor (client w))) 0 false ≫=
         λ r, finish_sync r.1 r.2 (current_key_gen (client w)))
        (mkWorld (with_bus (λ b, b ++ [SyncStarted]) (client w)) (remote w))
    else (w, Err (Msg "sync not connected")).
Proof.
  unfold sync, require_transport. generalize MAX_PAGES. intros pages.
  rewrite !bind_run. unfold cl at 1, gets at 1. destruct (c_transport (client w)); done.
Qed.

(** ** Running a push *)

Definition pending_rows (l : Local) : list (string * Z * Z) :=
  (λ kr, (kr.1, pd_version kr.2, pd_enc_key_gen kr.2)) <$> map_to_list (pending_deletes l).

(** The database with the tombstones cleared. *)
Definition flushed (l : Local) : Local :=
  with_pending_deletes (drop_keys ((λ r : string * Z * Z, r.1.1) <$> pending_rows l)) l.

Lemma flush_pending_run w :
  let pending := pending_rows (c_db (client w)) in
  flush_pending_deletes w =
    if decide (pending = []) then (w, Ok ())
    else match engine_push_batch (omap tombstone_push pending) (remote w) with
         | (n, Ok outcomes) =>
             (mkWorld (if forallb (λ o, is_applied o.2) outcomes then with_db flushed (client w)
                       else client w) n, Ok ())
         | (n, Err _) => (mkWorld (client w) n, Ok ())
         end.
Proof.
  intros pending. unfold flush_pending_deletes. rewrite bind_run.
  unfold list_pending_deletes. rewrite read_db_run. cbv beta iota.
  change ((λ kr, (kr.1, pd_version kr.2, pd_enc_key_gen kr.2)) <$> map_to_list (pending_deletes (c_db (client w))))
    with pending.
  case_decide as Hp; [done|]. rewrite bind_run. unfold attempt, on_remote at 1.
  destruct (engine_push_batch (omap tombstone_push pending) (remote w)) as [n [outcomes|e]]; cbn [map_res]; [|done].
  destruct (forallb _ outcomes); [|done]. unfold ignore, on_db, clear_pending_deletes, flushed. cbn [client].
  rewrite decide_False; [done|]. fold pending. by destruct pending.
Qed.

(** The rest of a push leaves the client's tables alone. *)
Lemma push_chunk_db chunk : steps (same (λ w : World W, c_db (client w))) (push_chunk chunk).
Proof.
  unfold push_chunk. apply steps_bind; [apply _ | | intros outcomes].
  - intros w. unfold on_remote. by destruct (engine_push_batch _ (remote w)).
  - apply steps_bind; [apply _ | | intros _; apply steps_ret, _]. apply steps_mapM; [apply _|].
    intros o. unfold report_conflict. destruct o.2; [apply steps_ret, _ | | apply steps_ret, _].
    apply steps_bind; [apply _ | apply steps_gets, _ | intros b]. by intros w.
Qed.

Lemma push_run w :
  push_local_changes w =
    if is_locked (client w) then (w, Err (Msg "vault locked"))
    else if negb (c_transport (client w)) then (w, Err (Msg "sync not connected"))
    else (flush_pending_deletes ≫= λ _, list_local_items ≫= λ rows,
            mapM push_chunk (chunks_of (length rows) 100 rows) ≫= λ _, mret ()) w.
Proof.
  unfold push_local_changes. rewrite bind_run. unfold require_unlocked. rewrite bind_run.
  unfold cl at 1, gets at 1. rewrite guard_err_run. destruct (is_locked (client w)); [done|].
  rewrite bind_run. unfold require_transport. rewrite bind_run. unfold cl at 1, gets at 1.
  rewrite guard_err_run. by destruct (c_transport (client w)).
Qed.
End Sync.
