(* ===== verification/Http.v ===== *)
(** * The HTTP transport

    Models [core/vautr-app-state/src/sync_transport.rs]: the client's
    [Transport] over requests to the server of System.v.  Behind a transport
    is a server and a script: at each call, the requests other callers make
    first, what the call sees of the server's outside, and whether the network
    loses the request or the response.  [net_served] records, for statements
    only, whom the server took each call for.  Shows that every call leaves the
    server in a later state of its history, and what a pull and a fetch
    answer. *)
From S2P Require Import Prelude Domain Database Concrete Users Items Tokens Sync.
From S2P Require Import Projects Secrets Files Sharing.
From S2P Require Import Mfa Auth Recovery Account Webauthn AuditLog System History.
From S2P Require Import ClientDb ClientSync.

Local Open Scope Z_scope.

Inductive Fault := Delivered | RequestLost | ResponseLost.
#[export] Instance Fault_eq_dec : EqDecision Fault.
Proof. solve_decision. Defined.

Record Turn := mkTurn {
  t_before : list (Env * Request); t_env : Env; t_client_now : Z; t_fault : Fault }.

Record Net := mkNet {
  net_db : Db; net_token : string; net_script : list Turn; net_served : list string }.

(** [http_err]. *)
Definition http_err (status : Z) : TransportError :=
  if decide (status = 410) then CursorExpired
  else if decide (status = 401) then Http 401
  else if decide (status = 422) then TransportOther "key_generation_too_old"
  else if decide (status = 412) then TransportOther "precondition_failed"
  else Http status.

Definition network_error : TransportError := TransportOther "network".

Section Http.
Context {EXT : Ext} {WA : WebauthnRs}.

Definition served_for (ρ : Env) (tok : string) (d : Db) : list string :=
  match (auth_any ρ tok d).2 with Ok c => [user_id c] | Err _ => [] end.

(** One request and its response; with no turn left the network is down. *)
Definition net_call {A B} (m : Turn → string → handler A) (k : A → result TransportError B)
    : M Net TransportError B := λ n,
  match net_script n with
  | [] => (n, Err network_error)
  | t :: ts =>
      let d := history (t_before t) (net_db n) in
      if decide (t_fault t = RequestLost) then
        (mkNet d (net_token n) ts (net_served n), Err network_error)
      else
        let '(d', r) := m t (net_token n) d in
        (mkNet d' (net_token n) ts (net_served n ++ served_for (t_env t) (net_token n) d),
         if decide (t_fault t = ResponseLost) then Err network_error
         else match r with
              | Ok a => k a
              | Err e => Err (http_err (api_status e))
              end)
  end.

(** The overviews of a page; a uuid that does not parse is dropped. *)
Definition pulled (i : PullItem) : option PulledOverview :=
  u ← uuid_parse (pi_uuid i);
  Some (mkPulled u (as_u64 (pi_version i)) (as_u64 (pi_enc_key_gen i))
          (bool_decide (is_Some (pi_deleted_date i)))).

Definition http_pull (cursor : Z) : M Net TransportError (Z * list PulledOverview * bool) :=
  net_call (λ t tok, sync_pull (t_env t) (mkPullQuery cursor (Some 100)) tok)
    (λ body, Ok (pr_new_cursor body, omap pulled (pr_items body), pr_has_more body)).

Definition delivered (results : list PayloadResult) : result TransportError blob :=
  match results with
  | r :: _ =>
      if decide (py_status r = "payload_delivered") then
        match py_payload r with
        | None => Err (TransportOther "payload_delivered without payload")
        | Some b64 =>
            match b64_decode b64 with
            | Some b => Ok b
            | None => Err (TransportOther "base64")
            end
        end
      else Err (TransportOther "payload not available")
  | [] => Err (TransportOther "payload not available")
  end.

Definition http_fetch_payload (uuid : Uuid) (version : Z) : M Net TransportError blob :=
  net_call (λ t tok, sync_pull_payloads (t_env t) tok [mkPullTarget uuid version]) delivered.

(** A push without payload is a tombstone, dated by the client's clock. *)
Definition push_request (now : Z) (p : Push) : PushItem :=
  let '(uuid, target_version, enc_key_gen, payload) := p in
  mkPushItem uuid target_version enc_key_gen (b64_encode <$> payload)
    (match payload with None => Some now | Some _ => None end).

Definition push_outcome (r : PushResult) : PushOutcome :=
  if decide (ps_status r = "success") then Applied
  else if decide (ps_status r = "epoch_too_old") then PushEpochTooOld
  else PushConflict (default 0 (as_u64 ∘ ss_version <$> ps_current_server_state r)).

Definition http_push_batch (items : list Push) : M Net TransportError (list PushOutcome) :=
  net_call (λ t tok, sync_push_batch (t_env t) tok (push_request (t_client_now t) <$> items))
    (λ results, Ok (push_outcome <$> results)).

Definition status_body (a : AccountStatusResp) : result TransportError (Z * blob) :=
  match b64_decode (as_svk_ciphertext_blob a) with
  | Some b => Ok (as_u64 (as_min_enc_key_gen a), b)
  | None => Err (TransportOther "base64")
  end.

Definition http_account_status : M Net TransportError (Z * blob) :=
  net_call (λ t tok, Account.account_status (t_env t) tok) status_body.

Definition http_second_factor_method : M Net TransportError (option string) :=
  net_call (λ t tok, Account.account_status (t_env t) tok) (λ a, Ok (as_second_factor_method a)).

Definition http_rotate_key (new_min_gen : Z) (new_svk_blob : blob) : M Net TransportError Z :=
  net_call (λ t tok, account_rotate_key (t_env t) tok
              (mkRotateKey (as_i64 new_min_gen) (b64_encode new_svk_blob)))
    (λ a, Ok (as_u64 (rk_min_enc_key_gen a))).

Definition http_verify_totp (code : string) : M Net TransportError () :=
  net_call (λ t tok, Mfa.verify_totp (t_env t) tok (mkTotpVerify None code)) (λ _, Ok ()).

#[export] Instance HttpTransport : Transport Net := {|
  pull := http_pull;
  fetch_payload := http_fetch_payload;
  push_batch := http_push_batch;
  account_status := http_account_status;
  second_factor_method := http_second_factor_method;
  rotate_key := http_rotate_key;
  verify_totp := http_verify_totp |}.
End Http.

(** ** What a call leaves and answers *)
Section Calls.
Context {EXT : Ext} {WA : WebauthnRs}.

(** The server is later, the token the same, the record of callers longer. *)
Definition net_le (n n' : Net) : Prop :=
  sync_le (net_db n) (net_db n') ∧ net_token n' = net_token n ∧
  net_served n `prefix_of` net_served n'.

#[export] Instance net_le_preorder : PreOrder net_le.
Proof.
  split; [intros n; split_and!; reflexivity|].
  intros n1 n2 n3 (A1 & A2 & A3) (B1 & B2 & B3).
  split_and!; [by etransitivity | congruence | by etransitivity].
Qed.

Lemma net_call_le {A B} (m : Turn → string → handler A) (k : A → result TransportError B) :
  (∀ t tok d, sync_le d (m t tok d).1) → steps net_le (net_call m k).
Proof.
  intros Hm n. unfold net_call. destruct (net_script n) as [|t ts]; [reflexivity|].
  pose proof (history_sync_le (t_before t) (net_db n)) as Hh.
  pose proof (Hm t (net_token n) (history (t_before t) (net_db n))) as Hs.
  case_decide; [|destruct (m t _ _) as [d' r]]; split_and!; simpl in *;
    eauto using prefix_app_r. by etransitivity.
Qed.

Lemma net_call_ok {A B} (m : Turn → string → handler A) (k : A → result TransportError B) n n' b :
  net_call m k n = (n', Ok b) →
  ∃ t d a, sync_le (net_db n) d ∧ m t (net_token n) d = (net_db n', Ok a) ∧ k a = Ok b ∧
    net_served n' = net_served n ++ served_for (t_env t) (net_token n) d.
Proof.
  unfold net_call. destruct (net_script n) as [|t ts]; [done|].
  case_decide; [done|]. destruct (m t (net_token n) (history (t_before t) (net_db n))) as [d' r] eqn:Hm.
  case_decide; [done|]. destruct r as [a|e]; [|done]. intros [= <- Hk].
  exists t, (history (t_before t) (net_db n)), a. split_and!; try done. apply history_sync_le.
Qed.

Lemma handler_sync_le {A} ρ q (m : handler A) d : (m d).1 = step ρ q d → sync_le d (m d).1.
Proof. intros ->. apply step_sync_le. Qed.

Lemma unit_run {A} (m : handler A) d : (m d).1 = ((m;; mret ()) d).1.
Proof. rewrite bind_run. by destruct (m d) as [d' [a|e]]. Qed.

Lemma pull_le c : steps net_le (http_pull c).
Proof.
  apply net_call_le. intros t tok d.
  by apply (handler_sync_le (t_env t) (QSync (RPull (mkPullQuery c (Some 100)) tok))).
Qed.
Lemma fetch_le u v : steps net_le (http_fetch_payload u v).
Proof.
  apply net_call_le. intros t tok d.
  by apply (handler_sync_le (t_env t) (QSync (RPayloads tok [mkPullTarget u v]))).
Qed.
Lemma push_le l : steps net_le (http_push_batch l).
Proof.
  apply net_call_le. intros t tok d.
  by apply (handler_sync_le (t_env t) (QSync (RPush tok (push_request (t_client_now t) <$> l)))).
Qed.
Lemma status_le : steps net_le http_account_status.
Proof.
  apply net_call_le. intros t tok d. apply (handler_sync_le (t_env t) (QAccount (AccountStatus tok))).
  apply unit_run.
Qed.
Lemma factor_le : steps net_le http_second_factor_method.
Proof.
  apply net_call_le. intros t tok d. apply (handler_sync_le (t_env t) (QAccount (AccountStatus tok))).
  apply unit_run.
Qed.
Lemma rotate_le g b : steps net_le (http_rotate_key g b).
Proof.
  apply net_call_le. intros t tok d.
  apply (handler_sync_le (t_env t) (QAccount (RotateKey tok (mkRotateKey (as_i64 g) (b64_encode b))))).
  apply unit_run.
Qed.
Lemma totp_le c : steps net_le (http_verify_totp c).
Proof.
  apply net_call_le. intros t tok d.
  apply (handler_sync_le (t_env t) (QAuth (VerifyTotp tok (mkTotpVerify None c)))). apply unit_run.
Qed.

Lemma sync_pull_ok ρ q tok d d' resp :
  sync_pull ρ q tok d = (d', Ok resp) → (1 ≤ default 100 (pq_limit q))%Z →
  ∃ c, (auth_any ρ tok d).2 = Ok c ∧ resp = page (user_id c) (default 100%Z (pq_limit q)) (pq_cursor q) d' ∧
    cursor_gone (user_id c) (as_i64 (pq_cursor q)) d' = false.
Proof.
  unfold sync_pull. intros Hp Hlim. apply bind_ok in Hp as (d1 & c & Ha & Hp).
  exists c. rewrite Ha. split; [done|]. unfold min_enc_key_gen in Hp.
  destruct (is_machine_token c); ok_inv Hp.
  all: unfold page; rewrite take_take, Nat.min_l by lia; rewrite length_take;
    split; [f_equal; apply bool_decide_ext; lia | done].
Qed.

Lemma auth_any_user ρ tok u d :
  starts_with "vtr-ak-" tok = false → session_valid d (now_ms ρ) tok u →
  auth_any ρ tok d = (d, Ok (mkAuth u None)).
Proof. intros. by apply auth_any_session. Qed.

Lemma sync_pull_payloads_ok ρ tok uuid v d d' rs b :
  starts_with "vtr-ak-" tok = false →
  sync_pull_payloads ρ tok [mkPullTarget uuid v] d = (d', Ok rs) → delivered rs = Ok b →
  d' = d ∧ ∃ u r p, (auth_any ρ tok d).2 = Ok (mkAuth u None) ∧ items d !! (uuid, u) = Some r ∧
    as_u64 (i_version r) = v ∧ i_payload r = Some p ∧ b64_decode (b64_encode p) = Some b.
Proof.
  unfold sync_pull_payloads. intros Hpre Hp Hd. apply bind_ok in Hp as (d1 & u & Ha & Hp).
  apply auth_user_ok in Ha as [-> Hv]. rewrite (auth_any_user _ _ u) by done.
  unfold pull_payload, get_item in Hp. ok_inv Hp.
  injection Hr0 as <- <-. split; [done|]. simpl in Hd.
  destruct (items d !! (uuid, u)) as [r|] eqn:Hi; [|done]. case_bool_decide as Hver; [|done].
  simpl in Hd. exists u, r. destruct (i_payload r) as [p|]; [|done]. exists p. simpl in Hd.
  destruct (b64_decode (b64_encode p)); [|done]. by injection Hd as ->.
Qed.

(** ** A device on its own *)

(** No requests but the device's own; messages may still be lost. *)
Definition only_us (n : Net) : Prop := Forall (λ t, t_before t = []) (net_script n).

(** What a device that is alone leaves as it was on the server. *)
Definition alone {A} (f : Db → A) (n n' : Net) : Prop :=
  only_us n → only_us n' ∧ net_token n' = net_token n ∧ f (net_db n') = f (net_db n).

#[export] Instance alone_preorder {A} (f : Db → A) : PreOrder (alone f).
Proof.
  split; [intros n H; done|]. intros n1 n2 n3 A1 B1 H1. destruct (A1 H1) as (H2 & T1 & E1).
  destruct (B1 H2) as (H3 & T2 & E2). split_and!; [done | congruence..].
Qed.

Lemma net_call_alone {A B C} (f : Db → C) (m : Turn → string → handler A) (k : A → result TransportError B) n :
  (∀ t, f (m t (net_token n) (net_db n)).1 = f (net_db n)) → alone f n (net_call m k n).1.
Proof.
  intros Hm Hus. unfold net_call, only_us in *. destruct (net_script n) as [|t ts] eqn:Hsc; [by rewrite <-Hsc in Hus|].
  apply Forall_cons in Hus as [Ht Hts]. rewrite Ht. cbn [history foldl]. specialize (Hm t).
  case_decide; [done|]. destruct (m t _ _) as [d' r]. done.
Qed.
End Calls.
