(* ===== verification/Mirror.v ===== *)
(** * A synchronised client mirrors the server

    Puts the client's sync loop (Replica.v) on the HTTP transport (Http.v) to
    the server (System.v).  Other clients' requests run between any two calls,
    and the network may lose requests and responses.  Shows that the local
    tables agree with the server on everything up to the client's cursor. *)
From S2P Require Import Prelude Domain Database Concrete Users Items Tokens Sync.
From S2P Require Import Mfa Auth Webauthn System History.
From S2P Require Import ClientDb ClientSync Crypto Client Replica Http.

Local Open Scope Z_scope.

Section Mirror.
Context {EXT : Ext} {WA : WebauthnRs} {LAWS : ExtLaws}.
Context (u : string).
Implicit Types (b : LocalBlacklist) (n : Net).

(** ** What is assumed of the server's rows

    The client's session is the account's, the uuids of the account's items
    are canonical, versions and positions fit [i64]. *)
Record proper (n : Net) : Prop := {
  pr_token : starts_with "vtr-ak-" (net_token n) = false;
  pr_served x : x ∈ net_served n → x = u;
  pr_rows k r : items (net_db n) !! k = Some r → k.2 = u →
    uuid_parse k.1 = Some k.1 ∧ (i_version r ≤ i64_max) ∧ ∀ s, i_seq r = Some s → s ≤ i64_max }.

Lemma proper_before n n' : net_le n n' → items_wf (net_db n) → proper n' → proper n.
Proof.
  intros (Hle & Ht & Hs) Hwf [P1 P2 P3]. destruct (Hle Hwf) as (Hwf' & Hocc & Hfeed). split.
  - by rewrite <-Ht.
  - intros x Hx. apply P2. destruct Hs as [k ->]. apply elem_of_app. by left.
  - intros k r Hr Hk. destruct (Hocc _ _ Hr) as (r' & Hr' & Hv & _).
    destruct (P3 _ _ Hr' Hk) as (H1 & H2 & _). split_and!; [done | lia |]. intros s Hseq.
    pose proof (max_seq_ge u _ _ _ _ Hr Hk Hseq) as Hm. destruct (Hfeed u) as [Hmax _].
    pose proof (wf_seq_pos _ Hwf _ _ _ Hr Hseq) as Hpos.
    pose proof (max_seq_spec u (net_db n')) as Hspec.
    destruct (max_seq u (net_db n')) as [m|]; simpl in *; [|lia].
    destruct Hspec as [(k2 & r2 & Hk2 & Hu2 & Hs2) _].
    destruct (P3 _ _ Hk2 Hu2) as (_ & _ & Hfit). specialize (Hfit _ Hs2). lia.
Qed.

(** ** Agreement *)

(** The local tables hold the row, or nothing when it is a tombstone. *)
Definition holds_row (l : Local) (uuid : string) (r : ItemRow) : Prop :=
  match i_deleted_date r with
  | Some _ => overviews l !! uuid = None ∧ payloads l !! uuid = None
  | None =>
      (∃ o, overviews l !! uuid = Some o ∧ ov_version o = i_version r ∧
            ov_enc_key_gen o = as_i64 (i_enc_key_gen r) ∧ ov_deleted_date o = None) ∧
      payloads l !! uuid = i_payload r ∧ is_Some (i_payload r)
  end.

(** Every item the client does not ignore, up to a position of the feed. *)
Definition mirror (b : LocalBlacklist) (c : Z) (d : Db) (l : Local) : Prop :=
  c ≤ default 0 (max_seq u d) ∧
  ∀ k r s, items d !! k = Some r → k.2 = u → i_seq r = Some s → s ≤ c → b !! k.1 = None →
    holds_row l k.1 r.

Lemma mirror_later b c d d' l : feed_le u d d' → mirror b c d l → mirror b c d' l.
Proof.
  intros [Hm Hf] [Hc Hrows]. split; [lia|]. intros k r s Hr Hk Hs Hle Hb.
  destruct (Hf _ _ Hr Hk) as [Hr0|(s' & Hs' & Hgt)]; [by eapply Hrows|]. simplify_eq. lia.
Qed.

(** Nothing is asked of a client that has seen nothing. *)
Lemma mirror_start b d l : items_wf d → mirror b 0 d l.
Proof.
  intros Hwf. split; [by apply max_seq_nonneg|]. intros k r s Hr _ Hs Hle.
  pose proof (wf_seq_pos _ Hwf _ _ _ Hr Hs). lia.
Qed.

(** ** A page of rows *)

(** The overview the client makes of a row. *)
Definition overview_of (r : ItemRow) : PulledOverview :=
  mkPulled (i_uuid r) (as_u64 (i_version r)) (as_u64 (i_enc_key_gen r))
    (bool_decide (is_Some (i_deleted_date r))).

(** What the loop over a page's overviews adds to what it had. *)
Definition page_ok (b : LocalBlacklist) (rs : list ItemRow) (a a' : PageAcc) : Prop :=
  ∃ us ds, pg_upserts a' = pg_upserts a ++ us ∧ pg_deletes a' = pg_deletes a ++ ds ∧
    (∀ op, op ∈ us → ∃ r p, r ∈ rs ∧ i_deleted_date r = None ∧ i_payload r = Some p ∧
       op = (overview_of r, p)) ∧
    (∀ x, x ∈ ds → ∃ r, r ∈ rs ∧ i_uuid r = x ∧ is_Some (i_deleted_date r)) ∧
    (pg_failure a' = false → pg_failure a = false ∧
       ∀ r, r ∈ rs → b !! i_uuid r = None →
         match i_deleted_date r with
         | Some _ => i_uuid r ∈ ds
         | None => ∃ p, i_payload r = Some p ∧ (overview_of r, p) ∈ us
         end).

Lemma page_ok_nil b a : page_ok b [] a a.
Proof. exists [], []. rewrite !app_nil_r. split_and!; set_solver. Qed.

Lemma page_ok_cons b r rs a a1 a2 :
  page_ok b [r] a a1 → page_ok b rs a1 a2 → page_ok b (r :: rs) a a2.
Proof.
  intros (us & ds & U1 & D1 & A1 & B1 & C1) (us' & ds' & U2 & D2 & A2 & B2 & C2).
  exists (us ++ us'), (ds ++ ds'). rewrite U2, U1, D2, D1, !app_assoc. split_and!; try done.
  - intros op [(r' & p & ->%list_elem_of_singleton & ?)%A1|(r' & p & ? & ?)%A2]%elem_of_app;
      eexists _, _; (split; [|done]); set_solver.
  - intros x [(r' & ->%list_elem_of_singleton & ?)%B1|(r' & ? & ?)%B2]%elem_of_app;
      eexists; (split; [|done]); set_solver.
  - intros Hfl. destruct (C2 Hfl) as (Hf1 & H2). pose proof (C1 Hf1) as [Hf H1]. split; [done|].
    intros r' [->|Hr']%elem_of_cons Hb.
    + specialize (H1 r ltac:(set_solver) Hb). destruct (i_deleted_date r); [set_solver|].
      destruct H1 as (p & ? & ?). exists p. set_solver.
    + specialize (H2 r' Hr' Hb). destruct (i_deleted_date r'); [set_solver|].
      destruct H2 as (p & ? & ?). exists p. set_solver.
Qed.

(** ** The client during a page: only its bus changes *)
Definition quiet (w w' : World Net) : Prop :=
  net_le (remote w) (remote w') ∧ ∃ f, client w' = with_bus f (client w).

#[local] Instance quiet_preorder : PreOrder quiet.
Proof.
  split; [intros w; split; [reflexivity | exists id; by destruct (client w)]|].
  intros w1 w2 w3 [A1 [f Hf]] [B1 [g Hg]]. split; [by etransitivity|].
  exists (g ∘ f). rewrite Hg, Hf. done.
Qed.

Lemma quiet_publish ev : steps quiet (publish ev).
Proof. intros w. split; [reflexivity | by eexists]. Qed.

Lemma quiet_remote {A} ctx (m : M Net TransportError A) : steps net_le m → steps quiet (on_remote ctx m).
Proof.
  intros Hm w. specialize (Hm (remote w)). unfold on_remote. destruct (m (remote w)) as [s r].
  split; [done | exists id; by destruct (client w)].
Qed.

Lemma fetch_allowed_le e x v : steps net_le (fetch_payload_if_allowed e x v).
Proof.
  unfold fetch_payload_if_allowed. destruct (is_ignored _ _); [apply steps_ret, _|].
  apply steps_bind; [apply _ | apply fetch_le | intros p; apply steps_ret, _].
Qed.

#[local] Hint Resolve quiet_publish quiet_remote fetch_allowed_le : steps.

Lemma quiet_fetch e a ov : steps quiet (sync_fetch e a ov).
Proof. unfold sync_fetch. steps_tac. Qed.
Lemma quiet_progress total a : steps quiet (sync_progress (W:=Net) total a).
Proof. unfold sync_progress. steps_tac. Qed.
#[local] Hint Resolve quiet_fetch quiet_progress : steps.
Lemma quiet_item e total a ov : steps quiet (sync_item e total a ov).
Proof. unfold sync_item. steps_tac. Qed.
#[local] Hint Resolve quiet_item : steps.
Lemma quiet_items e total a ovs : steps quiet (sync_items e total a ovs).
Proof. revert a. induction ovs as [|ov ovs IH]; intros a; simpl; steps_tac. Qed.

(** What a fetch that succeeds answers. *)
Lemma fetch_ok n n' x v p :
  http_fetch_payload x v n = (n', Ok p) → items_wf (net_db n) → proper n' →
  ∃ r, items (net_db n') !! (x, u) = Some r ∧ as_u64 (i_version r) = v ∧ i_payload r = Some p.
Proof.
  intros Hf Hwf Hp. pose proof (fetch_le x v n) as Hle. rewrite Hf in Hle. cbn [fst] in Hle.
  pose proof (pr_token _ (proper_before _ _ Hle Hwf Hp)) as Htok.
  apply net_call_ok in Hf as (t & d & rs & _ & Hm & Hd & Hserved).
  destruct (sync_pull_payloads_ok _ _ _ _ _ _ _ _ Htok Hm Hd) as [Hd' (v' & r & q & Ha & Hi & Hver & Hq & Hb)].
  assert (v' = u) as ->.
  { apply (pr_served _ Hp). rewrite Hserved. apply elem_of_app. right. unfold served_for. rewrite Ha. by left. }
  exists r. rewrite Hd'. split_and!; [done..|]. rewrite b64_roundtrip in Hb. congruence.
Qed.

Lemma progress_ok total a w : ∃ w' i p, sync_progress (W:=Net) total a w =
  (w', Ok (mkPage i p (pg_upserts a) (pg_deletes a) (pg_failure a))).
Proof.
  unfold sync_progress. case_bool_decide; [|by eexists _, _, _].
  rewrite bind_run. unfold publish, upd, modify. by eexists _, _, _.
Qed.

(** A row that has not changed since it was pulled comes whole. *)
Lemma fetch_row_ok e a r d0 w w' a' :
  sync_fetch e a (overview_of r) w = (w', Ok a') →
  eng_blacklist e !! i_uuid r = None →
  items_wf d0 → sync_le d0 (net_db (remote w)) → proper (remote w') →
  items d0 !! (i_uuid r, u) = Some r → page_ok (eng_blacklist e) [r] a a'.
Proof.
  unfold sync_fetch, overview_of at 1. cbn [po_deleted po_uuid po_version].
  intros Hf Hb Hwf Hle Hp Hr. destruct (i_deleted_date r) as [t|] eqn:Hdel; simpl in Hf.
  { injection Hf as <- <-. exists [], [i_uuid r]. rewrite app_nil_r. split_and!; try done.
    - intros op []%not_elem_of_nil.
    - intros x ->%list_elem_of_singleton. exists r. rewrite Hdel. split_and!; [set_solver | done | by eexists].
    - simpl. intros Hfl. split; [done|]. intros r' ->%list_elem_of_singleton _. rewrite Hdel. set_solver. }
  rewrite bind_run in Hf. unfold attempt, on_remote, fetch_payload_if_allowed in Hf.
  unfold is_ignored in Hf. rewrite bool_decide_false in Hf by (rewrite Hb; by intros []).
  rewrite bind_run in Hf. simpl in Hf.
  destruct (http_fetch_payload (i_uuid r) (as_u64 (i_version r)) (remote w)) as [n1 [p|err]] eqn:Hfetch;
    simpl in Hf; injection Hf as <- <-.
  - destruct (Hle Hwf) as (Hwf1 & Hocc & _).
    destruct (fetch_ok _ _ _ _ _ Hfetch Hwf1 Hp) as (r1 & Hr1 & Hv & Hpay). simpl in Hp.
    pose proof (fetch_le (i_uuid r) (as_u64 (i_version r)) (remote w)) as Hle1. rewrite Hfetch in Hle1.
    destruct Hle1 as (Hle1 & _). simpl in Hle1. destruct (Hle1 Hwf1) as (Hwf2 & Hocc2 & _).
    pose proof (transitivity Hocc Hocc2) as Hocc3. destruct (Hocc3 _ _ Hr) as (r1' & Hr1' & Hvle & Hsame).
    rewrite Hr1 in Hr1'. injection Hr1' as <-.
    pose proof (wf_version _ Hwf _ _ Hr). pose proof (wf_version _ Hwf2 _ _ Hr1).
    destruct (pr_rows _ Hp _ _ Hr1 eq_refl) as (_ & Hv1 & _). unfold i64_max in Hv1.
    rewrite !as_u64_small in Hv by (unfold is_u64, u64_max; lia). rewrite (Hsame Hv) in Hpay.
    exists [(overview_of r, p)], []. rewrite app_nil_r. split_and!; [done | done | ..].
    + intros op ->%list_elem_of_singleton. exists r, p. set_solver.
    + intros x []%not_elem_of_nil.
    + simpl. intros Hfl. split; [done|]. intros r' ->%list_elem_of_singleton _. rewrite Hdel.
      exists p. set_solver.
  - exists [], []. rewrite !app_nil_r. split_and!; [done | done | set_solver | set_solver | done].
Qed.

Lemma item_ok e total a r d0 w w' a' :
  sync_item e total a (overview_of r) w = (w', Ok a') →
  items_wf d0 → sync_le d0 (net_db (remote w)) → proper (remote w') →
  items d0 !! (i_uuid r, u) = Some r → page_ok (eng_blacklist e) [r] a a'.
Proof.
  unfold sync_item. cbn [po_uuid overview_of]. intros Hs Hwf Hle Hp Hr.
  unfold is_ignored in Hs. case_bool_decide as Hig.
  - injection Hs as _ <-. exists [], []. rewrite !app_nil_r. split_and!; [done | done | set_solver | set_solver |].
    simpl. intros Hf. split; [done|]. intros r' ->%list_elem_of_singleton Hb. rewrite Hb in Hig.
    by destruct Hig.
  - rewrite bind_run in Hs. destruct (sync_fetch e a (overview_of r) w) as [w1 [a1|err]] eqn:Hf; [|done].
    destruct (progress_ok total a1 w1) as (w2 & i & p & Hpr). rewrite Hpr in Hs. injection Hs as <- <-.
    pose proof (quiet_progress total a1 w1) as [Hq _]. rewrite Hpr in Hq. cbn [fst] in Hq.
    assert (proper (remote w1)) as Hp1.
    { eapply proper_before; [exact Hq | | exact Hp].
      pose proof (quiet_fetch e a (overview_of r) w) as [(Hq1 & _) _]. rewrite Hf in Hq1.
      destruct (Hle Hwf) as (Hwf0 & _). by apply Hq1. }
    apply eq_None_not_Some in Hig.
    destruct (fetch_row_ok _ _ _ _ _ _ _ Hf Hig Hwf Hle Hp1 Hr) as (us & ds & ? & ? & ? & ? & ?).
    exists us, ds. split_and!; done.
Qed.

Lemma items_ok e total a rs d0 w w' a' :
  sync_items e total a (overview_of <$> rs) w = (w', Ok a') →
  items_wf d0 → sync_le d0 (net_db (remote w)) → proper (remote w') →
  (∀ r, r ∈ rs → items d0 !! (i_uuid r, u) = Some r) → page_ok (eng_blacklist e) rs a a'.
Proof.
  intros Hs Hwf. revert a w Hs. induction rs as [|r rs IH]; intros a w Hs Hle Hp Hrs.
  { simpl in Hs. injection Hs as _ <-. apply page_ok_nil. }
  rewrite fmap_cons in Hs. cbn [sync_items] in Hs. rewrite bind_run in Hs.
  destruct (sync_item e total a (overview_of r) w) as [w1 [a1|err]] eqn:Hi; [|done].
  pose proof (quiet_item e total a (overview_of r) w) as [Hq1 _]. rewrite Hi in Hq1. cbn [fst] in Hq1.
  pose proof (quiet_items e total a1 (overview_of <$> rs) w1) as [Hq2 _]. rewrite Hs in Hq2. cbn [fst] in Hq2.
  assert (sync_le d0 (net_db (remote w1))) as Hle1 by (etransitivity; [exact Hle | apply Hq1]).
  destruct (Hle1 Hwf) as [Hwf1 _].
  apply (page_ok_cons _ _ _ _ a1).
  - eapply item_ok; [exact Hi | exact Hwf | exact Hle | by eapply proper_before | apply Hrs; left].
  - eapply IH; [exact Hs | exact Hle1 | exact Hp | intros r' Hr'; apply Hrs; by right].
Qed.

(** The loop itself never fails. *)
Lemma items_total e total a ovs w : ∃ w' a', sync_items e total a ovs w = (w', Ok a').
Proof.
  revert a w. induction ovs as [|ov ovs IH]; intros a w; simpl; [by eexists _, _|].
  assert (∃ w1 a1, sync_item e total a ov w = (w1, Ok a1)) as (w1 & a1 & Hi).
  { unfold sync_item. destruct (is_ignored _ _); [by eexists _, _|]. rewrite bind_run.
    assert (∃ w1 a1, sync_fetch e a ov w = (w1, Ok a1)) as (w1 & a1 & Hf).
    { unfold sync_fetch. destruct (po_deleted ov); [by eexists _, _|]. rewrite bind_run.
      unfold attempt. destruct (on_remote _ _ w). by eexists _, _. }
    rewrite Hf. destruct (progress_ok total a1 w1) as (w2 & i & p & Hpr). by eexists _, _. }
  rewrite bind_run, Hi. apply IH.
Qed.
(** ** What persisting a page does to the tables *)

Definition page_rows (us : list (PulledOverview * blob)) : list (string * OverviewRow) :=
  (λ v, page_overview (po_uuid v.1) (po_version v.1) (po_enc_key_gen v.1) (po_deleted v.1)) <$> us.
Definition page_payloads (us : list (PulledOverview * blob)) : list (string * blob) :=
  (λ v, (po_uuid v.1, v.2)) <$> us.

(** Rows of one account, by uuid. *)
Definition rows_of (d : Db) (rs : list ItemRow) : Prop :=
  ∀ r, r ∈ rs → items d !! (i_uuid r, u) = Some r.

Lemma page_row_of rs d us x o :
  rows_of d rs →
  (∀ op, op ∈ us → ∃ r p, r ∈ rs ∧ i_deleted_date r = None ∧ i_payload r = Some p ∧
     op = (overview_of r, p)) →
  (x, o) ∈ page_rows us →
  ∃ r, r ∈ rs ∧ i_uuid r = x ∧ i_deleted_date r = None ∧
    (x, o) = page_overview x (as_u64 (i_version r)) (as_u64 (i_enc_key_gen r)) false.
Proof.
  intros Hd Hus (v & Hv & Hin)%list_elem_of_fmap. destruct (Hus _ Hin) as (r & p & Hr & Hdel & _ & ->).
  unfold overview_of in Hv. simpl in Hv. rewrite Hdel in Hv. injection Hv as -> ->.
  exists r. done.
Qed.

Lemma batch_other us ds c g l x :
  x ∉ ds → x ∉ (λ v : PulledOverview * blob, po_uuid v.1) <$> us →
  let l' := after_batch (page_rows us) (page_payloads us) ds c g l in
  overviews l' !! x = overviews l !! x ∧ payloads l' !! x = payloads l !! x.
Proof.
  intros Hds Hus. simpl.
  assert ((page_rows us).*1 = (λ v : PulledOverview * blob, po_uuid v.1) <$> us) as Hk1
    by (unfold page_rows; by rewrite <-list_fmap_compose).
  assert ((page_payloads us).*1 = (λ v : PulledOverview * blob, po_uuid v.1) <$> us) as Hk2
    by (unfold page_payloads; by rewrite <-list_fmap_compose).
  rewrite sync_overviews_out by (by rewrite Hk1). rewrite sync_payloads_out by (by rewrite Hk2).
  by rewrite !drop_keys_lookup, !decide_False.
Qed.

(** Each row the page brought whole is held. *)
Lemma batch_holds b rs d i pr f a c g l r :
  rows_of d rs → page_ok b rs (mkPage i pr [] [] f) a → r ∈ rs → b !! i_uuid r = None →
  pg_failure a = false → 1 ≤ i_version r ≤ i64_max →
  holds_row (after_batch (page_rows (pg_upserts a)) (page_payloads (pg_upserts a)) (pg_deletes a) c g l)
    (i_uuid r) r.
Proof.
  intros Hd (us & ds & -> & -> & Hus & Hds & Hall) Hr Hb Hf Hv. simpl. destruct (Hall Hf) as [_ Hrow].
  specialize (Hrow r Hr Hb). unfold holds_row. simpl.
  assert (∀ r', r' ∈ rs → i_uuid r' = i_uuid r → r' = r) as Huniq.
  { intros r' Hr' Hu'. pose proof (Hd _ Hr'). pose proof (Hd _ Hr). congruence. }
  destruct (i_deleted_date r) as [t|] eqn:Hdel.
  - assert (i_uuid r ∉ (λ v : PulledOverview * blob, po_uuid v.1) <$> us) as Hnin.
    { intros (v & Hv1 & Hin)%list_elem_of_fmap. destruct (Hus _ Hin) as (r' & p & Hr' & Hdel' & _ & ->).
      simpl in Hv1. assert (r' = r) as -> by auto. congruence. }
    assert ((page_rows us).*1 = (λ v : PulledOverview * blob, po_uuid v.1) <$> us) as Hk1
      by (unfold page_rows; by rewrite <-list_fmap_compose).
    assert ((page_payloads us).*1 = (λ v : PulledOverview * blob, po_uuid v.1) <$> us) as Hk2
      by (unfold page_payloads; by rewrite <-list_fmap_compose).
    rewrite sync_overviews_out by (by rewrite Hk1). rewrite sync_payloads_out by (by rewrite Hk2).
    by rewrite !drop_keys_lookup, !decide_True.
  - destruct Hrow as (pl & Hp & Hin).
    destruct (sync_overviews_in (page_rows us) (drop_keys ds (overviews l)) (i_uuid r)
      (page_overview (i_uuid r) (as_u64 (i_version r)) (as_u64 (i_enc_key_gen r)) false).2) as (o & Ho & Hs).
    + apply list_elem_of_fmap. exists (overview_of r, pl). split; [|done]. unfold overview_of. simpl.
      by rewrite Hdel.
    + intros o' (r' & Hr' & Hu' & _ & [= ->])%(page_row_of rs d); [|done..]. by rewrite (Huniq r').
    + split; [|split; [|rewrite Hp; by eexists]].
      * exists o. unfold shape in Hs. injection Hs as Hs1 Hs2 Hs3. simpl in *.
        rewrite as_i64_as_u64 in Hs1, Hs2. rewrite as_i64_small in Hs1 by (unfold is_i64, i64_min; lia).
        done.
      * rewrite Hp. apply sync_payloads_in.
        -- apply list_elem_of_fmap. by exists (overview_of r, pl).
        -- intros q (v & Hv1 & Hin')%list_elem_of_fmap. destruct (Hus _ Hin') as (r' & p' & Hr' & _ & Hp' & ->).
           simpl in Hv1. injection Hv1 as Hu' ->. rewrite (Huniq r') in Hp' by done. congruence.
Qed.
(** ** One page *)

(** The rows a page shows, and where it ends. *)
Definition page_of (c : Z) (d : Db) : list ItemRow := take 100 (feed u c d).
Definition page_end (c : Z) (d : Db) : Z := last_seq c (page_of c d).

Lemma page_rows_of c d : items_wf d → rows_of d (page_of c d).
Proof.
  intros Hwf r Hr. apply elem_of_take in Hr as (i & Hi & _). apply list_elem_of_lookup_2 in Hi.
  apply elem_of_feed in Hi as (k & s & Hk & Hu & _). pose proof (wf_key _ Hwf _ _ Hk) as Hkey.
  assert (k = (i_uuid r, u)) as <-; [|done]. destruct k. simpl in *. congruence.
Qed.

Lemma page_row_seq c d r : r ∈ page_of c d → ∃ s, i_seq r = Some s ∧ c < s.
Proof.
  intros (i & Hi & _)%elem_of_take. apply list_elem_of_lookup_2 in Hi.
  apply elem_of_feed in Hi as (k & s & _ & _ & Hs & Hlt). eauto.
Qed.

(** A row not past the end of the page is on the page. *)
Lemma page_covers c d k r s :
  items_wf d → items d !! k = Some r → k.2 = u → i_seq r = Some s → c < s → s ≤ page_end c d →
  r ∈ page_of c d.
Proof.
  intros Hwf Hr Hk Hs Hlt Hle. assert (r ∈ feed u c d) as Hin by (apply elem_of_feed; eauto 10).
  pose proof (feed_sorted u d c) as Hsort. unfold page_end, page_of, last_seq in *.
  assert (∀ x, x ∈ take 100 (feed u c d) → x ∈ feed u c d) as Htake.
  { intros x Hx. rewrite <-(take_drop 100 (feed u c d)). apply elem_of_app. by left. }
  destruct (list.last (take 100 (feed u c d))) as [x|] eqn:Hlast; simpl in Hle; [|lia].
  assert (x ∈ take 100 (feed u c d)) as Hx.
  { apply last_Some in Hlast as [l ->]. set_solver. }
  rewrite <-(take_drop 100 (feed u c d)) in Hin, Hsort.
  apply elem_of_app in Hin as [?|Hdrop]; [done|].
  apply StronglySorted_app in Hsort as (Hkeys & _). specialize (Hkeys _ _ Hx Hdrop).
  pose proof (Htake _ Hx) as (kx & sx & _ & _ & Hsx & _)%elem_of_feed. rewrite Hsx in Hle.
  assert (seq_key x = seq_key r) as Hkey.
  { unfold by_key, seq_key in *. rewrite Hsx, Hs in *. simpl in *. lia. }
  assert (x = r) as <-; [|done]. apply (feed_key_inj u d Hwf c c); [by apply Htake | | done].
  apply elem_of_feed. eauto 10.
Qed.

Lemma page_end_spec c d :
  items_wf d → page_of c d = [] ∧ page_end c d = c ∨
  ∃ k r, items d !! k = Some r ∧ k.2 = u ∧ i_seq r = Some (page_end c d) ∧ c < page_end c d.
Proof.
  intros Hwf. unfold page_end, last_seq. destruct (list.last (page_of c d)) as [x|] eqn:Hlast.
  - right. assert (x ∈ page_of c d) as Hx by (apply last_Some in Hlast as [l ->]; set_solver).
    pose proof (page_rows_of c d Hwf _ Hx) as Hi. destruct (page_row_seq _ _ _ Hx) as (s & Hs & Hlt).
    exists (i_uuid x, u), x. simpl. rewrite Hs. by split_and!.
  - left. apply last_None in Hlast. by rewrite Hlast.
Qed.

Lemma page_end_range c n :
  items_wf (net_db n) → proper n → 0 ≤ c ≤ i64_max → c ≤ page_end c (net_db n) ≤ i64_max.
Proof.
  intros Hwf Hp Hc. destruct (page_end_spec c (net_db n) Hwf) as [[_ ->]|(k & r & Hr & Hk & Hs & Hlt)]; [lia|].
  destruct (pr_rows _ Hp _ _ Hr Hk) as (_ & _ & Hfit). specialize (Hfit _ Hs). lia.
Qed.

(** What a pull that succeeds answers. *)
Lemma pull_ok c n n' next ovs more :
  http_pull c n = (n', Ok (next, ovs, more)) → items_wf (net_db n) → proper n' → 0 ≤ c ≤ i64_max →
  next = page_end c (net_db n') ∧ ovs = overview_of <$> page_of c (net_db n') ∧
  more = bool_decide (100 < Z.of_nat (length (feed u c (net_db n')))).
Proof.
  intros Hf Hwf Hp Hc. pose proof (pull_le c n) as (Hle & Htok & _). rewrite Hf in Hle, Htok. cbn [fst] in Hle, Htok.
  destruct (Hle Hwf) as [Hwf' _].
  apply net_call_ok in Hf as (t & d & resp & _ & Hm & Hd & Hserved).
  apply sync_pull_ok in Hm as (cl & Ha & -> & _); [|simpl; lia].
  assert (user_id cl = u) as Hcl.
  { apply (pr_served _ Hp). rewrite Hserved. apply elem_of_app. right. unfold served_for. rewrite Ha. by left. }
  rewrite Hcl in Hd. unfold page in Hd. cbn [pq_limit pq_cursor default pr_new_cursor pr_items pr_has_more] in Hd.
  rewrite as_i64_small in Hd by (unfold is_i64, i64_min; lia). injection Hd as <- <- <-.
  change (Z.to_nat 100) with 100%nat. fold (page_of c (net_db n')). split_and!; [| | done].
  - unfold page_end, last_seq. destruct (list.last (page_of c (net_db n'))) as [x|] eqn:Hlast; [|done].
    assert (x ∈ page_of c (net_db n')) as Hx by (apply last_Some in Hlast as [l ->]; set_solver).
    destruct (page_row_seq _ _ _ Hx) as (s & Hs & Hlt). simpl. rewrite Hs.
    pose proof (page_rows_of c _ Hwf' _ Hx) as Hi.
    destruct (pr_rows _ Hp _ _ Hi eq_refl) as (_ & _ & Hfit). specialize (Hfit _ Hs).
    apply as_u64_small. unfold is_u64, u64_max, i64_max in *. lia.
  - assert (∀ r, r ∈ page_of c (net_db n') → uuid_parse (i_uuid r) = Some (i_uuid r)) as Hcan.
    { intros r Hr. pose proof (page_rows_of c _ Hwf' _ Hr) as Hi.
      by destruct (pr_rows _ Hp _ _ Hi eq_refl) as (? & _). }
    induction (page_of c (net_db n')) as [|r rs IH]; [done|]. rewrite !fmap_cons. simpl.
    unfold pulled at 1. simpl. rewrite Hcan by set_solver. simpl. f_equal. apply IH. set_solver.
Qed.

(** ** Persisting a page *)

(** Actions that only publish. *)
Definition notifies {A} (m : app Net A) : Prop := ∀ w, ∃ f a,
  m w = (mkWorld (with_bus f (client w)) (remote w), Ok a).

Lemma notifies_ret {A} (a : A) : notifies (mret a).
Proof. intros [c n]. exists id, a. by destruct c. Qed.
Lemma notifies_publish ev : notifies (publish ev).
Proof. intros w. by eexists _, _. Qed.
Lemma notifies_bind {A B} (m : app Net A) (f : A → app Net B) :
  notifies m → (∀ a, notifies (f a)) → notifies (m ≫= f).
Proof.
  intros Hm Hf w. rewrite bind_run. destruct (Hm w) as (g & a & ->).
  destruct (Hf a (mkWorld (with_bus g (client w)) (remote w))) as (h & b & ->).
  exists (h ∘ g), b. done.
Qed.
Lemma notifies_mapM {A B} (f : A → app Net B) l : (∀ a, notifies (f a)) → notifies (mapM f l).
Proof.
  intros Hf. induction l as [|x l IH]; [apply notifies_ret|].
  change (notifies (f x ≫= λ y, mapM f l ≫= λ k, mret (y :: k))).
  apply notifies_bind; [done|]. intros y. apply notifies_bind; [done|]. intros k. apply notifies_ret.
Qed.

(** What changes of the client during a page: its tables and its bus. *)
Definition paged (cl cl' : Client) (l' : Local) : Prop :=
  ∃ f, cl' = with_bus f (with_db (λ _, l') cl).

Lemma persist_run us ds c (w : World Net) :
  ∃ (w' : World Net) (r : result ClientError ()), persist_synced_page us ds c w = (w', r) ∧ remote w' = remote w ∧
    match r with
    | Ok _ => paged (client w) (client w')
                (after_batch (page_rows us) (page_payloads us) ds (as_i64 c)
                   (as_i64 (ep_min_enc_key_gen (c_epoch (client w)))) (c_db (client w)))
    | Err _ => paged (client w) (client w') (c_db (client w)) ∧ sync_meta (c_db (client w)) !! 1 = None
    end.
Proof.
  destruct w as [cl n]. unfold persist_synced_page. rewrite bind_run. unfold Client.cl at 1, gets at 1.
  cbn [client]. rewrite bind_run. unfold on_db at 1. cbn [client remote]. unfold transaction at 1.
  rewrite apply_sync_batch_run. fold (page_rows us) (page_payloads us).
  destruct (sync_meta (c_db cl) !! 1) as [m|] eqn:Hmeta; cbv beta iota; cbn [map_res].
  - match goal with |- context [(?m ≫= ?f) ?s] =>
      enough (notifies (m ≫= f)) as Hn; [destruct (Hn s) as (g & a & ->)|] end.
    + eexists _, _. split; [done|]. split; [done|]. by exists g.
    + apply notifies_bind; [apply notifies_mapM; intros; apply notifies_publish|]. intros _.
      apply notifies_bind; [|intros _; apply notifies_ret]. apply notifies_mapM. intros x.
      destruct (uuid_parse x); [apply notifies_publish | apply notifies_ret].
  - eexists _, _. split; [done|]. split; [done|]. split; [|done]. exists id. by destruct cl.
Qed.

(** ** One page keeps the agreement

    At the cursor the sync started from, and, while nothing has failed, at
    the engine's. *)
Definition agreed (b : LocalBlacklist) (c0 : Z) (e : Engine) (failed : bool) (w : World Net) : Prop :=
  eng_blacklist e = b ∧ 0 ≤ c0 ≤ eng_cursor e ∧ eng_cursor e ≤ i64_max ∧
  mirror b c0 (net_db (remote w)) (c_db (client w)) ∧
  (failed = false → mirror b (eng_cursor e) (net_db (remote w)) (c_db (client w))).

(** The tables after the rows [rs] past [c] of the server's [d] were applied
    in part ([failed]) or whole. *)
Definition applied (b : LocalBlacklist) (rs : list ItemRow) (failed : bool) (l l' : Local) : Prop :=
  (∀ x, (∀ r, r ∈ rs → i_uuid r ≠ x) →
     overviews l' !! x = overviews l !! x ∧ payloads l' !! x = payloads l !! x) ∧
  (failed = false → ∀ r, r ∈ rs → b !! i_uuid r = None → holds_row l' (i_uuid r) r).

Lemma holds_row_frame l l' x r :
  overviews l' !! x = overviews l !! x ∧ payloads l' !! x = payloads l !! x →
  holds_row l x r → holds_row l' x r.
Proof. intros [H1 H2]. unfold holds_row. by rewrite H1, H2. Qed.

Lemma applied_old b c c0 d l l' failed :
  items_wf d → c0 ≤ c → applied b (page_of c d) failed l l' → mirror b c0 d l → mirror b c0 d l'.
Proof.
  intros Hwf Hc [Hout _] [Hmax Hrows]. split; [done|]. intros k r s Hr Hk Hs Hle Hb.
  apply (holds_row_frame l); [|by eapply Hrows]. apply Hout. intros r' Hr' Heq.
  pose proof (page_rows_of c d Hwf _ Hr') as Hi. destruct (page_row_seq _ _ _ Hr') as (s' & Hs' & Hlt).
  assert ((i_uuid r', u) = k) as Hkey by (destruct k; simpl in *; congruence).
  rewrite Hkey, Hr in Hi. injection Hi as ->. simplify_eq. lia.
Qed.

Lemma applied_new b c d l l' :
  items_wf d → applied b (page_of c d) false l l' → mirror b c d l → mirror b (page_end c d) d l'.
Proof.
  intros Hwf Ha Hm. pose proof (applied_old _ c c _ _ _ _ Hwf (Z.le_refl c) Ha Hm) as [Hmax Hold].
  destruct Ha as [_ Hin]. destruct (page_end_spec c d Hwf) as [[_ ->]|(k1 & r1 & Hr1 & Hk1 & Hs1 & Hlt)]; [done|].
  split; [by eapply max_seq_ge|]. intros k r s Hr Hk Hs Hle Hb.
  destruct (decide (s ≤ c)); [by eapply Hold|].
  pose proof (page_covers c d k r s Hwf Hr Hk Hs ltac:(lia) Hle) as Hpage.
  assert (i_uuid r = k.1) as Heq by (rewrite <-(wf_key _ Hwf _ _ Hr); done).
  rewrite <-Heq. apply Hin; [done..|]. by rewrite Heq.
Qed.

(** What the loop gathered, once persisted. *)
Lemma gathered_applied b rs d i pr f a c g l :
  rows_of d rs → page_ok b rs (mkPage i pr [] [] f) a →
  (∀ r, r ∈ rs → 1 ≤ i_version r ≤ i64_max) →
  applied b rs (pg_failure a) l
    (after_batch (page_rows (pg_upserts a)) (page_payloads (pg_upserts a)) (pg_deletes a) c g l).
Proof.
  intros Hd Hok Hv. split.
  - intros x Hx. destruct Hok as (us & ds & -> & -> & Hus & Hds & _). apply batch_other.
    + intros Hin. destruct (Hds _ Hin) as (r & Hr & Heq & _). by apply (Hx r).
    + intros (v & -> & Hin)%list_elem_of_fmap. destruct (Hus _ Hin) as (r & q & Hr & _ & _ & ->).
      by apply (Hx r).
  - intros Hf r Hr Hb. eapply batch_holds; eauto.
Qed.

(** Nothing gathered and nothing failed: every row was ignored. *)
Lemma nothing_applied b rs d i pr f a l :
  rows_of d rs → page_ok b rs (mkPage i pr [] [] f) a → pg_upserts a = [] → pg_deletes a = [] →
  applied b rs (pg_failure a) l l.
Proof.
  intros Hd (us & ds & Hus & Hds & _ & _ & Hall) Hu Hx. simpl in Hus, Hds.
  rewrite Hu in Hus. rewrite Hx in Hds. subst us ds. split; [done|]. intros Hf r Hr Hb.
  destruct (Hall Hf) as [_ Hrow]. specialize (Hrow r Hr Hb).
  destruct (i_deleted_date r); [by apply not_elem_of_nil in Hrow|].
  by destruct Hrow as (p & _ & []%not_elem_of_nil).
Qed.

(** The server is later; of the client, the tables and the bus changed. *)
Definition framed (w w' : World Net) : Prop :=
  net_le (remote w) (remote w') ∧ ∃ l', paged (client w) (client w') l'.

#[local] Instance framed_preorder : PreOrder framed.
Proof.
  split; [intros w; split; [reflexivity | exists (c_db (client w)), id; by destruct (client w)]|].
  intros w1 w2 w3 [A1 (l1 & f & Hf)] [B1 (l2 & g & Hg)]. split; [by etransitivity|].
  exists l2, (g ∘ f). rewrite Hg, Hf. done.
Qed.

Lemma framed_quiet w w' : quiet w w' → framed w w'.
Proof. intros [Hn [f Hf]]. split; [done|]. exists (c_db (client w)), f. rewrite Hf. by destruct (client w). Qed.

Lemma framed_persist us ds c : steps framed (persist_synced_page (W:=Net) us ds c).
Proof.
  intros w. destruct (persist_run us ds c w) as (w' & r & -> & Hr & Hp). split; simpl.
  - by rewrite Hr.
  - destruct r; [|destruct Hp as [Hp _]]; by eexists.
Qed.

Lemma framed_remote {A} ctx (m : M Net TransportError A) :
  steps net_le m → steps framed (on_remote ctx m).
Proof. intros Hm w. by apply framed_quiet, quiet_remote. Qed.
Lemma framed_items e total a ovs : steps framed (sync_items e total a ovs).
Proof. intros w. apply framed_quiet, quiet_items. Qed.
Lemma pull_advance_le e : steps net_le (pull_and_advance e).
Proof.
  unfold pull_and_advance. apply steps_bind; [apply _ | apply pull_le|].
  intros [[next ovs] more]. apply steps_ret, _.
Qed.
#[local] Hint Resolve framed_persist framed_remote framed_items pull_advance_le : steps.

Lemma framed_persist_page a c : steps framed (persist_page (W:=Net) a c).
Proof. unfold persist_page. steps_tac. Qed.
#[local] Hint Resolve framed_persist_page : steps.

Lemma framed_apply progress failed r : steps framed (apply_page (W:=Net) progress failed r).
Proof. unfold apply_page. steps_tac. Qed.
#[local] Hint Resolve framed_apply : steps.

Lemma framed_page e progress failed : steps framed (sync_page e progress failed).
Proof. unfold sync_page. steps_tac. Qed.

Lemma items_result e total a rs d0 w :
  items_wf d0 → sync_le d0 (net_db (remote w)) → rows_of d0 rs →
  ∃ w' a', sync_items e total a (overview_of <$> rs) w = (w', Ok a') ∧ quiet w w' ∧
    (proper (remote w') → page_ok (eng_blacklist e) rs a a').
Proof.
  intros Hwf Hle Hrs. destruct (items_total e total a (overview_of <$> rs) w) as (w' & a' & Hi).
  exists w', a'. split; [done|]. pose proof (quiet_items e total a (overview_of <$> rs) w) as Hq.
  rewrite Hi in Hq. split; [done|]. intros Hp. by eapply items_ok.
Qed.

Lemma persist_page_run a c (w : World Net) :
  ∃ (w' : World Net) f' l', persist_page a c w = (w', Ok f') ∧ remote w' = remote w ∧
    paged (client w) (client w') l' ∧
    (f' = pg_failure a ∧ pg_upserts a = [] ∧ pg_deletes a = [] ∧ l' = c_db (client w) ∨
     f' = pg_failure a ∧ (∃ g, l' = after_batch (page_rows (pg_upserts a)) (page_payloads (pg_upserts a))
                                  (pg_deletes a) (as_i64 c) g (c_db (client w))) ∨
     f' = true ∧ l' = c_db (client w)) ∧
    (is_Some (sync_meta (c_db (client w)) !! 1) → f' = pg_failure a ∧ is_Some (sync_meta l' !! 1)).
Proof.
  unfold persist_page. destruct (bool_decide (pg_upserts a = []) && bool_decide (pg_deletes a = [])) eqn:Hb.
  - apply andb_true_iff in Hb as [H1%bool_decide_eq_true H2%bool_decide_eq_true].
    exists w, (pg_failure a), (c_db (client w)). split_and!; [done.. | | by left | done].
    exists id. by destruct (client w).
  - rewrite bind_run. unfold attempt.
    destruct (persist_run (pg_upserts a) (pg_deletes a) c w) as (w' & r & -> & Hr & Hp).
    destruct r as [[]|err]; [|destruct Hp as [Hp Hnone]];
      eexists w', _, _; (split; [done|]); (split; [done|]); (split; [exact Hp|]); split.
    + right; left; split; [done | by eexists].
    + intros [m Hm]. split; [done|]. simpl. rewrite lookup_alter_eq, Hm. by eexists.
    + right; by right.
    + rewrite Hnone. by intros [].
Qed.

Lemma paged_db cl cl' l' : paged cl cl' l' → c_db cl' = l'.
Proof. by intros [f ->]. Qed.

(** What a page does: the rows of the page are applied, in part or whole. *)
Lemma page_applied e progress failed w w' r :
  sync_page e progress failed w = (w', r) → items_wf (net_db (remote w)) → proper (remote w') →
  0 ≤ eng_cursor e ≤ i64_max →
  match r with
  | Ok (e', _, failed', _) =>
      let c := eng_cursor e in
      ∃ d, sync_le (net_db (remote w)) d ∧ sync_le d (net_db (remote w')) ∧ items_wf d ∧
        e' = mkEngine (eng_blacklist e) (page_end c d) ∧ c ≤ page_end c d ≤ i64_max ∧
        (failed' = false → failed = false) ∧
        applied (eng_blacklist e) (page_of c d) failed' (c_db (client w)) (c_db (client w'))
  | Err _ => client w' = client w
  end.
Proof.
  intros Hs Hwf Hp Hc. rewrite sync_page_run in Hs. cbn [pull HttpTransport] in Hs.
  pose proof (pull_le (eng_cursor e) (remote w)) as Hle1.
  destruct (http_pull (eng_cursor e) (remote w)) as [n1 [[[next ovs] more]|err]] eqn:Hpull;
    cbn [fst] in Hle1; destruct (proj1 Hle1 Hwf) as (Hwf1 & _); [|by injection Hs as <- <-].
  unfold apply_page in Hs. set (w1 := mkWorld (client w) n1) in Hs.
  set (e1 := mkEngine (eng_blacklist e) next) in Hs. rewrite bind_run in Hs.
  destruct (items_total e1 (1 `max` as_u32 (Z.of_nat (length ovs)))
    (mkPage 0 progress [] [] failed) ovs w1) as (w2 & a & Hitems).
  pose proof (quiet_items e1 (1 `max` as_u32 (Z.of_nat (length ovs)))
    (mkPage 0 progress [] [] failed) ovs w1) as [Hq1 [fq Hq2]].
  rewrite Hitems in Hs, Hq1, Hq2. cbn [fst] in Hq1, Hq2. rewrite bind_run in Hs.
  destruct (persist_page_run a next w2) as (w3 & f' & l' & Hpp & Hr3 & Hpg & Hcase & _).
  cbn [eng_cursor e1] in Hs. rewrite Hpp in Hs. injection Hs as <- <-. cbv zeta. rewrite Hr3 in Hp |- *.
  rewrite (paged_db _ _ _ Hpg). rewrite Hq2 in Hcase. cbn [c_db with_bus client w1] in Hcase.
  pose proof (proper_before _ _ Hq1 Hwf1 Hp) as Hp1. cbn [remote w1] in *.
  destruct (pull_ok _ _ _ _ _ _ Hpull Hwf Hp1 Hc) as (-> & -> & _).
  pose proof (page_rows_of (eng_cursor e) (net_db n1) Hwf1) as Hrows.
  pose proof (items_ok _ _ _ _ (net_db n1) _ _ _ Hitems Hwf1 (reflexivity _) Hp Hrows) as Hok.
  exists (net_db n1). split; [exact (proj1 Hle1)|]. split; [exact (proj1 Hq1)|].
  split; [done|]. split; [done|]. split; [by apply page_end_range|]. split.
  - intros ->. destruct Hok as (us & ds & _ & _ & _ & _ & Hall).
    destruct Hcase as [(Hf & _)|[(Hf & _)|(Hf & _)]]; [..|done]; by destruct (Hall (eq_sym Hf)) as [? _].
  - assert (∀ r, r ∈ page_of (eng_cursor e) (net_db n1) → 1 ≤ i_version r ≤ i64_max) as Hv.
    { intros r Hr. specialize (Hrows _ Hr). split; [by eapply wf_version|].
      by destruct (pr_rows _ Hp1 _ _ Hrows eq_refl) as (_ & ? & _). }
    destruct Hcase as [(-> & Hu & Hd & ->)|[(-> & g & ->)|(-> & ->)]].
    + by eapply nothing_applied.
    + by eapply gathered_applied.
    + split; [done | by intros].
Qed.

Lemma page_keeps b c0 e progress failed w w' r :
  sync_page e progress failed w = (w', r) → items_wf (net_db (remote w)) → proper (remote w') →
  agreed b c0 e failed w →
  match r with
  | Ok (e', _, failed', _) => agreed b c0 e' failed' w'
  | Err _ => mirror b c0 (net_db (remote w')) (c_db (client w'))
  end.
Proof.
  intros Hs Hwf Hp (Hb & Hc0 & Hc & Hm0 & Hmc).
  pose proof (page_applied _ _ _ _ _ _ Hs Hwf Hp ltac:(lia)) as Hpage.
  destruct r as [[[[e' p] f'] more]|err].
  2: { rewrite Hpage. pose proof (framed_page e progress failed w) as [Hle _]. rewrite Hs in Hle.
       destruct (proj1 Hle Hwf) as (_ & _ & Hf). exact (mirror_later _ _ _ _ _ (Hf u) Hm0). }
  destruct Hpage as (d & Hle1 & Hle2 & Hwfd & -> & Hend & Hfail & Happ). rewrite Hb in *.
  destruct (Hle1 Hwf) as (_ & _ & Hf1). destruct (Hle2 Hwfd) as (_ & _ & Hf2).
  pose proof (mirror_later _ _ _ _ _ (Hf1 u) Hm0) as Hm1. unfold agreed. cbn [eng_blacklist eng_cursor].
  split_and!; [done | lia | lia | lia | |].
  - eapply mirror_later; [apply Hf2|]. eapply (applied_old b (eng_cursor e)); [done | lia | exact Happ | done].
  - intros ->. eapply mirror_later; [apply Hf2|]. eapply applied_new; [done | exact Happ|].
    eapply mirror_later; [apply Hf1|]. auto.
Qed.

(** ** The whole sync *)

Lemma framed_pages k e progress failed : steps framed (sync_pages k e progress failed).
Proof.
  revert e progress failed. induction k as [|k IH]; intros e progress failed; cbn [sync_pages];
    [apply steps_throw, _|].
  apply steps_bind; [apply _ | apply framed_page|]. intros [[[e' p'] f'] more].
  destruct more; [apply IH | apply steps_ret, _].
Qed.

Lemma pages_keep b c0 k e progress failed w w' r :
  sync_pages k e progress failed w = (w', r) → items_wf (net_db (remote w)) → proper (remote w') →
  agreed b c0 e failed w →
  match r with
  | Ok (e', failed') => agreed b c0 e' failed' w'
  | Err _ => mirror b c0 (net_db (remote w')) (c_db (client w'))
  end.
Proof.
  revert e progress failed w. induction k as [|k IH]; intros e progress failed w Hs Hwf Hp Ha;
    cbn [sync_pages] in Hs.
  { injection Hs as <- <-. apply Ha. }
  rewrite bind_run in Hs. pose proof (framed_page e progress failed w) as [Hle _].
  destruct (sync_page e progress failed w) as [w1 r1] eqn:Hpage. cbn [fst] in Hle.
  destruct (proj1 Hle Hwf) as (Hwf1 & _).
  destruct r1 as [[[[e1 p1] f1] more]|err].
  2: { injection Hs as <- <-. exact (page_keeps _ _ _ _ _ _ _ _ Hpage Hwf Hp Ha). }
  destruct more.
  - pose proof (framed_pages k e1 p1 f1 w1) as [Hle1 _]. rewrite Hs in Hle1. cbn [fst] in Hle1.
    pose proof (proper_before _ _ Hle1 Hwf1 Hp) as Hp1.
    exact (IH _ _ _ _ Hs Hwf1 Hp (page_keeps _ _ _ _ _ _ _ _ Hpage Hwf Hp1 Ha)).
  - injection Hs as <- <-. exact (page_keeps _ _ _ _ _ _ _ _ Hpage Hwf Hp Ha).
Qed.

(** The cursor, the blacklist and the items' tables stay. *)
Definition settled (w w' : World Net) : Prop :=
  net_le (remote w) (remote w') ∧
  same (λ w, (c_cursor (client w), c_blacklist (client w),
              overviews (c_db (client w)), payloads (c_db (client w)))) w w'.

#[local] Instance settled_preorder : PreOrder settled.
Proof.
  split; [intros w; split; reflexivity|]. intros w1 w2 w3 [A1 A2] [B1 B2].
  split; etransitivity; eassumption.
Qed.

Lemma settled_upd f :
  (∀ cl, (c_cursor (f cl), c_blacklist (f cl), overviews (c_db (f cl)), payloads (c_db (f cl))) =
         (c_cursor cl, c_blacklist cl, overviews (c_db cl), payloads (c_db cl))) →
  steps settled (upd f).
Proof. intros Hf w. split; [reflexivity | apply Hf]. Qed.

Lemma settled_remote {A} ctx (m : M Net TransportError A) : steps net_le m → steps settled (on_remote ctx m).
Proof.
  intros Hm w. specialize (Hm (remote w)). unfold on_remote. by destruct (m (remote w)) as [s r].
Qed.

Lemma settled_db {A} ctx (m : local A) :
  steps (same (λ l, (overviews l, payloads l))) m → steps settled (on_db ctx m).
Proof.
  intros Hm w. specialize (Hm (c_db (client w))). unfold on_db.
  destruct (m (c_db (client w))) as [l r]. split; [reflexivity|]. unfold same in *. simpl in *. congruence.
Qed.

Lemma settled_gate g : steps settled (update_epoch_gate (W:=Net) g).
Proof.
  unfold update_epoch_gate. apply steps_bind; [apply _| |].
  - apply steps_attempt, settled_remote, status_le.
  - intros [[g' bl]|err]; [|apply steps_ret, _].
    apply steps_bind; [apply _ | by apply settled_upd | intros _].
    case_bool_decide; [by apply settled_upd | apply steps_ret, _].
Qed.

Lemma settled_persist : steps settled (persist_blacklist_if_dirty (W:=Net)).
Proof.
  unfold persist_blacklist_if_dirty. apply steps_bind; [apply _ | apply steps_gets, _|].
  intros [|]; [|apply steps_ret, _]. cbn [negb].
  apply steps_bind; [apply _ | apply steps_gets, _ | intros bl].
  apply steps_bind; [apply _ | | intros _; by apply settled_upd].
  apply settled_db, steps_transaction; [apply _|]. unfold persist_dashmap_txn.
  apply steps_bind; [apply _ | by intros l | intros _].
  apply steps_bind; [apply _ | | intros _; apply steps_ret, _].
  apply steps_mapM; [apply _|]. intros e. unfold insert_blacklist. steps_tac. by intros l.
Qed.

(** A client that agrees with its server up to its cursor. *)
Definition synced (w : World Net) : Prop :=
  0 ≤ c_cursor (client w) ≤ i64_max ∧
  mirror (c_blacklist (client w)) (c_cursor (client w)) (net_db (remote w)) (c_db (client w)).

Lemma synced_settled w w' :
  items_wf (net_db (remote w)) → settled w w' → synced w → synced w'.
Proof.
  intros Hwf [(Hle & _) [= Hc Hb Ho Hp]] [Hr Hm]. unfold synced. rewrite Hc, Hb. split; [done|].
  destruct (Hle Hwf) as (_ & _ & Hf). apply (mirror_later _ _ _ _ _ (Hf u)) in Hm as [Hmax Hrows].
  split; [done|]. intros k r s H1 H2 H3 H4 H5. eapply holds_row_frame; [|by eapply Hrows].
  by rewrite Ho, Hp.
Qed.

(** Later on the server's side. *)
Definition srv_le (w w' : World Net) : Prop := net_le (remote w) (remote w').
#[export] Instance srv_le_preorder : PreOrder srv_le.
Proof. unfold srv_le. split; [intros w; reflexivity | intros w1 w2 w3; apply net_le_preorder]. Qed.

Lemma settled_finish_tail g :
  steps settled (update_epoch_gate g;; persist_blacklist_if_dirty;; publish SyncCompleted).
Proof.
  apply steps_bind; [apply _ | apply settled_gate | intros _].
  apply steps_bind; [apply _ | apply settled_persist | intros _]. by apply settled_upd.
Qed.

Lemma finish_settled e f g w :
  settled (if f : bool then w else mkWorld (with_cursor (λ _, eng_cursor e) (client w)) (remote w))
    (finish_sync e f g w).1.
Proof. unfold finish_sync. rewrite bind_run. destruct f; apply settled_finish_tail. Qed.

Lemma srv_finish e f g : steps srv_le (finish_sync (W:=Net) e f g).
Proof.
  unfold finish_sync. apply steps_bind; [apply _ | | intros _; intros w; apply settled_finish_tail].
  destruct f; [apply steps_ret, _ | intros w; unfold srv_le; reflexivity].
Qed.

Lemma srv_sync : steps srv_le (sync (W:=Net)).
Proof.
  unfold sync, require_transport, cl, publish, upd. steps_tac; try (intros w; unfold srv_le; reflexivity).
  - intros w. apply framed_pages.
  - apply srv_finish.
Qed.

Lemma finish_synced b c0 e f g w :
  items_wf (net_db (remote w)) → c_blacklist (client w) = b → c_cursor (client w) = c0 →
  agreed b c0 e f w → synced (finish_sync e f g w).1.
Proof.
  intros Hwf Hb Hc (_ & H0 & He & Hm0 & Hmc).
  eapply synced_settled; [|apply finish_settled|]; [by destruct f|]. destruct f.
  - split; [lia|]. by rewrite Hb, Hc.
  - split; [simpl; lia|]. simpl. rewrite Hb. auto.
Qed.

(** One sync keeps the agreement, whatever happens during it. *)
Lemma sync_synced w :
  items_wf (net_db (remote w)) → proper (remote (sync w).1) → synced w → synced (sync w).1.
Proof.
  intros Hwf Hp Hs. rewrite sync_run in *. destruct (c_transport (client w)); [|done].
  set (e := mkEngine _ _) in *. set (w0 := mkWorld _ _) in *. rewrite bind_run in *.
  pose proof (framed_pages MAX_PAGES e 0 false w0) as [Hle (l' & f & Hf)].
  destruct (sync_pages MAX_PAGES e 0 false w0) as [w1 r] eqn:Hpages. cbn [fst] in Hle, Hf.
  destruct (proj1 Hle Hwf) as (Hwf1 & _).
  assert (agreed (c_blacklist (client w)) (c_cursor (client w)) e false w0) as Ha.
  { destruct Hs as [Hc Hm]. split_and!; [done | simpl; lia.. | done | by intros]. }
  assert (c_blacklist (client w1) = c_blacklist (client w) ∧ c_cursor (client w1) = c_cursor (client w))
    as [Hb1 Hc1] by (rewrite Hf; by split).
  destruct r as [[e1 f1]|err]; cbv beta iota in *; cbn [fst snd] in *.
  - assert (proper (remote w1)) as Hp1 by (eapply proper_before; [apply srv_finish | done | exact Hp]).
    eapply finish_synced; [done.. |]. exact (pages_keep _ _ _ _ _ _ _ _ _ Hpages Hwf Hp1 Ha).
  - pose proof (pages_keep _ _ _ _ _ _ _ _ _ Hpages Hwf Hp Ha) as Hm.
    split; [rewrite Hc1; apply Hs | by rewrite Hb1, Hc1].
Qed.

(** Any number of syncs. *)
Definition syncs (k : nat) (w : World Net) : World Net := Nat.iter k (λ w, (sync w).1) w.

Lemma syncs_later k w : srv_le w (syncs k w).
Proof.
  induction k as [|k IH]; [reflexivity|]. simpl. etransitivity; [exact IH | apply srv_sync].
Qed.

Lemma syncs_synced k w :
  items_wf (net_db (remote w)) → proper (remote (syncs k w)) → synced w → synced (syncs k w).
Proof.
  intros Hwf. induction k as [|k IH]; [done|]. simpl. intros Hp Hs.
  destruct (proj1 (syncs_later k w) Hwf) as (Hwf1 & _).
  apply sync_synced; [done..|]. apply IH; [|done]. eapply proper_before; [apply srv_sync | done | exact Hp].
Qed.

(** C6. A synchronised client mirrors the server: starting from cursor 0 and
    whatever its tables hold, after any number of syncs, with any requests of
    anyone interleaved with each call and any requests and responses lost,
    every item of the account up to the client's cursor that it does not
    ignore is held with the server's version, generation and payload, and is
    absent when it is a tombstone. *)
Theorem sync_mirrors_server k w :
  items_wf (net_db (remote w)) → c_cursor (client w) = 0 → proper (remote (syncs k w)) →
  let w' := syncs k w in
  ∀ uuid r s, items (net_db (remote w')) !! (uuid, u) = Some r → i_seq r = Some s →
    s ≤ c_cursor (client w') → c_blacklist (client w') !! uuid = None →
    holds_row (c_db (client w')) uuid r.
Proof.
  intros Hwf Hc Hp w' uuid r s Hr Hs Hle Hb.
  assert (synced w') as [_ [_ Hrows]].
  { apply syncs_synced; [done..|]. unfold synced. rewrite Hc. split; [unfold i64_max; lia|].
    by apply mirror_start. }
  by apply (Hrows (uuid, u) r s).
Qed.
End Mirror.

(** ** A witness *)
Section MirrorWitness.
#[local] Existing Instances Concrete.toy_ext toy_webauthn.

(** [proper], as a check. *)
Definition rows_fit (u : string) (d : Db) : Prop :=
  map_Forall (λ (k : string * string) r, k.2 = u → uuid_parse k.1 = Some k.1 ∧
    i_version r ≤ i64_max ∧ default 0 (i_seq r) ≤ i64_max) (items d).
#[local] Instance rows_fit_dec u d : Decision (rows_fit u d).
Proof. unfold rows_fit. apply _. Defined.

Lemma proper_check u n :
  starts_with "vtr-ak-" (net_token n) = false → forallb (λ x, bool_decide (x = u)) (net_served n) = true →
  bool_decide (rows_fit u (net_db n)) = true → proper u n.
Proof.
  intros Ht Hs Hr%bool_decide_eq_true. split; [done | |].
  - intros x Hx. rewrite forallb_forall in Hs. apply list_elem_of_In in Hx.
    by apply (bool_decide_eq_true_1 _ (Hs _ Hx)).
  - intros k r Hk Hu. destruct (Hr k r Hk Hu) as (H1 & H2 & H3). split_and!; [done..|].
    intros s Hseq. by rewrite Hseq in H3.
Qed.

Definition demo_turn (before : list (Env * Request)) (f : Fault) : Turn :=
  mkTurn before (Concrete.demo_env 30) 30 f.
Definition demo_world (d : Db) (script : list Turn) : World Net :=
  mkWorld (with_transport (λ _, true) (new_client fresh_local)) (mkNet d "sess" script []).

(** One download is lost, the other item is changed before its download; the
    second sync brings both. *)
Definition mirror_demo : World Net :=
  demo_world created
    ([demo_turn [] Delivered; demo_turn [] ResponseLost;
      demo_turn [(Concrete.demo_env 20, QSync (RPush "sess" [push_demo "i2" 1]))] Delivered;
      demo_turn [] Delivered] ++ replicate 4 (demo_turn [] Delivered)).

Lemma sync_mirrors_server_witness :
  c_cursor (client (syncs 1 mirror_demo)) = 0 ∧ c_cursor (client (syncs 2 mirror_demo)) = 3 ∧
  ∃ r, items (net_db (remote (syncs 2 mirror_demo))) !! ("i2", "alice") = Some r ∧ i_version r = 2 ∧
    holds_row (c_db (client (syncs 2 mirror_demo))) "i2" r.
Proof.
  split; [vm_compute; reflexivity|]. split; [vm_compute; reflexivity|].
  eexists. split; [vm_compute; reflexivity|]. split; [reflexivity|].
  apply (sync_mirrors_server "alice" 2 mirror_demo created_wf eq_refl) with (s := 3);
    [apply proper_check; vm_compute; reflexivity | vm_compute; done..].
Defined.
End MirrorWitness.
