(* ===== verification/Calm.v ===== *)
(** * A sync on a calm network completes

    When no other request runs and no message is lost, one sync of a client
    with a live session and a live cursor ends without error at the last
    position of the account's feed: with Mirror.v, everything is held.  Also
    the round trip of the blacklist through its table. *)
From S2P Require Import Prelude Domain Database Concrete Users Items Tokens Sync.
From S2P Require Import Projects Mfa Auth Recovery Account Webauthn System History.
From S2P Require Import ClientDb ClientSync Crypto Client Replica Http Mirror.

Local Open Scope Z_scope.

(** ** The blacklist and its table *)
Section Blacklist.
Context {W : Type} `{Ext}.

Definition blacklist_rows_of (b : LocalBlacklist) : list (string * LocalBlacklistRow) :=
  (λ e, blacklist_entry e.1.1 e.1.2 (into_db_state e.2)) <$> blacklist_snapshot b.

Lemma blacklist_rows_keys b : (blacklist_rows_of b).*1 = (map_to_list b).*1.
Proof.
  unfold blacklist_rows_of, blacklist_snapshot. rewrite <-!list_fmap_compose. done.
Qed.

Lemma insert_all {R} (es : list (string * R)) :
  NoDup es.*1 → foldl (λ t e, <[e.1 := e.2]> t) (∅ : gmap string R) es = list_to_map es.
Proof.
  intros Hnd. transitivity (list_to_map (reverse es) : gmap string R).
  - clear Hnd. change (list_to_map (reverse es)) with
      (foldr (λ p, <[p.1 := p.2]>) (∅ : gmap string R) (reverse es)).
    generalize (∅ : gmap string R). induction es as [|e es IH]; intros t; [done|]. simpl.
    rewrite reverse_cons, foldr_app. apply IH.
  - apply list_to_map_proper; [by rewrite fmap_reverse, reverse_Permutation | apply reverse_Permutation].
Qed.

(** The table after a snapshot was stored. *)
Definition stored (b : LocalBlacklist) : gmap string LocalBlacklistRow :=
  (λ e, mkBlacklistRow e.1 (dashmap_as_db_str (into_db_state e.2))) <$> b.

Lemma snapshot_stored b :
  foldl (λ t e, <[e.1 := e.2]> t) (∅ : gmap string LocalBlacklistRow) (blacklist_rows_of b) = stored b.
Proof.
  rewrite insert_all by (rewrite blacklist_rows_keys; apply NoDup_fst_map_to_list).
  transitivity (list_to_map (map_to_list (stored b)) : gmap string LocalBlacklistRow);
    [|apply list_to_map_to_list].
  apply list_to_map_proper; [rewrite blacklist_rows_keys; apply NoDup_fst_map_to_list|].
  unfold stored. rewrite map_to_list_fmap. unfold blacklist_rows_of, blacklist_snapshot.
  by rewrite <-list_fmap_compose.
Qed.

(** [persist_dashmap_txn] of a snapshot. *)
Lemma persist_snapshot_run b l :
  persist_dashmap_txn (blacklist_rows_of b) l = (with_blacklist_rows (λ _, stored b) l, Ok ()).
Proof.
  unfold persist_dashmap_txn. rewrite bind_run. unfold modify at 1. cbv beta iota.
  rewrite bind_run, insert_blacklists_run.
  - simpl. unfold with_blacklist_rows. simpl. by rewrite snapshot_stored.
  - rewrite blacklist_rows_keys. apply NoDup_fst_map_to_list.
  - intros e ([[k v] s] & -> & _)%list_elem_of_fmap. split; [apply lookup_empty|]. simpl.
    rewrite dashmap_db_roundtrip. by eexists.
Qed.

Lemma persist_if_dirty_run (w : World W) :
  persist_blacklist_if_dirty w =
    (if c_blacklist_dirty (client w) then
       mkWorld (with_blacklist_dirty (λ _, false)
                  (with_db (with_blacklist_rows (λ _, stored (c_blacklist (client w)))) (client w)))
         (remote w)
     else w, Ok ()).
Proof.
  unfold persist_blacklist_if_dirty. rewrite bind_run. unfold cl at 1, gets at 1.
  destruct w as [cl n]. cbn [client remote]. destruct (c_blacklist_dirty cl); cbn [negb]; [|done].
  rewrite bind_run. unfold Client.cl, gets at 1. cbn [client]. rewrite bind_run. unfold on_db at 1.
  unfold transaction. cbn [client]. fold (blacklist_rows_of (c_blacklist cl)).
  rewrite persist_snapshot_run. done.
Qed.

(** Restarting on the table gives the blacklist back. *)
Lemma load_stored b :
  map_Forall (λ u _, uuid_parse u = Some u) b →
  blacklist_load (omap load_row
    ((λ kr, (kr.1, lb_ignored_version kr.2, lb_state kr.2)) <$> map_to_list (stored b))) = b.
Proof.
  intros Hb. unfold blacklist_load.
  set (l := omap load_row _). set (conv := λ r : Uuid * Z * DashMapEntryState, (r.1.1, (r.1.2, r.2))).
  assert (conv <$> l ≡ₚ map_to_list b) as Hperm.
  { unfold l, stored. rewrite map_to_list_fmap, <-list_fmap_compose.
    apply reflexive_eq. assert (Forall (λ kv, uuid_parse kv.1 = Some kv.1) (map_to_list b)) as Hall.
    { apply map_Forall_to_list in Hb. eapply Forall_impl; [exact Hb|]. by intros [k v]. }
    induction Hall as [|[k [v s]] m Hk Hall IH]; [done|]. simpl in *. rewrite Hk. simpl.
    assert (from_db_str (dashmap_as_db_str (into_db_state s)) = Some s) as -> by by destruct s.
    simpl. f_equal. exact IH. }
  assert (NoDup (conv <$> l).*1) as Hnd by (rewrite Hperm; apply NoDup_fst_map_to_list).
  transitivity (foldl (λ t e, <[e.1 := e.2]> t) (∅ : LocalBlacklist) (conv <$> l)).
  - clear Hperm Hnd. generalize (∅ : LocalBlacklist). induction l as [|r l IH]; intros t; [done|]. apply IH.
  - rewrite insert_all by done. rewrite (list_to_map_proper _ _ Hnd Hperm). apply list_to_map_to_list.
Qed.
End Blacklist.

(** ** Calm turns *)
Section Calm.
Context {EXT : Ext} {WA : WebauthnRs} {LAWS : ExtLaws}.
Context (u tok : string) (d : Db).

(** Nobody else's requests, a live session, nothing lost. *)
Definition calm (t : Turn) : Prop :=
  t_before t = [] ∧ t_fault t = Delivered ∧ signed_in d (now_ms (t_env t)) tok u.

(** The network with [k] of its turns used. *)
Definition used (k : nat) (n n' : Net) : Prop :=
  net_db n' = net_db n ∧ net_token n' = net_token n ∧ net_script n' = drop k (net_script n) ∧
  ∀ x, x ∈ net_served n' → x ∈ net_served n ∨ x = u.

Definition ready (n : Net) : Prop :=
  net_db n = d ∧ net_token n = tok ∧ Forall calm (net_script n).

Lemma used_ready k n n' : used k n n' → ready n → ready n'.
Proof.
  intros (Hd & Ht & Hs & _) (H1 & H2 & H3). split_and!; [congruence.. |]. rewrite Hs. by apply Forall_drop.
Qed.

Lemma used_trans j k n1 n2 n3 : used j n1 n2 → used k n2 n3 → used (j + k) n1 n3.
Proof.
  intros (A1 & A2 & A3 & A4) (B1 & B2 & B3 & B4). split_and!; [congruence.. | |].
  - by rewrite B3, A3, drop_drop.
  - intros x [Hx|Hx]%B4; [by apply A4 | by right].
Qed.

(** A read-only request on a calm turn. *)
Lemma calm_call {A B} (m : Turn → string → handler A) (k : A → result TransportError B) n
    (r : Turn → result ApiError A) :
  ready n → (0 < length (net_script n))%nat → (∀ t, calm t → m t tok d = (d, r t)) →
  ∃ n' t, calm t ∧ used 1 n n' ∧
    net_call m k n = (n', match r t with Ok a => k a | Err e => Err (http_err (api_status e)) end).
Proof.
  intros (Hd & Ht & Hs) Hlen Hm. unfold net_call. destruct (net_script n) as [|t ts] eqn:Hscript; [simpl in Hlen; lia|].
  apply Forall_cons in Hs as [Hc Hs]. pose proof Hc as (Hb & Hf & Hsig). rewrite Hb, Hf, Hd, Ht.
  rewrite decide_False by done. cbn [history foldl]. rewrite (Hm t Hc). rewrite decide_False by done.
  eexists _, t. split; [done|]. split; [|reflexivity]. split_and!; cbn; [congruence | congruence | by rewrite Hscript |].
  intros x [Hx|Hx]%elem_of_app; [by left|]. right. unfold served_for in Hx.
  destruct Hsig as [Hpre Hv]. rewrite (auth_any_user _ _ u) in Hx by done. by apply list_elem_of_singleton in Hx.
Qed.

Lemma used_le k n n' : ready n → used k n n' → (k ≤ length (net_script n))%nat →
  length (net_script n') = (length (net_script n) - k)%nat.
Proof. intros _ (_ & _ & -> & _) _. apply length_drop. Qed.

Lemma used_proper k n n' : used k n n' → proper u n → proper u n'.
Proof.
  intros (Hd & Ht & _ & Hx) [P1 P2 P3]. split; [by rewrite Ht | | by rewrite Hd].
  intros x [?| ->]%Hx; [by apply P2 | done].
Qed.

Lemma calm_pull c n :
  items_wf d → ready n → proper u n → (0 < length (net_script n))%nat → 0 ≤ c ≤ i64_max →
  cursor_gone u c d = false →
  ∃ n', used 1 n n' ∧ http_pull c n =
    (n', Ok (page_end u c d, overview_of <$> page_of u c d, bool_decide (100 < Z.of_nat (length (feed u c d))))).
Proof.
  intros Hwf Hr Hp Hlen Hc Hgone.
  destruct (calm_call (λ t tok, sync_pull (t_env t) (mkPullQuery c (Some 100)) tok)
    (λ body, Ok (pr_new_cursor body, omap pulled (pr_items body), pr_has_more body)) n
    (λ _, Ok (page u 100 c d)) Hr Hlen) as (n' & t & _ & Hu & Hcall).
  { intros t (_ & _ & Hs). rewrite (sync_pull_session _ _ _ u) by (done || simpl; lia). simpl.
    rewrite as_i64_small by (unfold is_i64, i64_min; lia). by rewrite Hgone. }
  exists n'. split; [done|]. fold (http_pull c) in Hcall. rewrite Hcall. f_equal.
  pose proof Hr as (Hd & _). pose proof Hu as (Hd' & _).
  destruct (pull_ok u c n n' _ _ _ Hcall) as (H1 & H2 & H3); [by rewrite Hd | by eapply used_proper | done |].
  rewrite Hd', Hd in H1, H2, H3. rewrite H1, H2, H3. done.
Qed.

Lemma calm_fetch r p n :
  ready n → (0 < length (net_script n))%nat → items d !! (i_uuid r, u) = Some r → i_payload r = Some p →
  ∃ n', used 1 n n' ∧ http_fetch_payload (i_uuid r) (as_u64 (i_version r)) n = (n', Ok p).
Proof.
  intros Hr Hlen Hi Hpay.
  destruct (calm_call (λ t tok, sync_pull_payloads (t_env t) tok [mkPullTarget (i_uuid r) (as_u64 (i_version r))])
    delivered n
    (λ _, Ok [mkPayloadResult (i_uuid r) "payload_delivered" (i_version r) (i_enc_key_gen r)
                (i_deleted_date r) (Some (b64_encode p))]) Hr Hlen) as (n' & t & _ & Hu & Hcall).
  { intros t (_ & _ & _ & Hv). unfold sync_pull_payloads. rewrite (auth_user_ok_bind _ _ u) by done.
    rewrite bind_run, guard_err_run, bool_decide_false by (simpl; lia). cbv beta iota. cbn [mapM].
    rewrite bind_run. unfold pull_payload, get_item. rewrite bind_run. cbn [pt_uuid pt_version].
    unfold call, map_err, gets. rewrite Hi. cbn. rewrite bool_decide_true by done. by rewrite Hpay. }
  exists n'. split; [done|]. unfold http_fetch_payload. rewrite Hcall. f_equal. simpl. by rewrite b64_roundtrip.
Qed.

(** ** The loop on calm turns *)

(** Everything there is to fetch has a payload. *)
Definition payloads_present (rs : list ItemRow) : Prop :=
  ∀ r, r ∈ rs → items d !! (i_uuid r, u) = Some r ∧ (i_deleted_date r = None → is_Some (i_payload r)).

Lemma used_0 n : used 0 n n.
Proof. split_and!; [done.. | by rewrite drop_0 | by left]. Qed.

Lemma calm_fetch_row e a r w :
  ready (remote w) → (0 < length (net_script (remote w)))%nat → payloads_present [r] →
  ∃ w' a' k, sync_fetch e a (overview_of r) w = (w', Ok a') ∧ used k (remote w) (remote w') ∧ (k ≤ 1)%nat ∧
    pg_failure a' = pg_failure a.
Proof.
  intros Hr Hlen Hrs. destruct (Hrs r ltac:(set_solver)) as [Hi Hpay].
  unfold sync_fetch, overview_of at 1. cbn [po_deleted po_uuid po_version].
  destruct (i_deleted_date r) as [t|] eqn:Hdel; simpl.
  { eexists _, _, O. split; [done|]. split; [apply used_0|]. split; [lia | done]. }
  rewrite bind_run. unfold attempt, on_remote, fetch_payload_if_allowed.
  destruct (is_ignored _ _).
  { eexists _, _, O. split; [done|]. split; [apply used_0|]. split; [lia | done]. }
  destruct (Hpay eq_refl) as [p Hp]. destruct (calm_fetch r p (remote w)) as (n' & Hu & Hf); [done..|].
  rewrite bind_run. simpl. rewrite Hf. simpl. eexists _, _, 1%nat. split; [done|].
  split; [done|]. split; [lia | done].
Qed.

Lemma calm_item e total a r w :
  ready (remote w) → (0 < length (net_script (remote w)))%nat → payloads_present [r] →
  ∃ w' a' k, sync_item e total a (overview_of r) w = (w', Ok a') ∧ used k (remote w) (remote w') ∧ (k ≤ 1)%nat ∧
    pg_failure a' = pg_failure a.
Proof.
  intros Hr Hlen Hrs. unfold sync_item. destruct (is_ignored _ _).
  { eexists _, _, O. split; [done|]. split; [apply used_0|]. split; [lia | done]. }
  destruct (calm_fetch_row e a r w Hr Hlen Hrs) as (w1 & a1 & k & Hf & Hu & Hk & Hfail).
  rewrite bind_run, Hf. destruct (progress_ok total a1 w1) as (w2 & i & p & Hpr). rewrite Hpr.
  eexists w2, _, k. split; [done|]. split; [|split; [lia | done]].
  unfold sync_progress in Hpr. case_bool_decide; injection Hpr as <- _; exact Hu.
Qed.

Lemma calm_items e total a rs w :
  ready (remote w) → (length rs ≤ length (net_script (remote w)))%nat → payloads_present rs →
  ∃ w' a' k, sync_items e total a (overview_of <$> rs) w = (w', Ok a') ∧ used k (remote w) (remote w') ∧
    (k ≤ length rs)%nat ∧ pg_failure a' = pg_failure a.
Proof.
  revert a w. induction rs as [|r rs IH]; intros a w Hr Hlen Hrs.
  { eexists w, a, O. split; [done|]. split; [apply used_0|]. split; [lia | done]. }
  simpl in Hlen. rewrite fmap_cons. cbn [sync_items]. rewrite bind_run.
  destruct (calm_item e total a r w) as (w1 & a1 & k & -> & Hu & Hk & Hf); [done | lia | |].
  { intros r' ->%list_elem_of_singleton. apply Hrs. left. }
  destruct (IH a1 w1) as (w2 & a2 & j & -> & Hu2 & Hj & Hf2).
  - by eapply used_ready.
  - rewrite (used_le k _ _ Hr Hu) by lia. lia.
  - intros r' Hr'. apply Hrs. by right.
  - eexists w2, a2, (k + j)%nat. split; [done|]. split; [by eapply used_trans|].
    simpl. split; [lia | congruence].
Qed.

(** What a calm page needs of the client. *)
Definition has_meta (w : World Net) : Prop := is_Some (sync_meta (c_db (client w)) !! 1).

Definition after_page (b : LocalBlacklist) (c : Z) (k : nat) (more : bool) (e : Engine)
    (progress : Z) (w : World Net) : Prop :=
  ∃ w' p', sync_page e progress false w = (w', Ok (mkEngine b (page_end u c d), p', false, more)) ∧
    used k (remote w) (remote w') ∧ has_meta w'.

Lemma calm_page b c progress w :
  items_wf d → ready (remote w) → proper u (remote w) → has_meta w → payloads_present (page_of u c d) →
  (1 + length (page_of u c d) ≤ length (net_script (remote w)))%nat → 0 ≤ c ≤ i64_max →
  cursor_gone u c d = false →
  ∃ k, (k ≤ 1 + length (page_of u c d))%nat ∧
    after_page b c k (bool_decide (100 < Z.of_nat (length (feed u c d)))) (mkEngine b c) progress w.
Proof.
  intros Hwf Hr Hp Hm Hpay Hlen Hc Hgone.
  destruct (calm_pull c (remote w)) as (n1 & Hu1 & Hpull); [done | done | done | lia | done | done |].
  set (w1 := mkWorld (client w) n1). set (e1 := mkEngine b (page_end u c d)).
  set (total := 1 `max` as_u32 (Z.of_nat (length (overview_of <$> page_of u c d)))).
  destruct (calm_items e1 total (mkPage 0 progress [] [] false) (page_of u c d) w1)
    as (w2 & a2 & k & Hit & Hu2 & Hk & Hf).
  { by eapply used_ready. }
  { cbn [w1 remote]. rewrite (used_le 1 _ _ Hr Hu1) by lia. lia. }
  { done. }
  pose proof (quiet_items e1 total (mkPage 0 progress [] [] false) (overview_of <$> page_of u c d) w1)
    as [_ [f Hq]]. rewrite Hit in Hq. cbn [fst] in Hq.
  destruct (persist_page_run a2 (page_end u c d) w2) as (w3 & f' & l' & Hpp & Hr3 & Hpg & _ & Hmeta).
  destruct Hmeta as [-> Hm3]; [by rewrite Hq|].
  exists (1 + k)%nat. split; [lia|]. exists w3, (pg_progress a2). split; [|split].
  - unfold sync_page, apply_page. rewrite bind_run. unfold on_remote at 1, pull_and_advance. rewrite bind_run. simpl.
    rewrite Hpull. simpl. rewrite bind_run. fold e1 w1 total. rewrite Hit. rewrite bind_run. simpl in Hpp.
    rewrite Hpp. by rewrite Hf.
  - rewrite Hr3. apply (used_trans 1 k _ n1); [done | exact Hu2].
  - unfold has_meta. by rewrite (paged_db _ _ _ Hpg).
Qed.

(** ** From page to page *)

Lemma gone_mono c c' : c ≤ c' → cursor_gone u c d = false → cursor_gone u c' d = false.
Proof.
  unfold cursor_gone. destruct (min_seq u d) as [m|]; [|done].
  rewrite !bool_decide_eq_false. lia.
Qed.

Lemma page_whole c : (length (feed u c d) ≤ 100)%nat → page_of u c d = feed u c d ∧ page_end u c d = last_seq c (feed u c d).
Proof. intros Hlen. unfold page_end, page_of. by rewrite take_ge. Qed.

(** A full page ends where the rest of the feed begins. *)
Lemma page_rest c :
  items_wf d → (100 < length (feed u c d))%nat →
  feed u (page_end u c d) d = drop 100 (feed u c d) ∧
  last_seq (page_end u c d) (feed u (page_end u c d) d) = last_seq c (feed u c d).
Proof.
  intros Hwf Hlen. destruct (take_last 100 (feed u c d)) as (l1 & x & l2 & Hf & Ht & Hd); [lia | lia|].
  assert (x ∈ feed u c d) as (k & s & _ & _ & Hs & _)%elem_of_feed by (rewrite Hf; set_solver).
  assert (page_end u c d = s) as He.
  { unfold page_end, page_of, last_seq. rewrite Ht, last_snoc. simpl. by rewrite Hs. }
  pose proof (feed_split u d Hwf c l1 x l2 s Hf Hs) as Hrest. rewrite He, Hrest. split; [done|].
  rewrite (last_seq_feed u d Hwf c l1 x l2 Hf). unfold seq_key. by rewrite Hs.
Qed.

Lemma calm_pages b pages c progress w :
  items_wf d → ready (remote w) → proper u (remote w) → has_meta w → payloads_present (feed u c d) →
  0 ≤ c ≤ i64_max → cursor_gone u c d = false →
  (length (feed u c d) ≤ 100 * pages)%nat → (1 ≤ pages)%nat →
  (2 * length (feed u c d) + 1 ≤ length (net_script (remote w)))%nat →
  ∃ w' k, sync_pages pages (mkEngine b c) progress false w =
      (w', Ok (mkEngine b (last_seq c (feed u c d)), false)) ∧
    used k (remote w) (remote w') ∧ (k ≤ 2 * length (feed u c d) + 1)%nat.
Proof.
  intros Hwf. revert c progress w. induction pages as [|pages IH];
    intros c progress w Hr Hp Hm Hpay Hc Hgone Hlen Hpos Hscript; [lia|].
  assert (length (page_of u c d) ≤ length (feed u c d))%nat as Hpl
    by (unfold page_of; rewrite length_take; lia).
  assert (payloads_present (page_of u c d)) as Hpay1.
  { intros r Hr'. apply Hpay. unfold page_of in Hr'. apply elem_of_take in Hr' as (i & Hi & _).
    by eapply list_elem_of_lookup_2. }
  destruct (calm_page b c progress w Hwf Hr Hp Hm Hpay1) as (k & Hk & w1 & p1 & Hpage & Hu & Hm1); [lia | done | done |].
  cbn [sync_pages]. rewrite bind_run, Hpage. cbv beta iota.
  destruct (decide (100 < length (feed u c d))%nat) as [Hmore|Hlast].
  2: { rewrite bool_decide_false by lia. destruct (page_whole c) as [Hw He]; [lia|]. rewrite He.
       exists w1, k. split; [done|]. split; [done|]. rewrite Hw in Hk. lia. }
  rewrite bool_decide_true by lia. destruct (page_rest c Hwf Hmore) as [Hfeed Hlastseq].
  assert (length (page_of u c d) = 100)%nat as Hfull by (unfold page_of; rewrite length_take; lia).
  assert (length (feed u (page_end u c d) d) = length (feed u c d) - 100)%nat as Hrest
    by (rewrite Hfeed, length_drop; lia).
  assert (c ≤ page_end u c d ≤ i64_max) as Hend.
  { destruct (page_end_spec u c d Hwf) as [[_ ->]|(k1 & r & Hr1 & Hk1 & Hs & Hlt)]; [lia|].
    pose proof Hr as (Hd & _). destruct (pr_rows _ _ Hp k1 r) as (_ & _ & Hfit); [by rewrite Hd | done|].
    specialize (Hfit _ Hs). lia. }
  destruct (IH (page_end u c d) p1 w1) as (w2 & j & -> & Hu2 & Hj).
  - by eapply used_ready.
  - by eapply used_proper.
  - done.
  - intros r Hr'. apply Hpay. rewrite Hfeed in Hr'. rewrite <-(take_drop 100 (feed u c d)).
    apply elem_of_app. by right.
  - lia.
  - apply (gone_mono c); [lia | done].
  - lia.
  - lia.
  - rewrite (used_le k _ _ Hr Hu) by lia. lia.
  - exists w2, (k + j)%nat. rewrite Hlastseq. split; [done|]. split; [by eapply used_trans | lia].
Qed.

(** ** After the pages *)

Lemma status_reads ρ tk d' : (Account.account_status ρ tk d').1 = d'.
Proof.
  enough (steps (same id) (Account.account_status ρ tk)) as Hm by apply Hm.
  steps_crawl ltac:(idtac; reflexivity).
Qed.

Lemma calm_gate g w :
  ready (remote w) → (0 < length (net_script (remote w)))%nat →
  ∃ w', update_epoch_gate g w = (w', Ok ()) ∧ used 1 (remote w) (remote w') ∧
    ∃ f h, client w' = with_bus f (with_epoch h (client w)).
Proof.
  intros Hr Hlen.
  destruct (calm_call (λ t tok, Account.account_status (t_env t) tok) status_body (remote w)
    (λ t, (Account.account_status (t_env t) tok d).2) Hr Hlen) as (n' & t & _ & Hu & Hcall).
  { intros t _. rewrite <-(status_reads (t_env t) tok d) at 2. by destruct (Account.account_status _ _ d). }
  fold http_account_status in Hcall. unfold update_epoch_gate. rewrite bind_run.
  unfold attempt, on_remote at 1. cbn [account_status HttpTransport]. rewrite Hcall.
  match goal with |- context [map_res _ ?r] => destruct r as [[g' bl]|err] end; cbn [map_res].
  - rewrite bind_run. unfold upd at 1, modify at 1. cbv beta iota. case_bool_decide.
    + eexists. split; [reflexivity|]. split; [exact Hu|]. by eexists _, _.
    + eexists. split; [reflexivity|]. split; [exact Hu|]. by exists id, (set_min_enc_key_gen g').
  - eexists. split; [reflexivity|]. split; [exact Hu|]. exists id, id. by destruct (client w).
Qed.

Lemma calm_finish e g w :
  ready (remote w) → (0 < length (net_script (remote w)))%nat →
  ∃ w', finish_sync e false g w = (w', Ok ()) ∧ used 1 (remote w) (remote w') ∧
    c_cursor (client w') = eng_cursor e ∧ c_blacklist (client w') = c_blacklist (client w).
Proof.
  intros Hr Hlen. unfold finish_sync. rewrite bind_run. unfold upd at 1, modify at 1. cbv beta iota.
  set (w1 := mkWorld (with_cursor _ _) _).
  destruct (calm_gate g w1 Hr Hlen) as (w2 & Hg & Hu & f & h & Hf).
  rewrite bind_run, Hg. cbv beta iota. rewrite bind_run, persist_if_dirty_run. cbv beta iota.
  eexists. split; [reflexivity|]. cbn. rewrite Hf. cbn.
  destruct (c_blacklist_dirty _); cbn; rewrite ?Hf; (split; [exact Hu | done]).
Qed.

Lemma feed_ends c k r s :
  items_wf d → items d !! k = Some r → k.2 = u → i_seq r = Some s → s ≤ last_seq c (feed u c d).
Proof.
  intros Hwf Hr Hk Hs. pose proof (feed_sorted u d c) as Hsort. unfold last_seq.
  destruct (decide (c < s)) as [Hlt|Hle].
  - assert (r ∈ feed u c d) as Hin by (apply elem_of_feed; eauto 10).
    destruct (list.last (feed u c d)) as [x|] eqn:Hlast.
    2: { apply last_None in Hlast. rewrite Hlast in Hin. by apply not_elem_of_nil in Hin. }
    apply last_Some in Hlast as [l Hl]. simpl.
    assert (x ∈ feed u c d) as (kx & sx & _ & _ & Hsx & _)%elem_of_feed by (rewrite Hl; set_solver).
    rewrite Hsx. rewrite Hl in Hin, Hsort. apply elem_of_app in Hin as [Hin| ->%list_elem_of_singleton].
    + apply StronglySorted_app in Hsort as (Hkeys & _). specialize (Hkeys r x Hin ltac:(set_solver)).
      unfold by_key, seq_key in Hkeys. rewrite Hs, Hsx in Hkeys. done.
    + simplify_eq. lia.
  - destruct (list.last (feed u c d)) as [x|] eqn:Hlast; simpl; [|lia].
    apply last_Some in Hlast as [l Hl].
    assert (x ∈ feed u c d) as (kx & sx & _ & _ & Hsx & ?)%elem_of_feed by (rewrite Hl; set_solver).
    rewrite Hsx. lia.
Qed.

(** C7. A calm sync completes.  Say the client agrees with its server up to its
    cursor, has its connection and its sync row, and its cursor has not
    expired; the session is live, every exchange is delivered and nobody else
    sends anything meanwhile; and of the changes after the cursor there are at
    most a million, each is the row the server has for its item, and each that
    is not a deletion has a payload (the server also takes rows without one,
    and such a row stops the cursor).  Then, given two exchanges per change and
    two more, the sync ends without error, at the last position of the feed,
    and holds every item of the account that it does not ignore. *)
Theorem calm_sync_completes w :
  items_wf d → ready (remote w) → proper u (remote w) → synced u w → c_transport (client w) = true →
  has_meta w → cursor_gone u (c_cursor (client w)) d = false →
  payloads_present (feed u (c_cursor (client w)) d) →
  Z.of_nat (length (feed u (c_cursor (client w)) d)) ≤ 1000000 →
  (2 * length (feed u (c_cursor (client w)) d) + 2 ≤ length (net_script (remote w)))%nat →
  ∃ w', sync w = (w', Ok ()) ∧
    c_cursor (client w') = last_seq (c_cursor (client w)) (feed u (c_cursor (client w)) d) ∧
    ∀ uuid r, items d !! (uuid, u) = Some r → is_Some (i_seq r) → c_blacklist (client w) !! uuid = None →
      holds_row (c_db (client w')) uuid r.
Proof.
  intros Hwf Hr Hp Hs Ht Hm Hgone Hpay Hlen Hscript. set (c := c_cursor (client w)) in *.
  pose proof Hs as [Hc _]. fold c in Hc. pose proof Hr as (Hdb & _).
  assert (net_db (remote w) = d) as Hdb' by done.
  pose proof (sync_synced u w ltac:(by rewrite Hdb)) as Hsync. rewrite sync_run, Ht in Hsync |- *.
  fold c in Hsync |- *. set (w0 := mkWorld _ _) in *.
  destruct (calm_pages (c_blacklist (client w)) MAX_PAGES c 0 w0) as (w1 & k & Hpages & Hu & Hk);
    [exact Hwf | exact Hr | exact Hp | exact Hm | exact Hpay | exact Hc | exact Hgone
    | unfold MAX_PAGES; lia | unfold MAX_PAGES; lia | cbn [w0 remote]; lia|].
  pose proof (framed_pages MAX_PAGES (mkEngine (c_blacklist (client w)) c) 0 false w0) as [_ (l1 & f & Hf)].
  rewrite bind_run in Hsync |- *. rewrite Hpages in Hsync, Hf |- *. cbn [fst snd] in Hsync, Hf |- *.
  pose proof (used_ready _ _ _ Hu Hr) as Hr1.
  assert (0 < length (net_script (remote w1)))%nat as Hlen1.
  { rewrite (used_le k _ _ Hr Hu) by (cbn [w0 remote]; lia). cbn [w0 remote]. lia. }
  destruct (calm_finish (mkEngine (c_blacklist (client w)) (last_seq c (feed u c d)))
    (current_key_gen (client w)) w1 Hr1 Hlen1) as (w2 & Hfin & Hu2 & Hcur & Hbl).
  rewrite Hfin in Hsync |- *. cbn [fst] in Hsync. exists w2. split; [done|]. split; [done|].
  intros uuid r Hi [s Hseq] Hb.
  destruct Hsync as [_ [_ Hrows]]; [by eapply used_proper; [|eapply used_proper] | done|].
  apply (Hrows (uuid, u) r s); [|done|done| |].
  - destruct Hu2 as (-> & _). destruct Hu as (-> & _). cbn [w0 remote]. by rewrite Hdb.
  - rewrite Hcur. by eapply feed_ends.
  - rewrite Hbl, Hf. exact Hb.
Qed.
End Calm.

(** ** A witness *)
Section CalmWitness.
#[local] Existing Instances Concrete.toy_ext toy_webauthn.

Definition calm_demo : World Net := demo_world created (replicate 6 (demo_turn [] Delivered)).

Lemma calm_sync_completes_witness :
  ∃ w', sync calm_demo = (w', Ok ()) ∧ c_cursor (client w') = 2 ∧
    ∀ r, items created !! ("i1", "alice") = Some r → is_Some (i_seq r) →
      holds_row (c_db (client w')) "i1" r.
Proof.
  destruct (calm_sync_completes "alice" "sess" created calm_demo) as (w' & Hs & Hc & Hrows).
  - apply created_wf.
  - split_and!; [reflexivity..|]. apply Forall_replicate. split_and!; [reflexivity..|].
    split; [reflexivity | by apply session_demo].
  - apply proper_check; vm_compute; reflexivity.
  - split; [vm_compute; split; discriminate|]. apply mirror_start, created_wf.
  - reflexivity.
  - by eexists.
  - vm_compute. reflexivity.
  - intros r Hr. apply (list_elem_of_In _ _) in Hr. vm_compute in Hr.
    destruct Hr as [<-|[<-|[]]]; (split; [vm_compute; reflexivity | by eexists]).
  - vm_compute. discriminate.
  - vm_compute. lia.
  - exists w'. split; [exact Hs|]. split; [rewrite Hc; vm_compute; reflexivity|].
    intros r Hr Hseq. by apply Hrows.
Defined.
End CalmWitness.
