(* ===== verification/Devices.v ===== *)
(** * Where a device gets stuck

    What the syncs of Mirror.v do not achieve, for any interleaving of other
    requests and any loss of messages: a device whose cursor fell behind the
    first position of the feed never syncs again, and an item the cursor has
    passed is neither fetched nor dropped until someone changes it, also when
    a restart moved the cursor past a download that had failed. *)
From S2P Require Import Prelude Domain Database Concrete Users Items Tokens Sync.
From S2P Require Import Projects Mfa Auth Webauthn System History.
From S2P Require Import ClientDb ClientSync Crypto Client Replica Http Mirror.

Local Open Scope Z_scope.

(** The server answers this device's next pull 410. *)
Definition fell_behind (u : string) (w : World Net) : Prop :=
  0 ≤ c_cursor (client w) ≤ i64_max ∧ cursor_gone u (c_cursor (client w)) (net_db (remote w)) = true.

Section Stranded.
Context {EXT : Ext} {WA : WebauthnRs}.
Context (u : string).

(** ** The first position of the feed only moves forward *)

Lemma gone_forever c d d' :
  items_wf d → sync_le d d' → cursor_gone u c d = true → cursor_gone u c d' = true.
Proof.
  intros Hwf Hle. destruct (Hle Hwf) as (Hwf' & Hocc & Hfeed). destruct (Hfeed u) as [_ Hch].
  unfold cursor_gone. pose proof (min_seq_spec u d) as Hm. pose proof (min_seq_spec u d') as Hm'.
  destruct (min_seq u d) as [m|]; [|done]. destruct Hm as [(k & r & Hr & Hk & Hs) Hmin].
  rewrite bool_decide_eq_true. intros Hlt.
  assert (∀ k2 r2 s2, items d' !! k2 = Some r2 → k2.2 = u → i_seq r2 = Some s2 → m ≤ s2) as Hmin'.
  { intros k2 r2 s2 Hr2 Hk2 Hs2. destruct (Hch _ _ Hr2 Hk2) as [Hold|(s & Hs' & Hgt)]; [by eapply Hmin|].
    pose proof (max_seq_ge u _ _ _ _ Hr Hk Hs). simplify_eq. lia. }
  destruct (Hocc _ _ Hr) as (r' & Hr' & _).
  destruct (min_seq u d') as [m'|].
  - destruct Hm' as [(k2 & r2 & H1 & H2 & H3) _]. specialize (Hmin' _ _ _ H1 H2 H3).
    apply bool_decide_eq_true. unfold i64_saturating_sub in *. lia.
  - specialize (Hm' _ _ Hr' Hk). exfalso.
    destruct (Hch _ _ Hr' Hk) as [Hold|(s & Hs' & _)]; congruence.
Qed.

Lemma gone_pull c n n' r :
  http_pull c n = (n', r) → items_wf (net_db n) → (∀ x, x ∈ net_served n' → x = u) →
  0 ≤ c ≤ i64_max → cursor_gone u c (net_db n) = true → is_ok r = false.
Proof.
  intros Hf Hwf Hserved Hc Hgone. destruct r as [b|]; [|done]. exfalso.
  pose proof (pull_le c n) as (Hle & _). rewrite Hf in Hle. cbn [fst] in Hle.
  apply net_call_ok in Hf as (t & d & resp & _ & Hm & _ & Hs).
  apply sync_pull_ok in Hm as (cl & Ha & _ & Hlive); [|simpl; lia].
  assert (user_id cl = u) as Hcl.
  { apply Hserved. rewrite Hs. apply elem_of_app. right. unfold served_for. rewrite Ha. by left. }
  rewrite Hcl in Hlive. cbn [pq_cursor] in Hlive. rewrite as_i64_small in Hlive by (unfold is_i64, i64_min; lia).
  by rewrite (gone_forever _ _ _ Hwf Hle Hgone) in Hlive.
Qed.

Lemma gone_page e progress failed w w' r :
  sync_page e progress failed w = (w', r) → items_wf (net_db (remote w)) →
  (∀ x, x ∈ net_served (remote w') → x = u) → 0 ≤ eng_cursor e ≤ i64_max →
  cursor_gone u (eng_cursor e) (net_db (remote w)) = true → is_ok r = false ∧ client w' = client w.
Proof.
  intros Hs Hwf Hserved Hc Hgone. rewrite sync_page_run in Hs. cbn [pull HttpTransport] in Hs.
  destruct (http_pull (eng_cursor e) (remote w)) as [n1 [[[next ovs] more]|err]] eqn:Hpull;
    [|by injection Hs as <- <-].
  pose proof (framed_apply progress failed (mkEngine (eng_blacklist e) next, ovs, more)
    (mkWorld (client w) n1)) as [(_ & _ & Hpre) _].
  rewrite Hs in Hpre. cbn [fst remote] in Hpre.
  discriminate (gone_pull _ _ _ _ Hpull Hwf (λ x Hx, Hserved x (elem_of_prefix _ _ _ Hx Hpre)) Hc Hgone).
Qed.

(** What a sync does when its first pull is refused. *)
Lemma gone_sync w w' r :
  sync w = (w', r) → items_wf (net_db (remote w)) → (∀ x, x ∈ net_served (remote w') → x = u) →
  let c := c_cursor (client w) in 0 ≤ c ≤ i64_max → cursor_gone u c (net_db (remote w)) = true →
  is_ok r = false ∧ c_cursor (client w') = c ∧ c_db (client w') = c_db (client w).
Proof.
  intros Hs Hwf Hserved c Hc Hgone. rewrite sync_run in Hs. fold c in Hs.
  destruct (c_transport (client w)); [|by injection Hs as <- <-].
  assert (∃ k, MAX_PAGES = S k) as [k Hk] by (exists (pred MAX_PAGES); unfold MAX_PAGES; lia).
  rewrite Hk in Hs. cbn [sync_pages] in Hs. rewrite bind_run in Hs. rewrite bind_run in Hs.
  set (w0 := mkWorld _ _) in Hs. set (e := mkEngine _ c) in Hs.
  destruct (sync_page e 0 false w0) as [w1 r1] eqn:Hpage.
  destruct r1 as [[[[e1 p1] f1] more]|err].
  - exfalso. assert (srv_le w1 w') as (_ & _ & Hpre).
    { destruct more; cbv beta iota in Hs.
      - pose proof (framed_pages k e1 p1 f1 w1) as [Hn _].
        destruct (sync_pages k e1 p1 f1 w1) as [w2 [[e2 f2]|err]]; cbn [fst] in Hn.
        + pose proof (srv_finish e2 f2 (current_key_gen (client w)) w2) as Hn2.
          cbn [fst snd] in Hs. rewrite Hs in Hn2. etransitivity; [exact Hn | exact Hn2].
        + injection Hs as <- _. exact Hn.
      - pose proof (srv_finish e1 f1 (current_key_gen (client w)) w1) as Hn2.
        cbn [fst snd mret M_ret] in Hs. rewrite Hs in Hn2. exact Hn2. }
    destruct (gone_page _ _ _ _ _ _ Hpage Hwf (λ x Hx, Hserved x (elem_of_prefix _ _ _ Hx Hpre)) Hc Hgone).
    done.
  - injection Hs as <- <-. split; [done|].
    destruct (gone_page _ _ _ _ _ _ Hpage Hwf Hserved Hc Hgone) as [_ ->]. done.
Qed.

(** C39. A device that fell behind never catches up: once the first position
    of the account's feed is past the one after the device's cursor (for a
    new device, once the oldest item was changed), every later sync fails and
    leaves the device's cursor and tables as they were, whatever anyone does
    meanwhile; the client has no way back from the server's 410. *)
Theorem stranded_device_never_syncs k w :
  items_wf (net_db (remote w)) → fell_behind u w → let w' := syncs k w in
  (∀ x, x ∈ net_served (remote (sync w').1) → x = u) →
  c_cursor (client w') = c_cursor (client w) ∧ c_db (client w') = c_db (client w) ∧
  is_ok (sync w').2 = false.
Proof.
  intros Hwf [Hc Hgone] w' Hserved.
  enough (c_cursor (client w') = c_cursor (client w) ∧ c_db (client w') = c_db (client w)) as [Hcur Hdb].
  { split; [exact Hcur|]. split; [exact Hdb|].
    destruct (sync w') as [w2 r] eqn:Hs. cbn [fst snd] in *.
    pose proof (syncs_later k w) as (Hle & _). destruct (Hle Hwf) as [Hwf' _].
    destruct (gone_sync _ _ _ Hs Hwf' Hserved) as (Hr & _); [by rewrite Hcur | | exact Hr].
    rewrite Hcur. exact (gone_forever _ _ _ Hwf Hle Hgone). }
  pose proof (srv_sync w') as (_ & _ & Hpre).
  assert (∀ x, x ∈ net_served (remote w') → x = u) as Hsv
    by (intros x Hx; apply Hserved; by eapply elem_of_prefix).
  clear Hserved Hpre. subst w'. induction k as [|k IH]; [done|]. simpl in *.
  pose proof (srv_sync (syncs k w)) as (_ & _ & Hpre).
  destruct IH as [IH1 IH2]; [intros x Hx; apply Hsv; by eapply elem_of_prefix|].
  destruct (sync (syncs k w)) as [w2 r] eqn:Hs. simpl in *.
  pose proof (syncs_later k w) as (Hle & _). destruct (Hle Hwf) as [Hwf' _].
  destruct (gone_sync _ _ _ Hs Hwf' Hsv) as (_ & -> & ->); [by rewrite IH1 | | done].
  rewrite IH1. exact (gone_forever _ _ _ Hwf Hle Hgone).
Qed.
End Stranded.

(** ** What lies behind the cursor stays *)
Section Behind.
Context {EXT : Ext} {WA : WebauthnRs} {LAWS : ExtLaws}.
Context (u x : string) (row : ItemRow) (s : Z).
Context (Hseq : i_seq row = Some s).
Implicit Types (d : Db) (w : World Net).

Definition unchanged d : Prop := items d !! (x, u) = Some row.

Lemma unchanged_between d1 d2 d3 :
  items_wf d1 → sync_le d1 d2 → sync_le d2 d3 → unchanged d1 → unchanged d3 → unchanged d2.
Proof.
  unfold unchanged. intros Hwf H12 H23 H1 H3. destruct (H12 Hwf) as (Hwf2 & Hocc & _).
  destruct (Hocc _ _ H1) as (r2 & H2 & Hv & Hsame). destruct (H23 Hwf2) as (_ & Hocc2 & _).
  destruct (Hocc2 _ _ H2) as (r3 & H3' & Hv2 & _). simplify_eq.
  assert (i_version r2 = i_version row) as Heq by lia. by rewrite (Hsame Heq) in H2.
Qed.

(** What the device holds of the item. *)
Definition held (l : Local) : option OverviewRow * option blob := (overviews l !! x, payloads l !! x).

Lemma behind_page e progress failed w w' r :
  sync_page e progress failed w = (w', r) → items_wf (net_db (remote w)) → proper u (remote w') →
  unchanged (net_db (remote w)) → unchanged (net_db (remote w')) →
  0 ≤ s ≤ eng_cursor e → eng_cursor e ≤ i64_max →
  held (c_db (client w')) = held (c_db (client w)) ∧
  match r with Ok (e', _, _, _) => eng_cursor e ≤ eng_cursor e' ≤ i64_max | Err _ => True end.
Proof.
  intros Hs Hwf Hp Hu Hu' Hc Hc'. pose proof (page_applied _ _ _ _ _ _ _ Hs Hwf Hp ltac:(lia)) as Hpage.
  destruct r as [[[[e' p] f'] more]|err]; [|by rewrite Hpage].
  destruct Hpage as (d & Hle1 & Hle2 & Hwfd & -> & Hend & _ & [Hout _]). split; [|exact Hend].
  pose proof (unchanged_between _ _ _ Hwf Hle1 Hle2 Hu Hu') as Hd.
  unfold held. destruct (Hout x) as [-> ->]; [|done]. intros r Hr Hx.
  pose proof (page_rows_of u _ _ Hwfd _ Hr) as Hi. destruct (page_row_seq _ _ _ _ Hr) as (s' & Hs' & Hlt).
  rewrite Hx in Hi. unfold unchanged in Hd. simplify_eq. lia.
Qed.

Lemma behind_pages k e progress failed w w' r :
  sync_pages k e progress failed w = (w', r) → items_wf (net_db (remote w)) → proper u (remote w') →
  unchanged (net_db (remote w)) → unchanged (net_db (remote w')) →
  0 ≤ s ≤ eng_cursor e → eng_cursor e ≤ i64_max →
  held (c_db (client w')) = held (c_db (client w)) ∧
  match r with Ok (e', _) => eng_cursor e ≤ eng_cursor e' ≤ i64_max | Err _ => True end.
Proof.
  revert e progress failed w. induction k as [|k IH]; intros e progress failed w Hs Hwf Hp Hu Hu' Hc Hc';
    cbn [sync_pages] in Hs; [by injection Hs as <- <-|].
  rewrite bind_run in Hs. pose proof (framed_page e progress failed w) as [Hle _].
  destruct (sync_page e progress failed w) as [w1 r1] eqn:Hpage. cbn [fst] in Hle.
  destruct (proj1 Hle Hwf) as (Hwf1 & _).
  assert (srv_le w1 w') as Hle1.
  { destruct r1 as [[[[e1 p1] f1] more]|err]; [|injection Hs as <- _; reflexivity].
    destruct more; [|injection Hs as <- _; reflexivity].
    pose proof (framed_pages k e1 p1 f1 w1) as [Hn _]. by rewrite Hs in Hn. }
  pose proof (proper_before _ _ _ Hle1 Hwf1 Hp) as Hp1.
  pose proof (unchanged_between _ _ _ Hwf (proj1 Hle) (proj1 Hle1) Hu Hu') as Hu1.
  destruct (behind_page _ _ _ _ _ _ Hpage Hwf Hp1 Hu Hu1 Hc Hc') as [Hheld Hcur].
  destruct r1 as [[[[e1 p1] f1] more]|err]; [|by injection Hs as <- <-].
  destruct more; [|by injection Hs as <- <-; split; [|lia]].
  destruct (IH _ _ _ _ Hs Hwf1 Hp Hu1 Hu' ltac:(lia) ltac:(lia)) as [Hh Hr]. split; [congruence|].
  destruct r as [[e2 f2]|err]; [lia | done].
Qed.

Lemma behind_sync w w' r :
  sync w = (w', r) → items_wf (net_db (remote w)) → proper u (remote w') →
  unchanged (net_db (remote w)) → unchanged (net_db (remote w')) →
  0 ≤ s ≤ c_cursor (client w) → c_cursor (client w) ≤ i64_max →
  held (c_db (client w')) = held (c_db (client w)) ∧ c_cursor (client w) ≤ c_cursor (client w') ≤ i64_max.
Proof.
  intros Hs Hwf Hp Hu Hu' Hc Hc'. rewrite sync_run in Hs.
  destruct (c_transport (client w)); [|injection Hs as <- _; split; [done | lia]].
  set (e := mkEngine _ _) in *. set (w0 := mkWorld _ _) in *. rewrite bind_run in Hs.
  pose proof (framed_pages MAX_PAGES e 0 false w0) as [Hle (l' & f & Hf)].
  destruct (sync_pages MAX_PAGES e 0 false w0) as [w1 r1] eqn:Hpages. cbn [fst] in Hle, Hf.
  destruct (proj1 Hle Hwf) as (Hwf1 & _).
  assert (c_cursor (client w1) = c_cursor (client w)) as Hc1 by by rewrite Hf.
  destruct r1 as [[e1 f1]|err]; cbv beta iota in Hs.
  2: { injection Hs as <- _. rewrite Hc1.
       destruct (behind_pages _ _ _ _ _ _ _ Hpages Hwf Hp Hu Hu' Hc Hc') as [Hh _]. split; [exact Hh | lia]. }
  pose proof (srv_finish e1 f1 (current_key_gen (client w)) w1) as Hle1.
  cbn [fst snd] in Hs. rewrite Hs in Hle1. cbn [fst] in Hle1.
  pose proof (unchanged_between _ _ _ Hwf (proj1 Hle) (proj1 Hle1) Hu Hu') as Hu1.
  destruct (behind_pages _ _ _ _ _ _ _ Hpages Hwf (proper_before _ _ _ Hle1 Hwf1 Hp) Hu Hu1 Hc Hc') as [Hh Hcur].
  cbn [eng_cursor e] in Hcur.
  pose proof (finish_settled e1 f1 (current_key_gen (client w)) w1) as [_ Hsame].
  rewrite Hs in Hsame. injection Hsame as Hc2 _ Ho Hpl. cbn [fst] in *.
  unfold held in *. rewrite Ho, Hpl, Hc2. destruct f1; (split; [exact Hh | simpl; lia]).
Qed.

(** What lies behind the cursor stays: a sync neither fetches nor drops an
    item whose position the cursor has passed, until someone changes it on the
    server.  After a restart the cursor is the end of the last page that was
    stored, past items of the page whose download had failed: they are never
    downloaded. *)
Theorem behind_cursor_stays k w :
  items_wf (net_db (remote w)) → proper u (remote (syncs k w)) →
  unchanged (net_db (remote w)) → unchanged (net_db (remote (syncs k w))) →
  0 ≤ s ≤ c_cursor (client w) → c_cursor (client w) ≤ i64_max →
  held (c_db (client (syncs k w))) = held (c_db (client w)).
Proof.
  intros Hwf Hp Hu Hu' Hc Hmax.
  enough (held (c_db (client (syncs k w))) = held (c_db (client w)) ∧
          c_cursor (client w) ≤ c_cursor (client (syncs k w)) ≤ i64_max) by tauto.
  induction k as [|k IH]; simpl in *; [split; [done | lia]|].
  destruct (sync (syncs k w)) as [w' r] eqn:Hs. cbn [fst] in *.
  pose proof (srv_sync (syncs k w)) as Hle2. rewrite Hs in Hle2. cbn [fst] in Hle2.
  pose proof (syncs_later k w) as Hle1. destruct (proj1 Hle1 Hwf) as [Hwf1 _].
  pose proof (unchanged_between _ _ _ Hwf (proj1 Hle1) (proj1 Hle2) Hu Hu') as Hu1.
  destruct IH as [IH1 IH2]; [by eapply proper_before | done |].
  destruct (behind_sync _ _ _ Hs Hwf1 Hp Hu1 Hu' ltac:(lia) ltac:(lia)) as [H1 H2].
  split; [congruence | lia].
Qed.
End Behind.

(** ** Witnesses *)
Section DevicesWitnesses.
#[local] Existing Instances Concrete.toy_ext toy_webauthn.

(** A new device, when the account's first item was changed since. *)
Definition stranded_demo : World Net := demo_world changed (replicate 6 (demo_turn [] Delivered)).

Lemma stranded_device_never_syncs_witness :
  let w' := syncs 2 stranded_demo in
  c_cursor (client w') = 0 ∧ c_db (client w') = fresh_local ∧ is_ok (sync w').2 = false.
Proof.
  apply (stranded_device_never_syncs "alice" 2 stranded_demo changed_wf).
  - split; vm_compute; [split; discriminate | reflexivity].
  - intros x Hx. apply list_elem_of_In in Hx. vm_compute in Hx. intuition congruence.
Defined.

(** The download of the first item is lost, the page is stored with the second,
    and the application restarts. *)
Definition restart_demo : World Net :=
  (load_persisted_cursor
    (sync (demo_world created
      (demo_turn [] Delivered :: demo_turn [] ResponseLost :: replicate 8 (demo_turn [] Delivered)))).1).1.

Lemma behind_cursor_stays_witness :
  c_cursor (client restart_demo) = 2 ∧ held "i1" (c_db (client restart_demo)) = (None, None) ∧
  held "i1" (c_db (client (syncs 1 restart_demo))) = (None, None).
Proof.
  split; [vm_compute; reflexivity|].
  assert (held "i1" (c_db (client restart_demo)) = (None, None)) as Hnone by (vm_compute; reflexivity).
  split; [exact Hnone|]. rewrite <-Hnone.
  apply (behind_cursor_stays "alice" "i1" demo_row 1 eq_refl 1 restart_demo).
  - assert (net_db (remote restart_demo) = created) as -> by (vm_compute; reflexivity). apply created_wf.
  - apply proper_check; vm_compute; reflexivity.
  - vm_compute. reflexivity.
  - vm_compute. reflexivity.
  - vm_compute. split; discriminate.
  - vm_compute. discriminate.
Defined.
End DevicesWitnesses.
