(* ===== verification/Pushes.v ===== *)
(** * What a push does not do

    A device between two syncs: it saves, deletes, queues and pushes, and
    messages may be lost.  Shows that the server's set of items never changes,
    so that an item made on a device becomes an item of the server only when
    the user forces the conflict of its push, and that one tombstone in
    conflict, or more than a hundred of them, keep every recorded delete for
    good. *)
From S2P Require Import Prelude Domain Database Concrete Users Items Tokens Sync.
From S2P Require Import Projects Mfa Auth Webauthn System History.
From S2P Require Import ClientDb ClientSync Crypto Client Replica Http Mirror.

Local Open Scope Z_scope.

(** ** A device creates no item *)
Section Creation.
Context {EXT : Ext} {WA : WebauthnRs}.
Implicit Types (d : Db) (n : Net) (w : World Net).

Definition item_keys d : gset (string * string) := dom (items d).

Lemma keys_update uuid u t g p del now : steps (same item_keys) (occ_update uuid u t g p del now).
Proof.
  intros d. unfold occ_update. rewrite bind_run. unfold gets at 1, id. cbv beta iota.
  destruct (items d !! (uuid, u)) as [r|] eqn:Hr; [|reflexivity].
  case_bool_decide; [|reflexivity]. unfold same, item_keys. simpl.
  rewrite dom_insert_L. apply elem_of_dom_2 in Hr. set_solver.
Qed.

Lemma keys_upsert uuid u t g p del now :
  t ≠ 0 → steps (same item_keys) (upsert_item_occ uuid u t g p del now).
Proof.
  intros Ht. unfold upsert_item_occ, require, min_enc_key_gen, get_item.
  rewrite (bool_decide_false (t = 0)) by done. pose proof keys_update. steps_tac.
Qed.

Lemma keys_push_item u now p :
  1 ≤ ph_target_version p ≤ i64_max → steps (same item_keys) (push_item u now p).
Proof.
  intros Ht. unfold push_item, call, min_enc_key_gen, get_item, decode_b64.
  rewrite as_i64_small by (unfold is_i64, i64_min; lia).
  assert (∀ g pl del, steps (same item_keys)
    (upsert_item_occ (ph_uuid p) u (ph_target_version p) g pl del now)) as Hup
    by (intros g pl del; apply keys_upsert; lia).
  steps_tac; by intros d.
Qed.

Lemma keys_push_batch ρ tok l :
  Forall (λ p, 1 ≤ ph_target_version p ≤ i64_max) l →
  steps (same item_keys) (sync_push_batch ρ tok l).
Proof.
  intros Hl. unfold sync_push_batch. apply steps_bind; [apply _ | | intros u].
  { unfold auth_user. steps_tac; by intros d. }
  apply steps_bind; [apply _ | apply steps_guard, _ | intros _].
  induction Hl as [|p l Hp Hl IH]; simpl; [apply steps_ret, _|].
  apply steps_bind; [apply _ | by apply keys_push_item | intros r].
  apply steps_bind; [apply _ | exact IH | intros rs; apply steps_ret, _].
Qed.

Abbreviation creates_nothing := (alone item_keys).

Definition numbered_push (p : Push) : Prop := 1 ≤ p.1.1.2 ≤ i64_max.

Lemma nothing_pushed l : Forall numbered_push l → steps creates_nothing (engine_push_batch l).
Proof.
  intros Hl. unfold engine_push_batch. apply steps_bind; [apply _ | | intros os].
  2: { apply steps_bind; [apply _ | apply steps_guard, _ | intros _; apply steps_ret, _]. }
  intros n. cbn [push_batch HttpTransport]. unfold http_push_batch. apply net_call_alone. intros t.
  apply keys_push_batch, Forall_fmap. eapply Forall_impl; [exact Hl|]. by intros [[[x v] g] p].
Qed.

(** Every recorded version is one the server could have given, or the one a
    new item is saved with. *)
Record numbered (l : Local) : Prop := {
  nb_overviews x o : overviews l !! x = Some o → 1 ≤ ov_version o ≤ i64_max;
  nb_pending x p : pending_deletes l !! x = Some p → 1 ≤ pd_version p ≤ i64_max }.

Definition device_le w w' : Prop :=
  numbered (c_db (client w)) → numbered (c_db (client w')) ∧ creates_nothing (remote w) (remote w').

#[local] Instance device_le_preorder : PreOrder device_le.
Proof.
  split; [intros w H; done|]. intros w1 w2 w3 A B H1. destruct (A H1) as [H2 E1].
  destruct (B H2) as [H3 E2]. split; [done | by etransitivity].
Qed.

Lemma numbered_rows l :
  numbered l → Forall numbered_push (push_of <$> ((λ r, (r.1.1, ov_version r.1.2, as_u64 (ov_enc_key_gen r.1.2), r.2)) <$> joined l)).
Proof.
  intros Hl. rewrite <-list_fmap_compose. apply Forall_fmap, Forall_forall. intros [[u o] p] Hr. simpl.
  unfold joined in Hr. apply list_elem_of_omap in Hr as ([x o'] & Hx & Hr). simpl in Hr.
  apply elem_of_map_to_list, (nb_overviews _ Hl) in Hx.
  destruct (uuid_parse x); [|done]. destruct (payloads l !! x); [|done]. simpl in Hr. simplify_eq.
  unfold numbered_push. simpl. by rewrite as_u64_small by (unfold is_u64, u64_max, i64_max in *; lia).
Qed.

Lemma numbered_tombstones l : numbered l → Forall numbered_push (omap tombstone_push (pending_rows l)).
Proof.
  intros Hl. apply Forall_forall. intros p Hp. unfold pending_rows in Hp.
  apply list_elem_of_omap in Hp as (r & Hr & Hp). apply list_elem_of_fmap in Hr as ([x q] & -> & Hx).
  apply elem_of_map_to_list, (nb_pending _ Hl) in Hx. unfold tombstone_push in Hp. simpl in Hp.
  destruct (uuid_parse x); [|done]. simpl in Hp. simplify_eq. unfold numbered_push. simpl.
  by rewrite as_u64_small by (unfold is_u64, u64_max, i64_max in *; lia).
Qed.

Lemma numbered_flushed l : numbered l → numbered (flushed l).
Proof.
  intros [H1 H2]. split; simpl; [done|]. intros x p. rewrite drop_keys_lookup. case_decide; [done|]. apply H2.
Qed.

Lemma nothing_remote {A} ctx (m : M Net TransportError A) :
  steps creates_nothing m → steps device_le (on_remote ctx m).
Proof.
  intros Hm w Hl. specialize (Hm (remote w)). unfold on_remote. by destruct (m (remote w)) as [n r].
Qed.

(** The client changes, but not its tables. *)
Lemma nothing_upd f : (∀ c, c_db (f c) = c_db c) → steps device_le (upd (W:=Net) f).
Proof. intros Hf w Hl. simpl. rewrite Hf. split; [done | reflexivity]. Qed.
Lemma nothing_publish ev : steps device_le (publish (W:=Net) ev).
Proof. by apply nothing_upd. Qed.
#[local] Hint Resolve nothing_publish : steps.

Lemma numbered_saved x o p y l :
  numbered l → 1 ≤ ov_version o ≤ i64_max → numbered (save_item_txn x o p y l).1.
Proof.
  intros [H1 H2] Ho. split; simpl; [|done]. intros z o'. destruct (decide (z = x)) as [->|Hne].
  - rewrite lookup_partial_alter_eq. intros [= <-]. by destruct (overviews l !! x).
  - rewrite lookup_partial_alter_ne by done. apply H1.
Qed.

Lemma numbered_db {A} ctx (m : local A) w :
  (numbered (c_db (client w)) → numbered (m (c_db (client w))).1) → device_le w (on_db ctx m w).1.
Proof.
  intros Hm Hl. specialize (Hm Hl). unfold on_db. destruct (m (c_db (client w))) as [l r]. done.
Qed.

Lemma numbered_transaction {A} (m : local A) l :
  numbered l → numbered (m l).1 → numbered (transaction m l).1.
Proof. intros Hl Hm. unfold transaction. by destruct (m l) as [l' [a|e]]. Qed.

Lemma nothing_gate a b : steps device_le (verify_epoch (W:=Net) a b).
Proof. unfold verify_epoch, cl. steps_tac. Qed.
#[local] Hint Resolve nothing_gate : steps.

Lemma commit_save_le cmd : steps device_le (commit_save (W:=Net) cmd).
Proof.
  unfold commit_save. cbv zeta. apply steps_bind; [apply _ | apply nothing_gate | intros _ w].
  rewrite bind_run, read_db_run. apply numbered_db. intros Hl.
  apply numbered_transaction; [done|]. apply numbered_saved; [done|]. cbn [ov_version].
  destruct (overviews _ !! _) as [o|] eqn:Ho; simpl; [exact (nb_overviews _ Hl _ _ Ho) | unfold i64_max; lia].
Qed.

Lemma numbered_deleted x l : numbered l →
  numbered ((o ← gets (λ l, overviews l !! x);
     match o with
     | Some row => record_pending_delete_txn x (ov_version row) (ov_enc_key_gen row)
     | None => mret ()
     end;;
     modify (with_overviews (delete x));; modify (with_payloads (delete x)) : local ()) l).1.
Proof.
  intros [H1 H2]. rewrite bind_run. unfold gets. cbv beta iota.
  assert (∀ z o, delete x (overviews l) !! z = Some o → 1 ≤ ov_version o ≤ i64_max) as H3.
  { intros z o Hz. apply lookup_delete_Some in Hz as [_ Hz]. by eapply H1. }
  destruct (overviews l !! x) as [row|] eqn:Ho; (split; simpl; [exact H3|]); [|exact H2].
  intros z p. rewrite lookup_insert_Some. intros [[_ <-]|[_ Hz]]; [exact (H1 _ _ Ho) | by eapply H2].
Qed.

Lemma commit_delete_le cmd : steps device_le (commit_delete (W:=Net) cmd).
Proof.
  unfold commit_delete. apply steps_bind; [apply _ | apply nothing_gate | intros _ w].
  apply numbered_db. intros Hl. apply numbered_transaction; [done | by apply numbered_deleted].
Qed.
#[local] Hint Resolve commit_save_le commit_delete_le : steps.

Lemma save_item_le item p : steps device_le (save_item (W:=Net) item p).
Proof. unfold save_item, worker_save, next_receipt, cl. steps_tac; by apply nothing_upd. Qed.
Lemma delete_item_le x : steps device_le (delete_item (W:=Net) x).
Proof. unfold delete_item, worker_delete, next_receipt, cl. steps_tac; by apply nothing_upd. Qed.

Lemma chunk_le chunk :
  Forall numbered_push (push_of <$> chunk) → steps device_le (push_chunk (W:=Net) chunk).
Proof.
  intros Hc. unfold push_chunk. apply steps_bind; [apply _ | by apply nothing_remote, nothing_pushed | intros os].
  unfold report_conflict, cl. steps_tac.
Qed.

Lemma flush_le w : ∃ w1, flush_pending_deletes w = (w1, Ok ()) ∧ device_le w w1.
Proof.
  rewrite flush_pending_run. case_decide; [by exists w|].
  pose proof (λ Hl, nothing_pushed _ (numbered_tombstones (c_db (client w)) Hl) (remote w)) as Hn.
  destruct (engine_push_batch _ (remote w)) as [n [os|e]]; eexists; (split; [reflexivity|]);
    intros Hl; (split; [|exact (Hn Hl)]); [|done].
  destruct (forallb _ os); [by apply numbered_flushed | done].
Qed.

Lemma push_device_le : steps device_le (push_local_changes (W:=Net)).
Proof.
  intros w. rewrite push_run. destruct (is_locked (client w)); [reflexivity|].
  destruct (c_transport (client w)); [|reflexivity]. cbn [negb]. rewrite bind_run.
  destruct (flush_le w) as (w1 & -> & Hle). etransitivity; [exact Hle|]. clear Hle.
  unfold list_local_items. rewrite bind_run, read_db_run. intros Hl. revert Hl.
  set (rows := _ <$> joined _). intros Hl. pose proof (numbered_rows _ Hl) as Hrows.
  fold rows in Hrows. revert Hl. change (device_le w1
    ((mapM push_chunk (chunks_of (length rows) 100 rows) ≫= λ _, mret ()) w1).1).
  apply steps_bind; [apply _ | | intros _; apply steps_ret, _].
  apply steps_mapM_in; [apply _|]. intros c Hc. apply chunk_le. apply Forall_fmap, Forall_forall.
  intros r Hr. rewrite Forall_fmap, Forall_forall in Hrows. apply Hrows. by eapply chunks_of_in.
Qed.

Lemma flush_mutations_le ms k : steps device_le (flush_mutations (W:=Net) ms k).
Proof.
  pose proof save_item_le. pose proof delete_item_le. revert k.
  induction ms as [|m ms IH]; intros k; cbn [flush_mutations]; [apply steps_ret, _|].
  unfold apply_mutation, cl. steps_tac; by apply nothing_upd.
Qed.

(** ** What a device does between two syncs *)
Inductive DeviceOp :=
| OpSave (item : DomainModel) (payload : blob) | OpDelete (uuid : Uuid) | OpPush
| OpOfflineSave (item : DomainModel) (payload : blob) | OpOfflineDelete (uuid : Uuid) | OpFlush | OpLock.

Definition run_op (op : DeviceOp) : app Net () :=
  match op with
  | OpSave item payload => save_item item payload;; mret ()
  | OpDelete uuid => delete_item uuid;; mret ()
  | OpPush => push_local_changes
  | OpOfflineSave item payload => offline_save item payload;; mret ()
  | OpOfflineDelete uuid => offline_delete uuid;; mret ()
  | OpFlush => flush_offline_queue;; mret ()
  | OpLock => lock
  end.

Definition run_ops (ops : list DeviceOp) w : World Net := foldl (λ w op, (run_op op w).1) w ops.

Lemma op_le op : steps device_le (run_op op).
Proof.
  pose proof save_item_le. pose proof delete_item_le. pose proof push_device_le. pose proof flush_mutations_le.
  destruct op; cbn [run_op]; [.. |]; unfold offline_save, offline_delete, flush_offline_queue, lock,
    reset_second_factor, cl; steps_tac; by apply nothing_upd.
Qed.

(** No save, delete, push or flush of a device adds an item to the server: a new
    item is saved at version 1 and pushed with it as the target, and the server
    creates an item for target 0 only.  What does add it is forcing the
    conflict that answers the push, whose version is then 0
    ([forced_conflict_creates]). *)
Theorem devices_create_no_item ops w :
  numbered (c_db (client w)) → only_us (remote w) →
  item_keys (net_db (remote (run_ops ops w))) = item_keys (net_db (remote w)).
Proof.
  intros Hl Hu. assert (device_le w (run_ops ops w)) as Hle.
  { unfold run_ops. revert w Hl Hu. induction ops as [|op ops IH] using rev_ind; intros w Hl Hu; [reflexivity|].
    rewrite foldl_app. simpl. etransitivity; [by apply IH | apply op_le]. }
  destruct (Hle Hl) as [_ Hn]. by apply Hn.
Qed.
End Creation.

(** ** A tombstone in conflict keeps every recorded delete *)
Section Blocked.
Context {EXT : Ext} {WA : WebauthnRs}.
Context (u : string).
Implicit Types (d : Db) (n : Net) (w : World Net).

Lemma upsert_refused x t g p del now d d' o row :
  upsert_item_occ x u t g p del now d = (d', Ok o) →
  items d !! (x, u) = Some row → t ≠ i_version row → t ≠ 0 → o = Conflict ∨ o = EpochTooOld.
Proof.
  unfold upsert_item_occ. intros Hup Hr Hv Ht.
  apply bind_ok in Hup as (d1 & [] & Hreq & Hup).
  assert (d1 = d) as -> by (unfold require in Hreq; destruct (bool_decide _) in Hreq; by injection Hreq).
  apply bind_ok in Hup as (d1 & g' & Hg & Hup). injection Hg as <- _.
  destruct (match g' with Some g0 => bool_decide (g < g0) | None => false end) eqn:Hgen.
  { injection Hup as _ <-. by right. }
  apply bind_ok in Hup as (d1 & prior & Hg & Hup). injection Hg as <- _.
  unfold occ_update in Hup. rewrite bind_run in Hup. rewrite bind_run in Hup. unfold gets, id in Hup.
  cbv beta iota in Hup. rewrite Hr in Hup.
  rewrite (bool_decide_false (i_version row = t)), (bool_decide_false (t = 0)) in Hup by done.
  simpl in Hup. injection Hup as _ <-. by left.
Qed.

(** A push on a version the row has left behind. *)
Lemma push_item_refused now p d d' r row :
  push_item u now p d = (d', Ok r) → items d !! (ph_uuid p, u) = Some row →
  1 ≤ ph_target_version p < i_version row → ph_target_version p ≤ i64_max → push_outcome r ≠ Applied.
Proof.
  unfold push_item. intros Hp Hr Hv Hfit. apply bind_ok in Hp as (d1 & g & Hg & Hp). injection Hg as <- _.
  case_bool_decide; [by injection Hp as _ <-|].
  apply bind_ok in Hp as (d1 & pl & Hpl & Hp).
  assert (d1 = d) as ->.
  { destruct (ph_payload p); [|by injection Hpl]. apply bind_ok in Hpl as (d2 & b & Hb & Hpl).
    unfold decode_b64 in Hb. apply ok_or_ok in Hb as [-> _]. by injection Hpl. }
  apply bind_ok in Hp as (d1 & o & Ho & Hp). apply map_err_ok in Ho.
  rewrite as_i64_small in Ho by (unfold is_i64, i64_min; lia).
  destruct (upsert_refused _ _ _ _ _ _ _ _ _ _ Ho Hr) as [-> | ->]; [lia..| |].
  - apply bind_ok in Hp as (d2 & r' & _ & Hp). injection Hp as _ <-. done.
  - by injection Hp as _ <-.
Qed.

Lemma batch_refused ρ tok l d d' rs p row :
  sync_push_batch ρ tok l d = (d', Ok rs) → items_wf d → (∀ x, session_valid d (now_ms ρ) tok x → x = u) →
  p ∈ l → items d !! (ph_uuid p, u) = Some row →
  1 ≤ ph_target_version p < i_version row → ph_target_version p ≤ i64_max →
  ∃ r, r ∈ rs ∧ push_outcome r ≠ Applied.
Proof.
  unfold sync_push_batch. intros Hb Hwf Hu Hp Hr Hv Hfit.
  apply bind_ok in Hb as (d1 & x & [-> ->%Hu]%auth_user_ok & Hb).
  apply bind_ok in Hb as (d1 & [] & Hg & Hb).
  assert (d1 = d) as -> by (destruct (bool_decide _) in Hg; by injection Hg).
  pose proof (λ p, steps_push_item u (now_ms ρ) p) as Hsteps.
  destruct (mapM_ok_in _ _ _ _ _ _ _ Hsteps Hb Hp) as (d1 & d2 & r & Hle & Hpush & Hin).
  exists r. split; [done|]. destruct (Hle Hwf) as (_ & Hocc & _).
  destruct (Hocc _ _ Hr) as (row' & Hr' & Hge & _).
  eapply (push_item_refused _ _ _ _ _ row'); [exact Hpush | exact Hr' | lia | done].
Qed.

(** Deletes that no push can clear: a tombstone older than the server's row,
    or more of them than a batch may have. *)
Definition stuck (l : Local) d : Prop :=
  (100 < length (omap tombstone_push (pending_rows l)))%nat ∨
  ∃ x p row, pending_deletes l !! x = Some p ∧ uuid_parse x = Some x ∧
    items d !! (x, u) = Some row ∧ 1 ≤ pd_version p < i_version row ∧ pd_version p ≤ i64_max.

Lemma stuck_later l d d' : items_wf d → sync_le d d' → stuck l d → stuck l d'.
Proof.
  intros Hwf Hle [H|(x & p & row & H1 & H2 & H3 & H4 & H5)]; [by left|]. right.
  destruct (Hle Hwf) as (_ & Hocc & _). destruct (Hocc _ _ H3) as (row' & H3' & Hge & _).
  exists x, p, row'. split_and!; [done..|lia|lia|done].
Qed.

Lemma stuck_push l n n' os :
  engine_push_batch (omap tombstone_push (pending_rows l)) n = (n', Ok os) →
  items_wf (net_db n) → starts_with "vtr-ak-" (net_token n) = false →
  (∀ x, x ∈ net_served n' → x = u) → stuck l (net_db n) →
  forallb (λ o, is_applied o.2) os = false.
Proof.
  unfold engine_push_batch. intros Hp Hwf Htok Hserved Hst.
  apply bind_ok in Hp as (n1 & outcomes & Hp & Hg). cbn [push_batch HttpTransport] in Hp.
  rewrite bind_run, guard_err_run in Hg. case_bool_decide as Hlen; [done|]. injection Hg as -> <-.
  apply net_call_ok in Hp as (t & d & rs & Hle & Hb & [= <-] & Hsv).
  assert (∀ x, session_valid d (now_ms (t_env t)) (net_token n) x → x = u) as Hu.
  { intros x Hx. apply Hserved. rewrite Hsv. apply elem_of_app. right.
    unfold served_for. rewrite (auth_any_user _ _ x) by done. by left. }
  destruct (stuck_later _ _ _ Hwf Hle Hst) as [Hmany|(x & p & row & H1 & H2 & H3 & H4 & H5)].
  { exfalso. unfold sync_push_batch in Hb. apply bind_ok in Hb as (d1 & v & _ & Hb).
    rewrite bind_run, guard_err_run, length_fmap, bool_decide_true in Hb by done. done. }
  destruct (Hle Hwf) as [Hwf' _].
  assert (push_request (t_client_now t) (x, pd_version p, as_u64 (pd_enc_key_gen p), None)
    ∈ push_request (t_client_now t) <$> omap tombstone_push (pending_rows l)) as Hin.
  { apply list_elem_of_fmap_2, list_elem_of_omap. exists (x, pd_version p, pd_enc_key_gen p). split.
    - unfold pending_rows. apply list_elem_of_fmap. exists (x, p). split; [done|]. by apply elem_of_map_to_list.
    - unfold tombstone_push. simpl. rewrite H2. simpl.
      by rewrite as_u64_small by (unfold is_u64, u64_max, i64_max in *; lia). }
  destruct (batch_refused _ _ _ _ _ _ _ row Hb Hwf' Hu Hin) as (r & Hr & Hna); [done..|].
  apply not_true_is_false. intros Hall. apply Hna. rewrite forallb_forall in Hall.
  assert (push_outcome r ∈ push_outcome <$> rs) as [i Hi]%list_elem_of_lookup by by apply list_elem_of_fmap_2.
  destruct (lookup_lt_is_Some_2 ((λ i : Push, i.1.1.1) <$> omap tombstone_push (pending_rows l)) i) as [y Hy].
  { rewrite length_fmap. apply lookup_lt_Some in Hi. rewrite length_fmap in *. lia. }
  specialize (Hall (y, push_outcome r)). destruct (push_outcome r); [done| |]; discriminate Hall;
    apply list_elem_of_In, (list_elem_of_lookup_2 _ i); by rewrite lookup_zip_with, Hy, Hi.
Qed.

Lemma stuck_flush w w' r :
  flush_pending_deletes w = (w', r) → items_wf (net_db (remote w)) →
  starts_with "vtr-ak-" (net_token (remote w)) = false → (∀ x, x ∈ net_served (remote w') → x = u) →
  stuck (c_db (client w)) (net_db (remote w)) → c_db (client w') = c_db (client w).
Proof.
  intros Hf Hwf Htok Hserved Hst. rewrite flush_pending_run in Hf. case_decide; [by injection Hf as <- _|].
  destruct (engine_push_batch _ (remote w)) as [n [os|e]] eqn:Hp; injection Hf as <- _; [|done].
  by rewrite (stuck_push _ _ _ _ Hp).
Qed.

Lemma engine_push_le l : steps net_le (engine_push_batch l).
Proof. unfold engine_push_batch. pose proof (push_le l). steps_tac. Qed.

Lemma srv_remote {A} ctx (m : M Net TransportError A) : steps net_le m → steps srv_le (on_remote ctx m).
Proof.
  intros Hm w. specialize (Hm (remote w)). unfold on_remote, srv_le. by destruct (m (remote w)) as [n r].
Qed.
Lemma srv_db {A} ctx (m : local A) : steps srv_le (on_db (W:=Net) ctx m).
Proof. intros w. unfold on_db, srv_le. by destruct (m _). Qed.
#[local] Hint Resolve engine_push_le srv_remote srv_db : steps.

Lemma srv_chunk c : steps srv_le (push_chunk (W:=Net) c).
Proof.
  unfold push_chunk, report_conflict, cl, publish, upd. steps_tac.
  intros w. unfold srv_le. reflexivity.
Qed.
#[local] Hint Resolve srv_chunk : steps.

Lemma srv_flush : steps srv_le (flush_pending_deletes (W:=Net)).
Proof. unfold flush_pending_deletes. steps_tac. Qed.
#[local] Hint Resolve srv_flush : steps.

Lemma srv_push : steps srv_le (push_local_changes (W:=Net)).
Proof.
  unfold push_local_changes, require_unlocked, require_transport, list_local_items, cl. steps_tac.
Qed.

Lemma stuck_once w w' r :
  push_local_changes w = (w', r) → items_wf (net_db (remote w)) →
  starts_with "vtr-ak-" (net_token (remote w)) = false → (∀ x, x ∈ net_served (remote w') → x = u) →
  stuck (c_db (client w)) (net_db (remote w)) → c_db (client w') = c_db (client w).
Proof.
  intros Hp Hwf Htok Hserved Hst. rewrite push_run in Hp.
  destruct (is_locked (client w)); [by injection Hp as <- _|].
  destruct (c_transport (client w)); [|by injection Hp as <- _]. cbn [negb] in Hp.
  rewrite bind_run in Hp. destruct (flush_le w) as (w1 & Hf & _). rewrite Hf in Hp.
  set (rest := list_local_items ≫= _) in Hp.
  assert (steps (same (λ w : World Net, c_db (client w))) rest) as Hrest.
  { unfold rest, list_local_items. pose proof push_chunk_db. steps_tac. intros w0. by rewrite read_db_run. }
  assert (steps srv_le rest) as Hsrv by (unfold rest, list_local_items; steps_tac).
  specialize (Hrest w1). specialize (Hsrv w1). rewrite Hp in Hrest, Hsrv. cbn [fst] in Hrest, Hsrv.
  rewrite Hrest. eapply (stuck_flush w w1); [exact Hf | done | done | | done].
  intros x Hx. apply Hserved. destruct Hsrv as (_ & _ & Hpre). by eapply elem_of_prefix.
Qed.

Definition pushes (k : nat) w : World Net := Nat.iter k (λ w, (push_local_changes w).1) w.

Lemma pushes_later k w : srv_le w (pushes k w).
Proof. induction k as [|k IH]; [reflexivity|]. simpl. etransitivity; [exact IH | apply srv_push]. Qed.

(** One recorded delete whose item changed on the server since, or more than
    a hundred of them, and no recorded delete is ever cleared: whatever anyone
    does, the tables of the device are after any number of pushes what they
    were.  Nothing raises the recorded version, and nothing splits the batch. *)
Theorem blocked_deletes_stay k w :
  items_wf (net_db (remote w)) → starts_with "vtr-ak-" (net_token (remote w)) = false →
  (∀ x, x ∈ net_served (remote (pushes k w)) → x = u) →
  stuck (c_db (client w)) (net_db (remote w)) →
  c_db (client (pushes k w)) = c_db (client w).
Proof.
  intros Hwf Htok Hserved Hst. induction k as [|k IH]; [done|]. simpl in *.
  destruct (push_local_changes (pushes k w)) as [w' r] eqn:Hp. cbn [fst] in *.
  pose proof (srv_push (pushes k w)) as (_ & _ & Hpre). rewrite Hp in Hpre. cbn [fst] in Hpre.
  pose proof (pushes_later k w) as (Hle & Ht & _). destruct (Hle Hwf) as [Hwf' _].
  assert (c_db (client (pushes k w)) = c_db (client w)) as Hdb
    by (apply IH; intros x Hx; apply Hserved; by eapply elem_of_prefix).
  rewrite <-Hdb. eapply stuck_once; [exact Hp | done | by rewrite Ht | done |].
  rewrite Hdb. exact (stuck_later _ _ _ Hwf Hle Hst).
Qed.
End Blocked.

(** ** Witnesses *)
Section PushesWitnesses.
#[local] Existing Instances Concrete.toy_ext toy_webauthn.

(** [numbered], as a check. *)
Definition all_numbered (l : Local) : Prop :=
  map_Forall (λ _ o, 1 ≤ ov_version o ≤ i64_max) (overviews l) ∧
  map_Forall (λ _ p, 1 ≤ pd_version p ≤ i64_max) (pending_deletes l).
#[local] Instance all_numbered_dec l : Decision (all_numbered l).
Proof. unfold all_numbered. apply _. Defined.
Lemma numbered_check l : bool_decide (all_numbered l) = true → numbered l.
Proof. intros [H1 H2]%bool_decide_eq_true. split; [exact H1 | exact H2]. Qed.

Definition note_demo (uuid : string) : DomainModel :=
  mkDomainModel uuid 2 (mkOverview uuid "t" "s" "k" [] 5) (mkSecret "p" None "" [])
    (mkItemMetadata 5 5 false).

(** A device in step with the server, unlocked. *)
Definition push_world (script : list Turn) : World Net :=
  let w := (sync (demo_world created (replicate 4 (demo_turn [] Delivered)))).1 in
  mkWorld (with_keys (λ k, mkKeys (k_svk k) (k_dek k) (k_mk k) 2 false) (client w))
    (mkNet (net_db (remote w)) "sess" script []).
Definition ops_demo : list DeviceOp := [OpSave (note_demo "n1") []; OpPush; OpDelete "i2"; OpPush].

Lemma devices_create_no_item_witness :
  is_Some (overviews (c_db (client (run_ops ops_demo (push_world (replicate 6 (demo_turn [] Delivered)))))) !! "n1") ∧
  item_keys (net_db (remote (run_ops ops_demo (push_world (replicate 6 (demo_turn [] Delivered)))))) =
    item_keys created.
Proof.
  split; [vm_compute; by eexists|].
  apply (devices_create_no_item ops_demo).
  - apply numbered_check. vm_compute. reflexivity.
  - apply Forall_replicate. reflexivity.
Defined.

(** The push of the new item is answered with a conflict at version 0, and the
    user forces the local copy through: now the item is created. *)
Definition forced_demo : World Net :=
  (resolve_conflict "n1" 0 true (run_ops ops_demo (push_world (replicate 8 (demo_turn [] Delivered))))).1.

Lemma forced_conflict_creates :
  items (net_db (remote (run_ops ops_demo (push_world (replicate 8 (demo_turn [] Delivered)))))) !! ("n1", "alice") = None ∧
  i_version <$> items (net_db (remote forced_demo)) !! ("n1", "alice") = Some 1.
Proof. split; vm_compute; reflexivity. Qed.

(** The item was changed on another device before the delete is pushed. *)
Definition blocked_demo : World Net :=
  run_ops [OpDelete "i2"] (push_world
    (demo_turn [(Concrete.demo_env 20, QSync (RPush "sess" [push_demo "i2" 1]))] RequestLost ::
     replicate 6 (demo_turn [] Delivered))).

Lemma blocked_deletes_stay_witness :
  pending_deletes (c_db (client (pushes 3 (pushes 1 blocked_demo)))) = {[ "i2" := mkPendingDelete 1 2 ]}.
Proof.
  assert (pending_deletes (c_db (client (pushes 1 blocked_demo))) = {[ "i2" := mkPendingDelete 1 2 ]}) as <-
    by (vm_compute; reflexivity).
  apply (f_equal pending_deletes), (blocked_deletes_stay "alice" 3).
  - destruct (pushes_later 1 blocked_demo) as (Hle & _). apply Hle.
    assert (net_db (remote blocked_demo) = created) as -> by (vm_compute; reflexivity). apply created_wf.
  - reflexivity.
  - intros x Hx. apply list_elem_of_In in Hx. vm_compute in Hx. intuition congruence.
  - right. exists "i2", (mkPendingDelete 1 2). eexists.
    split_and!; [vm_compute; reflexivity | reflexivity | vm_compute; reflexivity | vm_compute; discriminate | vm_compute; reflexivity | vm_compute; discriminate].
Defined.
End PushesWitnesses.
