(* ===== verification/Vault.v ===== *)
(** * The client's keys

    Models, of [core/vautr-app-state/src/], the rest of [orchestrator.rs] that
    handles key material (unlocking, revealing, key rotation, vault creation,
    recovery, the JSON export) and [recovery.rs].  Random bytes are draws from
    the operating system's generator, numbered by [c_rng]; the JSON codec of
    secrets is a parameter.  An [expect] that fails is an error.  The lemmas say
    what each step of a run that succeeds left behind. *)
From S2P Require Import Prelude Domain Database ClientDb ClientSync Crypto ShareCrypto Client Replica.

Local Open Scope Z_scope.

(** What is outside: the system's generator, [serde_json]. *)
Class VaultExt := {
  os_random : nat → nat → blob;                       (* number of the draw, length *)
  uuid_v4 : blob → Uuid;                              (* of 16 random bytes *)
  secret_of_json : blob → option DecryptedSecret;
  models_to_json : list DomainModel → option blob;
}.
Class VaultLaws `{VaultExt} : Prop := {
  os_random_len n len : length (os_random n len) = len;
}.

(** A row to rotate: the item, its version, its key generation, its payload. *)
Abbreviation RotationRow := (Uuid * Z * Z * blob)%type.

Section Vault.
Context {W : Type} `{Transport W, Ext, CryptoExt, VaultExt}.

Definition draw (len : nat) : app W blob :=
  n ← cl c_rng; upd (with_rng S);; mret (os_random n len).

(** [map_err] of a pure result, and [expect]. *)
Definition try_crypto {A} (what : string) (r : result CryptoError A) : app W A :=
  match r with Ok a => mret a | Err e => throw (FromCrypto what e) end.
Definition or_msg {A} (what : string) (r : result CryptoError A) : app W A :=
  match r with Ok a => mret a | Err _ => throw (Msg what) end.

Definition set_svk (k : option blob) : app W () :=
  upd (with_keys (λ s, mkKeys k (k_dek s) (k_mk s) (k_local_gen s) (k_locked s))).
Definition set_dek (k : option blob) : app W () :=
  upd (with_keys (λ s, mkKeys (k_svk s) k (k_mk s) (k_local_gen s) (k_locked s))).
Definition set_mk (k : option blob) : app W () :=
  upd (with_keys (λ s, mkKeys (k_svk s) (k_dek s) k (k_local_gen s) (k_locked s))).
Definition set_local_gen (g : Z) : app W () :=
  upd (with_keys (λ s, mkKeys (k_svk s) (k_dek s) (k_mk s) g (k_locked s))).
Definition set_locked (b : bool) : app W () :=
  upd (with_keys (λ s, mkKeys (k_svk s) (k_dek s) (k_mk s) (k_local_gen s) b)).

(** ** Unlocking *)

Definition parse_method (m : string) : option SecondFactorMethod :=
  if decide (m = "webauthn") then Some WebAuthn
  else if decide (m = "totp") then Some Totp else None.

Definition discover_second_factor : app W () :=
  t ← cl c_transport;
  if t : bool then
    r ← attempt (on_remote "second factor" second_factor_method);
    match r with
    | Ok (Some m) => set_second_factor_method (parse_method m)
    | _ => mret ()
    end
  else mret ().

Definition second_factor_gate : app W () :=
  sf ← cl c_second_factor;
  v ← cl c_second_factor_verified;
  guard_err (bool_decide (is_Some sf) && negb v) (Msg "second factor required").

(** Under the id given, then under the nil id. *)
Definition unwrap_svk (kek : blob) (server_user_id : Uuid) (wrapped : blob) : app W blob :=
  let pt := match decrypt kek server_user_id 0 wrapped with
            | Ok p => Ok p
            | Err _ => decrypt kek nil_uuid 0 wrapped
            end in
  pt ← or_msg "svk unwrap failed (wrong password?)" pt;
  guard_err (bool_decide (length pt ≠ 32%nat)) (Msg "malformed svk blob");;
  mret pt.

Definition unlock_with_password (mp : string) (kdf_salt wrapped_svk : blob) (server_user_id : Uuid)
    (local_gen : Z) : app W () :=
  discover_second_factor;;
  second_factor_gate;;
  mk ← try_crypto "mk derive" (derive_master_key mp kdf_salt);
  svk ← unwrap_svk (derive_kek mk) server_user_id wrapped_svk;
  set_svk (Some svk);;
  set_dek (Some (derive_dek svk));;
  set_mk (Some mk);;
  upd (with_server_user_id (λ _, Some server_user_id));;
  load_persisted_cursor;;
  set_local_gen local_gen;;
  upd (with_epoch (set_min_enc_key_gen local_gen));;
  load_blacklist;;
  set_locked false.

Definition unlock_with_raw_key (raw_key : blob) (local_gen : Z) : app W () :=
  set_svk (Some raw_key);;
  set_dek (Some (derive_dek raw_key));;
  set_mk None;;
  load_persisted_cursor;;
  set_local_gen local_gen;;
  upd (with_epoch (set_min_enc_key_gen local_gen));;
  load_blacklist;;
  set_locked false.

Definition require_svk : app W blob :=
  s ← cl (λ c, k_svk (c_keys c)); ok_or (Msg "vault locked") s.

(** ** Creating a vault *)
Definition create_vault : app W (blob * Kem.SharingKeyPair * string) :=
  svk ← draw 32;
  secret ← draw 32;
  entropy ← draw 32;
  let kp := Kem.from_secret secret in
  set_svk (Some svk);;
  set_dek (Some (derive_dek svk));;
  upd (with_sharing_keypair (λ _, Some kp));;
  set_locked false;;
  mret (svk, kp, bip39_generate entropy).

(** ** Revealing a secret *)
Definition reveal_secret (now : Z) (uuid : Uuid) : app W Z :=
  require_unlocked;;
  o ← on_db "secret material" (get_secret_material uuid);
  m ← ok_or (Msg "item has no local secret") o;
  k ← cl (λ c, k_dek (c_keys c));
  dek ← ok_or (Msg "vault locked") k;
  pt ← or_msg "secret decrypt failed" (decrypt dek uuid (as_u64 m.1) m.2);
  secret ← ok_or (Msg "secret parse") (secret_of_json pt);
  s ← cl c_store;
  let '(s', handle) := store_reveal now (utf8 (sec_password secret)) s in
  upd (with_store (λ _, s'));;
  mret handle.

(** ** Key rotation *)

(** Decrypts under the old key, encrypts under the new one. *)
Definition reencrypted (failure : string) (dek_old new_svk : blob) (confirmed_gen : Z)
    (uuid : Uuid) (gen : Z) (payload : blob) : app W blob :=
  pt ← or_msg failure (decrypt dek_old uuid (as_u64 gen) payload);
  nonce ← draw NONCE_LEN;
  try_crypto "rotate reencrypt" (reencrypt (mkRotation (as_u64 gen) confirmed_gen) nonce uuid new_svk pt).

Definition rotate_row (dek_old new_svk : blob) (confirmed_gen : Z) (r : RotationRow) : app W Push :=
  let '(uuid, version, gen, payload) := r in
  new_payload ← reencrypted "re-encrypt decrypt failed" dek_old new_svk confirmed_gen uuid gen payload;
  on_db "persist re-encrypt"
    (transaction (reencrypt_item_txn uuid new_payload (as_i64 confirmed_gen)));;
  mret (uuid, as_u64 version, confirmed_gen, Some new_payload).

Definition settle_outcome (dek_old new_svk : blob) (confirmed_gen : Z) (o : PushOutcome * RotationRow)
    : app W () :=
  let '(uuid, _, gen, _) := o.2 in
  match o.1 with
  | Applied => mret ()
  | PushEpochTooOld => throw (Msg "rotate_key: server rejected epoch for item")
  | PushConflict server_version =>
      server_payload ← on_remote "rotate_key conflict fetch" (fetch_payload uuid server_version);
      new_payload ← reencrypted "rotate_key: cannot decrypt the server's current payload"
                      dek_old new_svk confirmed_gen uuid gen server_payload;
      retry ← on_remote "rotate_key conflict push"
                (push_batch [(uuid, server_version, confirmed_gen, Some new_payload)]);
      match head retry with
      | Some Applied => mret ()
      | _ => throw (Msg "rotate_key: conflict re-push failed for item")
      end
  end.

(** One turn of the loop over batches. *)
Definition rotate_batch (dek_old new_svk : blob) (confirmed_gen : Z) (batch : list RotationRow) : app W () :=
  push_items ← mapM (rotate_row dek_old new_svk confirmed_gen) batch;
  outcomes ← on_remote "push_batch" (push_batch push_items);
  mapM (settle_outcome dek_old new_svk confirmed_gen) (zip outcomes batch);;
  mret ().

Definition rotate_key (new_gen : Z) : app W () :=
  require_unlocked;;
  t ← cl c_transport; guard_err (negb t) (Msg "sync not connected");;
  user ← cl c_server_user_id; ok_or (Msg "no server user id") user;;
  omk ← cl (λ c, k_mk (c_keys c));
  mk ← ok_or (Msg "key rotation requires a master-password unlock") omk;
  old_svk ← require_svk;
  new_svk ← draw 32;
  nonce ← draw NONCE_LEN;
  wrapped_new ← try_crypto "svk wrap" (wrap_svk nonce (derive_kek mk) new_svk);
  confirmed_gen ← on_remote "rotate_key" (ClientSync.rotate_key new_gen wrapped_new);
  upd (with_epoch (set_min_enc_key_gen confirmed_gen));;
  publish KeyUpdateRequired;;
  rows ← on_db "list rotation items" (list_rotation_items (as_i64 confirmed_gen));
  mapM (rotate_batch (derive_dek old_svk) new_svk confirmed_gen) (chunks_of (length rows) 100 rows);;
  on_db "store svk" (store_svk_blob wrapped_new);;
  set_local_gen confirmed_gen;;
  upd (with_epoch (set_min_enc_key_gen confirmed_gen));;
  set_svk (Some new_svk);;
  set_dek (Some (derive_dek new_svk));;
  publish SyncCompleted.

(** ** Emergency recovery *)

Definition derive_recovery_credentials (mnemonic : string) : option RecoveryCredentials :=
  match decode_recovery_mnemonic mnemonic with
  | Ok m => Some (mkCreds m (derive_recovery_signing_key m) (recovery_public_key m))
  | Err _ => None
  end.

Definition POSSESSION_PROBE_INDICES : list nat := [4; 12; 20]%nat.

(** [eq_ignore_ascii_case]. *)
Definition ascii_lower (c : Ascii.ascii) : Ascii.ascii :=
  let n := Ascii.nat_of_ascii c in
  if bool_decide (65 ≤ n ≤ 90)%nat then Ascii.ascii_of_nat (n + 32) else c.
Fixpoint lowercase (s : string) : string :=
  match s with
  | EmptyString => EmptyString
  | String c s' => String (ascii_lower c) (lowercase s')
  end.

Definition verify_recovery_key_possession (mnemonic : string) (supplied : list string) : bool :=
  match decode_recovery_mnemonic mnemonic with
  | Err _ => false
  | Ok m =>
      bool_decide (length supplied = length POSSESSION_PROBE_INDICES) &&
      forallb (λ pg : nat * string,
        match bip39_words m !! (pg.1 - 1)%nat with
        | Some w => bool_decide (lowercase w = lowercase pg.2)
        | None => false
        end) (zip POSSESSION_PROBE_INDICES supplied)
  end.

Definition recover_with_key (mnemonic : string) (wrapped_svk_rk : blob) (server_user_id : Uuid) : app W () :=
  creds ← ok_or (Msg "invalid recovery key") (derive_recovery_credentials mnemonic);
  svk ← ok_or (Msg "recovery unwrap failed (bad recovery key?)")
          (recover_svk mnemonic wrapped_svk_rk server_user_id);
  set_svk (Some svk);;
  set_dek (Some (derive_dek svk));;
  upd (with_server_user_id (λ _, Some server_user_id));;
  load_persisted_cursor;;
  set_locked false;;
  upd (with_recovery (λ r, mkRecovery (rs_pending r) (Some creds)));;
  upd (with_recovery (λ r, mkRecovery true (rs_creds r)));;
  publish RecoveryModeEntered.

(** [sign_nonce]. *)
Definition recovery_sign_challenge (nonce : blob) : app W string :=
  r ← cl c_recovery;
  creds ← ok_or (Msg "no pending recovery") (rs_creds r);
  mret (b64_encode (ed25519_sign (cr_signing_key creds) nonce)).

Definition complete_recovery (new_mp : string) (kdf_salt : blob) : app W (string * blob * blob) :=
  r ← cl c_recovery;
  guard_err (negb (rs_pending r)) (Msg "no pending recovery");;
  svk ← require_svk;
  user ← cl c_server_user_id;
  user_id ← ok_or (Msg "no server user id") user;
  mk ← try_crypto "mk derive" (derive_master_key new_mp kdf_salt);
  nonce ← draw NONCE_LEN;
  wrapped_mp ← try_crypto "svk wrap" (wrap_svk nonce (derive_kek mk) svk);
  entropy ← draw 32;
  let new_rk := bip39_generate entropy in
  mnemonic ← try_crypto "decode rk" (decode_recovery_mnemonic new_rk);
  nonce ← draw NONCE_LEN;
  wrapped_rk ← try_crypto "wrap rk" (rk_wrap_svk nonce svk (derive_kek_rk mnemonic) user_id);
  creds ← ok_or (Msg "derive creds") (derive_recovery_credentials new_rk);
  on_db "store svk" (store_svk_blob wrapped_mp);;
  on_db "store svk rk" (store_svk_rk_blob wrapped_rk);;
  upd (with_recovery (λ r, mkRecovery (rs_pending r) (Some creds)));;
  upd (with_recovery (λ r, mkRecovery false (rs_creds r)));;
  publish RecoveryCompleted;;
  mret (new_rk, wrapped_mp, wrapped_rk).

(** ** The JSON export *)
Definition export_item (dek : blob) (r : Uuid * Z * blob) : app W DomainModel :=
  let '(uuid, gen, payload) := r in
  pt ← or_msg "export decrypt" (decrypt dek uuid (as_u64 gen) payload);
  secret ← ok_or (Msg "export parse") (secret_of_json pt);
  overview ← client_get_overview uuid;
  mret (mkDomainModel uuid (as_u64 gen) overview secret (mkItemMetadata 0 (do_updated_at overview) false)).

Definition export_to_json : app W blob :=
  require_unlocked;;
  k ← cl (λ c, k_dek (c_keys c));
  dek ← ok_or (Msg "vault locked") k;
  rows ← on_db "list_enc_key_gens" list_enc_key_gens;
  items ← mapM (export_item dek) rows;
  ok_or (Msg "export serialize") (models_to_json items).

(** ** Running the steps *)

Lemma draw_run n w : draw n w =
  (mkWorld (with_rng S (client w)) (remote w), Ok (os_random (c_rng (client w)) n)).
Proof. done. Qed.

Lemma try_ok {A} what (r : result CryptoError A) w w' a :
  try_crypto what r w = (w', Ok a) → w' = w ∧ r = Ok a.
Proof. unfold try_crypto. destruct r; [intros [= <- ->]; done | done]. Qed.
End Vault.

(** After [ok_inv], the steps whose effect is known. *)
Ltac world_step :=
  match goal with
  | H : draw _ _ = (_, Ok _) |- _ => rewrite draw_run in H; injection H as <- <-
  | H : upd _ _ = (_, Ok _) |- _ => injection H as <- _
  | H : publish _ _ = (_, Ok _) |- _ => injection H as <- _
  | H : try_crypto _ _ _ = (_, Ok _) |- _ => apply try_ok in H as [-> ?]
  end.
Ltac world_inv H := ok_inv H; repeat world_step; simpl in *.
