(* ===== verification/ConcreteClient.v ===== *)
(** * A concrete client environment

    One implementation of the client's external code, with its laws, for the
    witnesses to evaluate on: a tagged stand-in for the cipher, a digest of the
    inputs' ends for the key derivations, two recovery phrases.  [Offline] is a
    transport with no network behind it. *)
From S2P Require Import Prelude Domain Database Concrete ClientDb ClientSync Crypto Client Vault.
From Stdlib Require Import Strings.Byte.

Local Open Scope Z_scope.

Definition pad (n : nat) (b : blob) : blob := take n (b ++ replicate n x00).

Lemma pad_len n b : length (pad n b) = n.
Proof. unfold pad. rewrite length_take, length_app, length_replicate. lia. Qed.

Lemma pad_pad n b : pad n (pad n b) = pad n b.
Proof. unfold pad at 1. rewrite take_app_le by (by rewrite pad_len). apply take_ge. by rewrite pad_len. Qed.

(** Commutes, as a stand-in for X25519. *)
Definition toy_dh (a b : blob) : blob :=
  zip_with (λ x y, byte_of (Z.of_N (Byte.to_N x + Byte.to_N y))) (pad 32 a) (pad 32 b).
Lemma toy_dh_comm a b : toy_dh a (pad 32 b) = toy_dh b (pad 32 a).
Proof.
  unfold toy_dh. rewrite !pad_pad. generalize (pad 32 a) (pad 32 b). intros l. 
  induction l as [|x l IH]; intros [|y k]; [done..|]. simpl. rewrite IH. by rewrite N.add_comm.
Qed.

(** Depends on the key and on the bound data. *)
Definition toy_tag (key ad : blob) : blob := pad TAG_LEN (take 4 key ++ take 8 ad ++ take 4 (reverse ad)).
Definition toy_seal (key ad m : blob) : blob := reverse m ++ toy_tag key ad.
Definition toy_open (key ad c : blob) : option blob :=
  let n := (length c - TAG_LEN)%nat in
  if decide (drop n c = toy_tag key ad) then Some (reverse (take n c)) else None.

Definition toy_phrase : string := "abandon abandon art".
Definition toy_phrase' : string := "zoo zoo vote".

Definition toy_crypto : CryptoExt := {|
  xchacha_encrypt key nonce ad m := Some (toy_seal key ad m);
  xchacha_decrypt key nonce ad c := toy_open key ad c;
  hkdf_sha256 salt ikm info := pad 32 (take 2 ikm ++ take 2 (drop 6 info) ++ ikm);
  argon2id mp salt := Some (pad 32 (utf8 mp ++ salt));
  uuid_bytes u := pad 16 (utf8 u);
  bip39_parse s := if decide (s ∈ [toy_phrase; toy_phrase']) then Some s else None;
  bip39_generate b := if decide (head b = Some x01) then toy_phrase else toy_phrase';
  bip39_words s := if decide (s = toy_phrase) then ["abandon"; "abandon"; "art"] else ["zoo"; "zoo"; "vote"];
  bip39_seed := utf8;
  ed25519_public k := k;
  ed25519_sign k m := k ++ m;
  x25519_public k := pad 32 k;
  x25519_dh := toy_dh |}.

#[export] Instance toy_crypto_laws : CryptoLaws (H:=toy_crypto).
Proof.
  split.
  - intros k n ad m c [= <-]. simpl. unfold toy_open, toy_seal.
    rewrite length_app, (pad_len _ _ : length (toy_tag k ad) = _), Nat.add_sub, drop_app_length.
    rewrite decide_True by done. by rewrite take_app_length, reverse_involutive.
  - intros k n ad m c [= <-]. unfold toy_seal, toy_tag. by rewrite length_app, pad_len, length_reverse.
  - by eexists.
  - intros. apply pad_len.
  - intros. apply pad_len.
  - apply toy_dh_comm.
  - intros a. apply pad_len.
  - intros b. unfold bip39_generate, toy_crypto. destruct (decide (head b = _)); vm_compute; reflexivity.
Qed.

(** The [n]-th draw repeats the byte [n + 1]. *)
Definition toy_vault : VaultExt := {|
  os_random n len := replicate len (byte_of (Z.of_nat n + 1));
  uuid_v4 b := String.string_of_list_byte (utf8 "id-" ++ take 1 b);
  secret_of_json b := Some (mkSecret (String.string_of_list_byte b) None "" []);
  models_to_json l := Some (concat ((λ m, utf8 (sec_password (dm_secret m))) <$> l)) |}.

#[export] Instance toy_vault_laws : VaultLaws (H:=toy_vault).
Proof. split. intros. apply length_replicate. Qed.

(** No network. *)
Definition offline_call {A} : M unit TransportError A := throw (TransportOther "network").
Definition Offline : Transport unit := {|
  pull _ := offline_call; fetch_payload _ _ := offline_call; push_batch _ := offline_call;
  account_status := offline_call; second_factor_method := offline_call;
  ClientSync.rotate_key _ _ := offline_call; verify_totp _ := offline_call |}.
