(* ===== verification/Backup.v ===== *)
(** * Backups

    Models [core/vautr-backup/src/] ([archive.rs], [backup.rs], [restore.rs],
    [restore_test.rs]; Module [Archive]) and, of [core/vautr-server/src/],
    [repository/backup.rs] and [handlers/backup.rs].  A [Server] is the store,
    which is the database with its three backup tables, and the files of the
    host.  What SQLite does with a database file is the class [Sqlite]; dates,
    JSON and the cipher are parameters.  A temporary file that the code makes and
    removes in one step is left out.  Shows that an exported archive restores to
    the store it was taken from, whatever requests come in between, and what a
    restore test leaves behind. *)
From S2P Require Import Prelude Domain Database Concrete Users Projects Mfa Crypto.
From S2P Require Import Sync Webauthn AuditLog System ConcreteClient.
From Stdlib Require Import Strings.Byte.

Local Open Scope Z_scope.

Module Archive.

(** ** archive.rs *)

Inductive ArchiveError := UnsupportedVersion (v : Z) | Integrity (what : string) | Malformed | Decrypt.

Definition CURRENT_FORMAT_VERSION : Z := 1.
Definition MAGIC : blob := utf8 "VAUTRBK1".
Definition NONCE_LEN : nat := 24.

Record ArchiveMeta := mkMeta {
  am_format_version : Z; am_created_at : string; am_vault_id : string; am_entry_count : Z }.
Definition ArchiveMeta_new (created_at vault_id : string) (entry_count : Z) : ArchiveMeta :=
  mkMeta CURRENT_FORMAT_VERSION created_at vault_id entry_count.
Definition verify_format (m : ArchiveMeta) : result ArchiveError () :=
  if bool_decide (CURRENT_FORMAT_VERSION < am_format_version m)
  then Err (UnsupportedVersion (am_format_version m)) else Ok ().

Record ArchivePayload := mkPayload { ap_manifest : ArchiveMeta; ap_snapshot_b64 : string }.

(** [serde_json] on the payload. *)
Class ArchiveExt := {
  payload_to_json : ArchivePayload → option blob;
  payload_of_json : blob → option ArchivePayload;
}.

Section Archive.
Context `{Ext, CryptoExt, ArchiveExt}.

Definition ArchivePayload_new (manifest : ArchiveMeta) (snapshot : blob) : ArchivePayload :=
  mkPayload manifest (b64_encode snapshot).
Definition snapshot_bytes (p : ArchivePayload) : result ArchiveError blob :=
  match b64_decode (ap_snapshot_b64 p) with
  | Some b => Ok b
  | None => Err (Integrity "snapshot base64 is corrupt")
  end.

Definition seal (nonce key payload : blob) : result ArchiveError blob :=
  match xchacha_encrypt key nonce MAGIC payload with
  | Some ct => Ok (MAGIC ++ be_bytes 4 CURRENT_FORMAT_VERSION ++ nonce ++ ct)
  | None => Err (Integrity "AEAD encryption failed")
  end.

(** [u32::from_be_bytes]. *)
Definition from_be_bytes (b : blob) : Z := foldl (λ n x, 256 * n + Z.of_N (Byte.to_N x)) 0 b.

Definition open (key archive : blob) : result ArchiveError blob :=
  let head := (length MAGIC + 4)%nat in
  if bool_decide (length archive < head + NONCE_LEN + 1)%nat then Err Malformed
  else if bool_decide (take (length MAGIC) archive ≠ MAGIC) then Err Malformed
  else
    let version := from_be_bytes (take 4 (drop (length MAGIC) archive)) in
    if bool_decide (CURRENT_FORMAT_VERSION < version) then Err (UnsupportedVersion version)
    else
      match xchacha_decrypt key (take NONCE_LEN (drop head archive)) MAGIC (drop (head + NONCE_LEN) archive) with
      | Some p => Ok p
      | None => Err Decrypt
      end.

(** ** backup.rs: its text of errors is dropped *)

Definition create_archive (nonce key snapshot : blob) (meta : ArchiveMeta) : option blob :=
  match verify_format meta with
  | Err _ => None
  | Ok _ =>
      bytes ← payload_to_json (ArchivePayload_new meta snapshot);
      match seal nonce key bytes with Ok a => Some a | Err _ => None end
  end.

(** ** restore.rs *)

Inductive RestoreError := FromArchive (e : ArchiveError) | PayloadError | RestoreIo (what : string) | RestoreDb (what : string).

Definition decrypt_archive (key archive : blob) : result RestoreError ArchivePayload :=
  match open key archive with
  | Err e => Err (FromArchive e)
  | Ok plaintext =>
      match payload_of_json plaintext with
      | None => Err PayloadError
      | Some payload =>
          match verify_format (ap_manifest payload) with Err e => Err (FromArchive e) | Ok _ => Ok payload end
      end
  end.
End Archive.

Record RestoreOutcome := mkOutcome { ro_restored_records : Z; ro_manifest : ArchiveMeta }.

(** ** restore_test.rs *)

Record RestoreTestOutcome := mkTestOutcome {
  rt_passed : bool; rt_restored_records : Z; rt_manifest : option ArchiveMeta; rt_detail : string }.
End Archive.
Import Archive.

(** ** The store, its image on disk, and the files of the host *)

(** repository/backup.rs *)
Record BackupState := mkBackupState {
  bs_enabled : bool; bs_location : option string; bs_schedule : string;
  bs_last_backup_at : option Z; bs_last_backup_size_bytes : option Z;
  bs_last_restore_test_at : option Z; bs_last_restore_test_status : option string }.
Record BackupRun := mkRun {
  br_id : string; br_created_at : Z; br_size_bytes : Z; br_checksum : string;
  br_archive_path : string; br_vault_id : string; br_entry_count : Z }.

(** [backup_key] and [backup_state] have at most the row with id 1. *)
Record Store := mkStore {
  st_db : Db; st_backup_key : option blob; st_backup_state : option BackupState;
  st_backup_runs : gmap string BackupRun }.

(** What the file of a store holds: the tables, and nothing of the process. *)
Definition on_disk (s : Store) : Store :=
  mkStore
    (with_event_channels (λ _, ∅) (with_login_state (λ _, ∅) (with_webauthn_verified (λ _, ∅)
      (with_webauthn_regs (λ _, ∅) (with_webauthn_auths (λ _, ∅) (st_db s))))))
    (st_backup_key s) (st_backup_state s) (st_backup_runs s).

(** SQLite on files: VACUUM INTO, what the bytes of a database hold, PRAGMA
    integrity_check. *)
Class Sqlite := {
  vacuum_into : Store → blob;
  sqlite_open : blob → option Store;
  integrity_check : blob → string;
  rfc3339 : Z → string;                                       (* chrono *)
}.

(** VACUUM INTO copies a store into a sound database file. *)
Definition vacuum_copies `{Sqlite} (s : Store) : Prop :=
  sqlite_open (vacuum_into s) = Some (on_disk s) ∧ integrity_check (vacuum_into s) = "ok"%string.

(** serde: a payload is read back as it was written. *)
Class ArchiveLaws `{ArchiveExt} : Prop := {
  payload_json p : ∃ j, payload_to_json p = Some j ∧ payload_of_json j = Some p;
}.

Record Server := mkServer { sv_store : Store; sv_files : gmap string blob }.

Definition with_key (f : option blob → option blob) (s : Store) : Store :=
  mkStore (st_db s) (f (st_backup_key s)) (st_backup_state s) (st_backup_runs s).
Definition with_state (f : option BackupState → option BackupState) (s : Store) : Store :=
  mkStore (st_db s) (st_backup_key s) (f (st_backup_state s)) (st_backup_runs s).
Definition with_runs (f : gmap string BackupRun → gmap string BackupRun) (s : Store) : Store :=
  mkStore (st_db s) (st_backup_key s) (st_backup_state s) (f (st_backup_runs s)).

(** SELECT COUNT of the items. *)
Definition count_items (s : Store) : Z := Z.of_nat (size (items (st_db s))).

(** [Path::join] of a name, and [Path::with_extension]. *)
Definition join_path (dir name : string) : string :=
  if bool_decide (String.substring (String.length dir - 1) 1 dir = "/") then String.append dir name
  else String.append dir (String.append "/" name).
Definition temp_dir (ρ : Env) : string := default "/tmp" (env_var ρ "TMPDIR").

(** ** repository/backup.rs *)

Abbreviation backup_sql := (M Store DbError).
Abbreviation server := (M Server ApiError).

Section Backup.
Context {EXT : Ext} {CEXT : CryptoExt} {AEXT : ArchiveExt} {SQL : Sqlite}.

Definition get_or_create_backup_key (ρ : Env) (drawn : blob) : backup_sql blob :=
  match env_var ρ "VAUTR_BACKUP_KEY" with
  | Some b64 =>
      bytes ← ok_or Protocol (b64_decode (str_trim b64));
      guard_err (bool_decide (length bytes ≠ 32%nat)) Protocol;;
      mret bytes
  | None =>
      let prod := bool_decide (env_var ρ "VAUTR_ENV" ∈ [Some "prod"; Some "production"]) in
      let allow_db := bool_decide (env_var ρ "VAUTR_ALLOW_DB_BACKUP_KEY" = Some "1") in
      guard_err (prod && negb allow_db) Protocol;;
      row ← gets st_backup_key;
      match row with
      | Some bytes =>
          if decide (length bytes = 32%nat) then mret bytes
          else throw UniqueViolation     (* the INSERT of a second row with id 1 *)
      | None => modify (with_key (λ _, Some drawn));; mret drawn
      end
  end.

Definition default_state : BackupState := mkBackupState true None "daily" None None None None.
Definition backup_state : backup_sql BackupState :=
  modify (with_state (λ s, Some (default default_state s)));;
  gets (λ s, default default_state (st_backup_state s)).

(** [INSERT .. ON CONFLICT(id) DO UPDATE SET location]: tests and operators. *)
Definition set_backup_location (location : string) : backup_sql () :=
  modify (with_state (λ s,
    let s := default default_state s in
    Some (mkBackupState (bs_enabled s) (Some location) (bs_schedule s) (bs_last_backup_at s)
      (bs_last_backup_size_bytes s) (bs_last_restore_test_at s) (bs_last_restore_test_status s)))).

Definition set_last_backup (now size : Z) (s : BackupState) : BackupState :=
  mkBackupState (bs_enabled s) (bs_location s) (bs_schedule s) (Some now) (Some size)
    (bs_last_restore_test_at s) (bs_last_restore_test_status s).
Definition record_backup_run (run : BackupRun) (now : Z) : backup_sql () :=
  o ← gets (λ s, st_backup_runs s !! br_id run);
  guard_err (bool_decide (is_Some o)) UniqueViolation;;
  modify (with_runs (insert (br_id run) run));;
  modify (with_state (fmap (set_last_backup now (br_size_bytes run)))).

Definition get_backup_run (id : string) : backup_sql (option BackupRun) :=
  gets (λ s, st_backup_runs s !! id).

Definition set_last_test (status : string) (at_ms : Z) (s : BackupState) : BackupState :=
  mkBackupState (bs_enabled s) (bs_location s) (bs_schedule s) (bs_last_backup_at s)
    (bs_last_backup_size_bytes s) (Some at_ms) (Some status).
Definition record_restore_test (status : string) (at_ms : Z) : backup_sql () :=
  modify (with_state (λ s, Some (set_last_test status at_ms (default default_state s)))).

(** ** restore.rs and restore_test.rs on the files of the host *)

Definition on_store {A} (m : backup_sql A) : server A := λ s,
  let '(st, r) := m (sv_store s) in (mkServer st (sv_files s), map_res (λ _, Api.internal) r).
Definition on_handler {A} (m : handler A) : server A := λ s,
  let '(d, r) := m (st_db (sv_store s)) in
  (mkServer (mkStore d (st_backup_key (sv_store s)) (st_backup_state (sv_store s)) (st_backup_runs (sv_store s)))
     (sv_files s), r).
Definition on_files (f : gmap string blob → gmap string blob) : server () :=
  modify (λ s, mkServer (sv_store s) (f (sv_files s))).

(** [write_snapshot] of a path that ends in [.db]: the bytes, and no sidecars. *)
Definition write_snapshot (dest : string) (snapshot : blob) (files : gmap string blob) : gmap string blob :=
  delete (String.append dest "-shm") (delete (String.append dest "-wal") (<[dest := snapshot]> files)).

Definition scratch_file (ρ : Env) (uuid : Uuid) : string :=
  join_path (temp_dir ρ) (String.append "vautr-restore-test-" (String.append uuid ".db")).

(** [restore_to_db]: the archive's snapshot, written and checked. *)
Definition restore_to_db (key archive : blob) (dest : string) : server (result RestoreError RestoreOutcome) :=
  match decrypt_archive key archive with
  | Err e => mret (Err e)
  | Ok payload =>
      match snapshot_bytes payload with
      | Err _ => mret (Err (RestoreIo "snapshot base64 decode"))
      | Ok snapshot =>
          on_files (write_snapshot dest snapshot);;
          match sqlite_open snapshot with
          | None => mret (Err (RestoreDb "integrity check"))
          | Some db =>
              if decide (integrity_check snapshot = "ok"%string)
              then mret (Ok (mkOutcome (count_items db) (ap_manifest payload)))
              else mret (Err (RestoreDb "integrity check failed"))
          end
      end
  end.

(** The [Err] is a test that could not run. *)
Definition validate_in_scratch (snapshot_b64 scratch : string) : server (option RestoreTestOutcome) :=
  match b64_decode snapshot_b64 with
  | None => mret (Some (mkTestOutcome false 0 None "snapshot base64 is corrupt"))
  | Some snapshot =>
      on_files (write_snapshot scratch snapshot);;
      match sqlite_open snapshot with
      | None => mret None
      | Some db =>
          mret (Some (if decide (integrity_check snapshot = "ok"%string)
                      then mkTestOutcome true (count_items db) None "decrypted and validated in scratch DB"
                      else mkTestOutcome false (count_items db) None "integrity check reported"))
      end
  end.

Definition run_restore_test (scratch : string) (key archive : blob) : server (option RestoreTestOutcome) :=
  match decrypt_archive key archive with
  | Err _ => mret (Some (mkTestOutcome false 0 None "archive could not be decrypted"))
  | Ok payload =>
      o ← validate_in_scratch (ap_snapshot_b64 payload) scratch;
      match o with
      | None => mret None
      | Some t =>
          on_files (delete scratch);;
          mret (Some (mkTestOutcome (rt_passed t) (rt_restored_records t) (Some (ap_manifest payload)) (rt_detail t)))
      end
  end.

(** ** handlers/backup.rs *)

Definition VAULT_ID : string := "vautr-main-vault".

Record BackupStatus := mkStatus {
  st_enabled : bool; st_location : option string; st_schedule : string;
  st_last_backup_at : option Z; st_last_size : option Z;
  st_last_restore_test_at : option Z; st_last_restore_test_status : option string }.
Record BackupExportResponse := mkExportResp {
  er_backup_id : string; er_download_url : option string; er_size_bytes : Z; er_checksum : string; er_created_at : Z }.
Record BackupRestoreRequest := mkRestoreReq { rq_backup_id : option string; rq_archive_base64 : option string }.
Record BackupRestoreResponse := mkRestoreResp {
  rr_status : string; rr_test_id : string; rr_restored_records : Z; rr_restored_at : Z }.

Definition require_admin (user_id : string) : server () :=
  is_admin ← on_handler (call (ProjectRepo.user_is_org_admin user_id));
  guard_err (negb is_admin) (mkApiError 403 "admin_role_required").

Definition read_archive (path : string) : server blob :=
  o ← gets (λ s, sv_files s !! path);
  ok_or Api.internal o.

Definition unknown_backup (status : Z) : ApiError := mkApiError status "unknown_backup".

Definition download_backup (ρ : Env) (auth : string) (id : string) : server blob :=
  caller ← on_handler (auth_user ρ auth);
  require_admin caller;;
  o ← on_store (get_backup_run id);
  run ← ok_or (unknown_backup 404) o;
  read_archive (br_archive_path run).

Definition backup_status (ρ : Env) (auth : string) : server BackupStatus :=
  caller ← on_handler (auth_user ρ auth);
  require_admin caller;;
  s ← on_store backup_state;
  mret (mkStatus (bs_enabled s) (bs_location s) (bs_schedule s) (bs_last_backup_at s)
    (as_u64 <$> bs_last_backup_size_bytes s) (bs_last_restore_test_at s) (bs_last_restore_test_status s)).

Definition not_blank (s : string) : option string := if decide (str_trim s = "") then None else Some s.

Definition resolve_location (ρ : Env) : server string :=
  s ← on_store backup_state;
  mret (match bs_location s ≫= not_blank with
        | Some l => l
        | None => default "./backups" (env_var ρ "VAUTR_BACKUP_DIR" ≫= not_blank)
        end).

(** The first two random draws are the key, if one is needed, and the nonce; the
    first uuid names the snapshot, which is gone in the end. *)
Definition export_backup (ρ : Env) (auth : string) : server BackupExportResponse :=
  caller ← on_handler (auth_user ρ auth);
  require_admin caller;;
  key ← on_store (get_or_create_backup_key ρ (rand ρ 0));
  location ← resolve_location ρ;
  snapshot ← gets (λ s, vacuum_into (sv_store s));
  entry_count ← gets (λ s, count_items (sv_store s));
  let meta := ArchiveMeta_new (rfc3339 (now_ms ρ)) VAULT_ID (as_u64 entry_count) in
  archive ← ok_or Api.internal (create_archive (rand ρ 1) key snapshot meta);
  let backup_id := fresh ρ 1 in
  let created_at := now_ms ρ in
  let checksum := sha256_hex archive in
  let archive_path := join_path location (String.append "backup-" (String.append backup_id ".vautr")) in
  on_files (insert archive_path archive);;
  let size := Z.of_nat (length archive) in
  on_store (record_backup_run
    (mkRun backup_id created_at size checksum archive_path VAULT_ID entry_count) created_at);;
  mret (mkExportResp backup_id (Some (String.append "/backup/" (String.append backup_id "/download")))
          size checksum created_at).

Definition requested_archive (body : BackupRestoreRequest) : server blob :=
  match rq_archive_base64 body with
  | Some b64 => on_handler (decode_b64 b64)
  | None =>
      match rq_backup_id body with
      | Some id =>
          o ← on_store (get_backup_run id);
          run ← ok_or (Api.bad_request "unknown_backup") o;
          read_archive (br_archive_path run)
      | None => throw (Api.bad_request "missing_archive")
      end
  end.

(** What [restore_backup] does for an administrator. *)
Definition do_restore (ρ : Env) (body : BackupRestoreRequest) : server BackupRestoreResponse :=
  archive ← requested_archive body;
  key ← on_store (get_or_create_backup_key ρ (rand ρ 0));
  o ← run_restore_test (scratch_file ρ (fresh ρ 0)) key archive;
  outcome ← ok_or Api.internal o;
  let status := if rt_passed outcome then "success"%string else "failed"%string in
  on_store (record_restore_test status (now_ms ρ));;
  mret (mkRestoreResp status (fresh ρ 1) (rt_restored_records outcome) (now_ms ρ)).

Definition restore_backup (ρ : Env) (auth : string) (body : BackupRestoreRequest) : server BackupRestoreResponse :=
  caller ← on_handler (auth_user ρ auth);
  require_admin caller;;
  do_restore ρ body.

(** The routes. *)
Inductive BackupRequest :=
| BackupStatusOf (auth : string) | ExportBackup (auth : string)
| RestoreBackup (auth : string) (body : BackupRestoreRequest) | DownloadBackup (auth : string) (id : string).

Definition serve_backup (ρ : Env) (q : BackupRequest) : server () :=
  match q with
  | BackupStatusOf a => backup_status ρ a;; mret ()
  | ExportBackup a => export_backup ρ a;; mret ()
  | RestoreBackup a b => restore_backup ρ a b;; mret ()
  | DownloadBackup a i => download_backup ρ a i;; mret ()
  end.
End Backup.

(** ** The archive format *)
Section ArchiveFormat.
Context {EXT : Ext} {CEXT : CryptoExt} {AEXT : ArchiveExt} {SQL : Sqlite}.

Lemma open_seal `{!CryptoLaws} nonce key p a :
  length nonce = Archive.NONCE_LEN → seal nonce key p = Ok a → open key a = Ok p.
Proof.
  unfold seal. intros Hn. destruct (xchacha_encrypt key nonce MAGIC p) as [ct|] eqn:Hct; [|done]. intros Ha.
  assert (a = MAGIC ++ be_bytes 4 CURRENT_FORMAT_VERSION ++ nonce ++ ct) as -> by congruence. clear Ha.
  pose proof (xchacha_len _ _ _ _ _ Hct) as Hl. unfold TAG_LEN in Hl. unfold open.
  assert (length MAGIC = 8%nat) as Hm by reflexivity.
  assert (length (be_bytes 4 CURRENT_FORMAT_VERSION) = 4%nat) as Hv by apply be_bytes_len.
  rewrite bool_decide_false by (rewrite !length_app, Hm, Hv, Hn, Hl; unfold Archive.NONCE_LEN; lia).
  rewrite bool_decide_false by (rewrite take_app_length; auto).
  rewrite drop_app_length, take_app_length' by done.
  change (from_be_bytes (be_bytes 4 CURRENT_FORMAT_VERSION)) with 1. rewrite bool_decide_false by done.
  rewrite <-!drop_drop, drop_app_length, drop_app_length' by done.
  rewrite take_app_length', drop_app_length' by done. by rewrite (xchacha_open _ _ _ _ _ Hct).
Qed.

(** What a created archive decrypts to. *)
Lemma decrypt_created `{!CryptoLaws, !ArchiveLaws} nonce key snapshot at_ id n a :
  length nonce = Archive.NONCE_LEN →
  create_archive nonce key snapshot (ArchiveMeta_new at_ id n) = Some a →
  decrypt_archive key a = Ok (ArchivePayload_new (ArchiveMeta_new at_ id n) snapshot).
Proof.
  unfold create_archive, decrypt_archive. intros Hn. cbn [verify_format ArchiveMeta_new am_format_version].
  destruct (payload_json (ArchivePayload_new (ArchiveMeta_new at_ id n) snapshot)) as (j & Hj & Hj').
  unfold verify_format. rewrite bool_decide_false by done. rewrite Hj. cbn.
  destruct (seal nonce key j) as [a'|] eqn:Hs; [|done]. intros [= <-].
  rewrite (open_seal _ _ _ _ Hn Hs), Hj'. cbn. by rewrite bool_decide_false by done.
Qed.
End ArchiveFormat.

(** ** Who may *)
Section Gate.
Context {EXT : Ext} {CEXT : CryptoExt} {AEXT : ArchiveExt} {SQL : Sqlite}.

Definition may_back_up (ρ : Env) (auth : string) (s : Server) : Prop :=
  ∃ u, session_valid (st_db (sv_store s)) (now_ms ρ) auth u ∧ org_admin u (st_db (sv_store s)) = true.

Lemma on_handler_read {A} (m : handler A) s : (m (st_db (sv_store s))).1 = st_db (sv_store s) →
  on_handler m s = (s, (m (st_db (sv_store s))).2).
Proof.
  destruct s as [[d k st r] f]. cbn. unfold on_handler. cbn. destruct (m d) as [d' x]. cbn. by intros ->.
Qed.

(** The two lines every handler starts with. *)
Definition gated {A} (ρ : Env) (auth : string) (k : server A) : server A :=
  caller ← on_handler (auth_user ρ auth); require_admin caller;; k.

Lemma gated_ok {A} ρ auth (k : server A) s : may_back_up ρ auth s → gated ρ auth k s = k s.
Proof.
  intros (u & Hv & Ha). unfold gated. rewrite bind_run, on_handler_read by apply auth_user_read.
  apply auth_user_spec in Hv. rewrite Hv. cbn [snd]. unfold require_admin.
  rewrite bind_assoc, bind_run, on_handler_read by done. cbn [snd].
  change ((call (ProjectRepo.user_is_org_admin u) : handler bool) (st_db (sv_store s))).2
    with (Ok (E:=ApiError) (org_admin u (st_db (sv_store s)))). by rewrite Ha.
Qed.

Lemma gated_inv {A} ρ auth (k : server A) s s' a :
  gated ρ auth k s = (s', Ok a) → may_back_up ρ auth s ∧ k s = (s', Ok a).
Proof.
  unfold gated. rewrite bind_run, on_handler_read by apply auth_user_read.
  destruct (auth_user ρ auth (st_db (sv_store s))) as [d [u|e]] eqn:Hu; [|done]. cbn [snd].
  apply auth_user_ok in Hu as [-> Hv]. unfold require_admin.
  rewrite bind_assoc, bind_run, on_handler_read by done. cbn [snd].
  change ((call (ProjectRepo.user_is_org_admin u) : handler bool) (st_db (sv_store s))).2
    with (Ok (E:=ApiError) (org_admin u (st_db (sv_store s)))).
  destruct (org_admin u (st_db (sv_store s))) eqn:Ha; [|done]. intros Hk. split; [by exists u | exact Hk].
Qed.
End Gate.

(** ** Between an export and a restore *)
Section Restores.
Context {EXT : Ext} {WA : WebauthnRs} {CEXT : CryptoExt} {AEXT : ArchiveExt} {SQL : Sqlite}.

(** Backup runs and the key, once there, stay. *)
Definition keeps_backups (s s' : Store) : Prop :=
  (∀ i r, st_backup_runs s !! i = Some r → st_backup_runs s' !! i = Some r) ∧
  (∀ k, st_backup_key s = Some k → st_backup_key s' = Some k).
Definition server_keeps (s s' : Server) : Prop := keeps_backups (sv_store s) (sv_store s').

#[local] Instance keeps_preorder : PreOrder keeps_backups.
Proof. split; unfold keeps_backups; [naive_solver | intros s1 s2 s3; naive_solver]. Qed.
#[local] Instance server_keeps_preorder : PreOrder server_keeps.
Proof. split; unfold server_keeps; [intros s; reflexivity | intros s1 s2 s3; apply transitivity]. Qed.

Lemma steps_on_store {A} (m : backup_sql A) : steps keeps_backups m → steps server_keeps (on_store m).
Proof. intros Hm s. specialize (Hm (sv_store s)). unfold on_store. by destruct (m (sv_store s)). Qed.
Lemma steps_on_handler {A} (m : handler A) : steps server_keeps (on_handler m).
Proof. intros s. unfold on_handler. by destruct (m (st_db (sv_store s))). Qed.
Lemma steps_on_files f : steps server_keeps (on_files f).
Proof. apply steps_modify. done. Qed.
Lemma steps_with_state (f : option BackupState → option BackupState) :
  steps (E:=DbError) keeps_backups (modify (with_state f)).
Proof. apply steps_modify. done. Qed.

#[local] Hint Resolve steps_on_handler steps_on_files steps_with_state : steps.

Lemma steps_backup_key ρ drawn : steps keeps_backups (get_or_create_backup_key ρ drawn).
Proof.
  unfold get_or_create_backup_key. destruct (env_var ρ "VAUTR_BACKUP_KEY"); [steps_tac|].
  apply steps_bind; [typeclasses eauto | steps_tac | intros _ s]. rewrite bind_run, gets_run.
  destruct (st_backup_key s) as [k|] eqn:Hk; [destruct (decide _); reflexivity|].
  split; [done | by rewrite Hk].
Qed.

Lemma steps_record_run r now : steps keeps_backups (record_backup_run r now).
Proof.
  intros s. unfold record_backup_run. run_step.
  destruct (st_backup_runs s !! br_id r) as [o|] eqn:Ho; [reflexivity|]. split; [|done].
  intros i r' Hi. cbn. rewrite lookup_insert_ne; [done | congruence].
Qed.

Lemma steps_backup_state : steps keeps_backups backup_state.
Proof. unfold backup_state. steps_tac. Qed.

#[local] Hint Resolve steps_backup_key steps_record_run steps_backup_state steps_on_store : steps.

Lemma keeps_serve ρ q : steps server_keeps (serve_backup ρ q).
Proof.
  destruct q as [a|a|a b|a i]; unfold serve_backup, backup_status, export_backup, resolve_location,
    restore_backup, do_restore, requested_archive, run_restore_test, validate_in_scratch, record_restore_test,
    download_backup, require_admin, read_archive, get_backup_run; steps_tac.
Qed.

(** One request after the other, to these routes and to all others. *)
Definition serve_any (ρ : Env) (q : Request + BackupRequest) (s : Server) : Server :=
  match q with
  | inl q => mkServer (mkStore (step ρ q (st_db (sv_store s))) (st_backup_key (sv_store s))
                         (st_backup_state (sv_store s)) (st_backup_runs (sv_store s))) (sv_files s)
  | inr q => (serve_backup ρ q s).1
  end.
Definition days (l : list (Env * (Request + BackupRequest))) (s : Server) : Server :=
  foldl (λ s q, serve_any q.1 q.2 s) s l.

Lemma days_keep l s : server_keeps s (days l s).
Proof.
  revert s. induction l as [|[ρ q] l IH]; intros s; [reflexivity|]. cbn. etrans; [|apply IH].
  destruct q as [q|q]; [by cbn | apply keeps_serve].
Qed.

(** The key comes from the environment or from the store. *)
Definition same_key_source (ρ ρ' : Env) : Prop :=
  ∀ x, x ∈ ["VAUTR_BACKUP_KEY"; "VAUTR_ENV"; "VAUTR_ALLOW_DB_BACKUP_KEY"]%string → env_var ρ' x = env_var ρ x.

Lemma backup_key_again ρ ρ' drawn drawn' s s1 s2 k :
  same_key_source ρ ρ' → length drawn = 32%nat →
  get_or_create_backup_key ρ drawn s = (s1, Ok k) → keeps_backups s1 s2 →
  get_or_create_backup_key ρ' drawn' s2 = (s2, Ok k).
Proof.
  intros He Hd Hk [_ Hkeep]. unfold get_or_create_backup_key in *. rewrite !He by set_solver.
  destruct (env_var ρ "VAUTR_BACKUP_KEY") as [b64|].
  - ok_inv Hk. run_step. destruct (b64_decode (str_trim b64)) as [b|]; [|done].
    injection Hr as ->. run_step. by rewrite Hr1.
  - apply bind_ok in Hk as (t & [] & Hg & Hk). ok_inv Hg. run_step. rewrite Hg. run_step.
    rewrite bind_run, gets_run in Hk. destruct (st_backup_key s) as [k'|] eqn:Hs.
    + destruct (decide (length k' = 32%nat)) as [Hl|]; [|done]. ok_inv Hk.
      rewrite (Hkeep _ Hs). by rewrite decide_True.
    + ok_inv Hk. rewrite (Hkeep drawn eq_refl). by rewrite decide_True.
Qed.

(** The store of which an export takes the snapshot. *)
Definition snapshot_store (ρ : Env) (s : Server) : Store :=
  (backup_state (get_or_create_backup_key ρ (rand ρ 0) (sv_store s)).1).1.

Lemma backup_key_db ρ drawn s : st_db (get_or_create_backup_key ρ drawn s).1 = st_db s.
Proof.
  unfold get_or_create_backup_key. destruct (env_var ρ "VAUTR_BACKUP_KEY") as [b|].
  - run_step. destruct (b64_decode _); [|done]. run_step. by destruct (bool_decide _).
  - run_step. destruct (_ && _); [done|]. run_step.
    destruct (st_backup_key s) as [k|]; [by destruct (decide _) | done].
Qed.
Lemma snapshot_db ρ s : st_db (snapshot_store ρ s) = st_db (sv_store s).
Proof. unfold snapshot_store, backup_state. cbn. apply backup_key_db. Qed.

Lemma on_store_ok {A} (m : backup_sql A) s s' a :
  on_store m s = (s', Ok a) → ∃ st, m (sv_store s) = (st, Ok a) ∧ s' = mkServer st (sv_files s).
Proof.
  unfold on_store. destruct (m (sv_store s)) as [st [x|e]]; [|done]. intros [= <- <-]. by exists st.
Qed.

Lemma record_run_ok run now s s' :
  record_backup_run run now s = (s', Ok ()) → st_backup_runs s' = <[br_id run := run]> (st_backup_runs s).
Proof. unfold record_backup_run. intros H. by ok_inv H. Qed.

Lemma resolve_location_ok ρ s s' l :
  resolve_location ρ s = (s', Ok l) → s' = mkServer (backup_state (sv_store s)).1 (sv_files s).
Proof.
  unfold resolve_location. intros H. apply bind_ok in H as (s1 & b & Hb & H). apply ret_ok in H as [-> ->].
  apply on_store_ok in Hb as (st & Hb & ->). by rewrite Hb.
Qed.

(** What a successful export leaves behind. *)
Lemma export_ok ρ auth s s1 r :
  export_backup ρ auth s = (s1, Ok r) →
  ∃ k st a run,
    get_or_create_backup_key ρ (rand ρ 0) (sv_store s) = (st, Ok k) ∧
    create_archive (rand ρ 1) k (vacuum_into (snapshot_store ρ s))
      (ArchiveMeta_new (rfc3339 (now_ms ρ)) VAULT_ID (as_u64 (count_items (sv_store s)))) = Some a ∧
    st_backup_runs (sv_store s1) !! er_backup_id r = Some run ∧
    sv_files s1 !! br_archive_path run = Some a ∧ keeps_backups st (sv_store s1).
Proof.
  intros H. apply (gated_inv ρ auth) in H as [_ H].
  apply bind_ok in H as (s2 & k & Hk & H). apply on_store_ok in Hk as (st & Hk & ->).
  apply bind_ok in H as (s3 & loc & Hl & H). apply resolve_location_ok in Hl as ->.
  assert ((backup_state st).1 = snapshot_store ρ s) as Hst by (unfold snapshot_store; by rewrite Hk).
  cbn [sv_store sv_files] in H. rewrite Hst in H.
  apply bind_ok in H as (s4 & snap & Hsnap & H). apply gets_ok in Hsnap as [-> ->].
  apply bind_ok in H as (s5 & n & Hn & H). apply gets_ok in Hn as [-> ->].
  apply bind_ok in H as (s6 & a & Ha & H). apply ok_or_ok in Ha as [-> Ha].
  apply bind_ok in H as (s7 & [] & Hf & H). apply modify_ok in Hf as ->.
  apply bind_ok in H as (s8 & [] & Hr & H). apply on_store_ok in Hr as (st' & Hr & ->).
  ok_inv H. pose proof (record_run_ok _ _ _ _ Hr) as Hruns.
  eassert (keeps_backups _ (record_backup_run _ _ _).1) as Hkeep by apply steps_record_run. rewrite Hr in Hkeep.
  exists k, st, a. eexists. split; [done|]. unfold count_items in *. rewrite snapshot_db in Ha.
  split; [exact Ha|]. rewrite Hruns. split; [apply lookup_insert_eq|]. split; [apply lookup_insert_eq|].
  etrans; [|exact Hkeep]. rewrite <-Hst. apply steps_backup_state.
Qed.

(** Validation of a snapshot that VACUUM INTO made, and what is left of it. *)
Lemma restore_test_run `{!ExtLaws, !CryptoLaws, !ArchiveLaws} scratch nonce key st meta a s :
  length nonce = Archive.NONCE_LEN → am_format_version meta = CURRENT_FORMAT_VERSION → vacuum_copies st →
  create_archive nonce key (vacuum_into st) meta = Some a →
  ∃ files detail,
    run_restore_test scratch key a s =
      (mkServer (sv_store s) files, Ok (Some (mkTestOutcome true (count_items st) (Some meta) detail))) ∧
    files !! scratch = None.
Proof.
  intros Hn Hv [Ho Hc] Ha. unfold run_restore_test. destruct meta as [v c i n]. cbn in Hv. subst v.
  rewrite (decrypt_created _ _ _ c i n _ Hn Ha). cbn [ap_snapshot_b64 ap_manifest ArchivePayload_new].
  unfold validate_in_scratch, on_files. rewrite b64_roundtrip, Ho, Hc, decide_True by done. run_step.
  eexists _, _. split; [reflexivity|]. apply lookup_delete_eq.
Qed.

Lemma restore_to_db_run `{!ExtLaws, !CryptoLaws, !ArchiveLaws} dest nonce key st meta a s :
  length nonce = Archive.NONCE_LEN → am_format_version meta = CURRENT_FORMAT_VERSION → vacuum_copies st →
  create_archive nonce key (vacuum_into st) meta = Some a →
  restore_to_db key a dest s =
    (mkServer (sv_store s) (write_snapshot dest (vacuum_into st) (sv_files s)),
     Ok (Ok (mkOutcome (count_items st) meta))).
Proof.
  intros Hn Hv [Ho Hc] Ha. unfold restore_to_db. destruct meta as [v c i n]. cbn in Hv. subst v.
  rewrite (decrypt_created _ _ _ c i n _ Hn Ha). unfold snapshot_bytes, on_files.
  cbn [ap_snapshot_b64 ap_manifest ArchivePayload_new].
  rewrite b64_roundtrip, Ho, Hc, decide_True by done. by run_step.
Qed.

Lemma written_snapshot dest b files : write_snapshot dest b files !! dest = Some b.
Proof.
  unfold write_snapshot.
  assert (∀ x, x ≠ ""%string → String.append dest x ≠ dest) as Hne.
  { intros x Hx. induction dest as [|c d IH]; [done|]. cbn. intros [= Hd]. done. }
  rewrite !lookup_delete_ne by (by apply Hne). apply lookup_insert_eq.
Qed.

Lemma count_items_db s s' : st_db s = st_db s' → count_items s = count_items s'.
Proof. unfold count_items. by intros ->. Qed.

Lemma do_restore_run ρ i s run a k st files t :
  st_backup_runs (sv_store s) !! i = Some run → sv_files s !! br_archive_path run = Some a →
  on_store (get_or_create_backup_key ρ (rand ρ 0)) s = (s, Ok k) →
  run_restore_test (scratch_file ρ (fresh ρ 0)) k a s = (mkServer st files, Ok (Some t)) →
  let status := if rt_passed t then "success"%string else "failed"%string in
  do_restore ρ (mkRestoreReq (Some i) None) s =
    (mkServer (with_state (λ b, Some (set_last_test status (now_ms ρ) (default default_state b))) st) files,
     Ok (mkRestoreResp status (fresh ρ 1) (rt_restored_records t) (now_ms ρ))).
Proof.
  intros Hr Ha Hk Ht status.
  assert (requested_archive (mkRestoreReq (Some i) None) s = (s, Ok a)) as Hreq.
  { destruct s as [st0 fs]. cbn in *. unfold on_store, get_backup_run. rewrite bind_run, gets_run. cbn.
    rewrite Hr. run_step. unfold read_archive. run_step. by rewrite Ha. }
  unfold do_restore. rewrite bind_run, Hreq. cbn [map_res]. rewrite bind_run, Hk, bind_run, Ht. by run_step.
Qed.

(** C24. A backup restores, whatever was asked in between: after any later
    requests to any route, an administrator's restore test of an exported
    archive that is still on disk and whose key source is unchanged succeeds,
    counts the items that the export saw, leaves the live database alone and its
    scratch file gone; and a restore to a database file writes a database with
    all the rows the store had when the export was made. *)
Theorem exported_backup_restores `{!ExtLaws, !CryptoLaws, !ArchiveLaws}
    ρ auth s s1 r l ρ' auth' dest :
  export_backup ρ auth s = (s1, Ok r) →
  length (rand ρ 0) = 32%nat → length (rand ρ 1) = NONCE_LEN →
  vacuum_copies (snapshot_store ρ s) →
  let s2 := days l s1 in
  same_key_source ρ ρ' → may_back_up ρ' auth' s2 →
  (∀ run, st_backup_runs (sv_store s1) !! er_backup_id r = Some run →
     sv_files s2 !! br_archive_path run = sv_files s1 !! br_archive_path run) →
  (∃ s3 resp,
     restore_backup ρ' auth' (mkRestoreReq (Some (er_backup_id r)) None) s2 = (s3, Ok resp) ∧
     rr_status resp = "success"%string ∧ rr_restored_records resp = count_items (sv_store s) ∧
     st_db (sv_store s3) = st_db (sv_store s2) ∧ sv_files s3 !! scratch_file ρ' (fresh ρ' 0) = None) ∧
  ∃ key archive s4 outcome image db,
    restore_to_db key archive dest s2 = (s4, Ok (Ok outcome)) ∧
    ro_restored_records outcome = count_items (sv_store s) ∧
    sv_files s4 !! dest = Some image ∧ sqlite_open image = Some db ∧
    st_db db = st_db (on_disk (sv_store s)).
Proof.
  intros He Hk Hn Hvac s2 Hsrc Hadm Hfile.
  destruct (export_ok _ _ _ _ _ He) as (k & st & a & run & Hkey & Ha & Hrun & Har & Hkeep).
  pose proof (days_keep l s1) as Hdays. fold s2 in Hdays. destruct Hdays as [Hruns Hkeys].
  assert (keeps_backups st (sv_store s2)) as Hkeep2 by (etrans; [exact Hkeep | split; assumption]).
  specialize (Hfile _ Hrun). rewrite Har in Hfile. split.
  - pose proof (backup_key_again ρ ρ' (rand ρ 0) (rand ρ' 0) _ _ _ _ Hsrc Hk Hkey Hkeep2) as Hagain.
    destruct (restore_test_run (scratch_file ρ' (fresh ρ' 0)) _ _ _ (ArchiveMeta_new _ _ _) _ s2 Hn eq_refl Hvac Ha)
      as (files & detail & Ht & Hgone).
    eexists _, _. split.
    { change (restore_backup ρ' auth' ?b s2) with (gated ρ' auth' (do_restore ρ' b) s2).
      rewrite (gated_ok _ _ _ _ Hadm). eapply (do_restore_run _ _ _ run); [by apply Hruns | exact Hfile | | exact Ht].
      unfold on_store. rewrite Hagain. by destruct s2. }
    cbn. rewrite (count_items_db _ _ (snapshot_db ρ s)). done.
  - eexists k, _, _, _, (vacuum_into (snapshot_store ρ s)), (on_disk (snapshot_store ρ s)). split.
    { by eapply (restore_to_db_run dest _ _ _ (ArchiveMeta_new _ _ _) _ s2 Hn eq_refl Hvac). }
    cbn. rewrite (count_items_db _ _ (snapshot_db ρ s)), snapshot_db, written_snapshot. destruct Hvac. done.
Qed.

(** A snapshot that is no database: the test could not run, and what it
    decrypted stays on the disk. *)
Lemma unopenable_snapshot_stays scratch key archive payload snapshot s :
  decrypt_archive key archive = Ok payload → snapshot_bytes payload = Ok snapshot →
  sqlite_open snapshot = None →
  ∃ files, run_restore_test scratch key archive s = (mkServer (sv_store s) files, Ok None) ∧
           files !! scratch = Some snapshot.
Proof.
  unfold snapshot_bytes. intros Hd Hs Ho. unfold run_restore_test, validate_in_scratch, on_files. rewrite Hd.
  destruct (b64_decode (ap_snapshot_b64 payload)) as [b|]; [|done]. injection Hs as ->. rewrite Ho. run_step.
  eexists. split; [reflexivity | apply written_snapshot].
Qed.
End Restores.

(** ** A concrete host *)
Module Demo.
#[local] Existing Instances Concrete.toy_ext toy_webauthn toy_crypto.

Fixpoint bits (p : positive) : blob :=
  match p with xH => [] | xO p => x00 :: bits p | xI p => x01 :: bits p end.
Fixpoint of_bits (b : blob) : positive :=
  match b with [] => xH | x00 :: b => xO (of_bits b) | _ :: b => xI (of_bits b) end.
Lemma of_bits_bits p : of_bits (bits p) = p.
Proof. induction p; cbn; congruence. Qed.

Definition flat (p : ArchivePayload) : Z * string * string * Z * string :=
  let m := ap_manifest p in
  (am_format_version m, am_created_at m, am_vault_id m, am_entry_count m, ap_snapshot_b64 p).
Definition unflat (t : Z * string * string * Z * string) : ArchivePayload :=
  let '(v, c, i, n, s) := t in mkPayload (mkMeta v c i n) s.

#[local] Instance toy_archive : ArchiveExt := {|
  payload_to_json p := Some (bits (encode (flat p)));
  payload_of_json b := unflat <$> decode (of_bits b) |}.
#[local] Instance toy_archive_laws : ArchiveLaws.
Proof.
  split. intros [[v c i n] b]. eexists. split; [reflexivity|]. cbn [payload_of_json toy_archive].
  by rewrite of_bits_bits, decode_encode.
Qed.

(** Alice owns an organization and has an item. *)
Definition db : Db :=
  with_org_members (insert ("acme", "alice") (mkOrgMember "Owner" 1))
    (with_items (insert ("i1", "alice") (mkItem "i1" "alice" 1 2 None (Some [x41]) 50 (Some 1))) (Concrete.demo_session "sess" "alice" 900 Concrete.demo_db)).
Definition store : Store := mkStore db None None ∅.
Definition env (c : string) (now : Z) : Env :=
  mkEnv now (λ n, String.append c (String (Ascii.ascii_of_nat (48 + n)) EmptyString))
    (λ n, replicate (if n is O then 32%nat else 24%nat) x41) (λ _, None) (λ _, None).

#[local] Instance toy_sqlite : Sqlite := {|
  vacuum_into s := bytes_of (if st_backup_key s is Some _ then "database" else "empty");
  sqlite_open b := if decide (b = bytes_of "database")
    then Some (on_disk (mkStore db (Some (replicate 32 x41)) (Some default_state) ∅)) else None;
  integrity_check _ := "ok";
  rfc3339 _ := "1970-01-01T00:00:00Z" |}.

(** Alice deletes her item and makes a second backup before she tests the first. *)
Definition between : list (Env * (Request + BackupRequest)) :=
  [(env "b" 110, inl (QSync (RDelete "i1" "sess"))); (env "c" 120, inr (ExportBackup "sess"))].

Definition s1 : Server := (export_backup (env "a" 100) "sess" (mkServer store ∅)).1.
Definition r1 : BackupExportResponse :=
  match (export_backup (env "a" 100) "sess" (mkServer store ∅)).2 with
  | Ok r => r
  | Err _ => mkExportResp "" None 0 "" 0
  end.

Lemma export_runs : export_backup (env "a" 100) "sess" (mkServer store ∅) = (s1, Ok r1).
Proof.
  unfold s1. rewrite (surjective_pairing (export_backup _ _ _)) at 1. apply (f_equal (pair _)).
  vm_compute. reflexivity.
Qed.

Lemma exported_backup_restores_witness :
  count_items store = 1 ∧ count_items (sv_store (days between s1)) = 1 ∧
  ∃ s3 resp,
    restore_backup (env "d" 130) "sess" (mkRestoreReq (Some (er_backup_id r1)) None) (days between s1) =
      (s3, Ok resp) ∧ rr_status resp = "success"%string ∧ rr_restored_records resp = 1.
Proof.
  split; [reflexivity|]. split; [vm_compute; reflexivity|].
  destruct (exported_backup_restores (env "a" 100) "sess" (mkServer store ∅) s1 r1 between
              (env "d" 130) "sess" "/tmp/out.db") as [(s3 & resp & Hr & Hs & Hn & _) _].
  - apply export_runs.
  - reflexivity.
  - reflexivity.
  - split; vm_compute; reflexivity.
  - done.
  - exists "alice"%string. split; [|vm_compute; reflexivity].
    eexists. split; [vm_compute; reflexivity|]. split; [reflexivity|]. split; [cbn; lia|].
    intros u until Hu Hun. vm_compute in Hu. injection Hu as <-. discriminate Hun.
  - intros run Hrun. vm_compute in Hrun. injection Hrun as <-. vm_compute. reflexivity.
  - exists s3, resp. split; [exact Hr|]. split; [exact Hs|]. rewrite Hn. vm_compute. reflexivity.
Defined.
End Demo.
