(* ===== verification/ShareClient.v ===== *)
(** * Sharing from a client

    Models [core/vautr-app-state/src/sharing.rs] (the transport interface and
    the in-memory relay) and the sharing half of [orchestrator.rs], on the
    envelopes of ShareCrypto.v.  [gmap]s iterate in key order where the relay's
    [HashMap]s iterate in no order in particular.  Shows what a recipient and a
    group member read, and what sharing an item again, and removing a member,
    take from the others. *)
From S2P Require Import Prelude Domain Database Concrete ClientDb ClientSync Crypto ShareCrypto Client Vault ConcreteClient.
Import Kem Shares.

Local Open Scope Z_scope.

(** ** sharing.rs *)
Class ShareTransport (W : Type) := {
  fetch_public_key : Uuid → M W string blob;
  post_share : ShareBundle → M W string ();
  post_share_payload : Uuid → blob → M W string ();
  fetch_inbox : M W string (list IncomingShare);
  relay_revoke_share : Uuid → M W string ();
  store_group_wrapped_key : WrappedGroupKey → M W string ();
  replace_group_wrapped_keys : list WrappedGroupKey → M W string ();
}.

Record RelayState := mkRelay {
  rl_public_keys : gmap Uuid blob;
  rl_inbox : gmap Uuid (list IncomingShare);
  rl_payloads : gmap Uuid blob;
  rl_group_wrapped : gmap (Uuid * Uuid) WrappedGroupKey }.

Module Relay.
Section Relay.
Context `{Ext}.

Definition publish_public_key (user_uuid : Uuid) (pk : blob) : M RelayState string () :=
  modify (λ r, mkRelay (<[user_uuid := pk]> (rl_public_keys r)) (rl_inbox r) (rl_payloads r) (rl_group_wrapped r)).

Definition fetch_public_key (user_uuid : Uuid) : M RelayState string blob :=
  o ← gets (λ r, rl_public_keys r !! user_uuid);
  ok_or "recipient has no sharing public key" o.

Definition post_share (bundle : ShareBundle) : M RelayState string () :=
  modify (λ r, mkRelay (rl_public_keys r)
    (partial_alter (λ o, Some (default [] o ++ [incoming_of bundle])) (sb_recipient_uuid bundle) (rl_inbox r))
    (rl_payloads r) (rl_group_wrapped r)).

Definition post_share_payload (share_id : Uuid) (payload : blob) : M RelayState string () :=
  modify (λ r, mkRelay (rl_public_keys r) (rl_inbox r) (<[share_id := payload]> (rl_payloads r)) (rl_group_wrapped r)).

(** One share, with the payload that was delivered for its id. *)
Definition with_payload (payloads : gmap Uuid blob) (s : IncomingShare) : IncomingShare :=
  match payloads !! is_share_id s with
  | Some p => mkIncoming (is_share_id s) (is_sender_uuid s) (is_item_uuid s) (is_wrapped_sik s)
                (is_ephemeral_public_key s) (b64_encode p)
  | None => s
  end.

(** Everybody's inbox: the relay does not ask who reads. *)
Definition fetch_inbox : M RelayState string (list IncomingShare) :=
  gets (λ r, with_payload (rl_payloads r) <$> concat ((map_to_list (rl_inbox r)).*2)).

Definition revoke_share (share_id : Uuid) : M RelayState string () :=
  modify (λ r, mkRelay (rl_public_keys r) (filter (λ s, is_share_id s ≠ share_id) <$> rl_inbox r)
                 (delete share_id (rl_payloads r)) (rl_group_wrapped r)).

Definition put_wrapped (w : WrappedGroupKey) : gmap (Uuid * Uuid) WrappedGroupKey → gmap (Uuid * Uuid) WrappedGroupKey :=
  insert (wg_group_id w, wg_member_uuid w) w.

Definition store_group_wrapped_key (wrapped : WrappedGroupKey) : M RelayState string () :=
  modify (λ r, mkRelay (rl_public_keys r) (rl_inbox r) (rl_payloads r) (put_wrapped wrapped (rl_group_wrapped r))).

(** The keys of the first one's group go before the new ones come. *)
Definition replace_group_wrapped_keys (wrapped : list WrappedGroupKey) : M RelayState string () :=
  modify (λ r, mkRelay (rl_public_keys r) (rl_inbox r) (rl_payloads r)
    (foldl (λ m w, put_wrapped w m)
       (match wrapped with
        | w :: _ => filter (λ kw : (Uuid * Uuid) * WrappedGroupKey, kw.1.1 ≠ wg_group_id w) (rl_group_wrapped r)
        | [] => rl_group_wrapped r
        end) wrapped)).
End Relay.
End Relay.

(** [InMemoryShareRelay]. *)
#[export] Instance InMemoryShareRelay `{Ext} : ShareTransport RelayState := {|
  fetch_public_key := Relay.fetch_public_key;
  post_share := Relay.post_share;
  post_share_payload := Relay.post_share_payload;
  fetch_inbox := Relay.fetch_inbox;
  relay_revoke_share := Relay.revoke_share;
  store_group_wrapped_key := Relay.store_group_wrapped_key;
  replace_group_wrapped_keys := Relay.replace_group_wrapped_keys |}.

(** ** orchestrator.rs *)
Section Orchestrator.
Context {W : Type} {ST : ShareTransport W} {EXT : Ext} {CEXT : CryptoExt} {VEXT : VaultExt}.

(** A call of the share transport; its errors are texts. *)
Definition on_share {A} (m : M W string A) : app W A := λ w,
  let '(s, r) := m (remote w) in (mkWorld (client w) s, map_res Msg r).

Definition require_sharing : app W () :=
  t ← cl c_share_transport; guard_err (negb t) (Msg "sharing not connected").
Definition require_user : app W Uuid :=
  u ← cl c_server_user_id; ok_or (Msg "no server user id") u.
Definition of_share {A} (r : result ShareError A) : app W A :=
  match r with Ok a => mret a | Err e => throw (FromShare e) end.

Definition connect_sharing : app W () := upd (with_share_transport (λ _, true)).
Definition set_sharing_keypair (kp : SharingKeyPair) : app W () := upd (with_sharing_keypair (λ _, Some kp)).
Definition sharing_public_key : app W (option blob) := cl (λ c, skp_public <$> c_sharing_keypair c).

Definition share_item (recipient_uuid item_uuid : Uuid) (plaintext : blob) : app W ShareBundle :=
  require_sharing;;
  sender ← require_user;
  pk ← on_share (fetch_public_key recipient_uuid);
  sik ← draw 32;
  nonce ← draw NONCE_LEN;
  ephemeral ← draw 32;
  nonce' ← draw NONCE_LEN;
  bundle ← of_share (Shares.share_item sik nonce ephemeral nonce' sender recipient_uuid item_uuid pk plaintext);
  on_share (post_share bundle);;
  payload ← ok_or (Msg "decode payload") (b64_decode (sb_encrypted_payload bundle));
  on_share (post_share_payload (sb_share_id bundle) payload);;
  publish (ShareSent (sb_share_id bundle));;
  mret bundle.

Definition fetch_shares : app W (list IncomingShare) :=
  require_sharing;; on_share fetch_inbox.

Definition accept_share (incoming : IncomingShare) : app W blob :=
  o ← cl c_sharing_keypair;
  kp ← ok_or (Msg "no sharing keypair installed") o;
  pt ← of_share (Shares.accept_share kp incoming);
  publish (ShareReceived (is_share_id incoming));;
  mret pt.

Definition revoke_share (share_id : Uuid) : app W () :=
  require_sharing;;
  on_share (relay_revoke_share share_id);;
  publish (ShareRevoked share_id).

(** [ShareGroupStore::put], [get]. *)
Definition put_group (k : ShareGroupKey) : app W () :=
  upd (with_groups (insert (sg_group_id (gk_group k)) k)).
Definition get_group (group_id : Uuid) : app W ShareGroupKey :=
  o ← cl (λ c, c_groups c !! group_id); ok_or (Msg "no such group") o.

Definition create_group (name : string) : app W ShareGroupKey :=
  admin ← require_user;
  sik ← draw 32;
  id ← draw 16;
  let key := Shares.create_group (uuid_v4 id) sik name admin in
  put_group key;;
  o ← cl (λ c, c_groups c !! sg_group_id (gk_group key));
  ok_or (Msg "group store insert failed") o.

Definition add_group_member (group_id member_uuid : Uuid) : app W WrappedGroupKey :=
  require_sharing;;
  key ← get_group group_id;
  pk ← on_share (fetch_public_key member_uuid);
  ephemeral ← draw 32;
  nonce ← draw NONCE_LEN;
  wrapped ← of_share (Shares.add_group_member key ephemeral nonce member_uuid pk);
  on_share (store_group_wrapped_key wrapped);;
  mret wrapped.

(** The bytes are drawn also where the check of the removed member refuses. *)
Definition remove_group_member (group_id member_uuid : Uuid) : app W () :=
  require_sharing;;
  key ← get_group group_id;
  let admin_uuid := sg_admin_uuid (gk_group key) in
  pk ← on_share (fetch_public_key admin_uuid);
  sik ← draw 32;
  ephemeral ← draw 32;
  nonce ← draw NONCE_LEN;
  rotation ← of_share (Shares.remove_group_member sik key member_uuid [(admin_uuid, pk, (ephemeral, nonce))]);
  on_share (replace_group_wrapped_keys (gr_rewrapped rotation));;
  put_group (gr_new_key rotation).

Definition rotate_group_sik (group_id : Uuid) : app W () :=
  require_sharing;;
  key ← get_group group_id;
  let admin_uuid := sg_admin_uuid (gk_group key) in
  pk ← on_share (fetch_public_key admin_uuid);
  sik ← draw 32;
  ephemeral ← draw 32;
  nonce ← draw NONCE_LEN;
  rotation ← of_share (Shares.rotate_group_sik sik (gk_group key) [(admin_uuid, pk, (ephemeral, nonce))]);
  on_share (replace_group_wrapped_keys (gr_rewrapped rotation));;
  put_group (gr_new_key rotation).

Definition share_to_group (group_id item_uuid : Uuid) (plaintext : blob) : app W blob :=
  key ← get_group group_id;
  nonce ← draw NONCE_LEN;
  of_share (encrypt_item key nonce item_uuid plaintext).
End Orchestrator.

(** ** Over the in-memory relay *)
Section OverRelay.
Context {EXT : Ext} {CEXT : CryptoExt} {VEXT : VaultExt}.
Context {EL : ExtLaws} {CL : CryptoLaws} {VL : VaultLaws}.
Implicit Types (w v : World RelayState) (c : Client).

Lemma of_share_ok {A} (r : result ShareError A) w w' a : of_share r w = (w', Ok a) → w' = w ∧ r = Ok a.
Proof. destruct r; [by intros [= <- <-] | done]. Qed.

Lemma fetch_key_ok u w w' pk :
  on_share (Relay.fetch_public_key u) w = (w', Ok pk) → w' = w ∧ rl_public_keys (remote w) !! u = Some pk.
Proof.
  unfold on_share, Relay.fetch_public_key. rewrite bind_run. unfold gets. cbv beta iota.
  destruct (rl_public_keys (remote w) !! u) as [k|]; [|done]. cbn. intros [= <- <-]. by destruct w.
Qed.

Ltac relay_inv H :=
  ok_inv H;
  repeat first
    [ world_step
    | match goal with
      | H : on_share (Relay.fetch_public_key _) _ = (_, Ok _) |- _ => apply fetch_key_ok in H as [-> ?]
      | H : of_share _ _ = (_, Ok _) |- _ => apply of_share_ok in H as [-> ?]
      | H : on_share _ _ = (_, Ok _) |- _ => injection H as <- _
      end ];
  simpl in *.

(** What a share leaves in the relay. *)
Definition relayed (r : RelayState) (b : ShareBundle) (payload : blob) : RelayState :=
  mkRelay (rl_public_keys r)
    (partial_alter (λ o, Some (default [] o ++ [incoming_of b])) (sb_recipient_uuid b) (rl_inbox r))
    (<[sb_share_id b := payload]> (rl_payloads r)) (rl_group_wrapped r).

Lemma share_item_ok recipient item pt w w' b :
  share_item recipient item pt w = (w', Ok b) →
  ∃ sik nonce ephemeral nonce' sender pk payload,
    length sik = 32%nat ∧ length nonce = NONCE_LEN ∧ length nonce' = NONCE_LEN ∧
    rl_public_keys (remote w) !! recipient = Some pk ∧
    Shares.share_item sik nonce ephemeral nonce' sender recipient item pk pt = Ok b ∧
    b64_decode (sb_encrypted_payload b) = Some payload ∧ remote w' = relayed (remote w) b payload.
Proof.
  unfold share_item, require_sharing, require_user, cl, fetch_public_key, InMemoryShareRelay. intros Hs. relay_inv Hs.
  eexists _, _, _, _, _, _, _. split; [apply os_random_len|]. split; [apply os_random_len|].
  split; [apply os_random_len|]. split_and!; [eassumption.. | done].
Qed.

(** A recipient's own client, over the relay as it is. *)
Definition recipient_at c (secret : blob) : Prop :=
  c_share_transport c = true ∧ c_sharing_keypair c = Some (Kem.from_secret secret).

Lemma fetch_shares_run v : c_share_transport (client v) = true →
  fetch_shares v =
    (v, Ok (Relay.with_payload (rl_payloads (remote v)) <$> concat ((map_to_list (rl_inbox (remote v))).*2))).
Proof. intros Ht. unfold fetch_shares, require_sharing. rewrite bind_run, bind_run. unfold cl, gets. cbv beta iota.
  rewrite guard_err_run, Ht. unfold on_share. simpl. by destruct v.
Qed.

Lemma inbox_in (r : RelayState) x (l : list IncomingShare) s :
  rl_inbox r !! x = Some l → s ∈ l →
  Relay.with_payload (rl_payloads r) s ∈ Relay.with_payload (rl_payloads r) <$> concat ((map_to_list (rl_inbox r)).*2).
Proof.
  intros Hl Hs. apply list_elem_of_fmap_2, list_elem_of_In, in_concat. exists l. split; [|by apply list_elem_of_In].
  apply list_elem_of_In, list_elem_of_fmap. exists (x, l). split; [done|]. by apply elem_of_map_to_list.
Qed.

Lemma relayed_in r b payload :
  ∃ l, rl_inbox (relayed r b payload) !! sb_recipient_uuid b = Some l ∧ incoming_of b ∈ l.
Proof.
  exists (default [] (rl_inbox r !! sb_recipient_uuid b) ++ [incoming_of b]).
  split; [by unfold relayed; simpl; rewrite lookup_partial_alter_eq|]. apply elem_of_app. right.
  by apply list_elem_of_singleton.
Qed.

(** An item shared with an account reaches it: over the relay, the holder of the
    key the account published finds the share among what it fetches, and
    accepting it gives the plaintext the sender shared. *)
Theorem shared_item_accepted recipient item pt w w' b c secret :
  share_item recipient item pt w = (w', Ok b) →
  rl_public_keys (remote w) !! recipient = Some (x25519_public secret) → recipient_at c secret →
  ∃ l s v', fetch_shares (mkWorld c (remote w')) = (mkWorld c (remote w'), Ok l) ∧ s ∈ l ∧
    is_item_uuid s = item ∧ accept_share s (mkWorld c (remote w')) = (v', Ok pt).
Proof.
  intros Hs Hpk [Ht Hkp].
  destruct (share_item_ok _ _ _ _ _ _ Hs) as (sik & nonce & eph & nonce' & sender & pk & payload & Hl & Hn & Hn' & Hk & Hb & Hd & Hr).
  rewrite Hpk in Hk. injection Hk as <-.
  pose proof (accept_shared _ _ _ _ _ _ _ _ _ _ Hl Hn Hn' Hb) as Hacc.
  destruct (bundle_fields _ _ _ _ _ _ _ _ _ _ Hb) as (Hid & Hitem & _ & ct & _ & Hct).
  destruct (relayed_in (remote w) b payload) as (l & Hlk & Hin). rewrite <-Hr in Hlk.
  assert (Relay.with_payload (rl_payloads (remote w')) (incoming_of b) = incoming_of b) as Hsame.
  { unfold Relay.with_payload. rewrite Hr. simpl. rewrite lookup_insert_eq. unfold incoming_of. f_equal.
    rewrite Hct in Hd |- *. rewrite b64_roundtrip in Hd. by injection Hd as ->. }
  eexists _, (incoming_of b), _. split; [by apply (fetch_shares_run (mkWorld c (remote w')))|].
  split; [rewrite <-Hsame; by eapply inbox_in|]. split; [done|].
  unfold accept_share. rewrite cl_bind. simpl. rewrite Hkp, some_bind, Hacc. done.
Qed.

(** Sharing the same item again, with anybody, takes the first share away: its
    recipient still finds it, with the key wrapped for the first ciphertext, but
    the payload delivered for its id is the second ciphertext, which was sealed
    under the key drawn for the second share. *)
Theorem second_share_spoils_first r1 r2 item pt1 pt2 w w1 w2 b1 b2 c secret :
  share_item r1 item pt1 w = (w1, Ok b1) → share_item r2 item pt2 w1 = (w2, Ok b2) →
  rl_public_keys (remote w) !! r1 = Some (x25519_public secret) → recipient_at c secret →
  ∃ l s sik1 sik2 nonce ct, fetch_shares (mkWorld c (remote w2)) = (mkWorld c (remote w2), Ok l) ∧ s ∈ l ∧
    is_wrapped_sik s = sb_wrapped_sik b1 ∧ is_encrypted_payload s = sb_encrypted_payload b2 ∧
    encrypt_with_nonce sik2 nonce (payload_ad item) pt2 = Ok ct ∧
    Shares.accept_share (Kem.from_secret secret) s = sealed (decrypt_with_ad sik1 (payload_ad item) ct).
Proof.
  intros H1 H2 Hpk [Ht Hkp].
  destruct (share_item_ok _ _ _ _ _ _ H1) as (sik1 & n1 & e1 & n1' & s1 & pk1 & p1 & Hl1 & Hn1 & Hn1' & Hk1 & Hb1 & Hd1 & Hr1).
  destruct (share_item_ok _ _ _ _ _ _ H2) as (sik2 & n2 & e2 & n2' & s2 & pk2 & p2 & _ & _ & _ & _ & Hb2 & Hd2 & Hr2).
  rewrite Hpk in Hk1. injection Hk1 as <-.
  destruct (bundle_fields _ _ _ _ _ _ _ _ _ _ Hb1) as (Hid1 & Hit1 & _).
  destruct (bundle_fields _ _ _ _ _ _ _ _ _ _ Hb2) as (Hid2 & _ & _ & ct & Hct & Hpay).
  rewrite Hpay, b64_roundtrip in Hd2. injection Hd2 as <-.
  set (s := mkIncoming item (sb_sender_uuid b1) item (sb_wrapped_sik b1) (sb_ephemeral_public_key b1) (b64_encode ct)).
  assert (Relay.with_payload (rl_payloads (remote w2)) (incoming_of b1) = s) as Hw.
  { unfold Relay.with_payload. rewrite Hr2. simpl. rewrite Hid1, Hid2, lookup_insert_eq. unfold s. by rewrite Hit1. }
  destruct (relayed_in (remote w) b1 p1) as (l & Hlk & Hin). rewrite <-Hr1 in Hlk.
  assert (∃ l', rl_inbox (remote w2) !! sb_recipient_uuid b1 = Some l' ∧ incoming_of b1 ∈ l') as (l' & Hlk' & Hin').
  { rewrite Hr2. simpl. destruct (decide (sb_recipient_uuid b2 = sb_recipient_uuid b1)) as [->|Hne].
    - exists (l ++ [incoming_of b2]). rewrite lookup_partial_alter_eq, Hlk. split; [done|]. apply elem_of_app. by left.
    - rewrite lookup_partial_alter_ne by done. by exists l. }
  exists (Relay.with_payload (rl_payloads (remote w2)) <$> concat ((map_to_list (rl_inbox (remote w2))).*2)), s, sik1, sik2, n2, ct.
  split; [by apply (fetch_shares_run (mkWorld c (remote w2)))|].
  split; [rewrite <-Hw; by eapply inbox_in|]. split; [done|]. split; [by rewrite Hpay|]. split; [done|].
  pose proof (opened_envelope _ _ _ _ _ _ _ _ _ _ Hl1 Hn1' Hb1) as Hopen. rewrite Hit1 in Hopen. unfold s, Shares.accept_share.
  cbn [is_wrapped_sik is_ephemeral_public_key is_item_uuid is_encrypted_payload is_share_id].
  destruct (decode_envelope _ _) as [env|]; [|done]. cbn in *. rewrite Hopen. cbn.
  unfold unb64. by rewrite b64_roundtrip.
Qed.

(** *** Groups *)

Lemma create_group_ok name w w' k :
  create_group name w = (w', Ok k) →
  length (gk_sik k) = 32%nat ∧ c_groups (client w') !! sg_group_id (gk_group k) = Some k ∧ remote w' = remote w.
Proof.
  unfold create_group, require_user, cl, put_group. intros Hc. world_inv Hc.
  match goal with Hk : _ = Some k |- _ => rewrite lookup_insert_eq in Hk; injection Hk as <- end.
  split_and!; [apply os_random_len | apply lookup_insert_eq | done].
Qed.

Lemma add_group_member_ok id m w w' wr :
  add_group_member id m w = (w', Ok wr) →
  ∃ k ephemeral nonce pk, c_groups (client w) !! id = Some k ∧ length nonce = NONCE_LEN ∧
    rl_public_keys (remote w) !! m = Some pk ∧
    wrap_for (gk_sik k) (sg_group_id (gk_group k)) ephemeral nonce m pk = Ok wr ∧
    c_groups (client w') = c_groups (client w) ∧
    rl_group_wrapped (remote w') = Relay.put_wrapped wr (rl_group_wrapped (remote w)).
Proof.
  unfold add_group_member, require_sharing, get_group, cl, fetch_public_key, store_group_wrapped_key, InMemoryShareRelay.
  intros Ha. relay_inv Ha. eexists _, _, _, _. split; [eassumption|]. split; [apply os_random_len|].
  split_and!; [eassumption.. | done | done].
Qed.

Lemma share_to_group_ok id item pt w w' ct :
  share_to_group id item pt w = (w', Ok ct) →
  ∃ k nonce, c_groups (client w) !! id = Some k ∧ length nonce = NONCE_LEN ∧
    encrypt_item k nonce item pt = Ok ct ∧ remote w' = remote w.
Proof.
  unfold share_to_group, get_group, cl. intros Hs. relay_inv Hs. eexists _, _.
  split; [eassumption|]. split; [apply os_random_len|]. split; [eassumption | done].
Qed.

Lemma removal_rewraps_admin sik k m a pk e n r :
  Shares.remove_group_member sik k m [(a, pk, (e, n))] = Ok r →
  a ≠ m ∧ gr_new_key r = mkGroupKey (gk_group k) sik ∧
  ∃ wr, gr_rewrapped r = [wr] ∧ wg_group_id wr = sg_group_id (gk_group k) ∧ wg_member_uuid wr = a.
Proof.
  unfold Shares.remove_group_member, Shares.rotate_group_sik, rewrap, wrap_for. simpl.
  case_bool_decide as Ha; [done|]. simpl. destruct (Kem.share_item _ _ _ _ _) as [env|]; [|done]. cbn.
  intros [= <-]. split_and!; [done..|]. by eexists.
Qed.

Lemma client_removal_ok id m w w' :
  remove_group_member id m w = (w', Ok ()) →
  ∃ k wr, c_groups (client w) !! id = Some k ∧ sg_admin_uuid (gk_group k) ≠ m ∧
    wg_group_id wr = sg_group_id (gk_group k) ∧ wg_member_uuid wr = sg_admin_uuid (gk_group k) ∧
    c_groups (client w') = <[sg_group_id (gk_group k) := mkGroupKey (gk_group k) (os_random (c_rng (client w)) 32)]>
      (c_groups (client w)) ∧
    rl_group_wrapped (remote w') = Relay.put_wrapped wr
      (filter (λ kw : (Uuid * Uuid) * WrappedGroupKey, kw.1.1 ≠ wg_group_id wr) (rl_group_wrapped (remote w))).
Proof.
  unfold remove_group_member, require_sharing, get_group, cl, put_group, fetch_public_key,
    replace_group_wrapped_keys, InMemoryShareRelay. intros Hr. relay_inv Hr.
  match goal with H : Shares.remove_group_member _ _ _ _ = _ |- _ =>
    destruct (removal_rewraps_admin _ _ _ _ _ _ _ _ H) as (Ha & Hk & wr & Hw & Hg & Hm) end.
  match goal with H : upd _ _ = _ |- _ => injection H as <- end.
  eexists _, wr. split; [eassumption|]. split_and!; [done.. | simpl; by rewrite Hk | simpl; by rewrite Hw].
Qed.

(** A group works for the member it admits: over the relay, the key wrapped for
    a new member opens, with the key pair whose public half they published, to a
    group key under which everything the group is given after that reads. *)
Theorem group_item_reaches_member name m item pt w w1 w2 w3 k wr ct secret :
  create_group name w = (w1, Ok k) → add_group_member (sg_group_id (gk_group k)) m w1 = (w2, Ok wr) →
  share_to_group (sg_group_id (gk_group k)) item pt w2 = (w3, Ok ct) →
  rl_public_keys (remote w) !! m = Some (x25519_public secret) →
  rl_group_wrapped (remote w3) !! (sg_group_id (gk_group k), m) = Some wr ∧
  ∃ sik, unwrap_group_key wr (Kem.from_secret secret) = Ok sik ∧
    decrypt_item (mkGroupKey (gk_group k) sik) item ct = Ok pt.
Proof.
  intros Hc Ha Hs Hpk. apply create_group_ok in Hc as (Hl & Hk & Hr1).
  apply add_group_member_ok in Ha as (k' & e & n & pk & Hk' & Hn & Hpk' & Hw & Hg & Hrw).
  apply share_to_group_ok in Hs as (k'' & n' & Hk'' & Hn' & Hct & Hr3).
  assert (k' = k ∧ k'' = k ∧ pk = x25519_public secret) as (-> & -> & ->) by (rewrite Hr1 in *; split_and!; congruence).
  destruct (unwrap_wrapped _ _ _ _ _ _ _ Hl Hn Hw) as (Hgid & Hmid & Hun). split.
  - rewrite Hr3, Hrw. unfold Relay.put_wrapped. rewrite Hgid, Hmid. apply lookup_insert_eq.
  - exists (gk_sik k). split; [done|]. destruct k. by eapply decrypt_encrypted_item.
Qed.

(** Removing a member removes them all: the group's key is drawn anew and
    wrapped for the administrator only, and with the old wrapped keys of the
    group gone from the relay, no other member has one.  Other groups keep
    theirs. *)
Theorem removal_cuts_off_every_member id m x w w' k :
  remove_group_member id m w = (w', Ok ()) →
  c_groups (client w) !! id = Some k → sg_group_id (gk_group k) = id → x ≠ sg_admin_uuid (gk_group k) →
  rl_group_wrapped (remote w') !! (id, x) = None ∧
  (∀ other, other ≠ id → rl_group_wrapped (remote w') !! (other, x) = rl_group_wrapped (remote w) !! (other, x)) ∧
  c_groups (client w') !! id = Some (mkGroupKey (gk_group k) (os_random (c_rng (client w)) 32)).
Proof.
  intros Hr Hk Hid Hx. apply client_removal_ok in Hr as (k' & wr & Hk' & _ & Hg & Hm & Hgs & Hrw).
  assert (k' = k) as -> by congruence. rewrite Hid in *. rewrite Hrw, Hgs, Hg. unfold Relay.put_wrapped.
  rewrite Hg, Hm. split; [|split; [|apply lookup_insert_eq]].
  - rewrite lookup_insert_ne by congruence. apply map_lookup_filter_None. right. intros w0 _ Hne. by apply Hne.
  - intros other Hne. rewrite lookup_insert_ne by congruence. apply option_eq. intros w0.
    rewrite map_lookup_filter_Some. naive_solver.
Qed.
End OverRelay.

(** ** Witnesses *)
Section ShareWitnesses.
#[local] Existing Instances Concrete.toy_ext toy_crypto toy_vault.

Definition demo_secret (name : string) : blob := pad 32 (utf8 name).
Definition demo_relay : RelayState :=
  (mapM (λ name, Relay.publish_public_key name (x25519_public (demo_secret name))) ["alice"; "bob"; "carol"]
    (mkRelay ∅ ∅ ∅ ∅)).1.
Definition demo_client (name : string) : Client :=
  with_sharing_keypair (λ _, Some (Kem.from_secret (demo_secret name)))
    (with_server_user_id (λ _, Some name) (with_share_transport (λ _, true) (new_client fresh_local))).
Definition share_demo : World RelayState := mkWorld (demo_client "alice") demo_relay.

Definition value {A} (r : result ClientError A) (default : A) : A := match r with Ok a => a | Err _ => default end.
Lemma ran {A} (m : app RelayState A) w a0 :
  match (m w).2 with Ok _ => true | Err _ => false end = true → m w = ((m w).1, Ok (value (m w).2 a0)).
Proof. by destruct (m w) as [w' [a|e]]. Qed.

Definition no_bundle : ShareBundle := mkBundle "" "" "" "" "" "" "".
Definition share_run (to : string) (w : World RelayState) := share_item to "i1" (utf8 to) w.

Lemma shared_item_accepted_witness :
  let w' := (share_run "bob" share_demo).1 in
  let v := mkWorld (demo_client "bob") (remote w') in
  ∃ l s v', fetch_shares v = (v, Ok l) ∧ s ∈ l ∧ is_item_uuid s = "i1" ∧ accept_share s v = (v', Ok (utf8 "bob")).
Proof.
  apply (shared_item_accepted "bob" "i1" (utf8 "bob") share_demo _ (value (share_run "bob" share_demo).2 no_bundle)
           (demo_client "bob") (demo_secret "bob")).
  - apply (ran (share_item "bob" "i1" (utf8 "bob"))). vm_compute. reflexivity.
  - vm_compute. reflexivity.
  - split; reflexivity.
Defined.

(** Bob's share of the item is spoiled when Carol is given it. *)
Definition shared_twice : World RelayState := (share_run "carol" (share_run "bob" share_demo).1).1.
Definition bobs_inbox (w : World RelayState) : list (result ClientError blob) :=
  let v := mkWorld (demo_client "bob") (remote w) in
  (λ s, (accept_share s v).2) <$> value (fetch_shares v).2 [].

Lemma second_share_spoils_first_witness :
  bobs_inbox (share_run "bob" share_demo).1 = [Ok (utf8 "bob")] ∧
  Ok (utf8 "bob") ∉ bobs_inbox shared_twice ∧
  ∃ l s sik1 sik2 nonce ct,
    fetch_shares (mkWorld (demo_client "bob") (remote shared_twice)) =
      (mkWorld (demo_client "bob") (remote shared_twice), Ok l) ∧ s ∈ l ∧
    is_wrapped_sik s = sb_wrapped_sik (value (share_run "bob" share_demo).2 no_bundle) ∧
    is_encrypted_payload s = sb_encrypted_payload (value (share_run "carol" (share_run "bob" share_demo).1).2 no_bundle) ∧
    encrypt_with_nonce sik2 nonce (payload_ad "i1") (utf8 "carol") = Ok ct ∧
    Shares.accept_share (Kem.from_secret (demo_secret "bob")) s = sealed (decrypt_with_ad sik1 (payload_ad "i1") ct).
Proof.
  split; [vm_compute; reflexivity|]. split.
  { intros Hin. apply list_elem_of_In in Hin. vm_compute in Hin. intuition discriminate. }
  apply (second_share_spoils_first "bob" "carol" "i1" (utf8 "bob") (utf8 "carol") share_demo
           (share_run "bob" share_demo).1 _ _ _ (demo_client "bob") (demo_secret "bob")).
  - apply (ran (share_item "bob" "i1" (utf8 "bob"))). vm_compute. reflexivity.
  - apply (ran (share_item "carol" "i1" (utf8 "carol"))). vm_compute. reflexivity.
  - vm_compute. reflexivity.
  - split; reflexivity.
Defined.

(** Alice's group, with Bob and Carol in it. *)
Definition no_key : ShareGroupKey := mkGroupKey (mkShareGroup "" "" "") [].
Definition no_wrapped : WrappedGroupKey := mkWrapped "" "" "" "".
Definition made : World RelayState := (create_group "team" share_demo).1.
Definition team : ShareGroupKey := value (create_group "team" share_demo).2 no_key.
Definition team_id : Uuid := sg_group_id (gk_group team).
Definition with_bob : World RelayState := (add_group_member team_id "bob" made).1.
Definition shared_in : World RelayState := (share_to_group team_id "i1" (utf8 "plan") with_bob).1.
Definition with_carol : World RelayState := (add_group_member team_id "carol" with_bob).1.

Lemma group_item_reaches_member_witness :
  ∃ wr ct sik, rl_group_wrapped (remote shared_in) !! (team_id, "bob") = Some wr ∧
    unwrap_group_key wr (Kem.from_secret (demo_secret "bob")) = Ok sik ∧
    decrypt_item (mkGroupKey (gk_group team) sik) "i1" ct = Ok (utf8 "plan").
Proof.
  destruct (group_item_reaches_member "team" "bob" "i1" (utf8 "plan") share_demo made with_bob shared_in team
    (value (add_group_member team_id "bob" made).2 no_wrapped)
    (value (share_to_group team_id "i1" (utf8 "plan") with_bob).2 []) (demo_secret "bob")) as (Hw & sik & Hs & Hd).
  - unfold made, team. apply (ran (create_group "team") share_demo no_key). vm_compute. reflexivity.
  - unfold with_bob, team_id. apply (ran (add_group_member (sg_group_id (gk_group team)) "bob") made no_wrapped). vm_compute. reflexivity.
  - unfold shared_in, team_id. apply (ran (share_to_group (sg_group_id (gk_group team)) "i1" (utf8 "plan")) with_bob []). vm_compute. reflexivity.
  - vm_compute. reflexivity.
  - exact (ex_intro _ _ (ex_intro _ _ (ex_intro _ sik (conj Hw (conj Hs Hd))))).
Defined.

(** Carol is removed; Bob, who stays, has no key any more. *)
Lemma removal_cuts_off_every_member_witness :
  let w' := (remove_group_member team_id "carol" with_carol).1 in
  is_Some (rl_group_wrapped (remote with_carol) !! (team_id, "bob")) ∧
  rl_group_wrapped (remote w') !! (team_id, "bob") = None.
Proof.
  split; [vm_compute; by eexists|].
  apply (removal_cuts_off_every_member team_id "carol" "bob" with_carol (remove_group_member team_id "carol" with_carol).1 team).
  - pose proof (ran (remove_group_member team_id "carol") with_carol ()) as Hr.
    destruct (value _ _) in Hr. apply Hr. vm_compute. reflexivity.
  - vm_compute. reflexivity.
  - vm_compute. reflexivity.
  - vm_compute. discriminate.
Defined.
End ShareWitnesses.
