(* ===== verification/Attachments.v ===== *)
(** * Attachments

    Models [core/vautr-files/src/] ([manifest.rs], [file.rs], [error.rs]) and
    [core/vautr-app-state/src/file_transfer.rs] with the two entry points of
    [orchestrator.rs]: the chunks of a file, its encryption and decryption as
    streams, and the transfer of the chunks.  The blob store is the class
    [FileTransport]; [ChunkStore] says what a store promises.  Streams are their
    bytes; [now i] is what the clock answers after chunk [i].  Of the texts of
    errors, the part that comes from below is dropped. *)
From S2P Require Import Prelude Domain Database Concrete ClientDb ClientSync Crypto ShareCrypto Client Vault ConcreteClient.
From Stdlib Require Import Strings.Byte.

Local Open Scope Z_scope.

(** ** manifest.rs *)
Definition CHUNK_SIZE : Z := Z.shiftl 1 20.

Inductive AttachmentState := PendingUpload | Available.

Record FileManifest := mkManifest {
  fm_file_uuid : Uuid; fm_total_size : Z; fm_chunk_size : Z; fm_total_chunks : Z; fm_enc_key_gen : Z;
  fm_content_type : string; fm_last_modified : Z; fm_status : AttachmentState; fm_fek_wrapped : option blob }.

Definition div_ceil (a b : Z) : Z := (a + b - 1) / b.

Definition FileManifest_new (file_uuid : Uuid) (total_size enc_key_gen : Z) (content_type : string)
    (last_modified : Z) : FileManifest :=
  mkManifest file_uuid total_size CHUNK_SIZE (as_u32 (Z.max (div_ceil total_size CHUNK_SIZE) 1)) enc_key_gen
    content_type last_modified PendingUpload None.

Definition chunk_len (m : FileManifest) (index : Z) : Z :=
  Z.min (u64_saturating_sub (fm_total_size m) (index * fm_chunk_size m)) (fm_chunk_size m).

(** ** error.rs *)
Inductive FileError :=
| FTagMismatch | MalformedChunk | LengthIntegrity | ManifestGeometry (what : string) | FIo (what : string).

Definition file_error (e : CryptoError) : FileError :=
  match e with
  | TagMismatch => FTagMismatch
  | MalformedCiphertext => MalformedChunk
  | _ => FIo "crypto"
  end.

Definition validate (m : FileManifest) : result FileError () :=
  if decide (fm_chunk_size m = 0) then Err (ManifestGeometry "chunk_size must be non-zero")
  else if decide (fm_total_chunks m ≠ as_u32 (Z.max (div_ceil (fm_total_size m) (fm_chunk_size m)) 1))
  then Err (ManifestGeometry "total_chunks != expected")
  else Ok ().

(** ** file.rs *)
Section Streams.
Context `{CryptoExt, Ext}.

Definition PLAINTEXT_CHUNK : Z := Z.shiftl 1 20.

Definition filed {A} (r : crypto A) : result FileError A :=
  match r with Ok a => Ok a | Err e => Err (file_error e) end.

(** Every turn but the last takes at least a byte. *)
Fixpoint encrypt_loop (fuel : nat) (key : blob) (m : FileManifest) (chunk_index remaining : Z) (input : blob)
    : result FileError blob :=
  match fuel with
  | O => Err (FIo "fuel")
  | S k =>
      let to_read := Z.min remaining PLAINTEXT_CHUNK in
      if decide (to_read = 0) then (if decide (remaining ≠ 0) then Err LengthIntegrity else Ok [])
      else
        let chunk := take (Z.to_nat to_read) input in
        if decide (chunk = []) then Err LengthIntegrity
        else
          let nonce := chunk_nonce (fm_file_uuid m) chunk_index in
          let ad := construct_file_ad (fm_file_uuid m) (fm_enc_key_gen m) chunk_index in
          envelope ← filed (encrypt_with_nonce_raw key nonce ad chunk);
          rest ← encrypt_loop k key m (as_u32 (chunk_index + 1)) (remaining - Z.of_nat (length chunk))
                   (drop (length chunk) input);
          mret (envelope ++ rest)
  end.

Definition encrypt_file_stream (key : blob) (m : FileManifest) (input : blob) : result FileError blob :=
  validate m ≫= λ _, encrypt_loop (S (length input)) key m 0 (fm_total_size m) input.

(** Every turn but the last takes a nonce. *)
Fixpoint decrypt_loop (fuel : nat) (key : blob) (m : FileManifest) (chunk_index remaining : Z) (input : blob)
    : result FileError blob :=
  match fuel with
  | O => Err (FIo "fuel")
  | S k =>
      if decide (remaining = 0) then (if decide (input = []) then Ok [] else Err LengthIntegrity)
      else if decide (length input < NONCE_LEN)%nat then Err MalformedChunk
      else
        let ct_budget := (Z.to_nat (chunk_len m chunk_index) + TAG_LEN)%nat in
        let body := drop NONCE_LEN input in
        if decide (length body < ct_budget)%nat then Err MalformedChunk
        else
          let nonce := chunk_nonce (fm_file_uuid m) chunk_index in
          let ad := construct_file_ad (fm_file_uuid m) (fm_enc_key_gen m) chunk_index in
          plaintext ← filed (decrypt_with_ad key ad (nonce ++ take ct_budget body));
          if decide (Z.of_nat (length plaintext) ≠ chunk_len m chunk_index) then Err LengthIntegrity
          else
            rest ← decrypt_loop k key m (as_u32 (chunk_index + 1)) (remaining - Z.of_nat (length plaintext))
                     (drop ct_budget body);
            mret (plaintext ++ rest)
  end.

Definition decrypt_file_stream (key : blob) (m : FileManifest) (input : blob) : result FileError blob :=
  validate m ≫= λ _, decrypt_loop (S (length input)) key m 0 (fm_total_size m) input.
End Streams.

(** ** file_transfer.rs *)
Class FileTransport (W : Type) := {
  initiate_upload : FileManifest → M W string ();
  upload_chunk : Uuid → Z → blob → M W string ();
  complete_upload : Uuid → M W string ();
  fetch_chunk : Uuid → Z → M W string blob;
}.

Definition THROTTLE : Z := 1000 / 4.

Section Transfer.
Context {W : Type} {FT : FileTransport W} {EXT : Ext} {CEXT : CryptoExt} {VEXT : VaultExt}.

Definition on_file {A} (ctx : string) (m : M W string A) : app W A := λ w,
  let '(s, r) := m (remote w) in (mkWorld (client w) s, map_res (λ _, Msg ctx) r).
Definition file_msg {A} (ctx : string) (r : result FileError A) : app W A :=
  match r with Ok a => mret a | Err _ => throw (Msg ctx) end.

Definition derive_fek (svk : blob) (file_uuid : Uuid) : blob :=
  hkdf_sha256 None svk (utf8 (String.append "vautr-fek-" file_uuid)).
Definition wrap_fek (nonce svk : blob) (file_uuid : Uuid) (fek : blob) : crypto blob :=
  encrypt nonce svk file_uuid 0 fek.
Definition unwrap_fek (svk : blob) (file_uuid : Uuid) (wrapped : blob) : option blob :=
  match decrypt svk file_uuid 0 wrapped with
  | Ok pt => if decide (length pt ≠ 32%nat) then None else Some pt
  | Err _ => None
  end.
Definition resolve_fek (svk : blob) (m : FileManifest) : result ClientError blob :=
  match fm_fek_wrapped m with
  | Some w =>
      match unwrap_fek svk (fm_file_uuid m) w with
      | Some k => Ok k
      | None => Err (Msg "attachment key envelope does not match the current vault key")
      end
  | None => Ok (derive_fek svk (fm_file_uuid m))
  end.

(** [throttled]: the instant of the last report is the worker's. *)
Definition throttled (now : Z) (last : option Z) : bool * option Z :=
  match last with
  | Some t => if decide (Z.max 0 (now - t) < THROTTLE) then (false, last) else (true, Some now)
  | None => (true, Some now)
  end.

Definition emit_progress (now : Z) (last : option Z) (file_uuid : Uuid) (bytes_transferred total_bytes : Z)
    : app W (option Z) :=
  let '(go, last') := throttled now last in
  (if go : bool then publish (FileTransferProgress file_uuid bytes_transferred total_bytes) else mret ());;
  mret last'.

Definition transferred (m : FileManifest) (index : Z) : Z :=
  Z.min ((index + 1) * fm_chunk_size m) (fm_total_size m).

Definition with_fek (w : blob) (m : FileManifest) : FileManifest :=
  mkManifest (fm_file_uuid m) (fm_total_size m) (fm_chunk_size m) (fm_total_chunks m) (fm_enc_key_gen m)
    (fm_content_type m) (fm_last_modified m) (fm_status m) (Some w).

(** [0..total_chunks]. *)
Definition chunk_indices (m : FileManifest) : list Z := Z.of_nat <$> seq 0 (Z.to_nat (fm_total_chunks m)).

(** The loop over the chunks: the envelopes not sent yet, the last report. *)
Fixpoint upload_chunks (now : Z → Z) (m : FileManifest) (ct : blob) (last : option Z) (indices : list Z) : app W () :=
  match indices with
  | [] => mret ()
  | index :: indices' =>
      let envelope_len := (NONCE_LEN + Z.to_nat (chunk_len m index) + TAG_LEN)%nat in
      on_file "upload chunk" (upload_chunk (fm_file_uuid m) index (take envelope_len ct));;
      last' ← emit_progress (now index) last (fm_file_uuid m) (transferred m index) (fm_total_size m);
      upload_chunks now m (drop envelope_len ct) last' indices'
  end.

Definition upload_bytes (now : Z → Z) (svk plaintext : blob) (content_type : string) (last_modified : Z)
    : app W FileManifest :=
  id ← draw 16;
  let file_uuid := uuid_v4 id in
  let manifest := FileManifest_new file_uuid (Z.of_nat (length plaintext)) 0 content_type last_modified in
  file_msg "manifest validate" (validate manifest);;
  let fek := derive_fek svk file_uuid in
  nonce ← draw NONCE_LEN;
  wrapped ← try_crypto "fek wrap" (wrap_fek nonce svk file_uuid fek);
  let manifest := with_fek wrapped manifest in
  ct ← file_msg "encrypt stream" (encrypt_file_stream fek manifest plaintext);
  on_file "initiate upload" (initiate_upload manifest);;
  upload_chunks now manifest ct None (chunk_indices manifest);;
  on_file "complete upload" (complete_upload file_uuid);;
  mret manifest.

Fixpoint download_chunks (now : Z → Z) (m : FileManifest) (last : option Z) (indices : list Z) : app W blob :=
  match indices with
  | [] => mret []
  | index :: indices' =>
      chunk ← on_file "fetch chunk" (fetch_chunk (fm_file_uuid m) index);
      last' ← emit_progress (now index) last (fm_file_uuid m) (transferred m index) (fm_total_size m);
      rest ← download_chunks now m last' indices';
      mret (chunk ++ rest)
  end.

Definition download (now : Z → Z) (svk : blob) (m : FileManifest) : app W blob :=
  fek ← lift (resolve_fek svk m);
  ciphertext ← download_chunks now m None (chunk_indices m);
  file_msg "decrypt stream" (decrypt_file_stream fek m ciphertext).

(** ** orchestrator.rs *)
Definition connect_files : app W () := upd (with_file_transport (λ _, true)).
Definition file_worker : app W () :=
  t ← cl c_file_transport; guard_err (negb t) (Msg "file transport not connected").

Definition upload_file (now : Z → Z) (plaintext : blob) (content_type : string) (last_modified : Z)
    : app W FileManifest :=
  require_unlocked;;
  svk ← require_svk;
  file_worker;;
  upload_bytes now svk plaintext content_type last_modified.

Definition download_file (now : Z → Z) (m : FileManifest) : app W blob :=
  require_unlocked;;
  svk ← require_svk;
  file_worker;;
  download now svk m.
End Transfer.

(** ** The streams undo each other *)
Class DigestLaws `{Ext} : Prop := { sha256_len b : length (sha256 b) = 32%nat }.

(** A chunk whose nonce begins like an envelope is read as one: about one chunk
    in 2^32.  None of the chunks of a file of [size] bytes is. *)
Definition readable_chunks `{CryptoExt, Ext} (file_uuid : Uuid) (size : Z) : Prop :=
  ∀ i, 0 ≤ i < div_ceil size CHUNK_SIZE → take 4 (chunk_nonce file_uuid i) ≠ ENVELOPE_MAGIC.

Section StreamProofs.
Context `{CryptoLaws, DigestLaws}.

Lemma chunk_nonce_len u i : length (chunk_nonce u i) = NONCE_LEN.
Proof. unfold chunk_nonce. rewrite length_take, sha256_len. done. Qed.

(** The last chunk may be short; what is left starts at a chunk. *)
Definition at_chunk (m : FileManifest) (index : Z) (rest : blob) : Prop :=
  rest = [] ∨ fm_total_size m = index * CHUNK_SIZE + Z.of_nat (length rest).

Lemma chunk_len_at m index rest :
  fm_chunk_size m = CHUNK_SIZE → 0 ≤ index → rest ≠ [] → at_chunk m index rest →
  chunk_len m index = Z.min (Z.of_nat (length rest)) CHUNK_SIZE.
Proof.
  intros Hc Hi Hr [->|Ht]; [done|]. unfold chunk_len, u64_saturating_sub. rewrite Hc, Ht.
  change CHUNK_SIZE with 1048576. lia.
Qed.

Lemma at_chunk_next m index rest :
  rest ≠ [] → at_chunk m index rest → at_chunk m (index + 1) (drop (Z.to_nat (Z.min (Z.of_nat (length rest)) CHUNK_SIZE)) rest).
Proof.
  intros Hr [->|Ht]; [done|]. change CHUNK_SIZE with 1048576 in *.
  destruct (decide (Z.of_nat (length rest) ≤ 1048576)).
  - left. apply drop_ge. lia.
  - right. rewrite length_drop. change CHUNK_SIZE with 1048576. lia.
Qed.

(** One chunk, sealed as the stream seals it. *)
Lemma seal_chunk key u g i chunk :
  take 4 (chunk_nonce u i) ≠ ENVELOPE_MAGIC → Z.of_nat (length chunk) ≤ 2 ^ 38 - 64 →
  ∃ c, encrypt_with_nonce_raw key (chunk_nonce u i) (construct_file_ad u g i) chunk = Ok (chunk_nonce u i ++ c) ∧
    length c = (length chunk + TAG_LEN)%nat ∧
    decrypt_with_ad key (construct_file_ad u g i) (chunk_nonce u i ++ c) = Ok chunk.
Proof.
  intros Hm Hl. destruct (xchacha_total key (chunk_nonce u i) (construct_file_ad u g i) chunk Hl) as [c Hc].
  exists c. assert (encrypt_with_nonce_raw key (chunk_nonce u i) (construct_file_ad u g i) chunk = Ok (chunk_nonce u i ++ c)) as He
    by (unfold encrypt_with_nonce_raw; rewrite Hc; done).
  split; [done|]. split; [by eapply xchacha_len|]. eapply decrypt_raw; [apply chunk_nonce_len | exact Hm | exact He].
Qed.

(** How many bytes the rest of a file becomes. *)
Definition stream_len (n : nat) : nat := (n + 40 * Z.to_nat (div_ceil (Z.of_nat n) CHUNK_SIZE))%nat.

Lemma stream_len_step n :
  (0 < n)%nat → let k := Z.to_nat (Z.min (Z.of_nat n) CHUNK_SIZE) in
  stream_len n = (k + 40 + stream_len (n - k))%nat.
Proof.
  intros Hn k. unfold stream_len, div_ceil. unfold k. change CHUNK_SIZE with 1048576. clear k.
  destruct (decide (Z.of_nat n ≤ 1048576)).
  - replace (n - Z.to_nat (Z.of_nat n `min` 1048576))%nat with 0%nat by lia. change ((Z.of_nat 0 + 1048576 - 1) `div` 1048576) with 0.
    replace ((Z.of_nat n + 1048576 - 1) `div` 1048576) with 1; [lia|].
    apply Z.div_unique with (Z.of_nat n - 1); lia.
  - replace (Z.of_nat (n - Z.to_nat (Z.of_nat n `min` 1048576)) + 1048576 - 1) with (Z.of_nat n - 1) by lia.
    replace (Z.of_nat n + 1048576 - 1) with (Z.of_nat n - 1 + 1 * 1048576) by lia.
    rewrite Z.div_add by lia. pose proof (Z.div_pos (Z.of_nat n - 1) 1048576). lia.
Qed.

Lemma stream_loops key m : 
  fm_chunk_size m = CHUNK_SIZE → fm_total_size m < 2 ^ 51 → readable_chunks (fm_file_uuid m) (fm_total_size m) →
  ∀ fuel rest index, (length rest < fuel)%nat → 0 ≤ index → at_chunk m index rest →
  ∃ ct, encrypt_loop fuel key m index (Z.of_nat (length rest)) rest = Ok ct ∧
    length ct = stream_len (length rest) ∧
    ∀ fuel', (length ct < fuel')%nat → decrypt_loop fuel' key m index (Z.of_nat (length rest)) ct = Ok rest.
Proof.
  intros Hcs Ht Hm fuel. induction fuel as [|k IH]; intros rest index Hf Hi Hat; [lia|].
  destruct (decide (rest = [])) as [->|Hne].
  { exists []. split; [done|]. split; [done|]. intros [|f] Hf'; [simpl in Hf'; lia | done]. }
  assert (0 < Z.of_nat (length rest)) as Hpos by (destruct rest; simpl; [done | lia]).
  pose proof (chunk_len_at m index rest Hcs Hi Hne Hat) as Hlen. pose proof (at_chunk_next m index rest Hne Hat) as Hnext.
  assert (as_u32 (index + 1) = index + 1) as Hi32.
  { destruct Hat as [->|Hat]; [done|]. apply as_u32_small. change CHUNK_SIZE with 1048576 in *. lia. }
  set (n := Z.to_nat (Z.min (Z.of_nat (length rest)) CHUNK_SIZE)) in *.
  assert (length (take n rest) = n ∧ 0 < Z.of_nat n ≤ 1048576 ∧ Z.of_nat n = chunk_len m index) as (Hn & Hn0 & Hnl).
  { rewrite length_take, Hlen. unfold n. change CHUNK_SIZE with 1048576. lia. }
  assert (index < div_ceil (fm_total_size m) CHUNK_SIZE) as Hidx.
  { destruct Hat as [->|Hat]; [done|]. unfold div_ceil. change CHUNK_SIZE with 1048576 in *.
    rewrite Hat. apply Z.lt_le_trans with (index + 1); [lia|].
    apply Z.div_le_lower_bound; lia. }
  destruct (seal_chunk key (fm_file_uuid m) (fm_enc_key_gen m) index (take n rest)) as (c & Henc & Hcl & Hdec);
    [apply Hm; lia | rewrite Hn; lia|].
  destruct (IH (drop n rest) (index + 1)) as (ct & Hct & Hctl & Hback); [rewrite length_drop; lia | lia | done |].
  assert (Z.of_nat (length rest) - Z.of_nat n = Z.of_nat (length (drop n rest))) as Hrem
    by (rewrite length_drop; unfold n; change CHUNK_SIZE with 1048576; lia).
  exists ((chunk_nonce (fm_file_uuid m) index ++ c) ++ ct). split; [|split].
  - cbn [encrypt_loop]. change PLAINTEXT_CHUNK with CHUNK_SIZE. fold n.
    rewrite decide_False by (change CHUNK_SIZE with 1048576; lia).
    rewrite decide_False by (intros Hnil; rewrite Hnil in Hn; simpl in Hn; lia).
    rewrite Henc. cbn [filed mbind result_bind res_bind]. rewrite Hn, Hrem, Hi32, Hct. done.
  - rewrite !length_app, chunk_nonce_len, Hcl, Hctl, Hn, length_drop, (stream_len_step (length rest)) by lia.
    fold n. unfold NONCE_LEN, TAG_LEN. lia.
  - intros [|f] Hf'; [lia|]. rewrite !length_app, chunk_nonce_len, Hcl in Hf'.
    assert (Z.to_nat (chunk_len m index) + TAG_LEN = length c)%nat as Hbudget by lia.
    cbn [decrypt_loop]. rewrite decide_False by lia. rewrite <-app_assoc, Hbudget.
    rewrite decide_False by (rewrite length_app, chunk_nonce_len; lia).
    rewrite !(drop_app_length' (chunk_nonce _ _)) by (by rewrite chunk_nonce_len).
    rewrite decide_False by (rewrite length_app; lia). rewrite take_app_length, drop_app_length, Hdec.
    cbn [filed mbind result_bind res_bind]. rewrite Hn, Hnl, decide_False by (intros Hneq; by apply Hneq).
    rewrite <-Hnl, Hrem, Hi32, Hback by lia. cbn. by rewrite take_drop.
Qed.
End StreamProofs.

(** ** Over a store that keeps what it is given *)
Class ChunkStore (W : Type) {FT : FileTransport W} := {
  chunk_at : W → Uuid → Z → option blob;
  initiate_keeps m s : ∃ s', initiate_upload m s = (s', Ok ()) ∧ ∀ u i, chunk_at s' u i = chunk_at s u i;
  upload_stores u i c s : ∃ s', upload_chunk u i c s = (s', Ok ()) ∧ chunk_at s' u i = Some c ∧
    ∀ v j, (v, j) ≠ (u, i) → chunk_at s' v j = chunk_at s v j;
  complete_keeps u s : ∃ s', complete_upload u s = (s', Ok ()) ∧ ∀ v i, chunk_at s' v i = chunk_at s v i;
  fetch_stored u i c s : chunk_at s u i = Some c → fetch_chunk u i s = (s, Ok c);
}.

Definition envelope_len (m : FileManifest) (index : Z) : nat :=
  (NONCE_LEN + Z.to_nat (chunk_len m index) + TAG_LEN)%nat.

#[local] Arguments envelope_len : simpl never.

(** The pieces a stream is cut into. *)
Fixpoint slices (m : FileManifest) (ct : blob) (indices : list Z) : list (Z * blob) :=
  match indices with
  | [] => []
  | i :: indices' => (i, take (envelope_len m i) ct) :: slices m (drop (envelope_len m i) ct) indices'
  end.

Lemma slices_concat m ct indices :
  concat ((slices m ct indices).*2) = take (sum_list (envelope_len m <$> indices)) ct.
Proof.
  revert ct. induction indices as [|i indices IH]; intros ct; [done|]. simpl. by rewrite IH, take_take_drop.
Qed.

Lemma slices_indices m ct indices : (slices m ct indices).*1 = indices.
Proof. revert ct. induction indices as [|i indices IH]; intros ct; simpl; [done | by rewrite IH]. Qed.

Lemma lens_sum m n :
  fm_chunk_size m = CHUNK_SIZE → 0 ≤ fm_total_size m →
  sum_list (envelope_len m <$> (Z.of_nat <$> seq 0 n)) =
    (40 * n + Z.to_nat (Z.min (fm_total_size m) (Z.of_nat n * CHUNK_SIZE)))%nat.
Proof.
  intros Hc Ht. induction n as [|n IH]; [simpl; lia|].
  rewrite seq_S, !fmap_app, sum_list_with_app, IH.
  change (sum_list (envelope_len m <$> (Z.of_nat <$> [0 + n]%nat))) with (envelope_len m (Z.of_nat n) + 0)%nat.
  unfold envelope_len, chunk_len, u64_saturating_sub, NONCE_LEN, TAG_LEN. rewrite Hc.
  change CHUNK_SIZE with 1048576. lia.
Qed.

Section OverStore.
Context {W : Type} {FT : FileTransport W} {CS : ChunkStore W}.
Context {EXT : Ext} {CEXT : CryptoExt} {VEXT : VaultExt}.
Implicit Types (w : World W).

Lemma emit_progress_run now last u a b w :
  ∃ c, emit_progress now last u a b w = (mkWorld c (remote w), Ok (throttled now last).2).
Proof.
  destruct w as [c s]. unfold emit_progress. destruct (throttled now last) as [[] last']; by eexists.
Qed.

Lemma upload_chunks_run now m ct last indices w :
  NoDup indices →
  ∃ w', upload_chunks now m ct last indices w = (w', Ok ()) ∧
    (∀ i c, (i, c) ∈ slices m ct indices → chunk_at (remote w') (fm_file_uuid m) i = Some c) ∧
    ∀ v j, (v ≠ fm_file_uuid m ∨ j ∉ indices) → chunk_at (remote w') v j = chunk_at (remote w) v j.
Proof.
  intros Hnd. revert ct last w. induction Hnd as [|i indices Hi Hnd IH]; intros ct last w.
  { exists w. split; [done|]. split; [|done]. intros i c Hin. by apply not_elem_of_nil in Hin. }
  cbn [upload_chunks slices]. rewrite bind_run. unfold on_file.
  destruct (upload_stores (fm_file_uuid m) i (take (envelope_len m i) ct) (remote w)) as (s & Hu & Hat & Hoth).
  unfold envelope_len in Hu at 1. rewrite Hu. cbn [map_res]. cbv beta iota. rewrite bind_run.
  destruct (emit_progress_run (now i) last (fm_file_uuid m) (transferred m i) (fm_total_size m) (mkWorld (client w) s)) as [c He].
  rewrite He. destruct (IH (drop (envelope_len m i) ct) (throttled (now i) last).2 (mkWorld c s)) as (w' & Hup & Hin & Hout).
  exists w'. split; [exact Hup|]. split.
  - intros j d [[= -> ->]|Hj]%elem_of_cons; [|by apply Hin]. rewrite (Hout _ _ (or_intror Hi)). exact Hat.
  - intros v j Hvj. rewrite Hout by set_solver. apply Hoth. set_solver.
Qed.

Lemma download_chunks_run now m last l w :
  (∀ i c, (i, c) ∈ l → chunk_at (remote w) (fm_file_uuid m) i = Some c) →
  ∃ w', download_chunks now m last l.*1 w = (w', Ok (concat l.*2)).
Proof.
  revert last w. induction l as [|[i c] l IH]; intros last w Hl; [by exists w|].
  cbn [download_chunks fmap list_fmap fst]. rewrite bind_run. unfold on_file.
  rewrite (fetch_stored _ _ c) by (apply Hl; by left). cbn [map_res]. cbv beta iota. rewrite bind_run.
  destruct (emit_progress_run (now i) last (fm_file_uuid m) (transferred m i) (fm_total_size m) (mkWorld (client w) (remote w)))
    as [c' He]. rewrite He, bind_run. cbn [remote].
  destruct (IH (throttled (now i) last).2 (mkWorld c' (remote w))) as (w' & Hd); [intros j d Hj; apply Hl; by right|].
  rewrite Hd. by exists w'.
Qed.

(** The store holds what an upload of [m] sent. *)
Definition holds_file (s : W) (m : FileManifest) (ct : blob) : Prop :=
  ∀ i c, (i, c) ∈ slices m ct (chunk_indices m) → chunk_at s (fm_file_uuid m) i = Some c.

Lemma chunk_indices_nodup m : NoDup (chunk_indices m).
Proof. apply NoDup_fmap; [apply _ | apply NoDup_seq]. Qed.

(** The geometry of a manifest as [FileManifest_new] makes it. *)
Record sized (m : FileManifest) (n : nat) : Prop := {
  sz_chunk : fm_chunk_size m = CHUNK_SIZE;
  sz_total : fm_total_size m = Z.of_nat n;
  sz_bound : Z.of_nat n < 2 ^ 51;
  sz_count : fm_total_chunks m = Z.max (div_ceil (Z.of_nat n) CHUNK_SIZE) 1 }.

Lemma div_ceil_bounds n : 0 ≤ n → div_ceil n CHUNK_SIZE * CHUNK_SIZE - CHUNK_SIZE < n ∧ n ≤ div_ceil n CHUNK_SIZE * CHUNK_SIZE.
Proof.
  intros Hn. unfold div_ceil. change CHUNK_SIZE with 1048576.
  pose proof (Z.div_mod (n + 1048576 - 1) 1048576 ltac:(lia)). pose proof (Z.mod_pos_bound (n + 1048576 - 1) 1048576 ltac:(lia)). lia.
Qed.

Lemma new_sized u n g ct lm wr : Z.of_nat n < 2 ^ 51 →
  sized (with_fek wr (FileManifest_new u (Z.of_nat n) g ct lm)) n ∧ validate (FileManifest_new u (Z.of_nat n) g ct lm) = Ok ().
Proof.
  intros Hn. pose proof (div_ceil_bounds (Z.of_nat n) ltac:(lia)) as Hd. split.
  - split; [done | done | done |]. simpl. apply as_u32_small. change CHUNK_SIZE with 1048576 in *. lia.
  - unfold validate, FileManifest_new. cbn [fm_chunk_size fm_total_chunks fm_total_size].
    rewrite decide_False by (change CHUNK_SIZE with 1048576; lia). by rewrite decide_False by (intros Hne; by apply Hne).
Qed.

Lemma sized_pieces m n ct :
  sized m n → length ct = stream_len n → concat ((slices m ct (chunk_indices m)).*2) = ct.
Proof.
  intros [Hc Ht Hb Hn] Hl. rewrite slices_concat. apply take_ge. unfold chunk_indices.
  rewrite lens_sum by (rewrite ?Ht; lia || done). rewrite Hl, Ht, Hn. unfold stream_len.
  pose proof (div_ceil_bounds (Z.of_nat n) ltac:(lia)) as Hd. change CHUNK_SIZE with 1048576 in *. lia.
Qed.

Lemma streams_roundtrip `{!CryptoLaws, !DigestLaws} key m pt :
  sized m (length pt) → validate m = Ok () → readable_chunks (fm_file_uuid m) (fm_total_size m) →
  ∃ ct, encrypt_file_stream key m pt = Ok ct ∧ length ct = stream_len (length pt) ∧
    decrypt_file_stream key m ct = Ok pt.
Proof.
  intros [Hc Ht Hb _] Hv Hr. unfold encrypt_file_stream, decrypt_file_stream. rewrite Hv, Ht. cbn [mbind result_bind res_bind].
  destruct (stream_loops key m Hc ltac:(lia) Hr (S (length pt)) pt 0) as (ct & He & Hl & Hd); [lia | lia | right; lia |].
  exists ct. split; [exact He|]. split; [exact Hl|]. apply Hd. lia.
Qed.

Lemma fek_unwraps `{!CryptoLaws} nonce svk u m :
  length nonce = NONCE_LEN → fm_file_uuid m = u →
  ∃ wr, wrap_fek nonce svk u (derive_fek svk u) = Ok wr ∧ resolve_fek svk (with_fek wr m) = Ok (derive_fek svk u).
Proof.
  intros Hn Hu. pose proof (hkdf_len None svk (utf8 (String.append "vautr-fek-" u))) as Hl.
  destruct (encrypt_ok nonce svk u 0 (derive_fek svk u)) as [wr Hw]; [unfold derive_fek; rewrite Hl; lia|].
  exists wr. split; [exact Hw|]. unfold resolve_fek, unwrap_fek. cbn [fm_fek_wrapped fm_file_uuid with_fek]. rewrite Hu.
  rewrite (decrypt_encrypt _ _ _ _ _ _ Hn Hw). by rewrite decide_False by (intros Hne; by apply Hne).
Qed.

(** Unlocked with this vault key, the file transport connected. *)
Definition transfers_with (svk : blob) (c : Client) : Prop :=
  is_locked c = false ∧ k_svk (c_keys c) = Some svk ∧ c_file_transport c = true.

Lemma transfer_gates {A} svk w (k : blob → app W A) :
  transfers_with svk (client w) → (require_unlocked;; s ← require_svk; file_worker;; k s) w = k svk w.
Proof.
  intros (Hl & Hs & Ht). unfold require_unlocked, require_svk, file_worker.
  rewrite bind_run, bind_run. unfold cl, gets. cbv beta iota. rewrite guard_err_run, Hl. cbv beta iota.
  rewrite bind_run, bind_run. cbv beta iota. rewrite Hs, ok_or_run. cbv beta iota.
  rewrite bind_run, bind_run. cbv beta iota. by rewrite guard_err_run, Ht.
Qed.

Lemma upload_bytes_run `{!CryptoLaws, !DigestLaws, !VaultLaws} now svk pt ctype lm w :
  let u := uuid_v4 (os_random (c_rng (client w)) 16) in
  Z.of_nat (length pt) < 2 ^ 51 → readable_chunks u (Z.of_nat (length pt)) →
  ∃ w' wr ct, let m := with_fek wr (FileManifest_new u (Z.of_nat (length pt)) 0 ctype lm) in
    upload_bytes now svk pt ctype lm w = (w', Ok m) ∧ holds_file (remote w') m ct ∧
    encrypt_file_stream (derive_fek svk u) m pt = Ok ct ∧ length ct = stream_len (length pt) ∧
    decrypt_file_stream (derive_fek svk u) m ct = Ok pt ∧ resolve_fek svk m = Ok (derive_fek svk u).
Proof.
  intros u Hb Hr. set (m0 := FileManifest_new u (Z.of_nat (length pt)) 0 ctype lm).
  destruct (fek_unwraps (os_random (S (c_rng (client w))) NONCE_LEN) svk u m0 (os_random_len _ _) eq_refl) as (wr & Hw & Hun).
  destruct (new_sized u (length pt) 0 ctype lm wr Hb) as [Hsz Hv]. fold m0 in Hsz, Hv.
  destruct (streams_roundtrip (derive_fek svk u) (with_fek wr m0) pt Hsz Hv Hr) as (ct & He & Hl & Hd).
  set (w1 := mkWorld (with_rng S (with_rng S (client w))) (remote w)).
  destruct (initiate_keeps (with_fek wr m0) (remote w)) as (s1 & Hi & _).
  destruct (upload_chunks_run now (with_fek wr m0) ct None (chunk_indices (with_fek wr m0)) (mkWorld (client w1) s1)
              (chunk_indices_nodup _)) as (w2 & Hup & Hin & _).
  destruct (complete_keeps u (remote w2)) as (s3 & Hc & Hk).
  exists (mkWorld (client w2) s3), wr, ct. fold m0. split; [|split; [|done]].
  - unfold upload_bytes. rewrite bind_run, draw_run. cbv beta iota zeta. fold u. fold m0. rewrite Hv.
    rewrite bind_run. cbn [file_msg]. rewrite ret_run. cbv beta iota.
    rewrite bind_run, draw_run. cbv beta iota. cbn [client c_rng with_rng]. rewrite Hw, bind_run. cbn [try_crypto].
    rewrite ret_run. cbv beta iota zeta. rewrite He, bind_run. cbn [file_msg]. rewrite ret_run. cbv beta iota.
    rewrite bind_run. unfold on_file at 1. cbn [remote client]. rewrite Hi. cbn [map_res]. cbv beta iota.
    rewrite bind_run. change (mkWorld _ s1) with (mkWorld (client w1) s1). rewrite Hup. cbv beta iota.
    rewrite bind_run. unfold on_file. rewrite Hc. done.
  - intros i c Hic. cbn [remote]. rewrite Hk. by apply Hin.
Qed.

(** C23. An attachment comes back as it went: over any store that keeps the chunks it
    is given, an unlocked client's upload succeeds, and a client unlocked with
    the same vault key that is given the manifest and finds the same chunks
    downloads the bytes that were uploaded.  This is of files under 2^51 bytes
    none of whose own chunks gets a nonce that starts with the four bytes that
    mark an envelope: such a chunk, about one in 2^32, would be read as one. *)
Theorem attachment_roundtrip `{!CryptoLaws, !DigestLaws, !VaultLaws} now svk pt ctype lm w :
  transfers_with svk (client w) → Z.of_nat (length pt) < 2 ^ 51 →
  readable_chunks (uuid_v4 (os_random (c_rng (client w)) 16)) (Z.of_nat (length pt)) →
  ∃ w' m, upload_file now pt ctype lm w = (w', Ok m) ∧
    ∀ now' v, transfers_with svk (client v) →
      (∀ i, chunk_at (remote v) (fm_file_uuid m) i = chunk_at (remote w') (fm_file_uuid m) i) →
      ∃ v', download_file now' m v = (v', Ok pt).
Proof.
  intros Hw Hb Hr. unfold upload_file. rewrite (transfer_gates svk) by done.
  destruct (upload_bytes_run now svk pt ctype lm w Hb Hr) as (w' & wr & ct & Hup & Hin & _ & Hl & Hd & Hfek).
  eexists w', _. split; [exact Hup|]. intros now' v Hv Hsame. unfold download_file. rewrite (transfer_gates svk) by done.
  unfold download. rewrite Hfek, bind_run, lift_run. cbv beta iota. rewrite bind_run.
  destruct (new_sized (uuid_v4 (os_random (c_rng (client w)) 16)) (length pt) 0 ctype lm wr Hb) as [Hsz _].
  set (m := with_fek wr _) in *.
  destruct (download_chunks_run now' m None (slices m ct (chunk_indices m)) v) as (v' & Hdown).
  { intros i c Hic. rewrite Hsame. by apply Hin. }
  rewrite slices_indices, (sized_pieces _ _ _ Hsz Hl) in Hdown. rewrite Hdown, Hd. by exists v'.
Qed.
End OverStore.

(** ** A store in memory, and the witness *)
Abbreviation MemoryStore := (gmap (Uuid * Z) blob).

#[export] Instance memory_transport : FileTransport MemoryStore := {|
  initiate_upload m := mret ();
  upload_chunk u i c := modify (<[(u, i) := c]>);
  complete_upload u := mret ();
  fetch_chunk u i := o ← gets (λ s : MemoryStore, s !! (u, i)); ok_or "missing chunk" o |}.

#[export] Instance memory_store : ChunkStore MemoryStore.
Proof.
  refine {| chunk_at (s : MemoryStore) u i := s !! (u, i) |}.
  - intros m s. by exists s.
  - intros u i c s. eexists. split; [reflexivity|]. split; [apply lookup_insert_eq|].
    intros v j Hne. by rewrite lookup_insert_ne by congruence.
  - intros u s. by exists s.
  - intros u i c s Hs. simpl. rewrite bind_run. unfold gets. cbv beta iota. by rewrite Hs.
Defined.

Section AttachmentWitness.
#[local] Existing Instances Concrete.toy_ext toy_crypto toy_vault.

#[local] Instance toy_digest : DigestLaws.
Proof. split. intros b. apply pad_len. Qed.

Definition file_demo : World MemoryStore :=
  mkWorld (with_file_transport (λ _, true) (with_keys (λ _, mkKeys (Some (pad 32 [])) None None 1 false) (new_client fresh_local))) ∅.

Lemma demo_readable u n : take 4 (uuid_bytes u) ≠ ENVELOPE_MAGIC → readable_chunks u n.
Proof.
  intros Hne i _ Hm. apply Hne. rewrite <-Hm. unfold chunk_nonce. rewrite take_take. simpl.
  unfold Concrete.pad32. rewrite take_take. simpl. rewrite <-app_assoc, take_app_le; [done|].
  rewrite pad_len. lia.
Qed.

(** A short file comes back from another client with the same key. *)
Lemma attachment_roundtrip_witness :
  let now := λ i, 100 * i in
  ∃ w' m, upload_file now (utf8 "scan of a passport") "application/pdf" 7 file_demo = (w', Ok m) ∧
    ∃ v', download_file now m (mkWorld (client file_demo) (remote w')) = (v', Ok (utf8 "scan of a passport")).
Proof.
  intros now.
  destruct (attachment_roundtrip now (pad 32 []) (utf8 "scan of a passport") "application/pdf" 7 file_demo)
    as (w' & m & Hup & Hdown).
  - split_and!; reflexivity.
  - reflexivity.
  - apply demo_readable. vm_compute. discriminate.
  - exists w', m. split; [exact Hup|]. apply Hdown; [split_and!; reflexivity | reflexivity].
Defined.
End AttachmentWitness.
