(* ===== verification/Import.v ===== *)
(** * Importing from other password managers

    Models [core/vautr-import/src/]: the formats ([source.rs], [parser.rs]),
    the translation of a record into an item ([translate.rs]), encryption
    ([encrypt.rs]), the bulk insert ([ingest.rs]) and the pipeline ([lib.rs]),
    with the two entry points of [orchestrator.rs].  The JSON, CSV and ZIP
    readers are third-party crates: class [ImportExt], over the JSON values
    [Value].  [now n] is the clock at record [n].  A chunk's items draw their
    nonces in order, where [rayon] draws them in some order.  Of the messages of
    errors the fixed part is kept. *)
From stdpp Require Import gmap sets.
From S2P Require Import Prelude Domain Database Concrete ClientDb ClientSync Crypto ShareCrypto Client Replica Vault.
From S2P Require Import ConcreteClient.

Local Open Scope Z_scope.

(** ** JSON values *)

Inductive Value :=
| VNull | VBool (b : bool) | VNumber (text : string) | VString (s : string)
| VArray (l : list Value) | VObject (fields : list (string * Value)).

(** [Value::get] with a string, [as_str], [as_array]. *)
Definition get (k : string) (v : Value) : option Value :=
  match v with
  | VObject fields => snd <$> head (filter (λ f, f.1 = k) fields)
  | _ => None
  end.
Definition as_str (v : Value) : option string := match v with VString s => Some s | _ => None end.
Definition as_array (v : Value) : option (list Value) := match v with VArray l => Some l | _ => None end.

Definition get_str (k : string) (v : Value) : option string := get k v ≫= as_str.

(** [Map::insert]. *)
Definition put (k : string) (v : Value) (fields : list (string * Value)) : list (string * Value) :=
  filter (λ f, f.1 ≠ k) fields ++ [(k, v)].
Definition put_opt (k : string) (s : option string) (fields : list (string * Value)) : list (string * Value) :=
  match s with Some s => put k (VString s) fields | None => fields end.

(** What is outside: [serde_json], [csv], [zip]. *)
Class ImportExt := {
  json_value : string → result string Value;                  (* from_str *)
  json_stream : blob → list (result string Value);            (* Deserializer::into_iter *)
  utf8_text : blob → result string string;                    (* read_to_string *)
  csv_read : blob → list string * list (result string (list string));  (* headers, records; flexible *)
  csv_record : list string → blob;                            (* Writer::write_record *)
  zip_entries : blob → result string (list (string * result string blob));
  secret_to_json : DecryptedSecret → option blob;
  model_to_json : DomainModel → option blob;
}.
Class ImportLaws `{ImportExt, VaultExt} : Prop := {
  csv_roundtrip h rows : Forall (λ r, r ≠ []) (h :: rows) →
    csv_read (csv_record h ++ concat (csv_record <$> rows)) = (h, Ok <$> rows);
  secret_roundtrip s j : secret_to_json s = Some j → secret_of_json j = Some s;
}.

(** ** source.rs *)

Inductive SourceKind := Csv | BitwardenJson | Zip1pux | Pif1Password.

Definition ends_with (suf s : string) : bool :=
  bool_decide (String.length suf ≤ String.length s)%nat &&
  bool_decide (String.substring (String.length s - String.length suf) (String.length suf) s = suf).

Definition from_name (name : string) : SourceKind :=
  let lower := lowercase name in
  if ends_with ".csv" lower then Csv
  else if ends_with ".json" lower then BitwardenJson
  else if ends_with ".zip" lower || ends_with ".1pux" lower then Zip1pux
  else if ends_with ".1pif" lower then Pif1Password
  else Csv.

Section Parse.
Context `{IMPORT : ImportExt}.

Definition open_zip_reader (file : blob) : result string blob :=
  entries ← zip_entries file;
  match head (filter (λ e : string * result string blob, ends_with ".json" (lowercase e.1)) entries) with
  | None => Err "archive contains no .json entry"
  | Some (_, content) => content
  end.

(** [open] is what the file system gives for the path. *)
Definition reader (kind : SourceKind) (open : result string blob) : result string blob :=
  file ← open;
  match kind with Zip1pux => open_zip_reader file | _ => Ok file end.

(** ** parser.rs *)

Record RawImportItem := mkRaw {
  ri_source_id : option string; ri_title : string; ri_url : option string; ri_fields : Value }.
Record ParseRecord := mkParse { pr_line_number : Z; pr_item : RawImportItem }.

Definition non_empty (s : string) : option string := if decide (s = "") then None else Some s.

Fixpoint position (k : string) (l : list string) : option nat :=
  match l with
  | [] => None
  | h :: l => if decide (h = k) then Some 0%nat else S <$> position k l
  end.

(** The column of the first of the names that is a header. *)
Fixpoint column (headers keys : list string) : option nat :=
  match keys with
  | [] => None
  | k :: keys => match position k headers with Some i => Some i | None => column headers keys end
  end.

Definition field_raw (headers rec keys : list string) : option string :=
  i ← column headers keys; s ← rec !! i; non_empty s.
Definition field_trim (headers rec keys : list string) : option string :=
  s ← field_raw headers rec keys; non_empty (str_trim s).

Definition map_record (headers : list string) (line : Z) (rec : list string) : ParseRecord :=
  let field := field_raw headers rec in
  let fields :=
    put_opt "totp" (field ["totp"; "totp_secret"; "otpauth"])
      (put_opt "notes" (field ["notes"; "note"])
        (put_opt "password" (field ["password"])
          (put_opt "username" (field ["username"; "user"]) []))) in
  mkParse line
    (mkRaw None (default "" (field_trim headers rec ["name"; "title"]))
       (field_trim headers rec ["url"; "uri"; "login_uri"]) (VObject fields)).

(** [CsvIter]: a record that cannot be read does not count as a line. *)
Fixpoint csv_iter (headers : list string) (line : Z) (recs : list (result string (list string)))
    : list (result string ParseRecord) :=
  match recs with
  | [] => []
  | Ok rec :: recs => Ok (map_record headers (as_u32 (line + 1)) rec) :: csv_iter headers (as_u32 (line + 1)) recs
  | Err e :: recs => Err e :: csv_iter headers line recs
  end.

Definition parse_bitwarden_item (item : Value) (line : Z) : result string ParseRecord :=
  let login := get "login" item in
  let url :=
    l ← login; u ← get "uris" l; arr ← as_array u; u ← head arr; get_str "uri" u in
  let fields :=
    put_opt "totp" (login ≫= get_str "totp")
      (put_opt "notes" (get_str "notes" item)
        (put_opt "password" (login ≫= get_str "password")
          (put_opt "username" (login ≫= get_str "username") []))) in
  Ok (mkParse line (mkRaw (get_str "id" item) (default "" (get_str "name" item)) url (VObject fields))).

Fixpoint bitwarden_items (line : Z) (items : list Value) : list (result string ParseRecord) :=
  match items with
  | [] => []
  | i :: items => parse_bitwarden_item i line :: bitwarden_items (as_u32 (line + 1)) items
  end.

Definition bitwarden_value (v : result string Value) : list (result string ParseRecord) :=
  match v with
  | Err e => [Err e]
  | Ok v => match get "items" v ≫= as_array with Some items => bitwarden_items 1 items | None => [] end
  end.

(** [str::contains]. *)
Fixpoint str_contains (pat s : string) : bool :=
  starts_with pat s || match s with EmptyString => false | String _ s => str_contains pat s end.

(** A field of a 1PIF record. *)
Definition pif_field (fields : list (string * Value)) (f : Value) : list (string * Value) :=
  match get_str "value" f with
  | None => fields
  | Some value =>
      if decide (value = "") then fields
      else
        let designation := lowercase (default "" (get_str "designation" f)) in
        let name := lowercase (default "" (get_str "name" f)) in
        if decide (designation = "username" ∨ name = "username") then put "username" (VString value) fields
        else if decide (designation = "password" ∨ name = "password") then put "password" (VString value) fields
        else if str_contains "totp" name || starts_with "otpauth://" value then put "totp" (VString value) fields
        else fields
  end.

Definition pif_record (v : Value) (line : Z) : ParseRecord :=
  let secure := get "secureContents" v in
  let fields_arr := default [] (s ← secure; f ← get "fields" s; as_array f) in
  let fields := foldl pif_field [] fields_arr in
  let fields := put_opt "notes" (s ← secure; n ← get_str "notesPlain" s; non_empty n) fields in
  let location := get_str "location" v ≫= non_empty in
  let url :=
    match location with
    | Some l => Some l
    | None => u ← get "urls" v; a ← as_array u; u ← head a; u ← get_str "url" u; non_empty u
    end in
  mkParse line (mkRaw (get_str "uuid" v) (default "" (get_str "title" v)) url (VObject fields)).

(** The closure [flush]: the buffered text as a record, if it is not blank. *)
Definition pif_flush (buf : string) (line : Z) : list (result string ParseRecord) :=
  if decide (str_trim buf = "") then []
  else match json_value (str_trim buf) with
       | Ok v => [Ok (pif_record v line)]
       | Err e => [Err e]
       end.

Definition newline : string := String (Ascii.ascii_of_nat 10) "".

(** A blank buffer is left as it is, which later trimming undoes. *)
Fixpoint pif_lines (buf : string) (line_no : Z) (ls : list string) : list (result string ParseRecord) :=
  match ls with
  | [] => pif_flush buf line_no
  | l :: ls =>
      let line_no := as_u32 (line_no + 1) in
      if starts_with "***" l
      then pif_flush buf line_no ++
           pif_lines (if decide (str_trim buf = "") then buf else "") line_no ls
      else pif_lines (String.append buf (String.append l newline)) line_no ls
  end.

(** [str::lines]: split at line feeds, a last empty piece and a carriage return
    at the end of a piece dropped. *)
Definition chop_cr (l : string) : string :=
  if ends_with (String (Ascii.ascii_of_nat 13) "") l
  then String.substring 0 (String.length l - 1) l else l.
Fixpoint lines_from (piece s : string) : list string :=
  match s with
  | EmptyString => if decide (piece = "") then [] else [piece]
  | String c s =>
      if decide (c = Ascii.ascii_of_nat 10) then chop_cr piece :: lines_from "" s
      else lines_from (String.append piece (String c "")) s
  end.
Definition lines (s : string) : list string := lines_from "" s.

Definition parse_stream (input : blob) (kind : SourceKind) : result string (list (result string ParseRecord)) :=
  match kind with
  | Csv => let '(headers, recs) := csv_read input in Ok (csv_iter (lowercase <$> headers) 1 recs)
  | Pif1Password => text ← utf8_text input; Ok (pif_lines "" 0 (lines text))
  | BitwardenJson | Zip1pux => Ok (concat (bitwarden_value <$> json_stream input))
  end.
End Parse.

(** ** translate.rs *)

Record TranslatedItem := mkTranslated { ti_domain : DomainModel; ti_source_id : option string }.

Definition field_str (fields : Value) (key : string) : option string := get_str key fields.

(** The title and the first URL, which tell whether an item is there already. *)
Abbreviation DedupKey := (string * string)%type.
Definition dedup_key (raw : RawImportItem) : DedupKey := (str_trim (ri_title raw), default "" (ri_url raw)).

Definition identifier (raw : RawImportItem) : string := String.append "Title: " (ri_title raw).

Definition totp_of (raw : RawImportItem) (line : Z) : result ImportError (option TotpSecret) :=
  match field_str (ri_fields raw) "totp" with
  | None => Ok None
  | Some secret =>
      let s := str_trim secret in
      if decide (s = "") then Ok None
      else if starts_with "otpauth://" s then Ok (Some (Domain.mkTotpSecret Sha1 6 30 s))
      else if bool_decide (8 ≤ String.length s)%nat then Ok (Some (Domain.mkTotpSecret Sha1 6 30 s))
      else Err (mkImportError line (identifier raw) (SchemaMismatch "invalid totp secret"))
  end.

(** The item a record becomes, but for the check of its TOTP secret. *)
Definition domain_of (now : Z) (uuid : Uuid) (raw : RawImportItem) (totp : option TotpSecret) : DomainModel :=
  let '(title, url) := dedup_key raw in
  let username := field_str (ri_fields raw) "username" in
  mkDomainModel uuid 1
    (mkOverview uuid title (default "" username) "generic" (if decide (url = "") then [] else [url]) now)
    (mkSecret (default "" (field_str (ri_fields raw) "password")) totp
       (default "" (field_str (ri_fields raw) "notes"))
       (match username with Some u => [mkField "username" u FieldText] | None => [] end))
    (mkItemMetadata now now false).

(** ** encrypt.rs *)

Record EncryptedItem := mkEncrypted { en_uuid : string; en_overview : OverviewRow; en_payload : blob }.

Definition MAX_ITEMS_PER_CHUNK : nat := 100.
Definition MAX_PLAINTEXT_BYTES : Z := 25 * 1024 * 1024.
Definition plaintext_size `{ImportExt} (item : DomainModel) : Z :=
  match model_to_json item with Some v => Z.of_nat (length v) | None => 256 end.

Definition overview_row `{Ext} (item : DomainModel) : OverviewRow :=
  mkOverviewRow 1 (as_i64 (dm_enc_key_gen item)) None (do_title (dm_overview item))
    (do_subtitle (dm_overview item)) (do_icon_key (dm_overview item))
    (default "[]" (json_of_strings (do_urls (dm_overview item))))
    (md_created_at (dm_metadata item)) (md_updated_at (dm_metadata item)).

(** ** ingest.rs *)

(** A row of [insert_many]. *)
Definition insert_new {R} (tbl : Local → gmap string R) (upd : (gmap string R → gmap string R) → Local → Local)
    (k : string) (r : R) : local () :=
  o ← gets (λ l, tbl l !! k);
  guard_err (bool_decide (is_Some o)) (LocalCustom "bulk insert");;
  modify (upd (insert k r)).
Definition insert_overview (e : EncryptedItem) : local () :=
  insert_new overviews with_overviews (en_uuid e) (en_overview e).
Definition insert_payload (e : EncryptedItem) : local () :=
  insert_new payloads with_payloads (en_uuid e) (en_payload e).

(** The drop and rebuild of the search index around the inserts is left out. *)
Definition ingest (items : list EncryptedItem) : local () :=
  transaction (mapM insert_overview items;; mapM insert_payload items;; mret ()).

(** ** lib.rs *)

Definition preflight `{Ext} : local (gset DedupKey) :=
  gets (λ l, list_to_set ((λ kr : string * OverviewRow,
    (ov_title kr.2, default "" (head (default [] (strings_of_json (ov_urls kr.2)))))) <$> map_to_list (overviews l))).

(** [Progress::report]: what the callback is called with. *)
Definition report_progress (value : Z) (calls : list Z) : list Z :=
  if bool_decide (default 0 (last calls) < value) then calls ++ [value] else calls.

(** The variables of [run_pipeline]. *)
Record Pipe := mkPipe {
  pp_existing : gset DedupKey; pp_total_parsed : Z; pp_skipped : Z; pp_errors : list ImportError;
  pp_chunk : list DomainModel; pp_chunk_bytes : Z; pp_encrypted : list EncryptedItem; pp_progress : list Z }.

Section Pipeline.
Context {W : Type} `{Transport W, Ext, CryptoExt, VaultExt, ImportExt}.
Context (now : Z → Z).

Definition translate (raw : RawImportItem) (existing : gset DedupKey) (line : Z)
    : app W (result ImportError TranslatedItem) :=
  let failure r := mret (Err (mkImportError line (identifier raw) r)) in
  if decide ((dedup_key raw).1 = "") then failure (MissingRequiredField "title")
  else if decide (dedup_key raw ∈ existing) then failure DuplicateSkip
  else
    random ← draw 16;
    match totp_of raw line with
    | Err e => mret (Err e)
    | Ok totp => mret (Ok (mkTranslated (domain_of (now line) (uuid_v4 random) raw totp) (ri_source_id raw)))
    end.

Definition encrypt_item (dek : blob) (item : DomainModel) : app W EncryptedItem :=
  secret_json ← ok_or (Msg "import aborted") (secret_to_json (dm_secret item));
  nonce ← draw NONCE_LEN;
  payload ← try_crypto "encrypt payload" (encrypt nonce dek (dm_uuid item) (dm_enc_key_gen item) secret_json);
  mret (mkEncrypted (dm_uuid item) (overview_row item) payload).

Definition encrypt_chunk (dek : blob) (chunk : list DomainModel) : app W (list EncryptedItem) :=
  mapM (encrypt_item dek) chunk.

Definition pipe_error (p : Pipe) (total : Z) (e : ImportError) : Pipe :=
  mkPipe (pp_existing p) total
    (if decide (ie_reason e = DuplicateSkip) then as_u32 (pp_skipped p + 1) else pp_skipped p)
    (pp_errors p ++ [e]) (pp_chunk p) (pp_chunk_bytes p) (pp_encrypted p) (pp_progress p).

Definition pipe_item (dek : blob) (p : Pipe) (total : Z) (key : DedupKey) (domain : DomainModel) : app W Pipe :=
  let existing := {[key]} ∪ pp_existing p in
  let bytes := pp_chunk_bytes p + plaintext_size domain in
  let chunk := pp_chunk p ++ [domain] in
  if bool_decide (MAX_ITEMS_PER_CHUNK ≤ length chunk)%nat || bool_decide (MAX_PLAINTEXT_BYTES ≤ bytes) then
    encrypted ← encrypt_chunk dek chunk;
    mret (mkPipe existing total (pp_skipped p) (pp_errors p) [] 0 (pp_encrypted p ++ encrypted)
            (report_progress 50 (pp_progress p)))
  else mret (mkPipe existing total (pp_skipped p) (pp_errors p) chunk bytes (pp_encrypted p) (pp_progress p)).

Definition pipe_record (dek : blob) (p : Pipe) (record : result string ParseRecord) : app W Pipe :=
  let total := as_u32 (pp_total_parsed p + 1) in
  match record with
  | Err e => mret (pipe_error p total (mkImportError total "Record" (SchemaMismatch e)))
  | Ok r =>
      t ← translate (pr_item r) (pp_existing p) (pr_line_number r);
      match t with
      | Ok t => pipe_item dek p total (dedup_key (pr_item r)) (ti_domain t)
      | Err e => mret (pipe_error p total e)
      end
  end.

Fixpoint pipe_records (dek : blob) (p : Pipe) (records : list (result string ParseRecord)) : app W Pipe :=
  match records with
  | [] => mret p
  | r :: records => p ← pipe_record dek p r; pipe_records dek p records
  end.

(** The report, and the values the progress bar was given. *)
Definition run_pipeline (dek : blob) (existing : gset DedupKey) (records : list (result string ParseRecord))
    : app W (ImportReport * list Z) :=
  p ← pipe_records dek (mkPipe existing 0 0 [] [] 0 [] []) records;
  rest ← (if decide (pp_chunk p = []) then mret [] else encrypt_chunk dek (pp_chunk p));
  let encrypted := pp_encrypted p ++ rest in
  on_db "import aborted" (ingest encrypted);;
  mret (mkImportReport (pp_total_parsed p) (as_u32 (Z.of_nat (length encrypted))) (pp_skipped p) (pp_errors p),
        report_progress 100 (report_progress 80 (pp_progress p))).

(** [vautr_import::import_file] and [import_items]. *)
Definition pipeline_file (dek : blob) (path : string) (open : result string blob) : app W (ImportReport * list Z) :=
  input ← (match reader (from_name path) open with Ok b => mret b | Err e => throw (Msg e) end);
  records ← (match parse_stream input (from_name path) with Ok r => mret r | Err e => throw (Msg e) end);
  existing ← on_db "preflight" preflight;
  run_pipeline dek existing records.

Fixpoint numbered_records (line : Z) (items : list RawImportItem) : list (result string ParseRecord) :=
  match items with
  | [] => []
  | i :: items => Ok (mkParse line i) :: numbered_records (as_u32 (line + 1)) items
  end.
Definition pipeline_items (dek : blob) (items : list RawImportItem) : app W (ImportReport * list Z) :=
  existing ← on_db "preflight" preflight;
  run_pipeline dek existing (numbered_records 1 items).

(** ** orchestrator.rs *)

(** What both entry points do around the pipeline: keys, seeding, the event. *)
Definition imported (pipeline : blob → app W (ImportReport * list Z)) : app W (ImportReport * list Z) :=
  svk ← require_svk;
  r ← pipeline (derive_dek svk);
  seed;;
  publish (ImportCompleted r.1);;
  mret r.
Definition import_file (path : string) (open : result string blob) : app W (ImportReport * list Z) :=
  imported (λ dek, pipeline_file dek path open).
Definition import_items (items : list RawImportItem) : app W (ImportReport * list Z) :=
  imported (λ dek, pipeline_items dek items).
End Pipeline.

(** ** What an import is meant to do

    Each record is judged against the items there are and those accepted before
    it; the accepted ones become items.  No chunks, no encryption. *)
Definition verdict (existing : gset DedupKey) (r : ParseRecord) : result ImportError (option TotpSecret) :=
  let failure w := Err (mkImportError (pr_line_number r) (identifier (pr_item r)) w) in
  if decide ((dedup_key (pr_item r)).1 = "") then failure (MissingRequiredField "title")
  else if decide (dedup_key (pr_item r) ∈ existing) then failure DuplicateSkip
  else totp_of (pr_item r) (pr_line_number r).

Fixpoint triage (existing : gset DedupKey) (total : Z) (records : list (result string ParseRecord))
    : list ImportError * list ParseRecord :=
  match records with
  | [] => ([], [])
  | Err e :: records =>
      let t := triage existing (as_u32 (total + 1)) records in
      (mkImportError (as_u32 (total + 1)) "Record" (SchemaMismatch e) :: t.1, t.2)
  | Ok r :: records =>
      match verdict existing r with
      | Ok _ => let t := triage ({[dedup_key (pr_item r)]} ∪ existing) (as_u32 (total + 1)) records in
                (t.1, r :: t.2)
      | Err e => let t := triage existing (as_u32 (total + 1)) records in (e :: t.1, t.2)
      end
  end.

Definition duplicates (errors : list ImportError) : nat :=
  length (filter (λ e, ie_reason e = DuplicateSkip) errors).

(** A record as the item it becomes. *)
Definition becomes (now : Z → Z) (r : ParseRecord) (m : DomainModel) : Prop :=
  ∃ uuid totp, totp_of (pr_item r) (pr_line_number r) = Ok totp ∧
    m = domain_of (now (pr_line_number r)) uuid (pr_item r) totp.

(** The tables with the items added: each new, its secret readable with the data
    key, and everything else as it was. *)
Definition adds_items `{Ext, CryptoExt, VaultExt} (dek : blob) (items : list DomainModel) (l l' : Local) : Prop :=
  NoDup (dm_uuid <$> items) ∧
  (∀ m, m ∈ items → overviews l !! dm_uuid m = None ∧ payloads l !! dm_uuid m = None ∧
     overviews l' !! dm_uuid m = Some (overview_row m) ∧
     ∃ p pt, payloads l' !! dm_uuid m = Some p ∧
       decrypt dek (dm_uuid m) (dm_enc_key_gen m) p = Ok pt ∧ secret_of_json pt = Some (dm_secret m)) ∧
  (∀ x, x ∉ dm_uuid <$> items → overviews l' !! x = overviews l !! x ∧ payloads l' !! x = payloads l !! x) ∧
  sync_meta l' = sync_meta l ∧ blacklist_rows l' = blacklist_rows l ∧
  quarantine_rows l' = quarantine_rows l ∧ pending_deletes l' = pending_deletes l.

(** ** Ingesting *)
Section Ingest.
Context {R : Type} (tbl : Local → gmap string R) (upd : (gmap string R → gmap string R) → Local → Local).
Context (tbl_upd : ∀ f l, tbl (upd f l) = f (tbl l)) (upd_upd : ∀ f g l, upd f (upd g l) = upd (f ∘ g) l).
Context (upd_ext : ∀ f g l, f (tbl l) = g (tbl l) → upd f l = upd g l) (upd_id : ∀ l, upd id l = l).
Context {A : Type} (key : A → string) (row : A → R).

Lemma insert_new_ok k r l l' u :
  insert_new tbl upd k r l = (l', Ok u) → tbl l !! k = None ∧ l' = upd (insert k r) l.
Proof.
  unfold insert_new. intros H. apply bind_ok in H as (l1 & o & [= <- <-] & H).
  apply bind_ok in H as (l2 & ? & H1 & [= <- _]). apply guard_err_ok in H1 as [-> Hb].
  split; [|done]. apply bool_decide_eq_false in Hb. by apply eq_None_not_Some.
Qed.

Lemma insert_many_ok (es : list A) l l' r :
  mapM (λ e, insert_new tbl upd (key e) (row e)) es l = (l', Ok r) →
  NoDup (key <$> es) ∧ (∀ e, e ∈ es → tbl l !! key e = None) ∧
  l' = upd (λ m, list_to_map ((λ e, (key e, row e)) <$> es) ∪ m) l.
Proof.
  revert l r. induction es as [|e es IH]; intros l r Hm.
  - injection Hm as <- _. split; [constructor|]. split; [by intros e ?%not_elem_of_nil|].
    rewrite <-(upd_id l) at 1. apply upd_ext. simpl. by rewrite (left_id_L ∅ _).
  - apply bind_ok in Hm as (l1 & u & H1 & Hm). apply bind_ok in Hm as (l2 & rs & Hm & [= -> _]).
    apply insert_new_ok in H1 as [Hfree ->]. destruct (IH _ _ Hm) as (Hnd & Hnew & ->).
    rewrite tbl_upd in Hnew. assert (key e ∉ key <$> es) as Hni.
    { intros (e' & Heq & He')%list_elem_of_fmap. specialize (Hnew _ He').
      by rewrite <-Heq, lookup_insert_eq in Hnew. }
    split; [by constructor|]. split.
    + intros e' [->|He']%elem_of_cons; [done|]. by apply Hnew, lookup_insert_None in He' as [? _].
    + rewrite upd_upd. apply upd_ext. simpl. rewrite <-insert_union_r, insert_union_l; [done|].
      apply not_elem_of_list_to_map_1. by rewrite <-list_fmap_compose.
Qed.

(** What a list of rows looked up gives. *)
Lemma rows_lookup (es : list A) (m : gmap string R) :
  NoDup (key <$> es) →
  (∀ e, e ∈ es → (list_to_map ((λ e, (key e, row e)) <$> es) ∪ m) !! key e = Some (row e)) ∧
  (∀ x, x ∉ key <$> es → (list_to_map ((λ e, (key e, row e)) <$> es) ∪ m) !! x = m !! x).
Proof.
  intros Hnd. split.
  - intros e He. apply lookup_union_Some_l, elem_of_list_to_map_1.
    + by rewrite <-list_fmap_compose.
    + apply list_elem_of_fmap. by exists e.
  - intros x Hx. apply lookup_union_r, not_elem_of_list_to_map_1. by rewrite <-list_fmap_compose.
Qed.
End Ingest.

(** What [insert_many_ok] asks of a table. *)
Ltac table_law :=
  intros; repeat match goal with l : Local |- _ => destruct l end;
  unfold with_overviews, with_payloads in *; simpl in *; congruence.
Lemma ingest_ok es l l' u :
  ingest es l = (l', Ok u) →
  NoDup (en_uuid <$> es) ∧
  (∀ e, e ∈ es → overviews l !! en_uuid e = None ∧ payloads l !! en_uuid e = None ∧
     overviews l' !! en_uuid e = Some (en_overview e) ∧ payloads l' !! en_uuid e = Some (en_payload e)) ∧
  (∀ x, x ∉ en_uuid <$> es → overviews l' !! x = overviews l !! x ∧ payloads l' !! x = payloads l !! x) ∧
  sync_meta l' = sync_meta l ∧ blacklist_rows l' = blacklist_rows l ∧
  quarantine_rows l' = quarantine_rows l ∧ pending_deletes l' = pending_deletes l.
Proof.
  intros Hi. apply transaction_ok in Hi. apply bind_ok in Hi as (l1 & r1 & H1 & Hi).
  apply bind_ok in Hi as (l2 & r2 & H2 & [= -> _]).
  apply (insert_many_ok overviews with_overviews) in H1 as (Hnd & Hov & ->); [|table_law..].
  apply (insert_many_ok payloads with_payloads) in H2 as (_ & Hpl & ->); [|table_law..].
  cbn [with_overviews payloads] in Hpl. split; [done|]. cbn.
  destruct (rows_lookup en_uuid en_overview es (overviews l) Hnd) as [Ho1 Ho2].
  destruct (rows_lookup en_uuid en_payload es (payloads l) Hnd) as [Hp1 Hp2].
  split; [|split; [|done]]; intros x Hx; eauto 10.
Qed.

Section PipelineProofs.
Context {W : Type} `{TR : Transport W, EXT : Ext, CEXT : CryptoExt, VEXT : VaultExt, IEXT : ImportExt}.
Context (now : Z → Z).
Implicit Types (w : World W) (m : DomainModel) (e : EncryptedItem).

(** An item, encrypted. *)
Definition sealed_item (dek : blob) (m : DomainModel) (e : EncryptedItem) : Prop :=
  en_uuid e = dm_uuid m ∧ en_overview e = overview_row m ∧
  ∃ pt, secret_to_json (dm_secret m) = Some pt ∧
    decrypt dek (dm_uuid m) (dm_enc_key_gen m) (en_payload e) = Ok pt.

Lemma encrypt_chunk_ok `{!CryptoLaws, !VaultLaws} dek ms w w' es :
  encrypt_chunk dek ms w = (w', Ok es) →
  c_db (client w') = c_db (client w) ∧ Forall2 (sealed_item dek) ms es.
Proof.
  unfold encrypt_chunk. revert w es. induction ms as [|m ms IH]; intros w es Hm.
  - injection Hm as <- <-. done.
  - apply bind_ok in Hm as (w1 & e & He & Hm). apply bind_ok in Hm as (w2 & es' & Hm & [= <- <-]).
    destruct (IH _ _ Hm) as [-> IH']. unfold encrypt_item in He.
    apply bind_ok in He as (w3 & pt & Hj & He). apply ok_or_ok in Hj as [-> Hj].
    apply bind_ok in He as (w4 & nonce & Hd & He). rewrite draw_run in Hd. injection Hd as <- <-.
    apply bind_ok in He as (w5 & p & Hp & [= <- <-]). apply try_ok in Hp as [-> Hp].
    split; [done|]. constructor; [|done]. split; [done|]. split; [done|]. exists pt. split; [done|].
    eapply decrypt_encrypt; [apply os_random_len | exact Hp].
Qed.

(** What is translated is what the verdict lets through. *)
Lemma translate_run raw ex line w :
  let r := mkParse line raw in
  ∃ w', translate now raw ex line w = (w', match verdict ex r with
    | Ok totp => Ok (Ok (mkTranslated (domain_of (now line) (uuid_v4 (os_random (c_rng (client w)) 16)) raw totp)
                           (ri_source_id raw)))
    | Err e => Ok (Err e) end) ∧
  c_db (client w') = c_db (client w).
Proof.
  simpl. unfold translate, verdict. cbn [pr_item pr_line_number].
  destruct (decide _); [by eexists|]. destruct (decide _); [by eexists|].
  rewrite bind_run, draw_run. destruct (totp_of raw line); by eexists.
Qed.

(** Where the records accepted so far are. *)
Definition gathered (dek : blob) (p : Pipe) (done : list ParseRecord) : Prop :=
  ∃ ms, Forall2 (becomes now) done (ms ++ pp_chunk p) ∧ Forall2 (sealed_item dek) ms (pp_encrypted p).

Lemma pipe_item_ok `{!CryptoLaws, !VaultLaws} dek p total key m w w' p' don r :
  pipe_item dek p total key m w = (w', Ok p') → gathered dek p don → becomes now r m →
  c_db (client w') = c_db (client w) ∧ gathered dek p' (don ++ [r]) ∧
  pp_existing p' = {[key]} ∪ pp_existing p ∧ pp_total_parsed p' = total ∧
  pp_skipped p' = pp_skipped p ∧ pp_errors p' = pp_errors p.
Proof.
  intros Hp (ms & Hms & Hes) Hm. unfold pipe_item in Hp.
  assert (Forall2 (becomes now) (don ++ [r]) (ms ++ pp_chunk p ++ [m])) as Hms'
    by (rewrite app_assoc; apply Forall2_app; [done | by repeat constructor]).
  destruct (_ || _).
  - apply bind_ok in Hp as (w1 & es & He & [= <- <-]). apply encrypt_chunk_ok in He as [-> He].
    split; [done|]. split; [|done]. exists (ms ++ pp_chunk p ++ [m]). cbn.
    split; [by rewrite app_nil_r | by apply Forall2_app].
  - injection Hp as <- <-. split; [done|]. split; [|done]. by exists ms.
Qed.

Lemma as_u32_add x n : as_u32 (as_u32 x + n) = as_u32 (x + n).
Proof. unfold as_u32. by rewrite Zplus_mod_idemp_l. Qed.

Lemma triage_lengths ex total records :
  let t := triage ex total records in
  (length t.1 + length t.2 = length records)%nat ∧ (duplicates t.1 ≤ length t.1)%nat.
Proof.
  split; [|apply length_filter]. revert ex total. induction records as [|[r|e] rs IH]; intros ex total; [done| |].
  - cbn [triage]. destruct (verdict ex r); cbn; specialize (IH); [|by rewrite <-(IH ex (as_u32 (total + 1)))].
    rewrite <-(IH ({[dedup_key (pr_item r)]} ∪ ex) (as_u32 (total + 1))). lia.
  - cbn. by rewrite <-(IH ex (as_u32 (total + 1))).
Qed.

Lemma on_db_run {A} ctx (m : local A) w w' a :
  on_db ctx m w = (w', Ok a) →
  ∃ l', m (c_db (client w)) = (l', Ok a) ∧ w' = mkWorld (with_db (λ _, l') (client w)) (remote w).
Proof.
  unfold on_db. destruct (m (c_db (client w))) as [l' [b|e]]; [|done]. intros [= <- ->]. by exists l'.
Qed.

Lemma ingested_items `{!ImportLaws} dek items es l l' u :
  ingest es l = (l', Ok u) → Forall2 (sealed_item dek) items es → adds_items dek items l l'.
Proof.
  intros Hi Hs. apply ingest_ok in Hi as (Hnd & Hin & Hout & Hrest).
  assert (en_uuid <$> es = dm_uuid <$> items) as Hk.
  { clear -Hs. induction Hs as [|m e ms es [He _] _ IH]; [done|]. csimpl. congruence. }
  rewrite Hk in Hnd, Hout. split; [done|]. split; [|by split].
  intros m [i Hm]%list_elem_of_lookup_1. destruct (Forall2_lookup_l _ _ _ _ _ Hs Hm) as (e & He & Hu & Ho & pt & Hpt & Hd).
  apply list_elem_of_lookup_2 in He.
  destruct (Hin _ He) as (H1 & H2 & H3 & H4). rewrite Hu in *. split; [done|]. split; [done|].
  split; [by rewrite H3, Ho|]. exists (en_payload e), pt. split; [done|]. split; [done|].
  by apply secret_roundtrip.
Qed.

(** What the loop has done with the records. *)
Definition piped (dek : blob) (p p' : Pipe) (don : list ParseRecord) (records : list (result string ParseRecord))
    (w w' : World W) : Prop :=
  let t := triage (pp_existing p) (pp_total_parsed p) records in
  c_db (client w') = c_db (client w) ∧ gathered dek p' (don ++ t.2) ∧
  pp_errors p' = pp_errors p ++ t.1 ∧
  (as_u32 (pp_total_parsed p) = pp_total_parsed p →
   pp_total_parsed p' = as_u32 (pp_total_parsed p + Z.of_nat (length records))) ∧
  (as_u32 (pp_skipped p) = pp_skipped p →
   pp_skipped p' = as_u32 (pp_skipped p + Z.of_nat (duplicates t.1))).

Lemma as_u32_idem x : as_u32 (as_u32 x) = as_u32 x.
Proof. unfold as_u32. apply Z.mod_mod. lia. Qed.

Lemma piped_refused dek p p' don r rs (err : ImportError) w w1 w' :
  let total := as_u32 (pp_total_parsed p + 1) in
  triage (pp_existing p) (pp_total_parsed p) (r :: rs) =
    (err :: (triage (pp_existing p) total rs).1, (triage (pp_existing p) total rs).2) →
  c_db (client w1) = c_db (client w) →
  piped dek (pipe_error p total err) p' don rs w1 w' → piped dek p p' don (r :: rs) w w'.
Proof.
  intros total Ht Hdb (Hdb2 & Hg2 & Her2 & Htot2 & Hs2). unfold piped. rewrite Ht. cbv zeta.
  cbn [pipe_error pp_existing pp_total_parsed pp_errors pp_skipped fst snd] in *.
  split; [congruence|]. split; [exact Hg2|]. split; [by rewrite Her2, <-app_assoc|]. split.
  - intros _. rewrite Htot2 by apply as_u32_idem. subst total. rewrite as_u32_add. f_equal. simpl. lia.
  - intros Hsk. unfold duplicates in *. rewrite filter_cons. destruct (decide (ie_reason err = DuplicateSkip)).
    + rewrite Hs2 by apply as_u32_idem. rewrite as_u32_add. f_equal. simpl. lia.
    + by rewrite Hs2.
Qed.

Lemma pipe_records_ok `{!CryptoLaws, !VaultLaws} dek records p w w' p' don :
  pipe_records now dek p records w = (w', Ok p') → gathered dek p don → piped dek p p' don records w w'.
Proof.
  revert p w don. induction records as [|r rs IH]; intros p w don Hp Hg.
  - injection Hp as <- <-. unfold piped. cbn. rewrite !app_nil_r, !Z.add_0_r. done.
  - apply bind_ok in Hp as (w1 & p1 & Hr & Hp). destruct r as [r|e]; simpl in Hr.
    2:{ injection Hr as <- <-. eapply piped_refused; [done..|]. by apply IH. }
    apply bind_ok in Hr as (w2 & t & Ht & Hr).
    destruct (translate_run (pr_item r) (pp_existing p) (pr_line_number r) w) as (w2' & Htr & Hdb).
    rewrite Htr in Ht. injection Ht as -> Ht.
    replace (mkParse (pr_line_number r) (pr_item r)) with r in Ht by (by destruct r).
    destruct (verdict (pp_existing p) r) as [totp|e] eqn:Hv; injection Ht as <-.
    2:{ injection Hr as <- <-. eapply piped_refused; [by cbn [triage]; rewrite Hv | exact Hdb|]. by apply IH. }
    eapply pipe_item_ok in Hr as (Hdb' & Hg' & He & Htot & Hs & Her); [|exact Hg|].
    2:{ exists (uuid_v4 (os_random (c_rng (client w)) 16)), totp. split; [|done].
        unfold verdict in Hv. by repeat case_decide. }
    destruct (IH _ _ _ Hp Hg') as (Hdb2 & Hg2 & Her2 & Htot2 & Hs2).
    unfold piped. cbn [triage]. rewrite Hv. cbv zeta. rewrite He, Htot in *. cbn.
    rewrite <-app_assoc in Hg2. split; [congruence|]. split; [exact Hg2|]. rewrite Her2, Her. split; [done|]. split.
    + intros _. rewrite Htot2 by apply as_u32_idem. rewrite as_u32_add. f_equal. lia.
    + intros Hsk. rewrite Hs2 by congruence. by rewrite Hs.
Qed.

(** What a pipeline that succeeds leaves. *)
Lemma stored_items `{!CryptoLaws, !VaultLaws, !ImportLaws} dek existing records w w' rep calls :
  run_pipeline now dek existing records w = (w', Ok (rep, calls)) →
  let t := triage existing 0 records in
  rep = mkImportReport (as_u32 (Z.of_nat (length records))) (as_u32 (Z.of_nat (length t.2)))
          (as_u32 (Z.of_nat (duplicates t.1))) t.1 ∧
  ∃ items, Forall2 (becomes now) t.2 items ∧ adds_items dek items (c_db (client w)) (c_db (client w')).
Proof.
  intros Hr. unfold run_pipeline in Hr.
  apply bind_ok in Hr as (w1 & p & Hp & Hr). apply bind_ok in Hr as (w2 & rest & Hrest & Hr).
  apply bind_ok in Hr as (w3 & u & Hi & [= <- <- _]).
  apply (pipe_records_ok _ _ _ _ _ _ []) in Hp as (Hdb & Hg & Her & Htot & Hsk); [|by exists []; split; constructor].
  cbn [pp_existing pp_total_parsed pp_errors pp_skipped app] in *.
  set (t := triage existing 0 records) in *.
  assert (c_db (client w2) = c_db (client w) ∧ ∃ items,
    Forall2 (becomes now) t.2 items ∧ Forall2 (sealed_item dek) items (pp_encrypted p ++ rest)) as (Hdb2 & items & Hb & Hs).
  { destruct Hg as (ms & Hb & Hs). destruct (decide (pp_chunk p = [])) as [Hc|].
    - injection Hrest as <- <-. split; [done|]. exists ms. rewrite Hc, app_nil_r in *. done.
    - apply encrypt_chunk_ok in Hrest as [Hdb2 Hrest]. split; [congruence|].
      exists (ms ++ pp_chunk p). split; [done | by apply Forall2_app]. }
  split.
  - rewrite Her, Htot, Hsk by done. by rewrite <-(Forall2_length _ _ _ Hs), <-(Forall2_length _ _ _ Hb).
  - exists items. split; [done|]. apply on_db_run in Hi as (l' & Hi & ->). cbn [client c_db with_db].
    rewrite <-Hdb2. by eapply ingested_items.
Qed.

(** C25. An import does what its records ask for, whatever their number and size: the
    report counts and lists exactly the records judged unfit, and the others
    become items, added to the tables with their secrets readable under the
    vault's data key.  Chunks and encryption leave no trace in the result. *)
Theorem import_refines_triage `{!CryptoLaws, !VaultLaws, !ImportLaws} dek existing records w w' rep calls :
  run_pipeline now dek existing records w = (w', Ok (rep, calls)) →
  Z.of_nat (length records) < 2 ^ 32 →
  let t := triage existing 0 records in
  rep = mkImportReport (Z.of_nat (length records)) (Z.of_nat (length t.2)) (Z.of_nat (duplicates t.1)) t.1 ∧
  ∃ items, Forall2 (becomes now) t.2 items ∧ adds_items dek items (c_db (client w)) (c_db (client w')).
Proof.
  intros Hr Hlen t. destruct (stored_items _ _ _ _ _ _ _ Hr) as [-> Hitems].
  destruct (triage_lengths existing 0 records) as [Hl Hd]. fold t in Hl, Hd, Hitems.
  split; [|done]. fold t. rewrite !as_u32_small by lia. done.
Qed.

(** ** Importing again *)

Lemma triage_again ex ex' total total' records :
  ex ⊆ ex' → (∀ r, r ∈ (triage ex total records).2 → dedup_key (pr_item r) ∈ ex') →
  (triage ex' total' records).2 = [].
Proof.
  revert ex total total'. induction records as [|[r|e] rs IH]; intros ex total total' Hex Hin; [done| |].
  - cbn [triage] in *. destruct (verdict ex' r) as [t|e] eqn:Hv'.
    + exfalso. unfold verdict in Hv'. case_decide as Ht; [done|]. case_decide as Hk; [done|].
      assert (verdict ex r = Ok t) as Hv.
      { unfold verdict. rewrite !decide_False by set_solver. done. }
      rewrite Hv in Hin. apply Hk, Hin. by left.
    + destruct (verdict ex r) as [t|e'] eqn:Hv; [|by eapply IH].
      apply (IH ({[dedup_key (pr_item r)]} ∪ ex) (as_u32 (total + 1))); intros; [|apply Hin; by right].
      apply union_least; [|done]. apply singleton_subseteq_l, Hin. by left.
  - by apply (IH ex (as_u32 (total + 1)) (as_u32 (total' + 1))).
Qed.

Lemma pipe_records_none dek records p w :
  (triage (pp_existing p) (pp_total_parsed p) records).2 = [] →
  ∃ w' p', pipe_records now dek p records w = (w', Ok p') ∧ pp_chunk p' = pp_chunk p ∧
    pp_encrypted p' = pp_encrypted p ∧ c_db (client w') = c_db (client w).
Proof.
  revert p w. induction records as [|[r|e] rs IH]; intros p w Ht; [by do 2 eexists| |].
  - cbn [triage] in Ht. destruct (verdict (pp_existing p) r) as [|e] eqn:Hv; [done|].
    destruct (translate_run (pr_item r) (pp_existing p) (pr_line_number r) w) as (w1 & Htr & Hdb).
    replace (mkParse (pr_line_number r) (pr_item r)) with r in Htr by (by destruct r). rewrite Hv in Htr.
    destruct (IH (pipe_error p (as_u32 (pp_total_parsed p + 1)) e) w1) as (w' & p' & Hr & Hc & He & Hdb'); [done|].
    exists w', p'. cbn [pipe_records]. unfold pipe_record. rewrite bind_run, bind_run, Htr. 
    split; [exact Hr|]. split; [done|]. split; [done | congruence].
  - destruct (IH (pipe_error p (as_u32 (pp_total_parsed p + 1))
      (mkImportError (as_u32 (pp_total_parsed p + 1)) "Record" (SchemaMismatch e))) w Ht) as (w' & p' & Hr & Hrest).
    by exists w', p'.
Qed.

(** The keys of the items in the tables. *)
Definition keys_of (l : Local) : gset DedupKey :=
  list_to_set ((λ kr : string * OverviewRow,
    (ov_title kr.2, default "" (head (default [] (strings_of_json (ov_urls kr.2)))))) <$> map_to_list (overviews l)).

Lemma elem_keys_of l k :
  k ∈ keys_of l ↔ ∃ x row, overviews l !! x = Some row ∧
    k = (ov_title row, default "" (head (default [] (strings_of_json (ov_urls row))))).
Proof.
  unfold keys_of. rewrite elem_of_list_to_set, list_elem_of_fmap. split.
  - intros ([x row] & -> & Hx%elem_of_map_to_list). by exists x, row.
  - intros (x & row & Hx & ->). exists (x, row). split; [done|]. by apply elem_of_map_to_list.
Qed.

Lemma keys_added `{!ExtLaws} dek accepted items l l' :
  Forall2 (becomes now) accepted items → adds_items dek items l l' →
  keys_of l ⊆ keys_of l' ∧ ∀ r, r ∈ accepted → dedup_key (pr_item r) ∈ keys_of l'.
Proof.
  intros Hb (_ & Hin & Hout & _). split.
  - intros k (x & row & Hx & ->)%elem_keys_of. apply elem_keys_of. exists x, row. split; [|done].
    destruct (decide (x ∈ dm_uuid <$> items)) as [(m & -> & Hm)%list_elem_of_fmap|Hn];
      [|by destruct (Hout _ Hn) as [-> _]].
    destruct (Hin _ Hm) as [Hno _]. congruence.
  - intros r [i Hr]%list_elem_of_lookup_1. destruct (Forall2_lookup_l _ _ _ _ _ Hb Hr) as (m & Hm & uuid & totp & _ & ->).
    apply list_elem_of_lookup_2 in Hm. destruct (Hin _ Hm) as (_ & _ & Hrow & _).
    apply elem_keys_of. eexists _, _. split; [exact Hrow|]. unfold overview_row, domain_of.
    destruct (dedup_key (pr_item r)) as [title url]. cbn.
    set (urls := if decide (url = "") then [] else [url]).
    destruct (json_roundtrip urls) as (j & Hj & Hj'). rewrite Hj. cbn. rewrite Hj'. subst urls.
    by destruct (decide (url = "")) as [->|].
Qed.

Lemma preflight_run w : on_db "preflight" preflight w = (w, Ok (keys_of (c_db (client w)))).
Proof. destruct w as [[] s]. done. Qed.

(** What a pipeline that succeeds leaves among the keys. *)
Lemma stored_keys `{!CryptoLaws, !VaultLaws, !ImportLaws, !ExtLaws} dek existing records w w' rep calls :
  run_pipeline now dek existing records w = (w', Ok (rep, calls)) →
  keys_of (c_db (client w)) ⊆ keys_of (c_db (client w')) ∧
  ∀ r, r ∈ (triage existing 0 records).2 → dedup_key (pr_item r) ∈ keys_of (c_db (client w')).
Proof.
  intros Hr. destruct (stored_items _ _ _ _ _ _ _ Hr) as (_ & items & Hb & Ha). by eapply keys_added.
Qed.

(** C26. Importing a file a second time adds nothing: whatever the first import took
    from it is recognised in the tables it left, on any device that has them,
    with or without other items beside. *)
Theorem import_again_adds_nothing `{!CryptoLaws, !VaultLaws, !ImportLaws, !ExtLaws} dek dek' path file w w' rep calls
    (v : World W) :
  pipeline_file now dek path file w = (w', Ok (rep, calls)) →
  overviews (c_db (client w')) ⊆ overviews (c_db (client v)) →
  ∃ v' rep' calls', pipeline_file now dek' path file v = (v', Ok (rep', calls')) ∧
    c_db (client v') = c_db (client v) ∧ ir_success_count rep' = 0.
Proof.
  intros Hf Hsub. unfold pipeline_file in *. destruct (reader (from_name path) file) as [input|]; [|done].
  apply bind_ok in Hf as (w1 & i & [= <- <-] & Hf).
  destruct (parse_stream input (from_name path)) as [records|] eqn:Hps; [|done].
  apply bind_ok in Hf as (w2 & r & [= <- <-] & Hf). apply bind_ok in Hf as (w3 & existing & Hpre & Hf).
  rewrite preflight_run in Hpre. injection Hpre as <- <-.
  pose proof (stored_keys _ _ _ _ _ _ _ Hf) as [Hold Hnew]. cbn [client c_db with_db] in Hold, Hnew.
  assert (keys_of (c_db (client w')) ⊆ keys_of (c_db (client v))) as Hk.
  { intros k (x & row & Hx & ->)%elem_keys_of. apply elem_keys_of. exists x, row. split; [|done]. by eapply lookup_weaken. }
  assert ((triage (keys_of (c_db (client v))) 0 records).2 = []) as Ht.
  { apply (triage_again (keys_of (c_db (client w))) _ 0); [set_solver|]. intros r Hr. apply Hk, Hnew, Hr. }
  destruct (pipe_records_none dek' records (mkPipe (keys_of (c_db (client v))) 0 0 [] [] 0 [] []) v Ht)
    as (v1 & p & Hp & Hc & He & Hdb).
  exists (mkWorld (with_db (λ _, c_db (client v1)) (client v1)) (remote v1)). do 2 eexists.
  rewrite bind_run. cbn [mret M_ret]. rewrite Hps, bind_run. cbn [mret M_ret].
  rewrite bind_run, preflight_run. cbv beta iota. unfold run_pipeline. rewrite bind_run, Hp. cbv beta iota.
  rewrite Hc, He. split; [reflexivity|]. done.
Qed.
End PipelineProofs.

(** ** A concrete import *)
Section ImportWitness.
Import Concrete ConcreteClient.

Lemma enc_string_app s rest : enc_string s rest = String.append (enc_string s "") rest.
Proof. induction s as [|c s IH]; [done|]. simpl. by rewrite IH. Qed.
Lemma utf8_app s t : utf8 (String.append s t) = utf8 s ++ utf8 t.
Proof.
  induction s as [|c s IH]; [done|].
  change (utf8 (String.append (String c s) t)) with (Ascii.byte_of_ascii c :: utf8 (String.append s t)).
  by rewrite IH.
Qed.
Lemma utf8_back s : String.string_of_list_byte (utf8 s) = s.
Proof. apply String.string_of_list_byte_of_string. Qed.

(** A record is its fields, encoded and encoded again; a secret is its texts. *)
Definition toy_csv_record (l : list string) : blob := utf8 (enc_string (enc_strings l) "").
Definition toy_csv_read (b : blob) : list string * list (result string (list string)) :=
  match dec_strings (String.string_of_list_byte b) id with
  | Some (h :: rows) =>
      (default [] (dec_strings h id),
       (λ r, match dec_strings r id with Some l => Ok l | None => Err "record" end) <$> rows)
  | _ => ([], [])
  end.
Definition toy_secret_to_json (s : DecryptedSecret) : option blob :=
  match s with
  | mkSecret pw None notes [] => Some (utf8 (enc_strings [pw; notes]))
  | mkSecret pw None notes [mkField n u FieldText] => Some (utf8 (enc_strings [pw; notes; n; u]))
  | mkSecret pw (Some (Domain.mkTotpSecret Sha1 6 30 t)) notes [mkField n u FieldText] =>
      Some (utf8 (enc_strings [pw; notes; n; u; t]))
  | _ => None
  end.
Definition toy_secret_of_json (b : blob) : option DecryptedSecret :=
  match dec_strings (String.string_of_list_byte b) id with
  | Some [pw; notes] => Some (mkSecret pw None notes [])
  | Some [pw; notes; n; u] => Some (mkSecret pw None notes [mkField n u FieldText])
  | Some [pw; notes; n; u; t] =>
      Some (mkSecret pw (Some (Domain.mkTotpSecret Sha1 6 30 t)) notes [mkField n u FieldText])
  | _ => None
  end.

Definition toy_import : ImportExt := {|
  json_value s := Ok (VString s); json_stream b := [Ok (VString (String.string_of_list_byte b))];
  utf8_text b := Ok (String.string_of_list_byte b);
  csv_read := toy_csv_read; csv_record := toy_csv_record; zip_entries _ := Ok [];
  secret_to_json := toy_secret_to_json; model_to_json _ := None |}.
Definition toy_import_vault : VaultExt := {|
  os_random := os_random (VaultExt:=toy_vault); uuid_v4 := uuid_v4 (VaultExt:=toy_vault);
  secret_of_json := toy_secret_of_json; models_to_json := models_to_json (VaultExt:=toy_vault) |}.

#[export] Instance toy_import_vault_laws : VaultLaws (H:=toy_import_vault).
Proof. split. intros. apply length_replicate. Qed.

Lemma toy_csv_concat rows : concat (toy_csv_record <$> rows) = utf8 (enc_strings (enc_strings <$> rows)).
Proof.
  induction rows as [|r rows IH]; [done|]. csimpl. fold (enc_strings (enc_strings <$> rows)).
  by rewrite IH, (enc_string_app (enc_strings r) (enc_strings _)), utf8_app.
Qed.

#[export] Instance toy_import_laws : ImportLaws (H:=toy_import) (H0:=toy_import_vault).
Proof.
  split.
  - intros h rows. simpl. unfold toy_csv_read, toy_csv_record.
    change (utf8 _ ++ concat _) with (concat (toy_csv_record <$> (h :: rows))). rewrite toy_csv_concat.
    rewrite utf8_back, dec_enc_strings, fmap_cons. simpl. rewrite dec_enc_strings. simpl. f_equal.
    intros _. rewrite <-list_fmap_compose. f_equal. apply list_fmap_ext. intros i r _. simpl. by rewrite dec_enc_strings.
  - intros s j Hs. change (toy_secret_to_json s = Some j) in Hs. change (toy_secret_of_json j = Some s).
    unfold toy_secret_to_json in Hs. repeat case_match; simplify_eq; unfold toy_secret_of_json;
      by rewrite utf8_back, dec_enc_strings.
Qed.

#[local] Existing Instances toy_ext toy_crypto toy_import_vault toy_import Offline.

(** Two items, one of them twice, a title missing and a secret too short. *)
Definition logins : blob :=
  concat (csv_record <$>
    [["name"; "URL"; "username"; "password"; "totp"];
     ["Mail"; "https://mail.example"; "ada"; " p@ss "; ""];
     [" Mail "; "https://mail.example"; "ada"; "other"; ""];
     [""; ""; ""; "x"; ""];
     ["Bank"; "https://bank.example"; "ada"; "y"; "123"];
     ["Bank"; "https://bank.example"; "ada"; "y"; "12345678"]]).
Definition import_demo : World unit := mkWorld (new_client fresh_local) ().
Definition login_records : list (result string ParseRecord) :=
  match parse_stream logins Csv with Ok r => r | Err _ => [] end.
Definition dek_demo : blob := pad 32 (utf8 "dek").
Definition clock (line : Z) : Z := 1000 + line.

Definition first_import : World unit := (run_pipeline clock dek_demo ∅ login_records import_demo).1.
Definition first_report : ImportReport :=
  mkImportReport 5 2 1
    [mkImportError 3 "Title: Mail" DuplicateSkip; mkImportError 4 "Title: " (MissingRequiredField "title");
     mkImportError 5 "Title: Bank" (SchemaMismatch "invalid totp secret")].

Lemma first_import_ok :
  run_pipeline clock dek_demo ∅ login_records import_demo = (first_import, Ok (first_report, [80; 100])).
Proof.
  rewrite (surjective_pairing (run_pipeline clock dek_demo ∅ login_records import_demo)).
  unfold first_import. apply (f_equal (pair _)). vm_compute. reflexivity.
Qed.

Lemma import_refines_triage_witness :
  let t := triage ∅ 0 login_records in
  ∃ items, length t.2 = 2%nat ∧ duplicates t.1 = 1%nat ∧
    Forall2 (becomes clock) t.2 items ∧ adds_items dek_demo items fresh_local (c_db (client first_import)).
Proof.
  destruct (import_refines_triage clock dek_demo ∅ login_records import_demo first_import first_report [80; 100])
    as (_ & items & Hb & Ha).
  - exact first_import_ok.
  - vm_compute. reflexivity.
  - exists items. split; [vm_compute; reflexivity|]. split; [vm_compute; reflexivity|].
    split; [exact Hb | exact Ha].
Defined.

(** The same file again, on the client that imported it. *)
Definition file_import : World unit := (pipeline_file clock dek_demo "logins.csv" (Ok logins) import_demo).1.

Lemma import_again_adds_nothing_witness :
  ∃ v' rep' calls', pipeline_file clock dek_demo "logins.csv" (Ok logins) file_import = (v', Ok (rep', calls')) ∧
    c_db (client v') = c_db (client file_import) ∧ ir_success_count rep' = 0.
Proof.
  apply (import_again_adds_nothing clock dek_demo dek_demo "logins.csv" (Ok logins) import_demo file_import
    first_report [80; 100] file_import).
  - rewrite (surjective_pairing (pipeline_file clock dek_demo "logins.csv" (Ok logins) import_demo)).
    unfold file_import. apply (f_equal (pair _)). vm_compute. reflexivity.
  - reflexivity.
Defined.
End ImportWitness.
