(* ===== verification/Export.v ===== *)
(** * Exporting a vault

    Models [core/vautr-export/src/] ([format.rs], [row.rs], [report.rs],
    [export.rs]) and [export_vault] of the client's [orchestrator.rs].  The CSV
    writer is the one of [ImportExt]; the JSON of a row is a parameter.  A file
    is the bytes written to it; what a failed export leaves on disk is not
    modelled.  Shows what importing an exported CSV file gives. *)
From S2P Require Import Prelude Domain Database Concrete ClientDb ClientSync Crypto ShareCrypto Client Replica Vault.
From S2P Require Import ConcreteClient Import.

Local Open Scope Z_scope.

Module Exports.

(** ** format.rs, row.rs, report.rs *)

Inductive ExportFormat := Csv | Json.
Definition from_str (s : string) : result string ExportFormat :=
  let l := lowercase s in
  if decide (l = "csv") then Ok Csv else if decide (l = "json") then Ok Json else Err "unknown export format".

Record TotpExport := mkTotpExport {
  te_algorithm : string; te_digits : Z; te_period : Z; te_secret_base32 : string }.
Record ExportRow := mkExportRow {
  xr_uuid : Uuid; xr_title : string; xr_username : string; xr_password : string;
  xr_urls : list string; xr_notes : string; xr_totp : option TotpExport }.
Record ExportReport := mkExportReport {
  xp_items_exported : Z; xp_bytes_written : Z; xp_format : ExportFormat; xp_path : string; xp_cancelled : bool }.

(** What is outside: [serde_json] on a row. *)
Class ExportExt := { row_to_json : ExportRow → option blob }.

(** ** export.rs *)

(** [= + - @], tab and carriage return. *)
Definition formula_chars : list Ascii.ascii := Ascii.ascii_of_nat <$> [61; 43; 45; 64; 9; 13]%nat.
Definition sanitize_csv_cell (raw : string) : string :=
  match raw with
  | String c _ => if decide (c ∈ formula_chars) then String.append "'" raw else raw
  | EmptyString => raw
  end.

(** [urls.join(" | ")]. *)
Fixpoint join_urls (urls : list string) : string :=
  match urls with
  | [] => ""
  | [u] => u
  | u :: us => String.append u (String.append " | " (join_urls us))
  end.

Definition totp_cell (row : ExportRow) : string :=
  match xr_totp row with
  | Some t => String.append "otpauth://totp/"
                (String.append (xr_title row) (String.append "?secret=" (te_secret_base32 t)))
  | None => ""
  end.

Definition csv_header : list string := ["uuid"; "title"; "username"; "password"; "urls"; "notes"; "totp"].
Definition csv_cells (row : ExportRow) : list string :=
  [xr_uuid row; sanitize_csv_cell (xr_title row); sanitize_csv_cell (xr_username row);
   sanitize_csv_cell (xr_password row); sanitize_csv_cell (join_urls (xr_urls row));
   sanitize_csv_cell (xr_notes row); sanitize_csv_cell (totp_cell row)].

Section Writer.
Context `{ImportExt, ExportExt}.

Definition write_csv_row (row : ExportRow) : blob := csv_record (csv_cells row).

(** [writer] is what has been written to [path]. *)
Record ExportWriter := mkWriter {
  xw_writer : blob; xw_format : ExportFormat; xw_path : string; xw_items_exported : Z; xw_first_json : bool }.

Definition begin (path : string) (format : ExportFormat) : ExportWriter :=
  mkWriter (match format with Csv => csv_record csv_header | Json => utf8 "[" end) format path 0 true.

Definition write_row (w : ExportWriter) (row : ExportRow) : result string ExportWriter :=
  match xw_format w with
  | Csv => Ok (mkWriter (xw_writer w ++ write_csv_row row) Csv (xw_path w) (as_u64 (xw_items_exported w + 1))
                 (xw_first_json w))
  | Json =>
      match row_to_json row with
      | None => Err "export serialize error"
      | Some json =>
          Ok (mkWriter (xw_writer w ++ (if xw_first_json w then [] else utf8 ",") ++ json) Json (xw_path w)
                (as_u64 (xw_items_exported w + 1)) false)
      end
  end.

(** The report, and the file. *)
Definition finish (w : ExportWriter) : ExportReport * blob :=
  let bytes := match xw_format w with Csv => xw_writer w | Json => xw_writer w ++ utf8 "]" end in
  (mkExportReport (xw_items_exported w) (Z.of_nat (length bytes)) (xw_format w) (xw_path w) false, bytes).

(** [export_rows]: [cancel n] is the flag after [n] rows. *)
Fixpoint export_loop (cancel : Z → bool) (w : ExportWriter) (rows : list ExportRow) : result string (ExportWriter * bool) :=
  match rows with
  | [] => Ok (w, false)
  | row :: rows =>
      if cancel (xw_items_exported w) then Ok (w, true)
      else w ← write_row w row; export_loop cancel w rows
  end.
Definition export_rows (cancel : Z → bool) (rows : list ExportRow) (format : ExportFormat) (path : string)
    : result string (ExportReport * blob) :=
  r ← export_loop cancel (begin path format) rows;
  let '(rep, bytes) := finish r.1 in
  mret (mkExportReport (xp_items_exported rep) (xp_bytes_written rep) format path r.2, bytes).
End Writer.

(** ** orchestrator.rs *)

(** [format!("{:?}")]. *)
Definition algorithm_name (a : TotpAlgorithm) : string :=
  match a with Domain.Sha1 => "Sha1" | Domain.Sha256 => "Sha256" | Domain.Sha512 => "Sha512" end.

Definition row_of (uuid : Uuid) (o : DecryptedOverview) (s : DecryptedSecret) : ExportRow :=
  mkExportRow uuid (do_title o) (do_subtitle o) (sec_password s) (do_urls o) (sec_notes s)
    ((λ t, mkTotpExport (algorithm_name (Domain.ts_algorithm t)) (ts_digits t) (ts_period t) (Domain.ts_secret_base32 t))
       <$> sec_totp s).

Section ExportVault.
Context {W : Type} `{Transport W, Ext, CryptoExt, VaultExt, ImportExt, ExportExt}.

Definition export_gate : app W () :=
  locked ← cl is_locked;
  guard_err locked (Msg "export blocked");;
  local_gen ← cl current_key_gen;
  read_only ← cl (λ c, is_read_only (c_epoch c) local_gen);
  guard_err read_only (Msg "export blocked").

Definition export_row (r : Uuid * Z * Z * blob) : app W ExportRow :=
  let '(uuid, _, gen, payload) := r in
  overview ← client_get_overview uuid;
  k ← cl (λ c, k_dek (c_keys c));
  dek ← ok_or (Msg "vault locked") k;
  pt ← or_msg "export decrypt" (decrypt dek uuid gen payload);
  secret ← ok_or (Msg "export secret parse") (secret_of_json pt);
  mret (row_of uuid overview secret).

(** [cancel n] is the flag after [n] rows; a cancelled export breaks off. *)
Fixpoint export_items (cancel : Z → bool) (w : ExportWriter) (rows : list (Uuid * Z * Z * blob))
    : app W ExportWriter :=
  match rows with
  | [] => mret w
  | r :: rows =>
      if cancel (xw_items_exported w) then mret w
      else
        row ← export_row r;
        w' ← (match write_row w row with Ok w' => mret w' | Err e => throw (Msg e) end);
        export_items cancel w' rows
  end.

Definition export_vault (format : ExportFormat) (path : string) (cancel : Z → bool) : app W (ExportReport * blob) :=
  export_gate;;
  rows ← list_local_items;
  w ← export_items cancel (begin path format) rows;
  mret (finish w).
End ExportVault.

(** ** What importing an exported file gives *)
Section Reimport.
Context {W : Type} `{TR : Transport W, EXT : Ext, CEXT : CryptoExt, VEXT : VaultExt, IEXT : ImportExt, XEXT : ExportExt}.
Implicit Types (w : World W) (c : Client) (row : ExportRow).

(** A row of the file, of a row of the tables. *)
Definition exported (c : Client) (r : Uuid * Z * Z * blob) (row : ExportRow) : Prop :=
  let '(uuid, _, gen, payload) := r in
  ∃ o dek pt s, overviews (c_db c) !! uuid = Some o ∧ k_dek (c_keys c) = Some dek ∧
    decrypt dek uuid gen payload = Ok pt ∧ secret_of_json pt = Some s ∧
    row = row_of uuid (row_to_overview (uuid, o)) s.

(** What the importer makes of a row of the file: no URL, and every cell as it
    was made safe for spreadsheets. *)
Definition reimported (row : ExportRow) : RawImportItem :=
  let cell s := non_empty (sanitize_csv_cell s) in
  mkRaw None (default "" (cell (xr_title row) ≫= λ s, non_empty (str_trim s))) None
    (VObject (put_opt "totp" (cell (totp_cell row))
      (put_opt "notes" (cell (xr_notes row))
        (put_opt "password" (cell (xr_password row))
          (put_opt "username" (cell (xr_username row)) []))))).

(** The rows the client has, as [list_local_items] gives them. *)
Definition local_rows (c : Client) : list (Uuid * Z * Z * blob) :=
  (λ r, (r.1.1, ov_version r.1.2, as_u64 (ov_enc_key_gen r.1.2), r.2)) <$> joined (c_db c).

Lemma sanitize_plain ch s : ch ∉ formula_chars → sanitize_csv_cell (String ch s) = String ch s.
Proof. intros Hc. unfold sanitize_csv_cell. by rewrite decide_False. Qed.
Lemma sanitize_formula ch s : ch ∈ formula_chars → sanitize_csv_cell (String ch s) = String.append "'" (String ch s).
Proof. intros Hc. unfold sanitize_csv_cell. by rewrite decide_True. Qed.

(** The importer looks for a list of items, and the JSON export is a list. *)
Lemma json_export_not_imported l : bitwarden_value (Ok (VArray l)) = [].
Proof. done. Qed.

Lemma get_overview_ok uuid w w' o :
  client_get_overview uuid w = (w', Ok o) →
  w' = w ∧ ∃ orow, overviews (c_db (client w)) !! uuid = Some orow ∧ o = row_to_overview (uuid, orow).
Proof.
  intros Ho. apply on_db_run in Ho as (l & Hg & ->). apply bind_ok in Hg as (l1 & o' & [= <- <-] & Hg).
  apply bind_ok in Hg as (l2 & orow & Hr & [= <- <-]). apply ok_or_ok in Hr as [-> Hr].
  split; [by destruct w as [[] ?] | by exists orow].
Qed.

Lemma export_row_ok r w w' row : export_row r w = (w', Ok row) → w' = w ∧ exported (client w) r row.
Proof.
  destruct r as [[[uuid v] gen] payload]. intros Hr. unfold export_row in Hr.
  apply bind_ok in Hr as (w1 & o & Ho & Hr). apply get_overview_ok in Ho as (-> & orow & Horow & ->).
  apply bind_ok in Hr as (w2 & k & [= <- <-] & Hr). apply bind_ok in Hr as (w3 & dek & Hk & Hr).
  apply ok_or_ok in Hk as [-> Hk]. apply bind_ok in Hr as (w4 & pt & Hd & Hr).
  unfold or_msg in Hd. destruct (decrypt dek uuid gen payload) as [pt'|] eqn:Hdec; [|done]. injection Hd as <- <-.
  apply bind_ok in Hr as (w5 & s & Hs & [= <- <-]). apply ok_or_ok in Hs as [-> Hs].
  split; [done|]. by exists orow, dek, pt', s.
Qed.

Lemma export_items_ok rs wr w w' wr' :
  export_items (λ _, false) wr rs w = (w', Ok wr') → xw_format wr = Csv →
  w' = w ∧ xw_format wr' = Csv ∧ ∃ rows, Forall2 (exported (client w)) rs rows ∧
    xw_writer wr' = xw_writer wr ++ concat (write_csv_row <$> rows) ∧
    (is_u64 (xw_items_exported wr) →
     xw_items_exported wr' = as_u64 (xw_items_exported wr + Z.of_nat (length rows))).
Proof.
  revert wr. induction rs as [|r rs IH]; intros wr Hr Hf.
  - injection Hr as <- <-. split; [done|]. split; [done|]. exists []. split; [constructor|].
    split; [by rewrite app_nil_r|]. intros Hu. by rewrite Z.add_0_r, as_u64_small.
  - apply bind_ok in Hr as (w1 & row & Hrow & Hr). apply export_row_ok in Hrow as [-> Hrow].
    apply bind_ok in Hr as (w2 & wr1 & Hwr & Hr). unfold write_row in Hwr. rewrite Hf in Hwr.
    injection Hwr as <- <-. apply IH in Hr as (-> & Hf' & rows & Hrows & Hw & Hn); [|done].
    cbn [xw_writer xw_items_exported] in *. split; [done|]. split; [done|]. exists (row :: rows).
    split; [by constructor|]. split; [by rewrite Hw, <-app_assoc|]. intros Hu.
    pose proof (Z.mod_pos_bound (xw_items_exported wr + 1) (2 ^ 64) eq_refl).
    rewrite Hn by (unfold is_u64, as_u64, u64_max; lia). unfold as_u64. rewrite Zplus_mod_idemp_l.
    f_equal. cbn. lia.
Qed.

Lemma reimported_rows line rows :
  csv_iter (lowercase <$> csv_header) line (Ok <$> (csv_cells <$> rows)) =
  numbered_records (as_u32 (line + 1)) (reimported <$> rows).
Proof.
  revert line. induction rows as [|row rows IH]; intros line; [done|]. csimpl. rewrite IH. f_equal.
Qed.

(** C27. A vault exported to CSV and imported again: there is one record per local
    item, in order, with its user name, password, notes and second-factor
    secret as they were written and its title as written but without the white
    space around it; an empty field comes back as none.  As written means with
    an apostrophe before a leading [=], [+], [-], [@], tab or carriage return.
    The URLs do not come back: the importer does not know their column. *)
Theorem csv_export_reimported `{!ImportLaws} path w w' rep file :
  export_vault Csv path (λ _, false) w = (w', Ok (rep, file)) →
  w' = w ∧ ∃ rows, Forall2 (exported (client w)) (local_rows (client w)) rows ∧
    xp_items_exported rep = as_u64 (Z.of_nat (length rows)) ∧ xp_bytes_written rep = Z.of_nat (length file) ∧
    parse_stream file Import.Csv = Ok (numbered_records 2 (reimported <$> rows)).
Proof.
  intros Hr. unfold export_vault in Hr. apply bind_ok in Hr as (w1 & u & Hg & Hr).
  assert (w1 = w) as -> by (unfold export_gate, cl in Hg; by ok_inv Hg).
  apply bind_ok in Hr as (w2 & rs & Hl & Hr). unfold list_local_items in Hl. rewrite read_db_run in Hl.
  injection Hl as <- <-. apply bind_ok in Hr as (w3 & wr & He & [= <- Hrep Hfile]).
  apply export_items_ok in He as (-> & Hf & rows & Hrows & Hw & Hn); [|done].
  rewrite Hf in Hrep, Hfile. subst rep file. split; [done|]. exists rows.
  split; [exact Hrows|]. cbn [xp_items_exported xp_bytes_written begin xw_items_exported xw_writer] in *.
  split; [by rewrite Hn by (unfold is_u64, u64_max; lia)|]. split; [done|].
  cbn [parse_stream]. rewrite Hw. change (write_csv_row <$> rows) with (csv_record ∘ csv_cells <$> rows).
  rewrite (list_fmap_compose csv_cells csv_record), csv_roundtrip.
  - f_equal. apply (reimported_rows 1).
  - constructor; [done|]. apply Forall_fmap, Forall_true. done.
Qed.
End Reimport.

(** ** A concrete export *)
Section ExportWitness.
#[local] Existing Instances Concrete.toy_ext toy_crypto toy_import_vault toy_import Offline.
#[local] Instance toy_export : ExportExt := {| row_to_json _ := None |}.

(** The client that imported two logins, one with a password that starts as a
    formula does. *)
Definition sums : blob :=
  concat (csv_record <$>
    [["name"; "url"; "username"; "password"]; ["Mail"; "https://mail.example"; "ada"; "=1+1"]]).
Definition sums_client : Client :=
  with_keys (λ _, mkKeys None (Some dek_demo) None 1 false)
    (client (pipeline_file clock dek_demo "sums.csv" (Ok sums) import_demo).1).
Definition sums_world : World unit := mkWorld sums_client ().
Definition sums_file : blob :=
  match (export_vault Csv "out.csv" (λ _, false) sums_world).2 with Ok r => r.2 | Err _ => [] end.

(** The password comes back changed, and the URL does not come back. *)
Lemma csv_export_reimported_witness :
  (∃ rows, Forall2 (exported sums_client) (local_rows sums_client) rows ∧
     parse_stream sums_file Import.Csv = Ok (numbered_records 2 (reimported <$> rows))) ∧
  parse_stream sums_file Import.Csv =
    Ok [Ok (mkParse 2 (mkRaw None "Mail" None
      (VObject [("username", VString "ada"); ("password", VString "'=1+1")])))].
Proof.
  split; [|vm_compute; reflexivity].
  destruct (csv_export_reimported "out.csv" sums_world sums_world
    (mkExportReport 1 (Z.of_nat (length sums_file)) Csv "out.csv" false) sums_file) as (_ & rows & Hrows & _ & _ & Hp).
  - rewrite (surjective_pairing (export_vault Csv "out.csv" (λ _, false) sums_world)).
    apply injective_projections; vm_compute; reflexivity.
  - exists rows. split; [exact Hrows | exact Hp].
Defined.
End ExportWitness.
End Exports.
