(* ===== verification/Telemetry.v ===== *)
(** * Anonymous telemetry of a client

    Models [core/vautr-telemetry/src/]: [aggregate.rs] (histograms with their
    bounded reservoir and the percentiles computed from it in double precision,
    the counters of a 24-hour window), [consent.rs], [report.rs] and
    [controller.rs].  Time is an argument, in nanoseconds of the monotonic clock
    and seconds of the wall clock; the sender answers what the caller of [tick]
    says, and its calls are logged.  Shows that a histogram is a function of the
    observations, that merging is concatenation, that the percentiles are exact
    nearest ranks, and where every recorded measurement ends up. *)
From stdpp Require Import base gmap sorting strings.
From S2P Require Import Prelude.

Local Open Scope Z_scope.

(** ** Double precision

    A non-negative double is its significand and its exponent.  A result is
    rounded to 53 bits, ties to even; the numbers here are far from the bounds of
    the exponent. *)
Record f64 := mkF64 { significand : Z; exponent : Z }.

(** [x / 2^s] to the nearest integer. *)
Definition round_even (x s : Z) : Z :=
  let q := x / 2 ^ s in
  let r := x mod 2 ^ s in
  if decide (2 * r < 2 ^ s) then q else if decide (2 * r = 2 ^ s) then q + q mod 2 else q + 1.
Definition f64_round (x e : Z) : f64 :=
  let s := Z.max 0 (Z.log2 x + 1 - 53) in mkF64 (round_even x s) (e + s).
Definition f64_of_usize (n : Z) : f64 := f64_round n 0.
Definition f64_mul (a b : f64) : f64 :=
  f64_round (significand a * significand b) (exponent a + exponent b).
(** [f64::ceil], then [as usize]. *)
Definition ceil_usize (f : f64) : Z :=
  Z.min u64_max
    (if decide (0 ≤ exponent f) then significand f * 2 ^ exponent f
     else (significand f + 2 ^ (- exponent f) - 1) / 2 ^ (- exponent f)).

(** The literals 0.50, 0.95 and 0.99. *)
Definition f0_50 : f64 := mkF64 4503599627370496 (-53).
Definition f0_95 : f64 := mkF64 8556839292003942 (-53).
Definition f0_99 : f64 := mkF64 8917127262193582 (-53).

(** ** aggregate.rs *)

(** In nanoseconds. *)
Definition WINDOW_24H : Z := 24 * 60 * 60 * 10 ^ 9.
Definition RESERVOIR_CAP : nat := 4096.

Record HistogramPercentiles := mkPercentiles { p50 : option Z; p95 : option Z; p99 : option Z }.
Definition no_percentiles : HistogramPercentiles := mkPercentiles None None None.

Record Histogram := mkHistogram {
  h_count : Z; h_sum : Z; h_min : option Z; h_max : option Z;
  h_percentiles : HistogramPercentiles; h_reservoir : list Z }.
Definition empty_histogram : Histogram := mkHistogram 0 0 None None no_percentiles [].

Definition u64_saturating_add (x y : Z) : Z := Z.min u64_max (x + y).

Definition rank (sorted : list Z) (p : f64) : Z :=
  let n := Z.of_nat (length sorted) in
  let idx := Z.min (u64_saturating_sub (ceil_usize (f64_mul p (f64_of_usize n))) 1) (n - 1) in
  default 0 (sorted !! Z.to_nat idx).

Definition recompute_percentiles (reservoir : list Z) : HistogramPercentiles :=
  if decide (reservoir = []) then no_percentiles
  else
    let sorted := merge_sort Z.le reservoir in
    mkPercentiles (Some (rank sorted f0_50)) (Some (rank sorted f0_95)) (Some (rank sorted f0_99)).

(** [None] is below every [Some]: the match of [merge]. *)
Definition option_with (f : Z → Z → Z) (a b : option Z) : option Z :=
  match a, b with
  | Some a, Some b => Some (f a b)
  | Some a, None => Some a
  | None, o => o
  end.

Definition record (value : Z) (h : Histogram) : Histogram :=
  let kept := if decide (RESERVOIR_CAP ≤ length (h_reservoir h))%nat
              then drop 1 (h_reservoir h) else h_reservoir h in
  mkHistogram (u64_saturating_add (h_count h) 1) (u64_saturating_add (h_sum h) value)
    (Some (from_option (λ m, Z.min m value) value (h_min h)))
    (Some (from_option (λ m, Z.max m value) value (h_max h)))
    (recompute_percentiles (kept ++ [value])) (kept ++ [value]).

Definition merge (h other : Histogram) : Histogram :=
  let all := h_reservoir h ++ h_reservoir other in
  let kept := drop (length all - RESERVOIR_CAP) all in
  mkHistogram (u64_saturating_add (h_count h) (h_count other)) (u64_saturating_add (h_sum h) (h_sum other))
    (option_with Z.min (h_min h) (h_min other)) (option_with Z.max (h_max h) (h_max other))
    (recompute_percentiles kept) kept.

Definition avg (h : Histogram) : option Z :=
  if decide (h_count h = 0) then None else Some (h_sum h / h_count h).

(** *** The metrics of a window *)
Record AggregatedMetrics := mkMetrics {
  sync_duration_ms : Histogram; argon2_duration_ms : Histogram; aead_decrypt_duration_us : Histogram;
  sync_failure_counts : gmap string Z; occ_conflict_counts : gmap string Z;
  reaper_orphans_cleaned : Z; quarantine_ttl_resets : Z; sync_attempts : Z }.
Definition default_metrics : AggregatedMetrics :=
  mkMetrics empty_histogram empty_histogram empty_histogram ∅ ∅ 0 0 0.

(** [*entry(k).or_insert(0) += 1]. *)
Definition bump (k : string) (g : gmap string Z) : gmap string Z := <[k := as_u64 (default 0 (g !! k) + 1)]> g.
Definition record_sync_failure (e : string) (a : AggregatedMetrics) : AggregatedMetrics :=
  mkMetrics (sync_duration_ms a) (argon2_duration_ms a) (aead_decrypt_duration_us a)
    (bump e (sync_failure_counts a)) (occ_conflict_counts a)
    (reaper_orphans_cleaned a) (quarantine_ttl_resets a) (sync_attempts a).
Definition record_occ_conflict (e : string) (a : AggregatedMetrics) : AggregatedMetrics :=
  mkMetrics (sync_duration_ms a) (argon2_duration_ms a) (aead_decrypt_duration_us a)
    (sync_failure_counts a) (bump e (occ_conflict_counts a))
    (reaper_orphans_cleaned a) (quarantine_ttl_resets a) (sync_attempts a).

(** The recording methods of [DailyAggregator], which the controller passes on. *)
Inductive Measure :=
| SyncAttempt | SyncDurationMs (ms : Z) | Argon2DurationMs (ms : Z) | AeadDecryptDurationUs (us : Z)
| SyncFailure (error_type : string) | OccConflict (error_type : string)
| ReaperOrphanCleaned | QuarantineTtlReset.

Definition record_measure (m : Measure) (a : AggregatedMetrics) : AggregatedMetrics :=
  let '(mkMetrics sd ar ae sf oc ro qt sa) := a in
  match m with
  | SyncAttempt => mkMetrics sd ar ae sf oc ro qt (u64_saturating_add sa 1)
  | SyncDurationMs ms => mkMetrics (record ms sd) ar ae sf oc ro qt sa
  | Argon2DurationMs ms => mkMetrics sd (record ms ar) ae sf oc ro qt sa
  | AeadDecryptDurationUs us => mkMetrics sd ar (record us ae) sf oc ro qt sa
  | SyncFailure e => record_sync_failure e a
  | OccConflict e => record_occ_conflict e a
  | ReaperOrphanCleaned => mkMetrics sd ar ae sf oc (u64_saturating_add ro 1) qt sa
  | QuarantineTtlReset => mkMetrics sd ar ae sf oc ro (u64_saturating_add qt 1) sa
  end.

Record DailyAggregator := mkAggregator {
  current : AggregatedMetrics; window_started_at : Z; window_duration : Z }.
Definition with_window_duration (duration now : Z) : DailyAggregator := mkAggregator default_metrics now duration.
(** [Instant::elapsed] saturates. *)
Definition elapsed (now since : Z) : Z := Z.max 0 (now - since).
Definition window_elapsed (now : Z) (g : DailyAggregator) : bool :=
  bool_decide (window_duration g ≤ elapsed now (window_started_at g)).
Definition window_remaining (now : Z) (g : DailyAggregator) : Z :=
  u64_saturating_sub (window_duration g) (elapsed now (window_started_at g)).
Definition roll_window (now : Z) (g : DailyAggregator) : DailyAggregator * option AggregatedMetrics :=
  if negb (window_elapsed now g) then (g, None)
  else (mkAggregator default_metrics now (window_duration g), Some (current g)).

(** ** consent.rs, report.rs and sender.rs *)
Inductive Consent := Denied | Granted.
#[export] Instance consent_eq_dec : EqDecision Consent.
Proof. solve_decision. Defined.
Definition enabled (c : Consent) : bool := bool_decide (c = Granted).

Record WindowMeta := mkWindow { window_start_unix_secs : Z; window_end_unix_secs : Z }.
Record HeartbeatReport := mkReport {
  r_installation_uuid : string; r_os_version : string; r_app_version : string;
  r_window : WindowMeta; r_metrics : AggregatedMetrics }.
Definition build (installation_uuid os_version app_version : string) (window_duration_secs now : Z)
    (metrics : AggregatedMetrics) : HeartbeatReport :=
  mkReport installation_uuid os_version app_version
    (mkWindow (u64_saturating_sub now window_duration_secs) now) metrics.

Inductive SendError := HttpStatus (status : Z) | Transport (what : string).

(** ** controller.rs *)

(** [sends] is the sender's side: what it was handed, and what it answered. *)
Record Inner := mkInner {
  aggregator : DailyAggregator; consent : Consent; installation_uuid : string; has_sender : bool;
  os_version : string; app_version : string; pending : option AggregatedMetrics;
  sends : list (HeartbeatReport * result SendError ()) }.
Definition new_controller (uuid : string) (sender : bool) (os app : string) (duration now : Z) : Inner :=
  mkInner (with_window_duration duration now) Denied uuid sender os app None [].

Definition with_aggregator (g : DailyAggregator) (i : Inner) : Inner :=
  mkInner g (consent i) (installation_uuid i) (has_sender i) (os_version i) (app_version i) (pending i) (sends i).
Definition with_consent (c : Consent) (i : Inner) : Inner :=
  mkInner (aggregator i) c (installation_uuid i) (has_sender i) (os_version i) (app_version i) (pending i) (sends i).
Definition with_pending (p : option AggregatedMetrics) (i : Inner) : Inner :=
  mkInner (aggregator i) (consent i) (installation_uuid i) (has_sender i) (os_version i) (app_version i) p (sends i).
Definition with_send (s : HeartbeatReport * result SendError ()) (i : Inner) : Inner :=
  mkInner (aggregator i) (consent i) (installation_uuid i) (has_sender i) (os_version i) (app_version i)
    (pending i) (sends i ++ [s]).

Abbreviation controller := (M Inner SendError).

Definition grant_consent : controller () := modify (with_consent Granted).
Definition revoke_consent : controller () := modify (with_pending None);; modify (with_consent Denied).
Definition record_gated (m : Measure) : controller () :=
  c ← gets consent;
  if enabled c
  then modify (λ i, let g := aggregator i in
         with_aggregator (mkAggregator (record_measure m (current g)) (window_started_at g) (window_duration g)) i)
  else mret ().

Definition roll (now : Z) : controller (option AggregatedMetrics) :=
  r ← gets (λ i, roll_window now (aggregator i));
  modify (with_aggregator r.1);;
  mret r.2.

Definition tick (now now_unix : Z) (answer : result SendError ()) : controller bool :=
  consent_enabled ← gets (enabled ∘ consent);
  sender ← gets has_sender;
  if negb consent_enabled || negb sender then mret false
  else
    taken ← gets pending;
    modify (with_pending None);;
    due ← (if taken is Some m then mret (Some m) else roll now);
    match due with
    | None => mret false
    | Some metrics =>
        modify (λ i, with_send (build (installation_uuid i) (os_version i) (app_version i)
                                  (WINDOW_24H / 10 ^ 9) now_unix metrics, answer) i);;
        match answer with
        | Ok _ => mret true
        | Err e => modify (with_pending (Some metrics));; throw e
        end
    end.

(** What an installation sees. *)
Inductive Event :=
| Grant | Revoke | Measured (m : Measure) | Ticked (now now_unix : Z) (answer : result SendError ()).
Definition happens (i : Inner) (e : Event) : Inner :=
  match e with
  | Grant => (grant_consent i).1
  | Revoke => (revoke_consent i).1
  | Measured m => (record_gated m i).1
  | Ticked now now_unix answer => (tick now now_unix answer i).1
  end.
Definition happen (l : list Event) (i : Inner) : Inner := foldl happens i l.

(** ** What a histogram says of its observations *)

Definition lastn {A} (n : nat) (l : list A) : list A := drop (length l - n) l.
Definition sum_of (l : list Z) : Z := foldr Z.add 0 l.
Definition least (l : list Z) : option Z := foldr (λ x, option_with Z.min (Some x)) None l.
Definition greatest (l : list Z) : option Z := foldr (λ x, option_with Z.max (Some x)) None l.

(** The smallest observation that at least [q] percent do not exceed. *)
Definition nearest_rank (q : Z) (l : list Z) : option Z :=
  merge_sort Z.le l !! Z.to_nat ((q * Z.of_nat (length l) + 99) / 100 - 1).

Definition summary (l : list Z) : Histogram :=
  let w := lastn RESERVOIR_CAP l in
  mkHistogram (Z.min u64_max (Z.of_nat (length l))) (Z.min u64_max (sum_of l)) (least l) (greatest l)
    (mkPercentiles (nearest_rank 50 w) (nearest_rank 95 w) (nearest_rank 99 w)) w.

Section Rounding.

Lemma round_even_bounds x s : 0 ≤ s → let y := round_even x s * 2 ^ s in
  2 * y ≤ 2 * x + 2 ^ s ∧ 2 * x - 2 ^ s ≤ 2 * y.
Proof.
  intros Hs. cbn zeta. unfold round_even. pose proof (Z.pow_pos_nonneg 2 s ltac:(lia) Hs) as Hp.
  pose proof (Z.div_mod x (2 ^ s) ltac:(lia)) as Hx.
  pose proof (Z.mod_pos_bound x (2 ^ s) ltac:(lia)) as Hr.
  pose proof (Z.mod_pos_bound (x / 2 ^ s) 2 ltac:(lia)) as Hb.
  destruct (decide _) as [?|?]; [nia|]. destruct (decide _) as [?|?]; [|nia].
  assert ((x / 2 ^ s) mod 2 = 0 ∨ (x / 2 ^ s) mod 2 = 1) as [-> | ->] by lia; nia.
Qed.

(** Rounding does not pass an integer. *)
Lemma round_even_below x s k : 0 ≤ s → x ≤ k * 2 ^ s → round_even x s ≤ k.
Proof.
  intros Hs Hx. unfold round_even. pose proof (Z.pow_pos_nonneg 2 s ltac:(lia) Hs) as Hp.
  pose proof (Z.div_mod x (2 ^ s) ltac:(lia)) as He.
  pose proof (Z.mod_pos_bound x (2 ^ s) ltac:(lia)) as Hr.
  assert (x / 2 ^ s ≤ k) as Hle by nia.
  destruct (decide _) as [?|?]; [done|].
  assert (x / 2 ^ s < k) as Hlt by (destruct (decide (x / 2 ^ s = k)) as [Heq|]; [rewrite Heq in He; nia | lia]).
  pose proof (Z.mod_pos_bound (x / 2 ^ s) 2 ltac:(lia)). destruct (decide _); lia.
Qed.

Lemma f64_of_usize_small n : 0 ≤ n < 2 ^ 53 → f64_of_usize n = mkF64 n 0.
Proof.
  intros Hn. unfold f64_of_usize, f64_round. replace (Z.max 0 (Z.log2 n + 1 - 53)) with 0.
  - unfold round_even. rewrite Z.pow_0_r, Z.mod_1_r, Z.div_1_r. by rewrite decide_True by lia.
  - destruct (decide (n = 0)) as [->|]; [done|]. assert (Z.log2 n < 53) by (apply Z.log2_lt_pow2; lia). lia.
Qed.

(** The product with a literal next below [q / 100] rounds up to the exact
    ceiling, for as many samples as a reservoir holds. *)
Lemma ceil_of_product p q n :
  exponent p = -53 → 0 < significand p < 2 ^ 53 →
  0 ≤ q * 2 ^ 53 - 100 * significand p ≤ 50 → 0 < q ≤ 100 → 0 < n ≤ Z.of_nat RESERVOIR_CAP →
  ceil_usize (f64_mul p (f64_of_usize n)) = (q * n + 99) / 100.
Proof.
  change (Z.of_nat RESERVOIR_CAP) with 4096. intros He Hm Hq Hq100 Hn.
  rewrite f64_of_usize_small by lia. unfold f64_mul, f64_round, ceil_usize. cbn [significand exponent].
  set (x := significand p * n). set (s := Z.max 0 (Z.log2 x + 1 - 53)).
  assert (0 ≤ s ≤ 12) as Hs.
  { assert (x < 2 ^ 65) as Hx by (change (2 ^ 65) with (2 ^ 53 * 4096); unfold x; nia).
    assert (Z.log2 x < 65) by (apply Z.log2_lt_pow2; [unfold x; nia | done]). lia. }
  rewrite decide_False by lia. rewrite He. replace (- (-53 + 0 + s)) with (53 - s) by lia.
  assert (2 ^ 53 = 2 ^ (53 - s) * 2 ^ s) as HP by (rewrite <-Z.pow_add_r by lia; f_equal; lia).
  assert (2 ^ s ≤ 2 ^ 12) as H12 by (apply Z.pow_le_mono_r; lia).
  pose proof (Z.pow_pos_nonneg 2 s ltac:(lia) ltac:(lia)) as Hp1.
  pose proof (Z.pow_pos_nonneg 2 (53 - s) ltac:(lia) ltac:(lia)) as Hp2.
  set (I := (q * n + 99) / 100). pose proof (Z.div_mod (q * n + 99) 100 ltac:(lia)) as HI.
  pose proof (Z.mod_pos_bound (q * n + 99) 100 ltac:(lia)) as HI2. fold I in HI.
  assert (round_even x s ≤ I * 2 ^ (53 - s)) as Hup.
  { apply round_even_below; [lia|]. unfold x. nia. }
  assert ((I - 1) * 2 ^ (53 - s) < round_even x s) as Hlow.
  { pose proof (round_even_bounds x s ltac:(lia)) as [_ Hb]. cbn zeta in Hb.
    assert ((100 * (I - 1) + 1) * 2 ^ 53 - 50 * n ≤ 100 * x) by (unfold x; nia).
    change (2 ^ 12) with 4096 in H12. apply (Z.mul_lt_mono_pos_r (2 ^ s)); [lia|].
    rewrite <-Z.mul_assoc, <-HP. lia. }
  assert (1 ≤ I ≤ 4096) as HI3 by nia.
  rewrite Z.min_r.
  - symmetry. apply (Z.div_unique _ _ _ (round_even x s + 2 ^ (53 - s) - 1 - 2 ^ (53 - s) * I)); nia.
  - unfold u64_max. apply Z.div_le_upper_bound; [lia|]. nia.
Qed.
End Rounding.

Section Histograms.

Lemma sat_add_l a b : 0 ≤ b → u64_saturating_add (Z.min u64_max a) b = Z.min u64_max (a + b).
Proof. unfold u64_saturating_add. lia. Qed.
Lemma sat_add_r a b : 0 ≤ a → u64_saturating_add a (Z.min u64_max b) = Z.min u64_max (a + b).
Proof. unfold u64_saturating_add. lia. Qed.

Lemma sum_of_app l k : sum_of (l ++ k) = sum_of l + sum_of k.
Proof. unfold sum_of. induction l as [|x l IH]; cbn; lia. Qed.
Lemma sum_of_nonneg l : Forall (λ x, 0 ≤ x) l → 0 ≤ sum_of l.
Proof. induction 1; cbn; unfold sum_of in *; lia. Qed.

Lemma option_with_assoc f (Hf : ∀ x y z : Z, f x (f y z) = f (f x y) z) a b c :
  option_with f a (option_with f b c) = option_with f (option_with f a b) c.
Proof. destruct a, b, c; cbn; by rewrite ?Hf. Qed.

Lemma folded_app f (Hf : ∀ x y z : Z, f x (f y z) = f (f x y) z) l k :
  foldr (λ x, option_with f (Some x)) None (l ++ k) =
  option_with f (foldr (λ x, option_with f (Some x)) None l) (foldr (λ x, option_with f (Some x)) None k).
Proof. induction l as [|x l IH]; [done|]. cbn [foldr app]. by rewrite IH, option_with_assoc. Qed.

Lemma least_app l k : least (l ++ k) = option_with Z.min (least l) (least k).
Proof. apply folded_app. intros. lia. Qed.
Lemma greatest_app l k : greatest (l ++ k) = option_with Z.max (greatest l) (greatest k).
Proof. apply folded_app. intros. lia. Qed.

Lemma length_lastn {A} n (l : list A) : length (lastn n l) = Nat.min n (length l).
Proof. unfold lastn. rewrite length_drop. lia. Qed.
Lemma lastn_app {A} n (l k : list A) : lastn n (lastn n l ++ lastn n k) = lastn n (l ++ k).
Proof.
  assert (∀ i j (m : list A), i = j ∨ (length m ≤ i ∧ length m ≤ j)%nat → drop i m = drop j m) as Hd.
  { intros i j m [->|[Hi Hj]]; [done | by rewrite !drop_ge]. }
  unfold lastn. rewrite !drop_app, !length_app, !length_drop, !drop_drop. f_equal; apply Hd; lia.
Qed.

Lemma keep_last {A} n (w : list A) x : (0 < n)%nat → (length w ≤ n)%nat →
  (if decide (n ≤ length w)%nat then drop 1 w else w) ++ [x] = lastn n (w ++ [x]).
Proof.
  intros Hn Hw. unfold lastn. rewrite length_app. cbn [length]. destruct (decide _).
  - rewrite drop_app_le by lia. do 2 f_equal. lia.
  - by replace (_ - n)%nat with 0%nat by lia.
Qed.

(** The percentiles the code computes are the exact ones. *)
Lemma rank_exact p q w :
  exponent p = -53 → 0 < significand p < 2 ^ 53 →
  0 ≤ q * 2 ^ 53 - 100 * significand p ≤ 50 → 0 < q ≤ 100 →
  w ≠ [] → (length w ≤ RESERVOIR_CAP)%nat →
  Some (rank (merge_sort Z.le w) p) = nearest_rank q w.
Proof.
  intros He Hm Hq Hq100 Hw Hl. unfold rank, nearest_rank.
  assert (length (merge_sort Z.le w) = length w) as Hlen by (by rewrite merge_sort_Permutation).
  assert (0 < length w)%nat as Hpos by (destruct w; [done | cbn; lia]).
  rewrite Hlen, (ceil_of_product p q) by lia.
  set (n := Z.of_nat (length w)). set (I := (q * n + 99) / 100).
  pose proof (Z.div_mod (q * n + 99) 100 ltac:(lia)) as HI. fold I in HI.
  pose proof (Z.mod_pos_bound (q * n + 99) 100 ltac:(lia)) as HI2.
  assert (1 ≤ I ≤ n) as HIn by nia.
  unfold u64_saturating_sub. rewrite Z.max_r, Z.min_l by lia.
  destruct (lookup_lt_is_Some_2 (merge_sort Z.le w) (Z.to_nat (I - 1))) as [x Hx]; [lia|].
  by rewrite Hx.
Qed.

Lemma percentiles_exact w : (length w ≤ RESERVOIR_CAP)%nat →
  recompute_percentiles w = mkPercentiles (nearest_rank 50 w) (nearest_rank 95 w) (nearest_rank 99 w).
Proof.
  intros Hl. unfold recompute_percentiles. destruct (decide (w = [])) as [->|Hw]; [done|].
  rewrite (rank_exact f0_50 50), (rank_exact f0_95 95), (rank_exact f0_99 99); cbn; lia || done.
Qed.

Lemma record_summary x l : 0 ≤ x → record x (summary l) = summary (l ++ [x]).
Proof.
  intros Hx. unfold record, summary. cbn [h_count h_sum h_min h_max h_reservoir].
  assert ((if decide (RESERVOIR_CAP ≤ length (lastn RESERVOIR_CAP l))%nat
           then drop 1 (lastn RESERVOIR_CAP l) else lastn RESERVOIR_CAP l) ++ [x] =
          lastn RESERVOIR_CAP (l ++ [x])) as Hk.
  { rewrite <-lastn_app. apply keep_last; [unfold RESERVOIR_CAP | rewrite length_lastn]; lia. }
  rewrite Hk. rewrite percentiles_exact by (rewrite length_lastn; lia).
  rewrite !sat_add_l, sum_of_app, least_app, greatest_app, length_app by lia. f_equal.
  - f_equal. cbn. lia.
  - cbn. f_equal. lia.
  - by destruct (least l).
  - by destruct (greatest l).
Qed.

Lemma merge_summary l k : Forall (λ x, 0 ≤ x) l → Forall (λ x, 0 ≤ x) k →
  merge (summary l) (summary k) = summary (l ++ k).
Proof.
  intros Hl%sum_of_nonneg Hk%sum_of_nonneg. unfold merge, summary.
  cbn [h_count h_sum h_min h_max h_reservoir].
  change (drop (length (lastn RESERVOIR_CAP l ++ lastn RESERVOIR_CAP k) - RESERVOIR_CAP)
    (lastn RESERVOIR_CAP l ++ lastn RESERVOIR_CAP k)) with
    (lastn RESERVOIR_CAP (lastn RESERVOIR_CAP l ++ lastn RESERVOIR_CAP k)).
  rewrite lastn_app, percentiles_exact by (rewrite length_lastn; lia).
  rewrite sum_of_app, least_app, greatest_app, length_app.
  f_equal; unfold u64_saturating_add; unfold u64_max; lia.
Qed.

Lemma recorded_summary l : Forall (λ x, 0 ≤ x) l → foldl (λ h x, record x h) empty_histogram l = summary l.
Proof.
  change empty_histogram with (summary []). change l with ([] ++ l) at 3. generalize (@nil Z) as done.
  induction l as [|x l IH]; intros don Hl; [by rewrite app_nil_r|]. inversion_clear Hl. cbn.
  rewrite record_summary, IH by done. by rewrite <-app_assoc.
Qed.
End Histograms.

(** ** Where measurements go *)
Section Ledger.

Definition metrics_of (l : list Measure) : AggregatedMetrics := foldl (λ a m, record_measure m a) default_metrics l.

(** The measurements made under consent. *)
Fixpoint recorded (c : Consent) (l : list Event) : list Measure :=
  match l with
  | [] => []
  | Grant :: l => recorded Granted l
  | Revoke :: l => recorded Denied l
  | Measured m :: l => (if enabled c then [m] else []) ++ recorded c l
  | Ticked _ _ _ :: l => recorded c l
  end.
Fixpoint revocations (l : list Event) : nat :=
  match l with [] => 0 | Revoke :: l => S (revocations l) | _ :: l => revocations l end.

(** The reports a sender accepted. *)
Definition delivered (i : Inner) : list HeartbeatReport :=
  omap (λ s, match s.2 with Ok _ => Some s.1 | Err _ => None end) (sends i).

(** The windows of a life in order, each with whether its report was accepted. *)
Definition accepted (wins : list (bool * list Measure)) : list (list Measure) :=
  omap (λ w, if w.1 : bool then Some w.2 else None) wins.
Definition discarded (wins : list (bool * list Measure)) : list (list Measure) :=
  omap (λ w, if w.1 : bool then None else Some w.2) wins.

(** [made], in order, is cut into windows whose report was accepted or that were
    dropped, the window that waits for a retry and the current one; the ones
    dropped are [dropped]. *)
Definition accounted (made : list Measure) (dropped : list AggregatedMetrics) (i : Inner) : Prop :=
  ∃ wins pend cur,
    made = concat wins.*2 ++ default [] pend ++ cur ∧
    r_metrics <$> delivered i = metrics_of <$> accepted wins ∧ dropped = metrics_of <$> discarded wins ∧
    pending i = metrics_of <$> pend ∧ current (aggregator i) = metrics_of cur.

Lemma metrics_of_snoc l m : metrics_of (l ++ [m]) = record_measure m (metrics_of l).
Proof. unfold metrics_of. by rewrite foldl_app. Qed.

Lemma delivered_send r a i :
  delivered (with_send (r, a) i) = delivered i ++ (if a is Ok _ then [r] else []).
Proof. unfold delivered. cbn. rewrite omap_app. by destruct a. Qed.

Lemma delivered_failed r e p i : delivered (with_pending p (with_send (r, Err e) i)) = delivered i.
Proof. unfold delivered. cbn. by rewrite omap_app, app_nil_r. Qed.

(** What [tick] does when something is due. *)
Lemma tick_sends i now unix a m due :
  consent i = Granted → has_sender i = true →
  (pending i = Some m ∧ due = i ∨
   pending i = None ∧ ∃ g, roll_window now (aggregator i) = (g, Some m) ∧ due = with_aggregator g i) →
  let r := build (installation_uuid i) (os_version i) (app_version i) 86400 unix m in
  tick now unix a i =
    match a with
    | Ok _ => (with_send (r, a) (with_pending None due), Ok true)
    | Err e => (with_pending (Some m) (with_send (r, a) (with_pending None due)), Err e)
    end.
Proof.
  destruct i as [g c u h o v p l]. cbn. intros -> -> Hdue. unfold tick, roll. run_step.
  destruct Hdue as [[-> ->]|(-> & g' & Hg & ->)].
  - run_step. by destruct a.
  - run_step. rewrite Hg. cbn. run_step. by destruct a.
Qed.

Lemma tick_idle i now unix a g :
  pending i = None → roll_window now (aggregator i) = (g, None) → tick now unix a i = (i, Ok false).
Proof.
  intros Hp Hr. assert (g = aggregator i) as -> by (revert Hr; unfold roll_window; by destruct (negb _); intros [= <-]).
  destruct i as [g' c u h o v p l]. cbn in *. subst p. unfold tick, roll. run_step. cbn.
  destruct (enabled c), h; cbn; run_step; [|done..]. rewrite Hr. cbn. by run_step.
Qed.

Lemma accounted_measure made n i m : accounted made n i →
  accounted (made ++ if enabled (consent i) then [m] else []) n (record_gated m i).1.
Proof.
  intros (wins & pend & cur & Hm & Hd & Hl & Hp & Hc). unfold record_gated. run_step.
  destruct (enabled (consent i)); [|rewrite app_nil_r; by exists wins, pend, cur].
  exists wins, pend, (cur ++ [m]). split_and!; [|done..|].
  - rewrite Hm. by rewrite <-!app_assoc.
  - rewrite modify_run. cbn. by rewrite Hc, metrics_of_snoc.
Qed.

(** A revocation drops what waits for a retry. *)
Lemma accounted_revoke made n i :
  accounted made n i → accounted made (n ++ option_list (pending i)) (revoke_consent i).1.
Proof.
  intros (wins & pend & cur & Hm & Hd & Hl & Hp & Hc).
  exists (wins ++ if pend is Some w then [(false, w)] else []), None, cur.
  unfold accepted, discarded in *. rewrite Hm, Hp, Hl, fmap_app, concat_app, !omap_app, fmap_app.
  destruct pend; cbn; rewrite ?fmap_app, ?app_nil_r, <-?app_assoc; by split_and!.
Qed.

Lemma accounted_tick made n i now unix a : accounted made n i → accounted made n (tick now unix a i).1.
Proof.
  intros (wins & pend & cur & Hm & Hd & Hl & Hp & Hc).
  destruct (decide (consent i = Granted ∧ has_sender i = true)) as [[Hg Hs]|Hno].
  2: { assert (tick now unix a i = (i, Ok false)) as ->; [|by exists wins, pend, cur].
       unfold tick, enabled. run_step. cbn. destruct (consent i), (has_sender i); done || by destruct Hno. }
  assert (∀ w, metrics_of <$> accepted (wins ++ [(true, w)]) = (metrics_of <$> accepted wins) ++ [metrics_of w])
    as Hacc by (intros w; unfold accepted; by rewrite omap_app, fmap_app).
  assert (∀ w, discarded (wins ++ [(true, w)]) = discarded wins) as Hdis
    by (intros w; unfold discarded; rewrite omap_app; apply app_nil_r).
  assert (∀ w, concat (wins ++ [(true, w)]).*2 = concat wins.*2 ++ w) as Hcat
    by (intros w; rewrite fmap_app, concat_app; cbn; by rewrite app_nil_r).
  destruct pend as [w|].
  - rewrite (tick_sends i now unix a (metrics_of w) i) by (auto || by left).
    destruct a as [[]|e].
    + exists (wins ++ [(true, w)]), None, cur. cbn [fst].
      rewrite delivered_send, Hacc, Hdis, Hcat, fmap_app, <-app_assoc. by rewrite <-Hd.
    + exists wins, (Some w), cur. cbn [fst]. by rewrite delivered_failed.
  - destruct (roll_window now (aggregator i)) as [g [m|]] eqn:Hr.
    + assert (m = metrics_of cur ∧ current g = default_metrics) as [-> Hg0].
      { revert Hr. unfold roll_window. destruct (negb _); [done|]. intros [= <- <-]. by rewrite Hc. }
      rewrite (tick_sends i now unix a (metrics_of cur) (with_aggregator g i)) by (auto || right; eauto).
      destruct a as [[]|e].
      * exists (wins ++ [(true, cur)]), None, []. cbn [fst].
        rewrite delivered_send, Hacc, Hdis, Hcat, fmap_app. cbn [default]. rewrite app_nil_r. by rewrite <-Hd.
      * exists wins, (Some cur), []. cbn [fst]. rewrite delivered_failed, app_nil_r. done.
    + rewrite (tick_idle i now unix a g); [by exists wins, None, cur | done..].
Qed.

Lemma consent_tick now unix a : steps (same consent) (tick now unix a).
Proof. unfold tick, roll. steps_tac; by apply steps_modify. Qed.

Lemma recorded_cons i e l :
  recorded (consent i) (e :: l) = recorded (consent i) [e] ++ recorded (consent (happens i e)) l.
Proof.
  destruct e as [| |m|now unix a]; [done..| |].
  - cbn. rewrite app_nil_r. f_equal. unfold record_gated. run_step. by destruct (enabled (consent i)).
  - cbn. by rewrite consent_tick.
Qed.

(** The windows that were waiting for a retry when consent was revoked. *)
Fixpoint dropped (i : Inner) (l : list Event) : list AggregatedMetrics :=
  match l with
  | [] => []
  | e :: l => (if e is Revoke then option_list (pending i) else []) ++ dropped (happens i e) l
  end.

Lemma dropped_revocations l i : (length (dropped i l) ≤ revocations l)%nat.
Proof.
  revert i. induction l as [|e l IH]; intros i; [done|]. specialize (IH (happens i e)).
  destruct e; cbn [dropped revocations app length] in *; try done.
  rewrite length_app.
  assert (length (option_list (pending i)) ≤ 1)%nat by (unfold option_list; by destruct (pending i) as [?|]; simpl; lia).
  lia.
Qed.

Lemma accounted_event made n i e :
  accounted made n i → accounted (made ++ recorded (consent i) [e]) (n ++ dropped i [e]) (happens i e).
Proof.
  intros Hi. destruct e as [| |m|now unix a]; cbn -[tick record_gated revoke_consent];
    rewrite ?app_nil_r.
  - done.
  - by apply accounted_revoke.
  - by apply accounted_measure.
  - by apply accounted_tick.
Qed.

Lemma dropped_cons i e l : dropped i (e :: l) = dropped i [e] ++ dropped (happens i e) l.
Proof. cbn. by rewrite app_nil_r. Qed.

Lemma accounted_happen l i made n :
  accounted made n i → accounted (made ++ recorded (consent i) l) (n ++ dropped i l) (happen l i).
Proof.
  revert i made n. induction l as [|e l IH]; intros i made n Hi; [by rewrite !app_nil_r|].
  rewrite recorded_cons, dropped_cons, !app_assoc. by apply IH, accounted_event.
Qed.

(** The answers of the sender at the ticks under consent. *)
Fixpoint asked (c : Consent) (l : list Event) : list (result SendError ()) :=
  match l with
  | [] => []
  | Grant :: l => asked Granted l
  | Revoke :: l => asked Denied l
  | Measured _ :: l => asked c l
  | Ticked _ _ a :: l => (if enabled c then [a] else []) ++ asked c l
  end.

Lemma asked_cons i e l :
  asked (consent i) (e :: l) = asked (consent i) [e] ++ asked (consent (happens i e)) l.
Proof.
  destruct e as [| |m|now unix a]; [done..| |].
  - cbn. unfold record_gated. run_step. by destruct (enabled (consent i)).
  - cbn. by rewrite app_nil_r, consent_tick.
Qed.

Lemma sends_event i e : ∃ k, sends (happens i e) = sends i ++ k ∧ k.*2 `sublist_of` asked (consent i) [e].
Proof.
  destruct e as [| |m|now unix a]; [by exists []; rewrite app_nil_r..| |].
  - exists []. rewrite app_nil_r. cbn. unfold record_gated. run_step. by destruct (enabled (consent i)).
  - cbn -[tick]. rewrite app_nil_r. unfold tick, roll. run_step. cbn.
    destruct (enabled (consent i)) eqn:Hc; [|by exists []; rewrite app_nil_r].
    destruct (has_sender i); [|exists []; rewrite app_nil_r; split; [done | apply sublist_nil_l]]. cbn. run_step.
    destruct (pending i) as [m|]; run_step.
    + destruct a; (eexists [_]; split; [reflexivity | done]).
    + destruct (roll_window now (aggregator i)) as [g [m|]]; cbn; run_step.
      * destruct a; (eexists [_]; split; [reflexivity | done]).
      * exists []. cbn. rewrite app_nil_r. split; [done | apply sublist_nil_l].
Qed.

Lemma sends_happen l i :
  ∃ k, sends (happen l i) = sends i ++ k ∧ k.*2 `sublist_of` asked (consent i) l.
Proof.
  revert i. induction l as [|e l IH]; intros i; [by exists []; rewrite app_nil_r|].
  destruct (sends_event i e) as (k1 & H1 & S1). destruct (IH (happens i e)) as (k2 & H2 & S2).
  exists (k1 ++ k2). cbn [happen foldl]. fold (happen l (happens i e)).
  rewrite H2, H1, <-app_assoc. split; [done|]. rewrite asked_cons, fmap_app. by apply sublist_app.
Qed.
End Ledger.

Definition observed (l : list Z) : Histogram := foldl (λ h x, record x h) empty_histogram l.

(** C36. A histogram is exactly what it claims to be of its observations: the
    count and the sum (saturating), the least and the greatest, and the
    nearest-rank percentiles of the last 4096 (the double precision in which the
    code computes ranks never picks a neighbour); and merging the histograms of
    two windows gives the histogram of both windows' observations. *)
Theorem histograms_exact l k : Forall is_u64 l → Forall is_u64 k →
  observed l = summary l ∧ merge (observed l) (observed k) = observed (l ++ k).
Proof.
  intros Hl Hk.
  assert (∀ m, Forall is_u64 m → Forall (λ x, 0 ≤ x) m) as Hpos.
  { intros m Hm. eapply Forall_impl; [exact Hm|]. intros x [Hx _]. exact Hx. }
  unfold observed. rewrite !recorded_summary by (rewrite ?Forall_app; auto). split; [done|]. apply merge_summary; auto.
Qed.

Lemma histograms_exact_witness :
  observed [50; 400; 200] = summary [50; 400; 200] ∧
  merge (observed [50; 400; 200]) (observed [75]) = observed [50; 400; 200; 75].
Proof. apply (histograms_exact [50; 400; 200] [75]); repeat constructor; unfold is_u64, u64_max; lia. Defined.

(** C35. Where the measurements of an installation end up, whatever the sequence
    of consents, revocations, measurements and ticks, and whatever the sender
    answers: the measurements made under consent, and no others, are, in the
    order they were made, the windows of the accepted reports and those
    dropped, then the window that waits for a retry and the current one.  The
    windows dropped are those that waited for a retry when consent was
    revoked, one per revocation at most; and the sender is called at most once
    per tick under consent. *)
Theorem telemetry_ledger uuid sender os app duration now l :
  let i0 := new_controller uuid sender os app duration now in
  let i := happen l i0 in
  accounted (recorded Denied l) (dropped i0 l) i ∧ (length (dropped i0 l) ≤ revocations l)%nat ∧
  (sends i).*2 `sublist_of` asked Denied l.
Proof.
  intros i0 i. split_and!; [|apply dropped_revocations|].
  - apply (accounted_happen l i0 [] []). by exists [], None, [].
  - destruct (sends_happen l i0) as (k & Hk & Hs). unfold i. rewrite Hk. exact Hs.
Qed.

(** A revocation drops the window that waits for a retry, not the current one:
    what was measured before it is sent when consent is granted again. *)
Lemma revoked_measurements_sent uuid os app duration now now' unix m :
  duration ≤ elapsed now' now →
  let i := happen [Grant; Measured m; Revoke; Grant; Ticked now' unix (Ok ())]
             (new_controller uuid true os app duration now) in
  r_metrics <$> delivered i = [metrics_of [m]].
Proof.
  intros Hd. unfold happen. cbn -[tick]. unfold tick, roll. run_step. unfold roll_window, window_elapsed. cbn.
  rewrite bool_decide_true by done. cbn. by run_step.
Qed.
