(* ===== verification/Monitoring.v ===== *)
(** * Health, metrics and server-down alerts

    Models [core/vautr-telemetry/src/monitoring.rs] and, of
    [core/vautr-server/src/handlers/], [health.rs].  The metrics registry and the
    alert coordinator of the process are one state; the two clocks and the
    database's answer to a probe are arguments, and a webhook is the list of the
    events it was handed.  Shows when alerts fire, and what the counters count. *)
From stdpp Require Import base sorting strings.
From S2P Require Import Prelude.

Local Open Scope Z_scope.

(** ** monitoring.rs: the counters *)

(** [AtomicU64::fetch_add]. *)
Definition fetch_add (x : Z) : Z := as_u64 (x + 1).

Record ServerMetrics := mkServerMetrics {
  sm_started_at : Z; sm_total : Z; sm_ok : Z; sm_client_errors : Z; sm_server_errors : Z;
  sm_error_count : Z; sm_db_failures : Z }.
Definition new_metrics (now : Z) : ServerMetrics := mkServerMetrics now 0 0 0 0 0 0.
Definition uptime_secs (now : Z) (m : ServerMetrics) : Z := Z.max 0 (now - sm_started_at m) / 10 ^ 9.

Definition record_ok (m : ServerMetrics) : ServerMetrics :=
  mkServerMetrics (sm_started_at m) (fetch_add (sm_total m)) (fetch_add (sm_ok m)) (sm_client_errors m)
    (sm_server_errors m) (sm_error_count m) (sm_db_failures m).
Definition record_client_error (m : ServerMetrics) : ServerMetrics :=
  mkServerMetrics (sm_started_at m) (fetch_add (sm_total m)) (sm_ok m) (fetch_add (sm_client_errors m))
    (sm_server_errors m) (sm_error_count m) (sm_db_failures m).
Definition record_server_error (m : ServerMetrics) : ServerMetrics :=
  mkServerMetrics (sm_started_at m) (fetch_add (sm_total m)) (sm_ok m) (sm_client_errors m)
    (fetch_add (sm_server_errors m)) (fetch_add (sm_error_count m)) (sm_db_failures m).
Definition record_db_failure (m : ServerMetrics) : ServerMetrics :=
  mkServerMetrics (sm_started_at m) (sm_total m) (sm_ok m) (sm_client_errors m)
    (sm_server_errors m) (fetch_add (sm_error_count m)) (fetch_add (sm_db_failures m)).
Definition record_request (status : Z) (m : ServerMetrics) : ServerMetrics :=
  if decide (200 ≤ status ≤ 299) then record_ok m
  else if decide (400 ≤ status ≤ 499) then record_client_error m
  else if decide (500 ≤ status ≤ 599) then record_server_error m
  else mkServerMetrics (sm_started_at m) (fetch_add (sm_total m)) (sm_ok m) (sm_client_errors m)
         (sm_server_errors m) (sm_error_count m) (sm_db_failures m).

Record MetricsSnapshot := mkSnapshot {
  ms_uptime_secs : Z; ms_total_requests : Z; ms_ok_requests : Z; ms_client_error_requests : Z;
  ms_server_error_requests : Z; ms_error_count : Z; ms_db_failures : Z }.
Definition snapshot (now : Z) (m : ServerMetrics) : MetricsSnapshot :=
  mkSnapshot (uptime_secs now m) (sm_total m) (sm_ok m) (sm_client_errors m) (sm_server_errors m)
    (sm_error_count m) (sm_db_failures m).

(** ** monitoring.rs: alerts *)
Definition DEFAULT_ALERT_COOLDOWN : Z := 300 * 10 ^ 9.
Definition DEFAULT_FAILURE_THRESHOLD : Z := 2.

Inductive HealthStatus := Up | Down.
Inductive AlertSeverity := Info | Warning | Critical.
Record AlertEvent := mkAlert {
  ae_kind : string; ae_severity : AlertSeverity; ae_message : string; ae_uptime_secs : Z;
  ae_consecutive_failures : Z; ae_timestamp_unix_secs : Z }.

(** [al_webhook] is what the hook was handed, when there is one; [al_log] what
    went to the log. *)
Record Alerting := mkAlerting {
  al_webhook : option (list AlertEvent); al_consecutive_failures : Z; al_last_alert_unix_secs : option Z;
  al_fired_events : Z; al_cooldown : Z; al_failure_threshold : Z; al_started_at : Z; al_log : list AlertEvent }.
Definition new_alerting (now : Z) : Alerting :=
  mkAlerting None 0 None 0 DEFAULT_ALERT_COOLDOWN DEFAULT_FAILURE_THRESHOLD now [].
Definition with_cooldown (cooldown : Z) (a : Alerting) : Alerting :=
  mkAlerting (al_webhook a) (al_consecutive_failures a) (al_last_alert_unix_secs a) (al_fired_events a)
    cooldown (al_failure_threshold a) (al_started_at a) (al_log a).
Definition with_failure_threshold (threshold : Z) (a : Alerting) : Alerting :=
  mkAlerting (al_webhook a) (al_consecutive_failures a) (al_last_alert_unix_secs a) (al_fired_events a)
    (al_cooldown a) (Z.max threshold 1) (al_started_at a) (al_log a).
Definition set_webhook (a : Alerting) : Alerting :=
  mkAlerting (Some []) (al_consecutive_failures a) (al_last_alert_unix_secs a) (al_fired_events a)
    (al_cooldown a) (al_failure_threshold a) (al_started_at a) (al_log a).

Definition cooldown_elapsed (now_secs : Z) (a : Alerting) : bool :=
  match al_last_alert_unix_secs a with
  | None => true
  | Some last => bool_decide (al_cooldown a / 10 ^ 9 ≤ u64_saturating_sub now_secs last)
  end.

Definition with_failures (n : Z) (a : Alerting) : Alerting :=
  mkAlerting (al_webhook a) n (al_last_alert_unix_secs a) (al_fired_events a)
    (al_cooldown a) (al_failure_threshold a) (al_started_at a) (al_log a).

Definition evaluate (now now_secs : Z) (status : HealthStatus) (a : Alerting) : Alerting * option AlertEvent :=
  match status with
  | Up => (with_failures 0 a, None)
  | Down =>
      let failures := as_u64 (al_consecutive_failures a + 1) in
      let a := with_failures failures a in
      if bool_decide (failures < al_failure_threshold a) then (a, None)
      else if negb (cooldown_elapsed now_secs a) then (a, None)
      else
        let event := mkAlert "server_down" Critical "server readiness check failing: service is down"
                       (Z.max 0 (now - al_started_at a) / 10 ^ 9) failures now_secs in
        (mkAlerting ((λ l, l ++ [event]) <$> al_webhook a) failures (Some now_secs)
           (as_u64 (al_fired_events a + 1)) (al_cooldown a) (al_failure_threshold a) (al_started_at a)
           (al_log a ++ [event]),
         Some event)
  end.

(** ** handlers/health.rs *)

(** The registry and the coordinator of the process. *)
Record Health := mkHealth { metrics_of : ServerMetrics; alerts_of : Alerting }.

Inductive HealthResponse :=
| Alive (uptime : Z)
| Ready (uptime requests errors : Z)                        (* 200 *)
| Unavailable (uptime consecutive_failures : Z)             (* 503 *)
| Counters (uptime total_requests ok_requests server_errors db_failures consecutive_failures : Z).

Definition liveness (now : Z) (h : Health) : Health * HealthResponse :=
  let m := record_ok (metrics_of h) in
  (mkHealth m (alerts_of h), Alive (uptime_secs now m)).

Definition readiness (now now_secs : Z) (db_healthy : bool) (h : Health) : Health * HealthResponse :=
  if db_healthy then
    let m := record_ok (metrics_of h) in
    let a := (evaluate now now_secs Up (alerts_of h)).1 in
    let snap := snapshot now m in
    (mkHealth m a, Ready (ms_uptime_secs snap) (ms_total_requests snap) (ms_error_count snap))
  else
    let m := record_server_error (record_db_failure (metrics_of h)) in
    let a := (evaluate now now_secs Down (alerts_of h)).1 in
    (mkHealth m a, Unavailable (uptime_secs now m) (al_consecutive_failures a)).

Definition metrics (now : Z) (h : Health) : Health * HealthResponse :=
  let snap := snapshot now (metrics_of h) in
  (h, Counters (ms_uptime_secs snap) (ms_total_requests snap) (ms_ok_requests snap) (ms_error_count snap)
        (ms_db_failures snap) (al_consecutive_failures (alerts_of h))).

Inductive HealthRequest := Liveness | Readiness (db_healthy : bool) | Metrics.

(** A request at a time: of the monotonic clock, and of the wall clock. *)
Record Probe := mkProbe { at_now : Z; at_secs : Z; asks : HealthRequest }.
Definition probe (h : Health) (p : Probe) : Health :=
  match asks p with
  | Liveness => (liveness (at_now p) h).1
  | Readiness up => (readiness (at_now p) (at_secs p) up h).1
  | Metrics => (metrics (at_now p) h).1
  end.
Definition probes (l : list Probe) (h : Health) : Health := foldl probe h l.
Definition start (now : Z) : Health := mkHealth (new_metrics now) (new_alerting now).

(** ** What the counters count *)

Definition is_up (p : Probe) : bool := match asks p with Liveness | Readiness true => true | _ => false end.
Definition is_down (p : Probe) : bool := match asks p with Readiness false => true | _ => false end.
Definition count (f : Probe → bool) (l : list Probe) : Z := Z.of_nat (length (filter (λ p, f p = true) l)).

Lemma count_snoc f l p : count f (l ++ [p]) = count f l + (if f p then 1 else 0).
Proof.
  unfold count. rewrite filter_app, length_app, filter_cons, filter_nil. 
  destruct (f p); [rewrite decide_True by done | rewrite decide_False by done]; cbn; lia.
Qed.

Lemma fetch_add_mod n : fetch_add (as_u64 n) = as_u64 (n + 1).
Proof. unfold fetch_add, as_u64. by rewrite Zplus_mod_idemp_l. Qed.

(** Only the health routes are counted, and a failed probe is two errors. *)
Lemma counters l now :
  metrics_of (probes l (start now)) =
    mkServerMetrics now (as_u64 (count is_up l + count is_down l)) (as_u64 (count is_up l)) 0
      (as_u64 (count is_down l)) (as_u64 (2 * count is_down l)) (as_u64 (count is_down l)).
Proof.
  induction l as [|p l IH] using rev_ind; [done|]. unfold probes. rewrite foldl_app. cbn [foldl].
  fold (probes l (start now)). rewrite !count_snoc. destruct p as [n s q]. unfold probe. cbn [asks].
  destruct q as [|[]|]; cbn [is_up is_down asks fst liveness readiness metrics metrics_of]; rewrite IH;
    unfold record_ok, record_db_failure, record_server_error;
    cbn [sm_started_at sm_total sm_ok sm_client_errors sm_server_errors sm_error_count sm_db_failures];
    rewrite ?fetch_add_mod; f_equal; f_equal; lia.
Qed.

(** ** When alerts fire *)

(** How many readiness probes in a row have failed. *)
Definition next_run (n : Z) (p : Probe) : Z :=
  match asks p with Readiness false => n + 1 | Readiness true => 0 | _ => n end.
Definition down_run (l : list Probe) : Z := foldl next_run 0 l.
Lemma down_run_snoc l p : down_run (l ++ [p]) = next_run (down_run l) p.
Proof. unfold down_run. by rewrite foldl_app. Qed.

Lemma down_run_bounds l : 0 ≤ down_run l ≤ Z.of_nat (length l).
Proof.
  induction l as [|p l IH] using rev_ind; [done|]. rewrite down_run_snoc, length_app. cbn.
  unfold next_run. destruct (asks p) as [|[]|]; lia.
Qed.

Definition alerts (now : Z) (l : list Probe) : Alerting := alerts_of (probes l (start now)).

(** An alert of the log belongs to a probe: [l] up to it ends in the failures it
    counts. *)
Definition belongs (l : list Probe) (e : AlertEvent) : Prop :=
  2 ≤ ae_consecutive_failures e ∧
  ∃ pre p, pre ++ [p] `prefix_of` l ∧ asks p = Readiness false ∧ at_secs p = ae_timestamp_unix_secs e ∧
           down_run (pre ++ [p]) = ae_consecutive_failures e.
Definition spaced (e e' : AlertEvent) : Prop := ae_timestamp_unix_secs e + 300 ≤ ae_timestamp_unix_secs e'.
(** A failed probe in an outage has an alert that is not older than the cooldown. *)
Definition noticed (log : list AlertEvent) (p : Probe) : Prop :=
  ∃ e, e ∈ log ∧ at_secs p - 300 < ae_timestamp_unix_secs e ≤ at_secs p.

Definition ordered (l : list Probe) : Prop :=
  StronglySorted (λ p q, at_secs p ≤ at_secs q) l ∧ Forall (λ p, 0 ≤ at_secs p) l.

Lemma ordered_snoc l p : ordered (l ++ [p]) → ordered l ∧ 0 ≤ at_secs p ∧ ∀ q, q ∈ l → at_secs q ≤ at_secs p.
Proof.
  intros [Hs Hp]. apply StronglySorted_app in Hs as (Hx & Hs & _). apply Forall_app in Hp as [Hp Hq].
  inversion_clear Hq. split; [done|]. split; [done|]. intros q Hin. by apply Hx, list_elem_of_singleton.
Qed.

Lemma belongs_snoc l p e : belongs l e → belongs (l ++ [p]) e.
Proof.
  intros (Hn & pre & q & Hpre & H). split; [done|]. exists pre, q. split; [|done]. by apply prefix_app_r.
Qed.
Lemma belongs_in l e : belongs l e → ∃ q, q ∈ l ∧ at_secs q = ae_timestamp_unix_secs e.
Proof. intros (_ & pre & q & [k ->] & _ & Ht & _). exists q. split; [set_solver | done]. Qed.

(** One probe, seen from the coordinator. *)
Inductive stepped (a : Alerting) (p : Probe) (a' : Alerting) : Prop :=
| stepped_quiet :
    asks p ≠ Readiness false ∨ al_consecutive_failures a' < 2 ∨ cooldown_elapsed (at_secs p) a = false →
    al_log a' = al_log a → al_last_alert_unix_secs a' = al_last_alert_unix_secs a → stepped a p a'
| stepped_fired e :
    asks p = Readiness false → 2 ≤ al_consecutive_failures a' → cooldown_elapsed (at_secs p) a = true →
    ae_consecutive_failures e = al_consecutive_failures a' → ae_timestamp_unix_secs e = at_secs p →
    al_log a' = al_log a ++ [e] → al_last_alert_unix_secs a' = Some (at_secs p) → stepped a p a'.

Definition defaults (a : Alerting) : Prop := al_cooldown a = DEFAULT_ALERT_COOLDOWN ∧ al_failure_threshold a = 2.

Lemma probe_stepped h p :
  let a := alerts_of h in let a' := alerts_of (probe h p) in
  defaults a → 0 ≤ al_consecutive_failures a → al_consecutive_failures a + 1 < 2 ^ 64 →
  defaults a' ∧ al_consecutive_failures a' = next_run (al_consecutive_failures a) p ∧ stepped a p a'.
Proof.
  intros a a' [Hc Ht] H0 Hn. subst a a'. destruct h as [m a], p as [n s q]. unfold probe, next_run. cbn [alerts_of asks] in *.
  destruct q as [|[]|]; cbn [fst readiness liveness metrics alerts_of evaluate].
  1,2,4: split_and!; [done..|]; apply stepped_quiet; [by left | done..].
  unfold evaluate. cbn [at_now at_secs]. rewrite as_u64_small by (unfold is_u64, u64_max; lia).
  cbn [al_failure_threshold with_failures]. rewrite Ht. case_bool_decide as Hlt.
  { split_and!; [done..|]. apply stepped_quiet; [by right; left | done..]. }
  change (cooldown_elapsed s (with_failures ?k a)) with (cooldown_elapsed s a).
  destruct (cooldown_elapsed s a) eqn:Hcd; cbn.
  - split_and!; [done..|]. eapply stepped_fired; try done; cbn; lia.
  - split_and!; [done..|]. apply stepped_quiet; [by right; right | done..].
Qed.

Definition watched (now : Z) (l : list Probe) : Prop :=
  let a := alerts now l in
  defaults a ∧ al_consecutive_failures a = down_run l ∧
  al_last_alert_unix_secs a = ae_timestamp_unix_secs <$> last (al_log a) ∧
  StronglySorted spaced (al_log a) ∧ (∀ e, e ∈ al_log a → belongs l e) ∧
  (∀ pre p, pre ++ [p] `prefix_of` l → asks p = Readiness false → 2 ≤ down_run (pre ++ [p]) →
     noticed (al_log a) p).

Lemma prefix_snoc {A} (pre l : list A) (p q : A) :
  pre ++ [p] `prefix_of` l ++ [q] → pre ++ [p] `prefix_of` l ∨ pre = l ∧ p = q.
Proof.
  intros [k Hk]. induction k as [|x k _] using rev_ind.
  - rewrite app_nil_r in Hk. apply app_inj_tail in Hk as [-> ->]. by right.
  - left. rewrite app_assoc in Hk. apply app_inj_tail in Hk as [-> ->]. by exists k.
Qed.

Lemma noticed_more log log' p : log `prefix_of` log' → noticed log p → noticed log' p.
Proof. intros [k ->] (e & He & Ht). exists e. split; [set_solver | done]. Qed.

Lemma spaced_snoc log e : StronglySorted spaced log → (∀ e', last log = Some e' → spaced e' e) →
  StronglySorted spaced (log ++ [e]).
Proof.
  intros Hs Hl. apply StronglySorted_app. split_and!; [|done|repeat constructor].
  intros e1 e2 H1 ->%list_elem_of_singleton. destruct (last log) as [e'|] eqn:He'; [|apply last_None in He'; set_solver].
  specialize (Hl _ eq_refl). destruct (exists_last (l:=log)) as (k & x & ->); [set_solver|].
  rewrite last_snoc in He'. injection He' as ->. apply StronglySorted_app in Hs as (Hx & _ & _).
  apply elem_of_app in H1 as [H1| ->%list_elem_of_singleton]; [|done].
  specialize (Hx e1 e' H1 ltac:(set_solver)). unfold spaced in *. lia.
Qed.

Lemma watched_snoc now l p :
  ordered (l ++ [p]) → Z.of_nat (length l) + 1 < 2 ^ 64 → watched now l → watched now (l ++ [p]).
Proof.
  intros (_ & Hp & Ht)%ordered_snoc Hl (Hd & Hr & Hla & Hs & Hb & Hn).
  assert (alerts now (l ++ [p]) = alerts_of (probe (probes l (start now)) p)) as Ha.
  { unfold alerts, probes. by rewrite foldl_app. }
  pose proof (down_run_bounds l) as Hrb.
  destruct (probe_stepped (probes l (start now)) p) as (Hd' & Hr' & Hstep); [exact Hd|fold (alerts now l); lia..|].
  fold (alerts now l) in Hr', Hstep. rewrite <-Ha in Hd', Hr', Hstep. rewrite Hr, <-down_run_snoc in Hr'.
  split; [done|]. split; [done|].
  assert (∀ e, e ∈ al_log (alerts now l) → ae_timestamp_unix_secs e ≤ at_secs p) as Hold.
  { intros e (q & Hq & <-)%Hb%belongs_in. by apply Ht. }
  destruct Hstep as [Hwhy Hlog Hlast | e Hq H2 Hcd Hc Hts Hlog Hlast]; rewrite Hlog, Hlast.
  - split; [done|]. split; [done|]. split; [intros e He; by apply belongs_snoc, Hb|].
    intros pre q [Hpre|[-> ->]]%prefix_snoc Hq H2; [by apply (Hn pre)|].
    destruct Hwhy as [?|[?|Hcd]]; [done | lia |]. unfold cooldown_elapsed in Hcd. rewrite Hla in Hcd.
    destruct (last (al_log (alerts now l))) as [e|] eqn:He; [|done]. cbn in Hcd.
    apply bool_decide_eq_false in Hcd. destruct Hd as [Hd _]. rewrite Hd in Hcd.
    apply last_Some_elem_of in He. exists e. split; [done|]. specialize (Hold e He).
    change (DEFAULT_ALERT_COOLDOWN / 10 ^ 9) with 300 in Hcd. unfold u64_saturating_sub in Hcd. lia.
  - rewrite last_snoc. split; [by cbn; rewrite Hts|]. split_and!.
    + apply spaced_snoc; [done|]. intros e' He'. unfold cooldown_elapsed in Hcd. rewrite Hla, He' in Hcd. cbn in Hcd.
      apply bool_decide_eq_true in Hcd. destruct Hd as [Hd _]. rewrite Hd in Hcd.
      apply last_Some_elem_of in He'. specialize (Hold e' He').
      change (DEFAULT_ALERT_COOLDOWN / 10 ^ 9) with 300 in Hcd. unfold u64_saturating_sub, spaced in *. lia.
    + intros e' [He'| ->%list_elem_of_singleton]%elem_of_app; [by apply belongs_snoc, Hb|].
      split; [lia|]. exists l, p. split_and!; [done..|]. by rewrite Hc, Hr'.
    + intros pre q [Hpre|[-> ->]]%prefix_snoc Hq' Hq2.
      * eapply noticed_more; [by apply prefix_app_r|]. by apply (Hn pre).
      * exists e. split; [set_solver | lia].
Qed.

Lemma watched_probes now l : ordered l → Z.of_nat (length l) < 2 ^ 64 → watched now l.
Proof.
  induction l as [|p l IH] using rev_ind; intros Ho Hl.
  - split_and!; [done..|constructor| |].
    + intros e He. by apply elem_of_nil in He.
    + intros pre p [k Hk]. by destruct pre.
  - rewrite length_app in Hl. cbn in Hl. apply watched_snoc; [done|lia|].
    apply IH; [by apply ordered_snoc in Ho as [? _] | lia].
Qed.

(** C34. When the server-down alert fires, over any sequence of requests to the
    health routes: two alerts are at least the cooldown of five minutes apart;
    an alert counts at least two failed readiness probes in a row, and exactly
    those its probe ends; and no outage goes unnoticed: whenever a readiness probe
    is the second failure in a row or a later one, there is an alert from less
    than five minutes before. *)
Theorem alerts_exact now l : ordered l → Z.of_nat (length l) < 2 ^ 64 →
  let log := al_log (alerts now l) in
  StronglySorted spaced log ∧ (∀ e, e ∈ log → belongs l e) ∧
  (∀ pre p, pre ++ [p] `prefix_of` l → asks p = Readiness false → 2 ≤ down_run (pre ++ [p]) → noticed log p).
Proof. intros Ho Hl. destruct (watched_probes now l Ho Hl) as (_ & _ & _ & H). exact H. Qed.

(** An outage of ten minutes, probed every two. *)
Definition outage : list Probe :=
  (λ t, mkProbe (t * 10 ^ 9) t (Readiness (bool_decide (t ∉ [120; 240; 360; 480; 600]%Z)))) <$> [0; 120; 240; 360; 480; 600; 720].

Lemma alerts_exact_witness :
  ae_timestamp_unix_secs <$> al_log (alerts 0 outage) = [240; 600] ∧
  noticed (al_log (alerts 0 outage)) (mkProbe (480 * 10 ^ 9) 480 (Readiness false)).
Proof.
  split; [reflexivity|].
  apply (alerts_exact 0 outage) with (pre := take 4 outage); [|done| |done|done].
  - split; repeat constructor; done.
  - exists (drop 5 outage). reflexivity.
Defined.
