(* ===== verification/Custody.v ===== *)
(** * What a client holds

    Every operation of the client of Client.v, Replica.v and Vault.v, as one
    request, and what all of them keep: well-formed tables; in a locked client
    no key and no revealed secret; in an unlocked one a vault key with the data
    key derived from it. *)
From S2P Require Import Prelude Domain Database Concrete ClientDb ClientSync Crypto Client Replica Vault.
From S2P Require Import ConcreteClient.

Local Open Scope Z_scope.

Section Runs.
Context {W : Type} {TR : Transport W} {EXT : Ext} {CEXT : CryptoExt} {VEXT : VaultExt}.
Implicit Types (w : World W) (c : Client).

(** ** What unlocking leaves *)

Definition stored_cursor (l : Local) : Z :=
  as_u64 (Z.max 0 (default 0 (sm_sync_cursor <$> sync_meta l !! 1))).
Definition stored_blacklist (l : Local) : LocalBlacklist :=
  blacklist_load (omap load_row
    ((λ kr, (kr.1, lb_ignored_version kr.2, lb_state kr.2)) <$> map_to_list (blacklist_rows l))).

Definition opened (svk : blob) (mk : option blob) (g : Z) c : Client :=
  with_keys (λ _, mkKeys (Some svk) (Some (derive_dek svk)) mk g false)
    (with_blacklist (λ _, stored_blacklist (c_db c))
       (with_epoch (set_min_enc_key_gen g) (with_cursor (λ _, stored_cursor (c_db c)) c))).

Lemma load_cursor_run w : load_persisted_cursor w =
  (mkWorld (with_cursor (λ _, stored_cursor (c_db (client w))) (client w)) (remote w), Ok ()).
Proof. unfold load_persisted_cursor, get_sync_cursor. by rewrite bind_run, read_db_run. Qed.

Lemma load_blacklist_run w : load_blacklist w =
  (mkWorld (with_blacklist (λ _, stored_blacklist (c_db (client w))) (client w)) (remote w), Ok ()).
Proof. unfold load_blacklist, list_blacklist. by rewrite bind_run, read_db_run. Qed.

Lemma unlock_raw_run key g w : unlock_with_raw_key key g w =
  (mkWorld (opened key None g (client w)) (remote w), Ok ()).
Proof.
  unfold unlock_with_raw_key, set_svk, set_dek, set_mk, set_local_gen, set_locked, upd, modify.
  repeat (rewrite bind_run; cbv beta iota). rewrite load_cursor_run. cbv beta iota.
  repeat (rewrite bind_run; cbv beta iota). rewrite load_blacklist_run. done.
Qed.

(** The part of an unlock by password that can fail: it touches the
    second-factor state only. *)
Definition unlock_checks (mp : string) (salt wrapped : blob) (uid : Uuid) : app W (blob * blob) :=
  discover_second_factor;;
  second_factor_gate;;
  mk ← try_crypto "mk derive" (derive_master_key mp salt);
  svk ← unwrap_svk (derive_kek mk) uid wrapped;
  mret (mk, svk).

Lemma unlock_password_run mp salt wrapped uid g w :
  unlock_with_password mp salt wrapped uid g w =
    match unlock_checks mp salt wrapped uid w with
    | (w1, Ok (mk, svk)) =>
        (mkWorld (opened svk (Some mk) g (with_server_user_id (λ _, Some uid) (client w1))) (remote w1), Ok ())
    | (w1, Err e) => (w1, Err e)
    end.
Proof.
  unfold unlock_with_password, unlock_checks. rewrite !bind_run.
  destruct (discover_second_factor w) as [w1 [[]|e]]; [|done]. rewrite !bind_run.
  destruct (second_factor_gate w1) as [w2 [[]|e]]; [|done]. rewrite !bind_run.
  destruct (try_crypto "mk derive" (derive_master_key mp salt) w2) as [w3 [mk|e]]; [|done].
  rewrite !bind_run. destruct (unwrap_svk (derive_kek mk) uid wrapped w3) as [w4 [svk|e]]; [|done].
  unfold set_svk, set_dek, set_mk, set_local_gen, set_locked, upd, modify.
  repeat (rewrite bind_run; cbv beta iota). rewrite load_cursor_run. cbv beta iota.
  repeat (rewrite bind_run; cbv beta iota). rewrite load_blacklist_run. done.
Qed.

(** What recovering leaves: the keys of the session and the epoch stay. *)
Definition recovered_client (svk : blob) (creds : RecoveryCredentials) (uid : Uuid) c : Client :=
  with_bus (λ b, b ++ [RecoveryModeEntered])
    (with_recovery (λ _, mkRecovery true (Some creds))
       (with_keys (λ k, mkKeys (Some svk) (Some (derive_dek svk)) (k_mk k) (k_local_gen k) false)
          (with_cursor (λ _, stored_cursor (c_db c)) (with_server_user_id (λ _, Some uid) c)))).

Lemma recover_run words wrapped uid w :
  recover_with_key words wrapped uid w =
    match derive_recovery_credentials words, recover_svk words wrapped uid with
    | Some creds, Some svk => (mkWorld (recovered_client svk creds uid (client w)) (remote w), Ok ())
    | Some _, None => (w, Err (Msg "recovery unwrap failed (bad recovery key?)"))
    | None, _ => (w, Err (Msg "invalid recovery key"))
    end.
Proof.
  unfold recover_with_key. destruct (derive_recovery_credentials words) as [creds|]; [|done].
  destruct (recover_svk words wrapped uid) as [svk|]; [|done].
  unfold set_svk, set_dek, set_locked, publish.
  rewrite !some_bind, !upd_bind, bind_run, load_cursor_run. by rewrite !upd_bind.
Qed.
End Runs.

(** ** Every operation *)
Inductive ClientOp :=
| CUnlockPassword (mp : string) (kdf_salt wrapped_svk : blob) (user : Uuid) (local_gen : Z)
| CUnlockRawKey (raw_key : blob) (local_gen : Z)
| CCreateVault | CLock
| CRecover (mnemonic : string) (wrapped_svk_rk : blob) (user : Uuid)
| CSignChallenge (nonce : blob)
| CCompleteRecovery (new_mp : string) (kdf_salt : blob)
| CRotateKey (new_gen : Z)
| CReveal (now : Z) (uuid : Uuid) | CRelease (handle : Z) | CAction (now : Z) (action : CoreAction)
| CReadSecret (now handle : Z) | CReapHandles (now : Z)
| CSave (item : DomainModel) (payload : blob) | CDelete (uuid : Uuid)
| COfflineSave (item : DomainModel) (payload : blob) | COfflineDelete (uuid : Uuid) | CFlushOffline
| CSync | CPush | CSeed | CResolve (uuid : Uuid) (server_version : Z) (force_overwrite : bool)
| CConnect (user : Uuid) | CDisconnect | CSetUser (user : Uuid) | CSetPlatform
| CSetSecondFactor (method : option SecondFactorMethod) | CRequireSecondFactor (required : bool)
| CVerifySecondFactor | CVerifyTotp (code : string) | CResetSecondFactor
| CSearch (fts : Local → string → list DecryptedOverview) (query : string) | CGetOverview (uuid : Uuid)
| CMarkIgnored (uuid : Uuid) (version : Z) (toxic : bool)
| CReaperQuarantine (uuid : Uuid) (version : Z) (toxic : bool) | CPersistBlacklist
| CMarkToxic (uuid : Uuid) | CQuarantineReap (metadata : gmap Uuid ItemStatus)
| CEpochTransition | CExport.

Section Custody.
Context {W : Type} {TR : Transport W} {EXT : Ext} {CEXT : CryptoExt} {VEXT : VaultExt}.
Implicit Types (w : World W) (c : Client).

Definition drop_result {A} (m : app W A) : app W () := m;; mret ().

Definition client_op (op : ClientOp) : app W () :=
  match op with
  | CUnlockPassword mp salt wrapped user g => unlock_with_password mp salt wrapped user g
  | CUnlockRawKey key g => unlock_with_raw_key key g
  | CCreateVault => drop_result create_vault
  | CLock => lock
  | CRecover words wrapped user => recover_with_key words wrapped user
  | CSignChallenge nonce => drop_result (recovery_sign_challenge nonce)
  | CCompleteRecovery mp salt => drop_result (complete_recovery mp salt)
  | CRotateKey g => rotate_key g
  | CReveal now uuid => drop_result (reveal_secret now uuid)
  | CRelease handle => release_secret handle
  | CAction now action => perform_action now action
  | CReadSecret now handle => drop_result (read_secret now handle)
  | CReapHandles now => reap_handles now
  | CSave item payload => drop_result (save_item item payload)
  | CDelete uuid => drop_result (delete_item uuid)
  | COfflineSave item payload => drop_result (offline_save item payload)
  | COfflineDelete uuid => drop_result (offline_delete uuid)
  | CFlushOffline => drop_result flush_offline_queue
  | CSync => sync
  | CPush => push_local_changes
  | CSeed => seed
  | CResolve uuid v force => resolve_conflict uuid v force
  | CConnect user => connect_sync user
  | CDisconnect => disconnect_sync
  | CSetUser user => set_server_user_id user
  | CSetPlatform => set_platform_adapter
  | CSetSecondFactor method => set_second_factor_method method
  | CRequireSecondFactor required => set_second_factor_required required
  | CVerifySecondFactor => verify_second_factor
  | CVerifyTotp code => client_verify_totp code
  | CResetSecondFactor => reset_second_factor
  | CSearch fts query => drop_result (search fts query)
  | CGetOverview uuid => drop_result (client_get_overview uuid)
  | CMarkIgnored uuid v toxic => mark_ignored uuid v toxic
  | CReaperQuarantine uuid v toxic => reaper_quarantine uuid v toxic
  | CPersistBlacklist => persist_blacklist_if_dirty
  | CMarkToxic uuid => mark_item_toxic uuid
  | CQuarantineReap metadata => run_quarantine_reap metadata
  | CEpochTransition => drop_result notify_epoch_transition
  | CExport => drop_result export_to_json
  end.

Definition client_run (ops : list ClientOp) w : World W := foldl (λ w op, (client_op op w).1) w ops.

(** ** What all of them keep *)
Record client_wf c : Prop := {
  cw_tables : local_wf (c_db c);
  cw_locked : is_locked c = true →
    k_svk (c_keys c) = None ∧ k_dek (c_keys c) = None ∧ k_mk (c_keys c) = None ∧
    st_handles (c_store c) = ∅;
  cw_open : is_locked c = false →
    ∃ svk, k_svk (c_keys c) = Some svk ∧ k_dek (c_keys c) = Some (derive_dek svk) }.

(** The tables stay well formed, keys and revealed secrets stay. *)
Definition frame w w' : Prop :=
  preserves (λ w, local_wf (c_db (client w))) w w' ∧
  same (λ w, (c_keys (client w), st_handles (c_store (client w)))) w w'.

#[export] Instance frame_preorder : PreOrder frame.
Proof.
  split; [intros w; split; reflexivity|]. intros w1 w2 w3 [A1 A2] [B1 B2].
  split; etransitivity; eassumption.
Qed.

Lemma frame_wf w w' : frame w w' → client_wf (client w) → client_wf (client w').
Proof.
  intros [Hdb [= Hk Hh]] [H1 H2 H3]. unfold is_locked in *. split; [by apply Hdb | | ];
    unfold is_locked; rewrite Hk; [by rewrite Hh | done].
Qed.

Lemma frame_upd f :
  (∀ c, (c_db (f c), c_keys (f c), st_handles (c_store (f c))) = (c_db c, c_keys c, st_handles (c_store c))) →
  steps frame (upd (W:=W) f).
Proof.
  intros Hf w. specialize (Hf (client w)). injection Hf as H1 H2 H3.
  split; [by unfold preserves; simpl; rewrite H1 | unfold same; simpl; by rewrite H2, H3].
Qed.

Lemma frame_publish ev : steps frame (publish (W:=W) ev).
Proof. by apply frame_upd. Qed.

Lemma frame_db {A} ctx (m : local A) : steps (preserves local_wf) m → steps frame (on_db (W:=W) ctx m).
Proof. intros Hm w. specialize (Hm (c_db (client w))). unfold on_db. by destruct (m _). Qed.

Lemma frame_remote {A} ctx (m : M W TransportError A) : steps frame (on_remote ctx m).
Proof. intros w. unfold on_remote. destruct (m (remote w)). split; [by intros ? | done]. Qed.

#[local] Hint Resolve frame_publish frame_db frame_remote save_item_wf reencrypt_wf update_singleton_wf
  store_rk_wf persist_dashmap_wf : steps.

Lemma frame_cl {A} (f : Client → A) : steps frame (cl (W:=W) f).
Proof. apply steps_gets, _. Qed.
#[local] Hint Resolve frame_cl : steps.

(** Unfolds the operations that only compose others. *)
Ltac frame_tac := steps_tac; try (by apply frame_upd); try (apply frame_db; steps_tac).

Lemma frame_guards : steps frame (require_unlocked (W:=W)) ∧ steps frame (require_transport (W:=W)).
Proof. unfold require_unlocked, require_transport. split; frame_tac. Qed.

(** *** Saves, deletes and the offline queue *)
Lemma frame_epoch a b : steps frame (verify_epoch (W:=W) a b).
Proof. unfold verify_epoch. frame_tac. Qed.
#[local] Hint Resolve frame_epoch : steps.

Lemma deletion_wf x : steps (preserves local_wf)
  (o ← gets (λ l, overviews l !! x);
   match o with
   | Some row => record_pending_delete_txn x (ov_version row) (ov_enc_key_gen row)
   | None => mret ()
   end;;
   modify (with_overviews (delete x));; modify (with_payloads (delete x)) : local ()).
Proof.
  intros l Hl. rewrite bind_run. unfold gets. cbv beta iota.
  destruct (overviews l !! x); destruct Hl as [Hd Hs Hm]; (split; simpl; [by rewrite !dom_delete_L, Hd | done..]).
Qed.

Lemma frame_commit_delete cmd : steps frame (commit_delete (W:=W) cmd).
Proof.
  unfold commit_delete. apply steps_bind; [apply _ | apply frame_epoch | intros _].
  apply frame_db, steps_transaction; [apply _ | apply deletion_wf].
Qed.
#[local] Hint Resolve frame_commit_delete : steps.

Lemma frame_save item p : steps frame (save_item (W:=W) item p).
Proof. unfold save_item, worker_save, next_receipt, commit_save. frame_tac. Qed.
Lemma frame_delete x : steps frame (delete_item (W:=W) x).
Proof.
  unfold delete_item, worker_delete, next_receipt. frame_tac.
Qed.
#[local] Hint Resolve frame_save frame_delete : steps.

Lemma frame_mutations ms k : steps frame (flush_mutations (W:=W) ms k).
Proof.
  revert k. induction ms as [|m ms IH]; intros k; cbn [flush_mutations]; [apply steps_ret, _|].
  unfold apply_mutation. frame_tac.
Qed.

(** *** Syncing and pushing *)
Lemma frame_persist us ds cur : steps frame (persist_synced_page (W:=W) us ds cur).
Proof.
  unfold persist_synced_page. frame_tac. apply apply_sync_batch_wf. by rewrite <-!list_fmap_compose.
Qed.
#[local] Hint Resolve frame_persist frame_mutations : steps.

Lemma frame_items e total a ovs : steps frame (sync_items (W:=W) e total a ovs).
Proof.
  revert a. induction ovs as [|ov ovs IH]; intros a; cbn [sync_items]; [apply steps_ret, _|].
  unfold sync_item, sync_fetch, sync_progress. frame_tac.
Qed.
#[local] Hint Resolve frame_items : steps.

Lemma frame_page e progress failed : steps frame (sync_page (W:=W) e progress failed).
Proof. unfold sync_page, apply_page, persist_page. frame_tac. Qed.
#[local] Hint Resolve frame_page : steps.

Lemma frame_pages k e progress failed : steps frame (sync_pages (W:=W) k e progress failed).
Proof.
  revert e progress failed. induction k as [|k IH]; intros e progress failed; cbn [sync_pages];
    [apply steps_throw, _|]. frame_tac.
Qed.

Lemma frame_blacklist : steps frame (persist_blacklist_if_dirty (W:=W)).
Proof. unfold persist_blacklist_if_dirty. frame_tac. Qed.
#[local] Hint Resolve frame_blacklist frame_pages : steps.

Lemma frame_sync : steps frame (sync (W:=W)).
Proof. unfold sync, require_transport, finish_sync, update_epoch_gate. frame_tac. Qed.

Lemma frame_flush : steps frame (flush_pending_deletes (W:=W)).
Proof.
  unfold flush_pending_deletes, list_pending_deletes, clear_pending_deletes. frame_tac.
  apply pending_wf.
Qed.

Lemma frame_chunk chunk : steps frame (push_chunk (W:=W) chunk).
Proof. unfold push_chunk, report_conflict. frame_tac. Qed.
#[local] Hint Resolve frame_flush frame_chunk : steps.

Lemma frame_local_items : steps frame (list_local_items (W:=W)).
Proof. unfold list_local_items. frame_tac. Qed.
#[local] Hint Resolve frame_local_items : steps.

Lemma frame_push : steps frame (push_local_changes (W:=W)).
Proof. unfold push_local_changes, require_unlocked, require_transport. frame_tac. Qed.
#[local] Hint Resolve frame_push : steps.

Lemma frame_resolve x v force : steps frame (resolve_conflict (W:=W) x v force).
Proof. unfold resolve_conflict, require_unlocked, require_transport, get_local_item. frame_tac. Qed.

(** *** The second factor *)
Lemma frame_factor m : steps frame (set_second_factor_method (W:=W) m).
Proof. unfold set_second_factor_method. frame_tac. Qed.
#[local] Hint Resolve frame_factor : steps.
Lemma frame_checks mp salt wrapped uid : steps frame (unlock_checks (W:=W) mp salt wrapped uid).
Proof.
  unfold unlock_checks, discover_second_factor, second_factor_gate, try_crypto, unwrap_svk, or_msg. frame_tac.
Qed.

(** *** Keys and revealed secrets *)
Definition wf_le : relation (World W) := preserves (λ w, client_wf (client w)).

Lemma frame_steps {A} (m : app W A) : steps frame m → steps wf_le m.
Proof. intros Hm w Hw. eapply frame_wf; [apply Hm | exact Hw]. Qed.

Lemma wf_store f : (∀ s, st_handles s = ∅ → st_handles (f s) = ∅) → steps wf_le (upd (with_store f)).
Proof.
  intros Hf w [H1 H2 H3]. split; [done | | done]. intros Hl. destruct (H2 Hl) as (? & ? & ? & Hh).
  split_and!; [done..|]. simpl. by apply Hf.
Qed.

Lemma wf_access now h : steps wf_le (access_handle (W:=W) now h).
Proof.
  unfold access_handle. apply steps_bind; [apply _ | by apply frame_steps, frame_cl | intros s].
  apply steps_bind; [apply _ | | intros _; apply steps_ret, _]. apply wf_store. intros s' Hs. simpl.
  rewrite Hs. apply map_eq. intros i. rewrite lookup_alter, lookup_empty. by destruct (decide _).
Qed.

Lemma wf_drop {A} (m : app W A) : steps wf_le m → steps wf_le (drop_result m).
Proof. intros Hm. apply steps_bind; [apply _ | exact Hm | intros _; apply steps_ret, _]. Qed.

(** An unlocked client, through what keeps it so. *)
Definition wf_open w : Prop := client_wf (client w) ∧ is_locked (client w) = false.

Lemma frame_open {A} (m : app W A) : steps frame m → steps (preserves wf_open) m.
Proof.
  intros Hm w [Hw Hl]. pose proof (Hm w) as Hf. split; [by eapply frame_wf|].
  destruct Hf as [_ [= Hk _]]. unfold is_locked in *. by rewrite Hk.
Qed.

Lemma open_keys svk w :
  local_wf (c_db (client w)) → k_svk (c_keys (client w)) = Some svk →
  k_dek (c_keys (client w)) = Some (derive_dek svk) → is_locked (client w) = false → wf_open w.
Proof. intros Hdb Hs Hd Hl. split; [|done]. split; [done | congruence |]. intros _. by exists svk. Qed.

Lemma open_store f : steps (preserves wf_open) (upd (with_store f)).
Proof. intros w [[H1 H2 H3] Hl]. split; [|done]. split; [done | | done]. unfold is_locked in *. simpl. congruence. Qed.

Lemma open_gen g : steps (preserves wf_open) (set_local_gen (W:=W) g).
Proof. intros w [[H1 H2 H3] Hl]. destruct (H3 Hl) as (svk & Hs & Hd). by apply (open_keys svk). Qed.

Lemma open_swap svk : steps (preserves wf_open)
  (set_svk (W:=W) (Some svk);; set_dek (Some (derive_dek svk));; publish SyncCompleted).
Proof. intros w [[H1 H2 H3] Hl]. by apply (open_keys svk). Qed.

(** An operation that refuses a locked client. *)
Lemma wf_unlocked {A} (m : app W A) :
  steps (preserves wf_open) m → steps wf_le (require_unlocked;; m).
Proof.
  intros Hm w Hw. unfold require_unlocked. rewrite bind_run, bind_run. unfold cl, gets. cbv beta iota.
  rewrite guard_err_run. destruct (is_locked (client w)) eqn:Hl; [done|]. by apply Hm.
Qed.

(** Passes over the parts that keep the keys. *)
Ltac open_tac := repeat (apply steps_bind; [apply _ | apply frame_open; solve [frame_tac] | intros ?]).

Lemma wf_reveal now x : steps wf_le (reveal_secret (W:=W) now x).
Proof.
  unfold reveal_secret, get_secret_material, or_msg. apply wf_unlocked. open_tac.
  destruct (store_reveal now _ _). apply steps_bind; [apply _ | apply open_store | intros _; apply steps_ret, _].
Qed.

Lemma frame_reencrypted what k svk g x gen p : steps frame (reencrypted (W:=W) what k svk g x gen p).
Proof. unfold reencrypted, or_msg, try_crypto, draw. frame_tac. Qed.
#[local] Hint Resolve frame_reencrypted : steps.

Lemma frame_batch k svk g batch : steps frame (rotate_batch (W:=W) k svk g batch).
Proof. unfold rotate_batch, rotate_row, settle_outcome. frame_tac. Qed.
#[local] Hint Resolve frame_batch : steps.

Lemma wf_rotate g : steps wf_le (Vault.rotate_key (W:=W) g).
Proof.
  unfold rotate_key, require_svk, draw, try_crypto, list_rotation_items. apply wf_unlocked. open_tac.
  apply steps_bind; [apply _ | apply open_gen | intros _]. open_tac. apply open_swap.
Qed.

Lemma wf_opened svk mk g c : local_wf (c_db c) → client_wf (opened svk mk g c).
Proof. intros Hdb. split; [done | done |]. intros _. by exists svk. Qed.

Lemma wf_unlock_raw key g : steps wf_le (unlock_with_raw_key (W:=W) key g).
Proof. intros w [Hdb _ _]. rewrite unlock_raw_run. by apply wf_opened. Qed.

Lemma wf_unlock_password mp salt wrapped uid g :
  steps wf_le (unlock_with_password (W:=W) mp salt wrapped uid g).
Proof.
  intros w Hw. rewrite unlock_password_run. pose proof (frame_checks mp salt wrapped uid w) as Hf.
  destruct (unlock_checks mp salt wrapped uid w) as [w1 [[mk svk]|e]]; [|by eapply frame_wf].
  apply wf_opened. apply Hf, Hw.
Qed.

Lemma wf_recover words wrapped uid : steps wf_le (recover_with_key (W:=W) words wrapped uid).
Proof.
  intros w Hw. rewrite recover_run. destruct (derive_recovery_credentials words) as [cr|]; [|done].
  destruct (recover_svk words wrapped uid) as [svk|]; [|done].
  split; [apply Hw | done |]. intros _. by exists svk.
Qed.

Lemma wf_create : steps wf_le (create_vault (W:=W)).
Proof. intros w [Hdb _ _]. split; [done | done |]. intros _. by eexists. Qed.

Lemma wf_lock : steps wf_le (lock (W:=W)).
Proof. intros w [Hdb _ _]. split; [done | done | done]. Qed.

Lemma wf_complete mp salt : steps wf_le (complete_recovery (W:=W) mp salt).
Proof.
  apply frame_steps. unfold complete_recovery, require_svk, try_crypto, draw, store_svk_blob. frame_tac.
Qed.

Lemma frame_flush_offline : steps frame (flush_offline_queue (W:=W)).
Proof. unfold flush_offline_queue, require_unlocked. frame_tac. Qed.

Lemma frame_export : steps frame (export_to_json (W:=W)).
Proof.
  unfold export_to_json, require_unlocked, export_item, or_msg, list_enc_key_gens, client_get_overview, get_overview.
  frame_tac.
Qed.
#[local] Hint Resolve frame_flush_offline frame_export : steps.

Lemma wf_action now a : steps wf_le (perform_action (W:=W) now a).
Proof.
  unfold perform_action. apply steps_bind; [apply _ | apply frame_steps, frame_guards | intros _].
  apply steps_bind; [apply _ | apply wf_access | intros s]. apply frame_steps. frame_tac.
Qed.

Lemma wf_read now h : steps wf_le (read_secret (W:=W) now h).
Proof.
  unfold read_secret. apply steps_bind; [apply _ | apply frame_steps, frame_guards | intros _].
  apply steps_bind; [apply _ | apply wf_access | intros s]. apply frame_steps. frame_tac.
Qed.

Lemma wf_release h : steps wf_le (release_secret (W:=W) h).
Proof. apply wf_store. intros s Hs. simpl. rewrite Hs. apply delete_empty. Qed.

Lemma wf_reap now : steps wf_le (reap_handles (W:=W) now).
Proof. apply wf_store. intros s Hs. simpl. by rewrite Hs. Qed.

Lemma client_op_wf op : steps wf_le (client_op op).
Proof.
  destruct op; simpl; try apply wf_drop; eauto 2 using wf_unlock_password, wf_unlock_raw, wf_create, wf_lock,
    wf_recover, wf_complete, wf_rotate, wf_reveal, wf_action, wf_read, wf_release, wf_reap.
  all: try (apply frame_steps;
    unfold offline_save, offline_delete, connect_sync, disconnect_sync, set_server_user_id, set_platform_adapter,
      set_second_factor_required, verify_second_factor, client_verify_totp, require_transport,
      reset_second_factor, search, client_get_overview, get_overview, mark_ignored, reaper_quarantine, mark_item_toxic,
      run_quarantine_reap, publish_reaped, trigger_recovery_sync, notify_epoch_transition,
      recovery_sign_challenge; frame_tac; by auto using frame_save, frame_delete, frame_sync, frame_push,
      frame_resolve, frame_factor, frame_blacklist).
Qed.

Lemma client_run_wf ops w : client_wf (client w) → client_wf (client (client_run ops w)).
Proof. revert w. induction ops as [|op ops IH]; intros w Hw; [done|]. apply IH, client_op_wf, Hw. Qed.

(** C8. A client that starts locked over well-formed tables, whatever it is asked
    to do and whatever its server answers: as long as it is locked it holds no
    vault key, no data key, no master key and no revealed secret; while it is
    not, it holds a vault key and the data key derived from it.  Its tables
    stay well formed throughout. *)
Theorem client_keeps_custody db (s : W) ops :
  local_wf db → client_wf (client (client_run ops (mkWorld (new_client db) s))).
Proof.
  intros Hdb. apply client_run_wf. by split.
Qed.

(** ** What a locked client refuses *)
Definition needs_keys (op : ClientOp) : bool :=
  match op with
  | CRotateKey _ | CReveal _ _ | CAction _ _ | CReadSecret _ _ | CSave _ _ | CDelete _ | CPush | CSeed
  | CResolve _ _ _ | CExport => true
  | _ => false
  end.

(** A locked client asked for anything that takes a key leaves itself and the
    server as they were: nothing is saved, deleted, pushed, revealed or
    exported. *)
Theorem locked_client_refuses op w :
  is_locked (client w) = true → needs_keys op = true → (client_op op w).1 = w.
Proof.
  intros Hl Hop.
  assert (∀ A (m : app W A), ((require_unlocked;; m) w).1 = w) as Hreq.
  { intros A m. unfold require_unlocked. rewrite bind_run, bind_run. unfold cl, gets. cbv beta iota.
    by rewrite guard_err_run, Hl. }
  assert (∀ A (m : app W A), (m w).1 = w → (drop_result m w).1 = w) as Hdrop.
  { intros A m Hm. unfold drop_result. rewrite bind_run. destruct (m w) as [w' [a|e]]; exact Hm. }
  destruct op; try discriminate Hop; simpl; try apply Hdrop; try apply Hreq;
    unfold save_item, delete_item; rewrite cl_bind, Hl; done.
Qed.
End Custody.

(** ** Witnesses *)
Section CustodyWitnesses.
#[local] Existing Instances Concrete.toy_ext toy_crypto toy_vault Offline.

Definition note_of (x : Uuid) : DomainModel :=
  mkDomainModel x 1 (blank_overview x) (mkSecret "" None "" []) (mkItemMetadata 0 0 false).
Definition custody_demo : list ClientOp :=
  [CCreateVault; CSave (note_of "n1") [];
   CLock; CReveal 5 "n1"].

Lemma fresh_client_wf : client_wf (new_client fresh_local).
Proof. split; [apply fresh_local_wf | done | done]. Qed.

Lemma client_keeps_custody_witness :
  is_Some (overviews (c_db (client (client_run custody_demo (mkWorld (new_client fresh_local) ())))) !! "n1") ∧
  client_wf (client (client_run custody_demo (mkWorld (new_client fresh_local) ()))).
Proof.
  split; [vm_compute; by eexists|]. apply (client_keeps_custody fresh_local ()), fresh_local_wf.
Defined.

Lemma locked_client_refuses_witness :
  let w := client_run custody_demo (mkWorld (new_client fresh_local) ()) in
  (client_op (CDelete "n1") w).1 = w.
Proof. apply (locked_client_refuses (CDelete "n1")); vm_compute; reflexivity. Defined.
End CustodyWitnesses.
