(* ===== verification/Rotation.v ===== *)
(** * Rotating the vault key

    What a successful rotation of Vault.v leaves on the client: the exact
    tables, every live item below the new generation readable under the new
    key as it was under the old one, and a wrapped key that the same password
    opens on any device.  What the blobs of a completed recovery open to.  And
    what the server keeps of a rotation to a generation it already has. *)
From S2P Require Import Prelude Domain Database Concrete Users Items Tokens Sync.
From S2P Require Import Projects Mfa Auth Account Webauthn System History.
From S2P Require Import ClientDb ClientSync Crypto Client Replica Http Mirror Vault ConcreteClient Custody.

Local Open Scope Z_scope.

Section Rotation.
Context {W : Type} {TR : Transport W} {EXT : Ext} {CEXT : CryptoExt} {VEXT : VaultExt}.
Implicit Types (w : World W) (c : Client) (l : Local).

(** ** Reading an item *)

(** The plaintext of an item under the data key a client holds. *)
Definition open_item c (x : Uuid) : option blob :=
  o ← overviews (c_db c) !! x;
  p ← payloads (c_db c) !! x;
  dek ← k_dek (c_keys c);
  match decrypt dek x (as_u64 (ov_enc_key_gen o)) p with Ok pt => Some pt | Err _ => None end.

(** The rows a rotation to [g] takes. *)
Definition rotates (g : Z) l (x : Uuid) : Prop :=
  ∃ o, overviews l !! x = Some o ∧ is_Some (payloads l !! x) ∧ ov_deleted_date o = None ∧
       ov_enc_key_gen o < as_i64 g.

(** Uuids as [to_string] writes them. *)
Definition canonical l : Prop := ∀ x o, overviews l !! x = Some o → uuid_parse x = Some x.

Lemma joined_in l x o p :
  canonical l → (x, o, p) ∈ joined l ↔ overviews l !! x = Some o ∧ payloads l !! x = Some p.
Proof.
  intros Hc. unfold joined. rewrite list_elem_of_omap. split.
  - intros ([k r] & Hin & Hk). apply elem_of_map_to_list in Hin. simpl in Hk.
    rewrite (Hc _ _ Hin) in Hk. simpl in Hk. destruct (payloads l !! k) eqn:Hp; [|done].
    simpl in Hk. by injection Hk as -> -> ->.
  - intros [Ho Hp]. exists (x, o). split; [by apply elem_of_map_to_list|]. simpl.
    by rewrite (Hc _ _ Ho), Hp.
Qed.

Lemma rotation_rows_in l g x v gen p :
  canonical l →
  (x, v, gen, p) ∈ ((λ r, (r.1.1, ov_version r.1.2, ov_enc_key_gen r.1.2, r.2)) <$>
     sort_asc (λ r : Uuid * OverviewRow * blob, ov_enc_key_gen r.1.2)
       (filter (λ r, ov_deleted_date r.1.2 = None ∧ ov_enc_key_gen r.1.2 < g) (joined l))) ↔
  ∃ o, overviews l !! x = Some o ∧ payloads l !! x = Some p ∧ ov_deleted_date o = None ∧
       ov_enc_key_gen o < g ∧ v = ov_version o ∧ gen = ov_enc_key_gen o.
Proof.
  intros Hc. rewrite list_elem_of_fmap. split.
  - intros ([[x' o] p'] & [= -> -> -> ->] & Hin). unfold sort_asc in Hin.
    rewrite merge_sort_Permutation, list_elem_of_filter, joined_in in Hin by done. simpl in Hin.
    exists o. naive_solver.
  - intros (o & Ho & Hp & Hd & Hg & -> & ->). exists (x, o, p). split; [done|]. unfold sort_asc.
    rewrite merge_sort_Permutation, list_elem_of_filter, joined_in by done. done.
Qed.

(** ** One row, one batch *)

(** The rows [done] are encrypted under the new key, the others untouched. *)
Definition rekeyed (l0 : Local) (dek svk : blob) (g : Z) (done : list RotationRow) l : Prop :=
  l = mkLocal (overviews l) (payloads l) (sync_meta l0) (blacklist_rows l0) (quarantine_rows l0)
        (pending_deletes l0) ∧
  ∀ x : Uuid,
    if decide (x ∈ (λ r : RotationRow, r.1.1.1) <$> done) then
      ∃ o p pt p', overviews l0 !! x = Some o ∧ payloads l0 !! x = Some p ∧
        decrypt dek x (as_u64 (ov_enc_key_gen o)) p = Ok pt ∧
        overviews l !! x = Some (set_gen (as_i64 g) o) ∧ payloads l !! x = Some p' ∧
        decrypt (derive_dek svk) x g p' = Ok pt
    else overviews l !! x = overviews l0 !! x ∧ payloads l !! x = payloads l0 !! x.

Lemma rekeyed_start l dek svk g : rekeyed l dek svk g [] l.
Proof. split; [by destruct l | done]. Qed.

Lemma reencrypted_ok `{!CryptoLaws, !VaultLaws} what dek svk g x gen p w w' p' :
  reencrypted what dek svk g x gen p w = (w', Ok p') →
  c_db (client w') = c_db (client w) ∧
  ∃ pt, decrypt dek x (as_u64 gen) p = Ok pt ∧ decrypt (derive_dek svk) x g p' = Ok pt.
Proof.
  unfold reencrypted, or_msg, try_crypto. intros Hr. apply bind_ok in Hr as (w1 & pt & Hd & Hr).
  destruct (decrypt dek x (as_u64 gen) p) as [pt'|]; [|done]. injection Hd as <- ->.
  apply bind_ok in Hr as (w2 & nonce & Hn & Hr). unfold draw in Hn. rewrite cl_bind, upd_bind in Hn.
  injection Hn as <- <-. destruct (reencrypt _ _ _ _ _) as [env|] eqn:He; [|done].
  injection Hr as <- <-. split; [done|]. exists pt. split; [done|].
  eapply decrypt_encrypt; [|exact He]. apply os_random_len.
Qed.

Lemma rekeyed_row l0 dek svk g done l x v gen p o pt p' :
  overviews l0 !! x = Some o → payloads l0 !! x = Some p → gen = ov_enc_key_gen o →
  decrypt dek x (as_u64 gen) p = Ok pt → decrypt (derive_dek svk) x g p' = Ok pt →
  rekeyed l0 dek svk g done l →
  rekeyed l0 dek svk g (done ++ [(x, v, gen, p)])
    (with_overviews (alter (set_gen (as_i64 g)) x) (with_payloads (alter (λ _, p') x) l)).
Proof.
  intros Ho Hp -> Hold Hnew [Hl Hrows]. split; [by rewrite Hl|].
  assert (is_Some (payloads l !! x) ∧ set_gen (as_i64 g) <$> overviews l !! x = Some (set_gen (as_i64 g) o))
    as [Hpl Hol].
  { specialize (Hrows x). case_decide.
    - destruct Hrows as (o' & ? & ? & ? & Ho' & ? & ? & -> & -> & ?). split; [by eexists|].
      rewrite Ho in Ho'. by injection Ho' as ->.
    - destruct Hrows as [-> ->]. rewrite Ho, Hp. split; [by eexists | done]. }
  intros y. specialize (Hrows y). rewrite fmap_app. simpl. destruct (decide (y = x)) as [->|Hne].
  - rewrite decide_True by (apply elem_of_app; right; by apply list_elem_of_singleton).
    exists o, p, pt, p'. rewrite !lookup_alter_eq, Hol. destruct Hpl as [q ->]. done.
  - rewrite !lookup_alter_ne by done. destruct (decide (y ∈ _)) as [Hy|Hy].
    + rewrite decide_True; [done|]. apply elem_of_app. by left.
    + rewrite decide_False; [done|]. intros [?|?%list_elem_of_singleton]%elem_of_app; done.
Qed.

Lemma rotate_row_ok `{!CryptoLaws, !VaultLaws} l0 dek svk g done r w w' b o :
  overviews l0 !! r.1.1.1 = Some o → payloads l0 !! r.1.1.1 = Some r.2 → r.1.2 = ov_enc_key_gen o →
  rekeyed l0 dek svk g done (c_db (client w)) →
  rotate_row dek svk g r w = (w', Ok b) →
  rekeyed l0 dek svk g (done ++ [r]) (c_db (client w')).
Proof.
  destruct r as [[[x v] gen] p]. simpl. intros Ho Hp Hg Hl Hr. unfold rotate_row in Hr.
  apply bind_ok in Hr as (w1 & p' & He & Hr). apply reencrypted_ok in He as (Hdb & pt & Hold & Hnew).
  rewrite <-Hdb in Hl. apply bind_ok in Hr as (w2 & [] & Hs & [= <- _]). injection Hs as <-. simpl.
  by eapply rekeyed_row.
Qed.

Lemma settle_db dek svk g o : steps (same (λ w, c_db (client w))) (settle_outcome dek svk g o).
Proof.
  assert (∀ A ctx (m : M W TransportError A), steps (same (λ w, c_db (client w))) (on_remote ctx m)).
  { intros A ctx m w. unfold on_remote. by destruct (m (remote w)). }
  assert (∀ f, (∀ c, c_db (f c) = c_db c) → steps (same (λ w, c_db (client w))) (upd (W:=W) f)).
  { intros f Hf w. apply Hf. }
  unfold settle_outcome, reencrypted, or_msg, try_crypto, draw, cl. steps_tac; auto.
Qed.

Lemma rotate_batch_ok `{!CryptoLaws, !VaultLaws} l0 dek svk g done batch w w' b :
  (∀ r, r ∈ batch → ∃ o, overviews l0 !! r.1.1.1 = Some o ∧ payloads l0 !! r.1.1.1 = Some r.2 ∧
     r.1.2 = ov_enc_key_gen o) →
  rekeyed l0 dek svk g done (c_db (client w)) →
  rotate_batch dek svk g batch w = (w', Ok b) →
  rekeyed l0 dek svk g (done ++ batch) (c_db (client w')).
Proof.
  intros Hb Hl Hr. unfold rotate_batch in Hr. apply bind_ok in Hr as (w1 & pushes & Hrows & Hr).
  apply (mapM_ok_done _ (λ done w, rekeyed l0 dek svk g done (c_db (client w))) _ done) in Hrows; [|..|done].
  - apply bind_ok in Hr as (w2 & outcomes & Hp & Hr). apply bind_ok in Hr as (w3 & u & Hs & [= <- _]).
    unfold on_remote in Hp. destruct (push_batch pushes (remote w1)) as [n r]. injection Hp as <- _.
    pose proof (steps_mapM (same (λ w, c_db (client w))) (settle_outcome dek svk g) (zip outcomes batch)
                  (settle_db dek svk g) (mkWorld (client w1) n)) as Hsame.
    rewrite Hs in Hsame. unfold same in Hsame. simpl in Hsame. by rewrite Hsame.
  - intros r d s s' p Hr' HI Ha. destruct (Hb r Hr') as (o & Ho & Hp & Hg). by eapply rotate_row_ok.
Qed.

(** ** The whole rotation *)

Definition rotation_rows (g : Z) l : list RotationRow :=
  (λ r, (r.1.1, ov_version r.1.2, ov_enc_key_gen r.1.2, r.2)) <$>
    sort_asc (λ r : Uuid * OverviewRow * blob, ov_enc_key_gen r.1.2)
      (filter (λ r, ov_deleted_date r.1.2 = None ∧ ov_enc_key_gen r.1.2 < as_i64 g) (joined l)).

(** The wrapped vault key in the tables. *)
Definition stored_svk l : option blob := sm_svk_ciphertext_blob <$> sync_meta l !! 1.

(** A client whose key was replaced by [svk], at generation [g]. *)
Record rotated_to (mk svk : blob) (g : Z) w w' : Prop := {
  ro_mk : k_mk (c_keys (client w)) = Some mk;
  ro_keys : c_keys (client w') = mkKeys (Some svk) (Some (derive_dek svk)) (Some mk) g false;
  ro_wrapped : ∃ nonce wrapped, length nonce = NONCE_LEN ∧
    wrap_svk nonce (derive_kek mk) svk = Ok wrapped ∧ stored_svk (c_db (client w')) = Some wrapped;
  ro_rows : ∃ old l, k_svk (c_keys (client w)) = Some old ∧
    rekeyed (c_db (client w)) (derive_dek old) svk g (rotation_rows g (c_db (client w))) l ∧
    c_db (client w') = with_sync_meta (alter (set_svk_blob (default [] (stored_svk (c_db (client w'))))) 1) l }.

Lemma rotation_row_source g l r :
  canonical l → r ∈ rotation_rows g l →
  ∃ o, overviews l !! r.1.1.1 = Some o ∧ payloads l !! r.1.1.1 = Some r.2 ∧ r.1.2 = ov_enc_key_gen o.
Proof.
  destruct r as [[[x v] gen] p]. intros Hc Hr. apply rotation_rows_in in Hr; [|done]. naive_solver.
Qed.

Lemma store_svk_ok b ctx w w' u :
  on_db ctx (store_svk_blob b) w = (w', Ok u) →
  client w' = with_db (with_sync_meta (alter (set_svk_blob b) 1)) (client w) ∧
  stored_svk (c_db (client w')) = Some b.
Proof.
  unfold on_db, store_svk_blob, update_singleton. run_next.
  case_bool_decide as Hm; cbn [map_res]; [done|]. intros [= <- _]. split; [done|].
  unfold stored_svk. simpl. rewrite lookup_alter_eq. by destruct (sync_meta _ !! 1).
Qed.

(** The loop over the batches. *)
Lemma rotate_batches_ok `{!CryptoLaws, !VaultLaws} l0 dek svk g w w' bs :
  canonical l0 → c_db (client w) = l0 →
  mapM (rotate_batch dek svk g) (chunks_of (length (rotation_rows g l0)) 100 (rotation_rows g l0)) w = (w', Ok bs) →
  rekeyed l0 dek svk g (rotation_rows g l0) (c_db (client w')).
Proof.
  intros Hc Hdb Hm.
  apply (mapM_ok_done _ (λ done w, rekeyed l0 dek svk g (concat done) (c_db (client w))) _ []) in Hm.
  - simpl in Hm. rewrite chunks_concat in Hm by lia. exact Hm.
  - intros batch d s s' b Hb HI Hr. rewrite concat_app. simpl. rewrite app_nil_r.
    eapply rotate_batch_ok; [|exact HI | exact Hr]. intros r Hrow.
    apply (rotation_row_source g); [done|]. by eapply chunks_of_in.
  - simpl. rewrite Hdb. apply rekeyed_start.
Qed.

Lemma rotate_batches_keys dek svk g bs w w' r :
  mapM (rotate_batch dek svk g) bs w = (w', r) → c_keys (client w') = c_keys (client w).
Proof.
  intros Hm. pose proof (steps_mapM frame (rotate_batch dek svk g) bs (frame_batch dek svk g) w) as [_ Hk].
  rewrite Hm in Hk. by injection Hk.
Qed.

Lemma rotate_key_ok `{!CryptoLaws, !VaultLaws} g w w' :
  canonical (c_db (client w)) → Vault.rotate_key g w = (w', Ok ()) →
  ∃ mk, rotated_to mk (os_random (c_rng (client w)) 32) (current_key_gen (client w')) w w'.
Proof.
  intros Hc Hr. unfold Vault.rotate_key, require_svk, try_crypto in Hr.
  apply bind_ok in Hr as (w1 & u1 & H1 & Hr). unfold require_unlocked in H1. ok_inv H1.
  unfold cl in *. ok_inv Hr. injection Hr0 as <- Hl.
  rewrite draw_run in Hr3, Hr5. injection Hr3 as <- <-. injection Hr5 as <- <-.
  destruct (wrap_svk _ _ _) as [wrapped|] eqn:Hwrap; [|done]. injection Hr4 as <- <-.
  unfold on_remote in Hr7. destruct (ClientSync.rotate_key g wrapped _) as [n r]. injection Hr7 as <- _.
  injection Hr8 as <- _. injection Hr9 as <- _. unfold list_rotation_items in Hr10.
  rewrite read_db_run in Hr10. injection Hr10 as <- <-.
  pose proof (rotate_batches_keys _ _ _ _ _ _ _ Hr11) as Hkeys. simpl in Hkeys.
  apply (rotate_batches_ok (c_db (client w))) in Hr11; [|done..].
  apply store_svk_ok in Hr12 as [Hc32 Hst].
  injection Hr13 as <- _. injection Hr14 as <- _. injection Hr15 as <- _. injection Hr16 as <- _.
  injection Hr18 as <-. eexists. split; [eassumption | | |].
  - simpl. rewrite Hc32. simpl. rewrite Hkeys. f_equal; [eassumption | exact Hl].
  - eexists _, wrapped. split_and!; [apply os_random_len | exact Hwrap | exact Hst].
  - eexists _, _. split_and!; [eassumption | exact Hr11 |]. simpl. rewrite Hst. by rewrite Hc32.
Qed.

(** *** What it leaves *)

Lemma rotated_in g l x : canonical l → x ∈ (λ r : RotationRow, r.1.1.1) <$> rotation_rows g l ↔ rotates g l x.
Proof.
  intros Hc. rewrite list_elem_of_fmap. split.
  - intros ([[[x' v] gen] p] & -> & Hr). apply rotation_rows_in in Hr; [|done].
    destruct Hr as (o & Ho & Hp & Hd & Hg & _). exists o. split_and!; [done | by eexists | done..].
  - intros (o & Ho & [p Hp] & Hd & Hg). exists (x, ov_version o, ov_enc_key_gen o, p). split; [done|].
    apply rotation_rows_in; [done|]. naive_solver.
Qed.

(** C9. A rotation of the vault key that succeeds re-encrypts exactly the items of
    an older generation that are not in the trash: each opens under the new key
    to what it held under the old one, and carries the new generation.  Every
    other row, the trashed ones with their payloads among them, is left as it
    was, under a key the client no longer has. *)
Theorem rotation_rekeys_live_items `{!CryptoLaws, !VaultLaws} g w w' x :
  client_wf (client w) → canonical (c_db (client w)) →
  Vault.rotate_key g w = (w', Ok ()) → is_u64 (current_key_gen (client w')) →
  let l := c_db (client w) in
  let l' := c_db (client w') in
  (rotates (current_key_gen (client w')) l x →
     is_Some (open_item (client w) x) ∧ open_item (client w') x = open_item (client w) x ∧
     as_u64 ∘ ov_enc_key_gen <$> overviews l' !! x = Some (current_key_gen (client w'))) ∧
  (¬ rotates (current_key_gen (client w')) l x →
     overviews l' !! x = overviews l !! x ∧ payloads l' !! x = payloads l !! x).
Proof.
  intros [_ Hlocked Hopen] Hc Hr Hg l l'.
  destruct (rotate_key_ok _ _ _ Hc Hr) as (mk & [_ Hkeys _ (old & m & Hold & [_ Hrows] & Hdb)]).
  assert (k_dek (c_keys (client w)) = Some (derive_dek old)) as Hdek.
  { destruct (is_locked (client w)) eqn:Hl.
    - destruct (Hlocked eq_refl). congruence.
    - destruct (Hopen eq_refl) as (svk & Hs & ->). congruence. }
  assert (overviews l' = overviews m ∧ payloads l' = payloads m) as [Ho' Hp'] by (unfold l'; by rewrite Hdb).
  specialize (Hrows x). pose proof (rotated_in (current_key_gen (client w')) l x Hc) as Hin.
  split; intros Hx; rewrite <-Hin in Hx.
  - rewrite decide_True in Hrows by done. destruct Hrows as (o & p & pt & p' & Ho & Hp & Hd & Hno & Hnp & Hnd).
    assert (as_u64 (as_i64 (current_key_gen (client w'))) = current_key_gen (client w')) as Hcast.
    { by apply as_u64_as_i64. }
    assert (open_item (client w) x = Some pt) as Hpt.
    { unfold open_item. by rewrite Ho, Hp, Hdek; simpl; rewrite Hd. }
    rewrite Hpt. split; [by eexists|]. unfold open_item. fold l'. rewrite Ho', Hp', Hno, Hnp, Hkeys. simpl.
    by rewrite Hcast, Hnd.
  - rewrite decide_False in Hrows by done. by rewrite Ho', Hp'.
Qed.

(** ** Wrapped keys *)

(** No other reading of a wrapped key under a user's id: the cipher refuses it
    there, or the id is the one it was made for. *)
Definition no_other_reading (mk : blob) (uid : Uuid) (wrapped svk : blob) : Prop :=
  ∀ pt, decrypt (derive_kek mk) uid 0 wrapped = Ok pt → pt = svk.

(** What an unlock by password asks before the password. *)
Definition offline c : Prop := c_transport c = false ∧ c_second_factor c = None.

(** What unlocks: a wrapped key that opens under the id, or under the nil id. *)
Definition read_wrapped (kek : blob) (uid : Uuid) (wrapped : blob) : crypto blob :=
  match decrypt kek uid 0 wrapped with Ok p => Ok p | Err _ => decrypt kek nil_uuid 0 wrapped end.

Lemma unlock_reads mp salt mk svk wrapped uid g w :
  length svk = 32%nat → read_wrapped (derive_kek mk) uid wrapped = Ok svk →
  derive_master_key mp salt = Ok mk → offline (client w) →
  ∃ w', unlock_with_password mp salt wrapped uid g w = (w', Ok ()) ∧
    c_keys (client w') = mkKeys (Some svk) (Some (derive_dek svk)) (Some mk) g false.
Proof.
  intros Hs Hread Hmk [Ht Hf]. rewrite unlock_password_run.
  assert (unlock_checks mp salt wrapped uid w = (w, Ok (mk, svk))) as ->; [|by eexists].
  unfold unlock_checks, discover_second_factor, second_factor_gate, try_crypto, unwrap_svk, or_msg.
  rewrite bind_run, cl_bind, Ht. cbv beta iota. rewrite ret_run, bind_run, !cl_bind, Hf.
  rewrite guard_err_run. rewrite bool_decide_false by (by intros []). cbn [andb]. rewrite Hmk.
  rewrite bind_run, ret_run. cbv beta iota. fold (read_wrapped (derive_kek mk) uid wrapped). rewrite Hread.
  run_next. by rewrite bool_decide_false by (intros Hne; by apply Hne).
Qed.

Lemma read_nil_wrapped `{!CryptoLaws} nonce mk svk wrapped uid :
  length nonce = NONCE_LEN → wrap_svk nonce (derive_kek mk) svk = Ok wrapped →
  no_other_reading mk uid wrapped svk → read_wrapped (derive_kek mk) uid wrapped = Ok svk.
Proof.
  intros Hn Hwrap Hread. unfold read_wrapped.
  destruct (decrypt _ uid 0 wrapped) as [pt|] eqn:Hd; [by rewrite (Hread _ Hd)|]. by eapply decrypt_encrypt.
Qed.

Lemma unlock_wrapped `{!CryptoLaws} nonce mp salt mk svk wrapped uid g w :
  length nonce = NONCE_LEN → length svk = 32%nat → wrap_svk nonce (derive_kek mk) svk = Ok wrapped →
  derive_master_key mp salt = Ok mk → no_other_reading mk uid wrapped svk → offline (client w) →
  ∃ w', unlock_with_password mp salt wrapped uid g w = (w', Ok ()) ∧
    c_keys (client w') = mkKeys (Some svk) (Some (derive_dek svk)) (Some mk) g false.
Proof. intros. eapply unlock_reads; eauto. by eapply read_nil_wrapped. Qed.

(** C10. After a rotation that succeeds, the password that unlocked the client still
    opens the vault: on any device, the wrapped key the rotation left in the
    tables unlocks to the very keys the rotating client now holds. *)
Theorem rotated_vault_unlocks `{!CryptoLaws, !VaultLaws} g w w' w1 mp salt mk uid :
  canonical (c_db (client w)) → Vault.rotate_key g w = (w', Ok ()) →
  k_mk (c_keys (client w)) = Some mk → derive_master_key mp salt = Ok mk → offline (client w1) →
  ∃ wrapped svk, stored_svk (c_db (client w')) = Some wrapped ∧ k_svk (c_keys (client w')) = Some svk ∧
    (no_other_reading mk uid wrapped svk →
     ∃ w2, unlock_with_password mp salt wrapped uid (current_key_gen (client w')) w1 = (w2, Ok ()) ∧
       c_keys (client w2) = c_keys (client w')).
Proof.
  intros Hc Hr Hmk Hmp Hoff. destruct (rotate_key_ok _ _ _ Hc Hr) as (mk' & [Hmk' Hkeys (nonce & wrapped & Hn & Hw & Hst) _]).
  assert (mk' = mk) as -> by congruence. exists wrapped, (os_random (c_rng (client w)) 32).
  rewrite Hkeys. split_and!; [done..|]. intros Hread.
  eapply unlock_wrapped; eauto. apply os_random_len.
Qed.

(** ** After a recovery *)

Lemma recover_svk_wrapped `{!CryptoLaws} nonce words m svk uid wrapped :
  length nonce = NONCE_LEN → length svk = 32%nat → decode_recovery_mnemonic words = Ok m →
  rk_wrap_svk nonce svk (derive_kek_rk m) uid = Ok wrapped → recover_svk words wrapped uid = Some svk.
Proof.
  intros Hn Hs Hm Hw. unfold recover_svk. rewrite Hm. by rewrite (unwrap_rk_wrap _ _ _ _ _ Hn Hs Hw).
Qed.

Lemma complete_recovery_ok mp salt w w' rk wmp wrk :
  complete_recovery mp salt w = (w', Ok (rk, wmp, wrk)) →
  ∃ svk uid mk m n1 n2, k_svk (c_keys (client w)) = Some svk ∧ c_server_user_id (client w) = Some uid ∧
    derive_master_key mp salt = Ok mk ∧ decode_recovery_mnemonic rk = Ok m ∧
    wrap_svk (os_random n1 NONCE_LEN) (derive_kek mk) svk = Ok wmp ∧
    rk_wrap_svk (os_random n2 NONCE_LEN) svk (derive_kek_rk m) uid = Ok wrk.
Proof.
  intros Hr. unfold complete_recovery, require_svk, cl in Hr. ok_inv Hr.
  apply try_ok in Hr1 as [-> Hmk], Hr4 as [-> Hwrap], Hr6 as [-> Hdec], Hr8 as [-> Hrk].
  rewrite draw_run in Hr2, Hr5, Hr7. injection Hr2 as <- <-. injection Hr5 as <- <-. injection Hr7 as <- <-.
  match goal with Hq : (rk, wmp, wrk) = _ |- _ => injection Hq as -> -> -> end.
  eexists _, _, _, _, _, _. split_and!; eassumption.
Qed.

(** What a completed recovery hands over reopens the vault: on any device the
    new recovery phrase opens the blob wrapped for it, and the new password the
    blob wrapped for it, both to the vault key the recovering client holds. *)
Theorem completed_recovery_reopens `{!CryptoLaws, !VaultLaws} mp salt mk svk uid w w' w1 rk wmp wrk g :
  k_svk (c_keys (client w)) = Some svk → length svk = 32%nat → c_server_user_id (client w) = Some uid →
  derive_master_key mp salt = Ok mk → complete_recovery mp salt w = (w', Ok (rk, wmp, wrk)) →
  (∃ w2, recover_with_key rk wrk uid w1 = (w2, Ok ()) ∧ k_svk (c_keys (client w2)) = Some svk) ∧
  (no_other_reading mk uid wmp svk → offline (client w1) →
   ∃ w2, unlock_with_password mp salt wmp uid g w1 = (w2, Ok ()) ∧ k_svk (c_keys (client w2)) = Some svk).
Proof.
  intros Hs Hl Hu Hmk Hr. apply complete_recovery_ok in Hr as (s & u & k & m & n1 & n2 & ? & ? & ? & Hm & Hmp & Hrk).
  assert (s = svk ∧ u = uid ∧ k = mk) as (-> & -> & ->) by (split_and!; congruence).
  split.
  - rewrite recover_run. unfold derive_recovery_credentials. rewrite Hm.
    rewrite (recover_svk_wrapped _ _ _ _ _ _ (os_random_len _ _) Hl Hm Hrk). by eexists.
  - intros Hread Hoff. destruct (unlock_wrapped _ mp salt mk svk wmp uid g w1 (os_random_len n1 NONCE_LEN))
      as (w2 & Hun & Hk); [done..|]. exists w2. by rewrite Hk.
Qed.
End Rotation.

(** ** The server's copy of the key *)
Section ServerCopy.
Context {EXT : Ext} {WA : WebauthnRs} {CEXT : CryptoExt} {VEXT : VaultExt}.
Implicit Types (d : Db) (n : Net) (w : World Net).

(** Accounts, their wrapped keys among them, and sessions. *)
Definition accounts d := (users d, sessions d).

Lemma accounts_upsert uuid u t g p del now : steps (same accounts) (upsert_item_occ uuid u t g p del now).
Proof. unfold upsert_item_occ, occ_insert, occ_update, insert_row, require, min_enc_key_gen, get_item. steps_tac; by intros d. Qed.

Lemma accounts_push_batch ρ tok l : steps (same accounts) (sync_push_batch ρ tok l).
Proof.
  unfold sync_push_batch, auth_user, push_item, call, get_session, user_is_suspended, publish, min_enc_key_gen, get_item, decode_b64.
  pose proof accounts_upsert. steps_tac; by intros d.
Qed.

Lemma accounts_payloads ρ tok l : steps (same accounts) (sync_pull_payloads ρ tok l).
Proof. unfold sync_pull_payloads, auth_user, pull_payload, call, get_session, user_is_suspended, get_item. steps_tac; by intros d. Qed.

(** The account of the session is at generation [g] already. *)
Definition reached (g : Z) n : Prop :=
  ∀ s row, sessions (net_db n) !! hash_session_token (net_token n) = Some s →
    users (net_db n) !! s_user_id s = Some row → g ≤ u_min_enc_key_gen row.

Definition idle (g : Z) n n' : Prop :=
  only_us n → reached g n → only_us n' ∧ reached g n' ∧ accounts (net_db n') = accounts (net_db n).

#[local] Instance idle_preorder g : PreOrder (idle g).
Proof.
  split; [done|]. intros n1 n2 n3 A B H1 H2. destruct (A H1 H2) as (H3 & H4 & E1).
  destruct (B H3 H4) as (H5 & H6 & E2). split_and!; [done.. | congruence].
Qed.

Lemma alone_idle g n n' : alone accounts n n' → idle g n n'.
Proof.
  intros Ha Hus Hr. destruct (Ha Hus) as (Hus' & Ht & [= Hu Hs]). split_and!; [done | | unfold accounts; congruence].
  unfold reached. by rewrite Ht, Hu, Hs.
Qed.

Lemma idle_push g l : steps (idle g) (push_batch (W:=Net) l).
Proof. intros n. apply alone_idle, net_call_alone. intros t. apply accounts_push_batch. Qed.

Lemma idle_fetch g x v : steps (idle g) (fetch_payload (W:=Net) x v).
Proof. intros n. apply alone_idle, net_call_alone. intros t. apply accounts_payloads. Qed.

Lemma rotate_reached ρ tok req d :
  (∀ s row, sessions d !! hash_session_token tok = Some s → users d !! s_user_id s = Some row →
     rk_new_min_enc_key_gen req ≤ u_min_enc_key_gen row) →
  (account_rotate_key ρ tok req d).1 = d.
Proof.
  intros Hr. unfold account_rotate_key. rewrite bind_run.
  destruct (auth_user ρ tok d) as [d' [u|e]] eqn:Ha.
  2: { pose proof (auth_user_read ρ tok d) as Hd. by rewrite Ha in Hd. }
  apply auth_user_ok in Ha as [-> (s & Hs & <- & _)]. unfold decode_b64, get_user_by_id, call.
  rewrite bind_run. destruct (b64_decode _) as [b|]; [|done]. run_next. destruct (bad_blob_size b); [done|].
  run_next. cbn [map_res]. run_next.
  destruct (users d !! s_user_id s) as [row|] eqn:Hu; [|done]. run_next.
  by rewrite bool_decide_true by eauto.
Qed.

Lemma idle_rotate g b : steps (idle (as_i64 g)) (ClientSync.rotate_key (W:=Net) g b).
Proof.
  intros n Hus Hr. refine (alone_idle _ _ _ _ Hus Hr). apply net_call_alone. intros t.
  by rewrite rotate_reached.
Qed.

Lemma idle_remote g {A} ctx (m : M Net TransportError A) :
  steps (idle g) m → steps (λ w w', idle g (remote w) (remote w')) (on_remote ctx m).
Proof. intros Hm w. specialize (Hm (remote w)). unfold on_remote. by destruct (m (remote w)). Qed.

#[local] Instance idle_world_preorder g : PreOrder (λ w w', idle g (remote w) (remote w')).
Proof. split; [intros w; reflexivity | intros w1 w2 w3 A B; by etransitivity]. Qed.

Lemma idle_db g {A} ctx (m : local A) : steps (λ w w', idle g (remote w) (remote w')) (on_db ctx m).
Proof. intros w. unfold on_db. destruct (m _). reflexivity. Qed.

Lemma idle_upd g f : steps (λ w w', idle g (remote w) (remote w')) (upd f).
Proof. intros w. reflexivity. Qed.

(** A rotation to a generation the account has already reached, as when an
    earlier one was cut short after the server took it, stores nothing on the
    server, which keeps the key wrapped by the earlier rotation; and if it ends
    in success, as it does in the witness below, the client holds from then on
    a key drawn afresh, which only its own tables have wrapped. *)
Theorem retried_rotation_not_stored `{!CryptoLaws, !VaultLaws} g w w' r :
  canonical (c_db (client w)) → only_us (remote w) → reached (as_i64 g) (remote w) →
  Vault.rotate_key g w = (w', r) →
  users (net_db (remote w')) = users (net_db (remote w)) ∧
  (r = Ok () → k_svk (c_keys (client w')) = Some (os_random (c_rng (client w)) 32)).
Proof.
  intros Hc Hus Hre Hr. split.
  - assert (steps (λ w w', idle (as_i64 g) (remote w) (remote w')) (Vault.rotate_key g)) as Hi.
    { unfold Vault.rotate_key, require_unlocked, require_svk, rotate_batch, rotate_row, settle_outcome,
        reencrypted, draw, or_msg, try_crypto, set_local_gen, set_svk, set_dek, publish, cl.
      pose proof (λ A ctx m, idle_remote (as_i64 g) (A:=A) ctx m). pose proof idle_db. pose proof idle_upd.
      pose proof idle_push. pose proof idle_fetch. pose proof idle_rotate. steps_tac; auto. }
    specialize (Hi w Hus Hre). rewrite Hr in Hi. destruct Hi as (_ & _ & [= Hu _]). done.
  - intros ->. destruct (rotate_key_ok _ _ _ Hc Hr) as (mk & [_ Hk _ _]). by rewrite Hk.
Qed.
End ServerCopy.

(** ** Witnesses *)
Section RotationWitnesses.
#[local] Existing Instances Concrete.toy_ext toy_webauthn toy_crypto toy_vault.

(** A vault key, as it is wrapped under the password, and two items under it:
    one of them in the trash. *)
Definition demo_svk : blob := pad 32 (utf8 "vault key of alice").
Definition got {E} (r : result E blob) : blob := match r with Ok b => b | Err _ => [] end.
Definition demo_mk : blob := got (derive_master_key "mp" []).
Definition demo_wrapped : blob := got (wrap_svk (pad 24 []) (derive_kek demo_mk) demo_svk).
Definition demo_sealed (x pt : string) : blob := got (encrypt (pad 24 []) (derive_dek demo_svk) x 2 (utf8 pt)).
Definition demo_item (x : Uuid) (trashed : bool) : DomainModel :=
  mkDomainModel x 2 (blank_overview x) (mkSecret "" None "" []) (mkItemMetadata 0 0 trashed).
Definition key_ops : list ClientOp :=
  [CUnlockPassword "mp" [] demo_wrapped "alice" 2; CConnect "alice";
   CSave (demo_item "i1" false) (demo_sealed "i1" "hunter2"); CSave (demo_item "i9" true) (demo_sealed "i9" "old pin")].
Definition key_world (script : list Turn) : World Net :=
  client_run key_ops (mkWorld (new_client fresh_local) (mkNet created "sess" script [])).
Definition key_demo : World Net := key_world (replicate 4 (demo_turn [] Delivered)).

Lemma key_world_wf script : client_wf (client (key_world script)).
Proof. apply client_run_wf, fresh_client_wf. Qed.

(** [canonical], as a check. *)
Lemma canonical_check l :
  forallb (λ kr : string * OverviewRow, bool_decide (uuid_parse kr.1 = Some kr.1)) (map_to_list (overviews l)) = true →
  canonical l.
Proof.
  intros Hb x o Hx. rewrite forallb_forall in Hb. apply elem_of_map_to_list, list_elem_of_In, Hb in Hx.
  by apply bool_decide_eq_true in Hx.
Qed.

Definition result_ok {E} (r : result E ()) : bool := match r with Ok _ => true | Err _ => false end.
Lemma rotation_ok g w : result_ok (Vault.rotate_key g w).2 = true →
  Vault.rotate_key g w = ((Vault.rotate_key g w).1, Ok ()).
Proof. destruct (Vault.rotate_key g w) as [w' [[]|e]]; [done | discriminate]. Qed.

(** [rotates], as a check. *)
Definition rotatesb (g : Z) (l : Local) (x : Uuid) : bool :=
  match overviews l !! x, payloads l !! x with
  | Some o, Some _ => bool_decide (ov_deleted_date o = None) && bool_decide (ov_enc_key_gen o < as_i64 g)
  | _, _ => false
  end.
Lemma rotates_check g l x : rotatesb g l x = true ↔ rotates g l x.
Proof.
  unfold rotatesb, rotates. destruct (overviews l !! x) as [o|]; [|naive_solver].
  destruct (payloads l !! x) as [p|]; [|split; [done | by intros (? & ? & [? ?] & ?)]].
  rewrite andb_true_iff, !bool_decide_eq_true. naive_solver.
Qed.

(** The live item opens as before, under the new key; the trashed one, whose
    row stayed, no longer does. *)
Lemma rotation_rekeys_live_items_witness :
  let w' := (Vault.rotate_key 3 key_demo).1 in
  open_item (client w') "i1" = open_item (client key_demo) "i1" ∧
  payloads (c_db (client w')) !! "i9" = payloads (c_db (client key_demo)) !! "i9" ∧
  open_item (client key_demo) "i1" = Some (utf8 "hunter2") ∧
  open_item (client key_demo) "i9" = Some (utf8 "old pin") ∧ open_item (client w') "i9" = None.
Proof.
  assert (Vault.rotate_key 3 key_demo = ((Vault.rotate_key 3 key_demo).1, Ok ())) as Hr
    by (apply rotation_ok; vm_compute; reflexivity).
  assert (canonical (c_db (client key_demo))) as Hc by (apply canonical_check; vm_compute; reflexivity).
  assert (is_u64 (current_key_gen (client (Vault.rotate_key 3 key_demo).1))) as Hg
    by (vm_compute; split; discriminate).
  assert (rotates (current_key_gen (client (Vault.rotate_key 3 key_demo).1)) (c_db (client key_demo)) "i1") as H1
    by (apply rotates_check; vm_compute; reflexivity).
  assert (¬ rotates (current_key_gen (client (Vault.rotate_key 3 key_demo).1)) (c_db (client key_demo)) "i9") as H9
    by (rewrite <-rotates_check, not_true_iff_false; vm_compute; reflexivity).
  pose proof (rotation_rekeys_live_items 3 key_demo _ "i1" (key_world_wf _) Hc Hr Hg) as [Hlive _].
  pose proof (rotation_rekeys_live_items 3 key_demo _ "i9" (key_world_wf _) Hc Hr Hg) as [_ Hrest].
  destruct (Hlive H1) as (_ & Ho & _). destruct (Hrest H9) as [_ Hp].
  split; [exact Ho|]. split; [exact Hp|]. split_and!; vm_compute; reflexivity.
Defined.

Definition device_demo : World Net := mkWorld (new_client fresh_local) (mkNet created "sess" [] []).

(** [no_other_reading], as a check: the cipher refuses the id. *)
Lemma reading_check mk uid wrapped svk :
  is_ok (decrypt (derive_kek mk) uid 0 wrapped) = false → no_other_reading mk uid wrapped svk.
Proof. intros Hd pt Hp. by rewrite Hp in Hd. Qed.

Lemma rotated_vault_unlocks_witness :
  let w' := (Vault.rotate_key 3 key_demo).1 in
  ∃ wrapped w2, stored_svk (c_db (client w')) = Some wrapped ∧
    unlock_with_password "mp" [] wrapped "alice" (current_key_gen (client w')) device_demo = (w2, Ok ()) ∧
    c_keys (client w2) = c_keys (client w').
Proof.
  destruct (rotated_vault_unlocks 3 key_demo (Vault.rotate_key 3 key_demo).1 device_demo "mp" [] demo_mk "alice")
    as (wrapped & svk & Hst & Hk & Hun).
  - apply canonical_check. vm_compute. reflexivity.
  - apply rotation_ok. vm_compute. reflexivity.
  - vm_compute. reflexivity.
  - vm_compute. reflexivity.
  - split; reflexivity.
  - destruct Hun as (w2 & Hun & Hkeys); [|exact (ex_intro _ wrapped (ex_intro _ w2 (conj Hst (conj Hun Hkeys))))].
    apply reading_check. assert (wrapped = default [] (stored_svk (c_db (client (Vault.rotate_key 3 key_demo).1)))) as ->
      by (by rewrite Hst). vm_compute. reflexivity.
Defined.

(** The server takes the first rotation, its answer is lost, and the rotation
    is tried again: it answers success, and the password then opens, from what
    the server has, a key that reads nothing. *)
Definition retry_demo : World Net :=
  (Vault.rotate_key 3 (key_world ([demo_turn [] ResponseLost] ++ replicate 4 (demo_turn [] Delivered)))).1.
Definition server_svk (d : Db) : blob := default [] (u_svk_ciphertext_blob <$> users d !! "alice").
Definition after_login (w : World Net) : Client :=
  client (unlock_with_password "mp" [] (server_svk (net_db (remote w))) "alice" 3
    (mkWorld (with_keys (λ _, mkKeys None None None 1 true) (with_transport (λ _, false) (client w))) (remote w))).1.

Lemma retried_rotation_not_stored_witness :
  let w' := (Vault.rotate_key 3 retry_demo).1 in
  (Vault.rotate_key 3 retry_demo).2 = Ok () ∧
  users (net_db (remote w')) = users (net_db (remote retry_demo)) ∧
  open_item (client w') "i1" = Some (utf8 "hunter2") ∧
  is_locked (after_login w') = false ∧ open_item (after_login w') "i1" = None.
Proof.
  split; [vm_compute; reflexivity|]. split.
  - apply (retried_rotation_not_stored 3 retry_demo (Vault.rotate_key 3 retry_demo).1 (Vault.rotate_key 3 retry_demo).2).
    + apply canonical_check. vm_compute. reflexivity.
    + vm_compute. repeat constructor.
    + intros s row Hs Hu. vm_compute in Hs. injection Hs as <-. vm_compute in Hu. injection Hu as <-.
      vm_compute. discriminate.
    + by destruct (Vault.rotate_key 3 retry_demo).
  - split_and!; vm_compute; reflexivity.
Defined.

(** Recovered from the phrase, then given a new password. *)
Definition demo_wrapped_rk : blob := got (rk_wrap_svk (pad 24 []) demo_svk (derive_kek_rk toy_phrase) "alice").
Definition recovery_demo : World Net :=
  client_run [CRecover toy_phrase demo_wrapped_rk "alice"] (mkWorld (new_client fresh_local) (mkNet created "sess" [] [])).
Definition handed_over : string * blob * blob :=
  match (complete_recovery "new" [] recovery_demo).2 with Ok r => r | Err _ => ("", [], []) end.

Lemma completed_recovery_reopens_witness :
  (∃ w2, recover_with_key handed_over.1.1 handed_over.2 "alice" device_demo = (w2, Ok ()) ∧
     k_svk (c_keys (client w2)) = Some demo_svk) ∧
  ∃ w2, unlock_with_password "new" [] handed_over.1.2 "alice" 2 device_demo = (w2, Ok ()) ∧
    k_svk (c_keys (client w2)) = Some demo_svk.
Proof.
  destruct (completed_recovery_reopens "new" [] (got (derive_master_key "new" [])) demo_svk "alice" recovery_demo
    (complete_recovery "new" [] recovery_demo).1 device_demo handed_over.1.1 handed_over.1.2 handed_over.2 2) as [Hrk Hmp].
  - vm_compute. reflexivity.
  - reflexivity.
  - vm_compute. reflexivity.
  - vm_compute. reflexivity.
  - vm_compute. reflexivity.
  - split; [exact Hrk|]. apply Hmp; [|split; reflexivity]. apply reading_check. vm_compute. reflexivity.
Defined.
End RotationWitnesses.
