(* ===== verification/WebClient.v ===== *)
(** * The browser client and the OPAQUE client

    Models [core/vautr-wasm/src/] ([auth.rs]: what the web application calls to
    register, log in, wrap and unwrap the vault key and seal items; [client.rs]:
    the handle table of the extension) and [core/vautr-auth/src/state.rs].  The
    client half of OPAQUE is the class [OpaqueClient], with the correctness of
    the exchange as its law.  The conversions of wasm-bindgen between Rust and
    JavaScript values are left out.  Shows that a vault made in the browser opens
    there and on a device, that a registered password logs in, and which recovery
    the browser cannot do. *)
From S2P Require Import Prelude Domain Database Concrete Users Items Tokens Sync.
From S2P Require Import Projects Mfa Auth Account Webauthn System History.
From S2P Require Import ClientDb ClientSync Crypto Client Replica Http Vault ConcreteClient Custody Rotation.
From Stdlib Require Import Strings.Byte.

Local Open Scope Z_scope.

(** ** The client half of OPAQUE

    [opaque-ke], behind [vautr-crypto/src/opaque.rs]; the first argument of
    each is the generator.  The server half is in [Ext]. *)
Class OpaqueClient := {
  client_register_start : blob → string → option (blob * blob);                (* request, state *)
  client_register_finish : blob → blob → blob → string → blob → option (blob * blob);   (* upload, export key *)
  client_login_start : blob → string → option (blob * blob);                   (* request, state *)
  client_login_finish : blob → blob → blob → string → blob → option (blob * blob);      (* upload, session key *)
}.

(** What one password and one name go through. *)
Record Handshake `{Ext, OpaqueClient} (setup record : blob) (pw : string) (name : blob) : Prop := mkHandshake {
  handshake_registered : ∃ r1 creq cst sresp r2 upload ek,
    client_register_start r1 pw = Some (creq, cst) ∧ opaque_register_start setup creq name = Some sresp ∧
    client_register_finish r2 cst sresp pw name = Some (upload, ek) ∧ opaque_register_finish upload = Some record }.

(** OPAQUE completes for a registered password, and both sides get one key. *)
Class OpaqueLaws `{Ext, OpaqueClient} : Prop := {
  opaque_correct setup record pw name r1 lreq lst r2 lresp sst r3 :
    Handshake setup record pw name → client_login_start r1 pw = Some (lreq, lst) →
    opaque_login_start r2 setup (Some record) lreq name = Some (lresp, sst) →
    ∃ lup key, client_login_finish r3 lst lresp pw name = Some (lup, key) ∧
               opaque_login_finish sst lup = Some key;
}.

(** ** vautr-auth: state.rs *)
Module AuthState.
Inductive RegistrationState := Start | AwaitingServer | Complete.
Inductive LoginState := LoginStart | LoginAwaitingServer | Authenticated.
Inductive AuthError :=
| InvalidCredentials | BiometricUnavailable | Protocol (what : string) | KeystoreError (what : string)
| SecondFactorRequired.

Section AuthState.
Context {OC : OpaqueClient}.

Definition protocol_err {A} (context : string) (o : option A) : result AuthError A :=
  res_of (Protocol context) o.

(** The client's state first. *)
Definition registration_start (rng : blob) (password : string) : result AuthError (blob * blob) :=
  '(msg, state) ← protocol_err "opaque registration start" (client_register_start rng password);
  mret (state, msg).
Definition registration_finish (rng client_state server_response : blob) (password : string)
    (credential_identifier : blob) : result AuthError (blob * blob * RegistrationState) :=
  '(upload, export) ← protocol_err "opaque registration finish"
     (client_register_finish rng client_state server_response password credential_identifier);
  mret (upload, export, Complete).
Definition login_start (rng : blob) (password : string) : result AuthError (blob * blob) :=
  '(msg, state) ← protocol_err "opaque login start" (client_login_start rng password);
  mret (state, msg).
Definition login_finish (rng client_state server_response : blob) (password : string)
    (credential_identifier : blob) : result AuthError (blob * blob * LoginState) :=
  '(upload, session_key) ← protocol_err "opaque login finish"
     (client_login_finish rng client_state server_response password credential_identifier);
  mret (upload, session_key, Authenticated).

(** The structured surface. *)
Record RegistrationStartResult := mkRegStart { rs_client_state : blob; rs_message : blob }.
Record RegistrationFinishParams := mkRegFinishP {
  rp_client_state : blob; rp_server_response : blob; rp_password : string; rp_credential_identifier : blob }.
Record RegistrationFinishResult := mkRegFinish { rf_upload : blob; rf_export_key : blob; rf_state : RegistrationState }.
Record LoginStartResult := mkLogStart { lr_client_state : blob; lr_message : blob }.
Record LoginFinishParams := mkLogFinishP {
  lp_client_state : blob; lp_server_response : blob; lp_password : string; lp_credential_identifier : blob }.
Record LoginFinishResult := mkLogFinish { lr_upload : blob; lr_session_key : blob; lr_state : LoginState }.

Definition registration_start_struct (rng : blob) (password : string) : result AuthError RegistrationStartResult :=
  '(client_state, message) ← registration_start rng password;
  mret (mkRegStart client_state message).
Definition registration_finish_struct (rng : blob) (p : RegistrationFinishParams)
    : result AuthError RegistrationFinishResult :=
  '(upload, export_key, state) ← registration_finish rng (rp_client_state p) (rp_server_response p)
     (rp_password p) (rp_credential_identifier p);
  mret (mkRegFinish upload export_key state).
Definition login_start_struct (rng : blob) (password : string) : result AuthError LoginStartResult :=
  '(client_state, message) ← login_start rng password;
  mret (mkLogStart client_state message).
Definition login_finish_struct (rng : blob) (p : LoginFinishParams) : result AuthError LoginFinishResult :=
  '(upload, session_key, state) ← login_finish rng (lp_client_state p) (lp_server_response p)
     (lp_password p) (lp_credential_identifier p);
  mret (mkLogFinish upload session_key state).
End AuthState.
End AuthState.

(** ** vautr-wasm: auth.rs *)
Module Web.

(** The texts of errors are shortened. *)
Abbreviation web := (result string).

Definition SVK_AD_USER : Uuid := nil_uuid.
Definition SVK_AD_ENC_GEN : Z := 0.
Definition str {E A} (r : result E A) : web A := map_res (λ _, "crypto"%string) r.

Definition to_arr32 (bytes : blob) : web blob :=
  if bool_decide (length bytes ≠ 32%nat) then Err "expected 32 bytes"%string else Ok bytes.

Section Web.
Context {EXT : Ext} {CEXT : CryptoExt} {OC : OpaqueClient}.

Definition generate_kdf_salt (drawn : blob) : blob := drawn.
Definition generate_svk (drawn : blob) : blob := drawn.

Definition derive_master_key (password : string) (salt : blob) : web blob :=
  salt ← to_arr32 salt;
  str (Crypto.derive_master_key password salt).
Definition derive_kek (master_key : blob) : web blob :=
  mk ← to_arr32 master_key; mret (Crypto.derive_kek mk).
Definition derive_dek (svk : blob) : web blob :=
  svk ← to_arr32 svk; mret (Crypto.derive_dek svk).

Definition wrap_svk (nonce svk kek : blob) : web blob :=
  svk ← to_arr32 svk;
  kek ← to_arr32 kek;
  str (encrypt nonce kek SVK_AD_USER SVK_AD_ENC_GEN svk).
Definition thirty_two (pt : blob) : web blob :=
  if bool_decide (length pt ≠ 32%nat) then Err "unwrapped SVK has wrong length"%string else Ok pt.
Definition unwrap_svk (wrapped kek : blob) : web blob :=
  kek ← to_arr32 kek;
  pt ← str (decrypt kek SVK_AD_USER SVK_AD_ENC_GEN wrapped);
  thirty_two pt.

Definition parse_uuid (s : string) : web Uuid := res_of "user id"%string (uuid_parse s).
Definition wrap_svk_with_ad (nonce svk kek : blob) (user_id : string) : web blob :=
  kek ← to_arr32 kek;
  svk ← to_arr32 svk;
  user ← parse_uuid user_id;
  str (encrypt nonce kek user SVK_AD_ENC_GEN svk).
Definition unwrap_svk_with_ad (wrapped kek : blob) (user_id : string) : web blob :=
  kek ← to_arr32 kek;
  user ← parse_uuid user_id;
  pt ← str (decrypt kek user SVK_AD_ENC_GEN wrapped);
  thirty_two pt.
Definition unwrap_svk_with_ad_or_legacy (wrapped kek : blob) (user_id : string) : web (blob * bool) :=
  match unwrap_svk_with_ad wrapped kek user_id with
  | Ok svk => Ok (svk, false)
  | Err _ =>
      match unwrap_svk wrapped kek with
      | Ok svk => Ok (svk, true)
      | Err _ => Err "unwrap failed under both new and legacy AD"%string
      end
  end.

(** [drawn] is the entropy. *)
Definition generate_recovery_mnemonic (drawn : blob) : web string := Ok (bip39_generate drawn).
Definition wrap_svk_with_rk (nonce svk : blob) (mnemonic : string) : web blob :=
  m ← str (decode_recovery_mnemonic mnemonic);
  svk ← to_arr32 svk;
  str (rk_wrap_svk nonce svk (derive_kek_rk m) SVK_AD_USER).
Definition recover_svk (mnemonic svk_rk_wrapped_b64 server_user_id : string) : web blob :=
  m ← str (decode_recovery_mnemonic mnemonic);
  wrapped ← res_of "svk b64"%string (b64_decode svk_rk_wrapped_b64);
  user_id ← parse_uuid server_user_id;
  str (unwrap_svk_with_rk wrapped (derive_kek_rk m) user_id).

Definition seal_mnemonic (nonce kek plaintext : blob) : web blob :=
  kek ← to_arr32 kek;
  str (encrypt nonce kek SVK_AD_USER SVK_AD_ENC_GEN plaintext).
Definition open_mnemonic (kek ciphertext : blob) : web blob :=
  kek ← to_arr32 kek;
  str (decrypt kek SVK_AD_USER SVK_AD_ENC_GEN ciphertext).

Definition sign_recovery_nonce (mnemonic nonce_b64 : string) : web string :=
  m ← str (decode_recovery_mnemonic mnemonic);
  nonce ← res_of "nonce b64"%string (b64_decode nonce_b64);
  mret (b64_encode (Crypto.sign_recovery_nonce m nonce)).
Definition recovery_public_key (mnemonic : string) : web blob :=
  m ← str (decode_recovery_mnemonic mnemonic);
  mret (Crypto.recovery_public_key m).

Definition encrypt_item (nonce : blob) (uuid : string) (enc_key_gen : Z) (dek plaintext : blob) : web blob :=
  dek ← to_arr32 dek;
  uuid ← parse_uuid uuid;
  str (encrypt nonce dek uuid enc_key_gen plaintext).
Definition decrypt_item (uuid : string) (enc_key_gen : Z) (dek payload : blob) : web blob :=
  dek ← to_arr32 dek;
  uuid ← parse_uuid uuid;
  str (decrypt dek uuid enc_key_gen payload).

Definition opaque_register_start (rng : blob) (password : string) : web (blob * blob) :=
  res_of "opaque"%string (client_register_start rng password).
Definition opaque_register_finish (rng client_state server_response : blob) (password username : string) : web blob :=
  '(upload, _) ← res_of "opaque"%string
     (client_register_finish rng client_state server_response password (utf8 username));
  mret upload.
Definition opaque_login_start (rng : blob) (password : string) : web (blob * blob) :=
  res_of "opaque"%string (client_login_start rng password).
Definition opaque_login_finish (rng client_state server_response : blob) (password username : string)
    : web (blob * blob) :=
  '(upload, session_key) ← res_of "opaque"%string
     (client_login_finish rng client_state server_response password (utf8 username));
  mret (upload, session_key).
End Web.
End Web.

(** ** The handshake, end to end *)
Section SignIn.
Context {EXT : Ext} {CEXT : CryptoExt} {OC : OpaqueClient}.

Lemma register_start_ok ρ req d d' r :
  register_start ρ req d = (d', Ok r) →
  ∃ setup creq sresp, (server_setup ρ 0 d).2 = Ok setup ∧ b64_decode (rgs_start req) = Some creq ∧
    opaque_register_start setup creq (utf8 (rgs_username req)) = Some sresp ∧ rgs_response r = b64_encode sresp.
Proof.
  unfold register_start, decode_b64. intros H. ok_inv H. eexists _, _, _. split_and!; try eassumption; [|done].
  by match goal with Hs : server_setup _ _ _ = _ |- _ => rewrite Hs end.
Qed.

Lemma create_user_ok uid email salt record svk svk_rk now d d' :
  create_user uid email salt record svk svk_rk now d = (d', Ok ()) →
  ∃ u, users d' !! uid = Some u ∧ u_opaque_record u = record ∧ u_svk_ciphertext_blob u = svk.
Proof.
  unfold create_user. intros H. ok_inv H.
  match goal with Hi : insert_row _ _ _ _ _ ?x = _ |- _ => rewrite insert_row_run in Hi; destruct (users x !! uid); [done|] end.
  match goal with Hi : _ = (d', Ok ()) |- _ => injection Hi as <- end.
  eexists. split; [db_simpl; apply lookup_insert_eq | done].
Qed.

Lemma register_finish_ok ρ req d d' r :
  register_finish ρ req d = (d', Ok r) →
  ∃ up record u, b64_decode (rgf_finish req) = Some up ∧ opaque_register_finish up = Some record ∧
    users d' !! rgf_user_id r = Some u ∧ u_opaque_record u = record ∧
    b64_decode (rgf_svk req) = Some (u_svk_ciphertext_blob u).
Proof.
  unfold register_finish, decode_b64. intros H. ok_inv H.
  match goal with Hc : create_user _ _ _ _ _ _ _ _ = (?y, Ok ?t) |- _ =>
    destruct t; apply create_user_ok in Hc as (u & Hu & Hrec & Hsvk) end.
  match goal with Ha : attempt _ _ = _ |- _ => injection Ha as <- <- end.
  match goal with Hm : match ?o with _ => _ end _ = (?z, Ok _) |- _ =>
    assert (same users x25 z) as Hsame end.
  { destruct (head _) as [v|]; [|by injection Hr14 as <-]. injection Hr14 as <-.
    apply (steps_audit (same users)). done. }
  eexists _, _, u. split_and!; try eassumption; [by rewrite Hsame | by rewrite Hsvk].
Qed.

(** What [login_start] leaves for an account. *)
Lemma login_start_ok ρ req d d' r setup :
  server_setup ρ 0 d = (d, Ok setup) → login_start ρ req d = (d', Ok r) →
  ∃ u lreq sresp st now,
    account_of (ls_username req) d = Some u ∧ b64_decode (ls_start req) = Some lreq ∧
    opaque_login_start (rand ρ 1) setup (Some (u_opaque_record u)) lreq (utf8 (ls_username req)) = Some (sresp, st) ∧
    ls_response r = b64_encode sresp ∧ login_state d' !! ls_handle r = Some (st, now) ∧
    login_state d' !! ls_username req = Some (st, now) ∧
    (∃ f, d' = with_login_state f d).
Proof.
  intros Hset. unfold login_start, decode_b64. rewrite bind_run, Hset. cbv beta iota. run_next.
  rewrite get_user_by_email_run. destruct (account_of (ls_username req) d) as [u|] eqn:Hu; [|done]. run_calls.
  destruct (b64_decode (ls_start req)) as [lreq|] eqn:Hl; [|done]. run_next.
  destruct (opaque_login_start _ _ _ _ _) as [[sresp st]|] eqn:Ho; [|done]. run_next. intros [= <- <-].
  exists u, lreq, sresp, st, (now_ms ρ). split_and!; try done; [|db_simpl; by rewrite lookup_insert_eq | by eexists].
  cbn [ls_handle]. db_simpl. set (h := String.append _ _). destruct (decide (h = ls_username req)) as [->|Hne].
  - by rewrite lookup_insert_eq.
  - by rewrite lookup_insert_ne, lookup_insert_eq by done.
Qed.

(** The session a login stores is one its token opens. *)
Lemma login_session_opens ρ token u row d d' :
  sessions d' = login_sessions ρ token u d → users d' !! u = Some row → u_suspended_until row = None →
  auth_user ρ token d' = (d', Ok u).
Proof.
  intros Hs Hu Hsus. apply auth_user_spec. eexists. split_and!.
  - rewrite Hs. apply map_lookup_filter_Some. split; [by rewrite lookup_insert_eq|].
    apply bool_decide_eq_false. simpl. lia.
  - done.
  - simpl. lia.
  - intros u0 until Hu0. congruence.
Qed.

(** C17. A password registered in the browser logs in: when [/auth/register/start]
    and [/auth/register/finish] have accepted what [auth.rs] made of a password
    and a name, then, in any later state in which the account has the record it
    registered and the server its OPAQUE setup, no second factor is set or
    demanded, and the account is not suspended, the exchange of
    [opaque_login_start] and [opaque_login_finish] with [/auth/login/start] and
    [/auth/login/finish] ends in a session of that account whose token is the
    session key the browser computed. *)
Theorem registered_password_logs_in `{!ExtLaws, !OpaqueLaws}
    pw name ρ1 ρ2 ρ3 ρ4 r1 r2 r3 r4 setup creq cst sresp upload started req d d1 d2 d2' fin u row lreq lst d3 d4 ls lresp :
  Web.opaque_register_start r1 pw = Ok (creq, cst) →
  register_start ρ1 (mkRegisterStart name (b64_encode creq)) d = (d1, Ok started) →
  (server_setup ρ1 0 d).2 = Ok setup → b64_decode (rgs_response started) = Some sresp →
  Web.opaque_register_finish r2 cst sresp pw name = Ok upload →
  rgf_username req = name → rgf_finish req = b64_encode upload →
  register_finish ρ2 req d2 = (d2', Ok fin) → users d2' !! rgf_user_id fin = Some u →
  account_of name d3 = Some row → users d3 !! u_id row = Some row → u_opaque_record row = u_opaque_record u →
  u_suspended_until row = None → mfa_totp_secrets d3 !! u_id row = None →
  mp_required (policy_in_force d3) = false → server_setup ρ3 0 d3 = (d3, Ok setup) →
  Web.opaque_login_start r3 pw = Ok (lreq, lst) →
  login_start ρ3 (mkLoginStart name (b64_encode lreq)) d3 = (d4, Ok ls) →
  b64_decode (ls_response ls) = Some lresp →
  ∃ lup key d5 resp,
    Web.opaque_login_finish r4 lst lresp pw name = Ok (lup, key) ∧
    login_finish ρ4 (mkLoginFinish name (b64_encode lup) (Some (ls_handle ls))) d4 = (d5, Ok resp) ∧
    lf_session_token resp = Some (b64_encode key) ∧ auth_user ρ4 (b64_encode key) d5 = (d5, Ok (u_id row)).
Proof.
  unfold Web.opaque_register_start, Web.opaque_register_finish, Web.opaque_login_start, Web.opaque_login_finish.
  intros Hc1 Hs1 Hsetup Hsresp Hc2 Hname Hfin Hs2 Hu Hrow Hid Hrec Hsus Hts Hpol Hset Hc3 Hs3 Hlresp.
  apply register_start_ok in Hs1 as (setup' & creq' & sresp' & Hset' & Hcreq & Hos & Hresp).
  rewrite Hset' in Hsetup. injection Hsetup as ->. cbn [rgs_start rgs_username] in *.
  rewrite b64_roundtrip in Hcreq. injection Hcreq as <-. rewrite Hresp, b64_roundtrip in Hsresp. injection Hsresp as ->.
  apply register_finish_ok in Hs2 as (up & record & u' & Hup & Hor & Hu' & Hrec' & _).
  rewrite Hfin, b64_roundtrip in Hup. injection Hup as <-. assert (u' = u) as -> by congruence.
  destruct (login_start_ok _ _ _ _ _ _ Hset Hs3) as (v & lreq' & lresp' & st & now & Hv & Hl & Hol & Hlr & Hst & _ & f & ->).
  cbn [ls_username ls_start] in *. assert (v = row) as -> by congruence.
  rewrite b64_roundtrip in Hl. injection Hl as <-. rewrite Hlr, b64_roundtrip in Hlresp. injection Hlresp as ->.
  rewrite Hrec, Hrec' in Hol.
  destruct (client_register_start r1 pw) as [[? ?]|] eqn:Hc1'; [|done]. injection Hc1 as -> ->.
  destruct (client_register_finish r2 cst sresp pw (utf8 name)) as [[? ek]|] eqn:Hc2'; [|done]. injection Hc2 as ->.
  destruct (client_login_start r3 pw) as [[? ?]|] eqn:Hc3'; [|done]. injection Hc3 as -> ->.
  destruct (opaque_correct setup record pw (utf8 name) r3 lreq lst (rand ρ3 1) lresp st r4) as (lup & key & Hlc & Hls); [|done..|].
  { constructor. by exists r1, creq, cst, sresp, r2, upload, ek. }
  destruct (login_finish_session ρ4 (mkLoginFinish name (b64_encode lup) (Some (ls_handle ls))) (with_login_state f d3) row
    (st, now) lup key) as (d5 & Hf & Hs & Hus); try done.
  { apply b64_roundtrip. }
  { apply bool_decide_eq_true. by exists row. }
  exists lup, key, d5. eexists. rewrite Hlc. split_and!; [done | exact Hf | done|].
  apply (login_session_opens _ _ _ row (with_login_state f d3)); [exact Hs | by rewrite Hus | done].
Qed.
End SignIn.

(** ** The vault of a browser *)
Section Vaults.
Context {W : Type} {TR : Transport W} {EXT : Ext} {CEXT : CryptoExt} {VEXT : VaultExt}.
Context {OC : OpaqueClient} {CLAWS : CryptoLaws}.
Implicit Types (w : World W).

Lemma to_arr32_ok b x : Web.to_arr32 b = Ok x → x = b ∧ length b = 32%nat.
Proof. unfold Web.to_arr32. case_bool_decide as Hl; [done|]. intros [= <-]. split; [done | lia]. Qed.
Lemma to_arr32_len b : length b = 32%nat → Web.to_arr32 b = Ok b.
Proof. intros Hl. unfold Web.to_arr32. by rewrite bool_decide_false by lia. Qed.
Lemma str_ok {E A} (r : result E A) a : Web.str r = Ok a → r = Ok a.
Proof. destruct r; [|done]. by intros [= ->]. Qed.
Lemma res_bind_ok {E A B} (r : result E A) (f : A → result E B) b :
  r ≫= f = Ok b → ∃ a, r = Ok a ∧ f a = Ok b.
Proof. destruct r as [a|]; [|done]. by exists a. Qed.

Lemma web_derive_kek mk kek : Web.derive_kek mk = Ok kek → kek = derive_kek mk ∧ length kek = 32%nat.
Proof.
  unfold Web.derive_kek. intros (x & [-> _]%to_arr32_ok & [= <-])%res_bind_ok. split; [done | apply hkdf_len].
Qed.
Lemma web_derive_master_key pw salt mk : Web.derive_master_key pw salt = Ok mk → derive_master_key pw salt = Ok mk.
Proof. unfold Web.derive_master_key. by intros (x & [-> _]%to_arr32_ok & H%str_ok)%res_bind_ok. Qed.

Lemma web_wrap_svk nonce svk kek b : Web.wrap_svk nonce svk kek = Ok b →
  wrap_svk nonce kek svk = Ok b ∧ length svk = 32%nat.
Proof.
  unfold Web.wrap_svk. intros (x & [-> Hs]%to_arr32_ok & H)%res_bind_ok.
  apply res_bind_ok in H as (y & [-> _]%to_arr32_ok & H%str_ok). by split.
Qed.
Lemma web_wrap_svk_with_ad nonce svk kek user b : Web.wrap_svk_with_ad nonce svk kek user = Ok b →
  ∃ uid, uuid_parse user = Some uid ∧ encrypt nonce kek uid 0 svk = Ok b ∧ length svk = 32%nat.
Proof.
  unfold Web.wrap_svk_with_ad. intros (x & [-> _]%to_arr32_ok & H)%res_bind_ok.
  apply res_bind_ok in H as (y & [-> Hs]%to_arr32_ok & H).
  apply res_bind_ok in H as (uid & Hu & H%str_ok). unfold Web.parse_uuid, res_of in Hu.
  destruct (uuid_parse user); [|done]. injection Hu as ->. by exists uid.
Qed.

Lemma thirty_two_ok svk : length svk = 32%nat → Web.thirty_two svk = Ok svk.
Proof. intros Hs. unfold Web.thirty_two. by rewrite bool_decide_false by lia. Qed.

(** C11. A vault made in the browser opens with its password, there and on a
    device: the key wrapped at registration, and the one wrapped again under the
    account's id, both unwrap in the browser to the vault key, and both unlock a
    native client (whatever its id, provided the cipher does not read the wrapped
    key as another one under it) to that key; and what the browser seals with it
    a native client opens. *)
Theorem web_vault_opens pw salt mk kek svk n1 n2 wrapped rewrapped user uid :
  Web.derive_master_key pw salt = Ok mk → Web.derive_kek mk = Ok kek →
  length n1 = NONCE_LEN → length n2 = NONCE_LEN →
  Web.wrap_svk n1 svk kek = Ok wrapped → Web.wrap_svk_with_ad n2 svk kek user = Ok rewrapped →
  uuid_parse user = Some uid → no_other_reading mk uid wrapped svk →
  Web.unwrap_svk wrapped kek = Ok svk ∧
  (∃ legacy, Web.unwrap_svk_with_ad_or_legacy wrapped kek user = Ok (svk, legacy)) ∧
  Web.unwrap_svk_with_ad_or_legacy rewrapped kek user = Ok (svk, false) ∧
  (∀ g w b, offline (client w) → b ∈ [wrapped; rewrapped] →
     ∃ w', unlock_with_password pw salt b uid g w = (w', Ok ()) ∧
       c_keys (client w') = mkKeys (Some svk) (Some (derive_dek svk)) (Some mk) g false) ∧
  (∀ n dek x id g pt env, length n = NONCE_LEN → Web.derive_dek svk = Ok dek → uuid_parse x = Some id →
     Web.encrypt_item n x g dek pt = Ok env →
     Web.decrypt_item x g dek env = Ok pt ∧ decrypt (derive_dek svk) id g env = Ok pt).
Proof.
  intros Hmk%web_derive_master_key [-> Hkl]%web_derive_kek Hn1 Hn2 Hw Hw2 Huid Hread.
  apply web_wrap_svk in Hw as [Hw Hs]. apply web_wrap_svk_with_ad in Hw2 as (uid' & Hu' & Hw2 & _).
  assert (uid' = uid) as -> by congruence.
  pose proof (decrypt_encrypt _ _ _ _ _ _ Hn1 Hw) as Hd. pose proof (decrypt_encrypt _ _ _ _ _ _ Hn2 Hw2) as Hd2.
  assert (Web.unwrap_svk wrapped (derive_kek mk) = Ok svk) as Hun.
  { unfold Web.unwrap_svk. rewrite to_arr32_len by done. unfold Web.SVK_AD_USER, Web.SVK_AD_ENC_GEN.
    cbn -[decrypt]. rewrite Hd. by apply thirty_two_ok. }
  assert (∀ b, Web.unwrap_svk_with_ad b (derive_kek mk) user =
            match decrypt (derive_kek mk) uid 0 b with Ok pt => Web.thirty_two pt | Err _ => Err "crypto"%string end) as Hwith.
  { intros b. unfold Web.unwrap_svk_with_ad, Web.parse_uuid. rewrite to_arr32_len, Huid by done.
    cbn -[decrypt]. unfold Web.SVK_AD_ENC_GEN. by destruct (decrypt (derive_kek mk) uid 0 b). }
  split; [exact Hun|]. split_and!.
  - unfold Web.unwrap_svk_with_ad_or_legacy. rewrite Hwith, Hun.
    destruct (decrypt (derive_kek mk) uid 0 wrapped) as [pt|] eqn:Hp; [|by exists true].
    rewrite (Hread _ Hp), thirty_two_ok by done. by exists false.
  - unfold Web.unwrap_svk_with_ad_or_legacy. by rewrite Hwith, Hd2, thirty_two_ok by done.
  - intros g w b Hoff Hb. apply (unlock_reads pw salt mk svk b uid g w Hs); [|done|done].
    apply elem_of_cons in Hb as [->|Hb]; [by apply (read_nil_wrapped n1)|]. apply list_elem_of_singleton in Hb as ->.
    unfold read_wrapped. by rewrite Hd2.
  - intros n dek x id g pt env Hn Hdek Hx Henv.
    unfold Web.derive_dek in Hdek. apply res_bind_ok in Hdek as (y & [-> _]%to_arr32_ok & [= <-]).
    assert (length (derive_dek svk) = 32%nat) as Hl by apply hkdf_len.
    unfold Web.encrypt_item, Web.decrypt_item, Web.parse_uuid in *. rewrite to_arr32_len, Hx in * by done.
    cbn -[encrypt decrypt] in *. apply str_ok in Henv. by rewrite (decrypt_encrypt _ _ _ _ _ _ Hn Henv).
Qed.

(** The browser wraps the vault key for its recovery phrase under the nil id and
    opens it under the account's: unless the cipher reads it there too, the
    recovery fails, with the right phrase, where a device would succeed. *)
Lemma browser_recovery_refused `{!ExtLaws} nonce svk words m wrapped user uid :
  length nonce = NONCE_LEN → Web.wrap_svk_with_rk nonce svk words = Ok wrapped →
  decode_recovery_mnemonic words = Ok m → uuid_parse user = Some uid →
  is_ok (decrypt (derive_kek_rk m) uid 0 wrapped) = false →
  is_ok (Web.recover_svk words (b64_encode wrapped) user) = false ∧ recover_svk words wrapped uid = Some svk.
Proof.
  intros Hn Hw Hm Huid Hd. unfold Web.wrap_svk_with_rk in Hw. rewrite Hm in Hw.
  apply res_bind_ok in Hw as (m' & [= <-] & Hw). apply res_bind_ok in Hw as (x & [-> Hs]%to_arr32_ok & Hw%str_ok).
  pose proof (unwrap_rk_wrap _ _ _ _ _ Hn Hs Hw) as Hnil.
  destruct (decrypt (derive_kek_rk m) uid 0 wrapped) as [?|e] eqn:He; [done|].
  assert (unwrap_svk_with_rk wrapped (derive_kek_rk m) uid = Err (RecoveryError "RK unwrap failed (bad mnemonic?)")) as Hrk.
  { unfold unwrap_svk_with_rk. by rewrite He. }
  split.
  - unfold Web.recover_svk, Web.parse_uuid. rewrite Hm, b64_roundtrip, Huid. cbn -[unwrap_svk_with_rk]. by rewrite Hrk.
  - unfold recover_svk. rewrite Hm, Hrk. unfold Web.SVK_AD_USER in Hnil. by rewrite Hnil.
Qed.
End Vaults.

(** ** vautr-wasm: client.rs, the handles of the extension

    Milliseconds.  [acted] is what the platform handler was given: the action and
    the bytes of the secret, before their conversion to a JavaScript string. *)
Module Extension.
Definition IDLE_TTL : Z := 60 * 1000.
Definition TICK : Z := 10 * 1000.

Record TrackedSecret := mkTracked { last_accessed : Z; tracked_data : blob }.
Record WebClient := mkWebClient {
  wc_svk : option blob; wc_dek : option blob; wc_local_gen : Z; wc_handles : gmap Z TrackedSecret;
  wc_next : Z; wc_handler : bool; acted : list (string * blob) }.
Definition new : WebClient := mkWebClient None None 1 ∅ 1 false [].

Abbreviation ext := (M WebClient string).

Definition with_handles (f : gmap Z TrackedSecret → gmap Z TrackedSecret) (c : WebClient) : WebClient :=
  mkWebClient (wc_svk c) (wc_dek c) (wc_local_gen c) (f (wc_handles c)) (wc_next c) (wc_handler c) (acted c).

(** *** HandleStore *)
Definition reveal (now : Z) (secret : blob) : ext Z :=
  id ← gets wc_next;
  modify (λ c, mkWebClient (wc_svk c) (wc_dek c) (wc_local_gen c) (<[id := mkTracked now secret]> (wc_handles c))
    (as_u64 (id + 1)) (wc_handler c) (acted c));;
  mret id.
Definition access (now handle : Z) : ext (option blob) :=
  o ← gets (λ c, wc_handles c !! handle);
  modify (with_handles (alter (λ h, mkTracked now (tracked_data h)) handle));;
  mret (tracked_data <$> o).
Definition release (handle : Z) : ext () := modify (with_handles (delete handle)).
(** What the interval runs. *)
Definition reap (now : Z) : ext () :=
  modify (with_handles (filter (λ kh, (u64_saturating_sub now (last_accessed kh.2) ≤ IDLE_TTL)%Z))).

Section Client.
Context {EXT : Ext} {CEXT : CryptoExt}.

Definition set_action_handler : ext () :=
  modify (λ c, mkWebClient (wc_svk c) (wc_dek c) (wc_local_gen c) (wc_handles c) (wc_next c) true (acted c)).
Definition unlock_with_raw_key (raw_key : blob) (local_gen : Z) : ext () :=
  guard_err (bool_decide (length raw_key ≠ 32%nat)) "raw key must be 32 bytes"%string;;
  modify (λ c, mkWebClient (Some raw_key) (Some (derive_dek raw_key)) local_gen (wc_handles c) (wc_next c)
    (wc_handler c) (acted c)).
Definition unlocked_dek : ext blob :=
  o ← gets wc_dek; ok_or "vault is locked"%string o.

(** The handle is cut to 32 bits. *)
Definition reveal_secret (now : Z) (uuid : string) (enc_key_gen : Z) (payload : blob) : ext Z :=
  dek ← unlocked_dek;
  uuid ← ok_or "uuid"%string (uuid_parse uuid);
  pt ← lift (Web.str (decrypt dek uuid enc_key_gen payload));
  handle ← reveal now pt;
  mret (as_u32 handle).

(** [answer] is whether the handler threw. *)
Definition perform_action (now : Z) (action_json : string) (handle : Z) (answer : bool) : ext () :=
  o ← access now handle;
  secret ← ok_or "handle expired or unknown"%string o;
  h ← gets wc_handler;
  guard_err (negb h) "no platform action handler registered"%string;;
  modify (λ c, mkWebClient (wc_svk c) (wc_dek c) (wc_local_gen c) (wc_handles c) (wc_next c) (wc_handler c)
    (acted c ++ [(action_json, secret)]));;
  guard_err (negb answer) "platform action handler failed"%string.
Definition release_secret (handle : Z) : ext () := release handle.
Definition encrypt_secret (nonce : blob) (uuid : string) (enc_key_gen : Z) (plaintext : blob) : ext blob :=
  dek ← unlocked_dek;
  uuid ← ok_or "uuid"%string (uuid_parse uuid);
  lift (Web.str (encrypt nonce dek uuid enc_key_gen plaintext)).

Definition read_secret (now handle : Z) : ext blob :=
  o ← access now handle; ok_or "handle expired or unknown"%string o.

(** What the extension is asked, and the interval. *)
Inductive Request :=
| Unlock (raw_key : blob) (gen : Z) | SetHandler | Reveal (uuid : string) (gen : Z) (payload : blob)
| Act (action_json : string) (handle : Z) (answer : bool) | Release (handle : Z)
| Seal (nonce : blob) (uuid : string) (gen : Z) (plaintext : blob) | Reap.

Definition serve (now : Z) (q : Request) (c : WebClient) : WebClient :=
  match q with
  | Unlock k g => (unlock_with_raw_key k g c).1
  | SetHandler => (set_action_handler c).1
  | Reveal u g p => (reveal_secret now u g p c).1
  | Act a h b => (perform_action now a h b c).1
  | Release h => (release_secret h c).1
  | Seal n u g p => (encrypt_secret n u g p c).1
  | Reap => (reap now c).1
  end.

(** What is sealed and revealed is what the handler gets, and a handle the
    interval finds idle is gone. *)
Lemma sealed_reaches_handler `{!CryptoLaws} nonce uuid g pt c now now' env c1 c2 h a :
  length nonce = NONCE_LEN → encrypt_secret nonce uuid g pt c = (c1, Ok env) →
  reveal_secret now uuid g env c1 = (c2, Ok h) → 0 ≤ wc_next c < 2 ^ 32 → wc_handler c = true →
  ∃ c3, perform_action now' a h true c2 = (c3, Ok ()) ∧ acted c3 = acted c ++ [(a, pt)].
Proof.
  intros Hn He Hr Hnext Hh. unfold encrypt_secret, unlocked_dek in He. ok_inv He.
  match goal with Hs : Web.str _ = _ |- _ => apply str_ok in Hs; pose proof (decrypt_encrypt _ _ _ _ _ _ Hn Hs) as Hd end.
  unfold reveal_secret, unlocked_dek, reveal in Hr. ok_inv Hr.
  repeat match goal with H1 : ?x = Some _, H2 : ?x = Some _ |- _ => rewrite H1 in H2; injection H2 as <- end.
  match goal with Hs : Web.str _ = _ |- _ => apply str_ok in Hs end.
  assert (as_u32 (wc_next c) = wc_next c) as -> by (unfold as_u32; by rewrite Z.mod_small).
  unfold perform_action, access. run_step. rewrite lookup_insert_eq. cbn. rewrite Hh. run_step.
  eexists. split; [reflexivity|]. cbn. congruence.
Qed.

Lemma idle_handle_reaped now h s c : wc_handles c !! h = Some s → IDLE_TTL < now - last_accessed s →
  wc_handles (reap now c).1 !! h = None.
Proof.
  intros Hs Hi. cbn. apply map_lookup_filter_None. right. intros s' Hs'. unfold u64_saturating_sub. cbn.
  assert (s' = s) as -> by congruence. unfold IDLE_TTL in *. lia.
Qed.
End Client.
End Extension.

(** ** Witnesses *)
Section WebWitnesses.
#[local] Existing Instances Concrete.toy_ext toy_webauthn toy_crypto toy_vault Offline.

(** Against the server of [Concrete.toy_ext]: the record is the password, and the
    session key the record and the request. *)
#[local] Instance toy_opaque : OpaqueClient := {|
  client_register_start _ pw := Some (utf8 pw, []);
  client_register_finish _ _ _ pw _ := Some (utf8 pw, []);
  client_login_start rng _ := Some (rng, rng);
  client_login_finish _ st _ pw _ := Some (utf8 pw ++ st, utf8 pw ++ st) |}.

#[local] Instance toy_opaque_laws : OpaqueLaws.
Proof.
  split. intros setup record pw name r1 lreq lst r2 lresp sst r3 [H] Hl Hs.
  destruct H as (? & ? & ? & ? & ? & ? & ? & _ & _ & [= <- <-] & [= <-]).
  injection Hl as -> ->. injection Hs as <- <-. exists (utf8 pw ++ lst), (utf8 pw ++ lst). split; [done|].
  cbn. by rewrite bool_decide_true.
Qed.

Lemma handler_ran {A} (m : handler A) d a : (m d).2 = Ok a → m d = ((m d).1, Ok a).
Proof. intros <-. by destruct (m d). Qed.

(** Carol registers and logs in. *)
Definition carol : string := "carol@example.org".
Definition started : RegisterStartResp :=
  match (register_start (Concrete.demo_env 100) (mkRegisterStart carol (b64_encode (utf8 "pw"))) login_db).2 with
  | Ok r => r | Err _ => mkRegisterStarted "" "" end.
Definition signup : RegisterFinishReq :=
  mkRegisterFinish carol (b64_encode (utf8 "pw")) (rgs_server_public_key started) (b64_encode []) (b64_encode []) (b64_encode []).
Definition db1 : Db := (register_start (Concrete.demo_env 100) (mkRegisterStart carol (b64_encode (utf8 "pw"))) login_db).1.
Definition db2 : Db := (register_finish (Concrete.demo_env 200) signup db1).1.
Definition row : UserRow := default (Concrete.demo_user "" 0) (users db2 !! "n0"%string).
Definition hello : LoginStartReq := mkLoginStart carol (b64_encode [x41]).
Definition greeted : LoginStartResp :=
  match (Auth.login_start (Concrete.demo_env 300) hello db2).2 with Ok r => r | Err _ => mkLoginStarted "" "" end.

Lemma registered_password_logs_in_witness :
  ∃ lup key d5 resp,
    Web.opaque_login_finish [] [x41] (default [] (b64_decode (ls_response greeted))) "pw" carol = Ok (lup, key) ∧
    Auth.login_finish (Concrete.demo_env 400) (mkLoginFinish carol (b64_encode lup) (Some (ls_handle greeted)))
      (Auth.login_start (Concrete.demo_env 300) hello db2).1 = (d5, Ok resp) ∧
    lf_session_token resp = Some (b64_encode key) ∧
    auth_user (Concrete.demo_env 400) (b64_encode key) d5 = (d5, Ok (u_id row)).
Proof.
  apply (registered_password_logs_in "pw" carol (Concrete.demo_env 100) (Concrete.demo_env 200)
           (Concrete.demo_env 300) (Concrete.demo_env 400) [] [] [x41] [] [x01] (utf8 "pw") []
           (default [] (b64_decode (rgs_response started))) (utf8 "pw") started signup login_db db1 db1 db2
           (mkRegistered "success" "n0") row row [x41] [x41] db2 (Auth.login_start (Concrete.demo_env 300) hello db2).1
           greeted); try reflexivity; try (apply handler_ran; vm_compute; reflexivity); vm_compute; reflexivity.
Defined.

Definition web_mk : blob := default [] (argon2id "mp" (replicate 32 x02)).
Definition web_svk : blob := replicate 32 x07.
Definition sealed_for (uid : Uuid) : blob :=
  match encrypt (replicate 24 x03) (derive_kek web_mk) uid 0 web_svk with Ok b => b | Err _ => [] end.

Lemma web_vault_opens_witness :
  Web.unwrap_svk_with_ad_or_legacy (sealed_for "alice") (derive_kek web_mk) "alice" = Ok (web_svk, false) ∧
  ∃ w', unlock_with_password "mp" (replicate 32 x02) (sealed_for nil_uuid) "alice" 1
          (mkWorld (new_client fresh_local) ()) = (w', Ok ()) ∧ k_svk (c_keys (client w')) = Some web_svk.
Proof.
  destruct (web_vault_opens (W:=()) "mp" (replicate 32 x02) web_mk (derive_kek web_mk) web_svk
    (replicate 24 x03) (replicate 24 x03) (sealed_for nil_uuid) (sealed_for "alice") "alice" "alice")
    as (_ & _ & H & Hun & _).
  1-8: first [reflexivity | vm_compute; reflexivity | apply reading_check; vm_compute; reflexivity].
  split; [exact H|]. destruct (Hun 1 (mkWorld (new_client fresh_local) ()) (sealed_for nil_uuid)) as (w' & Hw & Hk).
  - split; reflexivity.
  - left.
  - exists w'. split; [exact Hw|]. by rewrite Hk.
Defined.
End WebWitnesses.
