(* ===== verification/WebShare.v ===== *)
(** * Sharing from the browser, over the server

    Models [core/vautr-wasm/src/sharing.rs], the bindings through which the web
    application shares items: the functions of [vautr-sharing] (Module [Shares])
    on the JSON the server and the SDK exchange.  A JSON object is the record of
    its fields, so an entry of an inbox is what Sharing.v answers; random bytes
    are arguments.  Shows what goes through the handlers of [handlers/sharing.rs]
    from one browser to another, whatever other requests come in between, and
    which groups the browser cannot create. *)
From S2P Require Import Prelude Domain Database Concrete Users Items Tokens Sync.
From S2P Require Import Projects Secrets Files Sharing Mfa Auth Recovery Account Webauthn AuditLog System History.
From S2P Require Import Crypto ShareCrypto ConcreteClient WebClient.

Local Open Scope Z_scope.

(** ** vautr-wasm: sharing.rs *)
Module Browser.
Import Web.

(** [{ public, secret }] and [{ group, secret }], in base64. *)
Record KeyPairJson := mkKeyPair { kj_public : string; kj_secret : string }.
Record GroupKeyJson := mkGroupJson {
  gj_group_id : string; gj_name : string; gj_admin_uuid : string; gj_secret : string }.

Section Browser.
Context {EXT : Ext} {CEXT : CryptoExt}.

Definition decode_b64 (s : string) : web blob := res_of "base64 decode"%string (b64_decode s).
Definition key_bytes (whose s : string) : web blob :=
  b ← decode_b64 s;
  if bool_decide (length b ≠ 32%nat) then Err (whose +:+ " public key must be 32 bytes")%string else mret b.

Definition parse_keypair (secret_b64 : string) : web Kem.SharingKeyPair :=
  secret ← decode_b64 secret_b64;
  if bool_decide (length secret ≠ 32%nat) then Err "sharing secret must be 32 bytes"%string
  else mret (Kem.from_secret secret).

Definition pair_json (kp : Kem.SharingKeyPair) : KeyPairJson :=
  mkKeyPair (b64_encode (Kem.skp_public kp)) (b64_encode (Kem.skp_secret kp)).
Definition generate_sharing_keypair (drawn : blob) : KeyPairJson := pair_json (Kem.from_secret drawn).
Definition restore_sharing_keypair (secret_b64 : string) : web KeyPairJson :=
  kp ← parse_keypair secret_b64; mret (pair_json kp).

(** A sender that is no uuid is shared as from the nil one. *)
Definition share_item (sik nonce ephemeral nonce' : blob)
    (sender_uuid recipient_uuid item_uuid recipient_public_b64 : string) (plaintext : blob) : web Shares.ShareBundle :=
  let sender := default nil_uuid (uuid_parse sender_uuid) in
  recipient ← parse_uuid recipient_uuid;
  item ← parse_uuid item_uuid;
  pk ← key_bytes "recipient" recipient_public_b64;
  str (Shares.share_item sik nonce ephemeral nonce' sender recipient item pk plaintext).

(** What serde makes of an entry of the inbox. *)
Definition incoming_of_json (x : ShareApi.InboxItem) : web Shares.IncomingShare :=
  share_id ← parse_uuid (ShareApi.ib_share_id x);
  sender ← parse_uuid (ShareApi.ib_sender_uuid x);
  item ← parse_uuid (ShareApi.ib_item_uuid x);
  payload ← res_of "invalid type: null"%string (ShareApi.ib_encrypted_payload x);
  mret (Shares.mkIncoming share_id sender item (ShareApi.ib_wrapped_sik x)
          (ShareApi.ib_ephemeral_public_key x) payload).
Definition accept_share (incoming : ShareApi.InboxItem) (recipient_secret_b64 : string) : web blob :=
  incoming ← incoming_of_json incoming;
  kp ← parse_keypair recipient_secret_b64;
  str (Shares.accept_share kp incoming).

Definition group_json (k : Shares.ShareGroupKey) : GroupKeyJson :=
  mkGroupJson (Shares.sg_group_id (Shares.gk_group k)) (Shares.sg_name (Shares.gk_group k))
    (Shares.sg_admin_uuid (Shares.gk_group k)) (b64_encode (Shares.gk_sik k)).
Definition group_key_from_json (g : GroupKeyJson) : web Shares.ShareGroupKey :=
  gid ← parse_uuid (gj_group_id g);
  admin ← parse_uuid (gj_admin_uuid g);
  secret ← decode_b64 (gj_secret g);
  str (Shares.from_secret (Shares.mkShareGroup gid (gj_name g) admin) secret).

Definition create_sharing_group (group_id : Uuid) (group_sik : blob) (name admin_uuid : string) : web GroupKeyJson :=
  admin ← parse_uuid admin_uuid;
  mret (group_json (Shares.create_group group_id group_sik name admin)).

Definition add_group_member (ephemeral nonce : blob) (g : GroupKeyJson)
    (member_uuid member_public_key_b64 : string) : web Shares.WrappedGroupKey :=
  key ← group_key_from_json g;
  member ← parse_uuid member_uuid;
  pk ← key_bytes "member" member_public_key_b64;
  str (Shares.add_group_member key ephemeral nonce member pk).

(** Of the group key wrapped for a member, as the group inbox gives it. *)
Definition unwrap_group_key (inbox : ShareApi.GroupInboxItem) (recipient_secret_b64 : string) : web GroupKeyJson :=
  wrapped ← res_of "invalid type: null"%string (ShareApi.gi_wrapped_sik inbox);
  ephemeral ← res_of "invalid type: null"%string (ShareApi.gi_ephemeral_public_key inbox);
  gid ← parse_uuid (ShareApi.gi_group_id inbox);
  kp ← parse_keypair recipient_secret_b64;
  sik ← str (Shares.unwrap_group_key (Shares.mkWrapped gid nil_uuid wrapped ephemeral) kp);
  mret (mkGroupJson (ShareApi.gi_group_id inbox) (ShareApi.gi_name inbox) (ShareApi.gi_admin_uuid inbox)
          (b64_encode sik)).

Definition encrypt_group_item (nonce : blob) (g : GroupKeyJson) (item_uuid : string) (plaintext : blob) : web string :=
  key ← group_key_from_json g;
  item ← parse_uuid item_uuid;
  ct ← str (Shares.encrypt_item key nonce item plaintext);
  mret (b64_encode ct).
Definition decrypt_group_item (g : GroupKeyJson) (item_uuid ciphertext_b64 : string) : web blob :=
  key ← group_key_from_json g;
  item ← parse_uuid item_uuid;
  ct ← decode_b64 ciphertext_b64;
  str (Shares.decrypt_item key item ct).
End Browser.
End Browser.

(** ** Requests about other shares *)
Section Others.
Context {EXT : Ext} {WA : WebauthnRs}.

(** Who creates, fills or revokes a share of the item. *)
Definition about_share (item : string) (q : Request) : Prop :=
  match q with
  | QSharing (CreateShare _ r) => ShareApi.cs_item_uuid r = item
  | QSharing (UploadPayload s _ _) | QSharing (RevokeShare s _) => s = item
  | _ => False
  end.

(** A share that waits for its recipient. *)
Definition waits (item recipient : string) (row : ShareRow) (payload : option blob) (d : Db) : Prop :=
  shares d !! (item, recipient) = Some row ∧ sh_item_uuid row = item ∧ sh_recipient_user_id row = recipient ∧
  (fst <$> share_payloads d !! item) = payload.

Definition shares_of (d : Db) := (shares d, share_payloads d).

Lemma waits_same item r row pl d d' : same shares_of d d' → waits item r row pl d → waits item r row pl d'.
Proof. unfold waits. intros [= -> ->]. done. Qed.

Lemma shares_of_tables d d' : same sharing_tables d d' → same shares_of d d'.
Proof. unfold same, shares_of. intros [= -> -> _ _ _ _]. done. Qed.

Lemma shares_of_frame ρ q :
  match q with
  | CreateShare _ _ | UploadPayload _ _ _ | RevokeShare _ _ => True
  | _ => steps (same shares_of) (serve_share ρ q)
  end.
Proof. destruct q; try exact I; steps_crawl ltac:(idtac; reflexivity). Qed.

Lemma upload_payload_run ρ sid auth p64 d :
  (∃ e, ShareApi.upload_payload ρ sid auth p64 d = (d, Err e)) ∨
  ∃ p, b64_decode p64 = Some p ∧
    ShareApi.upload_payload ρ sid auth p64 d = (with_share_payloads (insert sid (p, now_ms ρ)) d, Ok ()).
Proof.
  unfold ShareApi.upload_payload, ShareRepo.is_share_owner, ShareRepo.store_share_payload, decode_b64.
  match goal with |- context [(auth_user ρ auth ≫= ?f) d] =>
    destruct (auth_user_bind ρ auth f d) as [(u & Hv & ->) | (e & _ & ->)] end; [|left; by eexists].
  run_calls. case_bool_decide; simpl; run_calls; [|left; by eexists].
  destruct (b64_decode p64) as [p|]; run_calls; [|left; by eexists].
  rewrite upsert_row_run. right. exists p. split; [done|]. by destruct (share_payloads d !! sid).
Qed.

Lemma others_keep_share item r row pl ρ q d :
  ¬ about_share item (QSharing q) → waits item r row pl d → waits item r row pl (serve_share ρ q d).1.
Proof.
  intros Hq Hw. pose proof (shares_of_frame ρ q) as Hf.
  destruct q as [| |auth req|sid auth p| |sid auth| | | | | | | |]; try (eapply waits_same; [apply Hf | exact Hw]);
    cbn [about_share] in Hq; clear Hf; destruct Hw as (Hs & Hi & Hr & Hp).
  - cbn [serve_share]. rewrite serve_unit_run.
    destruct (create_share_run ρ auth req d) as [(e & ->) | (s & ws & epk & _ & _ & ->)]; [by split_and!|].
    unfold ShareRepo.create_share. rewrite upsert_row_run.
    match goal with |- context [with_shares (insert ?k ?x) d] =>
      split; [change (<[k := x]> (shares d) !! (item, r) = Some row); by rewrite lookup_insert_ne by congruence | done] end.
  - cbn [serve_share]. destruct (upload_payload_run ρ sid auth p d) as [(e & ->) | (x & _ & ->)]; [by split_and!|].
    split; [exact Hs|]. split; [done|]. split; [done|].
    change (fst <$> <[sid := (x, now_ms ρ)]> (share_payloads d) !! item = pl). by rewrite lookup_insert_ne.
  - cbn [serve_share]. destruct (revoke_share_run ρ sid auth d) as [(e & ->) | (u & _ & Hs' & Hp')]; [by split_and!|].
    unfold waits. rewrite Hs', Hp'. split_and!; [| done | done |].
    + apply map_lookup_filter_Some. split; [done|]. cbn. by rewrite bool_decide_false by congruence.
    + rewrite <-Hp. f_equal. destruct (share_payloads d !! item) as [x|] eqn:Hx.
      * apply map_lookup_filter_Some. split; [done|]. cbn. by rewrite bool_decide_false by congruence.
      * apply map_lookup_filter_None. by left.
Qed.

Lemma history_waits item r row pl l d :
  Forall (λ q, ¬ about_share item q.2) l → waits item r row pl d → waits item r row pl (history l d).
Proof.
  intros Hl. revert d. induction Hl as [|[ρ q] l Hq Hl IH]; intros d Hw; [done|]. apply IH. cbn.
  pose proof (step_tables ρ q d) as Ht.
  destruct q; try (eapply waits_same, Hw; by apply shares_of_tables).
  by apply others_keep_share.
Qed.

(** The entry of a share in its recipient's inbox. *)
Definition entry (d : Db) (s : ShareRow) : ShareApi.InboxItem :=
  ShareApi.mkInbox (sh_item_uuid s) (sh_owner_user_id s) (sh_item_uuid s) (b64_encode (sh_wrapped_sik s))
    (b64_encode (sh_ephemeral_public_key s)) (b64_encode <$> (fst <$> share_payloads d !! sh_item_uuid s)).

Lemma inbox_run ρ auth u d :
  session_valid d (now_ms ρ) auth u →
  ShareApi.inbox ρ auth d =
    (d, Ok (entry d <$> filter (λ s, sh_recipient_user_id s = u) (rows (shares d)))).
Proof.
  intros Hv. unfold ShareApi.inbox, ShareRepo.get_inbox. rewrite (auth_user_ok_bind ρ auth u) by done. run_calls.
  generalize (filter (λ s, sh_recipient_user_id s = u) (rows (shares d))) as l.
  induction l as [|s l IH]; [done|]. cbn [mapM]. rewrite bind_run.
  assert (ShareApi.inbox_item s d = (d, Ok (entry d s))) as -> by (unfold ShareApi.inbox_item, ShareRepo.get_share_payload; by run_calls).
  by rewrite bind_run, IH.
Qed.

Lemma waiting_listed item r row pl d :
  waits item r row pl d → entry d row ∈ entry d <$> filter (λ s, sh_recipient_user_id s = r) (rows (shares d)).
Proof.
  intros (Hs & _ & Hr & _). apply list_elem_of_fmap_2, list_elem_of_filter. split; [done|].
  unfold rows. apply list_elem_of_fmap. exists ((item, r), row). split; [done|]. by apply elem_of_map_to_list.
Qed.

(** Shares are kept under their item and recipient. *)
Definition keyed (d : Db) : Prop :=
  ∀ k s, shares d !! k = Some s → k = (sh_item_uuid s, sh_recipient_user_id s).

Lemma create_share_ok ρ auth req d d1 r :
  keyed d → ShareApi.create_share ρ auth req d = (d1, Ok r) →
  ∃ row, waits (ShareApi.cs_item_uuid req) (ShareApi.cs_recipient_uuid req) row
           (fst <$> share_payloads d !! ShareApi.cs_item_uuid req) d1 ∧
    b64_decode (ShareApi.cs_wrapped_sik req) = Some (sh_wrapped_sik row) ∧
    b64_decode (ShareApi.cs_ephemeral_public_key req) = Some (sh_ephemeral_public_key row).
Proof.
  intros Hk Hc. unfold ShareApi.create_share, decode_b64 in Hc.
  apply bind_ok in Hc as (d0 & u & Ha & Hc). apply auth_user_ok in Ha as [-> _].
  revert Hc. run_calls. rewrite item_owner_run. run_calls.
  case_bool_decide; cbn [negb]; run_calls; [|done].
  destruct (b64_decode (ShareApi.cs_wrapped_sik req)) as [ws|] eqn:Hws; run_calls; [|done].
  destruct (b64_decode (ShareApi.cs_ephemeral_public_key req)) as [epk|] eqn:Hepk; run_calls; [|done].
  unfold ShareRepo.create_share. rewrite upsert_row_run. intros [= <- _].
  eexists. split; [|].
  - split; [apply lookup_insert_eq|].
    destruct (shares d !! _) as [old|] eqn:Hold; [|done]. apply Hk in Hold as [= Hi Hr]. done.
  - by destruct (shares d !! _).
Qed.
Lemma keyed_same d d' : same shares_of d d' → keyed d → keyed d'.
Proof. unfold same, shares_of, keyed. intros [= -> _]. done. Qed.

Lemma history_keyed l d : keyed d → keyed (history l d).
Proof.
  revert d. induction l as [|[ρ q] l IH]; intros d Hk; [done|]. apply IH. cbn. clear IH l.
  pose proof (step_tables ρ q d) as Ht.
  destruct q as [| | | | | | | |q| | |]; [..|];
    try solve [eapply keyed_same, Hk; by apply shares_of_tables].
  cbn [step]. pose proof (shares_frame ρ q) as Hf.
  destruct q as [| |auth req| | |sid auth| | | | | | | |]; try (specialize (Hf d); unfold keyed; by rewrite Hf); clear Hf Ht.
  - cbn [serve_share]. rewrite serve_unit_run.
    destruct (create_share_run ρ auth req d) as [(e & ->) | (u & ws & epk & _ & _ & ->)]; [done|].
    unfold ShareRepo.create_share. rewrite upsert_row_run. intros k s.
    match goal with |- shares (with_shares (insert ?j ?x) d, _).1 !! _ = _ → _ =>
      change (<[j := x]> (shares d) !! k = Some s → k = (sh_item_uuid s, sh_recipient_user_id s)) end.
    intros [[<- <-]|[_ Hs]]%lookup_insert_Some; [|by apply Hk].
    destruct (shares d !! _) as [old|] eqn:Hold; [|done]. by apply Hk in Hold as [= -> ->].
  - cbn [serve_share]. destruct (revoke_share_run ρ sid auth d) as [(e & ->) | (u & _ & Hs & _)]; [done|].
    intros k s. rewrite Hs. intros [Hks _]%map_lookup_filter_Some. by apply Hk.
Qed.
End Others.

(** ** From one browser to another *)
Section Delivery.
Context {EXT : Ext} {WA : WebauthnRs} {CEXT : CryptoExt}.
Import Browser.

Lemma key_bytes_encode `{!ExtLaws} whose b : length b = 32%nat → key_bytes whose (b64_encode b) = Ok b.
Proof.
  intros Hb. unfold key_bytes, Browser.decode_b64. rewrite b64_roundtrip. cbn. by rewrite bool_decide_false by auto.
Qed.

Lemma parse_keypair_encode `{!ExtLaws} secret :
  length secret = 32%nat → parse_keypair (kj_secret (generate_sharing_keypair secret)) = Ok (Kem.from_secret secret).
Proof.
  intros Hs. unfold parse_keypair, Browser.decode_b64. cbn. rewrite b64_roundtrip. cbn. by rewrite bool_decide_false by auto.
Qed.

Lemma web_share_ok `{!ExtLaws, !CryptoLaws} sik nonce eph nonce' sender recipient item secret pt b :
  Browser.share_item sik nonce eph nonce' sender recipient item
    (kj_public (generate_sharing_keypair secret)) pt = Ok b →
  ∃ s u it, uuid_parse item = Some it ∧
    Shares.share_item sik nonce eph nonce' s u it (x25519_public secret) pt = Ok b.
Proof.
  unfold Browser.share_item. intros Hb. apply res_bind_ok in Hb as (u & _ & Hb). apply res_bind_ok in Hb as (it & Hit & Hb).
  unfold generate_sharing_keypair, pair_json in Hb. cbn [kj_public] in Hb.
  rewrite key_bytes_encode in Hb by apply x25519_len. cbn in Hb. apply str_ok in Hb.
  eexists _, u, it. split; [|exact Hb]. unfold Web.parse_uuid in Hit. destruct (uuid_parse item); [|done]. by injection Hit as ->.
Qed.

(** An entry of an inbox, opened in the browser. *)
Lemma accept_entry `{!ExtLaws, !CryptoLaws} d row secret sik nonce eph nonce' s u item pt b payload :
  length sik = 32%nat → length nonce = NONCE_LEN → length nonce' = NONCE_LEN → length secret = 32%nat →
  Shares.share_item sik nonce eph nonce' s u item (x25519_public secret) pt = Ok b →
  uuid_parse item = Some item → is_Some (uuid_parse (sh_owner_user_id row)) →
  sh_item_uuid row = item → (fst <$> share_payloads d !! item) = Some payload →
  b64_decode (Shares.sb_wrapped_sik b) = Some (sh_wrapped_sik row) →
  b64_decode (Shares.sb_ephemeral_public_key b) = Some (sh_ephemeral_public_key row) →
  b64_decode (Shares.sb_encrypted_payload b) = Some payload →
  Browser.accept_share (entry d row) (kj_secret (generate_sharing_keypair secret)) = Ok pt.
Proof.
  intros Hs Hn Hn' Hk Hb Hid [o Ho] Hi Hp Hw He Hc.
  pose proof (Shares.accept_shared _ _ _ _ _ _ _ _ _ _ Hs Hn Hn' Hb) as Hacc.
  destruct (Shares.bundle_fields _ _ _ _ _ _ _ _ _ _ Hb) as (Hsid & Hitem & _).
  destruct (Shares.bundle_encoded _ _ _ _ _ _ _ _ _ _ Hb) as (w & k & ct & Hbw & Hbk & Hbc).
  rewrite Hbw, b64_roundtrip in Hw. rewrite Hbk, b64_roundtrip in He. rewrite Hbc, b64_roundtrip in Hc.
  injection Hw as ->. injection He as ->. injection Hc as ->.
  unfold Browser.accept_share, incoming_of_json, entry, Web.parse_uuid.
  cbn [ShareApi.ib_share_id ShareApi.ib_sender_uuid ShareApi.ib_item_uuid ShareApi.ib_encrypted_payload
       ShareApi.ib_wrapped_sik ShareApi.ib_ephemeral_public_key].
  rewrite Hi, Hid, Ho, Hp. cbn -[parse_keypair Shares.accept_share generate_sharing_keypair].
  rewrite parse_keypair_encode by done. cbn -[Shares.accept_share].
  rewrite <-Hbw, <-Hbk, <-Hbc. unfold Shares.accept_share, Shares.incoming_of in Hacc |- *.
  cbn [Shares.is_share_id Shares.is_item_uuid Shares.is_wrapped_sik Shares.is_ephemeral_public_key
       Shares.is_encrypted_payload] in *.
  rewrite Hsid, Hitem in Hacc. by rewrite Hacc.
Qed.

Lemma upload_payload_ok ρ sid auth p64 d d' :
  ShareApi.upload_payload ρ sid auth p64 d = (d', Ok ()) →
  ∃ p, b64_decode p64 = Some p ∧ d' = with_share_payloads (insert sid (p, now_ms ρ)) d.
Proof.
  intros Hu. destruct (upload_payload_run ρ sid auth p64 d) as [(e & He) | (p & Hp & He)]; rewrite He in Hu; [done|].
  injection Hu as <-. by exists p.
Qed.

(** C21. A share goes from browser to browser: when an item is shared in one for the
    key pair made in another, the two requests of the SDK are accepted, and
    whatever is asked of any route in between and afterwards, save by requests
    about shares of that item, then the recipient's inbox has it, and accepting
    the entry gives the plaintext that was shared. *)
Theorem web_share_delivered `{!ExtLaws, !CryptoLaws}
    sik nonce eph nonce' secret sender item recipient pt b ρ1 auth1 d d1 r1 l1 ρ2 auth2 d2 l2 ρ3 auth3 :
  length sik = 32%nat → length nonce = NONCE_LEN → length nonce' = NONCE_LEN → length secret = 32%nat →
  let keys := generate_sharing_keypair secret in
  Browser.share_item sik nonce eph nonce' sender recipient item (kj_public keys) pt = Ok b →
  uuid_parse item = Some item → keyed d →
  ShareApi.create_share ρ1 auth1 (ShareApi.mkCreateShare (Shares.sb_item_uuid b) recipient
    (Shares.sb_wrapped_sik b) (Shares.sb_ephemeral_public_key b)) d = (d1, Ok r1) →
  (∀ row, shares d1 !! (item, recipient) = Some row → is_Some (uuid_parse (sh_owner_user_id row))) →
  Forall (λ q, ¬ about_share item q.2) (l1 ++ l2) →
  ShareApi.upload_payload ρ2 (Shares.sb_item_uuid b) auth2 (Shares.sb_encrypted_payload b) (history l1 d1) =
    (d2, Ok ()) →
  let d3 := history l2 d2 in
  session_valid d3 (now_ms ρ3) auth3 recipient →
  ∃ entries x, ShareApi.inbox ρ3 auth3 d3 = (d3, Ok entries) ∧ x ∈ entries ∧ ShareApi.ib_item_uuid x = item ∧
    Browser.accept_share x (kj_secret keys) = Ok pt.
Proof.
  intros Hs Hn Hn' Hk keys Hb Hid Hkeyed Hc Howner [Hl1 Hl2]%Forall_app Hu d3 Hv.
  apply web_share_ok in Hb as (s & u & it & Hit & Hb). assert (it = item) as -> by congruence.
  destruct (Shares.bundle_fields _ _ _ _ _ _ _ _ _ _ Hb) as (_ & Hitem & _). rewrite Hitem in Hc, Hu.
  destruct (create_share_ok _ _ _ _ _ _ Hkeyed Hc) as (row & Hw & Hws & Hepk).
  cbn [ShareApi.cs_item_uuid ShareApi.cs_recipient_uuid ShareApi.cs_wrapped_sik ShareApi.cs_ephemeral_public_key] in *.
  pose proof (Howner row (proj1 Hw)) as Ho.
  apply (history_waits _ _ _ _ l1) in Hw; [|done].
  apply upload_payload_ok in Hu as (p & Hp & ->).
  assert (waits item recipient row (Some p) (with_share_payloads (insert item (p, now_ms ρ2)) (history l1 d1))) as Hw2.
  { destruct Hw as (H1 & H2 & H3 & _). split_and!; [exact H1|done|done|].
    change (fst <$> <[item := (p, now_ms ρ2)]> (share_payloads (history l1 d1)) !! item = Some p).
    by rewrite lookup_insert_eq. }
  apply (history_waits _ _ _ _ l2) in Hw2; [|done].
  eexists _, (entry d3 row). split; [by apply inbox_run|]. split; [by eapply waiting_listed|].
  destruct Hw2 as (_ & Hri & _ & Hpl). split; [exact Hri|].
  exact (accept_entry d3 _ _ _ _ _ _ _ _ _ _ _ _ Hs Hn Hn' Hk Hb Hid Ho Hri Hpl Hws Hepk Hp).
Qed.
End Delivery.

(** ** Groups *)
Section StepsAt.
Context (R : Db → Db → Prop) `{!PreOrder R} {K V : Type} `{Countable K}.
Context (tbl : Db → gmap K V) (upd : (gmap K V → gmap K V) → Db → Db).

Lemma steps_insert_at fk k r : (∀ d, R d (upd (insert k r) d)) → steps R (insert_row tbl upd fk k r).
Proof. intros Hr d. rewrite insert_row_run. destruct (tbl d !! k); [done|]. destruct (fk d); [apply Hr | done]. Qed.
Lemma steps_upsert_at fk k r merge : (∀ v d, R d (upd (insert k v) d)) → steps R (upsert_row tbl upd fk k r merge).
Proof. intros Hr d. rewrite upsert_row_run. destruct (fk d); [apply Hr | done]. Qed.
Lemma steps_delete_at P :
  (∀ d, R d (upd (filter (λ kr, P kr = false)) d)) → steps R (delete_where tbl upd P).
Proof. intros Hr d. rewrite delete_where_run. apply Hr. Qed.
End StepsAt.

Section Groups.
Context {EXT : Ext} {WA : WebauthnRs}.

(** What a member of a group has to do with an item of it. *)
Definition group_state (g m item : string) (d : Db) :=
  (sharing_groups d !! g, group_members d !! (g, m), group_wrapped_sik d !! (g, m),
   fst <$> group_items d !! (g, item)).

Definition about_group (g m item : string) (q : Request) : Prop :=
  match q with
  | QSharing (AddSharingMember g' _ r) => g' = g ∧ ShareApi.am_member_uuid r = m
  | QSharing (RemoveSharingMember g' m' _) => g' = g ∧ m' = m
  | QSharing (RotateGroup g' _ _) => g' = g
  | QSharing (AddGroupItem g' _ i _) | QSharing (DeleteGroupItem g' i _) => g' = g ∧ i = item
  | _ => False
  end.

Lemma kept_lookup {K V} `{Countable K} (P : K * V → bool) (t : gmap K V) k :
  (∀ x, P (k, x) = false) → filter (λ kr, P kr = false) t !! k = t !! k.
Proof.
  intros Hp. destruct (t !! k) as [x|] eqn:Hx; [by apply map_lookup_filter_Some | apply map_lookup_filter_None; by left].
Qed.

(** A statement at another key. *)
Local Ltac other_key :=
  unfold same, group_state; intros; match goal with d : Db |- _ => destruct d end; db_simpl;
  first [ reflexivity | rewrite !lookup_insert_ne by naive_solver; reflexivity
        | rewrite kept_lookup by (intros; apply bool_decide_false; cbn; naive_solver); reflexivity ].

Lemma group_frame g m item ρ q :
  ¬ about_group g m item (QSharing q) →
  match q with CreateSharingGroup _ _ => True | _ => steps (same (group_state g m item)) (serve_share ρ q) end.
Proof.
  intros Hq. destruct q; try exact I; cbn [about_group] in Hq.
  all: repeat first
    [ progress steps_tac
    | apply steps_insert_at; [typeclasses eauto | other_key]
    | apply steps_upsert_at; [typeclasses eauto | other_key]
    | apply steps_delete_at; [typeclasses eauto | other_key]
    | apply steps_modify; other_key
    | match goal with |- steps _ ?m => let h := head_of m in progress unfold h; cbv beta zeta end ].
Qed.

(** A new group gets a uuid of its own, or none. *)
Lemma create_group_frame g m item ρ auth name d :
  is_Some (sharing_groups d !! g) →
  same (group_state g m item) d (ShareApi.create_group ρ auth name d).1.
Proof.
  intros [G HG]. unfold ShareApi.create_group.
  match goal with |- context [(auth_user ρ auth ≫= ?f) d] =>
    destruct (auth_user_bind ρ auth f d) as [(u & Hv & ->) | (e & _ & ->)] end; [|done].
  unfold ShareRepo.create_group. run_calls. rewrite insert_row_run.
  destruct (sharing_groups d !! fresh ρ 0) eqn:Hfr; [done|]. assert (fresh ρ 0 ≠ g) as Hne by congruence.
  destruct (has_user u d); [|done]. run_calls. clear Hfr HG.
  match goal with |- context [with_sharing_groups ?f d] => set (d1 := with_sharing_groups f d) end.
  assert (same (group_state g m item) d d1) as Hd1 by (unfold d1; clear d1; other_key). clearbody d1.
  assert (steps (same (group_state g m item)) (ShareRepo.add_group_member (fresh ρ 0) u (now_ms ρ))) as Hadd
    by (unfold ShareRepo.add_group_member; apply steps_upsert_at; [typeclasses eauto | other_key]).
  specialize (Hadd d1). unfold same in *. rewrite <-Hd1, <-Hadd.
  by destruct (ShareRepo.add_group_member _ _ _ d1) as [d2 [?|?]].
Qed.

Lemma group_state_tables g m item d d' : same sharing_tables d d' → same (group_state g m item) d d'.
Proof. unfold same, group_state. intros [= _ _ -> -> -> ->]. done. Qed.

Lemma history_group g m item l d :
  is_Some (sharing_groups d !! g) → Forall (λ q, ¬ about_group g m item q.2) l →
  same (group_state g m item) d (history l d).
Proof.
  intros HG Hl. revert d HG. induction Hl as [|[ρ q] l Hq Hl IH]; intros d HG; [done|].
  assert (same (group_state g m item) d (step ρ q d)) as Hs.
  { pose proof (step_tables ρ q d) as Ht.
    destruct q as [| | | | | | | |q| | |]; try (by apply group_state_tables).
    cbn [step]. pose proof (group_frame g m item ρ q Hq) as Hf.
    destruct q; try apply Hf. cbn [serve_share]. rewrite serve_unit_run. by apply create_group_frame. }
  unfold same in *. rewrite <-Hs. apply IH. unfold group_state in Hs. injection Hs as -> _ _ _. done.
Qed.

(** What the accepted requests of an administrator leave. *)
Lemma group_made ρ auth name d d1 r :
  ShareApi.create_group ρ auth name d = (d1, Ok r) →
  ∃ G, sharing_groups d1 !! ShareApi.gr_group_id r = Some G ∧ sg_id G = ShareApi.gr_group_id r ∧
    sg_admin_user_id G = ShareApi.gr_admin_uuid r.
Proof.
  unfold ShareApi.create_group. intros Hc. apply bind_ok in Hc as (d0 & u & Ha & Hc). apply auth_user_ok in Ha as [-> _].
  unfold ShareRepo.create_group, ShareRepo.add_group_member in Hc. revert Hc. run_calls. rewrite insert_row_run.
  destruct (sharing_groups d !! fresh ρ 0); [done|]. destruct (has_user u d); [|done]. run_calls.
  rewrite upsert_row_run.
  match goal with |- context [with_sharing_groups ?f d] => set (d' := with_sharing_groups f d) end.
  destruct (_ && _); run_calls; [|done]. intros [= <- <-]. cbn [ShareApi.gr_group_id ShareApi.gr_admin_uuid].
  eexists. split; [unfold d'; destruct d; db_simpl; apply lookup_insert_eq|]. done.
Qed.

Lemma member_let_in ρ g auth req d d' :
  ShareApi.add_group_member ρ g auth req d = (d', Ok ()) →
  sharing_groups d' = sharing_groups d ∧ is_Some (group_members d' !! (g, ShareApi.am_member_uuid req)) ∧
  ∃ w, group_wrapped_sik d' !! (g, ShareApi.am_member_uuid req) = Some w ∧
    b64_decode (ShareApi.am_wrapped_sik req) = Some (gw_wrapped_sik w) ∧
    b64_decode (ShareApi.am_ephemeral_public_key req) = Some (gw_ephemeral_public_key w).
Proof.
  unfold ShareApi.add_group_member, decode_b64. intros Hr. apply bind_ok in Hr as (d0 & u & Ha & Hr).
  apply auth_user_ok in Ha as [-> _]. rewrite bind_run in Hr.
  destruct (require_admin_run g u d) as [(e & He) | (G & HG & <- & He)]; rewrite He in Hr; [done|]. revert Hr. run_calls.
  destruct (b64_decode (ShareApi.am_wrapped_sik req)) as [ws|]; run_calls; [|done].
  destruct (b64_decode (ShareApi.am_ephemeral_public_key req)) as [epk|]; run_calls; [|done].
  unfold ShareRepo.add_group_member, ShareRepo.store_group_wrapped_sik. rewrite upsert_row_run.
  destruct (_ && _); run_calls; [|done]. rewrite upsert_row_run.
  destruct (ShareRepo.wrap_fk _ _ _); [|done]. intros [= <-].
  destruct d. db_simpl. split; [done|]. split; [rewrite lookup_insert_eq; by eexists|].
  eexists. split; [rewrite lookup_insert_eq; reflexivity|]. by case_match.
Qed.

Lemma add_group_item_ok ρ g auth item p64 d d' r :
  ShareApi.add_group_item ρ g auth item p64 d = (d', Ok r) →
  ∃ p, b64_decode p64 = Some p ∧ (fst <$> group_items d' !! (g, item)) = Some p ∧
    sharing_groups d' = sharing_groups d ∧ group_members d' = group_members d ∧
    group_wrapped_sik d' = group_wrapped_sik d.
Proof.
  unfold ShareApi.add_group_item, decode_b64. intros Hr. apply bind_ok in Hr as (d0 & u & Ha & Hr).
  apply auth_user_ok in Ha as [-> _]. rewrite bind_run in Hr.
  destruct (require_admin_run g u d) as [(e & He) | (G & HG & <- & He)]; rewrite He in Hr; [done|]. revert Hr. run_calls.
  destruct (b64_decode p64) as [p|]; run_calls; [|done].
  unfold ShareRepo.add_group_item. rewrite upsert_row_run. destruct (ShareRepo.has_group g d); run_calls; [|done].
  intros [= <- _]. exists p. split; [done|]. destruct d. db_simpl. split; [|done].
  rewrite lookup_insert_eq. by case_match.
Qed.

(** The entry of a group in a member's inbox, and its items. *)
Definition group_entry (d : Db) (user : string) (G : SharingGroupRow) : ShareApi.GroupInboxItem :=
  ShareApi.mkGroupInbox (sg_id G) (sg_name G) (sg_admin_user_id G)
    (b64_encode ∘ gw_wrapped_sik <$> group_wrapped_sik d !! (sg_id G, user))
    (b64_encode ∘ gw_ephemeral_public_key <$> group_wrapped_sik d !! (sg_id G, user)).

Lemma group_inbox_entry ρ auth u d g G :
  session_valid d (now_ms ρ) auth u → sharing_groups d !! g = Some G → sg_id G = g →
  is_Some (group_members d !! (g, u)) →
  ∃ entries, ShareApi.group_inbox ρ auth d = (d, Ok entries) ∧ group_entry d u G ∈ entries.
Proof.
  intros Hv HG <- Hm. unfold ShareApi.group_inbox, ShareRepo.list_groups_for_member.
  rewrite (auth_user_ok_bind ρ auth u) by done. run_calls.
  assert (∀ l, mapM (ShareApi.group_inbox_item u) l d = (d, Ok (group_entry d u <$> l))) as Hrun.
  { induction l as [|x l IH]; [done|]. cbn [mapM]. rewrite bind_run.
    assert (ShareApi.group_inbox_item u x d = (d, Ok (group_entry d u x))) as ->
      by (unfold ShareApi.group_inbox_item, ShareRepo.get_group_wrapped_sik; by run_calls).
    by rewrite bind_run, IH. }
  rewrite Hrun. eexists. split; [reflexivity|]. apply list_elem_of_fmap_2, list_elem_of_filter. split; [done|].
  unfold rows. apply list_elem_of_fmap. exists (sg_id G, G). split; [done|]. by apply elem_of_map_to_list.
Qed.

Lemma list_group_items_entry ρ auth u d g item p :
  session_valid d (now_ms ρ) auth u → is_Some (group_members d !! (g, u)) →
  (fst <$> group_items d !! (g, item)) = Some p →
  ∃ l, ShareApi.list_group_items ρ g auth d = (d, Ok l) ∧ (g, item, b64_encode p) ∈ l.
Proof.
  intros Hv Hm Hp. unfold ShareApi.list_group_items, ShareRepo.is_group_member, ShareRepo.list_group_items.
  rewrite (auth_user_ok_bind ρ auth u) by done. run_calls. rewrite bool_decide_true by done. cbn [negb]. run_calls.
  eexists. split; [reflexivity|]. apply fmap_Some in Hp as ([p' t] & Hx & ->).
  apply list_elem_of_fmap. exists (item, p'). split; [done|].
  apply list_elem_of_fmap. exists ((g, item), (p', t)). split; [done|].
  apply list_elem_of_filter. split; [done|]. by apply elem_of_map_to_list.
Qed.
End Groups.

Section GroupDelivery.
Context {EXT : Ext} {WA : WebauthnRs} {CEXT : CryptoExt}.
Import Browser.

(** The SDK stores a group under the id the server gave it. *)
Definition with_group_id (g : string) (k : GroupKeyJson) : GroupKeyJson :=
  mkGroupJson g (gj_name k) (gj_admin_uuid k) (gj_secret k).

Lemma created_group_key `{!ExtLaws} gid0 sik name admin k g :
  length sik = 32%nat → create_sharing_group gid0 sik name admin = Ok k → uuid_parse g = Some g →
  ∀ key, group_key_from_json (with_group_id g k) = Ok key →
  Shares.gk_sik key = sik ∧ Shares.sg_group_id (Shares.gk_group key) = g.
Proof.
  intros Hs Hc Hg key. unfold create_sharing_group in Hc. apply res_bind_ok in Hc as (a & _ & [= <-]).
  unfold group_key_from_json, with_group_id, group_json, Shares.create_group, Web.parse_uuid.
  cbn [gj_group_id gj_name gj_admin_uuid gj_secret Shares.gk_sik Shares.gk_group Shares.sg_name Shares.sg_admin_uuid].
  rewrite Hg. cbn. intros Hk. apply res_bind_ok in Hk as (a' & _ & Hk). unfold Browser.decode_b64 in Hk.
  rewrite b64_roundtrip in Hk. cbn in Hk. unfold Shares.from_secret in Hk.
  rewrite bool_decide_false in Hk by auto. by injection Hk as <-.
Qed.

(** A browser whose user name is no uuid makes no group. *)
Lemma group_refused_by_name gid sik name user :
  uuid_parse user = None → create_sharing_group gid sik name user = Err "user id"%string.
Proof. intros Hu. unfold create_sharing_group, Web.parse_uuid. by rewrite Hu. Qed.

Lemma wrapped_encoded sik g eph nonce m pk w :
  Shares.wrap_for sik g eph nonce m pk = Ok w →
  ∃ a b, Shares.wg_wrapped_sik w = b64_encode a ∧ Shares.wg_ephemeral_public_key w = b64_encode b.
Proof.
  unfold Shares.wrap_for. destruct (Kem.share_item _ _ _ _ _) as [env|]; [|done]. cbn. intros [= <-]. by eexists _, _.
Qed.

(** A member's browser opens the group key of its inbox entry. *)
Lemma unwrap_entry `{!ExtLaws, !CryptoLaws} d G g m secret sik eph nonce w row :
  length sik = 32%nat → length nonce = NONCE_LEN → length secret = 32%nat →
  Shares.wrap_for sik g eph nonce m (x25519_public secret) = Ok w →
  uuid_parse g = Some g → sg_id G = g → group_wrapped_sik d !! (g, m) = Some row →
  b64_decode (Shares.wg_wrapped_sik w) = Some (gw_wrapped_sik row) →
  b64_decode (Shares.wg_ephemeral_public_key w) = Some (gw_ephemeral_public_key row) →
  unwrap_group_key (group_entry d m G) (kj_secret (generate_sharing_keypair secret)) =
    Ok (mkGroupJson g (sg_name G) (sg_admin_user_id G) (b64_encode sik)).
Proof.
  intros Hs Hn Hk Hw Hg HG Hrow Hws Hepk. destruct (wrapped_encoded _ _ _ _ _ _ _ Hw) as (a & b & Ha & Hb).
  destruct (Shares.unwrap_wrapped _ _ _ _ _ _ _ Hs Hn Hw) as (Hwg & _ & Hun).
  rewrite Ha, b64_roundtrip in Hws. rewrite Hb, b64_roundtrip in Hepk. injection Hws as ->. injection Hepk as ->.
  unfold unwrap_group_key, group_entry, Web.parse_uuid.
  cbn [ShareApi.gi_wrapped_sik ShareApi.gi_ephemeral_public_key ShareApi.gi_group_id ShareApi.gi_name ShareApi.gi_admin_uuid].
  rewrite HG, Hrow, Hg. cbn -[parse_keypair Shares.unwrap_group_key generate_sharing_keypair].
  rewrite parse_keypair_encode by done. cbn -[Shares.unwrap_group_key].
  assert (Shares.unwrap_group_key (Shares.mkWrapped g nil_uuid (b64_encode (gw_wrapped_sik row))
            (b64_encode (gw_ephemeral_public_key row))) (Kem.from_secret secret) = Ok sik) as ->; [|done].
  rewrite <-Hun, <-Ha, <-Hb, <-Hwg. by destruct w.
Qed.

(** What an item sealed in one browser reads in another. *)
Lemma decrypt_group_entry `{!ExtLaws, !CryptoLaws} k key g name admin sik nonce item pt ct p :
  length nonce = NONCE_LEN → length sik = 32%nat →
  group_key_from_json k = Ok key → Shares.gk_sik key = sik → encrypt_group_item nonce k item pt = Ok ct →
  b64_decode ct = Some p → uuid_parse g = Some g → is_Some (uuid_parse admin) →
  decrypt_group_item (mkGroupJson g name admin (b64_encode sik)) item (b64_encode p) = Ok pt.
Proof.
  intros Hn Hs Hk <- He Hp Hg [a Ha]. unfold encrypt_group_item in He. rewrite Hk in He.
  apply res_bind_ok in He as (key' & [= <-] & He). apply res_bind_ok in He as (it & Hit & He).
  apply res_bind_ok in He as (c & Hc%str_ok & [= <-]). rewrite b64_roundtrip in Hp. injection Hp as ->.
  unfold decrypt_group_item, group_key_from_json, Web.parse_uuid in *.
  cbn [gj_group_id gj_name gj_admin_uuid gj_secret]. rewrite Hg, Ha. cbn -[Shares.decrypt_item].
  unfold Browser.decode_b64. rewrite !b64_roundtrip. cbn -[Shares.decrypt_item].
  unfold Shares.from_secret. rewrite bool_decide_false by auto. cbn -[Shares.decrypt_item].
  rewrite Hit. cbn -[Shares.decrypt_item].
  assert (Shares.decrypt_item (Shares.mkGroupKey (Shares.mkShareGroup g name a) (Shares.gk_sik key)) it p = Ok pt) as ->; [|done].
  exact (Shares.decrypt_encrypted_item key nonce it pt p Hn Hc).
Qed.

(** C22. A group shared through the server: a group made in the browser, a member
    added with the key wrapped for the pair of the member's browser, an item
    sealed for the group.  When the server has accepted the three requests, then,
    whatever is asked of any route in between and afterwards, save by requests
    about that member, that item or the group's rotation, the member's inbox has
    the group with a key its browser opens, the listing has the item, and under
    that key it reads what was sealed. *)
Theorem web_group_item_delivered `{!ExtLaws, !CryptoLaws} gid0 sik name admin k0 eph nonce secret member w n item pt ct
    ρ1 auth1 d d1 g l1 ρ2 auth2 d2 l2 ρ3 auth3 d3 r3 l3 ρ4 auth4 :
  length sik = 32%nat → length nonce = NONCE_LEN → length n = NONCE_LEN → length secret = 32%nat →
  create_sharing_group gid0 sik name admin = Ok k0 →
  ShareApi.create_group ρ1 auth1 name d = (d1, Ok g) →
  let gid := ShareApi.gr_group_id g in let k := with_group_id gid k0 in
  let keys := generate_sharing_keypair secret in
  uuid_parse gid = Some gid → is_Some (uuid_parse (ShareApi.gr_admin_uuid g)) → uuid_parse member = Some member →
  Browser.add_group_member eph nonce k member (kj_public keys) = Ok w →
  ShareApi.add_group_member ρ2 gid auth2 (ShareApi.mkAddMember member (Shares.wg_wrapped_sik w)
    (Shares.wg_ephemeral_public_key w)) (history l1 d1) = (d2, Ok ()) →
  encrypt_group_item n k item pt = Ok ct →
  ShareApi.add_group_item ρ3 gid auth3 item ct (history l2 d2) = (d3, Ok r3) →
  Forall (λ q, ¬ about_group gid member item q.2) (l1 ++ l2 ++ l3) →
  let d4 := history l3 d3 in session_valid d4 (now_ms ρ4) auth4 member →
  ∃ entries x key rows ct', ShareApi.group_inbox ρ4 auth4 d4 = (d4, Ok entries) ∧ x ∈ entries ∧
    unwrap_group_key x (kj_secret keys) = Ok key ∧ gj_group_id key = gid ∧
    ShareApi.list_group_items ρ4 gid auth4 d4 = (d4, Ok rows) ∧ (gid, item, ct') ∈ rows ∧
    decrypt_group_item key item ct' = Ok pt.
Proof.
  intros Hs Hn Hn' Hk Hc0 Hc gid k keys Hgid Hadm Hmem Hadd Ham Henc Hai [Hl1 [Hl2 Hl3]%Forall_app]%Forall_app d4 Hv.
  apply group_made in Hc as (G & HG & HGid & HGadm). fold gid in HG, HGid.
  pose proof (history_group _ _ _ l1 d1 (mk_is_Some _ _ HG) Hl1) as H1.
  apply member_let_in in Ham as (Hsame & Hm & row & Hrow & Hws & Hepk). cbn [ShareApi.am_member_uuid ShareApi.am_wrapped_sik ShareApi.am_ephemeral_public_key] in *.
  assert (sharing_groups d2 !! gid = Some G) as HG2 by (rewrite Hsame; injection H1 as -> _ _ _; exact HG).
  pose proof (history_group _ _ _ l2 d2 (mk_is_Some _ _ HG2) Hl2) as H2.
  apply add_group_item_ok in Hai as (p & Hp & Hitem & E1 & E2 & E3).
  assert (sharing_groups d3 !! gid = Some G) as HG3 by (rewrite E1; injection H2 as -> _ _ _; exact HG2).
  pose proof (history_group _ _ _ l3 d3 (mk_is_Some _ _ HG3) Hl3) as H3. fold d4 in H3.
  injection H2 as F1 F2 F3 _. injection H3 as K1 K2 K3 K4.
  assert (is_Some (group_members d4 !! (gid, member))) as Hm4 by (rewrite K2, E2, F2; exact Hm).
  assert (group_wrapped_sik d4 !! (gid, member) = Some row) as Hrow4 by (rewrite K3, E3, F3; exact Hrow).
  rewrite HG3 in K1. rewrite Hitem in K4.
  unfold Browser.add_group_member in Hadd. apply res_bind_ok in Hadd as (key & Hkey & Hadd).
  destruct (created_group_key _ _ _ _ _ _ Hs Hc0 Hgid key Hkey) as [Hsik Hkg].
  unfold Web.parse_uuid in Hadd. rewrite Hmem in Hadd. cbn -[key_bytes generate_sharing_keypair] in Hadd.
  unfold keys, generate_sharing_keypair, pair_json in Hadd. cbn [kj_public] in Hadd.
  rewrite key_bytes_encode in Hadd by apply x25519_len. apply str_ok in Hadd.
  unfold Shares.add_group_member in Hadd. rewrite Hsik, Hkg in Hadd.
  destruct (group_inbox_entry ρ4 auth4 member d4 gid G Hv K1 HGid Hm4) as (entries & Hin & Hx).
  destruct (list_group_items_entry ρ4 auth4 member d4 gid item p Hv Hm4 K4) as (rows & Hli & Hr).
  eexists entries, _, _, rows, _. split; [exact Hin|]. split; [exact Hx|].
  split; [exact (unwrap_entry _ _ _ _ _ _ _ _ _ _ Hs Hn Hk Hadd Hgid HGid Hrow4 Hws Hepk)|]. split; [done|].
  split; [exact Hli|]. split; [exact Hr|]. rewrite <-HGadm in Hadm.
  exact (decrypt_group_entry _ _ _ _ _ _ _ _ _ _ _ Hn' Hs Hkey Hsik Henc Hp Hgid Hadm).
Qed.
End GroupDelivery.

(** ** Witnesses *)
Section WebShareWitnesses.
#[local] Existing Instances Concrete.toy_ext toy_webauthn toy_crypto.

Lemma answered {A} (m : handler A) d a : (m d).2 = Ok a → m d = ((m d).1, Ok a).
Proof. intros <-. by destruct (m d). Qed.

(** Alice owns the item [i1]; Bob is signed in. *)
Definition owned_db : Db :=
  with_items (insert ("i1", "alice") (mkItem "i1" "alice" 1 1 None None 1 (Some 1)))
    (Concrete.demo_session "bs" "bob" 1000 epoch_db).
Definition bytes32 (c : string) : blob := pad 32 (utf8 c).
Definition nonce24 (c : string) : blob := pad 24 (utf8 c).
Definition bundle : Shares.ShareBundle :=
  match Browser.share_item (bytes32 "sik") (nonce24 "n") (bytes32 "e") (nonce24 "m") "alice@example.org" "bob" "i1"
          (Browser.kj_public (Browser.generate_sharing_keypair (bytes32 "bob"))) (utf8 "secret plan") with
  | Ok b => b | Err _ => Shares.mkBundle "" "" "" "" "" "" "" end.
Definition share_request : ShareApi.CreateShareReq :=
  ShareApi.mkCreateShare "i1" "bob" (Shares.sb_wrapped_sik bundle) (Shares.sb_ephemeral_public_key bundle).
Definition shared_db : Db := (ShareApi.create_share (env_q 10) "sess" share_request owned_db).1.
Definition uploaded_db : Db :=
  (ShareApi.upload_payload (env_q 20) "i1" "sess" (Shares.sb_encrypted_payload bundle) shared_db).1.
Definition chatter : list (Env * Request) :=
  [(env_q 30, QSharing (CreateSharingGroup "sess" "team")); (env_q 40, QSharing (CreateShare "bs" (ShareApi.mkCreateShare "i2" "alice" "=w" "=e")))].

Lemma web_share_delivered_witness :
  let d3 := history chatter uploaded_db in
  ∃ entries x, ShareApi.inbox (env_q 50) "bs" d3 = (d3, Ok entries) ∧ x ∈ entries ∧ ShareApi.ib_item_uuid x = "i1" ∧
    Browser.accept_share x (Browser.kj_secret (Browser.generate_sharing_keypair (bytes32 "bob"))) = Ok (utf8 "secret plan").
Proof.
  apply (web_share_delivered (bytes32 "sik") (nonce24 "n") (bytes32 "e") (nonce24 "m") (bytes32 "bob") "alice@example.org"
    "i1" "bob" (utf8 "secret plan") bundle (env_q 10) "sess" owned_db shared_db (ShareApi.mkShareInfo "i1" "alice" "bob" "i1")
    [] (env_q 20) "sess" uploaded_db chatter (env_q 50) "bs"); try (vm_compute; reflexivity).
  - intros k s. change (shares owned_db) with (∅ : gmap ItemKey ShareRow). by rewrite lookup_empty.
  - intros row. vm_compute. intros [= <-]. by eexists.
  - repeat constructor; intros H; vm_compute in H; done.
  - apply (auth_user_ok (env_q 50) "bs" (history chatter uploaded_db) (history chatter uploaded_db) "bob").
    vm_compute. reflexivity.
Defined.

(** Alice's browser makes the group, which the server calls [n0]. *)
Definition group_key : Browser.GroupKeyJson :=
  Browser.mkGroupJson "n0" "team" "alice" (b64_encode (bytes32 "sik")).
Definition group_wrap : Shares.WrappedGroupKey :=
  match Browser.add_group_member (bytes32 "e") (nonce24 "n") group_key "bob"
          (Browser.kj_public (Browser.generate_sharing_keypair (bytes32 "bob"))) with
  | Ok w => w | Err _ => Shares.mkWrapped "" "" "" "" end.
Definition group_sealed : string :=
  match Browser.encrypt_group_item (nonce24 "m") group_key "i1" (utf8 "team plan") with Ok c => c | Err _ => "" end.
Definition grouped_db : Db := (ShareApi.create_group (env_q 10) "sess" "team" owned_db).1.
Definition joined_db : Db :=
  (ShareApi.add_group_member (env_q 40) "n0" "sess" (ShareApi.mkAddMember "bob" (Shares.wg_wrapped_sik group_wrap)
    (Shares.wg_ephemeral_public_key group_wrap)) (history chatter grouped_db)).1.
Definition filled_db : Db := (ShareApi.add_group_item (env_q 50) "n0" "sess" "i1" group_sealed joined_db).1.

Lemma web_group_item_delivered_witness :
  let d4 := history chatter filled_db in
  ∃ entries x key rows ct', ShareApi.group_inbox (env_q 60) "bs" d4 = (d4, Ok entries) ∧ x ∈ entries ∧
    Browser.unwrap_group_key x (Browser.kj_secret (Browser.generate_sharing_keypair (bytes32 "bob"))) = Ok key ∧
    Browser.gj_group_id key = "n0"%string ∧
    ShareApi.list_group_items (env_q 60) "n0" "bs" d4 = (d4, Ok rows) ∧ ("n0", "i1", ct')%string ∈ rows ∧
    Browser.decrypt_group_item key "i1" ct' = Ok (utf8 "team plan").
Proof.
  apply (web_group_item_delivered "g" (bytes32 "sik") "team" "alice"
    (Browser.mkGroupJson "g" "team" "alice" (b64_encode (bytes32 "sik"))) (bytes32 "e") (nonce24 "n") (bytes32 "bob")
    "bob" group_wrap (nonce24 "m") "i1" (utf8 "team plan") group_sealed (env_q 10) "sess" owned_db grouped_db
    (ShareApi.mkGroupInfo "n0" "team" "alice") chatter (env_q 40) "sess" joined_db [] (env_q 50) "sess" filled_db
    ("n0", "i1", group_sealed)%string chatter (env_q 60) "bs"); try (vm_compute; reflexivity).
  - by eexists.
  - repeat constructor; intros H; vm_compute in H; done.
  - apply (auth_user_ok (env_q 60) "bs" (history chatter filled_db) (history chatter filled_db) "bob").
    vm_compute. reflexivity.
Defined.
End WebShareWitnesses.
