(* ===== verification/EventStream.v ===== *)
(** * The event stream of an account

    Models [handlers/events.rs]: [GET /events] subscribes to the channel of the
    caller's account and answers each event published there as a frame, and the
    session is looked up again every five minutes.  The state of the stream's
    [unfold] is a record, each iteration of its loop a step taken at its own
    moment, and between two of them the server serves any requests.  tokio's
    broadcast receiver is a parameter with its documented laws.  Shows that
    frames are of the account's own events and stop with the session, that a
    reader who keeps up gets every event in order, and that the reaper announces
    a deleted item once in the life of the process. *)
From S2P Require Import Prelude Domain Database Concrete Users Items Tokens Sync.
From S2P Require Import Projects Secrets Files Sharing Mfa Auth Recovery Account Webauthn AuditLog System History.

Local Open Scope Z_scope.

(** ** Channels *)

Definition EVENT_CHANNEL_CAPACITY : nat := 256.
Definition SESSION_REVALIDATE_SECS : Z := 300.

(** [sender_for]: what was ever sent to an account, oldest first. *)
Definition channel (user : string) (d : Db) : list VaultEvent := default [] (event_channels d !! user).

(** [broadcast::Receiver::recv], polled by a receiver at a position of a channel. *)
Inductive Recv := Received (e : VaultEvent) | Lagged (missed : nat) | Pending.
Class Broadcast := { recv : nat → list VaultEvent → nat → nat * Recv }.

(** As documented: events come in order; a receiver left behind by more than the
    capacity is told so and moved to the oldest event kept. *)
Class BroadcastLaws `{Broadcast} := {
  recv_pending cap log pos : (length log ≤ pos)%nat → recv cap log pos = (pos, Pending);
  recv_next cap log pos e :
    log !! pos = Some e → (length log - pos ≤ cap)%nat → recv cap log pos = (S pos, Received e);
  recv_lagged cap log pos :
    (cap < length log - pos)%nat →
    recv cap log pos = ((length log - cap)%nat, Lagged (length log - cap - pos)) }.

(** ** The stream *)
Section Stream.
Context {EXT : Ext} {BC : Broadcast}.

Inductive Frame := Hello | Data (e : VaultEvent) | SessionInvalid.

(** The state of the [unfold]: the receiver, the token, the next validation and
    the closing flag; [es_waiting] when the loop is suspended in [timeout]. *)
Record Stream := mkStream {
  es_user : string; es_next : nat; es_token : string; es_next_check : Z;
  es_closing : bool; es_waiting : bool }.

(** When an iteration runs: the monotonic clock, in milliseconds, what the
    handlers see of the world, and whether a wait that is overdue still takes
    an event that is there. *)
Record Moment := mkMoment { mo_at : Z; mo_env : Env; mo_overdue : bool }.

Definition revalidate : Z := SESSION_REVALIDATE_SECS * 1000.

(** The handler: the frames answered at once, and the stream. *)
Definition events_stream (m : Moment) (auth : string) : handler (list Frame * Stream) :=
  user_id ← auth_user (mo_env m) auth;
  pos ← gets (λ d, length (channel user_id d));
  mret ([Hello], mkStream user_id pos auth (mo_at m + revalidate) false false).

Definition at_position (pos : nat) (waiting : bool) (s : Stream) : Stream :=
  mkStream (es_user s) pos (es_token s) (es_next_check s) (es_closing s) waiting.
Definition checked (at_ : Z) (closing : bool) (s : Stream) : Stream :=
  mkStream (es_user s) (es_next s) (es_token s) (at_ + revalidate) closing false.

Inductive Turn := Emit (f : Frame) | Continue | Wait | End.

(** [timeout(next_check - now, rx.recv())]. *)
Definition receive (s : Stream) (d : Db) : Stream * Turn :=
  let '(pos, r) := recv EVENT_CHANNEL_CAPACITY (channel (es_user s) d) (es_next s) in
  match r with
  | Received e => (at_position pos false s, Emit (Data e))
  | Lagged _ => (at_position pos false s, Continue)
  | Pending => (at_position pos true s, Wait)
  end.

(** One iteration of the loop, or a wait taken up again. *)
Definition next_frame (m : Moment) (s : Stream) (d : Db) : Stream * Turn :=
  if es_closing s then (s, End)
  else if es_waiting s then
    if bool_decide (mo_at m < es_next_check s) || mo_overdue m then
      match receive s d with
      | (s, Wait) => if bool_decide (mo_at m < es_next_check s) then (s, Wait) else (at_position (es_next s) false s, Continue)
      | r => r
      end
    else (at_position (es_next s) false s, Continue)
  else if bool_decide (es_next_check s ≤ mo_at m) then
    match (auth_user (mo_env m) (es_token s) d).2 with
    | Err _ => (checked (mo_at m) true s, Emit SessionInvalid)
    | Ok _ => (checked (mo_at m) false s, Continue)
    end
  else receive s d.

Section Run.
Context {WA : WebauthnRs}.

(** What goes on around the stream: before each iteration, any requests. *)
Abbreviation Schedule := (list (list (Env * Request) * Moment)).

(** The frames of a schedule, in order, with their time. *)
Fixpoint watch (s : Stream) (d : Db) (l : Schedule) : list Frame * (Stream * Db) :=
  match l with
  | [] => ([], (s, d))
  | (qs, m) :: l =>
      let d := history qs d in
      let '(s, o) := next_frame m s d in
      let r := watch s d l in
      (match o with Emit f => f :: r.1 | _ => r.1 end, r.2)
  end.
Definition requests (l : Schedule) : list (Env * Request) := concat l.*1.
End Run.
End Stream.

(** ** The log of a channel *)
Section Log.
Context {EXT : Ext} {WA : WebauthnRs}.

(** Channels only grow, by events of their own account. *)
Definition log_le (d d' : Db) : Prop :=
  ∀ u, ∃ new, channel u d' = channel u d ++ new ∧ Forall (λ e, event_user e = u) new.

#[export] Instance log_le_preorder : PreOrder log_le.
Proof.
  split; [intros d u; exists []; by rewrite app_nil_r|].
  intros d1 d2 d3 H1 H2 u. destruct (H1 u) as (n1 & E1 & F1), (H2 u) as (n2 & E2 & F2).
  exists (n1 ++ n2). split; [by rewrite E2, E1, app_assoc | by apply Forall_app].
Qed.

Lemma log_le_same d d' : same event_channels d d' → log_le d d'.
Proof. unfold same. intros He u. exists []. unfold channel. by rewrite He, app_nil_r. Qed.

Lemma log_publish e : steps log_le (publish e : handler unit).
Proof.
  intros d u. change (channel u (publish (E:=ApiError) e d).1)
    with (default [] (<[event_user e := channel (event_user e) d ++ [e]]> (event_channels d) !! u)).
  destruct (decide (event_user e = u)) as [<-|Hne].
  - rewrite lookup_insert_eq. exists [e]. split; [done|]. by repeat constructor.
  - rewrite lookup_insert_ne by done. exists []. by rewrite app_nil_r.
Qed.
#[local] Hint Resolve log_publish : steps.

Lemma log_reaper seen : steps log_le (reaper_tick seen).
Proof.
  unfold reaper_tick, tombstoned_items_with_owner. steps_tac. apply steps_announce; [apply _ | apply log_publish].
Qed.
Lemma log_sync ρ q d : log_le d (Sync.serve ρ q d).
Proof.
  destruct q; simpl; match goal with |- log_le d (?m d).1 =>
    enough (steps log_le m) as Hm by apply Hm end; steps_crawl ltac:(apply log_le_same; reflexivity).
Qed.
Lemma log_step ρ q d : log_le d (step ρ q d).
Proof.
  pose proof (step_channels ρ q d) as Hc.
  destruct q; first [by apply log_le_same | apply log_sync | apply log_reaper].
Qed.
Lemma log_history l d : log_le d (history l d).
Proof. apply history_rel; [apply _|]. apply Forall_forall. intros q _ d'. apply log_step. Qed.

Lemma log_lookup d d' u i e : log_le d d' → channel u d !! i = Some e → channel u d' !! i = Some e.
Proof. intros Hl Hi. destruct (Hl u) as (new & -> & _). by apply lookup_app_l_Some. Qed.
Lemma log_length d d' u : log_le d d' → (length (channel u d) ≤ length (channel u d'))%nat.
Proof. intros Hl. destruct (Hl u) as (new & -> & _). rewrite length_app. lia. Qed.
Lemma log_new d d' u i e :
  log_le d d' → (length (channel u d) ≤ i)%nat → channel u d' !! i = Some e → event_user e = u.
Proof.
  intros Hl Hi He. destruct (Hl u) as (new & Hn & Hf). rewrite Hn, lookup_app_r in He by done.
  rewrite Forall_lookup in Hf. by eapply Hf.
Qed.
Lemma history_app l1 l2 d : history (l1 ++ l2) d = history l2 (history l1 d).
Proof. apply foldl_app. Qed.
End Log.

(** ** Watching *)
Section Watching.
Context {EXT : Ext} {WA : WebauthnRs} {BC : Broadcast}.

Lemma receive_cases `{!BroadcastLaws} s d :
  (es_next s ≤ length (channel (es_user s) d))%nat →
  (∃ e, channel (es_user s) d !! es_next s = Some e ∧ receive s d = (at_position (S (es_next s)) false s, Emit (Data e))) ∨
  ((EVENT_CHANNEL_CAPACITY < length (channel (es_user s) d) - es_next s)%nat ∧
    receive s d = (at_position (length (channel (es_user s) d) - EVENT_CHANNEL_CAPACITY) false s, Continue)) ∨
  (es_next s = length (channel (es_user s) d) ∧ receive s d = (at_position (es_next s) true s, Wait)).
Proof.
  intros Hn. unfold receive. destruct (channel (es_user s) d !! es_next s) as [e|] eqn:He.
  - destruct (decide (length (channel (es_user s) d) - es_next s ≤ EVENT_CHANNEL_CAPACITY)%nat) as [Hc|Hc].
    + rewrite (recv_next _ _ _ e) by done. left. by eexists.
    + rewrite recv_lagged by lia. right. left. split; [lia | done].
  - apply lookup_ge_None in He. rewrite recv_pending by done. right. right. split; [lia | done].
Qed.

(** What an iteration does. *)
Lemma next_frame_cases `{!BroadcastLaws} m s d s' o :
  (es_next s ≤ length (channel (es_user s) d))%nat → next_frame m s d = (s', o) →
  (s' = s ∧ o = End ∧ es_closing s = true) ∨
  (s' = at_position (es_next s) false s ∧ o = Continue ∧ es_closing s = false) ∨
  (∃ u, session_valid d (now_ms (mo_env m)) (es_token s) u ∧ s' = checked (mo_at m) false s ∧ o = Continue) ∨
  (auth_user (mo_env m) (es_token s) d = (d, Err (match (auth_user (mo_env m) (es_token s) d).2 with Err e => e | _ => Api.unauthorized end)) ∧
     s' = checked (mo_at m) true s ∧ o = Emit SessionInvalid) ∨
  (es_closing s = false ∧ receive s d = (s', o) ∧
     (es_waiting s = false → mo_at m < es_next_check s)).
Proof.
  intros Hn. unfold next_frame. destruct (es_closing s) eqn:Hc; [intros [= <- <-]; by left|].
  destruct (es_waiting s) eqn:Hw.
  - destruct (bool_decide (mo_at m < es_next_check s) || mo_overdue m); [|intros [= <- <-]; right; left; done].
    destruct (receive_cases s d Hn) as [(e & _ & Hr) | [(_ & Hr) | (_ & Hr)]]; rewrite Hr.
    + intros [= <- <-]. do 4 right. done.
    + intros [= <- <-]. do 4 right. done.
    + case_bool_decide; intros [= <- <-]; [do 4 right; done | right; left; done].
  - case_bool_decide as Hd.
    + pose proof (auth_user_read (mo_env m) (es_token s) d) as Hr.
      destruct (auth_user (mo_env m) (es_token s) d) as [d' [u|e]] eqn:Ha; cbn in Hr |- *; subst d'; intros [= <- <-].
      * right. right. left. exists u. split; [by apply auth_user_spec | done].
      * right. right. right. left. done.
    + intros Hr. do 4 right. split_and!; [done..|]. intros _. lia.
Qed.

Lemma watch_app l1 l2 s d :
  watch s d (l1 ++ l2) =
    let r1 := watch s d l1 in let r2 := watch r1.2.1 r1.2.2 l2 in (r1.1 ++ r2.1, r2.2).
Proof.
  revert s d. induction l1 as [|[qs m] l1 IH]; intros s d; [cbn; by destruct (watch s d l2)|].
  cbn [app watch]. destruct (next_frame m s (history qs d)) as [s' o]. rewrite IH. by destruct o.
Qed.
Lemma watch_db l s d : (watch s d l).2.2 = history (requests l) d.
Proof.
  revert s d. induction l as [|[qs m] l IH]; intros s d; [done|]. cbn [watch].
  destruct (next_frame m s (history qs d)) as [s' o]. cbn [snd]. rewrite IH. by rewrite <-history_app.
Qed.
Lemma requests_app l1 l2 : requests (l1 ++ l2) = requests l1 ++ requests l2.
Proof. unfold requests. by rewrite fmap_app, concat_app. Qed.

(** When the session was last found valid: on connecting, or by an iteration. *)
Definition looked_up (m0 : Moment) (token : string) (d0 : Db) (l : list (list (Env * Request) * Moment)) (c : Z) : Prop :=
  (c = mo_at m0 ∧ ∃ u, session_valid d0 (now_ms (mo_env m0)) token u) ∨
  ∃ l1 qs m l2 u, l = l1 ++ (qs, m) :: l2 ∧ c = mo_at m ∧
    session_valid (history (requests l1 ++ qs) d0) (now_ms (mo_env m)) token u.

Lemma looked_up_app m0 token d0 l x c : looked_up m0 token d0 l c → looked_up m0 token d0 (l ++ [x]) c.
Proof.
  intros [?|(l1 & qs & m & l2 & u & -> & ? & ?)]; [by left|]. right. exists l1, qs, m, (l2 ++ [x]), u.
  split; [by rewrite <-app_assoc|done].
Qed.

Definition reads (m0 : Moment) (auth u : string) (base : nat) (d0 : Db) (l : list (list (Env * Request) * Moment)) (s : Stream) : Prop :=
  es_user s = u ∧ es_token s = auth ∧ (base ≤ es_next s ≤ length (channel u (history (requests l) d0)))%nat ∧
  (es_closing s = false → ∃ c, looked_up m0 auth d0 l c ∧ es_next_check s = c + revalidate).

Lemma connected m0 auth d0 d1 fs s :
  events_stream m0 auth d0 = (d1, Ok (fs, s)) →
  d1 = d0 ∧ fs = [Hello] ∧ session_valid d0 (now_ms (mo_env m0)) auth (es_user s) ∧ es_closing s = false ∧ es_waiting s = false ∧
  es_next s = length (channel (es_user s) d0) ∧ reads m0 auth (es_user s) (length (channel (es_user s) d0)) d0 [] s.
Proof.
  unfold events_stream. intros Hc. apply bind_ok in Hc as (d & u & Ha & Hc). apply auth_user_ok in Ha as [-> Hv].
  revert Hc. run_calls. intros [= <- <- <-]. cbn. split_and!; try done.
  unfold reads. cbn. split_and!; [done..|]. intros _. exists (mo_at m0). split; [|done]. left. split; [done|]. by exists u.
Qed.

Lemma reads_step `{!BroadcastLaws} m0 auth u base d0 l s qs m s' o :
  reads m0 auth u base d0 l s → next_frame m s (history (requests l ++ qs) d0) = (s', o) →
  reads m0 auth u base d0 (l ++ [(qs, m)]) s'.
Proof.
  intros (Hu & Ht & [Hb Hn] & Hc) Hnf. rewrite history_app in Hnf.
  pose proof (log_length _ _ u (log_history qs (history (requests l) d0))) as Hle.
  assert (history (requests (l ++ [(qs, m)])) d0 = history qs (history (requests l) d0)) as Hd.
  { rewrite requests_app, history_app. unfold requests at 1. cbn. by rewrite app_nil_r. }
  assert (es_closing s = false → ∃ c, looked_up m0 auth d0 (l ++ [(qs, m)]) c ∧ es_next_check s = c + revalidate) as Hc'.
  { intros Hcl. destruct (Hc Hcl) as (c & Hl & Hk). exists c. split; [by apply looked_up_app | done]. }
  apply next_frame_cases in Hnf; [|rewrite Hu; lia]. unfold reads. rewrite Hd.
  destruct Hnf as [(-> & _ & _) | [(-> & _ & _) | [(v & Hv & -> & _) | [(_ & -> & _) | (Hcl & Hr & _)]]]].
  - split_and!; [done..|lia|lia|done].
  - cbn. split_and!; [done..|lia|lia|done].
  - cbn. split_and!; [done..|lia|lia|]. intros _. exists (mo_at m). split; [|done]. right.
    exists l, qs, m, [], v. split; [done|]. split; [done|]. rewrite history_app, <-Ht. exact Hv.
  - cbn. split_and!; [done..|lia|lia|done].
  - assert (es_next s ≤ length (channel (es_user s) (history qs (history (requests l) d0))))%nat as Hn' by (rewrite Hu; lia).
    destruct (receive_cases _ _ Hn') as [(e & He & Hrr) | [(Hgt & Hrr) | (_ & Hrr)]];
      rewrite Hrr in Hr; injection Hr as <- <-; cbn; rewrite Hu in *.
    + apply lookup_lt_Some in He. split_and!; [done..|lia|lia|done].
    + split_and!; [done..| unfold EVENT_CHANNEL_CAPACITY in *; lia | lia | done].
    + split_and!; [done..|lia|lia|done].
Qed.

Lemma reads_watch `{!BroadcastLaws} m0 auth u base d0 l s :
  reads m0 auth u base d0 [] s → reads m0 auth u base d0 l (watch s d0 l).2.1.
Proof.
  intros Hs. induction l as [|[qs m] l IH] using rev_ind; [done|].
  rewrite watch_app. cbn -[history]. rewrite watch_db, <-history_app.
  destruct (next_frame m (watch s d0 l).2.1 (history (requests l ++ qs) d0)) as [s' o] eqn:Hn. cbn.
  by eapply reads_step.
Qed.

(** A stream shows nobody else's events, and goes silent with the session: every
    frame is an event of the caller's own account published after the
    subscription, and comes no later than five minutes after a moment at which
    the session was found valid, apart from the delay [δ] with which a wait past
    its deadline is woken, whatever requests the server serves meanwhile. *)
Lemma frames_of_a_live_session `{!BroadcastLaws} m0 auth d0 d0' fs s l qs m s2 e δ :
  events_stream m0 auth d0 = (d0', Ok (fs, s)) →
  let s1 := (watch s d0 l).2.1 in let d1 := history (requests l ++ qs) d0 in
  next_frame m s1 d1 = (s2, Emit (Data e)) →
  0 ≤ δ → (es_waiting s1 → mo_at m ≤ es_next_check s1 + δ) →
  session_valid d0 (now_ms (mo_env m0)) auth (es_user s) ∧ event_user e = es_user s ∧
  (∃ i, (length (channel (es_user s) d0) ≤ i)%nat ∧ channel (es_user s) d1 !! i = Some e) ∧
  ∃ c, looked_up m0 auth d0 l c ∧ mo_at m ≤ c + revalidate + δ.
Proof.
  intros Hc s1 d1 Hn Hδ Hw. apply connected in Hc as (_ & _ & Hv & _ & _ & _ & Hr).
  apply (reads_watch _ _ _ _ _ l) in Hr as (Hu & Ht & [Hb Hle] & Hck). fold s1 in Hu, Ht, Hb, Hle, Hck.
  pose proof (log_history qs (history (requests l) d0)) as Hl. rewrite <-history_app in Hl. fold d1 in Hl.
  pose proof (log_length _ _ (es_user s) Hl) as Hlen.
  assert (es_next s1 ≤ length (channel (es_user s1) d1))%nat as Hn1 by (rewrite Hu; lia).
  apply next_frame_cases in Hn; [|exact Hn1].
  destruct Hn as [(_ & ? & _) | [(_ & ? & _) | [(? & _ & _ & ?) | [(_ & _ & ?) | (Hcl & Hrc & Ha)]]]]; try discriminate.
  destruct (receive_cases _ _ Hn1) as [(e' & He & Hrr) | [(_ & Hrr) | (_ & Hrr)]]; rewrite Hrr in Hrc;
    try discriminate. injection Hrc as <- <-. rewrite Hu in He.
  split; [done|]. split; [eapply (log_new d0 d1); [apply log_history | exact Hb | exact He]|].
  split; [by exists (es_next s1)|].
  destruct (Hck Hcl) as (c & Hlu & Hk). exists c. split; [done|].
  destruct (es_waiting s1) eqn:Hws; [specialize (Hw I); lia | specialize (Ha eq_refl); lia].
Qed.
End Watching.

(** ** Nothing is missed by a reader who keeps up *)
Section Delivery.
Context {EXT : Ext} {WA : WebauthnRs} {BC : Broadcast}.

Definition event_of (f : Frame) : option VaultEvent := match f with Data e => Some e | _ => None end.
Definition events_in (fs : list Frame) : list VaultEvent := omap event_of fs.

(** No iteration finds more events unread than the channel keeps. *)
Fixpoint keeps_up (s : Stream) (d : Db) (l : list (list (Env * Request) * Moment)) : Prop :=
  match l with
  | [] => True
  | (qs, m) :: l =>
      let d := history qs d in
      (length (channel (es_user s) d) - es_next s ≤ EVENT_CHANNEL_CAPACITY)%nat ∧ keeps_up (next_frame m s d).1 d l
  end.

Lemma keeps_up_app s d l qs m :
  keeps_up s d (l ++ [(qs, m)]) → keeps_up s d l ∧
  (let s1 := (watch s d l).2.1 in
   length (channel (es_user s1) (history (requests l ++ qs) d)) - es_next s1 ≤ EVENT_CHANNEL_CAPACITY)%nat.
Proof.
  revert s d. induction l as [|[qs' m'] l IH]; intros s d; [by intros [? _]|].
  cbn [app keeps_up watch]. intros [Hk Hl]. apply IH in Hl as [Hl Hw].
  destruct (next_frame m' s (history qs' d)) as [s' o]. cbn [fst snd] in *. split; [done|].
  change (requests ((qs', m') :: l)) with (qs' ++ requests l). by rewrite <-app_assoc, history_app.
Qed.

Lemma read_so_far `{!BroadcastLaws} m0 auth d0 s l :
  reads m0 auth (es_user s) (length (channel (es_user s) d0)) d0 [] s →
  es_next s = length (channel (es_user s) d0) → keeps_up s d0 l →
  let s1 := (watch s d0 l).2.1 in
  channel (es_user s) d0 ++ events_in (watch s d0 l).1 = take (es_next s1) (channel (es_user s) (history (requests l) d0)).
Proof.
  intros Hr Hn. induction l as [|[qs m] l IH] using rev_ind; intros Hk s1.
  { unfold s1. cbn. by rewrite Hn, app_nil_r, take_ge by lia. }
  apply keeps_up_app in Hk as [Hk0 Hk]. specialize (IH Hk0).
  destruct (reads_watch _ _ _ _ _ l _ Hr) as (Hu & _ & [_ Hle] & _). cbn in Hk. rewrite Hu in Hk.
  unfold s1. clear s1. rewrite watch_app. cbn -[history]. rewrite watch_db, <-history_app.
  rewrite requests_app. change (requests [(qs, m)]) with (qs ++ []). rewrite app_nil_r.
  pose proof (log_history qs (history (requests l) d0)) as Hl. rewrite <-history_app in Hl.
  pose proof (log_length _ _ (es_user s) Hl) as Hlen. destruct (Hl (es_user s)) as (new & Hnew & _).
  set (s1 := (watch s d0 l).2.1) in *. set (d1 := history (requests l ++ qs) d0) in *.
  assert (take (es_next s1) (channel (es_user s) d1) = channel (es_user s) d0 ++ events_in (watch s d0 l).1) as Htake.
  { rewrite IH, Hnew, take_app_le by lia. done. }
  destruct (next_frame m s1 d1) as [s2 o] eqn:Hnf. apply next_frame_cases in Hnf; [|rewrite Hu; lia].
  destruct Hnf as [(-> & -> & _) | [(-> & -> & _) | [(? & _ & -> & ->) | [(_ & -> & ->) | (_ & Hrc & _)]]]]; cbn;
    rewrite ?app_nil_r; try done; [by unfold events_in; rewrite omap_app; cbn; rewrite app_nil_r|].
  assert (es_next s1 ≤ length (channel (es_user s1) d1))%nat as Hn1 by (rewrite Hu; lia).
  destruct (receive_cases _ _ Hn1) as [(e & He & Hrr) | [(Hgt & _) | (_ & Hrr)]];
    [rewrite Hrr in Hrc; injection Hrc as <- <- | rewrite Hu in Hgt; lia | rewrite Hrr in Hrc; injection Hrc as <- <-];
    cbn; rewrite ?app_nil_r; [|done].
  rewrite Hu in He. rewrite (take_S_r _ _ e) by done. unfold events_in. rewrite omap_app. cbn. rewrite app_assoc.
  f_equal. symmetry. exact Htake.
Qed.

(** A reader who keeps up gets everything, in order: as long as it is never more
    than the capacity of the channel behind, the frames it has been given are the
    first events published since the subscription, and all of them whenever the
    stream has nothing more to give. *)
Lemma stream_delivers `{!BroadcastLaws} m0 auth d0 d0' fs s l :
  events_stream m0 auth d0 = (d0', Ok (fs, s)) → keeps_up s d0 l →
  let since d := drop (length (channel (es_user s) d0)) (channel (es_user s) d) in
  (∃ n, events_in (watch s d0 l).1 = take n (since (history (requests l) d0))) ∧
  ∀ qs m s2, next_frame m (watch s d0 l).2.1 (history (requests l ++ qs) d0) = (s2, Wait) →
    events_in (watch s d0 l).1 = since (history (requests l ++ qs) d0).
Proof.
  intros Hc Hk since. apply connected in Hc as (_ & _ & _ & _ & _ & Hn & Hr).
  pose proof (read_so_far _ _ _ _ l Hr Hn Hk) as Hso. cbn in Hso.
  destruct (reads_watch _ _ _ _ _ l _ Hr) as (Hu & _ & [Hb Hle] & _). split.
  - exists (es_next (watch s d0 l).2.1 - length (channel (es_user s) d0))%nat. unfold since.
    rewrite <-skipn_firstn_comm, <-Hso, drop_app_length. done.
  - intros qs m s2 Hnf.
    pose proof (log_history qs (history (requests l) d0)) as Hl. rewrite <-history_app in Hl.
    destruct (Hl (es_user s)) as (new & Hnew & _). pose proof (log_length _ _ (es_user s) Hl) as Hlen.
    set (s1 := (watch s d0 l).2.1) in *. set (d1 := history (requests l ++ qs) d0) in *.
    assert (es_next s1 ≤ length (channel (es_user s1) d1))%nat as Hn1 by (rewrite Hu; lia).
    apply next_frame_cases in Hnf; [|exact Hn1].
    destruct Hnf as [(_ & ? & _) | [(_ & ? & _) | [(? & _ & _ & ?) | [(_ & _ & ?) | (_ & Hrc & _)]]]]; try discriminate.
    destruct (receive_cases _ _ Hn1) as [(e & He & Hrr) | [(_ & Hrr) | (Heq & Hrr)]]; rewrite Hrr in Hrc; try discriminate.
    rewrite Hu in Heq. rewrite Hnew, length_app in Heq. unfold since. rewrite Hnew.
    assert (new = []) as -> by (destruct new; [done | cbn in Heq; lia]). rewrite app_nil_r.
    rewrite take_ge in Hso by lia. by rewrite <-Hso, drop_app_length.
Qed.

(** C30. What a stream of an account's events is, whatever requests the server
    serves while it is read.  Every event it shows is of the caller's own
    account, was published after the subscription, and comes no later than five
    minutes after a moment at which the session was found valid, apart from the
    delay [δ] with which a wait past its deadline is woken.  And as long as its
    reader is never more than the capacity of the channel behind, what it has
    shown are the first events published since the subscription, in order, and
    all of them whenever it has nothing to show and waits. *)
Theorem stream_contract `{!BroadcastLaws} m0 auth d0 d0' fs s l :
  events_stream m0 auth d0 = (d0', Ok (fs, s)) →
  let s1 := (watch s d0 l).2.1 in let u := es_user s in
  let since d := drop (length (channel u d0)) (channel u d) in
  fs = [Hello] ∧ session_valid d0 (now_ms (mo_env m0)) auth u ∧
  (∀ qs m s2 e δ, let d1 := history (requests l ++ qs) d0 in
     next_frame m s1 d1 = (s2, Emit (Data e)) → 0 ≤ δ → (es_waiting s1 → mo_at m ≤ es_next_check s1 + δ) →
     event_user e = u ∧ e ∈ since d1 ∧
     ∃ c, looked_up m0 auth d0 l c ∧ mo_at m ≤ c + revalidate + δ) ∧
  (keeps_up s d0 l →
     (∃ n, events_in (watch s d0 l).1 = take n (since (history (requests l) d0))) ∧
     ∀ qs m s2, next_frame m s1 (history (requests l ++ qs) d0) = (s2, Wait) →
       events_in (watch s d0 l).1 = since (history (requests l ++ qs) d0)).
Proof.
  intros Hc s1 u since. pose proof (connected _ _ _ _ _ _ Hc) as (_ & Hf & Hv & _).
  split; [done|]. split; [done|]. split; [|by apply (stream_delivers m0 auth d0 d0' fs s l)].
  intros qs m s2 e δ d1 Hn Hδ Hw.
  destruct (frames_of_a_live_session _ _ _ _ _ _ _ _ _ _ _ _ Hc Hn Hδ Hw) as (_ & Hu & (i & Hi & He) & Hl).
  fold u in Hi, He. split; [done|]. split; [|done]. apply list_elem_of_lookup. exists (i - length (channel u d0))%nat.
  unfold since. rewrite lookup_drop. by replace (length (channel u d0) + (i - length (channel u d0)))%nat with i by lia.
Qed.

(** A stream whose session has ended says so once, and closes. *)
Lemma closed_stays s d l : es_closing s = true → watch s d l = ([], (s, history (requests l) d)).
Proof.
  intros Hc. revert d. induction l as [|[qs m] l IH]; intros d; [done|].
  cbn [watch]. unfold next_frame. rewrite Hc, IH. by rewrite <-history_app.
Qed.
Lemma refused_stream_closes m qs l s d :
  es_closing s = false → es_waiting s = false → es_next_check s ≤ mo_at m →
  (∀ u, ¬ session_valid (history qs d) (now_ms (mo_env m)) (es_token s) u) →
  (watch s d ((qs, m) :: l)).1 = [SessionInvalid].
Proof.
  intros Hc Hw Hd Hv. cbn [watch]. unfold next_frame. rewrite Hc, Hw, bool_decide_true by done.
  pose proof (auth_user_read (mo_env m) (es_token s) (history qs d)) as Hr.
  destruct (auth_user (mo_env m) (es_token s) (history qs d)) as [d' [u|e]] eqn:Ha; cbn in Hr |- *; subst d'.
  - exfalso. apply (Hv u). by apply auth_user_spec.
  - by rewrite closed_stays.
Qed.
End Delivery.

(** ** The reaper *)
Section Reaper.
Context {EXT : Ext} {WA : WebauthnRs}.

Definition deletion (uo : string * Uuid) : VaultEvent := ItemPermanentlyDeleted uo.1 uo.2.

Lemma channel_publish e u d :
  channel u (publish (E:=ApiError) e d).1 = if decide (event_user e = u) then channel u d ++ [e] else channel u d.
Proof.
  change (channel u (publish (E:=ApiError) e d).1)
    with (default [] (<[event_user e := channel (event_user e) d ++ [e]]> (event_channels d) !! u)).
  case_decide as Hu; [by rewrite Hu, lookup_insert_eq; subst | by rewrite lookup_insert_ne].
Qed.

Lemma announce_run seen l d :
  ∃ d', announce seen l d = (d', Ok (list_to_set l ∪ seen)) ∧
  ∀ u, ∃ new, channel u d' = channel u d ++ new ∧
    ∀ uo, deletion uo ∈ new → uo ∈ l ∧ uo ∉ seen.
Proof.
  revert seen d. induction l as [|uo l IH]; intros seen d.
  { exists d. cbn. rewrite (left_id_L ∅ (∪)). split; [done|]. intros u. exists []. rewrite app_nil_r. split; [done|].
    intros x Hx. by apply elem_of_nil in Hx. }
  cbn [announce]. rewrite bind_run. case_bool_decide as Hs.
  - destruct (IH ({[uo]} ∪ seen) d) as (d' & Hd & Hc). exists d'. cbn. rewrite Hd. split; [do 2 f_equal; set_solver|].
    intros u. destruct (Hc u) as (new & Hn & Hu). exists new. split; [done|]. intros x Hx. specialize (Hu _ Hx). set_solver.
  - destruct (IH ({[uo]} ∪ seen) (publish (E:=ApiError) (deletion uo) d).1) as (d' & Hd & Hc). exists d'.
    split; [etransitivity; [exact Hd|]; do 2 f_equal; set_solver|].
    intros u. destruct (Hc u) as (new & Hn & Hu). rewrite channel_publish in Hn. case_decide as Hw.
    + exists (deletion uo :: new). rewrite Hn, <-app_assoc. split; [done|].
      intros x [Hx|Hx]%elem_of_cons; [|specialize (Hu _ Hx); set_solver].
      assert (x = uo) as -> by (destruct x, uo; unfold deletion in Hx; cbn in Hx; congruence). set_solver.
    + exists new. split; [done|]. intros x Hx. specialize (Hu _ Hx). set_solver.
Qed.

(** A deleted item is announced by the reaper once: after a tick has seen it, no
    later tick of the process says so again, so a frame lost to a reader that
    fell behind is not sent a second time. *)
Lemma announced_once seen d d1 seen1 uo l seen2 d2 seen3 :
  reaper_tick seen d = (d1, Ok seen1) → uo ∈ omap (λ kr : ItemKey * ItemRow,
    if tombstoned kr then (λ u, (kr.1.2, u)) <$> uuid_parse kr.1.1 else None) (map_to_list (items d)) →
  seen1 ⊆ seen2 → reaper_tick seen2 (history l d1) = (d2, Ok seen3) →
  uo ∈ seen3 ∧ ∀ u, ∃ new, channel u d2 = channel u (history l d1) ++ new ∧ deletion uo ∉ new.
Proof.
  intros Ht Hu Hs Ht2. unfold reaper_tick, tombstoned_items_with_owner in Ht, Ht2.
  revert Ht Ht2. run_calls. intros Ht Ht2.
  match type of Ht with announce _ ?x _ = _ => destruct (announce_run seen x d) as (d' & Hd & _) end.
  rewrite Hd in Ht. injection Ht as -> <-.
  match type of Ht2 with announce _ ?x ?y = _ => destruct (announce_run seen2 x y) as (d'' & Hd2 & Hc) end.
  rewrite Hd2 in Ht2. injection Ht2 as -> <-.
  assert (uo ∈ seen2) as Hin by set_solver.
  split; [set_solver|]. intros u. destruct (Hc u) as (new & Hn & Hnew). exists new. split; [done|].
  intros Hx. by destruct (Hnew _ Hx).
Qed.
End Reaper.

(** ** Witnesses *)
Section StreamWitnesses.
#[local] Existing Instances Concrete.toy_ext toy_webauthn.

#[local] Instance toy_broadcast : Broadcast := {
  recv cap log pos :=
    if bool_decide (cap < length log - pos)%nat then ((length log - cap)%nat, Lagged (length log - cap - pos))
    else match log !! pos with Some e => (S pos, Received e) | None => (pos, Pending) end }.
#[local] Instance toy_broadcast_laws : BroadcastLaws.
Proof.
  split; intros cap log pos; cbn.
  - intros Hl. rewrite bool_decide_false by lia. by rewrite lookup_ge_None_2.
  - intros e He Hc. rewrite bool_decide_false by lia. by rewrite He.
  - intros Hc. by rewrite bool_decide_true.
Qed.

(** Alice listens; a deleted item of hers is announced. *)
Definition bin_db : Db := with_items (insert ("i1", "alice")%string (mkItem "i1" "alice" 2 1 (Some 5) None 1 (Some 1))) epoch_db.
Definition moment (at_ : Z) : Moment := mkMoment at_ (env_q 10) false.
Definition listening : Stream := mkStream "alice" 0 "sess" 300000 false false.
Definition quiet_start : list (list (Env * Request) * Moment) := [([], moment 5)].
Definition announced : list (list (Env * Request) * Moment) :=
  quiet_start ++ [([(env_q 20, QReaper ∅)], moment 60000); ([], moment 60001)].

Definition heard : Stream := mkStream "alice" 1 "sess" 300000 false false.

Lemma stream_contract_witness :
  events_in (watch listening bin_db announced).1 = [ItemPermanentlyDeleted "alice" "i1"] ∧
  ∃ c, looked_up (moment 0) "sess" bin_db quiet_start c ∧ 60000 ≤ c + revalidate + 0.
Proof.
  assert (events_stream (moment 0) "sess" bin_db = (bin_db, Ok ([Hello], listening))) as Hconn
    by (vm_compute; reflexivity).
  destruct (stream_contract (moment 0) "sess" bin_db bin_db [Hello] listening quiet_start Hconn)
    as (_ & _ & Hframe & _).
  destruct (Hframe [(env_q 20, QReaper ∅)] (moment 60000) heard (ItemPermanentlyDeleted "alice" "i1") 0)
    as (_ & _ & Hc); [vm_compute; reflexivity | lia | intros _; vm_compute; discriminate |].
  split; [|exact Hc].
  destruct (stream_contract (moment 0) "sess" bin_db bin_db [Hello] listening announced Hconn)
    as (_ & _ & _ & Hall).
  destruct Hall as [_ Hwait]; [repeat split; try (apply Nat.leb_le; vm_compute; reflexivity)|].
  etransitivity; [eapply (Hwait [] (moment 60002)); vm_compute; reflexivity | vm_compute; reflexivity].
Defined.
End StreamWitnesses.
