(* ===== verification/Updates.v ===== *)
(** * The desktop updater

    Models [apps/desktop/src/updater.rs] and its two callers in
    [desktop_view.rs]: the manifest, the comparison of versions, the hex
    signature, the check, the download and the staging of a package on disk.
    What the update server answers, the outcomes of the file calls and what other
    processes do to the disk are arguments; ed25519 is a parameter.  Shows that
    whatever the server sends and whoever touches the disk, the file handed to the
    installer held bytes signed under the embedded key, that a signed release is
    offered and staged exactly when it is newer, and what the signature does not
    cover. *)
From Stdlib Require Import Strings.Byte Strings.Ascii.
From stdpp Require Import pretty.
From S2P Require Import Prelude Database Crypto.

Local Open Scope Z_scope.

(** ** Versions *)

Definition u32_max : Z := 2 ^ 32 - 1.

(** [v.split(['-', '+']).next()]. *)
Fixpoint core (v : string) : string :=
  match v with
  | EmptyString => EmptyString
  | String c v => if bool_decide (c = "-"%char ∨ c = "+"%char) then EmptyString else String c (core v)
  end.

(** [split('.')], never empty. *)
Fixpoint dots (v : string) : string * list string :=
  match v with
  | EmptyString => (EmptyString, [])
  | String c v =>
      let '(s, l) := dots v in
      if bool_decide (c = "."%char) then (EmptyString, s :: l) else (String c s, l)
  end.

(** [str::parse::<u32>]. *)
Definition parse_u32 (s : string) : option Z :=
  let digits := match s with String "+"%char t => t | _ => s end in
  if bool_decide (digits = EmptyString) then None
  else v ← parse_digits 0 digits; if bool_decide (v ≤ u32_max) then Some v else None.

(** The next component, 0 when there is none or it is no number. *)
Definition component (l : list string) (i : nat) : Z := default 0 (s ← l !! i; parse_u32 s).
Definition parse_version (v : string) : Z * Z * Z :=
  let '(s, l) := dots (core v) in
  (component (s :: l) 0, component (s :: l) 1, component (s :: l) 2).

(** [<] of triples. *)
Definition triple_lt (a b : Z * Z * Z) : bool :=
  let '(a1, a2, a3) := a in let '(b1, b2, b3) := b in
  (a1 <? b1) || (a1 =? b1) && ((a2 <? b2) || (a2 =? b2) && (a3 <? b3)).
Definition version_is_newer (current candidate : string) : bool :=
  triple_lt (parse_version current) (parse_version candidate).

(** ** Signatures in hex *)

Definition hex_val (c : Ascii.ascii) : option N :=
  let n := Ascii.N_of_ascii c in
  if bool_decide (48 ≤ n ≤ 57)%N then Some (n - 48)%N
  else if bool_decide (97 ≤ n ≤ 102)%N then Some (n - 97 + 10)%N
  else if bool_decide (65 ≤ n ≤ 70)%N then Some (n - 65 + 10)%N
  else None.
Fixpoint hex_pairs (s : string) : option blob :=
  match s with
  | String a (String b s) =>
      hi ← hex_val a; lo ← hex_val b; x ← Byte.of_N (N.lor (N.shiftl hi 4) lo);
      l ← hex_pairs s; Some (x :: l)
  | _ => Some []
  end.
Definition hex_decode_64 (s : string) : option blob :=
  let s := str_trim s in
  if bool_decide (String.length s ≠ 128%nat) then None else hex_pairs s.

(** ** The updater *)

Class Dalek := {
  signature_from_slice : blob → option blob;
  verify_strict : blob → blob → blob → bool;          (* key, message, signature *)
  signing_public : blob → blob;
  dalek_sign : blob → blob → blob;                    (* signing key, message *)
  verifying_key_ok : blob → bool;                     (* VerifyingKey::from_bytes *)
}.
Class DalekLaws `{Dalek} : Prop := {
  slice_ok b : length b = 64%nat → signature_from_slice b = Some b;
  sign_len sk m : length (dalek_sign sk m) = 64%nat;
  sign_verifies sk m : verify_strict (signing_public sk) m (dalek_sign sk m) = true }.

Record UpdateManifest := mkManifestJson { um_version : string; um_url : string; um_sha256 : string; um_signature : string }.
Record UpdateInfo := mkUpdateInfo { ui_version : string; ui_url : string; ui_sha256 : string; ui_signature : string }.
Inductive UpdateDecision := Disabled | UpToDate | Available (info : UpdateInfo).
Inductive UpdateError := BadManifest (s : string) | SignatureInvalid | UnparseableVersion (s : string) | Source (s : string).

(** [Arc<dyn UpdateSource>]: what it answers. *)
Record UpdateSource := mkSource {
  fetch_manifest : result string UpdateManifest; download_package : string → result string blob }.

Record Updater := mkUpdater {
  up_source : UpdateSource; up_public_key : blob; up_current_version : string; up_auto_update_enabled : bool }.

Definition PRODUCTION_PUBLIC_KEY : blob :=
  default x00 ∘ Byte.of_N <$>
    [0x8c; 0x5f; 0xbb; 0xf9; 0x36; 0xcb; 0x7c; 0xb1; 0xb2; 0x98; 0xd8; 0x44; 0xfd; 0x23; 0x37; 0x5d;
     0x47; 0x95; 0x87; 0x79; 0xc5; 0x83; 0x0f; 0x8a; 0x7b; 0x5f; 0xd9; 0x3b; 0xaf; 0x7c; 0xad; 0xe4]%N.

(** The files of the host, as the calls below see them. *)
Abbreviation Disk := (gmap string blob).
Abbreviation staging := (M Disk UpdateError).

(** What the host makes of one staging: the clock and the process, errors of the
    calls, how much a failed write wrote, and what others do to the disk before
    the bytes are read back. *)
Record Host := mkHost {
  h_temp : string; h_nanos : N; h_pid : N;
  h_mkdir : option string; h_open : option string; h_write : option (string * nat);
  h_fsync : option string; h_read : option string; h_remove_fails : bool; h_meanwhile : Disk → Disk }.

Section Updater.
Context {DK : Dalek}.

(** [Updater::new]; [None] when [expect] panics. *)
Definition new (source : UpdateSource) (current_version : string) (auto_update_enabled : bool) : option Updater :=
  if verifying_key_ok PRODUCTION_PUBLIC_KEY
  then Some (mkUpdater source PRODUCTION_PUBLIC_KEY current_version auto_update_enabled) else None.

Definition verify_signature (up : Updater) (package : blob) (signature_hex : string) : bool :=
  match hex_decode_64 signature_hex with
  | None => false
  | Some b => match signature_from_slice b with
              | None => false
              | Some sig => verify_strict (up_public_key up) package sig
              end
  end.

Definition check (up : Updater) : result UpdateError UpdateDecision :=
  if negb (up_auto_update_enabled up) then Ok Disabled
  else match fetch_manifest (up_source up) with
       | Err e => Err (Source e)
       | Ok m =>
           if negb (version_is_newer (up_current_version up) (um_version m)) then Ok UpToDate
           else Ok (Available (mkUpdateInfo (um_version m) (um_url m) (um_sha256 m) (um_signature m)))
       end.

Definition download_and_verify (up : Updater) (info : UpdateInfo) : result UpdateError blob :=
  match download_package (up_source up) (ui_url info) with
  | Err e => Err (Source e)
  | Ok pkg => if negb (verify_signature up pkg (ui_signature info)) then Err SignatureInvalid else Ok pkg
  end.

(** [format!("{nanos:x}-{pid:x}")]. *)
Fixpoint hex_rev (fuel : nat) (n : N) : string :=
  match fuel with
  | O => EmptyString
  | S k => String (hex_digit (n mod 16)) (if bool_decide (n < 16)%N then EmptyString else hex_rev k (n / 16))
  end.
Definition lower_hex (n : N) : string := String.rev (hex_rev (S (N.size_nat n)) n).
Definition uuid_like (h : Host) : string := lower_hex (h_nanos h) +:+ "-" +:+ lower_hex (h_pid h).

(** [version.replace(['.', '/'], "_")]. *)
Fixpoint underscored (v : string) : string :=
  match v with
  | EmptyString => EmptyString
  | String c v => String (if bool_decide (c = "."%char ∨ c = "/"%char) then "_"%char else c) (underscored v)
  end.
Definition staging_path (h : Host) (version : string) : string :=
  (h_temp h +:+ "/vautr-update-" +:+ uuid_like h +:+ "/vautr-update-" +:+ underscored version +:+ ".bin").

Definition io (what : string) (e : option string) : staging unit :=
  match e with Some e => throw (Source (what +:+ ": " +:+ e)) | None => mret () end.

Definition stage_and_install (up : Updater) (h : Host) (package : blob) (signature_hex version : string) : staging string :=
  io "mkdir" (h_mkdir h);;
  let path := staging_path h version in
  io "open" (h_open h);;
  files ← gets id;
  guard_err (bool_decide (is_Some (files !! path))) (Source "open: File exists"%string);;
  modify (<[path := []]>);;
  match h_write h with
  | Some (e, n) => modify (<[path := take n package]>);; throw (Source ("write: " +:+ e))
  | None => modify (<[path := package]>)
  end;;
  io "fsync" (h_fsync h);;
  modify (h_meanwhile h);;
  io "read-back" (h_read h);;
  files ← gets id;
  on_disk ← ok_or (Source "read-back: No such file or directory"%string) (files !! path);
  if negb (verify_signature up on_disk signature_hex) then
    (if h_remove_fails h then mret () else modify (delete path));;
    throw SignatureInvalid
  else mret path.

Definition sign_hex (signing msg : blob) : string := hex_of_bytes (dalek_sign signing msg).

(** ** desktop_view.rs *)

Inductive Notice := UpdateAvailable | StagingFailed (e : UpdateError) | Rejected | UpdateFailed (e : UpdateError) | Launched (path : string).
Record Desktop := mkDesktop { pending_update : option UpdateInfo; notices : list Notice; disk : Disk }.

Definition notice (n : Notice) (w : Desktop) : Desktop := mkDesktop (pending_update w) (notices w ++ [n]) (disk w).

(** [check_for_updates], with the preference; [None] when the task panics. *)
Definition check_for_updates (src : UpdateSource) (version : string) (auto : bool) (w : Desktop) : option Desktop :=
  up ← new src version auto;
  match check up with
  | Ok (Available info) => Some (notice UpdateAvailable (mkDesktop (Some info) (notices w) (disk w)))
  | _ => Some w
  end.

Definition install_pending_update (src : UpdateSource) (version : string) (h : Host) (w : Desktop) : option Desktop :=
  match pending_update w with
  | None => Some w
  | Some info =>
      let w := mkDesktop None (notices w) (disk w) in
      up ← new src version true;
      match download_and_verify up info with
      | Ok bytes =>
          let '(files, r) := stage_and_install up h bytes (ui_signature info) (ui_version info) (disk w) in
          let w := mkDesktop None (notices w) files in
          match r with
          | Ok path => Some (notice (Launched path) w)
          | Err e => Some (notice (StagingFailed e) w)
          end
      | Err SignatureInvalid => Some (notice Rejected w)
      | Err e => Some (notice (UpdateFailed e) w)
      end
  end.
End Updater.

(** ** Hex *)

Lemma strip_any_none pats l :
  Forall (λ p, ∃ x p', p = x :: p' ∧ ∀ y l', l = y :: l' → x ≠ y) pats → strip_any pats l = None.
Proof.
  induction 1 as [|p pats (x & p' & -> & Hx) _ IH]; [done|]. cbn [strip_any].
  rewrite bool_decide_false; [exact IH|]. destruct l as [|y l]; [done|]. cbn. intros [= -> _]. by eapply Hx.
Qed.

Definition plain (n : nat) : bool := bool_decide (33 ≤ n < 128)%nat.

Lemma trim_plain k pats l :
  forallb (λ p, match p with x :: _ => negb (plain x) | [] => false end) pats = true → Forall plain l → trim_bytes k pats l = l.
Proof.
  intros Hp Hl. destruct k as [|k]; [done|]. cbn [trim_bytes]. rewrite strip_any_none; [done|].
  rewrite forallb_forall in Hp. apply Forall_forall. intros p Hin. apply list_elem_of_In, Hp in Hin.
  destruct p as [|x p']; [done|]. exists x, p'. split; [done|]. intros y l' -> <-.
  apply Forall_cons in Hl as [Hx _]. by destruct (plain x).
Qed.

Lemma str_trim_plain s :
  Forall plain (Ascii.nat_of_ascii <$> String.list_ascii_of_string s) → str_trim s = s.
Proof.
  intros Hs. unfold str_trim. rewrite (trim_plain _ white_space) by (done || vm_compute; reflexivity).
  rewrite trim_plain; [|vm_compute; reflexivity | by apply Forall_reverse].
  rewrite reverse_involutive, <-list_fmap_compose.
  assert (∀ l, (Ascii.ascii_of_nat ∘ Ascii.nat_of_ascii) <$> l = l) as ->.
  { induction l as [|c l IH]; [done|]. cbn. by rewrite Ascii.ascii_nat_embedding, IH. }
  apply String.string_of_list_ascii_of_string.
Qed.

Lemma hex_byte x s :
  hex_pairs (String (hex_digit (Byte.to_N x / 16)) (String (hex_digit (Byte.to_N x mod 16)) s)) =
    (x ::.) <$> hex_pairs s.
Proof. by destruct x; cbn; destruct (hex_pairs s). Qed.
Lemma hex_pairs_of b : hex_pairs (hex_of_bytes b) = Some b.
Proof. induction b as [|x b IH]; [done|]. cbn [hex_of_bytes]. by rewrite hex_byte, IH. Qed.

Lemma hex_plain b : Forall plain (Ascii.nat_of_ascii <$> String.list_ascii_of_string (hex_of_bytes b)).
Proof.
  induction b as [|x b IH]; [constructor|]. cbn [hex_of_bytes String.list_ascii_of_string fmap list_fmap].
  constructor; [destruct x; exact I|]. constructor; [destruct x; exact I|]. exact IH.
Qed.
Lemma hex_length b : String.length (hex_of_bytes b) = (2 * length b)%nat.
Proof. induction b as [|x b IH]; [done|]. cbn. lia. Qed.

Lemma hex_decode_hex b : length b = 64%nat → hex_decode_64 (hex_of_bytes b) = Some b.
Proof.
  intros Hb. unfold hex_decode_64. rewrite str_trim_plain by apply hex_plain.
  rewrite hex_length, Hb, bool_decide_false by lia. apply hex_pairs_of.
Qed.

(** ** Decimal versions *)

Definition digit (c : Ascii.ascii) : bool := bool_decide (48 ≤ Ascii.nat_of_ascii c ≤ 57)%nat.
Definition digits (s : string) : Prop := Forall digit (String.list_ascii_of_string s).

Lemma append_cons c s t : String c s +:+ t = String c (s +:+ t).
Proof. done. Qed.
Lemma append_nil s : s +:+ EmptyString = s.
Proof. induction s as [|c s IH]; [done|]. by rewrite append_cons, IH. Qed.
Lemma parse_digits_app s t acc :
  parse_digits acc (s +:+ t) = (a ← parse_digits acc s; parse_digits a t).
Proof. revert acc. induction s as [|c s IH]; intros acc; [done|]. rewrite append_cons. cbn.
  case_bool_decide; [apply IH | done].
Qed.

(** The digits of a number, and what they parse to. *)
Definition shows (ds : string) (n : N) : Prop :=
  digits ds ∧ ∀ acc, parse_digits acc ds = Some (acc * 10 ^ Z.of_nat (String.length ds) + Z.of_N n).

Lemma string_length_app s t : String.length (s +:+ t) = (String.length s + String.length t)%nat.
Proof. induction s as [|c s IH]; [done|]. rewrite append_cons. cbn. by rewrite IH. Qed.
Lemma string_app_assoc s t u : s +:+ (t +:+ u) = (s +:+ t) +:+ u.
Proof. induction s as [|c s IH]; [done|]. by rewrite !append_cons, IH. Qed.
Lemma list_ascii_app s t : String.list_ascii_of_string (s +:+ t) = String.list_ascii_of_string s ++ String.list_ascii_of_string t.
Proof. induction s as [|c s IH]; [done|]. rewrite append_cons. cbn. by rewrite IH. Qed.

Lemma digit_code n : (n < 10)%N → Z.of_nat (Ascii.nat_of_ascii (pretty_N_char n)) = 48 + Z.of_N n.
Proof.
  intros Hn. assert (n = 0 ∨ n = 1 ∨ n = 2 ∨ n = 3 ∨ n = 4 ∨ n = 5 ∨ n = 6 ∨ n = 7 ∨ n = 8 ∨ n = 9)%N as H by lia.
  by decompose [or] H; subst.
Qed.
Lemma digit_char n : (n < 10)%N → shows (String (pretty_N_char n) EmptyString) n.
Proof.
  intros Hn. pose proof (digit_code n Hn) as Hc. split.
  - constructor; [|constructor]. unfold digit. rewrite bool_decide_true by lia. done.
  - intros acc. cbn [parse_digits String.length]. rewrite Hc, bool_decide_true by lia.
    change (10 ^ Z.of_nat 1) with 10. f_equal. lia.
Qed.

Lemma shows_app s m c n : shows s m → shows (String c EmptyString) n → shows (s +:+ String c EmptyString) (m * 10 + n).
Proof.
  intros [Hs Hm] [Hc Hn]. split; [unfold digits in *; rewrite list_ascii_app; by apply Forall_app|].
  intros acc. rewrite parse_digits_app, Hm. cbn [mbind option_bind]. rewrite Hn. f_equal.
  rewrite string_length_app. cbn [String.length]. rewrite Nat2Z.inj_add, Z.pow_add_r by lia. lia.
Qed.

Lemma pretty_go n : ∃ ds, shows ds n ∧ ∀ s, pretty_N_go n s = ds +:+ s.
Proof.
  induction n as [n IH] using (well_founded_induction N.lt_wf_0).
  destruct (decide (n = 0%N)) as [->|Hn].
  { exists EmptyString. split; [|done]. split; [constructor|]. intros acc. cbn. f_equal. lia. }
  destruct (IH (n / 10)%N (N.div_lt n 10 ltac:(lia) eq_refl)) as (ds & Hd & Hgo).
  exists (ds +:+ String (pretty_N_char (n mod 10)) EmptyString). split.
  - replace n with (n / 10 * 10 + n mod 10)%N at 2 by (pose proof (N.div_mod n 10); lia).
    apply shows_app; [done|]. apply digit_char, N.mod_lt. lia.
  - intros s. rewrite pretty_N_go_step, Hgo, <-string_app_assoc by lia. done.
Qed.

Lemma pretty_shows (n : N) : shows (pretty n) n ∧ pretty n ≠ EmptyString.
Proof.
  unfold pretty, pretty_N. case_decide as Hn; [subst; split; [by apply (digit_char 0)|done]|].
  destruct (pretty_go n) as (ds & Hd & ->).
  rewrite append_nil.
  split; [done|]. intros ->. destruct Hd as [_ Hd]. specialize (Hd 0). cbn in Hd. injection Hd. lia.
Qed.

Lemma parse_u32_pretty (n : N) : Z.of_N n ≤ u32_max → parse_u32 (pretty n) = Some (Z.of_N n).
Proof.
  intros Hn. destruct (pretty_shows n) as [[Hd Hp] Hne]. unfold parse_u32. specialize (Hp 0).
  destruct (pretty n) as [|c s]; [done|]. apply Forall_cons in Hd as [Hc _].
  assert (match String c s with String "+"%char t => t | _ => String c s end = String c s) as ->.
  { destruct c as [[] [] [] [] [] [] [] []]; done. }
  rewrite bool_decide_false, Hp by done. cbn [mbind option_bind]. by rewrite bool_decide_true.
Qed.

Lemma core_digits ds t : digits ds → core (ds +:+ t) = ds +:+ core t.
Proof.
  induction ds as [|c ds IH]; intros Hd; [done|]. apply Forall_cons in Hd as [Hc Hd]. rewrite !append_cons. cbn.
  rewrite bool_decide_false; [by rewrite IH|]. by intros [->| ->].
Qed.
Lemma dots_digits ds t : digits ds → dots (ds +:+ t) = (ds +:+ (dots t).1, (dots t).2).
Proof.
  induction ds as [|c ds IH]; intros Hd; [apply surjective_pairing|]. apply Forall_cons in Hd as [Hc Hd]. rewrite !append_cons. cbn.
  rewrite IH by done. rewrite bool_decide_false; [done|]. by intros ->.
Qed.

(** A released version: three numbers, and a pre-release or build suffix or none. *)
Definition version_text (v : N * N * N) (suffix : string) : string :=
  pretty v.1.1 +:+ "." +:+ pretty v.1.2 +:+ "." +:+ pretty v.2 +:+ suffix.
Definition suffix_ok (s : string) : Prop := core s = EmptyString.
Definition within_u32 (v : N * N * N) : Prop :=
  Z.of_N v.1.1 ≤ u32_max ∧ Z.of_N v.1.2 ≤ u32_max ∧ Z.of_N v.2 ≤ u32_max.

Lemma parse_version_text v suffix :
  suffix_ok suffix → within_u32 v →
  parse_version (version_text v suffix) = (Z.of_N v.1.1, Z.of_N v.1.2, Z.of_N v.2).
Proof.
  destruct v as [[a b] c]. intros Hs (Ha & Hb & Hc). cbn in *. unfold parse_version, version_text. cbn [fst snd].
  destruct (pretty_shows a) as [[Da _] _], (pretty_shows b) as [[Db _] _], (pretty_shows c) as [[Dc _] _].
  rewrite core_digits by done. cbn [String.append core].
  assert (∀ t, core ("." +:+ t) = "." +:+ core t) as Hdot by done.
  rewrite Hdot, core_digits, Hdot, core_digits, Hs by done. rewrite dots_digits by done.
  assert (∀ t, dots ("." +:+ t) = (EmptyString, (dots t).1 :: (dots t).2)) as Hd by (intros t; change ("." +:+ t) with (String "."%char t); cbn; by destruct (dots t)).
  rewrite Hd, dots_digits, Hd, dots_digits by done. cbn [fst snd dots].
  rewrite !append_nil. unfold component. cbn. by rewrite !parse_u32_pretty by done.
Qed.

(** ** From the manifest to the installer *)
Section Flow.
Context {DK : Dalek}.

(** Bytes signed, in hex, under a key. *)
Definition signed_under (key package : blob) (signature_hex : string) : Prop :=
  ∃ b sig, hex_decode_64 signature_hex = Some b ∧ signature_from_slice b = Some sig ∧ verify_strict key package sig = true.

Lemma verify_signature_iff up package s : verify_signature up package s ↔ signed_under (up_public_key up) package s.
Proof.
  unfold verify_signature, signed_under. rewrite Is_true_true. split.
  - destruct (hex_decode_64 s) as [b|]; [|done]. destruct (signature_from_slice b) as [sig|] eqn:Hs; [|done]. by exists b, sig.
  - intros (b & sig & -> & -> & ->). done.
Qed.

Lemma sign_hex_signed `{!DalekLaws} sk package : signed_under (signing_public sk) package (sign_hex sk package).
Proof.
  exists (dalek_sign sk package), (dalek_sign sk package). unfold sign_hex.
  split; [apply hex_decode_hex, sign_len|]. split; [apply slice_ok, sign_len | apply sign_verifies].
Qed.




(** A host on which staging goes undisturbed. *)
Definition sound_host (h : Host) (version : string) (files : Disk) : Prop :=
  h_mkdir h = None ∧ h_open h = None ∧ h_write h = None ∧ h_fsync h = None ∧ h_read h = None ∧
  (∀ f, h_meanwhile h f = f) ∧ files !! staging_path h version = None.

Lemma stage_ok up h package s version files :
  sound_host h version files → signed_under (up_public_key up) package s →
  stage_and_install up h package s version files = (<[staging_path h version := package]> files, Ok (staging_path h version)).
Proof.
  intros (H1 & H2 & H3 & H4 & H5 & H6 & H7) Hs%verify_signature_iff. unfold stage_and_install, io, guard_err.
  rewrite H1, H2, H3, H4, H5. run_calls. unfold id. rewrite H7, bool_decide_false by (by intros [? [=]]). run_calls.
  rewrite H6, lookup_insert_eq. run_calls. destruct (verify_signature up package s); [|done]. cbn [negb]. run_calls.
  by rewrite insert_insert_eq.
Qed.

Lemma update_runs m src src' current h w package :
  verifying_key_ok PRODUCTION_PUBLIC_KEY = true → fetch_manifest src = Ok m →
  download_package src' (um_url m) = Ok package → signed_under PRODUCTION_PUBLIC_KEY package (um_signature m) →
  sound_host h (um_version m) (disk w) → version_is_newer current (um_version m) = true →
  (w1 ← check_for_updates src current true w; install_pending_update src' current h w1) =
    Some (mkDesktop None (notices w ++ [UpdateAvailable; Launched (staging_path h (um_version m))])
            (<[staging_path h (um_version m) := package]> (disk w))).
Proof.
  intros Hk Hf Hd Hs Hh Hn.
  assert (check_for_updates src current true w =
    Some (notice UpdateAvailable (mkDesktop (Some (mkUpdateInfo (um_version m) (um_url m) (um_sha256 m) (um_signature m)))
            (notices w) (disk w)))) as ->.
  { unfold check_for_updates, new, check. rewrite Hk. cbn. by rewrite Hf, Hn. }
  unfold install_pending_update, notice, new. rewrite Hk. cbn [mbind option_bind pending_update].
  unfold download_and_verify. cbn [up_source ui_url]. rewrite Hd. cbn [ui_signature ui_version disk notices].
  match goal with |- context [verify_signature ?u package ?s] =>
    pose proof (proj2 (verify_signature_iff u package s) Hs) as Hv; destruct (verify_signature u package s); [|done] end.
  cbn [negb]. rewrite stage_ok by done. cbn [notices disk]. by rewrite <-app_assoc.
Qed.

(** C38. A release reaches the user exactly when it is newer: for a package signed
    under the embedded key and published under a version, an application that
    checks offers it, and installing stages its very bytes and launches them, when
    its own version is before that one in the order of the three numbers;
    otherwise, or when the preference is off, nothing is offered, and nothing
    happens on installing. *)
Theorem release_installs_iff_newer `{!DalekLaws} sk package url sha256 v suffix cur suffix' auto src current h w :
  signing_public sk = PRODUCTION_PUBLIC_KEY → verifying_key_ok PRODUCTION_PUBLIC_KEY = true →
  suffix_ok suffix → suffix_ok suffix' → within_u32 v → within_u32 cur →
  let version := version_text v suffix in
  fetch_manifest src = Ok (mkManifestJson version url sha256 (sign_hex sk package)) →
  download_package src url = Ok package → current = version_text cur suffix' →
  sound_host h version (disk w) → pending_update w = None →
  let newer := (cur.1.1 < v.1.1 ∨ cur.1.1 = v.1.1 ∧ (cur.1.2 < v.1.2 ∨ cur.1.2 = v.1.2 ∧ cur.2 < v.2))%N in
  (w1 ← check_for_updates src current auto w; install_pending_update src current h w1) =
    Some (if auto && bool_decide newer
          then mkDesktop None (notices w ++ [UpdateAvailable; Launched (staging_path h version)])
                 (<[staging_path h version := package]> (disk w))
          else w).
Proof.
  intros Hk Hok Hs Hs' Hv Hc version Hf Hd -> Hh Hp newer.
  assert (version_is_newer (version_text cur suffix') version = bool_decide newer) as Hn.
  { unfold version_is_newer, version. rewrite !parse_version_text by done. unfold triple_lt, newer.
    apply eq_bool_prop_intro. rewrite bool_decide_spec, Is_true_true, orb_true_iff, andb_true_iff, orb_true_iff, andb_true_iff,
      !Z.ltb_lt, !Z.eqb_eq. lia. }
  destruct (auto && bool_decide newer) eqn:Hb.
  - apply andb_true_iff in Hb as [-> Hb].
    apply (update_runs (mkManifestJson version url sha256 (sign_hex sk package))); try done; [|etransitivity; [exact Hn | exact Hb]].
    rewrite <-Hk. apply sign_hex_signed.
  - unfold check_for_updates, new. rewrite Hok. cbn [mbind option_bind]. unfold check.
    cbn [up_auto_update_enabled up_source up_current_version]. destruct auto; cbn [negb andb] in *.
    + rewrite Hf. cbn [um_version]. rewrite Hn, Hb. cbn. unfold install_pending_update. by rewrite Hp.
    + cbn. unfold install_pending_update. by rewrite Hp.
Qed.

(** The signature covers the bytes only: any package ever signed is installed as
    any version the manifest names. *)
Lemma signed_package_installs_as_any `{!DalekLaws} sk package url sha256 version src current h w :
  signing_public sk = PRODUCTION_PUBLIC_KEY → verifying_key_ok PRODUCTION_PUBLIC_KEY = true →
  version_is_newer current version = true →
  fetch_manifest src = Ok (mkManifestJson version url sha256 (sign_hex sk package)) →
  download_package src url = Ok package → sound_host h version (disk w) →
  (w1 ← check_for_updates src current true w; install_pending_update src current h w1) =
    Some (mkDesktop None (notices w ++ [UpdateAvailable; Launched (staging_path h version)])
            (<[staging_path h version := package]> (disk w))).
Proof.
  intros Hk Hok Hn Hf Hd Hh. apply (update_runs (mkManifestJson version url sha256 (sign_hex sk package))); try done.
  rewrite <-Hk. apply sign_hex_signed.
Qed.

(** What cannot be told from 0: a tag such as [v2.0.0], a number past [u32]. *)
Lemma odd_versions_are_zero : parse_version "v2.7.1" = (0, 7, 1) ∧ parse_version "1.4294967296.3" = (1, 0, 3).
Proof. vm_compute. done. Qed.
End Flow.

(** ** Witnesses *)
Section UpdateWitnesses.

Definition toy_signature (k m : blob) : blob := take 64 (k ++ m ++ replicate 64 x00).
#[local] Instance toy_dalek : Dalek := {
  signature_from_slice b := if bool_decide (length b = 64%nat) then Some b else None;
  verify_strict k m s := bool_decide (s = toy_signature k m);
  signing_public sk := sk; dalek_sign := toy_signature; verifying_key_ok k := bool_decide (length k = 32%nat) }.
#[local] Instance toy_dalek_laws : DalekLaws.
Proof.
  split; cbn.
  - intros b Hb. by rewrite bool_decide_true.
  - intros sk m. unfold toy_signature. rewrite length_take, !length_app, length_replicate. lia.
  - intros sk m. by rewrite bool_decide_true.
Qed.

Definition package : blob := [x01; x02; x03].
Definition release : UpdateManifest :=
  mkManifestJson (version_text (0, 10, 0)%N "-rc.1") "https://u" "00" (sign_hex PRODUCTION_PUBLIC_KEY package).
Definition server : UpdateSource :=
  mkSource (Ok release) (λ u, if bool_decide (u = "https://u")%string then Ok package else Err "404"%string).
Definition host : Host := mkHost "/tmp" 255 16 None None None None None false (λ f, f).
Definition staged_at : string := "/tmp/vautr-update-ff-10/vautr-update-0_10_0-rc_1.bin".

Lemma release_installs_iff_newer_witness :
  (w1 ← check_for_updates server "0.9.12" true (mkDesktop None [] ∅);
   install_pending_update server "0.9.12" host w1) =
    Some (mkDesktop None [UpdateAvailable; Launched staged_at] {[ staged_at := package ]}).
Proof.
  refine (release_installs_iff_newer PRODUCTION_PUBLIC_KEY package "https://u" "00" (0, 10, 0)%N "-rc.1" (0, 9, 12)%N ""
    true server "0.9.12" host (mkDesktop None [] ∅) _ _ _ _ _ _ _ _ _ _ _); try (vm_compute; reflexivity);
    try (unfold within_u32, u32_max; cbn; lia).
  unfold sound_host. split_and!; vm_compute; reflexivity.
Defined.


End UpdateWitnesses.
