(* ===== verification/CrashReports.v ===== *)
(** * What leaves the machine in a crash report

    Models the scrubbing half of [vautr-app-state/src/hardening.rs]: the filter
    on crash events, the one on text, and the consent that installs the hook.
    A string is its bytes, the extra fields a map from keys to JSON values.
    Shows exactly what the filters remove and keep, and what they miss. *)
From Stdlib Require Import Strings.Ascii.
From S2P Require Import Prelude Database Crypto Client Vault Import.

Local Open Scope nat_scope.

Record CrashBreadcrumb := mkCrumb { cb_message : string; cb_category : option string }.
Record CrashUser := mkCrashUser { cu_id : option string; cu_email : option string }.
Record CrashEvent := mkCrash {
  ce_message : option string; ce_breadcrumbs : list CrashBreadcrumb; ce_stacktrace : option (list string);
  ce_extra : gmap string Value; ce_user : option CrashUser }.

(** ** Uuids in a text *)

Abbreviation chars := String.list_ascii_of_string.

Definition in_range (c lo hi : Ascii.ascii) : bool :=
  bool_decide (Ascii.nat_of_ascii lo ≤ Ascii.nat_of_ascii c ≤ Ascii.nat_of_ascii hi).
Definition is_ascii_digit (c : Ascii.ascii) : bool := in_range c "0" "9".
Definition hex_char (c : Ascii.ascii) : bool := is_ascii_digit c || in_range c "a" "f" || in_range c "A" "F".
Definition DASHES : list nat := [8; 13; 18; 23].

(** [is_uuid_at]; an index past the end panics, and the caller keeps within. *)
Definition is_uuid_at (b : list Ascii.ascii) (start : nat) : bool :=
  forallb (λ d, bool_decide (b !! (start + d) = Some "-"%char)) DASHES &&
  forallb (λ i, bool_decide (i ∈ DASHES) || match b !! (start + i) with Some c => hex_char c | None => false end) (seq 0 36).

Definition looks_like_uuid (s : string) : bool :=
  let n := String.length s in
  if bool_decide (n < 36) then false else existsb (is_uuid_at (chars s)) (seq 0 (S (n - 36))).

(** ** Events *)

Definition is_secret_key (key : string) : bool :=
  let k := lowercase key in
  str_contains "secret" k || str_contains "password" k || str_contains "token" k || str_contains "decrypted" k ||
  str_contains "plaintext" k || str_contains "title" k || str_contains "email" k || str_contains "mnemonic" k ||
  bool_decide (k = "uuid"%string).

Definition leaks (s : string) : bool :=
  looks_like_uuid s || str_contains "DecryptedSecret" s || str_contains "DecryptedOverview" s.

Definition scrub_message (m : option string) : option string :=
  match m with Some msg => if leaks msg then Some "[redacted]"%string else m | None => None end.
Definition scrub_user (u : CrashUser) : CrashUser :=
  let email := match cu_email u with Some e => if bool_decide (e ≠ ""%string) then None else Some e | None => None end in
  let id := match cu_id u with Some i => if looks_like_uuid i then None else Some i | None => None end in
  mkCrashUser id email.

(** The keys to remove, then the removals. *)
Definition removed_entry (kv : string * Value) : bool :=
  is_secret_key kv.1 || match as_str kv.2 with Some s => leaks s | None => false end.
Definition to_remove (extra : gmap string Value) : list string := (filter removed_entry (map_to_list extra)).*1.
Definition scrub_crash_event (e : CrashEvent) : CrashEvent :=
  mkCrash (scrub_message (ce_message e)) (ce_breadcrumbs e) (ce_stacktrace e)
    (foldl (λ m k, delete k m) (ce_extra e) (to_remove (ce_extra e)))
    (scrub_user <$> ce_user e).
Definition scrub_before_send (e : CrashEvent) : option CrashEvent := Some (scrub_crash_event e).

(** [init_crash_reporting]: the hook, and what the process-wide flag is set to. *)
Definition init_crash_reporting (consent : bool) : option (CrashEvent → option CrashEvent) * bool :=
  (if consent then Some scrub_before_send else None, consent).

(** ** Text *)

Definition token_char (c : Ascii.ascii) : bool :=
  is_ascii_digit c || in_range c "a" "z" || in_range c "A" "Z" ||
  bool_decide (c ∈ ["+"; "/"; "="; "-"; "_"]%char).
Definition marker : list Ascii.ascii := chars "[REDACTED]".
Definition flush (token_len : nat) : list Ascii.ascii := if bool_decide (24 ≤ token_len) then marker else [].
Fixpoint scrub_chars (token_len : nat) (l : list Ascii.ascii) : list Ascii.ascii :=
  match l with
  | [] => flush token_len
  | c :: l => if token_char c then scrub_chars (S token_len) l else flush token_len ++ c :: scrub_chars 0 l
  end.
Definition scrub_for_crash_report (raw : string) : string := String.string_of_list_ascii (scrub_chars 0 (chars raw)).

(** ** What a uuid in a text is *)

(** Eight, four, four, four and twelve hexadecimal digits, joined by dashes. *)
Definition uuid_shaped (u : list Ascii.ascii) : Prop :=
  ∃ a b c d e, u = a ++ "-"%char :: b ++ "-"%char :: c ++ "-"%char :: d ++ "-"%char :: e ∧
    (length a, length b, length c, length d, length e) = (8, 4, 4, 4, 12) ∧
    Forall hex_char a ∧ Forall hex_char b ∧ Forall hex_char c ∧ Forall hex_char d ∧ Forall hex_char e.
Definition mentions_uuid (s : string) : Prop := ∃ pre u post, chars s = pre ++ u ++ post ∧ uuid_shaped u.

Lemma is_uuid_at_spec b start :
  is_uuid_at b start ↔
  (∀ d, d ∈ DASHES → b !! (start + d) = Some "-"%char) ∧
  (∀ i, i < 36 → i ∉ DASHES → ∃ c, b !! (start + i) = Some c ∧ hex_char c).
Proof.
  unfold is_uuid_at. rewrite andb_True, !Is_true_true, !forallb_forall. split; intros [Hd Hh]; split.
  - intros d Hin%list_elem_of_In. specialize (Hd _ Hin). by apply bool_decide_eq_true in Hd.
  - intros i Hi Hn. specialize (Hh i). rewrite in_seq in Hh. specialize (Hh ltac:(lia)).
    rewrite bool_decide_false in Hh by done. destruct (b !! (start + i)) as [c|]; [|done]. exists c.
    split; [done | by apply Is_true_true].
  - intros d Hin%list_elem_of_In. by apply bool_decide_eq_true, Hd.
  - intros i Hi%in_seq. destruct (decide (i ∈ DASHES)) as [Hin|Hin]; [by rewrite bool_decide_true|].
    rewrite bool_decide_false by done. destruct (Hh i ltac:(lia) Hin) as (c & -> & Hc). by apply Is_true_true.
Qed.

(** A part of the digits between two dashes. *)
Lemma hex_segment u lo n :
  is_uuid_at u 0 → lo + n ≤ 36 → (∀ i, lo ≤ i < lo + n → i ∉ DASHES) → Forall hex_char (take n (drop lo u)).
Proof.
  intros [_ Hh]%is_uuid_at_spec Hn Hd. apply Forall_lookup. intros i c Hi.
  apply lookup_take_Some in Hi as [Hi Hlt]. rewrite lookup_drop in Hi.
  destruct (Hh (lo + i)) as (c' & Hc & Hx); [lia | apply Hd; lia|]. cbn in Hc. by rewrite Hi in Hc; injection Hc as ->.
Qed.

Lemma at_uuid_shaped u : length u = 36 → is_uuid_at u 0 → uuid_shaped u.
Proof.
  intros Hl Hu. pose proof Hu as [Hd _]%is_uuid_at_spec.
  assert (∀ k n m x, u !! (k + n) = Some x → m = k + S n → drop k u = take n (drop k u) ++ x :: drop m u) as Hsplit.
  { intros k n m x Hx ->. rewrite <-lookup_drop in Hx. rewrite <-(take_drop_middle _ _ _ Hx) at 1. by rewrite drop_drop. }
  exists (take 8 u), (take 4 (drop 9 u)), (take 4 (drop 14 u)), (take 4 (drop 19 u)), (take 12 (drop 24 u)).
  assert (∀ d, d ∈ DASHES → u !! d = Some "-"%char) as Hdash by exact Hd.
  split.
  { rewrite (take_ge (drop 24 u) 12) by (rewrite length_drop; lia).
    rewrite <-(Hsplit 19 4 24 "-"%char), <-(Hsplit 14 4 19 "-"%char), <-(Hsplit 9 4 14 "-"%char)
      by (done || apply Hdash; set_solver).
    apply (Hsplit 0 8 9 "-"%char); [apply Hdash; set_solver | done]. }
  split; [rewrite !length_take, !length_drop, Hl; done|].
  rewrite <-(drop_0 u) at 1.
  split_and!; apply hex_segment; try done; try lia;
    intros i Hi Hin; unfold DASHES in Hin; rewrite !elem_of_cons, elem_of_nil in Hin; lia.
Qed.

Lemma shaped_uuid_at u : uuid_shaped u → length u = 36 ∧ is_uuid_at u 0.
Proof.
  intros (a & b & c & d & e & -> & [= La Lb Lc Ld Le] & Ha & Hb & Hc & Hd & He).
  split; [rewrite !length_app; cbn; rewrite !length_app; cbn; rewrite !length_app; cbn; rewrite length_app; cbn; lia|].
  apply is_uuid_at_spec. cbn [Nat.add].
  assert (∀ (l1 l2 : list Ascii.ascii) x i n, length l1 = n → (l1 ++ x :: l2) !! (n + S i) = l2 !! i) as Hskip.
  { intros l1 l2 x i n <-. rewrite lookup_app_r by lia. by replace (length l1 + S i - length l1) with (S i) by lia. }
  split.
  - intros i Hi. unfold DASHES in Hi. rewrite !elem_of_cons, elem_of_nil in Hi.
    destruct Hi as [->|[->|[->|[->|[]]]]].
    + by apply list_lookup_middle.
    + rewrite (Hskip a _ _ 4 8) by done. by apply list_lookup_middle.
    + rewrite (Hskip a _ _ 9 8), (Hskip b _ _ 4 4) by done. by apply list_lookup_middle.
    + rewrite (Hskip a _ _ 14 8), (Hskip b _ _ 9 4), (Hskip c _ _ 4 4) by done. by apply list_lookup_middle.
  - assert (∀ (l l' : list Ascii.ascii) i, Forall hex_char l → i < length l → ∃ x, (l ++ l') !! i = Some x ∧ hex_char x) as Hseg.
    { intros l l' i Hf Hi. rewrite lookup_app_l by done. destruct (lookup_lt_is_Some_2 l i Hi) as [x Hx].
      exists x. split; [done|]. exact (Forall_lookup_1 _ _ _ _ Hf Hx). }
    intros i Hi Hn. assert (i ≠ 8 ∧ i ≠ 13 ∧ i ≠ 18 ∧ i ≠ 23) as (? & ? & ? & ?) by (split_and!; intros ->; apply Hn; set_solver).
    destruct (decide (i < 8)); [apply Hseg; [done | lia]|].
    replace i with (8 + S (i - 9)) by lia. rewrite (Hskip a) by done.
    destruct (decide (i < 13)); [apply Hseg; [done | lia]|].
    replace (i - 9) with (4 + S (i - 14)) by lia. rewrite (Hskip b) by done.
    destruct (decide (i < 18)); [apply Hseg; [done | lia]|].
    replace (i - 14) with (4 + S (i - 19)) by lia. rewrite (Hskip c) by done.
    destruct (decide (i < 23)); [apply Hseg; [done | lia]|].
    replace (i - 19) with (4 + S (i - 24)) by lia. rewrite (Hskip d) by done.
    rewrite <-(app_nil_r e). apply Hseg; [done | lia].
Qed.

Lemma is_uuid_at_sub b start : is_uuid_at b start ↔ is_uuid_at (take 36 (drop start b)) 0.
Proof.
  rewrite !is_uuid_at_spec. cbn [Nat.add].
  assert (∀ i, i < 36 → take 36 (drop start b) !! i = b !! (start + i)) as Hi.
  { intros i Hi. rewrite lookup_take_lt by done. apply lookup_drop. }
  split; intros [Hd Hh]; split.
  - intros d Hin. rewrite Hi; [by apply Hd|]. unfold DASHES in Hin. rewrite !elem_of_cons, elem_of_nil in Hin. lia.
  - intros i Hlt Hn. rewrite Hi by done. by apply Hh.
  - intros d Hin. rewrite <-Hi; [by apply Hd|]. unfold DASHES in Hin. rewrite !elem_of_cons, elem_of_nil in Hin. lia.
  - intros i Hlt Hn. rewrite <-Hi by done. by apply Hh.
Qed.

Lemma chars_length s : length (chars s) = String.length s.
Proof. induction s as [|c s IH]; [done|]. cbn. by rewrite IH. Qed.

(** The scan finds exactly the uuids that are there. *)
Lemma looks_like_uuid_spec s : looks_like_uuid s ↔ mentions_uuid s.
Proof.
  unfold looks_like_uuid, mentions_uuid. rewrite <-chars_length. split.
  - case_bool_decide as Hn; [done|]. intros H%Is_true_true%existsb_exists. destruct H as (i & Hi%in_seq & Hu).
    apply Is_true_true, is_uuid_at_sub in Hu.
    exists (take i (chars s)), (take 36 (drop i (chars s))), (drop 36 (drop i (chars s))).
    split; [by rewrite !take_drop|]. apply at_uuid_shaped; [|done]. rewrite length_take, length_drop. lia.
  - intros (pre & u & post & Hs & [Hl Hu]%shaped_uuid_at). rewrite Hs, !length_app.
    rewrite bool_decide_false by lia. apply Is_true_true, existsb_exists. exists (length pre).
    split; [apply in_seq; lia|]. apply Is_true_true, is_uuid_at_sub. by rewrite drop_app_length, <-Hl, take_app_length.
Qed.

(** ** What leaves in an event *)

Definition within (pat s : string) : Prop := ∃ a b, s = a +:+ pat +:+ b.

Lemma append_cons' c s t : String c s +:+ t = String c (s +:+ t).
Proof. done. Qed.

Lemma prefix_spec p s : String.prefix p s = true ↔ ∃ b, s = p +:+ b.
Proof.
  revert s. induction p as [|c p IH]; intros s; [split; [intros _; by exists s | by destruct s]|].
  destruct s as [|c' s]; [split; [done | by intros [b ?]]|]. cbn. destruct (Ascii.ascii_dec c c') as [<-|Hne].
  - rewrite IH. split; intros [b Hb]; exists b; rewrite append_cons' in *; congruence.
  - split; [done|]. intros [b Hb]. rewrite append_cons' in Hb. congruence.
Qed.

Lemma str_contains_spec pat s : str_contains pat s ↔ within pat s.
Proof.
  rewrite Is_true_true. induction s as [|c s IH]; cbn [str_contains]; unfold starts_with; rewrite orb_true_iff, prefix_spec.
  - split; [intros [[b Hb]|]; [by exists EmptyString, b | done]|].
    intros ([|x a] & b & Hb); [by left; exists b | done].
  - rewrite IH. split.
    + intros [[b Hb]|(a & b & Hb)]; [by exists EmptyString, b|]. exists (String c a), b. by rewrite append_cons', Hb.
    + intros ([|x a] & b & Hb); [left; by exists b|]. right. rewrite append_cons' in Hb. injection Hb as <- Hb. by exists a, b.
Qed.

(** A text that gives away an identifier or a decrypted value. *)
Definition gives_away (s : string) : Prop :=
  mentions_uuid s ∨ within "DecryptedSecret" s ∨ within "DecryptedOverview" s.
Lemma leaks_spec s : leaks s ↔ gives_away s.
Proof.
  unfold leaks, gives_away. rewrite !orb_True, looks_like_uuid_spec, !str_contains_spec. tauto.
Qed.

Lemma removed_lookup (ks : list string) (m : gmap string Value) k :
  foldl (λ m k, delete k m) m ks !! k = if bool_decide (k ∈ ks) then None else m !! k.
Proof.
  revert m. induction ks as [|k' ks IH]; intros m; [by rewrite bool_decide_false by apply not_elem_of_nil|].
  cbn [foldl]. rewrite IH. destruct (decide (k ∈ ks)) as [Hk|Hk].
  - rewrite !bool_decide_true; [done | by right | done].
  - rewrite (bool_decide_false _ Hk). destruct (decide (k = k')) as [->|Hne].
    + rewrite lookup_delete_eq, bool_decide_true by left. done.
    + rewrite lookup_delete_ne by congruence. rewrite bool_decide_false; [done|].
      intros [?|?]%elem_of_cons; done.
Qed.

Lemma to_remove_spec extra k : k ∈ to_remove extra ↔ ∃ v, extra !! k = Some v ∧ removed_entry (k, v).
Proof.
  unfold to_remove. rewrite list_elem_of_fmap. split.
  - intros ([k' v] & -> & [Hr Hm]%list_elem_of_filter). exists v. split; [by apply elem_of_map_to_list | done].
  - intros (v & Hv & Hr). exists (k, v). split; [done|]. apply list_elem_of_filter.
    split; [done | by apply elem_of_map_to_list].
Qed.

(** What a scrubbed event still says: its message and its string fields mention no
    uuid and no decrypted value, its user no e-mail address and no uuid, and no
    field is left whose name tells of a secret; every other field, and the
    breadcrumbs and the stack trace, are as they were. *)
Theorem scrubbed_event e e' :
  scrub_before_send e = Some e' →
  (∀ m, ce_message e' = Some m → ¬ gives_away m) ∧
  (∀ u, ce_user e' = Some u → default "" (cu_email u) = ""%string ∧ ∀ i, cu_id u = Some i → ¬ mentions_uuid i) ∧
  (∀ k v, ce_extra e' !! k = Some v ↔
     ce_extra e !! k = Some v ∧ is_secret_key k = false ∧ ∀ s, v = VString s → ¬ gives_away s) ∧
  ce_breadcrumbs e' = ce_breadcrumbs e ∧ ce_stacktrace e' = ce_stacktrace e.
Proof.
  intros [= <-]. cbn. split; [|split; [|split; [|done]]].
  - intros m. unfold scrub_message. destruct (ce_message e) as [msg|]; [|done].
    destruct (leaks msg) eqn:Hl; intros [= <-]; rewrite <-leaks_spec; [vm_compute; tauto | rewrite Hl; tauto].
  - intros u. destruct (ce_user e) as [[id email]|]; [|done]. intros [= <-]. cbn. split.
    + destruct email as [x|]; [|done]. case_bool_decide as Hx; [done|]. cbn. destruct (decide (x = ""%string)); tauto.
    + intros i. destruct id as [x|]; [|done]. destruct (looks_like_uuid x) eqn:Hx; [done|]. intros [= <-].
      rewrite <-looks_like_uuid_spec, Hx. tauto.
  - intros k v. rewrite removed_lookup. pose proof (to_remove_spec (ce_extra e) k) as Ht. case_bool_decide as Hk.
    + split; [done|]. intros (Hv & Hs & Hg). apply Ht in Hk as (v' & Hv' & Hr).
      assert (v' = v) as -> by congruence. unfold removed_entry in Hr. cbn in Hr. rewrite Hs in Hr. cbn in Hr.
      destruct v; cbn in Hr; try done. exfalso. by apply (Hg s), leaks_spec.
    + split; [|by intros []]. intros Hv. split; [done|].
      destruct (removed_entry (k, v)) eqn:Hr; [exfalso; apply Hk, Ht; exists v; by rewrite Hr|].
      unfold removed_entry in Hr. cbn in Hr. apply orb_false_iff in Hr as [Hs Hl]. split; [done|].
      intros s ->. cbn in Hl. rewrite <-leaks_spec, Hl. tauto.
Qed.

(** Only strings are looked into: what a field holds in an object or a list stays. *)
Lemma nested_fields_kept k fields e :
  is_secret_key k = false → ce_extra e !! k = Some (VObject fields) →
  ce_extra (scrub_crash_event e) !! k = Some (VObject fields).
Proof.
  intros Hk He. cbn. rewrite removed_lookup, bool_decide_false; [done|]. rewrite to_remove_spec.
  intros (v & Hv & Hr). assert (v = VObject fields) as -> by congruence. unfold removed_entry in Hr. cbn in Hr. by rewrite Hk in Hr.
Qed.

(** ** What leaves in a text *)

(** No run of 24 token characters, [k] of them behind. *)
Fixpoint runs_short (k : nat) (l : list Ascii.ascii) : Prop :=
  match l with
  | [] => k < 24
  | c :: l => if token_char c then runs_short (S k) l else k < 24 ∧ runs_short 0 l
  end.

(** A text without keys loses its words: every letter and digit goes, only the
    characters between the words are left. *)
Lemma scrub_drops_words k l :
  runs_short k l → scrub_chars k l = filter (λ c, token_char c = false) l.
Proof.
  revert k. induction l as [|c l IH]; intros k Hr; cbn in *; unfold flush; [by rewrite bool_decide_false by lia|].
  destruct (token_char c) eqn:Hc; cbn; [by apply IH|].
  destruct Hr as [Hk Hr]. rewrite bool_decide_false by lia. cbn. by rewrite IH.
Qed.
Example scrubbed_log_line : scrub_for_crash_report "sync failed: timeout" = " : "%string.
Proof. vm_compute. reflexivity. Qed.
