(* ===== verification/DesktopLogin.v ===== *)
(** * Signing up and signing in on the desktop

    Models [apps/desktop/src/auth_client.rs] (the OPAQUE exchanges over HTTP), the
    configuration of [state.rs] and what [desktop_view.rs] does with them: register,
    log in, finish with a code, open the vault, restore a session.  Requests go to
    the server of System.v through a script of turns, as in Http.v; what the forms
    show is the error.  Shows that an account made on the desktop opens there
    again, whatever else the server was asked in between, and two accounts that
    do not: one with a second factor, and one a browser has since opened. *)
From Stdlib Require Import Strings.Byte.
From stdpp Require Import pretty.
From S2P Require Import Prelude Domain Database Concrete Users Items Tokens Sync.
From S2P Require Import Projects Mfa Auth Recovery Account Webauthn System History.
From S2P Require Import ClientDb ClientSync Crypto Client Replica Http Vault ConcreteClient Custody Rotation WebClient.

Local Open Scope Z_scope.

(** ** What is kept on the device (state.rs) *)

Record VaultConfig := mkConfig {
  vc_username : string; vc_kdf_salt_b64 : string; vc_auto_update_enabled : bool;
  vc_recovery_mnemonic_enc : option string }.
Record PersistedSession := mkPersisted {
  ps_token : string; ps_wrapped_svk_b64 : string; ps_min_enc_key_gen : Z }.

(** A device: the requests it makes and the two files, absent or unreadable when
    [None]; [dv_save_fails] when the files cannot be written. *)
Record Device := mkDevice {
  dv_net : Net; dv_config : option VaultConfig; dv_session : option PersistedSession;
  dv_pending : option MfaChallenge; dv_save_fails : bool }.

Abbreviation desk := (M Device string).

(** What a registration draws. *)
Record Drawn := mkDrawn {
  dr_salt : blob; dr_svk : blob; dr_entropy : blob; dr_nonce : blob; dr_nonce_rk : blob; dr_nonce_mnemonic : blob;
  dr_opaque_start : blob; dr_opaque_finish : blob }.

Record RegisterResult := mkRegisterResult { rr_kdf_salt : blob; rr_recovery_mnemonic : string }.
Record LoginResult := mkLoginResult {
  lr_session_token : option string; lr_wrapped_svk : blob; lr_min_enc_key_gen : Z; lr_mfa_required : option MfaChallenge }.

Section Desktop.
Context {EXT : Ext} {WA : WebauthnRs} {CEXT : CryptoExt} {OC : OpaqueClient}.

Definition kdf_salt_bytes (c : VaultConfig) : result string blob :=
  match b64_decode (vc_kdf_salt_b64 c) with
  | None => Err "decode kdf_salt"%string
  | Some b => if bool_decide (length b ≠ 32%nat) then Err "kdf_salt is not 32 bytes"%string else Ok b
  end.
Definition local_salt (c : option VaultConfig) : option blob :=
  c ← c; match kdf_salt_bytes c with Ok s => Some s | Err _ => None end.

(** ** auth_client.rs *)

Definition or_fail {E A} (what : string) (r : result E A) : M Net string A :=
  match r with Ok a => mret a | Err _ => throw what end.

(** [send_json] of one request: what the server answers, decoded by [k]. *)
Definition send_json {A B} (what : string) (m : Env → handler A) (k : A → result string B) : M Net string B := λ n,
  match net_script n with
  | [] => (n, Err (what +:+ " request")%string)
  | t :: ts =>
      let d := history (t_before t) (net_db n) in
      let after d := mkNet d (net_token n) ts (net_served n) in
      if decide (t_fault t = RequestLost) then (after d, Err (what +:+ " request")%string)
      else
        let '(d', r) := m (t_env t) d in
        (after d',
         if decide (t_fault t = ResponseLost) then Err (what +:+ " request")%string
         else match r with
              | Ok a => map_res (λ e, (what +:+ ": parse response: " +:+ e)%string) (k a)
              | Err e => Err (what +:+ ": HTTP " +:+ pretty (api_status e) +:+ ": " +:+ api_code e)%string
              end)
  end.

Definition decoded (what : string) (s : string) : M Net string blob := ok_or (what +:+ " b64 decode")%string (b64_decode s).

Definition register (x : Drawn) (username password : string) : M Net string RegisterResult :=
  let kdf_salt := dr_salt x in
  mk ← or_fail "mk derive" (derive_master_key password kdf_salt);
  let kek := derive_kek mk in
  svk_wrapped ← or_fail "svk wrap" (wrap_svk (dr_nonce x) kek (dr_svk x));
  let mnemonic := bip39_generate (dr_entropy x) in
  mnemonic_bytes ← or_fail "decode mnemonic" (decode_recovery_mnemonic mnemonic);
  let kek_rk := derive_kek_rk mnemonic_bytes in
  svk_rk_wrapped ← or_fail "svk rk wrap" (rk_wrap_svk (dr_nonce_rk x) (dr_svk x) kek_rk nil_uuid);
  '(cstate, creq) ← or_fail "opaque" (AuthState.registration_start (dr_opaque_start x) password);
  start_resp ← send_json "register/start" (λ ρ, register_start ρ (mkRegisterStart username (b64_encode creq))) Ok;
  sresp ← decoded "register/start" (rgs_response start_resp);
  '(upload, _, _) ← or_fail "opaque" (AuthState.registration_finish (dr_opaque_finish x) cstate sresp password (utf8 username));
  send_json "register/finish" (λ ρ, register_finish ρ
    (mkRegisterFinish username (b64_encode upload) (rgs_server_public_key start_resp) (b64_encode kdf_salt)
      (b64_encode svk_wrapped) (b64_encode svk_rk_wrapped))) Ok;;
  mret (mkRegisterResult kdf_salt mnemonic).

(** The desktop's [LoginFinishResp]: the expiry is not optional, and has no default. *)
Definition login_finish_body (r : LoginFinishResp) : result string (option string * Z * option MfaChallenge) :=
  match lf_expires_at r with
  | None => Err "missing field `expires_at`"%string
  | Some e => Ok (lf_session_token r, e, lf_mfa_required r)
  end.

(** With a session: the wrapped vault key. *)
Definition fetch_wrapped (token : string) : M Net string LoginResult :=
  status ← send_json "account/status" (λ ρ, Account.account_status ρ token) Ok;
  wrapped_svk ← decoded "account/status svk" (as_svk_ciphertext_blob status);
  mret (mkLoginResult (Some token) wrapped_svk (as_u64 (as_min_enc_key_gen status)) None).

Definition login (r1 r2 : blob) (username password : string) : M Net string LoginResult :=
  '(cstate, lreq) ← or_fail "opaque" (AuthState.login_start r1 password);
  start_resp ← send_json "login/start" (λ ρ, login_start ρ (mkLoginStart username (b64_encode lreq))) Ok;
  sresp ← decoded "login/start" (ls_response start_resp);
  '(upload, _, _) ← or_fail "opaque" (AuthState.login_finish r2 cstate sresp password (utf8 username));
  finish_resp ← send_json "login/finish" (λ ρ, login_finish ρ (mkLoginFinish username (b64_encode upload) None)) login_finish_body;
  let '(session_token, _, mfa_required) := finish_resp in
  match mfa_required with
  | Some mfa => mret (mkLoginResult None [] 0 (Some mfa))
  | None =>
      token ← ok_or "login/finish: missing session_token"%string session_token;
      fetch_wrapped token
  end.

Definition complete_login_totp (pending_token code : string) : M Net string LoginResult :=
  finish_resp ← send_json "verify-login" (λ ρ, verify_login_totp ρ (mkVerifyLogin pending_token code)) Ok;
  token ← ok_or "verify-login: missing session_token"%string (lf_session_token finish_resp);
  fetch_wrapped token.

(** ** desktop_view.rs *)

Definition on_net {A} (what : string) (m : M Net string A) : desk A := λ v,
  let '(n, r) := m (dv_net v) in
  (mkDevice n (dv_config v) (dv_session v) (dv_pending v) (dv_save_fails v), map_res (λ e, (what +:+ e)%string) r).
Definition save_config (c : VaultConfig) : desk () := λ v,
  if dv_save_fails v then (v, Err "Saving local config failed"%string)
  else (mkDevice (dv_net v) (Some c) (dv_session v) (dv_pending v) false, Ok ()).
Definition set_pending (p : option MfaChallenge) : desk () :=
  modify (λ v, mkDevice (dv_net v) (dv_config v) (dv_session v) p (dv_save_fails v)).
(** A failure to save the session is ignored. *)
Definition save_session (s : PersistedSession) : desk () :=
  modify (λ v, if dv_save_fails v then v else mkDevice (dv_net v) (dv_config v) (Some s) (dv_pending v) (dv_save_fails v)).

(** MP → MK → KEK, and the vault key under the nil id alone; its data key. *)
Definition desktop_kek (password : string) (salt : blob) : result string blob :=
  match derive_master_key password salt with Ok mk => Ok (derive_kek mk) | Err _ => Err "MK derive"%string end.
Definition desktop_dek (kek wrapped_svk : blob) : result string blob :=
  match decrypt kek nil_uuid 0 wrapped_svk with
  | Err _ => Err "DEK derive: SVK unwrap failed"%string
  | Ok svk => if bool_decide (length svk ≠ 32%nat) then Err "DEK derive: malformed SVK"%string else Ok (derive_dek svk)
  end.

(** The sealed recovery phrase of the configuration, as bytes. *)
Definition open_kit (c : option VaultConfig) (kek : blob) : option blob :=
  c ← c; enc ← vc_recovery_mnemonic_enc c; ct ← b64_decode enc;
  match decrypt kek nil_uuid 0 ct with Ok pt => Some pt | Err _ => None end.

Section Open.
Context {W : Type} {TR : Transport W} {VEXT : VaultExt} (fts : Local → string → list DecryptedOverview).

(** What the view holds once the vault is open. *)
Record Opened := mkOpened {
  op_client : World W; op_dek : blob; op_token : string; op_kit : option blob; op_items : list DecryptedOverview }.

(** The client: unlock it and list the items. *)
Definition unlock_client (w : World W) (password : string) (salt wrapped_svk : blob) (local_gen : Z)
    : result string (World W * list DecryptedOverview) :=
  match unlock_with_password password salt wrapped_svk nil_uuid local_gen w with
  | (_, Err _) => Err "Unlock failed"%string
  | (w, Ok _) =>
      match search fts "" w with
      | (_, Err _) => Err "Search failed"%string
      | (w, Ok items) => Ok (w, items)
      end
  end.

Definition lift_desk {A} (r : result string A) : desk A := λ v, (v, r).

(** [w] is the client [build_client] makes for the token. *)
Definition apply_login (w : World W) (l : LoginResult) (password : string) : desk Opened :=
  token ← ok_or "Login incomplete: second factor is required"%string (lr_session_token l);
  c ← gets dv_config;
  salt ← ok_or "No local KDF salt found. Please register first."%string (local_salt c);
  kek ← lift_desk (desktop_kek password salt);
  let kit := open_kit c kek in
  dek ← lift_desk (desktop_dek kek (lr_wrapped_svk l));
  '(w, items) ← lift_desk (unlock_client w password salt (lr_wrapped_svk l) (Z.max 1 (lr_min_enc_key_gen l)));
  set_pending None;;
  save_session (mkPersisted token (b64_encode (lr_wrapped_svk l)) (lr_min_enc_key_gen l));;
  mret (mkOpened w dek token kit items).

(** A form ends in the vault or in asking for a code. *)
Inductive Screen := Unlocked (o : Opened) | AwaitsCode.

Definition continue_login (w : World W) (l : LoginResult) (password : string) : desk Screen :=
  match lr_mfa_required l with
  | Some mfa => set_pending (Some mfa);; mret AwaitsCode
  | None => o ← apply_login w l password; mret (Unlocked o)
  end.

Definition do_register (w : World W) (x : Drawn) (r1 r2 : blob) (username password confirm : string) : desk Screen :=
  guard_err (bool_decide (password ≠ confirm)) "Passwords do not match."%string;;
  guard_err (bool_decide (username = ""%string) || bool_decide (password = ""%string)) "Username and password are required."%string;;
  reg ← on_net "Registration failed: " (register x username password);
  kek ← lift_desk (desktop_kek password (rr_kdf_salt reg));
  let sealed := encrypt (dr_nonce_mnemonic x) kek nil_uuid 0 (utf8 (rr_recovery_mnemonic reg)) in
  let sealed_b64 := match sealed with Ok s => Some (b64_encode s) | Err _ => None end in
  save_config (mkConfig username (b64_encode (rr_kdf_salt reg)) true sealed_b64);;
  l ← on_net "Login after register failed: " (login r1 r2 username password);
  continue_login w l password.

Definition do_login (w : World W) (r1 r2 : blob) (username password : string) : desk Screen :=
  guard_err (bool_decide (username = ""%string) || bool_decide (password = ""%string)) "Username and password are required."%string;;
  c ← gets dv_config;
  ok_or "No local KDF salt found. Please register first."%string (local_salt c);;
  l ← on_net "Login failed: " (login r1 r2 username password);
  continue_login w l password.

Definition do_complete_login_mfa (w : World W) (password code : string) : desk (option Screen) :=
  p ← gets dv_pending;
  match p with
  | None => mret None
  | Some mfa =>
      guard_err (bool_decide (str_trim code = ""%string)) "Enter the 6-digit code from your authenticator app."%string;;
      c ← gets dv_config;
      ok_or "No local KDF salt found. Please register first."%string (local_salt c);;
      l ← on_net "TOTP verification failed: " (complete_login_totp (mc_pending_token mfa) (str_trim code));
      s ← continue_login w l password; mret (Some s)
  end.

(** [do_restore]: the saved token and wrapped key, without asking the server. *)
Definition do_restore (w : World W) (password : string) : desk Opened :=
  s ← gets dv_session;
  s ← ok_or "No saved session to restore."%string s;
  guard_err (bool_decide (password = ""%string)) "Enter your password to unlock the saved session."%string;;
  c ← gets dv_config;
  salt ← ok_or "No local KDF salt found. Please log in again."%string (local_salt c);
  wrapped ← ok_or "Saved session is corrupt. Please log in again."%string (b64_decode (ps_wrapped_svk_b64 s));
  kek ← lift_desk (desktop_kek password salt);
  dek ← lift_desk (desktop_dek kek wrapped);
  '(w, items) ← lift_desk (unlock_client w password salt wrapped (Z.max 1 (ps_min_enc_key_gen s)));
  mret (mkOpened w dek (ps_token s) None items).
End Open.
End Desktop.

(** ** The exchanges *)
Section Exchanges.
Context {EXT : Ext} {WA : WebauthnRs} {CEXT : CryptoExt} {OC : OpaqueClient}.

Lemma send_ok {A B} what (m : Env → handler A) (k : A → result string B) n n' b :
  send_json what m k n = (n', Ok b) →
  ∃ t ts d' a, net_script n = t :: ts ∧ m (t_env t) (history (t_before t) (net_db n)) = (d', Ok a) ∧ k a = Ok b ∧
    n' = mkNet d' (net_token n) ts (net_served n).
Proof.
  unfold send_json. destruct (net_script n) as [|t ts]; [done|].
  destruct (decide (t_fault t = RequestLost)); [done|].
  destruct (m (t_env t) (history (t_before t) (net_db n))) as [d' r] eqn:Hm.
  destruct (decide (t_fault t = ResponseLost)); [done|]. destruct r as [a|e]; [|done].
  destruct (k a) as [b'|] eqn:Hk; [|done]. intros [= <- <-]. exists t, ts, d', a. done.
Qed.

(** A turn on which nobody else is served. *)
Definition prompt (t : Turn) : Prop := t_before t = [] ∧ t_fault t = Delivered.

Lemma send_delivered {A B} what (m : Env → handler A) (k : A → result string B) n t ts d' a b :
  net_script n = t :: ts → t_fault t = Delivered → m (t_env t) (history (t_before t) (net_db n)) = (d', Ok a) → k a = Ok b →
  send_json what m k n = (mkNet d' (net_token n) ts (net_served n), Ok b).
Proof. intros Hn Hf Hm Hk. unfold send_json. rewrite Hn, Hf, Hm. cbn. by rewrite Hk. Qed.

Lemma or_fail_ok {E A} what (r : result E A) n n' a : or_fail what r n = (n', Ok a) → n' = n ∧ r = Ok a.
Proof. unfold or_fail. destruct r; [|done]. by intros [= <- <-]. Qed.
Lemma decoded_ok what s n n' b : decoded what s n = (n', Ok b) → n' = n ∧ b64_decode s = Some b.
Proof. unfold decoded, ok_or. destruct (b64_decode s); [|done]. by intros [= <- <-]. Qed.

(** What a registration leaves on the server. *)
Lemma register_done `{!ExtLaws} x name pw n n' reg :
  register x name pw n = (n', Ok reg) →
  ∃ mk wrapped setup u uid, derive_master_key pw (dr_salt x) = Ok mk ∧
    wrap_svk (dr_nonce x) (derive_kek mk) (dr_svk x) = Ok wrapped ∧
    Handshake setup (u_opaque_record u) pw (utf8 name) ∧
    users (net_db n') !! uid = Some u ∧ u_svk_ciphertext_blob u = wrapped ∧
    reg = mkRegisterResult (dr_salt x) (bip39_generate (dr_entropy x)).
Proof.
  unfold register. intros Hr. apply bind_ok in Hr as (? & mk & [-> Hmk]%or_fail_ok & Hr).
  apply bind_ok in Hr as (? & wrapped & [-> Hw]%or_fail_ok & Hr). apply bind_ok in Hr as (? & ph & [-> Hph]%or_fail_ok & Hr).
  apply bind_ok in Hr as (? & wrk & [-> _]%or_fail_ok & Hr). apply bind_ok in Hr as (? & [cst creq] & [-> Hc1]%or_fail_ok & Hr).
  apply bind_ok in Hr as (n1 & started & Hs1 & Hr). apply bind_ok in Hr as (? & sresp & [-> Hsr]%decoded_ok & Hr).
  apply bind_ok in Hr as (? & [[upload ek] st] & [-> Hc2]%or_fail_ok & Hr). apply bind_ok in Hr as (n2 & fin & Hs2 & [= <- <-]).
  apply send_ok in Hs1 as (t1 & ts & d1 & a & _ & Hs1 & [= ->] & ->). apply send_ok in Hs2 as (t2 & ts2 & d2 & a2 & _ & Hs2 & [= ->] & ->).
  apply register_start_ok in Hs1 as (setup & creq' & sresp' & _ & Hcreq & Hos & Hresp). cbn [rgs_start rgs_username] in *.
  rewrite b64_roundtrip in Hcreq. injection Hcreq as <-. rewrite Hresp, b64_roundtrip in Hsr. injection Hsr as ->.
  apply register_finish_ok in Hs2 as (up & record & u & Hup & Hor & Hu & Hrec & Hsvk). cbn [rgf_finish rgf_svk] in *.
  rewrite b64_roundtrip in Hup, Hsvk. injection Hup as <-. injection Hsvk as Hsvk.
  exists mk, wrapped, setup, u, (rgf_user_id fin). split_and!; try done. constructor.
  unfold AuthState.registration_start, AuthState.registration_finish, AuthState.protocol_err in *.
  destruct (client_register_start (dr_opaque_start x) pw) as [[msg sta]|] eqn:E1; [|done]. injection Hc1 as -> ->.
  destruct (client_register_finish (dr_opaque_finish x) cst sresp pw (utf8 name)) as [[up' ek']|] eqn:E2; [|done].
  injection Hc2 as -> -> _. exists (dr_opaque_start x), creq, cst, sresp, (dr_opaque_finish x), upload, ek.
  by rewrite Hrec.
Qed.

(** An account that a password alone signs in to. *)
Record signs_in (name : string) (ρ : Env) (setup : blob) (row : UserRow) (d : Db) : Prop := mkSignsIn {
  si_account : account_of name d = Some row;
  si_row : users d !! u_id row = Some row;
  si_active : u_suspended_until row = None;
  si_totp : mfa_totp_secrets d !! u_id row = None;
  si_passkey : has_passkey (u_id row) d = false;
  si_policy : mp_required (policy_in_force d) = false;
  si_setup : server_setup ρ 0 d = (d, Ok setup) }.

Definition factors (d : Db) := (mfa_policy d, webauthn_credentials d).
Lemma login_finish_factors ρ req : steps (same factors) (Auth.login_finish ρ req).
Proof. steps_crawl ltac:(idtac; reflexivity). Qed.

Lemma login_session_valid ρ token u row d d' now :
  sessions d' = login_sessions ρ token u d → users d' !! u = Some row → u_suspended_until row = None →
  now ≤ now_ms ρ + 86400000 → session_valid d' now token u.
Proof.
  intros Hs Hu Hsus Hn. eexists. split; [|split; [|split]].
  - rewrite Hs. apply map_lookup_filter_Some. split; [by rewrite lookup_insert_eq|].
    apply bool_decide_eq_false. simpl. lia.
  - done.
  - simpl. lia.
  - intros u0 until Hu0. congruence.
Qed.

Lemma account_status_run ρ token uid row d :
  session_valid d (now_ms ρ) token uid → users d !! uid = Some row → has_passkey uid d = false →
  mp_required (policy_in_force d) = false →
  Account.account_status ρ token d =
    (d, Ok (mkAccountStatus (u_min_enc_key_gen row) (b64_encode (u_svk_ciphertext_blob row)) false None uid)).
Proof.
  intros Hv Hu Hp Hm. unfold Account.account_status, get_user_by_id, webauthn_has_credentials, is_second_factor_satisfied, mfa_get_policy.
  rewrite (auth_user_ok_bind ρ token uid) by done. run_calls. rewrite Hu. run_calls.
  unfold has_passkey in Hp. rewrite Hp. cbn [andb]. run_calls. unfold policy_in_force in Hm. rewrite Hm. by run_calls.
Qed.

(** A login that nothing comes in between. *)
Lemma login_completes `{!ExtLaws, !OpaqueLaws} r1 r2 name pw n t1 t2 t3 ts setup row lreq lst sresp st :
  net_script n = t1 :: t2 :: t3 :: ts → t_fault t1 = Delivered → prompt t2 → prompt t3 →
  now_ms (t_env t3) ≤ now_ms (t_env t2) + 86400000 →
  let d := history (t_before t1) (net_db n) in
  signs_in name (t_env t1) setup row d → Handshake setup (u_opaque_record row) pw (utf8 name) →
  client_login_start r1 pw = Some (lreq, lst) →
  opaque_login_start (rand (t_env t1) 1) setup (Some (u_opaque_record row)) lreq (utf8 name) = Some (sresp, st) →
  ∃ token d', login r1 r2 name pw n =
    (mkNet d' (net_token n) ts (net_served n),
     Ok (mkLoginResult (Some token) (u_svk_ciphertext_blob row) (as_u64 (u_min_enc_key_gen row)) None)) ∧
    session_valid d' (now_ms (t_env t3)) token (u_id row).
Proof.
  intros Hn Hf1 [Hb2 Hf2] [Hb3 Hf3] Hnow d [Hacc Hrow Hsus Hts Hpk Hpol Hset] Hh Hc1 Hos.
  destruct (opaque_correct setup (u_opaque_record row) pw (utf8 name) r1 lreq lst (rand (t_env t1) 1) sresp st r2 Hh Hc1 Hos)
    as (lup & key & Hlc & Hls).
  destruct (Auth.login_start (t_env t1) (mkLoginStart name (b64_encode lreq)) d) as [d1 rs] eqn:Hls1.
  assert (∃ ls, rs = Ok ls ∧ ls_response ls = b64_encode sresp) as (ls & -> & Hresp).
  { revert Hls1. unfold Auth.login_start, decode_b64. rewrite bind_run, Hset. cbv beta iota. run_next.
    rewrite get_user_by_email_run. cbn [ls_username ls_start]. rewrite Hacc. run_calls. rewrite b64_roundtrip. run_next.
    change (Auth.utf8 name) with (utf8 name). rewrite Hos. run_next. intros [= _ <-]. by eexists. }
  destruct (login_start_ok _ _ _ _ _ _ Hset Hls1) as (v & lreq' & sresp' & st' & now & Hv & Hl & Hol & Hlr & _ & Hst & f & ->).
  cbn [ls_username ls_start] in *. assert (v = row) as -> by congruence.
  rewrite b64_roundtrip in Hl. injection Hl as <-. change (Auth.utf8 name) with (utf8 name) in Hol.
  rewrite Hos in Hol. injection Hol as <- <-.
  destruct (login_finish_session (t_env t2) (mkLoginFinish name (b64_encode lup) None) (with_login_state f d) row
    (st, now) lup key) as (d2 & Hf & Hs & Hus); try done.
  { apply b64_roundtrip. }
  { apply bool_decide_eq_true. by exists row. }
  pose proof (login_finish_factors (t_env t2) (mkLoginFinish name (b64_encode lup) None) (with_login_state f d)) as Hfac.
  rewrite Hf in Hfac. assert (mfa_policy d2 = mfa_policy d ∧ webauthn_credentials d2 = webauthn_credentials d) as [Ep Ec].
  { unfold same, factors in Hfac. cbn [fst] in Hfac. injection Hfac as -> ->. done. }
  assert (users d2 !! u_id row = Some row) as Hrow2 by (rewrite Hus; exact Hrow).
  assert (session_valid d2 (now_ms (t_env t3)) (b64_encode key) (u_id row)) as Hsv by (by eapply login_session_valid).
  exists (b64_encode key), d2. split; [|exact Hsv].
  assert (AuthState.login_start r1 pw = Ok (lst, lreq)) as Has by (unfold AuthState.login_start; by rewrite Hc1).
  assert (AuthState.login_finish r2 lst sresp pw (utf8 name) = Ok (lup, key, AuthState.Authenticated)) as Haf
    by (unfold AuthState.login_finish; by rewrite Hlc).
  unfold login, or_fail. rewrite Has. run_next. rewrite (send_delivered _ _ _ _ t1 _ (with_login_state f d) ls ls) by done. cbv beta iota.
  unfold decoded at 1. rewrite Hresp, b64_roundtrip. run_next. rewrite Haf. run_next.
  assert (∀ m, net_script m = t2 :: t3 :: ts → net_db m = with_login_state f d →
    send_json "login/finish" (λ ρ, Auth.login_finish ρ (mkLoginFinish name (b64_encode lup) None)) login_finish_body m =
    (mkNet d2 (net_token m) (t3 :: ts) (net_served m), Ok (Some (b64_encode key), now_ms (t_env t2) + 86400000, None))) as Hfin.
  { intros m Hm Hd. eapply send_delivered; [exact Hm | exact Hf2 | rewrite Hb2, Hd; exact Hf | done]. }
  rewrite Hfin by done. cbv beta iota. run_next. unfold fetch_wrapped.
  assert (∀ m, net_script m = t3 :: ts → net_db m = d2 →
    send_json "account/status" (λ ρ, Account.account_status ρ (b64_encode key)) Ok m =
    (mkNet d2 (net_token m) ts (net_served m),
     Ok (mkAccountStatus (u_min_enc_key_gen row) (b64_encode (u_svk_ciphertext_blob row)) false None (u_id row)))) as Hsta.
  { intros m Hm Hd. eapply send_delivered; [exact Hm | exact Hf3 | rewrite Hb3, Hd | done]. cbn. apply account_status_run; [done..| |].
    - unfold has_passkey in *. by rewrite Ec.
    - unfold policy_in_force in *. by rewrite Ep. }
  run_next. rewrite Hsta by done. cbv beta iota. unfold decoded. cbn [as_svk_ciphertext_blob]. rewrite b64_roundtrip. by run_next.
Qed.
End Exchanges.

(** ** Opening *)
Section Opening.
Context {EXT : Ext} {WA : WebauthnRs} {CEXT : CryptoExt} {VEXT : VaultExt} {OC : OpaqueClient}.
Context {W : Type} {TR : Transport W} (fts : Local → string → list DecryptedOverview).

(** The key a registration wrapped opens, in the view and in the client. *)
Lemma unlock_client_opens `{!CryptoLaws} nonce pw salt mk svk wrapped g (w w1 : World W) :
  length nonce = NONCE_LEN → length svk = 32%nat → derive_master_key pw salt = Ok mk →
  wrap_svk nonce (derive_kek mk) svk = Ok wrapped →
  (discover_second_factor;; second_factor_gate) w = (w1, Ok ()) →
  desktop_dek (derive_kek mk) wrapped = Ok (derive_dek svk) ∧
  ∃ w' items, unlock_client fts w pw salt wrapped g = Ok (w', items) ∧
    c_keys (client w') = mkKeys (Some svk) (Some (derive_dek svk)) (Some mk) g false.
Proof.
  intros Hn Hs Hmk Hw Hgate. pose proof (decrypt_encrypt _ _ _ _ _ _ Hn Hw) as Hd. split.
  { unfold desktop_dek. rewrite Hd. by rewrite bool_decide_false by (intros Hne; by apply Hne). }
  assert (unlock_checks pw salt wrapped nil_uuid w = (w1, Ok (mk, svk))) as Hch.
  { revert Hgate. unfold unlock_checks. rewrite !bind_run.
    destruct (discover_second_factor w) as [w0 [[]|e]]; [|done]. cbv beta iota. rewrite bind_run.
    intros ->. unfold try_crypto, unwrap_svk, or_msg. rewrite Hmk. run_next. rewrite Hd. run_next.
    by rewrite bool_decide_false by (intros Hne; by apply Hne). }
  unfold unlock_client. rewrite unlock_password_run, Hch. unfold search.
  rewrite bool_decide_true by reflexivity. unfold recent_overviews. rewrite read_db_run.
  eexists _, _. split; [reflexivity|]. done.
Qed.

(** An account made on the desktop opens there again: whatever the server was
    asked since, as long as the account still has the credentials it registered
    and no second factor, on a device with the salt of the registration a login
    whose exchanges are delivered ends in the open vault, under the keys made at
    the registration. *)
Lemma desktop_account_opens `{!ExtLaws, !OpaqueLaws, !CryptoLaws} x name pw n n' reg :
  register x name pw n = (n', Ok reg) → name ≠ ""%string → pw ≠ ""%string →
  length (dr_salt x) = 32%nat → length (dr_nonce x) = NONCE_LEN → length (dr_svk x) = 32%nat →
  ∃ mk setup uid u, derive_master_key pw (dr_salt x) = Ok mk ∧ users (net_db n') !! uid = Some u ∧
  ∀ v (w w1 : World W) r1 r2 t1 t2 t3 ts row lreq lst sresp st auto sealed,
    dv_config v = Some (mkConfig name (b64_encode (rr_kdf_salt reg)) auto sealed) →
    net_script (dv_net v) = t1 :: t2 :: t3 :: ts → t_fault t1 = Delivered → prompt t2 → prompt t3 →
    now_ms (t_env t3) ≤ now_ms (t_env t2) + 86400000 →
    signs_in name (t_env t1) setup row (history (t_before t1) (net_db (dv_net v))) →
    u_opaque_record row = u_opaque_record u → u_svk_ciphertext_blob row = u_svk_ciphertext_blob u →
    client_login_start r1 pw = Some (lreq, lst) →
    opaque_login_start (rand (t_env t1) 1) setup (Some (u_opaque_record row)) lreq (utf8 name) = Some (sresp, st) →
    (discover_second_factor;; second_factor_gate) w = (w1, Ok ()) →
    ∃ v' o token, do_login fts w r1 r2 name pw v = (v', Ok (Unlocked o)) ∧
      op_token o = token ∧ session_valid (net_db (dv_net v')) (now_ms (t_env t3)) token (u_id row) ∧
      op_dek o = derive_dek (dr_svk x) ∧
      c_keys (client (op_client o)) =
        mkKeys (Some (dr_svk x)) (Some (derive_dek (dr_svk x))) (Some mk) (Z.max 1 (as_u64 (u_min_enc_key_gen row))) false.
Proof.
  intros Hr Hname Hpw Hsalt Hnonce Hsvk.
  destruct (register_done _ _ _ _ _ _ Hr) as (mk & wrapped & setup & u & uid & Hmk & Hwrap & Hh & Hu & Hblob & ->).
  exists mk, setup, uid, u. split; [done|]. split; [done|].
  intros v w w1 r1 r2 t1 t2 t3 ts row lreq lst sresp st auto sealed Hcfg Hscr Hf1 Hp2 Hp3 Hnow Hsi Hrec Hsb Hc1 Hos Hgate.
  assert (Handshake setup (u_opaque_record row) pw (utf8 name)) as Hh' by (by rewrite Hrec).
  destruct (login_completes r1 r2 name pw (dv_net v) t1 t2 t3 ts setup row lreq lst sresp st)
    as (token & d' & Hlog & Hsess); [done..|].
  destruct (unlock_client_opens (dr_nonce x) pw (dr_salt x) mk (dr_svk x) wrapped
    (Z.max 1 (as_u64 (u_min_enc_key_gen row))) w w1) as (Hdek & w' & items & Hun & Hkeys); [done..|].
  assert (local_salt (dv_config v) = Some (dr_salt x)) as Hls.
  { rewrite Hcfg. unfold local_salt, kdf_salt_bytes. cbn [mbind option_bind vc_kdf_salt_b64 rr_kdf_salt].
    rewrite b64_roundtrip. by rewrite bool_decide_false by (intros Hne; by apply Hne). }
  unfold do_login. rewrite !(bool_decide_false (_ = ""%string)) by done. cbn [orb]. run_next.
  rewrite Hls. cbv beta iota. unfold on_net. rewrite Hlog. cbn [map_res]. cbv beta iota.
  unfold continue_login, apply_login, lift_desk. cbn [lr_mfa_required lr_session_token]. run_next.
  cbn [dv_config]. rewrite Hls. run_next. unfold desktop_kek. rewrite Hmk. run_next.
  cbn [lr_wrapped_svk lr_min_enc_key_gen]. rewrite Hsb, Hblob, Hdek. run_next. rewrite Hun. run_next.
  unfold set_pending, save_session. run_next. eexists _, _, token. split; [reflexivity|]. by destruct v as [? ? ? ? []].
Qed.

(** A login the server answers with a challenge is not read: the answer has no
    expiry, and the desktop wants one. *)
Lemma challenge_without_expiry ρ req d d' resp :
  Auth.login_finish ρ req d = (d', Ok resp) → is_Some (lf_mfa_required resp) → lf_expires_at resp = None.
Proof.
  unfold Auth.login_finish. intros Hr [c Hc]. apply bind_ok in Hr as (d1 & [user|] & _ & Hr).
  2: { by apply bind_ok in Hr as (? & ? & _ & Hr). }
  apply bind_ok in Hr as (? & up & _ & Hr). apply bind_ok in Hr as (? & o & _ & Hr).
  apply bind_ok in Hr as (? & st & _ & Hr). apply bind_ok in Hr as (? & fin & _ & Hr).
  apply bind_ok in Hr as (? & [] & _ & Hr). apply bind_ok in Hr as (? & [] & _ & Hr).
  - apply bind_ok in Hr as (? & ? & _ & Hr). apply bind_ok in Hr as (? & ? & _ & [= _ <-]). done.
  - apply bind_ok in Hr as (? & ? & _ & Hr). apply bind_ok in Hr as (? & ? & _ & Hr).
    apply bind_ok in Hr as (? & ? & _ & [= _ <-]). done.
Qed.

(** So no login of the desktop ever asks for a code, and an account with a second
    factor cannot be opened there. *)
Lemma desktop_never_awaits_code w r1 r2 name pw v v' :
  do_login fts w r1 r2 name pw v ≠ (v', Ok AwaitsCode).
Proof.
  assert (∀ n n' l, login r1 r2 name pw n = (n', Ok l) → lr_mfa_required l = None) as Hl.
  { intros n n' l. unfold login. intros Hr. apply bind_ok in Hr as (? & [? ?] & _ & Hr).
    apply bind_ok in Hr as (? & ? & _ & Hr). apply bind_ok in Hr as (? & ? & _ & Hr).
    apply bind_ok in Hr as (? & [[? ?] ?] & _ & Hr). apply bind_ok in Hr as (n2 & [[tok e] [c|]] & Hs & Hr).
    - apply send_ok in Hs as (t & ts & d' & a & _ & Hf & Hk & _). unfold login_finish_body in Hk.
      destruct (lf_expires_at a) eqn:He; [|done]. injection Hk as _ _ Hm.
      apply challenge_without_expiry in Hf; [congruence | by rewrite Hm].
    - apply bind_ok in Hr as (? & ? & _ & Hr). unfold fetch_wrapped in Hr.
      apply bind_ok in Hr as (? & ? & _ & Hr). by apply bind_ok in Hr as (? & ? & _ & [= _ <-]). }
  unfold do_login. intros Hr. apply bind_ok in Hr as (? & ? & _ & Hr). apply bind_ok in Hr as (? & ? & _ & Hr).
  apply bind_ok in Hr as (? & ? & _ & Hr). apply bind_ok in Hr as (v1 & l & Hlog & Hr).
  unfold on_net in Hlog. destruct (login r1 r2 name pw (dv_net _)) as [n' [l'|e]] eqn:Hlg; [|done].
  injection Hlog as _ <-. apply Hl in Hlg. unfold continue_login in Hr. rewrite Hlg in Hr.
  by apply bind_ok in Hr as (? & ? & _ & [= _ Hx]).
Qed.
End Opening.

(** ** A key wrapped again *)
Section Rewrapped.
#[local] Existing Instances Concrete.toy_ext toy_crypto toy_vault.

(** A login in the browser wraps the vault key again, bound to the id of the
    account, and gives it to the server; the desktop only ever opens it under the
    nil id. *)
Definition desk_mk : blob := got (derive_master_key "mp" (replicate 32 x02)).
Definition wrapped_under (uid : Uuid) : blob := got (encrypt (replicate 24 x03) (derive_kek desk_mk) uid 0 (replicate 32 x07)).

Example rewrapped_key_not_read :
  desktop_dek (derive_kek desk_mk) (wrapped_under nil_uuid) = Ok (derive_dek (replicate 32 x07)) ∧
  desktop_dek (derive_kek desk_mk) (wrapped_under "alice") = Err "DEK derive: SVK unwrap failed"%string.
Proof. split; vm_compute; reflexivity. Qed.
End Rewrapped.
